(* ===== verification/_CoqProject ===== *)
-Q . S2P
Prelude.v
Digest.v
Byteorder.v
Ntstatus.v
Md4.v
Md5.v
Sha1.v
Hmac.v
Arcfour.v
Crc32.v
Des.v
Session.v
Credentials.v
Iconv.v
Charcnv.v
Unistr.v
Msrpc.v
Ntlmssp.v
NtlmsspSign.v
Time.v
Pushstring.v
Smbencrypt.v
NtlmCheck.v
CliCredentials.v
CredNtlm.v
StrList.v
Auth.v
AuthSam.v
NtlmsspExchange.v
NtlmsspMessages.v
Handshake.v
NtlmsspLogin.v
Cnum.v
DomSid.v
Security.v
AccessCheck.v
Asn1.v
Asn1Codec.v
Asn1Safe.v
Spnego.v
SpnegoSafe.v
Gensec.v
SpnegoUpdate.v
SpnegoSession.v
SpnegoCarries.v
NtlmsspMech.v
Ndr.v
NdrPull.v
NdrPush.v
NdrWire.v
NdrSafe.v
NdrString.v
NdrText.v
Cim.v
CimWire.v
NdrLoops.v
Errormap.v
Wbemdata.v
WbemEnum.v
Wmic.v
WbemObject.v
WbemCopy.v
WbemSession.v
Schannel.v
SmbSigning.v
NbtName.v
NbtSafe.v
NbtWire.v
NbtWins.v
Idtree.v
IdtreeMap.v
Fnmatch.v
FnmatchSpec.v
