(* ===== verification/Prelude.v ===== *)
(** * Authentication, marshalling and the WMI client of wmic

    The repository is a WMI client built on a Samba 4 source tree (src/Samba/source).
    This library models two parts of that tree.  One decides who is let in and what is
    then signed and sealed: the digests and ciphers, the character sets, the NTLM
    hashes and responses, the NTLMSSP exchange with both of its ends, the server's
    authentication methods, the netlogon credential chain, the tokens of SPNEGO, security
    identifiers, descriptors and access checks, the secure channel of netlogon, the signatures
    of SMB packets, and the utilities these call.  The other carries a query's
    answer to the screen: NDR, the CIM objects marshalled in it, the objects and
    enumerations of the WMI library, and the printing of wmic itself; and beside it the names of NetBIOS,
    the tree that gives numbers to requests and the matching of names.  Paths below are
    relative to src/Samba/source.

    ** The parts and how they interact

    A client's credentials (CliCredentials) produce a response to a challenge (CredNtlm,
    over Smbencrypt).  NTLMSSP carries challenge and response in four messages, built
    and read by Msrpc and handled by NtlmsspExchange; the dispatch of a message and the
    negotiation of flags are in Ntlmssp.  The server's handler draws its challenge from,
    and puts its verdict to, an authentication context (Auth), whose methods (AuthSam)
    look an account up and check the response with NtlmCheck.  Both ends then hold a
    session key, from which NtlmsspSign derives the state that signs and seals packets.
    Strings cross the wire through Charcnv, Unistr and Pushstring over the converters of
    Iconv; everything rests on the digests (Md4, Md5, Sha1), Hmac, Arcfour, Des and Crc32.
    GENSEC (Gensec) holds the registered mechanisms and calls the one a context runs;
    SPNEGO (SpnegoUpdate) is the state machine that agrees on one with the other side and
    carries its tokens in its own, which Spnego writes and reads through the one state of
    Asn1.  NtlmsspMech makes NTLMSSP such a mechanism, which puts the parts together.  Who may do what is decided by
    AccessCheck, from a token and a descriptor of Security, which name their subjects by
    the identifiers of DomSid.  Schannel is another mechanism of GENSEC, which protects packets with the key of
    the netlogon chain (Credentials); SmbSigning signs the packets of SMB itself with the
    key that a session setup leaves.

    A program that queries WMI (Wmic) fetches batches of objects from an enumeration
    (WbemEnum), which asks the server for the next bytes, keeps the classes it has seen by
    the identifier they were sent with, and unmarshals each object against its class.  The
    objects and what a program does with one (properties by name, instances of a class,
    copies) are in Wbemdata.  An object is one blob of the CIM format (Cim), read
    and written with the calls of NdrPull, NdrPush and NdrString on the shared state of Ndr.
    A call that fails reports a status, which Errormap turns into the names that are shown.

    - Prelude: machine words, byte lists, list lemmas, the tactics and hint bases.
    - Digest: the Merkle-Damgard construction, and the interface [StreamHash] that the
      HMACs are proved against and that Md5 and Sha1 implement.
    - Ntstatus: libcli/util/ntstatus.h; the results [outcome] (a value or a fault) and
      the interface [Allocator].
    - Byteorder: lib/util/byteorder.h.
    - Md4, Md5, Sha1, Hmac, Arcfour, Crc32: lib/crypto.
    - Des: libcli/auth/smbdes.c.   Session: libcli/auth/session.c.
    - Credentials: libcli/auth/credentials.c, the netlogon chain.
    - Iconv, Charcnv, Pushstring, Unistr: lib/charset/iconv.c, charcnv.c, util_unistr.c.
    - Time: lib/util/time.c and lib/replace/timegm.c.
    - StrList: lib/util/util_strlist.c.
    - Smbencrypt: libcli/auth/smbencrypt.c.   NtlmCheck: auth/ntlm_check.c.
    - CliCredentials, CredNtlm: auth/credentials/credentials.c and credentials_ntlm.c.
    - Msrpc, Ntlmssp, NtlmsspSign, NtlmsspExchange: auth/ntlmssp/ntlmssp_parse.c,
      ntlmssp.c, ntlmssp_sign.c, ntlmssp_client.c and ntlmssp_server.c.
    - Auth, AuthSam: auth/auth.c, auth_util.c, auth_sam.c, auth_anonymous.c, sam.c.
    - NtlmsspMessages, Handshake, NtlmsspLogin: proofs only, the exchange from end to
      end.
    - Cnum: strtol, strtoul, %u and snprintf of the C library.
    - DomSid: libcli/security/dom_sid.c.   Security: libcli/security/privilege.c,
      security_token.c, security_descriptor.c.   AccessCheck: access_check.c there.
    - Asn1: libcli/util/asn1.c, with the state and the calls on it as a monad [M] of its
      own, and what the writer emits.   Asn1Codec, Asn1Safe: proofs only, reading what was
      written ([emits], [parses]) and reading anything ([safe]).
    - Spnego: auth/gensec/spnego_parse.c.   SpnegoSafe: its reader on arbitrary bytes.
    - Gensec: auth/gensec/gensec.c.   SpnegoUpdate: auth/gensec/spnego.c.   SpnegoSession,
      SpnegoCarries: proofs only, what success means at either end, and that two ends
      carry a mechanism to it.
    - NtlmsspMech: the table at the end of auth/ntlmssp/ntlmssp.c.
    - Ndr, NdrPull, NdrPush: librpc/ndr/libndr.h, ndr.c and ndr_basic.c, with calls that
      return a status over a state as a monad of their own.   NdrString: ndr_string.c there.
      NdrWire, NdrSafe, NdrText, NdrLoops: proofs only, the bytes of each type and string,
      reading from inside the data, and the loops that the data ends.
    - Cim: librpc/ndr/ndr_dcom.c with librpc/idl/dcom_wmi.inc.   CimWire: proofs only.
    - Errormap: libcli/util/errormap.c, doserr.c, and the names of errors in wmi/wmicore.c.
    - Schannel: auth/gensec/schannel_sign.c and schannel.c.   SmbSigning:
      libcli/raw/smb_signing.c and smb_server/smb/signing.c.
    - NbtName: libcli/nbt/nbtname.c.   NbtSafe, NbtWire, NbtWins: proofs only, names from
      arbitrary bytes, names in a packet, and names of WINS replication.
    - Idtree: lib/util/idtree.c.   IdtreeMap: proofs only, the tree as a finite map.
    - Fnmatch: lib/util/ms_fnmatch.c.   FnmatchSpec: proofs only, wildcards as a relation.
    - Wbemdata, WbemEnum: wmi/wbemdata.c, objects and enumerations.   Wmic: wmi/wmic.c.
      WbemObject, WbemCopy, WbemSession: proofs only, properties as a map, copies, and a
      whole enumeration from its first batch to its last.

    ** State, errors and memory

    A C structure is a Record with the code's field names; a function that writes through
    a pointer returns the new value.  Unsigned words are integers in range, wrapped where
    the code can leave it (Prelude).  A buffer is the list of its bytes: [splice] writes
    into it and [slice] reads from it, and a read or write that the C code would do out
    of bounds, through a null or a freed pointer, or of an uninitialised value, is
    [Fault]; a theorem that gives a result [Ret _] thus also says that the code stays in
    bounds.  A failed allocation is an input: [Allocator] says which allocation of a call
    succeeds ([later n] renumbers those that follow) and what fresh memory holds, and
    [malloc_always] is the hypothesis that all do.  A NULL or uninitialised string is a
    value of its own ([cstr]), a blob whose parent was freed is [Freed].  The host's byte
    order is the class [Host].

    The configuration (the lp_ functions), the case tables, the C library's iconv, the account
    database, gethostname, the clock and the random bytes are parameters: the classes
    [Charsets], [CaseTables], [AuthPolicy], [LoadParm], [SamDb] and arguments of the
    functions.  The marshalling that the build generates from the interface files is the
    classes [Pidl], [GuidNdr] and [SchannelNdr], and the far side of the remote calls of an enumeration the
    record [server].  Hypotheses on them state what the code relies on (the unix charset is
    UTF-8, case folding keeps scalar values, a host name is ASCII) and each theorem has a
    witness with a concrete instance.

    ** What the theorems show

    - The exchange ([NtlmsspLogin.ntlmssp_handshake]): client and server always finish,
      agree on flags and key, and leave a session in which
      ([NtlmsspSign.ntlmssp_session_delivers]) every packet is accepted in order and
      unsealed to what was sent; replays are refused, errors have their status, and no
      security flag survives that one side did not offer.
    - The login ([NtlmsspMech.spnego_ntlmssp_login]): the same over SPNEGO, from
      [SpnegoCarries.spnego_carries], which holds of any mechanism.  Against any peer,
      [SpnegoSession.server_accepts] and [SpnegoSession.client_accepts]: success is the
      mechanism's own; [SpnegoSession.client_accepts_unfinished] is the exception.
      [Gensec.mechanism_lists]: which mechanisms can be agreed on.
    - The verdict: [NtlmCheck.ntlm_password_check_v2_only] (no downgrade),
      [Auth.auth_challenge_is_fixed], [AuthSam.authsam_account_ok_decides] (with the
      inverted workstation test), [Smbencrypt.ntlmv2_responses] and the password hashes.
    - Access: [AccessCheck.sec_access_check_decides] is the first entry that mentions a
      bit, [AccessCheck.maximum_allowed] shows the holes of the maximum; descriptors stay
      well formed, and identifiers round-trip through their string.
    - Tokens: [Asn1Codec.asn1_values_roundtrip] and [Spnego.spnego_roundtrip];
      [Asn1Safe.asn1_reader_in_bounds] and [SpnegoSafe.spnego_answer_in_bounds] for
      arbitrary bytes.
    - The netlogon chain stays in step over any number of calls and decrypts what it
      encrypts.
    - Packets: [Schannel.schannel_session_delivers] from the bind on, and
      [Schannel.schannel_signature_fits] of any signature at any time;
      [SmbSigning.smb_signing_in_step], a step relation of client, server and what is
      between them, and [SmbSigning.signing_stays_on].
    - Names: [NbtWire.nbt_names_roundtrip] with their pointers, [NbtWins.wins_names_roundtrip]
      but for the first byte of a scope, and [NbtSafe.nbt_names_in_bounds] on arbitrary bytes.
    - Containers: [IdtreeMap.ids_refine_map], an id tree is a finite map whichever
      allocations fail, with [IdtreeMap.ids_misplaced] for the search from a number that is
      taken; [FnmatchSpec.wildcards_decided], the matcher decides the relation [wild], with
      [FnmatchSpec.overlong_star] for what is not UTF-8.
    - Messages round-trip, and the parser reads only inside its message.
    - The digests refine their RFCs and FIPS 180-1 for any chunking; HMAC refines RFC
      2104; RC4, DES, the session-key blobs and the password buffers invert; the CRC
      table is the polynomial's.
    - Marshalling: [NdrSafe.ndr_basic_roundtrip], [NdrText.ndr_string_roundtrip],
      [CimWire.cimstrings_roundtrip] and [CimWire.qualifier_names_roundtrip] read back what
      was written; [NdrSafe.ndr_pull_in_bounds] and [CimWire.data_with_stack_confined] hold of
      arbitrary bytes, and [NdrLoops.unmarshalling_loops_end] says that they end every loop.
    - WMI: [WbemSession.wmic_prints_all] (every object the server sent is printed, in
      order, whatever the batches), [WbemSession.enumeration_invariant] (no more objects
      than asked for, each instance with its class), [WbemObject.properties_refine_map],
      [WbemCopy.instance_copy] and [WbemCopy.copying_ends]; [Errormap.error_conversions].
    - Converters stay in their buffers on arbitrary bytes; UTF-8 and UTF-16 round-trip;
      times, DOS dates and string lists round-trip.

    ** Fuel and bounds

    Loops that the C code runs on a string or a buffer are structural recursion, or
    recursion on fuel that starts at the length of the input and faults when it runs out;
    the theorems give results, so the fuel is enough.  Where the data and not a count ends
    a loop, or an object contains others, that is a theorem of its own
    ([NdrLoops.unmarshalling_loops_end], [WbemCopy.copying_ends]).  Bounds on lengths (2^28 for MD4,
    2^61 for the other digests, 64K for a message item, 1024 for a pstring) are those of
    the code's counters and buffers; 2^24 is what the three length bytes of asn1_pop_tag
    hold, 2^28 the largest allocation of talloc, and 2^31 a length that fits an int; the
    numbers of an id tree have up to 25 bits, the most that its lookup can shift for.

    ** Not modelled

    Everything that is I/O or a server around system calls (the RPC runtime, SMB client
    and server, file systems, event loop, tdb and ldb), code carried from elsewhere
    (Heimdal, appweb), generated code (PIDL's output), bindings, tools and tests.  Planned
    and not reached: the socket layer of GENSEC, the connection to a WMI server
    (wmi/wmicore.c), wmis and the event library.  Within the parts above: the database of
    session keys of the secure channel, the printing,
    compression and IPv4 addresses of NDR, the marshalling of what WMI takes as
    arguments, the release of an enumeration, the copy of a method, the loading of case tables, UCS2-HEX, string forms of times, SDDL, Kerberos and the
    machine account of credentials, the SIDs and names of a server's user info. *)

From Stdlib Require Export ZArith Lia ZifyNat.
From stdpp Require Export base list numbers option.

#[global] Open Scope Z_scope.

(** ** Machine words *)

(** An unsigned [w]-bit integer of the C code is a [Z] in [0, 2^w); every
    operation that can leave the range wraps explicitly. *)
Definition u8 (x : Z) : Z := x mod 2 ^ 8.
Definition u16 (x : Z) : Z := x mod 2 ^ 16.
Definition u32 (x : Z) : Z := x mod 2 ^ 32.
Definition u64 (x : Z) : Z := x mod 2 ^ 64.

(** Two's complement reinterpretation of an unsigned word. *)
Definition s8 (x : Z) : Z := (x + 2 ^ 7) mod 2 ^ 8 - 2 ^ 7.
Definition s16 (x : Z) : Z := (x + 2 ^ 15) mod 2 ^ 16 - 2 ^ 15.
Definition s32 (x : Z) : Z := (x + 2 ^ 31) mod 2 ^ 32 - 2 ^ 31.
Definition s64 (x : Z) : Z := (x + 2 ^ 63) mod 2 ^ 64 - 2 ^ 63.

(** The range predicates.  [is_u 8] is the type of a byte. *)
Definition is_u (w x : Z) : Prop := 0 <= x < 2 ^ w.
Abbreviation is_byte := (is_u 8).
Abbreviation is_u16 := (is_u 16).
Abbreviation is_u32 := (is_u 32).
Abbreviation is_u64 := (is_u 64).
Abbreviation bytes := (Forall is_byte).

#[export] Instance is_u_dec w x : Decision (is_u w x).
Proof. unfold is_u. apply _. Defined.

(** [~x] on an unsigned 32-bit word. *)
Definition not32 (x : Z) : Z := Z.lxor x (Z.ones 32).
Definition add32 (x y : Z) : Z := u32 (x + y).

(** A decidable closed fact, by evaluation. *)
Ltac by_eval := match goal with |- ?P => refine (bool_decide_unpack P _) end; vm_compute; exact I.

Create HintDb word discriminated.
#[export] Hint Unfold is_u : word.

Lemma is_u_wrap w x : 0 <= w -> is_u w (x mod 2 ^ w).
Proof. intros Hw. apply Z.mod_pos_bound. lia. Qed.

Lemma u8_range x : is_byte (u8 x).
Proof. by apply is_u_wrap. Qed.
Lemma u16_range x : is_u16 (u16 x).
Proof. by apply is_u_wrap. Qed.
Lemma u32_range x : is_u32 (u32 x).
Proof. by apply is_u_wrap. Qed.
Lemma u64_range x : is_u64 (u64 x).
Proof. by apply is_u_wrap. Qed.

Lemma u8_id x : is_byte x -> u8 x = x.
Proof. apply Z.mod_small. Qed.
Lemma u16_id x : is_u16 x -> u16 x = x.
Proof. apply Z.mod_small. Qed.
Lemma u32_id x : is_u32 x -> u32 x = x.
Proof. apply Z.mod_small. Qed.
Lemma u64_id x : is_u64 x -> u64 x = x.
Proof. apply Z.mod_small. Qed.

#[export] Hint Resolve u8_range u16_range u32_range u64_range : word.

Lemma is_u_mono v w x : 0 <= v <= w -> is_u v x -> is_u w x.
Proof.
  unfold is_u. intros Hvw Hx.
  assert (2 ^ v <= 2 ^ w) by (apply Z.pow_le_mono_r; lia). lia.
Qed.

(** A word has no bit at or above its width, and conversely. *)
Lemma is_u_testbit w x i : is_u w x -> w <= i -> Z.testbit x i = false.
Proof.
  intros [H0 Hw] Hi.
  destruct (decide (0 <= w)) as [Hw0|Hw0].
  - rewrite <- (Z.mod_small x (2 ^ w)) by lia.
    by apply Z.mod_pow2_bits_high.
  - rewrite (Z.pow_neg_r 2 w) in Hw by lia. lia.
Qed.

Lemma testbit_is_u w x :
  0 <= w -> 0 <= x -> (forall i, w <= i -> Z.testbit x i = false) -> is_u w x.
Proof.
  intros Hw Hx Hbits. split; [done|].
  destruct (decide (x = 0)) as [->|Hne]; [lia|].
  apply Z.log2_lt_pow2; [lia|].
  destruct (decide (Z.log2 x < w)) as [|Hge]; [done|].
  specialize (Hbits (Z.log2 x) ltac:(lia)).
  rewrite Z.bit_log2 in Hbits by lia. done.
Qed.

Lemma is_u_land w x y : is_u w x -> 0 <= y -> is_u w (Z.land x y).
Proof.
  intros [H0 Hw] Hy. split; [apply Z.land_nonneg; lia|].
  destruct (decide (Z.land x y = 0)) as [->|]; [lia|].
  pose proof (Z.log2_land x y H0 Hy).
  destruct (decide (x = 0)) as [->|]; [rewrite Z.land_0_l; lia|].
  apply Z.log2_lt_pow2; [pose proof (Z.land_nonneg x y); lia|].
  apply Z.log2_lt_pow2 in Hw; lia.
Qed.

Lemma is_u_lor w x y : 0 <= w -> is_u w x -> is_u w y -> is_u w (Z.lor x y).
Proof.
  intros Hw Hx Hy. apply testbit_is_u; [done| |].
  - apply Z.lor_nonneg. unfold is_u in *. lia.
  - intros i Hi. by rewrite Z.lor_spec, (is_u_testbit w x), (is_u_testbit w y).
Qed.

Lemma is_u_lxor w x y : 0 <= w -> is_u w x -> is_u w y -> is_u w (Z.lxor x y).
Proof.
  intros Hw Hx Hy. apply testbit_is_u; [done| |].
  - apply Z.lxor_nonneg. unfold is_u in *. lia.
  - intros i Hi. by rewrite Z.lxor_spec, (is_u_testbit w x), (is_u_testbit w y).
Qed.

Lemma is_u_shiftr w x n : 0 <= n -> is_u w x -> is_u w (Z.shiftr x n).
Proof.
  unfold is_u. intros Hn [H0 Hw]. rewrite Z.shiftr_div_pow2 by done.
  assert (0 < 2 ^ n) by lia. split; [by apply Z.div_pos|].
  apply Z.le_lt_trans with x; [|done]. apply Z.div_le_upper_bound; nia.
Qed.

Lemma is_u_shiftl v w x n : 0 <= n -> v + n <= w -> 0 <= v -> is_u v x -> is_u w (Z.shiftl x n).
Proof.
  unfold is_u. intros Hn Hvw Hv [H0 Hx]. rewrite Z.shiftl_mul_pow2 by done.
  split; [nia|]. apply Z.lt_le_trans with (2 ^ v * 2 ^ n); [nia|].
  rewrite <- Z.pow_add_r by lia. apply Z.pow_le_mono_r; lia.
Qed.

#[export] Hint Resolve is_u_lor is_u_lxor is_u_shiftr : word.

(** Disjoint [|] is [+]. *)
Lemma lor_shiftl_add a b n :
  0 <= n -> is_u n a -> Z.lor a (Z.shiftl b n) = a + b * 2 ^ n.
Proof.
  intros Hn Ha. rewrite <- Z.shiftl_mul_pow2 by done.
  assert (Z.land a (Z.shiftl b n) = 0) as Hdisj.
  { apply Z.bits_inj'; intros i Hi.
    rewrite Z.land_spec, Z.bits_0. destruct (decide (n <= i)).
    - by rewrite (is_u_testbit n a).
    - rewrite Z.shiftl_spec_low by lia. apply andb_false_r. }
  by rewrite Z.add_nocarry_lxor, Z.lxor_lor.
Qed.

(** Bitwise equations between words: compare bit by bit, then decide. *)
Ltac bits_step :=
  repeat first [rewrite Z.lxor_spec | rewrite Z.lor_spec | rewrite Z.land_spec
               | rewrite Z.lnot_spec by lia | rewrite Z.ldiff_spec].
Ltac bool_cases :=
  repeat match goal with
         | |- context [Z.testbit ?x ?i] =>
             let b := fresh "b" in generalize (Z.testbit x i); intros b; destruct b
         end; try reflexivity.
Ltac bitwise :=
  apply Z.bits_inj'; let i := fresh "i" in let Hi := fresh "Hi" in
  intros i Hi; bits_step; bool_cases.

Lemma add32_add_l a b c : add32 (add32 a b) c = add32 (a + b) c.
Proof. unfold add32, u32. by rewrite Z.add_mod_idemp_l. Qed.

Lemma not32_range x : is_u32 x -> is_u32 (not32 x).
Proof. intros H. apply is_u_lxor; [done..|]. by unfold is_u. Qed.

Lemma not32_spec x : is_u32 x -> not32 x = 2 ^ 32 - 1 - x.
Proof.
  intros H. unfold not32. rewrite <- (Z.lxor_comm (Z.ones 32)).
  assert (Z.lxor (Z.ones 32) x + x = Z.ones 32) as Heq.
  { rewrite Z.add_nocarry_lxor.
    - by rewrite Z.lxor_assoc, Z.lxor_nilpotent, Z.lxor_0_r.
    - apply Z.bits_inj'; intros i Hi.
      rewrite Z.land_spec, Z.lxor_spec, Z.bits_0.
      destruct (decide (32 <= i)).
      + by rewrite (is_u_testbit 32 x), andb_false_r.
      + rewrite Z.ones_spec_low by lia. by destruct (Z.testbit x i). }
  change (2 ^ 32 - 1) with (Z.ones 32). lia.
Qed.

#[export] Hint Resolve not32_range : word.

(** ** Byte buffers *)

(** [slice ofs n l] is the [n] bytes at [ofs]; [splice ofs new l] overwrites
    them, as [memcpy(l + ofs, new, length new)] does inside the buffer. *)
Definition slice {A} (ofs n : nat) (l : list A) : list A := take n (drop ofs l).
Definition splice {A} (ofs : nat) (new l : list A) : list A :=
  take ofs l ++ new ++ drop (ofs + length new) l.

Section slices.
Context {A : Type}.
Implicit Types l new : list A.
Local Open Scope nat_scope.

Lemma length_slice ofs n l : ofs + n <= length l -> length (slice ofs n l) = n.
Proof. intros. unfold slice. rewrite length_take, length_drop. lia. Qed.

Lemma length_splice ofs new l :
  ofs + length new <= length l -> length (splice ofs new l) = length l.
Proof.
  intros. unfold splice. rewrite !length_app, length_take, length_drop. lia.
Qed.

Lemma slice_splice ofs new l :
  ofs <= length l -> slice ofs (length new) (splice ofs new l) = new.
Proof.
  intros. unfold slice, splice.
  rewrite drop_app_length' by (rewrite length_take; lia).
  by rewrite take_app_length.
Qed.

Lemma take_splice ofs new l : ofs <= length l -> take ofs (splice ofs new l) = take ofs l.
Proof.
  intros. unfold splice. rewrite take_app_length'; [done|]. rewrite length_take. lia.
Qed.

Lemma take_splice_all ofs new l :
  ofs <= length l -> take (ofs + length new) (splice ofs new l) = take ofs l ++ new.
Proof.
  intros. unfold splice. rewrite app_assoc, take_app_length'; [done|].
  rewrite length_app, length_take. lia.
Qed.

Lemma drop_splice ofs new l :
  ofs <= length l -> drop (ofs + length new) (splice ofs new l) = drop (ofs + length new) l.
Proof.
  intros. unfold splice. rewrite app_assoc, drop_app_length'; [done|].
  rewrite length_app, length_take. lia.
Qed.

Lemma splice_app ofs new l l' :
  ofs = length l -> splice ofs new (l ++ l') = l ++ new ++ drop (length new) l'.
Proof.
  intros ->. unfold splice. rewrite take_app_length, <- drop_drop, drop_app_length. done.
Qed.

Lemma splice_restore ofs n new l :
  length new = n -> ofs + n <= length l -> splice ofs (slice ofs n l) (splice ofs new l) = l.
Proof.
  intros <- Hl. unfold splice at 1. rewrite take_splice by lia. rewrite length_slice by lia.
  rewrite drop_splice by lia. unfold slice. rewrite <- drop_drop, take_drop. apply take_drop.
Qed.

Lemma splice_full new l : length new = length l -> splice 0 new l = new.
Proof.
  intros Heq. unfold splice. rewrite take_0. simpl.
  rewrite drop_ge by lia. by rewrite app_nil_r.
Qed.

Lemma Forall_slice (P : A -> Prop) ofs n l : Forall P l -> Forall P (slice ofs n l).
Proof. intros. by apply Forall_take, Forall_drop. Qed.

Lemma Forall_splice (P : A -> Prop) ofs new l :
  Forall P l -> Forall P new -> Forall P (splice ofs new l).
Proof. intros. by apply Forall_app; split; [apply Forall_take|apply Forall_app; split; [|apply Forall_drop]]. Qed.

(** [blocks k n l]: the first [n] consecutive [k]-byte blocks of [l]. *)
Fixpoint blocks (k n : nat) (l : list A) : list (list A) :=
  match n with
  | O => []
  | S n => take k l :: blocks k n (drop k l)
  end.

Lemma blocks_app k n m l : blocks k (n + m) l = blocks k n l ++ blocks k m (drop (k * n) l).
Proof.
  revert l. induction n as [|n IH]; intros l; simpl.
  - by rewrite Nat.mul_0_r, drop_0.
  - rewrite IH, drop_drop. by replace (k * S n) with (k + k * n) by lia.
Qed.

Lemma blocks_prefix k n l l' : k * n <= length l -> blocks k n (l ++ l') = blocks k n l.
Proof.
  revert l. induction n as [|n IH]; intros l Hl; simpl; [done|].
  rewrite take_app_le by lia. rewrite drop_app_le by lia.
  f_equal. apply IH. rewrite length_drop. lia.
Qed.

Lemma blocks_concat k (ls : list (list A)) r :
  Forall (fun b => length b = k) ls -> blocks k (length ls) (concat ls ++ r) = ls.
Proof.
  induction 1 as [|b ls Hb Hls IH]; simpl; [done|]. rewrite <- app_assoc.
  by rewrite take_app_length', drop_app_length', IH.
Qed.

Lemma length_concat_blocks k (ls : list (list A)) :
  Forall (fun b => length b = k) ls -> length (concat ls) = length ls * k.
Proof. induction 1 as [|b ls Hb Hls IH]; simpl; [done|]. by rewrite length_app, Hb, IH. Qed.

Lemma blocks_lengths k n l : k * n <= length l -> Forall (fun b => length b = k) (blocks k n l).
Proof.
  revert l. induction n as [|n IH]; intros l Hl; simpl; constructor.
  - rewrite length_take. lia.
  - apply IH. rewrite length_drop. lia.
Qed.

Lemma Forall_blocks (P : A -> Prop) k n l : Forall P l -> Forall (Forall P) (blocks k n l).
Proof.
  revert l. induction n as [|n IH]; intros l Hl; simpl; constructor.
  - by apply Forall_take.
  - by apply IH, Forall_drop.
Qed.

Lemma concat_blocks k n l : length l = k * n -> concat (blocks k n l) = l.
Proof.
  revert l. induction n as [|n IH]; intros l Hl; simpl.
  - destruct l; [done|]. simpl in Hl. lia.
  - rewrite IH by (rewrite length_drop; lia). apply take_drop.
Qed.

Lemma length_blocks k n l : length (blocks k n l) = n.
Proof. revert l. induction n; simpl; auto. Qed.
End slices.

Lemma replicate_bytes n b : is_byte b -> bytes (replicate n b).
Proof. by apply Forall_replicate. Qed.
#[export] Hint Resolve replicate_bytes : word.
#[export] Hint Resolve Forall_slice Forall_splice : word.

(** [lia] with division and modulo by constants. *)
Ltac dlia := zify; Z.to_euclidean_division_equations; lia.

(** Rotation of a 32-bit word, [(x << s) | (x >> (32 - s))]. *)
Definition rol32 (x s : Z) : Z := Z.lor (u32 (Z.shiftl x s)) (Z.shiftr x (32 - s)).

Lemma rol32_range x s : 0 <= s <= 32 -> is_u32 x -> is_u32 (rol32 x s).
Proof. intros. apply is_u_lor; [done|apply u32_range|]. apply is_u_shiftr; [lia|done]. Qed.

(** Lengths of list expressions. *)
Ltac len_norm := repeat (rewrite ?length_app, ?length_replicate, ?length_take, ?length_drop,
                           ?length_insert, ?length_fmap, ?length_seq; cbn [length]).
Ltac len_lia := len_norm; lia.

(** ** Folds over a list whose elements satisfy a predicate *)

Lemma fold_left_inv {A B} (f : A -> B -> A) (P : A -> Prop) (Q : B -> Prop) l a :
  (forall a b, P a -> Q b -> P (f a b)) -> Forall Q l -> P a -> P (fold_left f l a).
Proof. intros Hf Hl. revert a. induction Hl as [|b l Hb Hl IH]; intros a Ha; [done|]. apply IH. by apply Hf. Qed.

Lemma fold_left_ext_inv {A B} (f g : A -> B -> A) (P : A -> Prop) (Q : B -> Prop) l a :
  (forall a b, P a -> Q b -> f a b = g a b /\ P (f a b)) -> Forall Q l -> P a ->
  fold_left f l a = fold_left g l a.
Proof.
  intros Hf Hl. revert a. induction Hl as [|b l Hb Hl IH]; intros a Ha; [done|].
  destruct (Hf a b Ha Hb) as [E HP]. cbn [fold_left]. rewrite <- E. by apply IH.
Qed.

(** A property of a bounded number, by evaluation. *)
Lemma below n (P : Z -> bool) :
  forallb (fun k => P (Z.of_nat k)) (seq 0 n) = true -> forall x, 0 <= x < Z.of_nat n -> P x = true.
Proof.
  intros H x Hx. rewrite forallb_forall in H. specialize (H (Z.to_nat x)). rewrite Z2Nat.id in H by lia.
  apply H, in_seq. lia.
Qed.
