(* ===== verification/Digest.v ===== *)
(** Merkle-Damgard message digests: the reference construction that MD4, MD5 and
    SHA-1 share (padding, blocks, compression, output), the state of a hash that
    has absorbed part of a message, and the interface [StreamHash] that the HMAC
    constructions use.  The digests of lib/crypto implement it in the files Md4,
    Md5 and Sha1. *)

From S2P Require Import Prelude.

(** ** The reference construction (RFC 1320, RFC 1321, FIPS 180-1) *)

Record md_spec := MdSpec {
  md_state : Type;
  md_iv : md_state;
  md_compress : md_state -> list Z -> md_state;   (* one 64-byte block *)
  md_length : Z -> list Z;                        (* the 8-byte length field, from the bit count *)
  md_output : md_state -> list Z;
}.

Section construction.
Context (S : md_spec).
Local Open Scope nat_scope.

(** One 1 bit, the least number of 0 bits that fills a block up to its last 8
    bytes, and the length. *)
Definition md_padding (n : nat) : list Z :=
  0x80%Z :: replicate ((119 - n mod 64) mod 64) 0%Z ++ md_length S (8 * Z.of_nat n).

Definition md_absorb (m : list Z) : md_state S :=
  fold_left (md_compress S) (blocks 64 (length m / 64) m) (md_iv S).

Definition md_hash (m : list Z) : list Z :=
  md_output S (md_absorb (m ++ md_padding (length m))).

(** What a streaming implementation still holds in its block buffer. *)
Definition md_tail (m : list Z) : list Z := drop (64 * (length m / 64)) m.

Lemma length_md_tail m : length (md_tail m) = length m mod 64.
Proof. unfold md_tail. rewrite length_drop. dlia. Qed.

Lemma md_tail_bytes m : bytes m -> bytes (md_tail m).
Proof. apply Forall_drop. Qed.

Lemma md_absorb_short m b :
  length (md_tail m) + length b < 64 ->
  md_absorb (m ++ b) = md_absorb m /\ md_tail (m ++ b) = md_tail m ++ b.
Proof.
  rewrite length_md_tail. intros Hlt. unfold md_absorb, md_tail.
  replace (length (m ++ b) / 64) with (length m / 64) by (rewrite length_app; dlia).
  rewrite blocks_prefix by dlia. rewrite drop_app_le by dlia. done.
Qed.

Lemma md_absorb_block m b :
  length (md_tail m) + length b = 64 ->
  md_absorb (m ++ b) = md_compress S (md_absorb m) (md_tail m ++ b) /\
  md_tail (m ++ b) = [].
Proof.
  rewrite length_md_tail. intros Heq.
  assert (length (m ++ b) / 64 = length m / 64 + 1) as Hq by (rewrite length_app; dlia).
  split.
  - unfold md_absorb. rewrite Hq, blocks_app, blocks_prefix by dlia.
    rewrite fold_left_app. cbn [blocks fold_left]. rewrite drop_app_le by dlia.
    fold (md_tail m). f_equal. apply take_ge. rewrite length_app, length_md_tail. lia.
  - unfold md_tail. apply drop_ge. rewrite Hq, length_app. dlia.
Qed.

Lemma md_absorb_app m b :
  md_tail m = [] -> length b = 64 ->
  md_absorb (m ++ b) = md_compress S (md_absorb m) b /\ md_tail (m ++ b) = [].
Proof.
  intros Ht Hb. pose proof (md_absorb_block m b) as H. rewrite Ht in H. by apply H.
Qed.
End construction.

(** The bit count of a message as the two counters the code keeps. *)
Lemma bitcount_split n : 0 <= n -> 8 * n = u32 (8 * n) + 2 ^ 32 * (8 * n / 2 ^ 32).
Proof. intros. unfold u32. pose proof (Z.div_mod (8 * n) (2 ^ 32)). lia. Qed.

(** ** The interface of a streaming digest *)

(** A context type with init, update and final, as MD5Init/MD5Update/MD5Final and
    SHA1Init/SHA1Update/SHA1Final, correct for the reference construction: whatever
    the chunks, the digest is that of their concatenation. *)
Class StreamHash (C : Type) := {
  sh_spec : md_spec;
  sh_digest_size : nat;
  sh_init : C;
  sh_update : C -> list Z -> C;
  sh_final : C -> list Z;
  sh_correct : forall chunks : list (list Z),
    bytes (concat chunks) -> Z.of_nat (length (concat chunks)) < 2 ^ 61 ->
    sh_final (fold_left sh_update chunks sh_init) = md_hash sh_spec (concat chunks);
  sh_digest : forall m, bytes m ->
    bytes (md_hash sh_spec m) /\ length (md_hash sh_spec m) = sh_digest_size;
}.

(** ** Registers *)

(** The four working registers of MD4 and MD5, and the lvalues that the round
    macros ROUND1..ROUND3 and MD5STEP assign. *)
Record regs := Regs { rA : Z; rB : Z; rC : Z; rD : Z }.
Inductive reg := RA | RB | RC | RD.

Definition get (r : reg) (s : regs) : Z :=
  match r with RA => rA s | RB => rB s | RC => rC s | RD => rD s end.

Definition set (r : reg) (v : Z) (s : regs) : regs :=
  match r with
  | RA => Regs v (rB s) (rC s) (rD s)
  | RB => Regs (rA s) v (rC s) (rD s)
  | RC => Regs (rA s) (rB s) v (rD s)
  | RD => Regs (rA s) (rB s) (rC s) v
  end.

Definition regs_ok (s : regs) : Prop :=
  is_u32 (rA s) /\ is_u32 (rB s) /\ is_u32 (rC s) /\ is_u32 (rD s).

(** Componentwise addition, [buf[i] += x[i]]. *)
Definition regs_add (s t : regs) : regs :=
  Regs (add32 (rA s) (rA t)) (add32 (rB s) (rB t)) (add32 (rC s) (rC t)) (add32 (rD s) (rD t)).

Lemma regs_add_ok s t : regs_ok (regs_add s t).
Proof. repeat split; apply u32_range. Qed.

(** ** Little-endian words *)

Definition le32 (x : Z) : list Z := Z_to_little_endian 4 8 x.
Definition of_le (l : list Z) : Z := little_endian_to_Z 8 l.

Definition le_words (n : nat) (block : list Z) : list Z := of_le <$> blocks 4 n block.

Definition regs_le (s : regs) : list Z := le32 (rA s) ++ le32 (rB s) ++ le32 (rC s) ++ le32 (rD s).

Lemma length_le32 x : length (le32 x) = 4%nat.
Proof. pose proof (length_Z_to_little_endian 4 8 x). unfold le32. lia. Qed.

Lemma le32_bytes x : bytes (le32 x).
Proof. by apply (Z_to_little_endian_bound 4 8 x). Qed.
#[export] Hint Resolve le32_bytes : word.

Lemma of_le32 x : is_u32 x -> of_le (le32 x) = x.
Proof.
  intros. unfold of_le, le32. rewrite little_endian_to_Z_to_little_endian by done.
  by apply u32_id.
Qed.

Lemma of_le_range l : bytes l -> length l = 4%nat -> is_u32 (of_le l).
Proof.
  intros Hb Hl. pose proof (little_endian_to_Z_bound 8 l ltac:(done) Hb) as H.
  rewrite Hl in H. exact H.
Qed.

Lemma le_words_range n block :
  (4 * n <= length block)%nat -> bytes block -> Forall is_u32 (le_words n block).
Proof.
  unfold le_words. revert block. induction n as [|n IH]; intros block Hl Hb; [constructor|].
  cbn [blocks fmap list_fmap]. constructor.
  - apply of_le_range; [by apply Forall_take|]. rewrite length_take. lia.
  - apply IH; [rewrite length_drop; lia|by apply Forall_drop].
Qed.

Lemma regs_le_length s : length (regs_le s) = 16%nat.
Proof. unfold regs_le. by rewrite !length_app, !length_le32. Qed.

Lemma regs_le_bytes s : bytes (regs_le s).
Proof. unfold regs_le. rewrite !Forall_app. auto with word. Qed.

(** An array of u32 read at any index is a u32 (an absent element reads as 0). *)
Lemma lookup_total_u32 (X : list Z) k : Forall is_u32 X -> is_u32 (X !!! k).
Proof.
  intros HX. destruct (X !! k) eqn:E.
  - rewrite (list_lookup_total_correct _ _ _ E). by eapply Forall_lookup_1.
  - rewrite list_lookup_total_alt, E. by unfold is_u.
Qed.

(** ** Words of a block, index by index *)

Lemma slice4 (l : list Z) (i : nat) :
  (i + 4 <= length l)%nat ->
  slice i 4 l = [l !!! i; l !!! (i + 1)%nat; l !!! (i + 2)%nat; l !!! (i + 3)%nat].
Proof.
  intros Hl. unfold slice.
  destruct (drop i l) as [|a [|b [|c [|d r]]]] eqn:E;
    apply (f_equal length) in E as Hlen; rewrite length_drop in Hlen; simpl in Hlen; try lia.
  assert (forall j x, (a :: b :: c :: d :: r) !! j = Some x -> l !!! (i + j)%nat = x) as Hj.
  { intros j x Hx. apply list_lookup_total_correct. by rewrite <- lookup_drop, E. }
  simpl. rewrite <- (Nat.add_0_r i) at 1.
  by rewrite (Hj 0%nat a), (Hj 1%nat b), (Hj 2%nat c), (Hj 3%nat d).
Qed.

Lemma le_words_seq n block :
  le_words n block = (fun i => of_le (slice (i * 4) 4 block)) <$> seq 0 n.
Proof.
  unfold le_words. revert block. induction n as [|n IH]; intros block; [done|].
  cbn [blocks fmap list_fmap seq]. f_equal.
  change (of_le <$> blocks 4 n (drop 4 block) = (fun i => of_le (slice (i * 4) 4 block)) <$> seq 1 n).
  rewrite IH, <- fmap_S_seq, <- list_fmap_compose.
  apply list_fmap_ext. intros j i _. unfold compose, slice. by rewrite drop_drop.
Qed.

Lemma of_le4 a b c d :
  of_le [a; b; c; d] = Z.lor a (Z.lor (Z.shiftl b 8) (Z.lor (Z.shiftl c 16) (Z.shiftl d 24))).
Proof.
  unfold of_le. cbn [little_endian_to_Z].
  rewrite !Z.shiftl_0_l, Z.lor_0_r, !Z.shiftl_lor, !Z.shiftl_shiftl by done. done.
Qed.

Lemma le32_explicit x :
  le32 x = [Z.land x 0xFF; Z.land (Z.shiftr x 8) 0xFF; Z.land (Z.shiftr x 16) 0xFF; Z.land (Z.shiftr x 24) 0xFF].
Proof.
  unfold le32. change 4 with (Z.succ (Z.succ (Z.succ (Z.succ 0)))).
  rewrite !Z_to_little_endian_succ by done. rewrite !Z.shiftr_shiftr by done. done.
Qed.

(** The block buffer after the final padding: the tail [t] of the message, the 1
    bit, zeros, and (in the last 8 bytes) whatever was stored there. *)
Lemma insert_pad (t : list Z) (n : nat) :
  (length t < n)%nat ->
  <[length t := 0x80]> (splice 0 t (replicate n 0)) = t ++ 0x80 :: replicate (n - length t - 1) 0.
Proof.
  intros Hlt. unfold splice. rewrite take_0, app_nil_l, Nat.add_0_l, drop_replicate.
  rewrite insert_app_r_alt, Nat.sub_diag by lia.
  destruct (n - length t)%nat as [|j] eqn:E; [lia|]. simpl. by rewrite Nat.sub_0_r.
Qed.

Lemma splice_pad (t w : list Z) (k n : nat) :
  (length t < k)%nat -> (k + length w <= length t + 1 + n)%nat ->
  splice k w (t ++ 0x80 :: replicate n 0) =
  t ++ 0x80 :: replicate (k - length t - 1) 0 ++ w ++ replicate (length t + 1 + n - k - length w) 0.
Proof.
  intros Hk Hn. unfold splice.
  rewrite take_app_ge, drop_app_ge by lia.
  destruct (k - length t)%nat as [|j] eqn:Ej; [lia|].
  destruct (k + length w - length t)%nat as [|i] eqn:Ei; [lia|].
  rewrite firstn_cons, skipn_cons, take_replicate, drop_replicate.
  rewrite Nat.min_l, <- app_assoc by lia. cbn [app].
  do 3 f_equal; [f_equal; lia|]. do 2 f_equal. lia.
Qed.

Lemma md_absorb_split S q (rest m p : list Z) :
  (length m = 64 * q + length rest)%nat -> drop (64 * q) m = rest ->
  md_absorb S (m ++ p) =
  fold_left (md_compress S) (blocks 64 ((length rest + length p) / 64) (rest ++ p))
            (fold_left (md_compress S) (blocks 64 q m) (md_iv S)).
Proof.
  intros Hl Hd. unfold md_absorb. rewrite length_app.
  replace ((length m + length p) / 64)%nat with (q + (length rest + length p) / 64)%nat by dlia.
  rewrite blocks_app, fold_left_app, blocks_prefix, drop_app_le by lia. by rewrite Hd.
Qed.

Lemma le32_of_le l : bytes l -> length l = 4%nat -> le32 (of_le l) = l.
Proof. intros Hb Hl. apply (Z_to_little_endian_to_Z 4 8); [by rewrite Hl|done|done]. Qed.

Lemma le_words_app n k l l' :
  length l = (4 * n)%nat -> le_words (n + k) (l ++ l') = le_words n l ++ le_words k l'.
Proof.
  intros Hl. unfold le_words. rewrite blocks_app, fmap_app, blocks_prefix by lia.
  by rewrite drop_app_length'.
Qed.

Lemma le_words_one l : length l = 4%nat -> le_words 1 l = [of_le l].
Proof. intros Hl. unfold le_words. cbn [blocks fmap list_fmap]. by rewrite take_ge by lia. Qed.

(** Where the block index goes when [k] more bytes are stored. *)
Lemma index_short n k : (n mod 64 + k < 64 -> (n + k) mod 64 = n mod 64 + k)%nat.
Proof. dlia. Qed.
Lemma index_full n k : (n mod 64 + k = 64 -> (n + k) mod 64 = 0)%nat.
Proof. dlia. Qed.

(** The 64-bit length field from its two words. *)
Lemma length_field_le n :
  0 <= n -> Z_to_little_endian 8 8 (u64 (8 * n)) = le32 (u32 (8 * n)) ++ le32 (u32 (8 * n / 2 ^ 32)).
Proof.
  intros Hn.
  assert (u64 (8 * n) = u32 (8 * n) + 2 ^ 32 * u32 (8 * n / 2 ^ 32)) as ->.
  { unfold u64, u32. change (2 ^ 64) with (2 ^ 32 * 2 ^ 32). by rewrite Z.rem_mul_r. }
  pose proof (u32_range (8 * n)) as Hlo. set (lo := u32 (8 * n)) in *.
  pose proof (u32_range (8 * n / 2 ^ 32)) as Hhi. set (hi := u32 (8 * n / 2 ^ 32)) in *.
  pose proof (length_le32 lo) as Ll. pose proof (length_le32 hi) as Lh.
  assert (bytes (le32 lo ++ le32 hi)) as Hb by (apply Forall_app; auto with word).
  rewrite <- (Z_to_little_endian_to_Z 8 8 (le32 lo ++ le32 hi)) by (rewrite ?length_app, ?Ll, ?Lh; done).
  f_equal. transitivity (Z.lor (of_le (le32 lo)) (Z.shiftl (of_le (le32 hi)) 32)).
  - rewrite !of_le32, lor_shiftl_add by done. lia.
  - unfold of_le. rewrite !le32_explicit. cbn [app little_endian_to_Z].
    rewrite !Z.shiftl_0_l, !Z.lor_0_r, !Z.shiftl_lor, !Z.shiftl_shiftl by done. cbn [Z.add Pos.add Pos.succ].
    rewrite <- !Z.lor_assoc. done.
Qed.
