(* ===== verification/Byteorder.v ===== *)
(** lib/util/byteorder.h: loads and stores of little- and big-endian words in a byte
    buffer, in the byte-at-a-time variant (CAREFUL_ALIGNMENT) the x86-64 build uses. *)

From S2P Require Import Prelude Digest.

Module Byteorder.

(** A buffer is a list of bytes; a position outside it is the caller's error, and the
    components that use these accessors prove that theirs are inside. *)
Definition CVAL (buf : list Z) (pos : nat) : Z := default 0 (buf !! pos).
Definition SCVAL (buf : list Z) (pos : nat) (val : Z) : list Z := <[pos := u8 val]> buf.

Definition SVAL (buf : list Z) (pos : nat) : Z :=
  Z.lor (CVAL buf pos) (Z.shiftl (CVAL buf (pos + 1)) 8).
Definition IVAL (buf : list Z) (pos : nat) : Z :=
  Z.lor (SVAL buf pos) (u32 (Z.shiftl (SVAL buf (pos + 2)) 16)).

Definition SSVALX (buf : list Z) (pos : nat) (val : Z) : list Z :=
  SCVAL (SCVAL buf pos (Z.land val 0xFF)) (pos + 1) (Z.shiftr val 8).
Definition SIVALX (buf : list Z) (pos : nat) (val : Z) : list Z :=
  SSVALX (SSVALX buf pos (Z.land val 0xFFFF)) (pos + 2) (Z.shiftr val 16).

Definition SVALS (buf : list Z) (pos : nat) : Z := s16 (SVAL buf pos).
Definition IVALS (buf : list Z) (pos : nat) : Z := s32 (IVAL buf pos).
Definition SSVAL (buf : list Z) (pos : nat) (val : Z) : list Z := SSVALX buf pos (u16 val).
Definition SIVAL (buf : list Z) (pos : nat) (val : Z) : list Z := SIVALX buf pos (u32 val).

(** The reverse macros. *)
Definition SREV (x : Z) : Z :=
  Z.lor (Z.shiftl (Z.land x 0xFF) 8) (Z.land (Z.shiftr x 8) 0xFF).
Definition IREV (x : Z) : Z := Z.lor (u32 (Z.shiftl (SREV x) 16)) (SREV (Z.shiftr x 16)).

Definition RSVAL (buf : list Z) (pos : nat) : Z := SREV (SVAL buf pos).
Definition RSVALS (buf : list Z) (pos : nat) : Z := SREV (SVALS buf pos).
Definition RIVAL (buf : list Z) (pos : nat) : Z := IREV (IVAL buf pos).
Definition RSSVAL (buf : list Z) (pos : nat) (val : Z) : list Z := SSVAL buf pos (SREV val).
Definition RSIVAL (buf : list Z) (pos : nat) (val : Z) : list Z := SIVAL buf pos (IREV val).

(** 64-bit words. *)
Definition SBVAL (buf : list Z) (pos : nat) (val : Z) : list Z :=
  SIVAL (SIVAL buf pos (Z.land val 0xFFFFFFFF)) (pos + 4) (Z.shiftr (u64 val) 32).
Definition BVAL (buf : list Z) (pos : nat) : Z :=
  Z.lor (IVAL buf pos) (u64 (Z.shiftl (IVAL buf (pos + 4)) 32)).
End Byteorder.

Import Byteorder.

(** ** The layout of a word *)

(** [le n x]: the [n] low bytes of [x], least significant first; [be] the reverse. *)
Definition le (n : nat) (x : Z) : list Z := Z_to_little_endian (Z.of_nat n) 8 x.
Definition be (n : nat) (x : Z) : list Z := reverse (le n x).

Lemma length_le n x : length (le n x) = n.
Proof. apply Nat2Z.inj. unfold le. rewrite length_Z_to_little_endian by lia. done. Qed.

Lemma le_bytes n x : bytes (le n x).
Proof. by apply (Z_to_little_endian_bound (Z.of_nat n) 8 x); lia. Qed.
#[export] Hint Resolve le_bytes : word.

Lemma le_S n x : le (S n) x = Z.land x 0xFF :: le n (Z.shiftr x 8).
Proof. unfold le. rewrite Nat2Z.inj_succ. by rewrite Z_to_little_endian_succ by apply Nat2Z.is_nonneg. Qed.

Lemma of_le_le n x : of_le (le n x) = x mod 2 ^ (8 * Z.of_nat n).
Proof. unfold of_le, le. rewrite little_endian_to_Z_to_little_endian by lia. by rewrite Z.mul_comm. Qed.

Lemma le_of_le l : bytes l -> le (length l) (of_le l) = l.
Proof. intros Hb. apply (Z_to_little_endian_to_Z (Z.of_nat (length l)) 8); [done|lia|done]. Qed.

Lemma le32_le x : le32 x = le 4 x.
Proof. done. Qed.

Lemma le_app n m x : le (n + m) x = le n x ++ le m (Z.shiftr x (8 * Z.of_nat n)).
Proof.
  revert x. induction n as [|n IH]; intros x; cbn [Nat.add].
  - by rewrite Z.shiftr_0_r.
  - rewrite !le_S, IH, Z.shiftr_shiftr by lia. cbn [app]. do 4 f_equal. lia.
Qed.

(** Only the low bytes count. *)
Lemma le_mod n m x : (n <= m)%nat -> le n (x mod 2 ^ (8 * Z.of_nat m)) = le n x.
Proof.
  revert m x. induction n as [|n IH]; intros m x Hm; [done|]. destruct m as [|m]; [lia|].
  rewrite !le_S. f_equal.
  - apply Z.bits_inj'. intros i Hi. rewrite !Z.land_spec. destruct (decide (i < 8)).
    + by rewrite Z.mod_pow2_bits_low by lia.
    + change 0xFF with (Z.ones 8). by rewrite Z.ones_spec_high, !andb_false_r by lia.
  - rewrite <- (IH m (Z.shiftr x 8)) by lia. f_equal. apply Z.bits_inj'. intros i Hi.
    rewrite Z.shiftr_spec by done. destruct (decide (i < 8 * Z.of_nat m)).
    + rewrite !Z.mod_pow2_bits_low by lia. by rewrite Z.shiftr_spec.
    + by rewrite !Z.mod_pow2_bits_high by lia.
Qed.

Lemma le_u16 x : le 2 (u16 x) = le 2 x.
Proof. by apply (le_mod 2 2). Qed.
Lemma le_u32 x : le 4 (u32 x) = le 4 x.
Proof. by apply (le_mod 4 4). Qed.

Lemma le_land n x : le n (Z.land x (Z.ones (8 * Z.of_nat n))) = le n x.
Proof. rewrite Z.land_ones by lia. by apply le_mod. Qed.

Lemma le_inj n x y : is_u (8 * Z.of_nat n) x -> is_u (8 * Z.of_nat n) y -> le n x = le n y -> x = y.
Proof. intros Hx Hy E. apply (f_equal of_le) in E. rewrite !of_le_le, !Z.mod_small in E by done. done. Qed.

(** ** Stores *)

Lemma insert_splice {A} (l : list A) i x : (i < length l)%nat -> <[i:=x]> l = splice i [x] l.
Proof.
  intros Hi. unfold splice. rewrite insert_take_drop by done. cbn [length app].
  by rewrite Nat.add_1_r.
Qed.

Lemma splice_splice {A} (l a b : list A) i j :
  (j = i + length a)%nat -> (i + length a + length b <= length l)%nat ->
  splice j b (splice i a l) = splice i (a ++ b) l.
Proof.
  intros -> Hl. unfold splice at 1. rewrite take_splice_all by lia.
  rewrite <- drop_drop, drop_splice, drop_drop by lia. unfold splice.
  by rewrite length_app, <- !app_assoc, Nat.add_assoc.
Qed.

Lemma SCVAL_splice buf pos v : (pos < length buf)%nat -> SCVAL buf pos v = splice pos [u8 v] buf.
Proof. apply insert_splice. Qed.

Lemma u8_land x : u8 x = Z.land x 0xFF.
Proof. unfold u8. by rewrite <- (Z.land_ones x 8). Qed.

Lemma le_1 x : le 1 x = [u8 x].
Proof. rewrite le_S, u8_land. done. Qed.

Lemma SSVALX_splice buf pos v : (pos + 2 <= length buf)%nat -> SSVALX buf pos v = splice pos (le 2 v) buf.
Proof.
  intros Hl. unfold SSVALX. rewrite SCVAL_splice by (unfold SCVAL; rewrite length_insert; lia).
  rewrite SCVAL_splice by lia. rewrite splice_splice by (cbn [length]; lia). f_equal.
  rewrite (le_app 1 1), !le_1. cbn [app]. f_equal. rewrite !u8_land, <- Z.land_assoc. done.
Qed.

Lemma SIVALX_splice buf pos v : (pos + 4 <= length buf)%nat -> SIVALX buf pos v = splice pos (le 4 v) buf.
Proof.
  intros Hl. unfold SIVALX. rewrite (SSVALX_splice buf) by lia.
  rewrite SSVALX_splice by (rewrite length_splice; rewrite ?length_le; lia).
  rewrite splice_splice by (rewrite !length_le; lia). f_equal.
  rewrite (le_app 2 2). f_equal. apply (le_land 2).
Qed.

Lemma SSVAL_splice buf pos v : (pos + 2 <= length buf)%nat -> SSVAL buf pos v = splice pos (le 2 v) buf.
Proof. intros. unfold SSVAL. rewrite SSVALX_splice by done. by rewrite le_u16. Qed.

Lemma SIVAL_splice buf pos v : (pos + 4 <= length buf)%nat -> SIVAL buf pos v = splice pos (le 4 v) buf.
Proof. intros. unfold SIVAL. rewrite SIVALX_splice by done. by rewrite le_u32. Qed.

Lemma SBVAL_splice buf pos v : (pos + 8 <= length buf)%nat -> SBVAL buf pos v = splice pos (le 8 v) buf.
Proof.
  intros Hl. unfold SBVAL. rewrite (SIVAL_splice buf) by lia.
  rewrite SIVAL_splice by (rewrite length_splice; rewrite ?length_le; lia).
  rewrite splice_splice by (rewrite !length_le; lia). f_equal.
  change 0xFFFFFFFF with (Z.ones (8 * Z.of_nat 4)). rewrite (le_land 4).
  rewrite <- (le_mod 8 8 v) by lia. rewrite (le_app 4 4), (le_mod 4 8) by lia. done.
Qed.

(** ** Loads *)

Lemma CVAL_byte buf pos : bytes buf -> is_byte (CVAL buf pos).
Proof.
  intros Hb. unfold CVAL. destruct (buf !! pos) eqn:E; [|done]. by apply (Forall_lookup_1 _ _ _ _ Hb E).
Qed.

Lemma slice_S {A} (l : list A) i n x : l !! i = Some x -> slice i (S n) l = x :: slice (S i) n l.
Proof. intros E. unfold slice. rewrite (drop_S _ _ _ E). done. Qed.

Lemma slice_lookup buf pos : (pos < length buf)%nat -> slice pos 1 buf = [CVAL buf pos].
Proof.
  intros Hl. unfold CVAL. destruct (lookup_lt_is_Some_2 buf pos Hl) as [x E].
  rewrite (slice_S _ _ _ _ E), E. done.
Qed.

Lemma slice_add {A} (l : list A) i n m : slice i (n + m) l = slice i n l ++ slice (i + n) m l.
Proof.
  unfold slice. rewrite <- (take_drop n (take (n + m) (drop i l))) at 1.
  rewrite take_take, Nat.min_l by lia. f_equal. rewrite skipn_firstn_comm, drop_drop. f_equal. lia.
Qed.

Lemma of_le_app a b : of_le (a ++ b) = Z.lor (of_le a) (Z.shiftl (of_le b) (8 * Z.of_nat (length a))).
Proof.
  unfold of_le. induction a as [|x a IH]; cbn [app little_endian_to_Z length].
  - by rewrite Z.shiftl_0_r.
  - rewrite IH, Z.shiftl_lor, Z.shiftl_shiftl, Z.lor_assoc by lia. do 2 f_equal. lia.
Qed.

Lemma of_le_one x : of_le [x] = x.
Proof. unfold of_le. cbn [little_endian_to_Z]. by rewrite Z.shiftl_0_l, Z.lor_0_r. Qed.

Lemma of_le_is_u l : bytes l -> is_u (8 * Z.of_nat (length l)) (of_le l).
Proof.
  intros Hb. pose proof (little_endian_to_Z_bound 8 l ltac:(done) Hb) as H. unfold is_u, of_le.
  by rewrite Z.mul_comm.
Qed.

Lemma SVAL_slice buf pos : (pos + 2 <= length buf)%nat -> SVAL buf pos = of_le (slice pos 2 buf).
Proof.
  intros Hl. replace (slice pos 2 buf) with (slice pos 1 buf ++ slice (pos + 1) 1 buf) by (symmetry; apply (slice_add buf pos 1 1)).
  rewrite !slice_lookup by lia. rewrite of_le_app, !of_le_one. done.
Qed.

Lemma IVAL_slice_part buf pos :
  bytes (slice pos 4 buf) -> (pos + 4 <= length buf)%nat -> IVAL buf pos = of_le (slice pos 4 buf).
Proof.
  intros Hb Hl. unfold IVAL. rewrite !SVAL_slice by lia. pose proof (slice_add buf pos 2 2) as E.
  cbn [Nat.add] in E. rewrite E in Hb |- *. apply Forall_app in Hb as [_ Hs].
  rewrite of_le_app. rewrite length_slice by lia. f_equal. apply u32_id. apply (is_u_shiftl 16); [lia..|].
  apply of_le_is_u in Hs. rewrite length_slice in Hs by lia. exact Hs.
Qed.

Lemma IVAL_slice buf pos :
  bytes buf -> (pos + 4 <= length buf)%nat -> IVAL buf pos = of_le (slice pos 4 buf).
Proof. intros Hb Hl. apply IVAL_slice_part; [by apply Forall_slice|done]. Qed.

Lemma BVAL_slice buf pos :
  bytes buf -> (pos + 8 <= length buf)%nat -> BVAL buf pos = of_le (slice pos 8 buf).
Proof.
  intros Hb Hl. unfold BVAL. rewrite !IVAL_slice by (done || lia). replace (slice pos 8 buf) with (slice pos 4 buf ++ slice (pos + 4) 4 buf) by (symmetry; apply (slice_add buf pos 4 4)).
  rewrite of_le_app.
  rewrite length_slice by lia. f_equal. apply u64_id. apply (is_u_shiftl 32); [lia..|].
  assert (bytes (slice (pos + 4) 4 buf)) as Hs by by apply Forall_slice.
  apply of_le_is_u in Hs. rewrite length_slice in Hs by lia. exact Hs.
Qed.

Lemma SVAL_le buf pos : bytes buf -> (pos + 2 <= length buf)%nat -> slice pos 2 buf = le 2 (SVAL buf pos).
Proof.
  intros Hb Hl. rewrite SVAL_slice by done. pose proof (length_slice pos 2 buf Hl) as Hs.
  rewrite <- Hs at 2. by rewrite le_of_le by by apply Forall_slice.
Qed.

Lemma IVAL_le buf pos : bytes buf -> (pos + 4 <= length buf)%nat -> slice pos 4 buf = le 4 (IVAL buf pos).
Proof.
  intros Hb Hl. rewrite IVAL_slice by done. pose proof (length_slice pos 4 buf Hl) as Hs.
  rewrite <- Hs at 2. by rewrite le_of_le by by apply Forall_slice.
Qed.

Lemma IVAL_range buf pos : bytes buf -> is_u32 (IVAL buf pos).
Proof.
  intros Hb. apply is_u_lor; [done| |apply u32_range]. apply (is_u_mono 16); [done|].
  apply is_u_lor; [done|apply (is_u_mono 8); [done|by apply CVAL_byte]|].
  apply (is_u_shiftl 8); [lia..|by apply CVAL_byte].
Qed.

(** Reading back what was stored. *)
Lemma slice_at {A} (a b c : list A) i n : i = length a -> n = length b -> slice i n (a ++ b ++ c) = b.
Proof. intros -> ->. unfold slice. by rewrite drop_app_length, take_app_length. Qed.

Lemma slice_at0 {A} (b c : list A) n : n = length b -> slice 0 n (b ++ c) = b.
Proof. intros ->. apply take_app_length. Qed.

Lemma SVAL_store buf pos v : (pos + 2 <= length buf)%nat -> SVAL (SSVAL buf pos v) pos = u16 v.
Proof.
  intros Hl. rewrite SSVAL_splice by done. rewrite SVAL_slice by (rewrite length_splice; rewrite ?length_le; lia).
  unfold splice. rewrite slice_at by (rewrite ?length_le, ?length_take; lia). by rewrite of_le_le.
Qed.

Lemma IVAL_store buf pos v : bytes buf -> (pos + 4 <= length buf)%nat -> IVAL (SIVAL buf pos v) pos = u32 v.
Proof.
  intros Hb Hl. rewrite SIVAL_splice by done. rewrite IVAL_slice;
    [|by apply Forall_splice; [|apply le_bytes]|rewrite length_splice; rewrite ?length_le; lia].
  unfold splice. rewrite slice_at by (rewrite ?length_le, ?length_take; lia). by rewrite of_le_le.
Qed.

Lemma BVAL_store buf pos v : bytes buf -> (pos + 8 <= length buf)%nat -> BVAL (SBVAL buf pos v) pos = u64 v.
Proof.
  intros Hb Hl. rewrite SBVAL_splice by done. rewrite BVAL_slice;
    [|by apply Forall_splice; [|apply le_bytes]|rewrite length_splice; rewrite ?length_le; lia].
  unfold splice. rewrite slice_at by (rewrite ?length_le, ?length_take; lia). by rewrite of_le_le.
Qed.

(** Loads at a known place. *)
Lemma SVAL_at a v b : SVAL (a ++ le 2 v ++ b) (length a) = u16 v.
Proof.
  rewrite SVAL_slice by (rewrite !length_app, length_le; lia). rewrite slice_at by (by rewrite ?length_le).
  by rewrite of_le_le.
Qed.

Lemma IVAL_at a v b : IVAL (a ++ le 4 v ++ b) (length a) = u32 v.
Proof.
  rewrite IVAL_slice_part; [|rewrite slice_at by (by rewrite ?length_le); apply le_bytes|rewrite !length_app, length_le; lia].
  rewrite slice_at by (by rewrite ?length_le). by rewrite of_le_le.
Qed.

(** *** The reverse macros *)

Lemma SREV_swap x : SREV x = of_le (be 2 x).
Proof.
  unfold be. rewrite !le_S. change (le 0 _) with (@nil Z). change (reverse [?a; ?b]) with ([b] ++ [a]).
  rewrite of_le_app, !of_le_one. unfold SREV. by rewrite Z.lor_comm.
Qed.

Lemma SREV_range x : is_u16 (SREV x).
Proof.
  rewrite SREV_swap. pose proof (of_le_is_u (be 2 x)) as H. unfold be in *.
  rewrite length_reverse, length_le in H. apply H. apply Forall_reverse, le_bytes.
Qed.

Lemma SREV_le x : le 2 (SREV x) = be 2 x.
Proof.
  rewrite SREV_swap. assert (length (be 2 x) = 2%nat) as Hl by (unfold be; by rewrite length_reverse, length_le).
  rewrite <- Hl at 1. apply le_of_le. apply Forall_reverse, le_bytes.
Qed.

Lemma be_app n m x : be (n + m) x = be m (Z.shiftr x (8 * Z.of_nat n)) ++ be n x.
Proof. unfold be. by rewrite le_app, reverse_app. Qed.

Lemma length_be n x : length (be n x) = n.
Proof. unfold be. by rewrite length_reverse, length_le. Qed.

Lemma be_bytes n x : bytes (be n x).
Proof. apply Forall_reverse, le_bytes. Qed.
#[export] Hint Resolve be_bytes : word.

Lemma IREV_swap x : IREV x = of_le (be 4 x).
Proof.
  rewrite (be_app 2 2), of_le_app, length_be. unfold IREV. rewrite !SREV_swap, Z.lor_comm. f_equal.
  apply u32_id. apply (is_u_shiftl 16); [lia..|]. rewrite <- SREV_swap. apply SREV_range.
Qed.

Lemma IREV_le x : le 4 (IREV x) = be 4 x.
Proof. rewrite IREV_swap. rewrite <- (length_be 4 x) at 1. apply le_of_le, be_bytes. Qed.

Lemma RSSVAL_splice buf pos v : (pos + 2 <= length buf)%nat -> RSSVAL buf pos v = splice pos (be 2 v) buf.
Proof. intros. unfold RSSVAL. by rewrite SSVAL_splice, SREV_le. Qed.

Lemma RSIVAL_splice buf pos v : (pos + 4 <= length buf)%nat -> RSIVAL buf pos v = splice pos (be 4 v) buf.
Proof. intros. unfold RSIVAL. by rewrite SIVAL_splice, IREV_le. Qed.

Lemma RSVAL_slice buf pos :
  bytes buf -> (pos + 2 <= length buf)%nat -> RSVAL buf pos = of_le (reverse (slice pos 2 buf)).
Proof. intros Hb Hl. unfold RSVAL. rewrite SREV_swap. unfold be. by rewrite <- SVAL_le. Qed.

Lemma RIVAL_slice buf pos :
  bytes buf -> (pos + 4 <= length buf)%nat -> RIVAL buf pos = of_le (reverse (slice pos 4 buf)).
Proof. intros Hb Hl. unfold RIVAL. rewrite IREV_swap. unfold be. by rewrite <- IVAL_le. Qed.

(** Every store writes exactly the little-endian (or, for the reverse macros,
    big-endian) bytes of its operand and nothing else, and every load reads them back
    modulo the width; the signed reverse load is the exception: RSVALS is never
    negative, it is RSVAL. *)
Theorem byteorder_layout (buf : list Z) (pos : nat) (v : Z) :
  bytes buf -> (pos + 8 <= length buf)%nat ->
  (SSVAL buf pos v = splice pos (le 2 v) buf /\ SVAL (SSVAL buf pos v) pos = u16 v) /\
  (SIVAL buf pos v = splice pos (le 4 v) buf /\ IVAL (SIVAL buf pos v) pos = u32 v) /\
  (SBVAL buf pos v = splice pos (le 8 v) buf /\ BVAL (SBVAL buf pos v) pos = u64 v) /\
  (RSSVAL buf pos v = splice pos (be 2 v) buf /\ RSVAL (RSSVAL buf pos v) pos = u16 v) /\
  (RSIVAL buf pos v = splice pos (be 4 v) buf /\ RIVAL (RSIVAL buf pos v) pos = u32 v) /\
  SVALS (SSVAL buf pos v) pos = s16 v /\ IVALS (SIVAL buf pos v) pos = s32 v /\
  RSVALS buf pos = RSVAL buf pos.
Proof.
  intros Hb Hl. split_and!.
  - apply SSVAL_splice; lia.
  - apply SVAL_store; lia.
  - apply SIVAL_splice; lia.
  - apply IVAL_store; [done|lia].
  - by apply SBVAL_splice.
  - by apply BVAL_store.
  - apply RSSVAL_splice; lia.
  - rewrite RSSVAL_splice by lia. rewrite RSVAL_slice;
      [|by apply Forall_splice; [|apply be_bytes]|rewrite length_splice; rewrite ?length_be; lia].
    unfold splice. rewrite slice_at by (rewrite ?length_be, ?length_take; lia).
    unfold be. by rewrite reverse_involutive, of_le_le.
  - apply RSIVAL_splice; lia.
  - rewrite RSIVAL_splice by lia. rewrite RIVAL_slice;
      [|by apply Forall_splice; [|apply be_bytes]|rewrite length_splice; rewrite ?length_be; lia].
    unfold splice. rewrite slice_at by (rewrite ?length_be, ?length_take; lia).
    unfold be. by rewrite reverse_involutive, of_le_le.
  - unfold SVALS. rewrite SVAL_store by lia. unfold s16, u16. dlia.
  - unfold IVALS. rewrite IVAL_store by (done || lia). unfold s32, u32. dlia.
  - unfold RSVALS, RSVAL, SVALS. rewrite !SREV_swap. f_equal. unfold be. f_equal.
    rewrite <- (le_mod 2 2 (s16 _)), <- (le_mod 2 2 (SVAL _ _)) by done. f_equal.
    unfold s16. change (8 * Z.of_nat 2) with 16. dlia.
Qed.

Lemma byteorder_layout_witness :
  SSVAL (replicate 9 0) 1 0x1234 = splice 1 (le 2 0x1234) (replicate 9 0) /\
  RSVALS (replicate 9 255) 1 = RSVAL (replicate 9 255) 1.
Proof.
  split; [apply (byteorder_layout (replicate 9 0) 1 0x1234); by_eval|].
  apply (byteorder_layout (replicate 9 255) 1 0); by_eval.
Defined.
