(* ===== verification/Ntstatus.v ===== *)
(** libcli/util/ntstatus.h: the status codes the modelled code returns, and the two
    ways a call of it can end without one. *)

From S2P Require Import Prelude.

Inductive NTSTATUS :=
| NT_STATUS_OK
| NT_STATUS_INVALID_PARAMETER
| NT_STATUS_NO_MEMORY
| NT_STATUS_ACCESS_DENIED
| NT_STATUS_UNKNOWN_REVISION
| NT_STATUS_WRONG_PASSWORD
| NT_STATUS_INTERNAL_ERROR
| NT_STATUS_NO_USER_SESSION_KEY
| NT_STATUS_BUFFER_TOO_SMALL
| NT_STATUS_MORE_PROCESSING_REQUIRED
| NT_STATUS_NOT_FOUND
| NT_STATUS_NOT_IMPLEMENTED
| NT_STATUS_NO_SUCH_USER
| NT_STATUS_LOGON_FAILURE
| NT_STATUS_INVALID_SYSTEM_SERVICE
| NT_STATUS_INTERNAL_DB_CORRUPTION
| NT_STATUS_ACCOUNT_LOCKED_OUT
| NT_STATUS_ACCOUNT_DISABLED
| NT_STATUS_ACCOUNT_EXPIRED
| NT_STATUS_PASSWORD_MUST_CHANGE
| NT_STATUS_PASSWORD_EXPIRED
| NT_STATUS_INVALID_WORKSTATION
| NT_STATUS_NOLOGON_INTERDOMAIN_TRUST_ACCOUNT
| NT_STATUS_NOLOGON_SERVER_TRUST_ACCOUNT
| NT_STATUS_NOLOGON_WORKSTATION_TRUST_ACCOUNT
| NT_STATUS_PRIVILEGE_NOT_HELD
| NT_STATUS_OBJECT_NAME_NOT_FOUND
| NT_STATUS_OBJECT_NAME_COLLISION
| NT_STATUS_CANT_ACCESS_DOMAIN_INFO
| NT_STATUS_ARRAY_BOUNDS_EXCEEDED
| NT_STATUS_NOT_SUPPORTED
| NT_STATUS_NO_SUCH_FILE
| NT_STATUS_BAD_NETWORK_NAME
| NT_STATUS_INVALID_PARAMETER_MIX
| NT_STATUS_UNSUCCESSFUL.

#[export] Instance NTSTATUS_eq_dec : EqDecision NTSTATUS.
Proof. solve_decision. Defined.

Definition NT_STATUS_IS_OK (s : NTSTATUS) : bool := bool_decide (s = NT_STATUS_OK).

(** A call returns a value, or faults: it reads or writes outside an object or
    through a null pointer. *)
Inductive outcome (A : Type) :=
| Ret (a : A)
| Fault.
Arguments Ret {A} a.
Arguments Fault {A}.

Definition obind {A B} (m : outcome A) (f : A -> outcome B) : outcome B :=
  match m with Ret a => f a | Fault => Fault end.

Declare Scope outcome_scope.
Delimit Scope outcome_scope with outcome.
Notation "'let*' x ':=' m 'in' k" := (obind m (fun x => k))
  (at level 200, x pattern, m at level 100, k at level 200) : outcome_scope.

(** The allocator: whether the [n]th allocation of a call succeeds, and the byte an
    uninitialised allocation is filled with. *)
Class Allocator := { malloc_ok : nat -> bool; uninit : Z; uninit_byte : is_byte uninit }.

Definition fresh `{Allocator} (n : nat) : list Z := replicate n uninit.

Lemma fresh_bytes `{Allocator} n : bytes (fresh n).
Proof. apply replicate_bytes, uninit_byte. Qed.

(** lib/talloc/talloc.c: no block is larger. *)
Definition MAX_TALLOC_SIZE : Z := 0x10000000.

(** An allocator that never fails. *)
Definition calloc : Allocator :=
  {| malloc_ok := fun _ => true; uninit := 0; uninit_byte := conj (Z.le_refl 0) eq_refl |}.

(** The allocator a call sees after its caller has made [k] allocations. *)
Definition later (k : nat) (A : Allocator) : Allocator :=
  {| malloc_ok := fun n => @malloc_ok A (k + n); uninit := @uninit A; uninit_byte := @uninit_byte A |}.

(** Every allocation succeeds. *)
Definition malloc_always (A : Allocator) : Prop := forall n, @malloc_ok A n = true.

Lemma later_always k A : malloc_always A -> malloc_always (later k A).
Proof. intros H n. apply H. Qed.
