(* ===== verification/Md4.v ===== *)
(** lib/crypto/md4.c: the MD4 digest, as the code computes it, and its refinement
    of RFC 1320. *)

From S2P Require Import Prelude Digest.

(** ** The code *)

Module Md4.

Abbreviation mdfour_state := regs.

Definition F (x y z : Z) : Z := Z.lor (Z.land x y) (Z.land (not32 x) z).
Definition G (x y z : Z) : Z := Z.lor (Z.lor (Z.land x y) (Z.land x z)) (Z.land y z).
Definition H (x y z : Z) : Z := Z.lxor (Z.lxor x y) z.

Definition lshift (x s : Z) : Z :=
  let x := Z.land x 0xFFFFFFFF in
  Z.lor (Z.land (u32 (Z.shiftl x s)) 0xFFFFFFFF) (Z.shiftr x (32 - s)).

(** The macros assign the register [a], read from the registers [b], [c], [d]. *)
Definition ROUND1 (X : list Z) (a b c d : reg) (k : nat) (s : Z) (st : mdfour_state) : mdfour_state :=
  set a (lshift (add32 (add32 (get a st) (F (get b st) (get c st) (get d st))) (X !!! k)) s) st.
Definition ROUND2 (X : list Z) (a b c d : reg) (k : nat) (s : Z) (st : mdfour_state) : mdfour_state :=
  set a (lshift (add32 (add32 (add32 (get a st) (G (get b st) (get c st) (get d st))) (X !!! k)) 0x5A827999) s) st.
Definition ROUND3 (X : list Z) (a b c d : reg) (k : nat) (s : Z) (st : mdfour_state) : mdfour_state :=
  set a (lshift (add32 (add32 (add32 (get a st) (H (get b st) (get c st) (get d st))) (X !!! k)) 0x6ED9EBA1) s) st.

Definition rounds (X : list Z) : list (mdfour_state -> mdfour_state) :=
  [ ROUND1 X RA RB RC RD  0  3;  ROUND1 X RD RA RB RC  1  7;
    ROUND1 X RC RD RA RB  2 11;  ROUND1 X RB RC RD RA  3 19;
    ROUND1 X RA RB RC RD  4  3;  ROUND1 X RD RA RB RC  5  7;
    ROUND1 X RC RD RA RB  6 11;  ROUND1 X RB RC RD RA  7 19;
    ROUND1 X RA RB RC RD  8  3;  ROUND1 X RD RA RB RC  9  7;
    ROUND1 X RC RD RA RB 10 11;  ROUND1 X RB RC RD RA 11 19;
    ROUND1 X RA RB RC RD 12  3;  ROUND1 X RD RA RB RC 13  7;
    ROUND1 X RC RD RA RB 14 11;  ROUND1 X RB RC RD RA 15 19;

    ROUND2 X RA RB RC RD  0  3;  ROUND2 X RD RA RB RC  4  5;
    ROUND2 X RC RD RA RB  8  9;  ROUND2 X RB RC RD RA 12 13;
    ROUND2 X RA RB RC RD  1  3;  ROUND2 X RD RA RB RC  5  5;
    ROUND2 X RC RD RA RB  9  9;  ROUND2 X RB RC RD RA 13 13;
    ROUND2 X RA RB RC RD  2  3;  ROUND2 X RD RA RB RC  6  5;
    ROUND2 X RC RD RA RB 10  9;  ROUND2 X RB RC RD RA 14 13;
    ROUND2 X RA RB RC RD  3  3;  ROUND2 X RD RA RB RC  7  5;
    ROUND2 X RC RD RA RB 11  9;  ROUND2 X RB RC RD RA 15 13;

    ROUND3 X RA RB RC RD  0  3;  ROUND3 X RD RA RB RC  8  9;
    ROUND3 X RC RD RA RB  4 11;  ROUND3 X RB RC RD RA 12 15;
    ROUND3 X RA RB RC RD  2  3;  ROUND3 X RD RA RB RC 10  9;
    ROUND3 X RC RD RA RB  6 11;  ROUND3 X RB RC RD RA 14 15;
    ROUND3 X RA RB RC RD  1  3;  ROUND3 X RD RA RB RC  9  9;
    ROUND3 X RC RD RA RB  5 11;  ROUND3 X RB RC RD RA 13 15;
    ROUND3 X RA RB RC RD  3  3;  ROUND3 X RD RA RB RC 11  9;
    ROUND3 X RC RD RA RB  7 11;  ROUND3 X RB RC RD RA 15 15 ].

Definition mask32 (s : mdfour_state) : mdfour_state :=
  Regs (Z.land (rA s) 0xFFFFFFFF) (Z.land (rB s) 0xFFFFFFFF)
       (Z.land (rC s) 0xFFFFFFFF) (Z.land (rD s) 0xFFFFFFFF).

(** One 64-byte chunk: the rounds from the saved AA, BB, CC, DD, then the sums. *)
Definition mdfour64 (s : mdfour_state) (M : list Z) : mdfour_state :=
  let X := take 16 M in
  let saved := s in
  let s := fold_left (fun st round => round st) (rounds X) s in
  mask32 (regs_add s saved).

Definition copy64 (inp : list Z) : list Z :=
  (fun i : nat => Z.lor (Z.lor (Z.lor (Z.shiftl (inp !!! (i*4+3)%nat) 24) (Z.shiftl (inp !!! (i*4+2)%nat) 16))
                       (Z.shiftl (inp !!! (i*4+1)%nat) 8)) (Z.shiftl (inp !!! (i*4+0)%nat) 0))
    <$> seq 0 16.

Definition copy4 (x : Z) : list Z :=
  [Z.land x 0xFF; Z.land (Z.shiftr x 8) 0xFF; Z.land (Z.shiftr x 16) 0xFF; Z.land (Z.shiftr x 24) 0xFF].

(** [while (n > 64)]: the fuel [n] is enough, each turn consumes 64 bytes. *)
Fixpoint mdfour_loop (fuel : nat) (state : mdfour_state) (inp : list Z) : mdfour_state * list Z :=
  match fuel with
  | O => (state, inp)
  | S fuel =>
      if decide (64 < length inp)%nat
      then mdfour_loop fuel (mdfour64 state (copy64 inp)) (drop 64 inp)
      else (state, inp)
  end.

Definition mdfour (inp : list Z) : list Z :=
  let n := length inp in
  let b := u32 (8 * Z.of_nat n) in
  let state := Regs 0x67452301 0xefcdab89 0x98badcfe 0x10325476 in
  let '(state, inp) := mdfour_loop n state inp in
  let n := length inp in
  let buf := replicate 128 0 in
  let buf := splice 0 inp buf in
  let buf := <[n := 0x80]> buf in
  let state :=
    if decide (n <= 55)%nat then
      let buf := splice 56 (copy4 b) buf in
      mdfour64 state (copy64 buf)
    else
      let buf := splice 120 (copy4 b) buf in
      mdfour64 (mdfour64 state (copy64 buf)) (copy64 (drop 64 buf)) in
  copy4 (rA state) ++ copy4 (rB state) ++ copy4 (rC state) ++ copy4 (rD state).

End Md4.

(** ** RFC 1320 *)

(** Step [i] of the reference: round [i / 16], word, shift and additive constant
    from the tables, the registers rotating one place. *)
Definition rfc1320_words : list nat :=
  [0; 1; 2; 3; 4; 5; 6; 7; 8; 9; 10; 11; 12; 13; 14; 15;
   0; 4; 8; 12; 1; 5; 9; 13; 2; 6; 10; 14; 3; 7; 11; 15;
   0; 8; 4; 12; 2; 10; 6; 14; 1; 9; 5; 13; 3; 11; 7; 15]%nat.

Definition rfc1320_shift (i : nat) : Z :=
  match (i / 16)%nat with
  | 0%nat => [3; 7; 11; 19] !!! (i mod 4)%nat
  | 1%nat => [3; 5; 9; 13] !!! (i mod 4)%nat
  | _ => [3; 9; 11; 15] !!! (i mod 4)%nat
  end.

Definition rfc1320_const (i : nat) : Z :=
  match (i / 16)%nat with 0%nat => 0 | 1%nat => 0x5A827999 | _ => 0x6ED9EBA1 end.

Definition rfc1320_fun (i : nat) (x y z : Z) : Z :=
  match (i / 16)%nat with
  | 0%nat => Z.lor (Z.land x y) (Z.land (not32 x) z)
  | 1%nat => Z.lor (Z.lor (Z.land x y) (Z.land x z)) (Z.land y z)
  | _ => Z.lxor (Z.lxor x y) z
  end.

Definition rfc1320_step (X : list Z) (s : regs) (i : nat) : regs :=
  Regs (rD s)
       (rol32 (u32 (rA s + rfc1320_fun i (rB s) (rC s) (rD s)
                    + X !!! (rfc1320_words !!! i) + rfc1320_const i)) (rfc1320_shift i))
       (rB s) (rC s).

Definition rfc1320_compress (s : regs) (block : list Z) : regs :=
  regs_add (fold_left (rfc1320_step (le_words 16 block)) (seq 0 48) s) s.

Definition md4_spec : md_spec :=
  MdSpec regs (Regs 0x67452301 0xefcdab89 0x98badcfe 0x10325476)
         rfc1320_compress (Z_to_little_endian 8 8) regs_le.

Example mdfour_empty :
  Md4.mdfour [] = [0x31; 0xd6; 0xcf; 0xe0; 0xd1; 0x6a; 0xe9; 0x31; 0xb7; 0x3c; 0x59; 0xd7; 0xe0; 0xc0; 0x89; 0xc0].
Proof. vm_compute. reflexivity. Qed.
Example mdfour_abc :
  Md4.mdfour [97; 98; 99] = [0xa4; 0x48; 0x01; 0x7a; 0xaf; 0x21; 0xd8; 0x52; 0x5f; 0xc1; 0x0a; 0xe8; 0x7a; 0xa6; 0x72; 0x9d].
Proof. vm_compute. reflexivity. Qed.
Example md4_spec_abc : md_hash md4_spec [97; 98; 99] = Md4.mdfour [97; 98; 99].
Proof. vm_compute. reflexivity. Qed.

(** ** Refinement *)

Lemma land_ones_u32 x : Z.land (u32 x) 0xFFFFFFFF = u32 x.
Proof. unfold u32. change 0xFFFFFFFF with (Z.ones 32). rewrite Z.land_ones by done. by rewrite Z.mod_mod. Qed.

Lemma lshift_rol x s : Md4.lshift (u32 x) s = rol32 (u32 x) s.
Proof. unfold Md4.lshift. by rewrite !land_ones_u32. Qed.

Lemma add32_nested a b c : add32 (add32 a b) c = u32 (a + b + c).
Proof. by rewrite add32_add_l. Qed.

(** A round macro on the register [a] is a reference step up to the rotation of
    the registers; four macros in a row restore the order. *)
Section rounds.
Context (X : list Z).

Definition quad (op : reg -> reg -> reg -> reg -> nat -> Z -> regs -> regs)
    (ks : nat * nat * nat * nat) (ss : Z * Z * Z * Z) : list (regs -> regs) :=
  let '(k1, k2, k3, k4) := ks in
  let '(s1, s2, s3, s4) := ss in
  [op RA RB RC RD k1 s1; op RD RA RB RC k2 s2; op RC RD RA RB k3 s3; op RB RC RD RA k4 s4].

Definition gen_step (f : Z -> Z -> Z -> Z) (c : Z) (k : nat) (s : Z) (st : regs) : regs :=
  Regs (rD st) (rol32 (u32 (rA st + f (rB st) (rC st) (rD st) + X !!! k + c)) s) (rB st) (rC st).

Definition op_like (op : reg -> reg -> reg -> reg -> nat -> Z -> regs -> regs)
    (f : Z -> Z -> Z -> Z) (c : Z) : Prop :=
  forall ra rb rc rd k s st,
    op ra rb rc rd k s st =
    set ra (rol32 (u32 (get ra st + f (get rb st) (get rc st) (get rd st) + X !!! k + c)) s) st.

Lemma ROUND1_like : op_like (Md4.ROUND1 X) Md4.F 0.
Proof. intros ra rb rc rd k s st. unfold Md4.ROUND1. by rewrite add32_nested, lshift_rol, Z.add_0_r. Qed.
Lemma ROUND2_like : op_like (Md4.ROUND2 X) Md4.G 0x5A827999.
Proof.
  intros ra rb rc rd k s st. unfold Md4.ROUND2. rewrite add32_nested.
  unfold add32 at 1. rewrite lshift_rol. unfold add32, u32.
  by rewrite <- (Z.add_assoc (_ mod _)), Z.add_mod_idemp_l, Z.add_assoc.
Qed.
Lemma ROUND3_like : op_like (Md4.ROUND3 X) Md4.H 0x6ED9EBA1.
Proof.
  intros ra rb rc rd k s st. unfold Md4.ROUND3. rewrite add32_nested.
  unfold add32 at 1. rewrite lshift_rol. unfold add32, u32.
  by rewrite <- (Z.add_assoc (_ mod _)), Z.add_mod_idemp_l, Z.add_assoc.
Qed.

Lemma md4_quad_steps op f c k1 k2 k3 k4 s1 s2 s3 s4 st :
  op_like op f c ->
  fold_left (fun st round => round st) (quad op (k1, k2, k3, k4) (s1, s2, s3, s4)) st =
  gen_step f c k4 s4 (gen_step f c k3 s3 (gen_step f c k2 s2 (gen_step f c k1 s1 st))).
Proof.
  intros Hop. unfold quad. cbn [fold_left]. rewrite !Hop.
  destruct st. reflexivity.
Qed.

Lemma md4_gen_step_rfc f c k s i st st' :
  st = st' -> rfc1320_fun i = f -> rfc1320_const i = c -> rfc1320_words !!! i = k ->
  rfc1320_shift i = s -> gen_step f c k s st = rfc1320_step X st' i.
Proof. by intros -> <- <- <- <-. Qed.

Lemma rounds_rfc st :
  fold_left (fun st round => round st) (Md4.rounds X) st = fold_left (rfc1320_step X) (seq 0 48) st.
Proof.
  change (Md4.rounds X) with
    (quad (Md4.ROUND1 X) (0, 1, 2, 3)%nat (3, 7, 11, 19) ++
     quad (Md4.ROUND1 X) (4, 5, 6, 7)%nat (3, 7, 11, 19) ++
     quad (Md4.ROUND1 X) (8, 9, 10, 11)%nat (3, 7, 11, 19) ++
     quad (Md4.ROUND1 X) (12, 13, 14, 15)%nat (3, 7, 11, 19) ++
     quad (Md4.ROUND2 X) (0, 4, 8, 12)%nat (3, 5, 9, 13) ++
     quad (Md4.ROUND2 X) (1, 5, 9, 13)%nat (3, 5, 9, 13) ++
     quad (Md4.ROUND2 X) (2, 6, 10, 14)%nat (3, 5, 9, 13) ++
     quad (Md4.ROUND2 X) (3, 7, 11, 15)%nat (3, 5, 9, 13) ++
     quad (Md4.ROUND3 X) (0, 8, 4, 12)%nat (3, 9, 11, 15) ++
     quad (Md4.ROUND3 X) (2, 10, 6, 14)%nat (3, 9, 11, 15) ++
     quad (Md4.ROUND3 X) (1, 9, 5, 13)%nat (3, 9, 11, 15) ++
     quad (Md4.ROUND3 X) (3, 11, 7, 15)%nat (3, 9, 11, 15)).
  rewrite !fold_left_app.
  rewrite !(md4_quad_steps _ _ _ _ _ _ _ _ _ _ _ _ ROUND1_like).
  rewrite !(md4_quad_steps _ _ _ _ _ _ _ _ _ _ _ _ ROUND2_like).
  rewrite !(md4_quad_steps _ _ _ _ _ _ _ _ _ _ _ _ ROUND3_like).
  cbn [fold_left seq].
  repeat (apply md4_gen_step_rfc; [|reflexivity..]). reflexivity.
Qed.
End rounds.

Lemma copy4_le32 x : Md4.copy4 x = le32 x.
Proof. by rewrite le32_explicit. Qed.

Lemma copy64_words l : (64 <= length l)%nat -> Md4.copy64 l = le_words 16 l.
Proof.
  intros Hl. rewrite le_words_seq. unfold Md4.copy64. apply list_fmap_ext.
  intros j i [-> Hj]%lookup_seq. rewrite slice4, of_le4 by lia.
  rewrite Nat.add_0_r, Z.shiftl_0_r. bitwise.
Qed.

Lemma mdfour64_rfc s l : (64 <= length l)%nat -> Md4.mdfour64 s (Md4.copy64 l) = rfc1320_compress s (take 64 l).
Proof.
  intros Hl. rewrite copy64_words by done.
  assert (le_words 16 l = le_words 16 (take 64 l)) as ->.
  { unfold le_words. rewrite <- (take_drop 64 l) at 1. rewrite blocks_prefix; [done|]. rewrite length_take. lia. }
  unfold Md4.mdfour64, rfc1320_compress. rewrite take_ge by (by unfold le_words; rewrite length_fmap, length_blocks).
  rewrite rounds_rfc. unfold Md4.mask32, regs_add, add32. cbn [rA rB rC rD]. by rewrite !land_ones_u32.
Qed.

Lemma mdfour_loop_blocks fuel st inp :
  (length inp <= fuel)%nat ->
  let q := ((length inp - 1) / 64)%nat in
  Md4.mdfour_loop fuel st inp = (fold_left rfc1320_compress (blocks 64 q inp) st, drop (64 * q) inp).
Proof.
  revert st inp. induction fuel as [|fuel IH]; intros st inp Hf q; cbn [Md4.mdfour_loop].
  - destruct inp; [done|simpl in Hf; lia].
  - case_decide as Hn.
    + rewrite IH by (rewrite length_drop; lia). rewrite length_drop, drop_drop.
      assert (q = S ((length inp - 64 - 1) / 64)) as -> by (unfold q; dlia).
      cbn [blocks fold_left]. rewrite mdfour64_rfc by lia. do 2 f_equal. lia.
    + assert (q = 0%nat) as -> by (unfold q; dlia). done.
Qed.

Lemma md4_length_field n :
  0 <= n -> 8 * n < 2 ^ 32 -> Z_to_little_endian 8 8 (8 * n) = le32 (u32 (8 * n)) ++ replicate 4 0.
Proof.
  intros H0 Hn. rewrite u32_id by (unfold is_u; lia).
  assert (is_u32 (8 * n)) as Hr by (unfold is_u; lia).
  rewrite <- (of_le32 _ Hr) at 1.
  rewrite <- (Z_to_little_endian_to_Z 8 8 (le32 (8 * n) ++ replicate 4 0)); [|by rewrite length_app, length_le32|done|].
  - f_equal.
  - rewrite Forall_app. split; [apply le32_bytes|by apply replicate_bytes].
Qed.

Lemma md4_padding_le32 n :
  Z.of_nat n < 2 ^ 28 ->
  md_padding md4_spec n =
  0x80 :: replicate ((119 - n mod 64) mod 64) 0 ++ le32 (u32 (8 * Z.of_nat n)) ++ replicate 4 0.
Proof. intros. unfold md_padding. cbn [md_length md4_spec]. rewrite md4_length_field by lia. done. Qed.

Lemma copy4_regs s :
  Md4.copy4 (rA s) ++ Md4.copy4 (rB s) ++ Md4.copy4 (rC s) ++ Md4.copy4 (rD s) = regs_le s.
Proof. unfold regs_le. by rewrite (copy4_le32 (rA s)), (copy4_le32 (rB s)), (copy4_le32 (rC s)), (copy4_le32 (rD s)). Qed.

(** The last one ([k = 64]) or two ([k = 128]) blocks of the padded message. *)
Definition final_buf (rest : list Z) (b : Z) (k : nat) : list Z :=
  splice (k - 8) (Md4.copy4 b) (<[length rest := 0x80]> (splice 0 rest (replicate 128 0))).

Lemma take_final_buf (rest : list Z) (b : Z) (k : nat) :
  (length rest <= k - 9)%nat -> (k = 64 \/ k = 128)%nat ->
  take k (final_buf rest b k) =
    rest ++ 0x80 :: replicate (k - length rest - 9) 0 ++ le32 b ++ replicate 4 0 /\
  length (final_buf rest b k) = 128%nat.
Proof.
  intros Hr Hk. unfold final_buf. pose proof (length_le32 b) as Hb. rewrite (copy4_le32 b).
  rewrite insert_pad, splice_pad, Hb by lia. split; [|len_norm; rewrite Hb; lia].
  replace (k - 8 - length rest - 1)%nat with (k - length rest - 9)%nat by lia.
  replace (length rest + 1 + (128 - length rest - 1) - (k - 8) - 4)%nat with (4 + (128 - k))%nat by lia.
  rewrite replicate_add.
  change (0x80 :: ?a ++ ?b ++ ?c ++ ?d) with ((0x80 :: a) ++ b ++ c ++ d).
  rewrite !app_assoc, <- (app_assoc _ (le32 b)). rewrite take_app_length'; [by rewrite <- !app_assoc|].
  len_norm. rewrite Hb. lia.
Qed.

Lemma mdfour_rfc inp : Z.of_nat (length inp) < 2 ^ 28 -> Md4.mdfour inp = md_hash md4_spec inp.
Proof.
  intros Hlen. unfold Md4.mdfour, md_hash. cbv zeta.
  rewrite (mdfour_loop_blocks (length inp)) by done. cbv beta iota.
  rewrite copy4_regs.
  set (q := ((length inp - 1) / 64)%nat). set (rest := drop (64 * q) inp).
  assert (length rest = length inp - 64 * q)%nat as Hr by apply length_drop.
  rewrite (md_absorb_split md4_spec q rest inp) by (done || (unfold q in *; dlia)).
  rewrite md4_padding_le32 by done. cbn [md_output md4_spec md_compress md_iv].
  set (b := u32 (8 * Z.of_nat (length inp))). pose proof (length_le32 b) as Hb.
  assert (length rest <= 64)%nat by (unfold q in *; dlia).
  set (st := fold_left rfc1320_compress _ _). f_equal.
  case_decide as Hn.
  - change (splice 56 _ _) with (final_buf rest b 64).
    destruct (take_final_buf rest b 64) as [Ht Hl]; [lia..|].
    rewrite mdfour64_rfc, Ht by lia.
    replace ((119 - length inp mod 64) mod 64)%nat with (64 - length rest - 9)%nat by (unfold q in *; dlia).
    replace ((length rest + _) / 64)%nat with 1%nat by (len_norm; rewrite Hb; dlia).
    cbn [blocks fold_left]. rewrite take_ge; [done|]. len_norm. rewrite Hb. lia.
  - change (splice 120 _ _) with (final_buf rest b 128).
    destruct (take_final_buf rest b 128) as [Ht Hl]; [lia..|].
    rewrite !mdfour64_rfc by (len_norm; lia).
    replace ((119 - length inp mod 64) mod 64)%nat with (128 - length rest - 9)%nat by (unfold q in *; dlia).
    replace ((length rest + _) / 64)%nat with 2%nat by (len_norm; rewrite Hb; dlia).
    rewrite <- Ht. cbn [blocks fold_left]. rewrite take_take, !take_drop_commute, take_take. done.
Qed.

Lemma md4_digest m : bytes (md_hash md4_spec m) /\ length (md_hash md4_spec m) = 16%nat.
Proof. split; [apply regs_le_bytes|apply regs_le_length]. Qed.

(** [mdfour] computes the MD4 digest of RFC 1320 of every input shorter than
    2^28 bytes, whatever the alignment of its end with the 64-byte blocks: the
    unrolled rounds are the table-driven reference steps, the loop and the one or
    two final blocks are the padded message.  (Beyond 2^28 bytes the [int]
    product [n * 8] overflows.) *)
Theorem mdfour_refines_rfc1320 inp :
  Z.of_nat (length inp) < 2 ^ 28 -> Md4.mdfour inp = md_hash md4_spec inp.
Proof. apply mdfour_rfc. Qed.

Lemma mdfour_refines_rfc1320_witness :
  Z.of_nat (length [97; 98; 99]) < 2 ^ 28 /\ Md4.mdfour [97; 98; 99] = md_hash md4_spec [97; 98; 99].
Proof. split; [by_eval | apply mdfour_refines_rfc1320; by_eval]. Defined.
