(* ===== verification/Md5.v ===== *)
(** lib/crypto/md5.c: the streaming MD5 digest, on a host of either endianness,
    and its refinement of RFC 1321. *)

From S2P Require Import Prelude Digest.

(** The byte order of the machine, which the code meets where it views the block
    buffer as an array of [uint32_t] and back. *)
Class Host := host_big_endian : bool.

Definition native_store `{Host} (t : Z) : list Z := if host_big_endian then rev (le32 t) else le32 t.
Definition native_load `{Host} (l : list Z) : Z := of_le (if host_big_endian then rev l else l).

Lemma native_load_store `{Host} t : is_u32 t -> native_load (native_store t) = t.
Proof.
  intros. unfold native_load, native_store. destruct host_big_endian; [rewrite rev_involutive|]; by apply of_le32.
Qed.

Lemma length_native_store `{Host} t : length (native_store t) = 4%nat.
Proof. unfold native_store. destruct host_big_endian; [rewrite length_rev|]; apply length_le32. Qed.

Module Md5.
Section md5.
Context `{Host}.

(** struct MD5Context: [buf] holds four words, [in] is raw memory. *)
Record MD5Context := Ctx { buf : regs; bits0 : Z; bits1 : Z; inb : list Z }.

(** One group of four bytes becomes the native word of its little-endian value. *)
Definition byteReverse1 (b : list Z) : list Z :=
  native_store (Z.lor (u32 (Z.shiftl (Z.lor (Z.shiftl (b !!! 3%nat) 8) (b !!! 2%nat)) 16))
                      (Z.lor (Z.shiftl (b !!! 1%nat) 8) (b !!! 0%nat))).

(** The first [longs] groups of the buffer. *)
Definition byteReverse (b : list Z) (longs : nat) : list Z :=
  concat (byteReverse1 <$> blocks 4 longs b) ++ drop (4 * longs) b.

Definition words_of (b : list Z) : list Z := native_load <$> blocks 4 16 b.

Definition F1 (x y z : Z) : Z := Z.lxor z (Z.land x (Z.lxor y z)).
Definition F2 (x y z : Z) : Z := F1 z x y.
Definition F3 (x y z : Z) : Z := Z.lxor (Z.lxor x y) z.
Definition F4 (x y z : Z) : Z := Z.lxor y (Z.lor x (not32 z)).

Definition MD5STEP (f : Z -> Z -> Z -> Z) (w x y z : reg) (data s : Z) (st : regs) : regs :=
  let v := add32 (get w st) (add32 (f (get x st) (get y st) (get z st)) data) in
  let v := Z.lor (u32 (Z.shiftl v s)) (Z.shiftr v (32 - s)) in
  let v := add32 v (get x st) in
  set w v st.

Definition steps (X : list Z) : list (regs -> regs) :=
  let a := RA in let b := RB in let c := RC in let d := RD in
  let inw (k : nat) (t : Z) := add32 (X !!! k) t in
  [ MD5STEP F1 a b c d (inw 0%nat 0xd76aa478) 7;   MD5STEP F1 d a b c (inw 1%nat 0xe8c7b756) 12;
    MD5STEP F1 c d a b (inw 2%nat 0x242070db) 17;  MD5STEP F1 b c d a (inw 3%nat 0xc1bdceee) 22;
    MD5STEP F1 a b c d (inw 4%nat 0xf57c0faf) 7;   MD5STEP F1 d a b c (inw 5%nat 0x4787c62a) 12;
    MD5STEP F1 c d a b (inw 6%nat 0xa8304613) 17;  MD5STEP F1 b c d a (inw 7%nat 0xfd469501) 22;
    MD5STEP F1 a b c d (inw 8%nat 0x698098d8) 7;   MD5STEP F1 d a b c (inw 9%nat 0x8b44f7af) 12;
    MD5STEP F1 c d a b (inw 10%nat 0xffff5bb1) 17; MD5STEP F1 b c d a (inw 11%nat 0x895cd7be) 22;
    MD5STEP F1 a b c d (inw 12%nat 0x6b901122) 7;  MD5STEP F1 d a b c (inw 13%nat 0xfd987193) 12;
    MD5STEP F1 c d a b (inw 14%nat 0xa679438e) 17; MD5STEP F1 b c d a (inw 15%nat 0x49b40821) 22;

    MD5STEP F2 a b c d (inw 1%nat 0xf61e2562) 5;   MD5STEP F2 d a b c (inw 6%nat 0xc040b340) 9;
    MD5STEP F2 c d a b (inw 11%nat 0x265e5a51) 14; MD5STEP F2 b c d a (inw 0%nat 0xe9b6c7aa) 20;
    MD5STEP F2 a b c d (inw 5%nat 0xd62f105d) 5;   MD5STEP F2 d a b c (inw 10%nat 0x02441453) 9;
    MD5STEP F2 c d a b (inw 15%nat 0xd8a1e681) 14; MD5STEP F2 b c d a (inw 4%nat 0xe7d3fbc8) 20;
    MD5STEP F2 a b c d (inw 9%nat 0x21e1cde6) 5;   MD5STEP F2 d a b c (inw 14%nat 0xc33707d6) 9;
    MD5STEP F2 c d a b (inw 3%nat 0xf4d50d87) 14;  MD5STEP F2 b c d a (inw 8%nat 0x455a14ed) 20;
    MD5STEP F2 a b c d (inw 13%nat 0xa9e3e905) 5;  MD5STEP F2 d a b c (inw 2%nat 0xfcefa3f8) 9;
    MD5STEP F2 c d a b (inw 7%nat 0x676f02d9) 14;  MD5STEP F2 b c d a (inw 12%nat 0x8d2a4c8a) 20;

    MD5STEP F3 a b c d (inw 5%nat 0xfffa3942) 4;   MD5STEP F3 d a b c (inw 8%nat 0x8771f681) 11;
    MD5STEP F3 c d a b (inw 11%nat 0x6d9d6122) 16; MD5STEP F3 b c d a (inw 14%nat 0xfde5380c) 23;
    MD5STEP F3 a b c d (inw 1%nat 0xa4beea44) 4;   MD5STEP F3 d a b c (inw 4%nat 0x4bdecfa9) 11;
    MD5STEP F3 c d a b (inw 7%nat 0xf6bb4b60) 16;  MD5STEP F3 b c d a (inw 10%nat 0xbebfbc70) 23;
    MD5STEP F3 a b c d (inw 13%nat 0x289b7ec6) 4;  MD5STEP F3 d a b c (inw 0%nat 0xeaa127fa) 11;
    MD5STEP F3 c d a b (inw 3%nat 0xd4ef3085) 16;  MD5STEP F3 b c d a (inw 6%nat 0x04881d05) 23;
    MD5STEP F3 a b c d (inw 9%nat 0xd9d4d039) 4;   MD5STEP F3 d a b c (inw 12%nat 0xe6db99e5) 11;
    MD5STEP F3 c d a b (inw 15%nat 0x1fa27cf8) 16; MD5STEP F3 b c d a (inw 2%nat 0xc4ac5665) 23;

    MD5STEP F4 a b c d (inw 0%nat 0xf4292244) 6;   MD5STEP F4 d a b c (inw 7%nat 0x432aff97) 10;
    MD5STEP F4 c d a b (inw 14%nat 0xab9423a7) 15; MD5STEP F4 b c d a (inw 5%nat 0xfc93a039) 21;
    MD5STEP F4 a b c d (inw 12%nat 0x655b59c3) 6;  MD5STEP F4 d a b c (inw 3%nat 0x8f0ccc92) 10;
    MD5STEP F4 c d a b (inw 10%nat 0xffeff47d) 15; MD5STEP F4 b c d a (inw 1%nat 0x85845dd1) 21;
    MD5STEP F4 a b c d (inw 8%nat 0x6fa87e4f) 6;   MD5STEP F4 d a b c (inw 15%nat 0xfe2ce6e0) 10;
    MD5STEP F4 c d a b (inw 6%nat 0xa3014314) 15;  MD5STEP F4 b c d a (inw 13%nat 0x4e0811a1) 21;
    MD5STEP F4 a b c d (inw 4%nat 0xf7537e82) 6;   MD5STEP F4 d a b c (inw 11%nat 0xbd3af235) 10;
    MD5STEP F4 c d a b (inw 2%nat 0x2ad7d2bb) 15;  MD5STEP F4 b c d a (inw 9%nat 0xeb86d391) 21 ].

Definition MD5Transform (b : regs) (inw : list Z) : regs :=
  regs_add b (fold_left (fun st step => step st) (steps inw) b).

Definition MD5Init : MD5Context :=
  Ctx (Regs 0x67452301 0xefcdab89 0x98badcfe 0x10325476) 0 0 (replicate 64 0).

(** byteReverse(ctx->in, 16); MD5Transform(ctx->buf, (uint32_t * ) ctx->in) *)
Definition transform_in (ctx : MD5Context) : MD5Context :=
  let inb := byteReverse (inb ctx) 16 in
  Ctx (MD5Transform (buf ctx) (words_of inb)) (bits0 ctx) (bits1 ctx) inb.

Definition set_in (ctx : MD5Context) (l : list Z) : MD5Context := Ctx (buf ctx) (bits0 ctx) (bits1 ctx) l.

(** [while (len >= 64)] and the remaining bytes; [length b] is enough fuel. *)
Fixpoint update_loop (fuel : nat) (ctx : MD5Context) (b : list Z) : MD5Context :=
  match fuel with
  | O => set_in ctx (splice 0 b (inb ctx))
  | S fuel =>
      if decide (64 <= length b)%nat
      then update_loop fuel (transform_in (set_in ctx (splice 0 (take 64 b) (inb ctx)))) (drop 64 b)
      else set_in ctx (splice 0 b (inb ctx))
  end.

Definition MD5Update (ctx : MD5Context) (b : list Z) : MD5Context :=
  let len := Z.of_nat (length b) in
  let t := bits0 ctx in
  let n0 := u32 (t + u32 (Z.shiftl (u32 len) 3)) in
  let n1 := if decide (n0 < t) then u32 (bits1 ctx + 1) else bits1 ctx in
  let n1 := u32 (n1 + Z.shiftr len 29) in
  let ctx := Ctx (buf ctx) n0 n1 (inb ctx) in
  let t := Z.to_nat (Z.land (Z.shiftr t 3) 0x3f) in
  if decide (t = 0)%nat then update_loop (length b) ctx b
  else
    let room := (64 - t)%nat in
    if decide (length b < room)%nat then set_in ctx (splice t b (inb ctx))
    else
      let ctx := transform_in (set_in ctx (splice t (take room b) (inb ctx))) in
      update_loop (length b) ctx (drop room b).

(** The first part of MD5Final: the 1 bit and the zeros up to the last 8 bytes of
    a block, with one more transform when fewer than 8 bytes are left. *)
Definition final_pad (ctx : MD5Context) : MD5Context :=
  let count := Z.to_nat (Z.land (Z.shiftr (bits0 ctx) 3) 0x3F) in
  let inp := <[count := 0x80]> (inb ctx) in
  let p := S count in
  let count := (64 - 1 - count)%nat in
  if decide (count < 8)%nat then
    let ctx := transform_in (set_in ctx (splice p (replicate count 0) inp)) in
    set_in ctx (splice 0 (replicate 56 0) (inb ctx))
  else set_in ctx (splice p (replicate (count - 8) 0) inp).

(** The digest and the context left behind: [memset(ctx, 0, sizeof(ctx))] clears
    the eight bytes of a pointer, that is [buf[0]] and [buf[1]]. *)
Definition MD5Final (ctx : MD5Context) : list Z * MD5Context :=
  let ctx := final_pad ctx in
  let inp := byteReverse (inb ctx) 14 in
  let inp := splice 56 (native_store (bits0 ctx)) inp in
  let inp := splice 60 (native_store (bits1 ctx)) inp in
  let b := MD5Transform (buf ctx) (words_of inp) in
  let digest := byteReverse (native_store (rA b) ++ native_store (rB b)
                             ++ native_store (rC b) ++ native_store (rD b)) 4 in
  (digest, Ctx (Regs 0 0 (native_load (slice 8 4 digest)) (native_load (slice 12 4 digest)))
               (bits0 ctx) (bits1 ctx) inp).

End md5.
End Md5.

(** ** RFC 1321 *)

Definition rfc1321_T : list Z :=
  [0xd76aa478; 0xe8c7b756; 0x242070db; 0xc1bdceee; 0xf57c0faf; 0x4787c62a; 0xa8304613; 0xfd469501;
   0x698098d8; 0x8b44f7af; 0xffff5bb1; 0x895cd7be; 0x6b901122; 0xfd987193; 0xa679438e; 0x49b40821;
   0xf61e2562; 0xc040b340; 0x265e5a51; 0xe9b6c7aa; 0xd62f105d; 0x02441453; 0xd8a1e681; 0xe7d3fbc8;
   0x21e1cde6; 0xc33707d6; 0xf4d50d87; 0x455a14ed; 0xa9e3e905; 0xfcefa3f8; 0x676f02d9; 0x8d2a4c8a;
   0xfffa3942; 0x8771f681; 0x6d9d6122; 0xfde5380c; 0xa4beea44; 0x4bdecfa9; 0xf6bb4b60; 0xbebfbc70;
   0x289b7ec6; 0xeaa127fa; 0xd4ef3085; 0x04881d05; 0xd9d4d039; 0xe6db99e5; 0x1fa27cf8; 0xc4ac5665;
   0xf4292244; 0x432aff97; 0xab9423a7; 0xfc93a039; 0x655b59c3; 0x8f0ccc92; 0xffeff47d; 0x85845dd1;
   0x6fa87e4f; 0xfe2ce6e0; 0xa3014314; 0x4e0811a1; 0xf7537e82; 0xbd3af235; 0x2ad7d2bb; 0xeb86d391].

(** Step [i]: its word index, shift and function. *)
Definition rfc1321_word (i : nat) : nat :=
  match (i / 16)%nat with
  | 0%nat => i | 1%nat => ((5 * i + 1) mod 16)%nat | 2%nat => ((3 * i + 5) mod 16)%nat | _ => (7 * i mod 16)%nat
  end.

Definition rfc1321_shift (i : nat) : Z :=
  match (i / 16)%nat with
  | 0%nat => [7; 12; 17; 22] !!! (i mod 4)%nat
  | 1%nat => [5; 9; 14; 20] !!! (i mod 4)%nat
  | 2%nat => [4; 11; 16; 23] !!! (i mod 4)%nat
  | _ => [6; 10; 15; 21] !!! (i mod 4)%nat
  end.

Definition rfc1321_fun (i : nat) (x y z : Z) : Z :=
  match (i / 16)%nat with
  | 0%nat => Z.lor (Z.land x y) (Z.land (not32 x) z)
  | 1%nat => Z.lor (Z.land x z) (Z.land y (not32 z))
  | 2%nat => Z.lxor (Z.lxor x y) z
  | _ => Z.lxor y (Z.lor x (not32 z))
  end.

Definition rfc1321_step (X : list Z) (s : regs) (i : nat) : regs :=
  Regs (rD s)
       (u32 (rB s + rol32 (u32 (rA s + rfc1321_fun i (rB s) (rC s) (rD s)
                                + X !!! (rfc1321_word i mod 16)%nat + rfc1321_T !!! i)) (rfc1321_shift i)))
       (rB s) (rC s).

Definition rfc1321_compress (s : regs) (block : list Z) : regs :=
  regs_add s (fold_left (rfc1321_step (le_words 16 block)) (seq 0 64) s).

Definition md5_spec : md_spec :=
  MdSpec regs (Regs 0x67452301 0xefcdab89 0x98badcfe 0x10325476)
         rfc1321_compress (fun n => Z_to_little_endian 8 8 (u64 n)) regs_le.

Example md5_abc (H : Host) :
  fst (Md5.MD5Final (Md5.MD5Update Md5.MD5Init [97; 98; 99])) =
  [0x90; 0x01; 0x50; 0x98; 0x3c; 0xd2; 0x4f; 0xb0; 0xd6; 0x96; 0x3f; 0x7d; 0x28; 0xe1; 0x7f; 0x72].
Proof. destruct H; vm_compute; reflexivity. Qed.
Example md5_spec_abc : md_hash md5_spec [97; 98; 99] =
  [0x90; 0x01; 0x50; 0x98; 0x3c; 0xd2; 0x4f; 0xb0; 0xd6; 0x96; 0x3f; 0x7d; 0x28; 0xe1; 0x7f; 0x72].
Proof. vm_compute. reflexivity. Qed.

(** ** The block transform *)

Section transform.
Context `{Host}.
Import Md5.

Lemma byteReverse1_le b : length b = 4%nat -> bytes b -> byteReverse1 b = native_store (of_le b).
Proof.
  intros Hl Hb. destruct b as [|b0 [|b1 [|b2 [|b3 [|]]]]]; try done.
  unfold byteReverse1. cbn [lookup_total list_lookup_total]. f_equal.
  rewrite of_le4. rewrite !Forall_cons_iff in Hb. destruct Hb as (H0 & H1 & H2 & H3 & _).
  rewrite u32_id.
  - rewrite Z.shiftl_lor, Z.shiftl_shiftl by done. change (8 + 16) with 24. bitwise.
  - apply is_u_shiftl with 16; [done..|]. apply is_u_lor; [done|apply is_u_shiftl with 8; done|].
    by apply is_u_mono with 8.
Qed.

Lemma byteReverse_blocks l n :
  (4 * n <= length l)%nat -> bytes l ->
  byteReverse l n = concat ((fun b => native_store (of_le b)) <$> blocks 4 n l) ++ drop (4 * n) l.
Proof.
  intros Hl Hb. unfold byteReverse. do 2 f_equal. apply list_fmap_ext. intros i b Hi.
  apply byteReverse1_le.
  - eapply Forall_lookup_1 in Hi; [|by apply (blocks_lengths 4)]. done.
  - eapply Forall_lookup_1 in Hi; [|by apply (Forall_blocks is_byte 4)]. done.
Qed.

Lemma native_store_bytes t : bytes (native_store t).
Proof. unfold native_store. destruct host_big_endian; [apply Forall_rev|]; apply le32_bytes. Qed.

Lemma native_blocks_lengths (ls : list (list Z)) :
  Forall (fun b => length b = 4%nat) ((fun b => native_store (of_le b)) <$> ls).
Proof. apply Forall_fmap, Forall_true. intros. apply length_native_store. Qed.

Lemma length_byteReverse l n :
  (4 * n <= length l)%nat -> bytes l -> length (byteReverse l n) = length l.
Proof.
  intros Hl Hb. rewrite byteReverse_blocks by done.
  rewrite length_app, (length_concat_blocks 4), length_fmap, length_blocks, length_drop
    by apply native_blocks_lengths. lia.
Qed.

Lemma byteReverse_bytes l n : (4 * n <= length l)%nat -> bytes l -> bytes (byteReverse l n).
Proof.
  intros Hl Hb. rewrite byteReverse_blocks by done. apply Forall_app; split; [|by apply Forall_drop].
  apply Forall_concat, Forall_fmap, Forall_true. intros. apply native_store_bytes.
Qed.

Lemma native_words n l :
  (4 * n <= length l)%nat -> bytes l ->
  native_load <$> ((fun b => native_store (of_le b)) <$> blocks 4 n l) = le_words n l.
Proof.
  intros Hl Hb. unfold le_words. rewrite <- list_fmap_compose. apply list_fmap_ext.
  intros i b Hi. unfold compose. apply native_load_store, of_le_range.
  - eapply Forall_lookup_1 in Hi; [|by apply (Forall_blocks is_byte 4)]. done.
  - eapply Forall_lookup_1 in Hi; [|by apply (blocks_lengths 4)]. done.
Qed.

(** Whatever the host, the transform sees the little-endian words of the block. *)
Lemma words_of_byteReverse l :
  length l = 64%nat -> bytes l -> words_of (byteReverse l 16) = le_words 16 l.
Proof.
  intros Hl Hb. rewrite byteReverse_blocks by (lia || done). unfold words_of.
  rewrite <- (native_words 16 l) by (lia || done). f_equal.
  pose proof (blocks_concat 4 _ (drop (4 * 16) l) (native_blocks_lengths (blocks 4 16 l))) as Hbl.
  by rewrite length_fmap, length_blocks in Hbl.
Qed.

(** The optimised functions are those of the RFC on 32-bit words. *)
Lemma F1_rfc x y z : is_u32 x -> is_u32 z -> F1 x y z = Z.lor (Z.land x y) (Z.land (not32 x) z).
Proof.
  intros Hx Hz. unfold F1, not32. apply Z.bits_inj'; intros i Hi. bits_step.
  destruct (decide (32 <= i)).
  - rewrite (is_u_testbit 32 x), (is_u_testbit 32 z) by done. by rewrite !andb_false_r.
  - rewrite Z.ones_spec_low by lia. bool_cases.
Qed.

Lemma F2_rfc x y z : is_u32 y -> is_u32 z -> F2 x y z = Z.lor (Z.land x z) (Z.land y (not32 z)).
Proof.
  intros Hy Hz. unfold F2. rewrite F1_rfc by done. by rewrite (Z.land_comm x z), (Z.land_comm y).
Qed.

Definition op_like (fc fr : Z -> Z -> Z -> Z) : Prop :=
  forall x y z, is_u32 x -> is_u32 y -> is_u32 z -> fc x y z = fr x y z.

Definition quad (fc : Z -> Z -> Z -> Z) (inw : nat -> Z -> Z) (ks : nat * nat * nat * nat)
    (ts : Z * Z * Z * Z) (ss : Z * Z * Z * Z) : list (regs -> regs) :=
  let '(k1, k2, k3, k4) := ks in let '(s1, s2, s3, s4) := ss in let '(t1, t2, t3, t4) := ts in
  [ MD5STEP fc RA RB RC RD (inw k1 t1) s1; MD5STEP fc RD RA RB RC (inw k2 t2) s2;
    MD5STEP fc RC RD RA RB (inw k3 t3) s3; MD5STEP fc RB RC RD RA (inw k4 t4) s4 ].

(** The value a step assigns. *)
Definition stepval (X : list Z) (f : Z -> Z -> Z -> Z) (k : nat) (t s a b c d : Z) : Z :=
  u32 (b + rol32 (u32 (a + f b c d + X !!! k + t)) s).

Definition gen_step (X : list Z) (f : Z -> Z -> Z -> Z) (k : nat) (t s : Z) (st : regs) : regs :=
  Regs (rD st) (stepval X f k t s (rA st) (rB st) (rC st) (rD st)) (rB st) (rC st).

Definition gen_quad (X : list Z) (f : Z -> Z -> Z -> Z) (ks : nat * nat * nat * nat)
    (ts : Z * Z * Z * Z) (ss : Z * Z * Z * Z) : list (regs -> regs) :=
  let '(k1, k2, k3, k4) := ks in let '(s1, s2, s3, s4) := ss in let '(t1, t2, t3, t4) := ts in
  [gen_step X f k1 t1 s1; gen_step X f k2 t2 s2; gen_step X f k3 t3 s3; gen_step X f k4 t4 s4].

Lemma step_sum a f x t : add32 a (add32 f (add32 x t)) = u32 (a + f + x + t).
Proof.
  unfold add32, u32. rewrite Z.add_mod_idemp_r, Z.add_assoc, Z.add_mod_idemp_r by done. by rewrite Z.add_assoc.
Qed.

Lemma MD5STEP_val X fc fr w x y z k t s st :
  op_like fc fr -> regs_ok st ->
  MD5STEP fc w x y z (add32 (X !!! k) t) s st =
  set w (stepval X fr k t s (get w st) (get x st) (get y st) (get z st)) st.
Proof.
  intros Hf (Ha & Hb & Hc & Hd). unfold MD5STEP. rewrite step_sum.
  assert (forall r, is_u32 (get r st)) as Hr by by intros [].
  rewrite Hf by done. unfold stepval, add32. by rewrite (Z.add_comm (get x st)).
Qed.

Lemma stepval_range X f k t s a b c d : is_u32 (stepval X f k t s a b c d).
Proof. apply u32_range. Qed.

Lemma quad_steps X fc fr ks ts ss st :
  op_like fc fr -> regs_ok st ->
  fold_left (fun st step => step st) (quad fc (fun k t => add32 (X !!! k) t) ks ts ss) st =
  fold_left (fun st step => step st) (gen_quad X fr ks ts ss) st /\
  regs_ok (fold_left (fun st step => step st) (gen_quad X fr ks ts ss) st).
Proof.
  intros Hf Hok. destruct st as [a b c d].
  destruct ks as [[[k1 k2] k3] k4], ts as [[[t1 t2] t3] t4], ss as [[[s1 s2] s3] s4].
  unfold quad, gen_quad. cbn [fold_left].
  rewrite (MD5STEP_val X fc fr RA) by done. unfold gen_step at 4 8. cbn [get set rA rB rC rD].
  pose proof (stepval_range X fr k1 t1 s1 a b c d) as H1. revert H1.
  generalize (stepval X fr k1 t1 s1 a b c d). intros a' Ha'.
  destruct Hok as (Ha & Hb & Hc & Hd). cbn [rA rB rC rD] in *.
  rewrite (MD5STEP_val X fc fr RD) by done. unfold gen_step at 3 6. cbn [get set rA rB rC rD].
  pose proof (stepval_range X fr k2 t2 s2 d a' b c) as H2. revert H2.
  generalize (stepval X fr k2 t2 s2 d a' b c). intros d' Hd'.
  rewrite (MD5STEP_val X fc fr RC) by done. unfold gen_step at 2 4. cbn [get set rA rB rC rD].
  pose proof (stepval_range X fr k3 t3 s3 c d' a' b) as H3. revert H3.
  generalize (stepval X fr k3 t3 s3 c d' a' b). intros c' Hc'.
  rewrite (MD5STEP_val X fc fr RB) by done. unfold gen_step. cbn [get set rA rB rC rD].
  pose proof (stepval_range X fr k4 t4 s4 b c' d' a'). done.
Qed.
Definition quad_row : Type := (Z -> Z -> Z -> Z) * (Z -> Z -> Z -> Z) *
  (nat * nat * nat * nat) * (Z * Z * Z * Z) * (Z * Z * Z * Z).

Lemma quads_steps X (rows : list quad_row) st :
  Forall (fun '(fc, fr, _, _, _) => op_like fc fr) rows -> regs_ok st ->
  fold_left (fun st step => step st)
    (concat ((fun '(fc, _, ks, ts, ss) => quad fc (fun k t => add32 (X !!! k) t) ks ts ss) <$> rows)) st =
  fold_left (fun st step => step st)
    (concat ((fun '(_, fr, ks, ts, ss) => gen_quad X fr ks ts ss) <$> rows)) st.
Proof.
  intros Hrows. revert st. induction Hrows as [|[[[[fc fr] ks] ts] ss] rows Hf _ IH]; intros st Hst; [done|].
  cbn [fmap list_fmap concat]. rewrite !fold_left_app.
  destruct (quad_steps X fc fr ks ts ss st Hf Hst) as [-> Hok]. by apply IH.
Qed.

Definition rfc1321_row (fc : Z -> Z -> Z -> Z) (i : nat) : quad_row :=
  let k j := (rfc1321_word (i + j) mod 16)%nat in
  let t j := rfc1321_T !!! (i + j)%nat in
  let s j := rfc1321_shift (i + j) in
  (fc, rfc1321_fun i, (k 0%nat, k 1%nat, k 2%nat, k 3%nat),
   (t 0%nat, t 1%nat, t 2%nat, t 3%nat), (s 0%nat, s 1%nat, s 2%nat, s 3%nat)).

Definition md5_rows : list quad_row :=
  [rfc1321_row F1 0; rfc1321_row F1 4; rfc1321_row F1 8; rfc1321_row F1 12;
   rfc1321_row F2 16; rfc1321_row F2 20; rfc1321_row F2 24; rfc1321_row F2 28;
   rfc1321_row F3 32; rfc1321_row F3 36; rfc1321_row F3 40; rfc1321_row F3 44;
   rfc1321_row F4 48; rfc1321_row F4 52; rfc1321_row F4 56; rfc1321_row F4 60].

Lemma md5_rows_like : Forall (fun '(fc, fr, _, _, _) => op_like fc fr) md5_rows.
Proof.
  repeat constructor; intros x y z Hx Hy Hz; [by apply F1_rfc|by apply F1_rfc|by apply F1_rfc|by apply F1_rfc|
    by apply F2_rfc|by apply F2_rfc|by apply F2_rfc|by apply F2_rfc|done..].
Qed.

Lemma gen_step_rfc X f k t s i st st' :
  st = st' -> rfc1321_fun i = f -> rfc1321_T !!! i = t -> (rfc1321_word i mod 16)%nat = k ->
  rfc1321_shift i = s -> gen_step X f k t s st = rfc1321_step X st' i.
Proof. by intros -> <- <- <- <-. Qed.

Lemma steps_rfc X st :
  regs_ok st ->
  fold_left (fun st step => step st) (steps X) st = fold_left (rfc1321_step X) (seq 0 64) st.
Proof.
  intros Hst. pose proof (quads_steps X md5_rows st md5_rows_like Hst) as Hq.
  replace (steps X) with
    (concat ((fun '(fc, _, ks, ts, ss) => quad fc (fun k t => add32 (X !!! k) t) ks ts ss) <$> md5_rows))
    by reflexivity.
  rewrite Hq. clear.
  cbn [fmap list_fmap md5_rows rfc1321_row concat gen_quad app fold_left seq Nat.add].
  repeat (apply gen_step_rfc; [|reflexivity..]). reflexivity.
Qed.

Lemma MD5Transform_rfc st block :
  regs_ok st -> MD5Transform st (le_words 16 block) = rfc1321_compress st block.
Proof. intros. unfold MD5Transform, rfc1321_compress. by rewrite steps_rfc. Qed.
End transform.

(** ** Streaming *)

Section streaming.
Context `{Host}.
Import Md5.

(** The abstraction relation: the context has absorbed the message [m].  The
    block part is separate because the loops leave the counters alone. *)
Definition block_rel (ctx : MD5Context) (m : list Z) : Prop :=
  length (inb ctx) = 64%nat /\ bytes (inb ctx) /\
  take (length m mod 64) (inb ctx) = md_tail m /\
  buf ctx = md_absorb md5_spec m /\ regs_ok (buf ctx).

Definition counter_rel (ctx : MD5Context) (n : Z) : Prop :=
  bits0 ctx = u32 (8 * n) /\ bits1 ctx = u32 (8 * n / 2 ^ 32).

Definition md5_rel (ctx : MD5Context) (m : list Z) : Prop :=
  counter_rel ctx (Z.of_nat (length m)) /\ block_rel ctx m.

Lemma md5_init_rel : md5_rel MD5Init [].
Proof.
  split; [done|]. repeat split; try done. by apply replicate_bytes.
Qed.

(** The buffer filled up to a block: one compression, and nothing held back. *)
Lemma transform_in_rel ctx m b :
  block_rel ctx m -> bytes b -> (length m mod 64 + length b = 64)%nat ->
  block_rel (transform_in (set_in ctx (splice (length m mod 64) b (inb ctx)))) (m ++ b).
Proof.
  intros (Hl & Hby & Ht & Hbuf & Hok) Hb Hlen.
  pose proof (length_md_tail m) as Htl.
  destruct (md_absorb_block md5_spec m b) as [Habs Htail]; [lia|].
  assert (splice (length m mod 64) b (inb ctx) = md_tail m ++ b) as ->.
  { unfold splice. rewrite Ht, drop_ge, app_nil_r by lia. done. }
  assert (bytes (md_tail m ++ b)) as Hblk.
  { apply Forall_app; split; [rewrite <- Ht; by apply Forall_take|done]. }
  assert (length (md_tail m ++ b) = 64%nat) as Hblkl by (rewrite length_app; lia).
  unfold transform_in, set_in. cbn [buf inb bits0 bits1].
  split_and!; cbn [buf inb].
  - by rewrite length_byteReverse by (lia || done).
  - apply byteReverse_bytes; [lia|done].
  - rewrite Htail, length_app. replace ((length m + length b) mod 64)%nat with 0%nat by dlia. done.
  - rewrite Habs, words_of_byteReverse, MD5Transform_rfc, Hbuf by done. done.
  - apply regs_add_ok.
Qed.

Lemma store_rel ctx m b :
  block_rel ctx m -> bytes b -> (length m mod 64 + length b < 64)%nat ->
  block_rel (set_in ctx (splice (length m mod 64) b (inb ctx))) (m ++ b).
Proof.
  intros (Hl & Hby & Ht & Hbuf & Hok) Hb Hlen.
  destruct (md_absorb_short md5_spec m b) as [Habs Htail]; [rewrite length_md_tail; lia|].
  unfold set_in. split_and!; cbn [buf inb]; try done.
  - rewrite length_splice; lia.
  - by apply Forall_splice.
  - rewrite Htail, length_app.
    replace ((length m + length b) mod 64)%nat with (length m mod 64 + length b)%nat by dlia.
    rewrite take_splice_all by lia. by rewrite Ht.
  - by rewrite Habs.
Qed.

Lemma bits_transform_in ctx l :
  bits0 (transform_in (set_in ctx l)) = bits0 ctx /\ bits1 (transform_in (set_in ctx l)) = bits1 ctx.
Proof. done. Qed.

Lemma update_loop_rel fuel ctx m b :
  (length b <= fuel)%nat -> block_rel ctx m -> (length m mod 64 = 0)%nat -> bytes b ->
  block_rel (update_loop fuel ctx b) (m ++ b) /\
  bits0 (update_loop fuel ctx b) = bits0 ctx /\ bits1 (update_loop fuel ctx b) = bits1 ctx.
Proof.
  revert ctx m b. induction fuel as [|fuel IH]; intros ctx m b Hf Hrel Hm Hb; cbn [update_loop].
  - split; [|done]. rewrite <- Hm. apply store_rel; [done..|lia].
  - case_decide as Hlen.
    + pose proof (transform_in_rel ctx m (take 64 b) Hrel) as Hstep. rewrite Hm in Hstep.
      specialize (Hstep ltac:(by apply Forall_take) ltac:(len_lia)).
      destruct (IH _ _ (drop 64 b) ltac:(len_lia) Hstep ltac:(len_norm; dlia) ltac:(by apply Forall_drop))
        as (Hr & H0 & H1).
      rewrite <- app_assoc, take_drop in Hr. by rewrite H0, H1.
    + split; [|done]. rewrite <- Hm. apply store_rel; [done..|lia].
Qed.

(** The two counters hold the bit count modulo 2^64. *)
Lemma update_counters n len :
  0 <= n -> 0 <= len ->
  let t := u32 (8 * n) in
  let n0 := u32 (t + u32 (Z.shiftl (u32 len) 3)) in
  let c := if decide (n0 < t) then u32 (u32 (8 * n / 2 ^ 32) + 1) else u32 (8 * n / 2 ^ 32) in
  n0 = u32 (8 * (n + len)) /\ u32 (c + Z.shiftr len 29) = u32 (8 * (n + len) / 2 ^ 32).
Proof.
  intros Hn Hlen. cbv zeta. rewrite (Z.shiftr_div_pow2 len 29) by done.
  assert (u32 (Z.shiftl (u32 len) 3) = u32 (8 * len)) as Hs.
  { rewrite Z.shiftl_mul_pow2 by done. unfold u32. rewrite Z.mul_mod_idemp_l by done. f_equal. lia. }
  rewrite Hs.
  pose proof (Z.div_mod (8 * n) (2 ^ 32) ltac:(done)) as Dn.
  pose proof (Z.div_mod (8 * len) (2 ^ 32) ltac:(done)) as Dl.
  assert (8 * len / 2 ^ 32 = len / 2 ^ 29) as Hdiv.
  { change (2 ^ 32) with (8 * 2 ^ 29). by rewrite Z.div_mul_cancel_l. }
  rewrite Hdiv in Dl. unfold u32 in *.
  pose proof (Z.mod_pos_bound (8 * n) (2 ^ 32) ltac:(done)) as Bn.
  pose proof (Z.mod_pos_bound (8 * len) (2 ^ 32) ltac:(done)) as Bl.
  set (rn := (8 * n) mod 2 ^ 32) in *. set (rl := (8 * len) mod 2 ^ 32) in *.
  set (qn := 8 * n / 2 ^ 32) in *. set (ql := len / 2 ^ 29) in *.
  assert (8 * (n + len) = (qn + ql) * 2 ^ 32 + (rn + rl)) as Hsum by lia.
  rewrite Hsum. split.
  - by rewrite (Z.add_comm (_ * _)), Z_mod_plus_full.
  - rewrite Z.div_add_l by done. rewrite Z.add_mod_idemp_l by done.
    destruct (decide (rn + rl < 2 ^ 32)) as [Hc|Hc].
    + rewrite (Z.mod_small (rn + rl)), (Z.div_small (rn + rl)) by lia.
      rewrite decide_False by lia. rewrite Z.add_mod_idemp_l by done. f_equal. lia.
    + assert ((rn + rl) / 2 ^ 32 = 1) as -> by (symmetry; apply Z.div_unique with (rn + rl - 2 ^ 32); lia).
      assert ((rn + rl) mod 2 ^ 32 = rn + rl - 2 ^ 32) as -> by (symmetry; apply Z.mod_unique with 1; lia).
      rewrite decide_True by lia. rewrite Z.add_mod_idemp_l by done. f_equal. lia.
Qed.

Lemma bits0_index n : 0 <= n -> Z.to_nat (Z.land (Z.shiftr (u32 (8 * n)) 3) 0x3f) = (Z.to_nat n mod 64)%nat.
Proof.
  intros Hn. change 0x3f with (Z.ones 6). rewrite Z.land_ones, Z.shiftr_div_pow2 by done.
  unfold u32. rewrite (Z.mul_comm 8). change (2 ^ 32) with (2 ^ 29 * 8). rewrite Z.mul_mod_distr_r by done.
  change (2 ^ 3) with 8. rewrite Z.div_mul by done. change (2 ^ 29) with (2 ^ 6 * 2 ^ 23).
  rewrite Z.rem_mul_r, Z.add_mod, (Z.mul_comm (2 ^ 6)), Z.mod_mul, Z.add_0_r, !Z.mod_mod by done.
  change (2 ^ 6) with 64. dlia.
Qed.

Lemma MD5Update_rel ctx m b :
  md5_rel ctx m -> bytes b -> md5_rel (MD5Update ctx b) (m ++ b).
Proof.
  intros [[H0 H1] Hrel] Hb. unfold MD5Update. cbv zeta. rewrite H0, H1.
  destruct (update_counters (Z.of_nat (length m)) (Z.of_nat (length b))) as [Hn0 Hn1]; [lia..|].
  cbv zeta in Hn0, Hn1. rewrite Hn1, Hn0. clear Hn0 Hn1.
  rewrite bits0_index, Nat2Z.id by lia.
  set (n0 := u32 (8 * (_ + _))). set (n1 := u32 (8 * (_ + _) / _)).
  set (ctx' := Ctx (buf ctx) n0 n1 (inb ctx)).
  assert (block_rel ctx' m) as Hrel' by exact Hrel.
  assert (forall c, bits0 c = bits0 ctx' -> bits1 c = bits1 ctx' ->
    counter_rel c (Z.of_nat (length (m ++ b)))) as Hc.
  { intros c E0 E1. unfold counter_rel. by rewrite length_app, Nat2Z.inj_add, E0, E1. }
  case_decide as Hz.
  { destruct (update_loop_rel (length b) ctx' m b) as (Hr & E0 & E1); [lia|exact Hrel'|exact Hz|done|]. split; auto. }
  case_decide as Hs.
  { split; [by apply Hc|]. apply store_rel; [done..|lia]. }
  assert (length m mod 64 < 64)%nat by (apply Nat.mod_upper_bound; lia).
  pose proof (transform_in_rel ctx' m (take (64 - length m mod 64) b) Hrel' ltac:(by apply Forall_take)
    ltac:(len_lia)) as Hstep.
  destruct (update_loop_rel (length b) _ _ (drop (64 - length m mod 64) b) ltac:(len_lia) Hstep
    ltac:(len_norm; dlia) ltac:(by apply Forall_drop)) as (Hr & E0 & E1).
  rewrite <- app_assoc, take_drop in Hr. split; auto.
Qed.

Lemma md5_updates ctx m chunks :
  md5_rel ctx m -> bytes (concat chunks) ->
  md5_rel (fold_left MD5Update chunks ctx) (m ++ concat chunks).
Proof.
  revert ctx m. induction chunks as [|b chunks IH]; intros ctx m Hrel Hb; cbn [concat fold_left] in *.
  - by rewrite app_nil_r.
  - apply Forall_app in Hb as [Hb Hbs]. rewrite app_assoc. apply IH; [|done]. by apply MD5Update_rel.
Qed.

(** ** The final padding *)


Lemma native_roundtrip t : is_u32 t -> native_store (of_le (native_store t)) = le32 t.
Proof.
  intros Ht. unfold native_store. destruct host_big_endian.
  - rewrite le32_of_le, rev_involutive; [done|apply Forall_rev, le32_bytes|].
    by rewrite length_rev, length_le32.
  - by rewrite of_le32.
Qed.

(** The digest is in little-endian order on either host. *)
Lemma digest_bytes b :
  regs_ok b ->
  byteReverse (native_store (rA b) ++ native_store (rB b) ++ native_store (rC b) ++ native_store (rD b)) 4
  = regs_le b.
Proof.
  intros (Ha & Hb & Hc & Hd).
  pose proof (length_native_store (rA b)). pose proof (length_native_store (rB b)).
  pose proof (length_native_store (rC b)). pose proof (length_native_store (rD b)).
  rewrite byteReverse_blocks; [|rewrite !length_app; lia|].
  2: { rewrite !Forall_app. auto using native_store_bytes. }
  set (ws := [native_store (rA b); native_store (rB b); native_store (rC b); native_store (rD b)]).
  assert (native_store (rA b) ++ native_store (rB b) ++ native_store (rC b) ++ native_store (rD b)
          = concat ws ++ []) as -> by (unfold ws; simpl; by rewrite !app_nil_r).
  change 4%nat with (length ws) at 2. rewrite blocks_concat by (repeat constructor; done).
  rewrite (drop_ge (concat ws ++ [])) by (rewrite app_nil_r, (length_concat_blocks 4) by (repeat constructor; done); done).
  unfold ws, regs_le. simpl. by rewrite !native_roundtrip, !app_nil_r.
Qed.

(** The last block: fourteen reversed words, then the two counters stored natively. *)
Lemma final_words l b0 b1 :
  length l = 64%nat -> bytes l -> is_u32 b0 -> is_u32 b1 ->
  words_of (splice 60 (native_store b1) (splice 56 (native_store b0) (byteReverse l 14)))
  = le_words 16 (take 56 l ++ le32 b0 ++ le32 b1).
Proof.
  intros Hl Hb H0 H1.
  rewrite byteReverse_blocks by (lia || done).
  set (ws := (fun b => native_store (of_le b)) <$> blocks 4 14 l).
  assert (Forall (fun b => length b = 4%nat) ws) as Hws by apply native_blocks_lengths.
  assert (length ws = 14%nat) as Lws by (unfold ws; by rewrite length_fmap, length_blocks).
  assert (length (concat ws) = 56%nat) as Lc by (rewrite (length_concat_blocks 4) by done; lia).
  pose proof (length_native_store b0) as L0. pose proof (length_native_store b1) as L1.
  assert (splice 60 (native_store b1) (splice 56 (native_store b0) (concat ws ++ drop (4 * 14) l))
          = concat (ws ++ [native_store b0; native_store b1]) ++ []) as ->.
  { rewrite splice_app by lia. rewrite app_assoc, splice_app by (rewrite length_app; lia).
    rewrite L0, L1, !drop_drop, (drop_ge l) by lia.
    rewrite concat_app. simpl. by rewrite !app_nil_r, <- !app_assoc. }
  unfold words_of.
  replace 16%nat with (length (ws ++ [native_store b0; native_store b1])) at 1 by (rewrite length_app; simpl; lia).
  rewrite blocks_concat by (apply Forall_app; split; [done|repeat constructor; done]).
  rewrite fmap_app. unfold ws at 1. rewrite native_words by (lia || done).
  change 16%nat with (14 + 2)%nat. rewrite le_words_app by (rewrite length_take; lia). f_equal.
  - unfold le_words. rewrite <- (take_drop 56 l) at 1. rewrite blocks_prefix; [done|rewrite length_take; lia].
  - change 2%nat with (1 + 1)%nat. rewrite le_words_app by apply length_le32.
    rewrite !le_words_one, !of_le32 by (done || apply length_le32).
    cbn [fmap list_fmap app]. by rewrite !native_load_store.
Qed.

Lemma insert_tail l m :
  length l = 64%nat -> take (length m mod 64) l = md_tail m ->
  <[(length m mod 64)%nat := 0x80]> l = md_tail m ++ 0x80 :: drop (S (length m mod 64)) l.
Proof.
  intros Hl Ht. rewrite insert_take_drop, Ht; [done|]. rewrite Hl. apply Nat.mod_upper_bound. lia.
Qed.

(** After [final_pad] one block is left: the first 56 bytes of the buffer and the
    length field. *)
Lemma final_pad_absorb ctx m f :
  bytes m -> md5_rel ctx m -> bytes f -> length f = 8%nat ->
  let ctx' := final_pad ctx in
  bits0 ctx' = bits0 ctx /\ bits1 ctx' = bits1 ctx /\
  length (inb ctx') = 64%nat /\ bytes (inb ctx') /\ regs_ok (buf ctx') /\
  md_absorb md5_spec (m ++ 0x80 :: replicate ((119 - length m mod 64) mod 64) 0 ++ f) =
  rfc1321_compress (buf ctx') (take 56 (inb ctx') ++ f).
Proof.
  intros Hm [[H0 H1] Hrel] Hf Lf. pose proof Hrel as (Hl & Hby & Ht & Hbuf & Hok).
  unfold final_pad. cbv zeta. rewrite H0, bits0_index, Nat2Z.id by lia.
  pose proof (length_md_tail m) as Htl.
  set (r := (length m mod 64)%nat) in *.
  assert (r < 64)%nat by (apply Nat.mod_upper_bound; lia).
  assert (<[r := 0x80]> (inb ctx) = (md_tail m ++ [0x80]) ++ drop (S r) (inb ctx)) as Hins.
  { rewrite <- app_assoc. by apply insert_tail. }
  case_decide as Hc.
  - set (p1 := 0x80 :: replicate (64 - 1 - r) 0).
    assert (bytes p1) by (constructor; [done|by apply replicate_bytes]).
    assert (length p1 = 64 - r)%nat as Lp1 by (unfold p1; len_lia).
    pose proof (transform_in_rel ctx m p1 Hrel ltac:(done) ltac:(lia)) as (Hl' & Hby' & Ht' & Hbuf' & Hok').
    fold r in Hl', Hby', Ht', Hbuf', Hok'.
    assert (splice (S r) (replicate (64 - 1 - r) 0) (<[r := 0x80]> (inb ctx)) = splice r p1 (inb ctx)) as ->.
    { rewrite Hins, splice_app by len_lia. unfold splice. rewrite Ht, Lp1, !drop_drop, !drop_ge by len_lia.
      unfold p1. by rewrite <- app_assoc. }
    set (c := transform_in _) in *. unfold set_in. cbn [buf inb bits0 bits1].
    split_and!; try done.
    + rewrite length_splice; len_lia.
    + apply Forall_splice; [done|by apply replicate_bytes].
    + pose proof (take_splice_all 0 (replicate 56 0) (inb c) ltac:(lia)) as Htk.
      rewrite length_replicate in Htk. cbn [Nat.add] in Htk. rewrite Htk, take_0, app_nil_l.
      replace ((119 - r) mod 64)%nat with (64 - 1 - r + 56)%nat by dlia.
      rewrite replicate_add, <- app_assoc.
      change (0x80 :: ?a ++ ?b) with (p1 ++ b). rewrite app_assoc.
      destruct (md_absorb_block md5_spec m p1) as [_ Htail]; [lia|].
      destruct (md_absorb_app md5_spec (m ++ p1) (replicate 56 0 ++ f)) as [-> _];
        [done|rewrite length_app, length_replicate, Lf; done|].
      by rewrite Hbuf'.
  - replace ((119 - r) mod 64)%nat with (64 - 1 - r - 8)%nat by dlia.
    set (z := replicate (64 - 1 - r - 8) 0). assert (length z = 64 - 1 - r - 8)%nat as Lz by apply length_replicate.
    assert (splice (S r) z (<[r := 0x80]> (inb ctx)) = (md_tail m ++ 0x80 :: z) ++ drop 56 (inb ctx)) as ->.
    { rewrite Hins, splice_app, drop_drop by len_lia.
      replace (S r + length z)%nat with 56%nat by lia. by rewrite <- !app_assoc. }
    assert (length (md_tail m ++ 0x80 :: z) = 56%nat) as L56 by (len_norm; lia).
    unfold set_in. cbn [buf inb bits0 bits1]. split_and!; try done.
    + rewrite length_app, length_drop. lia.
    + apply Forall_app; split; [|by apply Forall_drop]. apply Forall_app; split; [by apply md_tail_bytes|].
      constructor; [done|]. by apply replicate_bytes.
    + destruct (md_absorb_block md5_spec m (0x80 :: z ++ f)) as [-> _]; [len_norm; lia|].
      rewrite Hbuf, take_app_length', <- app_assoc by lia. done.
Qed.

Lemma length_MD5Final ctx : length (fst (MD5Final ctx)) = 16%nat.
Proof.
  unfold MD5Final. cbv zeta. cbn [fst].
  rewrite length_byteReverse; rewrite ?length_app, ?length_native_store; try lia.
  repeat (apply Forall_app; split); apply native_store_bytes.
Qed.

Lemma MD5Final_correct ctx m :
  bytes m -> md5_rel ctx m -> fst (MD5Final ctx) = md_hash md5_spec m.
Proof.
  intros Hm Hrel. pose proof Hrel as [[H0 H1] _].
  unfold MD5Final, md_hash, md_padding. cbv zeta. cbn [fst md_length md_output md5_spec].
  rewrite length_field_le, <- H0, <- H1 by lia.
  assert (is_u32 (bits0 ctx) /\ is_u32 (bits1 ctx)) as [Hb0 Hb1] by (rewrite H0, H1; split; apply u32_range).
  set (f := le32 (bits0 ctx) ++ le32 (bits1 ctx)).
  destruct (final_pad_absorb ctx m f) as (E0 & E1 & Hl & Hby & Hok & ->); [done..| | |].
  - apply Forall_app; auto with word.
  - unfold f. by rewrite length_app, !length_le32.
  - rewrite E0, E1, final_words by done. rewrite MD5Transform_rfc by done.
    apply digest_bytes. apply regs_add_ok.
Qed.
End streaming.

#[export] Instance md5_stream_hash `{Host} : StreamHash Md5.MD5Context.
Proof.
  refine {| sh_spec := md5_spec; sh_digest_size := 16; sh_init := Md5.MD5Init;
            sh_update := Md5.MD5Update; sh_final := fun ctx => fst (Md5.MD5Final ctx) |}.
  - intros chunks Hb _. apply MD5Final_correct; [done|].
    apply (md5_updates _ []); [apply md5_init_rel|done].
  - intros m Hm. split; [apply regs_le_bytes|apply regs_le_length].
Defined.

(** C38: MD5Init, any sequence of MD5Update calls and MD5Final compute the RFC 1321
    digest of the concatenation of the chunks, for chunks of every length and
    alignment, on hosts of either byte order: the block buffer, the 64-bit bit
    count kept in two words with their carry, the optimised step functions and the
    padding are those of the RFC. *)
Theorem MD5_stream_refines_rfc1321 `{Host} (chunks : list (list Z)) :
  bytes (concat chunks) ->
  fst (Md5.MD5Final (fold_left Md5.MD5Update chunks Md5.MD5Init)) = md_hash md5_spec (concat chunks).
Proof.
  intros Hb. apply MD5Final_correct; [done|]. apply (md5_updates _ []); [apply md5_init_rel|done].
Qed.

Lemma MD5_stream_refines_rfc1321_witness :
  fst (@Md5.MD5Final false (fold_left (@Md5.MD5Update false) [[97]; []; [98; 99]] Md5.MD5Init)) =
  md_hash md5_spec [97; 98; 99].
Proof. apply (@MD5_stream_refines_rfc1321 false [[97]; []; [98; 99]]). by_eval. Defined.
