(* ===== verification/Sha1.v ===== *)
(** lib/crypto/sha1.c: the streaming SHA-1 digest with its error codes, and its
    refinement of FIPS 180-1. *)

From S2P Require Import Prelude Digest.

(** The five words of the hash. *)
Record five := Five { h0 : Z; h1 : Z; h2 : Z; h3 : Z; h4 : Z }.

Definition five_add (s t : five) : five :=
  Five (add32 (h0 s) (h0 t)) (add32 (h1 s) (h1 t)) (add32 (h2 s) (h2 t))
       (add32 (h3 s) (h3 t)) (add32 (h4 s) (h4 t)).

Module Sha1.

Inductive sha_error := shaSuccess | shaNull | shaInputTooLong | shaStateError.

(** struct SHA1Context.  [Corrupted] is a C [int] that holds an error code or 1. *)
Record SHA1Context := Ctx {
  Intermediate_Hash : five;
  Length_Low : Z;
  Length_High : Z;
  Message_Block_Index : nat;
  Message_Block : list Z;
  Computed : bool;
  Corrupted : Z;
}.

(** The value of an enumerator as the [int] the functions return. *)
Definition sha_code (e : sha_error) : Z :=
  match e with shaSuccess => 0 | shaNull => 1 | shaInputTooLong => 2 | shaStateError => 3 end.

Definition SHA1HashSize : nat := 20.

Definition SHA1CircularShift (bits word : Z) : Z :=
  Z.lor (u32 (Z.shiftl word bits)) (Z.shiftr word (32 - bits)).

(** SHA1Init; a NULL context is [None]. *)
Definition SHA1Init (context : option SHA1Context) : Z * option SHA1Context :=
  match context with
  | None => (sha_code shaNull, None)
  | Some c =>
      (sha_code shaSuccess,
       Some (Ctx (Five 0x67452301 0xEFCDAB89 0x98BADCFE 0x10325476 0xC3D2E1F0) 0 0 0
                 (Message_Block c) false 0))
  end.

(** The first 16 words, then [for (t = 16; t < 80; t++)]. *)
Definition message_words (block : list Z) : list Z :=
  (fun t : nat => Z.lor (Z.lor (Z.lor (Z.shiftl (block !!! (t*4)%nat) 24) (Z.shiftl (block !!! (t*4+1)%nat) 16))
                        (Z.shiftl (block !!! (t*4+2)%nat) 8)) (block !!! (t*4+3)%nat)) <$> seq 0 16.

Definition schedule (block : list Z) : list Z :=
  fold_left (fun W t =>
      W ++ [SHA1CircularShift 1 (Z.lxor (Z.lxor (Z.lxor (W !!! (t-3)%nat) (W !!! (t-8)%nat)) (W !!! (t-14)%nat)) (W !!! (t-16)%nat))])
    (seq 16 64) (message_words block).

(** One turn of a round loop: [temp = ...; E = D; D = C; C = B <<< 30; B = A; A = temp]. *)
Definition round (f : Z -> Z -> Z -> Z) (K : Z) (W : list Z) (s : five) (t : nat) : five :=
  let temp := add32 (add32 (add32 (add32 (SHA1CircularShift 5 (h0 s)) (f (h1 s) (h2 s) (h3 s))) (h4 s)) (W !!! t)) K in
  Five temp (h0 s) (SHA1CircularShift 30 (h1 s)) (h2 s) (h3 s).

Definition SHA1ProcessMessageBlock (c : SHA1Context) : SHA1Context :=
  let W := schedule (Message_Block c) in
  let s := Intermediate_Hash c in
  let s := fold_left (round (fun B C D => Z.lor (Z.land B C) (Z.land (not32 B) D)) 0x5A827999 W) (seq 0 20) s in
  let s := fold_left (round (fun B C D => Z.lxor (Z.lxor B C) D) 0x6ED9EBA1 W) (seq 20 20) s in
  let s := fold_left (round (fun B C D => Z.lor (Z.lor (Z.land B C) (Z.land B D)) (Z.land C D)) 0x8F1BBCDC W) (seq 40 20) s in
  let s := fold_left (round (fun B C D => Z.lxor (Z.lxor B C) D) 0xCA62C1D6 W) (seq 60 20) s in
  Ctx (five_add (Intermediate_Hash c) s) (Length_Low c) (Length_High c) 0 (Message_Block c)
      (Computed c) (Corrupted c).

(** [Message_Block[Message_Block_Index++] = b] *)
Definition put (b : Z) (c : SHA1Context) : SHA1Context :=
  Ctx (Intermediate_Hash c) (Length_Low c) (Length_High c) (S (Message_Block_Index c))
      (<[Message_Block_Index c := b]> (Message_Block c)) (Computed c) (Corrupted c).

(** The turn of the loop of SHA1Update for one byte. *)
Definition update_byte (c : SHA1Context) (b : Z) : SHA1Context :=
  let c := put (Z.land b 0xFF) c in
  let low := add32 (Length_Low c) 8 in
  let high := if decide (low = 0) then add32 (Length_High c) 1 else Length_High c in
  let corrupted := if decide (low = 0 /\ high = 0) then 1 else Corrupted c in
  let c := Ctx (Intermediate_Hash c) low high (Message_Block_Index c) (Message_Block c) (Computed c) corrupted in
  if decide (Message_Block_Index c = 64)%nat then SHA1ProcessMessageBlock c else c.

(** [while(length-- && !context->Corrupted)] *)
Fixpoint update_loop (c : SHA1Context) (msg : list Z) : SHA1Context :=
  match msg with
  | [] => c
  | b :: msg => if decide (Corrupted c = 0) then update_loop (update_byte c b) msg else c
  end.

Definition set_corrupted (v : Z) (c : SHA1Context) : SHA1Context :=
  Ctx (Intermediate_Hash c) (Length_Low c) (Length_High c) (Message_Block_Index c) (Message_Block c) (Computed c) v.

Definition SHA1Update (context : option SHA1Context) (message_array : option (list Z)) (length : nat)
  : Z * option SHA1Context :=
  if decide (length = 0)%nat then (sha_code shaSuccess, context)
  else match context, message_array with
  | Some c, Some msg =>
      if Computed c then (sha_code shaStateError, Some (set_corrupted (sha_code shaStateError) c))
      else if decide (Corrupted c <> 0) then (Corrupted c, Some c)
      else (sha_code shaSuccess, Some (update_loop c (take length msg)))
  | _, _ => (sha_code shaNull, context)
  end.

(** [while(Message_Block_Index < n) Message_Block[Message_Block_Index++] = 0] *)
Fixpoint put_zeros (fuel n : nat) (c : SHA1Context) : SHA1Context :=
  match fuel with
  | O => c
  | S fuel => if decide (Message_Block_Index c < n)%nat then put_zeros fuel n (put 0 c) else c
  end.

(** The first part of SHA1PadMessage: the 1 bit and the zeros up to the length. *)
Definition pad_to_56 (c : SHA1Context) : SHA1Context :=
  if decide (55 < Message_Block_Index c)%nat then
    let c := put_zeros 64 64 (put 0x80 c) in
    let c := SHA1ProcessMessageBlock c in
    put_zeros 64 56 c
  else put_zeros 64 56 (put 0x80 c).

Definition SHA1PadMessage (c : SHA1Context) : SHA1Context :=
  let c := pad_to_56 c in
  let field := [u8 (Z.shiftr (Length_High c) 24); u8 (Z.shiftr (Length_High c) 16);
                u8 (Z.shiftr (Length_High c) 8); u8 (Length_High c);
                u8 (Z.shiftr (Length_Low c) 24); u8 (Z.shiftr (Length_Low c) 16);
                u8 (Z.shiftr (Length_Low c) 8); u8 (Length_Low c)] in
  SHA1ProcessMessageBlock
    (Ctx (Intermediate_Hash c) (Length_Low c) (Length_High c) (Message_Block_Index c)
         (splice 56 field (Message_Block c)) (Computed c) (Corrupted c)).

Definition digest_of (s : five) : list Z :=
  (fun i : nat => u8 (Z.shiftr ([h0 s; h1 s; h2 s; h3 s; h4 s] !!! (i / 4)%nat) (8 * (3 - Z.of_nat (i mod 4)%nat))))
    <$> seq 0 SHA1HashSize.

(** The code, the digest when it is written, and the context left. *)
Definition SHA1Final (want_digest : bool) (context : option SHA1Context)
  : Z * option (list Z) * option SHA1Context :=
  match context with
  | Some c =>
      if negb want_digest then (sha_code shaNull, None, context)
      else if decide (Corrupted c <> 0) then (Corrupted c, None, Some c)
      else
        let c := if Computed c then c
                 else let c := SHA1PadMessage c in
                      Ctx (Intermediate_Hash c) 0 0 (Message_Block_Index c) (replicate 64 0) true (Corrupted c) in
        (sha_code shaSuccess, Some (digest_of (Intermediate_Hash c)), Some c)
  | None => (sha_code shaNull, None, None)
  end.

End Sha1.

(** ** FIPS 180-1 *)

Definition fips_K (t : nat) : Z :=
  match (t / 20)%nat with
  | 0%nat => 0x5A827999 | 1%nat => 0x6ED9EBA1 | 2%nat => 0x8F1BBCDC | _ => 0xCA62C1D6
  end.

Definition fips_f (t : nat) (b c d : Z) : Z :=
  match (t / 20)%nat with
  | 0%nat => Z.lor (Z.land b c) (Z.land (not32 b) d)
  | 2%nat => Z.lor (Z.lor (Z.land b c) (Z.land b d)) (Z.land c d)
  | _ => Z.lxor (Z.lxor b c) d
  end.

Definition be_words (block : list Z) : list Z := (fun b => of_le (rev b)) <$> blocks 4 16 block.

(** The words W(0) .. W(15 + n). *)
Fixpoint fips_W (block : list Z) (n : nat) : list Z :=
  match n with
  | O => be_words block
  | S n =>
      let W := fips_W block n in
      let w (k : nat) := W !!! (16 + n - k)%nat in
      W ++ [rol32 (Z.lxor (Z.lxor (Z.lxor (w 3%nat) (w 8%nat)) (w 14%nat)) (w 16%nat)) 1]
  end.

Definition fips_step (W : list Z) (s : five) (t : nat) : five :=
  Five (u32 (rol32 (h0 s) 5 + fips_f t (h1 s) (h2 s) (h3 s) + h4 s + W !!! t + fips_K t))
       (h0 s) (rol32 (h1 s) 30) (h2 s) (h3 s).

Definition fips_compress (s : five) (block : list Z) : five :=
  five_add s (fold_left (fips_step (fips_W block 64)) (seq 0 80) s).

Definition be32 (x : Z) : list Z := rev (le32 x).

Definition sha1_spec : md_spec :=
  MdSpec five (Five 0x67452301 0xEFCDAB89 0x98BADCFE 0x10325476 0xC3D2E1F0) fips_compress
         (fun n => rev (Z_to_little_endian 8 8 (u64 n)))
         (fun s => be32 (h0 s) ++ be32 (h1 s) ++ be32 (h2 s) ++ be32 (h3 s) ++ be32 (h4 s)).

Definition sha1_abc : list Z :=
  [0xA9; 0x99; 0x3E; 0x36; 0x47; 0x06; 0x81; 0x6A; 0xBA; 0x3E; 0x25; 0x71; 0x78; 0x50; 0xC2; 0x6C; 0x9C; 0xD0; 0xD8; 0x9D].

Example sha1_spec_abc : md_hash sha1_spec [97; 98; 99] = sha1_abc.
Proof. vm_compute. reflexivity. Qed.

(** ** The block transform *)

Section transform.
Import Sha1.

Lemma message_words_be block : (64 <= length block)%nat -> message_words block = be_words block.
Proof.
  intros Hl. unfold message_words, be_words.
  assert (forall n b, (4 * n <= length b)%nat ->
    (fun w => of_le (rev w)) <$> blocks 4 n b = (fun i : nat => of_le (rev (slice (i * 4) 4 b))) <$> seq 0 n) as Hseq.
  { clear. induction n as [|n IH]; intros b Hb; [done|]. cbn [blocks fmap list_fmap seq]. f_equal.
    change ((fun w => of_le (rev w)) <$> blocks 4 n (drop 4 b) =
            (fun i : nat => of_le (rev (slice (i * 4) 4 b))) <$> seq 1 n).
    rewrite IH by len_lia. rewrite <- fmap_S_seq, <- list_fmap_compose.
    apply list_fmap_ext. intros j i _. unfold compose, slice. by rewrite drop_drop. }
  rewrite Hseq by lia. apply list_fmap_ext. intros j i [-> Hj]%lookup_seq.
  rewrite slice4 by lia. cbn [rev app]. rewrite of_le4. bitwise.
Qed.

Lemma schedule_fips block n :
  (64 <= length block)%nat ->
  fold_left (fun W t =>
      W ++ [SHA1CircularShift 1 (Z.lxor (Z.lxor (Z.lxor (W !!! (t-3)%nat) (W !!! (t-8)%nat)) (W !!! (t-14)%nat)) (W !!! (t-16)%nat))])
    (seq 16 n) (message_words block) = fips_W block n.
Proof.
  intros Hl. induction n as [|n IH]; [by apply message_words_be|].
  rewrite seq_S, fold_left_app, IH. reflexivity.
Qed.

Lemma fold_left_ext_seq {A} (f g : A -> nat -> A) i n a :
  (forall a t, (i <= t < i + n)%nat -> f a t = g a t) ->
  fold_left f (seq i n) a = fold_left g (seq i n) a.
Proof.
  revert i a. induction n as [|n IH]; intros i a Hfg; [done|]. cbn [seq fold_left].
  rewrite Hfg by lia. apply IH. intros. apply Hfg. lia.
Qed.

Lemma add32_nested4 a b c d e : add32 (add32 (add32 (add32 a b) c) d) e = u32 (a + b + c + d + e).
Proof. by rewrite (add32_add_l a), (add32_add_l (a + b)), (add32_add_l (a + b + c)). Qed.

Lemma round_fips f K W s t :
  fips_K t = K -> (forall b c d, fips_f t b c d = f b c d) -> round f K W s t = fips_step W s t.
Proof. intros <- Hf. unfold round, fips_step. by rewrite add32_nested4, Hf. Qed.

Lemma block_of_20 i t : (i * 20 <= t < i * 20 + 20)%nat -> (t / 20)%nat = i.
Proof. intros. symmetry. apply Nat.div_unique with (t - i * 20)%nat; lia. Qed.

Lemma rounds_fips W s :
  fold_left (round (fun B C D => Z.lxor (Z.lxor B C) D) 0xCA62C1D6 W) (seq 60 20)
    (fold_left (round (fun B C D => Z.lor (Z.lor (Z.land B C) (Z.land B D)) (Z.land C D)) 0x8F1BBCDC W) (seq 40 20)
      (fold_left (round (fun B C D => Z.lxor (Z.lxor B C) D) 0x6ED9EBA1 W) (seq 20 20)
        (fold_left (round (fun B C D => Z.lor (Z.land B C) (Z.land (not32 B) D)) 0x5A827999 W) (seq 0 20) s)))
  = fold_left (fips_step W) (seq 0 80) s.
Proof.
  change (seq 0 80) with (seq 0 20 ++ seq 20 20 ++ seq 40 20 ++ seq 60 20). rewrite !fold_left_app.
  rewrite (fold_left_ext_seq _ (fips_step W) 0 20 s).
  2: { intros a t Ht. apply round_fips; intros; unfold fips_K, fips_f; by rewrite (block_of_20 0). }
  rewrite (fold_left_ext_seq _ (fips_step W) 20 20).
  2: { intros a t Ht. apply round_fips; intros; unfold fips_K, fips_f; by rewrite (block_of_20 1). }
  rewrite (fold_left_ext_seq _ (fips_step W) 40 20).
  2: { intros a t Ht. apply round_fips; intros; unfold fips_K, fips_f; by rewrite (block_of_20 2). }
  rewrite (fold_left_ext_seq _ (fips_step W) 60 20); [done|].
  intros a t Ht. apply round_fips; intros; unfold fips_K, fips_f; by rewrite (block_of_20 3).
Qed.

Lemma process_fips c :
  length (Message_Block c) = 64%nat ->
  SHA1ProcessMessageBlock c =
  Ctx (fips_compress (Intermediate_Hash c) (Message_Block c)) (Length_Low c) (Length_High c) 0
      (Message_Block c) (Computed c) (Corrupted c).
Proof.
  intros Hl. unfold SHA1ProcessMessageBlock, fips_compress, schedule.
  rewrite schedule_fips by lia. cbv zeta. by rewrite rounds_fips.
Qed.
End transform.

(** ** Streaming *)

Section streaming.
Import Sha1.

(** The context has absorbed [m] and is neither final nor corrupted. *)
Definition sha1_rel (c : SHA1Context) (m : list Z) : Prop :=
  Intermediate_Hash c = md_absorb sha1_spec m /\
  length (Message_Block c) = 64%nat /\
  Message_Block_Index c = (length m mod 64)%nat /\
  take (length m mod 64) (Message_Block c) = md_tail m /\
  Length_Low c = u32 (8 * Z.of_nat (length m)) /\
  Length_High c = 8 * Z.of_nat (length m) / 2 ^ 32 /\
  Computed c = false /\ Corrupted c = 0.

Definition fresh_context : SHA1Context := Ctx (Five 0 0 0 0 0) 0 0 0 (replicate 64 0) false 0.

Lemma sha1_init_rel c :
  length (Message_Block c) = 64%nat ->
  exists c', SHA1Init (Some c) = (0, Some c') /\ sha1_rel c' [].
Proof. intros Hl. eexists. split; [reflexivity|]. by split_and!. Qed.

Lemma insert_snoc (l : list Z) i b : (i < length l)%nat -> take (S i) (<[i := b]> l) = take i l ++ [b].
Proof.
  intros Hi. rewrite insert_take_drop by done.
  rewrite take_app_ge by len_lia. replace (S i - length (take i l))%nat with 1%nat by len_lia. done.
Qed.

Lemma land_byte b : is_byte b -> Z.land b 0xFF = b.
Proof. intros Hb. change 0xFF with (Z.ones 8). rewrite Z.land_ones by done. by apply u8_id. Qed.

Lemma length_counters n :
  0 <= n -> 8 * (n + 1) < 2 ^ 64 ->
  let low := add32 (u32 (8 * n)) 8 in
  let high := if decide (low = 0) then add32 (8 * n / 2 ^ 32) 1 else 8 * n / 2 ^ 32 in
  low = u32 (8 * (n + 1)) /\ high = 8 * (n + 1) / 2 ^ 32 /\ ~ (low = 0 /\ high = 0).
Proof.
  intros Hn Hb. cbv zeta. unfold add32, u32. rewrite Z.add_mod_idemp_l by done.
  replace (8 * n + 8) with (8 * (n + 1)) by lia.
  pose proof (Z.div_mod (8 * n) (2 ^ 32) ltac:(done)) as D.
  pose proof (Z.mod_pos_bound (8 * n) (2 ^ 32) ltac:(done)) as B.
  pose proof (Z.div_mod (8 * (n + 1)) (2 ^ 32) ltac:(done)) as D'.
  pose proof (Z.mod_pos_bound (8 * (n + 1)) (2 ^ 32) ltac:(done)) as B'.
  set (q := 8 * n / 2 ^ 32) in *. set (r := (8 * n) mod 2 ^ 32) in *.
  set (q' := 8 * (n + 1) / 2 ^ 32) in *. set (r' := (8 * (n + 1)) mod 2 ^ 32) in *.
  assert (q' < 2 ^ 32) by (apply Z.div_lt_upper_bound; lia).
  assert (0 <= q) by (apply Z.div_pos; lia).
  split; [done|].
  case_decide as Hlow.
  - assert (q' = q + 1) as -> by lia. rewrite Z.mod_small by lia. split; [done|lia].
  - split; [|lia]. lia.
Qed.

Lemma update_byte_rel c m b :
  sha1_rel c m -> is_byte b -> 8 * (Z.of_nat (length m) + 1) < 2 ^ 64 ->
  sha1_rel (update_byte c b) (m ++ [b]).
Proof.
  intros (Hh & Hl & Hi & Ht & Hlow & Hhigh & Hcomp & Hcor) Hb Hlen.
  pose proof (length_counters (Z.of_nat (length m)) ltac:(lia) Hlen) as (E0 & E1 & E2).
  pose proof (length_md_tail m) as Htl.
  assert (length m mod 64 < 64)%nat by (apply Nat.mod_upper_bound; lia).
  unfold update_byte, put. cbn [Intermediate_Hash Length_Low Length_High Message_Block_Index Message_Block Computed Corrupted].
  rewrite land_byte, Hlow, Hhigh, Hcor, Hcomp by done. cbv zeta in *.
  rewrite (decide_False (P := _ /\ _)) by exact E2. rewrite E1, E0. clear E0 E1 E2.
  assert (Z.of_nat (length m) + 1 = Z.of_nat (length (m ++ [b]))) as -> by (rewrite length_app; simpl; lia).
  rewrite Hi. pose proof (insert_snoc (Message_Block c) (length m mod 64) b ltac:(lia)) as Hs. rewrite Ht in Hs.
  case_decide as Hfull.
  - destruct (md_absorb_block sha1_spec m [b]) as [Habs Htail]; [simpl; lia|].
    rewrite process_fips by (cbn [Message_Block]; by rewrite length_insert).
    cbn [Intermediate_Hash Length_Low Length_High Message_Block_Index Message_Block Computed Corrupted].
    assert (length (m ++ [b]) mod 64 = 0)%nat as Hz by (rewrite length_app; apply index_full; cbn [length]; lia).
    split_and!; rewrite ?Hz; try done.
    + cbn [Intermediate_Hash]. rewrite Habs, Hh, <- Hs, Hfull. cbn [md_compress sha1_spec].
      by rewrite take_ge by (rewrite length_insert; lia).
    + cbn [Message_Block]. by rewrite length_insert.
  - destruct (md_absorb_short sha1_spec m [b]) as [Habs Htail]; [simpl; lia|].
    assert (length (m ++ [b]) mod 64 = S (length m mod 64))%nat as Hz by (rewrite length_app, index_short; cbn [length]; lia).
    split_and!; cbn [Intermediate_Hash Length_Low Length_High Message_Block_Index Message_Block Computed Corrupted];
      rewrite ?Hz; try done.
    + by rewrite Habs.
    + by rewrite length_insert.
    + by rewrite Htail.
Qed.

Lemma sha1_update_loop_rel c m msg :
  sha1_rel c m -> bytes msg -> 8 * Z.of_nat (length (m ++ msg)) < 2 ^ 64 ->
  sha1_rel (update_loop c msg) (m ++ msg).
Proof.
  revert c m. induction msg as [|b msg IH]; intros c m Hrel Hb Hlen; cbn [update_loop].
  - by rewrite app_nil_r.
  - apply Forall_cons_iff in Hb as [Hb Hbs].
    assert (m ++ b :: msg = (m ++ [b]) ++ msg) as Heq by by rewrite <- app_assoc.
    rewrite Heq in *. rewrite decide_True by apply Hrel.
    apply IH; [|done..]. apply update_byte_rel; [done..|].
    rewrite !length_app in Hlen. simpl in Hlen. lia.
Qed.

Lemma put_zeros_spec fuel n c :
  (Message_Block_Index c <= n <= length (Message_Block c))%nat -> (n - Message_Block_Index c <= fuel)%nat ->
  exists blk,
    put_zeros fuel n c = Ctx (Intermediate_Hash c) (Length_Low c) (Length_High c) n blk (Computed c) (Corrupted c) /\
    length blk = length (Message_Block c) /\
    take n blk = take (Message_Block_Index c) (Message_Block c) ++ replicate (n - Message_Block_Index c) 0.
Proof.
  revert c. induction fuel as [|fuel IH]; intros c Hi Hf; cbn [put_zeros].
  - assert (Message_Block_Index c = n) as E by lia. exists (Message_Block c).
    rewrite E, Nat.sub_diag, app_nil_r. by destruct c; simpl in *; subst.
  - case_decide as Hlt.
    + destruct (IH (put 0 c)) as (blk & E1 & E2 & E3).
      * cbn. rewrite length_insert. lia.
      * cbn. lia.
      * cbn [Message_Block_Index Message_Block put Intermediate_Hash Length_Low Length_High Computed Corrupted] in *.
        exists blk. split; [done|]. split; [by rewrite E2, length_insert|].
        rewrite E3, insert_snoc, <- app_assoc by lia. f_equal.
        replace (n - Message_Block_Index c)%nat with (S (n - S (Message_Block_Index c))) by lia. done.
    + assert (Message_Block_Index c = n) as E by lia. exists (Message_Block c).
      rewrite E, Nat.sub_diag, app_nil_r. by destruct c; simpl in *; subst.
Qed.

Lemma u8_land_ff x : u8 x = Z.land x 0xFF.
Proof. change 0xFF with (Z.ones 8). by rewrite Z.land_ones. Qed.

Lemma be32_explicit x : be32 x = [u8 (Z.shiftr x 24); u8 (Z.shiftr x 16); u8 (Z.shiftr x 8); u8 x].
Proof. unfold be32. rewrite le32_explicit, !u8_land_ff. done. Qed.

Lemma sha1_length_field n :
  0 <= n -> 8 * n < 2 ^ 64 ->
  md_length sha1_spec (8 * n) = be32 (8 * n / 2 ^ 32) ++ be32 (u32 (8 * n)).
Proof.
  intros Hn Hb. cbn [md_length sha1_spec]. rewrite length_field_le, rev_app_distr by done.
  rewrite (u32_id (8 * n / 2 ^ 32)); [done|]. split; [apply Z.div_pos; lia|apply Z.div_lt_upper_bound; lia].
Qed.

Lemma digest_of_spec s : digest_of s = md_output sha1_spec s.
Proof. cbn [md_output sha1_spec]. rewrite !be32_explicit. reflexivity. Qed.

(** The length field stored at offset 56 of the block. *)
Lemma final_block blk n T :
  length blk = 64%nat -> take 56 blk = T ->
  splice 56 [u8 (Z.shiftr (8 * n / 2 ^ 32) 24); u8 (Z.shiftr (8 * n / 2 ^ 32) 16);
             u8 (Z.shiftr (8 * n / 2 ^ 32) 8); u8 (8 * n / 2 ^ 32);
             u8 (Z.shiftr (u32 (8 * n)) 24); u8 (Z.shiftr (u32 (8 * n)) 16);
             u8 (Z.shiftr (u32 (8 * n)) 8); u8 (u32 (8 * n))] blk
  = T ++ be32 (8 * n / 2 ^ 32) ++ be32 (u32 (8 * n)).
Proof.
  intros Hl <-. rewrite !be32_explicit. unfold splice. cbn [length Nat.add].
  rewrite drop_ge, app_nil_r by lia. done.
Qed.

(** After [pad_to_56] one block is left: its first 56 bytes and the length field. *)
Lemma pad_to_56_absorb c m f :
  sha1_rel c m -> length f = 8%nat ->
  exists h blk,
    pad_to_56 c = Ctx h (Length_Low c) (Length_High c) 56 blk false 0 /\ length blk = 64%nat /\
    md_absorb sha1_spec (m ++ 0x80 :: replicate ((119 - length m mod 64) mod 64) 0 ++ f) =
    fips_compress h (take 56 blk ++ f).
Proof.
  intros (Hh & Hl & Hi & Ht & Hlow & Hhigh & Hcomp & Hcor) Lf.
  pose proof (length_md_tail m) as Htl. set (r := (length m mod 64)%nat) in *.
  assert (r < 64)%nat by (apply Nat.mod_upper_bound; lia).
  set (c0 := put 0x80 c).
  assert (take (S r) (Message_Block c0) = md_tail m ++ [0x80]) as Hput.
  { unfold c0, put. cbn [Message_Block]. rewrite Hi, insert_snoc, Ht by lia. done. }
  assert (Message_Block_Index c0 = S r) as Hpi by (unfold c0, put; cbn; by rewrite Hi).
  assert (length (Message_Block c0) = 64%nat) as Hpl by (unfold c0, put; cbn; by rewrite length_insert).
  assert (Intermediate_Hash c0 = Intermediate_Hash c) as Ih by done.
  assert (Length_Low c0 = Length_Low c) as Il by done.
  assert (Length_High c0 = Length_High c) as Ig by done.
  assert (Computed c0 = false) as Ic by exact Hcomp.
  assert (Corrupted c0 = 0) as Io by exact Hcor.
  unfold pad_to_56. fold c0. rewrite Hi. case_decide as Hr.
  - destruct (put_zeros_spec 64 64 c0) as (blk & E1 & L1 & T1); [lia..|].
    rewrite Ih, Il, Ig, Ic, Io in E1. rewrite Hpi, Hput in T1. rewrite Hpl in L1. rewrite E1. cbv zeta.
    rewrite process_fips by exact L1. cbn [Intermediate_Hash Length_Low Length_High Message_Block Computed Corrupted].
    match goal with |- context [put_zeros 64 56 ?d] => destruct (put_zeros_spec 64 56 d) as (blk2 & -> & L2 & T2) end;
      [cbn [Message_Block_Index Message_Block]; lia..|].
    cbn [Intermediate_Hash Length_Low Length_High Message_Block Message_Block_Index Computed Corrupted] in *.
    rewrite take_0, app_nil_l in T2.
    eexists _, blk2. split; [reflexivity|]. split; [congruence|].
    replace ((119 - r) mod 64)%nat with (64 - S r + 56)%nat by dlia.
    rewrite replicate_add, <- app_assoc.
    change (0x80 :: ?a ++ ?b) with ((0x80 :: a) ++ b). rewrite app_assoc.
    destruct (md_absorb_block sha1_spec m (0x80 :: replicate (64 - S r) 0)) as [A1 A2]; [len_lia|].
    destruct (md_absorb_app sha1_spec (m ++ 0x80 :: replicate (64 - S r) 0) (replicate 56 0 ++ f)) as [-> _];
      [done|len_norm; lia|].
    rewrite A1, T2, <- (take_ge blk 64), T1, Hh, <- app_assoc by lia. done.
  - destruct (put_zeros_spec 64 56 c0) as (blk & E1 & L1 & T1); [lia..|].
    rewrite Ih, Il, Ig, Ic, Io in E1. rewrite Hpi, Hput in T1. rewrite Hpl in L1.
    eexists _, blk. split; [exact E1|]. split; [done|].
    replace ((119 - r) mod 64)%nat with (56 - S r)%nat by dlia.
    destruct (md_absorb_block sha1_spec m (0x80 :: replicate (56 - S r) 0 ++ f)) as [-> _]; [len_norm; lia|].
    rewrite T1, Hh, <- !app_assoc. done.
Qed.

Lemma pad_absorb c m :
  sha1_rel c m -> 8 * Z.of_nat (length m) < 2 ^ 64 ->
  Intermediate_Hash (SHA1PadMessage c) = md_absorb sha1_spec (m ++ md_padding sha1_spec (length m)).
Proof.
  intros Hrel Hlen. pose proof Hrel as (_ & _ & _ & _ & Hlow & Hhigh & _).
  unfold md_padding. rewrite sha1_length_field by lia. set (n := Z.of_nat (length m)) in *.
  destruct (pad_to_56_absorb c m (be32 (8 * n / 2 ^ 32) ++ be32 (u32 (8 * n))) Hrel) as (h & blk & E & L & ->).
  { rewrite !be32_explicit. done. }
  unfold SHA1PadMessage. rewrite E. cbv zeta.
  cbn [Intermediate_Hash Length_Low Length_High Message_Block Message_Block_Index Computed Corrupted].
  rewrite Hlow, Hhigh, (final_block blk _ _ L eq_refl).
  rewrite process_fips; [done|]. cbn [Message_Block].
  rewrite !be32_explicit. len_norm. by rewrite L.
Qed.

Lemma SHA1Final_correct c m :
  sha1_rel c m -> 8 * Z.of_nat (length m) < 2 ^ 64 ->
  exists c', SHA1Final true (Some c) = (0, Some (md_hash sha1_spec m), Some c').
Proof.
  intros Hrel Hlen. pose proof Hrel as (_ & _ & _ & _ & _ & _ & Hcomp & Hcor).
  unfold SHA1Final. cbn [negb]. rewrite decide_False by (rewrite Hcor; auto). rewrite Hcomp. cbv zeta.
  cbn [Intermediate_Hash]. rewrite pad_absorb with (m := m) by done. rewrite digest_of_spec. eauto.
Qed.
End streaming.

(** ** The interface *)

(** The way clients use the digest: init, updates with the length of each chunk,
    final.  The result codes of init and update are ignored, as hmacsha1.c does. *)
Definition sha1_update (c : Sha1.SHA1Context) (b : list Z) : Sha1.SHA1Context :=
  match snd (Sha1.SHA1Update (Some c) (Some b) (length b)) with Some c => c | None => c end.
Definition sha1_init (c : Sha1.SHA1Context) : Sha1.SHA1Context :=
  match snd (Sha1.SHA1Init (Some c)) with Some c => c | None => c end.
Definition sha1_final (c : Sha1.SHA1Context) : list Z :=
  match Sha1.SHA1Final true (Some c) with (_, Some d, _) => d | _ => [] end.

Lemma sha1_update_rel c m b :
  sha1_rel c m -> bytes b -> 8 * Z.of_nat (length (m ++ b)) < 2 ^ 64 -> sha1_rel (sha1_update c b) (m ++ b).
Proof.
  intros Hrel Hb Hlen. unfold sha1_update, Sha1.SHA1Update.
  pose proof Hrel as (_ & _ & _ & _ & _ & _ & Hcomp & Hcor).
  case_decide as Hz.
  - destruct b; [|done]. cbn [snd]. by rewrite app_nil_r.
  - rewrite Hcomp, decide_False by (rewrite Hcor; auto). cbn [snd].
    rewrite take_ge by lia. by apply sha1_update_loop_rel.
Qed.

Lemma sha1_updates c m chunks :
  sha1_rel c m -> bytes (concat chunks) -> 8 * Z.of_nat (length (m ++ concat chunks)) < 2 ^ 64 ->
  sha1_rel (fold_left sha1_update chunks c) (m ++ concat chunks).
Proof.
  revert c m. induction chunks as [|b chunks IH]; intros c m Hrel Hb Hlen; cbn [concat fold_left] in *.
  - by rewrite app_nil_r.
  - apply Forall_app in Hb as [Hb Hbs]. rewrite app_assoc in *.
    apply IH; [|done..]. apply sha1_update_rel; [done..|].
    rewrite length_app in Hlen. lia.
Qed.

Lemma sha1_stream_ok chunks :
  bytes (concat chunks) -> Z.of_nat (length (concat chunks)) < 2 ^ 61 ->
  sha1_final (fold_left sha1_update chunks (sha1_init fresh_context)) = md_hash sha1_spec (concat chunks).
Proof.
  intros Hb Hlen. destruct (sha1_init_rel fresh_context) as (c' & E & Hrel); [done|].
  unfold sha1_init. rewrite E. cbn [snd].
  pose proof (sha1_updates c' [] chunks Hrel Hb ltac:(cbn [app]; lia)) as Hup.
  destruct (SHA1Final_correct _ _ Hup) as (c'' & E'); [cbn [app]; lia|].
  unfold sha1_final. by rewrite E'.
Qed.

Lemma sha1_digest_ok m : bytes m -> bytes (md_hash sha1_spec m) /\ length (md_hash sha1_spec m) = 20%nat.
Proof.
  intros _. unfold md_hash. cbn [md_output sha1_spec]. rewrite !be32_explicit. split; [|done].
  repeat constructor; apply u8_range.
Qed.

#[export] Instance sha1_stream_hash : StreamHash Sha1.SHA1Context := {|
  sh_spec := sha1_spec; sh_digest_size := 20; sh_init := sha1_init fresh_context;
  sh_update := sha1_update; sh_final := sha1_final;
  sh_correct := sha1_stream_ok; sh_digest := sha1_digest_ok |}.

(** From any initialised context, SHA1Update on each chunk and SHA1Final
    compute the FIPS 180-1 digest of the concatenation, for messages of less than
    2^61 bytes: the byte-at-a-time buffering, the two length counters, the padding
    over one or two blocks and the four round loops are those of the standard, and
    the final call reports success. *)
Theorem SHA1_stream_refines_fips (c : Sha1.SHA1Context) (chunks : list (list Z)) :
  length (Sha1.Message_Block c) = 64%nat ->
  bytes (concat chunks) -> Z.of_nat (length (concat chunks)) < 2 ^ 61 ->
  exists c',
    Sha1.SHA1Final true (Some (fold_left sha1_update chunks (sha1_init c))) =
    (Sha1.sha_code Sha1.shaSuccess, Some (md_hash sha1_spec (concat chunks)), Some c').
Proof.
  intros Hc Hb Hlen. destruct (sha1_init_rel c Hc) as (c0 & E & Hrel).
  unfold sha1_init. rewrite E. cbn [snd].
  pose proof (sha1_updates c0 [] chunks Hrel Hb ltac:(cbn [app]; lia)) as Hup.
  apply (SHA1Final_correct _ _ Hup). cbn [app]. lia.
Qed.

Lemma SHA1_stream_refines_fips_witness :
  exists c',
    Sha1.SHA1Final true (Some (fold_left sha1_update [[97]; [98; 99]] (sha1_init fresh_context))) =
    (Sha1.sha_code Sha1.shaSuccess, Some (md_hash sha1_spec [97; 98; 99]), Some c').
Proof. apply (SHA1_stream_refines_fips fresh_context [[97]; [98; 99]]); by_eval. Defined.
