(* ===== verification/Hmac.v ===== *)
(** lib/crypto/hmacmd5.c and lib/crypto/hmacsha1.c: HMAC over a streaming digest,
    and its refinement of RFC 2104.  The two C files are the same code over MD5 and
    SHA-1; here they are one section over the interface [StreamHash]. *)

From S2P Require Import Prelude Digest Md5 Sha1.

Section hmac.
Context {C : Type} {SH : StreamHash C}.

(** HMACMD5Context, struct HMACSHA1Context *)
Record HMACContext := HCtx { ctx : C; k_ipad : list Z; k_opad : list Z }.

(** [for (i=0; i<64; i++) pad[i] ^= v] on the 65-byte pad. *)
Definition xor_pad (v : Z) (pad : list Z) : list Z :=
  imap (fun i b => if decide (i < 64)%nat then Z.lxor b v else b) pad.

(** hmac_sha1_init, hmac_md5_init_rfc2104 *)
Definition hmac_init (key : list Z) : HMACContext :=
  let key := if decide (64 < length key)%nat then sh_final (sh_update sh_init key) else key in
  let k_ipad := xor_pad 0x36 (splice 0 key (replicate 65 0)) in
  let k_opad := xor_pad 0x5c (splice 0 key (replicate 65 0)) in
  HCtx (sh_update sh_init (take 64 k_ipad)) k_ipad k_opad.

(** hmac_sha1_update, hmac_md5_update *)
Definition hmac_update (text : list Z) (h : HMACContext) : HMACContext :=
  HCtx (sh_update (ctx h) text) (k_ipad h) (k_opad h).

(** hmac_sha1_final, hmac_md5_final *)
Definition hmac_final (h : HMACContext) : list Z :=
  let digest := sh_final (ctx h) in
  sh_final (sh_update (sh_update sh_init (take 64 (k_opad h))) digest).

(** ** RFC 2104 *)

Definition rfc2104_key (S : md_spec) (key : list Z) : list Z :=
  let key := if decide (64 < length key)%nat then md_hash S key else key in
  key ++ replicate (64 - length key) 0.

Definition rfc2104_hmac (S : md_spec) (key text : list Z) : list Z :=
  let K := rfc2104_key S key in
  md_hash S (map (Z.lxor 0x5c) K ++ md_hash S (map (Z.lxor 0x36) K ++ text)).

(** ** Refinement *)

Context (digest_fits : (sh_digest_size <= 64)%nat).

Lemma hash_one key :
  bytes key -> Z.of_nat (length key) < 2 ^ 61 -> sh_final (sh_update sh_init key) = md_hash sh_spec key.
Proof.
  intros Hk Hl. rewrite <- (app_nil_r key) in Hk, Hl. apply (sh_correct [key]) in Hk; [|done].
  cbn [fold_left concat] in Hk. by rewrite app_nil_r in Hk.
Qed.

Lemma rfc2104_key_ok key :
  bytes key -> bytes (rfc2104_key sh_spec key) /\ length (rfc2104_key sh_spec key) = 64%nat.
Proof.
  intros Hk. unfold rfc2104_key. cbv zeta. case_decide as Hl.
  - destruct (sh_digest key Hk) as [Hb Hs]. split; [apply Forall_app; auto with word|len_norm; lia].
    split; [done|by apply replicate_bytes].
  - split; [|len_norm; lia]. apply Forall_app; split; [done|by apply replicate_bytes].
Qed.

Lemma take_xor_pad v key :
  (length key <= 64)%nat ->
  take 64 (xor_pad v (splice 0 key (replicate 65 0))) = map (Z.lxor v) (key ++ replicate (64 - length key) 0).
Proof.
  intros Hl.
  assert (splice 0 key (replicate 65 0) = (key ++ replicate (64 - length key) 0) ++ [0]) as ->.
  { unfold splice. rewrite take_0, app_nil_l, Nat.add_0_l, drop_replicate, <- app_assoc. f_equal.
    replace (65 - length key)%nat with (64 - length key + 1)%nat by lia. by rewrite replicate_add. }
  set (K := key ++ _). assert (length K = 64%nat) as HK by (unfold K; len_norm; lia).
  unfold xor_pad. rewrite imap_app, take_app_length' by by rewrite length_imap.
  apply list_eq. intros i. rewrite list_lookup_imap. change (map (Z.lxor v) K) with (Z.lxor v <$> K).
  rewrite list_lookup_fmap. destruct (K !! i) as [b|] eqn:E; [|done]. simpl.
  apply lookup_lt_Some in E. rewrite decide_True by lia. by rewrite Z.lxor_comm.
Qed.

Lemma map_xor_bytes v l : is_byte v -> bytes l -> bytes (map (Z.lxor v) l).
Proof.
  intros Hv Hl. change (map (Z.lxor v) l) with (Z.lxor v <$> l). apply Forall_fmap.
  apply Forall_forall. intros b Hb. apply is_u_lxor; [done|done|]. by apply (Forall_forall is_byte l).
Qed.

(** The context of [hmac_init]: the inner hash has absorbed the inner pad. *)
Lemma hmac_init_pads key :
  bytes key -> Z.of_nat (length key) < 2 ^ 61 ->
  let K := rfc2104_key sh_spec key in
  ctx (hmac_init key) = sh_update sh_init (map (Z.lxor 0x36) K) /\
  take 64 (k_opad (hmac_init key)) = map (Z.lxor 0x5c) K.
Proof.
  intros Hk Hl. unfold hmac_init, rfc2104_key. cbn [ctx k_opad].
  case_decide as Hlong.
  - rewrite hash_one by done. destruct (sh_digest key Hk) as [Hb Hs].
    by rewrite !take_xor_pad by lia.
  - by rewrite !take_xor_pad by lia.
Qed.

Lemma hmac_updates h chunks :
  fold_left (fun h b => hmac_update b h) chunks h =
  HCtx (fold_left sh_update chunks (ctx h)) (k_ipad h) (k_opad h).
Proof.
  revert h. induction chunks as [|b chunks IH]; intros h; [by destruct h|]. cbn [fold_left].
  by rewrite IH.
Qed.

Lemma hmac_stream key chunks :
  bytes key -> Z.of_nat (length key) < 2 ^ 61 ->
  bytes (concat chunks) -> Z.of_nat (length (concat chunks)) < 2 ^ 61 - 64 ->
  hmac_final (fold_left (fun h b => hmac_update b h) chunks (hmac_init key)) =
  rfc2104_hmac sh_spec key (concat chunks).
Proof.
  intros Hk Hlk Hc Hlc. destruct (rfc2104_key_ok key Hk) as [HKb HKl].
  destruct (hmac_init_pads key Hk Hlk) as [Ei Eo]. cbv zeta in Ei, Eo.
  rewrite hmac_updates. unfold hmac_final, rfc2104_hmac. cbn [ctx k_opad]. rewrite Ei, Eo.
  set (K := rfc2104_key sh_spec key) in *.
  assert (bytes (map (Z.lxor 0x36) K ++ concat chunks)) as Hib by (apply Forall_app; split; [by apply map_xor_bytes|done]).
  pose proof (sh_correct (map (Z.lxor 0x36) K :: chunks) Hib) as Hin. cbn [fold_left concat] in Hin.
  rewrite Hin by (rewrite length_app, length_map; lia).
  destruct (sh_digest _ Hib) as [Hdb Hdl]. set (d := md_hash _ (map _ K ++ concat chunks)) in *.
  pose proof (sh_correct [map (Z.lxor 0x5c) K; d]) as Hout. cbn [fold_left concat] in Hout.
  rewrite app_nil_r in Hout. apply Hout.
  - apply Forall_app; split; [by apply map_xor_bytes|done].
  - rewrite length_app, length_map. lia.
Qed.
End hmac.

Arguments HMACContext : clear implicits.

(** ** lib/crypto/hmacmd5.c *)

Module HmacMd5.
Section hmacmd5.
Context `{Host}.

Definition hmac_md5_init_rfc2104 (key : list Z) : HMACContext Md5.MD5Context := hmac_init key.

(** The Microsoft variant: a long key is truncated instead of hashed. *)
Definition hmac_md5_init_limK_to_64 (key : list Z) : HMACContext Md5.MD5Context :=
  hmac_md5_init_rfc2104 (if decide (64 < length key)%nat then take 64 key else key).

Definition hmac_md5_update (text : list Z) (h : HMACContext Md5.MD5Context) := hmac_update text h.
Definition hmac_md5_final (h : HMACContext Md5.MD5Context) : list Z := hmac_final h.

Definition hmac_md5 (key data : list Z) : list Z :=
  let ctx := hmac_md5_init_limK_to_64 (take 16 key) in
  let ctx := if decide (length data <> 0)%nat then hmac_md5_update data ctx else ctx in
  hmac_md5_final ctx.

Lemma length_hmac_md5 key data : length (hmac_md5 key data) = 16%nat.
Proof. unfold hmac_md5, hmac_md5_final, hmac_final. apply Md5.length_MD5Final. Qed.

Lemma limK_init key : (length key <= 64)%nat -> hmac_md5_init_limK_to_64 key = hmac_md5_init_rfc2104 key.
Proof. intros. unfold hmac_md5_init_limK_to_64. by rewrite decide_False by lia. Qed.

Lemma hmac_md5_stream key chunks :
  bytes key -> (length key <= 64)%nat ->
  bytes (concat chunks) -> Z.of_nat (length (concat chunks)) < 2 ^ 61 - 64 ->
  hmac_md5_final (fold_left (fun h b => hmac_md5_update b h) chunks (hmac_md5_init_limK_to_64 key)) =
  rfc2104_hmac md5_spec key (concat chunks).
Proof.
  intros Hk Hl Hc Hlc. rewrite limK_init by done.
  apply (hmac_stream (C := Md5.MD5Context) (SH := md5_stream_hash)); simpl; try done; lia.
Qed.
End hmacmd5.
End HmacMd5.

(** C39: HMAC over any digest that meets the streaming interface is RFC 2104's:
    key reduction, padding and the two nested hashes, for text fed in chunks of any
    size.  It covers hmac_md5_init_rfc2104/update/final and hmac_sha1_init/update/
    final, the two instances of the interface. *)
Theorem hmac_refines_rfc2104 {C : Type} {SH : StreamHash C} (key : list Z) (chunks : list (list Z)) :
  (sh_digest_size <= 64)%nat ->
  bytes key -> Z.of_nat (length key) < 2 ^ 61 ->
  bytes (concat chunks) -> Z.of_nat (length (concat chunks)) < 2 ^ 61 - 64 ->
  hmac_final (fold_left (fun h b => hmac_update b h) chunks (hmac_init key)) =
  rfc2104_hmac sh_spec key (concat chunks).
Proof. intros. by apply hmac_stream. Qed.

Lemma hmac_refines_rfc2104_witness :
  hmac_final (fold_left (fun h b => hmac_update b h) [[97]; [98; 99]] (@hmac_init _ sha1_stream_hash [1; 2])) =
  rfc2104_hmac sha1_spec [1; 2] [97; 98; 99].
Proof. apply (@hmac_refines_rfc2104 _ sha1_stream_hash [1; 2] [[97]; [98; 99]]); by_eval. Defined.

(** The Microsoft variant, which truncates a key longer than 64 bytes where
    RFC 2104 hashes it, agrees with the RFC on every key of at most 64 bytes and is
    the RFC's MAC under the truncated key otherwise; the one-call [hmac_md5] is the
    RFC's MAC under the first 16 bytes of its key. *)
Theorem hmac_md5_variants `{Host} (key data : list Z) :
  bytes key -> bytes data -> Z.of_nat (length data) < 2 ^ 61 - 64 ->
  HmacMd5.hmac_md5_final (HmacMd5.hmac_md5_update data (HmacMd5.hmac_md5_init_limK_to_64 key)) =
    rfc2104_hmac md5_spec (take 64 key) data /\
  HmacMd5.hmac_md5 key data = rfc2104_hmac md5_spec (take 16 key) data.
Proof.
  intros Hk Hd Hl.
  assert (bytes (take 64 key) /\ bytes (take 16 key)) as [H64 H16] by (split; by apply Forall_take).
  split.
  - pose proof (HmacMd5.hmac_md5_stream (take 64 key) [data]) as Hs.
    cbn [concat fold_left] in Hs. rewrite app_nil_r in Hs. rewrite <- Hs by first [done|len_norm; lia].
    f_equal. f_equal. rewrite (HmacMd5.limK_init (take 64 key)) by (len_norm; lia). unfold HmacMd5.hmac_md5_init_limK_to_64.
    case_decide; [done|]. by rewrite take_ge by lia.
  - unfold HmacMd5.hmac_md5. cbv zeta. case_decide as Hz.
    + pose proof (HmacMd5.hmac_md5_stream (take 16 key) [data]) as Hs.
      cbn [concat fold_left] in Hs. rewrite app_nil_r in Hs. apply Hs; [done| |done..]. len_norm. lia.
    + destruct data as [|b data]; [|simpl in Hz; lia].
      apply (HmacMd5.hmac_md5_stream (take 16 key) []); [done|len_norm; lia|by apply Forall_nil|simpl; lia].
Qed.

Lemma hmac_md5_variants_witness :
  @HmacMd5.hmac_md5 false [1; 2] [97; 98; 99] = rfc2104_hmac md5_spec [1; 2] [97; 98; 99].
Proof. apply (@hmac_md5_variants false [1; 2] [97; 98; 99]); by_eval. Defined.
