(* ===== verification/Arcfour.v ===== *)
(** lib/crypto/arcfour.c: the ARCFOUR stream cipher. *)

From S2P Require Import Prelude.

Module Arcfour.

(** struct arcfour_state *)
Record arcfour_state := ArcfourState { sbox : list Z; index_i : Z; index_j : Z }.

(** Array access with a [uint8_t] subscript. *)
Definition sb (s : list Z) (i : Z) : Z := default 0 (s !! Z.to_nat i).
Definition swap (s : list Z) (i j : Z) : list Z :=
  let tc := sb s i in
  <[Z.to_nat j := tc]> (<[Z.to_nat i := sb s j]> s).

(** One iteration of the key scheduling loop. *)
Definition schedule (key : list Z) (st : list Z * Z) (ind : nat) : list Z * Z :=
  let '(s, j) := st in
  let j := u8 (j + (sb s (Z.of_nat ind) + default 0 (key !! (ind mod length key)%nat))) in
  (swap s (Z.of_nat ind) j, j).

(** [ind % key->length] is undefined for an empty key. *)
Definition arcfour_init (key : list Z) : option arcfour_state :=
  if decide (length key = 0)%nat then None
  else
    let s := fst (fold_left (schedule key) (seq 0 256) (map Z.of_nat (seq 0 256), 0)) in
    Some (ArcfourState s 0 0).

Definition crypt_byte (st : arcfour_state) (b : Z) : Z * arcfour_state :=
  let i := u8 (index_i st + 1) in
  let j := u8 (index_j st + sb (sbox st) i) in
  let s := swap (sbox st) i j in
  let t := u8 (sb s i + sb s j) in
  (Z.lxor b (sb s t), ArcfourState s i j).

Fixpoint arcfour_crypt_sbox (st : arcfour_state) (data : list Z) : list Z * arcfour_state :=
  match data with
  | [] => ([], st)
  | b :: data =>
      let '(b', st) := crypt_byte st b in
      let '(data', st) := arcfour_crypt_sbox st data in
      (b' :: data', st)
  end.

Definition arcfour_crypt_blob (data key : list Z) : option (list Z) :=
  st ← arcfour_init key; Some (fst (arcfour_crypt_sbox st data)).

(** The caller passes a 16-byte key. *)
Definition arcfour_crypt (data keystr : list Z) : option (list Z) :=
  arcfour_crypt_blob data (take 16 keystr).
End Arcfour.

Import Arcfour.

(** ** The state invariant *)

(** The box is a permutation of the 256 byte values. *)
Definition arcfour_ok (st : arcfour_state) : Prop :=
  sbox st ≡ₚ map Z.of_nat (seq 0 256) /\ is_byte (index_i st) /\ is_byte (index_j st).

Lemma identity_box_bytes : bytes (map Z.of_nat (seq 0 256)).
Proof.
  change (map Z.of_nat (seq 0 256)) with (Z.of_nat <$> seq 0 256). apply Forall_fmap, Forall_forall.
  intros x Hx%in_seq. unfold is_u. simpl. lia.
Qed.

Lemma box_length s : s ≡ₚ map Z.of_nat (seq 0 256) -> length s = 256%nat.
Proof. intros ->. reflexivity. Qed.

Lemma box_bytes s : s ≡ₚ map Z.of_nat (seq 0 256) -> bytes s.
Proof. intros H. rewrite H. apply identity_box_bytes. Qed.

Lemma sb_lookup s i : s ≡ₚ map Z.of_nat (seq 0 256) -> is_byte i -> s !! Z.to_nat i = Some (sb s i).
Proof.
  intros Hs Hi. unfold sb. destruct (s !! Z.to_nat i) eqn:E; [done|].
  apply lookup_ge_None in E. rewrite (box_length s Hs) in E. unfold is_u in Hi. lia.
Qed.

Lemma sb_byte s i : s ≡ₚ map Z.of_nat (seq 0 256) -> is_byte i -> is_byte (sb s i).
Proof.
  intros Hs Hi. pose proof (box_bytes s Hs) as Hb.
  eapply Forall_lookup_1; [exact Hb|]. by apply sb_lookup.
Qed.

Lemma swap_perm s i j : s ≡ₚ map Z.of_nat (seq 0 256) -> is_byte i -> is_byte j -> swap s i j ≡ₚ s.
Proof.
  intros Hs Hi Hj. unfold swap. destruct (decide (i = j)) as [->|Hne].
  - rewrite list_insert_insert_eq, list_insert_id; [done|by apply sb_lookup].
  - assert (Z.to_nat i <> Z.to_nat j) as Hn by (unfold is_u in *; lia).
    apply Permutation_inj. split; [by rewrite !length_insert|].
    exists (fun k => if decide (k = Z.to_nat i) then Z.to_nat j
               else if decide (k = Z.to_nat j) then Z.to_nat i else k).
    split; [intros a b; repeat case_decide; congruence|].
    intros k.
    pose proof (box_length s Hs). assert (Z.to_nat i < 256 /\ Z.to_nat j < 256)%nat by (unfold is_u in *; lia).
    destruct (decide (k = Z.to_nat i)) as [->|].
    + rewrite list_lookup_insert_ne by done. rewrite list_lookup_insert_eq by lia. symmetry. by apply sb_lookup.
    + destruct (decide (k = Z.to_nat j)) as [->|].
      * rewrite list_lookup_insert_eq by (len_norm; lia). symmetry. by apply sb_lookup.
      * by rewrite !list_lookup_insert_ne by done.
Qed.

Lemma schedule_ok key st ind :
  st.1 ≡ₚ map Z.of_nat (seq 0 256) -> (ind < 256)%nat -> (schedule key st ind).1 ≡ₚ map Z.of_nat (seq 0 256).
Proof.
  destruct st as [s j]. simpl. intros Hs Hi. transitivity s; [|done].
  apply swap_perm; [done| |auto with word]. unfold is_u. lia.
Qed.

Lemma schedule_fold_ok key l st :
  st.1 ≡ₚ map Z.of_nat (seq 0 256) -> Forall (fun i => i < 256)%nat l ->
  (fold_left (schedule key) l st).1 ≡ₚ map Z.of_nat (seq 0 256).
Proof.
  intros Hs Hl. revert st Hs. induction Hl as [|i l Hi Hl IH]; intros st Hs; [done|].
  cbn [fold_left]. apply IH. by apply schedule_ok.
Qed.

Lemma arcfour_init_ok key :
  (0 < length key)%nat -> exists st, arcfour_init key = Some st /\ arcfour_ok st.
Proof.
  intros Hk. unfold arcfour_init. rewrite decide_False by lia. eexists. split; [done|].
  split_and!; [|by compute..]. cbn [sbox]. apply schedule_fold_ok; [done|].
  apply Forall_forall. intros i Hi%in_seq. lia.
Qed.

Lemma crypt_byte_ok st b :
  arcfour_ok st -> is_byte b -> arcfour_ok (crypt_byte st b).2 /\ is_byte (crypt_byte st b).1.
Proof.
  intros (Hs & Hi & Hj) Hb. unfold crypt_byte. cbv zeta. cbn [fst snd].
  set (i := u8 (index_i st + 1)). set (j := u8 _).
  assert (is_byte i /\ is_byte j) as [Hi' Hj'] by (split; apply u8_range).
  assert (swap (sbox st) i j ≡ₚ map Z.of_nat (seq 0 256)) as Hs'
    by (transitivity (sbox st); [by apply swap_perm|done]).
  split; [by split_and!|]. apply is_u_lxor; [done..|]. apply sb_byte; [done|apply u8_range].
Qed.

Lemma crypt_sbox_ok data : forall st,
  arcfour_ok st -> bytes data ->
  arcfour_ok (arcfour_crypt_sbox st data).2 /\ bytes (arcfour_crypt_sbox st data).1.
Proof.
  induction data as [|b data IH]; intros st Hst Hd; [by split; [|constructor]|].
  apply Forall_cons_iff in Hd as [Hb Hd]. cbn [arcfour_crypt_sbox].
  destruct (crypt_byte_ok st b Hst Hb) as [Hst' Hb']. destruct (crypt_byte st b) as [b' st'].
  destruct (IH st' Hst' Hd) as [H1 H2]. destruct (arcfour_crypt_sbox st' data) as [d' st''].
  split; [done|by constructor].
Qed.

(** The key stream depends on the state only. *)
Lemma crypt_byte_state st b b' : (crypt_byte st b).2 = (crypt_byte st b').2.
Proof. done. Qed.

Lemma crypt_byte_twice st b : (crypt_byte st (crypt_byte st b).1).1 = b.
Proof. unfold crypt_byte. cbv zeta. cbn [fst]. by rewrite Z.lxor_assoc, Z.lxor_nilpotent, Z.lxor_0_r. Qed.

Lemma crypt_sbox_length data : forall st, length (arcfour_crypt_sbox st data).1 = length data.
Proof.
  induction data as [|b data IH]; intros st; [done|]. cbn [arcfour_crypt_sbox].
  destruct (crypt_byte st b) as [b' st']. specialize (IH st'). destruct (arcfour_crypt_sbox st' data).
  simpl in *. by rewrite IH.
Qed.

Lemma crypt_sbox_app d1 : forall st d2,
  arcfour_crypt_sbox st (d1 ++ d2) =
  (let '(e1, st) := arcfour_crypt_sbox st d1 in
   let '(e2, st) := arcfour_crypt_sbox st d2 in (e1 ++ e2, st)).
Proof.
  induction d1 as [|b d1 IH]; intros st d2.
  - cbn [app arcfour_crypt_sbox]. by destruct (arcfour_crypt_sbox st d2).
  - cbn [app arcfour_crypt_sbox]. destruct (crypt_byte st b) as [b' st']. rewrite IH.
    destruct (arcfour_crypt_sbox st' d1) as [e1 st1]. by destruct (arcfour_crypt_sbox st1 d2).
Qed.

(** Decrypting from the state that encrypted gives the data back, and both sides
    end in the same state. *)
Lemma crypt_sbox_roundtrip data : forall st e st',
  arcfour_crypt_sbox st data = (e, st') -> arcfour_crypt_sbox st e = (data, st').
Proof.
  induction data as [|b data IH]; intros st e st' H; cbn [arcfour_crypt_sbox] in H; [by inversion H|].
  pose proof (crypt_byte_twice st b) as Htwice.
  destruct (crypt_byte st b) as [b1 st1] eqn:E1.
  destruct (arcfour_crypt_sbox st1 data) as [d1 st2] eqn:E2. injection H as <- <-.
  cbn [arcfour_crypt_sbox]. cbn [fst] in Htwice.
  pose proof (crypt_byte_state st b1 b) as Hst. rewrite E1 in Hst.
  destruct (crypt_byte st b1) as [b2 st3]. cbn [fst snd] in *. subst st3 b2.
  by rewrite (IH _ _ _ E2).
Qed.

(** From any state whose box is a permutation of the bytes (the key schedule of
    a non-empty key gives one), encryption keeps that invariant, yields bytes, and is
    undone by running the cipher again from the same state; encrypting in two pieces
    is encrypting the concatenation. *)
Theorem arcfour_stream_cipher (key d1 d2 : list Z) :
  (0 < length key)%nat -> bytes d1 -> bytes d2 ->
  exists st0, arcfour_init key = Some st0 /\ arcfour_ok st0 /\
  exists e1 e2 st1 st2,
    arcfour_crypt_sbox st0 d1 = (e1, st1) /\ arcfour_crypt_sbox st1 d2 = (e2, st2) /\
    arcfour_crypt_sbox st0 (d1 ++ d2) = (e1 ++ e2, st2) /\
    arcfour_crypt_sbox st0 (e1 ++ e2) = (d1 ++ d2, st2) /\
    arcfour_ok st2 /\ bytes (e1 ++ e2) /\ length e1 = length d1.
Proof.
  intros Hk H1 H2. destruct (arcfour_init_ok key Hk) as (st0 & Hi & Hok). exists st0. split_and!; [done..|].
  pose proof (crypt_sbox_length d1 st0) as Hl. pose proof (crypt_sbox_app d1 st0 d2) as Ha.
  destruct (crypt_sbox_ok (d1 ++ d2) st0 Hok) as [Hok2 Hb2]; [by apply Forall_app|].
  destruct (arcfour_crypt_sbox st0 d1) as [e1 st1] eqn:E1.
  destruct (arcfour_crypt_sbox st1 d2) as [e2 st2] eqn:E2. rewrite Ha in Hok2, Hb2.
  exists e1, e2, st1, st2. split_and!; try done. by apply crypt_sbox_roundtrip.
Qed.

Lemma arcfour_stream_cipher_witness :
  exists st0, arcfour_init [75; 101; 121] = Some st0 /\ arcfour_ok st0 /\
  exists e1 e2 st1 st2,
    arcfour_crypt_sbox st0 [80; 108] = (e1, st1) /\ arcfour_crypt_sbox st1 [97] = (e2, st2) /\
    arcfour_crypt_sbox st0 [80; 108; 97] = (e1 ++ e2, st2) /\
    arcfour_crypt_sbox st0 (e1 ++ e2) = ([80; 108; 97], st2) /\
    arcfour_ok st2 /\ bytes (e1 ++ e2) /\ length e1 = 2%nat.
Proof. apply (arcfour_stream_cipher [75; 101; 121] [80; 108] [97]); by_eval. Defined.

(** The whole-blob entry points are involutions. *)
Lemma arcfour_crypt_blob_involutive data key e :
  arcfour_crypt_blob data key = Some e -> arcfour_crypt_blob e key = Some data.
Proof.
  unfold arcfour_crypt_blob. destruct (arcfour_init key) as [st|]; [|done]. cbn. intros [= <-].
  destruct (arcfour_crypt_sbox st data) as [e st'] eqn:E. apply crypt_sbox_roundtrip in E. cbn. by rewrite E.
Qed.

Lemma arcfour_crypt_blob_length data key e :
  arcfour_crypt_blob data key = Some e -> length e = length data.
Proof.
  unfold arcfour_crypt_blob. destruct (arcfour_init key) as [st|]; [|done]. cbn. intros [= <-].
  apply crypt_sbox_length.
Qed.
