(* ===== verification/Crc32.v ===== *)
(** lib/crypto/crc32.c: the table-driven CRC-32 against the bit-serial shift register
    of its polynomial, and the errors it detects. *)

From S2P Require Import Prelude.

Module Crc32.

Definition crc32_tab : list Z :=
  [
   0x00000000; 0x77073096; 0xee0e612c; 0x990951ba; 0x076dc419; 0x706af48f;
   0xe963a535; 0x9e6495a3; 0x0edb8832; 0x79dcb8a4; 0xe0d5e91e; 0x97d2d988;
   0x09b64c2b; 0x7eb17cbd; 0xe7b82d07; 0x90bf1d91; 0x1db71064; 0x6ab020f2;
   0xf3b97148; 0x84be41de; 0x1adad47d; 0x6ddde4eb; 0xf4d4b551; 0x83d385c7;
   0x136c9856; 0x646ba8c0; 0xfd62f97a; 0x8a65c9ec; 0x14015c4f; 0x63066cd9;
   0xfa0f3d63; 0x8d080df5; 0x3b6e20c8; 0x4c69105e; 0xd56041e4; 0xa2677172;
   0x3c03e4d1; 0x4b04d447; 0xd20d85fd; 0xa50ab56b; 0x35b5a8fa; 0x42b2986c;
   0xdbbbc9d6; 0xacbcf940; 0x32d86ce3; 0x45df5c75; 0xdcd60dcf; 0xabd13d59;
   0x26d930ac; 0x51de003a; 0xc8d75180; 0xbfd06116; 0x21b4f4b5; 0x56b3c423;
   0xcfba9599; 0xb8bda50f; 0x2802b89e; 0x5f058808; 0xc60cd9b2; 0xb10be924;
   0x2f6f7c87; 0x58684c11; 0xc1611dab; 0xb6662d3d; 0x76dc4190; 0x01db7106;
   0x98d220bc; 0xefd5102a; 0x71b18589; 0x06b6b51f; 0x9fbfe4a5; 0xe8b8d433;
   0x7807c9a2; 0x0f00f934; 0x9609a88e; 0xe10e9818; 0x7f6a0dbb; 0x086d3d2d;
   0x91646c97; 0xe6635c01; 0x6b6b51f4; 0x1c6c6162; 0x856530d8; 0xf262004e;
   0x6c0695ed; 0x1b01a57b; 0x8208f4c1; 0xf50fc457; 0x65b0d9c6; 0x12b7e950;
   0x8bbeb8ea; 0xfcb9887c; 0x62dd1ddf; 0x15da2d49; 0x8cd37cf3; 0xfbd44c65;
   0x4db26158; 0x3ab551ce; 0xa3bc0074; 0xd4bb30e2; 0x4adfa541; 0x3dd895d7;
   0xa4d1c46d; 0xd3d6f4fb; 0x4369e96a; 0x346ed9fc; 0xad678846; 0xda60b8d0;
   0x44042d73; 0x33031de5; 0xaa0a4c5f; 0xdd0d7cc9; 0x5005713c; 0x270241aa;
   0xbe0b1010; 0xc90c2086; 0x5768b525; 0x206f85b3; 0xb966d409; 0xce61e49f;
   0x5edef90e; 0x29d9c998; 0xb0d09822; 0xc7d7a8b4; 0x59b33d17; 0x2eb40d81;
   0xb7bd5c3b; 0xc0ba6cad; 0xedb88320; 0x9abfb3b6; 0x03b6e20c; 0x74b1d29a;
   0xead54739; 0x9dd277af; 0x04db2615; 0x73dc1683; 0xe3630b12; 0x94643b84;
   0x0d6d6a3e; 0x7a6a5aa8; 0xe40ecf0b; 0x9309ff9d; 0x0a00ae27; 0x7d079eb1;
   0xf00f9344; 0x8708a3d2; 0x1e01f268; 0x6906c2fe; 0xf762575d; 0x806567cb;
   0x196c3671; 0x6e6b06e7; 0xfed41b76; 0x89d32be0; 0x10da7a5a; 0x67dd4acc;
   0xf9b9df6f; 0x8ebeeff9; 0x17b7be43; 0x60b08ed5; 0xd6d6a3e8; 0xa1d1937e;
   0x38d8c2c4; 0x4fdff252; 0xd1bb67f1; 0xa6bc5767; 0x3fb506dd; 0x48b2364b;
   0xd80d2bda; 0xaf0a1b4c; 0x36034af6; 0x41047a60; 0xdf60efc3; 0xa867df55;
   0x316e8eef; 0x4669be79; 0xcb61b38c; 0xbc66831a; 0x256fd2a0; 0x5268e236;
   0xcc0c7795; 0xbb0b4703; 0x220216b9; 0x5505262f; 0xc5ba3bbe; 0xb2bd0b28;
   0x2bb45a92; 0x5cb36a04; 0xc2d7ffa7; 0xb5d0cf31; 0x2cd99e8b; 0x5bdeae1d;
   0x9b64c2b0; 0xec63f226; 0x756aa39c; 0x026d930a; 0x9c0906a9; 0xeb0e363f;
   0x72076785; 0x05005713; 0x95bf4a82; 0xe2b87a14; 0x7bb12bae; 0x0cb61b38;
   0x92d28e9b; 0xe5d5be0d; 0x7cdcefb7; 0x0bdbdf21; 0x86d3d2d4; 0xf1d4e242;
   0x68ddb3f8; 0x1fda836e; 0x81be16cd; 0xf6b9265b; 0x6fb077e1; 0x18b74777;
   0x88085ae6; 0xff0f6a70; 0x66063bca; 0x11010b5c; 0x8f659eff; 0xf862ae69;
   0x616bffd3; 0x166ccf45; 0xa00ae278; 0xd70dd2ee; 0x4e048354; 0x3903b3c2;
   0xa7672661; 0xd06016f7; 0x4969474d; 0x3e6e77db; 0xaed16a4a; 0xd9d65adc;
   0x40df0b66; 0x37d83bf0; 0xa9bcae53; 0xdebb9ec5; 0x47b2cf7f; 0x30b5ffe9;
   0xbdbdf21c; 0xcabac28a; 0x53b39330; 0x24b4a3a6; 0xbad03605; 0xcdd70693;
   0x54de5729; 0x23d967bf; 0xb3667a2e; 0xc4614ab8; 0x5d681b02; 0x2a6f2b94;
   0xb40bbe37; 0xc30c8ea1; 0x5a05df1b; 0x2d02ef8d].

(** One iteration of [while (size--)]. *)
Definition crc_step (crc b : Z) : Z :=
  Z.lxor (default 0 (crc32_tab !! Z.to_nat (Z.land (Z.lxor crc b) 0xFF))) (Z.shiftr crc 8).

Definition crc32_calc_buffer (buf : list Z) : Z :=
  Z.lxor (fold_left crc_step buf (Z.ones 32)) (Z.ones 32).
End Crc32.

Import Crc32.

(** ** The shift register *)

Definition crc_poly : Z := 0xedb88320.

(** One bit: shift right, and add the polynomial when a one falls out. *)
Definition crc_bit (c : Z) : Z :=
  Z.lxor (Z.shiftr c 1) (if Z.testbit c 0 then crc_poly else 0).

Definition crc_bits (n : nat) (c : Z) : Z := Nat.iter n crc_bit c.

(** The bit-serial CRC: each byte is added to the low end of the register, then
    shifted out. *)
Definition crc_shift_in (c b : Z) : Z := crc_bits 8 (Z.lxor c b).

Definition crc32_spec (buf : list Z) : Z :=
  Z.lxor (fold_left crc_shift_in buf (Z.ones 32)) (Z.ones 32).

(** *** The register is linear *)

Lemma crc_bit_lxor x y : crc_bit (Z.lxor x y) = Z.lxor (crc_bit x) (crc_bit y).
Proof.
  unfold crc_bit. rewrite Z.lxor_spec, Z.shiftr_lxor.
  generalize (Z.shiftr x 1) (Z.shiftr y 1). intros a b.
  destruct (Z.testbit x 0), (Z.testbit y 0); cbn [xorb]; rewrite ?Z.lxor_0_r; bitwise.
Qed.

Lemma crc_bits_lxor n x y : crc_bits n (Z.lxor x y) = Z.lxor (crc_bits n x) (crc_bits n y).
Proof.
  unfold crc_bits. induction n as [|n IH]; [done|]. cbn [Nat.iter nat_rect] in *. cbn.
  unfold Nat.iter in IH. rewrite IH. apply crc_bit_lxor.
Qed.

Lemma crc_bits_add n m c : crc_bits (n + m) c = crc_bits n (crc_bits m c).
Proof. apply Nat.iter_add. Qed.

Lemma crc_bit_double y : crc_bit (Z.shiftl y 1) = y.
Proof.
  unfold crc_bit. rewrite Z.shiftl_spec_low by lia. rewrite Z.lxor_0_r, Z.shiftr_shiftl_l by lia.
  by rewrite Z.shiftl_0_r.
Qed.

Lemma crc_bits_shiftl n y : crc_bits n (Z.shiftl y (Z.of_nat n)) = y.
Proof.
  induction n as [|n IH]; [apply Z.shiftl_0_r|].
  replace (S n) with (n + 1)%nat by lia. rewrite crc_bits_add.
  replace (Z.of_nat (n + 1)) with (Z.of_nat n + 1) by lia. rewrite <- Z.shiftl_shiftl by lia.
  change (crc_bits 1 ?x) with (crc_bit x). by rewrite crc_bit_double.
Qed.

Lemma crc_bits_enter x w : crc_bits 8 (Z.lxor x (Z.shiftl w 8)) = Z.lxor (crc_bits 8 x) w.
Proof. rewrite crc_bits_lxor. f_equal. apply (crc_bits_shiftl 8). Qed.

Lemma crc_bit_range c : is_u32 c -> is_u32 (crc_bit c).
Proof.
  intros Hc. apply is_u_lxor; [done|by apply is_u_shiftr|]. by destruct (Z.testbit c 0).
Qed.

Lemma crc_bits_range n c : is_u32 c -> is_u32 (crc_bits n c).
Proof. intros Hc. unfold crc_bits. induction n; [done|]. by apply crc_bit_range. Qed.

(** The polynomial's top bit makes the register reversible. *)
Lemma crc_bit_inj x y : is_u32 x -> is_u32 y -> crc_bit x = crc_bit y -> x = y.
Proof.
  intros Hx Hy E.
  assert (forall z, is_u32 z -> Z.testbit (crc_bit z) 31 = Z.testbit z 0) as Htop.
  { intros z Hz. unfold crc_bit. rewrite Z.lxor_spec, Z.shiftr_spec by lia.
    rewrite (is_u_testbit 32 z) by (done || lia). by destruct (Z.testbit z 0). }
  assert (Z.testbit x 0 = Z.testbit y 0) as E0 by (by rewrite <- !Htop, E).
  unfold crc_bit in E. rewrite E0 in E.
  assert (Z.shiftr x 1 = Z.shiftr y 1) as E1.
  { apply (f_equal (fun z => Z.lxor z (if Z.testbit y 0 then crc_poly else 0))) in E.
    by rewrite !Z.lxor_assoc, Z.lxor_nilpotent, !Z.lxor_0_r in E. }
  apply Z.bits_inj'. intros i Hi. destruct (decide (i = 0)) as [->|]; [done|].
  replace i with ((i - 1) + 1) by lia. rewrite <- !Z.shiftr_spec by lia. by rewrite E1.
Qed.

Lemma crc_bits_inj n x y : is_u32 x -> is_u32 y -> crc_bits n x = crc_bits n y -> x = y.
Proof.
  intros Hx Hy. unfold crc_bits. induction n as [|n IH]; [done|]. intros E.
  apply IH, crc_bit_inj; [by apply crc_bits_range..|done].
Qed.

(** *** The table *)

(** The table holds the register after eight bits of each byte. *)
Lemma crc32_tab_spec : crc32_tab = map (fun n => crc_bits 8 (Z.of_nat n)) (seq 0 256).
Proof. vm_compute. reflexivity. Qed.

Lemma tab_lookup b : is_byte b -> default 0 (crc32_tab !! Z.to_nat b) = crc_bits 8 b.
Proof.
  intros Hb. rewrite crc32_tab_spec. change (map ?f ?l) with (f <$> l).
  rewrite list_lookup_fmap, lookup_seq_lt by (unfold is_u in Hb; lia). simpl.
  by rewrite Z2Nat.id by (unfold is_u in Hb; lia).
Qed.

Lemma split_low c : 0 <= c -> c = Z.lxor (Z.land c 0xFF) (Z.shiftl (Z.shiftr c 8) 8).
Proof.
  intros Hc. apply Z.bits_inj'. intros i Hi. change 0xFF with (Z.ones 8).
  rewrite Z.lxor_spec, Z.land_spec. destruct (decide (i < 8)).
  - rewrite Z.ones_spec_low, Z.shiftl_spec_low by lia. by rewrite andb_true_r, xorb_false_r.
  - rewrite Z.ones_spec_high, Z.shiftl_spec, Z.shiftr_spec by lia. rewrite andb_false_r.
    by replace (i - 8 + 8) with i by lia.
Qed.

Lemma crc_step_bits c b : is_u32 c -> is_byte b -> crc_step c b = crc_shift_in c b.
Proof.
  intros Hc Hb. unfold crc_step, crc_shift_in.
  assert (0 <= Z.lxor c b) as H0 by (apply Z.lxor_nonneg; unfold is_u in *; lia).
  assert (is_byte (Z.land (Z.lxor c b) 0xFF)) as Hl by (rewrite Z.land_comm; by apply is_u_land).
  rewrite tab_lookup by done. rewrite (split_low (Z.lxor c b)) at 2 by done.
  rewrite crc_bits_enter. f_equal.
  rewrite Z.shiftr_lxor. rewrite (Z.shiftr_div_pow2 b) by lia.
  rewrite (Z.div_small b) by (unfold is_u in Hb; lia). by rewrite Z.lxor_0_r.
Qed.

#[local] Opaque crc_step crc_bits crc32_tab.

Lemma crc_step_range c b : is_u32 c -> is_byte b -> is_u32 (crc_step c b).
Proof.
  intros Hc Hb. rewrite crc_step_bits by done. unfold crc_shift_in. apply crc_bits_range, is_u_lxor; [done..|].
  by apply (is_u_mono 8).
Qed.

Lemma crc_fold_range buf c : is_u32 c -> bytes buf -> is_u32 (fold_left crc_step buf c).
Proof. intros. eapply fold_left_inv; [|done|done]. apply crc_step_range. Qed.

Lemma crc_fold_spec buf c :
  is_u32 c -> bytes buf -> fold_left crc_step buf c = fold_left crc_shift_in buf c.
Proof.
  intros. eapply fold_left_ext_inv; [|done|done]. intros x y Hx Hy. split; [by apply crc_step_bits|].
  by apply crc_step_range.
Qed.

(** A short run of bytes enters the register as one word. *)
Fixpoint le_word (l : list Z) : Z :=
  match l with [] => 0 | b :: l => Z.lxor b (Z.shiftl (le_word l) 8) end.

Lemma le_word_nonneg l : bytes l -> 0 <= le_word l.
Proof.
  induction 1 as [|b l Hb Hl IH]; [done|]. cbn [le_word]. apply Z.lxor_nonneg.
  rewrite Z.shiftl_nonneg. unfold is_u in Hb. lia.
Qed.

Lemma crc_fold_word l : forall c,
  is_u32 c -> bytes l ->
  fold_left crc_step l c = crc_bits (8 * length l) (Z.lxor c (le_word l)).
Proof.
  induction l as [|b l IH]; intros c Hc Hb; [by cbn; rewrite Z.lxor_0_r|].
  apply Forall_cons_iff in Hb as [Hb Hl]. cbn [fold_left le_word length].
  rewrite IH by (done || by apply crc_step_range). rewrite crc_step_bits by done. unfold crc_shift_in.
  replace (8 * S (length l))%nat with (8 * length l + 8)%nat by lia. rewrite crc_bits_add. f_equal.
  by rewrite <- Z.lxor_assoc, crc_bits_enter.
Qed.

Lemma le_word_inj l l' : length l = length l' -> bytes l -> bytes l' -> le_word l = le_word l' -> l = l'.
Proof.
  revert l'. induction l as [|b l IH]; intros [|b' l'] Hlen Hl Hl' E; [done..|].
  apply Forall_cons_iff in Hl as [Hb Hl], Hl' as [Hb' Hl']. cbn [le_word] in E.
  assert (b = b') as <-.
  { apply (f_equal (fun z => Z.land z (Z.ones 8))) in E. revert E. clear -Hb Hb'.
    assert (forall x y, is_byte x -> Z.land (Z.lxor x (Z.shiftl y 8)) (Z.ones 8) = x) as Hx.
    { intros x y Hx. apply Z.bits_inj'. intros i Hi. rewrite Z.land_spec, Z.lxor_spec. destruct (decide (i < 8)).
      - rewrite Z.ones_spec_low, Z.shiftl_spec_low by lia. by rewrite andb_true_r, xorb_false_r.
      - rewrite Z.ones_spec_high, (is_u_testbit 8 x) by (done || lia). by rewrite andb_false_r. }
    by rewrite !Hx. }
  f_equal. apply IH; [by injection Hlen|done..|].
  apply (f_equal (Z.lxor b)) in E. rewrite <- !Z.lxor_assoc, !Z.lxor_nilpotent, !Z.lxor_0_l in E.
  apply (f_equal (fun z => Z.shiftr z 8)) in E. by rewrite !Z.shiftr_shiftl_l, !Z.shiftl_0_r in E by lia.
Qed.

Lemma le_word_bits l : bytes l -> is_u (8 * Z.of_nat (length l)) (le_word l).
Proof.
  induction 1 as [|b l Hb Hl IH]; [done|]. cbn [le_word length].
  apply is_u_lxor; [lia|apply (is_u_mono 8); [lia|done]|].
  apply (is_u_shiftl (8 * Z.of_nat (length l))); [lia..|done].
Qed.

Lemma le_word_range l : bytes l -> (length l <= 4)%nat -> is_u32 (le_word l).
Proof. intros Hb Hl. apply (is_u_mono (8 * Z.of_nat (length l))); [lia|by apply le_word_bits]. Qed.

Lemma crc_fold_inj buf x y :
  bytes buf -> is_u32 x -> is_u32 y -> fold_left crc_step buf x = fold_left crc_step buf y -> x = y.
Proof.
  intros Hb. revert x y. induction Hb as [|b buf Hb Hbuf IH]; intros x y Hx Hy E; [done|].
  cbn [fold_left] in E. apply IH in E; [|by apply crc_step_range..].
  rewrite !crc_step_bits in E by done. unfold crc_shift_in in E. apply crc_bits_inj in E;
    [|apply is_u_lxor; [done..|by apply (is_u_mono 8)]..].
  apply (f_equal (fun z => Z.lxor z b)) in E. by rewrite !Z.lxor_assoc, Z.lxor_nilpotent, !Z.lxor_0_r in E.
Qed.

(** The table-driven loop computes the bit-serial CRC of the reflected polynomial
    0xedb88320 on every buffer, and detects every corruption confined to four
    consecutive bytes: two buffers that differ only there have different checksums. *)
Theorem crc32_calc_buffer_correct (pre win win' post : list Z) :
  bytes pre -> bytes win -> bytes win' -> bytes post ->
  length win = length win' -> (length win <= 4)%nat ->
  crc32_calc_buffer (pre ++ win ++ post) = crc32_spec (pre ++ win ++ post) /\
  (crc32_calc_buffer (pre ++ win ++ post) = crc32_calc_buffer (pre ++ win' ++ post) -> win = win').
Proof.
  intros Hp Hw Hw' Hq Hl Hl4. split.
  - unfold crc32_calc_buffer, crc32_spec. rewrite crc_fold_spec; [done|done|]. by rewrite !Forall_app.
  - unfold crc32_calc_buffer. intros E.
    apply (f_equal (fun z => Z.lxor z (Z.ones 32))) in E.
    rewrite !Z.lxor_assoc, Z.lxor_nilpotent, !Z.lxor_0_r, !fold_left_app in E.
    assert (is_u32 (fold_left crc_step pre (Z.ones 32))) as Hpre by (by apply crc_fold_range).
    apply crc_fold_inj in E; [|done|by apply crc_fold_range..].
    set (c := fold_left _ pre _) in *.
    rewrite !crc_fold_word in E by done. rewrite Hl in E. apply crc_bits_inj in E;
      [|apply is_u_lxor; [done..|apply le_word_range; [done|lia]]..].
    apply le_word_inj; [done..|].
    apply (f_equal (Z.lxor c)) in E. by rewrite <- !Z.lxor_assoc, Z.lxor_nilpotent, !Z.lxor_0_l in E.
Qed.

Lemma crc32_calc_buffer_correct_witness :
  crc32_calc_buffer [1; 2; 3; 4] = crc32_spec [1; 2; 3; 4] /\
  (crc32_calc_buffer [1; 2; 3; 4] = crc32_calc_buffer [1; 7; 8; 4] -> [2; 3] = [7; 8]).
Proof. apply (crc32_calc_buffer_correct [1] [2; 3] [7; 8] [4]); by_eval. Defined.

(** The check value of CRC-32: the ASCII digits 1 to 9. *)
Example crc32_check : crc32_calc_buffer [49; 50; 51; 52; 53; 54; 55; 56; 57] = 0xcbf43926.
Proof. reflexivity. Qed.
