(* ===== verification/Des.v ===== *)
(** libcli/auth/smbdes.c: DES as the SMB authentication code uses it, and that its
    backward direction inverts its forward one. *)

From S2P Require Import Prelude.

Module Des.

Definition perm1 : list Z :=
  [57; 49; 41; 33; 25; 17; 9; 1; 58; 50; 42; 34; 26; 18;
   10; 2; 59; 51; 43; 35; 27; 19; 11; 3; 60; 52; 44; 36;
   63; 55; 47; 39; 31; 23; 15; 7; 62; 54; 46; 38; 30; 22;
   14; 6; 61; 53; 45; 37; 29; 21; 13; 5; 28; 20; 12; 4].

Definition perm2 : list Z :=
  [14; 17; 11; 24; 1; 5; 3; 28; 15; 6; 21; 10;
   23; 19; 12; 4; 26; 8; 16; 7; 27; 20; 13; 2;
   41; 52; 31; 37; 47; 55; 30; 40; 51; 45; 33; 48;
   44; 49; 39; 56; 34; 53; 46; 42; 50; 36; 29; 32].

Definition perm3 : list Z :=
  [58; 50; 42; 34; 26; 18; 10; 2; 60; 52; 44; 36; 28; 20; 12; 4;
   62; 54; 46; 38; 30; 22; 14; 6; 64; 56; 48; 40; 32; 24; 16; 8;
   57; 49; 41; 33; 25; 17; 9; 1; 59; 51; 43; 35; 27; 19; 11; 3;
   61; 53; 45; 37; 29; 21; 13; 5; 63; 55; 47; 39; 31; 23; 15; 7].

Definition perm4 : list Z :=
  [32; 1; 2; 3; 4; 5; 4; 5; 6; 7; 8; 9;
   8; 9; 10; 11; 12; 13; 12; 13; 14; 15; 16; 17;
   16; 17; 18; 19; 20; 21; 20; 21; 22; 23; 24; 25;
   24; 25; 26; 27; 28; 29; 28; 29; 30; 31; 32; 1].

Definition perm5 : list Z :=
  [16; 7; 20; 21; 29; 12; 28; 17; 1; 15; 23; 26; 5; 18; 31; 10;
   2; 8; 24; 14; 32; 27; 3; 9; 19; 13; 30; 6; 22; 11; 4; 25].

Definition perm6 : list Z :=
  [40; 8; 48; 16; 56; 24; 64; 32; 39; 7; 47; 15; 55; 23; 63; 31;
   38; 6; 46; 14; 54; 22; 62; 30; 37; 5; 45; 13; 53; 21; 61; 29;
   36; 4; 44; 12; 52; 20; 60; 28; 35; 3; 43; 11; 51; 19; 59; 27;
   34; 2; 42; 10; 50; 18; 58; 26; 33; 1; 41; 9; 49; 17; 57; 25].

Definition sc : list Z :=
  [1; 1; 2; 2; 2; 2; 2; 2; 1; 2; 2; 2; 2; 2; 2; 1].

Definition sbox : list (list (list Z)) :=
  [[[14; 4; 13; 1; 2; 15; 11; 8; 3; 10; 6; 12; 5; 9; 0; 7];
    [0; 15; 7; 4; 14; 2; 13; 1; 10; 6; 12; 11; 9; 5; 3; 8];
    [4; 1; 14; 8; 13; 6; 2; 11; 15; 12; 9; 7; 3; 10; 5; 0];
    [15; 12; 8; 2; 4; 9; 1; 7; 5; 11; 3; 14; 10; 0; 6; 13]];
   [[15; 1; 8; 14; 6; 11; 3; 4; 9; 7; 2; 13; 12; 0; 5; 10];
    [3; 13; 4; 7; 15; 2; 8; 14; 12; 0; 1; 10; 6; 9; 11; 5];
    [0; 14; 7; 11; 10; 4; 13; 1; 5; 8; 12; 6; 9; 3; 2; 15];
    [13; 8; 10; 1; 3; 15; 4; 2; 11; 6; 7; 12; 0; 5; 14; 9]];
   [[10; 0; 9; 14; 6; 3; 15; 5; 1; 13; 12; 7; 11; 4; 2; 8];
    [13; 7; 0; 9; 3; 4; 6; 10; 2; 8; 5; 14; 12; 11; 15; 1];
    [13; 6; 4; 9; 8; 15; 3; 0; 11; 1; 2; 12; 5; 10; 14; 7];
    [1; 10; 13; 0; 6; 9; 8; 7; 4; 15; 14; 3; 11; 5; 2; 12]];
   [[7; 13; 14; 3; 0; 6; 9; 10; 1; 2; 8; 5; 11; 12; 4; 15];
    [13; 8; 11; 5; 6; 15; 0; 3; 4; 7; 2; 12; 1; 10; 14; 9];
    [10; 6; 9; 0; 12; 11; 7; 13; 15; 1; 3; 14; 5; 2; 8; 4];
    [3; 15; 0; 6; 10; 1; 13; 8; 9; 4; 5; 11; 12; 7; 2; 14]];
   [[2; 12; 4; 1; 7; 10; 11; 6; 8; 5; 3; 15; 13; 0; 14; 9];
    [14; 11; 2; 12; 4; 7; 13; 1; 5; 0; 15; 10; 3; 9; 8; 6];
    [4; 2; 1; 11; 10; 13; 7; 8; 15; 9; 12; 5; 6; 3; 0; 14];
    [11; 8; 12; 7; 1; 14; 2; 13; 6; 15; 0; 9; 10; 4; 5; 3]];
   [[12; 1; 10; 15; 9; 2; 6; 8; 0; 13; 3; 4; 14; 7; 5; 11];
    [10; 15; 4; 2; 7; 12; 9; 5; 6; 1; 13; 14; 0; 11; 3; 8];
    [9; 14; 15; 5; 2; 8; 12; 3; 7; 0; 4; 10; 1; 13; 11; 6];
    [4; 3; 2; 12; 9; 5; 15; 10; 11; 14; 1; 7; 6; 0; 8; 13]];
   [[4; 11; 2; 14; 15; 0; 8; 13; 3; 12; 9; 7; 5; 10; 6; 1];
    [13; 0; 11; 7; 4; 9; 1; 10; 14; 3; 5; 12; 2; 15; 8; 6];
    [1; 4; 11; 13; 12; 3; 7; 14; 10; 15; 6; 8; 0; 5; 9; 2];
    [6; 11; 13; 8; 1; 4; 10; 7; 9; 5; 0; 15; 14; 2; 3; 12]];
   [[13; 2; 8; 4; 6; 15; 11; 1; 10; 9; 3; 14; 5; 0; 12; 7];
    [1; 15; 13; 8; 10; 3; 7; 4; 12; 5; 6; 11; 0; 14; 9; 2];
    [7; 11; 4; 1; 9; 12; 14; 2; 0; 6; 10; 13; 15; 3; 5; 8];
    [2; 1; 14; 7; 4; 10; 8; 13; 15; 12; 9; 0; 3; 5; 6; 11]]].

(** Array reads; every subscript of the code is in bounds. *)
Definition ch (a : list Z) (i : nat) : Z := default 0 (a !! i).
Definition tab (a : list Z) (i : nat) : nat := Z.to_nat (ch a i).

(** The [char] arrays of the code hold one bit per element. *)
Definition permute (inp p : list Z) (n : nat) : list Z :=
  map (fun i => ch inp (tab p i - 1)%nat) (seq 0 n).

Definition lshift (d : list Z) (count n : nat) : list Z :=
  map (fun i => ch d ((i + count) mod n)%nat) (seq 0 n).

Definition concat (in1 in2 : list Z) (l1 l2 : nat) : list Z := take l1 in1 ++ take l2 in2.

Definition xor (in1 in2 : list Z) (n : nat) : list Z :=
  map (fun i => Z.lxor (ch in1 i) (ch in2 i)) (seq 0 n).

(** The key schedule: the loop that fills [ki[16][48]]. *)
Definition key_step (st : list (list Z) * list Z * list Z) (i : nat) :=
  let '(ki, c, d) := st in
  let c := lshift c (tab sc i) 28 in
  let d := lshift d (tab sc i) 28 in
  let cd := concat c d 28 28 in
  (ki ++ [permute cd perm2 48], c, d).

Definition key_schedule (key : list Z) : list (list Z) :=
  let pk1 := permute key perm1 56 in
  let c := take 28 pk1 in
  let d := take 28 (drop 28 pk1) in
  (fold_left key_step (seq 0 16) ([], c, d)).1.1.

(** One S-box: six bits in, four out. *)
Definition sbox_bits (j : nat) (b : list Z) : list Z :=
  let m := Z.lor (Z.shiftl (ch b 0) 1) (ch b 5) in
  let n := Z.lor (Z.lor (Z.lor (Z.shiftl (ch b 1) 3) (Z.shiftl (ch b 2) 2)) (Z.shiftl (ch b 3) 1)) (ch b 4) in
  let v := default 0 (t ← sbox !! j; row ← t !! Z.to_nat m; row !! Z.to_nat n) in
  map (fun k => if decide (Z.land v (Z.shiftl 1 (3 - Z.of_nat k)) <> 0) then 1 else 0) (seq 0 4).

(** The round function: [er], [erk], [b], [cb] and [pcb] of the code. *)
Definition feistel (r ki : list Z) : list Z :=
  let er := permute r perm4 48 in
  let erk := xor er ki 48 in
  let cb := List.concat (map (fun j => sbox_bits j (slice (6 * j) 6 erk)) (seq 0 8)) in
  permute cb perm5 32.

Definition round (lr : list Z * list Z) (ki : list Z) : list Z * list Z :=
  let '(l, r) := lr in
  let r2 := xor l (feistel r ki) 32 in
  (r, r2).

Definition dohash (inp key : list Z) (forw : bool) : list Z :=
  let ki := key_schedule key in
  let pd1 := permute inp perm3 64 in
  let l := take 32 pd1 in
  let r := take 32 (drop 32 pd1) in
  let '(l, r) :=
    fold_left (fun lr i => round lr (default [] (ki !! (if forw then i else 15 - i)%nat))) (seq 0 16) (l, r) in
  let rl := concat r l 32 32 in
  permute rl perm6 64.

Definition str_to_key (str : list Z) : list Z :=
  let key :=
    [Z.shiftr (ch str 0) 1;
     Z.lor (Z.shiftl (Z.land (ch str 0) 0x01) 6) (Z.shiftr (ch str 1) 2);
     Z.lor (Z.shiftl (Z.land (ch str 1) 0x03) 5) (Z.shiftr (ch str 2) 3);
     Z.lor (Z.shiftl (Z.land (ch str 2) 0x07) 4) (Z.shiftr (ch str 3) 4);
     Z.lor (Z.shiftl (Z.land (ch str 3) 0x0F) 3) (Z.shiftr (ch str 4) 5);
     Z.lor (Z.shiftl (Z.land (ch str 4) 0x1F) 2) (Z.shiftr (ch str 5) 6);
     Z.lor (Z.shiftl (Z.land (ch str 5) 0x3F) 1) (Z.shiftr (ch str 6) 7);
     Z.land (ch str 6) 0x7F] in
  map (fun b => u8 (Z.shiftl b 1)) key.

(** The two loops of des_crypt56 between bytes and bit arrays. *)
Definition bit_mask (i : nat) : Z := Z.shiftl 1 (7 - Z.of_nat (i mod 8)).

Definition unpack (b : list Z) : list Z :=
  map (fun i => if decide (Z.land (ch b (i / 8)) (bit_mask i) <> 0) then 1 else 0) (seq 0 64).

Definition pack_bit (bits : list Z) (out : list Z) (i : nat) : list Z :=
  if decide (ch bits i <> 0) then <[(i / 8)%nat := Z.lor (ch out (i / 8)) (bit_mask i)]> out else out.

Definition pack (bits : list Z) : list Z := fold_left (pack_bit bits) (seq 0 64) (replicate 8 0).

Definition des_crypt56 (inp key : list Z) (forw : bool) : list Z :=
  let key2 := str_to_key key in
  let inb := unpack inp in
  let keyb := unpack key2 in
  pack (dohash inb keyb forw).

Definition sp8 : list Z := [0x4b; 0x47; 0x53; 0x21; 0x40; 0x23; 0x24; 0x25].

Definition E_P16 (p14 : list Z) : list Z :=
  des_crypt56 sp8 p14 true ++ des_crypt56 sp8 (drop 7 p14) true.

Definition E_P24 (p21 c8 : list Z) : list Z :=
  des_crypt56 c8 p21 true ++ des_crypt56 c8 (drop 7 p21) true ++ des_crypt56 c8 (drop 14 p21) true.

Definition D_P16 (p14 inp : list Z) : list Z :=
  des_crypt56 inp p14 false ++ des_crypt56 (drop 8 inp) (drop 7 p14) false.

Definition E_old_pw_hash (p14 inp : list Z) : list Z :=
  des_crypt56 inp p14 true ++ des_crypt56 (drop 8 inp) (drop 7 p14) true.

Definition des_crypt128 (inp key : list Z) : list Z :=
  let buf := des_crypt56 inp key true in
  des_crypt56 buf (drop 9 key) true.

Definition des_crypt64 (inp key : list Z) (forw : bool) : list Z :=
  let buf := des_crypt56 inp key forw in
  let key2 := <[0%nat := ch key 7]> (replicate 8 0) in
  des_crypt56 buf key2 forw.

Definition des_crypt112 (inp key : list Z) (forw : bool) : list Z :=
  let buf := des_crypt56 inp key forw in
  des_crypt56 buf (drop 7 key) forw.

Definition des_crypt112_16 (inp key : list Z) (forw : bool) : list Z :=
  des_crypt56 inp key forw ++ des_crypt56 (drop 8 inp) (drop 7 key) forw.

Definition rid_key (rid : Z) : list Z :=
  let s0 := u8 (Z.land rid 0xFF) in
  let s1 := u8 (Z.land (Z.shiftr rid 8) 0xFF) in
  let s2 := u8 (Z.land (Z.shiftr rid 16) 0xFF) in
  let s3 := u8 (Z.land (Z.shiftr rid 24) 0xFF) in
  [s0; s1; s2; s3; s0; s1; s2; s3; s0; s1; s2; s3; s0; s1].

Definition sam_rid_crypt (rid : Z) (inp : list Z) (forw : bool) : list Z :=
  let s := rid_key rid in
  des_crypt56 inp s forw ++ des_crypt56 (drop 8 inp) (drop 7 s) forw.
End Des.

Import Des.

(** ** Bit arrays *)

Definition bit_array (n : nat) (x : list Z) : Prop := length x = n /\ Forall (fun b => b = 0 \/ b = 1) x.

Lemma ch_map f n i : (i < n)%nat -> ch (map f (seq 0 n)) i = f i.
Proof.
  intros Hi. unfold ch. change (map f ?l) with (f <$> l). by rewrite list_lookup_fmap, lookup_seq_lt by done.
Qed.

Lemma ch_tabulate x n : length x = n -> map (ch x) (seq 0 n) = x.
Proof.
  intros <-. apply list_eq. intros i. change (map (ch x) ?l) with (ch x <$> l). rewrite list_lookup_fmap.
  destruct (decide (i < length x)%nat).
  - rewrite lookup_seq_lt by done. simpl. unfold ch. destruct (lookup_lt_is_Some_2 x i) as [b ->]; [done|]. done.
  - rewrite lookup_seq_ge by lia. symmetry. apply lookup_ge_None. lia.
Qed.

Lemma map_seq_ext {A} (f g : nat -> A) n : (forall i, (i < n)%nat -> f i = g i) -> map f (seq 0 n) = map g (seq 0 n).
Proof. intros H. apply map_ext_in. intros i Hi%in_seq. apply H. lia. Qed.

Lemma length_tabulate {A} (f : nat -> A) n : length (map f (seq 0 n)) = n.
Proof. by rewrite length_map, length_seq. Qed.

Lemma ch_bit x i : Forall (fun b => b = 0 \/ b = 1) x -> ch x i = 0 \/ ch x i = 1.
Proof.
  intros H. unfold ch. destruct (x !! i) eqn:E; [|by left]. by apply (Forall_lookup_1 _ _ _ _ H E).
Qed.

Lemma tabulate_bits f n : (forall i, f i = 0 \/ f i = 1) -> bit_array n (map f (seq 0 n)).
Proof.
  intros H. split; [apply length_tabulate|]. change (map f ?l) with (f <$> l). apply Forall_fmap, Forall_true.
  intros i. apply H.
Qed.

Lemma permute_bits x p n : Forall (fun b => b = 0 \/ b = 1) x -> bit_array n (permute x p n).
Proof. intros H. apply tabulate_bits. intros. by apply ch_bit. Qed.

Lemma xor_bits x y n :
  Forall (fun b => b = 0 \/ b = 1) x -> Forall (fun b => b = 0 \/ b = 1) y -> bit_array n (xor x y n).
Proof.
  intros Hx Hy. apply tabulate_bits. intros i.
  destruct (ch_bit x i Hx) as [-> | ->], (ch_bit y i Hy) as [-> | ->]; auto.
Qed.

(** Composition of two table permutations. *)
Lemma permute_inverse x p q n :
  length x = n ->
  forallb (fun i => (tab q i - 1 <? n)%nat && (tab p (tab q i - 1) - 1 =? i)%nat) (seq 0 n) = true ->
  permute (permute x p n) q n = x.
Proof.
  intros Hx Hpq. rewrite <- (ch_tabulate x n Hx) at 2. unfold permute at 1. apply map_seq_ext. intros i Hi.
  rewrite forallb_forall in Hpq. specialize (Hpq i ltac:(apply in_seq; lia)).
  apply andb_prop in Hpq as [H1%Nat.ltb_lt H2%Nat.eqb_eq].
  unfold permute. rewrite ch_map by done. by rewrite H2.
Qed.

Lemma final_initial x : length x = 64%nat -> permute (permute x perm6 64) perm3 64 = x.
Proof. intros. by apply permute_inverse. Qed.

Lemma initial_final x : length x = 64%nat -> permute (permute x perm3 64) perm6 64 = x.
Proof. intros. by apply permute_inverse. Qed.

(** ** The Feistel network *)

Lemma xor_cancel x y n : length x = n -> xor (xor x y n) y n = x.
Proof.
  intros Hx. rewrite <- (ch_tabulate x n Hx) at 2. unfold xor at 1. apply map_seq_ext. intros i Hi.
  unfold xor. rewrite ch_map by done. by rewrite Z.lxor_assoc, Z.lxor_nilpotent, Z.lxor_0_r.
Qed.

Lemma feistel_bits r k : bit_array 32 (feistel r k).
Proof.
  apply permute_bits. apply Forall_concat. apply Forall_forall. intros b Hb.
  apply in_map_iff in Hb as (j & <- & _). apply tabulate_bits.
  intros i. case_decide; auto.
Qed.

Definition half_bits (lr : list Z * list Z) : Prop := bit_array 32 lr.1 /\ bit_array 32 lr.2.

Lemma round_bits lr k : half_bits lr -> half_bits (round lr k).
Proof.
  destruct lr as [l r]. intros [Hl Hr]. split; [done|]. apply xor_bits; [apply Hl|apply feistel_bits].
Qed.

Lemma rounds_bits ks lr : half_bits lr -> half_bits (fold_left round ks lr).
Proof. revert lr. induction ks as [|k ks IH]; intros lr H; [done|]. by apply IH, round_bits. Qed.

(** Running a round on the swapped halves undoes it, so the rounds in reverse order
    undo them all. *)
Definition swap_halves (lr : list Z * list Z) := (lr.2, lr.1).

Lemma round_swap lr k : length lr.1 = 32%nat -> round (swap_halves (round lr k)) k = swap_halves lr.
Proof.
  destruct lr as [l r]. simpl. intros Hl. unfold swap_halves. cbn [round fst snd]. f_equal. by apply xor_cancel.
Qed.

Lemma rounds_swap ks : forall lr,
  half_bits lr -> fold_left round (rev ks) (swap_halves (fold_left round ks lr)) = swap_halves lr.
Proof.
  induction ks as [|k ks IH]; intros lr Hlr; [done|]. cbn [fold_left rev].
  rewrite fold_left_app, IH by by apply round_bits. cbn [fold_left]. apply round_swap, Hlr.
Qed.

(** The subscripts [ki[i]] and [ki[15 - i]] walk the schedule and its reverse. *)
Lemma key_schedule_length key : length (key_schedule key) = 16%nat.
Proof. reflexivity. Qed.

Lemma walk_keys ki (forw : bool) lr :
  length ki = 16%nat ->
  fold_left (fun lr i => round lr (default [] (ki !! (if forw then i else 15 - i)%nat))) (seq 0 16) lr =
  fold_left round (if forw then ki else rev ki) lr.
Proof.
  intros Hk. do 16 (destruct ki as [|? ki]; [done|]). destruct ki; [|done]. by destruct forw.
Qed.

Definition halves (pd1 : list Z) : list Z * list Z := (take 32 pd1, take 32 (drop 32 pd1)).

Lemma dohash_rounds inp key (forw : bool) :
  let lr := fold_left round (if forw then key_schedule key else rev (key_schedule key)) (halves (permute inp perm3 64)) in
  dohash inp key forw = permute (take 32 lr.2 ++ take 32 lr.1) perm6 64.
Proof.
  unfold dohash. cbv zeta. rewrite walk_keys by apply key_schedule_length. unfold halves.
  by destruct (fold_left round _ _).
Qed.

Lemma halves_bits x : bit_array 64 x -> half_bits (halves x).
Proof.
  intros [Hl Hb]. split; (split; [cbn [halves fst snd]; len_norm; lia|]); cbn [halves fst snd];
    repeat first [apply Forall_take|apply Forall_drop]; done.
Qed.

Lemma halves_app l r : length l = 32%nat -> length r = 32%nat -> halves (l ++ r) = (l, r).
Proof.
  intros Hl Hr. unfold halves. rewrite take_app_length', drop_app_length' by done. by rewrite take_ge by lia.
Qed.

Lemma halves_join x : length x = 64%nat -> (halves x).1 ++ (halves x).2 = x.
Proof.
  intros Hx. cbn [halves fst snd]. rewrite (take_ge (drop 32 x)) by (len_norm; lia). apply take_drop.
Qed.

Lemma dohash_bits inp key forw : bit_array 64 inp -> bit_array 64 (dohash inp key forw).
Proof.
  intros [Hl Hb]. rewrite dohash_rounds. cbv zeta. apply permute_bits.
  destruct (rounds_bits (if forw then key_schedule key else rev (key_schedule key))
              (halves (permute inp perm3 64))) as [[_ H1] [_ H2]].
  { by apply halves_bits, permute_bits. }
  apply Forall_app; split; by apply Forall_take.
Qed.

Lemma dohash_inverse inp key forw :
  bit_array 64 inp -> dohash (dohash inp key forw) key (negb forw) = inp.
Proof.
  intros [Hl Hb]. pose proof (permute_bits inp perm3 64 Hb) as Hp.
  rewrite (dohash_rounds inp), dohash_rounds. cbv zeta.
  set (ks := if forw then key_schedule key else rev (key_schedule key)).
  replace (if negb forw then key_schedule key else rev (key_schedule key)) with (rev ks)
    by (unfold ks; destruct forw; [done|by rewrite rev_involutive]).
  pose proof (rounds_bits ks _ (halves_bits _ Hp)) as [[Hl1 _] [Hl2 _]].
  pose proof (rounds_swap ks _ (halves_bits _ Hp)) as Hsw.
  set (lr := fold_left round ks (halves (permute inp perm3 64))) in *.
  rewrite final_initial by (len_norm; lia).
  rewrite !(take_ge lr.1), !(take_ge lr.2) by lia. rewrite halves_app by done. change (lr.2, lr.1) with (swap_halves lr). rewrite Hsw. cbn [swap_halves fst snd].
  destruct (halves_bits _ Hp) as [[Hh1 _] [Hh2 _]].
  rewrite !take_ge by lia. rewrite halves_join by apply Hp. by apply initial_final.
Qed.

(** ** Bytes and bit arrays *)

Lemma bit_mask_spec i t : 0 <= t -> Z.testbit (bit_mask i) t = (t =? 7 - Z.of_nat (i mod 8)).
Proof.
  intros Ht. unfold bit_mask. pose proof (Nat.mod_upper_bound i 8 ltac:(lia)).
  rewrite Z.shiftl_1_l, Z.pow2_bits_eqb by lia. apply Z.eqb_sym.
Qed.

Lemma land_bit_mask b i : Z.land b (bit_mask i) <> 0 <-> Z.testbit b (7 - Z.of_nat (i mod 8)) = true.
Proof.
  pose proof (Nat.mod_upper_bound i 8 ltac:(lia)).
  assert (Z.land b (bit_mask i) =
    if Z.testbit b (7 - Z.of_nat (i mod 8)) then bit_mask i else 0) as ->.
  { apply Z.bits_inj'. intros t Ht. rewrite Z.land_spec, bit_mask_spec by done.
    destruct (Z.eqb_spec t (7 - Z.of_nat (i mod 8))) as [->|].
    - destruct (Z.testbit b (7 - Z.of_nat (i mod 8))); [|by rewrite Z.bits_0].
      rewrite bit_mask_spec by lia. by rewrite Z.eqb_refl.
    - rewrite andb_false_r. destruct (Z.testbit b (7 - Z.of_nat (i mod 8))); [|by rewrite Z.bits_0].
      rewrite bit_mask_spec by lia. symmetry. by apply Z.eqb_neq. }
  assert (bit_mask i <> 0).
  { unfold bit_mask. rewrite Z.shiftl_1_l. apply Z.pow_nonzero; lia. }
  by destruct (Z.testbit b _).
Qed.

Lemma unpack_bits b : bit_array 64 (unpack b).
Proof. apply tabulate_bits. intros i. case_decide; auto. Qed.

Lemma ch_unpack b i : (i < 64)%nat ->
  ch (unpack b) i = if Z.testbit (ch b (i / 8)) (7 - Z.of_nat (i mod 8)) then 1 else 0.
Proof.
  intros Hi. unfold unpack. rewrite ch_map by done. case_decide as H.
  - apply land_bit_mask in H. by rewrite H.
  - destruct (Z.testbit _ _) eqn:E; [|done]. by apply land_bit_mask in E.
Qed.

(** The bits of the bytes [pack] has built after [n] iterations. *)
Lemma pack_spec bits n :
  (n <= 64)%nat ->
  let out := fold_left (pack_bit bits) (seq 0 n) (replicate 8 0) in
  length out = 8%nat /\ bytes out /\
  forall i, (i < 64)%nat ->
    Z.testbit (ch out (i / 8)) (7 - Z.of_nat (i mod 8)) = (i <? n)%nat && negb (ch bits i =? 0).
Proof.
  induction n as [|n IH]; intros Hn; cbv zeta.
  - split_and!; [done|by apply replicate_bytes|]. intros i Hi. cbn [seq fold_left].
    unfold ch at 1. rewrite lookup_replicate_2 by (apply Nat.Div0.div_lt_upper_bound; lia). by rewrite Z.bits_0.
  - destruct IH as (Hl & Hb & Hbits); [lia|]. rewrite seq_S, fold_left_app. cbn [fold_left Nat.add].
    set (out := fold_left _ _ _) in *. unfold pack_bit. case_decide as Hc.
    + assert (n / 8 < 8)%nat as Hn8 by (apply Nat.Div0.div_lt_upper_bound; lia).
      assert (is_byte (ch out (n / 8))) as Hbn.
      { unfold ch. destruct (out !! (n / 8)%nat) eqn:E; [|done]. by apply (Forall_lookup_1 _ _ _ _ Hb E). }
      assert (is_byte (bit_mask n)) as Hbm.
      { unfold bit_mask. pose proof (Nat.mod_upper_bound n 8 ltac:(lia)). apply (is_u_shiftl 1); try lia. done. }
      split_and!; [by rewrite length_insert| |].
      * apply Forall_insert; [done|]. by apply is_u_lor.
      * intros i Hi. pose proof (Nat.mod_upper_bound i 8 ltac:(lia)). unfold ch at 1.
        destruct (decide (n / 8 = i / 8)%nat) as [E|E].
        -- rewrite <- E, list_lookup_insert_eq by lia. cbn [default from_option id]. rewrite Z.lor_spec, bit_mask_spec by lia.
           rewrite E at 1. rewrite Hbits by done.
           destruct (decide (i = n)) as [->|Hne].
           ++ rewrite Z.eqb_refl, orb_true_r.
              destruct (Nat.ltb_spec n (S n)); [|lia]. by destruct (Z.eqb_spec (ch bits n) 0).
           ++ destruct (Z.eqb_spec (7 - Z.of_nat (i mod 8)) (7 - Z.of_nat (n mod 8))) as [E'|].
              { pose proof (Nat.div_mod_eq i 8). pose proof (Nat.div_mod_eq n 8). lia. }
              rewrite orb_false_r. f_equal. destruct (Nat.ltb_spec i n), (Nat.ltb_spec i (S n)); lia || done.
        -- rewrite list_lookup_insert_ne by done. change (default 0 (out !! (i / 8)%nat)) with (ch out (i / 8)).
           rewrite Hbits by done. f_equal. assert (i <> n) by congruence.
           destruct (Nat.ltb_spec i n), (Nat.ltb_spec i (S n)); lia || done.
    + split_and!; [done..|]. intros i Hi. rewrite Hbits by done.
      destruct (decide (i = n)) as [->|Hne].
      * destruct (Z.eqb_spec (ch bits n) 0) as [|E]; [by rewrite !andb_false_r|]. by destruct Hc.
      * f_equal. destruct (Nat.ltb_spec i n), (Nat.ltb_spec i (S n)); lia || done.
Qed.

Lemma pack_bytes bits : bytes (pack bits) /\ length (pack bits) = 8%nat.
Proof. by destruct (pack_spec bits 64) as (? & ? & _). Qed.

Lemma ch_pack bits i : (i < 64)%nat ->
  Z.testbit (ch (pack bits) (i / 8)) (7 - Z.of_nat (i mod 8)) = negb (ch bits i =? 0).
Proof.
  intros Hi. destruct (pack_spec bits 64) as (_ & _ & H); [done|]. unfold pack. rewrite H by done.
  destruct (Nat.ltb_spec i 64); [done|lia].
Qed.

Lemma unpack_pack x : bit_array 64 x -> unpack (pack x) = x.
Proof.
  intros [Hl Hb]. destruct (unpack_bits (pack x)) as [Hul _].
  rewrite <- (ch_tabulate _ _ Hul). rewrite <- (ch_tabulate x 64 Hl) at 2. apply map_seq_ext. intros i Hi.
  rewrite ch_unpack, ch_pack by done. by destruct (ch_bit x i Hb) as [-> | ->].
Qed.

Lemma pack_unpack b : bytes b -> length b = 8%nat -> pack (unpack b) = b.
Proof.
  intros Hb Hl. destruct (pack_bytes (unpack b)) as [Hpb Hpl].
  rewrite <- (ch_tabulate _ _ Hpl). rewrite <- (ch_tabulate b 8 Hl) at 2. apply map_seq_ext. intros k Hk.
  assert (forall l, bytes l -> length l = 8%nat -> is_byte (ch l k)) as Hbyte.
  { intros l Hlb Hll. unfold ch. destruct (lookup_lt_is_Some_2 l k) as [v E]; [lia|].
    rewrite E. by apply (Forall_lookup_1 _ _ _ _ Hlb E). }
  apply Z.bits_inj'. intros t Ht. destruct (decide (8 <= t)).
  { by rewrite !(is_u_testbit 8) by auto. }
  set (i := (8 * k + Z.to_nat (7 - t))%nat).
  assert (i / 8 = k)%nat as Ek.
  { unfold i. rewrite Nat.mul_comm, Nat.div_add_l, Nat.div_small by lia. lia. }
  assert (7 - Z.of_nat (i mod 8) = t) as Et.
  { unfold i. rewrite Nat.add_comm, Nat.mul_comm, Nat.Div0.mod_add, Nat.mod_small by lia. lia. }
  assert (i < 64)%nat as Hi by (unfold i; lia).
  rewrite <- Ek, <- Et. rewrite ch_pack, ch_unpack by done. by destruct (Z.testbit _ _).
Qed.

(** *** One block *)

Lemma des_crypt56_block inp key forw :
  bytes (des_crypt56 inp key forw) /\ length (des_crypt56 inp key forw) = 8%nat.
Proof. apply pack_bytes. Qed.

Lemma length_des_crypt56 inp key forw : length (des_crypt56 inp key forw) = 8%nat.
Proof. apply pack_bytes. Qed.

Lemma length_E_P24 p21 c8 : length (E_P24 p21 c8) = 24%nat.
Proof. unfold E_P24. by rewrite !length_app, !length_des_crypt56. Qed.

Lemma des_crypt56_inverse inp key forw :
  bytes inp -> length inp = 8%nat ->
  des_crypt56 (des_crypt56 inp key forw) key (negb forw) = inp.
Proof.
  intros Hb Hl. unfold des_crypt56. cbv zeta. pose proof (unpack_bits inp) as Hu.
  rewrite unpack_pack by by apply dohash_bits. rewrite dohash_inverse by done. by apply pack_unpack.
Qed.

Lemma des_crypt112_block inp key forw :
  bytes (des_crypt112 inp key forw) /\ length (des_crypt112 inp key forw) = 8%nat.
Proof. apply des_crypt56_block. Qed.

(** Only the first eight bytes of the input buffer are read. *)
Lemma unpack_prefix b b' : length b = 8%nat -> unpack (b ++ b') = unpack b.
Proof.
  intros Hl. unfold unpack. apply map_seq_ext. intros i Hi. unfold ch.
  rewrite lookup_app_l; [done|]. rewrite Hl. apply Nat.Div0.div_lt_upper_bound. lia.
Qed.

Lemma des_crypt56_prefix b b' key forw : length b = 8%nat -> des_crypt56 (b ++ b') key forw = des_crypt56 b key forw.
Proof. intros Hl. unfold des_crypt56. cbv zeta. by rewrite unpack_prefix. Qed.

(** *** Two blocks under two keys *)

(** des_crypt112_16, D_P16 / E_old_pw_hash and sam_rid_crypt are all this. *)
Definition two_blocks (inp k1 k2 : list Z) (forw : bool) : list Z :=
  des_crypt56 inp k1 forw ++ des_crypt56 (drop 8 inp) k2 forw.

Lemma two_blocks_inverse inp k1 k2 forw :
  bytes inp -> length inp = 16%nat ->
  two_blocks (two_blocks inp k1 k2 forw) k1 k2 (negb forw) = inp.
Proof.
  intros Hb Hl. unfold two_blocks. destruct (des_crypt56_block inp k1 forw) as [_ Hl1].
  rewrite des_crypt56_prefix, drop_app_length' by done.
  assert (exists a b, inp = a ++ b /\ length a = 8%nat /\ length b = 8%nat) as (a & b & -> & Ha & Hb').
  { exists (take 8 inp), (drop 8 inp). rewrite take_drop. split_and!; [done|len_norm; lia..]. }
  apply Forall_app in Hb as [Hba Hbb]. rewrite des_crypt56_prefix, drop_app_length' by done.
  by rewrite !des_crypt56_inverse.
Qed.

#[local] Opaque des_crypt56 rid_key.

Lemma des_crypt112_16_inverse inp key forw :
  bytes inp -> length inp = 16%nat -> des_crypt112_16 (des_crypt112_16 inp key forw) key (negb forw) = inp.
Proof. apply (two_blocks_inverse inp key (drop 7 key) forw). Qed.

(** Forward and backward [des_crypt56] are inverse bijections of the 8-byte
    blocks under every key, and so are the callers that work on two blocks under two
    keys: des_crypt112_16, sam_rid_crypt, and D_P16 against E_old_pw_hash. *)
Theorem des_decrypt_inverts_encrypt (inp lump key : list Z) (rid : Z) (forw : bool) :
  bytes inp -> length inp = 8%nat -> bytes lump -> length lump = 16%nat ->
  des_crypt56 (des_crypt56 inp key forw) key (negb forw) = inp /\
  des_crypt112_16 (des_crypt112_16 lump key forw) key (negb forw) = lump /\
  sam_rid_crypt rid (sam_rid_crypt rid lump forw) (negb forw) = lump /\
  D_P16 key (E_old_pw_hash key lump) = lump /\
  E_old_pw_hash key (D_P16 key lump) = lump.
Proof.
  intros Hb Hl Hb16 Hl16. split_and!.
  - by apply des_crypt56_inverse.
  - by apply des_crypt112_16_inverse.
  - by apply (two_blocks_inverse lump (rid_key rid) (drop 7 (rid_key rid)) forw).
  - by apply (two_blocks_inverse lump key (drop 7 key) true).
  - by apply (two_blocks_inverse lump key (drop 7 key) false).
Qed.

Lemma des_decrypt_inverts_encrypt_witness :
  des_crypt56 (des_crypt56 sp8 sp8 true) sp8 false = sp8 /\
  D_P16 sp8 (E_old_pw_hash sp8 (sp8 ++ sp8)) = sp8 ++ sp8.
Proof.
  destruct (des_decrypt_inverts_encrypt sp8 (sp8 ++ sp8) sp8 500 true) as (H1 & _ & _ & H2 & _); [by_eval..|].
  by split.
Defined.

#[local] Transparent des_crypt56 rid_key.

(** The function des_crypt112 chains two passes under the two halves of its key.  Backward
    with the halves exchanged inverts forward; backward with the same key, which is
    what the [forw] argument offers, does not: it runs the passes in the forward
    order. *)
Theorem des_crypt112_backward_order (inp k1 k2 : list Z) :
  bytes inp -> length inp = 8%nat -> length k1 = 7%nat -> length k2 = 7%nat ->
  des_crypt112 (des_crypt112 inp (k1 ++ k2) true) (k2 ++ k1) false = inp /\
  exists block key,
    bytes block /\ length block = 8%nat /\ bytes key /\ length key = 14%nat /\
    des_crypt112 (des_crypt112 block key true) key false <> block.
Proof.
  intros Hb Hl H1 H2. split.
  - unfold des_crypt112. cbv zeta. rewrite !drop_app_length' by done.
    assert (forall b k k' forw, length k = 7%nat -> des_crypt56 b (k ++ k') forw = des_crypt56 b k forw) as Hk.
    { intros b k k' forw Hk. unfold des_crypt56, str_to_key, ch. cbv zeta.
      by rewrite !lookup_app_l by lia. }
    rewrite !Hk by done. destruct (des_crypt56_block inp k1 true) as [Hb1 Hl1].
    rewrite (des_crypt56_inverse _ k2 true) by done. by apply (des_crypt56_inverse _ k1 true).
  - exists (replicate 8 0), (replicate 7 0 ++ replicate 7 255).
    split_and!; [by apply replicate_bytes|done|by apply Forall_app; split; apply replicate_bytes|done|].
    vm_compute. discriminate.
Qed.

Lemma des_crypt112_backward_order_witness :
  des_crypt112 (des_crypt112 sp8 (replicate 7 1 ++ replicate 7 2) true) (replicate 7 2 ++ replicate 7 1) false = sp8.
Proof. apply (des_crypt112_backward_order sp8 (replicate 7 1) (replicate 7 2)); by_eval. Defined.

(** A known answer: the LM hash half of the password PASSWOR. *)
Example lm_half : E_P16 [0x50;0x41;0x53;0x53;0x57;0x4f;0x52;0x44;0;0;0;0;0;0] =
  [0xe5;0x2c;0xac;0x67;0x41;0x9a;0x9a;0x22;0x4a;0x3b;0x10;0x8f;0x3f;0xa6;0xcb;0x6d].
Proof. vm_compute. reflexivity. Qed.
