(* ===== verification/Session.v ===== *)
(** libcli/auth/session.c: blobs and strings under the user session key. *)

From S2P Require Import Prelude Digest Byteorder Ntstatus Des.
Import Byteorder Des.

#[local] Open Scope outcome_scope.

Module Session.
Section session.
Context `{Allocator}.

(** The key offset for one block: [if (k + 7 > length) k = length - k]. *)
Definition key_offset (length k : nat) : nat := if decide (length < k + 7)%nat then (length - k)%nat else k.

(** The loop of sess_crypt_blob; [i < in->length] bounds the iterations by [fuel]. *)
Fixpoint crypt_loop (fuel : nat) (out inp session_key : list Z) (forward : bool) (i k : nat) : outcome (list Z) :=
  match fuel with
  | O => Ret out
  | S fuel =>
      if decide (i < length inp)%nat then
        let n := Nat.min 8 (length inp - i) in
        let bin := splice 0 (slice i n inp) (replicate 8 0) in
        let k := key_offset (length session_key) k in
        if decide (k + 7 <= length session_key)%nat then
          let key := slice k 7 session_key in
          let bout := des_crypt56 bin key forward in
          crypt_loop fuel (splice i (take n bout) out) inp session_key forward (i + 8) (k + 7)
        else Fault                      (* memcpy reads past the session key *)
      else Ret out
  end.

Definition sess_crypt_blob (out inp session_key : list Z) (forward : bool) : outcome (list Z) :=
  crypt_loop (length inp) out inp session_key forward 0 0.

(** [(len + 7) & ~7] of a size_t, stored in an int. *)
Definition round_length (len : Z) : Z := s32 (Z.land (u64 (len + 7)) (u64 (Z.lnot 7))).

(** The plaintext both encryptors build: length, revision 1, data, zero padding. *)
Definition frame (len : Z) (dlen : nat) (data : list Z) : list Z :=
  let src := fresh (8 + dlen) in
  let src := SIVAL src 0 len in
  let src := SIVAL src 4 1 in
  let src := splice 8 (replicate dlen 0) src in
  splice 8 data src.

(** [Ret []] is data_blob(NULL, 0).  A negative [dlen] is a request no allocator
    satisfies; a [dlen] below the data length is a write past [src]. *)
Definition encrypt_data (len dlen : Z) (data session_key : list Z) : outcome (list Z) :=
  if decide (8 + dlen < 0) then Ret []
  else if malloc_ok 0 then
    if malloc_ok 1 then
      if decide (dlen < Z.of_nat (length data)) then Fault
      else sess_crypt_blob (fresh (8 + Z.to_nat dlen)) (frame len (Z.to_nat dlen) data) session_key true
    else Ret []
  else Ret [].

Definition sess_encrypt_string (str session_key : list Z) : outcome (list Z) :=
  let slen := s32 (Z.of_nat (length str)) in
  let dlen := s32 (Z.land (slen + 7) (Z.lnot 7)) in
  encrypt_data slen dlen str session_key.

Definition sess_encrypt_blob (blob_in session_key : list Z) : outcome (list Z) :=
  let dlen := round_length (Z.of_nat (length blob_in)) in
  encrypt_data (Z.of_nat (length blob_in)) dlen blob_in session_key.

(** talloc_strndup stops at the first zero byte. *)
Definition strndup (s : list Z) (n : nat) : list Z :=
  let s := take n s in
  take (default n (fst <$> list_find (fun b => b = 0) s)) s.

Definition sess_decrypt_string (blob session_key : list Z) : outcome (option (list Z)) :=
  if decide (length blob < 8)%nat then Ret None
  else if negb (malloc_ok 0) then Ret None
  else
    let* out := sess_crypt_blob (fresh (length blob)) blob session_key false in
    if decide (IVAL out 4 <> 1) then Ret None
    else
      let slen := s32 (IVAL out 0) in
      if decide (Z.of_nat (length blob) - 8 < u64 slen) then Ret None
      else if malloc_ok 1 then Ret (Some (strndup (drop 8 out) (Z.to_nat slen)))
      else Ret None.

Definition sess_decrypt_blob (blob session_key : list Z) : outcome (NTSTATUS * list Z) :=
  if decide (length blob < 8)%nat then Ret (NT_STATUS_INVALID_PARAMETER, [])
  else if negb (malloc_ok 0) then Ret (NT_STATUS_NO_MEMORY, [])
  else
    let* out := sess_crypt_blob (fresh (length blob)) blob session_key false in
    if decide (IVAL out 4 <> 1) then Ret (NT_STATUS_UNKNOWN_REVISION, [])
    else
      let slen := s32 (IVAL out 0) in
      if decide (Z.of_nat (length blob) - 8 < u64 slen) then Ret (NT_STATUS_WRONG_PASSWORD, [])
      else if malloc_ok 1 then Ret (NT_STATUS_OK, slice 8 (Z.to_nat slen) out)
      else if decide (slen <> 0) then Ret (NT_STATUS_NO_MEMORY, [])
      else Ret (NT_STATUS_OK, []).
End session.
End Session.

Import Session.

(** ** The block structure *)

(** What the loop does to a sequence of whole blocks. *)
Fixpoint sess_blocks (key : list Z) (forw : bool) (k : nat) (bs : list (list Z)) : list (list Z) :=
  match bs with
  | [] => []
  | b :: bs =>
      let k := key_offset (length key) k in
      des_crypt56 b (slice k 7 key) forw :: sess_blocks key forw (k + 7) bs
  end.

Abbreviation block8 b := (bytes b /\ length b = 8%nat).

Lemma sess_blocks_block key forw bs : forall k, Forall (fun b => block8 b) (sess_blocks key forw k bs).
Proof. induction bs as [|b bs IH]; intros k; constructor; [apply des_crypt56_block|apply IH]. Qed.

Lemma sess_blocks_length key forw bs : forall k, length (sess_blocks key forw k bs) = length bs.
Proof. induction bs as [|b bs IH]; intros k; cbn [sess_blocks length]; [done|]. by rewrite IH. Qed.

Lemma sess_blocks_inverse key forw bs : forall k,
  Forall (fun b => block8 b) bs ->
  sess_blocks key (negb forw) k (sess_blocks key forw k bs) = bs.
Proof.
  induction bs as [|b bs IH]; intros k Hb; [done|]. apply Forall_cons_iff in Hb as [[Hb Hl] Hbs].
  cbn [sess_blocks]. by rewrite des_crypt56_inverse, IH.
Qed.

(** The offset stays inside a key of at least seven bytes: this is what keeps the
    copy of the key in bounds. *)
Definition offset_ok (len k : nat) : Prop := (k = 0 \/ 7 <= k <= len)%nat.

Lemma key_offset_ok len k :
  (7 <= len)%nat -> offset_ok len k ->
  (key_offset len k + 7 <= len)%nat /\ offset_ok len (key_offset len k + 7).
Proof. unfold offset_ok, key_offset. intros Hlen Hk. case_decide; lia. Qed.

Lemma crypt_loop_blocks key forw bs : forall fuel ipre pre rest k,
  (7 <= length key)%nat -> offset_ok (length key) k ->
  Forall (fun b => length b = 8%nat) bs -> (length bs < fuel)%nat ->
  length pre = length ipre -> length rest = length (List.concat bs) ->
  crypt_loop fuel (pre ++ rest) (ipre ++ List.concat bs) key forw (length ipre) k =
  Ret (pre ++ List.concat (sess_blocks key forw k bs)).
Proof.
  induction bs as [|b bs IH]; intros fuel ipre pre rest k Hkey Hk Hbs Hf Hpre Hrest; (destruct fuel as [|fuel]; [simpl in Hf; lia|]); cbn [crypt_loop].
  - cbn [List.concat length] in *. destruct rest; [|done].
    by rewrite decide_False by (rewrite length_app; cbn; lia).
  - apply Forall_cons_iff in Hbs as [Hb Hbs]. cbn [List.concat length] in *. rewrite length_app in Hrest.
    rewrite decide_True by (rewrite !length_app; lia).
    destruct (key_offset_ok _ _ Hkey Hk) as [Hin Hk']. rewrite decide_True by done.
    replace (Nat.min 8 _) with 8%nat by (rewrite !length_app; lia).
    rewrite slice_at by done. rewrite splice_full by done.
    destruct (des_crypt56_block b (slice (key_offset (length key) k) 7 key) forw) as [_ Hl].
    cbn [sess_blocks List.concat]. set (c := des_crypt56 _ _ _) in *.
    rewrite take_ge, splice_app, Hl by lia.
    replace (length ipre + 8)%nat with (length (ipre ++ b)) by (rewrite length_app; lia).
    rewrite !app_assoc. rewrite <- (app_assoc pre c). rewrite (app_assoc pre c).
    apply IH; [done..|lia|rewrite !length_app; lia|rewrite length_drop; lia].
Qed.

Lemma sess_crypt_blob_blocks key forw bs out :
  (7 <= length key)%nat -> Forall (fun b => length b = 8%nat) bs -> bs <> [] ->
  length out = length (List.concat bs) ->
  sess_crypt_blob out (List.concat bs) key forw = Ret (List.concat (sess_blocks key forw 0 bs)).
Proof.
  intros Hkey Hbs Hne Hout. unfold sess_crypt_blob.
  apply (crypt_loop_blocks key forw bs _ [] []); [done|by left|done| |done|done].
  rewrite (length_concat_blocks 8) by done. destruct bs; [done|]. cbn [length]. lia.
Qed.

(** On any input, whole blocks or not, the loop stays in bounds and fills the output. *)
Lemma crypt_loop_total key forw inp : forall fuel out i k,
  (7 <= length key)%nat -> offset_ok (length key) k -> length out = length inp -> bytes out ->
  exists out', crypt_loop fuel out inp key forw i k = Ret out' /\ length out' = length inp /\ bytes out'.
Proof.
  induction fuel as [|fuel IH]; intros out i k Hkey Hk Hl Hb; cbn [crypt_loop]; [by exists out|].
  case_decide as Hi; [|by exists out].
  destruct (key_offset_ok _ _ Hkey Hk) as [Hin Hk']. cbv zeta. rewrite decide_True by done.
  destruct (des_crypt56_block (splice 0 (slice i (Nat.min 8 (length inp - i)) inp) (replicate 8 0))
              (slice (key_offset (length key) k) 7 key) forw) as [Hdb Hdl].
  apply IH; [done|done| |].
  - rewrite length_splice; [done|]. rewrite length_take. lia.
  - apply Forall_splice; [done|]. by apply Forall_take.
Qed.

(** ** The frame *)

Lemma frame_layout `{Allocator} len dlen data :
  (length data <= dlen)%nat ->
  frame len dlen data = le 4 len ++ le 4 1 ++ data ++ replicate (dlen - length data) 0.
Proof.
  intros Hd. unfold frame, fresh.
  rewrite (SIVAL_splice (replicate (8 + dlen) uninit)) by (len_norm; lia).
  rewrite SIVAL_splice by (rewrite length_splice; rewrite ?length_replicate, ?length_le; lia).
  rewrite (splice_splice (replicate (8 + dlen) uninit)) by (rewrite ?length_replicate, ?length_le; lia).
  rewrite (splice_splice (replicate (8 + dlen) uninit)) by (rewrite ?length_app, ?length_replicate, ?length_le; lia).
  rewrite splice_full by (rewrite !length_app, !length_replicate, !length_le; lia).
  rewrite splice_app by (rewrite length_app, !length_le; lia).
  rewrite drop_replicate. by rewrite <- !app_assoc.
Qed.

Lemma frame_length `{Allocator} len dlen data :
  (length data <= dlen)%nat -> length (frame len dlen data) = (8 + dlen)%nat.
Proof. intros. rewrite frame_layout by done. rewrite !length_app, !length_le, length_replicate. lia. Qed.

Lemma frame_bytes `{Allocator} len dlen data :
  (length data <= dlen)%nat -> bytes data -> bytes (frame len dlen data).
Proof.
  intros. rewrite frame_layout by done. rewrite !Forall_app.
  split_and!; auto with word. by apply replicate_bytes.
Qed.

Lemma frame_fields `{Allocator} len dlen data :
  (length data <= dlen)%nat -> bytes data ->
  IVAL (frame len dlen data) 0 = u32 len /\ IVAL (frame len dlen data) 4 = 1 /\
  drop 8 (frame len dlen data) = data ++ replicate (dlen - length data) 0.
Proof.
  intros Hd Hb. pose proof (frame_bytes len dlen data Hd Hb) as Hfb.
  pose proof (frame_length len dlen data Hd) as Hfl.
  rewrite !IVAL_slice by (done || lia). rewrite (frame_layout len dlen data Hd).
  rewrite slice_at0, slice_at by by rewrite ?length_le.
  rewrite !of_le_le. split_and!; [done|done|].
  rewrite app_assoc, drop_app_length'; [done|]. by rewrite length_app, !length_le.
Qed.

Lemma land_lnot7 x : Z.land x (Z.lnot 7) = 8 * (x / 8).
Proof.
  change 7 with (Z.ones 3). rewrite <- Z.ldiff_land, Z.ldiff_ones_r by lia.
  rewrite Z.shiftl_mul_pow2, Z.shiftr_div_pow2 by lia. change (2 ^ 3) with 8. lia.
Qed.

Lemma round_length_spec n : 0 <= n < 2 ^ 31 - 16 -> round_length n = 8 * ((n + 7) / 8).
Proof.
  intros Hn. unfold round_length.
  assert (Z.land (u64 (n + 7)) (u64 (Z.lnot 7)) = 8 * ((n + 7) / 8)) as ->.
  { rewrite u64_id by (unfold is_u; lia). rewrite <- land_lnot7. apply Z.bits_inj'. intros i Hi.
    rewrite !Z.land_spec. destruct (decide (i < 64)).
    - unfold u64. by rewrite Z.mod_pow2_bits_low by lia.
    - rewrite (is_u_testbit 64 (n + 7)); [done|unfold is_u; lia|lia]. }
  unfold s32. dlia.
Qed.

(** ** Round trips *)

(** A whole number of blocks, as a concatenation of blocks. *)
Lemma as_blocks (l : list Z) (q : nat) :
  length l = (8 * q)%nat -> bytes l ->
  exists bs, l = List.concat bs /\ Forall (fun b => block8 b) bs /\ length bs = q.
Proof.
  intros Hl Hb. exists (blocks 8 q l). split_and!.
  - by rewrite concat_blocks.
  - pose proof (blocks_lengths 8 q l ltac:(lia)) as H1. pose proof (Forall_blocks is_byte 8 q l Hb) as H2.
    apply Forall_forall. intros b Hin. split; [by apply (Forall_forall _ _) with (1 := H2)|by apply (Forall_forall _ _) with (1 := H1)].
  - apply length_blocks.
Qed.

Lemma sess_crypt_blob_roundtrip key forw inp out out' q :
  (7 <= length key)%nat -> bytes inp -> length inp = (8 * S q)%nat ->
  length out = length inp -> length out' = length inp ->
  exists c, sess_crypt_blob out inp key forw = Ret c /\ length c = length inp /\ bytes c /\
            sess_crypt_blob out' c key (negb forw) = Ret inp.
Proof.
  intros Hkey Hb Hl Ho Ho'. destruct (as_blocks inp (S q) Hl Hb) as (bs & -> & Hbs & Hn).
  assert (Forall (fun b => length b = 8%nat) bs) as Hbl by (by eapply List.Forall_impl; [|exact Hbs]; intros ? []).
  pose proof (sess_blocks_block key forw bs 0) as Hcs.
  assert (Forall (fun b => length b = 8%nat) (sess_blocks key forw 0 bs)) as Hcl
    by (by eapply List.Forall_impl; [|exact Hcs]; intros ? []).
  assert (length (List.concat (sess_blocks key forw 0 bs)) = length (List.concat bs)) as Hlen
    by (by rewrite !(length_concat_blocks 8), sess_blocks_length).
  exists (List.concat (sess_blocks key forw 0 bs)). split_and!.
  - apply sess_crypt_blob_blocks; [done..| |done]. by intros ->.
  - done.
  - apply Forall_concat. by eapply List.Forall_impl; [|exact Hcs]; intros ? [].
  - rewrite sess_crypt_blob_blocks; [by rewrite sess_blocks_inverse|done|done| |by rewrite Ho'].
    intros E. apply (f_equal length) in E. rewrite sess_blocks_length, Hn in E. done.
Qed.

Lemma encrypt_data_roundtrip `{Allocator} key data len dlen :
  malloc_ok 0 = true -> malloc_ok 1 = true ->
  (7 <= length key)%nat -> bytes data -> 0 <= len < 2 ^ 31 - 16 ->
  Z.of_nat (length data) = len -> dlen = 8 * ((len + 7) / 8) ->
  exists c, encrypt_data len dlen data key = Ret c /\ length c = (8 + Z.to_nat dlen)%nat /\
            sess_crypt_blob (fresh (length c)) c key false = Ret (frame len (Z.to_nat dlen) data).
Proof.
  intros Hm0 Hm1 Hkey Hb Hlen Hd ->. set (q := (len + 7) / 8).
  assert (0 <= q /\ len <= 8 * q) as [Hq Hle] by (unfold q; dlia).
  unfold encrypt_data. rewrite decide_False by lia. rewrite Hm0, Hm1, decide_False by lia.
  assert (length data <= Z.to_nat (8 * q))%nat as Hd' by lia.
  destruct (sess_crypt_blob_roundtrip key true (frame len (Z.to_nat (8 * q)) data)
              (fresh (8 + Z.to_nat (8 * q))) (fresh (8 + Z.to_nat (8 * q))) (Z.to_nat q))
    as (c & E1 & El & _ & E2).
  - done.
  - by apply frame_bytes.
  - rewrite frame_length by done. lia.
  - unfold fresh. by rewrite frame_length, length_replicate.
  - unfold fresh. by rewrite frame_length, length_replicate.
  - exists c. rewrite frame_length in El by done. rewrite El. by split_and!.
Qed.

Lemma take_app_pad {A} (l l' : list A) n : n = length l -> take n (l ++ l') = l.
Proof. intros ->. apply take_app_length. Qed.

Lemma strndup_exact s tl n :
  Forall (fun b => b <> 0) s -> n = length s -> strndup (s ++ tl) n = s.
Proof.
  intros Hs ->. unfold strndup. cbv zeta. rewrite take_app_length.
  assert (list_find (fun b => b = 0) s = None) as ->.
  { apply list_find_None. exact Hs. }
  by rewrite take_ge.
Qed.

(** The decryptors on a whole frame. *)
Lemma decrypt_frame `{Allocator} key data len dlen c :
  malloc_ok 0 = true -> malloc_ok 1 = true -> bytes data -> 0 <= len < 2 ^ 31 - 16 ->
  Z.of_nat (length data) = len -> (length data <= dlen)%nat -> length c = (8 + dlen)%nat ->
  sess_crypt_blob (fresh (length c)) c key false = Ret (frame len dlen data) ->
  sess_decrypt_blob c key = Ret (NT_STATUS_OK, data) /\
  (Forall (fun b => b <> 0) data -> sess_decrypt_string c key = Ret (Some data)).
Proof.
  intros Hm0 Hm1 Hb Hlen Hd Hdl Hc E.
  destruct (frame_fields len dlen data Hdl Hb) as (F0 & F4 & F8).
  assert (u64 (s32 (IVAL (frame len dlen data) 0)) = len /\ s32 (IVAL (frame len dlen data) 0) = len) as [Eu Es].
  { rewrite F0, u32_id by (unfold is_u; lia). assert (s32 len = len) as -> by (unfold s32; dlia).
    by rewrite u64_id by (unfold is_u; lia). }
  unfold sess_decrypt_blob, sess_decrypt_string. rewrite Hm0, Hm1, E. cbn [negb obind]. cbv zeta.
  rewrite F4, Eu, Es. rewrite !decide_False by lia.
  replace (Z.to_nat len) with (length data) by lia. split.
  - unfold slice. by rewrite F8, take_app_length.
  - intros Hz. rewrite F8. by rewrite strndup_exact.
Qed.

(** What sess_encrypt_blob and sess_encrypt_string produce under a session key
    of at least seven bytes decrypts to exactly the data under the same key; the
    ciphertext is the 8-byte header and the data rounded up to a multiple of 8. *)
Theorem sess_encrypt_decrypt `{Allocator} (key data : list Z) :
  malloc_ok 0 = true -> malloc_ok 1 = true ->
  (7 <= length key)%nat -> bytes data -> Z.of_nat (length data) < 2 ^ 31 - 16 ->
  exists c,
    sess_encrypt_blob data key = Ret c /\
    Z.of_nat (length c) = 8 + 8 * ((Z.of_nat (length data) + 7) / 8) /\
    sess_decrypt_blob c key = Ret (NT_STATUS_OK, data) /\
    (Forall (fun b => b <> 0) data ->
     sess_encrypt_string data key = Ret c /\ sess_decrypt_string c key = Ret (Some data)).
Proof.
  intros Hm0 Hm1 Hkey Hb Hl. set (len := Z.of_nat (length data)) in *.
  assert (0 <= len) as H0 by lia.
  destruct (encrypt_data_roundtrip key data len (round_length len)) as (c & E1 & El & E2);
    [done..|by rewrite round_length_spec by lia|].
  assert (0 <= round_length len /\ len <= round_length len) as [Hr Hle] by (rewrite round_length_spec by lia; dlia).
  destruct (decrypt_frame key data len (Z.to_nat (round_length len)) c) as [D1 D2];
    [done|done|done|lia|done|lia|done|done|].
  exists c. split_and!.
  - exact E1.
  - rewrite El, Nat2Z.inj_add, Z2Nat.id by lia. by rewrite round_length_spec by lia.
  - exact D1.
  - intros Hz. split; [|by apply D2]. unfold sess_encrypt_string. fold len. cbv zeta.
    assert (s32 len = len) as -> by (unfold s32; dlia). rewrite land_lnot7.
    rewrite <- round_length_spec by lia.
    assert (s32 (round_length len) = round_length len) as -> by (rewrite round_length_spec by lia; unfold s32; dlia).
    exact E1.
Qed.

Lemma sess_encrypt_decrypt_witness :
  exists c,
    @sess_encrypt_blob calloc [1; 0; 2] [1; 2; 3; 4; 5; 6; 7] = Ret c /\
    Z.of_nat (length c) = 8 + 8 * ((3 + 7) / 8) /\
    @sess_decrypt_blob calloc c [1; 2; 3; 4; 5; 6; 7] = Ret (NT_STATUS_OK, [1; 0; 2]).
Proof.
  destruct (@sess_encrypt_decrypt calloc [1; 2; 3; 4; 5; 6; 7] [1; 0; 2]) as (c & H1 & H2 & H3 & _); [by_eval..|].
  exists c. split; [exact H1 | split; [exact H2 | exact H3]].
Defined.

(** Decryption of arbitrary data is safe and total: under a key of at least
    seven bytes it never reads outside the blob or the key, a short blob is an
    invalid parameter, and a result is never longer than the blob after its header.
    Under a shorter key every non-empty blob makes it read past the key's end. *)
Theorem sess_decrypt_blob_safe `{Allocator} (key blob : list Z) :
  bytes blob -> Z.of_nat (length blob) < 2 ^ 31 ->
  ((7 <= length key)%nat ->
   exists st data, sess_decrypt_blob blob key = Ret (st, data) /\
     ((length blob < 8)%nat -> st = NT_STATUS_INVALID_PARAMETER) /\
     (st <> NT_STATUS_OK -> data = []) /\
     (st = NT_STATUS_OK -> (length data + 8 <= length blob)%nat)) /\
  ((length key < 7)%nat -> blob <> [] -> forall out forward, sess_crypt_blob out blob key forward = Fault).
Proof.
  intros Hbb Hbl. split.
  - intros Hkey. unfold sess_decrypt_blob. case_decide as Hshort; [by eexists _, _|].
    destruct (malloc_ok 0); cbn [negb]; [|by eexists _, _].
    destruct (crypt_loop_total key false blob (length blob) (fresh (length blob)) 0 0) as (out & E & El & Eb);
      [done|by left|by unfold fresh; rewrite length_replicate|apply fresh_bytes|].
    unfold sess_crypt_blob. rewrite E. cbn [obind]. case_decide; [by eexists _, _|].
    set (slen := s32 (IVAL out 0)). case_decide as Hs; [by eexists _, _|].
    assert (0 <= slen /\ 8 + slen <= Z.of_nat (length blob)) as [Hs0 Hs1].
    { assert (- 2 ^ 31 <= slen < 2 ^ 31) as Hr by (unfold slen, s32; dlia).
      unfold u64 in Hs. dlia. }
    destruct (malloc_ok 1).
    + eexists _, _. split_and!; [done|done|done|]. intros _. rewrite length_slice by lia. lia.
    + case_decide; eexists _, _; split_and!; try done. intros _. simpl. lia.
  - intros Hkey Hne out forward. unfold sess_crypt_blob. destruct blob as [|b blob]; [done|].
    cbn [length crypt_loop]. rewrite decide_True by lia. cbv zeta.
    rewrite decide_False; [done|]. unfold key_offset. rewrite decide_True by lia. lia.
Qed.

Lemma sess_decrypt_blob_safe_witness :
  sess_crypt_blob [0; 0] [1; 2] [1; 2; 3] true = Fault.
Proof. apply (@sess_decrypt_blob_safe calloc [1; 2; 3] [1; 2]); by_eval. Defined.
