(* ===== verification/Credentials.v ===== *)
(** libcli/auth/credentials.c: the netlogon credential chain.  The client and the
    server each hold a [creds_CredentialState]; every call advances both. *)

From S2P Require Import Prelude Digest Byteorder Ntstatus Md5 Sha1 Hmac Arcfour Des.
Import Byteorder Des Arcfour.

Module Credentials.

(** struct netr_Credential and struct samr_Password are byte arrays. *)
Abbreviation netr_Credential := (list Z).
Abbreviation samr_Password := (list Z).

(** The fields of struct creds_CredentialState that credentials.c reads or writes;
    the account and domain names are only carried. *)
Record creds_CredentialState := Creds {
  negotiate_flags : Z;
  session_key : list Z;
  sequence : Z;
  seed : netr_Credential;
  client : netr_Credential;
  server : netr_Credential
}.

Record netr_Authenticator := Authenticator { cred : netr_Credential; timestamp : Z }.

Definition NETLOGON_NEG_ARCFOUR : Z := 0x00000004.
Definition NETLOGON_NEG_128BIT : Z := 0x00004000.

Definition set_session_key (k : list Z) (c : creds_CredentialState) : creds_CredentialState :=
  Creds (negotiate_flags c) k (sequence c) (seed c) (client c) (server c).
Definition set_sequence (s : Z) (c : creds_CredentialState) : creds_CredentialState :=
  Creds (negotiate_flags c) (session_key c) s (seed c) (client c) (server c).
Definition set_flags (f : Z) (c : creds_CredentialState) : creds_CredentialState :=
  Creds f (session_key c) (sequence c) (seed c) (client c) (server c).
Definition set_chain (sd cl sv : netr_Credential) (c : creds_CredentialState) : creds_CredentialState :=
  Creds (negotiate_flags c) (session_key c) (sequence c) sd cl sv.

(** The last lines of both initialisers. *)
Definition first_credentials (client_challenge server_challenge : netr_Credential)
    (creds : creds_CredentialState) : creds_CredentialState :=
  let cl := des_crypt112 client_challenge (session_key creds) true in
  let sv := des_crypt112 server_challenge (session_key creds) true in
  set_chain cl cl sv creds.

Definition creds_init_64bit (creds : creds_CredentialState)
    (client_challenge server_challenge : netr_Credential) (machine_password : samr_Password) :=
  let sum0 := add32 (IVAL client_challenge 0) (IVAL server_challenge 0) in
  let sum1 := add32 (IVAL client_challenge 4) (IVAL server_challenge 4) in
  let sum2 := SIVAL (SIVAL (replicate 8 0) 0 sum0) 4 sum1 in
  (* ZERO_STRUCT, then the 8 bytes of des_crypt128 *)
  let key := splice 0 (des_crypt128 sum2 machine_password) (replicate 16 0) in
  first_credentials client_challenge server_challenge (set_session_key key creds).

Section host.
Context `{Host}.

Definition creds_init_128bit (creds : creds_CredentialState)
    (client_challenge server_challenge : netr_Credential) (machine_password : samr_Password) :=
  let zero := replicate 4 0 in
  let ctx := HmacMd5.hmac_md5_init_rfc2104 machine_password in
  let md5 := Md5.MD5Init in
  let md5 := Md5.MD5Update md5 zero in
  let md5 := Md5.MD5Update md5 (take 8 client_challenge) in
  let md5 := Md5.MD5Update md5 (take 8 server_challenge) in
  let tmp := (Md5.MD5Final md5).1 in
  let ctx := HmacMd5.hmac_md5_update tmp ctx in
  let key := HmacMd5.hmac_md5_final ctx in
  first_credentials client_challenge server_challenge (set_session_key key creds).

Definition creds_init (creds : creds_CredentialState) (client_challenge server_challenge : netr_Credential)
    (machine_password : samr_Password) (flags : Z) : creds_CredentialState :=
  if decide (Z.land flags NETLOGON_NEG_128BIT <> 0) then
    creds_init_128bit creds client_challenge server_challenge machine_password
  else creds_init_64bit creds client_challenge server_challenge machine_password.

(** [time_cred] is written whole before it is read. *)
Definition time_credential (sd : netr_Credential) (n : Z) : netr_Credential :=
  SIVAL (SIVAL (replicate 8 0) 0 (add32 (IVAL sd 0) n)) 4 (IVAL sd 4).

Definition creds_step (creds : creds_CredentialState) : creds_CredentialState :=
  let time_cred := time_credential (seed creds) (sequence creds) in
  let cl := des_crypt112 time_cred (session_key creds) true in
  let time_cred := time_credential (seed creds) (sequence creds + 1) in
  let sv := des_crypt112 time_cred (session_key creds) true in
  set_chain time_cred cl sv creds.

Definition creds_des_encrypt_LMKey (creds : creds_CredentialState) (key : list Z) : list Z :=
  des_crypt56 key (session_key creds) true.
Definition creds_des_decrypt_LMKey (creds : creds_CredentialState) (key : list Z) : list Z :=
  des_crypt56 key (session_key creds) false.
Definition creds_des_encrypt (creds : creds_CredentialState) (pass : samr_Password) : samr_Password :=
  des_crypt112_16 pass (session_key creds) true.
Definition creds_des_decrypt (creds : creds_CredentialState) (pass : samr_Password) : samr_Password :=
  des_crypt112_16 pass (session_key creds) false.
Definition creds_arcfour_crypt (creds : creds_CredentialState) (data : list Z) : option (list Z) :=
  arcfour_crypt_blob data (take 16 (session_key creds)).

(** [now] is time(NULL). *)
Definition creds_client_init (now : Z) (creds : creds_CredentialState)
    (client_challenge server_challenge : netr_Credential) (machine_password : samr_Password)
    (flags : Z) : creds_CredentialState * netr_Credential :=
  let creds := set_sequence (u32 now) creds in
  let creds := set_flags flags creds in
  let creds := creds_init creds client_challenge server_challenge machine_password flags in
  (creds, client creds).

Definition creds_client_authenticator (creds : creds_CredentialState) : creds_CredentialState * netr_Authenticator :=
  let creds := set_sequence (add32 (sequence creds) 2) creds in
  let creds := creds_step creds in
  (creds, Authenticator (client creds) (sequence creds)).

(** memcmp over eight bytes. *)
Definition same8 (a b : list Z) : bool := bool_decide (take 8 a = take 8 b).

Definition creds_client_check (creds : creds_CredentialState) (received : option netr_Credential) : bool :=
  match received with
  | None => false
  | Some r => same8 r (server creds)
  end.

Definition creds_server_init (creds : creds_CredentialState)
    (client_challenge server_challenge : netr_Credential) (machine_password : samr_Password)
    (flags : Z) : creds_CredentialState * netr_Credential :=
  let creds := creds_init creds client_challenge server_challenge machine_password flags in
  (set_flags flags creds, server creds).

Definition creds_server_check (creds : creds_CredentialState) (received : netr_Credential) : bool :=
  same8 received (client creds).

(** Null pointers are [None]; the result is the status and the two structures the
    call writes through. *)
Definition creds_server_step_check (creds : option creds_CredentialState)
    (received_authenticator return_authenticator : option netr_Authenticator) :
    NTSTATUS * option creds_CredentialState * option netr_Authenticator :=
  match received_authenticator, return_authenticator with
  | Some received, Some _ =>
      match creds with
      | None => (NT_STATUS_ACCESS_DENIED, creds, return_authenticator)
      | Some c =>
          let c := creds_step (set_sequence (timestamp received) c) in
          if creds_server_check c (cred received) then
            (NT_STATUS_OK, Some c, Some (Authenticator (server c) (sequence c)))
          else (NT_STATUS_ACCESS_DENIED, Some c, Some (Authenticator (replicate 8 0) 0))
      end
  | _, _ => (NT_STATUS_INVALID_PARAMETER, creds, return_authenticator)
  end.

(** struct netr_SamBaseInfo: the two keys creds_decrypt_samlogon rewrites. *)
Record netr_SamBaseInfo := SamBaseInfo { key : list Z; LMSessKey : list Z }.

Definition is_zero (l : list Z) : bool := forallb (Z.eqb 0) l.

(** [validation] is the base of the union arm that the level selects (levels 2, 3 and
    6), if its pointer is not null. *)
Definition creds_decrypt_samlogon (creds : creds_CredentialState) (validation_level : Z)
    (validation : option netr_SamBaseInfo) : option (option netr_SamBaseInfo) :=
  if decide (validation_level = 2 \/ validation_level = 3 \/ validation_level = 6) then
    match validation with
    | None => Some validation
    | Some base =>
        if decide (validation_level = 6) then Some validation
        else if decide (Z.land (negotiate_flags creds) NETLOGON_NEG_ARCFOUR <> 0) then
          k ← (if negb (is_zero (key base)) then creds_arcfour_crypt creds (key base) else Some (key base));
          lm ← (if negb (is_zero (LMSessKey base)) then creds_arcfour_crypt creds (LMSessKey base)
                else Some (LMSessKey base));
          Some (Some (SamBaseInfo k lm))
        else
          Some (Some (SamBaseInfo (key base)
            (if negb (is_zero (LMSessKey base)) then creds_des_decrypt_LMKey creds (LMSessKey base)
             else LMSessKey base)))
    end
  else Some validation.
End host.
End Credentials.

Import Credentials.

(** ** The two ends in step *)

(** One authenticated call: the client's authenticator, the server's verdict, and the
    client's check of the returned credential. *)
Definition call_once `{Host} (c s : creds_CredentialState) : option (creds_CredentialState * creds_CredentialState) :=
  let '(c, next) := creds_client_authenticator c in
  match creds_server_step_check (Some s) (Some next) (Some (Authenticator [] 0)) with
  | (NT_STATUS_OK, Some s, Some ret) =>
      if creds_client_check c (Some (cred ret)) && bool_decide (timestamp ret = sequence c)
      then Some (c, s) else None
  | _ => None
  end.

Fixpoint calls `{Host} (n : nat) (c s : creds_CredentialState) : option (creds_CredentialState * creds_CredentialState) :=
  match n with
  | O => Some (c, s)
  | S n => '(c, s) ← call_once c s; calls n c s
  end.

Definition in_step (c s : creds_CredentialState) : Prop :=
  session_key c = session_key s /\ seed c = seed s /\ client c = client s /\ server c = server s.

#[local] Opaque des_crypt112 des_crypt112_16 des_crypt128 SIVAL IVAL Md5.MD5Init Md5.MD5Update Md5.MD5Final
  HmacMd5.hmac_md5_init_rfc2104 HmacMd5.hmac_md5_update HmacMd5.hmac_md5_final.

Lemma step_in_step `{Host} c s n :
  in_step c s -> in_step (creds_step (set_sequence n c)) (creds_step (set_sequence n s)).
Proof.
  intros (Hk & Hs & _ & _). unfold in_step, creds_step. cbn [set_sequence set_chain session_key seed client server sequence].
  by rewrite Hk, Hs.
Qed.

Lemma call_in_step `{Host} c s :
  in_step c s ->
  exists c' s', call_once c s = Some (c', s') /\ in_step c' s' /\
    sequence c' = add32 (sequence c) 2 /\ sequence s' = sequence c'.
Proof.
  intros Hin. pose proof (step_in_step c s (add32 (sequence c) 2) Hin) as Hstep.
  unfold call_once, creds_client_authenticator. cbv zeta.
  set (c' := creds_step (set_sequence (add32 (sequence c) 2) c)) in *.
  assert (sequence c' = add32 (sequence c) 2) as Hseq by done.
  unfold creds_server_step_check. cbn [timestamp cred]. rewrite Hseq.
  set (s' := creds_step (set_sequence (add32 (sequence c) 2) s)) in *.
  assert (sequence s' = sequence c') as Hseq' by reflexivity.
  clearbody c' s'. pose proof Hstep as (Hk & Hs & Hc & Hv).
  unfold creds_server_check, same8. rewrite Hc, bool_decide_true by done.
  cbn [creds_client_check cred timestamp]. unfold same8.
  rewrite Hv, Hseq', Hseq, !bool_decide_true by done. cbn [andb]. exists c', s'. by split_and!.
Qed.

Lemma init_sequence `{Host} c cc sc pw flags : sequence (creds_init c cc sc pw flags) = sequence c.
Proof. unfold creds_init. by case_decide. Qed.

Lemma init_in_step `{Host} c s cc sc pw flags :
  in_step (creds_init c cc sc pw flags) (creds_init s cc sc pw flags).
Proof. unfold creds_init. by case_decide. Qed.

(** C27: after the challenge exchange with a shared machine password, in 64-bit or
    128-bit mode, each end accepts the other's first credential, and any number of
    authenticated calls succeed: the server accepts every authenticator, the client
    every returned credential, and the two chains are equal after each call. *)
Theorem credential_chain_in_step `{Host} (now flags : Z) (c0 s0 : creds_CredentialState)
    (client_challenge server_challenge machine_password : list Z) (n : nat) :
  let '(c, client_cred) := creds_client_init now c0 client_challenge server_challenge machine_password flags in
  let '(s, server_cred) := creds_server_init s0 client_challenge server_challenge machine_password flags in
  creds_server_check s client_cred = true /\ creds_client_check c (Some server_cred) = true /\
  exists c' s', calls n c s = Some (c', s') /\ in_step c' s' /\
    sequence c' = u32 (u32 now + 2 * Z.of_nat n).
Proof.
  unfold creds_client_init, creds_server_init. cbv zeta.
  set (ci := set_flags flags (set_sequence (u32 now) c0)).
  set (c := creds_init ci _ _ _ _). set (s := creds_init s0 _ _ _ _).
  pose proof (init_in_step ci s0 client_challenge server_challenge machine_password flags) as Hin.
  fold c s in Hin. assert (sequence c = u32 now) as Hseq by (unfold c; by rewrite init_sequence).
  pose proof Hin as (_ & _ & Hc & Hv). split_and!.
  - unfold creds_server_check, same8. cbn [set_flags client]. by rewrite Hc, bool_decide_true.
  - cbn [creds_client_check]. unfold same8. by rewrite Hv, bool_decide_true.
  - assert (in_step c (set_flags flags s)) as Hin' by exact Hin.
    revert Hseq Hin'. generalize (set_flags flags s). generalize c, (u32_range now). generalize (u32 now).
    clear. intros t. intros c Ht s Hseq Hin. rewrite <- Hseq in *. clear t Hseq. revert c s Ht Hin.
    induction n as [|n IH]; intros c s Ht Hin.
    + exists c, s. split_and!; [done|done|]. by rewrite Z.mul_0_r, Z.add_0_r, u32_id.
    + destruct (call_in_step c s Hin) as (c1 & s1 & E & Hin1 & Hs1 & _).
      cbn [calls]. rewrite E. cbn [mbind option_bind].
      destruct (IH c1 s1) as (c2 & s2 & E2 & Hin2 & Hs2); [rewrite Hs1; apply u32_range|done|].
      exists c2, s2. split_and!; [done|done|]. rewrite Hs2, Hs1. unfold add32, u32.
      rewrite Z.add_mod_idemp_l by done. f_equal. lia.
Qed.

(** The server's verdict, exactly: null structures are refused first, and with a
    state and both authenticators the call succeeds if and only if the credential
    received is the DES encryption, under the session key, of the seed advanced by
    the timestamp.  The chain advances either way; a refusal returns a zeroed
    authenticator. *)
Theorem creds_server_step_check_spec `{Host} (s : creds_CredentialState) (a ret : netr_Authenticator) :
  creds_server_step_check (Some s) None (Some ret) = (NT_STATUS_INVALID_PARAMETER, Some s, Some ret) /\
  creds_server_step_check (Some s) (Some a) None = (NT_STATUS_INVALID_PARAMETER, Some s, None) /\
  creds_server_step_check None (Some a) (Some ret) = (NT_STATUS_ACCESS_DENIED, None, Some ret) /\
  let s' := creds_step (set_sequence (timestamp a) s) in
  let expected := des_crypt112 (time_credential (seed s) (timestamp a)) (session_key s) true in
  seed s' = time_credential (seed s) (timestamp a + 1) /\
  (take 8 (cred a) = expected ->
   creds_server_step_check (Some s) (Some a) (Some ret) =
     (NT_STATUS_OK, Some s',
      Some (Authenticator (des_crypt112 (seed s') (session_key s) true) (timestamp a)))) /\
  (take 8 (cred a) <> expected ->
   creds_server_step_check (Some s) (Some a) (Some ret) =
     (NT_STATUS_ACCESS_DENIED, Some s', Some (Authenticator (replicate 8 0) 0))).
Proof.
  split_and!; [done..|]. cbv zeta. set (expected := des_crypt112 (time_credential _ _) _ _).
  assert (creds_server_check (creds_step (set_sequence (timestamp a) s)) (cred a) =
          bool_decide (take 8 (cred a) = expected)) as Hc.
  { unfold creds_server_check, same8, creds_step. cbn [set_chain client set_sequence seed session_key sequence].
    fold expected. rewrite (take_ge expected); [done|]. unfold expected.
    destruct (des_crypt112_block (time_credential (seed s) (timestamp a)) (session_key s) true) as [_ ->]. lia. }
  split_and!; [done| |]; intros E; cbn [creds_server_step_check]; rewrite Hc.
  - by rewrite bool_decide_true.
  - by rewrite bool_decide_false.
Qed.

Lemma arcfour_crypt_involutive creds data e :
  creds_arcfour_crypt creds data = Some e -> creds_arcfour_crypt creds e = Some data.
Proof. apply arcfour_crypt_blob_involutive. Qed.

Lemma arcfour_crypt_total creds data :
  (0 < length (session_key creds))%nat -> exists e, creds_arcfour_crypt creds data = Some e.
Proof.
  intros Hk. unfold creds_arcfour_crypt, arcfour_crypt_blob.
  destruct (arcfour_init_ok (take 16 (session_key creds))) as (st & -> & _); [rewrite length_take; lia|].
  by eexists.
Qed.

#[local] Opaque creds_arcfour_crypt.

(** The keys and passwords sent under the session key come back: DES for a
    password and for an LM session key, and the whole of [creds_decrypt_samlogon] on
    a reply whose keys the server encrypted with the negotiated cipher. *)
Theorem creds_decrypt_inverts_encrypt `{Host} (creds : creds_CredentialState) (level : Z)
    (pass k lm k' lm' : list Z) :
  (0 < length (session_key creds))%nat -> bytes pass -> length pass = 16%nat ->
  bytes lm -> length lm = 8%nat -> (level = 2 \/ level = 3) ->
  creds_arcfour_crypt creds k = Some k' -> creds_arcfour_crypt creds lm = Some lm' ->
  is_zero k' = false -> is_zero lm' = false ->
  is_zero (creds_des_encrypt_LMKey creds lm) = false ->
  creds_des_decrypt creds (creds_des_encrypt creds pass) = pass /\
  creds_des_decrypt_LMKey creds (creds_des_encrypt_LMKey creds lm) = lm /\
  (Z.land (negotiate_flags creds) NETLOGON_NEG_ARCFOUR <> 0 ->
   creds_decrypt_samlogon creds level (Some (SamBaseInfo k' lm')) = Some (Some (SamBaseInfo k lm))) /\
  (Z.land (negotiate_flags creds) NETLOGON_NEG_ARCFOUR = 0 ->
   creds_decrypt_samlogon creds level (Some (SamBaseInfo k (creds_des_encrypt_LMKey creds lm))) =
     Some (Some (SamBaseInfo k lm))) /\
  creds_decrypt_samlogon creds 6 (Some (SamBaseInfo k lm)) = Some (Some (SamBaseInfo k lm)).
Proof.
  intros Hk Hpb Hpl Hlb Hll Hlev Ek Elm Hzk Hzl Hzd.
  assert (creds_des_decrypt_LMKey creds (creds_des_encrypt_LMKey creds lm) = lm) as Hlm
    by by apply (des_crypt56_inverse lm (session_key creds) true).
  split_and!.
  - by apply (des_crypt112_16_inverse pass (session_key creds) true).
  - exact Hlm.
  - intros Hf. unfold creds_decrypt_samlogon. rewrite decide_True by tauto. rewrite decide_False by lia.
    rewrite decide_True by done. cbn [key LMSessKey]. rewrite Hzk, Hzl. cbn [negb].
    rewrite (arcfour_crypt_involutive _ _ _ Ek), (arcfour_crypt_involutive _ _ _ Elm). reflexivity.
  - intros Hf. unfold creds_decrypt_samlogon. rewrite decide_True by tauto. rewrite decide_False by lia.
    rewrite decide_False by tauto. cbn [key LMSessKey]. rewrite Hzd. cbn [negb]. rewrite Hlm. reflexivity.
  - unfold creds_decrypt_samlogon. rewrite decide_True by tauto. by rewrite decide_True.
Qed.

(** A state with the ARCFOUR cipher negotiated and the key of sixteen sevens. *)
Definition sample_creds : creds_CredentialState :=
  Creds NETLOGON_NEG_ARCFOUR (replicate 16 7) 0 (replicate 8 0) (replicate 8 0) (replicate 8 0).

Lemma creds_decrypt_inverts_encrypt_witness :
  let enc l := default [] (@creds_arcfour_crypt sample_creds l) in
  creds_decrypt_samlogon sample_creds 3 (Some (SamBaseInfo (enc (replicate 16 9)) (enc (replicate 8 9)))) =
    Some (Some (SamBaseInfo (replicate 16 9) (replicate 8 9))).
Proof.
  intros enc.
  apply (@creds_decrypt_inverts_encrypt false sample_creds 3 (replicate 16 5) (replicate 16 9) (replicate 8 9)
           (enc (replicate 16 9)) (enc (replicate 8 9))); first [by_eval | by right | done].
Defined.
