(* ===== verification/Iconv.v ===== *)
(** lib/charset/iconv.c: the built-in character set converters, the choice of
    converters for a pair of names, and the conversion loop. *)

From Stdlib Require Import Ascii.
From stdpp Require Import strings.
From S2P Require Import Prelude Digest Byteorder.

Module Iconv.

Inductive errno := E2BIG | EINVAL | EILSEQ.

#[export] Instance errno_eq_dec : EqDecision errno.
Proof. solve_decision. Defined.

(** What a converter call leaves: the return value (or -1 with errno), the input not
    consumed, and the output written. *)
Record conv_result := ConvResult { cr_ret : Z + errno; cr_in : list Z; cr_out : list Z }.

(** A converter, given the input and the room left in the output. *)
Definition converter := list Z -> nat -> conv_result.

(** One iteration of a converter's loop: how many input bytes it consumed, what it
    wrote and what it added to the return value, or the error it stops with. *)
Inductive step := Emit (consumed : nat) (out : list Z) (ir : Z) | Stop (e : errno).

(** [while (in_left >= in_min && out_left >= out_min) body] *)
Fixpoint conv_loop (body : list Z -> nat -> step) (in_min out_min fuel : nat)
    (inp : list Z) (out_left : nat) : Z * option errno * list Z * list Z :=
  match fuel with
  | O => (0, None, inp, [])
  | S fuel =>
      if decide (in_min <= length inp /\ out_min <= out_left)%nat then
        match body inp out_left with
        | Stop e => (0, Some e, inp, [])
        | Emit n o ir =>
            let '(r, e, inp, out) :=
              conv_loop body in_min out_min fuel (drop n inp) (out_left - length o)%nat in
            (ir + r, e, inp, o ++ out)
        end
      else (0, None, inp, [])
  end.

(** The tail of a pull function: input left over means no room. *)
Definition finish_pull (r : Z * option errno * list Z * list Z) : conv_result :=
  let '(ir, e, inp, out) := r in
  match e with
  | Some e => ConvResult (inr e) inp out
  | None => if decide (0 < length inp)%nat then ConvResult (inr E2BIG) inp out else ConvResult (inl ir) inp out
  end.

(** The tail of a push function: a single byte left over is half a unit. *)
Definition finish_push (r : Z * option errno * list Z * list Z) : conv_result :=
  let '(ir, e, inp, out) := r in
  match e with
  | Some e => ConvResult (inr e) inp out
  | None =>
      if decide (length inp = 1)%nat then ConvResult (inr EINVAL) inp out
      else if decide (1 < length inp)%nat then ConvResult (inr E2BIG) inp out
      else ConvResult (inl ir) inp out
  end.

Definition at_ (c : list Z) (i : nat) : Z := default 0 (c !! i).

Definition ascii_pull_char (c : list Z) (out_left : nat) : step := Emit 1 [at_ c 0; 0] 0.
Definition ascii_pull : converter := fun inp room =>
  finish_pull (conv_loop ascii_pull_char 1 2 (length inp) inp room).

Definition ascii_push_char (uc : list Z) (out_left : nat) : step :=
  Emit 2 [Z.land (at_ uc 0) 0x7F] (if decide (at_ uc 1 <> 0) then 1 else 0).
Definition ascii_push : converter := fun inp room =>
  finish_push (conv_loop ascii_push_char 2 1 (length inp) inp room).

Definition iconv_copy : converter := fun inp room =>
  let n := Nat.min (length inp) room in
  ConvResult (if decide (0 < length (drop n inp))%nat then inr E2BIG else inl 0) (drop n inp) (take n inp).

(** swab() exchanges the bytes of each pair. *)
Fixpoint swab (l : list Z) : list Z :=
  match l with a :: b :: l => b :: a :: swab l | _ => [] end.

Definition iconv_swab : converter := fun inp room =>
  let n := Nat.min (length inp) room in
  let out := swab (take n inp) ++ (if Nat.odd n then [0] else []) in
  ConvResult (if decide (0 < length (drop n inp))%nat then inr E2BIG else inl 0) (drop n inp) out.

(** A continuation byte. *)
Definition cont (b : Z) : bool := Z.land b 0xc0 =? 0x80.

Definition utf8_pull_char (c : list Z) (out_left : nat) : step :=
  let in_left := length c in
  if Z.land (at_ c 0) 0x80 =? 0 then Emit 1 [at_ c 0; 0] 0
  else if Z.land (at_ c 0) 0xe0 =? 0xc0 then
    if (in_left <? 2)%nat || negb (cont (at_ c 1)) then Stop EILSEQ
    else Emit 2 [u8 (Z.lor (Z.shiftl (at_ c 0) 6) (Z.land (at_ c 1) 0x3f));
                 Z.land (Z.shiftr (at_ c 0) 2) 0x7] 0
  else if Z.land (at_ c 0) 0xf0 =? 0xe0 then
    if (in_left <? 3)%nat || negb (cont (at_ c 1)) || negb (cont (at_ c 2)) then Stop EILSEQ
    else Emit 3 [u8 (Z.lor (Z.shiftl (at_ c 1) 6) (Z.land (at_ c 2) 0x3f));
                 u8 (Z.lor (Z.shiftl (Z.land (at_ c 0) 0xF) 4) (Z.land (Z.shiftr (at_ c 1) 2) 0xF))] 0
  else if Z.land (at_ c 0) 0xf8 =? 0xf0 then
    if (in_left <? 4)%nat || negb (cont (at_ c 1)) || negb (cont (at_ c 2)) || negb (cont (at_ c 3)) then Stop EILSEQ
    else
      let codepoint :=
        Z.lor (Z.lor (Z.lor (Z.land (at_ c 3) 0x3f) (Z.shiftl (Z.land (at_ c 2) 0x3f) 6))
                     (Z.shiftl (Z.land (at_ c 1) 0x3f) 12)) (Z.shiftl (Z.land (at_ c 0) 0x7) 18) in
      if codepoint <? 0x10000 then Emit 4 [Z.land codepoint 0xFF; Z.shiftr codepoint 8] 0
      else
        let codepoint := codepoint - 0x10000 in
        if (out_left <? 4)%nat then Stop E2BIG
        else Emit 4 [Z.land (Z.shiftr codepoint 10) 0xFF; Z.lor (Z.shiftr codepoint 18) 0xd8;
                     Z.land codepoint 0xFF; Z.lor (Z.land (Z.shiftr codepoint 8) 0x3) 0xdc] 0
  else Stop EINVAL.

Definition utf8_pull : converter := fun inp room =>
  finish_pull (conv_loop utf8_pull_char 1 2 (length inp) inp room).

Definition utf8_push_char (uc : list Z) (out_left : nat) : step :=
  let in_left := length uc in
  if (at_ uc 1 =? 0) && (Z.land (at_ uc 0) 0x80 =? 0) then Emit 2 [at_ uc 0] 0
  else if Z.land (at_ uc 1) 0xf8 =? 0 then
    if (out_left <? 2)%nat then Stop E2BIG
    else Emit 2 [u8 (Z.lor (Z.lor 0xc0 (Z.shiftr (at_ uc 0) 6)) (Z.shiftl (at_ uc 1) 2));
                 Z.lor 0x80 (Z.land (at_ uc 0) 0x3f)] 0
  else if Z.land (at_ uc 1) 0xfc =? 0xdc then Stop (if (in_left <? 4)%nat then EINVAL else EILSEQ)
  else if negb (Z.land (at_ uc 1) 0xfc =? 0xd8) then
    let codepoint := Z.lor (at_ uc 0) (Z.shiftl (at_ uc 1) 8) in
    if (out_left <? 3)%nat then Stop E2BIG
    else Emit 2 [Z.lor 0xe0 (Z.shiftr codepoint 12);
                 Z.lor 0x80 (Z.land (Z.shiftr codepoint 6) 0x3f);
                 Z.lor 0x80 (Z.land codepoint 0x3f)] 0
  else if (in_left <? 4)%nat then Stop EINVAL
  else if negb (Z.land (at_ uc 3) 0xfc =? 0xdc) then Stop EILSEQ
  else
    let codepoint :=
      0x10000 + Z.lor (Z.lor (Z.lor (at_ uc 2) (Z.shiftl (Z.land (at_ uc 3) 0x3) 8))
                             (Z.shiftl (at_ uc 0) 10)) (Z.shiftl (Z.land (at_ uc 1) 0x3) 18) in
    if (out_left <? 4)%nat then Stop E2BIG
    else Emit 4 [u8 (Z.lor 0xf0 (Z.shiftr codepoint 18));
                 Z.lor 0x80 (Z.land (Z.shiftr codepoint 12) 0x3f);
                 Z.lor 0x80 (Z.land (Z.shiftr codepoint 6) 0x3f);
                 Z.lor 0x80 (Z.land codepoint 0x3f)] 0.

Definition utf8_push : converter := fun inp room =>
  finish_push (conv_loop utf8_push_char 2 1 (length inp) inp room).
(** *** smb_iconv_open and smb_iconv *)

Record charset_functions := CharsetFunctions { cs_name : string; cs_pull : converter; cs_push : converter }.

(** strcasecmp, in the C locale. *)
Definition tolower (c : ascii) : ascii :=
  let n := nat_of_ascii c in if ((65 <=? n) && (n <=? 90))%nat then ascii_of_nat (n + 32) else c.
Fixpoint lower (s : string) : string :=
  match s with EmptyString => EmptyString | String c s => String (tolower c) (lower s) end.
Definition strcaseeq (a b : string) : bool := bool_decide (lower a = lower b).

Definition builtin_functions : list charset_functions :=
  [CharsetFunctions "UCS-2LE" iconv_copy iconv_copy;
   CharsetFunctions "UTF-16LE" iconv_copy iconv_copy;
   CharsetFunctions "UCS-2BE" iconv_swab iconv_swab;
   CharsetFunctions "UTF-16BE" iconv_swab iconv_swab;
   CharsetFunctions "UTF8" utf8_pull utf8_push;
   CharsetFunctions "UTF-8" utf8_pull utf8_push;
   CharsetFunctions "ASCII" ascii_pull ascii_push].

(** smb_iconv_t: the [direct] function, or a [pull] and a [push] through a buffer. *)
Inductive smb_iconv_t := Direct (c : converter) | Buffered (pull push : converter).

Definition is_utf16 (name : string) : bool := strcaseeq name "UCS-2LE" || strcaseeq name "UTF-16LE".

(** The search of the built-in table keeps the last match; that of the registered
    charsets the first. *)
Definition find_charset (registered : list charset_functions) (name : string) : option charset_functions :=
  match List.find (fun f => strcaseeq name (cs_name f)) (rev builtin_functions) with
  | Some f => Some f
  | None => List.find (fun f => strcaseeq (cs_name f) name) registered
  end.

(** iconv_open of the C library, tried with both names of UTF-16. *)
Definition native_pull (native : string -> string -> option converter) (fromcode : string) : option converter :=
  match native "UTF-16LE" fromcode with Some c => Some c | None => native "UCS-2LE" fromcode end.
Definition native_push (native : string -> string -> option converter) (tocode : string) : option converter :=
  match native tocode "UTF-16LE" with Some c => Some c | None => native tocode "UCS-2LE" end.

(** [registered]: the charsets of charset_register_backend; [native_enabled]: the
    iconv:native parameter; [native]: the C library's converters ([native to from]). *)
Definition smb_iconv_open (registered : list charset_functions) (native_enabled : bool)
    (native : string -> string -> option converter) (tocode fromcode : string) : option smb_iconv_t :=
  if decide (fromcode = tocode) then Some (Direct iconv_copy)
  else
    let from := find_charset registered fromcode in
    let to := find_charset registered tocode in
    let pull := match from with Some f => Some (cs_pull f)
                | None => if native_enabled then native_pull native fromcode else None end in
    let push := match to with Some f => Some (cs_push f)
                | None => if native_enabled then native_push native tocode else None end in
    match pull, push with
    | Some pull, Some push =>
        match from, to with
        | _, Some to' =>
            if is_utf16 fromcode then Some (Direct (cs_push to'))
            else match from with
                 | Some f => if is_utf16 tocode then Some (Direct (cs_pull f)) else Some (Buffered pull push)
                 | None => if is_utf16 tocode then Some (Direct pull) else Some (Buffered pull push)
                 end
        | Some f, None =>
            if is_utf16 tocode then Some (Direct (cs_pull f))
            else if is_utf16 fromcode then Some (Direct push) else Some (Buffered pull push)
        | None, None =>
            if is_utf16 fromcode then Some (Direct push)
            else if is_utf16 tocode then Some (Direct pull) else Some (Buffered pull push)
        end
    | _, _ => None
    end.

(** The chunk loop; every chunk consumes input, so the input's length is enough fuel. *)
Fixpoint chunk_loop (pull push : converter) (fuel : nat) (inp : list Z) (room : nat) : conv_result :=
  match fuel with
  | O => ConvResult (inl 0) inp []
  | S fuel =>
      if decide (0 < length inp)%nat then
        let r1 := pull inp 2048%nat in
        if (match cr_ret r1 with inr e => bool_decide (e <> E2BIG) | inl _ => false end) then
          ConvResult (cr_ret r1) (cr_in r1) []
        else
          let r2 := push (cr_out r1) room in
          match cr_ret r2 with
          | inr e => ConvResult (inr e) (cr_in r1) (cr_out r2)
          | inl _ =>
              let r := chunk_loop pull push fuel (cr_in r1) (room - length (cr_out r2))%nat in
              ConvResult (cr_ret r) (cr_in r) (cr_out r2 ++ cr_out r)
          end
      else ConvResult (inl 0) inp []
  end.

Definition smb_iconv (cd : smb_iconv_t) : converter := fun inp room =>
  match cd with
  | Direct c => c inp room
  | Buffered pull push => chunk_loop pull push (length inp) inp room
  end.
End Iconv.

Import Iconv.

(** ** The encodings *)

(** A Unicode scalar value. *)
Definition scalar (cp : Z) : Prop := 0 <= cp < 0xD800 \/ 0xE000 <= cp <= 0x10FFFF.

Definition utf8 (cp : Z) : list Z :=
  if cp <? 0x80 then [cp]
  else if cp <? 0x800 then [0xc0 + cp / 64; 0x80 + cp mod 64]
  else if cp <? 0x10000 then [0xe0 + cp / 4096; 0x80 + (cp / 64) mod 64; 0x80 + cp mod 64]
  else [0xf0 + cp / 262144; 0x80 + (cp / 4096) mod 64; 0x80 + (cp / 64) mod 64; 0x80 + cp mod 64].

Definition unit16 (u : Z) : list Z := [u mod 256; u / 256].

Definition utf16le (cp : Z) : list Z :=
  if cp <? 0x10000 then unit16 cp
  else unit16 (0xD800 + (cp - 0x10000) / 1024) ++ unit16 (0xDC00 + (cp - 0x10000) mod 1024).

(** The bit operations of the converters as arithmetic on the fields. *)
Lemma land_low x n : 0 <= n -> Z.land x (Z.ones n) = x mod 2 ^ n.
Proof. apply Z.land_ones. Qed.

Lemma cont_byte b : 0 <= b < 64 -> cont (0x80 + b) = true /\ Z.land (0x80 + b) 0x3f = b.
Proof.
  intros Hb. split.
  - by apply (below 64 (fun b => cont (0x80 + b))).
  - apply Z.eqb_eq. by apply (below 64 (fun b => Z.land (0x80 + b) 0x3f =? b)).
Qed.

Lemma lead2 a : 0 <= a < 32 ->
  Z.land (0xc0 + a) 0x80 <> 0 /\ Z.land (0xc0 + a) 0xe0 = 0xc0 /\
  Z.land (Z.shiftr (0xc0 + a) 2) 0x7 = a / 4 mod 8.
Proof.
  intros Ha. split_and!.
  - apply Z.eqb_neq, negb_true_iff. by apply (below 32 (fun a => negb (Z.land (0xc0 + a) 0x80 =? 0))).
  - apply Z.eqb_eq. by apply (below 32 (fun a => Z.land (0xc0 + a) 0xe0 =? 0xc0)).
  - apply Z.eqb_eq. by apply (below 32 (fun a => Z.land (Z.shiftr (0xc0 + a) 2) 0x7 =? a / 4 mod 8)).
Qed.

Lemma lead3 a : 0 <= a < 16 ->
  Z.land (0xe0 + a) 0x80 <> 0 /\ Z.land (0xe0 + a) 0xe0 <> 0xc0 /\ Z.land (0xe0 + a) 0xf0 = 0xe0 /\
  Z.land (0xe0 + a) 0xF = a.
Proof.
  intros Ha. split_and!.
  - apply Z.eqb_neq, negb_true_iff. by apply (below 16 (fun a => negb (Z.land (0xe0 + a) 0x80 =? 0))).
  - apply Z.eqb_neq, negb_true_iff. by apply (below 16 (fun a => negb (Z.land (0xe0 + a) 0xe0 =? 0xc0))).
  - apply Z.eqb_eq. by apply (below 16 (fun a => Z.land (0xe0 + a) 0xf0 =? 0xe0)).
  - apply Z.eqb_eq. by apply (below 16 (fun a => Z.land (0xe0 + a) 0xF =? a)).
Qed.

Lemma lead4 a : 0 <= a < 8 ->
  Z.land (0xf0 + a) 0x80 <> 0 /\ Z.land (0xf0 + a) 0xe0 <> 0xc0 /\ Z.land (0xf0 + a) 0xf0 <> 0xe0 /\
  Z.land (0xf0 + a) 0xf8 = 0xf0 /\ Z.land (0xf0 + a) 0x7 = a.
Proof.
  intros Ha. split_and!.
  - apply Z.eqb_neq, negb_true_iff. by apply (below 8 (fun a => negb (Z.land (0xf0 + a) 0x80 =? 0))).
  - apply Z.eqb_neq, negb_true_iff. by apply (below 8 (fun a => negb (Z.land (0xf0 + a) 0xe0 =? 0xc0))).
  - apply Z.eqb_neq, negb_true_iff. by apply (below 8 (fun a => negb (Z.land (0xf0 + a) 0xf0 =? 0xe0))).
  - apply Z.eqb_eq. by apply (below 8 (fun a => Z.land (0xf0 + a) 0xf8 =? 0xf0)).
  - apply Z.eqb_eq. by apply (below 8 (fun a => Z.land (0xf0 + a) 0x7 =? a)).
Qed.

Lemma lor_add a b n : 0 <= n -> 0 <= a < 2 ^ n -> Z.lor a (Z.shiftl b n) = a + b * 2 ^ n.
Proof. intros. by apply lor_shiftl_add. Qed.

Lemma lor_add' a b n : 0 <= n -> 0 <= a < 2 ^ n -> Z.lor (Z.shiftl b n) a = a + b * 2 ^ n.
Proof. intros. rewrite Z.lor_comm. by apply lor_shiftl_add. Qed.

(** *** One character *)

Lemma ltb_nat_false a b : (b <= a)%nat -> (a <? b)%nat = false.
Proof. intros. by apply Nat.ltb_ge. Qed.

Lemma pull_ascii_char c rest room : 0 <= c < 0x80 -> utf8_pull_char (c :: rest) room = Emit 1 (unit16 c) 0.
Proof.
  intros Hc. unfold utf8_pull_char. cbn [at_ lookup list_lookup default from_option id].
  assert ((Z.land c 0x80 =? 0) = true) as Hl by (by apply (below 128 (fun c => (Z.land c 0x80) =? 0))).
  unfold at_. cbn [lookup list_lookup from_option id]. rewrite Hl. unfold unit16.
  by rewrite Z.mod_small, Z.div_small by lia.
Qed.

Lemma pull_two a b rest room :
  0 <= a < 32 -> 0 <= b < 64 ->
  utf8_pull_char ((0xc0 + a) :: (0x80 + b) :: rest) room = Emit 2 (unit16 (a * 64 + b)) 0.
Proof.
  intros Ha Hb. destruct (lead2 a Ha) as (L1 & L2 & L3), (cont_byte b Hb) as (C1 & C2).
  unfold utf8_pull_char, at_. cbn [lookup list_lookup from_option id length].
  rewrite (proj2 (Z.eqb_neq _ _) L1), L2, Z.eqb_refl, C1, L3, C2. cbn [Nat.ltb Nat.leb orb negb].
  rewrite lor_add' by lia. unfold unit16, u8. change (2 ^ 8) with 256. change (2 ^ 6) with 64. clear -Ha Hb. do 2 f_equal; [|f_equal]; dlia.
Qed.

Lemma pull_three a b c rest room :
  0 <= a < 16 -> 0 <= b < 64 -> 0 <= c < 64 ->
  utf8_pull_char ((0xe0 + a) :: (0x80 + b) :: (0x80 + c) :: rest) room = Emit 3 (unit16 (a * 4096 + b * 64 + c)) 0.
Proof.
  intros Ha Hb Hc. destruct (lead3 a Ha) as (L1 & L2 & L3 & L4), (cont_byte b Hb) as (B1 & B2), (cont_byte c Hc) as (C1 & C2).
  unfold utf8_pull_char, at_. cbn [lookup list_lookup from_option id length].
  rewrite (proj2 (Z.eqb_neq _ _) L1), (proj2 (Z.eqb_neq _ _) L2), L3, Z.eqb_refl, B1, C1, L4, C2.
  cbn [Nat.ltb Nat.leb orb negb].
  assert (Z.land (Z.shiftr (0x80 + b) 2) 0xF = b / 4) as ->
    by (apply Z.eqb_eq; by apply (below 64 (fun b => Z.land (Z.shiftr (0x80 + b) 2) 0xF =? b / 4))).
  rewrite lor_add', lor_add' by (try lia; dlia). unfold unit16, u8.
  change (2 ^ 8) with 256. change (2 ^ 6) with 64. change (2 ^ 4) with 16. clear -Ha Hb Hc. do 2 f_equal; [|f_equal]; dlia.
Qed.

(** The four-byte code point, and the pair of units it becomes. *)
Definition code4 (a b c d : Z) : Z := d + c * 64 + b * 4096 + a * 262144.

Definition pair16 (v : Z) : list Z :=
  [Z.land (Z.shiftr v 10) 0xFF; Z.lor (Z.shiftr v 18) 0xd8; Z.land v 0xFF; Z.lor (Z.land (Z.shiftr v 8) 0x3) 0xdc].

Lemma pull_four a b c d rest room :
  0 <= a < 8 -> 0 <= b < 64 -> 0 <= c < 64 -> 0 <= d < 64 ->
  utf8_pull_char ((0xf0 + a) :: (0x80 + b) :: (0x80 + c) :: (0x80 + d) :: rest) room =
  if code4 a b c d <? 0x10000 then Emit 4 [Z.land (code4 a b c d) 0xFF; Z.shiftr (code4 a b c d) 8] 0
  else if (room <? 4)%nat then Stop E2BIG else Emit 4 (pair16 (code4 a b c d - 0x10000)) 0.
Proof.
  intros Ha Hb Hc Hd. destruct (lead4 a Ha) as (L1 & L2 & L3 & L4 & L5).
  destruct (cont_byte b Hb) as (B1 & B2), (cont_byte c Hc) as (C1 & C2), (cont_byte d Hd) as (D1 & D2).
  unfold utf8_pull_char, at_. cbn [lookup list_lookup from_option id length].
  rewrite (proj2 (Z.eqb_neq _ _) L1), (proj2 (Z.eqb_neq _ _) L2), (proj2 (Z.eqb_neq _ _) L3), L4, Z.eqb_refl, B1, C1, D1, L5, B2, C2, D2.
  cbn [Nat.ltb Nat.leb orb negb].
  rewrite (lor_add d c 6), (lor_add _ b 12), (lor_add _ a 18) by lia. reflexivity.
Qed.

Lemma shiftr_div x n : 0 <= n -> Z.shiftr x n = x / 2 ^ n.
Proof. apply Z.shiftr_div_pow2. Qed.

Lemma pair16_units v :
  0 <= v < 0x100000 -> pair16 v = unit16 (0xD800 + v / 1024) ++ unit16 (0xDC00 + v mod 1024).
Proof.
  intros Hv. unfold pair16, unit16.
  assert (Z.lor (Z.shiftr v 18) 0xd8 = 0xd8 + v / 262144) as ->.
  { rewrite shiftr_div by lia. change (2 ^ 18) with 262144. assert (0 <= v / 262144 < 4) as H by dlia.
    revert H. generalize (v / 262144). intros w Hw. apply Z.eqb_eq.
    by apply (below 4 (fun w => Z.lor w 0xd8 =? 0xd8 + w)). }
  assert (Z.lor (Z.land (Z.shiftr v 8) 0x3) 0xdc = 0xdc + v / 256 mod 4) as ->.
  { rewrite shiftr_div by lia. change 0x3 with (Z.ones 2). rewrite land_low by lia.
    change (2 ^ 8) with 256. change (2 ^ 2) with 4. assert (0 <= v / 256 mod 4 < 4) as H by dlia.
    revert H. generalize (v / 256 mod 4). intros w Hw. apply Z.eqb_eq.
    by apply (below 4 (fun w => Z.lor w 0xdc =? 0xdc + w)). }
  change 0xFF with (Z.ones 8). rewrite !land_low, shiftr_div by lia.
  change (2 ^ 10) with 1024. change (2 ^ 8) with 256. cbn [app].
  repeat (f_equal; [dlia|]); f_equal; dlia.
Qed.

Lemma length_utf16le cp : length (utf16le cp) = if cp <? 0x10000 then 2%nat else 4%nat.
Proof. unfold utf16le. by destruct (cp <? 0x10000). Qed.

(** A scalar value is pulled to its UTF-16 form. *)
Lemma pull_scalar cp rest room :
  scalar cp -> (length (utf16le cp) <= room)%nat ->
  utf8_pull_char (utf8 cp ++ rest) room = Emit (length (utf8 cp)) (utf16le cp) 0.
Proof.
  intros Hs. rewrite length_utf16le. unfold utf8, utf16le.
  destruct (Z.ltb_spec cp 0x80) as [H1|H1].
  { intros _. rewrite (proj2 (Z.ltb_lt cp 0x10000)) by lia. apply pull_ascii_char. unfold scalar in Hs. lia. }
  destruct (Z.ltb_spec cp 0x800) as [H2|H2].
  { intros _. rewrite (proj2 (Z.ltb_lt cp 0x10000)) by lia. cbn [app length].
    rewrite pull_two by dlia. do 2 f_equal. dlia. }
  destruct (Z.ltb_spec cp 0x10000) as [H3|H3].
  { intros _. cbn [app length]. rewrite pull_three by dlia. do 2 f_equal. dlia. }
  intros Hroom. cbn [app length]. assert (0x10000 <= cp < 0x110000) as Hcp by (unfold scalar in Hs; lia).
  rewrite pull_four by dlia.
  assert (code4 (cp / 262144) ((cp / 4096) mod 64) ((cp / 64) mod 64) (cp mod 64) = cp) as -> by (unfold code4; dlia).
  rewrite (proj2 (Z.ltb_ge cp 0x10000)), ltb_nat_false by lia. by rewrite pair16_units by lia.
Qed.

Lemma below2 n m (P : Z -> Z -> bool) :
  forallb (fun k => forallb (fun j => P (Z.of_nat k) (Z.of_nat j)) (seq 0 m)) (seq 0 n) = true ->
  forall x y, 0 <= x < Z.of_nat n -> 0 <= y < Z.of_nat m -> P x y = true.
Proof.
  intros H x y Hx Hy. rewrite forallb_forall in H. specialize (H (Z.to_nat x) ltac:(apply in_seq; lia)).
  rewrite Z2Nat.id in H by lia. by apply (below m (P x)).
Qed.

(** The continuation byte that carries six bits of [x]. *)
Lemma cont_out x : 0 <= x -> Z.lor 0x80 (Z.land x 0x3f) = 0x80 + x mod 64.
Proof.
  intros Hx. change 0x3f with (Z.ones 6). rewrite land_low by lia. change (2 ^ 6) with 64.
  pose proof (Z.mod_pos_bound x 64 ltac:(lia)) as H. revert H. generalize (x mod 64). intros b Hb.
  apply Z.eqb_eq. by apply (below 64 (fun b => Z.lor 0x80 b =? 0x80 + b)).
Qed.

Lemma cont_shift x n : 0 <= x -> 0 <= n -> Z.lor 0x80 (Z.land (Z.shiftr x n) 0x3f) = 0x80 + (x / 2 ^ n) mod 64.
Proof. intros Hx Hn. rewrite cont_out by by apply Z.shiftr_nonneg. by rewrite shiftr_div. Qed.

Lemma push_unit1 u rest room :
  0 <= u < 0x80 -> utf8_push_char (unit16 u ++ rest) room = Emit 2 [u] 0.
Proof.
  intros Hu. unfold utf8_push_char, unit16, at_. cbn [app lookup list_lookup from_option id length].
  rewrite Z.div_small, Z.mod_small by lia.
  assert ((Z.land u 0x80 =? 0) = true) as -> by (by apply (below 128 (fun c => (Z.land c 0x80) =? 0))). done.
Qed.

Lemma push_unit2 u rest room :
  0x80 <= u < 0x800 -> (2 <= room)%nat ->
  utf8_push_char (unit16 u ++ rest) room = Emit 2 [0xc0 + u / 64; 0x80 + u mod 64] 0.
Proof.
  intros Hu Hr. unfold utf8_push_char, unit16, at_. cbn [app lookup list_lookup from_option id length].
  assert (0 <= u / 256 < 8 /\ 0 <= u mod 256 < 256) as [H1 H0] by dlia.
  assert ((u / 256 =? 0) && (Z.land (u mod 256) 0x80 =? 0) = false) as ->.
  { destruct (Z.eqb_spec (u / 256) 0) as [E|]; [|done]. cbn [andb].
    assert (0 <= u mod 256 - 0x80 < 128) as H by dlia. replace (u mod 256) with (0x80 + (u mod 256 - 0x80)) by lia.
    revert H. generalize (u mod 256 - 0x80). intros w Hw. apply negb_true_iff.
    by apply (below 128 (fun w => negb (Z.land (0x80 + w) 0x80 =? 0))). }
  assert ((Z.land (u / 256) 0xf8 =? 0) = true) as -> by (by apply (below 8 (fun w => Z.land w 0xf8 =? 0))).
  rewrite ltb_nat_false by done. rewrite cont_out, shiftr_div by lia. change (2 ^ 6) with 64.
  assert (Z.lor (Z.lor 0xc0 (u mod 256 / 64)) (Z.shiftl (u / 256) 2) = 0xc0 + u mod 256 / 64 + 4 * (u / 256)) as ->.
  { assert (0 <= u mod 256 / 64 < 4) as H by dlia. revert H H1. generalize (u mod 256 / 64) (u / 256). intros x y Hx Hy.
    apply Z.eqb_eq. by apply (below2 4 8 (fun x y => Z.lor (Z.lor 0xc0 x) (Z.shiftl y 2) =? 0xc0 + x + 4 * y)). }
  unfold u8. change (2 ^ 8) with 256. clear -Hu. do 2 f_equal; [|f_equal]; dlia.
Qed.

(** A unit of the basic plane that is not a surrogate half. *)
Lemma push_unit3 u rest room :
  0x800 <= u < 0x10000 -> ~ 0xD800 <= u < 0xE000 -> (3 <= room)%nat ->
  utf8_push_char (unit16 u ++ rest) room =
  Emit 2 [0xe0 + u / 4096; 0x80 + (u / 64) mod 64; 0x80 + u mod 64] 0.
Proof.
  intros Hu Hs Hr. unfold utf8_push_char, unit16, at_. cbn [app lookup list_lookup from_option id length].
  assert (8 <= u / 256 < 256 /\ ~ 0xD8 <= u / 256 < 0xE0) as [H1 Hs1] by dlia.
  rewrite (proj2 (Z.eqb_neq (u / 256) 0)) by lia. cbn [andb].
  assert ((Z.land (u / 256) 0xf8 =? 0) = false /\ (Z.land (u / 256) 0xfc =? 0xdc) = false /\
          (Z.land (u / 256) 0xfc =? 0xd8) = false) as (-> & -> & ->).
  { revert H1 Hs1. clear. generalize (u / 256). intros w Hw Hs.
    assert (forall w, 0 <= w < 256 ->
      ((w <? 8) || ((0xd8 <=? w) && (w <? 0xe0)) ||
       (negb (Z.land w 0xf8 =? 0) && negb (Z.land w 0xfc =? 0xdc) && negb (Z.land w 0xfc =? 0xd8))) = true) as H
      by (apply (below 256); reflexivity).
    specialize (H w ltac:(lia)).
    destruct (Z.ltb_spec w 8); [lia|]. destruct (Z.leb_spec 0xd8 w), (Z.ltb_spec w 0xe0); try lia;
      cbn [orb andb] in H; apply andb_prop in H as [H H3]; apply andb_prop in H as [H1 H2];
      by rewrite <- !negb_true_iff. }
  cbn [negb].
  assert (Z.lor (u mod 256) (Z.shiftl (u / 256) 8) = u) as -> by (rewrite lor_add by (try lia; cbn; dlia); change (2 ^ 8) with 256; dlia).
  rewrite ltb_nat_false by done. rewrite (cont_out u), (cont_shift u 6) by lia. rewrite shiftr_div by lia. change (2 ^ 6) with 64. change (2 ^ 12) with 4096.
  assert (Z.lor 0xe0 (u / 4096) = 0xe0 + u / 4096) as ->; [|done].
  assert (0 <= u / 4096 < 16) as H by dlia. revert H. generalize (u / 4096). intros w Hw. apply Z.eqb_eq.
  by apply (below 16 (fun w => Z.lor 0xe0 w =? 0xe0 + w)).
Qed.

(** The value of a surrogate pair, as the code computes it. *)
Lemma pair_value v :
  0 <= v < 0x100000 ->
  let hi := 0xD800 + v / 1024 in let lo := 0xDC00 + v mod 1024 in
  Z.lor (Z.lor (Z.lor (lo mod 256) (Z.shiftl (Z.land (lo / 256) 0x3) 8)) (Z.shiftl (hi mod 256) 10))
        (Z.shiftl (Z.land (hi / 256) 0x3) 18) = v.
Proof.
  intros Hv. cbv zeta. set (h := v / 262144). set (l := v mod 1024 / 256).
  assert (0 <= h < 4 /\ 0 <= l < 4) as [Hh Hl] by (unfold h, l; dlia).
  assert ((0xD800 + v / 1024) / 256 = 0xd8 + h) as -> by (unfold h; dlia).
  assert ((0xDC00 + v mod 1024) / 256 = 0xdc + l) as -> by (unfold l; dlia).
  assert (Z.land (0xd8 + h) 0x3 = h) as -> by (apply Z.eqb_eq; by apply (below 4 (fun h => Z.land (0xd8 + h) 0x3 =? h))).
  assert (Z.land (0xdc + l) 0x3 = l) as -> by (apply Z.eqb_eq; by apply (below 4 (fun l => Z.land (0xdc + l) 0x3 =? l))).
  set (x := (0xDC00 + v mod 1024) mod 256). set (y := (0xD800 + v / 1024) mod 256).
  assert (0 <= x < 256 /\ 0 <= y < 256) as [Hx Hy] by (unfold x, y; dlia).
  rewrite (lor_add x l 8), (lor_add _ y 10), (lor_add _ h 18) by lia.
  change (2 ^ 8) with 256. change (2 ^ 10) with 1024. change (2 ^ 18) with 262144.
  unfold x, y, l, h. dlia.
Qed.

Lemma push_pair v rest room :
  0 <= v < 0x100000 -> (4 <= room)%nat ->
  let cp := 0x10000 + v in
  utf8_push_char ((unit16 (0xD800 + v / 1024) ++ unit16 (0xDC00 + v mod 1024)) ++ rest) room =
  Emit 4 [0xf0 + cp / 262144; 0x80 + (cp / 4096) mod 64; 0x80 + (cp / 64) mod 64; 0x80 + cp mod 64] 0.
Proof.
  intros Hv Hr. cbv zeta. unfold utf8_push_char, unit16, at_. cbn [app lookup list_lookup from_option id length].
  rewrite pair_value by done.
  assert (forall w, 0 <= w < 4 ->
    negb (0xd8 + w =? 0) && negb (Z.land (0xd8 + w) 0xf8 =? 0) && negb (Z.land (0xd8 + w) 0xfc =? 0xdc) &&
    (Z.land (0xd8 + w) 0xfc =? 0xd8) && (Z.land (0xdc + w) 0xfc =? 0xdc) = true) as Hbits by (apply (below 4); reflexivity).
  assert ((0xD800 + v / 1024) / 256 = 0xd8 + v / 262144) as -> by dlia.
  assert ((0xDC00 + v mod 1024) / 256 = 0xdc + v mod 1024 / 256) as -> by dlia.
  pose proof (Hbits (v / 262144) ltac:(dlia)) as Bh. pose proof (Hbits (v mod 1024 / 256) ltac:(dlia)) as Bl. clear Hbits.
  repeat (apply andb_prop in Bh as [Bh ?]). repeat (apply andb_prop in Bl as [Bl ?]).
  repeat match goal with H : negb _ = true |- _ => apply negb_true_iff in H end.
  repeat match goal with H : (Z.land _ _ =? _) = _ |- _ => progress rewrite H end.
  rewrite Bh. cbn [andb negb].
  rewrite (ltb_nat_false (S (S (S (S (length rest)))))) by lia. cbn [negb].
  rewrite ltb_nat_false by done. rewrite (cont_out (0x10000 + v)), !(cont_shift (0x10000 + v)) by lia. rewrite shiftr_div by lia.
  change (2 ^ 18) with 262144. change (2 ^ 12) with 4096. change (2 ^ 6) with 64.
  assert (u8 (Z.lor 0xf0 ((0x10000 + v) / 262144)) = 0xf0 + (0x10000 + v) / 262144) as ->; [|done].
  assert (0 <= (0x10000 + v) / 262144 < 5) as Hlead by dlia. revert Hlead. generalize ((0x10000 + v) / 262144). intros w Hw.
  apply Z.eqb_eq. by apply (below 5 (fun w => u8 (Z.lor 0xf0 w) =? 0xf0 + w)).
Qed.

Lemma push_scalar cp rest room :
  scalar cp -> (length (utf8 cp) <= room)%nat ->
  utf8_push_char (utf16le cp ++ rest) room = Emit (length (utf16le cp)) (utf8 cp) 0.
Proof.
  intros Hs. rewrite length_utf16le. unfold utf8, utf16le, scalar in *.
  destruct (Z.ltb_spec cp 0x80) as [H1|H1].
  { intros _. rewrite (proj2 (Z.ltb_lt cp 0x10000)) by lia. apply push_unit1. lia. }
  destruct (Z.ltb_spec cp 0x800) as [H2|H2].
  { cbn [length]. intros Hr. rewrite (proj2 (Z.ltb_lt cp 0x10000)) by lia. by apply push_unit2. }
  destruct (Z.ltb_spec cp 0x10000) as [H3|H3].
  { cbn [length]. intros Hr. apply push_unit3; [lia|lia|done]. }
  cbn [length]. intros Hr. pose proof (push_pair (cp - 0x10000) rest room ltac:(lia) Hr) as H. cbv zeta in H.
  by replace (0x10000 + (cp - 0x10000)) with cp in H by lia.
Qed.

(** ** The loops *)

(** What every loop body guarantees: it consumes some of its input and writes no
    more than the room. *)
Definition body_ok (in_min out_min : nat) (body : list Z -> nat -> step) : Prop :=
  forall inp room n o ir, (in_min <= length inp)%nat -> (out_min <= room)%nat ->
    body inp room = Emit n o ir -> (1 <= n <= length inp)%nat /\ (1 <= length o <= room)%nat.

(** The loop stays inside both buffers, and [length inp] iterations are enough: when
    it stops without an error its condition is false. *)
Lemma conv_loop_bounds body in_min out_min :
  body_ok in_min out_min body -> (1 <= in_min)%nat -> forall fuel inp room,
  (length inp <= fuel)%nat ->
  let '(_, e, inp', out) := conv_loop body in_min out_min fuel inp room in
  (length out <= room)%nat /\ (exists n, inp' = drop n inp) /\
  (e = None -> (length inp' < in_min \/ room - length out < out_min)%nat).
Proof.
  intros Hbody Hmin. induction fuel as [|fuel IH]; intros inp room Hf; cbn [conv_loop].
  - split_and!; [simpl; lia|by exists 0%nat|]. intros _. lia.
  - case_decide as Hc; [|split_and!; [simpl; lia|by exists 0%nat|simpl; lia]].
    destruct (body inp room) as [n o ir|e] eqn:E; [|split_and!; [simpl; lia|by exists 0%nat|done]].
    destruct (Hbody inp room n o ir) as [Hn Ho]; [lia|lia|done|].
    specialize (IH (drop n inp) (room - length o)%nat ltac:(rewrite length_drop; lia)).
    destruct (conv_loop body in_min out_min fuel (drop n inp) (room - length o)) as [[[r e] inp'] out].
    destruct IH as (H1 & (m & H2) & H3). rewrite length_app. split_and!; [lia| |intros He; specialize (H3 He); lia].
    exists (n + m)%nat. by rewrite H2, drop_drop.
Qed.

Lemma utf8_pull_body : body_ok 1 2 utf8_pull_char.
Proof.
  intros inp room n o ir Hi Hr E. unfold utf8_pull_char in E. destruct inp as [|c inp]; [simpl in Hi; lia|].
  repeat match type of E with
         | (if ?b then _ else _) = _ => let B := fresh "B" in destruct b eqn:B; try discriminate
         end;
  repeat match goal with H : _ || _ = false |- _ => apply orb_false_elim in H as [? ?] end;
  repeat match goal with H : (_ <? _)%nat = false |- _ => apply Nat.ltb_ge in H end;
  injection E as <- <- _; cbn [length] in *; lia.
Qed.

Lemma utf8_push_body : body_ok 2 1 utf8_push_char.
Proof.
  intros inp room n o ir Hi Hr E. unfold utf8_push_char in E.
  repeat match type of E with
         | (if ?b then _ else _) = _ => let B := fresh "B" in destruct b eqn:B; try discriminate
         end;
  repeat match goal with H : (_ <? _)%nat = false |- _ => apply Nat.ltb_ge in H end;
  injection E as <- <- _; cbn [length] in *; lia.
Qed.

Lemma ascii_pull_body : body_ok 1 2 ascii_pull_char.
Proof. intros inp room n o ir Hi Hr E. injection E as <- <- _. cbn. lia. Qed.

Lemma ascii_push_body : body_ok 2 1 ascii_push_char.
Proof. intros inp room n o ir Hi Hr E. injection E as <- <- _. cbn. lia. Qed.

(** What a caller may rely on for any input, whatever it contains. *)
Definition converter_safe (c : converter) : Prop := forall inp room,
  (length (cr_out (c inp room)) <= room)%nat /\
  (exists n, cr_in (c inp room) = drop n inp) /\
  (forall r, cr_ret (c inp room) = inl r -> cr_in (c inp room) = []).

Lemma pull_safe body : body_ok 1 2 body -> converter_safe (fun inp room => finish_pull (conv_loop body 1 2 (length inp) inp room)).
Proof.
  intros Hb inp room. pose proof (conv_loop_bounds body 1 2 Hb ltac:(lia) (length inp) inp room ltac:(lia)) as H.
  destruct (conv_loop _ _ _ _ _ _) as [[[r e] inp'] out]. destruct H as (H1 & H2 & _).
  cbn [finish_pull]. destruct e; [by split_and!|].
  case_decide; cbn [cr_out cr_in cr_ret]; split_and!; try done. intros _ _. destruct inp'; [done|simpl in *; lia].
Qed.

Lemma push_safe body : body_ok 2 1 body -> converter_safe (fun inp room => finish_push (conv_loop body 2 1 (length inp) inp room)).
Proof.
  intros Hb inp room. pose proof (conv_loop_bounds body 2 1 Hb ltac:(lia) (length inp) inp room ltac:(lia)) as H.
  destruct (conv_loop _ _ _ _ _ _) as [[[r e] inp'] out]. destruct H as (H1 & H2 & _).
  cbn [finish_push]. destruct e; [by split_and!|].
  repeat case_decide; cbn [cr_out cr_in cr_ret]; split_and!; try done. intros _ _. destruct inp'; [done|simpl in *; lia].
Qed.

Lemma swab_length l : (length (swab l) + length l mod 2 = length l)%nat.
Proof.
  remember (length l) as k eqn:Hk. revert l Hk. induction k as [k IH] using lt_wf_ind. intros [|a [|b l]] ->; [done..|].
  cbn [swab length]. specialize (IH (length l) ltac:(simpl; lia) l eq_refl).
  replace (S (S (length l)) mod 2)%nat with (length l mod 2)%nat by dlia. lia.
Qed.

(** Strings of scalar values. *)
Definition utf8s (cps : list Z) : list Z := mjoin (utf8 <$> cps).
Definition utf16s (cps : list Z) : list Z := mjoin (utf16le <$> cps).

Lemma loop_chars (P : Z -> Prop) body in_min out_min (enc dec : Z -> list Z) :
  (1 <= in_min)%nat ->
  (forall cp rest room, P cp -> (length (dec cp) <= room)%nat ->
     body (enc cp ++ rest) room = Emit (length (enc cp)) (dec cp) 0) ->
  (forall cp, P cp -> (in_min <= length (enc cp))%nat /\ (out_min <= length (dec cp))%nat) ->
  forall cps fuel room, Forall P cps ->
  (length (mjoin (enc <$> cps)) <= fuel)%nat -> (length (mjoin (dec <$> cps)) <= room)%nat ->
  conv_loop body in_min out_min fuel (mjoin (enc <$> cps)) room = (0, None, [], mjoin (dec <$> cps)).
Proof.
  intros Hmin Hbody Hlen. induction cps as [|cp cps IH]; intros fuel room Hs Hf Hr.
  - destruct fuel; [done|]. cbn [conv_loop fmap list_fmap mjoin list_join List.concat]. by rewrite decide_False by (simpl; lia).
  - apply Forall_cons_iff in Hs as [Hcp Hs]. destruct (Hlen cp Hcp) as [H1 H2].
    change (mjoin (enc <$> cp :: cps)) with (enc cp ++ mjoin (enc <$> cps)) in *.
    change (mjoin (dec <$> cp :: cps)) with (dec cp ++ mjoin (dec <$> cps)) in *.
    rewrite !length_app in *. destruct fuel as [|fuel]; [lia|]. cbn [conv_loop].
    rewrite decide_True by (rewrite length_app; lia). rewrite Hbody by (done || lia).
    rewrite drop_app_length, IH by (done || lia). done.
Qed.

Lemma length_utf8 cp : (1 <= length (utf8 cp) <= 4)%nat.
Proof. unfold utf8. repeat (case_match; [simpl; lia|]). simpl; lia. Qed.

Lemma utf16s_bytes cps : Forall scalar cps -> bytes (utf16s cps).
Proof.
  unfold utf16s. induction 1 as [|cp cps Hcp Hs IH]; [constructor|].
  change (mjoin (utf16le <$> cp :: cps)) with (utf16le cp ++ mjoin (utf16le <$> cps)). apply Forall_app. split; [|done].
  unfold utf16le, scalar, unit16, is_u in *. destruct (Z.ltb_spec cp 0x10000); repeat constructor; dlia.
Qed.

Lemma length_utf16le_bounds cp : (2 <= length (utf16le cp) <= 4)%nat.
Proof. rewrite length_utf16le. case_match; lia. Qed.

Lemma utf8_pull_string cps room :
  Forall scalar cps -> (length (utf16s cps) <= room)%nat ->
  utf8_pull (utf8s cps) room = ConvResult (inl 0) [] (utf16s cps).
Proof.
  intros Hs Hr. unfold utf8_pull, utf8s, utf16s in *. rewrite (loop_chars scalar _ _ _ utf8 utf16le); try done.
  - apply pull_scalar.
  - intros cp _. pose proof (length_utf8 cp). pose proof (length_utf16le_bounds cp). lia.
Qed.

Lemma utf8_push_string cps room :
  Forall scalar cps -> (length (utf8s cps) <= room)%nat ->
  utf8_push (utf16s cps) room = ConvResult (inl 0) [] (utf8s cps).
Proof.
  intros Hs Hr. unfold utf8_push, utf8s, utf16s in *. rewrite (loop_chars scalar _ _ _ utf16le utf8); try done; [lia|apply push_scalar|].
  intros cp _. pose proof (length_utf8 cp). pose proof (length_utf16le_bounds cp). lia.
Qed.

(** ASCII text in the ASCII converters. *)
Definition ascii_char (c : Z) : Prop := 0 <= c < 0x80.

Lemma utf8s_ascii l : Forall ascii_char l -> utf8s l = l.
Proof.
  unfold utf8s, ascii_char. induction 1 as [|c l Hc Hl IH]; [done|].
  change (mjoin (utf8 <$> c :: l)) with (utf8 c ++ mjoin (utf8 <$> l)). rewrite IH. unfold utf8.
  by rewrite (proj2 (Z.ltb_lt c 0x80)) by lia.
Qed.

Lemma ascii_scalars l : Forall ascii_char l -> Forall scalar l.
Proof. intros H. eapply List.Forall_impl; [|exact H]. unfold ascii_char, scalar. intros. lia. Qed.

Lemma length_utf16s_ascii l : Forall ascii_char l -> length (utf16s l) = (2 * length l)%nat.
Proof.
  unfold utf16s, ascii_char. induction 1 as [|c l Hc Hl IH]; [done|].
  change (mjoin (utf16le <$> c :: l)) with (utf16le c ++ mjoin (utf16le <$> l)).
  rewrite length_app, IH, length_utf16le, (proj2 (Z.ltb_lt c 0x10000)) by lia. simpl. lia.
Qed.

Lemma ascii_pull_string l room :
  Forall ascii_char l -> (2 * length l <= room)%nat -> ascii_pull l room = ConvResult (inl 0) [] (utf16s l).
Proof.
  intros Hl Hr. unfold ascii_pull. pose proof (length_utf16s_ascii l Hl) as Hlen.
  rewrite <- (utf8s_ascii l Hl) at 1 2. unfold utf8s, utf16s in *.
  rewrite (loop_chars ascii_char _ _ _ utf8 utf16le); try done; try lia.
  - unfold ascii_char. intros cp rest rm Hcp _. unfold utf8, utf16le, unit16.
    rewrite (proj2 (Z.ltb_lt cp 0x80)), (proj2 (Z.ltb_lt cp 0x10000)), Z.mod_small, Z.div_small by lia. done.
  - intros cp _. pose proof (length_utf8 cp). pose proof (length_utf16le_bounds cp). lia.
Qed.

Lemma ascii_push_string l room :
  Forall ascii_char l -> (length l <= room)%nat -> ascii_push (utf16s l) room = ConvResult (inl 0) [] l.
Proof.
  intros Hl Hr. unfold ascii_push. rewrite <- (utf8s_ascii l Hl) at 3. unfold utf8s, utf16s.
  rewrite (loop_chars ascii_char _ _ _ utf16le utf8); try done; try lia.
  - unfold ascii_char. intros cp rest rm Hcp _. unfold utf8, utf16le, unit16.
    rewrite (proj2 (Z.ltb_lt cp 0x80)), (proj2 (Z.ltb_lt cp 0x10000)), Z.mod_small, Z.div_small by lia.
    unfold ascii_push_char, at_. cbn [app lookup list_lookup from_option id].
    change 0x7F with (Z.ones 7). rewrite land_low, Z.mod_small by lia. done.
  - intros cp _. pose proof (length_utf8 cp). pose proof (length_utf16le_bounds cp). lia.
  - pose proof (utf8s_ascii l Hl) as E. unfold utf8s in E. by rewrite E.
Qed.

(** Three times the source is always room enough. *)
Lemma utf16s_room cps : (length (utf16s cps) <= 2 * length (utf8s cps))%nat.
Proof.
  unfold utf16s, utf8s. induction cps as [|cp cps IH]; [done|].
  change (mjoin (utf16le <$> cp :: cps)) with (utf16le cp ++ mjoin (utf16le <$> cps)).
  change (mjoin (utf8 <$> cp :: cps)) with (utf8 cp ++ mjoin (utf8 <$> cps)).
  rewrite !length_app. enough (length (utf16le cp) <= 2 * length (utf8 cp))%nat by lia.
  rewrite length_utf16le. unfold utf8. destruct (Z.ltb_spec cp 0x10000); repeat case_match; simpl; lia.
Qed.

Lemma utf8s_room cps : (2 * length (utf8s cps) <= 3 * length (utf16s cps))%nat.
Proof.
  unfold utf16s, utf8s. induction cps as [|cp cps IH]; [done|].
  change (mjoin (utf16le <$> cp :: cps)) with (utf16le cp ++ mjoin (utf16le <$> cps)).
  change (mjoin (utf8 <$> cp :: cps)) with (utf8 cp ++ mjoin (utf8 <$> cps)).
  rewrite !length_app. enough (2 * length (utf8 cp) <= 3 * length (utf16le cp))%nat by lia.
  rewrite length_utf16le. unfold utf8.
  destruct (Z.ltb_spec cp 0x10000), (Z.ltb_spec cp 0x80), (Z.ltb_spec cp 0x800); simpl; lia.
Qed.

(** UTF-8 text of Unicode scalar values converts to exactly its UTF-16LE form
    and back, consuming all input, whenever the room suffices; the three bytes of
    room per source byte that the callers give always suffice. *)
Theorem utf8_utf16_roundtrip (cps : list Z) (room16 room8 : nat) :
  Forall scalar cps ->
  ((length (utf16s cps) <= room16)%nat ->
   utf8_pull (utf8s cps) room16 = ConvResult (inl 0) [] (utf16s cps)) /\
  ((length (utf8s cps) <= room8)%nat ->
   utf8_push (utf16s cps) room8 = ConvResult (inl 0) [] (utf8s cps)) /\
  (length (utf16s cps) <= 3 * length (utf8s cps))%nat /\
  (length (utf8s cps) <= 3 * length (utf16s cps))%nat.
Proof.
  intros Hs. split_and!.
  - by apply utf8_pull_string.
  - by apply utf8_push_string.
  - pose proof (utf16s_room cps). lia.
  - pose proof (utf8s_room cps). lia.
Qed.

Lemma utf8_utf16_roundtrip_witness :
  utf8_pull (utf8s [97; 0xE9; 0x1F600]) 8%nat = ConvResult (inl 0) [] (utf16s [97; 0xE9; 0x1F600]) /\
  utf8_push (utf16s [97; 0xE9; 0x1F600]) 7%nat = ConvResult (inl 0) [] (utf8s [97; 0xE9; 0x1F600]).
Proof.
  destruct (utf8_utf16_roundtrip [97; 0xE9; 0x1F600] 8 7) as (H1 & H2 & _).
  { repeat constructor; unfold scalar; lia. }
  split; [apply H1; by_eval | apply H2; by_eval].
Defined.

(** On arbitrary bytes, every built-in converter writes no more than the room it
    is given, leaves a suffix of its input, and reports success only when it consumed
    all of it. *)
Theorem builtin_converters_safe (f : charset_functions) :
  In f builtin_functions -> converter_safe (cs_pull f) /\ converter_safe (cs_push f).
Proof.
  assert (converter_safe iconv_copy) as Hcopy.
  { intros inp room. unfold iconv_copy. cbn [cr_out cr_in cr_ret].
    split_and!; [rewrite length_take; lia|by eexists|].
    case_decide as Hd; [done|]. intros _ _. by destruct (drop _ inp); [|simpl in Hd; lia]. }
  assert (converter_safe iconv_swab) as Hswab.
  { intros inp room. unfold iconv_swab. cbn [cr_out cr_in cr_ret]. set (n := Nat.min (length inp) room).
    split_and!; [|by eexists|].
    - rewrite length_app. assert (n <= room)%nat as Hroom by lia. pose proof (swab_length (take n inp)) as H.
      assert (length (take n inp) = n) as Hn by (rewrite length_take; lia). rewrite Hn in H.
      destruct (Nat.odd n) eqn:E; simpl length; [|lia].
      apply Nat.odd_spec in E as [m Em]. clearbody n. assert (n mod 2 = 1)%nat by dlia. lia.
    - case_decide as Hd; [done|]. intros _ _. by destruct (drop _ inp); [|simpl in Hd; lia]. }
  intros Hf. repeat (destruct Hf as [<-|Hf]; [split; first [done|by apply pull_safe, utf8_pull_body|
    by apply push_safe, utf8_push_body|by apply pull_safe, ascii_pull_body|by apply push_safe, ascii_push_body]|]).
  destruct Hf.
Qed.

Lemma builtin_converters_safe_witness : converter_safe utf8_pull.
Proof. apply (builtin_converters_safe (CharsetFunctions "UTF8" utf8_pull utf8_push)). cbn [In builtin_functions]. tauto. Defined.

(** A four-byte sequence past U+10FFFF is accepted, and comes out as two low
    surrogates, which [utf8_push] then refuses. *)
Lemma utf8_pull_past_unicode :
  utf8_pull [0xF4; 0x90; 0x80; 0x80] 4%nat = ConvResult (inl 0) [] [0x00; 0xDC; 0x00; 0xDC] /\
  cr_ret (utf8_push [0x00; 0xDC; 0x00; 0xDC] 16%nat) = inr EILSEQ.
Proof. split; reflexivity. Qed.
