(* ===== verification/Charcnv.v ===== *)
(** lib/charset/charcnv.c: strings between the unix charset and the charsets of the
    wire.  A C string is the list of its bytes before the terminator. *)

From stdpp Require Import strings.
From S2P Require Import Prelude Digest Byteorder Ntstatus Iconv.
Import Byteorder Iconv.

#[local] Open Scope outcome_scope.

Module Charcnv.

Inductive charset_t := CH_UTF16 | CH_UNIX | CH_DISPLAY | CH_DOS | CH_UTF8 | CH_UTF16BE.

(** The configuration get_conv_handle reads: the three configurable names, the
    charsets registered by modules, and the C library's iconv. *)
Class Charsets := {
  unix_charset : string;
  dos_charset : string;
  display_charset : string;
  registered : list charset_functions;
  native_enabled : bool;
  native : string -> string -> option converter
}.

(** The string flags of charset.h. *)
Definition STR_TERMINATE : Z := 1.
Definition STR_UPPER : Z := 2.
Definition STR_ASCII : Z := 4.
Definition STR_UNICODE : Z := 8.
Definition STR_NOALIGN : Z := 16.
Definition STR_TERMINATE_ASCII : Z := 128.

Definition flag (flags f : Z) : bool := negb (Z.land flags f =? 0).

Definition INVALID_CODEPOINT : Z := 0xFFFFFFFF.

Section charcnv.
Context `{Charsets} `{Allocator}.

Definition charset_name (dos : string) (ch : charset_t) : string :=
  match ch with
  | CH_UTF16 => "UTF-16LE"
  | CH_UNIX => unix_charset
  | CH_DOS => dos
  | CH_DISPLAY => display_charset
  | CH_UTF8 => "UTF8"
  | CH_UTF16BE => "UTF-16BE"
  end.

Definition open_handle (dos : string) (from to : charset_t) : option smb_iconv_t :=
  smb_iconv_open registered native_enabled native (charset_name dos to) (charset_name dos from).

Definition is_dos (ch : charset_t) : bool := match ch with CH_DOS => true | _ => false end.

(** The handle of a first request: when the dos charset is unavailable it is replaced
    by ASCII. *)
Definition get_conv_handle (from to : charset_t) : option smb_iconv_t :=
  match open_handle dos_charset from to with
  | Some h => Some h
  | None =>
      if (is_dos from || is_dos to) && negb (strcaseeq dos_charset "ASCII") then open_handle "ASCII" from to
      else None
  end.

(** The result of convert_string: the count (or -1) and what it wrote to [dest]. *)
Definition convert_string (from to : charset_t) (src : list Z) (destlen : nat) : Z * list Z :=
  match get_conv_handle from to with
  | None =>
      let len := Nat.min (length src) destlen in
      (Z.of_nat len, take len src)
  | Some h =>
      let r := smb_iconv h src destlen in
      match cr_ret r with
      | inr _ => (-1, cr_out r)
      | inl _ => (Z.of_nat (length (cr_out r)), cr_out r)
      end
  end.

(** The retry loop of convert_string_talloc.  A retry resets the count of input bytes
    but not the input pointer, which the failed conversion has moved: converting
    again then reads past the source. *)
Fixpoint convert_retry (h : smb_iconv_t) (fuel : nat) (src : list Z) (destlen : nat) : outcome (option (list Z)) :=
  match fuel with
  | O => Fault
  | S fuel =>
      let destlen := (2 + destlen * 3)%nat in
      if negb (malloc_ok 0) then Ret None
      else
        let r := smb_iconv h src (destlen - 2)%nat in
        match cr_ret r with
        | inr E2BIG =>
            if decide (length (cr_in r) < length src)%nat then Fault
            else convert_retry h fuel src destlen
        | inr _ => Ret None
        | inl _ => Ret (Some (cr_out r))
        end
  end.

(** [None] is -1.  The buffer holds two zero bytes after the bytes returned. *)
Definition convert_string_talloc (from to : charset_t) (src : list Z) : outcome (option (list Z)) :=
  if decide (length src = 0)%nat then Ret None
  else
    match get_conv_handle from to with
    | None => Ret None
    | Some h => convert_retry h 64 src (length src)
    end.

Definition push_ascii_talloc (src : list Z) := convert_string_talloc CH_UNIX CH_DOS (src ++ [0]).
Definition push_ucs2_talloc (src : list Z) := convert_string_talloc CH_UNIX CH_UTF16 (src ++ [0]).
Definition push_utf8_talloc (src : list Z) := convert_string_talloc CH_UNIX CH_UTF8 (src ++ [0]).
Definition pull_ascii_talloc (src : list Z) := convert_string_talloc CH_DOS CH_UNIX (src ++ [0]).
Definition pull_utf8_talloc (src : list Z) := convert_string_talloc CH_UTF8 CH_UNIX (src ++ [0]).

(** lib/util/util_str.c: the byte length of a UTF-16 buffer, terminator included. *)
Fixpoint utf16_len_from (fuel : nat) (buf : list Z) (len : nat) : nat :=
  match fuel with
  | O => len
  | S fuel => if negb (SVAL buf len =? 0) then utf16_len_from fuel buf (len + 2) else len
  end.
Definition utf16_len (buf : list Z) : nat := (utf16_len_from (length buf) buf 0 + 2)%nat.

Fixpoint utf16_len_n_from (fuel : nat) (src : list Z) (n len : nat) : nat :=
  match fuel with
  | O => len
  | S fuel =>
      if (len + 2 <? n)%nat && negb (SVAL src len =? 0) then utf16_len_n_from fuel src n (len + 2) else len
  end.
Definition utf16_len_n (src : list Z) (n : nat) : nat :=
  let len := utf16_len_n_from n src n 0 in
  if (len + 2 <=? n)%nat then (len + 2)%nat else len.

Definition pull_ucs2_talloc (src : list Z) := convert_string_talloc CH_UTF16 CH_UNIX (take (utf16_len src) src).

(** The C string at the start of a buffer. *)
Definition until_nul (l : list Z) : list Z :=
  take (default (length l) (fst <$> list_find (fun b => b = 0) l)) l.

(** What the conversion wrote over [dest], then [dest[MIN(ret, dest_len-1)] = 0].  A
    failed conversion has [ret] = -1, the largest size_t: the terminator goes to the
    end and what [dest] held before stays behind the converted prefix. *)
Definition terminate (dest : list Z) (r : Z * list Z) : list Z :=
  let d := splice 0 r.2 dest in
  let last := (length dest - 1)%nat in
  if decide (length dest = 0)%nat then d
  else <[(if decide (r.1 < 0) then last else Nat.min (Z.to_nat r.1) last) := 0]> d.

(** The first zero byte within [n], or [n]. *)
Definition strnlen (s : list Z) (n : nat) : nat :=
  default (Nat.min n (length s)) (fst <$> list_find (fun b => b = 0) (take n s)).

(** pull_ascii on a source area of known length, into the buffer [dest]: the bytes
    consumed and the buffer. *)
Definition pull_ascii (dest src : list Z) (flags : Z) : nat * list Z :=
  let src_len := length src in
  let src_len :=
    if flag flags (Z.lor STR_TERMINATE STR_TERMINATE_ASCII) then
      let len := strnlen src src_len in if (len <? src_len)%nat then S len else len
    else src_len in
  (src_len, terminate dest (convert_string CH_DOS CH_UNIX (take src_len src) (length dest))).

(** [odd]: whether the source address is odd (ucs2_align without STR_NOALIGN). *)
Definition pull_ucs2 (odd : bool) (dest src : list Z) (flags : Z) : nat * list Z :=
  let align := odd && negb (flag flags (Z.lor STR_NOALIGN STR_ASCII)) in
  let src := if align then drop 1 src else src in
  let src_len := length src in
  let src_len := if flag flags STR_TERMINATE then utf16_len_n src src_len else src_len in
  let src_len := (2 * (src_len / 2))%nat in
  (src_len, terminate dest (convert_string CH_UTF16 CH_UNIX (take src_len src) (length dest))).

(** Neither flag is a panic. *)
Definition pull_string (odd : bool) (dest src : list Z) (flags : Z) : outcome (nat * list Z) :=
  if flag flags STR_ASCII then Ret (pull_ascii dest src flags)
  else if flag flags STR_UNICODE then Ret (pull_ucs2 odd dest src flags)
  else Fault.

(** The string is empty when [str[0]] is the terminator. *)
Definition next_codepoint (str : list Z) : Z * nat :=
  let c := default 0 (str !! 0%nat) in
  if Z.land c 0x80 =? 0 then (c, 1%nat)
  else
    let ilen_orig := Nat.min 5 (length str) in
    match get_conv_handle CH_UNIX CH_UTF16 with
    | None => (INVALID_CODEPOINT, 1%nat)
    | Some h =>
        let r := smb_iconv h (take ilen_orig str) 2%nat in
        let r2 := smb_iconv h (cr_in r) 4%nat in
        if (length (cr_out r) =? 0)%nat && (length (cr_out r2) =? 0)%nat then (INVALID_CODEPOINT, 1%nat)
        else
          let r := if (length (cr_out r) =? 0)%nat then r2 else r in
          let buf := cr_out r in
          let size := (ilen_orig - length (cr_in r))%nat in
          if (length buf =? 2)%nat then (SVAL buf 0, size)
          else if (length buf =? 4)%nat then
            (0x10000 + Z.lor (Z.lor (Z.lor (at_ buf 2) (Z.shiftl (Z.land (at_ buf 3) 0x3) 8))
                                    (Z.shiftl (at_ buf 0) 10)) (Z.shiftl (Z.land (at_ buf 1) 0x3) 18), size)
          else (INVALID_CODEPOINT, size)
    end.

(** The bytes pushed, or -1. *)
Definition push_codepoint (c : Z) : option (list Z) :=
  if c <? 128 then Some [c]
  else
    match get_conv_handle CH_UTF16 CH_UNIX with
    | None => None
    | Some h =>
        let inp :=
          if c <? 0x10000 then [Z.land c 0xFF; Z.shiftr c 8]
          else
            let c := c - 0x10000 in
            [Z.land (Z.shiftr c 10) 0xFF; u8 (Z.lor (Z.shiftr c 18) 0xd8);
             Z.land c 0xFF; Z.lor (Z.land (Z.shiftr c 8) 0x3) 0xdc] in
        let r := smb_iconv h inp 5%nat in
        if (length (cr_in r) =? 0)%nat then Some (cr_out r) else None
    end.
End charcnv.
End Charcnv.

Import Charcnv.

(** ** The UTF-8 configuration *)

(** The unix charset is UTF-8 under either of its names; the others are arbitrary. *)
Definition unix_is_utf8 `{Charsets} : Prop := unix_charset = "UTF8"%string \/ unix_charset = "UTF-8"%string.

#[export] Instance utf8_charsets : Charsets :=
  {| unix_charset := "UTF8"; dos_charset := "ASCII"; display_charset := "ASCII";
     registered := []; native_enabled := false; native := fun _ _ => None |}.

Lemma handle_to_utf16 `{Charsets} : unix_is_utf8 -> get_conv_handle CH_UNIX CH_UTF16 = Some (Direct utf8_pull).
Proof. unfold get_conv_handle, open_handle, charset_name. by intros [-> | ->]. Qed.

Lemma handle_from_utf16 `{Charsets} : unix_is_utf8 -> get_conv_handle CH_UTF16 CH_UNIX = Some (Direct utf8_push).
Proof. unfold get_conv_handle, open_handle, charset_name. by intros [-> | ->]. Qed.

(** *** No conversion between UTF-8 and UTF-16 runs out of room *)

(** [grow]: output bytes per input bytes, as a fraction [a / b]. *)
Lemma conv_loop_room body in_min out_min a b :
  (1 <= in_min)%nat -> (1 <= b)%nat -> (b * out_min <= a * in_min)%nat ->
  (forall inp room n o ir, (in_min <= length inp)%nat -> (out_min <= room)%nat -> body inp room = Emit n o ir ->
     (1 <= n <= length inp)%nat /\ (b * length o <= a * n)%nat) ->
  (forall inp room, (in_min <= length inp)%nat -> (a * length inp <= b * room)%nat -> body inp room <> Stop E2BIG) ->
  forall fuel inp room, (length inp <= fuel)%nat -> (a * length inp <= b * room)%nat ->
  let '(_, e, inp', out) := conv_loop body in_min out_min fuel inp room in
  e <> Some E2BIG /\ (e = None -> (length inp' < in_min)%nat).
Proof.
  intros Hmin Hb1 Hratio Hbody Hstop. induction fuel as [|fuel IH]; intros inp room Hf Hroom; cbn [conv_loop].
  - split; [done|]. lia.
  - case_decide as Hc.
    + destruct (body inp room) as [n o ir|e] eqn:E.
      * destruct (Hbody inp room n o ir) as [Hn Ho]; [lia..|done|].
        specialize (IH (drop n inp) (room - length o)%nat). rewrite length_drop in IH.
        destruct (conv_loop body in_min out_min fuel (drop n inp) (room - length o)) as [[[r e] inp'] out].
        apply IH; [lia|]. nia.
      * split; [|done]. intros [= ->]. by apply (Hstop inp room) in E; [|lia|].
    + split; [done|]. intros _. destruct (decide (in_min <= length inp)%nat); [|lia]. nia.
Qed.

Lemma utf8_pull_grow inp room n o ir :
  (1 <= length inp)%nat -> (2 <= room)%nat -> utf8_pull_char inp room = Emit n o ir ->
  (1 <= n <= length inp)%nat /\ (1 * length o <= 2 * n)%nat.
Proof.
  intros Hi Hr E. unfold utf8_pull_char in E.
  repeat match type of E with
         | (if ?b then _ else _) = _ => let B := fresh "B" in destruct b eqn:B; try discriminate
         end;
  repeat match goal with H : _ || _ = false |- _ => apply orb_false_elim in H as [? ?] end;
  repeat match goal with H : (_ <? _)%nat = false |- _ => apply Nat.ltb_ge in H end;
  injection E as <- <- _; cbn [length] in *; lia.
Qed.

Lemma utf8_pull_stop inp room :
  (1 <= length inp)%nat -> (2 * length inp <= 1 * room)%nat -> utf8_pull_char inp room <> Stop E2BIG.
Proof.
  intros Hi Hr E. unfold utf8_pull_char in E.
  repeat match type of E with
         | (if ?b then _ else _) = _ => let B := fresh "B" in destruct b eqn:B; try discriminate
         end.
  repeat match goal with H : _ || _ = false |- _ => apply orb_false_elim in H as [? ?] end;
  repeat match goal with H : (_ <? _)%nat = _ |- _ => apply Nat.ltb_ge in H || apply Nat.ltb_lt in H end. lia.
Qed.

Lemma utf8_push_grow inp room n o ir :
  (2 <= length inp)%nat -> (1 <= room)%nat -> utf8_push_char inp room = Emit n o ir ->
  (1 <= n <= length inp)%nat /\ (2 * length o <= 3 * n)%nat.
Proof.
  intros Hi Hr E. unfold utf8_push_char in E.
  repeat match type of E with
         | (if ?b then _ else _) = _ => let B := fresh "B" in destruct b eqn:B; try discriminate
         end;
  repeat match goal with H : (_ <? _)%nat = false |- _ => apply Nat.ltb_ge in H end;
  injection E as <- <- _; cbn [length] in *; lia.
Qed.

Lemma utf8_push_stop inp room :
  (2 <= length inp)%nat -> (3 * length inp <= 2 * room)%nat -> utf8_push_char inp room <> Stop E2BIG.
Proof.
  intros Hi Hr E. unfold utf8_push_char in E.
  repeat match type of E with
         | (if ?b then _ else _) = _ => let B := fresh "B" in destruct b eqn:B; try discriminate
         end;
  repeat match goal with H : (_ <? _)%nat = _ |- _ => apply Nat.ltb_ge in H || apply Nat.ltb_lt in H end; try lia.
  all: by destruct (length inp <? 4)%nat.
Qed.

Lemma utf8_pull_not_e2big inp room :
  (2 * length inp <= room)%nat -> cr_ret (utf8_pull inp room) <> inr E2BIG.
Proof.
  intros Hr. unfold utf8_pull.
  pose proof (conv_loop_room utf8_pull_char 1 2 2 1 ltac:(lia) ltac:(lia) ltac:(lia) utf8_pull_grow utf8_pull_stop
    (length inp) inp room ltac:(lia) ltac:(lia)) as H.
  destruct (conv_loop _ _ _ _ _ _) as [[[r e] inp'] out]. destruct H as [He Hn]. cbn [finish_pull].
  destruct e as [e|]; cbn [cr_ret]; [congruence|]. specialize (Hn eq_refl). by rewrite decide_False by lia.
Qed.

Lemma utf8_push_not_e2big inp room :
  (3 * length inp <= 2 * room)%nat -> cr_ret (utf8_push inp room) <> inr E2BIG.
Proof.
  intros Hr. unfold utf8_push.
  pose proof (conv_loop_room utf8_push_char 2 1 3 2 ltac:(lia) ltac:(lia) ltac:(lia) utf8_push_grow utf8_push_stop
    (length inp) inp room ltac:(lia) ltac:(lia)) as H.
  destruct (conv_loop _ _ _ _ _ _) as [[[r e] inp'] out]. destruct H as [He Hn]. cbn [finish_push].
  destruct e as [e|]; cbn [cr_ret]; [congruence|]. specialize (Hn eq_refl).
  case_decide; [done|]. by rewrite decide_False by lia.
Qed.

(** A conversion that cannot run out of room takes one round of the retry loop. *)
Lemma convert_once `{Allocator} h src :
  malloc_ok 0 = true -> cr_ret (smb_iconv h src (3 * length src)%nat) <> inr E2BIG ->
  convert_retry h 64 src (length src) =
  Ret (match cr_ret (smb_iconv h src (3 * length src)%nat) with
       | inl _ => Some (cr_out (smb_iconv h src (3 * length src)%nat))
       | inr _ => None end).
Proof.
  intros Hm He. cbn [convert_retry]. rewrite Hm. cbn [negb].
  replace (2 + length src * 3 - 2)%nat with (3 * length src)%nat by lia.
  destruct (cr_ret (smb_iconv h src (3 * length src)%nat)) as [|[]]; done.
Qed.

(** *** Units and terminators *)

Lemma utf16_units cps :
  Forall scalar cps -> Forall (fun cp => cp <> 0) cps ->
  exists us, utf16s cps = mjoin (unit16 <$> us) /\ Forall (fun u => 0 < u < 65536) us.
Proof.
  unfold utf16s. induction cps as [|cp cps IH]; intros Hs Hz; [by exists []|].
  apply Forall_cons_iff in Hs as [Hcp Hs], Hz as [Hc Hz]. destruct (IH Hs Hz) as (us & E & Hus).
  change (mjoin (utf16le <$> cp :: cps)) with (utf16le cp ++ mjoin (utf16le <$> cps)). rewrite E.
  unfold utf16le, scalar in *. destruct (Z.ltb_spec cp 0x10000).
  - exists (cp :: us). split; [done|]. constructor; [lia|done].
  - exists (0xD800 + (cp - 0x10000) / 1024 :: 0xDC00 + (cp - 0x10000) mod 1024 :: us).
    split; [done|]. repeat constructor; try done; dlia.
Qed.

Lemma SVAL_unit pre u rest : 0 <= u < 65536 -> SVAL (pre ++ unit16 u ++ rest) (length pre) = u.
Proof.
  intros Hu. rewrite SVAL_slice by (rewrite !length_app; simpl; lia). rewrite slice_at by done.
  unfold unit16. change [u mod 256; u / 256] with ([u mod 256] ++ [u / 256]).
  rewrite of_le_app, !of_le_one. cbn [length]. change (8 * Z.of_nat 1) with 8.
  rewrite lor_add by (try lia; change (2 ^ 8) with 256; dlia). change (2 ^ 8) with 256. dlia.
Qed.

Lemma length_units us : length (mjoin (unit16 <$> us)) = (2 * length us)%nat.
Proof.
  induction us as [|u us IH]; [done|]. change (mjoin (unit16 <$> u :: us)) with (unit16 u ++ mjoin (unit16 <$> us)).
  rewrite length_app, IH. simpl. lia.
Qed.

Lemma utf16_len_units us rest : forall pre fuel,
  Forall (fun u => 0 < u < 65536) us -> (length us < fuel)%nat ->
  utf16_len_from fuel (pre ++ mjoin (unit16 <$> us) ++ unit16 0 ++ rest) (length pre) =
  (length pre + 2 * length us)%nat.
Proof.
  induction us as [|u us IH]; intros pre fuel Hu Hf; (destruct fuel as [|fuel]; [simpl in Hf; lia|]); cbn [utf16_len_from].
  - cbn [fmap list_fmap mjoin list_join List.concat]. rewrite app_nil_l, SVAL_unit by lia.
    rewrite Z.eqb_refl. cbn [negb length]. lia.
  - apply Forall_cons_iff in Hu as [Hu Hus]. cbn [length] in *.
    change (mjoin (unit16 <$> u :: us)) with (unit16 u ++ mjoin (unit16 <$> us)). rewrite <- (app_assoc (unit16 u)).
    rewrite SVAL_unit by lia. rewrite (proj2 (Z.eqb_neq u 0)) by lia. cbn [negb].
    replace (length pre + 2)%nat with (length (pre ++ unit16 u)) by (rewrite length_app; simpl; lia).
    rewrite app_assoc, IH by (done || lia). rewrite length_app. simpl. lia.
Qed.

Lemma utf16_len_string cps rest :
  Forall scalar cps -> Forall (fun cp => cp <> 0) cps ->
  utf16_len (utf16s cps ++ [0; 0] ++ rest) = (length (utf16s cps) + 2)%nat.
Proof.
  intros Hs Hz. destruct (utf16_units cps Hs Hz) as (us & -> & Hus). unfold utf16_len.
  pose proof (utf16_len_units us rest [] (length (mjoin (unit16 <$> us) ++ [0; 0] ++ rest)) Hus) as H.
  cbn [app length] in H. change (unit16 0) with [0; 0] in H. cbn [app] in H |- *.
  rewrite H by (rewrite length_app, length_units; simpl; lia). by rewrite length_units.
Qed.

Lemma utf8s_app a b : utf8s (a ++ b) = utf8s a ++ utf8s b.
Proof. unfold utf8s. by rewrite fmap_app, join_app. Qed.
Lemma utf16s_app a b : utf16s (a ++ b) = utf16s a ++ utf16s b.
Proof. unfold utf16s. by rewrite fmap_app, join_app. Qed.

(** *** One code point *)

Lemma pull_one cp rest room :
  scalar cp -> (length (utf16le cp) <= room < length (utf16le cp) + 2)%nat ->
  cr_out (utf8_pull (utf8 cp ++ rest) room) = utf16le cp /\ cr_in (utf8_pull (utf8 cp ++ rest) room) = rest.
Proof.
  intros Hs Hr. unfold utf8_pull. pose proof (length_utf8 cp). pose proof (length_utf16le_bounds cp).
  rewrite length_app. destruct (length (utf8 cp)) as [|k] eqn:Ek; [lia|]. cbn [Nat.add conv_loop].
  rewrite decide_True by (rewrite length_app; lia). rewrite pull_scalar by (done || lia).
  rewrite drop_app_length.
  assert (conv_loop utf8_pull_char 1 2 (k + length rest) rest (room - length (utf16le cp)) = (0, None, rest, [])) as ->.
  { destruct (k + length rest)%nat; [done|]. cbn [conv_loop]. by rewrite decide_False by lia. }
  rewrite app_nil_r. cbn [finish_pull]. by case_decide.
Qed.

Lemma pull_no_room cp rest :
  scalar cp -> 0x10000 <= cp ->
  cr_out (utf8_pull (utf8 cp ++ rest) 2%nat) = [] /\ cr_in (utf8_pull (utf8 cp ++ rest) 2%nat) = utf8 cp ++ rest.
Proof.
  intros Hs Hcp. unfold utf8_pull. pose proof (length_utf8 cp). rewrite length_app.
  destruct (length (utf8 cp)) as [|k] eqn:Ek; [lia|]. cbn [Nat.add conv_loop].
  rewrite decide_True by (rewrite length_app; lia).
  assert (utf8_pull_char (utf8 cp ++ rest) 2 = Stop E2BIG) as ->; [|done].
  unfold scalar in Hs. unfold utf8. rewrite (proj2 (Z.ltb_ge cp 0x80)), (proj2 (Z.ltb_ge cp 0x800)), (proj2 (Z.ltb_ge cp 0x10000)) by lia.
  cbn [app]. rewrite pull_four by dlia.
  assert (code4 (cp / 262144) ((cp / 4096) mod 64) ((cp / 64) mod 64) (cp mod 64) = cp) as -> by (unfold code4; dlia).
  by rewrite (proj2 (Z.ltb_ge cp 0x10000)) by lia.
Qed.

Lemma utf8_head_ascii cp rest : 0 <= cp < 0x80 -> utf8 cp ++ rest = cp :: rest.
Proof. intros. unfold utf8. by rewrite (proj2 (Z.ltb_lt cp 0x80)) by lia. Qed.

Lemma utf8_head_multi cp rest :
  scalar cp -> 0x80 <= cp -> Z.land (default 0 ((utf8 cp ++ rest) !! 0%nat)) 0x80 <> 0.
Proof.
  unfold scalar. intros Hs Hcp. unfold utf8. rewrite (proj2 (Z.ltb_ge cp 0x80)) by lia.
  destruct (Z.ltb_spec cp 0x800); [apply lead2; dlia|]. destruct (Z.ltb_spec cp 0x10000); [apply lead3; dlia|apply lead4; dlia].
Qed.

Lemma next_codepoint_utf8 `{Charsets} cp rest :
  unix_is_utf8 -> scalar cp -> next_codepoint (utf8 cp ++ rest) = (cp, length (utf8 cp)).
Proof.
  intros Hu Hs. unfold next_codepoint. destruct (decide (cp < 0x80)) as [Hc|Hc].
  - rewrite utf8_head_ascii by (unfold scalar in Hs; lia). cbn [lookup list_lookup from_option id].
    assert ((Z.land cp 0x80 =? 0) = true) as ->
      by (apply (below 128 (fun c => Z.land c 0x80 =? 0)); [done|unfold scalar in Hs; lia]).
    unfold utf8. by rewrite (proj2 (Z.ltb_lt cp 0x80)) by lia.
  - pose proof (utf8_head_multi cp rest Hs ltac:(lia)) as Hm. rewrite (proj2 (Z.eqb_neq _ _) Hm).
    rewrite handle_to_utf16 by done. cbv zeta. cbn [smb_iconv].
    pose proof (length_utf8 cp) as Hl. pose proof (length_utf16le_bounds cp) as Hl2.
    set (ilen := Nat.min 5 (length (utf8 cp ++ rest))).
    assert (exists r', take ilen (utf8 cp ++ rest) = utf8 cp ++ r' /\ ilen = (length (utf8 cp) + length r')%nat) as (r' & -> & Ei).
    { exists (take (ilen - length (utf8 cp)) rest). unfold ilen. rewrite length_app in *. split.
      - rewrite take_app_ge by lia. done.
      - rewrite length_take. lia. }
    destruct (decide (cp < 0x10000)) as [Hb|Hb].
    + assert (length (utf16le cp) = 2%nat) as H2 by (rewrite length_utf16le; by rewrite (proj2 (Z.ltb_lt cp 0x10000)) by lia).
      destruct (pull_one cp r' 2%nat Hs ltac:(lia)) as [Eo Ein]. rewrite Eo, Ein, H2. cbn [Nat.eqb andb]. rewrite ?Eo, ?Ein, ?H2. cbn [Nat.eqb andb].
      apply f_equal2; [|lia]. unfold utf16le. rewrite (proj2 (Z.ltb_lt cp 0x10000)) by lia.
      rewrite <- (app_nil_r (unit16 cp)). apply (SVAL_unit [] cp []). unfold scalar in Hs. lia.
    + assert (length (utf16le cp) = 4%nat) as H4 by (rewrite length_utf16le; by rewrite (proj2 (Z.ltb_ge cp 0x10000)) by lia).
      destruct (pull_no_room cp r' Hs ltac:(lia)) as [Eo Ein]. rewrite Eo, Ein. cbn [length Nat.eqb andb].
      destruct (pull_one cp r' 4%nat Hs ltac:(lia)) as [Eo2 Ein2]. rewrite Eo2, ?H4. cbn [Nat.eqb andb]. rewrite ?Eo2, ?Ein2, ?H4. cbn [Nat.eqb andb].
      apply f_equal2; [|lia]. unfold utf16le. rewrite (proj2 (Z.ltb_ge cp 0x10000)) by lia.
      unfold unit16, at_. cbn [app lookup list_lookup from_option id]. rewrite pair_value by (unfold scalar in Hs; lia). lia.
Qed.

Lemma push_codepoint_utf8 `{Charsets} cp :
  unix_is_utf8 -> scalar cp -> push_codepoint cp = Some (utf8 cp).
Proof.
  intros Hu Hs. unfold push_codepoint. destruct (Z.ltb_spec cp 128).
  - unfold utf8. by rewrite (proj2 (Z.ltb_lt cp 0x80)) by lia.
  - rewrite handle_from_utf16 by done. cbv zeta. cbn [smb_iconv].
    assert ((if cp <? 0x10000 then [Z.land cp 0xFF; Z.shiftr cp 8]
             else [Z.land (Z.shiftr (cp - 0x10000) 10) 0xFF; u8 (Z.lor (Z.shiftr (cp - 0x10000) 18) 0xd8);
                   Z.land (cp - 0x10000) 0xFF; Z.lor (Z.land (Z.shiftr (cp - 0x10000) 8) 0x3) 0xdc]) = utf16s [cp]) as ->.
    { unfold utf16s. cbn [fmap list_fmap mjoin list_join List.concat]. rewrite app_nil_r. unfold utf16le.
      unfold scalar in Hs. destruct (Z.ltb_spec cp 0x10000).
      - unfold unit16. change 0xFF with (Z.ones 8). by rewrite land_low, shiftr_div by lia.
      - rewrite <- pair16_units by lia. unfold pair16. repeat f_equal. apply u8_id.
        apply is_u_lor; [done| |done]. rewrite shiftr_div by lia. change (2 ^ 18) with 262144. unfold is_u. dlia. }
    pose proof (length_utf8 cp). rewrite utf8_push_string; [|by apply Forall_singleton|].
    + cbn [cr_in cr_out length Nat.eqb]. unfold utf8s. cbn [fmap list_fmap mjoin list_join List.concat]. by rewrite app_nil_r.
    + unfold utf8s. cbn [fmap list_fmap mjoin list_join List.concat]. rewrite app_nil_r. lia.
Qed.

(** *** The allocating converters *)

Section talloc.
Context `{Charsets} `{Allocator} (unix8 : unix_is_utf8) (room : malloc_ok 0 = true).

Lemma with_terminator cps :
  Forall scalar cps ->
  Forall scalar (cps ++ [0]) /\ utf8s (cps ++ [0]) = utf8s cps ++ [0] /\ utf16s (cps ++ [0]) = utf16s cps ++ [0; 0].
Proof.
  intros Hs. split_and!; [|by rewrite utf8s_app|by rewrite utf16s_app].
  apply Forall_app; split; [done|apply Forall_singleton; unfold scalar; lia].
Qed.

Lemma push_ucs2_talloc_utf8 cps :
  Forall scalar cps -> push_ucs2_talloc (utf8s cps) = Ret (Some (utf16s cps ++ [0; 0])).
Proof.
  intros Hs. destruct (with_terminator cps Hs) as (Hs0 & E8 & E16). set (t := cps ++ [0]) in *.
  unfold push_ucs2_talloc, convert_string_talloc. rewrite decide_False by (rewrite length_app; simpl; lia).
  rewrite handle_to_utf16, <- E8 by done. pose proof (utf16s_room t).
  assert (utf8_pull (utf8s t) (3 * length (utf8s t))%nat = ConvResult (inl 0) [] (utf16s t)) as E
    by (apply utf8_pull_string; [done|lia]).
  rewrite convert_once; cbn [smb_iconv]; [|done|by rewrite E]. by rewrite E, <- E16.
Qed.

Lemma pull_ucs2_talloc_utf8 cps rest :
  Forall scalar cps -> Forall (fun cp => cp <> 0) cps ->
  pull_ucs2_talloc (utf16s cps ++ [0; 0] ++ rest) = Ret (Some (utf8s cps ++ [0])).
Proof.
  intros Hs Hz. destruct (with_terminator cps Hs) as (Hs0 & E8 & E16). set (t := cps ++ [0]) in *.
  unfold pull_ucs2_talloc. rewrite utf16_len_string by done.
  rewrite app_assoc, take_app_le by (rewrite length_app; simpl; lia). rewrite take_ge by (rewrite length_app; simpl; lia).
  unfold convert_string_talloc. rewrite decide_False by (rewrite length_app; simpl; lia).
  rewrite handle_from_utf16, <- E16 by done. pose proof (utf8s_room t).
  assert (utf8_push (utf16s t) (3 * length (utf16s t))%nat = ConvResult (inl 0) [] (utf8s t)) as E
    by (apply utf8_push_string; [done|lia]).
  rewrite convert_once; cbn [smb_iconv]; [|done|by rewrite E]. by rewrite E, <- E8.
Qed.

Lemma convert_string_talloc_no_overrun src :
  convert_string_talloc CH_UNIX CH_UTF16 src <> Fault /\ convert_string_talloc CH_UTF16 CH_UNIX src <> Fault.
Proof.
  split; unfold convert_string_talloc; (case_decide; [done|]).
  - rewrite handle_to_utf16 by done. rewrite convert_once; [done|done|]. apply utf8_pull_not_e2big. lia.
  - rewrite handle_from_utf16 by done. rewrite convert_once; [done|done|]. apply utf8_push_not_e2big. lia.
Qed.
End talloc.

(** With a UTF-8 unix charset, pushing a string to UTF-16 and pulling UTF-16 to
    a string are exact on every string of nonzero scalar values, terminators
    included, and on arbitrary bytes the allocating converters never fault: the
    retry that would read past the source is never taken. *)
Theorem convert_string_talloc_utf8 `{Charsets} `{Allocator} (cps rest src : list Z) :
  unix_is_utf8 -> malloc_ok 0 = true -> Forall scalar cps -> Forall (fun cp => cp <> 0) cps ->
  push_ucs2_talloc (utf8s cps) = Ret (Some (utf16s cps ++ [0; 0])) /\
  pull_ucs2_talloc (utf16s cps ++ [0; 0] ++ rest) = Ret (Some (utf8s cps ++ [0])) /\
  convert_string_talloc CH_UNIX CH_UTF16 src <> Fault /\
  convert_string_talloc CH_UTF16 CH_UNIX src <> Fault.
Proof.
  intros Hu Hm Hs Hz. split_and!.
  - by apply push_ucs2_talloc_utf8.
  - by apply pull_ucs2_talloc_utf8.
  - by apply convert_string_talloc_no_overrun.
  - by apply convert_string_talloc_no_overrun.
Qed.

Lemma convert_string_talloc_utf8_witness :
  @push_ucs2_talloc utf8_charsets calloc (utf8s [97; 0xE9]) = Ret (Some (utf16s [97; 0xE9] ++ [0; 0])) /\
  @convert_string_talloc utf8_charsets calloc CH_UTF16 CH_UNIX [0xFF; 0xD8] <> Fault.
Proof.
  destruct (@convert_string_talloc_utf8 utf8_charsets calloc [97; 0xE9] [] [0xFF; 0xD8]) as (H1 & _ & _ & H2);
    [by left | done | repeat constructor; unfold scalar; lia | by_eval | by split].
Defined.
