(* ===== verification/Unistr.v ===== *)
(** lib/charset/util_unistr.c: case folding, comparison and search on strings of the
    unix charset, one code point at a time. *)

From stdpp Require Import strings.
From S2P Require Import Prelude Digest Byteorder Ntstatus Iconv Charcnv.
Import Byteorder Iconv Charcnv.

#[local] Open Scope outcome_scope.

Module Unistr.

(** The case tables load_case_tables maps from upcase.dat and lowcase.dat (0x20000
    bytes each), or [None] when neither place has the file. *)
Class CaseTables := { upcase_table : option (list Z); lowcase_table : option (list Z) }.

(** The C locale's character functions, on 0..255. *)
Definition isupper (c : Z) : bool := (65 <=? c) && (c <=? 90).
Definition islower (c : Z) : bool := (97 <=? c) && (c <=? 122).
Definition isdigit (c : Z) : bool := (48 <=? c) && (c <=? 57).
Definition toupper (c : Z) : Z := if islower c then c - 32 else c.
Definition tolower (c : Z) : Z := if isupper c then c + 32 else c.

(** The value of a [char]. *)
Definition char_of (b : Z) : Z := s8 b.

Section unistr.
Context `{Charsets} `{CaseTables} `{Allocator}.

Definition toupper_w (val : Z) : Z :=
  if val <? 128 then toupper val
  else match upcase_table with
       | None => val
       | Some t => if negb (Z.land val 0xFFFF0000 =? 0) then val else SVAL t (Z.to_nat (val * 2))
       end.

Definition tolower_w (val : Z) : Z :=
  if val <? 128 then tolower val
  else match lowcase_table with
       | None => val
       | Some t => if negb (Z.land val 0xFFFF0000 =? 0) then val else SVAL t (Z.to_nat (val * 2))
       end.

Definition codepoint_cmpi (c1 c2 : Z) : Z :=
  if (c1 =? c2) || (toupper_w c1 =? toupper_w c2) then 0 else s32 (c1 - c2).

(** strcasecmp of the C library: only its sign is specified. *)
Fixpoint strcasecmp (s1 s2 : list Z) : Z :=
  match s1, s2 with
  | a :: s1, b :: s2 => if tolower a =? tolower b then strcasecmp s1 s2 else tolower a - tolower b
  | _, _ => default 0 (tolower <$> s1 !! 0%nat) - default 0 (tolower <$> s2 !! 0%nat)
  end.

(** [*s1 - *s2] at the end of the loops. *)
Definition last_diff (s1 s2 : list Z) : Z :=
  char_of (default 0 (s1 !! 0%nat)) - char_of (default 0 (s2 !! 0%nat)).

(** Every iteration of the loops below consumes at least one byte, so the length of a
    string is enough fuel. *)
Fixpoint strcasecmp_loop (fuel : nat) (s1 s2 : list Z) : Z :=
  match fuel with
  | O => last_diff s1 s2
  | S fuel =>
      match s1, s2 with
      | _ :: _, _ :: _ =>
          let '(c1, size1) := next_codepoint s1 in
          let '(c2, size2) := next_codepoint s2 in
          let s1 := drop size1 s1 in
          let s2 := drop size2 s2 in
          if c1 =? c2 then strcasecmp_loop fuel s1 s2
          else if (c1 =? INVALID_CODEPOINT) || (c2 =? INVALID_CODEPOINT) then strcasecmp s1 s2
          else if negb (toupper_w c1 =? toupper_w c2) then s32 (c1 - c2)
          else strcasecmp_loop fuel s1 s2
      | _, _ => last_diff s1 s2
      end
  end.

(** Null pointers are [None]. *)
Definition strcasecmp_m (s1 s2 : option (list Z)) : Z :=
  match s1, s2 with
  | None, None => 0
  | None, _ => -1
  | _, None => 1
  | Some s1, Some s2 => strcasecmp_loop (length s1) s1 s2
  end.

Fixpoint strncasecmp_loop (fuel : nat) (s1 s2 : list Z) (n : nat) : Z :=
  match fuel with
  | O => if decide (n = 0)%nat then 0 else last_diff s1 s2
  | S fuel =>
      match s1, s2, n with
      | _ :: _, _ :: _, S n =>
          let '(c1, size1) := next_codepoint s1 in
          let '(c2, size2) := next_codepoint s2 in
          let s1 := drop size1 s1 in
          let s2 := drop size2 s2 in
          if c1 =? c2 then strncasecmp_loop fuel s1 s2 n
          else if (c1 =? INVALID_CODEPOINT) || (c2 =? INVALID_CODEPOINT) then strcasecmp s1 s2
          else if negb (toupper_w c1 =? toupper_w c2) then s32 (c1 - c2)
          else strncasecmp_loop fuel s1 s2 n
      | _, _, O => 0
      | _, _, _ => last_diff s1 s2
      end
  end.

Definition strncasecmp_m (s1 s2 : option (list Z)) (n : nat) : Z :=
  match s1, s2 with
  | None, None => 0
  | None, _ => -1
  | _, None => 1
  | Some s1, Some s2 => strncasecmp_loop (length s1) s1 s2 n
  end.

Definition strequal_w (s1 s2 : option (list Z)) : bool :=
  match s1, s2 with
  | None, None => true
  | Some _, Some _ => strcasecmp_m s1 s2 =? 0
  | _, _ => false
  end.

(** The positions a loop over the characters of a string
    visits: the code point, its size and the string from there. *)
Fixpoint walk (fuel : nat) (s : list Z) : list (Z * nat * list Z) :=
  match fuel, s with
  | S fuel, _ :: _ =>
      let '(c, size) := next_codepoint s in (c, size, s) :: walk fuel (drop size s)
  | _, _ => []
  end.
Definition codepoints (s : list Z) : list (Z * nat * list Z) := walk (length s) s.

(** The ASCII prefix the first loops of strlen_m and strlower_m handle. *)
Fixpoint ascii_prefix (s : list Z) : list Z * list Z :=
  match s with
  | c :: s' => if Z.land c 0x80 =? 0 then let '(p, r) := ascii_prefix s' in (c :: p, r) else ([], s)
  | [] => ([], [])
  end.

Definition count_units (count : nat) (x : Z * nat * list Z) : nat :=
  if fst (fst x) <? 0x10000 then (count + 1)%nat else (count + 2)%nat.

Definition strlen_m (s : option (list Z)) : nat :=
  match s with
  | None => 0
  | Some s =>
      let '(p, r) := ascii_prefix s in
      fold_left count_units (codepoints r) (length p)
  end.

Definition strlen_m_term (s : option (list Z)) : nat :=
  match s with None => 0 | Some _ => strlen_m s + 1 end.

(** The string from the character found. *)
Definition strchr_m (s : list Z) (c : Z) : option (list Z) :=
  if Z.land c 0xC0 =? 0 then
    if decide (c = 0) then Some []
    else i ← fst <$> list_find (fun b => b = c) s; Some (drop i s)
  else snd <$> List.find (fun x => fst (fst x) =? char_of c) (codepoints s).

Definition strrchr_m (s : list Z) (c : Z) : option (list Z) :=
  if Z.land c 0xC0 =? 0 then
    if decide (c = 0) then Some []
    else i ← fst <$> list_find (fun b => b = c) (reverse s); Some (drop (length s - 1 - i) s)
  else snd <$> List.find (fun x => fst (fst x) =? char_of c) (rev (codepoints s)).

Definition strhaslower (s : list Z) : bool := existsb (fun x => negb (fst (fst x) =? toupper_w (fst (fst x)))) (codepoints s).
Definition strhasupper (s : list Z) : bool := existsb (fun x => negb (fst (fst x) =? tolower_w (fst (fst x)))) (codepoints s).

Definition count_chars_w (s : list Z) (c : Z) : nat :=
  length (List.filter (fun x => fst (fst x) =? char_of c) (codepoints s)).

(** The loop of strlower_talloc and strupper_talloc: [room] bytes of [dest] are left. *)
Fixpoint fold_case (f : Z -> Z) (cs : list (Z * nat * list Z)) (room : nat) : outcome (option (list Z)) :=
  match cs with
  | [] => if decide (room = 0)%nat then Fault else Ret (Some [])        (* dest[size] = 0 *)
  | (c, _, _) :: cs =>
      match push_codepoint (f c) with
      | None => Ret None
      | Some o =>
          if decide (room < length o)%nat then Fault
          else
            let* r := fold_case f cs (room - length o) in
            Ret ((fun r => o ++ r) <$> r)
      end
  end.

Definition strlower_talloc (src : list Z) : outcome (option (list Z)) :=
  if malloc_ok 0 then fold_case tolower_w (codepoints src) (2 * length src + 1) else Ret None.

Definition strupper_talloc (src : option (list Z)) : outcome (option (list Z)) :=
  match src with
  | None => Ret None
  | Some src => if malloc_ok 0 then fold_case toupper_w (codepoints src) (2 * length src + 1) else Ret None
  end.

(** The in-place versions panic when a character would grow or cannot be pushed. *)
Fixpoint fold_case_inplace (f : Z -> Z) (cs : list (Z * nat * list Z)) : outcome (list Z) :=
  match cs with
  | [] => Ret []
  | (c, size, _) :: cs =>
      match push_codepoint (f c) with
      | None => Fault
      | Some o =>
          if decide (size < length o)%nat then Fault
          else let* r := fold_case_inplace f cs in Ret (o ++ r)
      end
  end.

Definition strlower_m (s : list Z) : outcome (list Z) :=
  let '(p, r) := ascii_prefix s in
  let* r := fold_case_inplace tolower_w (codepoints r) in Ret (map tolower p ++ r).

Definition strupper_m (s : list Z) : outcome (list Z) :=
  let '(p, r) := ascii_prefix s in
  let* r := fold_case_inplace toupper_w (codepoints r) in Ret (map toupper p ++ r).

(** string_replace_w steps by the size of the character and once more for the loop's
    own increment; past the terminator it reads outside the string. *)
Fixpoint replace_loop (fuel : nat) (s : list Z) (oldc newc : Z) (i : nat) : outcome (list Z) :=
  match fuel with
  | O => Ret s
  | S fuel =>
      if (length s <? i)%nat then Fault
      else if (i =? length s)%nat then Ret s
      else
        let '(c, size) := next_codepoint (drop i s) in
        let s := if c =? oldc then <[i := newc]> s else s in
        replace_loop fuel s oldc newc (i + size + 1)
  end.

Definition string_replace_w (s : option (list Z)) (oldc newc : Z) : outcome (option (list Z)) :=
  match s with
  | None => Ret None
  | Some s => let* r := replace_loop (S (length s)) s oldc newc 0 in Ret (Some r)
  end.

Definition is_some {A} (o : option A) : bool := match o with Some _ => true | None => false end.

(** [None] for a null result; [dest] and [src] are not null here. *)
Definition alpha_strcpy (src other_safe_chars : list Z) (maxlength : nat) : option (list Z) :=
  if decide (maxlength = 0)%nat then None
  else
    let len := if decide (maxlength <= length src)%nat then (maxlength - 1)%nat else length src in
    Some (map (fun c => if isupper c || islower c || isdigit c || is_some (strchr_m other_safe_chars c)
                        then c else 95) (take len src)).

(** next_token: the token and the rest, or [None] for False. *)
Fixpoint skip_seps (sep s : list Z) : list Z :=
  match s with c :: s' => if is_some (strchr_m sep c) then skip_seps sep s' else s | [] => [] end.

Fixpoint copy_token (sep s : list Z) (quoted : bool) (room : nat) : list Z * list Z :=
  match s with
  | [] => ([], [])
  | c :: s' =>
      if (0 <? room)%nat && (quoted || negb (is_some (strchr_m sep c))) then
        if c =? 34 then copy_token sep s' (negb quoted) room
        else let '(t, r) := copy_token sep s' quoted (room - 1) in (c :: t, r)
      else ([], s)
  end.

(** [bufsize] must hold the terminator. *)
Definition next_token (ptr : list Z) (sep : option (list Z)) (bufsize : nat) : option (list Z * list Z) :=
  let sep := default [32; 9; 10; 13] sep in
  match skip_seps sep ptr with
  | [] => None
  | s => let '(t, r) := copy_token sep s false (bufsize - 1) in Some (t, drop 1 r)
  end.
End unistr.
End Unistr.

Import Unistr.

(** ** Strings of scalar values in a UTF-8 configuration *)

Section utf8.
Context `{Charsets} `{CaseTables} (unix8 : unix_is_utf8).

Lemma utf8_nonempty cp : exists b l, utf8 cp = b :: l.
Proof. pose proof (length_utf8 cp). destruct (utf8 cp) as [|b l]; [simpl in *; lia|by exists b, l]. Qed.

Lemma utf8s_cons cp cps : utf8s (cp :: cps) = utf8 cp ++ utf8s cps.
Proof. done. Qed.
Lemma utf16s_cons cp cps : utf16s (cp :: cps) = utf16le cp ++ utf16s cps.
Proof. done. Qed.

Lemma walk_utf8 cps : forall fuel,
  Forall scalar cps -> (length (utf8s cps) <= fuel)%nat ->
  map (fun x => fst x) (walk fuel (utf8s cps)) = map (fun cp => (cp, length (utf8 cp))) cps.
Proof.
  induction cps as [|cp cps IH]; intros fuel Hs Hf; [by destruct fuel|].
  apply Forall_cons_iff in Hs as [Hcp Hs]. rewrite utf8s_cons in *.
  pose proof (next_codepoint_utf8 cp (utf8s cps) unix8 Hcp) as E.
  pose proof (length_utf8 cp) as Hl. rewrite length_app in Hf. destruct fuel as [|fuel]; [lia|].
  pose proof (drop_app_length (utf8 cp) (utf8s cps)) as D. cbn [map]. rewrite <- (IH fuel Hs ltac:(lia)).
  destruct (utf8_nonempty cp) as (b & l & Eb). cbn [walk]. rewrite Eb in *. cbn [app] in *. rewrite E, D. done.
Qed.

Lemma codepoints_utf8 cps :
  Forall scalar cps -> map (fun x => fst x) (codepoints (utf8s cps)) = map (fun cp => (cp, length (utf8 cp))) cps.
Proof. intros Hs. by apply walk_utf8. Qed.

(** The search for an ASCII character: the characters before it and the rest. *)
Lemma walk_find (ch : Z) cps : forall fuel,
  Forall scalar cps -> 0 < ch < 0x80 -> (length (utf8s cps) <= fuel)%nat ->
  snd <$> List.find (fun x => fst (fst x) =? ch) (walk fuel (utf8s cps)) =
  (fun x => utf8s (drop x.1 cps)) <$> list_find (fun cp => cp = ch) cps.
Proof.
  induction cps as [|cp cps IH]; intros fuel Hs Hc Hf; [by destruct fuel|].
  apply Forall_cons_iff in Hs as [Hcp Hs]. rewrite utf8s_cons in *.
  pose proof (next_codepoint_utf8 cp (utf8s cps) unix8 Hcp) as E.
  pose proof (length_utf8 cp) as Hl. rewrite length_app in Hf. destruct fuel as [|fuel]; [lia|].
  pose proof (drop_app_length (utf8 cp) (utf8s cps)) as D.
  specialize (IH fuel Hs Hc ltac:(lia)).
  destruct (utf8_nonempty cp) as (b & l & Eb). cbn [walk list_find]. rewrite Eb in *. cbn [app] in *. rewrite E, D.
  cbn [List.find fst]. destruct (Z.eqb_spec cp ch) as [->|Hne].
  - rewrite decide_True by done. cbn [fmap option_fmap option_map snd fst drop]. by rewrite utf8s_cons, Eb.
  - rewrite decide_False by done. rewrite IH. by destruct (list_find _ cps) as [[]|].
Qed.

Lemma byte_find_app ch a (s : list Z) :
  Forall (fun b => b <> ch) a ->
  list_find (fun b => b = ch) (a ++ s) = (fun x => ((length a + x.1)%nat, x.2)) <$> list_find (fun b => b = ch) s.
Proof.
  intros Ha. induction Ha as [|b a Hb Ha IH]; cbn [app].
  - by destruct (list_find _ s) as [[]|].
  - cbn [list_find]. rewrite decide_False by done. rewrite IH. by destruct (list_find _ s) as [[]|].
Qed.

Lemma utf8_no_ascii cp ch : scalar cp -> 0 < ch < 0x80 -> cp <> ch -> Forall (fun b => b <> ch) (utf8 cp).
Proof.
  unfold scalar. intros Hs Hc Hne. unfold utf8. repeat case_match; zify; repeat constructor; dlia.
Qed.

Lemma byte_find_utf8 ch cps :
  Forall scalar cps -> 0 < ch < 0x80 ->
  (fun i => drop i (utf8s cps)) <$> (fst <$> list_find (fun b => b = ch) (utf8s cps)) =
  (fun x => utf8s (drop x.1 cps)) <$> list_find (fun cp => cp = ch) cps.
Proof.
  intros Hs Hc. induction Hs as [|cp cps Hcp Hs IH]; [done|]. rewrite utf8s_cons. cbn [list_find].
  case_decide as E.
  - subst. assert (utf8 ch = [ch]) as -> by (unfold utf8; by rewrite (proj2 (Z.ltb_lt ch 0x80)) by lia).
    cbn [app list_find]. rewrite decide_True by done. cbn [fmap option_fmap option_map snd fst drop].
    rewrite utf8s_cons. unfold utf8. by rewrite (proj2 (Z.ltb_lt ch 0x80)) by lia.
  - rewrite byte_find_app by by apply utf8_no_ascii.
    destruct (list_find (fun b => b = ch) (utf8s cps)) as [[i b]|], (list_find (fun cp => cp = ch) cps) as [[j c]|];
      cbn in IH |- *; simplify_eq; [|done].
    rewrite <- IH. f_equal. rewrite <- drop_drop. by rewrite drop_app_length.
Qed.

Lemma strchr_m_utf8 cps ch :
  Forall scalar cps -> 0 < ch < 0x80 ->
  strchr_m (utf8s cps) ch = (fun x => utf8s (drop x.1 cps)) <$> list_find (fun cp => cp = ch) cps.
Proof.
  intros Hs Hc. unfold strchr_m. destruct (Z.land ch 0xC0 =? 0).
  - rewrite decide_False by lia. rewrite <- (byte_find_utf8 ch cps Hs Hc).
    by destruct (list_find (fun b => b = ch) (utf8s cps)) as [[]|].
  - assert (char_of ch = ch) as ->
      by (unfold char_of, s8; change (2 ^ 7) with 128; change (2 ^ 8) with 256; dlia).
    unfold codepoints. by apply walk_find.
Qed.

Lemma ascii_prefix_utf8 cps :
  Forall scalar cps ->
  exists a b, cps = a ++ b /\ Forall (fun cp => 0 <= cp < 0x80) a /\ ascii_prefix (utf8s cps) = (a, utf8s b).
Proof.
  induction cps as [|cp cps IH]; intros Hs; [by exists [], []|].
  apply Forall_cons_iff in Hs as [Hcp Hs]. destruct (decide (cp < 0x80)) as [Hc|Hc].
  - destruct (IH Hs) as (a & b & -> & Ha & E). assert (0 <= cp < 0x80) as Hr by (unfold scalar in Hcp; lia).
    exists (cp :: a), b. split_and!; [done|by constructor|]. rewrite utf8s_cons, utf8_head_ascii by done.
    cbn [ascii_prefix]. assert ((Z.land cp 0x80 =? 0) = true) as -> by (by apply (below 128 (fun c => Z.land c 0x80 =? 0))).
    by rewrite E.
  - exists [], (cp :: cps). split_and!; [done|constructor|]. rewrite utf8s_cons.
    pose proof (utf8_head_multi cp (utf8s cps) Hcp ltac:(lia)) as Hm. destruct (utf8_nonempty cp) as (b & l & Eb).
    rewrite Eb in *. cbn [app lookup list_lookup from_option id] in Hm. cbn [app ascii_prefix].
    by rewrite (proj2 (Z.eqb_neq _ _) Hm).
Qed.

Lemma fold_count (xs : list (Z * nat * list Z)) n cps :
  map (fun x => fst x) xs = map (fun cp => (cp, length (utf8 cp))) cps ->
  (2 * fold_left count_units xs n)%nat =
  (2 * n + length (utf16s cps))%nat.
Proof.
  revert n cps. induction xs as [|[[c sz] s] xs IH]; intros n [|cp cps] E; try discriminate; cbn [fold_left].
  - cbn. lia.
  - cbn [map fst] in E. injection E as -> _ E. rewrite (IH _ cps E), utf16s_cons, length_app, length_utf16le.
    unfold count_units. cbn [fst]. destruct (cp <? 0x10000); lia.
Qed.

Lemma strlen_m_utf8 cps :
  Forall scalar cps -> (2 * strlen_m (Some (utf8s cps)))%nat = length (utf16s cps).
Proof.
  intros Hs. destruct (ascii_prefix_utf8 cps Hs) as (a & b & -> & Ha & E). unfold strlen_m. rewrite E.
  apply Forall_app in Hs as [_ Hb]. rewrite (fold_count _ _ b) by by apply codepoints_utf8.
  rewrite utf16s_app, length_app. f_equal. clear -Ha. induction Ha as [|cp a Hcp Ha IH]; [done|].
  rewrite utf16s_cons, length_app, length_utf16le, <- IH. rewrite (proj2 (Z.ltb_lt cp 0x10000)) by lia. simpl. lia.
Qed.

(** Case folding. *)
Definition folds (f : Z -> Z) : Prop :=
  forall cp, scalar cp -> scalar (f cp) /\ (length (utf8 (f cp)) <= 2 * length (utf8 cp))%nat.

Lemma fold_case_utf8 f (xs : list (Z * nat * list Z)) cps room :
  folds f -> Forall scalar cps ->
  map (fun x => fst x) xs = map (fun cp => (cp, length (utf8 cp))) cps ->
  (2 * length (utf8s cps) < room)%nat ->
  fold_case f xs room = Ret (Some (utf8s (map f cps))).
Proof.
  intros Hf. revert cps room. induction xs as [|[[c sz] s] xs IH]; intros [|cp cps] room Hs E Hr; try discriminate; cbn [fold_case].
  - by rewrite decide_False by lia.
  - cbn [map fst] in E. injection E as -> _ E. apply Forall_cons_iff in Hs as [Hcp Hs].
    destruct (Hf cp Hcp) as [Hsc Hlen]. rewrite push_codepoint_utf8 by done.
    rewrite utf8s_cons, length_app in Hr. rewrite decide_False by lia.
    rewrite (IH cps) by (done || lia). cbn [obind]. done.
Qed.

Lemma toupper_ascii c : 0 <= c < 128 -> 0 <= toupper c < 128.
Proof. intros Hc. unfold toupper, islower. destruct (Z.leb_spec 97 c), (Z.leb_spec c 122); simpl; lia. Qed.

Lemma length_utf8_ascii c : 0 <= c < 128 -> length (utf8 c) = 1%nat.
Proof. intros. unfold utf8. by rewrite (proj2 (Z.ltb_lt c 0x80)) by lia. Qed.

Lemma length_utf8_le a b : a < 0x10000 -> 0x80 <= b -> (length (utf8 a) <= 2 * length (utf8 b))%nat.
Proof.
  intros Ha Hb. unfold utf8. rewrite (proj2 (Z.ltb_lt a 0x10000)), (proj2 (Z.ltb_ge b 0x80)) by lia.
  repeat case_match; simpl; lia.
Qed.

(** The growth the comment in strupper_talloc allows for: no table of 16-bit entries
    makes a character more than twice as long. *)
Lemma toupper_w_folds :
  (forall cp, scalar cp -> scalar (toupper_w cp)) ->
  (forall t, upcase_table = Some t -> bytes t) -> folds toupper_w.
Proof.
  intros Hsc Ht cp Hcp. split; [by apply Hsc|]. unfold toupper_w. destruct (Z.ltb_spec cp 128) as [Hc|Hc].
  - assert (0 <= cp < 128) as Hr by (unfold scalar in Hcp; lia). rewrite !length_utf8_ascii; [lia|done|by apply toupper_ascii].
  - destruct upcase_table as [t|]; [|lia]. case_match; [lia|]. apply length_utf8_le; [|done].
    assert (is_u16 (SVAL t (Z.to_nat (cp * 2)))) as Hu; [|unfold is_u in Hu; lia].
    apply is_u_lor; [done|apply (is_u_mono 8); [done|apply CVAL_byte; auto]|].
    apply (is_u_shiftl 8); [lia..|]. apply CVAL_byte. auto.
Qed.

Lemma strupper_talloc_utf8 `{Allocator} cps :
  (forall cp, scalar cp -> scalar (toupper_w cp)) -> (forall t, upcase_table = Some t -> bytes t) ->
  malloc_ok 0 = true -> Forall scalar cps ->
  strupper_talloc (Some (utf8s cps)) = Ret (Some (utf8s (map toupper_w cps))).
Proof.
  intros Hsc Ht Hm Hs. unfold strupper_talloc. rewrite Hm.
  apply fold_case_utf8; [by apply toupper_w_folds|done|by apply codepoints_utf8|lia].
Qed.

(** *** Comparison *)

Lemma strcasecmp_loop_eq cps1 : forall cps2 fuel,
  Forall scalar cps1 -> Forall scalar cps2 -> Forall (fun cp => cp <> 0) cps1 -> Forall (fun cp => cp <> 0) cps2 ->
  (length (utf8s cps1) <= fuel)%nat ->
  strcasecmp_loop fuel (utf8s cps1) (utf8s cps2) = 0 <-> map toupper_w cps1 = map toupper_w cps2.
Proof.
  assert (forall cp cps, scalar cp -> cp <> 0 -> char_of (default 0 ((utf8s (cp :: cps)) !! 0%nat)) <> 0) as Hhead.
  { intros cp cps Hcp Hz. rewrite utf8s_cons. destruct (decide (cp < 0x80)).
    - rewrite utf8_head_ascii by (unfold scalar in Hcp; lia). cbn. unfold char_of, s8, scalar in *. dlia.
    - pose proof (utf8_head_multi cp (utf8s cps) Hcp ltac:(lia)) as Hm.
      assert (is_byte (default 0 ((utf8 cp ++ utf8s cps) !! 0%nat))) as Hb.
      { unfold scalar in Hcp. unfold utf8, is_u. repeat case_match; cbn; try (zify; dlia); dlia. }
      set (b := default 0 _) in *. intros E. assert (b = 0) as E0 by (unfold char_of, s8, is_u in *; dlia).
      by rewrite E0 in Hm. }
  induction cps1 as [|c1 cps1 IH]; intros [|c2 cps2] fuel Hs1 Hs2 Hz1 Hz2 Hf.
  - destruct fuel; split; done.
  - apply Forall_cons_iff in Hs2 as [Hc2 _], Hz2 as [Hn2 _]. pose proof (Hhead c2 cps2 Hc2 Hn2) as Hh.
    destruct fuel; cbn [strcasecmp_loop]; (split; [|done]); unfold last_diff; cbn [utf8s fmap list_fmap mjoin list_join List.concat lookup list_lookup from_option id] in *;
      change (char_of 0) with 0; intros E; exfalso; apply Hh; unfold utf8s in *; cbn [fmap list_fmap mjoin list_join List.concat] in *; lia.
  - apply Forall_cons_iff in Hs1 as [Hc1 _], Hz1 as [Hn1 _]. pose proof (Hhead c1 cps1 Hc1 Hn1) as Hh.
    destruct (utf8_nonempty c1) as (b & l & Eb). rewrite utf8s_cons in *. rewrite Eb in *. cbn [app length] in *.
    destruct fuel as [|fuel]; [lia|]. cbn [strcasecmp_loop]. split; [|done]. unfold last_diff.
    change (utf8s []) with (@nil Z). cbn [lookup list_lookup from_option id] in *. change (char_of 0) with 0. lia.
  - apply Forall_cons_iff in Hs1 as [Hc1 Hs1], Hs2 as [Hc2 Hs2], Hz1 as [Hn1 Hz1], Hz2 as [Hn2 Hz2].
    pose proof (next_codepoint_utf8 c1 (utf8s cps1) unix8 Hc1) as E1. pose proof (next_codepoint_utf8 c2 (utf8s cps2) unix8 Hc2) as E2.
    pose proof (drop_app_length (utf8 c1) (utf8s cps1)) as D1. pose proof (drop_app_length (utf8 c2) (utf8s cps2)) as D2.
    rewrite !utf8s_cons in *. rewrite length_app in Hf. pose proof (length_utf8 c1).
    destruct fuel as [|fuel]; [lia|]. destruct (utf8_nonempty c1) as (b1 & l1 & Eb1), (utf8_nonempty c2) as (b2 & l2 & Eb2).
    cbn [strcasecmp_loop]. rewrite Eb1 in *. rewrite Eb2 in *. cbn [app] in *. rewrite E1, E2, D1, D2.
    specialize (IH cps2 fuel Hs1 Hs2 Hz1 Hz2 ltac:(lia)). cbn [map]. destruct (Z.eqb_spec c1 c2) as [->|Hne].
    { rewrite IH. split; [by intros ->|by intros [= ->]]. }
    rewrite (proj2 (Z.eqb_neq c1 INVALID_CODEPOINT)), (proj2 (Z.eqb_neq c2 INVALID_CODEPOINT)) by (unfold scalar, INVALID_CODEPOINT in *; lia).
    cbn [orb]. destruct (Z.eqb_spec (toupper_w c1) (toupper_w c2)) as [->|Hu]; cbn [negb].
    { rewrite IH. split; [by intros ->|by intros [= ->]]. }
    split; [|by intros [= ? ?]]. intros E. exfalso. apply Hne. unfold s32, scalar in *. dlia.
Qed.
End utf8.

(** ** string_replace_w *)

(** On ASCII text it replaces only at even positions, and past a text of odd length it
    steps over the terminator. *)
Fixpoint replace_even (oldc newc : Z) (s : list Z) : outcome (list Z) :=
  match s with
  | [] => Ret []
  | [c] => Fault
  | c :: d :: s =>
      match replace_even oldc newc s with
      | Ret r => Ret ((if c =? oldc then newc else c) :: d :: r)
      | Fault => Fault
      end
  end.

Lemma next_codepoint_ascii `{Charsets} c s : 0 <= c < 0x80 -> next_codepoint (c :: s) = (c, 1%nat).
Proof.
  intros Hc. unfold next_codepoint. cbn [lookup list_lookup from_option id].
  by assert ((Z.land c 0x80 =? 0) = true) as -> by (by apply (below 128 (fun c => Z.land c 0x80 =? 0))).
Qed.

Lemma string_replace_w_overrun `{Charsets} oldc newc k : forall pre s fuel,
  length s = k -> Forall (fun c => 0 <= c < 0x80) s -> (length s < fuel)%nat ->
  replace_loop fuel (pre ++ s) oldc newc (length pre) =
  match replace_even oldc newc s with Ret r => Ret (pre ++ r) | Fault => Fault end.
Proof.
  induction k as [k IH] using lt_wf_ind. intros pre s fuel Hk Hs Hf.
  destruct fuel as [|fuel]; [lia|]. cbn [replace_loop].
  rewrite (proj2 (Nat.ltb_ge _ _)) by (rewrite length_app; lia). destruct s as [|c [|d s]].
  - rewrite app_nil_r, Nat.eqb_refl. cbn [replace_even]. by rewrite app_nil_r.
  - rewrite (proj2 (Nat.eqb_neq _ _)) by (rewrite length_app; simpl; lia).
    apply Forall_cons_iff in Hs as [Hc _]. rewrite drop_app_length, next_codepoint_ascii by done.
    cbn [replace_even]. destruct fuel as [|fuel]; [simpl in Hf; lia|]. cbn [replace_loop].
    rewrite (proj2 (Nat.ltb_lt _ _)); [done|]. case_match; rewrite ?length_insert, length_app; simpl; lia.
  - rewrite (proj2 (Nat.eqb_neq _ _)) by (rewrite length_app; simpl; lia).
    apply Forall_cons_iff in Hs as [Hc Hs]. apply Forall_cons_iff in Hs as [Hd Hs].
    rewrite drop_app_length, next_codepoint_ascii by done.
    set (c' := if c =? oldc then newc else c).
    assert ((if c =? oldc then <[length pre:=newc]> (pre ++ c :: d :: s) else pre ++ c :: d :: s) = (pre ++ [c'; d]) ++ s) as ->.
    { unfold c'. rewrite <- app_assoc. cbn [app]. destruct (c =? oldc); [|done].
      rewrite insert_app_r_alt, Nat.sub_diag by lia. done. }
    replace (length pre + 1 + 1)%nat with (length (pre ++ [c'; d])) by (rewrite length_app; simpl; lia).
    rewrite (IH (length s)); [|simpl in Hk; lia|done|done|simpl in Hf; lia].
    cbn [replace_even]. fold c'. destruct (replace_even oldc newc s); [|done]. by rewrite <- app_assoc.
Qed.

Lemma string_replace_w_odd `{Charsets} (s : list Z) oldc newc :
  Forall (fun c => 0 <= c < 0x80) s -> Nat.odd (length s) = true -> string_replace_w (Some s) oldc newc = Fault.
Proof.
  intros Hs Hodd. unfold string_replace_w. rewrite (string_replace_w_overrun oldc newc _ [] s) by (done || lia).
  assert (replace_even oldc newc s = Fault) as ->; [|done].
  clear Hs. remember (length s) as k eqn:Hk. revert s Hk. induction k as [k IH] using lt_wf_ind.
  intros [|c [|d s]] ->; [done..|]. cbn [replace_even]. by rewrite (IH (length s)); [|simpl; lia| |].
Qed.

(** In a UTF-8 configuration, strlen_m counts the UTF-16 units of a string, and
    strupper_talloc returns the string whose characters are folded by toupper_w: the
    buffer of twice the length plus one that it allocates is always enough. *)
Theorem strlen_and_strupper `{Charsets} `{CaseTables} `{Allocator} (cps : list Z) :
  unix_is_utf8 -> malloc_ok 0 = true -> Forall scalar cps ->
  (forall cp, scalar cp -> scalar (toupper_w cp)) -> (forall t, upcase_table = Some t -> bytes t) ->
  (2 * strlen_m (Some (utf8s cps)))%nat = length (utf16s cps) /\
  strupper_talloc (Some (utf8s cps)) = Ret (Some (utf8s (map toupper_w cps))).
Proof.
  intros Hu Hm Hs Hsc Ht. split; [by apply strlen_m_utf8|by apply strupper_talloc_utf8].
Qed.

(** No case tables: only ASCII is folded. *)
Definition no_tables : CaseTables := {| upcase_table := None; lowcase_table := None |}.

Lemma no_tables_upper cp : scalar cp -> scalar (@toupper_w no_tables cp).
Proof.
  intros Hcp. unfold toupper_w. cbn [upcase_table no_tables]. unfold scalar, toupper, islower in *.
  repeat case_match; lia.
Qed.

Lemma strlen_and_strupper_witness :
  @strupper_talloc utf8_charsets no_tables calloc (Some (utf8s [97; 0xE9])) =
  Ret (Some (utf8s (map (@toupper_w no_tables) [97; 0xE9]))).
Proof.
  apply (@strlen_and_strupper utf8_charsets no_tables calloc [97; 0xE9]);
    [by left | done | repeat constructor; unfold scalar; lia | apply no_tables_upper | done].
Defined.

(** The function strcasecmp_m returns zero exactly on strings that are equal character by
    character after folding.  Its sign is not an ordering: it orders a before b and
    takes b and B as equal, but orders a after B. *)
Theorem strcasecmp_m_equality `{Charsets} `{CaseTables} (cps1 cps2 : list Z) :
  unix_is_utf8 -> Forall scalar cps1 -> Forall scalar cps2 ->
  Forall (fun cp => cp <> 0) cps1 -> Forall (fun cp => cp <> 0) cps2 ->
  (strcasecmp_m (Some (utf8s cps1)) (Some (utf8s cps2)) = 0 <-> map toupper_w cps1 = map toupper_w cps2) /\
  strcasecmp_m (Some [97]) (Some [98]) < 0 /\ strcasecmp_m (Some [98]) (Some [66]) = 0 /\
  0 < strcasecmp_m (Some [97]) (Some [66]).
Proof.
  intros Hu H1 H2 Hz1 Hz2. split; [by apply strcasecmp_loop_eq|]. by split_and!.
Qed.

Lemma strcasecmp_m_equality_witness :
  @strcasecmp_m utf8_charsets no_tables (Some (utf8s [97; 98])) (Some (utf8s [65; 66])) = 0.
Proof.
  apply (@strcasecmp_m_equality utf8_charsets no_tables [97; 98] [65; 66]);
    [by left | repeat constructor; unfold scalar; lia .. | by_eval | by_eval | by_eval].
Defined.
