(* ===== verification/Msrpc.v ===== *)
(** auth/ntlmssp/ntlmssp_parse.c: the generator and the parser of NTLMSSP messages.  A
    format string and its arguments are one list of directives. *)

From stdpp Require Import strings.
From S2P Require Import Prelude Digest Byteorder Ntstatus Iconv Charcnv Unistr.
Import Byteorder Iconv Charcnv.

#[local] Open Scope outcome_scope.

Module Msrpc.

(** The directives of msrpc_gen: U, A, a, B, b, d, C. *)
Inductive gen_arg :=
| GU (s : list Z)
| GA (s : list Z)
| Ga (n : Z) (s : list Z)
| GB (b : list Z)
| Gb (b : list Z)
| Gd (n : Z)
| GC (s : list Z).

(** The directives of msrpc_parse, and what they store. *)
Inductive parse_arg := PU | PA | PB | Pb (len : Z) | Pd | PC (s : list Z).
Inductive parse_val := VStr (s : list Z) | VBlob (b : list Z) | VWord (v : Z).

Section msrpc.
Context `{Charsets} `{Allocator}.

(** [pointers[i].length = n; pointers[i].length -= k]: fewer bytes than the terminator
    would wrap the length. *)
Definition chop (k : nat) (r : outcome (option (list Z))) : outcome (option (list Z)) :=
  let* o := r in
  match o with
  | None => Ret None
  | Some l => if decide (length l < k)%nat then Fault else Ret (Some (take (length l - k) l))
  end.

(** The first scan: [pointers[i]], or [None] when a conversion fails. *)
Definition scan_arg (a : gen_arg) : outcome (option (list Z)) :=
  match a with
  | GU s | Ga _ s => chop 2 (push_ucs2_talloc s)
  | GA s => chop 1 (push_ascii_talloc s)
  | GB b | Gb b => Ret (Some b)
  | Gd _ => Ret (Some [])
  | GC s => Ret (Some (s ++ [0]))
  end.

Fixpoint scan (args : list gen_arg) : outcome (option (list (gen_arg * list Z))) :=
  match args with
  | [] => Ret (Some [])
  | a :: args =>
      let* p := scan_arg a in
      match p with
      | None => Ret None
      | Some p => let* r := scan args in Ret ((fun r => (a, p) :: r) <$> r)
      end
  end.

Definition head_inc (x : gen_arg * list Z) : nat :=
  match x with
  | ((GU _ | GA _ | GB _), _) => 8
  | (Ga _ _, _) => 0
  | ((Gb _ | GC _), p) => length p
  | (Gd _, _) => 4
  end.
Definition data_inc (x : gen_arg * list Z) : nat :=
  match x with
  | ((GU _ | GA _ | GB _), p) => length p
  | (Ga _ _, p) => length p + 4
  | _ => 0
  end.

(** The second scan: one directive written at [head_ofs] and [data_ofs]. *)
Definition emit (st : list Z * nat * nat) (x : gen_arg * list Z) : list Z * nat * nat :=
  let '(blob, head_ofs, data_ofs) := st in
  let '(a, p) := x in
  let n := Z.of_nat (length p) in
  match a with
  | GU _ | GA _ | GB _ =>
      let blob := SSVAL blob head_ofs n in
      let blob := SSVAL blob (head_ofs + 2) n in
      let blob := SIVAL blob (head_ofs + 4) (Z.of_nat data_ofs) in
      (splice data_ofs p blob, head_ofs + 8, data_ofs + length p)%nat
  | Ga t _ =>
      let blob := SSVAL blob data_ofs t in
      let blob := SSVAL blob (data_ofs + 2) n in
      (splice (data_ofs + 4) p blob, head_ofs, data_ofs + 4 + length p)%nat
  | Gd v => (SIVAL blob head_ofs v, head_ofs + 4, data_ofs)%nat
  | Gb _ | GC _ => (splice head_ofs p blob, head_ofs + length p, data_ofs)%nat
  end.

Definition uses_pointers (a : gen_arg) : bool := match a with Gd _ => false | _ => true end.
Definition uses_intargs (a : gen_arg) : bool := match a with Gd _ | Ga _ _ => true | _ => false end.

(** [Ret None] is False.  The arrays and the blob are used without a null check. *)
Definition msrpc_gen (args : list gen_arg) : outcome (option (list Z)) :=
  if (negb (malloc_ok 0) && existsb uses_pointers args) || (negb (malloc_ok 1) && existsb uses_intargs args) then Fault
  else
    let* s := scan args in
    match s with
    | None => Ret None
    | Some xs =>
        let head_size := list_sum (map head_inc xs) in
        let data_size := list_sum (map data_inc xs) in
        if negb (malloc_ok 2) && (0 <? head_size + data_size)%nat then Fault
        else
          let '(blob, _, _) := fold_left emit xs (fresh (head_size + data_size), 0%nat, head_size) in
          Ret (Some blob)
    end.

(** ** The parser *)

Definition PSTRING_LEN : nat := 1024.

(** The 8-byte header U, A and B share: length twice, and the offset; [None] for
    False, [Some None] for an empty item. *)
Definition read_header (blob : list Z) (head_ofs : nat) : option (option (nat * nat)) :=
  if decide (length blob < head_ofs + 8)%nat then None
  else
    let len1 := SVAL blob head_ofs in
    let len2 := SVAL blob (head_ofs + 2) in
    let ptr := IVAL blob (head_ofs + 4) in
    if (len1 =? 0) && (len2 =? 0) then Some None
    else if negb (len1 =? len2) || (add32 ptr len1 <? ptr) || (add32 ptr len1 <? len1) ||
            (Z.of_nat (length blob) <? add32 ptr len1) then None
    else Some (Some (Z.to_nat len1, Z.to_nat ptr)).

(** pull_string into [p], then talloc_strdup. *)
Definition pull_item (p src : list Z) (flags : Z) : outcome (option (list Z * list Z)) :=
  let* r := pull_string false p src flags in
  let p := r.2 in
  Ret (if malloc_ok 0 then Some (until_nul p, p) else None).

(** One directive: the value, the new head offset and the scratch buffer [p]. *)
Definition parse_one (blob : list Z) (head_ofs : nat) (p : list Z) (a : parse_arg) :
    outcome (option (option parse_val * nat * list Z)) :=
  match a with
  | PU =>
      match read_header blob head_ofs with
      | None => Ret None
      | Some None => Ret (Some (Some (VStr []), head_ofs + 8, p)%nat)
      | Some (Some (len1, ptr)) =>
          if Nat.odd len1 then Ret None
          else
            let* r := pull_item p (slice ptr len1 blob) (Z.lor STR_UNICODE STR_NOALIGN) in
            Ret ((fun r => (Some (VStr r.1), head_ofs + 8, r.2)%nat) <$> r)
      end
  | PA =>
      match read_header blob head_ofs with
      | None => Ret None
      | Some None => Ret (Some (Some (VStr []), head_ofs + 8, p)%nat)
      | Some (Some (len1, ptr)) =>
          let* r := pull_item p (slice ptr len1 blob) (Z.lor STR_ASCII STR_NOALIGN) in
          Ret ((fun r => (Some (VStr r.1), head_ofs + 8, r.2)%nat) <$> r)
      end
  | PB =>
      match read_header blob head_ofs with
      | None => Ret None
      | Some None => Ret (Some (Some (VBlob []), head_ofs + 8, p)%nat)
      | Some (Some (len1, ptr)) =>
          Ret (Some (Some (VBlob (if malloc_ok 0 then slice ptr len1 blob else [])), head_ofs + 8, p)%nat)
      end
  | Pb len =>
      let len1 := Z.to_nat (u16 len) in
      if decide (length blob < head_ofs + len1)%nat then Ret None
      else Ret (Some (Some (VBlob (if malloc_ok 0 then slice head_ofs len1 blob else [])), head_ofs + len1, p)%nat)
  | Pd =>
      if decide (length blob < head_ofs + 4)%nat then Ret None
      else Ret (Some (Some (VWord (IVAL blob head_ofs)), head_ofs + 4, p)%nat)
  | PC s =>
      let* r := pull_string false p (drop head_ofs blob) (Z.lor STR_ASCII STR_TERMINATE) in
      let p := r.2 in
      if decide (s = until_nul p) then Ret (Some (None, head_ofs + r.1, p)%nat) else Ret None
  end.

Fixpoint parse_args (blob : list Z) (head_ofs : nat) (p : list Z) (fmt : list parse_arg) :
    outcome (option (list parse_val)) :=
  match fmt with
  | [] => Ret (Some [])
  | a :: fmt =>
      let* r := parse_one blob head_ofs p a in
      match r with
      | None => Ret None
      | Some (v, head_ofs, p) =>
          let* vs := parse_args blob head_ofs p fmt in
          Ret ((fun vs => option_list v ++ vs) <$> vs)
      end
  end.

(** [Ret None] is False; [p] is an uninitialised pstring. *)
Definition msrpc_parse (blob : list Z) (fmt : list parse_arg) : outcome (option (list parse_val)) :=
  parse_args blob 0 (fresh PSTRING_LEN) fmt.
End msrpc.
End Msrpc.

Import Msrpc.

(** ** The layout of a message *)

Definition item_header (n dofs : nat) : list Z := le 2 (Z.of_nat n) ++ le 2 (Z.of_nat n) ++ le 4 (Z.of_nat dofs).

Definition head_of (x : gen_arg * list Z) (dofs : nat) : list Z :=
  match x with
  | ((GU _ | GA _ | GB _), p) => item_header (length p) dofs
  | (Ga _ _, _) => []
  | ((Gb _ | GC _), p) => p
  | (Gd v, _) => le 4 v
  end.
Definition data_of (x : gen_arg * list Z) : list Z :=
  match x with
  | ((GU _ | GA _ | GB _), p) => p
  | (Ga t _, p) => le 2 t ++ le 2 (Z.of_nat (length p)) ++ p
  | _ => []
  end.

Fixpoint heads (xs : list (gen_arg * list Z)) (dofs : nat) : list Z :=
  match xs with
  | [] => []
  | x :: xs => head_of x dofs ++ heads xs (dofs + length (data_of x))
  end.
Definition datas (xs : list (gen_arg * list Z)) : list Z := mjoin (data_of <$> xs).
Definition message (xs : list (gen_arg * list Z)) : list Z := heads xs (list_sum (map head_inc xs)) ++ datas xs.

Lemma length_item_header n dofs : length (item_header n dofs) = 8%nat.
Proof. unfold item_header. by rewrite !length_app, !length_le. Qed.

Lemma length_head_of x dofs : length (head_of x dofs) = head_inc x.
Proof. destruct x as [[] p]; cbn [head_of head_inc]; rewrite ?length_item_header, ?length_le; done. Qed.

Lemma length_data_of x : length (data_of x) = data_inc x.
Proof. destruct x as [[] p]; cbn [data_of data_inc]; rewrite ?length_app, ?length_le; simpl; lia. Qed.

Lemma length_heads xs : forall dofs, length (heads xs dofs) = list_sum (map head_inc xs).
Proof.
  induction xs as [|x xs IH]; intros dofs; [done|]. cbn [heads map]. rewrite length_app, length_head_of, IH. done.
Qed.

Lemma length_datas xs : length (datas xs) = list_sum (map data_inc xs).
Proof.
  unfold datas. induction xs as [|x xs IH]; [done|].
  change (mjoin (data_of <$> x :: xs)) with (data_of x ++ mjoin (data_of <$> xs)).
  rewrite length_app, length_data_of, IH. done.
Qed.

(** A store over the beginning of a gap. *)
Lemma splice_gap (h g t new : list Z) ofs :
  ofs = length h -> (length new <= length g)%nat ->
  splice ofs new (h ++ g ++ t) = (h ++ new) ++ drop (length new) g ++ t.
Proof. intros -> Hl. rewrite splice_app by done. rewrite drop_app_le by done. by rewrite <- app_assoc. Qed.

Lemma store_header blob ofs n dofs :
  (ofs + 8 <= length blob)%nat ->
  SIVAL (SSVAL (SSVAL blob ofs (Z.of_nat n)) (ofs + 2) (Z.of_nat n)) (ofs + 4) (Z.of_nat dofs) =
  splice ofs (item_header n dofs) blob.
Proof.
  intros Hl. rewrite (SSVAL_splice blob) by lia.
  rewrite SSVAL_splice by (rewrite length_splice; rewrite ?length_le; lia).
  rewrite (splice_splice blob) by (rewrite ?length_le; lia).
  rewrite SIVAL_splice by (rewrite length_splice; rewrite ?length_app, ?length_le; lia).
  rewrite (splice_splice blob) by (rewrite ?length_app, ?length_le; lia). unfold item_header. by rewrite <- app_assoc.
Qed.

Lemma store_typed blob ofs t n :
  (ofs + 4 <= length blob)%nat ->
  SSVAL (SSVAL blob ofs t) (ofs + 2) n = splice ofs (le 2 t ++ le 2 n) blob.
Proof.
  intros Hl. rewrite (SSVAL_splice blob) by lia.
  rewrite SSVAL_splice by (rewrite length_splice; rewrite ?length_le; lia).
  by rewrite (splice_splice blob) by (rewrite ?length_le; lia).
Qed.

(** One directive against the layout: the head part fills the gap [g] from the left,
    the data part is appended after [d]. *)
Lemma emit_layout h g d r x :
  (head_inc x <= length g)%nat -> (data_inc x <= length r)%nat ->
  let dofs := (length h + length g + length d)%nat in
  emit (h ++ g ++ d ++ r, length h, dofs) x =
  ((h ++ head_of x dofs) ++ drop (head_inc x) g ++ (d ++ data_of x) ++ drop (data_inc x) r,
   length (h ++ head_of x dofs), (dofs + data_inc x)%nat).
Proof.
  intros Hg Hr dofs.
  assert (forall h' p, (length h' + length d = dofs)%nat -> (length p <= length r)%nat ->
    splice dofs p (h' ++ d ++ r) = h' ++ (d ++ p) ++ drop (length p) r) as Hdata.
  { intros h' p Hh Hp. rewrite app_assoc, splice_app by (rewrite length_app; lia). by rewrite <- !app_assoc. }
  destruct x as [[] p]; cbn [emit head_of data_of head_inc data_inc] in *.
  1,2,4: rewrite store_header by (rewrite !length_app; lia);
    rewrite splice_gap by (rewrite ?length_item_header; lia); rewrite length_item_header;
    rewrite (app_assoc (h ++ _)), Hdata by (rewrite ?length_app, ?length_item_header, ?length_drop; lia);
    rewrite <- (app_assoc (h ++ _)), length_app, length_item_header; done.
  - rewrite store_typed by (rewrite !length_app; lia). rewrite app_nil_r, drop_0.
    rewrite (app_assoc h), Hdata by (rewrite ?length_app, ?length_le; lia).
    rewrite length_app, !length_le. cbn [Nat.add].
    replace ((h ++ g) ++ (d ++ le 2 n ++ le 2 (Z.of_nat (length p))) ++ drop 4 r)
      with (((h ++ g) ++ (d ++ le 2 n ++ le 2 (Z.of_nat (length p)))) ++ drop 4 r) by by rewrite <- !app_assoc.
    rewrite splice_app by (rewrite !length_app, !length_le; lia). rewrite drop_drop, <- !app_assoc.
    f_equal; [f_equal|lia]. do 6 f_equal. f_equal. lia.
  - rewrite app_nil_r, drop_0, Nat.add_0_r. rewrite splice_gap by (done || lia). by rewrite length_app.
  - rewrite app_nil_r, drop_0, Nat.add_0_r. rewrite SIVAL_splice by (rewrite !length_app; lia).
    rewrite splice_gap by (rewrite ?length_le; lia). by rewrite length_app, !length_le.
  - rewrite app_nil_r, drop_0, Nat.add_0_r. rewrite splice_gap by (done || lia). by rewrite length_app.
Qed.

Lemma emit_all xs : forall h g d r,
  length g = list_sum (map head_inc xs) -> length r = list_sum (map data_inc xs) ->
  let dofs := (length h + length g + length d)%nat in
  (fold_left emit xs (h ++ g ++ d ++ r, length h, dofs)).1.1 = h ++ heads xs dofs ++ d ++ datas xs.
Proof.
  induction xs as [|x xs IH]; intros h g d r Hg Hr dofs.
  - cbn [map list_sum foldr] in *. destruct g; [|done]. destruct r; [|done]. done.
  - cbn [map] in *. change (list_sum (?a :: ?l)) with (a + list_sum l)%nat in *. cbn [fold_left].
    unfold dofs. rewrite emit_layout by lia. fold dofs.
    replace (dofs + data_inc x)%nat with
      (length (h ++ head_of x dofs) + length (drop (head_inc x) g) + length (d ++ data_of x))%nat.
    2: { rewrite !length_app, length_drop, length_head_of, length_data_of. unfold dofs. lia. }
    rewrite IH by (rewrite length_drop; lia). cbn [heads].
    change (datas (x :: xs)) with (data_of x ++ datas xs). rewrite <- !app_assoc. do 4 f_equal.
    rewrite !length_app, length_drop, length_head_of, length_data_of. unfold dofs. lia.
Qed.

(** The generator's contract: the output is exactly the headers followed by the data,
    every byte of it written. *)
Lemma msrpc_gen_message `{Charsets} `{Allocator} args xs :
  malloc_ok 0 = true -> malloc_ok 1 = true -> malloc_ok 2 = true ->
  scan args = Ret (Some xs) -> msrpc_gen args = Ret (Some (message xs)).
Proof.
  intros Hm0 Hm1 Hm2 Hs. unfold msrpc_gen. rewrite Hm0, Hm1, Hm2, Hs. cbn [negb andb orb obind].
  pose proof (emit_all xs [] (fresh (list_sum (map head_inc xs))) [] (fresh (list_sum (map data_inc xs)))
    ltac:(apply length_replicate) ltac:(apply length_replicate)) as E.
  cbv zeta in E. cbn [app length Nat.add] in E. unfold fresh in *. rewrite <- replicate_add in E.
  rewrite length_replicate, Nat.add_0_r in E. unfold message. rewrite <- E.
  by destruct (fold_left emit xs _) as [[? ?] ?].
Qed.

(** ** Parsing a message *)

(** ASCII is the dos charset. *)
Definition dos_is_ascii `{Charsets} : Prop := dos_charset = "ASCII"%string.

Lemma handle_dos_unix `{Charsets} :
  unix_is_utf8 -> dos_is_ascii -> get_conv_handle CH_DOS CH_UNIX = Some (Buffered ascii_pull utf8_push).
Proof. unfold dos_is_ascii, get_conv_handle, open_handle, charset_name. by intros [-> | ->] ->. Qed.

Lemma handle_unix_dos `{Charsets} :
  unix_is_utf8 -> dos_is_ascii -> get_conv_handle CH_UNIX CH_DOS = Some (Buffered utf8_pull ascii_push).
Proof. unfold dos_is_ascii, get_conv_handle, open_handle, charset_name. by intros [-> | ->] ->. Qed.

(** ASCII text of at most 1024 bytes is one chunk in either direction. *)
Lemma one_chunk pull push l room :
  pull l 2048%nat = ConvResult (inl 0) [] (utf16s l) -> push (utf16s l) room = ConvResult (inl 0) [] l ->
  smb_iconv (Buffered pull push) l room = ConvResult (inl 0) [] l.
Proof.
  intros E1 E2. cbn [smb_iconv]. destruct l as [|c l]; [done|]. cbn [length chunk_loop].
  rewrite decide_True by (cbn [length]; lia). rewrite E1. cbn [cr_ret cr_out cr_in]. rewrite E2. cbn [cr_ret cr_out].
  destruct (length l); cbn [chunk_loop]; [by rewrite app_nil_r|].
  rewrite decide_False by (simpl; lia). cbn. by rewrite app_nil_r.
Qed.

Lemma ascii_from_dos l room :
  Forall ascii_char l -> (length l <= 1024)%nat -> (length l <= room)%nat ->
  smb_iconv (Buffered ascii_pull utf8_push) l room = ConvResult (inl 0) [] l.
Proof.
  intros Hl Hn Hr. apply one_chunk.
  - apply ascii_pull_string; [done|lia].
  - rewrite utf8_push_string; [by rewrite utf8s_ascii|by apply ascii_scalars|by rewrite utf8s_ascii].
Qed.

Lemma ascii_to_dos l room :
  Forall ascii_char l -> (length l <= 1024)%nat -> (length l <= room)%nat ->
  smb_iconv (Buffered utf8_pull ascii_push) l room = ConvResult (inl 0) [] l.
Proof.
  intros Hl Hn Hr. apply one_chunk.
  - rewrite <- (utf8s_ascii l Hl) at 1. apply utf8_pull_string; [by apply ascii_scalars|].
    rewrite length_utf16s_ascii by done. lia.
  - by apply ascii_push_string.
Qed.

Lemma until_nul_stop s tl : Forall (fun b => b <> 0) s -> until_nul (s ++ 0 :: tl) = s.
Proof.
  intros Hs. unfold until_nul. assert (list_find (fun b => b = 0) (s ++ 0 :: tl) = Some (length s, 0)) as ->.
  { apply list_find_Some. split_and!; [by rewrite lookup_app_r, Nat.sub_diag by lia|done|].
    intros j y Hj Hlt. rewrite lookup_app_l in Hj by done. by apply (Forall_lookup_1 _ _ _ _ Hs Hj). }
  cbn. by rewrite take_app_length.
Qed.

(** The buffer after a successful conversion that left room for the terminator. *)
Lemma terminate_string buf s :
  (length s < length buf)%nat -> Forall (fun b => b <> 0) s ->
  until_nul (terminate buf (Z.of_nat (length s), s)) = s /\ length (terminate buf (Z.of_nat (length s), s)) = length buf.
Proof.
  intros Hl Hs. unfold terminate. cbn [fst snd]. rewrite decide_False by lia.
  rewrite decide_False by lia. rewrite Nat2Z.id, Nat.min_l by lia. rewrite length_insert, length_splice by lia. split; [|done].
  unfold splice. rewrite take_0, app_nil_l, Nat.add_0_l, insert_app_r_alt, Nat.sub_diag by lia.
  destruct (drop (length s) buf) as [|b t] eqn:E; [apply (f_equal length) in E; rewrite length_drop in E; simpl in E; lia|].
  by apply until_nul_stop.
Qed.

Lemma utf8s_nonzero cps : Forall scalar cps -> Forall (fun cp => cp <> 0) cps -> Forall (fun b => b <> 0) (utf8s cps).
Proof.
  unfold utf8s. induction cps as [|cp cps IH]; intros Hs Hz; [constructor|].
  apply Forall_cons_iff in Hs as [Hcp Hs], Hz as [Hc Hz].
  change (mjoin (utf8 <$> cp :: cps)) with (utf8 cp ++ mjoin (utf8 <$> cps)). apply Forall_app. split; [|by apply IH].
  unfold scalar in Hcp. unfold utf8. repeat case_match; repeat apply List.Forall_cons; try apply List.Forall_nil; zify; dlia.
Qed.

Lemma pull_unicode `{Charsets} `{Allocator} buf cps :
  unix_is_utf8 -> malloc_ok 0 = true -> length buf = PSTRING_LEN -> Forall scalar cps -> Forall (fun cp => cp <> 0) cps ->
  (length (utf8s cps) < PSTRING_LEN)%nat ->
  exists buf', pull_item buf (utf16s cps) (Z.lor STR_UNICODE STR_NOALIGN) = Ret (Some (utf8s cps, buf')) /\
    length buf' = PSTRING_LEN.
Proof.
  intros Hu Hm Hb Hs Hz Hl. unfold pull_item, pull_string. change (flag _ STR_ASCII) with false.
  change (flag _ STR_UNICODE) with true. cbn [obind snd]. rewrite Hm. unfold pull_ucs2. cbn [andb].
  change (flag _ STR_TERMINATE) with false. cbv zeta. cbn [fst snd].
  destruct (utf16_units cps Hs Hz) as (us & Eus & _). pose proof (length_units us) as Hlu. rewrite <- Eus in Hlu.
  rewrite take_ge by (rewrite Hlu, (Nat.mul_comm 2), Nat.div_mul; lia).
  unfold convert_string. rewrite handle_from_utf16 by done. cbn [smb_iconv].
  rewrite utf8_push_string by (done || lia). cbn [cr_ret cr_out].
  destruct (terminate_string buf (utf8s cps)) as [E1 E2]; [lia|by apply utf8s_nonzero|].
  eexists. split; [by rewrite E1|]. by rewrite E2.
Qed.

Lemma pull_dos_item `{Charsets} `{Allocator} buf s :
  unix_is_utf8 -> dos_is_ascii -> malloc_ok 0 = true -> length buf = PSTRING_LEN ->
  Forall ascii_char s -> Forall (fun b => b <> 0) s -> (length s < PSTRING_LEN)%nat ->
  exists buf', pull_item buf s (Z.lor STR_ASCII STR_NOALIGN) = Ret (Some (s, buf')) /\ length buf' = PSTRING_LEN.
Proof.
  intros Hu Hd Hm Hb Ha Hz Hl. unfold pull_item, pull_string. change (flag _ STR_ASCII) with true.
  cbn [obind snd]. rewrite Hm. unfold pull_ascii. change (flag _ (Z.lor STR_TERMINATE STR_TERMINATE_ASCII)) with false.
  cbv zeta. cbn [fst snd]. rewrite take_ge by lia. unfold convert_string. rewrite handle_dos_unix by done.
  unfold PSTRING_LEN in *. rewrite ascii_from_dos by (done || lia). cbn [cr_ret cr_out].
  destruct (terminate_string buf s) as [E1 E2]; [lia|done|].
  eexists. split; [by rewrite E1|]. by rewrite E2.
Qed.

Lemma pull_constant `{Charsets} `{Allocator} buf s rest :
  unix_is_utf8 -> dos_is_ascii -> length buf = PSTRING_LEN ->
  Forall ascii_char s -> Forall (fun b => b <> 0) s -> (length s + 1 < PSTRING_LEN)%nat ->
  exists buf', pull_string false buf ((s ++ [0]) ++ rest) (Z.lor STR_ASCII STR_TERMINATE) = Ret ((length s + 1)%nat, buf') /\
    until_nul buf' = s /\ length buf' = PSTRING_LEN.
Proof.
  intros Hu Hd Hb Ha Hz Hl. unfold pull_string. change (flag _ STR_ASCII) with true. unfold pull_ascii.
  change (flag _ (Z.lor STR_TERMINATE STR_TERMINATE_ASCII)) with true. cbv zeta.
  assert (strnlen ((s ++ [0]) ++ rest) (length ((s ++ [0]) ++ rest)) = length s) as ->.
  { unfold strnlen. rewrite take_ge by lia. rewrite <- app_assoc. cbn [app].
    assert (list_find (fun b => b = 0) (s ++ 0 :: rest) = Some (length s, 0)) as ->; [|done].
    apply list_find_Some. split_and!; [by rewrite lookup_app_r, Nat.sub_diag by lia|done|].
    intros j y Hj Hlt. rewrite lookup_app_l in Hj by done. by apply (Forall_lookup_1 _ _ _ _ Hz Hj). }
  rewrite (proj2 (Nat.ltb_lt _ _)) by (rewrite !length_app; simpl; lia).
  rewrite take_app_length' by (rewrite length_app; simpl; lia).
  unfold convert_string. rewrite handle_dos_unix by done. unfold PSTRING_LEN in *.
  assert (Forall ascii_char (s ++ [0])) as Ha0 by (apply Forall_app; split; [done|apply Forall_singleton; done]).
  rewrite ascii_from_dos by (done || (rewrite length_app; simpl; lia)). cbn [cr_ret cr_out].
  eexists. split; [f_equal; f_equal; lia|]. unfold terminate. cbn [fst snd].
  rewrite decide_False by lia. rewrite decide_False by lia.
  rewrite length_insert, length_splice by (rewrite length_app; simpl; lia). split; [|lia].
  unfold splice. rewrite take_0, app_nil_l, <- app_assoc. rewrite insert_app_r_alt by (rewrite length_app; simpl; lia).
  cbn [app]. rewrite length_app. cbn [length]. rewrite Nat2Z.id.
  replace (Nat.min (length s + 1) (length buf - 1) - length s)%nat with 1%nat by lia.
  by apply until_nul_stop.
Qed.

(** *** Directives that can be read back *)

Definition text_ok (s : list Z) (max : nat) : Prop :=
  Forall ascii_char s /\ Forall (fun b => b <> 0) s /\ (length s < max)%nat.

Definition arg_ok (a : gen_arg) : Prop :=
  match a with
  | GU s => exists cps, s = utf8s cps /\ Forall scalar cps /\ Forall (fun cp => cp <> 0) cps /\ (length s < PSTRING_LEN)%nat
  | GA s => text_ok s PSTRING_LEN
  | Ga _ _ => False
  | GB b | Gb b => Z.of_nat (length b) < 65536
  | Gd _ => True
  | GC s => text_ok s (PSTRING_LEN - 1)
  end.

Definition fmt_of (a : gen_arg) : parse_arg :=
  match a with
  | GU _ => PU
  | GA _ => PA
  | GB _ | Ga _ _ => PB
  | Gb b => Pb (Z.of_nat (length b))
  | Gd _ => Pd
  | GC s => PC s
  end.

Definition val_of (a : gen_arg) : option parse_val :=
  match a with
  | GU s | GA s => Some (VStr s)
  | GB b | Gb b => Some (VBlob b)
  | Gd v => Some (VWord (u32 v))
  | GC _ | Ga _ _ => None
  end.

(** The bytes of an item in the message. *)
Definition payload (a : gen_arg) (p : list Z) : Prop :=
  match a with
  | GU s => exists cps, s = utf8s cps /\ p = utf16s cps /\ Forall scalar cps /\ Forall (fun cp => cp <> 0) cps
  | GA s | GB s | Gb s => p = s
  | GC s => p = s ++ [0]
  | _ => True
  end.

Section roundtrip.
Context `{Charsets} `{Allocator} (unix8 : unix_is_utf8) (dos7 : dos_is_ascii) (mem : malloc_ok 0 = true).

Lemma scan_arg_ok a : arg_ok a -> exists p, scan_arg a = Ret (Some p) /\ payload a p.
Proof.
  destruct a as [s|s|n s|b|b|v|s]; cbn [arg_ok scan_arg payload].
  - intros (cps & -> & Hs & Hz & _). rewrite push_ucs2_talloc_utf8 by done. cbn [chop obind].
    rewrite decide_False by (rewrite length_app; simpl; lia). eexists. split; [done|].
    exists cps. split_and!; [done| |done|done]. rewrite length_app. cbn [length].
    by rewrite Nat.add_sub, take_app_length.
  - intros (Ha & Hz & Hl). unfold push_ascii_talloc, convert_string_talloc.
    rewrite decide_False by (rewrite length_app; simpl; lia). rewrite handle_unix_dos by done.
    assert (Forall ascii_char (s ++ [0])) as Ha0 by (apply Forall_app; split; [done|by apply Forall_singleton]).
    assert (length (s ++ [0%Z]) <= 1024)%nat as Hl0 by (rewrite length_app; unfold PSTRING_LEN in Hl; simpl; lia).
    pose proof (ascii_to_dos (s ++ [0]) (3 * length (s ++ [0%Z])) Ha0 Hl0 ltac:(lia)) as E.
    rewrite convert_once; [|done|by rewrite E]. rewrite E. cbn [cr_ret cr_out chop obind].
    rewrite decide_False by (rewrite length_app; simpl; lia). eexists. split; [done|].
    rewrite length_app. cbn [length]. by rewrite Nat.add_sub, take_app_length.
  - done.
  - intros _. by eexists.
  - intros _. by eexists.
  - intros _. by eexists.
  - intros _. by eexists.
Qed.

Lemma scan_ok args : Forall arg_ok args -> exists xs, scan args = Ret (Some xs) /\
  map fst xs = args /\ Forall (fun x => arg_ok x.1 /\ payload x.1 x.2) xs.
Proof.
  induction 1 as [|a args Ha Hargs IH]; [by exists []|]. destruct (scan_arg_ok a Ha) as (p & E & Hp).
  destruct IH as (xs & Exs & Hm & Hf). exists ((a, p) :: xs). cbn [scan]. rewrite E. cbn [obind]. rewrite Exs.
  split_and!; [done|cbn; by rewrite Hm|by constructor].
Qed.

Lemma read_header_at h n dofs rest :
  let blob := h ++ item_header n dofs ++ rest in
  Z.of_nat n < 65536 -> (dofs + n <= length blob)%nat -> Z.of_nat (length blob) < 2 ^ 31 ->
  read_header blob (length h) = Some (if decide (n = 0)%nat then None else Some (n, dofs)).
Proof.
  intros blob Hn Hd Hb. unfold read_header.
  rewrite decide_False by (unfold blob; rewrite !length_app, length_item_header; lia).
  assert (SVAL blob (length h) = Z.of_nat n) as ->.
  { unfold blob, item_header. rewrite <- !app_assoc, SVAL_at. apply u16_id. unfold is_u. lia. }
  assert (SVAL blob (length h + 2) = Z.of_nat n) as ->.
  { unfold blob, item_header. replace (h ++ _) with ((h ++ le 2 (Z.of_nat n)) ++ le 2 (Z.of_nat n) ++ le 4 (Z.of_nat dofs) ++ rest)
      by by rewrite <- !app_assoc.
    replace (length h + 2)%nat with (length (h ++ le 2 (Z.of_nat n))) by (rewrite length_app, length_le; lia).
    rewrite SVAL_at. apply u16_id. unfold is_u. lia. }
  assert (IVAL blob (length h + 4) = Z.of_nat dofs) as ->.
  { unfold blob, item_header. replace (h ++ _) with ((h ++ le 2 (Z.of_nat n) ++ le 2 (Z.of_nat n)) ++ le 4 (Z.of_nat dofs) ++ rest)
      by by rewrite <- !app_assoc.
    replace (length h + 4)%nat with (length (h ++ le 2 (Z.of_nat n) ++ le 2 (Z.of_nat n))) by (rewrite !length_app, !length_le; lia).
    rewrite IVAL_at. apply u32_id. unfold is_u. lia. }
  case_decide as Hz; [by subst n|].
  rewrite (proj2 (Z.eqb_neq (Z.of_nat n) 0)), Z.eqb_refl by lia. cbn [andb negb orb].
  assert (add32 (Z.of_nat dofs) (Z.of_nat n) = Z.of_nat (dofs + n)) as ->.
  { unfold add32. rewrite u32_id by (unfold is_u; lia). lia. }
  rewrite !(proj2 (Z.ltb_ge _ _)) by lia. cbn [orb]. by rewrite !Nat2Z.id.
Qed.

Lemma length_utf16s_even cps : Nat.odd (length (utf16s cps)) = false.
Proof.
  unfold utf16s. induction cps as [|cp cps IH]; [done|].
  change (mjoin (utf16le <$> cp :: cps)) with (utf16le cp ++ mjoin (utf16le <$> cps)).
  rewrite length_app, Nat.odd_add, IH, length_utf16le. by case_match.
Qed.

(** One directive of a message, read where it was written. *)
Lemma parse_one_at h rest dofs buf x :
  let blob := h ++ head_of x dofs ++ rest in
  arg_ok x.1 -> payload x.1 x.2 -> (dofs + length (data_of x) <= length blob)%nat ->
  slice dofs (length (data_of x)) blob = data_of x -> Z.of_nat (length blob) < 2 ^ 31 -> length buf = PSTRING_LEN ->
  exists buf', parse_one blob (length h) buf (fmt_of x.1) = Ret (Some (val_of x.1, length h + head_inc x, buf')%nat) /\
    length buf' = PSTRING_LEN.
Proof.
  intros blob Hok Hp Hd Hsl Hb Hbuf. destruct x as [a p]. cbn [fst snd] in *.
  destruct a as [s|s|n s|b|b|v|s]; cbn [arg_ok payload data_of head_of head_inc fmt_of val_of parse_one] in *.
  - destruct Hp as (cps & -> & -> & Hs & Hz). destruct Hok as (_ & _ & _ & _ & Hl).
    pose proof (utf16s_room cps) as Hr.
    unfold blob. rewrite read_header_at by (unfold PSTRING_LEN in *; first [done|lia]). fold blob. case_decide as Hn.
    + exists buf. split; [|done]. destruct cps as [|cp cps]; [done|]. rewrite utf16s_cons, length_app in Hn.
      pose proof (length_utf16le_bounds cp). lia.
    + rewrite length_utf16s_even, Hsl. destruct (pull_unicode buf cps) as (buf' & -> & Hl'); [done..|].
      by exists buf'.
  - subst p. destruct Hok as (Ha & Hz & Hl).
    unfold blob. rewrite read_header_at by (unfold PSTRING_LEN in *; first [done|lia]). fold blob. case_decide as Hn.
    + exists buf. split; [|done]. by destruct s.
    + rewrite Hsl. destruct (pull_dos_item buf s) as (buf' & -> & Hl'); [done..|]. by exists buf'.
  - done.
  - subst p. unfold blob. rewrite read_header_at by (first [done|lia]). fold blob. case_decide as Hn.
    + exists buf. split; [|done]. by destruct b.
    + rewrite Hsl, mem. by exists buf.
  - subst p. rewrite u16_id by (unfold is_u; lia). rewrite Nat2Z.id.
    rewrite decide_False by (unfold blob; rewrite !length_app; lia). rewrite mem.
    exists buf. split; [|done]. unfold blob. by rewrite slice_at.
  - rewrite decide_False by (unfold blob; rewrite !length_app, length_le; lia).
    exists buf. split; [|done]. unfold blob. by rewrite IVAL_at.
  - subst p. destruct Hok as (Ha & Hz & Hl). unfold blob. rewrite drop_app_length.
    destruct (pull_constant buf s rest) as (buf' & E & Eu & Hl'); [done..|unfold PSTRING_LEN in *; lia|].
    rewrite E. cbn [obind snd fst]. rewrite Eu, decide_True by done. exists buf'. split; [|done].
    rewrite length_app. done.
Qed.

(** What a directive of the parser makes of a directive of the generator: its value; an
    item read as a blob is its bytes. *)
Inductive reads_as : gen_arg * list Z -> parse_arg -> option parse_val -> Prop :=
| reads_value a p : arg_ok a -> payload a p -> reads_as (a, p) (fmt_of a) (val_of a)
| reads_blob a p : match a with GU _ | GA _ => True | _ => False end ->
                   arg_ok a -> payload a p -> reads_as (a, p) PB (Some (VBlob p)).

Lemma item_length a p : match a with GU _ | GA _ => True | _ => False end -> arg_ok a -> payload a p -> Z.of_nat (length p) < 65536.
Proof.
  destruct a; try done; cbn [arg_ok payload]; intros _.
  - intros (? & _ & _ & _ & Hl) (cps & -> & -> & Hs & Hz). pose proof (utf16s_room cps). unfold PSTRING_LEN in *. lia.
  - intros (_ & _ & Hl) ->. unfold PSTRING_LEN in *. lia.
Qed.

Lemma parse_one_as h rest dofs buf x f v :
  let blob := h ++ head_of x dofs ++ rest in
  reads_as x f v -> (dofs + length (data_of x) <= length blob)%nat ->
  slice dofs (length (data_of x)) blob = data_of x -> Z.of_nat (length blob) < 2 ^ 31 -> length buf = PSTRING_LEN ->
  exists buf', parse_one blob (length h) buf f = Ret (Some (v, length h + head_inc x, buf')%nat) /\
    length buf' = PSTRING_LEN.
Proof.
  intros blob Hr Hd Hsl Hb Hbuf. destruct Hr as [a p Hok Hp|a p Hitem Hok Hp]; [by apply parse_one_at|].
  pose proof (item_length a p Hitem Hok Hp) as Hl. unfold blob in *.
  destruct a; try done; cbn [data_of head_of head_inc parse_one] in *; rewrite read_header_at by done;
    (case_decide as Hn; [by destruct p; [exists buf|]|]); rewrite Hsl, mem; by exists buf.
Qed.

(** The parser reads a prefix of a message. *)
Lemma parse_prefix xs2 xs : forall fvs h d0 dofs buf,
  let blob := h ++ heads (xs ++ xs2) dofs ++ d0 ++ datas (xs ++ xs2) in
  Forall2 (fun x fv => reads_as x fv.1 fv.2) xs fvs ->
  dofs = (length h + length (heads (xs ++ xs2) dofs) + length d0)%nat -> Z.of_nat (length blob) < 2 ^ 31 -> length buf = PSTRING_LEN ->
  parse_args blob (length h) buf (map fst fvs) = Ret (Some (omap snd fvs)).
Proof.
  induction xs as [|x xs IH]; intros fvs h d0 dofs buf blob Hok Hd Hb Hbuf.
  { apply Forall2_nil_inv_l in Hok. by subst fvs. }
  apply Forall2_cons_inv_l in Hok as ([f v] & fvs' & Hx & Hok & ->). cbn [map parse_args fst snd app] in *.
  change (datas (x :: xs ++ xs2)) with (data_of x ++ datas (xs ++ xs2)) in *. cbn [heads] in *.
  set (dofs' := (dofs + length (data_of x))%nat) in *. set (hs := heads (xs ++ xs2) dofs') in *. set (ds := datas (xs ++ xs2)) in *.
  assert (blob = h ++ head_of x dofs ++ (hs ++ d0 ++ data_of x ++ ds)) as Eb
    by (unfold blob; by rewrite <- !app_assoc).
  assert (blob = (h ++ head_of x dofs ++ hs ++ d0) ++ data_of x ++ ds) as Eb2
    by (unfold blob; by rewrite <- !app_assoc).
  assert (length (h ++ head_of x dofs ++ hs ++ d0) = dofs) as Hdl by (rewrite !length_app in *; lia).
  destruct (parse_one_as h (hs ++ d0 ++ data_of x ++ ds) dofs buf x f v) as (buf' & E & Hbuf');
    rewrite <- ?Eb; [done| | |done|done|].
  - pose proof (f_equal length Eb2) as L. rewrite length_app, Hdl, length_app in L. lia.
  - rewrite Eb2. by rewrite slice_at.
  - rewrite <- Eb in E. rewrite E. cbn [obind].
    replace (length h + head_inc x)%nat with (length (h ++ head_of x dofs)) by (rewrite length_app, length_head_of; lia).
    assert (blob = (h ++ head_of x dofs) ++ heads (xs ++ xs2) dofs' ++ (d0 ++ data_of x) ++ ds) as Eb3
      by (unfold blob; by rewrite <- !app_assoc).
    rewrite Eb3. rewrite (IH fvs' (h ++ head_of x dofs) (d0 ++ data_of x) dofs' buf'); [|done| |by rewrite <- Eb3|done].
    + cbn [obind fst omap list_omap snd]. by destruct v.
    + unfold dofs'. clear -Hd. rewrite !length_app in *. unfold hs, dofs' in Hd. lia.
Qed.

(** The same for a whole message, from its beginning. *)
Lemma parse_message xs xs2 fvs :
  Forall2 (fun x fv => reads_as x fv.1 fv.2) xs fvs -> Z.of_nat (length (message (xs ++ xs2))) < 2 ^ 31 ->
  msrpc_parse (message (xs ++ xs2)) (map fst fvs) = Ret (Some (omap snd fvs)).
Proof.
  intros Hok Hl. unfold msrpc_parse, message in *.
  apply (parse_prefix xs2 xs fvs [] []); [done| |done|apply length_replicate].
  rewrite length_heads. simpl. lia.
Qed.
End roundtrip.

(** *** A message of words only *)

Lemma scan_words `{Charsets} `{Allocator} (ws : list Z) : scan (map Gd ws) = Ret (Some (map (fun w => (Gd w, [])) ws)).
Proof. induction ws as [|w ws IH]; [done|]. cbn [map scan scan_arg obind]. by rewrite IH. Qed.
Lemma msrpc_words `{Charsets} `{Allocator} (ws : list Z) :
  malloc_ok 0 = true -> malloc_ok 1 = true -> malloc_ok 2 = true ->
  msrpc_gen (map Gd ws) = Ret (Some (mjoin (le 4 <$> ws))).
Proof.
  intros H0' H1' H2'. rewrite (msrpc_gen_message _ (map (fun w => (Gd w, [])) ws)); [|done..|apply scan_words].
  do 2 f_equal. unfold message. 
  assert (forall d, heads (map (fun w => (Gd w, [])) ws) d = mjoin (le 4 <$> ws)) as ->.
  { induction ws as [|w ws IH]; intros d; [done|]. cbn [map heads]. by rewrite IH. }
  assert (datas (map (fun w => (Gd w, [])) ws) = []) as ->.
  { clear. unfold datas. by induction ws. }
  apply app_nil_r.
Qed.

(** C30: a message generated from directives that the parser has (all but a), with
    items below 64K and strings that fit a pstring, is parsed by the matching format
    to exactly the values it was generated from; and every byte of it is determined by
    the arguments. *)
Theorem msrpc_roundtrip `{Charsets} `{Allocator} (args : list gen_arg) :
  unix_is_utf8 -> dos_is_ascii -> malloc_ok 0 = true -> malloc_ok 1 = true -> malloc_ok 2 = true ->
  Forall arg_ok args ->
  exists xs, scan args = Ret (Some xs) /\ map fst xs = args /\ msrpc_gen args = Ret (Some (message xs)) /\
    (Z.of_nat (length (message xs)) < 2 ^ 31 ->
     msrpc_parse (message xs) (map fmt_of args) = Ret (Some (omap val_of args))).
Proof.
  intros Hu Hd H0' H1' H2' Hok. destruct (scan_ok Hu Hd H0' args Hok) as (xs & Exs & Hm & Hf).
  exists xs. split_and!; [done|done|by apply msrpc_gen_message|]. intros Hl.
  pose proof (parse_message Hu Hd H0' xs [] (map (fun x => (fmt_of x.1, val_of x.1)) xs)) as P.
  rewrite app_nil_r, map_map in P. cbn [fst] in P. rewrite <- Hm, map_map, P; [|clear -Hf; by induction Hf as [|[a p] xs [Ha Hp]]; constructor; [constructor|]|done].
  clear. do 2 f_equal. induction xs as [|x xs IH]; [done|]. cbn [map omap list_omap snd]. by rewrite IH.
Qed.

Lemma msrpc_roundtrip_witness :
  exists xs,
    let args := [GC [78; 84]; Gd 3; GU (utf8s [97; 0xE9]); Gb [1; 2]] in
    @msrpc_gen utf8_charsets calloc args = Ret (Some (message xs)) /\
    (Z.of_nat (length (message xs)) < 2 ^ 31 ->
     @msrpc_parse utf8_charsets calloc (message xs) [PC [78; 84]; Pd; PU; Pb 2] =
     Ret (Some [VWord 3; VStr (utf8s [97; 0xE9]); VBlob [1; 2]])).
Proof.
  destruct (@msrpc_roundtrip utf8_charsets calloc [GC [78; 84]; Gd 3; GU (utf8s [97; 0xE9]); Gb [1; 2]])
    as (xs & _ & _ & H1 & H2); [by left | done..| |by exists xs].
  repeat constructor; try by_eval; [unfold ascii_char; lia ..|].
  exists [97; 0xE9]. split_and!; [done | repeat constructor; unfold scalar; lia | by_eval | by_eval].
Defined.

(** On arbitrary input, every item the parser accepts lies inside the message:
    the 16-bit length and 32-bit offset of a header are refused when their sum wraps
    or exceeds the message. *)
Theorem read_header_in_bounds (blob : list Z) (head_ofs n ptr : nat) :
  bytes blob -> read_header blob head_ofs = Some (Some (n, ptr)) ->
  (head_ofs + 8 <= length blob)%nat /\ (ptr + n <= length blob)%nat /\ Z.of_nat n < 65536.
Proof.
  intros Hb. unfold read_header. case_decide as Hh; [done|]. case_match; [done|]. case_match eqn:E; [done|].
  intros [= <- <-]. apply orb_false_elim in E as [E E4]. apply orb_false_elim in E as [E E3].
  apply orb_false_elim in E as [E1 E2]. apply Z.ltb_ge in E2, E3, E4.
  assert (is_u16 (SVAL blob head_ofs)) as Hs.
  { rewrite SVAL_slice by lia. pose proof (of_le_is_u (slice head_ofs 2 blob) ltac:(by apply Forall_slice)) as Hr.
    rewrite length_slice in Hr by lia. exact Hr. }
  pose proof (IVAL_range blob (head_ofs + 4) Hb) as Hi. unfold is_u, add32, u32 in *. split_and!; [lia| |lia].
  assert ((IVAL blob (head_ofs + 4) + SVAL blob head_ofs) mod 2 ^ 32 = IVAL blob (head_ofs + 4) + SVAL blob head_ofs) as Ew; [|lia].
  destruct (decide (IVAL blob (head_ofs + 4) + SVAL blob head_ofs < 2 ^ 32)); [apply Z.mod_small; lia|].
  exfalso. clear E4. dlia.
Qed.

Lemma read_header_in_bounds_witness :
  let blob := [1; 0; 1; 0; 8; 0; 0; 0; 77] in
  read_header blob 0 = Some (Some (1%nat, 8%nat)) /\ (8 + 1 <= length blob)%nat.
Proof.
  intros blob. split; [by vm_compute|].
  apply (read_header_in_bounds blob 0 1 8); [by_eval | by vm_compute].
Defined.
