(* ===== verification/Ntlmssp.v ===== *)
(** auth/ntlmssp/ntlmssp.h and auth/ntlmssp/ntlmssp.c: the state of an NTLMSSP
    exchange, the negotiated flags and the dispatch of its messages. *)

From stdpp Require Import strings.
From S2P Require Import Prelude Digest Byteorder Ntstatus Arcfour Iconv Charcnv Msrpc.
Import Arcfour Charcnv Msrpc.

#[local] Open Scope outcome_scope.

Module Ntlmssp.

Inductive ntlmssp_role := NTLMSSP_SERVER | NTLMSSP_CLIENT.

#[export] Instance ntlmssp_role_eq_dec : EqDecision ntlmssp_role.
Proof. solve_decision. Defined.

(** enum ntlmssp_message_type *)
Definition NTLMSSP_INITIAL : Z := 0.
Definition NTLMSSP_NEGOTIATE : Z := 1.
Definition NTLMSSP_CHALLENGE : Z := 2.
Definition NTLMSSP_AUTH : Z := 3.
Definition NTLMSSP_DONE : Z := 5.

Definition NTLMSSP_NEGOTIATE_UNICODE : Z := 0x00000001.
Definition NTLMSSP_NEGOTIATE_OEM : Z := 0x00000002.
Definition NTLMSSP_REQUEST_TARGET : Z := 0x00000004.
Definition NTLMSSP_NEGOTIATE_SIGN : Z := 0x00000010.
Definition NTLMSSP_NEGOTIATE_SEAL : Z := 0x00000020.
Definition NTLMSSP_NEGOTIATE_LM_KEY : Z := 0x00000080.
Definition NTLMSSP_NEGOTIATE_ALWAYS_SIGN : Z := 0x00008000.
Definition NTLMSSP_NEGOTIATE_NTLM2 : Z := 0x00080000.
Definition NTLMSSP_UNKNOWN_02000000 : Z := 0x02000000.
Definition NTLMSSP_NEGOTIATE_128 : Z := 0x20000000.
Definition NTLMSSP_NEGOTIATE_KEY_EXCH : Z := 0x40000000.
Definition NTLMSSP_NEGOTIATE_56 : Z := 0x80000000.

Definition NTLMSSP_SIGN_VERSION : Z := 1.
Definition NTLMSSP_SIG_SIZE : nat := 16.

(** auth/gensec/gensec.h *)
Definition GENSEC_FEATURE_SESSION_KEY : Z := 0x01.
Definition GENSEC_FEATURE_SIGN : Z := 0x02.
Definition GENSEC_FEATURE_SEAL : Z := 0x04.
Definition GENSEC_FEATURE_DCE_STYLE : Z := 0x08.
Definition GENSEC_FEATURE_ASYNC_REPLIES : Z := 0x10.
Definition GENSEC_FEATURE_DATAGRAM_MODE : Z := 0x20.

(** The union [crypt]: zeroed at the start, then one of its two members.  A null
    [arcfour_state] pointer is [None]. *)
Record ntlm_crypt := NtlmCrypt { seq_num : Z; arcfour : option arcfour_state }.
Record ntlm2_crypt := Ntlm2Crypt {
  send_seq_num : Z;
  recv_seq_num : Z;
  send_sign_key : list Z;
  recv_sign_key : list Z;
  send_seal_arcfour_state : option arcfour_state;
  recv_seal_arcfour_state : option arcfour_state
}.
Inductive crypt_union := CryptZero | CryptNtlm (c : ntlm_crypt) | CryptNtlm2 (c : ntlm2_crypt).

(** The fields of struct gensec_ntlmssp_state that these files use.  A null
    [session_key.data] is [None]. *)
Record gensec_ntlmssp_state := State {
  role : ntlmssp_role;
  expected_state : Z;
  unicode : bool;
  use_ntlmv2 : bool;
  session_key : option (list Z);
  neg_flags : Z;
  crypt : crypt_union
}.

Definition set_expected (e : Z) (s : gensec_ntlmssp_state) : gensec_ntlmssp_state :=
  State (role s) e (unicode s) (use_ntlmv2 s) (session_key s) (neg_flags s) (crypt s).
Definition set_unicode (u : bool) (s : gensec_ntlmssp_state) : gensec_ntlmssp_state :=
  State (role s) (expected_state s) u (use_ntlmv2 s) (session_key s) (neg_flags s) (crypt s).
Definition set_flags (f : Z) (s : gensec_ntlmssp_state) : gensec_ntlmssp_state :=
  State (role s) (expected_state s) (unicode s) (use_ntlmv2 s) (session_key s) f (crypt s).
Definition set_crypt (c : crypt_union) (s : gensec_ntlmssp_state) : gensec_ntlmssp_state :=
  State (role s) (expected_state s) (unicode s) (use_ntlmv2 s) (session_key s) (neg_flags s) c.

(** [session_key.length], 0 when there is no data. *)
Definition key_bytes (s : gensec_ntlmssp_state) : list Z := default [] (session_key s).

(** [flags |= f] and [flags &= ~f] on 32-bit words. *)
Definition add_flag (f flags : Z) : Z := Z.lor flags f.
Definition clear_flag (f flags : Z) : Z := Z.ldiff flags f.

(** [if (!(neg_flags & f)) flags &= ~f] *)
Definition keep_flag (neg_flags f flags : Z) : Z := if flag neg_flags f then flags else clear_flag f flags.

Definition ntlmssp_handle_neg_flags (s : gensec_ntlmssp_state) (neg : Z) (allow_lm : bool) : gensec_ntlmssp_state :=
  let s :=
    if flag neg NTLMSSP_NEGOTIATE_UNICODE then
      set_unicode true (set_flags (clear_flag NTLMSSP_NEGOTIATE_OEM (add_flag NTLMSSP_NEGOTIATE_UNICODE (neg_flags s))) s)
    else
      set_unicode false (set_flags (add_flag NTLMSSP_NEGOTIATE_OEM (clear_flag NTLMSSP_NEGOTIATE_UNICODE (neg_flags s))) s) in
  let f := neg_flags s in
  let f :=
    if flag neg NTLMSSP_NEGOTIATE_LM_KEY && allow_lm && negb (use_ntlmv2 s) then
      clear_flag NTLMSSP_NEGOTIATE_NTLM2 (add_flag NTLMSSP_NEGOTIATE_LM_KEY f)
    else clear_flag NTLMSSP_NEGOTIATE_LM_KEY f in
  let f := keep_flag neg NTLMSSP_NEGOTIATE_ALWAYS_SIGN f in
  let f := keep_flag neg NTLMSSP_NEGOTIATE_SIGN f in
  let f := keep_flag neg NTLMSSP_NEGOTIATE_SEAL f in
  let f := keep_flag neg NTLMSSP_NEGOTIATE_NTLM2 f in
  let f := keep_flag neg NTLMSSP_NEGOTIATE_128 f in
  let f := keep_flag neg NTLMSSP_NEGOTIATE_56 f in
  let f := keep_flag neg NTLMSSP_NEGOTIATE_KEY_EXCH f in
  let f := keep_flag neg NTLMSSP_UNKNOWN_02000000 f in
  let f := if flag neg NTLMSSP_REQUEST_TARGET then add_flag NTLMSSP_REQUEST_TARGET f else f in
  set_flags f s.

Definition gensec_ntlmssp_have_feature (s : gensec_ntlmssp_state) (feature : Z) : bool :=
  let no_key := bool_decide (length (key_bytes s) = 0%nat) in
  if flag feature GENSEC_FEATURE_SIGN && no_key then false
  else if flag feature GENSEC_FEATURE_SIGN && flag (neg_flags s) NTLMSSP_NEGOTIATE_SIGN then true
  else if flag feature GENSEC_FEATURE_SEAL && no_key then false
  else if flag feature GENSEC_FEATURE_SEAL && flag (neg_flags s) NTLMSSP_NEGOTIATE_SEAL then true
  else if flag feature GENSEC_FEATURE_SESSION_KEY && negb no_key then true
  else if flag feature GENSEC_FEATURE_DCE_STYLE then true
  else flag feature GENSEC_FEATURE_ASYNC_REPLIES && flag (neg_flags s) NTLMSSP_NEGOTIATE_NTLM2.

Definition gensec_ntlmssp_session_key (s : gensec_ntlmssp_state) : NTSTATUS * option (list Z) :=
  match session_key s with
  | None => (NT_STATUS_NO_USER_SESSION_KEY, None)
  | Some k => (NT_STATUS_OK, Some k)
  end.

(** The key for NTLM1 sealing.  [mem] says whether the copy could be allocated; a
    failed copy is an empty blob. *)
Definition ntlmssp_weakend_key (s : gensec_ntlmssp_state) (mem : bool) : list Z :=
  let weakened_key := if mem then key_bytes s else [] in
  if decide (length weakened_key < 16)%nat then weakened_key
  else if flag (neg_flags s) NTLMSSP_NEGOTIATE_LM_KEY then
    if flag (neg_flags s) NTLMSSP_NEGOTIATE_56 then take 8 (<[7%nat := 0xa0]> weakened_key)
    else take 8 (<[7%nat := 0xb0]> (<[6%nat := 0x38]> (<[5%nat := 0xe5]> weakened_key)))
  else weakened_key.

(** "NTLMSSP" and its terminator. *)
Definition NTLMSSP : list Z := [78; 84; 76; 77; 83; 83; 80].

Definition gensec_ntlmssp_magic (first_packet : list Z) : NTSTATUS :=
  if decide (8 < length first_packet)%nat then
    if bool_decide (take 8 first_packet = NTLMSSP ++ [0]) then NT_STATUS_OK else NT_STATUS_INVALID_PARAMETER
  else NT_STATUS_INVALID_PARAMETER.

(** The table of handlers, by role and command. *)
Inductive handler := ntlmssp_client_initial | ntlmssp_server_negotiate | ntlmssp_client_challenge | ntlmssp_server_auth.

Definition ntlmssp_callbacks : list (ntlmssp_role * Z * handler) :=
  [(NTLMSSP_CLIENT, NTLMSSP_INITIAL, ntlmssp_client_initial);
   (NTLMSSP_SERVER, NTLMSSP_NEGOTIATE, ntlmssp_server_negotiate);
   (NTLMSSP_CLIENT, NTLMSSP_CHALLENGE, ntlmssp_client_challenge);
   (NTLMSSP_SERVER, NTLMSSP_AUTH, ntlmssp_server_auth)].

Section find.
Context `{Charsets} `{Allocator}.

(** The command of a message: [None] when the message is refused. *)
Definition message_command (s : gensec_ntlmssp_state) (want_features : Z) (input : list Z) : outcome (option Z) :=
  match input with
  | [] =>
      match role s with
      | NTLMSSP_CLIENT => Ret (Some NTLMSSP_INITIAL)
      | NTLMSSP_SERVER =>
          if flag want_features GENSEC_FEATURE_DATAGRAM_MODE then Ret (Some NTLMSSP_NEGOTIATE) else Ret None
      end
  | _ =>
      let* r := msrpc_parse input [PC NTLMSSP; Pd] in
      Ret (match r with Some [VWord command] => Some command | _ => None end)
  end.

Definition gensec_ntlmssp_update_find (s : gensec_ntlmssp_state) (want_features : Z) (input : list Z) :
    outcome (NTSTATUS + handler) :=
  if expected_state s =? NTLMSSP_DONE then Ret (inl NT_STATUS_INVALID_PARAMETER)
  else
    let* c := message_command s want_features input in
    match c with
    | None => Ret (inl NT_STATUS_INVALID_PARAMETER)
    | Some ntlmssp_command =>
        if negb (ntlmssp_command =? expected_state s) then Ret (inl NT_STATUS_INVALID_PARAMETER)
        else
          match list_find (fun x => x.1 = (role s, ntlmssp_command)) ntlmssp_callbacks with
          | Some (_, x) => Ret (inr x.2)
          | None => Ret (inl NT_STATUS_INVALID_PARAMETER)
          end
    end.
End find.

End Ntlmssp.
Import Ntlmssp.

(** ** The negotiated flags, bit by bit *)

Lemma flag_testbit x k : 0 <= k -> flag x (2 ^ k) = Z.testbit x k.
Proof.
  intros Hk. unfold flag. destruct (Z.testbit x k) eqn:E.
  - apply negb_true_iff, Z.eqb_neq. intros H0. apply (f_equal (fun z => Z.testbit z k)) in H0.
    rewrite Z.land_spec, E, Z.pow2_bits_true, Z.bits_0 in H0 by done. done.
  - apply negb_false_iff, Z.eqb_eq. apply Z.bits_inj'. intros i Hi. rewrite Z.land_spec, Z.bits_0, Z.pow2_bits_eqb by done.
    destruct (Z.eqb_spec k i) as [<-|]; [by rewrite E|apply andb_false_r].
Qed.

Lemma testbit_add_flag f k i : 0 <= k -> Z.testbit (add_flag (2 ^ k) f) i = (k =? i) || Z.testbit f i.
Proof. intros. unfold add_flag. rewrite Z.lor_spec, Z.pow2_bits_eqb by done. apply orb_comm. Qed.

Lemma testbit_clear_flag f k i : 0 <= k -> Z.testbit (clear_flag (2 ^ k) f) i = negb (k =? i) && Z.testbit f i.
Proof. intros. unfold clear_flag. rewrite Z.ldiff_spec, Z.pow2_bits_eqb by done. apply andb_comm. Qed.

Lemma testbit_keep_flag neg f k i :
  0 <= k -> Z.testbit (keep_flag neg (2 ^ k) f) i = Z.testbit f i && (negb (k =? i) || Z.testbit neg k).
Proof.
  intros. unfold keep_flag. rewrite flag_testbit by done. destruct (Z.testbit neg k).
  - by rewrite orb_true_r, andb_true_r.
  - rewrite testbit_clear_flag, orb_false_r by done. apply andb_comm.
Qed.

(** What the negotiation makes of bit [i]: [own] and [theirs] are the bits of the two
    sides, [lm] whether an LM session key is forced. *)
Definition negotiated (own theirs : Z -> bool) (lm : bool) (i : Z) : bool :=
  if i =? 0 then theirs 0                                       (* UNICODE *)
  else if i =? 1 then negb (theirs 0)                           (* OEM *)
  else if i =? 2 then own 2 || theirs 2                         (* REQUEST_TARGET *)
  else if i =? 7 then lm                                        (* LM_KEY *)
  else if i =? 19 then own 19 && theirs 19 && negb lm           (* NTLM2 *)
  else if existsb (Z.eqb i) [4; 5; 15; 25; 29; 30; 31] then own i && theirs i
  else own i.

Lemma testbit_if (b : bool) x y i :
  Z.testbit (if b then x else y) i = if b then Z.testbit x i else Z.testbit y i.
Proof. by destruct b. Qed.

Lemma apply_if {A B} (f : A -> B) (b : bool) x y : f (if b then x else y) = if b then f x else f y.
Proof. by destruct b. Qed.

(** One case per bit the goal compares [i] with. *)
Ltac bit_cases i :=
  repeat match goal with
  | |- context [i =? ?k] =>
      destruct (Z.eqb_spec i k);
        [subst i; cbn [Z.eqb Pos.eqb negb orb andb]
        |rewrite ?(proj2 (Z.eqb_neq k i)) by congruence; cbn [negb orb andb]]
  end.

Lemma handle_neg_flags_bits s neg allow_lm i :
  0 <= i ->
  Z.testbit (neg_flags (ntlmssp_handle_neg_flags s neg allow_lm)) i =
  negotiated (Z.testbit (neg_flags s)) (Z.testbit neg) (Z.testbit neg 7 && allow_lm && negb (use_ntlmv2 s)) i.
Proof.
  intros Hi. unfold ntlmssp_handle_neg_flags.
  change NTLMSSP_NEGOTIATE_UNICODE with (2 ^ 0). change NTLMSSP_NEGOTIATE_OEM with (2 ^ 1).
  change NTLMSSP_REQUEST_TARGET with (2 ^ 2). change NTLMSSP_NEGOTIATE_SIGN with (2 ^ 4).
  change NTLMSSP_NEGOTIATE_SEAL with (2 ^ 5). change NTLMSSP_NEGOTIATE_LM_KEY with (2 ^ 7).
  change NTLMSSP_NEGOTIATE_ALWAYS_SIGN with (2 ^ 15). change NTLMSSP_NEGOTIATE_NTLM2 with (2 ^ 19).
  change NTLMSSP_UNKNOWN_02000000 with (2 ^ 25). change NTLMSSP_NEGOTIATE_128 with (2 ^ 29).
  change NTLMSSP_NEGOTIATE_KEY_EXCH with (2 ^ 30). change NTLMSSP_NEGOTIATE_56 with (2 ^ 31).
  rewrite !flag_testbit by done.
  rewrite (apply_if neg_flags), (apply_if use_ntlmv2).
  cbn [set_unicode set_flags neg_flags use_ntlmv2].
  replace (if Z.testbit neg 0 then use_ntlmv2 s else use_ntlmv2 s) with (use_ntlmv2 s) by by destruct (Z.testbit neg 0).
  set (own := neg_flags s). set (lm := Z.testbit neg 7 && allow_lm && negb (use_ntlmv2 s)).
  rewrite !testbit_if. rewrite testbit_add_flag by done.
  rewrite !testbit_keep_flag by done. rewrite !testbit_if.
  rewrite ?testbit_clear_flag, ?testbit_add_flag, ?testbit_clear_flag, ?testbit_if, ?testbit_add_flag,
    ?testbit_clear_flag, ?testbit_add_flag by done.
  unfold negotiated. cbn [existsb]. clearbody own lm. bit_cases i.
  all: repeat match goal with |- context [Z.testbit ?x ?k] => destruct (Z.testbit x k) end; by destruct lm.
Qed.

Lemma handle_neg_flags_frame s neg allow_lm :
  ntlmssp_handle_neg_flags s neg allow_lm =
  State (role s) (expected_state s) (Z.testbit neg 0) (use_ntlmv2 s) (session_key s)
    (neg_flags (ntlmssp_handle_neg_flags s neg allow_lm)) (crypt s).
Proof.
  unfold ntlmssp_handle_neg_flags. change NTLMSSP_NEGOTIATE_UNICODE with (2 ^ 0).
  rewrite flag_testbit by done. by destruct (Z.testbit neg 0).
Qed.

Lemma negotiated_ext own own' theirs lm i :
  0 <= i -> (forall k, 0 <= k -> own k = own' k) -> negotiated own theirs lm i = negotiated own' theirs lm i.
Proof. intros Hi H. unfold negotiated. by rewrite !H. Qed.

Lemma negotiated_twice own theirs lm i :
  negotiated (negotiated own theirs lm) theirs lm i = negotiated own theirs lm i.
Proof.
  unfold negotiated. cbn [existsb]. bit_cases i; try done.
  all: repeat match goal with |- context [?f ?k] => is_var f; destruct (f k) end; by destruct lm.
Qed.

(** The flags both sides must agree on. *)
Definition security_bits : list Z := [4; 5; 15; 19; 25; 29; 30; 31].

Lemma negotiated_security own theirs i :
  In i security_bits -> negotiated own theirs false i = own i && theirs i.
Proof.
  intros Hi. unfold security_bits in Hi. cbn [In] in Hi. unfold negotiated.
  destruct_or!; subst i; cbn [Z.eqb Pos.eqb existsb orb]; by rewrite ?andb_true_r.
Qed.

(** The negotiation computes every flag as specified, and sets [unicode] to the
    UNICODE flag; UNICODE and OEM exclude each other, and so do LM_KEY and NTLM2;
    repeating it changes nothing.  When the server answers the client's flags and the
    client takes the answer, neither with an LM session key, both end with the same
    security flags: those both sides offered. *)
Theorem neg_flags_negotiation (s c : gensec_ntlmssp_state) (neg : Z) (allow_lm : bool) :
  let s' := ntlmssp_handle_neg_flags s neg allow_lm in
  let lm := Z.testbit neg 7 && allow_lm && negb (use_ntlmv2 s) in
  (forall i, 0 <= i -> Z.testbit (neg_flags s') i = negotiated (Z.testbit (neg_flags s)) (Z.testbit neg) lm i) /\
  unicode s' = flag neg NTLMSSP_NEGOTIATE_UNICODE /\
  flag (neg_flags s') NTLMSSP_NEGOTIATE_OEM = negb (flag (neg_flags s') NTLMSSP_NEGOTIATE_UNICODE) /\
  flag (neg_flags s') NTLMSSP_NEGOTIATE_LM_KEY && flag (neg_flags s') NTLMSSP_NEGOTIATE_NTLM2 = false /\
  ntlmssp_handle_neg_flags s' neg allow_lm = s' /\
  let server := ntlmssp_handle_neg_flags s (neg_flags c) false in
  let client := ntlmssp_handle_neg_flags c (neg_flags server) false in
  forall i, In i security_bits ->
    Z.testbit (neg_flags client) i = Z.testbit (neg_flags server) i /\
    Z.testbit (neg_flags server) i = Z.testbit (neg_flags s) i && Z.testbit (neg_flags c) i.
Proof.
  intros s' lm. assert (forall i, 0 <= i -> Z.testbit (neg_flags s') i = _) as Hbits
    by (intros; by apply handle_neg_flags_bits).
  change NTLMSSP_NEGOTIATE_UNICODE with (2 ^ 0). change NTLMSSP_NEGOTIATE_OEM with (2 ^ 1).
  change NTLMSSP_NEGOTIATE_LM_KEY with (2 ^ 7). change NTLMSSP_NEGOTIATE_NTLM2 with (2 ^ 19).
  rewrite !flag_testbit, !Hbits by done. fold lm.
  split_and!; [done|by unfold s'; rewrite handle_neg_flags_frame|done|by cbn; destruct lm; rewrite ?andb_false_r| |].
  - rewrite (handle_neg_flags_frame s' neg allow_lm).
    assert (neg_flags (ntlmssp_handle_neg_flags s' neg allow_lm) = neg_flags s') as ->.
    { apply Z.bits_inj'. intros i Hi. rewrite handle_neg_flags_bits, Hbits by done.
      replace (use_ntlmv2 s') with (use_ntlmv2 s) by (unfold s'; by rewrite handle_neg_flags_frame).
      fold lm. rewrite (negotiated_ext _ _ _ _ _ Hi Hbits). apply negotiated_twice. }
    unfold s'. by rewrite handle_neg_flags_frame.
  - intros server client i Hi.
    assert (0 <= i) by (cbn in Hi; destruct_or!; lia).
    unfold client. rewrite handle_neg_flags_bits by done. unfold server.
    rewrite handle_neg_flags_bits, !andb_false_r by done. cbn [andb]. rewrite !negotiated_security by done.
    rewrite handle_neg_flags_bits, !andb_false_r by done. cbn [andb]. rewrite negotiated_security by done.
    split; [|done]. destruct (Z.testbit (neg_flags c) i), (Z.testbit (neg_flags s) i); done.
Qed.

(** ** Dispatch *)

Lemma message_command_prefix `{Charsets} `{Allocator} s wf cmd rest :
  unix_is_utf8 -> dos_is_ascii ->
  message_command s wf (NTLMSSP ++ [0] ++ le 4 cmd ++ rest) = Ret (Some (u32 cmd)).
Proof.
  intros Hu Hd. unfold message_command. set (msg := NTLMSSP ++ _).
  assert (msg = (NTLMSSP ++ [0]) ++ le 4 cmd ++ rest) as Em by (unfold msg; by rewrite <- app_assoc).
  unfold msrpc_parse. cbn [parse_args parse_one].
  destruct (pull_constant (fresh PSTRING_LEN) NTLMSSP (le 4 cmd ++ rest) Hu Hd) as (buf & E & Eu & _);
    [apply length_replicate|by_eval|by_eval|by_eval|].
  rewrite <- Em in E. rewrite drop_0, E. cbn [obind snd fst]. rewrite decide_True by done. cbn [obind].
  change (0 + (length NTLMSSP + 1))%nat with (length (NTLMSSP ++ [0])).
  rewrite decide_False by (rewrite Em, !length_app, length_le; lia).
  cbn [obind]. by rewrite Em, IVAL_at.
Qed.

Lemma callbacks_find r command h :
  (match list_find (fun x => x.1 = (r, command)) ntlmssp_callbacks with
   | Some (_, x) => Ret (inr x.2)
   | None => Ret (inl NT_STATUS_INVALID_PARAMETER)
   end = Ret (inr h) :> outcome (NTSTATUS + handler)) <-> In (r, command, h) ntlmssp_callbacks.
Proof.
  split.
  - destruct (list_find _ _) as [[i x]|] eqn:E; [|done]. apply list_find_Some in E as (Hl & Hx & _).
    intros [= <-]. rewrite <- Hx. destruct x as [k h']. eapply list_elem_of_In, list_elem_of_lookup_2, Hl.
  - unfold ntlmssp_callbacks at 1. cbn [In]. intros Hin. destruct_or!; injection Hin as <- <- <- || done; reflexivity.
Qed.

(** The handler a command reaches: none after the end of the exchange, nor out of
    order. *)
Definition dispatched (s : gensec_ntlmssp_state) (command : option Z) (result : outcome (NTSTATUS + handler)) : Prop :=
  (exists r, result = Ret r) /\
  forall h, result = Ret (inr h) <->
    expected_state s <> NTLMSSP_DONE /\ command = Some (expected_state s) /\
    In (role s, expected_state s, h) ntlmssp_callbacks.

(** A message that starts with the NTLMSSP signature and a command is dispatched
    to a handler exactly when the exchange is not done, expects that command, and the
    handler is the one of this role for it; every other message is refused, and the
    lookup never faults.  The empty message stands for the command that starts the
    exchange: always for a client, for a server only in datagram mode. *)
Theorem update_find_dispatch `{Charsets} `{Allocator} (s : gensec_ntlmssp_state) (want_features cmd : Z) (rest : list Z) :
  unix_is_utf8 -> dos_is_ascii -> is_u32 cmd ->
  dispatched s (Some cmd) (gensec_ntlmssp_update_find s want_features (NTLMSSP ++ [0] ++ le 4 cmd ++ rest)) /\
  dispatched s
    (match role s with
     | NTLMSSP_CLIENT => Some NTLMSSP_INITIAL
     | NTLMSSP_SERVER => if flag want_features GENSEC_FEATURE_DATAGRAM_MODE then Some NTLMSSP_NEGOTIATE else None
     end)
    (gensec_ntlmssp_update_find s want_features []) /\
  gensec_ntlmssp_magic (NTLMSSP ++ [0] ++ le 4 cmd ++ rest) = NT_STATUS_OK.
Proof.
  intros Hu Hd Hc.
  assert (forall input command, message_command s want_features input = Ret command ->
            dispatched s command (gensec_ntlmssp_update_find s want_features input)) as Hall.
  { intros input command E. unfold dispatched, gensec_ntlmssp_update_find. rewrite E. cbn [obind].
    destruct (Z.eqb_spec (expected_state s) NTLMSSP_DONE) as [Ed|Ed].
    { split; [by eexists|]. intros h. split; [done|]. by intros []. }
    destruct command as [command|]; [|split; [by eexists|]; intros h; split; [done|]; by intros (_ & ? & _)].
    destruct (Z.eqb_spec command (expected_state s)) as [->|Hne]; cbn [negb].
    - split; [destruct (list_find _ _) as [[??]|]; by eexists|]. intros h. rewrite callbacks_find. naive_solver.
    - split; [by eexists|]. intros h. split; [done|]. intros (_ & [= ->] & _). done. }
  split_and!.
  - apply Hall. by rewrite message_command_prefix, u32_id.
  - apply Hall. unfold message_command. destruct (role s); [|done]. by destruct (flag _ _).
  - unfold gensec_ntlmssp_magic. rewrite decide_True by (rewrite !length_app, length_le; simpl; lia).
    rewrite app_assoc, take_app_length' by done. by rewrite bool_decide_eq_true_2.
Qed.

Lemma update_find_dispatch_witness :
  let s := State NTLMSSP_CLIENT NTLMSSP_CHALLENGE true true None 0 CryptZero in
  @gensec_ntlmssp_update_find utf8_charsets calloc s 0 (NTLMSSP ++ [0] ++ le 4 2 ++ []) = Ret (inr ntlmssp_client_challenge).
Proof.
  intros s. destruct (@update_find_dispatch utf8_charsets calloc s 0 2 []) as ([_ E] & _); [by left | done | by_eval |].
  apply E. split; [by_eval | split; [reflexivity |]]. cbn [In ntlmssp_callbacks]. tauto.
Defined.
