(* ===== verification/NtlmsspSign.v ===== *)
(** auth/ntlmssp/ntlmssp_sign.c: signing and sealing of packets after an NTLMSSP
    exchange.  The data of a packet lies inside the buffer that is signed, as it does
    in every caller: a packet is the buffer [pdu] and the extent of the data in it. *)

From stdpp Require Import strings relations.
From S2P Require Import Prelude Digest Byteorder Ntstatus Md5 Hmac Arcfour Crc32 Charcnv Msrpc Ntlmssp.
Import Byteorder Hmac.HmacMd5 Arcfour Crc32 Charcnv Msrpc Ntlmssp.

#[local] Open Scope outcome_scope.

Module NtlmsspSign.

(** The bytes of a C string literal. *)
Definition str (s : string) : list Z := (fun a => Z.of_nat (Ascii.nat_of_ascii a)) <$> String.list_ascii_of_string s.

Definition CLI_SIGN : list Z := str "session key to client-to-server signing key magic constant".
Definition CLI_SEAL : list Z := str "session key to client-to-server sealing key magic constant".
Definition SRV_SIGN : list Z := str "session key to server-to-client signing key magic constant".
Definition SRV_SEAL : list Z := str "session key to server-to-client sealing key magic constant".

Inductive ntlmssp_direction := NTLMSSP_SEND | NTLMSSP_RECEIVE.

(** Reading the union as one of its members; the zeroed union is either. *)
Definition zero_ntlm2 : ntlm2_crypt := Ntlm2Crypt 0 0 [] [] None None.
Definition as_ntlm2 (c : crypt_union) : outcome ntlm2_crypt :=
  match c with CryptZero => Ret zero_ntlm2 | CryptNtlm2 c => Ret c | CryptNtlm _ => Fault end.
Definition as_ntlm (c : crypt_union) : outcome ntlm_crypt :=
  match c with CryptZero => Ret (NtlmCrypt 0 None) | CryptNtlm c => Ret c | CryptNtlm2 _ => Fault end.

(** arcfour_crypt_sbox through a pointer that may be null. *)
Definition crypt_sbox (st : option arcfour_state) (data : list Z) : outcome (list Z * option arcfour_state) :=
  match st, data with
  | Some st, _ => let '(e, st) := arcfour_crypt_sbox st data in Ret (e, Some st)
  | None, [] => Ret ([], None)
  | None, _ => Fault
  end.

(** The fields a direction reads and advances. *)
Definition seq_of (d : ntlmssp_direction) (c : ntlm2_crypt) : Z :=
  match d with NTLMSSP_SEND => send_seq_num c | NTLMSSP_RECEIVE => recv_seq_num c end.
Definition key_of (d : ntlmssp_direction) (c : ntlm2_crypt) : list Z :=
  match d with NTLMSSP_SEND => send_sign_key c | NTLMSSP_RECEIVE => recv_sign_key c end.
Definition seal_of (d : ntlmssp_direction) (c : ntlm2_crypt) : option arcfour_state :=
  match d with NTLMSSP_SEND => send_seal_arcfour_state c | NTLMSSP_RECEIVE => recv_seal_arcfour_state c end.
Definition next_seq (d : ntlmssp_direction) (c : ntlm2_crypt) : ntlm2_crypt :=
  let '(Ntlm2Crypt ss rs sk rk sa ra) := c in
  match d with
  | NTLMSSP_SEND => Ntlm2Crypt (u32 (ss + 1)) rs sk rk sa ra
  | NTLMSSP_RECEIVE => Ntlm2Crypt ss (u32 (rs + 1)) sk rk sa ra
  end.
Definition set_seal (d : ntlmssp_direction) (st : option arcfour_state) (c : ntlm2_crypt) : ntlm2_crypt :=
  let '(Ntlm2Crypt ss rs sk rk sa ra) := c in
  match d with
  | NTLMSSP_SEND => Ntlm2Crypt ss rs sk rk st ra
  | NTLMSSP_RECEIVE => Ntlm2Crypt ss rs sk rk sa st
  end.

Section sign.
Context `{Host} `{Charsets}.

Definition calc_ntlmv2_key (mem : bool) (session_key constant : list Z) : outcome (list Z) :=
  if mem
  then Ret (fst (Md5.MD5Final (Md5.MD5Update (Md5.MD5Update Md5.MD5Init session_key) (constant ++ [0]))))
  else Fault.

(** hmac_md5 over the sequence number and the buffer. *)
Definition packet_digest (key seq_num whole_pdu : list Z) : list Z :=
  hmac_md5_final (hmac_md5_update whole_pdu (hmac_md5_update seq_num (hmac_md5_init_limK_to_64 key))).

Section alloc.
Context (A : Allocator).

(** The result is the status, the new state and the signature, if it was allocated. *)
Definition ntlmssp_make_packet_signature (s : gensec_ntlmssp_state) (data whole_pdu : list Z)
    (direction : ntlmssp_direction) (encrypt_sig : bool) :
    outcome (NTSTATUS * gensec_ntlmssp_state * option (list Z)) :=
  if flag (neg_flags s) NTLMSSP_NEGOTIATE_NTLM2 then
    if negb (malloc_ok 0) then Ret (NT_STATUS_NO_MEMORY, s, None)
    else
      let* c := as_ntlm2 (crypt s) in
      let seq_num := SIVAL (fresh 4) 0 (seq_of direction c) in
      let digest := packet_digest (key_of direction c) seq_num whole_pdu in
      let c := next_seq direction c in
      let* (digest, c) :=
        (if encrypt_sig && flag (neg_flags s) NTLMSSP_NEGOTIATE_KEY_EXCH then
           let* (e, st) := crypt_sbox (seal_of direction c) (take 8 digest) in
           Ret (splice 0 e digest, set_seal direction st c)
         else Ret (digest, c)) in
      let sig := SIVAL (fresh NTLMSSP_SIG_SIZE) 0 NTLMSSP_SIGN_VERSION in
      let sig := splice 4 (take 8 digest) sig in
      let sig := splice 12 seq_num sig in
      Ret (NT_STATUS_OK, set_crypt (CryptNtlm2 c) s, Some sig)
  else
    let crc := crc32_calc_buffer data in
    let* c := as_ntlm (crypt s) in
    let* r := msrpc_gen [Gd NTLMSSP_SIGN_VERSION; Gd 0; Gd crc; Gd (seq_num c)] in
    match r with
    | None => Ret (NT_STATUS_NO_MEMORY, s, None)
    | Some sig =>
        let* (e, st) := crypt_sbox (arcfour c) (drop 4 sig) in
        Ret (NT_STATUS_OK, set_crypt (CryptNtlm (NtlmCrypt (u32 (seq_num c + 1)) st)) s, Some (splice 4 e sig))
    end.

Definition gensec_ntlmssp_sign_packet (s : gensec_ntlmssp_state) (pdu : list Z) (ofs n : nat) :=
  ntlmssp_make_packet_signature s (slice ofs n pdu) pdu NTLMSSP_SEND true.

Definition gensec_ntlmssp_check_packet (s : gensec_ntlmssp_state) (pdu : list Z) (ofs n : nat) (sig : list Z) :
    outcome (NTSTATUS * gensec_ntlmssp_state) :=
  if decide (length (key_bytes s) = 0%nat) then Ret (NT_STATUS_NO_USER_SESSION_KEY, s)
  else
    let* (nt_status, s', local) := ntlmssp_make_packet_signature s (slice ofs n pdu) pdu NTLMSSP_RECEIVE true in
    match local with
    | Some local_sig =>
        if NT_STATUS_IS_OK nt_status then
          let skip := if flag (neg_flags s) NTLMSSP_NEGOTIATE_NTLM2 then 0%nat else 8%nat in
          if negb (bool_decide (length local_sig = length sig)) ||
             negb (bool_decide (drop skip local_sig = drop skip sig))
          then Ret (NT_STATUS_ACCESS_DENIED, s')
          else Ret (NT_STATUS_OK, s')
        else Ret (nt_status, s')
    | None => Ret (nt_status, s')
    end.

(** The status, the state, the buffer sealed in place, and the signature. *)
Definition gensec_ntlmssp_seal_packet (s : gensec_ntlmssp_state) (pdu : list Z) (ofs n : nat) :
    outcome (NTSTATUS * gensec_ntlmssp_state * list Z * option (list Z)) :=
  if decide (length (key_bytes s) = 0%nat) then Ret (NT_STATUS_NO_USER_SESSION_KEY, s, pdu, None)
  else if flag (neg_flags s) NTLMSSP_NEGOTIATE_NTLM2 then
    let* (nt_status, s, sig) := ntlmssp_make_packet_signature s (slice ofs n pdu) pdu NTLMSSP_SEND false in
    let* c := as_ntlm2 (crypt s) in
    let* (e, st) := crypt_sbox (send_seal_arcfour_state c) (slice ofs n pdu) in
    let pdu := splice ofs e pdu in
    if flag (neg_flags s) NTLMSSP_NEGOTIATE_KEY_EXCH then
      match sig with
      | None => Fault                   (* sig->data is null *)
      | Some sig =>
          let* (m, st) := crypt_sbox st (slice 4 8 sig) in
          Ret (nt_status, set_crypt (CryptNtlm2 (set_seal NTLMSSP_SEND st c)) s, pdu, Some (splice 4 m sig))
      end
    else Ret (nt_status, set_crypt (CryptNtlm2 (set_seal NTLMSSP_SEND st c)) s, pdu, sig)
  else
    let crc := crc32_calc_buffer (slice ofs n pdu) in
    let* c := as_ntlm (crypt s) in
    let* r := msrpc_gen [Gd NTLMSSP_SIGN_VERSION; Gd 0; Gd crc; Gd (seq_num c)] in
    match r with
    | None => Ret (NT_STATUS_NO_MEMORY, s, pdu, None)
    | Some sig =>
        let* (e, st) := crypt_sbox (arcfour c) (slice ofs n pdu) in
        let* (m, st) := crypt_sbox st (drop 4 sig) in
        Ret (NT_STATUS_OK, set_crypt (CryptNtlm (NtlmCrypt (u32 (seq_num c + 1)) st)) s,
             splice ofs e pdu, Some (splice 4 m sig))
    end.

(** The status, the state and the buffer unsealed in place. *)
Definition gensec_ntlmssp_unseal_packet (s : gensec_ntlmssp_state) (pdu : list Z) (ofs n : nat) (sig : list Z) :
    outcome (NTSTATUS * gensec_ntlmssp_state * list Z) :=
  if decide (length (key_bytes s) = 0%nat) then Ret (NT_STATUS_NO_USER_SESSION_KEY, s, pdu)
  else
    let* (pdu, s) :=
      (if flag (neg_flags s) NTLMSSP_NEGOTIATE_NTLM2 then
         let* c := as_ntlm2 (crypt s) in
         let* (e, st) := crypt_sbox (recv_seal_arcfour_state c) (slice ofs n pdu) in
         Ret (splice ofs e pdu, set_crypt (CryptNtlm2 (set_seal NTLMSSP_RECEIVE st c)) s)
       else
         let* c := as_ntlm (crypt s) in
         let* (e, st) := crypt_sbox (arcfour c) (slice ofs n pdu) in
         Ret (splice ofs e pdu, set_crypt (CryptNtlm (NtlmCrypt (seq_num c) st)) s)) in
    let* (nt_status, s) := gensec_ntlmssp_check_packet s pdu ofs n sig in
    Ret (nt_status, s, pdu).
End alloc.

Section init.
Context (A : Allocator).

(** The length NTLM2 weakens the sealing keys to. *)
Definition weak_length (flags : Z) (key : list Z) : list Z :=
  if flag flags NTLMSSP_NEGOTIATE_128 then key
  else if flag flags NTLMSSP_NEGOTIATE_56 then take 7 key
  else take 5 key.

(** Initialising through a pointer that may be null, with a key that may be empty. *)
Definition seal_init (mem : bool) (key : list Z) : outcome (option arcfour_state) :=
  if mem then match arcfour_init key with Some st => Ret (Some st) | None => Fault end else Fault.

(** The four constants, as the sender and the receiver of a role use them. *)
Definition sign_const (r : ntlmssp_role) : list Z := match r with NTLMSSP_CLIENT => CLI_SIGN | NTLMSSP_SERVER => SRV_SIGN end.
Definition seal_const (r : ntlmssp_role) : list Z := match r with NTLMSSP_CLIENT => CLI_SEAL | NTLMSSP_SERVER => SRV_SEAL end.
Definition other (r : ntlmssp_role) : ntlmssp_role := match r with NTLMSSP_CLIENT => NTLMSSP_SERVER | NTLMSSP_SERVER => NTLMSSP_CLIENT end.

(** The allocations, in order: the temporary context, the two sealing states, the
    four subkeys.  The second test of a sealing state tests the first again. *)
Definition ntlmssp_sign_init (s : gensec_ntlmssp_state) : outcome (NTSTATUS * gensec_ntlmssp_state) :=
  if negb (malloc_ok 0) then Ret (NT_STATUS_NO_MEMORY, s)
  else if decide (length (key_bytes s) < 8)%nat then Ret (NT_STATUS_NO_USER_SESSION_KEY, s)
  else if flag (neg_flags s) NTLMSSP_NEGOTIATE_NTLM2 then
    let weak_session_key := weak_length (neg_flags s) (key_bytes s) in
    if negb (malloc_ok 1) then Ret (NT_STATUS_NO_MEMORY, s)
    else
      let* send_sign := calc_ntlmv2_key (malloc_ok 3) (key_bytes s) (sign_const (role s)) in
      let* send_seal_key := calc_ntlmv2_key (malloc_ok 4) weak_session_key (seal_const (role s)) in
      let* send_seal := seal_init true send_seal_key in
      let* recv_sign := calc_ntlmv2_key (malloc_ok 5) (key_bytes s) (sign_const (other (role s))) in
      let* recv_seal_key := calc_ntlmv2_key (malloc_ok 6) weak_session_key (seal_const (other (role s))) in
      let* recv_seal := seal_init (malloc_ok 2) recv_seal_key in
      Ret (NT_STATUS_OK, set_crypt (CryptNtlm2 (Ntlm2Crypt 0 0 send_sign recv_sign send_seal recv_seal)) s)
  else
    let weak_session_key := ntlmssp_weakend_key s (malloc_ok 1) in
    if negb (malloc_ok 2) then Ret (NT_STATUS_NO_MEMORY, s)
    else
      let* st := seal_init true weak_session_key in
      Ret (NT_STATUS_OK, set_crypt (CryptNtlm (NtlmCrypt 0 st)) s).

(** [out] is [None] when it was not allocated; on an error it holds the packet's
    place for the signature uninitialised. *)
Definition gensec_ntlmssp_wrap (s : gensec_ntlmssp_state) (inp : list Z) :
    outcome (NTSTATUS * gensec_ntlmssp_state * option (list Z)) :=
  let place := fresh NTLMSSP_SIG_SIZE in
  if gensec_ntlmssp_have_feature s GENSEC_FEATURE_SEAL then
    if negb (malloc_ok 0) then Ret (NT_STATUS_NO_MEMORY, s, None)
    else
      let* (nt_status, s, data, sig) := gensec_ntlmssp_seal_packet (later 1 A) s inp 0 (length inp) in
      match NT_STATUS_IS_OK nt_status, sig with
      | true, Some sig => Ret (nt_status, s, Some (take NTLMSSP_SIG_SIZE sig ++ data))
      | true, None => Fault
      | false, _ => Ret (nt_status, s, Some (place ++ data))
      end
  else if gensec_ntlmssp_have_feature s GENSEC_FEATURE_SIGN then
    if negb (malloc_ok 0) then Ret (NT_STATUS_NO_MEMORY, s, None)
    else
      let* (nt_status, s, sig) := gensec_ntlmssp_sign_packet (later 1 A) s inp 0 (length inp) in
      match NT_STATUS_IS_OK nt_status, sig with
      | true, Some sig => Ret (nt_status, s, Some (take NTLMSSP_SIG_SIZE sig ++ inp))
      | true, None => Fault
      | false, _ => Ret (nt_status, s, Some (place ++ inp))
      end
  else Ret (NT_STATUS_OK, s, Some inp).

(** [out] is the data behind the signature; a failed copy is an empty blob. *)
Definition gensec_ntlmssp_unwrap (s : gensec_ntlmssp_state) (inp : list Z) :
    outcome (NTSTATUS * gensec_ntlmssp_state * option (list Z)) :=
  let sig := take NTLMSSP_SIG_SIZE inp in
  let out := if malloc_ok 0 then drop NTLMSSP_SIG_SIZE inp else [] in
  if gensec_ntlmssp_have_feature s GENSEC_FEATURE_SEAL then
    if decide (length inp < NTLMSSP_SIG_SIZE)%nat then Ret (NT_STATUS_INVALID_PARAMETER, s, None)
    else
      let* (nt_status, s, out) := gensec_ntlmssp_unseal_packet (later 1 A) s out 0 (length out) sig in
      Ret (nt_status, s, Some out)
  else if gensec_ntlmssp_have_feature s GENSEC_FEATURE_SIGN then
    if decide (length inp < NTLMSSP_SIG_SIZE)%nat then Ret (NT_STATUS_INVALID_PARAMETER, s, None)
    else
      let* (nt_status, s) := gensec_ntlmssp_check_packet (later 1 A) s out 0 (length out) sig in
      Ret (nt_status, s, Some out)
  else Ret (NT_STATUS_OK, s, Some inp).
End init.
End sign.
End NtlmsspSign.
Import NtlmsspSign.

(** ** The protection of one direction, as a function *)

Section spec.
Context `{Host} `{Charsets}.

Lemma length_packet_digest key q pdu : length (packet_digest key q pdu) = 16%nat.
Proof. apply length_MD5Final. Qed.

Lemma packet_digest_rfc key q pdu :
  bytes key -> (length key <= 64)%nat -> bytes (q ++ pdu) -> Z.of_nat (length (q ++ pdu)) < 2 ^ 61 - 64 ->
  packet_digest key q pdu = rfc2104_hmac md5_spec key (q ++ pdu).
Proof.
  intros Hk Hl Hb Hn. pose proof (hmac_md5_stream key [q; pdu]) as Hh. cbn [fold_left concat] in Hh.
  rewrite app_nil_r in Hh. by apply Hh.
Qed.

#[local] Opaque packet_digest.

(** What one direction of a session depends on. *)
Record view := View { v_seq : Z; v_key : list Z; v_rc4 : arcfour_state }.

Definition rc4_if (b : bool) (st : arcfour_state) (data : list Z) : list Z * arcfour_state :=
  if b then arcfour_crypt_sbox st data else (data, st).

(** The sixteen bytes that authenticate [data] inside [pdu], and the view after them:
    the version, a checksum and the sequence number.  NTLM2 authenticates the buffer
    with a keyed digest and leaves the number readable; NTLM1 encrypts a CRC of the
    data together with the number. *)
Definition signature (flags : Z) (v : view) (data pdu : list Z) : list Z * view :=
  if flag flags NTLMSSP_NEGOTIATE_NTLM2 then
    let '(mac, rc4) := rc4_if (flag flags NTLMSSP_NEGOTIATE_KEY_EXCH) (v_rc4 v)
                         (take 8 (packet_digest (v_key v) (le 4 (v_seq v)) pdu)) in
    (le 4 1 ++ mac ++ le 4 (v_seq v), View (u32 (v_seq v + 1)) (v_key v) rc4)
  else
    let '(mac, rc4) := arcfour_crypt_sbox (v_rc4 v) (le 4 0 ++ le 4 (crc32_calc_buffer data) ++ le 4 (v_seq v)) in
    (le 4 1 ++ mac, View (u32 (v_seq v + 1)) (v_key v) rc4).

(** Sealing encrypts the data first, and signs with the cipher state it leaves. *)
Definition sealed (flags : Z) (v : view) (data pdu : list Z) : list Z * list Z * view :=
  let '(c, rc4) := arcfour_crypt_sbox (v_rc4 v) data in
  let '(sig, v) := signature flags (View (v_seq v) (v_key v) rc4) data pdu in
  (sig, c, v).

(** The packet that carries [data], and the view after it. *)
Definition protect (flags : Z) (v : view) (data : list Z) : list Z * view :=
  if flag flags NTLMSSP_NEGOTIATE_SEAL then
    let '(sig, c, v) := sealed flags v data data in (sig ++ c, v)
  else if flag flags NTLMSSP_NEGOTIATE_SIGN then
    let '(sig, v) := signature flags v data data in (sig ++ data, v)
  else (data, v).

(** The view of a direction of a state; NTLM1 has one for both. *)
Definition view_of (d : ntlmssp_direction) (s : gensec_ntlmssp_state) : option view :=
  match crypt s with
  | CryptZero => None
  | CryptNtlm c => View (seq_num c) [] <$> arcfour c
  | CryptNtlm2 c => View (seq_of d c) (key_of d c) <$> seal_of d c
  end.

Definition put_view (d : ntlmssp_direction) (v : view) (c : ntlm2_crypt) : ntlm2_crypt :=
  let '(Ntlm2Crypt ss rs sk rk sa ra) := c in
  match d with
  | NTLMSSP_SEND => Ntlm2Crypt (v_seq v) rs (v_key v) rk (Some (v_rc4 v)) ra
  | NTLMSSP_RECEIVE => Ntlm2Crypt ss (v_seq v) sk (v_key v) sa (Some (v_rc4 v))
  end.

Definition with_view (d : ntlmssp_direction) (v : view) (s : gensec_ntlmssp_state) : gensec_ntlmssp_state :=
  match crypt s with
  | CryptZero => s
  | CryptNtlm c => set_crypt (CryptNtlm (NtlmCrypt (v_seq v) (Some (v_rc4 v)))) s
  | CryptNtlm2 c => set_crypt (CryptNtlm2 (put_view d v c)) s
  end.

(** An initialised session. *)
Definition ready (s : gensec_ntlmssp_state) : Prop :=
  key_bytes s <> [] /\ is_Some (view_of NTLMSSP_SEND s) /\ is_Some (view_of NTLMSSP_RECEIVE s) /\
  match crypt s with
  | CryptZero => False
  | CryptNtlm _ => flag (neg_flags s) NTLMSSP_NEGOTIATE_NTLM2 = false
  | CryptNtlm2 _ => flag (neg_flags s) NTLMSSP_NEGOTIATE_NTLM2 = true
  end.

(** The flags of a constant feature. *)
Ltac eval_flags feature :=
  repeat match goal with |- context [flag feature ?x] =>
    let b := eval vm_compute in (flag feature x) in change (flag feature x) with b end;
  cbn [andb orb negb].

Lemma have_seal s : key_bytes s <> [] ->
  gensec_ntlmssp_have_feature s GENSEC_FEATURE_SEAL = flag (neg_flags s) NTLMSSP_NEGOTIATE_SEAL.
Proof.
  intros Hk. unfold gensec_ntlmssp_have_feature. rewrite bool_decide_eq_false_2 by by destruct (key_bytes s).
  eval_flags GENSEC_FEATURE_SEAL. by destruct (flag _ _).
Qed.

Lemma have_sign s : key_bytes s <> [] ->
  gensec_ntlmssp_have_feature s GENSEC_FEATURE_SIGN = flag (neg_flags s) NTLMSSP_NEGOTIATE_SIGN.
Proof.
  intros Hk. unfold gensec_ntlmssp_have_feature. rewrite bool_decide_eq_false_2 by by destruct (key_bytes s).
  eval_flags GENSEC_FEATURE_SIGN. by destruct (flag _ _).
Qed.

Lemma words4 `{Allocator} : malloc_always _ -> forall a b c d,
  msrpc_gen [Gd a; Gd b; Gd c; Gd d] = Ret (Some (le 4 a ++ le 4 b ++ le 4 c ++ le 4 d)).
Proof.
  intros Hm a b c d. change [Gd a; Gd b; Gd c; Gd d] with (map Gd [a; b; c; d]).
  rewrite msrpc_words by apply Hm. cbn [fmap list_fmap mjoin list_join]. by rewrite app_nil_r.
Qed.

Lemma crypt_sbox_some st data :
  crypt_sbox (Some st) data = Ret (let '(e, st) := arcfour_crypt_sbox st data in (e, Some st)).
Proof. unfold crypt_sbox. by destruct (arcfour_crypt_sbox st data). Qed.

Lemma rc4_if_length b st data e st' : rc4_if b st data = (e, st') -> length e = length data.
Proof.
  unfold rc4_if. destruct b; [|by intros [= <- <-]]. intros E. pose proof (crypt_sbox_length data st) as Hl. by rewrite E in Hl.
Qed.

Lemma slice_all {X} (l : list X) : slice 0 (length l) l = l.
Proof. unfold slice. rewrite drop_0. by apply take_ge. Qed.

(** The sixteen bytes of an NTLM2 signature. *)
Lemma signature_layout `{Allocator} (mac : list Z) (q : Z) :
  length mac = 8%nat ->
  splice 12 (le 4 q) (splice 4 mac (SIVAL (fresh NTLMSSP_SIG_SIZE) 0 NTLMSSP_SIGN_VERSION)) =
  le 4 1 ++ mac ++ le 4 q.
Proof.
  intros Hm. assert (forall n new, (length new <= n)%nat -> splice 0 new (fresh n) = new ++ fresh (n - length new)) as Hs.
  { intros n new Hn. unfold fresh. pose proof (splice_app 0 new [] (replicate n uninit) eq_refl) as E.
    cbn [app] in E. by rewrite E, drop_replicate. }
  rewrite !SIVAL_splice by (unfold fresh, NTLMSSP_SIG_SIZE; rewrite length_replicate; lia).
  rewrite !Hs by (rewrite length_le; unfold NTLMSSP_SIG_SIZE; lia). rewrite !length_le.
  change (NTLMSSP_SIG_SIZE - 4)%nat with 12%nat.
  rewrite (splice_app 4 mac) by by rewrite length_le. rewrite Hm. unfold fresh. rewrite drop_replicate.
  rewrite app_assoc, splice_app by by rewrite length_app, length_le, Hm.
  rewrite length_le, drop_replicate. cbn [replicate Nat.sub]. by rewrite app_nil_r, <- app_assoc.
Qed.

(** *** make_packet_signature computes the specified signature *)

Section ops.
Context {A : Allocator} (mem : malloc_always A).

Lemma fresh4 q : SIVAL (fresh 4) 0 q = le 4 q.
Proof.
  rewrite SIVAL_splice by (unfold fresh; rewrite length_replicate; lia).
  apply splice_full. unfold fresh. by rewrite length_replicate, length_le.
Qed.

Lemma seal_of_next d c : seal_of d (next_seq d c) = seal_of d c.
Proof. by destruct c, d. Qed.

Lemma set_seal_next d c st :
  set_seal d (Some st) (next_seq d c) = put_view d (View (u32 (seq_of d c + 1)) (key_of d c) st) c.
Proof. by destruct c, d. Qed.

Lemma next_seq_put d c st :
  seal_of d c = Some st -> next_seq d c = put_view d (View (u32 (seq_of d c + 1)) (key_of d c) st) c.
Proof. destruct c, d; cbn; by intros ->. Qed.

Lemma make_signature_ntlm2 s data pdu d enc v :
  ready s -> flag (neg_flags s) NTLMSSP_NEGOTIATE_NTLM2 = true -> view_of d s = Some v ->
  ntlmssp_make_packet_signature A s data pdu d enc =
  let '(mac, rc4) :=
    rc4_if (enc && flag (neg_flags s) NTLMSSP_NEGOTIATE_KEY_EXCH) (v_rc4 v)
      (take 8 (packet_digest (v_key v) (le 4 (v_seq v)) pdu)) in
  Ret (NT_STATUS_OK, with_view d (View (u32 (v_seq v + 1)) (v_key v) rc4) s, Some (le 4 1 ++ mac ++ le 4 (v_seq v))).
Proof.
  intros (Hk & Hs & Hr & Hc) Hn Hv. unfold ntlmssp_make_packet_signature. rewrite Hn, (mem 0%nat). cbn [negb].
  unfold view_of, with_view in *. destruct (crypt s) as [|c|c]; [done|congruence|]. cbn [as_ntlm2 obind].
  rewrite fresh4. destruct (seal_of d c) as [st|] eqn:Est; [|done]. injection Hv as <-. cbn [v_seq v_key v_rc4].
  set (dg := packet_digest _ _ _). assert (length dg = 16%nat) as Hdg by apply length_packet_digest. clearbody dg.
  unfold rc4_if. destruct (enc && _).
  - rewrite seal_of_next, Est, crypt_sbox_some. pose proof (crypt_sbox_length (take 8 dg) st) as Hl.
    destruct (arcfour_crypt_sbox st (take 8 dg)) as [m st']. cbn [obind fst] in *. rewrite length_take in Hl.
    assert (take 8 (splice 0 m dg) = m) as ->.
    { unfold splice. rewrite take_0, app_nil_l. apply take_app_length'. lia. }
    rewrite signature_layout by lia. by rewrite set_seal_next.
  - cbn [obind]. rewrite signature_layout by (rewrite length_take; lia). by rewrite (next_seq_put d c st Est).
Qed.

Lemma make_signature_ntlm1 s data pdu d enc v :
  ready s -> flag (neg_flags s) NTLMSSP_NEGOTIATE_NTLM2 = false -> view_of d s = Some v ->
  ntlmssp_make_packet_signature A s data pdu d enc =
  let '(sig, v) := signature (neg_flags s) v data pdu in Ret (NT_STATUS_OK, with_view d v s, Some sig).
Proof.
  intros (Hk & Hs & Hr & Hc) Hn Hv. unfold ntlmssp_make_packet_signature, signature. rewrite Hn.
  unfold view_of, with_view in *. destruct (crypt s) as [|[q st]|c]; [done| |congruence]. cbn [as_ntlm obind seq_num arcfour] in *.
  rewrite words4 by exact mem. cbn [obind]. destruct st as [st|]; [|done]. injection Hv as <-. cbn [v_seq v_key v_rc4].
  rewrite drop_app_length' by by rewrite length_le. rewrite crypt_sbox_some.
  pose proof (crypt_sbox_length (le 4 0 ++ le 4 (crc32_calc_buffer data) ++ le 4 q) st) as Hl.
  destruct (arcfour_crypt_sbox st _) as [m st']. cbn [obind fst] in *.
  rewrite splice_app by by rewrite length_le. rewrite drop_ge, app_nil_r by lia. done.
Qed.

Lemma make_signature s data pdu d v :
  ready s -> view_of d s = Some v ->
  ntlmssp_make_packet_signature A s data pdu d true =
  let '(sig, v) := signature (neg_flags s) v data pdu in Ret (NT_STATUS_OK, with_view d v s, Some sig).
Proof.
  intros Hr Hv. destruct (flag (neg_flags s) NTLMSSP_NEGOTIATE_NTLM2) eqn:Hn; [|by apply make_signature_ntlm1].
  rewrite (make_signature_ntlm2 _ _ _ _ _ v) by done. unfold signature. rewrite Hn. cbn [andb].
  by destruct (rc4_if _ _ _).
Qed.

Lemma length_signature flags v data pdu : length (signature flags v data pdu).1 = 16%nat.
Proof.
  unfold signature. destruct (flag flags NTLMSSP_NEGOTIATE_NTLM2).
  - destruct (rc4_if _ _ _) as [mac st] eqn:E. apply rc4_if_length in E. cbn [fst].
    rewrite !length_app, !length_le, E, length_take, length_packet_digest. done.
  - set (l := le 4 0 ++ _). pose proof (crypt_sbox_length l (v_rc4 v)) as E.
    destruct (arcfour_crypt_sbox _ l) as [mac st]. cbn [fst] in *.
    rewrite length_app, length_le, E. unfold l. by rewrite !length_app, !length_le.
Qed.

(** *** Writing a view and reading it back *)

Lemma view_with d s v v' : view_of d s = Some v -> v_key v' = v_key v -> view_of d (with_view d v' s) = Some v'.
Proof.
  destruct v' as [q k st]. unfold view_of, with_view. destruct (crypt s) as [|c|[]] eqn:E; [done| |].
  - cbn. destruct (arcfour c); [|done]. intros [= <-]. cbn. by intros ->.
  - cbn. destruct d; cbn; intros _ _; done.
Qed.

Lemma with_view_twice d v v' s : with_view d v' (with_view d v s) = with_view d v' s.
Proof. unfold with_view. destruct (crypt s) as [|c|[]] eqn:E; cbn; [by rewrite E|done|by destruct d]. Qed.

Lemma with_view_ready d v s : ready s -> ready (with_view d v s).
Proof.
  intros (Hk & Hs & Hr & Hc). unfold ready, with_view, view_of in *. destruct (crypt s) as [|c|[]] eqn:E; [done| |].
  - cbn. by split_and!.
  - cbn in *. destruct d; cbn; split_and!; done.
Qed.

Lemma with_view_flags d v s : neg_flags (with_view d v s) = neg_flags s.
Proof. unfold with_view. by destruct (crypt s). Qed.

Lemma with_view_key d v s : key_bytes (with_view d v s) = key_bytes s.
Proof. unfold with_view. by destruct (crypt s). Qed.

Lemma signature_key flags v data pdu : v_key (signature flags v data pdu).2 = v_key v.
Proof. unfold signature. destruct (flag _ _); [by destruct (rc4_if _ _ _)|by destruct (arcfour_crypt_sbox _ _)]. Qed.

Lemma signature_seq flags v data pdu : v_seq (signature flags v data pdu).2 = u32 (v_seq v + 1).
Proof. unfold signature. destruct (flag _ _); [by destruct (rc4_if _ _ _)|by destruct (arcfour_crypt_sbox _ _)]. Qed.

(** *** The four packet operations *)

Lemma key_nonempty s : ready s -> length (key_bytes s) <> 0%nat.
Proof. intros (Hk & _). by destruct (key_bytes s). Qed.

Lemma seal_packet_sealed s pdu ofs n v :
  ready s -> view_of NTLMSSP_SEND s = Some v ->
  gensec_ntlmssp_seal_packet A s pdu ofs n =
  let '(sig, c, v) := sealed (neg_flags s) v (slice ofs n pdu) pdu in
  Ret (NT_STATUS_OK, with_view NTLMSSP_SEND v s, splice ofs c pdu, Some sig).
Proof.
  intros Hrd Hv. unfold gensec_ntlmssp_seal_packet, sealed, signature.
  rewrite decide_False by by apply key_nonempty. destruct (flag (neg_flags s) NTLMSSP_NEGOTIATE_NTLM2) eqn:Hn.
  - rewrite (make_signature_ntlm2 _ _ _ _ _ v) by done. cbn [andb rc4_if obind v_seq v_key v_rc4].
    set (mac := take 8 _). assert (length mac = 8%nat) as Hmac
      by (unfold mac; rewrite length_take, length_packet_digest; done). clearbody mac.
    rewrite with_view_flags. destruct Hrd as (Hk & Hs & Hr & Hc). unfold with_view, view_of in *.
    destruct (crypt s) as [|c|[ss rs sk rk [st|] ra]]; [done|congruence| |done]. injection Hv as <-.
    cbn [seq_of key_of v_seq v_key v_rc4 put_view set_crypt crypt as_ntlm2 obind send_seal_arcfour_state neg_flags send_seq_num send_sign_key].
    rewrite crypt_sbox_some. destruct (arcfour_crypt_sbox st (slice ofs n pdu)) as [e st1]. cbn [obind].
    unfold rc4_if. destruct (flag (neg_flags s) NTLMSSP_NEGOTIATE_KEY_EXCH); [|done].
    assert (slice 4 8 (le 4 1 ++ mac ++ le 4 ss) = mac) as ->.
    { unfold slice. rewrite drop_app_length' by by rewrite length_le. by apply take_app_length'. }
    rewrite crypt_sbox_some. pose proof (crypt_sbox_length mac st1) as Hl.
    destruct (arcfour_crypt_sbox st1 mac) as [m st2]. cbn [obind fst] in *.
    rewrite splice_app by by rewrite length_le. rewrite drop_app_length' by lia. done.
  - destruct Hrd as (Hk & Hs & Hr & Hc). unfold with_view, view_of in *.
    destruct (crypt s) as [|[q [st|]]|c]; [done| |done|congruence]. injection Hv as <-.
    cbn [as_ntlm obind seq_num arcfour v_seq v_key v_rc4].
    rewrite words4 by exact mem. cbn [obind]. rewrite crypt_sbox_some.
    destruct (arcfour_crypt_sbox st (slice ofs n pdu)) as [e st1]. cbn [obind].
    rewrite drop_app_length' by by rewrite length_le. rewrite crypt_sbox_some.
    set (l := le 4 0 ++ _). pose proof (crypt_sbox_length l st1) as Hl.
    destruct (arcfour_crypt_sbox st1 l) as [m st2]. cbn [obind fst] in *.
    rewrite splice_app by by rewrite length_le. rewrite drop_ge, app_nil_r by lia. done.
Qed.

(** What the receiver compares of a signature. *)
Definition accepted (flags : Z) (expected sig : list Z) : bool :=
  let skip := if flag flags NTLMSSP_NEGOTIATE_NTLM2 then 0%nat else 8%nat in
  bool_decide (length expected = length sig) && bool_decide (drop skip expected = drop skip sig).

Lemma check_packet_signature s pdu ofs n sig v :
  ready s -> view_of NTLMSSP_RECEIVE s = Some v ->
  gensec_ntlmssp_check_packet A s pdu ofs n sig =
  let '(expected, v) := signature (neg_flags s) v (slice ofs n pdu) pdu in
  Ret (if accepted (neg_flags s) expected sig then NT_STATUS_OK else NT_STATUS_ACCESS_DENIED,
       with_view NTLMSSP_RECEIVE v s).
Proof.
  intros Hrd Hv. unfold gensec_ntlmssp_check_packet. rewrite decide_False by by apply key_nonempty.
  rewrite (make_signature _ _ _ _ v) by done. destruct (signature _ _ _ _) as [e v']. cbn [obind].
  unfold accepted. cbn [NT_STATUS_IS_OK bool_decide]. cbv zeta.
  change (NT_STATUS_IS_OK NT_STATUS_OK) with true. cbn match.
  destruct (bool_decide (length e = length sig)), (bool_decide (drop _ e = drop _ sig)); done.
Qed.

Lemma unseal_packet_signature s pdu ofs n sig v :
  ready s -> view_of NTLMSSP_RECEIVE s = Some v ->
  gensec_ntlmssp_unseal_packet A s pdu ofs n sig =
  let '(data, rc4) := arcfour_crypt_sbox (v_rc4 v) (slice ofs n pdu) in
  let pdu := splice ofs data pdu in
  let '(expected, v) := signature (neg_flags s) (View (v_seq v) (v_key v) rc4) (slice ofs n pdu) pdu in
  Ret (if accepted (neg_flags s) expected sig then NT_STATUS_OK else NT_STATUS_ACCESS_DENIED,
       with_view NTLMSSP_RECEIVE v s, pdu).
Proof.
  intros Hrd Hv. unfold gensec_ntlmssp_unseal_packet. rewrite decide_False by by apply key_nonempty.
  assert (forall e st, (arcfour_crypt_sbox (v_rc4 v) (slice ofs n pdu)) = (e, st) ->
    (if flag (neg_flags s) NTLMSSP_NEGOTIATE_NTLM2 then
       let* c := as_ntlm2 (crypt s) in
       let* (e, st) := crypt_sbox (recv_seal_arcfour_state c) (slice ofs n pdu) in
       Ret (splice ofs e pdu, set_crypt (CryptNtlm2 (set_seal NTLMSSP_RECEIVE st c)) s)
     else
       let* c := as_ntlm (crypt s) in
       let* (e, st) := crypt_sbox (arcfour c) (slice ofs n pdu) in
       Ret (splice ofs e pdu, set_crypt (CryptNtlm (NtlmCrypt (seq_num c) st)) s)) =
    Ret (splice ofs e pdu, with_view NTLMSSP_RECEIVE (View (v_seq v) (v_key v) st) s)) as Hstep.
  { intros e st E. destruct Hrd as (Hk & Hs & Hr & Hc). unfold with_view, view_of in *.
    destruct (crypt s) as [|[q [st0|]]|[ss rs sk rk sa [st0|]]]; try done; rewrite Hc; injection Hv as <-;
      cbn in E |- *; rewrite E; done. }
  destruct (arcfour_crypt_sbox (v_rc4 v) (slice ofs n pdu)) as [e st] eqn:E. rewrite (Hstep e st) by done. cbn [obind].
  rewrite (check_packet_signature _ _ _ _ _ (View (v_seq v) (v_key v) st));
    [|by apply with_view_ready|by eapply view_with]. rewrite with_view_flags.
  destruct (signature _ _ _ _) as [e' v']. cbn [obind]. by rewrite with_view_twice.
Qed.

End ops.
End spec.

(** ** Wrapping and unwrapping *)

Section wrap.
Context `{Host} `{Charsets} {A : Allocator} (mem : malloc_always A).

Lemma with_view_id d v s : view_of d s = Some v -> with_view d v s = s.
Proof.
  destruct s as [r e u n k f c]. unfold view_of, with_view, set_crypt. cbn. destruct c as [|[q [st|]]|[]]; try done.
  - by intros [= <-].
  - destruct d; cbn; (destruct send_seal_arcfour_state0 || destruct recv_seal_arcfour_state0); try done;
      try (destruct recv_seal_arcfour_state0; try done); by intros [= <-].
Qed.

Lemma accepted_refl flags sig : accepted flags sig sig = true.
Proof. unfold accepted. by rewrite !bool_decide_eq_true_2. Qed.

Lemma wrap_protect s data v :
  ready s -> view_of NTLMSSP_SEND s = Some v ->
  gensec_ntlmssp_wrap A s data =
  let '(out, v) := protect (neg_flags s) v data in Ret (NT_STATUS_OK, with_view NTLMSSP_SEND v s, Some out).
Proof.
  intros Hrd Hv. pose proof (later_always 1 A mem) as mem1. pose proof Hrd as (Hk & _).
  unfold gensec_ntlmssp_wrap, protect. rewrite have_seal, have_sign by done. rewrite (mem 0%nat). cbn [negb].
  destruct (flag _ NTLMSSP_NEGOTIATE_SEAL); [|destruct (flag _ NTLMSSP_NEGOTIATE_SIGN)].
  - rewrite (seal_packet_sealed mem1 _ _ _ _ v), slice_all by done. unfold sealed.
    pose proof (crypt_sbox_length data (v_rc4 v)) as Hl. destruct (arcfour_crypt_sbox (v_rc4 v) data) as [c rc4].
    set (v1 := View _ _ rc4). pose proof (length_signature (neg_flags s) v1 data data) as Hsig.
    destruct (signature _ v1 data data) as [sig v']. cbn [obind fst] in *.
    change (NT_STATUS_IS_OK NT_STATUS_OK) with true. cbv iota beta.
    rewrite splice_full by done. by rewrite take_ge by (unfold NTLMSSP_SIG_SIZE; lia).
  - unfold gensec_ntlmssp_sign_packet. rewrite slice_all, (make_signature mem1 _ _ _ _ v) by done.
    pose proof (length_signature (neg_flags s) v data data) as Hsig.
    destruct (signature _ v data data) as [sig v']. cbn [obind fst] in *.
    change (NT_STATUS_IS_OK NT_STATUS_OK) with true. cbv iota beta.
    by rewrite take_ge by (unfold NTLMSSP_SIG_SIZE; lia).
  - by rewrite with_view_id.
Qed.

Lemma unwrap_protect s data out v v' :
  ready s -> view_of NTLMSSP_RECEIVE s = Some v -> protect (neg_flags s) v data = (out, v') ->
  gensec_ntlmssp_unwrap A s out = Ret (NT_STATUS_OK, with_view NTLMSSP_RECEIVE v' s, Some data).
Proof.
  intros Hrd Hv. pose proof (later_always 1 A mem) as mem1. pose proof Hrd as (Hk & _).
  unfold gensec_ntlmssp_unwrap, protect. rewrite have_seal, have_sign by done. rewrite (mem 0%nat).
  destruct (flag _ NTLMSSP_NEGOTIATE_SEAL); [|destruct (flag _ NTLMSSP_NEGOTIATE_SIGN)].
  - unfold sealed. pose proof (crypt_sbox_length data (v_rc4 v)) as Hl.
    destruct (arcfour_crypt_sbox (v_rc4 v) data) as [c rc4] eqn:Ec. cbn [fst] in Hl.
    set (v1 := View _ _ rc4). pose proof (length_signature (neg_flags s) v1 data data) as Hsig.
    destruct (signature _ v1 data data) as [sig v2] eqn:Es. cbn [fst] in Hsig. intros [= <- <-].
    rewrite decide_False by (rewrite length_app; unfold NTLMSSP_SIG_SIZE; lia).
    rewrite take_app_length', drop_app_length' by done.
    rewrite (unseal_packet_signature mem1 _ _ _ _ _ v), slice_all by done.
    rewrite (crypt_sbox_roundtrip _ _ _ _ Ec). cbv zeta. rewrite splice_full by done. rewrite Hl, slice_all.
    fold v1. rewrite Es. cbn [obind]. by rewrite accepted_refl.
  - pose proof (length_signature (neg_flags s) v data data) as Hsig.
    destruct (signature _ v data data) as [sig v2] eqn:Es. cbn [fst] in Hsig. intros [= <- <-].
    rewrite decide_False by (rewrite length_app; unfold NTLMSSP_SIG_SIZE; lia).
    rewrite take_app_length', drop_app_length' by done.
    rewrite (check_packet_signature mem1 _ _ _ _ _ v), slice_all by done.
    rewrite Es. cbn [obind]. by rewrite accepted_refl.
  - intros [= <- <-]. by rewrite with_view_id.
Qed.

Lemma protect_key flags v data : v_key (protect flags v data).2 = v_key v.
Proof.
  unfold protect, sealed. destruct (flag _ NTLMSSP_NEGOTIATE_SEAL); [|destruct (flag _ NTLMSSP_NEGOTIATE_SIGN)]; [| |done].
  - destruct (arcfour_crypt_sbox _ _) as [c rc4]. set (v1 := View _ _ rc4).
    pose proof (signature_key flags v1 data data) as E. by destruct (signature _ _ _ _).
  - pose proof (signature_key flags v data data) as E. by destruct (signature _ _ _ _).
Qed.

End wrap.

(** ** Two initialised ends *)

#[local] Opaque Md5.MD5Final Md5.MD5Update packet_digest arcfour_init.

(** The views of the two ends of a session agree in both directions. *)
Definition facing (c s : gensec_ntlmssp_state) : Prop :=
  view_of NTLMSSP_SEND c = view_of NTLMSSP_RECEIVE s /\ view_of NTLMSSP_SEND s = view_of NTLMSSP_RECEIVE c.

Section init.
Context `{Host} `{Charsets} {A : Allocator} (mem : malloc_always A).

Lemma length_weakend_key s : (8 <= length (key_bytes s))%nat -> (0 < length (ntlmssp_weakend_key s true))%nat.
Proof.
  intros Hk. unfold ntlmssp_weakend_key. case_decide; [lia|].
  repeat case_match; rewrite ?length_take, ?length_insert; lia.
Qed.

Lemma subkey_seal key const :
  exists k st, calc_ntlmv2_key true key const = Ret k /\ seal_init true k = Ret (Some st).
Proof.
  unfold calc_ntlmv2_key. set (k := fst _). exists k.
  destruct (arcfour_init_ok k) as (st & E & _); [unfold k; rewrite length_MD5Final; lia|].
  exists st. split; [reflexivity|]. unfold seal_init. rewrite E. reflexivity.
Qed.

(** The state after [ntlmssp_sign_init]. *)
Lemma sign_init_ok s : (8 <= length (key_bytes s))%nat ->
  exists cr, ntlmssp_sign_init A s = Ret (NT_STATUS_OK, set_crypt cr s) /\ ready (set_crypt cr s) /\
  forall s', session_key s' = session_key s -> neg_flags s' = neg_flags s -> role s' = other (role s) ->
  exists cr', ntlmssp_sign_init A s' = Ret (NT_STATUS_OK, set_crypt cr' s') /\
  facing (set_crypt cr s) (set_crypt cr' s').
Proof.
  intros Hk. assert (key_bytes s <> []) as Hne by (destruct (key_bytes s); [simpl in Hk; lia|done]).
  unfold ntlmssp_sign_init. rewrite !(mem _). cbn [negb]. rewrite decide_False by lia.
  destruct (flag (neg_flags s) NTLMSSP_NEGOTIATE_NTLM2) eqn:Hn.
  - destruct (subkey_seal (weak_length (neg_flags s) (key_bytes s)) (seal_const (role s))) as (ks & ss & Eks & Ess).
    destruct (subkey_seal (weak_length (neg_flags s) (key_bytes s)) (seal_const (other (role s)))) as (kr & sr & Ekr & Esr).
    destruct (subkey_seal (key_bytes s) (sign_const (role s))) as (ms & ? & Ems & _).
    destruct (subkey_seal (key_bytes s) (sign_const (other (role s)))) as (mr & ? & Emr & _).
    rewrite Ems, Eks, Emr, Ekr. cbn [obind]. rewrite Ess, Esr. cbn [obind].
    eexists. split; [done|]. split.
    { unfold ready, view_of. cbn. by split_and!. }
    intros s' Ek Ef Er. rewrite Ef, Hn, Er. unfold key_bytes in *. rewrite Ek. rewrite decide_False by lia.
    assert (other (other (role s)) = role s) as -> by by destruct (role s).
    rewrite Ems, Eks, Emr, Ekr. cbn [obind]. rewrite Ess, Esr. cbn [obind].
    eexists. split; [done|]. done.
  - destruct (arcfour_init_ok (ntlmssp_weakend_key s true) (length_weakend_key s Hk)) as (st & Est & _).
    unfold seal_init. rewrite Est. cbn [obind]. eexists. split; [done|]. split.
    { unfold ready, view_of. cbn. by split_and!. }
    intros s' Ek Ef Er. rewrite Ef, Hn.
    assert (ntlmssp_weakend_key s' true = ntlmssp_weakend_key s true) as ->
      by (unfold ntlmssp_weakend_key, key_bytes; by rewrite Ek, Ef).
    unfold key_bytes in *. rewrite Ek. rewrite decide_False by lia. rewrite Est. cbn [obind].
    eexists. split; [done|]. done.
Qed.
End init.

(** ** A session: two ends and the packets in flight *)

Section session.
Context `{Host} `{Charsets} {A : Allocator} (mem : malloc_always A).

(** Each queue holds the packets one end has sent and the other has not received,
    with the data they carry. *)
Record world := World {
  client_end : gensec_ntlmssp_state;
  server_end : gensec_ntlmssp_state;
  to_server : list (list Z * list Z);
  to_client : list (list Z * list Z)
}.

Definition end_of (r : ntlmssp_role) (w : world) : gensec_ntlmssp_state :=
  match r with NTLMSSP_CLIENT => client_end w | NTLMSSP_SERVER => server_end w end.
Definition sent_by (r : ntlmssp_role) (w : world) : list (list Z * list Z) :=
  match r with NTLMSSP_CLIENT => to_server w | NTLMSSP_SERVER => to_client w end.
Definition set_end (r : ntlmssp_role) (s : gensec_ntlmssp_state) (w : world) : world :=
  match r with
  | NTLMSSP_CLIENT => World s (server_end w) (to_server w) (to_client w)
  | NTLMSSP_SERVER => World (client_end w) s (to_server w) (to_client w)
  end.
Definition set_sent (r : ntlmssp_role) (q : list (list Z * list Z)) (w : world) : world :=
  match r with
  | NTLMSSP_CLIENT => World (client_end w) (server_end w) q (to_client w)
  | NTLMSSP_SERVER => World (client_end w) (server_end w) (to_server w) q
  end.

(** NTLM2 ends send at any time; NTLM1 has one cipher stream for both directions, so
    its packets take turns. *)
Definition may_send (r : ntlmssp_role) (w : world) : Prop :=
  flag (neg_flags (end_of r w)) NTLMSSP_NEGOTIATE_NTLM2 = true \/ (to_server w = [] /\ to_client w = []).

(** One end wraps data and sends it, or receives the next packet. *)
Inductive step (w : world) : world -> Prop :=
| step_send r data s out :
    may_send r w -> gensec_ntlmssp_wrap A (end_of r w) data = Ret (NT_STATUS_OK, s, Some out) ->
    step w (set_end r s (set_sent r (sent_by r w ++ [(out, data)]) w))
| step_receive r out data rest nt_status s got :
    sent_by (other r) w = (out, data) :: rest ->
    gensec_ntlmssp_unwrap A (end_of r w) out = Ret (nt_status, s, got) ->
    step w (set_end r s (set_sent (other r) rest w)).

(** The packets of a queue are those a sender makes one after the other. *)
Inductive in_flight (flags : Z) : view -> list (list Z * list Z) -> view -> Prop :=
| flight_nil v : in_flight flags v [] v
| flight_cons v v1 v2 out data q :
    protect flags v data = (out, v1) -> in_flight flags v1 q v2 -> in_flight flags v ((out, data) :: q) v2.

Lemma flight_snoc flags v q v1 out data v2 :
  in_flight flags v q v1 -> protect flags v1 data = (out, v2) -> in_flight flags v (q ++ [(out, data)]) v2.
Proof. induction 1; intros; cbn [app]; econstructor; eauto using in_flight. Qed.

(** A direction in step: the sender's view is the receiver's after the packets in
    flight. *)
Definition linked (flags : Z) (r : ntlmssp_role) (w : world) : Prop :=
  exists v v', view_of NTLMSSP_RECEIVE (end_of (other r) w) = Some v /\
    view_of NTLMSSP_SEND (end_of r w) = Some v' /\ in_flight flags v (sent_by r w) v'.

Definition session_inv (flags : Z) (w : world) : Prop :=
  (forall r, ready (end_of r w) /\ neg_flags (end_of r w) = flags) /\
  if flag flags NTLMSSP_NEGOTIATE_NTLM2 then forall r, linked flags r w
  else exists r, linked flags r w /\ sent_by (other r) w = [] /\ (length (sent_by r w) <= 1)%nat.

Lemma other_other r : other (other r) = r.
Proof. by destruct r. Qed.
Lemma end_of_set r s w : end_of r (set_end r s w) = s.
Proof. by destruct r. Qed.
Lemma end_of_set_other r s w : end_of (other r) (set_end r s w) = end_of (other r) w.
Proof. by destruct r. Qed.
Lemma end_of_set_sent r r' q w : end_of r (set_sent r' q w) = end_of r w.
Proof. by destruct r, r'. Qed.
Lemma sent_by_set_end r r' s w : sent_by r (set_end r' s w) = sent_by r w.
Proof. by destruct r, r'. Qed.
Lemma sent_by_set r q w : sent_by r (set_sent r q w) = q.
Proof. by destruct r. Qed.
Lemma sent_by_set_other r q w : sent_by (other r) (set_sent r q w) = sent_by (other r) w.
Proof. by destruct r. Qed.

Lemma either_end (P : ntlmssp_role -> Prop) r : P r -> P (other r) -> forall r', P r'.
Proof. intros H1 H2 r'. by destruct r, r'. Qed.

(** NTLM2 keeps the two directions apart; NTLM1 has a single view. *)
Lemma view_other d v s :
  ready s -> flag (neg_flags s) NTLMSSP_NEGOTIATE_NTLM2 = true ->
  forall d', d' <> d -> view_of d' (with_view d v s) = view_of d' s.
Proof.
  intros (_ & _ & _ & Hc) Hn d' Hd. unfold view_of, with_view in *. destruct (crypt s) as [|c|[]] eqn:E; [done|congruence|].
  by destruct d, d'.
Qed.

Lemma view_single s d d' :
  ready s -> flag (neg_flags s) NTLMSSP_NEGOTIATE_NTLM2 = false -> view_of d s = view_of d' s.
Proof. intros (_ & _ & _ & Hc) Hn. unfold view_of. by destruct (crypt s) as [|c|c]; [done| |congruence]. Qed.

Lemma role_cases (r r' : ntlmssp_role) : r' = r \/ r' = other r.
Proof. destruct r, r'; auto. Qed.

(** A linked direction with nothing in flight can be read from either end. *)
Lemma linked_empty flags r r' w :
  (forall r, ready (end_of r w) /\ neg_flags (end_of r w) = flags) ->
  flag flags NTLMSSP_NEGOTIATE_NTLM2 = false ->
  linked flags r w -> to_server w = [] -> to_client w = [] -> linked flags r' w.
Proof.
  intros Hrd Hn (v & v' & Hv & Hv' & Hf) Hs Hc. assert (forall r, sent_by r w = []) as Hq by (by intros []).
  rewrite Hq in Hf. inversion Hf; subst v0 v'. exists v, v. rewrite Hq. split_and!; [| |constructor].
  all: pose proof (Hrd NTLMSSP_CLIENT) as [Hr1 Hf1]; pose proof (Hrd NTLMSSP_SERVER) as [Hr2 Hf2].
  all: pose proof (view_single (end_of NTLMSSP_CLIENT w) NTLMSSP_SEND NTLMSSP_RECEIVE Hr1 ltac:(by rewrite Hf1)).
  all: pose proof (view_single (end_of NTLMSSP_SERVER w) NTLMSSP_SEND NTLMSSP_RECEIVE Hr2 ltac:(by rewrite Hf2)).
  all: destruct r, r'; cbn [other] in *; congruence.
Qed.

Lemma inv_send flags w r data s out :
  session_inv flags w -> may_send r w ->
  gensec_ntlmssp_wrap A (end_of r w) data = Ret (NT_STATUS_OK, s, Some out) ->
  session_inv flags (set_end r s (set_sent r (sent_by r w ++ [(out, data)]) w)).
Proof.
  intros [Hrd Hinv] Hm Hw. destruct (Hrd r) as [Hr Hf].
  assert (linked flags r w /\ (flag flags NTLMSSP_NEGOTIATE_NTLM2 = false -> forall r, sent_by r w = [])) as [Hl Hempty].
  { unfold may_send in Hm. rewrite Hf in Hm. destruct (flag flags _) eqn:Hn; [by split|].
    destruct Hm as [Hm|[Hs Hc]]; [done|]. destruct Hinv as (r0 & Hl & _). split; [|by intros _ []].
    by eapply linked_empty. }
  pose proof Hl as (v & v' & Hv & Hv' & Hfl).
  rewrite (wrap_protect mem _ data v') in Hw by done. rewrite Hf in Hw.
  pose proof (protect_key flags v' data) as Hk. destruct (protect flags v' data) as [o v1] eqn:Ep. injection Hw as <- <-.
  cbn [snd] in Hk. set (q := sent_by r w ++ [(o, data)]). set (s := with_view NTLMSSP_SEND v1 (end_of r w)).
  assert (linked flags r (set_end r s (set_sent r q w))) as Hl'.
  { exists v, v1. rewrite end_of_set_other, end_of_set_sent, end_of_set, sent_by_set_end, sent_by_set.
    split_and!; [done|by eapply view_with|by eapply flight_snoc]. }
  split.
  - apply (either_end _ r).
    + rewrite end_of_set. unfold s. rewrite with_view_flags. split; [by apply with_view_ready|done].
    + rewrite end_of_set_other, end_of_set_sent. apply Hrd.
  - destruct (flag flags NTLMSSP_NEGOTIATE_NTLM2) eqn:Hn.
    + apply (either_end _ r); [done|]. destruct (Hinv (other r)) as (u & u' & Hu & Hu' & Hfl'). exists u, u'.
      rewrite other_other in Hu |- *. rewrite end_of_set, end_of_set_other, end_of_set_sent, sent_by_set_end, sent_by_set_other.
      split_and!; [|done|done]. unfold s. rewrite view_other; [done..|by rewrite Hf|done].
    + exists r. split_and!; [done| |].
      * rewrite sent_by_set_end, sent_by_set_other. by apply Hempty.
      * rewrite sent_by_set_end, sent_by_set. unfold q. by rewrite (Hempty eq_refl r).
Qed.

Lemma inv_receive flags w r out data rest :
  session_inv flags w -> sent_by (other r) w = (out, data) :: rest ->
  exists s, gensec_ntlmssp_unwrap A (end_of r w) out = Ret (NT_STATUS_OK, s, Some data) /\
  session_inv flags (set_end r s (set_sent (other r) rest w)).
Proof.
  intros [Hrd Hinv] Hq. destruct (Hrd r) as [Hr Hf].
  assert (linked flags (other r) w /\ (flag flags NTLMSSP_NEGOTIATE_NTLM2 = false -> rest = [] /\ sent_by r w = [])) as [Hl Hone].
  { destruct (flag flags _) eqn:Hn; [by split|]. destruct Hinv as (r0 & Hl & He & Hlen).
    destruct (role_cases r r0) as [->| ->]; [by rewrite He in Hq|]. rewrite Hq in Hlen. rewrite other_other in He.
    split; [done|]. intros _. split; [by destruct rest; [|simpl in Hlen; lia]|done]. }
  destruct Hl as (v & v' & Hv & Hv' & Hfl). rewrite other_other in Hv. rewrite Hq in Hfl.
  inversion Hfl as [|? v1 ? ? ? ? Ep Hfl']; subst.
  set (s := with_view NTLMSSP_RECEIVE v1 (end_of r w)). exists s.
  pose proof (protect_key (neg_flags (end_of r w)) v data) as Hk. rewrite Ep in Hk. cbn [snd] in Hk.
  split; [by eapply unwrap_protect|].
  assert (end_of (other r) (set_end r s (set_sent (other r) rest w)) = end_of (other r) w) as Eo
    by by rewrite end_of_set_other, end_of_set_sent.
  assert (linked (neg_flags (end_of r w)) (other r) (set_end r s (set_sent (other r) rest w))) as Hl'.
  { exists v1, v'. rewrite Eo, other_other, end_of_set, sent_by_set_end, sent_by_set.
    split_and!; [by eapply view_with|done|done]. }
  split.
  - apply (either_end _ r).
    + rewrite end_of_set. unfold s. rewrite with_view_flags. split; [by apply with_view_ready|done].
    + rewrite Eo. apply Hrd.
  - destruct (flag (neg_flags (end_of r w)) NTLMSSP_NEGOTIATE_NTLM2) eqn:Hn.
    + apply (either_end _ (other r)); [done|]. rewrite other_other. destruct (Hinv r) as (u & u' & Hu & Hu' & Hfu).
      exists u, u'. rewrite Eo, end_of_set, sent_by_set_end.
      replace (sent_by r (set_sent (other r) rest w)) with (sent_by r w)
        by by rewrite <- (other_other r) at 2; rewrite sent_by_set_other, other_other.
      split_and!; [done| |done]. unfold s. by rewrite view_other.
    + destruct (Hone eq_refl) as [-> Hsr]. exists (other r). split_and!; [done| |].
      * rewrite other_other, sent_by_set_end. rewrite <- (other_other r) at 1. by rewrite sent_by_set_other, other_other.
      * rewrite sent_by_set_end, sent_by_set. simpl. lia.
Qed.

Lemma inv_step flags w w' : session_inv flags w -> step w w' -> session_inv flags w'.
Proof.
  intros Hinv Hs. destruct Hs as [r data s out Hm Hw|r out data rest st s got Hq Hu].
  - by eapply inv_send.
  - destruct (inv_receive flags w r out data rest Hinv Hq) as (s' & Hu' & Hinv'). rewrite Hu in Hu'.
    by injection Hu' as _ -> _.
Qed.

End session.

(** Two ends with the same session key; the receiver expects packet 5. *)
Definition sample_state (r : ntlmssp_role) : gensec_ntlmssp_state :=
  State r NTLMSSP_DONE true false (Some (replicate 16 7)) 0x20080030 CryptZero.
Definition sample_view : view := View 5 (replicate 16 9) (default (ArcfourState [] 0 0) (arcfour_init [1])).
Definition sample_ready : gensec_ntlmssp_state :=
  set_crypt (CryptNtlm2 (Ntlm2Crypt 5 5 (replicate 16 9) (replicate 16 9) (Some (v_rc4 sample_view)) (Some (v_rc4 sample_view))))
    (sample_state NTLMSSP_CLIENT).

(** What a session delivers, whatever the order of the steps. *)
Definition delivers `{Host} `{Charsets} (A : Allocator) (c s : gensec_ntlmssp_state) : Prop :=
  forall w, rtc (step (A := A)) (World c s [] []) w ->
    (forall r data, may_send r w ->
     exists st out, gensec_ntlmssp_wrap A (end_of r w) data = Ret (NT_STATUS_OK, st, Some out)) /\
    (forall r out data rest, sent_by (other r) w = (out, data) :: rest ->
     exists st, gensec_ntlmssp_unwrap A (end_of r w) out = Ret (NT_STATUS_OK, st, Some data)).

Lemma sign_init_any `{Host} (A B : Allocator) s : malloc_always A -> malloc_always B -> ntlmssp_sign_init A s = ntlmssp_sign_init B s.
Proof. intros memA memB. unfold ntlmssp_sign_init. by rewrite !memA, !memB. Qed.

(** The two ends may be initialised with allocators of their own. *)
Lemma session_delivers `{Host} `{Charsets} (A B1 B2 : Allocator) (c s : gensec_ntlmssp_state) :
  malloc_always A -> malloc_always B1 -> malloc_always B2 -> role c = NTLMSSP_CLIENT -> role s = NTLMSSP_SERVER ->
  session_key s = session_key c -> neg_flags s = neg_flags c -> (8 <= length (key_bytes c))%nat ->
  exists c' s', ntlmssp_sign_init B1 c = Ret (NT_STATUS_OK, c') /\ ntlmssp_sign_init B2 s = Ret (NT_STATUS_OK, s') /\ delivers A c' s'.
Proof.
  intros mem mem1 mem2 Hc Hs Hk Hf Hl. rewrite (sign_init_any B1 A c), (sign_init_any B2 A s) by done.
  destruct (sign_init_ok mem c Hl) as (cr & Ec & Hrc & Hpeer).
  destruct (Hpeer s Hk Hf) as (cr' & Es & Hfc & Hfs); [by rewrite Hs, Hc|].
  destruct (sign_init_ok mem s) as (cr2 & Es2 & Hrs & _); [unfold key_bytes in *; by rewrite Hk|].
  assert (set_crypt cr2 s = set_crypt cr' s) as E by congruence.
  rewrite E in Hrs. exists (set_crypt cr c), (set_crypt cr' s). split_and!; [done..|].
  assert (session_inv (neg_flags c) (World (set_crypt cr c) (set_crypt cr' s) [] [])) as H0'.
  { split.
    { apply (either_end _ NTLMSSP_CLIENT); cbn [end_of other client_end server_end neg_flags set_crypt]; by split. }
    assert (forall r, linked (neg_flags c) r (World (set_crypt cr c) (set_crypt cr' s) [] [])) as Hl0.
    { pose proof Hrc as (_ & (v1 & Hv1) & _). pose proof Hrs as (_ & (v2 & Hv2) & _).
      apply (either_end _ NTLMSSP_CLIENT).
      - exists v1, v1. cbn [end_of other client_end server_end sent_by to_server]. split_and!; [by rewrite <- Hfc|done|constructor].
      - exists v2, v2. cbn [end_of other client_end server_end sent_by to_client]. split_and!; [by rewrite <- Hfs|done|constructor]. }
    destruct (flag _ _); [done|]. exists NTLMSSP_CLIENT. split_and!; [done..|simpl; lia]. }
  intros w Hw. assert (session_inv (neg_flags c) w) as Hinv.
  { revert H0'. induction Hw as [|w1 w2 w3 Hst _ IH]; [done|]. intros H1'. by apply IH, (inv_step mem _ w1). }
  split.
  - intros r data _. destruct Hinv as [Hrd _]. destruct (Hrd r) as [Hr _]. pose proof Hr as (_ & (v & Hv) & _).
    rewrite (wrap_protect mem _ data v) by done. destruct (protect _ v data) as [out v']. by eexists _, out.
  - intros r out data rest Hq. destruct (inv_receive mem _ w r out data rest Hinv Hq) as (st & Hu & _). by exists st.
Qed.

(** C6: after [ntlmssp_sign_init] at a client and a server with the same session key
    and flags, whatever the order in which the ends send and receive (any order with
    NTLM2, taking turns with NTLM1), wrapping never fails and every packet is
    unwrapped by the other end to exactly the data it carries: the keys, the sequence
    numbers and the cipher streams of the two ends stay in step. *)
Theorem ntlmssp_session_delivers `{Host} `{Charsets} (A : Allocator) (c s : gensec_ntlmssp_state) :
  malloc_always A -> role c = NTLMSSP_CLIENT -> role s = NTLMSSP_SERVER ->
  session_key s = session_key c -> neg_flags s = neg_flags c -> (8 <= length (key_bytes c))%nat ->
  exists c' s', ntlmssp_sign_init A c = Ret (NT_STATUS_OK, c') /\ ntlmssp_sign_init A s = Ret (NT_STATUS_OK, s') /\
  forall w, rtc (step (A := A)) (World c' s' [] []) w ->
    (forall r data, may_send r w ->
     exists st out, gensec_ntlmssp_wrap A (end_of r w) data = Ret (NT_STATUS_OK, st, Some out)) /\
    (forall r out data rest, sent_by (other r) w = (out, data) :: rest ->
     exists st, gensec_ntlmssp_unwrap A (end_of r w) out = Ret (NT_STATUS_OK, st, Some data)).
Proof.
  intros mem Hc Hs Hk Hf Hl. destruct (session_delivers A A A c s mem mem mem Hc Hs Hk Hf Hl) as (c' & s' & Ec & Es & Hw).
  by exists c', s'.
Qed.

Lemma ntlmssp_session_delivers_witness :
  exists c' s',
    @ntlmssp_sign_init false calloc (sample_state NTLMSSP_CLIENT) = Ret (NT_STATUS_OK, c') /\
    @ntlmssp_sign_init false calloc (sample_state NTLMSSP_SERVER) = Ret (NT_STATUS_OK, s') /\
    exists st out, @gensec_ntlmssp_wrap false utf8_charsets calloc c' [1; 2; 3] = Ret (NT_STATUS_OK, st, Some out).
Proof.
  destruct (@ntlmssp_session_delivers false utf8_charsets calloc (sample_state NTLMSSP_CLIENT) (sample_state NTLMSSP_SERVER))
    as (c' & s' & Hc & Hs & Hw); [done | done | done | done | done | by_eval |].
  exists c', s'. split; [exact Hc | split; [exact Hs |]].
  destruct (Hw (World c' s' [] []) (rtc_refl _ _)) as [Hsend _].
  apply (Hsend NTLMSSP_CLIENT [1; 2; 3]). right. split; reflexivity.
Defined.

(** *** The verdict on a packet *)

Lemma unwrap_verdict `{Host} `{Charsets} {A : Allocator} s v inp :
  malloc_always A -> ready s -> view_of NTLMSSP_RECEIVE s = Some v -> (NTLMSSP_SIG_SIZE <= length inp)%nat ->
  flag (neg_flags s) NTLMSSP_NEGOTIATE_SEAL || flag (neg_flags s) NTLMSSP_NEGOTIATE_SIGN = true ->
  exists v1 data, v_seq v1 = v_seq v /\ v_key v1 = v_key v /\
    gensec_ntlmssp_unwrap A s inp =
    let '(expected, v') := signature (neg_flags s) v1 data data in
    Ret (if accepted (neg_flags s) expected (take NTLMSSP_SIG_SIZE inp) then NT_STATUS_OK else NT_STATUS_ACCESS_DENIED,
         with_view NTLMSSP_RECEIVE v' s, Some data).
Proof.
  intros mem Hrd Hv Hl Hf. pose proof (later_always 1 A mem) as mem1. pose proof Hrd as (Hk & _).
  unfold gensec_ntlmssp_unwrap. rewrite have_seal, have_sign by done. rewrite (mem 0%nat), !decide_False by lia.
  set (d := drop NTLMSSP_SIG_SIZE inp).
  destruct (flag (neg_flags s) NTLMSSP_NEGOTIATE_SEAL); [|destruct (flag _ NTLMSSP_NEGOTIATE_SIGN); [|done]].
  - rewrite (unseal_packet_signature mem1 _ _ _ _ _ v), slice_all by done.
    pose proof (crypt_sbox_length d (v_rc4 v)) as Hd. destruct (arcfour_crypt_sbox (v_rc4 v) d) as [e rc4]. cbn [fst] in Hd.
    cbv zeta. rewrite splice_full by done. rewrite <- Hd, slice_all.
    exists (View (v_seq v) (v_key v) rc4), e. split_and!; [done..|]. by destruct (signature _ _ _ _).
  - rewrite (check_packet_signature mem1 _ _ _ _ _ v), slice_all by done.
    exists v, d. split_and!; [done..|]. by destruct (signature _ _ _ _).
Qed.

(** The sequence number is in clear in an NTLM2 signature. *)
Lemma accepted_sequence `{Host} flags v data sig :
  flag flags NTLMSSP_NEGOTIATE_NTLM2 = true -> accepted flags (signature flags v data data).1 sig = true ->
  slice 12 4 sig = le 4 (v_seq v).
Proof.
  intros Hn. unfold accepted. rewrite Hn. intros [_ Heq%bool_decide_eq_true]%andb_true_iff. rewrite !drop_0 in Heq.
  rewrite <- Heq. unfold signature. rewrite Hn. destruct (rc4_if _ _ _) as [mac st] eqn:E. cbn [fst].
  apply rc4_if_length in E. rewrite length_take, length_packet_digest in E.
  unfold slice. rewrite app_assoc, drop_app_length' by (by rewrite length_app, length_le, E).
  apply take_ge. by rewrite length_le.
Qed.

Lemma slice_take {X} (l : list X) ofs n k : (ofs + n <= k)%nat -> slice ofs n (take k l) = slice ofs n l.
Proof. intros. unfold slice. rewrite skipn_firstn_comm, take_take. f_equal. lia. Qed.

Lemma next_number q : is_u32 q -> le 4 q <> le 4 (u32 (q + 1)).
Proof.
  intros Hq E. apply le_inj in E; [|done|apply u32_range]. unfold u32 in E. unfold is_u in Hq.
  destruct (decide (q + 1 = 2 ^ 32)) as [Eq|]; [rewrite Eq, Z.mod_same in E; lia|].
  rewrite Z.mod_small in E; lia.
Qed.

(** An NTLM2 end refuses every packet that does not carry the sequence number it
    expects, and advances past it; so a packet it has accepted is refused when it is
    replayed. *)
Theorem ntlm2_refuses_replay `{Host} `{Charsets} (A : Allocator) (s : gensec_ntlmssp_state) (v : view) (inp : list Z) :
  malloc_always A -> ready s -> flag (neg_flags s) NTLMSSP_NEGOTIATE_NTLM2 = true ->
  flag (neg_flags s) NTLMSSP_NEGOTIATE_SEAL || flag (neg_flags s) NTLMSSP_NEGOTIATE_SIGN = true ->
  view_of NTLMSSP_RECEIVE s = Some v -> is_u32 (v_seq v) -> (NTLMSSP_SIG_SIZE <= length inp)%nat ->
  exists st s' v' got, gensec_ntlmssp_unwrap A s inp = Ret (st, s', got) /\
    view_of NTLMSSP_RECEIVE s' = Some v' /\ v_seq v' = u32 (v_seq v + 1) /\
    (slice 12 4 inp <> le 4 (v_seq v) -> st = NT_STATUS_ACCESS_DENIED) /\
    (st = NT_STATUS_OK -> exists s'' got', gensec_ntlmssp_unwrap A s' inp = Ret (NT_STATUS_ACCESS_DENIED, s'', got')).
Proof.
  intros mem Hrd Hn Hf Hv Hq Hl.
  destruct (unwrap_verdict s v inp mem Hrd Hv Hl Hf) as (v1 & data & Hs1 & Hk1 & E).
  pose proof (accepted_sequence (neg_flags s) v1 data (take NTLMSSP_SIG_SIZE inp) Hn) as Hseq.
  pose proof (signature_key (neg_flags s) v1 data data) as Hk2. pose proof (signature_seq (neg_flags s) v1 data data) as Hs2.
  destruct (signature (neg_flags s) v1 data data) as [expected v']. cbn [fst snd] in *. rewrite Hs1 in *.
  rewrite slice_take in Hseq by (unfold NTLMSSP_SIG_SIZE; lia).
  assert (view_of NTLMSSP_RECEIVE (with_view NTLMSSP_RECEIVE v' s) = Some v') as Hv'
    by (eapply view_with; [done|congruence]).
  eexists _, _, v', _. split_and!; [exact E|done|done| |].
  - intros Hne. destruct (accepted _ _ _); [by destruct Hne; apply Hseq|done].
  - intros Hok. destruct (accepted _ _ _) eqn:Ea; [|done].
    destruct (unwrap_verdict (with_view NTLMSSP_RECEIVE v' s) v' inp mem) as (v2 & data2 & Hs3 & _ & E2);
      [by apply with_view_ready|done|done|by rewrite with_view_flags|].
    rewrite with_view_flags in E2.
    pose proof (accepted_sequence (neg_flags s) v2 data2 (take NTLMSSP_SIG_SIZE inp) Hn) as Hseq2.
    destruct (signature (neg_flags s) v2 data2 data2) as [expected2 v'']. cbn [fst] in *.
    rewrite slice_take in Hseq2 by (unfold NTLMSSP_SIG_SIZE; lia).
    eexists _, _. rewrite E2. destruct (accepted (neg_flags s) expected2 _); [|reflexivity].
    exfalso. apply (next_number (v_seq v) Hq). rewrite <- Hs2, <- Hs3, <- Hseq2 by done. by symmetry; apply Hseq.
Qed.

Lemma ntlm2_refuses_replay_witness :
  exists s' got, @gensec_ntlmssp_unwrap false utf8_charsets calloc sample_ready (replicate 20 0) =
    Ret (NT_STATUS_ACCESS_DENIED, s', got).
Proof.
  destruct (@ntlm2_refuses_replay false utf8_charsets calloc sample_ready sample_view (replicate 20 0))
    as (st & s' & v' & got & E & _ & _ & Hd & _);
    [done | split_and!; [done | by eexists | by eexists | reflexivity] | reflexivity | reflexivity | reflexivity
    | by_eval | by_eval |].
  rewrite Hd in E by by_eval. exists s', got. exact E.
Defined.

(** Sealing changes only the data inside the buffer, and the receiver whose view
    faces the sender's unseals it to the original buffer, header included; the views
    face each other again.  With NTLM2 and no key exchange the signature is the
    version, the first half of the RFC 2104 HMAC-MD5 of the sequence number and the
    plain buffer, and the number. *)
Theorem seal_unseal_packet `{Host} `{Charsets} (A : Allocator) (a b : gensec_ntlmssp_state) (v : view)
    (pdu : list Z) (ofs n : nat) :
  malloc_always A -> ready a -> ready b -> neg_flags b = neg_flags a ->
  view_of NTLMSSP_SEND a = Some v -> view_of NTLMSSP_RECEIVE b = Some v ->
  (ofs + n <= length pdu)%nat ->
  bytes pdu -> Z.of_nat (length pdu) < 2 ^ 60 -> bytes (v_key v) -> (length (v_key v) <= 64)%nat ->
  exists a' b' c sig,
    gensec_ntlmssp_seal_packet A a pdu ofs n = Ret (NT_STATUS_OK, a', splice ofs c pdu, Some sig) /\
    length c = n /\ length sig = NTLMSSP_SIG_SIZE /\
    gensec_ntlmssp_unseal_packet A b (splice ofs c pdu) ofs n sig = Ret (NT_STATUS_OK, b', pdu) /\
    view_of NTLMSSP_SEND a' = view_of NTLMSSP_RECEIVE b' /\
    (flag (neg_flags a) NTLMSSP_NEGOTIATE_NTLM2 = true -> flag (neg_flags a) NTLMSSP_NEGOTIATE_KEY_EXCH = false ->
     sig = le 4 1 ++ take 8 (rfc2104_hmac md5_spec (v_key v) (le 4 (v_seq v) ++ pdu)) ++ le 4 (v_seq v)).
Proof.
  intros mem Ha Hb Hf Hva Hvb Hofs Hbytes Hlen Hkb Hkl.
  rewrite (seal_packet_sealed mem _ _ _ _ v) by done. unfold sealed. set (d := slice ofs n pdu).
  assert (length d = n) as Hd by (by apply length_slice).
  pose proof (crypt_sbox_length d (v_rc4 v)) as Hc. destruct (arcfour_crypt_sbox (v_rc4 v) d) as [c rc4] eqn:Ec. cbn [fst] in Hc.
  set (v1 := View (v_seq v) (v_key v) rc4).
  pose proof (length_signature (neg_flags a) v1 d pdu) as Hsl. pose proof (signature_key (neg_flags a) v1 d pdu) as Hsk.
  destruct (signature (neg_flags a) v1 d pdu) as [sig v'] eqn:Es. cbn [fst snd] in *.
  assert (length c = n) as Hcn by congruence.
  assert (slice ofs n (splice ofs c pdu) = c) as Esl by (rewrite <- Hcn; apply slice_splice; lia).
  assert (splice ofs d (splice ofs c pdu) = pdu) as Eback by (by apply splice_restore).
  eexists _, (with_view NTLMSSP_RECEIVE v' b), c, sig. split_and!; [done|done|done| | |].
  - rewrite (unseal_packet_signature mem _ _ _ _ _ v), Esl by done. rewrite (crypt_sbox_roundtrip _ _ _ _ Ec).
    cbv zeta. rewrite Eback, Hf. fold d v1. rewrite Es. by rewrite accepted_refl.
  - rewrite (view_with _ _ v), (view_with _ _ v); done.
  - intros Hn Hx. unfold signature in Es. rewrite Hn, Hx in Es. cbn [rc4_if] in Es. injection Es as <- _.
    do 2 f_equal. cbn [v_key v_seq v1]. rewrite packet_digest_rfc; [done..| |].
    + apply Forall_app. split; [apply le_bytes|done].
    + rewrite length_app, length_le. lia.
Qed.

Lemma seal_unseal_packet_witness :
  exists a' b' c sig,
    @gensec_ntlmssp_seal_packet false utf8_charsets calloc sample_ready [1; 2; 3; 4] 1 2 =
      Ret (NT_STATUS_OK, a', splice 1 c [1; 2; 3; 4], Some sig) /\
    @gensec_ntlmssp_unseal_packet false utf8_charsets calloc sample_ready (splice 1 c [1; 2; 3; 4]) 1 2 sig =
      Ret (NT_STATUS_OK, b', [1; 2; 3; 4]).
Proof.
  destruct (@seal_unseal_packet false utf8_charsets calloc sample_ready sample_ready sample_view [1; 2; 3; 4] 1 2)
    as (a' & b' & c & sig & Hs & _ & _ & Hu & _);
    [done | split_and!; [done | by eexists | by eexists | reflexivity]
    | split_and!; [done | by eexists | by eexists | reflexivity]
    | reflexivity | reflexivity | reflexivity | by_eval | by_eval | by_eval | by_eval | by_eval |].
  exists a', b', c, sig. split; [exact Hs | exact Hu].
Defined.

(** Without a session key nothing is checked, sealed or unsealed and the state
    does not change, and no signing state is set up from a short key; but signing does
    not test for the key, and faults on the state of a fresh NTLM1 exchange.  A failed
    allocation is reported by checking but not by sealing, which writes the encrypted
    checksum through the null signature; and the missing check of the second cipher
    state makes [ntlmssp_sign_init] initialise a null pointer. *)
Theorem ntlmssp_sign_errors `{Host} `{Charsets} (A : Allocator) (s : gensec_ntlmssp_state)
    (pdu sig : list Z) (ofs n : nat) :
  (key_bytes s = [] ->
   gensec_ntlmssp_check_packet A s pdu ofs n sig = Ret (NT_STATUS_NO_USER_SESSION_KEY, s) /\
   gensec_ntlmssp_seal_packet A s pdu ofs n = Ret (NT_STATUS_NO_USER_SESSION_KEY, s, pdu, None) /\
   gensec_ntlmssp_unseal_packet A s pdu ofs n sig = Ret (NT_STATUS_NO_USER_SESSION_KEY, s, pdu)) /\
  ((length (key_bytes s) < 8)%nat -> @malloc_ok A 0 = true ->
   ntlmssp_sign_init A s = Ret (NT_STATUS_NO_USER_SESSION_KEY, s)) /\
  (malloc_always A -> crypt s = CryptZero -> flag (neg_flags s) NTLMSSP_NEGOTIATE_NTLM2 = false ->
   gensec_ntlmssp_sign_packet A s pdu ofs n = Fault) /\
  (ready s -> flag (neg_flags s) NTLMSSP_NEGOTIATE_NTLM2 = true -> @malloc_ok A 0 = false ->
   gensec_ntlmssp_check_packet A s pdu ofs n sig = Ret (NT_STATUS_NO_MEMORY, s) /\
   (flag (neg_flags s) NTLMSSP_NEGOTIATE_KEY_EXCH = true -> gensec_ntlmssp_seal_packet A s pdu ofs n = Fault)) /\
  ((8 <= length (key_bytes s))%nat -> flag (neg_flags s) NTLMSSP_NEGOTIATE_NTLM2 = true ->
   (forall k, k <> 2%nat -> @malloc_ok A k = true) -> @malloc_ok A 2 = false -> ntlmssp_sign_init A s = Fault).
Proof.
  split_and!.
  - intros Hk. unfold gensec_ntlmssp_check_packet, gensec_ntlmssp_seal_packet, gensec_ntlmssp_unseal_packet.
    rewrite Hk. by rewrite !decide_True.
  - intros Hk Hm. unfold ntlmssp_sign_init. rewrite Hm. cbn [negb]. by rewrite decide_True.
  - intros mem Hc Hn. unfold gensec_ntlmssp_sign_packet, ntlmssp_make_packet_signature. rewrite Hn, Hc.
    cbn [as_ntlm obind seq_num]. rewrite words4 by done. cbn [obind arcfour].
    rewrite drop_app_length' by by rewrite length_le. reflexivity.
  - intros Hr Hn Hm. pose proof (key_nonempty s Hr). unfold gensec_ntlmssp_check_packet, gensec_ntlmssp_seal_packet.
    rewrite !decide_False by done. unfold ntlmssp_make_packet_signature. rewrite Hn, Hm. cbn [negb obind].
    split; [done|]. intros Hx. rewrite Hx. destruct Hr as (_ & Hs & _ & Hc). unfold view_of in Hs.
    destruct (crypt s) as [|c|c]; [done|congruence|]. cbn [as_ntlm2 obind].
    cbn [seal_of] in Hs. destruct (send_seal_arcfour_state c) as [st|]; [|by destruct Hs].
    rewrite crypt_sbox_some. by destruct (arcfour_crypt_sbox _ _).
  - intros Hk Hn Hm Hm2. unfold ntlmssp_sign_init. rewrite !Hm, Hm2 by done. cbn [negb].
    rewrite decide_False by lia. rewrite Hn.
    destruct (subkey_seal (weak_length (neg_flags s) (key_bytes s)) (seal_const (role s))) as (ks & ss & Eks & Ess).
    destruct (subkey_seal (weak_length (neg_flags s) (key_bytes s)) (seal_const (other (role s)))) as (kr & ? & Ekr & _).
    destruct (subkey_seal (key_bytes s) (sign_const (role s))) as (ms & ? & Ems & _).
    destruct (subkey_seal (key_bytes s) (sign_const (other (role s)))) as (mr & ? & Emr & _).
    rewrite Ems, Eks, Emr, Ekr. cbn [obind]. by rewrite Ess.
Qed.
