(* ===== verification/Time.v ===== *)
(** lib/util/time.c and lib/replace/timegm.c: the time formats of the protocols, NT
    time (100 ns since 1601, 64 bits), Unix time and the packed DOS dates. *)

From S2P Require Import Prelude Digest Byteorder.
Import Byteorder.

Module Time.

(** A time_t is 64 bits wide; TIME_T_MIN and TIME_T_MAX bound what nt_time_to_unix
    returns. *)
Definition TIME_T_MIN : Z := 0.
Definition TIME_T_MAX : Z := 2 ^ 31 - 1.
Definition TIME_FIXUP_CONSTANT : Z := 11644473600.

Definition get_time_t_max : Z := TIME_T_MAX.

Definition nt_time_to_unix (nt : Z) : Z :=
  if nt =? 0 then 0
  else if nt =? 2 ^ 64 - 1 then -1
  else
    let nt := u64 (nt + 1000 * 1000 * 10 / 2) in
    let nt := nt / (1000 * 1000 * 10) in
    let nt := u64 (nt - TIME_FIXUP_CONSTANT) in
    if (nt <? TIME_T_MIN) || (TIME_T_MAX <? nt) then 0 else nt.

Definition unix_to_nt_time (t : Z) : Z :=
  if t =? -1 then 2 ^ 64 - 1
  else if t =? 0 then 0
  else
    let t2 := u64 t in
    let t2 := u64 (t2 + TIME_FIXUP_CONSTANT) in
    u64 (t2 * (1000 * 1000 * 10)).

Definition null_time (t : Z) : bool := (t =? 0) || (t =? 0xFFFFFFFF) || (t =? -1).
Definition null_nttime (t : Z) : bool := (t =? 0) || (t =? 2 ^ 64 - 1).

(** struct tm, as far as it is used. *)
Record tm := Tm { tm_year : Z; tm_mon : Z; tm_mday : Z; tm_hour : Z; tm_min : Z; tm_sec : Z }.

Definition make_dos_date1 (t : tm) : Z :=
  let ret := u16 (Z.lor (Z.shiftr (tm_mon t + 1) 3) (Z.shiftl (tm_year t - 80) 1)) in
  u16 (Z.lor (Z.shiftl (Z.land ret 0xFF) 8) (Z.lor (tm_mday t) (Z.shiftl (Z.land (tm_mon t + 1) 0x7) 5))).

Definition make_dos_time1 (t : tm) : Z :=
  let ret := u16 (Z.lor (Z.land (Z.shiftr (tm_min t) 3) 0x7) (Z.shiftl (tm_hour t) 3)) in
  u16 (Z.lor (Z.shiftl (Z.land ret 0xFF) 8) (Z.lor (tm_sec t / 2) (Z.shiftl (Z.land (tm_min t) 0x7) 5))).

Definition interpret_dos_date (date : Z) : tm :=
  let p0 := Z.land date 0xFF in
  let p1 := Z.land (Z.shiftr (Z.land date 0xFF00) 8) 0xFF in
  let p2 := Z.land (Z.shiftr (Z.land date 0xFF0000) 16) 0xFF in
  let p3 := Z.land (Z.shiftr (Z.land date 0xFF000000) 24) 0xFF in
  Tm (Z.land (Z.shiftr p3 1) 0xFF + 80)
     (Z.land (Z.shiftr p2 5) 0xFF + Z.shiftl (Z.land p3 0x1) 3 - 1)
     (Z.land p2 0x1F)
     (Z.land (Z.shiftr p1 3) 0xFF)
     (Z.land (Z.shiftr p0 5) 0xFF + Z.shiftl (Z.land p1 0x7) 3)
     (2 * Z.land p0 0x1F).

(** lib/replace/timegm.c.  [y] is a year since 1900. *)
Definition is_leap (y : Z) : bool :=
  let y := y + 1900 in
  (y mod 4 =? 0) && (negb (y mod 100 =? 0) || (y mod 400 =? 0)).

Definition ndays (leap : bool) : list Z :=
  [31; if leap then 29 else 28; 31; 30; 31; 30; 31; 31; 30; 31; 30; 31].

(** [for (i = lo; i < hi; ++i) res += f(i)], [n] being [hi - lo]. *)
Fixpoint sum_up (f : Z -> Z) (lo : Z) (n : nat) (res : Z) : Z :=
  match n with O => res | S n => sum_up f (lo + 1) n (res + f lo) end.

Definition year_days (y : Z) : Z := if is_leap y then 366 else 365.
Definition month_days (leap : bool) (m : Z) : Z := default 0 (ndays leap !! Z.to_nat m).

Definition rep_timegm (t : tm) : Z :=
  if (12 <? tm_mon t) || (tm_mon t <? 0) || (31 <? tm_mday t) || (60 <? tm_min t) ||
     (60 <? tm_sec t) || (24 <? tm_hour t) then 0
  else
    let res := sum_up year_days 70 (Z.to_nat (tm_year t - 70)) 0 in
    let res := sum_up (month_days (is_leap (tm_year t))) 0 (Z.to_nat (tm_mon t)) res in
    let res := res + (tm_mday t - 1) in
    let res := res * 24 + tm_hour t in
    let res := res * 60 + tm_min t in
    res * 60 + tm_sec t.

(** gmtime of the C library, for times from 1970 on: the year and month are those that
    hold the day, counted from their starts. *)
Fixpoint find_period (len : Z -> Z) (p : Z) (days : Z) (fuel : nat) : Z * Z :=
  match fuel with
  | O => (p, days)
  | S fuel => if days <? len p then (p, days) else find_period len (p + 1) (days - len p) fuel
  end.

Definition gmtime (t : Z) : option tm :=
  if (t <? -67768040609740800) || (67768036191676799 <? t) then None
  else
    let days := t / 86400 in
    let cycles := Z.max 0 (- (days / 146097)) in            (* of 400 years, before 1970 *)
    let '(y, d) := find_period year_days (70 - 400 * cycles) (days + 146097 * cycles)
                     (Z.to_nat ((days + 146097 * cycles) / 365)) in
    let '(m, d) := find_period (month_days (is_leap y)) 0 d 11 in
    Some (Tm y m (d + 1) (t mod 86400 / 3600) (t mod 3600 / 60) (t mod 60)).

Definition make_dos_date (unixdate zone_offset : Z) : Z :=
  if unixdate =? 0 then 0
  else
    match gmtime (unixdate - zone_offset) with
    | None => 0xFFFFFFFF
    | Some t => Z.lor (u32 (Z.shiftl (Z.land (make_dos_date1 t) 0xFFFF) 16)) (make_dos_time1 t)
    end.

Definition push_dos_date (buf : list Z) (offset : nat) (unixdate zone_offset : Z) : list Z :=
  SIVAL buf offset (make_dos_date unixdate zone_offset).

(** [((x&0xFFFF)<<16) | ((x&0xFFFF0000)>>16)] *)
Definition swap_words (x : Z) : Z :=
  Z.lor (u32 (Z.shiftl (Z.land x 0xFFFF) 16)) (Z.shiftr (Z.land x 0xFFFF0000) 16).

Definition push_dos_date2 (buf : list Z) (offset : nat) (unixdate zone_offset : Z) : list Z :=
  SIVAL buf offset (swap_words (make_dos_date unixdate zone_offset)).

Definition push_dos_date3 (buf : list Z) (offset : nat) (unixdate zone_offset : Z) : list Z :=
  SIVAL buf offset (if null_time unixdate then unixdate else unixdate - zone_offset).

Definition pull_dos_date (buf : list Z) (offset : nat) (zone_offset : Z) : Z :=
  let dos_date := IVAL buf offset in
  if dos_date =? 0 then 0 else rep_timegm (interpret_dos_date dos_date) + zone_offset.

Definition pull_dos_date2 (buf : list Z) (offset : nat) (zone_offset : Z) : Z :=
  pull_dos_date (SIVAL (replicate 4 0) 0 (swap_words (IVAL buf offset))) 0 zone_offset.

Definition pull_dos_date3 (buf : list Z) (offset : nat) (zone_offset : Z) : Z :=
  let t := IVAL buf offset in
  if null_time t then t else t + zone_offset.

Definition push_nttime (base : list Z) (offset : nat) (t : Z) : list Z := SBVAL base offset t.
Definition pull_nttime (base : list Z) (offset : nat) : Z := BVAL base offset.

(** struct timeval *)
Record timeval := Timeval { tv_sec : Z; tv_usec : Z }.

Definition usec_time_diff (tv1 tv2 : timeval) : Z :=
  s64 ((tv_sec tv1 - tv_sec tv2) * 1000000 + (tv_usec tv1 - tv_usec tv2)).
Definition timeval_zero : timeval := Timeval 0 0.
Definition timeval_is_zero (tv : timeval) : bool := (tv_sec tv =? 0) && (tv_usec tv =? 0).
Definition timeval_set (secs usecs : Z) : timeval := Timeval secs usecs.

Definition timeval_add (tv : timeval) (secs usecs : Z) : timeval :=
  let sec := tv_sec tv + secs in
  let usec := tv_usec tv + usecs in
  Timeval (sec + Z.quot usec 1000000) (Z.rem usec 1000000).

Definition timeval_sum (tv1 tv2 : timeval) : timeval := timeval_add tv1 (u32 (tv_sec tv2)) (u32 (tv_usec tv2)).

Definition timeval_compare (tv1 tv2 : timeval) : Z :=
  if tv_sec tv2 <? tv_sec tv1 then 1
  else if tv_sec tv1 <? tv_sec tv2 then -1
  else if tv_usec tv2 <? tv_usec tv1 then 1
  else if tv_usec tv1 <? tv_usec tv2 then -1
  else 0.

(** [now] is the current time. *)
Definition timeval_expired (now tv : timeval) : bool :=
  if tv_sec tv <? tv_sec now then true
  else if tv_sec now <? tv_sec tv then false
  else tv_usec tv <=? tv_usec now.

Definition timeval_min (tv1 tv2 : timeval) : timeval :=
  if tv_sec tv1 <? tv_sec tv2 then tv1
  else if tv_sec tv2 <? tv_sec tv1 then tv2
  else if tv_usec tv1 <? tv_usec tv2 then tv1
  else tv2.
Definition timeval_max (tv1 tv2 : timeval) : timeval :=
  if tv_sec tv2 <? tv_sec tv1 then tv1
  else if tv_sec tv1 <? tv_sec tv2 then tv2
  else if tv_usec tv2 <? tv_usec tv1 then tv1
  else tv2.

Definition timeval_until (tv1 tv2 : timeval) : timeval :=
  if 0 <=? timeval_compare tv1 tv2 then timeval_zero
  else
    let sec := tv_sec tv2 - tv_sec tv1 in
    if tv_usec tv2 <? tv_usec tv1 then Timeval (sec - 1) (1000000 - (tv_usec tv1 - tv_usec tv2))
    else Timeval sec (tv_usec tv2 - tv_usec tv1).

Definition timeval_to_nttime (tv : timeval) : Z :=
  u64 (10 * u64 (tv_usec tv + u64 ((TIME_FIXUP_CONSTANT + u64 (tv_sec tv)) * 1000000))).

Definition nttime_to_timeval (t : Z) : timeval :=
  let t := u64 (t + 10 / 2) in
  let t := t / 10 in
  let t := u64 (t - TIME_FIXUP_CONSTANT * 1000 * 1000) in
  let sec := t / 1000000 in
  if (sec <? TIME_T_MIN) || (TIME_T_MAX <? sec) then Timeval 0 0
  else Timeval sec (t - sec * 1000000).

End Time.
Import Time.

(** ** NT time *)

(** Any NT time between 1970 and TIME_T_MAX converts to the nearest second. *)
Lemma nt_time_to_unix_range nt :
  TIME_FIXUP_CONSTANT * 10000000 <= nt + 5000000 < (TIME_FIXUP_CONSTANT + TIME_T_MAX + 1) * 10000000 ->
  nt_time_to_unix nt = (nt + 5000000) / 10000000 - TIME_FIXUP_CONSTANT.
Proof.
  unfold nt_time_to_unix, TIME_FIXUP_CONSTANT, TIME_T_MAX, TIME_T_MIN, u64. intros H.
  destruct (Z.eqb_spec nt 0); [lia|]. destruct (Z.eqb_spec nt (2 ^ 64 - 1)); [lia|]. cbv zeta.
  change (1000 * 1000 * 10 / 2) with 5000000. change (1000 * 1000 * 10) with 10000000.
  rewrite (Z.mod_small (nt + 5000000)) by lia.
  assert (11644473600 <= (nt + 5000000) / 10000000 <= 11644473600 + 2147483647) by dlia.
  rewrite Z.mod_small by lia.
  destruct (Z.ltb_spec ((nt + 5000000) / 10000000 - 11644473600) 0); [lia|].
  destruct (Z.ltb_spec (2 ^ 31 - 1) ((nt + 5000000) / 10000000 - 11644473600)); [lia|done].
Qed.

Lemma unix_to_nt_time_range t :
  0 < t <= TIME_T_MAX -> unix_to_nt_time t = (t + TIME_FIXUP_CONSTANT) * 10000000.
Proof.
  unfold unix_to_nt_time, TIME_FIXUP_CONSTANT, TIME_T_MAX, u64. intros H.
  destruct (Z.eqb_spec t (-1)); [lia|]. destruct (Z.eqb_spec t 0); [lia|]. cbv zeta.
  change (1000 * 1000 * 10) with 10000000. rewrite !Z.mod_small; lia.
Qed.

Lemma nttime_to_timeval_range t :
  TIME_FIXUP_CONSTANT * 10000000 <= t + 5 < (TIME_FIXUP_CONSTANT + TIME_T_MAX + 1) * 10000000 ->
  nttime_to_timeval t =
  let us := (t + 5) / 10 - TIME_FIXUP_CONSTANT * 1000000 in Timeval (us / 1000000) (us mod 1000000).
Proof.
  unfold nttime_to_timeval, TIME_FIXUP_CONSTANT, TIME_T_MAX, TIME_T_MIN, u64. intros H. cbv zeta.
  change (10 / 2) with 5. rewrite (Z.mod_small (t + 5)) by lia.
  change (11644473600 * 1000 * 1000) with 11644473600000000. change (11644473600 * 1000000) with 11644473600000000.
  assert (11644473600000000 <= (t + 5) / 10 < 11644473600000000 + 2147483648000000) by dlia.
  rewrite (Z.mod_small ((t + 5) / 10 - _)) by lia. set (us := (t + 5) / 10 - 11644473600000000).
  assert (0 <= us < 2147483648000000) by lia.
  assert (0 <= us / 1000000 <= 2147483647) by dlia.
  destruct (Z.ltb_spec (us / 1000000) 0); [lia|]. destruct (Z.ltb_spec (2 ^ 31 - 1) (us / 1000000)); [lia|].
  cbn [orb]. f_equal. rewrite Z.mod_eq; lia.
Qed.

(** Unix times up to TIME_T_MAX survive NT time and NT times convert to the
    nearest second; outside the range, and at 0, the answer is 0, and -1 stands for
    -1.  Timevals survive NT time to the microsecond, and an NT time survives a
    packet. *)
Theorem nt_time_conversions (t nt : Z) (tv : timeval) (buf : list Z) (pos : nat) :
  0 <= t <= TIME_T_MAX -> is_u64 nt -> 0 <= tv_sec tv <= TIME_T_MAX -> 0 <= tv_usec tv < 1000000 ->
  bytes buf -> (pos + 8 <= length buf)%nat ->
  nt_time_to_unix (unix_to_nt_time t) = t /\ nt_time_to_unix (unix_to_nt_time (-1)) = -1 /\
  -1 <= nt_time_to_unix nt <= TIME_T_MAX /\
  (0 < nt_time_to_unix nt -> Z.abs (unix_to_nt_time (nt_time_to_unix nt) - nt) <= 5000000) /\
  nttime_to_timeval (timeval_to_nttime tv) = tv /\
  pull_nttime (push_nttime buf pos nt) pos = nt.
Proof.
  intros Ht Hnt Hs Hu Hb Hp. refine (conj _ (conj _ (conj _ (conj _ (conj _ _))))).
  - destruct (decide (t = 0)) as [->|]; [done|]. rewrite unix_to_nt_time_range by lia.
    unfold TIME_FIXUP_CONSTANT, TIME_T_MAX in *.
    rewrite nt_time_to_unix_range by (unfold TIME_FIXUP_CONSTANT, TIME_T_MAX; lia). unfold TIME_FIXUP_CONSTANT. dlia.
  - done.
  - unfold nt_time_to_unix, TIME_T_MAX, TIME_T_MIN. repeat case_match; try lia.
  - intros Hpos. assert (TIME_FIXUP_CONSTANT * 10000000 <= nt + 5000000 < (TIME_FIXUP_CONSTANT + TIME_T_MAX + 1) * 10000000) as Hr.
    { revert Hpos. unfold nt_time_to_unix, TIME_FIXUP_CONSTANT, TIME_T_MAX, TIME_T_MIN, u64 in *. unfold is_u in Hnt.
      change (1000 * 1000 * 10 / 2) with 5000000. change (1000 * 1000 * 10) with 10000000. cbv zeta.
      destruct (Z.eqb_spec nt 0); [lia|]. destruct (Z.eqb_spec nt (2 ^ 64 - 1)); [lia|].
      destruct (_ || _) eqn:E; [lia|]. apply orb_false_elim in E as [E1 E2]. apply Z.ltb_ge in E1, E2. intros Hpos.
      change (2 ^ 64) with 18446744073709551616 in *. dlia. }
    rewrite nt_time_to_unix_range in * by done. rewrite unix_to_nt_time_range.
    + unfold TIME_FIXUP_CONSTANT in *. dlia.
    + split; [lia|]. unfold TIME_FIXUP_CONSTANT, TIME_T_MAX in *. dlia.
  - destruct tv as [s u]. cbn [tv_sec tv_usec] in *. unfold timeval_to_nttime, u64, TIME_T_MAX in *. cbn [tv_sec tv_usec].
    unfold TIME_FIXUP_CONSTANT. rewrite !Z.mod_small by (rewrite ?Z.mod_small; lia).
    rewrite nttime_to_timeval_range by (unfold TIME_FIXUP_CONSTANT, TIME_T_MAX; lia). cbv zeta. unfold TIME_FIXUP_CONSTANT.
    assert ((10 * (u + (11644473600 + s) * 1000000) + 5) / 10 - 11644473600 * 1000000 = s * 1000000 + u) as -> by dlia.
    f_equal; dlia.
  - unfold pull_nttime, push_nttime. rewrite BVAL_store by done. by apply u64_id.
Qed.

Lemma nt_time_conversions_witness :
  nt_time_to_unix (unix_to_nt_time 1700000000) = 1700000000 /\
  nttime_to_timeval (timeval_to_nttime (Timeval 1700000000 123456)) = Timeval 1700000000 123456.
Proof.
  destruct (nt_time_conversions 1700000000 133444736001234560 (Timeval 1700000000 123456) (replicate 8 0) 0)
    as (H1 & _ & _ & _ & H2 & _); [by_eval..|]. by split.
Defined.

(** ** The calendar *)

Lemma sum_up_add f n : forall lo res, sum_up f lo n res = res + sum_up f lo n 0.
Proof.
  induction n as [|n IH]; intros lo res; cbn [sum_up]; [lia|].
  rewrite (IH (lo + 1) (res + f lo)), (IH (lo + 1) (0 + f lo)). lia.
Qed.

Lemma sum_up_cons f lo n : sum_up f lo (S n) 0 = f lo + sum_up f (lo + 1) n 0.
Proof. cbn [sum_up]. rewrite sum_up_add. lia. Qed.

Lemma sum_up_S f n : forall lo, sum_up f lo (S n) 0 = sum_up f lo n 0 + f (lo + Z.of_nat n).
Proof.
  induction n as [|n IH]; intros lo; [cbn [sum_up]; replace (lo + Z.of_nat 0) with lo by lia; lia|].
  rewrite (sum_up_cons f lo (S n)), IH, (sum_up_cons f lo n).
  replace (lo + Z.of_nat (S n)) with (lo + 1 + Z.of_nat n) by lia. lia.
Qed.

Lemma sum_up_mono f lo n m : (forall p, 0 < f p) -> (n <= m)%nat -> sum_up f lo n 0 <= sum_up f lo m 0.
Proof. intros Hf Hnm. induction Hnm; [lia|]. rewrite sum_up_S. specialize (Hf (lo + Z.of_nat m)). lia. Qed.

Lemma sum_up_ge f lo n c : (forall p, c <= f p) -> c * Z.of_nat n <= sum_up f lo n 0.
Proof. intros Hf. induction n as [|n IH]; [cbn; lia|]. rewrite sum_up_S. specialize (Hf (lo + Z.of_nat n)). lia. Qed.

(** The period found starts [k] periods after [p], holds the day, and either the day
    falls in it or the fuel ended the search. *)
Lemma find_period_spec len fuel : forall p days,
  0 <= days ->
  exists k, (k <= fuel)%nat /\
    find_period len p days fuel = (p + Z.of_nat k, days - sum_up len p k 0) /\
    0 <= days - sum_up len p k 0 /\
    ((k < fuel)%nat -> days - sum_up len p k 0 < len (p + Z.of_nat k)).
Proof.
  induction fuel as [|fuel IH]; intros p days Hd; cbn [find_period].
  - exists 0%nat. cbn [sum_up]. split_and!; [lia|f_equal; lia|lia|lia].
  - destruct (Z.ltb_spec days (len p)).
    + exists 0%nat. cbn [sum_up]. split_and!; [lia|f_equal; lia|lia|]. intros _. replace (p + Z.of_nat 0) with p by lia. lia.
    + destruct (IH (p + 1) (days - len p) ltac:(lia)) as (k & Hk & E & H1 & H2).
      assert (sum_up len p (S k) 0 = len p + sum_up len (p + 1) k 0) as Es by apply sum_up_cons.
      exists (S k). rewrite E, Es. split_and!; [lia|f_equal; lia|lia|]. intros Hlt.
      specialize (H2 ltac:(lia)). replace (p + Z.of_nat (S k)) with (p + 1 + Z.of_nat k) by lia. lia.
Qed.

Lemma year_days_bounds y : 365 <= year_days y <= 366.
Proof. unfold year_days. destruct (is_leap y); lia. Qed.

(** The day of a year that [gmtime] reports lies in the month it reports. *)
Lemma month_of_day (leap : bool) (d : Z) :
  0 <= d < (if leap then 366 else 365) ->
  exists k, (k <= 11)%nat /\ find_period (month_days leap) 0 d 11 = (Z.of_nat k, d - sum_up (month_days leap) 0 k 0) /\
    0 <= d - sum_up (month_days leap) 0 k 0 < 31.
Proof.
  intros Hd. destruct (find_period_spec (month_days leap) 11 0 d ltac:(lia)) as (k & Hk & E & H1 & H2).
  exists k. split_and!; [done|done|done|].
  destruct (decide (k = 11)%nat) as [->|Hne].
  - assert (sum_up (month_days leap) 0 11 0 = if leap then 335 else 334) as Es by by destruct leap.
    rewrite Es in *. destruct leap; lia.
  - specialize (H2 ltac:(lia)). assert (month_days leap (0 + Z.of_nat k) <= 31); [|lia].
    do 12 (destruct k as [|k]; [destruct leap; vm_compute; congruence|]). lia.
Qed.

(** What [gmtime] reports of a time since 1970. *)
Record utc_of (t : Z) (u : tm) : Prop := {
  utc_year : 70 <= tm_year u;
  utc_mon : 0 <= tm_mon u <= 11;
  utc_mday : 1 <= tm_mday u <= 31;
  utc_hour : 0 <= tm_hour u < 24;
  utc_min : 0 <= tm_min u < 60;
  utc_sec : 0 <= tm_sec u < 60;
  utc_first : 86400 * sum_up year_days 70 (Z.to_nat (tm_year u - 70)) 0 <= t;
  utc_last : t < 86400 * sum_up year_days 70 (S (Z.to_nat (tm_year u - 70))) 0;
  utc_total : 86400 * (sum_up year_days 70 (Z.to_nat (tm_year u - 70)) 0 +
                       sum_up (month_days (is_leap (tm_year u))) 0 (Z.to_nat (tm_mon u)) 0 + (tm_mday u - 1)) +
              3600 * tm_hour u + 60 * tm_min u + tm_sec u = t
}.

Lemma gmtime_utc t : 0 <= t <= 67768036191676799 -> exists u, gmtime t = Some u /\ utc_of t u.
Proof.
  intros Ht. unfold gmtime. destruct (Z.ltb_spec t (-67768040609740800)); [lia|].
  destruct (Z.ltb_spec 67768036191676799 t); [lia|]. cbn [orb]. cbv zeta.
  assert (0 <= t / 86400) as Hd by (apply Z.div_pos; lia).
  assert (Z.max 0 (- (t / 86400 / 146097)) = 0) as -> by (pose proof (Z.div_pos (t / 86400) 146097); lia).
  rewrite !Z.mul_0_r, Z.add_0_r, Z.sub_0_r.
  destruct (find_period_spec year_days (Z.to_nat (t / 86400 / 365)) 70 (t / 86400) Hd) as (k & Hk & E & H1 & H2).
  rewrite E. set (d := t / 86400 - sum_up year_days 70 k 0) in *.
  assert (d < year_days (70 + Z.of_nat k)) as Hdy.
  { destruct (decide (k = Z.to_nat (t / 86400 / 365))) as [Ek|]; [|apply H2; lia].
    pose proof (sum_up_ge year_days 70 k 365 ltac:(intros; apply year_days_bounds)).
    pose proof (year_days_bounds (70 + Z.of_nat k)).
    assert (Z.of_nat k = t / 86400 / 365) by (rewrite Ek, Z2Nat.id; [done|apply Z.div_pos; lia]).
    pose proof (Z.div_mod (t / 86400) 365 ltac:(lia)). pose proof (Z.mod_pos_bound (t / 86400) 365 ltac:(lia)). lia. }
  destruct (month_of_day (is_leap (70 + Z.of_nat k)) d) as (m & Hm & Em & Hmd); [unfold year_days in Hdy; lia|].
  rewrite Em. eexists. split; [done|].
  pose proof (Z.div_mod t 86400 ltac:(lia)). pose proof (Z.mod_pos_bound t 86400 ltac:(lia)).
  pose proof (Z.mod_pos_bound t 3600 ltac:(lia)). pose proof (Z.mod_pos_bound t 60 ltac:(lia)).
  split; cbn [tm_year tm_mon tm_mday tm_hour tm_min tm_sec].
  all: rewrite ?Nat2Z.id; replace (Z.to_nat (70 + Z.of_nat k - 70)) with k by lia; rewrite ?sum_up_S; try lia; try dlia.
Qed.

Lemma timegm_utc t u : utc_of t u -> rep_timegm u = t.
Proof.
  intros []. unfold rep_timegm.
  repeat match goal with |- context [?a <? ?b] => rewrite (proj2 (Z.ltb_ge a b)) by lia end. cbn [orb]. cbv zeta.
  rewrite sum_up_add. lia.
Qed.

(** The years 1980 to 2107, which a DOS date can hold. *)
Definition dos_min : Z := 315532800.
Definition dos_max : Z := 4354819200.

Lemma dos_years t u : utc_of t u -> dos_min <= t < dos_max -> 80 <= tm_year u <= 207.
Proof.
  intros [Hy _ _ _ _ _ Hf Hl _] Ht. unfold dos_min, dos_max in Ht.
  assert (forall p, 0 < year_days p) as Hpos by (intros p; pose proof (year_days_bounds p); lia).
  split.
  - destruct (decide (80 <= tm_year u)); [done|]. exfalso.
    pose proof (sum_up_mono year_days 70 (S (Z.to_nat (tm_year u - 70))) 10 Hpos ltac:(lia)) as Hm.
    change (sum_up year_days 70 10 0) with 3652 in Hm. lia.
  - destruct (decide (tm_year u <= 207)); [done|]. exfalso.
    pose proof (sum_up_mono year_days 70 138 (Z.to_nat (tm_year u - 70)) Hpos ltac:(lia)) as Hm.
    assert (sum_up year_days 70 138 0 = 50403) as E by by vm_compute. rewrite E in Hm. lia.
Qed.

(** *** The packed words *)

Lemma seqZ_forallb (f : Z -> bool) lo n x : forallb f (seqZ lo n) = true -> lo <= x < lo + n -> f x = true.
Proof. rewrite forallb_forall. intros Hf Hx. apply Hf, list_elem_of_In, elem_of_seqZ. lia. Qed.

Lemma dos_date_word u :
  80 <= tm_year u <= 207 -> 0 <= tm_mon u <= 11 -> 1 <= tm_mday u <= 31 ->
  make_dos_date1 u = (tm_year u - 80) * 512 + (tm_mon u + 1) * 32 + tm_mday u.
Proof.
  destruct u as [y m d h mi s]. cbn [tm_year tm_mon tm_mday]. intros Hy Hm Hd.
  assert (forallb (fun y => forallb (fun m => forallb (fun d =>
    make_dos_date1 (Tm y m d 0 0 0) =? (y - 80) * 512 + (m + 1) * 32 + d) (seqZ 1 31)) (seqZ 0 12)) (seqZ 80 128) = true) as Hall
    by by vm_compute.
  apply (seqZ_forallb _ _ _ y) in Hall; [|lia]. apply (seqZ_forallb _ _ _ m) in Hall; [|lia].
  apply (seqZ_forallb _ _ _ d) in Hall; [|lia]. by apply Z.eqb_eq in Hall.
Qed.

Lemma dos_time_word u :
  0 <= tm_hour u < 24 -> 0 <= tm_min u < 60 -> 0 <= tm_sec u < 60 ->
  make_dos_time1 u = tm_hour u * 2048 + tm_min u * 32 + tm_sec u / 2.
Proof.
  destruct u as [y m d h mi s]. cbn [tm_hour tm_min tm_sec]. intros Hh Hm Hs.
  assert (forallb (fun h => forallb (fun m => forallb (fun s =>
    make_dos_time1 (Tm 0 0 0 h m s) =? h * 2048 + m * 32 + s / 2) (seqZ 0 60)) (seqZ 0 60)) (seqZ 0 24) = true) as Hall
    by by vm_compute.
  apply (seqZ_forallb _ _ _ h) in Hall; [|lia]. apply (seqZ_forallb _ _ _ mi) in Hall; [|lia].
  apply (seqZ_forallb _ _ _ s) in Hall; [|lia]. by apply Z.eqb_eq in Hall.
Qed.

Lemma land_mask x k : 0 <= k -> Z.land x (2 ^ k - 1) = x mod 2 ^ k.
Proof. intros. rewrite <- Z.land_ones by done. f_equal. rewrite Z.ones_equiv. lia. Qed.

(** Byte [k] of a 32-bit word, as [(x & (0xFF << 8k)) >> 8k & 0xFF] extracts it. *)
Lemma land_255 x k : 0 <= k -> Z.land (Z.shiftr (Z.land x (Z.shiftl 0xFF k)) k) 0xFF = (x / 2 ^ k) mod 256.
Proof.
  intros. change 0xFF with (2 ^ 8 - 1). rewrite land_mask by done.
  rewrite Z.shiftr_land, Z.shiftr_shiftl_l, Z.sub_diag, Z.shiftl_0_r by done.
  rewrite land_mask, Z.mod_mod, Z.shiftr_div_pow2 by done. done.
Qed.

Lemma interpret_fields x :
  is_u32 x ->
  interpret_dos_date x =
  Tm (x / 33554432 + 80) (x / 2097152 mod 16 - 1) (x / 65536 mod 32) (x / 2048 mod 32) (x / 32 mod 64) (2 * (x mod 32)).
Proof.
  intros Hx. unfold is_u in Hx. change (2 ^ 32) with 4294967296 in Hx. unfold interpret_dos_date.
  change 0xFF00 with (Z.shiftl 0xFF 8). change 0xFF0000 with (Z.shiftl 0xFF 16). change 0xFF000000 with (Z.shiftl 0xFF 24).
  rewrite !land_255 by done.
  change 0xFF with (2 ^ 8 - 1). change 0x7 with (2 ^ 3 - 1). change 0x1F with (2 ^ 5 - 1).
  replace (Z.land (x / 2 ^ 24 mod 256) 1) with (Z.land (x / 2 ^ 24 mod 256) (2 ^ 1 - 1)) by done.
  rewrite !land_mask, !Z.shiftr_div_pow2, !Z.shiftl_mul_pow2 by done.
  change (2 ^ 24) with 16777216. change (2 ^ 16) with 65536. change (2 ^ 8) with 256. change (2 ^ 5) with 32. change (2 ^ 3) with 8.
  change (2 ^ 1) with 2. f_equal; dlia.
Qed.

Lemma even_second t u : utc_of t u ->
  utc_of (t - t mod 2) (Tm (tm_year u) (tm_mon u) (tm_mday u) (tm_hour u) (tm_min u) (2 * (tm_sec u / 2))).
Proof.
  intros [Hy Hmo Hd Hh Hmi Hs Hf Hl Ht]. set (Y := sum_up year_days 70 (Z.to_nat (tm_year u - 70)) 0) in *.
  set (M := sum_up (month_days (is_leap (tm_year u))) 0 (Z.to_nat (tm_mon u)) 0) in *.
  set (Y1 := sum_up year_days 70 (S _) 0) in *.
  assert (t mod 2 = tm_sec u mod 2) as Hpar by dlia.
  assert (0 <= t mod 2 < 2) by (apply Z.mod_pos_bound; lia).
  split; cbn [tm_year tm_mon tm_mday tm_hour tm_min tm_sec]; fold Y M Y1; try done; try dlia.
Qed.

Lemma pack_words hi lo : is_u16 hi -> is_u16 lo ->
  Z.lor (u32 (Z.shiftl (Z.land hi 0xFFFF) 16)) lo = hi * 65536 + lo.
Proof.
  intros Hh Hl. unfold is_u in *. change 0xFFFF with (2 ^ 16 - 1). rewrite land_mask by done.
  rewrite (Z.mod_small hi) by lia. unfold u32. rewrite Z.shiftl_mul_pow2, Z.mod_small by lia.
  rewrite <- Z.shiftl_mul_pow2 by done. rewrite Z.lor_comm, lor_shiftl_add by (unfold is_u; lia). lia.
Qed.

Lemma swap_words_spec hi lo : is_u16 hi -> is_u16 lo -> swap_words (hi * 65536 + lo) = lo * 65536 + hi.
Proof.
  intros Hh Hl. unfold is_u in *. unfold swap_words.
  change 0xFFFF with (2 ^ 16 - 1). change 0xFFFF0000 with (Z.shiftl (2 ^ 16 - 1) 16).
  rewrite Z.shiftr_land, Z.shiftr_shiftl_l, Z.sub_diag, Z.shiftl_0_r by done. rewrite !land_mask by done.
  rewrite Z.shiftr_div_pow2 by done. change (2 ^ 16) with 65536 in *.
  assert ((hi * 65536 + lo) mod 65536 = lo) as -> by dlia.
  assert ((hi * 65536 + lo) / 65536 mod 65536 = hi) as -> by dlia.
  rewrite <- (Z.mod_small lo 65536), <- (land_mask lo 16) at 1 by lia.
  by apply pack_words.
Qed.

(** The word a DOS date packs, and what it is read back as. *)
Lemma make_dos_date_word t zone :
  t <> 0 -> dos_min <= t - zone < dos_max ->
  exists hi lo, make_dos_date t zone = hi * 65536 + lo /\ is_u16 hi /\ is_u16 lo /\ 0 < hi /\
    rep_timegm (interpret_dos_date (hi * 65536 + lo)) + zone = t - (t - zone) mod 2.
Proof.
  intros Hne Ht. destruct (gmtime_utc (t - zone)) as (u & Eu & Hu); [unfold dos_min, dos_max in Ht; lia|].
  pose proof (dos_years _ _ Hu Ht) as Hy. pose proof Hu as [_ Hmo Hd Hh Hmi Hs _ _ _].
  unfold make_dos_date. destruct (Z.eqb_spec t 0); [done|]. rewrite Eu.
  rewrite dos_date_word, dos_time_word by done.
  set (hi := (tm_year u - 80) * 512 + (tm_mon u + 1) * 32 + tm_mday u). set (lo := tm_hour u * 2048 + _ + _).
  assert (0 <= tm_sec u / 2 < 30) by dlia.
  assert (is_u16 hi /\ is_u16 lo /\ 0 < hi) as (Hhi & Hlo & Hpos) by (unfold is_u, hi, lo; lia).
  exists hi, lo. split_and!; [by apply pack_words|by unfold is_u in Hhi..|by unfold is_u in Hlo|by unfold is_u in Hlo|done|].
  rewrite interpret_fields by (unfold is_u in *; lia).
  assert (Tm ((hi * 65536 + lo) / 33554432 + 80) ((hi * 65536 + lo) / 2097152 mod 16 - 1)
            ((hi * 65536 + lo) / 65536 mod 32) ((hi * 65536 + lo) / 2048 mod 32) ((hi * 65536 + lo) / 32 mod 64)
            (2 * ((hi * 65536 + lo) mod 32)) =
          Tm (tm_year u) (tm_mon u) (tm_mday u) (tm_hour u) (tm_min u) (2 * (tm_sec u / 2))) as ->.
  { clear - Hy Hmo Hd Hh Hmi H. subst hi lo. f_equal; dlia. }
  rewrite (timegm_utc _ _ (even_second _ _ Hu)). lia.
Qed.

(** [rep_timegm] inverts [gmtime] on every time since 1970; and a time whose local
    form lies in the years a DOS date can hold survives both packed forms to the even
    second below it, and the 32-bit form exactly. *)
Theorem dos_dates_roundtrip (t0 t zone : Z) (buf : list Z) (pos : nat) :
  0 <= t0 <= 67768036191676799 -> t <> 0 -> dos_min <= t - zone < dos_max ->
  bytes buf -> (pos + 4 <= length buf)%nat ->
  (exists u, gmtime t0 = Some u /\ rep_timegm u = t0) /\
  pull_dos_date (push_dos_date buf pos t zone) pos zone = t - (t - zone) mod 2 /\
  pull_dos_date2 (push_dos_date2 buf pos t zone) pos zone = t - (t - zone) mod 2 /\
  (t - zone < 2 ^ 32 - 1 -> null_time t = false -> pull_dos_date3 (push_dos_date3 buf pos t zone) pos zone = t).
Proof.
  intros Ht0 Hne Ht Hb Hp.
  destruct (make_dos_date_word t zone Hne Ht) as (hi & lo & Ew & Hhi & Hlo & Hpos & Eback).
  assert (is_u32 (hi * 65536 + lo) /\ is_u32 (lo * 65536 + hi)) as [Hw Hw'] by (unfold is_u in *; lia).
  split_and!.
  - destruct (gmtime_utc t0 Ht0) as (u & E & Hu). exists u. split; [done|by apply timegm_utc].
  - unfold pull_dos_date, push_dos_date. rewrite IVAL_store, Ew, u32_id by done.
    destruct (Z.eqb_spec (hi * 65536 + lo) 0); [unfold is_u in *; lia|done].
  - unfold pull_dos_date2, push_dos_date2. rewrite IVAL_store, Ew, swap_words_spec, u32_id, swap_words_spec by done.
    unfold pull_dos_date. rewrite IVAL_store, u32_id by (done || by_eval || simpl; lia).
    destruct (Z.eqb_spec (hi * 65536 + lo) 0); [unfold is_u in *; lia|done].
  - intros Hlt Hnull. unfold pull_dos_date3, push_dos_date3. rewrite Hnull, IVAL_store by done.
    unfold dos_min in Ht. rewrite u32_id by (unfold is_u; lia). unfold null_time.
    destruct (Z.eqb_spec (t - zone) 0), (Z.eqb_spec (t - zone) 0xFFFFFFFF), (Z.eqb_spec (t - zone) (-1)); try lia.
    cbn [orb]. lia.
Qed.

Lemma dos_dates_roundtrip_witness :
  pull_dos_date (push_dos_date (replicate 4 0) 0 1700000001 3600) 0 3600 = 1700000000.
Proof. apply (dos_dates_roundtrip 0 1700000001 3600 (replicate 4 0) 0); by_eval. Defined.

(** ** Timevals, as microseconds *)

Definition micros (tv : timeval) : Z := tv_sec tv * 1000000 + tv_usec tv.
Definition normalised (tv : timeval) : Prop := 0 <= tv_usec tv < 1000000.

Lemma timeval_order tv1 tv2 :
  normalised tv1 -> normalised tv2 ->
  timeval_compare tv1 tv2 = Z.sgn (micros tv1 - micros tv2) /\
  timeval_expired tv1 tv2 = (micros tv2 <=? micros tv1) /\
  micros (timeval_min tv1 tv2) = Z.min (micros tv1) (micros tv2) /\
  micros (timeval_max tv1 tv2) = Z.max (micros tv1) (micros tv2).
Proof.
  destruct tv1 as [s1 u1], tv2 as [s2 u2]. unfold normalised, micros. cbn [tv_sec tv_usec]. intros H1 H2.
  unfold timeval_compare, timeval_expired, timeval_min, timeval_max. cbn [tv_sec tv_usec].
  split_and!; repeat case_match; cbn [tv_sec tv_usec]; lia.
Qed.

Lemma timeval_arithmetic tv1 tv2 secs usecs :
  normalised tv1 -> normalised tv2 -> 0 <= usecs ->
  normalised (timeval_add tv1 secs usecs) /\ micros (timeval_add tv1 secs usecs) = micros tv1 + secs * 1000000 + usecs /\
  normalised (timeval_until tv1 tv2) /\ micros (timeval_until tv1 tv2) = Z.max 0 (micros tv2 - micros tv1).
Proof.
  intros H1 H2 Hu. pose proof (timeval_order tv1 tv2 H1 H2) as [Hc _].
  destruct tv1 as [s1 u1], tv2 as [s2 u2]. unfold normalised, micros in *. cbn [tv_sec tv_usec] in *.
  unfold timeval_add, timeval_until. cbn [tv_sec tv_usec].
  rewrite Z.quot_div_nonneg, Z.rem_mod_nonneg by lia. rewrite Hc.
  split_and!; cbn [tv_sec tv_usec]; try (apply Z.mod_pos_bound; lia); try dlia;
    repeat case_match; cbn [tv_sec tv_usec timeval_zero]; lia.
Qed.
