(* ===== verification/Pushstring.v ===== *)
(** lib/charset/charcnv.c, the copies of a string into a buffer: push_ascii, push_ucs2
    and push_string.  They fold case with strupper_talloc of util_unistr.c. *)

From stdpp Require Import strings.
From S2P Require Import Prelude Digest Byteorder Ntstatus Iconv Charcnv Unistr.
Import Iconv Charcnv Unistr.

#[local] Open Scope outcome_scope.

Module Pushstring.
Section push.
Context `{Charsets} `{CaseTables} `{Allocator}.

(** The source without its terminator; [dest] is the whole destination.  The result is
    the count, -1 for an error, and the destination. *)
Definition push_ascii_plain (dest src : list Z) (flags : Z) : Z * list Z :=
  let src := if flag flags (Z.lor STR_TERMINATE STR_TERMINATE_ASCII) then src ++ [0] else src in
  let r := convert_string CH_UNIX CH_DOS src (length dest) in
  (r.1, splice 0 r.2 dest).

(** The copy through an uppercased string that both functions make for STR_UPPER. *)
Definition uppercased (push : list Z -> list Z -> Z -> outcome (Z * list Z)) (dest src : list Z) (flags : Z) :
    outcome (Z * list Z) :=
  if flag flags STR_UPPER then
    let* tmpbuf := strupper_talloc (Some src) in
    match tmpbuf with
    | None => Ret (-1, dest)
    | Some tmpbuf => push dest tmpbuf (Z.ldiff flags STR_UPPER)
    end
  else push dest src flags.

Definition push_ascii : list Z -> list Z -> Z -> outcome (Z * list Z) :=
  uppercased (fun dest src flags => Ret (push_ascii_plain dest src flags)).

(** [odd]: whether the destination address is odd (ucs2_align without STR_NOALIGN). A
    conversion error counts 0. *)
Definition push_ucs2_plain (odd : bool) (dest src : list Z) (flags : Z) : outcome (Z * list Z) :=
  let src := if flag flags STR_TERMINATE then src ++ [0] else src in
  let align := odd && negb (flag flags (Z.lor STR_NOALIGN STR_ASCII)) in
  if align && bool_decide (dest = []) then Fault          (* the pad byte is past the end *)
  else
    let pad := if align then 1%nat else 0%nat in
    let dest_len := (2 * ((length dest - pad) / 2))%nat in
    let dest := if align then <[0%nat := 0]> dest else dest in
    let r := convert_string CH_UNIX CH_UTF16 src dest_len in
    Ret (if r.1 =? -1 then 0 else Z.of_nat pad + r.1, splice pad r.2 dest).

Definition push_ucs2 (odd : bool) : list Z -> list Z -> Z -> outcome (Z * list Z) :=
  uppercased (push_ucs2_plain odd).

(** Neither flag is a panic. *)
Definition push_string (odd : bool) (dest src : list Z) (flags : Z) : outcome (Z * list Z) :=
  if flag flags STR_ASCII then push_ascii dest src flags
  else if flag flags STR_UNICODE then push_ucs2 odd dest src flags
  else Fault.
End push.
End Pushstring.
Import Pushstring.
