(* ===== verification/Smbencrypt.v ===== *)
(** libcli/auth/smbencrypt.c: the LM and NT password hashes, the NTLM and NTLMv2
    responses, the session keys and the password buffers. *)

From stdpp Require Import strings.
From S2P Require Import Prelude Digest Byteorder Ntstatus Md4 Md5 Hmac Des Iconv Charcnv Unistr Msrpc Time Pushstring.
Import Byteorder Hmac.HmacMd5 Des Iconv Charcnv Unistr Msrpc Time Pushstring.

#[local] Open Scope outcome_scope.

Module Smbencrypt.
Section smbencrypt.
Context `{Host} `{Charsets} `{CaseTables} (A : Allocator).

(** Passwords, names and domains are C strings without their terminators.  A hash is
    paired with the BOOL the code returns. *)
Definition E_md4hash (passwd : list Z) : outcome (bool * list Z) :=
  let* w := @push_ucs2_talloc _ A passwd in
  match w with
  | Some w =>
      if decide (length w < 2)%nat then Ret (false, Md4.mdfour passwd)
      else Ret (true, Md4.mdfour (take (length w - 2) w))
  | None => Ret (false, Md4.mdfour passwd)
  end.

Definition FSTRING_LEN : nat := 256.

(** strlen of a buffer that need not hold a terminator. *)
Definition strlen (buf : list Z) : outcome nat :=
  match list_find (fun b => b = 0) buf with Some (i, _) => Ret i | None => Fault end.

Definition E_deshash (passwd : list Z) : outcome (bool * list Z) :=
  let dospwd := replicate FSTRING_LEN 0 in
  let* r := @push_string _ _ A false dospwd passwd (Z.lor (Z.lor STR_ASCII STR_UPPER) STR_TERMINATE) in
  let dospwd := r.2 in
  let p16 := E_P16 (take 14 dospwd) in
  let* n := strlen dospwd in
  Ret (negb (14 <? n)%nat, p16).

Definition SMBOWFencrypt (passwd c8 : list Z) : list Z := E_P24 (take 16 passwd ++ replicate 5 0) c8.

Definition SMBencrypt (passwd c8 : list Z) : outcome (bool * list Z) :=
  let* r := E_deshash passwd in
  Ret (r.1, SMBOWFencrypt r.2 c8).

Definition SMBNTencrypt (passwd c8 : list Z) : outcome (list Z) :=
  let* r := E_md4hash passwd in
  Ret (SMBOWFencrypt r.2 c8).

(** [None] is False.  The allocations: the context, then those of the four calls. *)
Definition ntv2_owf_gen (owf : list Z) (user_in domain_in : option (list Z)) (upper_case_domain : bool) :
    outcome (option (list Z)) :=
  if negb (@malloc_ok A 0) then Ret None
  else
    let user_in := default [] user_in in
    let domain_in := default [] domain_in in
    let* user_in := @strupper_talloc _ _ (later 1 A) (Some user_in) in
    match user_in with
    | None => Ret None
    | Some user_in =>
        let* domain_in :=
          (if upper_case_domain then @strupper_talloc _ _ (later 2 A) (Some domain_in) else Ret (Some domain_in)) in
        match domain_in with
        | None => Ret None
        | Some domain_in =>
            let* user := @push_ucs2_talloc _ (later 3 A) user_in in
            match user with
            | None => Ret None
            | Some user =>
                let* domain := @push_ucs2_talloc _ (later 4 A) domain_in in
                match domain with
                | None => Ret None
                | Some domain =>
                    if decide (length user < 2 \/ length domain < 2)%nat then Fault      (* SMB_ASSERT *)
                    else
                      let ctx := hmac_md5_init_limK_to_64 (take 16 owf) in
                      let ctx := hmac_md5_update (take (length user - 2) user) ctx in
                      let ctx := hmac_md5_update (take (length domain - 2) domain) ctx in
                      Ret (Some (hmac_md5_final ctx))
                end
            end
        end
    end.

Definition SMBOWFencrypt_ntv2 (kr srv_chal smbcli_chal : list Z) : list Z :=
  let ctx := hmac_md5_init_limK_to_64 (take 16 kr) in
  hmac_md5_final (hmac_md5_update smbcli_chal (hmac_md5_update srv_chal ctx)).

Definition SMBsesskeygen_ntv2 (kr nt_resp : list Z) : list Z :=
  let ctx := hmac_md5_init_limK_to_64 (take 16 kr) in
  hmac_md5_final (hmac_md5_update (take 16 nt_resp) ctx).

Definition SMBsesskeygen_ntv1 (kr : list Z) : list Z := Md4.mdfour (take 16 kr).

Definition SMBsesskeygen_lm_sess_key (lm_hash lm_resp : list Z) : list Z :=
  let partial_lm_hash := take 8 lm_hash ++ replicate 6 0xbd in
  des_crypt56 lm_resp partial_lm_hash true ++ des_crypt56 lm_resp (drop 7 partial_lm_hash) true.

Definition NTLMSSP_NAME_TYPE_SERVER : Z := 1.
Definition NTLMSSP_NAME_TYPE_DOMAIN : Z := 2.

(** The blob stays empty when msrpc_gen fails. *)
Definition NTLMv2_generate_names_blob (hostname domain : list Z) : outcome (list Z) :=
  let* r := @msrpc_gen _ A [Ga NTLMSSP_NAME_TYPE_DOMAIN domain; Ga NTLMSSP_NAME_TYPE_SERVER hostname; Ga 0 []] in
  Ret (default [] r).

(** [now] is time(NULL) and [client_chal] the eight random bytes. *)
Definition NTLMv2_generate_client_data (B : Allocator) (now : Z) (client_chal names_blob : list Z) : outcome (list Z) :=
  let long_date := push_nttime (replicate 8 0) 0 (unix_to_nt_time now) in
  let* r := @msrpc_gen _ B [Gd 0x00000101; Gd 0; Gb long_date; Gb client_chal; Gd 0; Gb names_blob] in
  Ret (default [] r).

(** A failed allocation of the response is written through. *)
Definition NTLMv2_generate_response (B : Allocator) (now : Z) (client_chal ntlm_v2_hash server_chal names_blob : list Z) :
    outcome (list Z) :=
  if negb (@malloc_ok B 0) then Ret []
  else
    let* client_data := NTLMv2_generate_client_data (later 1 B) now client_chal names_blob in
    let ntlmv2_response := SMBOWFencrypt_ntv2 ntlm_v2_hash server_chal client_data in
    if negb (@malloc_ok B 10) then Fault
    else Ret (ntlmv2_response ++ client_data).

Definition LMv2_generate_response (B : Allocator) (client_data ntlm_v2_hash server_chal : list Z) : outcome (list Z) :=
  if negb (@malloc_ok B 0 && @malloc_ok B 1) then Fault
  else Ret (SMBOWFencrypt_ntv2 ntlm_v2_hash server_chal client_data ++ client_data).

(** The four output pointers: which of them are not null, and the blobs stored. *)
Record wanted := Wanted { want_lm : bool; want_nt : bool; want_lm_key : bool; want_user_key : bool }.
Record responses := Responses {
  lm_response : option (list Z);
  nt_response : option (list Z);
  lm_session_key : option (list Z);
  user_session_key : option (list Z)
}.

(** A response and its session key, when they are wanted.  The key reads 16 bytes of
    the response, and is written through its own allocation. *)
Definition response_and_key (want want_key : bool) (mem : bool) (kr : list Z) (response : outcome (list Z)) :
    outcome (option (list Z) * option (list Z)) :=
  if want then
    let* r := response in
    if want_key then
      if negb mem || bool_decide (length r < 16)%nat then Fault
      else Ret (Some r, Some (SMBsesskeygen_ntv2 kr r))
    else Ret (Some r, None)
  else Ret (None, None).

(** [client_chal] and [lm_client_data] are the random bytes of the two responses. *)
Definition SMBNTLMv2encrypt_hash (now : Z) (client_chal lm_client_data : list Z) (w : wanted)
    (user domain : option (list Z)) (nt_hash server_chal names_blob : list Z) : outcome (option responses) :=
  let* k := ntv2_owf_gen nt_hash user domain true in
  match k with
  | None => Ret None
  | Some ntlm_v2_hash =>
      let* (nt, user_key) :=
        response_and_key (want_nt w) (want_user_key w) (@malloc_ok A 30) ntlm_v2_hash
          (NTLMv2_generate_response (later 10 A) now client_chal ntlm_v2_hash server_chal names_blob) in
      let* (lm, lm_key) :=
        response_and_key (want_lm w) (want_lm_key w) (@malloc_ok A 50) ntlm_v2_hash
          (LMv2_generate_response (later 40 A) lm_client_data ntlm_v2_hash server_chal) in
      Ret (Some (Responses lm nt lm_key user_key))
  end.

Definition SMBNTLMv2encrypt (now : Z) (client_chal lm_client_data : list Z) (w : wanted)
    (user domain : option (list Z)) (password server_chal names_blob : list Z) : outcome (option responses) :=
  let* nt_hash := E_md4hash password in
  SMBNTLMv2encrypt_hash now client_chal lm_client_data w user domain nt_hash.2 server_chal names_blob.

(** [rnd] are the random bytes.  A count of -1 is the largest size_t: the copy is out
    of bounds. *)
Definition encode_pw_buffer (rnd buffer password : list Z) (string_flags : Z) : outcome (bool * list Z) :=
  let* r := @push_string _ _ A false (@fresh A 512) password (Z.lor string_flags STR_NOALIGN) in
  let '(new_pw_len, new_pw) := r in
  if new_pw_len <? 0 then Fault
  else
    let n := Z.to_nat new_pw_len in
    let buffer := splice (512 - n) (take n new_pw) buffer in
    let buffer := splice 0 (take (512 - n) rnd) buffer in
    Ret (true, SIVAL buffer 512 new_pw_len).

(** [None] is False; otherwise the count and the destination. *)
Definition decode_pw_buffer (in_buffer new_pwrd : list Z) (string_flags : Z) : outcome (option (Z * list Z)) :=
  let byte_len := s32 (IVAL in_buffer 512) in
  if (byte_len <? 0) || (512 <? byte_len) then Ret None
  else
    let n := Z.to_nat byte_len in
    let* r := pull_string false new_pwrd (slice (512 - n) n in_buffer) (Z.lor string_flags STR_NOALIGN) in
    Ret (Some (Z.of_nat r.1, r.2)).
End smbencrypt.
End Smbencrypt.
Import Smbencrypt.


(** ** The NTLMv2 responses *)

(** [MS-NLMP] 3.3.2: the key NTOWFv2 of a password, a user and a domain, the MAC of a
    response, and the client data of an NTLMv2 response. *)
Definition nt_owf (password : list Z) : list Z := md_hash md4_spec (utf16s password).
Definition domain_form `{CaseTables} (up : bool) (domain : list Z) : list Z := if up then map toupper_w domain else domain.
Definition owf_v2 `{CaseTables} (owf user domain : list Z) (up : bool) : list Z :=
  rfc2104_hmac md5_spec owf (utf16s (map toupper_w user) ++ utf16s (domain_form up domain)).
Definition ntowf_v2 `{CaseTables} (password user domain : list Z) : list Z := owf_v2 (nt_owf password) user domain true.
Definition proof_of (key server_chal client_data : list Z) : list Z :=
  rfc2104_hmac md5_spec key (server_chal ++ client_data).
Definition client_data_v2 (now : Z) (client_chal names_blob : list Z) : list Z :=
  le 4 0x101 ++ le 4 0 ++ le 8 (unix_to_nt_time now) ++ client_chal ++ le 4 0 ++ names_blob.

Lemma md5_mac key m : bytes (rfc2104_hmac md5_spec key m) /\ length (rfc2104_hmac md5_spec key m) = 16%nat.
Proof. split; [apply regs_le_bytes|apply regs_le_length]. Qed.

(** Two updates make one MAC. *)
Lemma hmac_md5_two `{Host} key a b :
  bytes key -> length key = 16%nat -> bytes a -> bytes b -> Z.of_nat (length a + length b) < 2 ^ 60 ->
  hmac_md5_final (hmac_md5_update b (hmac_md5_update a (hmac_md5_init_limK_to_64 (take 16 key)))) =
  rfc2104_hmac md5_spec key (a ++ b).
Proof.
  intros Hk Hl Ha Hb Hn. rewrite take_ge by lia.
  pose proof (hmac_md5_stream key [a; b] Hk ltac:(lia)) as E. cbn [fold_left List.concat] in E. rewrite app_nil_r in E.
  apply E; [by apply Forall_app|]. rewrite length_app. lia.
Qed.

Lemma hmac_md5_one `{Host} key a :
  bytes key -> length key = 16%nat -> bytes a -> Z.of_nat (length a) < 2 ^ 60 ->
  hmac_md5_final (hmac_md5_update a (hmac_md5_init_limK_to_64 (take 16 key))) = rfc2104_hmac md5_spec key a.
Proof.
  intros Hk Hl Ha Hn. rewrite take_ge by lia.
  pose proof (hmac_md5_stream key [a] Hk ltac:(lia)) as E. cbn [fold_left List.concat] in E. rewrite app_nil_r in E.
  apply E; [done|lia].
Qed.

Lemma push_nttime_le t : push_nttime (replicate 8 0) 0 t = le 8 t.
Proof.
  unfold push_nttime. rewrite SBVAL_splice by done. apply splice_full. by rewrite length_le.
Qed.

Lemma length_SMBOWFencrypt passwd c8 : length (SMBOWFencrypt passwd c8) = 24%nat.
Proof. apply length_E_P24. Qed.

#[local] Opaque hmac_md5_final hmac_md5_update hmac_md5_init_limK_to_64 rfc2104_hmac md_hash Md4.mdfour.

Section ntlmv2.
Context `{Host} `{Charsets} `{CaseTables} (A : Allocator).
Context (unix8 : unix_is_utf8) (mem : malloc_always A).
Context (upper_scalar : forall cp, scalar cp -> scalar (toupper_w cp)).
Context (table_bytes : forall t, upcase_table = Some t -> bytes t).

Lemma E_md4hash_utf8 password :
  Forall scalar password -> Z.of_nat (length (utf16s password)) < 2 ^ 28 ->
  E_md4hash A (utf8s password) = Ret (true, nt_owf password).
Proof.
  intros Hs Hl. unfold E_md4hash. rewrite push_ucs2_talloc_utf8 by (done || apply mem). cbn [obind].
  rewrite decide_False by (rewrite length_app; simpl; lia). rewrite length_app. cbn [length].
  rewrite Nat.add_sub, take_app_length. by rewrite mdfour_rfc.
Qed.

Lemma upper_scalars cps : Forall scalar cps -> Forall scalar (map toupper_w cps).
Proof. intros Hs. apply Forall_fmap. exact (List.Forall_impl _ upper_scalar Hs). Qed.

(** A wide string without the terminator push_ucs2_talloc adds. *)
Lemma drop_terminator cps : take (length (utf16s cps ++ [0; 0]) - 2) (utf16s cps ++ [0; 0]) = utf16s cps.
Proof. rewrite length_app. cbn [length]. by rewrite Nat.add_sub, take_app_length. Qed.

Lemma ntv2_owf_gen_utf8 owf user domain up :
  bytes owf -> length owf = 16%nat -> Forall scalar user -> Forall scalar domain ->
  Z.of_nat (length (utf16s (map toupper_w user)) + length (utf16s (domain_form up domain))) < 2 ^ 60 ->
  ntv2_owf_gen A owf (Some (utf8s user)) (Some (utf8s domain)) up = Ret (Some (owf_v2 owf user domain up)).
Proof.
  intros Ho Hl Hu Hd Hn. pose proof (upper_scalars user Hu) as Hu'.
  assert (Forall scalar (domain_form up domain)) as Hd' by (unfold domain_form; destruct up; [by apply upper_scalars|done]).
  unfold ntv2_owf_gen. rewrite mem. cbn [negb default]. cbv zeta. cbn [from_option id].
  rewrite strupper_talloc_utf8 by (done || apply later_always, mem). cbn [obind].
  assert ((if up then @strupper_talloc _ _ (later 2 A) (Some (utf8s domain)) else Ret (Some (utf8s domain))) =
          Ret (Some (utf8s (domain_form up domain)))) as ->.
  { unfold domain_form. destruct up; [|done]. by apply strupper_talloc_utf8; [..|apply later_always, mem|]. }
  cbn [obind]. rewrite push_ucs2_talloc_utf8 by (done || apply later_always, mem). cbn [obind].
  rewrite push_ucs2_talloc_utf8 by (done || apply later_always, mem). cbn [obind].
  rewrite decide_False by (rewrite !length_app; simpl; lia). rewrite !drop_terminator.
  do 2 f_equal. apply hmac_md5_two; [done|done|by apply utf16s_bytes|by apply utf16s_bytes|done].
Qed.

Lemma client_data_utf8 B now client_chal names_blob :
  malloc_always B ->
  NTLMv2_generate_client_data B now client_chal names_blob = Ret (client_data_v2 now client_chal names_blob).
Proof.
  intros HB. unfold NTLMv2_generate_client_data. cbv zeta. rewrite push_nttime_le.
  set (xs := [(Gd 0x101, []); (Gd 0, []); (Gb (le 8 (unix_to_nt_time now)), le 8 (unix_to_nt_time now));
              (Gb client_chal, client_chal); (Gd 0, []); (Gb names_blob, names_blob)]).
  rewrite (msrpc_gen_message _ xs) by (apply HB || done). cbn [obind default from_option id]. f_equal.
  unfold message, datas, client_data_v2, xs. cbn [heads head_of fmap list_fmap data_of mjoin list_join List.concat app].
  by rewrite !app_nil_r.
Qed.

Lemma smbowf_mac key server_chal client_data :
  bytes key -> length key = 16%nat -> bytes server_chal -> bytes client_data ->
  Z.of_nat (length server_chal + length client_data) < 2 ^ 60 ->
  SMBOWFencrypt_ntv2 key server_chal client_data = proof_of key server_chal client_data.
Proof. intros. by apply hmac_md5_two. Qed.

(** A response and the session key made from its first sixteen bytes. *)
Lemma response_and_key_mac want want_key key server_chal client_data :
  bytes key -> length key = 16%nat ->
  let p := proof_of key server_chal client_data in
  response_and_key want want_key true key (Ret (p ++ client_data)) =
  Ret (if want then Some (p ++ client_data) else None,
       if want && want_key then Some (rfc2104_hmac md5_spec key p) else None).
Proof.
  intros Hk Hl p. destruct (md5_mac key (server_chal ++ client_data)) as [Hpb Hpl].
  change (rfc2104_hmac md5_spec key (server_chal ++ client_data)) with p in Hpb, Hpl.
  unfold response_and_key. destruct want; [|done]. cbn [obind andb]. destruct want_key; [|done].
  rewrite bool_decide_eq_false_2 by (rewrite length_app; lia). cbn [negb orb].
  unfold SMBsesskeygen_ntv2. cbv zeta. rewrite (take_app_length' p) by done.
  by rewrite hmac_md5_one by (done || lia).
Qed.

Lemma client_data_v2_bytes now client_chal names_blob :
  bytes client_chal -> bytes names_blob -> bytes (client_data_v2 now client_chal names_blob).
Proof. intros. unfold client_data_v2. rewrite !Forall_app. split_and!; auto with word. Qed.

Lemma length_client_data_v2 now client_chal names_blob :
  length (client_data_v2 now client_chal names_blob) = (20 + length client_chal + length names_blob)%nat.
Proof. unfold client_data_v2. rewrite !length_app, !length_le. lia. Qed.

(** The responses and keys for a password hash. *)
Lemma v2encrypt_hash_utf8 now client_chal lm_data w nt_hash user domain server_chal names_blob :
  bytes nt_hash -> length nt_hash = 16%nat -> Forall scalar user -> Forall scalar domain ->
  Z.of_nat (length (utf16s (map toupper_w user)) + length (utf16s (map toupper_w domain))) < 2 ^ 60 ->
  bytes server_chal -> bytes client_chal -> bytes names_blob -> bytes lm_data ->
  Z.of_nat (20 + length client_chal + length server_chal + length names_blob + length lm_data) < 2 ^ 60 ->
  let key := owf_v2 nt_hash user domain true in
  let data := client_data_v2 now client_chal names_blob in
  let nt := proof_of key server_chal data in
  let lm := proof_of key server_chal lm_data in
  SMBNTLMv2encrypt_hash A now client_chal lm_data w (Some (utf8s user)) (Some (utf8s domain)) nt_hash server_chal names_blob =
  Ret (Some (Responses
    (if want_lm w then Some (lm ++ lm_data) else None)
    (if want_nt w then Some (nt ++ data) else None)
    (if want_lm w && want_lm_key w then Some (rfc2104_hmac md5_spec key lm) else None)
    (if want_nt w && want_user_key w then Some (rfc2104_hmac md5_spec key nt) else None))).
Proof.
  intros Hob Hol Hus Hdom Hul Hs Hc Hn Hl Hsz key data nt lm.
  destruct (md5_mac nt_hash (utf16s (map toupper_w user) ++ utf16s (map toupper_w domain))) as [Hkb Hkl].
  pose proof (client_data_v2_bytes now client_chal names_blob Hc Hn) as Hdb.
  pose proof (length_client_data_v2 now client_chal names_blob) as Hdl.
  change (rfc2104_hmac md5_spec nt_hash _) with key in Hkb, Hkl. fold data in Hdb, Hdl.
  unfold SMBNTLMv2encrypt_hash. rewrite ntv2_owf_gen_utf8 by done. cbn [obind]. fold key.
  unfold NTLMv2_generate_response, LMv2_generate_response.
  rewrite (client_data_utf8 (later 1 (later 10 A))) by by apply later_always, later_always.
  rewrite !(later_always _ _ mem), !mem. cbn [negb andb obind]. cbv zeta. fold data.
  rewrite !smbowf_mac by (done || lia). by rewrite !response_and_key_mac by done.
Qed.
End ntlmv2.

(** C29: SMBNTLMv2encrypt produces the responses of the NTLMv2 protocol: under the key
    NTOWFv2 - the HMAC-MD5, keyed by the MD4 of the UTF-16 password, of the upper-cased
    user and domain - each response is the MAC of the server challenge and the client
    data, followed by that data, and each session key is the MAC of the response's MAC.
    Exactly the responses asked for are stored, and a key only with its response. *)
Theorem ntlmv2_responses `{Host} `{Charsets} `{CaseTables} (A : Allocator) (now : Z)
    (client_chal lm_data : list Z) (w : wanted) (user domain password server_chal names_blob : list Z) :
  unix_is_utf8 -> malloc_always A ->
  (forall cp, scalar cp -> scalar (toupper_w cp)) -> (forall t, upcase_table = Some t -> bytes t) ->
  Forall scalar password -> Forall scalar user -> Forall scalar domain ->
  Z.of_nat (length (utf16s password)) < 2 ^ 28 ->
  Z.of_nat (length (utf16s (map toupper_w user)) + length (utf16s (map toupper_w domain))) < 2 ^ 60 ->
  bytes server_chal -> bytes client_chal -> bytes names_blob -> bytes lm_data ->
  Z.of_nat (20 + length client_chal + length server_chal + length names_blob + length lm_data) < 2 ^ 60 ->
  let key := ntowf_v2 password user domain in
  let data := client_data_v2 now client_chal names_blob in
  let nt := proof_of key server_chal data in
  let lm := proof_of key server_chal lm_data in
  SMBNTLMv2encrypt A now client_chal lm_data w (Some (utf8s user)) (Some (utf8s domain)) (utf8s password)
    server_chal names_blob =
  Ret (Some (Responses
    (if want_lm w then Some (lm ++ lm_data) else None)
    (if want_nt w then Some (nt ++ data) else None)
    (if want_lm w && want_lm_key w then Some (rfc2104_hmac md5_spec key lm) else None)
    (if want_nt w && want_user_key w then Some (rfc2104_hmac md5_spec key nt) else None))).
Proof.
  intros Hu Hm Hsc Ht Hp Hus Hdom Hpl Hul Hs Hc Hn Hl Hsz key data nt lm.
  destruct (md4_digest (utf16s password)) as [Hob Hol].
  unfold SMBNTLMv2encrypt. rewrite E_md4hash_utf8 by done. cbn [obind snd].
  exact (v2encrypt_hash_utf8 A Hu Hm Hsc Ht now client_chal lm_data w (nt_owf password) user domain server_chal names_blob
    Hob Hol Hus Hdom Hul Hs Hc Hn Hl Hsz).
Qed.

Lemma ntlmv2_responses_witness :
  exists r, @SMBNTLMv2encrypt false utf8_charsets no_tables calloc 1700000000 [1; 2; 3; 4; 5; 6; 7; 8] [8; 7; 6; 5; 4; 3; 2; 1]
    (Wanted true true true true) (Some (utf8s [85; 0xE9])) (Some (utf8s [68])) (utf8s [112; 119]) (replicate 8 0xAA) [0; 0; 0; 0] =
  Ret (Some r) /\ lm_session_key r <> None.
Proof.
  rewrite (@ntlmv2_responses false utf8_charsets no_tables calloc 1700000000 [1; 2; 3; 4; 5; 6; 7; 8] [8; 7; 6; 5; 4; 3; 2; 1]
    (Wanted true true true true) [85; 0xE9] [68] [112; 119] (replicate 8 0xAA) [0; 0; 0; 0]);
    [ eexists; split; [reflexivity|discriminate] | by left | done | apply no_tables_upper | done
    | repeat constructor; unfold scalar; lia .. | by_eval | by_eval | by_eval | by_eval | by_eval | by_eval | by_eval ].
Defined.

(** ** Password buffers *)

Section pwbuf.
Context `{Charsets} `{CaseTables} (A : Allocator) (unix8 : unix_is_utf8).

(** A string too long for its destination stops the conversion. *)
Lemma pull_overflow_loop cps : forall fuel room,
  Forall scalar cps -> (length (utf8s cps) <= fuel)%nat -> (room < length (utf16s cps))%nat ->
  match conv_loop utf8_pull_char 1 2 fuel (utf8s cps) room with
  | (_, e, inp, _) => e <> None \/ (0 < length inp)%nat
  end.
Proof.
  induction cps as [|cp cps IH]; intros fuel room Hs Hf Hr; [simpl in Hr; lia|].
  apply Forall_cons_iff in Hs as [Hcp Hs]. rewrite utf8s_cons in Hf |- *. rewrite utf16s_cons in Hr. rewrite length_app in Hf, Hr.
  pose proof (length_utf8 cp) as H8. pose proof (length_utf16le cp) as H16.
  destruct fuel as [|fuel]; [lia|]. cbn [conv_loop]. case_decide as Hd; [|right; rewrite length_app; lia].
  destruct (decide (length (utf16le cp) <= room)%nat) as [Hfit|Hno].
  - rewrite pull_scalar by done. rewrite drop_app_length.
    specialize (IH fuel (room - length (utf16le cp))%nat Hs ltac:(lia) ltac:(lia)).
    by destruct (conv_loop _ _ _ _ _ _) as [[[r e] inp] out].
  - destruct (Z.ltb_spec cp 0x10000) as [|Hbig]; [lia|]. unfold scalar in Hcp.
    unfold utf8. rewrite (proj2 (Z.ltb_ge cp 0x80)), (proj2 (Z.ltb_ge cp 0x800)), (proj2 (Z.ltb_ge cp 0x10000)) by lia.
    cbn [app]. rewrite pull_four by dlia.
    assert (code4 (cp / 262144) ((cp / 4096) mod 64) ((cp / 64) mod 64) (cp mod 64) = cp) as -> by (unfold code4; dlia).
    rewrite (proj2 (Z.ltb_ge cp 0x10000)) by lia. rewrite (proj2 (Nat.ltb_lt room 4)) by lia. by left.
Qed.

Lemma utf8_pull_overflow cps room :
  Forall scalar cps -> (room < length (utf16s cps))%nat -> exists e, cr_ret (utf8_pull (utf8s cps) room) = inr e.
Proof.
  intros Hs Hr. unfold utf8_pull. pose proof (pull_overflow_loop cps (length (utf8s cps)) room Hs ltac:(lia) Hr) as Hov.
  destruct (conv_loop _ _ _ _ _ _) as [[[r e] inp] out]. cbn [finish_pull]. destruct e as [e|]; [by exists e|].
  destruct Hov as [|Hl]; [done|]. rewrite decide_True by done. by exists E2BIG.
Qed.

(** push_string into the 512 bytes of a password: the units, or nothing. *)
Lemma push_password password :
  Forall scalar password ->
  exists buf, push_string false (fresh 512) (utf8s password) (Z.lor STR_UNICODE STR_NOALIGN) =
    Ret (if decide (length (utf16s password) <= 512)%nat then Z.of_nat (length (utf16s password)) else 0, buf) /\
    ((length (utf16s password) <= 512)%nat -> take (length (utf16s password)) buf = utf16s password).
Proof.
  intros Hs. unfold push_string. change (flag _ STR_ASCII) with false. change (flag _ STR_UNICODE) with true.
  cbn [andb]. unfold push_ucs2, uppercased. change (flag _ STR_UPPER) with false. unfold push_ucs2_plain.
  change (flag _ STR_TERMINATE) with false. cbn [andb]. cbv zeta. unfold fresh. rewrite length_replicate.
  change (2 * ((512 - 0) / 2))%nat with 512%nat. unfold convert_string. rewrite handle_to_utf16 by done. cbn [smb_iconv].
  case_decide as Hl.
  - rewrite utf8_pull_string by done. cbn [cr_ret cr_out fst snd].
    rewrite (proj2 (Z.eqb_neq _ _)) by lia. eexists. split; [done|]. intros _. unfold splice.
    by rewrite take_0, app_nil_l, take_app_length.
  - destruct (utf8_pull_overflow password 512 Hs ltac:(lia)) as (e & ->). cbn [fst snd]. eexists. split; [done|lia].
Qed.

(** The layout of an encoded buffer. *)
Definition pw_layout (rnd units : list Z) : list Z :=
  take (512 - length units) rnd ++ units ++ le 4 (Z.of_nat (length units)).

Lemma pw_stores rnd buffer units :
  length buffer = 516%nat -> (512 <= length rnd)%nat -> (length units <= 512)%nat ->
  SIVAL (splice 0 (take (512 - length units) rnd) (splice (512 - length units) units buffer)) 512 (Z.of_nat (length units)) =
  pw_layout rnd units.
Proof.
  intros Hb Hr Hu. unfold pw_layout. set (k := (512 - length units)%nat).
  assert (splice k units buffer = take k buffer ++ units ++ drop 512 buffer) as ->.
  { unfold splice. do 3 f_equal. lia. }
  assert (splice 0 (take k rnd) (take k buffer ++ units ++ drop 512 buffer) = (take k rnd ++ units) ++ drop 512 buffer) as ->.
  { unfold splice. rewrite take_0, app_nil_l, <- app_assoc. f_equal. rewrite Nat.add_0_l.
    apply drop_app_length'. len_norm. lia. }
  rewrite SIVAL_splice by (rewrite !length_app, length_take, length_drop; lia).
  rewrite splice_app by (rewrite length_app, length_take; lia).
  rewrite drop_ge by (rewrite length_le, length_drop; lia). by rewrite app_nil_r, <- app_assoc.
Qed.

Lemma encode_pw_utf8 rnd buffer password :
  length buffer = 516%nat -> (512 <= length rnd)%nat -> Forall scalar password ->
  encode_pw_buffer A rnd buffer (utf8s password) STR_UNICODE =
  Ret (true, pw_layout rnd (if decide (length (utf16s password) <= 512)%nat then utf16s password else [])).
Proof.
  intros Hb Hr Hs. destruct (push_password password Hs) as (buf & E & Ht). unfold encode_pw_buffer. rewrite E.
  cbn [obind]. case_decide as Hl.
  - rewrite (proj2 (Z.ltb_ge _ 0)) by lia. cbv zeta. rewrite Nat2Z.id, Ht by done. by rewrite pw_stores.
  - cbn [Z.ltb Z.compare]. cbv zeta. change (Z.to_nat 0) with 0%nat. rewrite take_0.
    exact (f_equal (fun b => Ret (true, b)) (pw_stores rnd buffer [] Hb Hr ltac:(simpl; lia))).
Qed.

Lemma decode_layout rnd cps dest :
  (512 <= length rnd)%nat -> Forall scalar cps -> Forall (fun cp => cp <> 0) cps ->
  (length (utf16s cps) <= 512)%nat -> (length (utf8s cps) < length dest)%nat ->
  exists dest', decode_pw_buffer (pw_layout rnd (utf16s cps)) dest STR_UNICODE =
    Ret (Some (Z.of_nat (length (utf16s cps)), dest')) /\ until_nul dest' = utf8s cps /\ length dest' = length dest.
Proof.
  intros Hr Hs Hz Hl Hd. unfold pw_layout. set (n := length (utf16s cps)) in *.
  assert (length (take (512 - n) rnd) = 512 - n)%nat as Hk by (rewrite length_take; lia).
  assert (IVAL (take (512 - n) rnd ++ utf16s cps ++ le 4 (Z.of_nat n)) 512 = Z.of_nat n) as Hi.
  { assert (slice 512 4 (take (512 - n) rnd ++ utf16s cps ++ le 4 (Z.of_nat n)) = le 4 (Z.of_nat n)) as Es.
    { pose proof (slice_at (take (512 - n) rnd ++ utf16s cps) (le 4 (Z.of_nat n)) [] 512 4) as E.
      rewrite app_nil_r, <- app_assoc in E. apply E; rewrite ?length_app, ?length_le; lia. }
    rewrite IVAL_slice_part; rewrite ?Es; [|apply le_bytes|rewrite !length_app, length_le; lia].
    rewrite of_le_le. apply Z.mod_small. lia. }
  unfold decode_pw_buffer. rewrite Hi.
  assert (s32 (Z.of_nat n) = Z.of_nat n) as -> by (unfold s32; change (2 ^ 31) with 2147483648; change (2 ^ 32) with 4294967296; dlia).
  rewrite (proj2 (Z.ltb_ge _ 0)), (proj2 (Z.ltb_ge 512 _)) by lia. cbn [orb]. cbv zeta. rewrite Nat2Z.id.
  rewrite slice_at by (rewrite ?Hk; done). unfold pull_string. change (flag _ STR_ASCII) with false.
  change (flag _ STR_UNICODE) with true. cbn [obind fst snd]. unfold pull_ucs2. cbn [andb].
  change (flag _ STR_TERMINATE) with false. cbv zeta. cbn [fst snd].
  destruct (utf16_units cps Hs Hz) as (us & Eus & _). pose proof (length_units us) as Hlu. rewrite <- Eus in Hlu.
  assert (2 * (n / 2) = n)%nat as E2 by (unfold n; rewrite Hlu; dlia).
  fold n. rewrite E2, take_ge by lia.
  unfold convert_string. rewrite handle_from_utf16 by done. cbn [smb_iconv].
  rewrite utf8_push_string by (done || lia). cbn [cr_ret cr_out].
  destruct (terminate_string dest (utf8s cps)) as [T1 T2]; [lia|by apply utf8s_nonzero|]. by eexists.
Qed.
End pwbuf.

(** ** The password hashes *)

Lemma ascii_push_overflow l : forall fuel room,
  Forall ascii_char l -> (2 * length l <= fuel)%nat -> (room < length l)%nat ->
  exists inp r, conv_loop ascii_push_char 2 1 fuel (utf16s l) room = (r, None, inp, take room l) /\ (1 < length inp)%nat.
Proof.
  induction l as [|c l IH]; intros fuel room Hl Hf Hr; [simpl in Hr; lia|].
  pose proof (length_utf16s_ascii _ Hl) as Hlen. cbn [length] in *.
  destruct fuel as [|fuel]; [lia|]. cbn [conv_loop]. case_decide as Hd.
  - destruct room as [|room]; [lia|]. apply Forall_cons_iff in Hl as [Hc Hl]. unfold ascii_char in Hc.
    rewrite utf16s_cons. unfold utf16le, unit16. rewrite (proj2 (Z.ltb_lt c 0x10000)), Z.mod_small, Z.div_small by lia.
    assert (ascii_push_char ([c; 0] ++ utf16s l) (S room) = Emit 2 [c] 0) as ->.
    { unfold ascii_push_char, at_. cbn [app lookup list_lookup from_option id].
      change 0x7F with (Z.ones 7). rewrite land_low, Z.mod_small by lia. done. }
    cbn [length drop app Nat.sub]. rewrite Nat.sub_0_r, drop_0.
    destruct (IH fuel room Hl ltac:(lia) ltac:(lia)) as (inp & r & -> & Hi). eexists _, _. by split.
  - destruct room as [|room]; [|lia]. eexists _, _. split; [done|]. lia.
Qed.

(** An ASCII string that does not fit: the bytes that do are written, and -1 returned. *)
Lemma ascii_to_dos_overflow l room :
  Forall ascii_char l -> (length l <= 1024)%nat -> (room < length l)%nat ->
  cr_ret (smb_iconv (Buffered utf8_pull ascii_push) l room) = inr E2BIG /\
  cr_out (smb_iconv (Buffered utf8_pull ascii_push) l room) = take room l.
Proof.
  intros Hl Hn Hr. cbn [smb_iconv]. destruct (length l) as [|k] eqn:Ek; [lia|]. cbn [chunk_loop].
  rewrite decide_True by lia.
  assert (utf8_pull l 2048%nat = ConvResult (inl 0) [] (utf16s l)) as ->.
  { rewrite <- (utf8s_ascii l Hl) at 1. apply utf8_pull_string; [by apply ascii_scalars|]. rewrite length_utf16s_ascii by done. lia. }
  cbn [cr_ret cr_out cr_in]. unfold ascii_push.
  destruct (ascii_push_overflow l (length (utf16s l)) room Hl) as (inp & r & -> & Hi);
    [rewrite length_utf16s_ascii by done; lia|lia|].
  cbn [finish_push]. rewrite decide_False by lia. rewrite decide_True by done. done.
Qed.

Section hashes.
Context `{Charsets} `{CaseTables} (A : Allocator) (unix8 : unix_is_utf8) (dos_ascii : dos_is_ascii).
Context (mem : @malloc_ok A 0%nat = true).
Context (upper_scalar : forall cp, scalar cp -> scalar (toupper_w cp)).
Context (table_bytes : forall t, upcase_table = Some t -> bytes t).

Definition ascii_password (p : list Z) : Prop := Forall (fun c => 0 < c < 0x80) p.

Lemma ascii_password_chars p : ascii_password p -> Forall ascii_char p /\ Forall (fun c => c <> 0) p.
Proof. intros Hp. split; refine (List.Forall_impl _ _ Hp); unfold ascii_char; intros; lia. Qed.

(** The tables are not consulted for ASCII. *)
Lemma upper_ascii p : ascii_password p -> map toupper_w p = map toupper p /\ ascii_password (map toupper p).
Proof.
  unfold ascii_password. induction 1 as [|c p Hc Hp [IH1 IH2]]; [by split|]. cbn [map].
  assert (0 < toupper c < 0x80) by (unfold toupper, islower; destruct (Z.leb_spec 97 c), (Z.leb_spec c 122); simpl; lia).
  split; [|by constructor]. rewrite IH1. f_equal. unfold toupper_w. by rewrite (proj2 (Z.ltb_lt c 128)) by lia.
Qed.

Lemma push_dos_upper p dest :
  ascii_password p ->
  push_string false dest p (Z.lor (Z.lor STR_ASCII STR_UPPER) STR_TERMINATE) =
  Ret (push_ascii_plain dest (map toupper p) (Z.lor STR_ASCII STR_TERMINATE)).
Proof.
  intros Hp. destruct (ascii_password_chars p Hp) as [Ha _], (upper_ascii p Hp) as [Eu Hu].
  destruct (ascii_password_chars _ Hu) as [Hua _].
  unfold push_string. change (flag _ STR_ASCII) with true. cbn [negb]. unfold push_ascii, uppercased.
  change (flag _ STR_UPPER) with true. cbn [negb]. rewrite <- (utf8s_ascii p Ha).
  rewrite strupper_talloc_utf8 by (done || by apply ascii_scalars). cbn [obind].
  by rewrite (utf8s_ascii p Ha), Eu, utf8s_ascii.
Qed.

Lemma strlen_string s tl : Forall (fun b => b <> 0) s -> strlen (s ++ 0 :: tl) = Ret (length s).
Proof.
  intros Hs. unfold strlen. assert (list_find (fun b => b = 0) (s ++ 0 :: tl) = Some (length s, 0)) as ->; [|done].
  apply list_find_Some. split_and!; [by rewrite lookup_app_r, Nat.sub_diag by lia|done|].
  intros j y Hj Hlt. rewrite lookup_app_l in Hj by done. by apply (Forall_lookup_1 _ _ _ _ Hs Hj).
Qed.

Lemma E_deshash_ascii p :
  ascii_password p -> (length p < 256)%nat ->
  E_deshash A p = Ret (negb (14 <? length p)%nat, E_P16 (take 14 (map toupper p ++ replicate 14 0))).
Proof.
  intros Hp Hl. unfold E_deshash. cbv zeta. rewrite push_dos_upper by done. cbn [obind].
  destruct (upper_ascii p Hp) as [_ Hu], (ascii_password_chars _ Hu) as [Hua Huz].
  set (u := map toupper p) in *. assert (length u = length p) as Hul by apply length_map.
  unfold push_ascii_plain. change (flag _ (Z.lor STR_TERMINATE STR_TERMINATE_ASCII)) with true. cbv zeta.
  unfold convert_string. rewrite handle_unix_dos by done. unfold FSTRING_LEN. rewrite length_replicate.
  rewrite ascii_to_dos; [|apply Forall_app; split; [done|by apply Forall_singleton]|rewrite length_app; cbn [length]; lia..].
  cbn [cr_ret cr_out fst snd].
  assert (splice 0 (u ++ [0]) (replicate 256 0) = u ++ 0 :: replicate (255 - length p) 0) as ->.
  { unfold splice. rewrite take_0, app_nil_l, drop_replicate, <- app_assoc, length_app. cbn [app length].
    do 3 f_equal. lia. }
  rewrite strlen_string by done. cbn [obind]. rewrite Hul.
  assert (take 14 (u ++ 0 :: replicate (255 - length p) 0) = take 14 (u ++ replicate 14 0)) as ->; [|done].
  change (0 :: ?l) with (replicate 1 0 ++ l). rewrite <- replicate_add, !take_app. f_equal.
  rewrite !take_replicate. f_equal. lia.
Qed.

Lemma E_deshash_overread p : ascii_password p -> (256 <= length p < 1024)%nat -> E_deshash A p = Fault.
Proof.
  intros Hp Hl. unfold E_deshash. cbv zeta. rewrite push_dos_upper by done. cbn [obind].
  destruct (upper_ascii p Hp) as [_ Hu], (ascii_password_chars _ Hu) as [Hua Huz].
  set (u := map toupper p) in *. assert (length u = length p) as Hul by apply length_map.
  unfold push_ascii_plain. change (flag _ (Z.lor STR_TERMINATE STR_TERMINATE_ASCII)) with true. cbv zeta.
  unfold convert_string. rewrite handle_unix_dos by done. unfold FSTRING_LEN. rewrite length_replicate.
  destruct (ascii_to_dos_overflow (u ++ [0]) 256) as [E1 E2];
    [apply Forall_app; split; [done|by apply Forall_singleton]|rewrite length_app; cbn [length]; lia..|].
  rewrite E1, E2. cbn [fst snd]. rewrite splice_full by (rewrite length_take, length_app, length_replicate; cbn [length]; lia).
  rewrite take_app_le by lia. unfold strlen. destruct (list_find _ _) as [[i b]|] eqn:E; [|done]. exfalso.
  apply list_find_Some in E as (Hi & Hb & _). exact (Forall_lookup_1 _ _ _ _ (Forall_take _ 256 _ Huz) Hi Hb).
Qed.
End hashes.

(** The NT hash of a password is the MD4 digest of its UTF-16 form.  The LM hash of
    an ASCII password shorter than 256 characters is the DES hash of its first fourteen
    characters, upper-cased and padded with zeros - so passwords that agree there up to
    case share it - and the result says whether there were more than fourteen.  From 256
    characters on, E_deshash takes strlen of a buffer that the conversion has filled
    without a terminator. *)
Theorem password_hashes `{Charsets} `{CaseTables} (A : Allocator) (password p : list Z) :
  unix_is_utf8 -> dos_is_ascii -> malloc_always A ->
  (forall cp, scalar cp -> scalar (toupper_w cp)) -> (forall t, upcase_table = Some t -> bytes t) ->
  Forall scalar password -> Z.of_nat (length (utf16s password)) < 2 ^ 28 -> ascii_password p ->
  E_md4hash A (utf8s password) = Ret (true, nt_owf password) /\
  ((length p < 256)%nat ->
   E_deshash A p = Ret (negb (14 <? length p)%nat, E_P16 (take 14 (map toupper p ++ replicate 14 0)))) /\
  ((256 <= length p < 1024)%nat -> E_deshash A p = Fault).
Proof.
  intros Hu Hd Hm Hsc Ht Hs Hl Hp. split_and!.
  - by apply E_md4hash_utf8.
  - intros. by apply E_deshash_ascii.
  - intros. by apply E_deshash_overread.
Qed.

Lemma password_hashes_witness :
  @E_md4hash utf8_charsets calloc (utf8s [112; 0xE9]) = Ret (true, nt_owf [112; 0xE9]) /\
  @E_deshash utf8_charsets no_tables calloc [112; 119] = Ret (true, E_P16 (take 14 (map toupper [112; 119] ++ replicate 14 0))).
Proof.
  pose proof (@password_hashes utf8_charsets no_tables calloc [112; 0xE9] [112; 119] (or_introl eq_refl) eq_refl
    (fun _ => eq_refl) no_tables_upper ltac:(done) ltac:(repeat constructor; unfold scalar; lia) ltac:(by_eval)
    ltac:(unfold ascii_password; repeat constructor; lia)) as (E1 & E2 & _).
  split; [exact E1|]. apply E2. cbn [length]. lia.
Defined.

(** The over-read, and the NT and LM hashes of a published test vector. *)
Example lm_hash_overread : @E_deshash utf8_charsets no_tables calloc (replicate 256 97) = Fault.
Proof. vm_compute. reflexivity. Qed.
Example nt_hash_password :
  @E_md4hash utf8_charsets calloc [112; 97; 115; 115; 119; 111; 114; 100] =
  Ret (true, [0x88; 0x46; 0xF7; 0xEA; 0xEE; 0x8F; 0xB1; 0x17; 0xAD; 0x06; 0xBD; 0xD8; 0x30; 0xB7; 0x58; 0x6C]).
Proof. vm_compute. reflexivity. Qed.
Example lm_hash_password :
  @E_deshash utf8_charsets no_tables calloc [112; 97; 115; 115; 119; 111; 114; 100] =
  Ret (true, [0xe5; 0x2c; 0xac; 0x67; 0x41; 0x9a; 0x9a; 0x22; 0x4a; 0x3b; 0x10; 0x8f; 0x3f; 0xa6; 0xcb; 0x6d]).
Proof. vm_compute. reflexivity. Qed.

(** An encoded password buffer is random bytes, the UTF-16 password and its length,
    and decoding it gives the password back.  A password of more than 512 bytes is not
    refused: the conversion fails, encode_pw_buffer still returns True and the buffer
    decodes to the empty password.  A buffer whose length word is above 512 - or, as an
    int, negative - is refused, and only such a buffer. *)
Theorem password_buffers `{Charsets} `{CaseTables} (A : Allocator) (rnd buffer password dest in_buffer : list Z) (flags : Z) :
  unix_is_utf8 -> length buffer = 516%nat -> (512 <= length rnd)%nat ->
  Forall scalar password -> Forall (fun cp => cp <> 0) password -> (length (utf8s password) < length dest)%nat ->
  bytes in_buffer -> length in_buffer = 516%nat ->
  (exists buf dest', encode_pw_buffer A rnd buffer (utf8s password) STR_UNICODE = Ret (true, buf) /\
    decode_pw_buffer buf dest STR_UNICODE =
      Ret (Some (if decide (length (utf16s password) <= 512)%nat then Z.of_nat (length (utf16s password)) else 0, dest')) /\
    until_nul dest' = (if decide (length (utf16s password) <= 512)%nat then utf8s password else [])) /\
  (decode_pw_buffer in_buffer dest flags = Ret None <-> 512 < IVAL in_buffer 512).
Proof.
  intros Hu Hb Hr Hs Hz Hd Hib Hil. split.
  - rewrite encode_pw_utf8 by done. case_decide as Hl.
    + destruct (decode_layout Hu rnd password dest) as (d & E & Hn & _); [done..|]. by exists (pw_layout rnd (utf16s password)), d.
    + destruct (decode_layout Hu rnd [] dest) as (d & E & Hn & _); [done|constructor|constructor|simpl; lia|simpl; lia|].
      by exists (pw_layout rnd []), d.
  - pose proof (IVAL_range in_buffer 512 Hib) as Hi. unfold is_u in Hi. change (2 ^ 32) with 4294967296 in Hi.
    unfold decode_pw_buffer, s32. change (2 ^ 31) with 2147483648. change (2 ^ 32) with 4294967296.
    set (v := IVAL in_buffer 512) in *. cbv zeta. split; intros Hv.
    + destruct (Z.ltb_spec 512 v) as [|Hle]; [done|]. exfalso.
      assert ((v + 2147483648) mod 4294967296 - 2147483648 = v) as E by dlia. rewrite E in Hv.
      rewrite (proj2 (Z.ltb_ge v 0)), (proj2 (Z.ltb_ge 512 v)) in Hv by lia. cbn [orb] in Hv.
      by destruct (pull_string _ _ _ _) in Hv.
    + assert (((v + 2147483648) mod 4294967296 - 2147483648 <? 0) ||
              (512 <? (v + 2147483648) mod 4294967296 - 2147483648) = true) as ->; [|done].
      apply orb_true_iff. rewrite !Z.ltb_lt. dlia.
Qed.

Lemma password_buffers_witness :
  exists buf dest', @encode_pw_buffer utf8_charsets no_tables calloc (replicate 512 7) (replicate 516 0) (utf8s [112; 0xE9]) STR_UNICODE =
    Ret (true, buf) /\
    @decode_pw_buffer utf8_charsets buf (replicate 10 0) STR_UNICODE = Ret (Some (4, dest')) /\ until_nul dest' = utf8s [112; 0xE9].
Proof.
  destruct (@password_buffers utf8_charsets no_tables calloc (replicate 512 7) (replicate 516 0) [112; 0xE9] (replicate 10 0)
    (replicate 516 255) STR_UNICODE) as [H1 _];
    [by left | done | by_eval | repeat constructor; unfold scalar; lia | by_eval | by_eval | by_eval | done | exact H1].
Defined.
