(* ===== verification/NtlmCheck.v ===== *)
(** auth/ntlm_check.c: the check of a challenge response against the stored hashes. *)

From stdpp Require Import strings.
From S2P Require Import Prelude Digest Byteorder Ntstatus Md4 Md5 Hmac Des Iconv Charcnv Unistr Smbencrypt.
Import Charcnv Unistr Des Smbencrypt.

#[local] Open Scope outcome_scope.

(** The configuration the checks read. *)
Class AuthPolicy := { lp_lanman_auth : bool; lp_ntlm_auth : bool }.

Module NtlmCheck.

(** librpc/idl/netlogon.idl *)
Definition MSV1_0_CLEARTEXT_PASSWORD_ALLOWED : Z := 0x2.

Section check.
Context `{Host} `{Charsets} `{CaseTables} `{AuthPolicy}.

(** The verdict and the session key stored through the pointer, when it is not null
    ([want]); a null blob is [None].  The key is written through its allocation. *)
Definition smb_pwd_check_ntlmv1 (mem : bool) (nt_response : list Z) (part_passwd : option (list Z)) (sec_blob : list Z)
    (want : bool) : outcome (bool * option (list Z)) :=
  match part_passwd with
  | None => Ret (false, None)
  | Some part_passwd =>
      if negb (length sec_blob =? 8)%nat then Ret (false, None)
      else if negb (length nt_response =? 24)%nat then Ret (false, None)
      else
        let p24 := SMBOWFencrypt part_passwd sec_blob in
        if bool_decide (p24 = take 24 nt_response) then
          if want then
            if mem then Ret (true, Some (SMBsesskeygen_ntv1 part_passwd)) else Fault
          else Ret (true, None)
        else Ret (false, None)
  end.

(** The key of the user and domain and the MAC of the response's client data, or
    [None] where the two functions below return False.  The copy of the client data is
    the first allocation; a failed copy is an empty blob. *)
Definition ntlmv2_value (A : Allocator) (ntv2_response : list Z) (part_passwd : option (list Z)) (sec_blob : list Z)
    (user domain : option (list Z)) (upper_case_domain : bool) : outcome (option (list Z * list Z)) :=
  match part_passwd with
  | None => Ret None
  | Some part_passwd =>
      if negb (length sec_blob =? 8)%nat then Ret None
      else if (length ntv2_response <? 24)%nat then Ret None
      else
        let client_key_data := if @malloc_ok A 0 then drop 16 ntv2_response else [] in
        let* kr := ntv2_owf_gen (later 1 A) part_passwd user domain upper_case_domain in
        Ret ((fun kr => (kr, SMBOWFencrypt_ntv2 kr sec_blob client_key_data)) <$> kr)
  end.

(** The pointer to the session key is never null. *)
Definition smb_pwd_check_ntlmv2 (A : Allocator) (ntv2_response : list Z) (part_passwd : option (list Z)) (sec_blob : list Z)
    (user domain : option (list Z)) (upper_case_domain : bool) : outcome (bool * option (list Z)) :=
  let* v := ntlmv2_value A ntv2_response part_passwd sec_blob user domain upper_case_domain in
  match v with
  | None => Ret (false, None)
  | Some (kr, value) =>
      if bool_decide (value = take 16 ntv2_response) then
        if @malloc_ok A 10 then Ret (true, Some (SMBsesskeygen_ntv2 kr value)) else Fault
      else Ret (false, None)
  end.

Definition smb_sess_key_ntlmv2 (A : Allocator) (ntv2_response : list Z) (part_passwd : option (list Z)) (sec_blob : list Z)
    (user domain : option (list Z)) (upper_case_domain : bool) : outcome (bool * option (list Z)) :=
  let* v := ntlmv2_value A ntv2_response part_passwd sec_blob user domain upper_case_domain in
  match v with
  | None => Ret (false, None)
  | Some (kr, value) => if @malloc_ok A 10 then Ret (true, Some (SMBsesskeygen_ntv2 kr value)) else Fault
  end.

(** memcmp of two 16-byte hashes. *)
Definition same_hash (a b : list Z) : bool := bool_decide (take 16 a = take 16 b).

Definition has_at (username : list Z) : bool := is_some (strchr_m username 64).

Definition hash_password_check (client_lanman client_nt : option (list Z)) (username : list Z)
    (stored_lanman stored_nt : option (list Z)) : NTSTATUS :=
  match client_nt, stored_nt with
  | Some c, Some s => if same_hash c s then NT_STATUS_OK else NT_STATUS_WRONG_PASSWORD
  | _, _ =>
      match client_lanman, stored_lanman with
      | Some c, Some s =>
          if negb lp_lanman_auth then NT_STATUS_WRONG_PASSWORD
          else if has_at username then NT_STATUS_NOT_FOUND
          else if same_hash c s then NT_STATUS_OK else NT_STATUS_WRONG_PASSWORD
      | _, _ => if has_at username then NT_STATUS_NOT_FOUND else NT_STATUS_WRONG_PASSWORD
      end
  end.

(** The cleartext netlogon: the responses are the passwords.  The converted LANMAN
    password is the C string at the start of the conversion. *)
Definition cleartext_check (A : Allocator) (lm_response nt_response : list Z) (username : list Z)
    (stored_lanman stored_nt : option (list Z)) : outcome NTSTATUS :=
  let client_nt := Md4.mdfour nt_response in
  let* client_lm :=
    (if (0 <? length lm_response)%nat then
       let* unix_pw := @convert_string_talloc _ A CH_DOS CH_UNIX lm_response in
       match unix_pw with
       | None => Ret None
       | Some unix_pw =>
           let* r := E_deshash (later 1 A) (until_nul unix_pw) in
           Ret (if r.1 : bool then Some r.2 else None)
       end
     else Ret None) in
  Ret (hash_password_check client_lm (if (0 <? length nt_response)%nat then Some client_nt else None)
         username stored_lanman stored_nt).

(** The forms of the domain a v2 response is tried with, in order. *)
Definition domain_forms (client_domain : option (list Z)) : list (option (list Z) * bool) :=
  [(client_domain, false); (client_domain, true); (Some [], false)].

(** The first form that verifies the response, and the session key. *)
Fixpoint try_ntlmv2 (A : Allocator) (response stored_nt challenge : list Z) (user : option (list Z))
    (forms : list (option (list Z) * bool)) : outcome (option (option (list Z) * bool * option (list Z))) :=
  match forms with
  | [] => Ret None
  | (domain, upper) :: forms =>
      let* r := smb_pwd_check_ntlmv2 A response (Some stored_nt) challenge user domain upper in
      if r.1 : bool then Ret (Some (domain, upper, r.2))
      else try_ntlmv2 (later 20 A) response stored_nt challenge user forms
  end.

(** A verdict with the two session keys, user and LM. *)
Definition verdict : Type := NTSTATUS * option (list Z) * option (list Z).

(** [*lm_sess_key = *user_sess_key] cut to eight bytes. *)
Definition accept_v2 (user_sess_key : option (list Z)) : verdict := (NT_STATUS_OK, user_sess_key, take 8 <$> user_sess_key).

(** The session keys after an LM hash verified a response: eight bytes of the hash,
    padded for the user key.  The user key is copied, the LM key is too. *)
Definition accept_lm (A : Allocator) (stored_lanman : option (list Z)) : verdict :=
  match stored_lanman with
  | Some h =>
      if lp_lanman_auth then
        (NT_STATUS_OK, if @malloc_ok A 0 then Some (take 8 h ++ replicate 8 0) else None,
         if @malloc_ok A 1 then Some (take 8 h) else None)
      else (NT_STATUS_OK, None, None)
  | None => (NT_STATUS_OK, None, None)
  end.

(** The part after the NT field: the response in the LM field. *)
Definition check_lm_field (A : Allocator) (challenge lm_response nt_response username : list Z)
    (client_username client_domain : option (list Z)) (stored_lanman stored_nt : option (list Z)) : outcome verdict :=
  let wrong := (NT_STATUS_WRONG_PASSWORD, None, None) in
  if (length lm_response =? 0)%nat then Ret wrong
  else if (length lm_response <? 24)%nat then Ret wrong
  else
    let* lm :=
      (if negb lp_lanman_auth then Ret false
       else
         match stored_lanman with
         | None => Ret false
         | Some h =>
             if has_at username then Ret false
             else let* r := smb_pwd_check_ntlmv1 true lm_response (Some h) challenge false in Ret r.1
         end) in
    if lm : bool then Ret (accept_lm A stored_lanman)
    else
      match stored_nt with
      | None => Ret wrong
      | Some nt =>
          let* v2 := try_ntlmv2 (later 10 A) lm_response nt challenge client_username (domain_forms client_domain) in
          match v2 with
          | Some (domain, upper, tmp_sess_key) =>
              if (24 <? length nt_response)%nat then
                let* r := smb_sess_key_ntlmv2 (later 80 A) nt_response (Some nt) challenge client_username domain upper in
                Ret (accept_v2 r.2)
              else Ret (accept_v2 tmp_sess_key)
          | None =>
              let* v1 :=
                (if lp_ntlm_auth then
                   let* r := smb_pwd_check_ntlmv1 true lm_response (Some nt) challenge false in Ret r.1
                 else Ret false) in
              if v1 : bool then Ret (accept_lm (later 100 A) stored_lanman)
              else Ret (if has_at username then NT_STATUS_NOT_FOUND else NT_STATUS_WRONG_PASSWORD, None, None)
          end
      end.

Definition ntlm_password_check (A : Allocator) (logon_parameters : Z) (challenge lm_response nt_response username : list Z)
    (client_username client_domain : option (list Z)) (stored_lanman stored_nt : option (list Z)) : outcome verdict :=
  if flag logon_parameters MSV1_0_CLEARTEXT_PASSWORD_ALLOWED && bool_decide (challenge = replicate 8 0) then
    let* s := cleartext_check A lm_response nt_response username stored_lanman stored_nt in
    Ret (s, None, None)
  else
    let lm_field A := check_lm_field A challenge lm_response nt_response username client_username client_domain stored_lanman stored_nt in
    match stored_nt with
    | None => lm_field A
    | Some nt =>
        if (24 <? length nt_response)%nat then
          let* v2 := try_ntlmv2 A nt_response nt challenge client_username (domain_forms client_domain) in
          match v2 with
          | Some (_, _, user_sess_key) => Ret (accept_v2 user_sess_key)
          | None => lm_field (later 60 A)
          end
        else if (length nt_response =? 24)%nat && lp_ntlm_auth then
          let* r := smb_pwd_check_ntlmv1 (@malloc_ok A 0) nt_response (Some nt) challenge true in
          if r.1 : bool then
            Ret (NT_STATUS_OK, r.2,
                 match stored_lanman with
                 | Some h => if lp_lanman_auth && @malloc_ok A 1 then Some (take 8 h) else None
                 | None => None
                 end)
          else Ret (NT_STATUS_WRONG_PASSWORD, None, None)
        else lm_field A
    end.
End check.
End NtlmCheck.
Import NtlmCheck.

#[local] Opaque Hmac.HmacMd5.hmac_md5_final Hmac.HmacMd5.hmac_md5_update Hmac.HmacMd5.hmac_md5_init_limK_to_64
  rfc2104_hmac md_hash Md4.mdfour SMBOWFencrypt.

(** ** The verification of an NTLMv2 or LMv2 response *)

Section spec.
Context `{Host} `{Charsets} `{CaseTables} `{AuthPolicy}.
Context (unix8 : unix_is_utf8).
Context (upper_scalar : forall cp, scalar cp -> scalar (toupper_w cp)).
Context (table_bytes : forall t, upcase_table = Some t -> bytes t).
Context (nt user domain challenge : list Z).
Context (nt_bytes : bytes nt) (nt_length : length nt = 16%nat).
Context (user_scalar : Forall scalar user) (domain_scalar : Forall scalar domain).
Context (names_short : Z.of_nat (length (utf16s (map toupper_w user)) + length (utf16s (map toupper_w domain)) + length (utf16s domain)) < 2 ^ 60).
Context (challenge_bytes : bytes challenge) (challenge_length : length challenge = 8%nat).

(** The three forms of the domain, and the key of each. *)
Definition forms : list (list Z * bool) := [(domain, false); (domain, true); ([], false)].
Definition key_of_form (f : list Z * bool) : list Z := owf_v2 nt user f.1 f.2.

(** A response is valid under a form when it is the MAC of the challenge and the client
    data, followed by that data. *)
Definition valid_v2 (response : list Z) (f : list Z * bool) : Prop :=
  (24 <= length response)%nat /\ take 16 response = proof_of (key_of_form f) challenge (drop 16 response).

#[export] Instance valid_v2_dec response f : Decision (valid_v2 response f).
Proof. unfold valid_v2. apply _. Defined.

Definition short (response : list Z) : Prop := bytes response /\ Z.of_nat (length response) < 2 ^ 59.

Lemma key_of_form_ok f : bytes (key_of_form f) /\ length (key_of_form f) = 16%nat.
Proof. apply md5_mac. Qed.

Lemma form_names f : f ∈ forms -> Forall scalar f.1 /\ Z.of_nat (length (utf16s (map toupper_w user)) + length (utf16s (domain_form f.2 f.1))) < 2 ^ 60.
Proof.
  unfold forms. rewrite !elem_of_cons, elem_of_nil. intros [-> | [-> | [-> | []]]]; cbn [fst snd domain_form];
    (split; [done || constructor|]); cbn [utf16s] in *; try lia.
  change (length (utf16s [])) with 0%nat. lia.
Qed.

Lemma ntlmv2_value_ok (A : Allocator) response f :
  malloc_always A -> short response -> f ∈ forms ->
  ntlmv2_value A response (Some nt) challenge (Some (utf8s user)) (Some (utf8s f.1)) f.2 =
  Ret (if decide (24 <= length response)%nat then
         Some (key_of_form f, proof_of (key_of_form f) challenge (drop 16 response)) else None).
Proof.
  intros Hm [Hb Hl] Hf. destruct (form_names f Hf) as [Hs Hn]. destruct (key_of_form_ok f) as [Hkb Hkl].
  unfold ntlmv2_value. rewrite challenge_length. cbn [Nat.eqb negb]. rewrite Hm. cbv zeta. case_decide as H24.
  - rewrite (proj2 (Nat.ltb_ge _ _)) by lia.
    rewrite (ntv2_owf_gen_utf8 (later 1 A)) by first [done | by apply later_always]. cbn [obind fmap option_fmap option_map].
    fold (key_of_form f). rewrite smbowf_mac by first [done | by apply Forall_drop | rewrite challenge_length, length_drop; lia].
    done.
  - by rewrite (proj2 (Nat.ltb_lt _ _)) by lia.
Qed.

(** The session key of a response. *)
Definition session_key_v2 (response : list Z) (f : list Z * bool) : list Z :=
  rfc2104_hmac md5_spec (key_of_form f) (proof_of (key_of_form f) challenge (drop 16 response)).

Lemma sess_key_mac f m :
  SMBsesskeygen_ntv2 (key_of_form f) (proof_of (key_of_form f) challenge m) =
  rfc2104_hmac md5_spec (key_of_form f) (proof_of (key_of_form f) challenge m).
Proof.
  destruct (key_of_form_ok f) as [Hkb Hkl]. destruct (md5_mac (key_of_form f) (challenge ++ m)) as [Hpb Hpl].
  unfold SMBsesskeygen_ntv2. cbv zeta. rewrite (take_ge (proof_of _ _ _)) by (unfold proof_of; lia).
  apply hmac_md5_one; unfold proof_of; first [done | lia].
Qed.

Lemma pwd_check_ntlmv2 (A : Allocator) response f :
  malloc_always A -> short response -> f ∈ forms ->
  smb_pwd_check_ntlmv2 A response (Some nt) challenge (Some (utf8s user)) (Some (utf8s f.1)) f.2 =
  Ret (if decide (valid_v2 response f) then (true, Some (session_key_v2 response f)) else (false, None)).
Proof.
  intros Hm Hs Hf. unfold smb_pwd_check_ntlmv2. rewrite ntlmv2_value_ok by done. cbn [obind].
  case_decide as H24.
  - case_decide as Hv.
    + rewrite bool_decide_eq_true_2 by (symmetry; apply Hv). rewrite Hm. by rewrite sess_key_mac.
    + rewrite bool_decide_eq_false_2; [done|]. intros E. by apply Hv.
  - rewrite decide_False; [done|]. by intros [? _].
Qed.

Lemma try_ntlmv2_first fs : forall (A : Allocator) response,
  malloc_always A -> short response -> Forall (fun f => f ∈ forms) fs ->
  try_ntlmv2 A response nt challenge (Some (utf8s user)) (map (fun f => (Some (utf8s f.1), f.2)) fs) =
  Ret ((fun x => (Some (utf8s x.2.1), x.2.2, Some (session_key_v2 response x.2))) <$> list_find (valid_v2 response) fs).
Proof.
  induction fs as [|f fs IH]; intros A response Hm Hs Hfs; [done|].
  apply Forall_cons_iff in Hfs as [Hf Hfs]. cbn [map try_ntlmv2 list_find].
  rewrite pwd_check_ntlmv2 by done. cbn [obind]. case_decide as Hv; [done|]. cbn [fst].
  rewrite IH by (done || by apply later_always). by destruct (list_find (valid_v2 response) fs) as [[]|].
Qed.

Lemma try_forms (A : Allocator) response :
  malloc_always A -> short response ->
  try_ntlmv2 A response nt challenge (Some (utf8s user)) (domain_forms (Some (utf8s domain))) =
  Ret ((fun x => (Some (utf8s x.2.1), x.2.2, Some (session_key_v2 response x.2))) <$> list_find (valid_v2 response) forms).
Proof.
  intros Hm Hs. apply (try_ntlmv2_first forms); [done|done|]. by apply list.Forall_forall.
Qed.

(** Without NTLMv1 and LM, the LM field is accepted exactly when it holds an LMv2 response. *)
Lemma lm_field_v2 (A : Allocator) lm_response nt_response username stored_lanman :
  lp_lanman_auth = false -> lp_ntlm_auth = false ->
  malloc_always A -> short lm_response -> short nt_response ->
  exists v, check_lm_field A challenge lm_response nt_response username (Some (utf8s user)) (Some (utf8s domain)) stored_lanman (Some nt) = Ret v /\
    (v.1.1 = NT_STATUS_OK <-> Exists (valid_v2 lm_response) forms).
Proof.
  intros Hlm Hntlm Hm Hsl Hsn. unfold check_lm_field. rewrite Hlm, Hntlm. cbn [negb obind].
  assert ((length lm_response < 24)%nat -> ~ Exists (valid_v2 lm_response) forms) as Hno.
  { intros Hl He. apply list.Exists_exists in He as (f & _ & Hf & _). lia. }
  destruct (Nat.eqb_spec (length lm_response) 0) as [E|_].
  { eexists. split; [done|]. split; [done|]. intros He. destruct (Hno ltac:(lia) He). }
  destruct (Nat.ltb_spec (length lm_response) 24) as [E|E].
  { eexists. split; [done|]. split; [done|]. intros He. destruct (Hno E He). }
  rewrite try_forms by (done || by apply later_always). cbn [obind].
  destruct (list_find (valid_v2 lm_response) forms) as [[i f]|] eqn:Ef; cbn [fmap option_fmap option_map snd fst].
  - apply list_find_Some in Ef as (Hi & Hf & _). apply list_elem_of_lookup_2 in Hi.
    assert (Exists (valid_v2 lm_response) forms) as He by (apply list.Exists_exists; by exists f).
    destruct (Nat.ltb_spec 24 (length nt_response)).
    + unfold smb_sess_key_ntlmv2. rewrite ntlmv2_value_ok by (done || by apply later_always).
      rewrite decide_True by lia. cbn [obind]. rewrite (later_always 80 A Hm). eexists. by split.
    + eexists. by split.
  - apply list_find_None in Ef. cbn [obind]. eexists. split; [done|]. split; [cbn [fst]; destruct (has_at username); discriminate|].
    intros He. destruct (list.Forall_not_Exists _ _ Ef He).
Qed.

(** An NTLMv2 response for the domain as it is given is accepted in the NT field,
    whatever the policy. *)
Lemma check_nt_v2 (A : Allocator) logon_parameters lm_response nt_response username stored_lanman :
  malloc_always A -> flag logon_parameters MSV1_0_CLEARTEXT_PASSWORD_ALLOWED = false ->
  short nt_response -> (24 < length nt_response)%nat -> valid_v2 nt_response (domain, false) ->
  ntlm_password_check A logon_parameters challenge lm_response nt_response username (Some (utf8s user)) (Some (utf8s domain))
    stored_lanman (Some nt) = Ret (accept_v2 (Some (session_key_v2 nt_response (domain, false)))).
Proof.
  intros Hm Hfl Hs Hl Hv. unfold ntlm_password_check. rewrite Hfl. cbn [andb].
  rewrite (proj2 (Nat.ltb_lt _ _)) by lia. rewrite try_forms by done. cbn [obind]. unfold forms.
  cbn [list_find]. by rewrite decide_True.
Qed.

End spec.

(** An NTLMv1 response is accepted there when the policy allows it. *)
Lemma check_nt_v1 `{Host} `{Charsets} `{CaseTables} `{AuthPolicy} (A : Allocator) nt logon_parameters lm_response username client_user client_domain stored_lanman c8 :
  malloc_always A -> flag logon_parameters MSV1_0_CLEARTEXT_PASSWORD_ALLOWED = false -> lp_ntlm_auth = true ->
  length c8 = 8%nat ->
  exists lm_key, ntlm_password_check A logon_parameters c8 lm_response (SMBOWFencrypt nt c8) username client_user client_domain
    stored_lanman (Some nt) = Ret (NT_STATUS_OK, Some (SMBsesskeygen_ntv1 nt), lm_key).
Proof.
  intros Hm Hfl Hp Hc. unfold ntlm_password_check. rewrite Hfl. cbn [andb].
  assert (length (SMBOWFencrypt nt c8) = 24%nat) as Hl by apply length_SMBOWFencrypt. rewrite Hl. cbn [Nat.ltb Nat.leb Nat.eqb andb].
  rewrite Hp. unfold smb_pwd_check_ntlmv1. rewrite Hl, Hc. cbn [Nat.eqb negb]. rewrite (take_ge (SMBOWFencrypt _ _)) by lia.
  rewrite bool_decide_eq_true_2 by done. rewrite Hm. cbn [obind fst snd]. by eexists.
Qed.

(** C26: with NTLMv1 and LM authentication disabled, and outside the cleartext logon,
    ntlm_password_check always comes to a verdict, and accepts exactly when the NT field
    or the LM field holds a valid NTLMv2 or LMv2 response of the user under one of the
    three forms of the domain: there is no downgrade.  The session key of an accepted NT
    field is the MAC of its MAC under the first form that verifies it. *)
Theorem ntlm_password_check_v2_only `{Host} `{Charsets} `{CaseTables} `{AuthPolicy} (A : Allocator)
    (logon_parameters : Z) (nt user domain challenge lm_response nt_response username : list Z) (stored_lanman : option (list Z)) :
  unix_is_utf8 -> malloc_always A ->
  (forall cp, scalar cp -> scalar (toupper_w cp)) -> (forall t, upcase_table = Some t -> bytes t) ->
  lp_lanman_auth = false -> lp_ntlm_auth = false -> flag logon_parameters MSV1_0_CLEARTEXT_PASSWORD_ALLOWED = false ->
  bytes nt -> length nt = 16%nat -> bytes challenge -> length challenge = 8%nat ->
  Forall scalar user -> Forall scalar domain ->
  Z.of_nat (length (utf16s (map toupper_w user)) + length (utf16s (map toupper_w domain)) + length (utf16s domain)) < 2 ^ 60 ->
  short lm_response -> short nt_response ->
  let valid response := valid_v2 nt user challenge response in
  let fs := forms domain in
  exists v, ntlm_password_check A logon_parameters challenge lm_response nt_response username
      (Some (utf8s user)) (Some (utf8s domain)) stored_lanman (Some nt) = Ret v /\
    (v.1.1 = NT_STATUS_OK <->
     ((24 < length nt_response)%nat /\ Exists (valid nt_response) fs) \/ Exists (valid lm_response) fs) /\
    (forall i f, (24 < length nt_response)%nat -> list_find (valid nt_response) fs = Some (i, f) ->
     v.1.2 = Some (session_key_v2 nt user challenge nt_response f)).
Proof.
  intros Hu Hm Hsc Ht Hlm Hntlm Hfl Hnt Hnl Hc Hcl Hus Hds Hn Hsl Hsn. cbv beta zeta.
  unfold ntlm_password_check. rewrite Hfl, Hntlm. cbn [andb]. rewrite andb_false_r.
  destruct (Nat.ltb_spec 24 (length nt_response)) as [Hl|Hl].
  - rewrite try_forms by done. cbn [obind].
    destruct (list_find (valid_v2 nt user challenge nt_response) (forms domain)) as [[i f]|] eqn:Ef; cbn [fmap option_fmap option_map snd fst].
    + eexists. split; [reflexivity|]. split; [split; [|reflexivity]|intros i2 f2 _ E; rewrite ?Ef in E; injection E as <- <-; reflexivity]. intros _. left. split; [done|].
      apply list_find_Some in Ef as (Hi & Hf & _). apply list_elem_of_lookup_2 in Hi. apply list.Exists_exists. by exists f.
    + destruct (lm_field_v2 Hu Hsc Ht nt user domain challenge Hnt Hnl Hus Hds Hn Hc Hcl (later 60 A) lm_response nt_response username stored_lanman)
        as (v & E & Hv); [done|done|by apply later_always|done|done|].
      exists v. split; [done|]. split; [|done]. rewrite Hv. split; [by right|]. intros [[_ He]|]; [|done].
      apply list_find_None in Ef. destruct (list.Forall_not_Exists _ _ Ef He).
  - destruct (lm_field_v2 Hu Hsc Ht nt user domain challenge Hnt Hnl Hus Hds Hn Hc Hcl A lm_response nt_response username stored_lanman)
      as (v & E & Hv); [done..|].
    exists v. split; [done|]. split; [|lia]. rewrite Hv. split; [by right|]. intros [[? _]|]; [lia|done].
Qed.

(** Neither NTLMv1 nor LM. *)
Definition v2_policy : AuthPolicy := {| lp_lanman_auth := false; lp_ntlm_auth := false |}.

Lemma ntlm_password_check_v2_only_witness :
  exists v, @ntlm_password_check false utf8_charsets no_tables v2_policy calloc 0 (replicate 8 7) [] (replicate 32 1) [98; 111; 98]
    (Some (utf8s [98; 111; 98])) (Some (utf8s [68])) None (Some (replicate 16 3)) = Ret v.
Proof.
  destruct (@ntlm_password_check_v2_only false utf8_charsets no_tables v2_policy calloc 0 (replicate 16 3) [98; 111; 98] [68]
    (replicate 8 7) [] (replicate 32 1) [98; 111; 98] None (or_introl eq_refl) (fun _ => eq_refl) no_tables_upper
    ltac:(done) eq_refl eq_refl eq_refl ltac:(by_eval) eq_refl ltac:(by_eval) eq_refl
    ltac:(repeat constructor; unfold scalar; lia) ltac:(repeat constructor; unfold scalar; lia) ltac:(by_eval)
    ltac:(split; by_eval) ltac:(split; by_eval)) as (v & E & _).
  by exists v.
Defined.
