(* ===== verification/CliCredentials.v ===== *)
(** auth/credentials/credentials.c: the store of a client's credentials.  Every
    attribute has a value, the way it was obtained and possibly a callback; a value is
    replaced only by one obtained at least as explicitly. *)

From stdpp Require Import strings.
From S2P Require Import Prelude Digest Ntstatus Md4 Des Iconv Charcnv Unistr Smbencrypt.
Import Charcnv Unistr Smbencrypt.

#[local] Open Scope outcome_scope.

Module CliCredentials.

Inductive credentials_obtained :=
| CRED_UNINITIALISED | CRED_GUESS_ENV | CRED_CALLBACK | CRED_GUESS_FILE | CRED_CALLBACK_RESULT | CRED_SPECIFIED.

Definition rank (o : credentials_obtained) : nat :=
  match o with
  | CRED_UNINITIALISED => 0 | CRED_GUESS_ENV => 1 | CRED_CALLBACK => 2
  | CRED_GUESS_FILE => 3 | CRED_CALLBACK_RESULT => 4 | CRED_SPECIFIED => 5
  end.

#[export] Instance credentials_obtained_eq_dec : EqDecision credentials_obtained.
Proof. solve_decision. Defined.

Inductive credentials_use_kerberos := CRED_AUTO_USE_KERBEROS | CRED_DONT_USE_KERBEROS | CRED_MUST_USE_KERBEROS.

(** A [const char *] (or a pointer to a hash): not initialised, null, or a string. *)
Inductive cstr := Garbage | Null | Str (s : list Z).

(** One attribute: [x_obtained], [x] and [x_cb], a callback by its number. *)
Record slot := Slot { obtained : credentials_obtained; value : cstr; cb : nat }.

Inductive attr := Workstation | Username | Password | Domain | Realm | Principal.

#[export] Instance attr_eq_dec : EqDecision attr.
Proof. solve_decision. Defined.

(** The fields of struct cli_credentials that this file and credentials_ntlm.c use. *)
Record cli_credentials := Cred {
  slots : attr -> slot;
  old_password : cstr;
  bind_dn : cstr;
  nt_hash : cstr;
  machine_account_pending : bool;
  machine_account : bool;
  use_kerberos : credentials_use_kerberos;
  tries : Z;
  callback_running : bool
}.

Definition upd (a : attr) (s : slot) (c : cli_credentials) : cli_credentials :=
  Cred (fun b => if decide (b = a) then s else slots c b) (old_password c) (bind_dn c) (nt_hash c)
    (machine_account_pending c) (machine_account c) (use_kerberos c) (tries c) (callback_running c).
Definition set_running (r : bool) (c : cli_credentials) : cli_credentials :=
  Cred (slots c) (old_password c) (bind_dn c) (nt_hash c) (machine_account_pending c) (machine_account c) (use_kerberos c) (tries c) r.
Definition put_nt_hash (h : cstr) (c : cli_credentials) : cli_credentials :=
  Cred (slots c) (old_password c) (bind_dn c) h (machine_account_pending c) (machine_account c) (use_kerberos c) (tries c) (callback_running c).

Definition cli_credentials_set_kerberos_state (k : credentials_use_kerberos) (c : cli_credentials) : cli_credentials :=
  Cred (slots c) (old_password c) (bind_dn c) (nt_hash c) (machine_account_pending c) (machine_account c) k (tries c) (callback_running c).
Definition cli_credentials_get_kerberos_state (c : cli_credentials) : credentials_use_kerberos := use_kerberos c.

(** The structure is not zeroed: the values stay uninitialised. *)
Definition cli_credentials_init : cli_credentials :=
  cli_credentials_set_kerberos_state CRED_AUTO_USE_KERBEROS
    (Cred (fun _ => Slot CRED_UNINITIALISED Garbage 0) Null Null Garbage false false CRED_AUTO_USE_KERBEROS 3 false).

(** talloc_strdup: null for a null argument or a failed allocation. *)
Definition strdup (mem : bool) (v : cstr) : outcome cstr :=
  match v with
  | Garbage => Fault
  | Null => Ret Null
  | Str s => Ret (if mem then Str s else Null)
  end.

Section cred.
Context `{Charsets} `{CaseTables}.

(** The callbacks, which may change the credentials, and cli_credentials_set_machine_account,
    which reads the machine account from a database. *)
Context (run : nat -> cli_credentials -> outcome (cli_credentials * cstr)).
Context (set_machine_account : cli_credentials -> outcome cli_credentials).

(** The common body of the getters: [after] is what the attribute counts as after its
    callback ran. *)
Definition get_attr (after : credentials_obtained) (a : attr) (c : cli_credentials) : outcome (cli_credentials * cstr) :=
  if bool_decide (obtained (slots c a) = CRED_CALLBACK) && negb (callback_running c) then
    let* (c, v) := run (cb (slots c a)) (set_running true c) in
    let c := upd a (Slot (obtained (slots c a)) v (cb (slots c a))) c in
    let c := set_running false c in
    Ret (upd a (Slot after v (cb (slots c a))) c, v)
  else Ret (c, value (slots c a)).

Definition pending (c : cli_credentials) : outcome cli_credentials :=
  if machine_account_pending c then set_machine_account c else Ret c.

Definition cli_credentials_get_username (c : cli_credentials) := let* c := pending c in get_attr CRED_SPECIFIED Username c.
Definition cli_credentials_get_password (c : cli_credentials) := let* c := pending c in get_attr CRED_CALLBACK_RESULT Password c.
Definition cli_credentials_get_domain (c : cli_credentials) := let* c := pending c in get_attr CRED_SPECIFIED Domain c.
Definition cli_credentials_get_realm (c : cli_credentials) := let* c := pending c in get_attr CRED_SPECIFIED Realm c.
Definition cli_credentials_get_workstation (c : cli_credentials) := get_attr CRED_SPECIFIED Workstation c.
Definition cli_credentials_get_old_password (c : cli_credentials) : outcome (cli_credentials * cstr) :=
  let* c := pending c in Ret (c, old_password c).
Definition cli_credentials_get_bind_dn (c : cli_credentials) : cstr := bind_dn c.

(** The common body of the setters of a copied string. *)
Definition set_attr (mem : bool) (a : attr) (v : cstr) (o : credentials_obtained) (c : cli_credentials) : outcome (cli_credentials * bool) :=
  if decide (rank (obtained (slots c a)) <= rank o)%nat then
    let* v := strdup mem v in
    Ret (upd a (Slot o v (cb (slots c a))) c, true)
  else Ret (c, false).

(** The domain and the realm are folded to upper case. *)
Definition set_upper (A : Allocator) (a : attr) (v : cstr) (o : credentials_obtained) (c : cli_credentials) : outcome (cli_credentials * bool) :=
  if decide (rank (obtained (slots c a)) <= rank o)%nat then
    match v with
    | Garbage => Fault
    | _ =>
        let* v := @strupper_talloc _ _ A (match v with Str s => Some s | _ => None end) in
        Ret (upd a (Slot o (match v with Some s => Str s | None => Null end) (cb (slots c a))) c, true)
    end
  else Ret (c, false).

Definition set_callback (a : attr) (f : nat) (c : cli_credentials) : cli_credentials * bool :=
  if decide (rank (obtained (slots c a)) < rank CRED_CALLBACK)%nat then
    (upd a (Slot CRED_CALLBACK (value (slots c a)) f) c, true)
  else (c, false).

Definition cli_credentials_set_username (A : Allocator) := set_attr (@malloc_ok A 0) Username.
Definition cli_credentials_set_principal (A : Allocator) := set_attr (@malloc_ok A 0) Principal.
Definition cli_credentials_set_workstation (A : Allocator) := set_attr (@malloc_ok A 0) Workstation.
Definition cli_credentials_set_domain (A : Allocator) := set_upper A Domain.
Definition cli_credentials_set_realm (A : Allocator) := set_upper A Realm.
Definition cli_credentials_set_username_callback := set_callback Username.
Definition cli_credentials_set_principal_callback := set_callback Principal.
Definition cli_credentials_set_password_callback := set_callback Password.
Definition cli_credentials_set_domain_callback := set_callback Domain.
Definition cli_credentials_set_realm_callback := set_callback Realm.
Definition cli_credentials_set_workstation_callback := set_callback Workstation.

(** A new password forgets the hash. *)
Definition cli_credentials_set_password (A : Allocator) (v : cstr) (o : credentials_obtained) (c : cli_credentials) :
    outcome (cli_credentials * bool) :=
  let* (c, ok) := set_attr (@malloc_ok A 0) Password v o c in
  Ret (if ok : bool then put_nt_hash Null c else c, ok).

Definition cli_credentials_set_old_password (A : Allocator) (v : cstr) (c : cli_credentials) : outcome (cli_credentials * bool) :=
  let* v := strdup (@malloc_ok A 0) v in
  Ret (Cred (slots c) v (bind_dn c) (nt_hash c) (machine_account_pending c) (machine_account c) (use_kerberos c) (tries c) (callback_running c), true).
Definition cli_credentials_set_bind_dn (A : Allocator) (v : cstr) (c : cli_credentials) : outcome (cli_credentials * bool) :=
  let* v := strdup (@malloc_ok A 0) v in
  Ret (Cred (slots c) (old_password c) v (nt_hash c) (machine_account_pending c) (machine_account c) (use_kerberos c) (tries c) (callback_running c), true).

(** The hash of the password, or the hash that was set. *)
Definition cli_credentials_get_nt_hash (A : Allocator) (c : cli_credentials) : outcome (cli_credentials * cstr) :=
  let* (c, password) := cli_credentials_get_password c in
  match password with
  | Garbage => Fault
  | Null => Ret (c, nt_hash c)
  | Str password =>
      if @malloc_ok A 0 then let* r := E_md4hash (later 1 A) password in Ret (c, Str r.2) else Ret (c, Null)
  end.

(** The copy is written through its allocation. *)
Definition cli_credentials_set_nt_hash (A : Allocator) (h : list Z) (o : credentials_obtained) (c : cli_credentials) :
    outcome (cli_credentials * bool) :=
  if decide (rank (obtained (slots c Password)) <= rank o)%nat then
    let* (c, _) := cli_credentials_set_password A Null o c in
    if @malloc_ok A 0 then Ret (put_nt_hash (Str h) c, true) else Fault
  else Ret (c, false).

(** [talloc_asprintf] of two strings and what stands between them. *)
Definition join (mem : bool) (a : cstr) (sep : list Z) (b : cstr) : outcome cstr :=
  match a, b with
  | Str a, Str b => Ret (if mem then Str (a ++ sep ++ b) else Null)
  | _, _ => Fault
  end.

Definition cli_credentials_get_principal (A : Allocator) (c : cli_credentials) : outcome (cli_credentials * cstr) :=
  let* c := pending c in
  let* (c, principal) := get_attr CRED_SPECIFIED Principal c in
  if decide (rank (obtained (slots c Principal)) < rank (obtained (slots c Username)))%nat then
    let use_domain := decide (rank (obtained (slots c Realm)) < rank (obtained (slots c Domain)))%nat in
    let* (c, username) := cli_credentials_get_username c in
    let* (c, where_) := (if use_domain then cli_credentials_get_domain c else cli_credentials_get_realm c) in
    let* name := join (@malloc_ok A 0) username [64] where_ in
    Ret (c, name)
  else match principal with Garbage => Fault | _ => Ret (c, principal) end.

(** credentials_ntlm.c: the name and the domain to log on with. *)
Definition cli_credentials_get_ntlm_username_domain (A : Allocator) (c : cli_credentials) :
    outcome (cli_credentials * cstr * cstr) :=
  if decide (rank (obtained (slots c Username)) < rank (obtained (slots c Principal)))%nat then
    let* (c, username) := cli_credentials_get_principal (later 1 A) c in
    Ret (c, username, if @malloc_ok A 0 then Str [] else Null)
  else
    let* (c, domain) := cli_credentials_get_domain c in
    let* (c, username) := cli_credentials_get_username c in
    Ret (c, username, domain).

Definition cli_credentials_set_anonymous (A : Allocator) (c : cli_credentials) : outcome cli_credentials :=
  let* (c, _) := cli_credentials_set_username A (Str []) CRED_SPECIFIED c in
  let* (c, _) := cli_credentials_set_domain (later 1 A) (Str []) CRED_SPECIFIED c in
  let* (c, _) := cli_credentials_set_password (later 2 A) Null CRED_SPECIFIED c in
  Ret c.

Definition cli_credentials_is_anonymous (c : cli_credentials) : outcome (cli_credentials * bool) :=
  let* c := pending c in
  let* (c, username) := cli_credentials_get_username c in
  match username with
  | Str s => Ret (c, bool_decide (s = []))
  | _ => Fault
  end.

Definition cli_credentials_authentication_requested (c : cli_credentials) : outcome (cli_credentials * bool) :=
  match bind_dn c with
  | Garbage => Fault
  | Str _ => Ret (c, true)
  | Null =>
      let* (c, anonymous) := cli_credentials_is_anonymous c in
      if anonymous : bool then Ret (c, false)
      else Ret (c, (rank CRED_SPECIFIED <=? rank (obtained (slots c Principal)))%nat
                   || (rank CRED_SPECIFIED <=? rank (obtained (slots c Username)))%nat)
  end.

(** [if ((p = strchr_m(s, c))) *p = 0]: the string before and the string after. *)
Definition cut (s : list Z) (ch : Z) : option (list Z * list Z) :=
  p ← strchr_m s ch; Some (take (length s - length p) s, drop 1 p).

(** "[domain\]user[%password]" or "user[@realm][%password]".  The copy is used without a
    null check. *)
Definition cli_credentials_parse_string (A : Allocator) (data : list Z) (o : credentials_obtained) (c : cli_credentials) :
    outcome cli_credentials :=
  if decide (data = [37]) then cli_credentials_set_anonymous A c
  else if negb (@malloc_ok A 0) then Fault
  else
    let* (c, uname) :=
      (match cut data 37 with
       | Some (u, p) => let* (c, _) := cli_credentials_set_password (later 1 A) (Str p) o c in Ret (c, u)
       | None => Ret (c, data)
       end) in
    match cut uname 64 with
    | Some (_, realm) =>
        let* (c, _) := cli_credentials_set_principal (later 2 A) (Str uname) o c in
        let* (c, _) := cli_credentials_set_realm (later 3 A) (Str realm) o c in
        Ret c
    | None =>
        let* (c, uname) :=
          (match (match cut uname 92 with Some r => Some r | None => cut uname 47 end) with
           | Some (domain, u) => let* (c, _) := cli_credentials_set_domain (later 2 A) (Str domain) o c in Ret (c, u)
           | None => Ret (c, uname)
           end) in
        let* (c, _) := cli_credentials_set_username (later 3 A) (Str uname) o c in
        Ret c
    end.

Definition cli_credentials_get_unparsed_name (A : Allocator) (c : cli_credentials) : outcome (cli_credentials * cstr) :=
  match bind_dn c with
  | Garbage => Fault
  | Str s => Ret (c, Str s)
  | Null =>
      let* (c, username, domain) := cli_credentials_get_ntlm_username_domain A c in
      match domain with
      | Garbage => Fault
      | Null | Str [] =>
          match username with
          | Str u => Ret (c, if @malloc_ok A 10 then Str u else Null)
          | _ => Fault
          end
      | Str _ => let* name := join (@malloc_ok A 10) domain [92] username in Ret (c, name)
      end
  end.

(** [workgroup], [netbios_name] and [realm] are the configuration's. *)
Definition cli_credentials_set_conf (A : Allocator) (workgroup netbios_name realm : list Z) (c : cli_credentials) : outcome cli_credentials :=
  let* (c, _) := cli_credentials_set_username A (Str []) CRED_UNINITIALISED c in
  let* (c, _) := cli_credentials_set_domain (later 1 A) (Str workgroup) CRED_UNINITIALISED c in
  let* (c, _) := cli_credentials_set_workstation (later 2 A) (Str netbios_name) CRED_UNINITIALISED c in
  let* (c, _) := cli_credentials_set_realm (later 3 A) (Str realm) CRED_UNINITIALISED c in
  Ret c.

Definition cli_credentials_wrong_password (c : cli_credentials) : cli_credentials * bool :=
  if decide (obtained (slots c Password) = CRED_CALLBACK_RESULT) then
    let s := slots c Password in
    let c := upd Password (Slot CRED_CALLBACK (value s) (cb s)) c in
    let c := Cred (slots c) (old_password c) (bind_dn c) (nt_hash c) (machine_account_pending c) (machine_account c)
               (use_kerberos c) (tries c - 1) (callback_running c) in
    (c, 0 <? tries c)
  else (c, false).
End cred.
End CliCredentials.
Import CliCredentials.

#[local] Opaque md_hash Md4.mdfour.

(** ** Names without separators *)

Section cred.
Context `{Charsets} `{CaseTables} (A : Allocator) (unix8 : unix_is_utf8) (mem : malloc_always A).
Context (upper_scalar : forall cp, scalar cp -> scalar (toupper_w cp)).
Context (table_bytes : forall t, upcase_table = Some t -> bytes t).
Context (run : nat -> cli_credentials -> outcome (cli_credentials * cstr)).
Context (set_machine_account : cli_credentials -> outcome cli_credentials).

Definition no_char (ch : Z) (s : list Z) : Prop := Forall (fun cp => cp <> ch) s.

Lemma find_split ch a b : no_char ch a -> list_find (fun cp => cp = ch) (a ++ ch :: b) = Some (length a, ch).
Proof.
  intros Ha. rewrite byte_find_app by done. cbn [list_find]. rewrite decide_True by done. cbn. by rewrite Nat.add_0_r.
Qed.

Lemma find_none ch a : no_char ch a -> list_find (fun cp => cp = ch) a = None.
Proof. intros Ha. by apply list_find_None. Qed.

Lemma cut_split ch a b :
  Forall scalar (a ++ ch :: b) -> 0 < ch < 0x80 -> no_char ch a -> cut (utf8s (a ++ ch :: b)) ch = Some (utf8s a, utf8s b).
Proof.
  intros Hs Hc Ha. unfold cut. rewrite strchr_m_utf8 by done. rewrite find_split by done.
  cbn [fmap option_fmap option_map fst mbind option_bind]. rewrite drop_app_length.
  rewrite utf8s_app, utf8s_cons. assert (utf8 ch = [ch]) as -> by (unfold utf8; by rewrite (proj2 (Z.ltb_lt ch 0x80)) by lia).
  rewrite length_app, Nat.add_sub, take_app_length. done.
Qed.

Lemma cut_none ch a : Forall scalar a -> 0 < ch < 0x80 -> no_char ch a -> cut (utf8s a) ch = None.
Proof. intros Hs Hc Ha. unfold cut. rewrite strchr_m_utf8 by done. by rewrite find_none. Qed.

(** ** Attributes that are not waiting for a callback *)

Definition settled (c : cli_credentials) : Prop :=
  machine_account_pending c = false /\ forall a, obtained (slots c a) <> CRED_CALLBACK.

Lemma get_settled after a c : settled c -> get_attr run after a c = Ret (c, value (slots c a)).
Proof. intros [_ Hs]. unfold get_attr. by rewrite bool_decide_eq_false_2 by apply Hs. Qed.

Lemma pending_settled c : settled c -> pending set_machine_account c = Ret c.
Proof. intros [Hp _]. unfold pending. by rewrite Hp. Qed.

Lemma upd_same a s c : slots (upd a s c) a = s.
Proof. cbn. by rewrite decide_True. Qed.
Lemma upd_other a b s c : b <> a -> slots (upd a s c) b = slots c b.
Proof. intros. cbn. by rewrite decide_False. Qed.

Lemma upd_settled a s c : settled c -> obtained s <> CRED_CALLBACK -> settled (upd a s c).
Proof. intros [Hp Hs] Ho. split; [done|]. intros b. cbn. case_decide; [done|apply Hs]. Qed.

(** A setter replaces what was obtained no more explicitly, and nothing else. *)
Lemma set_attr_higher m a v o c :
  (rank (obtained (slots c a)) <= rank o)%nat -> m = true ->
  set_attr m a (Str v) o c = Ret (upd a (Slot o (Str v) (cb (slots c a))) c, true).
Proof. intros Hr ->. unfold set_attr. by rewrite decide_True. Qed.

Lemma set_attr_lower m a v o c :
  (rank o < rank (obtained (slots c a)))%nat -> set_attr m a v o c = Ret (c, false).
Proof. intros Hr. unfold set_attr. by rewrite decide_False by lia. Qed.

Lemma set_upper_higher B a v o c :
  malloc_always B -> Forall scalar v -> (rank (obtained (slots c a)) <= rank o)%nat ->
  set_upper B a (Str (utf8s v)) o c = Ret (upd a (Slot o (Str (utf8s (map toupper_w v))) (cb (slots c a))) c, true).
Proof.
  intros HB Hv Hr. unfold set_upper. rewrite decide_True by done. rewrite strupper_talloc_utf8 by (done || apply HB). done.
Qed.

Lemma set_frame a m v o c c' r :
  set_attr m a v o c = Ret (c', r) \/ (exists B, set_upper B a v o c = Ret (c', r)) ->
  forall b, (rank o < rank (obtained (slots c b)))%nat \/ b <> a -> slots c' b = slots c b.
Proof.
  intros [Hf | [B Hf]] b Hb.
  - unfold set_attr in Hf. case_decide; [|congruence]. destruct (strdup m v); [|done]. cbn [obind] in Hf.
    injection Hf as <- _. apply upd_other. destruct Hb; [|done]. intros ->. lia.
  - unfold set_upper in Hf. case_decide; [|congruence]. destruct v as [| |s]; [done| |];
      (destruct (strupper_talloc _); [|done]; cbn [obind] in Hf; injection Hf as <- _; apply upd_other;
       destruct Hb; [intros ->; lia|done]).
Qed.

Lemma set_password_frame B v o c c' r :
  cli_credentials_set_password B v o c = Ret (c', r) ->
  forall b, (rank o < rank (obtained (slots c b)))%nat \/ b <> Password -> slots c' b = slots c b.
Proof.
  unfold cli_credentials_set_password. destruct (set_attr _ _ _ _ _) as [[c1 r1]|] eqn:E; [|done]. cbn [obind].
  intros E2 b Hb. injection E2 as <- <-.
  rewrite <- (set_frame Password _ v o c c1 r1 (or_introl E) b Hb).
  by destruct r1.
Qed.

(** The attributes obtained more explicitly than [o] outlive the parsing of any string,
    the anonymous one excepted. *)
Lemma parse_keeps data o c c' :
  data <> [37] -> cli_credentials_parse_string A data o c = Ret c' ->
  forall b, (rank o < rank (obtained (slots c b)))%nat -> slots c' b = slots c b.
Proof.
  intros Hd Hp b Hb. unfold cli_credentials_parse_string in Hp. rewrite decide_False in Hp by done.
  destruct (negb _); [done|].
  assert (forall a m v (c1 c2 : cli_credentials) r,
    set_attr m a v o c1 = Ret (c2, r) \/ (exists B, set_upper B a v o c1 = Ret (c2, r)) ->
    slots c1 b = slots c b -> slots c2 b = slots c b) as Hstep.
  { intros a m v c1 c2 r Hf E1. rewrite <- E1. apply (set_frame a m v o c1 c2 r Hf). left. by rewrite E1. }
  destruct (match cut data 37 with Some _ => _ | None => _ end) as [[c1 uname]|] eqn:E1; [|done]. cbn [obind] in Hp.
  assert (slots c1 b = slots c b) as Hc1.
  { destruct (cut data 37) as [[u p]|]; [|congruence].
    destruct (cli_credentials_set_password _ _ _ _) as [[c2 r]|] eqn:E2; [|done]. cbn [obind] in E1.
    replace c1 with c2 by congruence. apply (set_password_frame _ _ _ _ _ _ E2). by left. }
  destruct (cut uname 64) as [[u realm]|].
  - destruct (cli_credentials_set_principal _ _ _ _) as [[c2 r2]|] eqn:E2; [|done]. cbn [obind] in Hp.
    destruct (cli_credentials_set_realm _ _ _ _) as [[c3 r3]|] eqn:E3; [|done]. cbn [obind] in Hp. injection Hp as <-.
    eapply (Hstep _ true); [right; exists (later 3 A); exact E3|].
    eapply Hstep; [left; exact E2|done].
  - destruct (match match _ with Some r => Some r | None => _ end with Some _ => _ | None => _ end) as [[c2 u2]|] eqn:E2; [|done].
    cbn [obind] in Hp. destruct (cli_credentials_set_username _ _ _ _) as [[c3 r3]|] eqn:E3; [|done]. cbn [obind] in Hp.
    injection Hp as <-. eapply Hstep; [left; exact E3|].
    destruct (match cut uname 92 with Some r => Some r | None => _ end) as [[d u]|]; [|congruence].
    destruct (cli_credentials_set_domain _ _ _ _) as [[c4 r4]|] eqn:E4; [|done]. cbn [obind] in E2.
    replace c2 with c4 by congruence.
    eapply (Hstep _ true); [right; exists (later 2 A); exact E4|done].
Qed.

(** ** Parsing a name *)

Lemma parse_domain_user o c domain user password :
  Forall scalar domain -> Forall scalar user -> Forall scalar password ->
  no_char 37 domain -> no_char 64 domain -> no_char 92 domain -> no_char 37 user -> no_char 64 user ->
  (forall a, a = Password \/ a = Domain \/ a = Username -> rank (obtained (slots c a)) <= rank o)%nat ->
  cli_credentials_parse_string A (utf8s (domain ++ 92 :: user ++ 37 :: password)) o c =
  Ret (upd Username (Slot o (Str (utf8s user)) (cb (slots c Username)))
        (upd Domain (Slot o (Str (utf8s (map toupper_w domain))) (cb (slots c Domain)))
          (put_nt_hash Null (upd Password (Slot o (Str (utf8s password)) (cb (slots c Password))) c)))).
Proof.
  intros Hd Hu Hp Hd37 Hd64 Hd92 Hu37 Hu64 Hr.
  assert (scalar 92 /\ scalar 37) as [H92 H37] by (unfold scalar; lia).
  assert (Forall scalar (domain ++ 92 :: user)) as Hdu by (apply Forall_app; split; [done|by constructor]).
  assert (domain ++ 92 :: user ++ 37 :: password = (domain ++ 92 :: user) ++ 37 :: password) as -> by (by rewrite <- app_assoc).
  assert (no_char 37 (domain ++ 92 :: user)) as Hn37 by (apply Forall_app; split; [done|by constructor]).
  assert (no_char 64 (domain ++ 92 :: user)) as Hn64 by (apply Forall_app; split; [done|by constructor]).
  unfold cli_credentials_parse_string. rewrite decide_False.
  2: { rewrite utf8s_app. intros E. apply (f_equal length) in E. rewrite length_app, utf8s_app, utf8s_cons, length_app, utf8s_cons in E.
       rewrite !length_app in E. change (length (utf8 92)) with 1%nat in E. change (length (utf8 37)) with 1%nat in E. simpl in E. lia. }
  rewrite mem. cbn [negb]. rewrite cut_split; [|apply Forall_app; split; [done|by constructor]|lia|done].
  unfold cli_credentials_set_password. rewrite set_attr_higher by (auto || apply later_always, mem). cbn [obind].
  rewrite cut_none by (done || lia). rewrite cut_split by (done || lia).
  unfold cli_credentials_set_domain. rewrite set_upper_higher;
    [|by apply later_always|done|cbn; rewrite decide_False by done; auto].
  cbn [obind]. unfold cli_credentials_set_username. rewrite set_attr_higher;
    [|cbn; rewrite !decide_False by done; auto|apply later_always, mem].
  cbn [obind]. done.
Qed.

Lemma unparsed_settled c domain user :
  settled c -> bind_dn c = Null -> (rank (obtained (slots c Principal)) <= rank (obtained (slots c Username)))%nat ->
  value (slots c Domain) = Str domain -> value (slots c Username) = Str user -> domain <> [] ->
  cli_credentials_get_unparsed_name run set_machine_account A c = Ret (c, Str (domain ++ [92] ++ user)).
Proof.
  intros Hs Hb Hr Hd Hu Hne. unfold cli_credentials_get_unparsed_name, cli_credentials_get_ntlm_username_domain.
  rewrite Hb, decide_False by lia. unfold cli_credentials_get_domain, cli_credentials_get_username.
  rewrite pending_settled by done. cbn [obind]. rewrite get_settled by done. cbn [obind].
  rewrite pending_settled by done. cbn [obind]. rewrite get_settled by done. cbn [obind]. rewrite Hd, Hu.
  destruct domain as [|b domain]; [done|]. unfold join. rewrite mem. done.
Qed.

Lemma nt_hash_settled c password :
  settled c -> Forall scalar password -> Z.of_nat (length (utf16s password)) < 2 ^ 28 ->
  value (slots c Password) = Str (utf8s password) ->
  cli_credentials_get_nt_hash run set_machine_account A c = Ret (c, Str (nt_owf password)).
Proof.
  intros Hs Hp Hl Hv. unfold cli_credentials_get_nt_hash, cli_credentials_get_password.
  rewrite pending_settled by done. cbn [obind]. rewrite get_settled by done. cbn [obind]. rewrite Hv, mem.
  rewrite E_md4hash_utf8 by (done || by apply later_always). done.
Qed.
End cred.

(** A name "domain\user%password" of a command line is parsed into its three parts,
    the domain in upper case, and credentials made from it print as "DOMAIN\user", give
    the NT hash of the password and leave every other attribute alone; and what was
    obtained more explicitly outlives the parsing of any later string but "%". *)
Theorem parse_string_credentials `{Charsets} `{CaseTables} (A : Allocator)
    (run : nat -> cli_credentials -> outcome (cli_credentials * cstr))
    (set_machine_account : cli_credentials -> outcome cli_credentials)
    (o weaker : credentials_obtained) (c : cli_credentials) (domain user password data : list Z) :
  unix_is_utf8 -> malloc_always A ->
  (forall cp, scalar cp -> scalar (toupper_w cp)) -> (forall t, upcase_table = Some t -> bytes t) ->
  settled c -> o <> CRED_CALLBACK -> bind_dn c = Null -> (forall a, rank (obtained (slots c a)) <= rank o)%nat ->
  Forall scalar domain -> Forall scalar user -> Forall scalar password ->
  no_char 37 domain -> no_char 64 domain -> no_char 92 domain -> no_char 37 user -> no_char 64 user -> domain <> [] ->
  Z.of_nat (length (utf16s password)) < 2 ^ 28 ->
  exists c', cli_credentials_parse_string A (utf8s (domain ++ 92 :: user ++ 37 :: password)) o c = Ret c' /\
    cli_credentials_get_unparsed_name run set_machine_account A c' = Ret (c', Str (utf8s (map toupper_w domain) ++ [92] ++ utf8s user)) /\
    cli_credentials_get_password run set_machine_account c' = Ret (c', Str (utf8s password)) /\
    cli_credentials_get_nt_hash run set_machine_account A c' = Ret (c', Str (nt_owf password)) /\
    (forall a, a <> Username -> a <> Domain -> a <> Password -> slots c' a = slots c a) /\
    (forall c2, (rank weaker < rank o)%nat -> data <> [37] ->
     cli_credentials_parse_string A data weaker c' = Ret c2 ->
     forall a, a = Username \/ a = Domain \/ a = Password -> slots c2 a = slots c' a).
Proof.
  intros Hu Hm Hsc Ht Hset Ho Hb Hr Hd Hus Hp Hd37 Hd64 Hd92 Hu37 Hu64 Hne Hl.
  eexists. split; [by apply parse_domain_user|]. set (c' := upd Username _ _).
  assert (settled c') as Hs' by (unfold c'; do 2 (apply upd_settled; [|done]); by apply (upd_settled Password)).
  assert (value (slots c' Password) = Str (utf8s password)) as Ep by done.
  split_and!.
  - apply unparsed_settled; try done.
    + change (rank (obtained (slots c Principal)) <= rank o)%nat. auto.
    + destruct domain as [|d domain]; [done|]. cbn [map]. rewrite utf8s_cons. by destruct (utf8_nonempty (toupper_w d)) as (? & ? & ->).
  - unfold cli_credentials_get_password. rewrite pending_settled by done. cbn [obind]. by rewrite get_settled.
  - by apply nt_hash_settled.
  - intros a Ha1 Ha2 Ha3. unfold c'. cbn. by rewrite !decide_False.
  - intros c2 Hw Hdata E a Ha. apply (parse_keeps A run set_machine_account data weaker c' c2 Hdata E).
    destruct Ha as [-> | [-> | ->]]; done.
Qed.

(** Fresh credentials, with no callbacks and no machine account. *)
Definition no_callback (n : nat) (c : cli_credentials) : outcome (cli_credentials * cstr) := Fault.
Definition no_machine_account (c : cli_credentials) : outcome cli_credentials := Fault.

Lemma parse_string_credentials_witness :
  exists c', @cli_credentials_parse_string utf8_charsets no_tables calloc
      (utf8s ([100] ++ 92 :: [117] ++ 37 :: [112])) CRED_SPECIFIED cli_credentials_init = Ret c' /\
    cli_credentials_get_unparsed_name no_callback no_machine_account calloc c' = Ret (c', Str [68; 92; 117]).
Proof.
  destruct (@parse_string_credentials utf8_charsets no_tables calloc no_callback no_machine_account CRED_SPECIFIED CRED_GUESS_ENV
    cli_credentials_init [100] [117] [112] [] (or_introl eq_refl) (fun _ => eq_refl) no_tables_upper ltac:(done)
    ltac:(done) ltac:(done) eq_refl ltac:(cbn; lia)
    ltac:(repeat constructor; unfold scalar; lia) ltac:(repeat constructor; unfold scalar; lia) ltac:(repeat constructor; unfold scalar; lia)
    ltac:(by_eval) ltac:(by_eval) ltac:(by_eval) ltac:(by_eval) ltac:(by_eval) ltac:(done) ltac:(by_eval)) as (c' & E1 & E2 & _).
  exists c'. split; [exact E1|exact E2].
Defined.
