(* ===== verification/CredNtlm.v ===== *)
(** auth/credentials/credentials_ntlm.c: the NTLM response of a client's credentials to
    a server's challenge, in one of its three forms. *)

From stdpp Require Import strings.
From S2P Require Import Prelude Digest Byteorder Ntstatus Md4 Md5 Hmac Des Iconv Charcnv Unistr Smbencrypt CliCredentials.
Import Charcnv Unistr Smbencrypt CliCredentials.

#[local] Open Scope outcome_scope.

Module CredNtlm.

Definition CLI_CRED_NTLM2 : Z := 0x01.
Definition CLI_CRED_NTLMv2_AUTH : Z := 0x02.
Definition CLI_CRED_LANMAN_AUTH : Z := 0x04.
Definition CLI_CRED_NTLM_AUTH : Z := 0x08.

(** What a call stores through its pointers.  A null session key blob is [None]. *)
Record ntlm_response := NtlmResponse {
  r_flags : Z;
  r_lm : list Z;
  r_nt : list Z;
  r_lm_key : option (list Z);
  r_key : option (list Z)
}.

(** The random bytes and the clock of one call: the client challenge and the LMv2 data of
    NTLMv2, the nonce of NTLM2, and time(NULL). *)
Record fresh_data := FreshData { now : Z; client_chal : list Z; lm_client_data : list Z; nonce : list Z }.

Section cred.
Context `{Host} `{Charsets} `{CaseTables} (A : Allocator).
Context (run : nat -> cli_credentials -> outcome (cli_credentials * cstr)).
Context (set_machine_account : cli_credentials -> outcome cli_credentials).

Definition clear (f flags : Z) : Z := Z.ldiff flags f.

(** MD5 of the two challenges. *)
Definition session_nonce_hash (challenge nonce : list Z) : list Z :=
  fst (Md5.MD5Final (Md5.MD5Update (Md5.MD5Update Md5.MD5Init (take 8 challenge)) (take 8 nonce))).

(** The NTLM2 session response.  Every blob is written through its allocation. *)
Definition ntlm2_response (fd : fresh_data) (hash challenge : list Z) (flags : Z) : outcome ntlm_response :=
  if negb (@malloc_ok A 40 && @malloc_ok A 41 && @malloc_ok A 42) then Fault
  else
    let lm_response := nonce fd ++ replicate 16 0 in
    let session_nonce := take 8 challenge ++ take 8 lm_response in
    let nt_response := SMBOWFencrypt hash (take 8 (session_nonce_hash challenge lm_response)) in
    let user_session_key := SMBsesskeygen_ntv1 hash in
    let session_key := HmacMd5.hmac_md5 user_session_key session_nonce in
    Ret (NtlmResponse (clear CLI_CRED_LANMAN_AUTH flags) lm_response nt_response None (Some session_key)).

(** The LM session key: half of the LM hash of the password. *)
Definition lm_key_of (password : list Z) : outcome (list Z) :=
  let* h := E_deshash (later 60 A) password in
  if @malloc_ok A 45 then Ret (take 8 h.2 ++ replicate 8 0) else Fault.

Definition ntlm1_response (c : cli_credentials) (hash challenge : list Z) (flags : Z) : outcome (cli_credentials * ntlm_response) :=
  if negb (@malloc_ok A 40 && @malloc_ok A 41) then Fault
  else
    let nt_response := SMBOWFencrypt hash challenge in
    let session_key := SMBsesskeygen_ntv1 hash in
    let* (c, password) := cli_credentials_get_password run set_machine_account c in
    if flag flags CLI_CRED_LANMAN_AUTH then
      match password with
      | Garbage => Fault
      | Null => Ret (c, NtlmResponse flags nt_response nt_response None (Some session_key))
      | Str password =>
          if negb (@malloc_ok A 42) then Fault
          else
            let* lm := SMBencrypt (later 50 A) password challenge in
            if negb lm.1 then
              Ret (c, NtlmResponse (clear CLI_CRED_LANMAN_AUTH flags) nt_response nt_response None (Some session_key))
            else
              let* lm_session_key := lm_key_of password in
              let session_key := if flag flags CLI_CRED_NTLM_AUTH then session_key else lm_session_key in
              Ret (c, NtlmResponse flags lm.2 nt_response (Some lm_session_key) (Some session_key))
      end
    else
      let flags := clear CLI_CRED_LANMAN_AUTH flags in
      match password with
      | Garbage => Fault
      | Null => Ret (c, NtlmResponse flags nt_response nt_response None (Some session_key))
      | Str password =>
          let* lm_session_key := lm_key_of password in
          Ret (c, NtlmResponse flags nt_response nt_response (Some lm_session_key) (Some session_key))
      end.

Definition cli_credentials_get_ntlm_response (fd : fresh_data) (flags : Z) (challenge target_info : list Z) (c : cli_credentials) :
    outcome (cli_credentials * (NTSTATUS + ntlm_response)) :=
  let* (c, hash) := cli_credentials_get_nt_hash run set_machine_account A c in
  let* (c, user, domain) := cli_credentials_get_ntlm_username_domain run set_machine_account (later 20 A) c in
  let flags := if decide (rank (obtained (slots c Username)) < rank (obtained (slots c Principal)))%nat
               then clear CLI_CRED_LANMAN_AUTH flags else flags in
  let flags := if machine_account c then clear CLI_CRED_LANMAN_AUTH flags else flags in
  match use_kerberos c, hash with
  | CRED_MUST_USE_KERBEROS, _ => Ret (c, inl NT_STATUS_ACCESS_DENIED)
  | _, Garbage => Fault
  | _, Null =>
      Ret (c, inr (NtlmResponse (clear CLI_CRED_NTLM2 flags) [] []
                     (if @malloc_ok A 41 then Some (replicate 16 0) else None) (if @malloc_ok A 40 then Some (replicate 16 0) else None)))
  | _, Str hash =>
      if flag flags CLI_CRED_NTLMv2_AUTH then
        if decide (length target_info = 0)%nat then Ret (c, inl NT_STATUS_INVALID_PARAMETER)
        else
          match user, domain with
          | Garbage, _ | _, Garbage => Fault
          | _, _ =>
              let opt s := match s with Str s => Some s | _ => None end in
              let* r := SMBNTLMv2encrypt_hash (later 40 A) (now fd) (client_chal fd) (lm_client_data fd) (Wanted true true false true)
                          (opt user) (opt domain) hash challenge target_info in
              match r with
              | None => Ret (c, inl NT_STATUS_NO_MEMORY)
              | Some r =>
                  Ret (c, inr (NtlmResponse (clear CLI_CRED_LANMAN_AUTH flags) (default [] (lm_response r)) (default [] (nt_response r))
                                 None (user_session_key r)))
              end
          end
      else if flag flags CLI_CRED_NTLM2 then
        let* r := ntlm2_response fd hash challenge flags in Ret (c, inr r)
      else
        let* (c, r) := ntlm1_response c hash challenge flags in Ret (c, inr r)
  end.
End cred.
End CredNtlm.
Import CredNtlm.

#[local] Opaque Hmac.HmacMd5.hmac_md5_final Hmac.HmacMd5.hmac_md5_update Hmac.HmacMd5.hmac_md5_init_limK_to_64
  rfc2104_hmac md_hash Md4.mdfour SMBOWFencrypt HmacMd5.hmac_md5.

(** ** The three responses of complete credentials *)

(** Credentials with a name, a domain and a password, which are not waiting for a
    callback or the machine account. *)
Record logon_ready (c : cli_credentials) (user domain password ws : list Z) := {
  lr_settled : settled c;
  lr_user : value (slots c Username) = Str (utf8s user);
  lr_domain : value (slots c Domain) = Str (utf8s domain);
  lr_password : value (slots c Password) = Str (utf8s password);
  lr_workstation : value (slots c Workstation) = Str ws;
  lr_principal : (rank (obtained (slots c Principal)) <= rank (obtained (slots c Username)))%nat;
  lr_kerberos : use_kerberos c <> CRED_MUST_USE_KERBEROS
}.

Lemma clear_other f g flags : Z.land f g = 0 -> flag (clear f flags) g = flag flags g.
Proof.
  intros Hfg. unfold flag, clear. f_equal. f_equal. apply Z.bits_inj'. intros i Hi.
  rewrite !Z.land_spec, Z.ldiff_spec. apply (f_equal (fun z => Z.testbit z i)) in Hfg.
  rewrite Z.land_spec, Z.bits_0 in Hfg. destruct (Z.testbit f i), (Z.testbit g i), (Z.testbit flags i); done.
Qed.

Section responses.
Context `{Host} `{Charsets} `{CaseTables} (A : Allocator) (unix8 : unix_is_utf8) (mem : malloc_always A).
Context (upper_scalar : forall cp, scalar cp -> scalar (toupper_w cp)).
Context (table_bytes : forall t, upcase_table = Some t -> bytes t).
Context (run : nat -> cli_credentials -> outcome (cli_credentials * cstr)).
Context (set_machine_account : cli_credentials -> outcome cli_credentials).
Context (c : cli_credentials) (user domain password ws : list Z) (ready : logon_ready c user domain password ws).
Context (password_scalar : Forall scalar password) (password_length : Z.of_nat (length (utf16s password)) < 2 ^ 28).
Context (fd : fresh_data).

Lemma names_ready (B : Allocator) :
  cli_credentials_get_ntlm_username_domain run set_machine_account B c = Ret (c, Str (utf8s user), Str (utf8s domain)).
Proof.
  destruct ready as [Hs Hu Hd _ _ Hr _]. unfold cli_credentials_get_ntlm_username_domain. rewrite decide_False by lia.
  unfold cli_credentials_get_domain, cli_credentials_get_username. rewrite pending_settled by done. cbn [obind].
  rewrite get_settled by done. cbn [obind]. rewrite pending_settled by done. cbn [obind]. rewrite get_settled by done.
  cbn [obind]. by rewrite Hu, Hd.
Qed.

Lemma workstation_ready : cli_credentials_get_workstation run c = Ret (c, Str ws).
Proof. destruct ready as [Hs _ _ _ Hw _ _]. unfold cli_credentials_get_workstation. by rewrite get_settled, Hw. Qed.

Lemma password_ready : cli_credentials_get_password run set_machine_account c = Ret (c, Str (utf8s password)).
Proof.
  destruct ready as [Hs _ _ Hp _ _ _]. unfold cli_credentials_get_password. rewrite pending_settled by done. cbn [obind].
  by rewrite get_settled, Hp.
Qed.

(** The flags the response starts from: LM only for a user that is not a machine. *)
Definition offered (flags : Z) : Z := if machine_account c then clear CLI_CRED_LANMAN_AUTH flags else flags.

Lemma offered_flag flags g : Z.land CLI_CRED_LANMAN_AUTH g = 0 -> flag (offered flags) g = flag flags g.
Proof. intros Hg. unfold offered. destruct (machine_account c); [by apply clear_other|done]. Qed.

(** The head of the function, up to the choice of the response. *)
Lemma response_cases flags challenge target_info :
  cli_credentials_get_ntlm_response A run set_machine_account fd flags challenge target_info c =
  let hash := nt_owf password in
  let flags := offered flags in
  if flag flags CLI_CRED_NTLMv2_AUTH then
    if decide (length target_info = 0)%nat then Ret (c, inl NT_STATUS_INVALID_PARAMETER)
    else
      let* r := SMBNTLMv2encrypt_hash (later 40 A) (now fd) (client_chal fd) (lm_client_data fd) (Wanted true true false true)
                  (Some (utf8s user)) (Some (utf8s domain)) hash challenge target_info in
      match r with
      | None => Ret (c, inl NT_STATUS_NO_MEMORY)
      | Some r => Ret (c, inr (NtlmResponse (clear CLI_CRED_LANMAN_AUTH flags) (default [] (lm_response r)) (default [] (nt_response r))
                                 None (user_session_key r)))
      end
  else if flag flags CLI_CRED_NTLM2 then let* r := ntlm2_response A fd hash challenge flags in Ret (c, inr r)
  else let* (c, r) := ntlm1_response A run set_machine_account c hash challenge flags in Ret (c, inr r).
Proof.
  pose proof ready as [Hs Hu Hd Hp _ Hr Hk]. unfold cli_credentials_get_ntlm_response.
  rewrite (nt_hash_settled A unix8 mem run set_machine_account c password) by done. cbn [obind].
  rewrite names_ready. cbn [obind]. rewrite decide_False by lia.
  change (if machine_account c then clear CLI_CRED_LANMAN_AUTH flags else flags) with (offered flags).
  destruct (use_kerberos c); [reflexivity|reflexivity|done].
Qed.

(** *** NTLMv2 *)

Lemma ntlmv2_ready flags challenge target_info :
  flag flags CLI_CRED_NTLMv2_AUTH = true -> target_info <> [] ->
  Forall scalar user -> Forall scalar domain ->
  Z.of_nat (length (utf16s (map toupper_w user)) + length (utf16s (map toupper_w domain))) < 2 ^ 60 ->
  bytes challenge -> bytes (client_chal fd) -> bytes target_info -> bytes (lm_client_data fd) ->
  Z.of_nat (20 + length (client_chal fd) + length challenge + length target_info + length (lm_client_data fd)) < 2 ^ 60 ->
  let key := owf_v2 (nt_owf password) user domain true in
  let data := client_data_v2 (now fd) (client_chal fd) target_info in
  let nt := proof_of key challenge data in
  cli_credentials_get_ntlm_response A run set_machine_account fd flags challenge target_info c =
  Ret (c, inr (NtlmResponse (clear CLI_CRED_LANMAN_AUTH (offered flags))
    (proof_of key challenge (lm_client_data fd) ++ lm_client_data fd) (nt ++ data) None (Some (rfc2104_hmac md5_spec key nt)))).
Proof.
  intros Hf Ht Hus Hds Hn Hc Hcc Hti Hlm Hl key data nt. rewrite response_cases. cbv zeta. rewrite offered_flag, Hf by done.
  rewrite decide_False by (destruct target_info; [done|simpl; lia]).
  destruct (md4_digest (utf16s password)) as [Hob Hol].
  rewrite (v2encrypt_hash_utf8 (later 40 A) unix8 (later_always 40 A mem) upper_scalar table_bytes _ _ _ (Wanted true true false true)
    (nt_owf password) user domain challenge target_info Hob Hol Hus Hds Hn Hc Hcc Hti Hlm Hl).
  reflexivity.
Qed.

(** *** NTLM2 and NTLM *)

Lemma ntlm2_ready flags challenge target_info :
  flag flags CLI_CRED_NTLMv2_AUTH = false -> flag flags CLI_CRED_NTLM2 = true ->
  length challenge = 8%nat -> length (nonce fd) = 8%nat ->
  cli_credentials_get_ntlm_response A run set_machine_account fd flags challenge target_info c =
  Ret (c, inr (NtlmResponse (clear CLI_CRED_LANMAN_AUTH (offered flags)) (nonce fd ++ replicate 16 0)
    (SMBOWFencrypt (nt_owf password) (take 8 (session_nonce_hash challenge (nonce fd)))) None
    (Some (HmacMd5.hmac_md5 (SMBsesskeygen_ntv1 (nt_owf password)) (challenge ++ nonce fd))))).
Proof.
  intros Hv2 H2 Hc Hn. rewrite response_cases. cbv zeta. rewrite !offered_flag, Hv2, H2 by done.
  unfold ntlm2_response. rewrite !mem. cbn [andb negb obind].
  assert (forall l, take 8 (nonce fd ++ l) = nonce fd) as Ht by (intros l; by rewrite take_app_length' by lia).
  unfold session_nonce_hash. by rewrite !Ht, !(take_ge challenge), (take_ge (nonce fd)) by lia.
Qed.

(** Without LM authentication the NT response stands in both fields. *)
Lemma ntlm1_ready flags challenge target_info h :
  flag flags CLI_CRED_NTLMv2_AUTH = false -> flag flags CLI_CRED_NTLM2 = false -> flag flags CLI_CRED_LANMAN_AUTH = false ->
  (forall B, malloc_always B -> E_deshash B (utf8s password) = Ret h) ->
  exists lm_key,
  cli_credentials_get_ntlm_response A run set_machine_account fd flags challenge target_info c =
  Ret (c, inr (NtlmResponse (clear CLI_CRED_LANMAN_AUTH (offered flags)) (SMBOWFencrypt (nt_owf password) challenge)
    (SMBOWFencrypt (nt_owf password) challenge) lm_key (Some (SMBsesskeygen_ntv1 (nt_owf password))))).
Proof.
  intros Hv2 H2 Hlm Hh. rewrite response_cases. cbv zeta. rewrite !offered_flag, Hv2, H2 by done.
  unfold ntlm1_response. rewrite !mem. cbn [andb negb]. rewrite password_ready. cbn [obind].
  assert (flag (offered flags) CLI_CRED_LANMAN_AUTH = false) as ->.
  { unfold offered. destruct (machine_account c); [|done]. unfold flag, clear. apply negb_false_iff, Z.eqb_eq.
    apply Z.bits_inj'. intros i Hi. rewrite Z.land_spec, Z.ldiff_spec, Z.bits_0. by destruct (Z.testbit _ _), (Z.testbit _ _). }
  unfold lm_key_of. rewrite Hh by by apply later_always. cbn [obind]. rewrite mem. cbn [obind]. by eexists.
Qed.
End responses.
