(* ===== verification/StrList.v ===== *)
(** lib/util/util_strlist.c: null-terminated lists of strings.  A list is a Coq list of
    strings, a null list pointer is [None]; a string is its bytes without the
    terminator. *)

From stdpp Require Import strings.
From S2P Require Import Prelude Ntstatus Charcnv Unistr.
Import Unistr.

#[local] Open Scope outcome_scope.

Module StrList.

(** strcspn and strspn of the C library. *)
Fixpoint strcspn (s sep : list Z) : nat :=
  match s with
  | [] => 0
  | c :: s => if bool_decide (c ∈ sep) then 0 else S (strcspn s sep)
  end.
Fixpoint strspn (s sep : list Z) : nat :=
  match s with
  | [] => 0
  | c :: s => if bool_decide (c ∈ sep) then S (strspn s sep) else 0
  end.

(** LIST_SEP, and the default separators of the shell form. *)
Definition LIST_SEP : list Z := [32; 9; 44; 10; 13].
Definition SHELL_SEP : list Z := [32; 9; 10; 13].

Section lists.
Context `{Allocator}.

(** The loops run out of fuel only into a fault, so a result means that they ended.
    [k] counts the allocations made so far. *)
Fixpoint make_loop (fuel k : nat) (string sep : list Z) (ret : list (list Z)) : outcome (option (list (list Z))) :=
  match string with
  | [] => Ret (Some ret)
  | _ =>
      match fuel with
      | O => Fault
      | S fuel =>
          let len := strcspn string sep in
          if decide (len = 0)%nat then make_loop fuel k (drop (strspn string sep) string) sep ret
          else if malloc_ok k && malloc_ok (k + 1) then
            make_loop fuel (k + 2) (drop len string) sep (ret ++ [take len string])
          else Ret None
      end
  end.

Definition str_list_make (string sep : option (list Z)) : outcome (option (list (list Z))) :=
  let string := default [] string in
  if malloc_ok 0 then make_loop (length string) 1 string (default LIST_SEP sep) [] else Ret None.

(** An entry in quotes that are not closed moves the pointer beyond the terminator. *)
Fixpoint make_shell_loop (fuel k : nat) (string sep : list Z) (ret : list (list Z)) : outcome (option (list (list Z))) :=
  match string with
  | [] => Ret (Some ret)
  | c :: rest =>
      match fuel with
      | O => Fault
      | S fuel =>
          let len := strcspn string sep in
          if decide (len = 0)%nat then make_shell_loop fuel k (drop (strspn string sep) string) sep ret
          else
            let quoted := c =? 34 in
            let len := if quoted then strcspn rest [34] else len in
            let element := take len (if quoted then rest else string) in
            if malloc_ok k && malloc_ok (k + 1) then
              if quoted then
                if decide (len < length rest)%nat then
                  make_shell_loop fuel (k + 2) (drop (len + 1) rest) sep (ret ++ [element])
                else Fault
              else make_shell_loop fuel (k + 2) (drop len string) sep (ret ++ [element])
            else Ret None
      end
  end.

Definition str_list_make_shell (string sep : option (list Z)) : outcome (option (list (list Z))) :=
  let string := default [] string in
  if malloc_ok 0 then make_shell_loop (length string) 1 string (default SHELL_SEP sep) [] else Ret None.

(** talloc_asprintf_append: the string grows, or the pointer becomes null; appending to
    null prints from the start. *)
Definition append (ok : bool) (ret : option (list Z)) (s : list Z) : option (list Z) :=
  if ok then Some (default [] ret ++ s) else None.

Fixpoint join_loop (k : nat) (l : list (list Z)) (print : list Z -> list Z) (ret : option (list Z)) : option (list Z) :=
  match l with
  | [] => ret
  | s :: l => join_loop (S k) l print (append (malloc_ok k) ret (print s))
  end.

Definition str_list_join (l : list (list Z)) (seperator : Z) : option (list Z) :=
  match l with
  | [] => if malloc_ok 0 then Some [] else None
  | s :: l => join_loop 1 l (fun s => seperator :: s) (if malloc_ok 0 then Some s else None)
  end.

(** An entry with a space in it, or empty, is put in quotes. *)
Definition shell_quote (s : list Z) : list Z :=
  if bool_decide (32 ∈ s) || bool_decide (length s = 0%nat) then [34] ++ s ++ [34] else s.

Definition str_list_join_shell (l : list (list Z)) (sep : Z) : option (list Z) :=
  match l with
  | [] => if malloc_ok 0 then Some [] else None
  | s :: l => join_loop 1 l (fun s => sep :: shell_quote s) (if malloc_ok 0 then Some (shell_quote s) else None)
  end.

Definition str_list_length (l : option (list (list Z))) : nat := length (default [] l).

Definition str_list_copy (l : option (list (list Z))) : option (list (list Z)) :=
  if malloc_ok 0 && forallb (fun i => malloc_ok (S i)) (seq 0 (str_list_length l)) then Some (default [] l) else None.

(** Two null pointers are equal. *)
Fixpoint equal_loop (list1 list2 : list (list Z)) : bool :=
  match list1, list2 with
  | a :: list1, b :: list2 => if bool_decide (a = b) then equal_loop list1 list2 else false
  | [], [] => true
  | _, _ => false
  end.
Definition str_list_equal (list1 list2 : option (list (list Z))) : bool :=
  match list1, list2 with
  | Some list1, Some list2 => equal_loop list1 list2
  | None, None => true
  | _, _ => false
  end.

(** [None] is the null pointer returned when an allocation fails. *)
Definition str_list_add (l : option (list (list Z))) (s : list Z) : option (list (list Z)) :=
  if malloc_ok 0 && malloc_ok 1 then Some (default [] l ++ [s]) else None.

(** The first match is removed. *)
Fixpoint str_list_remove (l : list (list Z)) (s : list Z) : list (list Z) :=
  match l with
  | [] => []
  | a :: l => if bool_decide (a = s) then l else a :: str_list_remove l s
  end.

Definition str_list_check (l : list (list Z)) (s : list Z) : bool := existsb (fun a => bool_decide (a = s)) l.
Definition str_list_check_ci (l : list (list Z)) (s : list Z) : bool := existsb (fun a => strcasecmp a s =? 0) l.
End lists.
End StrList.
Import StrList.

(** ** The words of a string: the maximal runs of other characters than separators *)

Fixpoint words (sep s : list Z) : list (list Z) :=
  match s with
  | [] => []
  | c :: s =>
      if decide (c ∈ sep) then words sep s
      else
        match s with
        | d :: _ => if decide (d ∈ sep) then [c] :: words sep s
                    else match words sep s with w :: ws => (c :: w) :: ws | [] => [[c]] end
        | [] => [[c]]
        end
  end.

(** A character sequence without separators. *)
Definition plain (sep s : list Z) : Prop := Forall (fun c => c ∉ sep) s.

Lemma strspn_bound s sep : (strspn s sep <= length s)%nat.
Proof. induction s as [|c s IH]; cbn [strspn length]; [done|]. case_bool_decide; lia. Qed.

Lemma words_skip sep s : words sep (drop (strspn s sep) s) = words sep s.
Proof.
  induction s as [|c s IH]; [done|]. cbn [strspn]. case_bool_decide as Hc; [|done].
  cbn [drop words]. by rewrite decide_True.
Qed.

Lemma words_take sep s : (0 < strcspn s sep)%nat -> words sep s = take (strcspn s sep) s :: words sep (drop (strcspn s sep) s).
Proof.
  induction s as [|c s IH]; cbn [strcspn]; [lia|]. case_bool_decide as Hc; [lia|]. intros _.
  cbn [take drop words]. rewrite decide_False by done. destruct s as [|d s]; [done|].
  cbn [strcspn] in *. case_bool_decide as Hd.
  - rewrite decide_True by done. cbn [take drop words]. by rewrite decide_True.
  - rewrite decide_False by done. by rewrite IH by lia.
Qed.

Lemma strcspn_plain sep s : plain sep (take (strcspn s sep) s).
Proof.
  induction s as [|c s IH]; cbn [strcspn]; [constructor|]. case_bool_decide; [constructor|]. cbn [take]. by constructor.
Qed.

Lemma strcspn_app sep s t : plain sep s -> strcspn (s ++ t) sep = (length s + strcspn t sep)%nat.
Proof. induction 1 as [|c s Hc Hs IH]; cbn [app strcspn length]; [done|]. rewrite bool_decide_eq_false_2 by done. by rewrite IH. Qed.

Lemma words_plain sep s : Forall (fun w => w <> [] /\ plain sep w) (words sep s).
Proof.
  induction s as [|c s IH]; cbn [words]; [constructor|]. case_decide as Hc; [done|].
  destruct s as [|d s]; [repeat constructor; done|]. case_decide; [constructor; [repeat constructor; done|done]|].
  destruct (words sep (d :: s)) as [|w ws]; [repeat constructor; done|]. apply Forall_cons_iff in IH as [[_ Hw] IH].
  constructor; [split; [done|by constructor]|done].
Qed.

(** ** The loops end *)

Section loops.
Context `{Allocator} (mem : malloc_always _).

Lemma make_loop_words sep fuel : forall k s ret,
  (length s <= fuel)%nat -> make_loop fuel k s sep ret = Ret (Some (ret ++ words sep s)).
Proof.
  induction fuel as [|fuel IH]; intros k s ret Hl.
  { destruct s; [|simpl in Hl; lia]. cbn. by rewrite app_nil_r. }
  destruct s as [|c s]; [cbn; by rewrite app_nil_r|]. cbn [make_loop]. rewrite !(mem _). cbn [andb].
  case_decide as Hz.
  - rewrite IH, words_skip; [done|]. rewrite length_drop. cbn [strcspn strspn length] in *.
    case_bool_decide; lia.
  - rewrite IH by (rewrite length_drop; cbn [length] in *; lia).
    rewrite (words_take sep (c :: s)) by lia. by rewrite <- app_assoc.
Qed.

(** The entries of a string that [make_shell_loop] reads as written by
    [str_list_join_shell]. *)
Definition shell_ok (sep s : list Z) : Prop := (34 ∉ s) /\ ((32 ∉ s) -> plain sep s).

#[export] Instance shell_ok_dec sep s : Decision (shell_ok sep s).
Proof. unfold shell_ok, plain. apply _. Defined.

Lemma shell_entry sep s rest k fuel ret :
  34 ∉ sep -> shell_ok sep s -> (rest = [] \/ exists c rest', rest = c :: rest' /\ c ∈ sep) ->
  make_shell_loop (S fuel) k (shell_quote s ++ rest) sep ret = make_shell_loop fuel (k + 2) rest sep (ret ++ [s]).
Proof.
  intros Hq [Hs34 Hs] Hrest. unfold shell_quote.
  assert (strcspn rest sep = 0%nat) as Hr0.
  { destruct Hrest as [-> | (c & rest' & -> & Hc)]; [done|]. cbn [strcspn]. by rewrite bool_decide_eq_true_2. }
  destruct (bool_decide (32 ∈ s) || bool_decide (length s = 0%nat)) eqn:E.
  - rewrite <- !app_assoc. cbn [app make_shell_loop strcspn]. rewrite (bool_decide_eq_false_2 (34 ∈ sep)) by done.
    rewrite decide_False by lia. rewrite !(mem _). cbn [andb Z.eqb Pos.eqb].
    assert (plain [34] s) as Hp by (apply list.Forall_forall; intros c Hc Hin; apply list_elem_of_singleton in Hin; by subst).
    rewrite (strcspn_app [34] s (34 :: rest)) by done. cbn [strcspn]. rewrite bool_decide_eq_true_2 by (by left).
    rewrite Nat.add_0_r, take_app_length. rewrite decide_True by (rewrite length_app; cbn [length]; lia).
    f_equal. change (34 :: rest) with ([34] ++ rest). rewrite app_assoc, drop_app_length' by (rewrite length_app; done). done.
  - apply orb_false_iff in E as [E1 E2]. apply bool_decide_eq_false_1 in E1, E2. specialize (Hs E1).
    destruct s as [|c s]; [done|]. cbn [app make_shell_loop]. change (c :: s ++ rest) with ((c :: s) ++ rest).
    rewrite strcspn_app, Hr0, Nat.add_0_r by done. rewrite decide_False by (cbn [length]; lia).
    rewrite !(mem _). cbn [andb]. assert (c =? 34 = false) as ->.
    { apply Z.eqb_neq. intros ->. apply Hs34. by left. }
    by rewrite take_app_length, drop_app_length.
Qed.
End loops.

(** ** Joined lists *)

Section join.
Context `{Allocator} (mem : malloc_always _).

Lemma join_loop_ok print l : forall k ret, join_loop k l print (Some ret) = Some (ret ++ mjoin (print <$> l)).
Proof.
  induction l as [|s l IH]; intros k ret; cbn [join_loop]; [by rewrite app_nil_r|].
  rewrite mem. cbn [append default from_option id]. rewrite IH.
  change (mjoin (print <$> (s :: l))) with (print s ++ mjoin (print <$> l)). by rewrite app_assoc.
Qed.

Lemma words_join c s l :
  Forall (fun w => w <> [] /\ plain [c] w) (s :: l) -> words [c] (s ++ mjoin ((fun s => c :: s) <$> l)) = (s :: l).
Proof.
  revert s. induction l as [|t l IH]; intros s Hall; apply Forall_cons_iff in Hall as [[Hne Hp] Hall].
  - cbn. rewrite app_nil_r. rewrite words_take; pose proof (strcspn_app [c] s [] Hp) as E; cbn in E; rewrite app_nil_r, Nat.add_0_r in E; rewrite E.
    + by rewrite firstn_all, drop_all.
    + destruct s; [done|simpl; lia].
  - change (mjoin ((fun s => c :: s) <$> (t :: l))) with (c :: t ++ mjoin ((fun s => c :: s) <$> l)).
    pose proof (strcspn_app [c] s (c :: t ++ mjoin ((fun s => c :: s) <$> l)) Hp) as E. cbn [strcspn] in E.
    rewrite bool_decide_eq_true_2, Nat.add_0_r in E by (by left).
    rewrite words_take; rewrite E.
    + rewrite take_app_length, drop_app_length. f_equal. cbn [words]. rewrite decide_True by (by left). by apply IH.
    + destruct s; [done|simpl; lia].
Qed.

Lemma shell_quote_start sep s rest : 34 ∉ sep -> shell_ok sep s -> strspn (shell_quote s ++ rest) sep = 0%nat.
Proof.
  intros Hq [_ Hs]. unfold shell_quote. destruct (bool_decide (32 ∈ s) || bool_decide (length s = 0%nat)) eqn:E.
  - cbn. by rewrite bool_decide_eq_false_2.
  - apply orb_false_iff in E as [E1 E2]. apply bool_decide_eq_false_1 in E1, E2. specialize (Hs E1).
    destruct s as [|c s]; [done|]. cbn. apply Forall_cons_iff in Hs as [Hc _]. by rewrite bool_decide_eq_false_2.
Qed.

Lemma shell_quote_length s : (1 <= length (shell_quote s))%nat.
Proof.
  unfold shell_quote. destruct (_ || _) eqn:E; [simpl; lia|]. apply orb_false_iff in E as [_ E].
  apply bool_decide_eq_false_1 in E. lia.
Qed.

Lemma make_shell_joined sep c l : forall fuel k ret,
  34 ∉ sep -> c ∈ sep -> Forall (shell_ok sep) l ->
  let s := mjoin ((fun s => c :: shell_quote s) <$> l) in
  (length s <= fuel)%nat -> make_shell_loop fuel k s sep ret = Ret (Some (ret ++ l)).
Proof.
  induction l as [|t l IH]; intros fuel k ret Hq Hc Hall s Hf; subst s.
  { rewrite app_nil_r. by destruct fuel. }
  apply Forall_cons_iff in Hall as [Ht Hall]. set (rest := mjoin ((fun s => c :: shell_quote s) <$> l)) in *.
  change (mjoin ((fun s => c :: shell_quote s) <$> (t :: l))) with ((c :: shell_quote t) ++ rest) in *.
  pose proof (shell_quote_length t). cbn [app] in *. rewrite length_cons, length_app in Hf.
  destruct fuel as [|[|fuel]]; [lia|lia|]. cbn [make_shell_loop strcspn strspn].
  rewrite bool_decide_eq_true_2 by done. rewrite decide_True by done. cbn [drop].
  rewrite shell_quote_start by done. rewrite drop_0.
  change (make_shell_loop (S fuel) k (shell_quote t ++ rest) sep ret = Ret (Some (ret ++ t :: l))).
  rewrite (shell_entry mem) by (first [done | unfold rest; destruct l as [|u l]; [by left|right; eexists _, _; by split]]).
  rewrite IH by (done || (fold rest; lia)). by rewrite <- app_assoc.
Qed.

Lemma make_shell_join sep c s l :
  34 ∉ sep -> c ∈ sep -> Forall (shell_ok sep) (s :: l) ->
  str_list_make_shell (Some (shell_quote s ++ mjoin ((fun s => c :: shell_quote s) <$> l))) (Some sep) = Ret (Some (s :: l)).
Proof.
  intros Hq Hc Hall. apply Forall_cons_iff in Hall as [Hs Hall]. unfold str_list_make_shell. rewrite mem.
  cbn [default from_option id]. rewrite length_app. pose proof (shell_quote_length s).
  destruct (length (shell_quote s)) as [|n] eqn:E; [lia|]. cbn [Nat.add].
  rewrite (shell_entry mem) by (first [done | destruct l as [|u l]; [by left|right; eexists _, _; by split]]).
  by rewrite make_shell_joined by (done || lia).
Qed.
End join.

(** With memory, str_list_make ends on every string and separators, and its entries
    are the words of the string: the maximal runs of characters that are not separators,
    none of them empty.  A null string has none.  Without memory it returns null at
    whichever allocation fails, and in no case does it fault. *)
Theorem str_list_make_words (A : Allocator) (s : list Z) (sep : option (list Z)) :
  let entries := words (default LIST_SEP sep) s in
  (malloc_always A -> str_list_make (Some s) sep = Ret (Some entries) /\ str_list_make None sep = Ret (Some [])) /\
  Forall (fun w => w <> [] /\ plain (default LIST_SEP sep) w) entries /\
  (str_list_make (Some s) sep = Ret (Some entries) \/ str_list_make (Some s) sep = Ret None).
Proof.
  intros entries. assert (forall fuel k t ret, (length t <= fuel)%nat ->
    make_loop fuel k t (default LIST_SEP sep) ret = Ret (Some (ret ++ words (default LIST_SEP sep) t)) \/
    make_loop fuel k t (default LIST_SEP sep) ret = Ret None) as Hany.
  { clear. generalize (default LIST_SEP sep). intros sep'. induction fuel as [|fuel IH]; intros k t ret Hl.
    { destruct t; [|simpl in Hl; lia]. left. cbn. by rewrite app_nil_r. }
    destruct t as [|c t]; [left; cbn; by rewrite app_nil_r|]. cbn [make_loop]. case_decide as Hz.
    - rewrite <- (words_skip sep' (c :: t)). apply IH. rewrite length_drop. cbn [strcspn strspn length] in *. case_bool_decide; lia.
    - destruct (_ && _); [|by right]. rewrite (words_take sep' (c :: t)) by lia.
      destruct (IH (k + 2)%nat (drop (strcspn (c :: t) sep') (c :: t)) (ret ++ [take (strcspn (c :: t) sep') (c :: t)])) as [-> | ->];
        [rewrite length_drop; cbn [length] in *; lia|left; by rewrite <- app_assoc|by right]. }
  split_and!.
  - intros mem. unfold str_list_make. rewrite mem. cbn [default from_option id]. by rewrite make_loop_words.
  - apply words_plain.
  - unfold str_list_make. destruct (malloc_ok 0); [|by right]. cbn [default from_option id]. by apply (Hany _ 1%nat s []).
Qed.

Lemma str_list_make_words_witness :
  @str_list_make calloc (Some [32; 97; 98; 44; 44; 99; 32]) None = Ret (Some [[97; 98]; [99]]).
Proof.
  destruct (str_list_make_words calloc [32; 97; 98; 44; 44; 99; 32] None) as (E & _ & _).
  exact (proj1 (E ltac:(done))).
Defined.

(** A list that is joined with a separator is read back: by str_list_make, when the
    entries are not empty and do not contain it; by str_list_make_shell, from the shell
    form, when no entry has a quote and those with another separator than the space also
    have a space. *)
Theorem str_list_join_make (A : Allocator) (s : list Z) (l : list (list Z)) (c : Z) (sep : list Z) :
  malloc_always A ->
  (Forall (fun w => w <> [] /\ plain [c] w) (s :: l) ->
   str_list_make (str_list_join (s :: l) c) (Some [c]) = Ret (Some (s :: l))) /\
  (34 ∉ sep -> c ∈ sep -> Forall (shell_ok sep) (s :: l) ->
   str_list_make_shell (str_list_join_shell (s :: l) c) (Some sep) = Ret (Some (s :: l))).
Proof.
  intros mem. split.
  - intros Hall. unfold str_list_join. rewrite mem, join_loop_ok by done. unfold str_list_make. rewrite mem.
    cbn [default from_option id]. rewrite make_loop_words by done. cbn [app]. by rewrite words_join.
  - intros Hq Hc Hall. unfold str_list_join_shell. rewrite mem, join_loop_ok by done. by apply make_shell_join.
Qed.

Lemma str_list_join_make_witness :
  let l := [[97; 32; 98]; []; [99]] in
  @str_list_make_shell calloc (@str_list_join_shell calloc l 32) (Some SHELL_SEP) = Ret (Some l).
Proof.
  intros l. apply (str_list_join_make calloc [97; 32; 98] [[]; [99]] 32 SHELL_SEP ltac:(done)); [by_eval | by_eval |].
  by_eval.
Defined.

(** A quote that is not closed is read beyond the end of the string. *)
Example unclosed_quote : @str_list_make_shell calloc (Some [34; 97; 98; 99]) None = Fault.
Proof. reflexivity. Qed.
