(* ===== verification/Auth.v ===== *)
(** auth/auth.c, auth/auth.h and auth/auth_util.c: the authentication context.  It keeps
    the challenge of a logon and hands the user's data to the first method that wants to
    check it.  A method is a record of operations; the methods of the SAM are in
    AuthSam.v. *)

From stdpp Require Import strings relations.
From S2P Require Import Prelude Digest Byteorder Ntstatus Md5 Iconv Charcnv Unistr Smbencrypt NtlmCheck.
Import Charcnv Unistr Smbencrypt NtlmCheck.

#[local] Open Scope outcome_scope.

(** The configuration the authentication code reads. *)
Inductive server_role := ROLE_STANDALONE | ROLE_DOMAIN_MEMBER | ROLE_DOMAIN_BDC | ROLE_DOMAIN_PDC.

Class LoadParm := {
  lp_workgroup : list Z;
  lp_netbios_name : list Z;
  lp_server_role : server_role;
  lp_null_passwords : bool;
  lp_client_ntlmv2_auth : bool;
  lp_client_lanman_auth : bool;
  lp_parm_bool : string -> string -> bool -> bool
}.

Module Auth.

Definition USER_INFO_INTERACTIVE_LOGON : Z := 0x08.

Inductive auth_password_state := AUTH_PASSWORD_RESPONSE | AUTH_PASSWORD_HASH | AUTH_PASSWORD_PLAIN.

#[export] Instance auth_password_state_eq_dec : EqDecision auth_password_state.
Proof. solve_decision. Defined.

(** The union [password], and the member last written. *)
Inductive password_union :=
| Response (lanman nt : list Z)
| Hash (lanman nt : option (list Z))
| Plaintext (s : list Z).

(** The fields that the modelled code uses.  A null string is [None]. *)
Record auth_usersupplied_info := UserInfo {
  workstation_name : option (list Z);
  logon_parameters : Z;
  mapped_state : bool;
  client_account_name : option (list Z);
  client_domain_name : option (list Z);
  mapped_account_name : option (list Z);
  mapped_domain_name : option (list Z);
  password_state : auth_password_state;
  password : password_union;
  info_flags : Z
}.

Definition set_mapped (m : bool) (account domain : option (list Z)) (u : auth_usersupplied_info) : auth_usersupplied_info :=
  UserInfo (workstation_name u) (logon_parameters u) m (client_account_name u) (client_domain_name u)
    account domain (password_state u) (password u) (info_flags u).
Definition set_mapped_state (m : bool) (u : auth_usersupplied_info) : auth_usersupplied_info :=
  set_mapped m (mapped_account_name u) (mapped_domain_name u) u.
Definition set_password (p : password_union) (u : auth_usersupplied_info) : auth_usersupplied_info :=
  UserInfo (workstation_name u) (logon_parameters u) (mapped_state u) (client_account_name u) (client_domain_name u)
    (mapped_account_name u) (mapped_domain_name u) (password_state u) p (info_flags u).

(** The session keys of struct auth_serversupplied_info. *)
Record auth_serversupplied_info := ServerInfo { user_session_key : list Z; lm_session_key : list Z }.

(** The challenge of a context: who set it, and its bytes, none when it is not set. *)
Record challenge := Challenge { set_by : option string; may_be_modified : bool; data : list Z }.

(** struct auth_operations: a method sees the challenge of its context. *)
Record auth_operations := Operations {
  name : string;
  get_challenge : NTSTATUS * list Z;
  want_check : auth_usersupplied_info -> NTSTATUS;
  check_password : Allocator -> challenge -> auth_usersupplied_info -> outcome (NTSTATUS * option auth_serversupplied_info)
}.

Record auth_context := Context { chal : challenge; methods : list auth_operations }.

Definition auth_get_challenge_not_implemented : NTSTATUS * list Z := (NT_STATUS_NOT_IMPLEMENTED, []).

Section auth.
Context `{LoadParm}.

Definition put_challenge (c : challenge) (ctx : auth_context) : auth_context := Context c (methods ctx).

(** The registered back ends are looked up by name; an unknown one is an error. *)
Definition auth_backend_byname (backends : list auth_operations) (n : string) : option auth_operations :=
  snd <$> list_find (fun b => name b = n) backends.

Definition auth_register (backends : list auth_operations) (mem : bool) (ops : auth_operations) : option (list auth_operations) :=
  if is_some (auth_backend_byname backends (name ops)) then None
  else if mem then Some (backends ++ [ops]) else None.

Fixpoint lookup_methods (backends : list auth_operations) (A : Allocator) (names : list string) : NTSTATUS + list auth_operations :=
  match names with
  | [] => inr []
  | n :: names =>
      if negb (@malloc_ok A 0) then inl NT_STATUS_NO_MEMORY
      else
        match auth_backend_byname backends n with
        | None => inl NT_STATUS_INTERNAL_ERROR
        | Some ops => match lookup_methods backends (later 1 A) names with inl e => inl e | inr ms => inr (ops :: ms) end
        end
  end.

(** [names] is the null-terminated list, if there is one; the event and the messaging
    contexts are present. *)
Definition auth_context_create (backends : list auth_operations) (A : Allocator) (names : option (list string)) :
    NTSTATUS + auth_context :=
  match names with
  | None => inl NT_STATUS_INTERNAL_ERROR
  | Some names =>
      if negb (@malloc_ok A 0) then inl NT_STATUS_NO_MEMORY
      else
        match lookup_methods backends (later 1 A) names with
        | inl e => inl e
        | inr [] => inl NT_STATUS_INTERNAL_ERROR
        | inr ms => inr (Context (Challenge None false []) ms)
        end
  end.

(** The copy of the name is the first allocation, that of the challenge the second. *)
Definition auth_context_set_challenge (A : Allocator) (c : list Z) (by_whom : string) (ctx : auth_context) : auth_context * NTSTATUS :=
  let ch := chal ctx in
  if negb (@malloc_ok A 0) then (put_challenge (Challenge None (may_be_modified ch) (data ch)) ctx, NT_STATUS_NO_MEMORY)
  else if negb (@malloc_ok A 1) then (put_challenge (Challenge (Some by_whom) (may_be_modified ch) []) ctx, NT_STATUS_NO_MEMORY)
  else (put_challenge (Challenge (Some by_whom) (may_be_modified ch) (take 8 c)) ctx, NT_STATUS_OK).

Definition auth_challenge_may_be_modified (ctx : auth_context) : bool := may_be_modified (chal ctx).

(** The challenge of the first method that has one. *)
Fixpoint method_challenge (ms : list auth_operations) : NTSTATUS + option (list Z * string) :=
  match ms with
  | [] => inr None
  | m :: ms =>
      match get_challenge m with
      | (NT_STATUS_NOT_IMPLEMENTED, _) => method_challenge ms
      | (NT_STATUS_OK, c) => if decide (length c = 8)%nat then inr (Some (c, name m)) else inl NT_STATUS_INTERNAL_ERROR
      | (e, _) => inl e
      end
  end.

(** [rnd] are the eight random bytes.  No bytes stand for the null pointer. *)
Definition auth_get_challenge (A : Allocator) (rnd : list Z) (ctx : auth_context) : auth_context * (NTSTATUS + list Z) :=
  if decide (0 < length (data (chal ctx)))%nat then (ctx, inr (data (chal ctx)))
  else
    match method_challenge (methods ctx) with
    | inl e => (ctx, inl e)
    | inr m =>
        let ctx :=
          match m with
          | Some (c, by_whom) => put_challenge (Challenge (Some by_whom) (may_be_modified (chal ctx)) c) ctx
          | None => ctx
          end in
        match set_by (chal ctx) with
        | Some _ => (ctx, inr (data (chal ctx)))
        | None =>
            if @malloc_ok A 0 then
              let ctx := put_challenge (Challenge (Some "random"%string) true rnd) ctx in
              (ctx, inr (data (chal ctx)))
            else (ctx, inl NT_STATUS_NO_MEMORY)
        end
    end.
End auth.

Section check.
Context `{Host} `{Charsets} `{CaseTables} `{LoadParm}.

Definition nonempty (s : option (list Z)) : bool := match s with Some (_ :: _) => true | _ => false end.

(** The allocations: the account name, the structure, and its two names. *)
Definition map_user_info (A : Allocator) (u : auth_usersupplied_info) : outcome (NTSTATUS + auth_usersupplied_info) :=
  match client_account_name u with
  | None => Ret (inl NT_STATUS_NO_MEMORY)               (* talloc_strdup of null *)
  | Some account_name =>
      if negb (@malloc_ok A 0) then Ret (inl NT_STATUS_NO_MEMORY)
      else
        let '(account_name, domain) :=
          if nonempty (client_domain_name u) then (account_name, default [] (client_domain_name u))
          else match strchr_m account_name 64 with
               | Some d => (take (length account_name - length d) account_name, drop 1 d)
               | None => (account_name, lp_workgroup)
               end in
        if @malloc_ok A 1 && @malloc_ok A 2 && @malloc_ok A 3
        then Ret (inr (set_mapped true (Some account_name) (Some domain) u))
        else Ret (inl NT_STATUS_NO_MEMORY)
  end.

(** The first method that wants to check the password. *)
Fixpoint find_method (ms : list auth_operations) (u : auth_usersupplied_info) : NTSTATUS + auth_operations :=
  match ms with
  | [] => inl NT_STATUS_NO_SUCH_USER
  | m :: ms =>
      match want_check m u with
      | NT_STATUS_NOT_IMPLEMENTED => find_method ms u
      | NT_STATUS_OK => inr m
      | e => inl e
      end
  end.

(** The request is sent, the event loop runs its timed event, and the result is
    received: no other event touches the request.  [rnd] is the challenge drawn when none
    is set. *)
Definition auth_check_password (A : Allocator) (rnd : list Z) (ctx : auth_context) (u : auth_usersupplied_info) :
    outcome (auth_context * NTSTATUS * option auth_serversupplied_info) :=
  if negb (@malloc_ok A 0) || negb (@malloc_ok A 1) then Ret (ctx, NT_STATUS_NO_MEMORY, None)
  else
    let* mapped := (if mapped_state u then Ret (inr u) else map_user_info (later 2 A) u) in
    match mapped with
    | inl e => Ret (ctx, e, None)
    | inr u =>
        let '(ctx, c) := auth_get_challenge (later 6 A) rnd ctx in
        match c with
        | inl e => Ret (ctx, e, None)
        | inr _ =>
            match find_method (methods ctx) u with
            | inl e => Ret (ctx, e, None)
            | inr m =>
                if negb (@malloc_ok A 7) then Ret (ctx, NT_STATUS_NO_MEMORY, None)
                else
                  let* r := check_password m (later 10 A) (chal ctx) u in
                  Ret (ctx, r.1, if NT_STATUS_IS_OK r.1 then r.2 else None)
            end
        end
    end.

(** A plaintext password becomes its hashes.  The state of the password is not changed:
    the code stores the new state in [mapped_state].  The copies are used without a null
    check. *)
Definition plain_to_hash (A : Allocator) (to_state : bool) (u : auth_usersupplied_info) : outcome (NTSTATUS + auth_usersupplied_info) :=
  match password u with
  | Plaintext s =>
      if negb (@malloc_ok A 0) then Ret (inl NT_STATUS_NO_MEMORY)
      else
        let* lanman := E_deshash (later 1 A) s in
        let* nt := E_md4hash (later 10 A) s in
        if (lanman.1 && negb (@malloc_ok A 20)) || negb (@malloc_ok A 21) then Fault
        else Ret (inr (set_password (Hash (if lanman.1 : bool then Some lanman.2 else None) (Some nt.2)) (set_mapped_state to_state u)))
  | _ => Fault
  end.

(** The responses made from the hashes.  In the LM form the LM response is written over
    the NT response, and its own blob stays as it was allocated. *)
Definition hash_to_response (A : Allocator) (now : Z) (rnd client_chal lm_client_data : list Z) (ctx : auth_context) (u : auth_usersupplied_info) :
    outcome (auth_context * (NTSTATUS + auth_usersupplied_info)) :=
  match password u with
  | Hash lanman nt =>
      if negb (@malloc_ok A 0) then Ret (ctx, inl NT_STATUS_NO_MEMORY)
      else
        let u := set_mapped_state false u in              (* AUTH_PASSWORD_RESPONSE is 0 *)
        let '(ctx, c) := auth_get_challenge (later 1 A) rnd ctx in
        match c, nt with
        | inl e, _ => Ret (ctx, inl e)
        | inr _, None => Fault
        | inr c, Some nt =>
            if lp_client_ntlmv2_auth then
              let chall_blob := if negb (@malloc_ok A 2) then [] else if bool_decide (c = []) then @fresh A 8 else c in
              let* names_blob := NTLMv2_generate_names_blob (later 3 A) lp_netbios_name lp_workgroup in
              let* r := SMBNTLMv2encrypt_hash (later 20 A) now client_chal lm_client_data (Wanted true true true true)
                          (client_account_name u) (client_domain_name u) nt chall_blob names_blob in
              match r with
              | None => Ret (ctx, inl NT_STATUS_NO_MEMORY)
              | Some r => Ret (ctx, inr (set_password (Response (default [] (lm_response r)) (default [] (nt_response r))) u))
              end
            else if bool_decide (c = []) || negb (@malloc_ok A 3) then Fault
            else
              let blob := SMBOWFencrypt nt c in
              match (if lp_client_lanman_auth then lanman else None) with
              | Some lm =>
                  let lm_blob := if @malloc_ok A 4 then @fresh A 24 else [] in
                  Ret (ctx, inr (set_password (Response lm_blob (SMBOWFencrypt lm c)) u))
              | None => Ret (ctx, inr (set_password (Response blob blob) u))
              end
        end
  | _ => Fault
  end.

Definition encrypt_user_info (A : Allocator) (now : Z) (rnd client_chal lm_client_data : list Z) (ctx : auth_context)
    (to_state : auth_password_state) (u : auth_usersupplied_info) : outcome (auth_context * (NTSTATUS + auth_usersupplied_info)) :=
  match to_state, password_state u with
  | AUTH_PASSWORD_RESPONSE, AUTH_PASSWORD_PLAIN =>
      let* h := plain_to_hash A true u in
      match h with
      | inl e => Ret (ctx, inl e)
      | inr u => hash_to_response (later 30 A) now rnd client_chal lm_client_data ctx u
      end
  | AUTH_PASSWORD_RESPONSE, AUTH_PASSWORD_HASH => hash_to_response A now rnd client_chal lm_client_data ctx u
  | AUTH_PASSWORD_RESPONSE, AUTH_PASSWORD_RESPONSE => Ret (ctx, inr u)
  | AUTH_PASSWORD_HASH, AUTH_PASSWORD_PLAIN => let* h := plain_to_hash A true u in Ret (ctx, h)
  | AUTH_PASSWORD_HASH, AUTH_PASSWORD_HASH => Ret (ctx, inr u)
  | AUTH_PASSWORD_HASH, AUTH_PASSWORD_RESPONSE => Ret (ctx, inl NT_STATUS_INVALID_PARAMETER)
  | AUTH_PASSWORD_PLAIN, _ => Ret (ctx, inl NT_STATUS_INVALID_PARAMETER)
  end.
End check.
End Auth.
Import Auth.

(** ** The challenge over the life of a context *)

Section life.
Context `{Host} `{Charsets} `{CaseTables} `{LoadParm} (A : Allocator).

(** What the users of a context do with it. *)
Inductive auth_step (ctx : auth_context) : auth_context -> Prop :=
| step_get rnd ctx' r :
    length rnd = 8%nat -> auth_get_challenge A rnd ctx = (ctx', r) -> auth_step ctx ctx'
| step_check rnd u ctx' s i :
    length rnd = 8%nat -> auth_check_password A rnd ctx u = Ret (ctx', s, i) -> auth_step ctx ctx'
| step_set c who ctx' s :
    (8 <= length c)%nat -> auth_context_set_challenge A c who ctx = (ctx', s) -> auth_step ctx ctx'.

(** A challenge is not set, or has eight bytes and somebody set it; the one that may be
    modified is never the choice of a method. *)
Definition challenge_wf (ctx : auth_context) : Prop :=
  (data (chal ctx) = [] /\ set_by (chal ctx) = None /\ may_be_modified (chal ctx) = false) \/
  (length (data (chal ctx)) = 8%nat /\ set_by (chal ctx) <> None).

Lemma method_challenge_length ms c who : method_challenge ms = inr (Some (c, who)) -> length c = 8%nat.
Proof.
  induction ms as [|m ms IH]; [done|]. cbn [method_challenge]. destruct (get_challenge m) as [[] c']; try done.
  case_decide; [|done]. by intros [= <- _].
Qed.

(** The outcome of asking for the challenge. *)
Lemma get_challenge_cases (B : Allocator) rnd ctx ctx' r :
  length rnd = 8%nat -> challenge_wf ctx -> auth_get_challenge B rnd ctx = (ctx', r) ->
  methods ctx' = methods ctx /\ challenge_wf ctx' /\
  (data (chal ctx) <> [] -> ctx' = ctx /\ r = inr (data (chal ctx))) /\
  (forall c, r = inr c -> c = data (chal ctx') /\ length c = 8%nat).
Proof.
  intros Hr [(Hd & Hs & Hm)|[Hl Hs]]; unfold auth_get_challenge.
  - rewrite Hd. cbn [length]. rewrite decide_False by lia.
    destruct (method_challenge (methods ctx)) as [e|[[c who]|]] eqn:E; cbn [put_challenge chal set_by].
    + intros [= <- <-]. split_and!; try done. by left.
    + intros [= <- <-]. cbn [methods chal data set_by]. pose proof (method_challenge_length _ _ _ E).
      split_and!; try done; [by right|by intros c' [= <-]].
    + rewrite Hs. destruct malloc_ok; intros [= <- <-]; cbn [methods chal data set_by];
        (split_and!; try done).
      * by right.
      * by intros c' [= <-].
      * by left.
  - rewrite decide_True by lia. intros [= <- <-]. split_and!; try done; [by right|by intros c' [= <-]].
Qed.

Lemma check_password_context rnd ctx u ctx' s i :
  length rnd = 8%nat -> challenge_wf ctx -> auth_check_password A rnd ctx u = Ret (ctx', s, i) ->
  methods ctx' = methods ctx /\ challenge_wf ctx' /\ (data (chal ctx) <> [] -> ctx' = ctx).
Proof.
  intros Hr Hwf. unfold auth_check_password. destruct (_ || _); [intros [= <- _ _]; done|].
  destruct (if mapped_state u then _ else _) as [[e|u']|]; cbn [obind]; [intros [= <- _ _]; done| |done].
  destruct (auth_get_challenge (later 6 A) rnd ctx) as [ctx2 c] eqn:E.
  destruct (get_challenge_cases _ _ _ _ _ Hr Hwf E) as (Hm & Hwf' & Hsame & _).
  assert (methods ctx2 = methods ctx /\ challenge_wf ctx2 /\ (data (chal ctx) <> [] -> ctx2 = ctx)) as Hall
    by (split_and!; [done..|intros Hd; by apply Hsame]).
  destruct c as [e|c]; [by intros [= <- _ _]|]. destruct (find_method _ _) as [e|m]; [by intros [= <- _ _]|].
  destruct (negb _); [by intros [= <- _ _]|]. destruct (check_password m _ _ _) as [r|]; [|done]. by intros [= <- _ _].
Qed.
End life.


(** A method that accepts everyone, and one that only knows a challenge. *)
Definition accept_all : auth_operations :=
  Operations "accept" auth_get_challenge_not_implemented (fun _ => NT_STATUS_OK)
    (fun _ _ _ => Ret (NT_STATUS_OK, Some (ServerInfo [] []))).
Definition sample_parm : LoadParm :=
  {| lp_workgroup := [87]; lp_netbios_name := [83]; lp_server_role := ROLE_STANDALONE; lp_null_passwords := false;
     lp_client_ntlmv2_auth := true; lp_client_lanman_auth := false; lp_parm_bool := fun _ _ d => d |}.

