(* ===== verification/AuthSam.v ===== *)
(** auth/auth_sam.c, auth/auth_anonymous.c and the account checks of auth/sam.c: the
    authentication methods of the SAM.  The database is a parameter: what a search for an
    account returns. *)

From stdpp Require Import strings.
From S2P Require Import Prelude Digest Byteorder Ntstatus Md5 Iconv Charcnv Unistr Time Smbencrypt NtlmCheck StrList Auth.
Import Charcnv Unistr Time Smbencrypt NtlmCheck StrList Auth.

#[local] Open Scope outcome_scope.

Module AuthSam.

Definition ACB_DISABLED : Z := 0x00000001.
Definition ACB_PWNOTREQ : Z := 0x00000004.
Definition ACB_NORMAL : Z := 0x00000010.
Definition ACB_DOMTRUST : Z := 0x00000040.
Definition ACB_WSTRUST : Z := 0x00000080.
Definition ACB_SVRTRUST : Z := 0x00000100.
Definition ACB_PWNOEXP : Z := 0x00000200.
Definition ACB_AUTOLOCK : Z := 0x00000400.

Definition MSV1_0_ALLOW_SERVER_TRUST_ACCOUNT : Z := 0x020.
Definition MSV1_0_ALLOW_WORKSTATION_TRUST_ACCOUNT : Z := 0x800.

(** The attributes of an account that the checks read; an absent value is [None].
    [acct_flags] is what samdb_result_acct_flags makes of userAccountControl and
    [force_password_change] what samdb_result_force_password_change computes. *)
Record account := Account {
  acct_flags : Z;
  ntPwdHash : option (list Z);
  lmPwdHash : option (list Z);
  accountExpires : Z;
  force_password_change : Z;
  pwdLastSet : Z;
  userWorkstations : option (list Z)
}.

(** What the database answers: the connection, the search of authsam_search_account, and
    the group lookups of authsam_make_server_info. *)
Class SamDb := {
  samdb_connects : bool;
  search_account : option (list Z) -> list Z -> NTSTATUS + account;
  server_info_status : account -> NTSTATUS;
  lp_netbios_aliases : option (list (list Z))
}.

(** The whole 16-byte hashes of an attribute.  A failed allocation counts as none. *)
Definition samdb_result_hashes (mem : bool) (val : option (list Z)) : list (list Z) :=
  match val with
  | None => []
  | Some v => if mem then blocks 16 (length v / 16) v else []
  end.

Definition one_hash (hashes : list (list Z)) : option (option (list Z)) :=
  match hashes with [] => Some None | [h] => Some (Some h) | _ => None end.

(** The LM and the NT hash. *)
Definition samdb_result_passwords (A : Allocator) (a : account) : NTSTATUS + (option (list Z) * option (list Z)) :=
  match one_hash (samdb_result_hashes (@malloc_ok A 0) (ntPwdHash a)) with
  | None => inl NT_STATUS_INTERNAL_DB_CORRUPTION
  | Some nt =>
      match one_hash (samdb_result_hashes (@malloc_ok A 1) (lmPwdHash a)) with
      | None => inl NT_STATUS_INTERNAL_DB_CORRUPTION
      | Some lm => inr (lm, nt)
      end
  end.

(** Two strings at different addresses. *)
Definition strequal (s1 s2 : option (list Z)) : bool :=
  match s1, s2 with
  | Some s1, Some s2 => strcasecmp s1 s2 =? 0
  | None, None => true
  | _, _ => false
  end.

(** The test of the workstation list: [logon_workstation] is looked for in it, and
    [strequal(...) == 0] is the test of an entry. *)
Definition invalid_ws (workstations : option (list (list Z))) (logon_workstation : list Z) : bool :=
  negb (existsb (fun w => negb (strequal (Some w) (Some logon_workstation))) (default [] workstations)).

(** [now] is time(NULL). *)
Definition authsam_account_ok (A : Allocator) (now : Z) (logon_parameters : Z) (a : account) (logon_workstation : option (list Z)) :
    outcome NTSTATUS :=
  let now := unix_to_nt_time now in
  if flag (acct_flags a) ACB_DISABLED then Ret NT_STATUS_ACCOUNT_DISABLED
  else if flag (acct_flags a) ACB_AUTOLOCK then Ret NT_STATUS_ACCOUNT_LOCKED_OUT
  else if accountExpires a <? now then Ret NT_STATUS_ACCOUNT_EXPIRED
  else if negb (flag (acct_flags a) ACB_PWNOEXP) && (force_password_change a =? 0) && negb (pwdLastSet a =? 0) then
    Ret NT_STATUS_PASSWORD_MUST_CHANGE
  else if negb (flag (acct_flags a) ACB_PWNOEXP) && negb (force_password_change a =? 0) && (force_password_change a <? now) then
    Ret NT_STATUS_PASSWORD_EXPIRED
  else
    let* invalid :=
      (match logon_workstation with
       | Some logon_workstation =>
           if nonempty (userWorkstations a) then
             let* workstations := @str_list_make A (userWorkstations a) (Some [44]) in
             Ret (invalid_ws workstations logon_workstation)
           else Ret false
       | None => Ret false
       end) in
    if invalid : bool then Ret NT_STATUS_INVALID_WORKSTATION
    else if flag (acct_flags a) ACB_DOMTRUST then Ret NT_STATUS_NOLOGON_INTERDOMAIN_TRUST_ACCOUNT
    else if negb (flag logon_parameters MSV1_0_ALLOW_SERVER_TRUST_ACCOUNT) && flag (acct_flags a) ACB_SVRTRUST then
      Ret NT_STATUS_NOLOGON_SERVER_TRUST_ACCOUNT
    else if negb (flag logon_parameters MSV1_0_ALLOW_WORKSTATION_TRUST_ACCOUNT) && flag (acct_flags a) ACB_WSTRUST then
      Ret NT_STATUS_NOLOGON_WORKSTATION_TRUST_ACCOUNT
    else Ret NT_STATUS_OK.

Section sam.
Context `{Host} `{Charsets} `{CaseTables} `{LoadParm} `{AuthPolicy} `{SamDb}.

Definition is_myname (name : list Z) : bool :=
  if strcasecmp name lp_netbios_name =? 0 then true
  else existsb (fun a => strcasecmp name a =? 0) (default [] lp_netbios_aliases).

(** The two session keys, or [None] where the pointers are not written. *)
Definition password_keys : Type := option (option (list Z) * option (list Z)).

(** The plaintext case falls through to that of the hashes, with the encrypted
    structure; the union is read as hashes. *)
Definition authsam_password_ok (A : Allocator) (ch : challenge) (flags : Z) (lm_pwd nt_pwd : option (list Z))
    (u : auth_usersupplied_info) : outcome (NTSTATUS * password_keys) :=
  if flag flags ACB_PWNOTREQ then
    Ret (if lp_null_passwords then NT_STATUS_OK else NT_STATUS_LOGON_FAILURE, None)
  else
    let by_hash u :=
      match password u, mapped_account_name u with
      | Hash lanman nt, Some account_name =>
          Ret (hash_password_check lanman nt account_name lm_pwd nt_pwd, Some (None, None))
      | _, _ => Fault
      end in
    match password_state u with
    | AUTH_PASSWORD_PLAIN =>
        let* h := plain_to_hash A true u in
        match h with
        | inl e => Ret (e, None)
        | inr u => by_hash u
        end
    | AUTH_PASSWORD_HASH => by_hash u
    | AUTH_PASSWORD_RESPONSE =>
        match password u, mapped_account_name u with
        | Response lanman nt, Some account_name =>
            let* v := ntlm_password_check A (logon_parameters u) (data ch) lanman nt account_name
                        (client_account_name u) (client_domain_name u) lm_pwd nt_pwd in
            Ret (v.1.1, Some (v.1.2, v.2))
        | _, _ => Fault
        end
    end.

Definition authsam_authenticate (A : Allocator) (now : Z) (ch : challenge) (a : account) (u : auth_usersupplied_info) :
    outcome (NTSTATUS * password_keys) :=
  if flag (acct_flags a) ACB_AUTOLOCK then Ret (NT_STATUS_ACCOUNT_LOCKED_OUT, None)
  else if flag (info_flags u) USER_INFO_INTERACTIVE_LOGON && negb (flag (acct_flags a) ACB_NORMAL) then
    Ret (NT_STATUS_NO_SUCH_USER, None)
  else
    match samdb_result_passwords A a with
    | inl e => Ret (e, None)
    | inr (lm_pwd, nt_pwd) =>
        let* r := authsam_password_ok (later 2 A) ch (acct_flags a) lm_pwd nt_pwd u in
        if NT_STATUS_IS_OK r.1 then
          let* s := authsam_account_ok (later 300 A) now (logon_parameters u) a (workstation_name u) in
          Ret (s, r.2)
        else Ret r
    end.

(** The keys go into the server info; keys that were never written are read there. *)
Definition authsam_check_password_internals (A : Allocator) (now : Z) (ch : challenge) (domain : option (list Z))
    (u : auth_usersupplied_info) : outcome (NTSTATUS * option auth_serversupplied_info) :=
  match mapped_account_name u with
  | None | Some [] => Ret (NT_STATUS_NOT_IMPLEMENTED, None)
  | Some account_name =>
      if negb (@malloc_ok A 0) then Ret (NT_STATUS_NO_MEMORY, None)
      else if negb samdb_connects then Ret (NT_STATUS_INVALID_SYSTEM_SERVICE, None)
      else
        match search_account domain account_name with
        | inl e => Ret (e, None)
        | inr a =>
            let* r := authsam_authenticate (later 1 A) now ch a u in
            if negb (NT_STATUS_IS_OK r.1) then Ret (r.1, None)
            else
              match server_info_status a, r.2 with
              | NT_STATUS_OK, Some (user_sess_key, lm_sess_key) =>
                  Ret (NT_STATUS_OK, Some (ServerInfo (default [] user_sess_key) (default [] lm_sess_key)))
              | NT_STATUS_OK, None => Fault
              | e, _ => Ret (e, None)
              end
        end
  end.

Definition authsam_ignoredomain_want_check (u : auth_usersupplied_info) : NTSTATUS :=
  if nonempty (mapped_account_name u) then NT_STATUS_OK else NT_STATUS_NOT_IMPLEMENTED.

(** The mapped domain is never null. *)
Definition authsam_want_check (u : auth_usersupplied_info) : NTSTATUS :=
  if nonempty (mapped_account_name u) then
    let domain := default [] (mapped_domain_name u) in
    let is_local_name := is_myname domain in
    let is_my_domain := strequal (Some domain) (Some lp_workgroup) in
    match lp_server_role with
    | ROLE_STANDALONE => NT_STATUS_OK
    | ROLE_DOMAIN_MEMBER => if is_local_name then NT_STATUS_OK else NT_STATUS_NOT_IMPLEMENTED
    | ROLE_DOMAIN_PDC | ROLE_DOMAIN_BDC =>
        if negb is_local_name && negb is_my_domain then NT_STATUS_NOT_IMPLEMENTED else NT_STATUS_OK
    end
  else NT_STATUS_NOT_IMPLEMENTED.

Definition authsam_check_password (now : Z) (A : Allocator) (ch : challenge) (u : auth_usersupplied_info) :
    outcome (NTSTATUS * option auth_serversupplied_info) :=
  let domain :=
    match lp_server_role with
    | ROLE_STANDALONE | ROLE_DOMAIN_MEMBER => lp_netbios_name
    | ROLE_DOMAIN_PDC | ROLE_DOMAIN_BDC => lp_workgroup
    end in
  authsam_check_password_internals A now ch (Some domain) u.

Definition sam_ignoredomain_ops (now : Z) : auth_operations :=
  Operations "sam_ignoredomain" auth_get_challenge_not_implemented authsam_ignoredomain_want_check
    (fun A ch u => authsam_check_password_internals A now ch None u).

Definition sam_ops (now : Z) : auth_operations :=
  Operations "sam" auth_get_challenge_not_implemented authsam_want_check (authsam_check_password now).

(** auth_anonymous.c: only the empty user name. *)
Definition anonymous_want_check (u : auth_usersupplied_info) : NTSTATUS :=
  if nonempty (client_account_name u) then NT_STATUS_NOT_IMPLEMENTED else NT_STATUS_OK.

(** auth_util.c: the structure, two SIDs, the two keys and eight strings are allocated;
    the keys are all zero. *)
Definition auth_anonymous_server_info (A : Allocator) : NTSTATUS * option auth_serversupplied_info :=
  if forallb (@malloc_ok A) (seq 0 13) then (NT_STATUS_OK, Some (ServerInfo (replicate 16 0) (replicate 16 0)))
  else (NT_STATUS_NO_MEMORY, None).

Definition anonymous_auth_ops : auth_operations :=
  Operations "anonymous" auth_get_challenge_not_implemented anonymous_want_check
    (fun A ch u => Ret (auth_anonymous_server_info A)).
End sam.
End AuthSam.
Import AuthSam.

(** ** The account checks *)

(** The entries of a workstation list. *)
Definition listed (workstations : list Z) : list (list Z) := words [44] workstations.

(** What a logon from a workstation needs of the list: an entry that is a different
    name. *)
Definition workstation_passes (a : account) (logon_workstation : option (list Z)) : Prop :=
  match logon_workstation, userWorkstations a with
  | Some w, Some (c :: l) => Exists (fun e => strcasecmp e w <> 0) (listed (c :: l))
  | _, _ => True
  end.

(** The other conditions, on the flags and the times. *)
Definition account_open (now logon_parameters : Z) (a : account) : Prop :=
  flag (acct_flags a) ACB_DISABLED = false /\ flag (acct_flags a) ACB_AUTOLOCK = false /\
  now <= accountExpires a /\
  (flag (acct_flags a) ACB_PWNOEXP = true \/
   (force_password_change a = 0 /\ pwdLastSet a = 0) \/ (force_password_change a <> 0 /\ now <= force_password_change a)) /\
  flag (acct_flags a) ACB_DOMTRUST = false /\
  (flag logon_parameters MSV1_0_ALLOW_SERVER_TRUST_ACCOUNT = true \/ flag (acct_flags a) ACB_SVRTRUST = false) /\
  (flag logon_parameters MSV1_0_ALLOW_WORKSTATION_TRUST_ACCOUNT = true \/ flag (acct_flags a) ACB_WSTRUST = false).

Lemma strcasecmp_refl s : strcasecmp s s = 0.
Proof. induction s as [|c s IH]; [done|]. cbn [strcasecmp]. by rewrite Z.eqb_refl. Qed.

Lemma invalid_ws_spec l w : invalid_ws (Some l) w = false <-> Exists (fun e => strcasecmp e w <> 0) l.
Proof.
  unfold invalid_ws. rewrite negb_false_iff, existsb_exists, list.Exists_exists. cbn [default from_option id strequal].
  split; intros (e & He & Hw); exists e; (split; [by apply list_elem_of_In|]).
  - apply negb_true_iff, Z.eqb_neq in Hw. done.
  - by apply negb_true_iff, Z.eqb_neq.
Qed.

Lemma workstation_check (A : Allocator) a w :
  malloc_always A ->
  exists b, (match w with
   | Some w => if nonempty (userWorkstations a) then
                 let* workstations := @str_list_make A (userWorkstations a) (Some [44]) in Ret (invalid_ws workstations w)
               else Ret false
   | None => Ret false
   end = Ret b) /\ (b = false <-> workstation_passes a w).
Proof.
  intros mem. unfold workstation_passes. destruct w as [w|]; [|by exists false].
  destruct (userWorkstations a) as [[|c l]|]; [by exists false| |by exists false].
  cbn [nonempty]. unfold str_list_make. rewrite mem. cbn [default from_option id].
  rewrite make_loop_words by done. cbn [obind app]. eexists. split; [done|]. apply invalid_ws_spec.
Qed.

(** A chain of tests, each refusing with its own status. *)
Definition decides (m : outcome NTSTATUS) (P : Prop) : Prop := exists s, m = Ret s /\ (s = NT_STATUS_OK <-> P).

Lemma decides_ok : decides (Ret NT_STATUS_OK) True.
Proof. by eexists. Qed.

Lemma decides_if (c : bool) e m P Q : e <> NT_STATUS_OK -> (c = false <-> Q) -> decides m P -> decides (if c then Ret e else m) (Q /\ P).
Proof. intros He HQ (s & -> & Hs). destruct c; eexists; (split; [done|]); [|split; [intros E; split; [by apply HQ|by apply Hs]|intros [_ HP]; by apply Hs]].
  split; [done|]. intros [HQ' _]. by apply HQ in HQ'.
Qed.

Lemma decides_iff m P Q : (P <-> Q) -> decides m P -> decides m Q.
Proof. intros HPQ (s & E & Hs). exists s. by rewrite <- HPQ. Qed.

Lemma account_ok_decides (A : Allocator) (now logon_parameters : Z) (a : account) (w : option (list Z)) :
  malloc_always A ->
  decides (authsam_account_ok A now logon_parameters a w) (account_open (unix_to_nt_time now) logon_parameters a /\ workstation_passes a w).
Proof.
  intros mem.
  destruct (workstation_check A a w mem) as (b & E & Hb). unfold authsam_account_ok. cbv zeta. rewrite E. cbn [obind].
  eapply decides_iff;
    [|eapply decides_if; [done|reflexivity|]; eapply decides_if; [done|reflexivity|];
      eapply decides_if; [done|apply Z.ltb_ge|]; eapply decides_if; [done|reflexivity|];
      eapply decides_if; [done|reflexivity|]; eapply decides_if; [done|exact Hb|];
      eapply decides_if; [done|reflexivity|]; eapply decides_if; [done|reflexivity|];
      eapply decides_if; [done|reflexivity|apply decides_ok]].
  unfold account_open. rewrite !andb_false_iff, !negb_false_iff, !Z.eqb_neq, !Z.eqb_eq, !Z.ltb_ge.
  split; intros; destruct_and?; split_and?; auto; (destruct_or?; destruct_and?; auto; try tauto; try lia).
Qed.

(** C31: with memory, authsam_account_ok never faults, and accepts an account exactly when
    it is enabled, not locked, not expired, its password is not due, it is not a trust
    account that the logon may not use, and the workstation list passes.  The test of the
    list is the wrong way round: a list of one name refuses the logon from that
    workstation and lets every other one in. *)
Theorem authsam_account_ok_decides (A : Allocator) (now logon_parameters : Z) (a : account) (w : option (list Z)) :
  malloc_always A ->
  (exists s, authsam_account_ok A now logon_parameters a w = Ret s /\
     (s = NT_STATUS_OK <-> account_open (unix_to_nt_time now) logon_parameters a /\ workstation_passes a w)) /\
  (forall only from, userWorkstations a = Some only -> only <> [] -> plain [44] only -> w = Some from ->
     (workstation_passes a w <-> strcasecmp only from <> 0)).
Proof.
  intros mem. split.
  - by apply account_ok_decides.
  - intros only from Hl Hne Hp ->. unfold workstation_passes. rewrite Hl. destruct only as [|c l]; [done|].
    assert (listed (c :: l) = [c :: l]) as ->.
    { pose proof (words_join 44 (c :: l) [] ltac:(apply Forall_singleton; by split)) as E. cbn [fmap list_fmap mjoin list_join] in E.
      by rewrite app_nil_r in E. }
    rewrite Exists_cons, Exists_nil. tauto.
Qed.

(** An account that may only log on from "PC1". *)
Definition restricted : account := Account ACB_NORMAL None None (2 ^ 63) (2 ^ 63) 0 (Some [80; 67; 49]).

Lemma authsam_account_ok_decides_witness :
  @authsam_account_ok calloc 1200000000 0 restricted (Some [80; 67; 49]) <> Ret NT_STATUS_OK /\
  @authsam_account_ok calloc 1200000000 0 restricted (Some [88]) = Ret NT_STATUS_OK.
Proof.
  destruct (authsam_account_ok_decides calloc 1200000000 0 restricted (Some [80; 67; 49]) ltac:(done)) as [(s & E & Hs) Hw].
  destruct (authsam_account_ok_decides calloc 1200000000 0 restricted (Some [88]) ltac:(done)) as [(s' & E' & Hs') Hw'].
  specialize (Hw [80; 67; 49] [80; 67; 49] eq_refl ltac:(done) ltac:(by_eval) eq_refl).
  specialize (Hw' [80; 67; 49] [88] eq_refl ltac:(done) ltac:(by_eval) eq_refl).
  split.
  - rewrite E. intros [= ->]. destruct (proj1 Hs eq_refl) as [_ Hp]. apply Hw in Hp. by apply Hp.
  - rewrite E'. f_equal. apply Hs'. split; [|by apply Hw'].
    by_eval.
Defined.
