(* ===== verification/NtlmsspExchange.v ===== *)
(** auth/ntlmssp/ntlmssp_client.c, auth/ntlmssp/ntlmssp_server.c and the update function of
    auth/ntlmssp/ntlmssp.c: the message handlers of an NTLMSSP exchange.  The negotiated
    part of the state is that of Ntlmssp.v; here it is joined by the names, the responses
    and the challenges. *)

From stdpp Require Import strings.
From S2P Require Import Prelude Digest Byteorder Ntstatus Md5 Hmac Arcfour Iconv Charcnv Unistr Msrpc Ntlmssp NtlmsspSign.
From S2P Require Import Smbencrypt NtlmCheck CliCredentials CredNtlm Auth AuthSam.
Import Arcfour Charcnv Unistr Msrpc Ntlmssp NtlmsspSign Smbencrypt CliCredentials CredNtlm Auth AuthSam.

#[local] Open Scope outcome_scope.

Module NtlmsspExchange.

Definition NTLMSSP_NEGOTIATE_NTLM : Z := 0x00000200.
Definition NTLMSSP_TARGET_TYPE_DOMAIN : Z := 0x10000.
Definition NTLMSSP_TARGET_TYPE_SERVER : Z := 0x20000.
Definition NTLMSSP_CHAL_TARGET_INFO : Z := 0x00800000.
Definition NTLMSSP_NAME_TYPE_SERVER_DNS : Z := 3.
Definition NTLMSSP_NAME_TYPE_DOMAIN_DNS : Z := 4.

(** A DATA_BLOB: null, with its data, or with a pointer to memory that was freed. *)
Inductive blob := NoData | Data (b : list Z) | Freed (n : nat).

Definition blob_length (b : blob) : nat := match b with NoData => 0 | Data b => length b | Freed n => n end.
Definition blob_data (b : blob) : outcome (list Z) := match b with NoData => Ret [] | Data b => Ret b | Freed _ => Fault end.
(** data_blob of bytes: no bytes have no data. *)
Definition to_blob (b : list Z) : blob := match b with [] => NoData | _ => Data b end.
(** A blob whose parent context is freed. *)
Definition freed (b : blob) : blob := match b with NoData => NoData | Data b => Freed (length b) | Freed n => Freed n end.

(** What the server takes from the authenticate message. *)
Record auth_data := AuthData {
  user : option (list Z);
  domain : option (list Z);
  workstation : option (list Z);
  lm_resp : blob;
  nt_resp : blob;
  encrypted_session_key : blob
}.

(** The challenges, and the nonce of NTLM2: it lies behind the members that the other
    struct of the union has. *)
Record chal_data := ChalData { internal_chal : blob; eff_chal : blob; doing_ntlm2 : bool; session_nonce : list Z }.

(** struct gensec_ntlmssp_state.  [server_name], [get_domain] and [server_role] are the
    configuration's from the start on. *)
Record ntlmssp_state := Full {
  core : gensec_ntlmssp_state;
  use_nt_response : bool;
  allow_lm_key : bool;
  server_multiple_authentications : bool;
  server_domain : option (list Z);
  auth : auth_data;
  chals : chal_data;
  context : option auth_context
}.

Definition put_core (c : gensec_ntlmssp_state) (s : ntlmssp_state) : ntlmssp_state :=
  Full c (use_nt_response s) (allow_lm_key s) (server_multiple_authentications s) (server_domain s) (auth s) (chals s) (context s).
Definition put_auth (a : auth_data) (s : ntlmssp_state) : ntlmssp_state :=
  Full (core s) (use_nt_response s) (allow_lm_key s) (server_multiple_authentications s) (server_domain s) a (chals s) (context s).
Definition put_chals (c : chal_data) (s : ntlmssp_state) : ntlmssp_state :=
  Full (core s) (use_nt_response s) (allow_lm_key s) (server_multiple_authentications s) (server_domain s) (auth s) c (context s).
Definition put_context (c : auth_context) (s : ntlmssp_state) : ntlmssp_state :=
  Full (core s) (use_nt_response s) (allow_lm_key s) (server_multiple_authentications s) (server_domain s) (auth s) (chals s) (Some c).
Definition put_server_domain (d : list Z) (s : ntlmssp_state) : ntlmssp_state :=
  Full (core s) (use_nt_response s) (allow_lm_key s) (server_multiple_authentications s) (Some d) (auth s) (chals s) (context s).

Definition put_key (k : option (list Z)) (c : gensec_ntlmssp_state) : gensec_ntlmssp_state :=
  State (role c) (expected_state c) (unicode c) (use_ntlmv2 c) k (neg_flags c) (crypt c).
Definition update_flags (f : Z -> Z) (c : gensec_ntlmssp_state) : gensec_ntlmssp_state := set_flags (f (neg_flags c)) c.

(** One end of an exchange: the client also has credentials. *)
Record endpoint := Endpoint { state : ntlmssp_state; credentials : cli_credentials }.

(** What the world supplies to one call: memory, the clock and the random bytes. *)
Record call_env := Call { memory : Allocator; random : fresh_data; random_key : list Z; random_challenge : list Z }.

(** A handler's result: the new end, the status and the output blob. *)
Definition handled : Type := outcome (endpoint * NTSTATUS * list Z).

(** An argument of msrpc_gen that must be a string. *)
Definition arg (s : cstr) : outcome (list Z) := match s with Str s => Ret s | _ => Fault end.

(** arcfour_crypt through a pointer to at least sixteen bytes. *)
Definition rc4_16 (data : list Z) (key : option (list Z)) : outcome (list Z) :=
  match key with
  | Some k => if decide (length k < 16)%nat then Fault else match arcfour_crypt data k with Some d => Ret d | None => Fault end
  | None => Fault
  end.

Definition wants (features f : Z) : bool := flag features f.

(** The zeroed structure of gensec_ntlmssp_start. *)
Definition gensec_ntlmssp_start (r : ntlmssp_role) (expected : Z) : gensec_ntlmssp_state :=
  State r expected false false None 0 CryptZero.
Definition no_auth : auth_data := AuthData None None None NoData NoData NoData.
Definition no_chals : chal_data := ChalData NoData NoData false (replicate 16 0).

Definition add_if (b : bool) (f flags : Z) : Z := if b then add_flag f flags else flags.

Section client.
Context `{Host} `{Charsets} `{CaseTables} `{LoadParm}.
Context (run : nat -> cli_credentials -> outcome (cli_credentials * cstr)).
Context (set_machine_account : cli_credentials -> outcome cli_credentials).

Definition gensec_ntlmssp_client_start (want_features : Z) (mem : bool) : NTSTATUS + ntlmssp_state :=
  if negb mem then inl NT_STATUS_NO_MEMORY
  else
    let parm n d := lp_parm_bool "ntlmssp_client" n d in
    let lm_key := parm "lm_key"%string false in
    let ntlm2 := parm "ntlm2"%string true in
    let f := Z.lor NTLMSSP_NEGOTIATE_NTLM NTLMSSP_REQUEST_TARGET in
    let f := add_if (parm "128bit"%string true) NTLMSSP_NEGOTIATE_128 f in
    let f := add_if (parm "56bit"%string false) NTLMSSP_NEGOTIATE_56 f in
    let f := add_if lm_key NTLMSSP_NEGOTIATE_LM_KEY f in
    let f := add_if (parm "keyexchange"%string true) NTLMSSP_NEGOTIATE_KEY_EXCH f in
    let f := add_if (parm "alwayssign"%string true) NTLMSSP_NEGOTIATE_ALWAYS_SIGN f in
    let f := add_if ntlm2 NTLMSSP_NEGOTIATE_NTLM2 f in
    let f := add_if (wants want_features GENSEC_FEATURE_SESSION_KEY) NTLMSSP_NEGOTIATE_SIGN f in
    let f := add_if (wants want_features GENSEC_FEATURE_SIGN) NTLMSSP_NEGOTIATE_SIGN f in
    let f := add_if (wants want_features GENSEC_FEATURE_SEAL) NTLMSSP_NEGOTIATE_SEAL f in
    let use_v2 := if ntlm2 then lp_client_ntlmv2_auth else false in
    let core := State NTLMSSP_CLIENT NTLMSSP_INITIAL (parm "unicode"%string true) use_v2 None f CryptZero in
    inr (Full core (parm "send_nt_reponse"%string true)
           (lp_client_lanman_auth && (parm "allow_lm_key"%string false || lm_key)) false None no_auth no_chals None).

(** The message is left empty when it cannot be made; the status does not tell. *)
Definition ntlmssp_client_initial (e : call_env) (ep : endpoint) : handled :=
  let s := core (state ep) in
  let s := update_flags (add_flag (if unicode s then NTLMSSP_NEGOTIATE_UNICODE else NTLMSSP_NEGOTIATE_OEM)) s in
  let s := if use_ntlmv2 s then update_flags (add_flag NTLMSSP_NEGOTIATE_NTLM2) s else s in
  let* (c, ws) := cli_credentials_get_workstation run (credentials ep) in
  let* ws := arg ws in
  let* out := @msrpc_gen _ (memory e) [GC NTLMSSP; Gd NTLMSSP_NEGOTIATE; Gd (neg_flags s); GA lp_workgroup; GA ws] in
  Ret (Endpoint (put_core (set_expected NTLMSSP_CHALLENGE s) (state ep)) c, NT_STATUS_MORE_PROCESSING_REQUIRED, default [] out).

(** The response flags asked of the credentials. *)
Definition cred_flags (st : ntlmssp_state) : Z :=
  let f := if flag (neg_flags (core st)) NTLMSSP_NEGOTIATE_NTLM2 then CLI_CRED_NTLM2 else 0 in
  let f := add_if (use_ntlmv2 (core st)) CLI_CRED_NTLMv2_AUTH f in
  let f := add_if (use_nt_response st) CLI_CRED_NTLM_AUTH f in
  add_if lp_client_lanman_auth CLI_CRED_LANMAN_AUTH f.

(** The LM session key replaces the session key, if it was negotiated. *)
Definition client_lm_key (A : Allocator) (flags : Z) (r : ntlm_response) : outcome (option (list Z)) :=
  match r_lm_key r with
  | Some lm_session_key =>
      if flag flags NTLMSSP_NEGOTIATE_LM_KEY && lp_client_lanman_auth && bool_decide (length lm_session_key = 16%nat) then
        if negb (@malloc_ok A 0) then Fault
        else Ret (Some (SMBsesskeygen_lm_sess_key lm_session_key
                          (if decide (length (r_lm r) = 24%nat) then r_lm r else replicate 24 0)))
      else Ret (r_key r)
  | None => Ret (r_key r)
  end.

(** The session key, and the encrypted one to send. *)
Definition client_key_exchange (e : call_env) (A : Allocator) (flags : Z) (session_key : option (list Z)) :
    outcome (option (list Z) * list Z) :=
  if flag flags NTLMSSP_NEGOTIATE_KEY_EXCH then
    let* encrypted := rc4_16 (if @malloc_ok A 0 then random_key e else []) session_key in
    Ret (if @malloc_ok A 1 then Some (random_key e) else None, encrypted)
  else Ret (session_key, []).

(** The format of the challenge, behind its first three items. *)
Definition challenge_format (unicode_ target_info : bool) : list parse_arg :=
  [PC NTLMSSP; Pd; if unicode_ then PU else PA; Pd; Pb 8; Pd; Pd] ++ (if target_info then [PB] else []).
Definition target_info_of (rest : list parse_val) : list Z := match rest with [VBlob b] => b | _ => [] end.

(** The responses and the challenge belong to a context that is freed at the end; they
    are stolen from it onto themselves, which leaves them where they are. *)
Definition client_auth (e : call_env) (A : Allocator) (want_features : Z) (ep : endpoint) (server_domain challenge target_info : list Z) : handled :=
  let st := put_server_domain server_domain (state ep) in
  let ep := Endpoint st (credentials ep) in
  if negb (length challenge =? 8)%nat then Ret (ep, NT_STATUS_INVALID_PARAMETER, [])
  else
    let* (c, user, domain) := cli_credentials_get_ntlm_username_domain run set_machine_account (later 10 A) (credentials ep) in
    let* (c, r) := cli_credentials_get_ntlm_response (later 30 A) run set_machine_account (random e) (cred_flags st) challenge target_info c in
    match r with
    | inl nt_status => Ret (Endpoint st c, nt_status, [])
    | inr r =>
        let s := if flag (r_flags r) CLI_CRED_NTLM2 then core st else update_flags (clear_flag NTLMSSP_NEGOTIATE_NTLM2) (core st) in
        let* session_key := client_lm_key (later 200 A) (neg_flags s) r in
        let* (session_key, encrypted) := client_key_exchange e (later 210 A) (neg_flags s) session_key in
        let* (c, ws) := cli_credentials_get_workstation run c in
        let* user := arg user in
        let* domain := arg domain in
        let* ws := arg ws in
        let item x := if unicode s then GU x else GA x in
        let* out := @msrpc_gen _ (later 220 A)
          [GC NTLMSSP; Gd NTLMSSP_AUTH; GB (r_lm r); GB (r_nt r); item domain; item user; item ws; GB encrypted; Gd (neg_flags s)] in
        match out with
        | None => Ret (Endpoint (put_core s st) c, NT_STATUS_NO_MEMORY, [])
        | Some out =>
            let s := set_expected NTLMSSP_DONE (put_key session_key s) in
            let a := auth st in
            let st := put_chals (ChalData (internal_chal (chals st)) (freed (Data challenge)) (doing_ntlm2 (chals st)) (session_nonce (chals st)))
                        (put_auth (AuthData (NtlmsspExchange.user a) (NtlmsspExchange.domain a) (workstation a) (freed (to_blob (r_lm r)))
                                     (freed (to_blob (r_nt r))) (encrypted_session_key a)) st) in
            if wants want_features GENSEC_FEATURE_SIGN || wants want_features GENSEC_FEATURE_SEAL then
              let* (nt_status, s) := ntlmssp_sign_init (later 400 A) s in
              Ret (Endpoint (put_core s st) c, nt_status, out)
            else Ret (Endpoint (put_core s st) c, NT_STATUS_OK, out)
        end
    end.

(** The challenge is parsed twice: for its flags, which are negotiated, and then in the
    character set they choose. *)
Definition ntlmssp_client_challenge (e : call_env) (want_features : Z) (ep : endpoint) (input : list Z) : handled :=
  let A := memory e in
  if negb (@malloc_ok A 0) then Ret (ep, NT_STATUS_NO_MEMORY, [])
  else
    let* p := @msrpc_parse _ (later 1 A) input [PC NTLMSSP; Pd; PB; Pd] in
    match p with
    | Some [VWord _; VBlob _; VWord chal_flags] =>
        let st := state ep in
        let st := put_core (ntlmssp_handle_neg_flags (core st) chal_flags (allow_lm_key st)) st in
        let ep := Endpoint st (credentials ep) in
        let* p := @msrpc_parse _ (later 2 A) input (challenge_format (unicode (core st)) (flag chal_flags NTLMSSP_CHAL_TARGET_INFO)) in
        match p with
        | Some (VWord _ :: VStr server_domain :: VWord _ :: VBlob challenge :: VWord _ :: VWord _ :: rest) =>
            client_auth e A want_features ep server_domain challenge (target_info_of rest)
        | _ => Ret (ep, NT_STATUS_INVALID_PARAMETER, [])
        end
    | _ => Ret (ep, NT_STATUS_INVALID_PARAMETER, [])
    end.
End client.

Section server.
Context `{Host} `{Charsets} `{CaseTables} `{LoadParm} `{AuthPolicy}.

(** gethostname: the name, or [None] on an error. *)
Context (gethostname : option (list Z)).

Definition gensec_ntlmssp_server_start (want_features : Z) (A : Allocator) (backends : list auth_operations) (auth_methods : option (list string)) :
    NTSTATUS + ntlmssp_state :=
  if negb (@malloc_ok A 0) then inl NT_STATUS_NO_MEMORY
  else
    let parm n d := lp_parm_bool "ntlmssp_server" n d in
    let f := Z.lor NTLMSSP_NEGOTIATE_NTLM NTLMSSP_UNKNOWN_02000000 in
    let f := add_if (parm "128bit"%string true) NTLMSSP_NEGOTIATE_128 f in
    let f := add_if (parm "56bit"%string true) NTLMSSP_NEGOTIATE_56 f in
    let f := add_if (parm "keyexchange"%string true) NTLMSSP_NEGOTIATE_KEY_EXCH f in
    let f := add_if (parm "alwayssign"%string true) NTLMSSP_NEGOTIATE_ALWAYS_SIGN f in
    let f := add_if (parm "ntlm2"%string true) NTLMSSP_NEGOTIATE_NTLM2 f in
    let f := add_if (wants want_features GENSEC_FEATURE_SIGN) NTLMSSP_NEGOTIATE_SIGN f in
    let f := add_if (wants want_features GENSEC_FEATURE_SEAL) NTLMSSP_NEGOTIATE_SEAL f in
    match auth_context_create backends (later 1 A) auth_methods with
    | inl e => inl e
    | inr ctx =>
        inr (Full (set_flags f (gensec_ntlmssp_start NTLMSSP_SERVER NTLMSSP_NEGOTIATE)) false
               (lp_lanman_auth && parm "allow_lm_key"%string false) false None no_auth no_chals (Some ctx))
    end.

(** The strings copied into the state. *)
Definition ntlmssp_set_username (mem : bool) (u : option (list Z)) (s : ntlmssp_state) : NTSTATUS * ntlmssp_state :=
  match u with
  | None => (NT_STATUS_INVALID_PARAMETER, s)
  | Some u =>
      let a := auth s in
      (if mem then NT_STATUS_OK else NT_STATUS_NO_MEMORY,
       put_auth (AuthData (if mem then Some u else None) (domain a) (workstation a) (lm_resp a) (nt_resp a) (encrypted_session_key a)) s)
  end.
Definition ntlmssp_set_domain (mem : bool) (d : option (list Z)) (s : ntlmssp_state) : NTSTATUS * ntlmssp_state :=
  let a := auth s in
  let d := if mem then d else None in
  (if is_some d then NT_STATUS_OK else NT_STATUS_NO_MEMORY,
   put_auth (AuthData (user a) d (workstation a) (lm_resp a) (nt_resp a) (encrypted_session_key a)) s).
Definition ntlmssp_set_workstation (mem : bool) (w : option (list Z)) (s : ntlmssp_state) : NTSTATUS * ntlmssp_state :=
  let a := auth s in
  let w := if mem then w else None in
  (if is_some w then NT_STATUS_OK else NT_STATUS_NO_MEMORY,
   put_auth (AuthData (user a) (domain a) w (lm_resp a) (nt_resp a) (encrypted_session_key a)) s).

(** The name of the target, and the flags with those that describe it. *)
Definition ntlmssp_target_name (neg_flags chal_flags : Z) : list Z * Z :=
  if flag neg_flags NTLMSSP_REQUEST_TARGET then
    let f := add_flag NTLMSSP_REQUEST_TARGET (add_flag NTLMSSP_CHAL_TARGET_INFO chal_flags) in
    match lp_server_role with
    | ROLE_STANDALONE => (lp_netbios_name, add_flag NTLMSSP_TARGET_TYPE_SERVER f)
    | _ => (lp_workgroup, add_flag NTLMSSP_TARGET_TYPE_DOMAIN f)
    end
  else ([], chal_flags).

(** fstrcpy cuts to 255 bytes; the host name is cut to 1023. *)
Definition fstrcpy (s : list Z) : list Z := take 255 s.
Definition hostname : option (list Z) := take 1023 <$> gethostname.
Definition get_myfullname : list Z := match hostname with Some h => fstrcpy h | None => [] end.
Definition get_mydomname : list Z :=
  match hostname with
  | Some h => match strchr_m h 46 with Some p => fstrcpy (drop 1 p) | None => [] end
  | None => []
  end.

(** The names at the end of the challenge.  The test of the flags assigns to them:
    the target type is a domain ever after.  The blob is uninitialised when it cannot be
    made. *)
Definition names_of_target (A : Allocator) (target_name : list Z) (chal_flags : Z) : outcome (Z * list Z) :=
  let* dnsdomname := @strlower_m _ _ get_mydomname in
  let dnsname := get_myfullname in
  if flag chal_flags NTLMSSP_CHAL_TARGET_INFO then
    let chal_flags := add_flag NTLMSSP_TARGET_TYPE_DOMAIN chal_flags in
    let* b := @msrpc_gen _ A
      [Ga NTLMSSP_NAME_TYPE_DOMAIN target_name; Ga NTLMSSP_NAME_TYPE_SERVER lp_netbios_name;
       Ga NTLMSSP_NAME_TYPE_DOMAIN_DNS dnsdomname; Ga NTLMSSP_NAME_TYPE_SERVER_DNS dnsname; Ga 0 []] in
    match b with Some b => Ret (chal_flags, b) | None => Fault end
  else Ret (chal_flags, []).

(** The four callbacks, over the authentication context. *)
Definition auth_ntlmssp_get_challenge (A : Allocator) (rnd : list Z) (s : ntlmssp_state) : outcome (ntlmssp_state * option (list Z)) :=
  match context s with
  | None => Fault
  | Some ctx =>
      let '(ctx, r) := auth_get_challenge A rnd ctx in
      Ret (put_context ctx s, match r with inr ((_ :: _) as c) => Some c | _ => None end)
  end.
Definition auth_ntlmssp_may_set_challenge (s : ntlmssp_state) : bool :=
  match context s with Some ctx => auth_challenge_may_be_modified ctx | None => false end.
Definition auth_ntlmssp_set_challenge (A : Allocator) (c : list Z) (s : ntlmssp_state) : outcome (ntlmssp_state * NTSTATUS) :=
  if negb (length c =? 8)%nat then Ret (s, NT_STATUS_INVALID_PARAMETER)
  else
    match context s with
    | None => Fault
    | Some ctx =>
        let '(ctx, nt_status) := auth_context_set_challenge A c "NTLMSSP callback (NTLM2)" ctx in
        Ret (put_context ctx s, nt_status)
    end.

(** The responses move to the user's data and are freed with it.  A key that is not empty
    is referenced, which takes memory. *)
Definition auth_ntlmssp_check_password (A : Allocator) (rnd : list Z) (s : ntlmssp_state) :
    outcome (ntlmssp_state * NTSTATUS * blob * blob) :=
  if negb (@malloc_ok A 0) then Ret (s, NT_STATUS_NO_MEMORY, NoData, NoData)
  else
    let a := auth s in
    let* lm := blob_data (lm_resp a) in
    let* nt := blob_data (nt_resp a) in
    let user_info :=
      UserInfo (workstation a) (Z.lor MSV1_0_ALLOW_SERVER_TRUST_ACCOUNT MSV1_0_ALLOW_WORKSTATION_TRUST_ACCOUNT) false
        (user a) (domain a) None None AUTH_PASSWORD_RESPONSE (Response lm nt) 0 in
    match context s with
    | None => Fault
    | Some ctx =>
        let* (ctx, nt_status, info) := auth_check_password (later 1 A) rnd ctx user_info in
        let s := put_auth (AuthData (user a) (domain a) (workstation a) (freed (lm_resp a)) (freed (nt_resp a)) (encrypted_session_key a))
                   (put_context ctx s) in
        if negb (NT_STATUS_IS_OK nt_status) then Ret (s, nt_status, NoData, NoData)
        else
          match info with
          | None => Fault
          | Some info =>
              let no_user := bool_decide (user_session_key info = []) in
              let no_lm := bool_decide (lm_session_key info = []) in
              if negb no_user && negb (@malloc_ok A 1000) then Ret (s, NT_STATUS_NO_MEMORY, NoData, NoData)
              else if negb no_lm && negb (@malloc_ok A 1001) then Ret (s, NT_STATUS_NO_MEMORY, to_blob (user_session_key info), NoData)
              else Ret (s, NT_STATUS_OK, to_blob (user_session_key info), to_blob (lm_session_key info))
          end
    end.

(** The challenge that is drawn here is the one the client answers.  Without one, the
    message copies from a null pointer. *)
Definition ntlmssp_server_negotiate (e : call_env) (ep : endpoint) (input : list Z) : handled :=
  let A := memory e in
  let* neg :=
    (if decide (length input = 0%nat) then Ret (Some 0)
     else if decide (length input < 16)%nat then Ret None
     else
       let* p := @msrpc_parse _ A input [PC NTLMSSP; Pd; Pd] in
       Ret (match p with Some [VWord _; VWord neg_flags] => Some neg_flags | _ => None end)) in
  match neg with
  | None => Ret (ep, NT_STATUS_INVALID_PARAMETER, [])
  | Some neg =>
      let st := state ep in
      let st := put_core (ntlmssp_handle_neg_flags (core st) neg (allow_lm_key st)) st in
      let* (st, cryptkey) := auth_ntlmssp_get_challenge (later 10 A) (random_challenge e) st in
      let st := if auth_ntlmssp_may_set_challenge st then st
                else put_core (update_flags (clear_flag NTLMSSP_NEGOTIATE_NTLM2) (core st)) st in
      let '(target_name, chal_flags) := ntlmssp_target_name neg (neg_flags (core st)) in
      match cryptkey with
      | None => Fault
      | Some cryptkey =>
          let copy n := if @malloc_ok A n then Data (take 8 cryptkey) else NoData in
          let st := put_chals (ChalData (copy 21%nat) (copy 20%nat) (doing_ntlm2 (chals st)) (session_nonce (chals st))) st in
          let* (chal_flags, struct_blob) := names_of_target (later 30 A) target_name chal_flags in
          let* out := @msrpc_gen _ (later 40 A)
            [GC NTLMSSP; Gd NTLMSSP_CHALLENGE; if unicode (core st) then GU target_name else GA target_name; Gd chal_flags;
             Gb (take 8 cryptkey); Gd 0; Gd 0; GB struct_blob] in
          Ret (Endpoint (put_core (set_expected NTLMSSP_AUTH (core st)) st) (credentials ep), NT_STATUS_MORE_PROCESSING_REQUIRED, default [] out)
      end
  end.

(** The authenticate message in its long or its short form: the responses, the names, the
    encrypted key and the flags. *)
Definition parse_auth (A : Allocator) (unicode_ : bool) (input : list Z) :
    outcome (option (list Z * list Z * list Z * list Z * list Z * list Z * Z)) :=
  let item := if unicode_ then PU else PA in
  let short := [PC NTLMSSP; Pd; PB; PB; item; item; item] in
  let* p := @msrpc_parse _ A input (short ++ [PB; Pd]) in
  match p with
  | Some [VWord _; VBlob lm; VBlob nt; VStr domain; VStr user; VStr workstation; VBlob key; VWord auth_flags] =>
      Ret (Some (lm, nt, domain, user, workstation, key, auth_flags))
  | _ =>
      let* p := @msrpc_parse _ A input short in
      Ret (match p with
           | Some [VWord _; VBlob lm; VBlob nt; VStr domain; VStr user; VStr workstation] =>
               Some (lm, nt, domain, user, workstation, [], 0)
           | _ => None
           end)
  end.

(** NTLM2: the effective challenge is half of the MD5 of both challenges.  A challenge
    that was not kept is an assertion failure. *)
Definition preauth_ntlm2 (A : Allocator) (s : ntlmssp_state) : outcome (ntlmssp_state * NTSTATUS) :=
  let a := auth s in
  if flag (neg_flags (core s)) NTLMSSP_NEGOTIATE_NTLM2 && (blob_length (nt_resp a) =? 24)%nat && (blob_length (lm_resp a) =? 24)%nat then
    match internal_chal (chals s), lm_resp a with
    | Data c, Data lm =>
        if negb (length c =? 8)%nat then Fault
        else
          let nonce := c ++ take 8 lm in
          let session_nonce_hash := fst (Md5.MD5Final (Md5.MD5Update Md5.MD5Init nonce)) in
          let chal := if @malloc_ok A 0 then Data (take 8 session_nonce_hash) else NoData in
          let s := put_chals (ChalData (internal_chal (chals s)) chal true nonce) s in
          let s := put_auth (AuthData (user a) (domain a) (workstation a) NoData (nt_resp a) (encrypted_session_key a)) s in
          let* c := blob_data chal in
          let* (s, nt_status) := auth_ntlmssp_set_challenge (later 1 A) c s in
          if NT_STATUS_IS_OK nt_status then Ret (put_core (update_flags (clear_flag NTLMSSP_NEGOTIATE_LM_KEY) (core s)) s, NT_STATUS_OK)
          else Ret (put_auth (AuthData (user a) (domain a) (workstation a) NoData (nt_resp a) NoData) s, nt_status)
    | _, _ => Fault
    end
  else Ret (s, NT_STATUS_OK).

(** What the parser stored before it failed is not kept in the model: every later message
    starts by freeing it. *)
Definition ntlmssp_server_preauth (A : Allocator) (s : ntlmssp_state) (request : list Z) : outcome (ntlmssp_state * NTSTATUS) :=
  let s := put_auth no_auth s in
  let* p := parse_auth A (unicode (core s)) request in
  match p with
  | None => Ret (s, NT_STATUS_INVALID_PARAMETER)
  | Some (lm, nt, domain, user, workstation, key, auth_flags) =>
      let s := put_auth (AuthData None None None (to_blob lm) (to_blob nt) (to_blob key)) s in
      let s := if auth_flags =? 0 then s
               else put_core (ntlmssp_handle_neg_flags (core s) auth_flags (allow_lm_key s)) s in
      let refuse s e := Ret (put_auth (AuthData (NtlmsspExchange.user (auth s)) (NtlmsspExchange.domain (auth s)) (NtlmsspExchange.workstation (auth s))
                                         (lm_resp (auth s)) (nt_resp (auth s)) NoData) s, e) in
      let '(e, s) := ntlmssp_set_domain (@malloc_ok A 10) (Some domain) s in
      if negb (NT_STATUS_IS_OK e) then refuse s e
      else
        let '(e, s) := ntlmssp_set_username (@malloc_ok A 11) (Some user) s in
        if negb (NT_STATUS_IS_OK e) then refuse s e
        else
          let '(e, s) := ntlmssp_set_workstation (@malloc_ok A 12) (Some workstation) s in
          if negb (NT_STATUS_IS_OK e) then refuse s e
          else preauth_ntlm2 (later 13 A) s
  end.

(** The key of the session before the key exchange, and whether the LM key stays
    negotiated.  In the LM branch the responses have been freed with the user's data. *)
Definition server_session_key (A : Allocator) (s : ntlmssp_state) (user_key lm_key : blob) : outcome (blob * bool) :=
  let lm_session_key k r := if @malloc_ok A 0 then Ret (Data (SMBsesskeygen_lm_sess_key k r), true) else Fault in
  if doing_ntlm2 (chals s) then
    match user_key with
    | Data k =>
        if (length k =? 16)%nat then
          if @malloc_ok A 0 then Ret (Data (HmacMd5.hmac_md5 k (session_nonce (chals s))), true) else Fault
        else Ret (NoData, true)
    | Freed _ => Fault
    | NoData => Ret (NoData, true)
    end
  else if flag (neg_flags (core s)) NTLMSSP_NEGOTIATE_LM_KEY &&
          ((blob_length (nt_resp (auth s)) =? 0)%nat || (blob_length (nt_resp (auth s)) =? 24)%nat) then
    match lm_key with
    | Freed _ => Fault
    | Data k =>
        if (8 <=? length k)%nat then
          match lm_resp (auth s) with
          | NoData => lm_session_key (replicate 24 0) (replicate 24 0)
          | b =>
              if (blob_length b =? 24)%nat then let* r := blob_data b in lm_session_key k r
              else lm_session_key (replicate 24 0) (replicate 24 0)
          end
        else Ret (NoData, false)
    | NoData => Ret (NoData, false)
    end
  else
    match user_key, lm_key with
    | Data _, _ | Freed _, _ => Ret (user_key, false)
    | NoData, _ => Ret (lm_key, false)
    end.

Definition blob_option (b : blob) : outcome (option (list Z)) :=
  match b with NoData => Ret None | Data b => Ret (Some b) | Freed _ => Fault end.

(** The client's key is decrypted in place, if it was negotiated and there is a key to
    decrypt it with. *)
Definition server_key_exchange (A : Allocator) (s : ntlmssp_state) (session_key : blob) : outcome (NTSTATUS + option (list Z)) :=
  let* own := blob_option session_key in
  if flag (neg_flags (core s)) NTLMSSP_NEGOTIATE_KEY_EXCH then
    match encrypted_session_key (auth s) with
    | NoData => Ret (inl NT_STATUS_INVALID_PARAMETER)
    | b =>
        let* enc := blob_data b in
        if negb (length enc =? 16)%nat then Ret (inl NT_STATUS_INVALID_PARAMETER)
        else
          match own with
          | Some k =>
              if negb (length k =? 16)%nat then Ret (inr own)
              else let* key := rc4_16 enc (Some k) in Ret (inr (if @malloc_ok A 1 then Some key else None))
          | None => Ret (inr own)
          end
    end
  else Ret (inr own).

Definition ntlmssp_server_postauth (A : Allocator) (want_features : Z) (s : ntlmssp_state) (user_key lm_key : blob) :
    outcome (ntlmssp_state * NTSTATUS) :=
  let* (session_key, keep_lm) := server_session_key A s user_key lm_key in
  let s := if keep_lm : bool then s else put_core (update_flags (clear_flag NTLMSSP_NEGOTIATE_LM_KEY) (core s)) s in
  let no_encrypted s :=
    let a := auth s in put_auth (AuthData (user a) (domain a) (workstation a) (lm_resp a) (nt_resp a) NoData) s in
  let* k := server_key_exchange A s session_key in
  match k with
  | inl e => Ret (no_encrypted s, e)
  | inr k =>
      let s := put_core (put_key k (core s)) s in
      let* (nt_status, c) :=
        (if wants want_features GENSEC_FEATURE_SIGN || wants want_features GENSEC_FEATURE_SEAL
         then ntlmssp_sign_init (later 10 A) (core s) else Ret (NT_STATUS_OK, core s)) in
      let next := if server_multiple_authentications s then NTLMSSP_AUTH else NTLMSSP_DONE in
      Ret (no_encrypted (put_core (set_expected next c) s), nt_status)
  end.

(** Without the features that need a session key the exchange is never marked done. *)
Definition ntlmssp_server_auth (e : call_env) (want_features : Z) (ep : endpoint) (input : list Z) : handled :=
  let A := memory e in
  let back s := Endpoint s (credentials ep) in
  if negb (@malloc_ok A 0) then Ret (ep, NT_STATUS_NO_MEMORY, [])
  else
    let* (s, nt_status) := ntlmssp_server_preauth (later 1 A) (state ep) input in
    if negb (NT_STATUS_IS_OK nt_status) then Ret (back s, nt_status, [])
    else
      let* (s, nt_status, user_key, lm_key) := auth_ntlmssp_check_password (later 20 A) (random_challenge e) s in
      if negb (NT_STATUS_IS_OK nt_status) then Ret (back s, nt_status, [])
      else if wants want_features GENSEC_FEATURE_SIGN || wants want_features GENSEC_FEATURE_SEAL || wants want_features GENSEC_FEATURE_SESSION_KEY then
        let* (s, nt_status) := ntlmssp_server_postauth (later 2000 A) want_features s user_key lm_key in
        Ret (back s, nt_status, [])
      else Ret (back (put_core (put_key None (core s)) s), NT_STATUS_OK, []).
End server.

(** ** The update function *)

Section update.
Context `{Host} `{Charsets} `{CaseTables} `{LoadParm} `{AuthPolicy}.
Context (run : nat -> cli_credentials -> outcome (cli_credentials * cstr)).
Context (set_machine_account : cli_credentials -> outcome cli_credentials).
Context (gethostname : option (list Z)).

Definition gensec_ntlmssp_update (e : call_env) (want_features : Z) (ep : endpoint) (input : list Z) : handled :=
  let* h := @gensec_ntlmssp_update_find _ (memory e) (core (state ep)) want_features input in
  match h with
  | inl e => Ret (ep, e, [])
  | inr Ntlmssp.ntlmssp_client_initial => ntlmssp_client_initial run e ep
  | inr Ntlmssp.ntlmssp_client_challenge => ntlmssp_client_challenge run set_machine_account e want_features ep input
  | inr Ntlmssp.ntlmssp_server_negotiate => ntlmssp_server_negotiate gethostname e ep input
  | inr Ntlmssp.ntlmssp_server_auth => ntlmssp_server_auth e want_features ep input
  end.
End update.
End NtlmsspExchange.
Import NtlmsspExchange.
