(* ===== verification/NtlmsspMessages.v ===== *)
(** What the NTLMSSP handlers need of their messages: a message built by [msrpc_gen] is
    read by the formats of the other end, and the block of names of the challenge. *)

From stdpp Require Import strings relations.
From S2P Require Import Prelude Digest Byteorder Ntstatus Md4 Md5 Hmac Arcfour Des Iconv Charcnv Unistr Msrpc Ntlmssp NtlmsspSign.
From S2P Require Import Smbencrypt NtlmCheck CliCredentials CredNtlm Auth AuthSam NtlmsspExchange.
Import Arcfour Charcnv Unistr Msrpc Ntlmssp NtlmsspSign Smbencrypt NtlmCheck CliCredentials CredNtlm Auth AuthSam NtlmsspExchange.

#[local] Open Scope outcome_scope.

#[local] Opaque Hmac.HmacMd5.hmac_md5 rfc2104_hmac md_hash Md4.mdfour SMBOWFencrypt Md5.MD5Final Md5.MD5Update arcfour_init.

(** ** Messages *)

Section messages.
Context `{Charsets} (unix8 : unix_is_utf8) (dos7 : dos_is_ascii).

Definition item_ok (x : gen_arg * list Z) : Prop := arg_ok x.1 /\ payload x.1 x.2.

Lemma gen_message (A : Allocator) args :
  malloc_always A -> Forall arg_ok args ->
  exists xs, @msrpc_gen _ A args = Ret (Some (message xs)) /\ map fst xs = args /\ Forall item_ok xs.
Proof.
  intros mem Hok. destruct (@scan_ok _ A unix8 dos7 (mem _) args Hok) as (xs & E & Hm & Hf).
  exists xs. split_and!; [|done|done]. by apply (@msrpc_gen_message _ A); [apply mem..|].
Qed.

Lemma item_bound x : item_ok x -> Z.of_nat (head_inc x + data_inc x) <= 70000.
Proof.
  destruct x as [a p]. intros [Ha Hp]. cbn [fst snd] in *.
  destruct a; cbn [arg_ok payload head_inc data_inc] in *; try (subst p; unfold text_ok, PSTRING_LEN in *; rewrite ?length_app in *; cbn [length]; lia).
  - pose proof (item_length (GU s) p I Ha Hp). lia.
  - done.
  - lia.
Qed.

Lemma list_sum_cons a l : list_sum (a :: l) = (a + list_sum l)%nat.
Proof. done. Qed.

Lemma message_length xs : Forall item_ok xs -> Z.of_nat (length (message xs)) <= 70000 * Z.of_nat (length xs).
Proof.
  intros Hok. unfold message. rewrite length_app, length_heads, length_datas.
  induction Hok as [|x xs Hx _ IH]; [done|]. pose proof (item_bound x Hx). cbn [map length].
  rewrite !list_sum_cons. lia.
Qed.

Lemma own_reads xs : Forall item_ok xs -> Forall2 (fun x fv => reads_as x fv.1 fv.2) xs (map (fun x => (fmt_of x.1, val_of x.1)) xs).
Proof. induction 1 as [|[a p] xs [Ha Hp] _ IH]; constructor; [by constructor|done]. Qed.

Lemma omap_pairs (xs : list (gen_arg * list Z)) :
  omap snd (map (fun x => (fmt_of x.1, val_of x.1)) xs) = omap val_of (map fst xs).
Proof. induction xs as [|x xs IH]; [done|]. cbn [map omap list_omap snd]. by rewrite IH. Qed.

(** A prefix of a message read in its own format. *)
Lemma parse_own (A : Allocator) xs args1 args2 :
  malloc_always A -> Forall item_ok xs -> map fst xs = args1 ++ args2 -> (length xs <= 20)%nat ->
  @msrpc_parse _ A (message xs) (map fmt_of args1) = Ret (Some (omap val_of args1)).
Proof.
  intros mem Hok Hm Hl.
  assert (exists xs1 xs2, xs = xs1 ++ xs2 /\ map fst xs1 = args1) as (xs1 & xs2 & -> & Hm1).
  { exists (take (length args1) xs), (drop (length args1) xs). split; [by rewrite take_drop|].
    rewrite <- firstn_map, Hm. by apply take_app_length. }
  pose proof (message_length _ Hok). apply Forall_app in Hok as [Hok1 _].
  pose proof (@parse_message _ A unix8 dos7 (mem _) xs1 xs2 _ (own_reads xs1 Hok1) ltac:(lia)) as P.
  rewrite map_map in P. cbn [fst] in P. subst args1. by rewrite map_map, P, omap_pairs.
Qed.

(** The same with one string read as a blob. *)
Lemma parse_blob (A : Allocator) xs args1 s args2 args3 :
  malloc_always A -> Forall item_ok xs -> map fst xs = args1 ++ GU s :: args2 ++ args3 -> (length xs <= 20)%nat ->
  exists b, @msrpc_parse _ A (message xs) (map fmt_of args1 ++ PB :: map fmt_of args2) =
            Ret (Some (omap val_of args1 ++ VBlob b :: omap val_of args2)).
Proof.
  intros mem Hok Hm Hl.
  assert (exists xs1 p xs2 xs3, xs = (xs1 ++ (GU s, p) :: xs2) ++ xs3 /\ map fst xs1 = args1 /\ map fst xs2 = args2)
    as (xs1 & p & xs2 & xs3 & -> & Hm1 & Hm2).
  { apply map_eq_app in Hm as (xs1 & ys & -> & Hm1 & Hm). destruct ys as [|[a p] ys]; [done|].
    cbn [map fst] in Hm. injection Hm as -> Hm. apply map_eq_app in Hm as (xs2 & xs3 & -> & Hm2 & _).
    exists xs1, p, xs2, xs3. split_and!; [by rewrite <- app_assoc|done|done]. }
  pose proof (message_length _ Hok). apply Forall_app in Hok as [Hok _]. apply Forall_app in Hok as [Hok1 Hok].
  apply Forall_cons_iff in Hok as [[Ha Hp] Hok2]. exists p.
  pose proof (@parse_message _ A unix8 dos7 (mem _) (xs1 ++ (GU s, p) :: xs2) xs3
    (map (fun x => (fmt_of x.1, val_of x.1)) xs1 ++ (PB, Some (VBlob p)) :: map (fun x => (fmt_of x.1, val_of x.1)) xs2)) as P.
  rewrite map_app in P. cbn [map fst] in P. rewrite !map_map in P. cbn [fst] in P. rewrite <- Hm1, <- Hm2, !map_map. rewrite P.
  - rewrite omap_app. cbn [omap list_omap snd]. by rewrite !omap_pairs.
  - apply Forall2_app; [by apply own_reads|]. constructor; [by apply (reads_blob (GU s) p I)|by apply own_reads].
  - lia.
Qed.

Lemma message_words xs a b rest :
  Forall item_ok xs -> map fst xs = GC NTLMSSP :: Gd a :: Gd b :: rest -> (16 <= length (message xs))%nat.
Proof.
  intros Hok Hm. destruct xs as [|[? p] [|[? q] [|[? r] xs]]]; [done..|]. cbn [map fst] in Hm. injection Hm as -> -> -> _.
  apply Forall_cons_iff in Hok as [[_ Hp] _]. cbn [fst snd payload] in Hp. subst p.
  unfold message. cbn [heads head_of]. rewrite !length_app, !length_le. simpl. lia.
Qed.

Lemma magic_ok : arg_ok (GC NTLMSSP).
Proof. cbn [arg_ok]. unfold text_ok. split_and!; by_eval. Qed.

(** The handler a message is dispatched to. *)
Lemma message_prefix xs cmd rest :
  Forall item_ok xs -> map fst xs = GC NTLMSSP :: Gd cmd :: rest -> exists tl, message xs = NTLMSSP ++ [0] ++ le 4 cmd ++ tl.
Proof.
  intros Hok Hm. destruct xs as [|[a p] [|[b q] xs]]; [done..|]. cbn [map fst] in Hm. injection Hm as -> -> _.
  apply Forall_cons_iff in Hok as [[_ Hp] _]. cbn [fst snd payload] in Hp. subst p.
  eexists. unfold message. cbn [heads head_of]. rewrite <- !app_assoc. reflexivity.
Qed.

(** A message is there, and not large. *)
Definition wire (m : list Z) : Prop := m <> [] /\ Z.of_nat (length m) < 2 ^ 21.

Lemma message_wire xs cmd rest : Forall item_ok xs -> map fst xs = GC NTLMSSP :: Gd cmd :: rest -> (length rest <= 18)%nat -> wire (message xs).
Proof.
  intros Hok Hm Hl. split.
  - destruct (message_prefix xs cmd rest Hok Hm) as [tl ->]. done.
  - pose proof (message_length xs Hok) as Hb. rewrite <- (length_map fst), Hm in Hb. cbn [length] in Hb. change (2 ^ 21) with 2097152. lia.
Qed.

Lemma message_handler (A : Allocator) s wf xs rest h :
  Forall item_ok xs -> map fst xs = GC NTLMSSP :: Gd (expected_state s) :: rest ->
  is_u32 (expected_state s) -> expected_state s <> NTLMSSP_DONE -> In (role s, expected_state s, h) ntlmssp_callbacks ->
  @gensec_ntlmssp_update_find _ A s wf (message xs) = Ret (inr h).
Proof.
  intros Hok Hm Hu Hd Hh. destruct (message_prefix xs _ rest Hok Hm) as [tl ->]. unfold gensec_ntlmssp_update_find.
  rewrite (proj2 (Z.eqb_neq _ _)), (@message_command_prefix _ A), u32_id by done. cbn [obind].
  rewrite Z.eqb_refl. cbn [negb]. by apply callbacks_find.
Qed.
End messages.

(** Directives that can be read back, one by one. *)
Ltac args_ok := repeat (apply Forall_cons_2; [first [exact I | apply magic_ok | assumption | done]|]); try apply Forall_nil_2.

(** ** The names of the target *)

Definition typed (l : list (Z * list Z)) : list (gen_arg * list Z) := map (fun x => (Ga x.1 (utf8s x.2), utf16s x.2)) l.

Section names.
Context `{Charsets} (unix8 : unix_is_utf8).

Lemma scan_typed (A : Allocator) l :
  malloc_always A -> Forall (fun x => Forall scalar x.2) l ->
  @scan _ A (map (fun x => Ga x.1 (utf8s x.2)) l) = Ret (Some (typed l)).
Proof.
  intros mem. induction 1 as [|[t cps] l Hx _ IH]; [done|]. cbn [map scan scan_arg fst snd] in *.
  rewrite push_ucs2_talloc_utf8 by (done || apply mem). cbn [chop obind].
  rewrite decide_False by (rewrite length_app; simpl; lia). rewrite length_app. cbn [length obind].
  rewrite Nat.add_sub, take_app_length, IH. done.
Qed.

Lemma typed_message (A : Allocator) l :
  malloc_always A -> Forall (fun x => Forall scalar x.2) l ->
  @msrpc_gen _ A (map (fun x => Ga x.1 (utf8s x.2)) l) = Ret (Some (message (typed l))).
Proof. intros mem Hl. apply (@msrpc_gen_message _ A); [apply mem..|]. by apply scan_typed. Qed.

Lemma typed_heads l : forall n, heads (typed l) n = [].
Proof. induction l as [|x l IH]; intros n; [done|]. cbn [typed map heads head_of app]. apply IH. Qed.

Lemma typed_bytes l : Forall (fun x => Forall scalar x.2) l -> bytes (message (typed l)).
Proof.
  intros Hl. unfold message. rewrite typed_heads. cbn [app]. unfold datas.
  induction Hl as [|[t cps] l Hx _ IH]; [constructor|].
  change (mjoin (data_of <$> typed ((t, cps) :: l))) with ((le 2 t ++ le 2 (Z.of_nat (length (utf16s cps))) ++ utf16s cps) ++ mjoin (data_of <$> typed l)).
  rewrite !Forall_app. split_and!; auto using le_bytes, utf16s_bytes.
Qed.

Lemma typed_length l : length (message (typed l)) = list_sum (map (fun x => 4 + length (utf16s x.2))%nat l).
Proof.
  unfold message. rewrite typed_heads. cbn [app]. rewrite length_datas.
  induction l as [|[t cps] l IH]; [done|]. cbn [map typed data_inc]. rewrite !list_sum_cons.
  change (map data_inc (map _ l)) with (map data_inc (typed l)). rewrite IH. cbn [snd]. lia.
Qed.

(** The server's own names. *)
Definition name_ok (s : list Z) : Prop :=
  exists cps, s = utf8s cps /\ Forall scalar cps /\ Forall (fun cp => cp <> 0) cps /\ (length s < PSTRING_LEN)%nat.

Lemma ascii_name s : Forall ascii_char s -> exists cps, s = utf8s cps /\ Forall scalar cps /\ length (utf16s cps) = (2 * length s)%nat.
Proof. intros Hs. exists s. rewrite utf8s_ascii by done. split_and!; [done|by apply ascii_scalars|by apply length_utf16s_ascii]. Qed.

Lemma ascii_lower `{CaseTables} s : Forall ascii_char s -> strlower_m s = Ret (map tolower s) /\ Forall ascii_char (map tolower s).
Proof.
  intros Hs. split.
  - unfold strlower_m. assert (ascii_prefix s = (s, [])) as ->.
    { induction Hs as [|c s Hc _ IH]; [done|]. cbn [ascii_prefix]. unfold ascii_char in Hc.
      assert ((Z.land c 0x80 =? 0) = true) as ->.
      { apply Z.eqb_eq. change 0x80 with (2 ^ 7). apply Z.bits_inj'. intros i Hi. rewrite Z.land_spec, Z.pow2_bits_eqb, Z.bits_0 by done.
        destruct (Z.eqb_spec 7 i) as [<-|]; [|by rewrite andb_false_r]. rewrite (is_u_testbit 7 c); [done|split; lia|done]. }
      by rewrite IH. }
    cbn. by rewrite app_nil_r.
  - apply Forall_fmap. refine (List.Forall_impl _ _ Hs). intros c Hc. unfold compose, ascii_char, tolower, isupper in *.
    destruct (_ && _) eqn:E; [|done]. apply andb_true_iff in E as [?%Z.leb_le ?%Z.leb_le]. lia.
Qed.

Lemma ascii_domain (h : list Z) p : Forall ascii_char h -> strchr_m h 46 = Some p -> Forall ascii_char p.
Proof.
  intros Hh E. rewrite <- (utf8s_ascii h) in E by done. rewrite strchr_m_utf8 in E by (done || by apply ascii_scalars).
  destruct (list_find _ h) as [[i x]|]; [|done]. injection E as <-.
  rewrite utf8s_ascii by by apply Forall_drop. by apply Forall_drop.
Qed.

Lemma host_names (hostname : option (list Z)) :
  (forall h, hostname = Some h -> Forall ascii_char h) ->
  (Forall ascii_char (get_mydomname hostname) /\ (length (get_mydomname hostname) <= 255)%nat) /\
  (Forall ascii_char (get_myfullname hostname) /\ (length (get_myfullname hostname) <= 255)%nat).
Proof.
  intros Hh. unfold get_mydomname, get_myfullname, NtlmsspExchange.hostname, fstrcpy.
  destruct hostname as [h|]; [|cbn; split; (split; [constructor|lia])]. specialize (Hh h eq_refl). cbn [fmap option_fmap option_map].
  assert (Forall ascii_char (take 1023 h)) as Ht by by apply Forall_take.
  split.
  - destruct (strchr_m (take 1023 h) 46) as [p|] eqn:E; [|split; [constructor|simpl; lia]].
    split; [|rewrite length_take; lia]. apply Forall_take, Forall_drop. by apply (ascii_domain (take 1023 h)).
  - split; [by apply Forall_take|rewrite length_take; lia].
Qed.
End names.
