(* ===== verification/Handshake.v ===== *)
(** The NTLMSSP exchange, handler by handler: the flags of the four messages and what each
    handler makes of the message of the other end. *)

From stdpp Require Import strings relations.
From S2P Require Import Prelude Digest Byteorder Ntstatus Md4 Md5 Hmac Arcfour Des Iconv Charcnv Unistr Msrpc Ntlmssp NtlmsspSign.
From S2P Require Import Smbencrypt NtlmCheck CliCredentials CredNtlm Auth AuthSam NtlmsspExchange NtlmsspMessages.
Import Arcfour Charcnv Unistr Msrpc Ntlmssp NtlmsspSign Smbencrypt NtlmCheck CliCredentials CredNtlm Auth AuthSam NtlmsspExchange.

#[local] Open Scope outcome_scope.

#[local] Opaque Hmac.HmacMd5.hmac_md5 rfc2104_hmac md_hash Md4.mdfour SMBOWFencrypt Md5.MD5Final Md5.MD5Update arcfour_init.

(** ** The flags of the four messages *)

Ltac flags_as_bits :=
  change NTLMSSP_NEGOTIATE_UNICODE with (2 ^ 0); change NTLMSSP_REQUEST_TARGET with (2 ^ 2);
  change NTLMSSP_NEGOTIATE_SIGN with (2 ^ 4); change NTLMSSP_NEGOTIATE_SEAL with (2 ^ 5);
  change NTLMSSP_NEGOTIATE_LM_KEY with (2 ^ 7); change NTLMSSP_NEGOTIATE_ALWAYS_SIGN with (2 ^ 15);
  change NTLMSSP_TARGET_TYPE_DOMAIN with (2 ^ 16); change NTLMSSP_TARGET_TYPE_SERVER with (2 ^ 17);
  change NTLMSSP_NEGOTIATE_NTLM2 with (2 ^ 19); change NTLMSSP_CHAL_TARGET_INFO with (2 ^ 23);
  change NTLMSSP_UNKNOWN_02000000 with (2 ^ 25); change NTLMSSP_NEGOTIATE_128 with (2 ^ 29);
  change NTLMSSP_NEGOTIATE_KEY_EXCH with (2 ^ 30); change NTLMSSP_NEGOTIATE_56 with (2 ^ 31).

Lemma testbit_add_if b f k i : 0 <= k -> Z.testbit (add_if b (2 ^ k) f) i = (b && (k =? i)) || Z.testbit f i.
Proof. intros Hk. destruct b; [by apply testbit_add_flag|done]. Qed.

Lemma clear_unset f x : flag x f = false -> clear_flag f x = x.
Proof.
  unfold flag, clear_flag. intros E%negb_false_iff%Z.eqb_eq. apply Z.bits_inj'. intros i Hi.
  apply (f_equal (fun z => Z.testbit z i)) in E. rewrite Z.land_spec, Z.bits_0 in E. rewrite Z.ldiff_spec.
  destruct (Z.testbit x i), (Z.testbit f i); done.
Qed.

(** What the challenge adds to the negotiated flags. *)
Definition challenge_bits (server : bool) (n : Z -> bool) (i : Z) : bool :=
  n i || (i =? 2) || (i =? 23) || (i =? 16) || (server && (i =? 17)).

(** The bits on which the flags of the two ends depend from the start. *)
Definition negotiable : list Z := [0; 1; 2; 7; 19; 4; 5; 15; 25; 29; 30; 31].

(** The flags of the server after the authenticate message are the client's: [c0] and
    [s0] are the flags they start with. *)
Lemma flags_settle (c0 s0 : Z -> bool) (server : bool) i :
  c0 0 = true -> c0 2 = true -> (forall k, ~ In k negotiable -> c0 k = s0 k) ->
  let n1 := negotiated s0 c0 false in
  let n2 := negotiated c0 (challenge_bits server n1) false in
  negotiated n1 n2 false i = n2 i.
Proof.
  intros H0 H2 Hrest n1 n2. unfold n2, n1, negotiated, challenge_bits. cbn [existsb].
  destruct (decide (In i negotiable)) as [Hin|Hout].
  - unfold negotiable in Hin. cbn [In] in Hin.
    destruct_or!; subst i; cbn [Z.eqb Pos.eqb orb andb existsb]; rewrite ?H0, ?H2, ?orb_true_r, ?andb_true_r, ?orb_false_r; try done;
      repeat match goal with |- context [c0 ?k] => destruct (c0 k) | |- context [s0 ?k] => destruct (s0 k) end; by destruct server.
  - specialize (Hrest i Hout). unfold negotiable in Hout. cbn [In] in Hout.
    repeat match goal with |- context [i =? ?k] => rewrite (proj2 (Z.eqb_neq i k)) by (intros ->; apply Hout; tauto) end.
    cbn [orb]. done.
Qed.

Lemma bits_u32 x : (forall i, 32 <= i -> Z.testbit x i = false) -> is_u32 x.
Proof.
  intros Hx. apply testbit_is_u; [done| |].
  - apply Z.bits_iff_nonneg_ex. exists 31. intros m Hm. apply Hx. lia.
  - intros i Hi. apply Hx. lia.
Qed.

Lemma u32_bits x i : is_u32 x -> 32 <= i -> Z.testbit x i = false.
Proof. intros. by apply (is_u_testbit 32). Qed.

(** What both ends know of the flags they start from. *)
Record flags_start (fc fs : Z) := {
  fs_unicode : Z.testbit fc 0 = true;
  fs_target : Z.testbit fc 2 = true;
  fs_rest : forall k, ~ In k negotiable -> Z.testbit fc k = Z.testbit fs k;
  fs_client : is_u32 fc;
  fs_server : is_u32 fs
}.

Definition challenge_flags (server : bool) (f : Z) : Z :=
  add_flag NTLMSSP_TARGET_TYPE_DOMAIN
    ((if server then add_flag NTLMSSP_TARGET_TYPE_SERVER else add_flag NTLMSSP_TARGET_TYPE_DOMAIN)
       (add_flag NTLMSSP_REQUEST_TARGET (add_flag NTLMSSP_CHAL_TARGET_INFO f))).

Lemma challenge_flags_bits server f i :
  Z.testbit (challenge_flags server f) i = challenge_bits server (Z.testbit f) i.
Proof.
  unfold challenge_flags, challenge_bits. flags_as_bits. rewrite testbit_add_flag by done.
  rewrite !(Z.eqb_sym i). destruct server; rewrite !testbit_add_flag by done;
    repeat match goal with |- context [?a || _] => is_var a; fail 1 | |- context [?k =? i] => destruct (k =? i) | |- context [Z.testbit f i] => destruct (Z.testbit f i) end; done.
Qed.

Section flags.
Context (c s : gensec_ntlmssp_state) (ac as_ server : bool) (start : flags_start (neg_flags c) (neg_flags s)) (Has : as_ = false).

Definition server1 : gensec_ntlmssp_state := ntlmssp_handle_neg_flags s (neg_flags c) as_.
Definition chal_flags1 : Z := challenge_flags server (neg_flags server1).
Definition client2 : gensec_ntlmssp_state := ntlmssp_handle_neg_flags c chal_flags1 ac.

Lemma server1_bits i : 0 <= i -> Z.testbit (neg_flags server1) i = negotiated (Z.testbit (neg_flags s)) (Z.testbit (neg_flags c)) false i.
Proof. intros Hi. unfold server1. by rewrite handle_neg_flags_bits, Has, andb_false_r by done. Qed.

Lemma client2_bits i : 0 <= i ->
  Z.testbit (neg_flags client2) i =
  negotiated (Z.testbit (neg_flags c)) (challenge_bits server (negotiated (Z.testbit (neg_flags s)) (Z.testbit (neg_flags c)) false)) false i.
Proof.
  intros Hi. unfold client2, chal_flags1. rewrite handle_neg_flags_bits by done.
  assert (forall k, 0 <= k -> Z.testbit (challenge_flags server (neg_flags server1)) k = challenge_bits server (negotiated (Z.testbit (neg_flags s)) (Z.testbit (neg_flags c)) false) k) as Hk.
  { intros k Hk. rewrite challenge_flags_bits. unfold challenge_bits. by rewrite server1_bits. }
  rewrite (Hk 7) by done. replace (challenge_bits _ _ 7) with false by by destruct server. cbn [andb].
  unfold negotiated at 1 3. rewrite !Hk by done. done.
Qed.

Lemma negotiated_0 own theirs lm : negotiated own theirs lm 0 = theirs 0.
Proof. done. Qed.

Lemma negotiated_high own theirs i : 32 <= i -> negotiated own theirs false i = own i.
Proof.
  intros Hi. unfold negotiated. cbn [existsb].
  by repeat match goal with |- context [i =? ?k] => rewrite (proj2 (Z.eqb_neq i k)) by lia end.
Qed.

Lemma server1_u32 : is_u32 (neg_flags server1).
Proof. apply bits_u32. intros i Hi. rewrite server1_bits, negotiated_high by lia. by apply u32_bits; [apply start|]. Qed.

Lemma chal_flags1_u32 : is_u32 chal_flags1.
Proof.
  apply bits_u32. intros i Hi. unfold chal_flags1. rewrite challenge_flags_bits. unfold challenge_bits.
  rewrite u32_bits by (done || apply server1_u32).
  repeat match goal with |- context [i =? ?k] => rewrite (proj2 (Z.eqb_neq i k)) by lia end. by rewrite andb_false_r.
Qed.

Lemma client2_u32 : is_u32 (neg_flags client2).
Proof. apply bits_u32. intros i Hi. rewrite client2_bits, negotiated_high by lia. by apply u32_bits; [apply start|]. Qed.

Lemma chal_bit k : Z.testbit chal_flags1 k = challenge_bits server (Z.testbit (neg_flags server1)) k.
Proof. apply challenge_flags_bits. Qed.

Lemma server1_frame : server1 = State (role s) (expected_state s) true (use_ntlmv2 s) (session_key s) (neg_flags server1) (crypt s).
Proof. unfold server1 at 1. rewrite handle_neg_flags_frame. by rewrite (fs_unicode _ _ start). Qed.

Lemma client2_frame : client2 = State (role c) (expected_state c) true (use_ntlmv2 c) (session_key c) (neg_flags client2) (crypt c).
Proof.
  unfold client2 at 1. rewrite handle_neg_flags_frame. f_equal. rewrite chal_bit. unfold challenge_bits.
  rewrite server1_bits, negotiated_0 by done. by rewrite (fs_unicode _ _ start).
Qed.

Lemma final_low : Z.testbit (neg_flags client2) 0 = true /\ Z.testbit (neg_flags client2) 7 = false.
Proof.
  rewrite !client2_bits by done. split; [|done]. rewrite negotiated_0. unfold challenge_bits.
  rewrite negotiated_0. by rewrite (fs_unicode _ _ start).
Qed.

(** The server takes the client's flags from the authenticate message. *)
Lemma server3_flags s' :
  neg_flags s' = neg_flags server1 -> neg_flags (ntlmssp_handle_neg_flags s' (neg_flags client2) as_) = neg_flags client2.
Proof.
  intros Hs. apply Z.bits_inj'. intros i Hi. rewrite handle_neg_flags_bits, Hs, Has, andb_false_r by done. cbn [andb].
  set (n1 := negotiated (Z.testbit (neg_flags s)) (Z.testbit (neg_flags c)) false).
  set (n2 := negotiated (Z.testbit (neg_flags c)) (challenge_bits server n1) false).
  assert (forall k, 0 <= k -> Z.testbit (neg_flags client2) k = n2 k) as H2 by (intros; by apply client2_bits).
  rewrite (negotiated_ext _ n1) by (done || intros; by apply server1_bits).
  transitivity (negotiated n1 n2 false i); [unfold negotiated at 1 2; by rewrite !H2 by done|]. rewrite H2 by done.
  apply (flags_settle _ _ server i (fs_unicode _ _ start) (fs_target _ _ start) (fs_rest _ _ start)).
Qed.
End flags.

(** ** The two starts *)

Lemma outside_u32 f : (forall k, ~ In k negotiable -> Z.testbit f k = (9 =? k)) -> is_u32 f.
Proof.
  intros Hf. apply bits_u32. intros i Hi. rewrite Hf; [by apply Z.eqb_neq; lia|].
  unfold negotiable. cbn [In]. intros Hin. destruct_or!; lia.
Qed.

(** Outside the negotiable bits a flag that may be added changes nothing. *)
Lemma add_if_outside b k f i : In k negotiable -> ~ In i negotiable -> Z.testbit (add_if b (2 ^ k) f) i = Z.testbit f i.
Proof.
  intros Hk Hi. assert (0 <= k) by (unfold negotiable in Hk; cbn [In] in Hk; destruct_or!; lia).
  rewrite testbit_add_if by done. rewrite (proj2 (Z.eqb_neq k i)) by (intros ->; done). by rewrite andb_false_r.
Qed.

Lemma add_flag_outside k f i : In k negotiable -> ~ In i negotiable -> Z.testbit (add_flag (2 ^ k) f) i = Z.testbit f i.
Proof. apply (add_if_outside true). Qed.

Lemma base_outside k i : In k negotiable -> ~ In i negotiable -> Z.testbit (Z.lor NTLMSSP_NEGOTIATE_NTLM (2 ^ k)) i = (9 =? i).
Proof.
  intros Hk Hi. change (Z.lor NTLMSSP_NEGOTIATE_NTLM (2 ^ k)) with (add_flag (2 ^ k) NTLMSSP_NEGOTIATE_NTLM).
  rewrite add_flag_outside by done. change NTLMSSP_NEGOTIATE_NTLM with (2 ^ 9). by apply Z.pow2_bits_eqb.
Qed.

Ltac is_negotiable := unfold negotiable; cbn [In]; tauto.

Section starts.
Context `{LoadParm} `{AuthPolicy}.

Lemma client_start_ok wf st :
  gensec_ntlmssp_client_start wf true = inr st -> lp_parm_bool "ntlmssp_client" "unicode" true = true ->
  exists v2 f, core st = State NTLMSSP_CLIENT NTLMSSP_INITIAL true v2 None f CryptZero /\
    Z.testbit f 2 = true /\ (forall k, ~ In k negotiable -> Z.testbit f k = (9 =? k)) /\
    use_ntlmv2 (core st) = v2 /\ auth st = no_auth /\ chals st = no_chals.
Proof.
  unfold gensec_ntlmssp_client_start. cbn [negb]. intros [= <-] Hu. cbn [core auth chals]. rewrite Hu.
  do 2 eexists. split_and!; [reflexivity| | |reflexivity..].
  - flags_as_bits. rewrite !testbit_add_if by done. cbn [Z.eqb Pos.eqb]. by rewrite !andb_false_r.
  - intros k Hk. flags_as_bits. rewrite !add_if_outside by (done || is_negotiable). by apply base_outside; [is_negotiable|].
Qed.

Lemma server_start_ok wf (A : Allocator) backends names st :
  malloc_always A -> gensec_ntlmssp_server_start wf A backends names = inr st ->
  exists f ctx, core st = State NTLMSSP_SERVER NTLMSSP_NEGOTIATE false false None f CryptZero /\
    (forall k, ~ In k negotiable -> Z.testbit f k = (9 =? k)) /\
    allow_lm_key st = lp_lanman_auth && lp_parm_bool "ntlmssp_server" "allow_lm_key" false /\
    server_multiple_authentications st = false /\ auth st = no_auth /\ chals st = no_chals /\
    context st = Some ctx /\ auth_context_create backends (later 1 A) names = inr ctx.
Proof.
  intros mem. unfold gensec_ntlmssp_server_start. rewrite mem. cbn [negb].
  destruct (auth_context_create backends (later 1 A) names) as [e|ctx] eqn:Ec; [done|]. intros [= <-].
  do 2 eexists. split_and!; [reflexivity| |reflexivity..|reflexivity]. intros k Hk. flags_as_bits. rewrite !add_if_outside by (done || is_negotiable). by apply base_outside; [is_negotiable|].
Qed.
End starts.

(** ** The handlers, one by one *)

Section steps.
Context `{Host} `{Charsets} `{CaseTables} `{LoadParm} `{AuthPolicy} (unix8 : unix_is_utf8) (dos7 : dos_is_ascii).
Context (run : nat -> cli_credentials -> outcome (cli_credentials * cstr)).
Context (set_machine_account : cli_credentials -> outcome cli_credentials).
Context (gethostname : option (list Z)).

Definition update := gensec_ntlmssp_update run set_machine_account gethostname.

(** *** The negotiate message *)

Definition initial_flags (v2 : bool) (f : Z) : Z :=
  if v2 then add_flag NTLMSSP_NEGOTIATE_NTLM2 (add_flag NTLMSSP_NEGOTIATE_UNICODE f) else add_flag NTLMSSP_NEGOTIATE_UNICODE f.

Lemma client_initial_ok e wf st cr v2 f user domain password ws :
  malloc_always (memory e) -> core st = State NTLMSSP_CLIENT NTLMSSP_INITIAL true v2 None f CryptZero ->
  logon_ready cr user domain password ws -> text_ok ws PSTRING_LEN -> text_ok lp_workgroup PSTRING_LEN ->
  exists xs,
    update e wf (Endpoint st cr) [] =
      Ret (Endpoint (put_core (State NTLMSSP_CLIENT NTLMSSP_CHALLENGE true v2 None (initial_flags v2 f) CryptZero) st) cr,
           NT_STATUS_MORE_PROCESSING_REQUIRED, message xs) /\
    Forall item_ok xs /\ map fst xs = [GC NTLMSSP; Gd NTLMSSP_NEGOTIATE; Gd (initial_flags v2 f); GA lp_workgroup; GA ws].
Proof.
  intros mem Hc Hr Hws Hwg.
  destruct (gen_message unix8 dos7 (memory e) [GC NTLMSSP; Gd NTLMSSP_NEGOTIATE; Gd (initial_flags v2 f); GA lp_workgroup; GA ws])
    as (xs & Ex & Hm & Hok); [done|args_ok|].
  exists xs. split_and!; [|done|done]. unfold update, gensec_ntlmssp_update, gensec_ntlmssp_update_find. cbn [state].
  rewrite Hc. cbn [expected_state Z.eqb negb message_command role obind]. 
  unfold NtlmsspExchange.ntlmssp_client_initial. cbn [state credentials]. rewrite Hc. cbn [unicode update_flags].
  rewrite (workstation_ready run cr user domain password ws Hr).
  destruct v2; cbn [update_flags set_flags neg_flags use_ntlmv2 obind arg]; unfold initial_flags in Ex; by rewrite Ex.
Qed.
(** *** The challenge message *)

Context (host_ascii : forall h, gethostname = Some h -> Forall ascii_char h).
Context (workgroup_ok : text_ok lp_workgroup PSTRING_LEN) (netbios_ok : text_ok lp_netbios_name PSTRING_LEN).

Lemma text_unicode s : text_ok s PSTRING_LEN -> arg_ok (GU s).
Proof. intros (Ha & Hz & Hl). exists s. by rewrite utf8s_ascii by done; split_and!; [|apply ascii_scalars| |]. Qed.

Lemma ascii_typed (l : list (Z * list Z)) :
  Forall (fun x => Forall ascii_char x.2) l -> map (fun x => Ga x.1 x.2) l = map (fun x => Ga x.1 (utf8s x.2)) l /\
  Forall (fun x => Forall scalar x.2) l /\ length (message (typed l)) = list_sum (map (fun x => 4 + 2 * length x.2)%nat l).
Proof.
  intros Hl. split_and!.
  - apply map_ext_Forall. refine (List.Forall_impl _ _ Hl). intros x Hx. by rewrite utf8s_ascii.
  - refine (List.Forall_impl _ _ Hl). intros x. apply ascii_scalars.
  - rewrite typed_length. f_equal. apply map_ext_Forall. refine (List.Forall_impl _ _ Hl). intros x Hx. by rewrite length_utf16s_ascii.
Qed.

Lemma names_of_target_ok (A : Allocator) target f :
  malloc_always A -> text_ok target PSTRING_LEN -> flag f NTLMSSP_CHAL_TARGET_INFO = true ->
  exists names, names_of_target gethostname A target f = Ret (add_flag NTLMSSP_TARGET_TYPE_DOMAIN f, names) /\
    names <> [] /\ bytes names /\ (Z.of_nat (length names) < 10000).
Proof.
  intros mem (Ht & _ & Htl) Hf. destruct netbios_ok as (Hn & _ & Hnl).
  destruct (host_names unix8 gethostname host_ascii) as [[Hd Hdl] [Hfn Hfl]].
  destruct (ascii_lower (get_mydomname gethostname) Hd) as [El Hlow].
  set (l := [(NTLMSSP_NAME_TYPE_DOMAIN, target); (NTLMSSP_NAME_TYPE_SERVER, lp_netbios_name);
             (NTLMSSP_NAME_TYPE_DOMAIN_DNS, map tolower (get_mydomname gethostname));
             (NTLMSSP_NAME_TYPE_SERVER_DNS, get_myfullname gethostname); (0, [])]).
  destruct (ascii_typed l) as (Em & Hs & Hlen); [by repeat constructor|].
  exists (message (typed l)). split_and!.
  - unfold names_of_target. rewrite El. cbn [obind]. rewrite Hf.
    change [Ga _ target; _; _; _; _] with (map (fun x : Z * list Z => Ga x.1 x.2) l). by rewrite Em, typed_message.
  - intros E. rewrite E in Hlen. cbn [l map list_sum fold_right length] in Hlen. lia.
  - by apply typed_bytes.
  - rewrite Hlen. unfold l. cbn [map list_sum fold_right length snd]. rewrite length_map. unfold PSTRING_LEN in *. lia.
Qed.
(** A context with no challenge, whose methods have none. *)
Definition challenge_free (ctx : auth_context) : Prop :=
  chal ctx = Challenge None false [] /\ Forall (fun m => get_challenge m = auth_get_challenge_not_implemented) (methods ctx).

Lemma challenge_free_random (A : Allocator) rnd ctx :
  malloc_always A -> challenge_free ctx ->
  auth_get_challenge A rnd ctx = (Context (Challenge (Some "random"%string) true rnd) (methods ctx), inr rnd).
Proof.
  intros mem [Hc Hm]. unfold auth_get_challenge. rewrite Hc. cbn [data length]. rewrite decide_False by lia.
  assert (method_challenge (methods ctx) = inr None) as ->.
  { induction Hm as [|m ms Hx _ IH]; [done|]. cbn [method_challenge]. by rewrite Hx. }
  rewrite Hc. cbn [set_by]. by rewrite mem.
Qed.

(** The name of the target, for the role of the server. *)
Definition standalone : bool := match lp_server_role with ROLE_STANDALONE => true | _ => false end.
Definition target : list Z := if standalone then lp_netbios_name else lp_workgroup.

Lemma target_ok : text_ok target PSTRING_LEN.
Proof. unfold target. by destruct standalone. Qed.

Lemma target_name_ok neg f :
  flag neg NTLMSSP_REQUEST_TARGET = true ->
  ntlmssp_target_name neg f =
    (target, (if standalone then add_flag NTLMSSP_TARGET_TYPE_SERVER else add_flag NTLMSSP_TARGET_TYPE_DOMAIN)
               (add_flag NTLMSSP_REQUEST_TARGET (add_flag NTLMSSP_CHAL_TARGET_INFO f))).
Proof. intros Hn. unfold ntlmssp_target_name, target, standalone. rewrite Hn. by destruct lp_server_role. Qed.

Lemma server_negotiate_ok e wf st cr cc xs rest ctx fs :
  malloc_always (memory e) -> length (random_challenge e) = 8%nat ->
  core st = State NTLMSSP_SERVER NTLMSSP_NEGOTIATE false false None fs CryptZero -> allow_lm_key st = false ->
  context st = Some ctx -> challenge_free ctx -> chals st = no_chals -> flags_start (neg_flags cc) fs ->
  Forall item_ok xs -> map fst xs = [GC NTLMSSP; Gd NTLMSSP_NEGOTIATE; Gd (neg_flags cc)] ++ rest -> (length xs <= 20)%nat ->
  exists st' ys names,
    update e wf (Endpoint st cr) (message xs) = Ret (Endpoint st' cr, NT_STATUS_MORE_PROCESSING_REQUIRED, message ys) /\
    core st' = set_expected NTLMSSP_AUTH (server1 cc (core st) false) /\
    allow_lm_key st' = false /\ server_multiple_authentications st' = server_multiple_authentications st /\
    context st' = Some (Context (Challenge (Some "random"%string) true (random_challenge e)) (methods ctx)) /\
    chals st' = ChalData (Data (random_challenge e)) (Data (random_challenge e)) false (replicate 16 0) /\
    names <> [] /\ bytes names /\ Z.of_nat (length names) < 10000 /\ Forall item_ok ys /\
    map fst ys = [GC NTLMSSP; Gd NTLMSSP_CHALLENGE; GU target; Gd (chal_flags1 cc (core st) false standalone); Gb (random_challenge e);
                  Gd 0; Gd 0; GB names].
Proof.
  intros mem Hl Hc Hlm Hctx Hcf Hch Hst Hok Hm Hlen.
  assert (flags_start (neg_flags cc) (neg_flags (core st))) as Hst' by by rewrite Hc.
  set (s1 := server1 cc (core st) false). set (f := chal_flags1 cc (core st) false standalone).
  destruct (names_of_target_ok (later 30 (memory e)) target
    ((if standalone then add_flag NTLMSSP_TARGET_TYPE_SERVER else add_flag NTLMSSP_TARGET_TYPE_DOMAIN)
       (add_flag NTLMSSP_REQUEST_TARGET (add_flag NTLMSSP_CHAL_TARGET_INFO (neg_flags s1)))))
    as (names & En & Hnn & Hnb & Hnl); [by apply later_always|apply target_ok| |].
  { match goal with |- flag ?f _ = _ => change (flag f (2 ^ 23) = true) end. rewrite flag_testbit by done. flags_as_bits.
    destruct standalone; rewrite !testbit_add_flag by done; by rewrite !orb_true_r. }
  destruct (gen_message unix8 dos7 (later 40 (memory e))
    [GC NTLMSSP; Gd NTLMSSP_CHALLENGE; GU target; Gd f; Gb (random_challenge e); Gd 0; Gd 0; GB names])
    as (ys & Ey & Hmy & Hoky); [by apply later_always| |].
  { assert (arg_ok (GU target)) by apply text_unicode, target_ok.
    assert (arg_ok (Gb (random_challenge e))) by (cbn [arg_ok]; lia).
    assert (arg_ok (GB names)) by (cbn [arg_ok]; lia). args_ok. }
  eexists _, ys, names. split; [|split_and!].
  - unfold update, gensec_ntlmssp_update. cbn [state].
    assert (gensec_ntlmssp_update_find (core st) wf (message xs) = Ret (inr Ntlmssp.ntlmssp_server_negotiate)) as ->.
    { apply (message_handler unix8 dos7 (memory e) (core st) wf xs (Gd (neg_flags cc) :: rest)); [exact Hok| | | |]; rewrite Hc;
        [exact Hm|by_eval|by_eval|right; by left]. }
    cbn [obind]. unfold NtlmsspExchange.ntlmssp_server_negotiate.
    assert (16 <= length (message xs))%nat as Hl16 by exact (message_words xs _ _ rest Hok Hm).
    rewrite decide_False by lia. rewrite decide_False by lia.
    change [PC NTLMSSP; Pd; Pd] with (map fmt_of [GC NTLMSSP; Gd NTLMSSP_NEGOTIATE; Gd (neg_flags cc)]).
    rewrite (parse_own unix8 dos7 (memory e) xs _ rest) by done. cbn [obind omap list_omap val_of].
    rewrite (u32_id (neg_flags cc)) by apply Hst. cbn [state credentials]. rewrite Hlm.
    change (ntlmssp_handle_neg_flags (core st) (neg_flags cc) false) with s1.
    unfold auth_ntlmssp_get_challenge. cbn [put_core context]. rewrite Hctx.
    rewrite challenge_free_random by (done || by apply later_always). cbn [obind].
    set (st1 := put_context _ _). change (auth_ntlmssp_may_set_challenge st1) with true. cbv iota.
    change (core st1) with s1. rewrite target_name_ok by (change NTLMSSP_REQUEST_TARGET with (2 ^ 2); rewrite flag_testbit by done; apply Hst).
    assert (match random_challenge e with [] => None | _ :: _ => Some (random_challenge e) end = Some (random_challenge e)) as ->
      by by destruct (random_challenge e).
    cbv iota beta. rewrite !mem, (take_ge (random_challenge e)) by lia. rewrite En. cbn [obind].
    cbn [core put_chals]. change (core st1) with s1.
    assert (unicode s1 = true) as -> by (unfold s1; by rewrite (server1_frame cc (core st) false Hst')).
    change (Gd (add_flag NTLMSSP_TARGET_TYPE_DOMAIN _)) with (Gd f). rewrite Ey. cbn [obind default]. subst st1. reflexivity.
  - reflexivity.
  - exact Hlm.
  - reflexivity.
  - reflexivity.
  - cbn [chals put_core put_chals put_context]. by rewrite Hch.
  - exact Hnn.
  - exact Hnb.
  - exact Hnl.
  - exact Hoky.
  - exact Hmy.
Qed.
(** *** The key exchange *)

Lemma rc4_16_ok data k :
  length k = 16%nat -> exists enc, rc4_16 data (Some k) = Ret enc /\ length enc = length data /\ rc4_16 enc (Some k) = Ret data.
Proof.
  intros Hk. unfold rc4_16. rewrite decide_False by lia. unfold arcfour_crypt. rewrite take_ge by lia.
  destruct (arcfour_crypt_blob data k) as [enc|] eqn:E.
  - exists enc. split_and!; [done|exact (arcfour_crypt_blob_length _ _ _ E)|].
    by rewrite decide_False, (arcfour_crypt_blob_involutive _ _ _ E) by lia.
  - unfold arcfour_crypt_blob in E. destruct (arcfour_init_ok k) as (s & Es & _); [lia|]. by rewrite Es in E.
Qed.

(** The key of the session: the client's random key, if keys are exchanged. *)
Definition final_key (e : call_env) (flags : Z) (k : list Z) : list Z := if flag flags NTLMSSP_NEGOTIATE_KEY_EXCH then random_key e else k.

(** The client sends it encrypted. *)
Definition carries (e : call_env) (flags : Z) (k enc : list Z) : Prop :=
  if flag flags NTLMSSP_NEGOTIATE_KEY_EXCH then length enc = 16%nat /\ rc4_16 enc (Some k) = Ret (random_key e) else enc = [].

Lemma client_key_exchange_ok e (A : Allocator) flags k :
  malloc_always A -> length k = 16%nat -> length (random_key e) = 16%nat ->
  exists enc, client_key_exchange e A flags (Some k) = Ret (Some (final_key e flags k), enc) /\ carries e flags k enc.
Proof.
  intros mem Hk Hr. unfold client_key_exchange, final_key, carries. destruct (flag flags _); [|by eexists].
  rewrite !mem. destruct (rc4_16_ok (random_key e) k Hk) as (enc & -> & Hl & Hd). exists enc. by rewrite Hl.
Qed.

Lemma server_key_exchange_ok e (A : Allocator) s k enc :
  malloc_always A -> length k = 16%nat -> carries e (neg_flags (core s)) k enc -> encrypted_session_key (auth s) = to_blob enc ->
  server_key_exchange A s (Data k) = Ret (inr (Some (final_key e (neg_flags (core s)) k))).
Proof.
  intros mem Hk Hc He. unfold server_key_exchange, final_key, carries in *. cbn [blob_option obind].
  destruct (flag _ _); [|done]. destruct Hc as [Hl Hd]. rewrite He. destruct enc as [|b enc]; [done|]. cbn [to_blob blob_data obind].
  rewrite Hl, Hk. cbn [Nat.eqb negb]. rewrite Hd. cbn [obind]. by rewrite mem.
Qed.

Lemma update_flags_id f c : f (neg_flags c) = neg_flags c -> update_flags f c = c.
Proof. intros Hf. unfold update_flags. rewrite Hf. by destruct c. Qed.
(** *** The authenticate message *)

(** The state of the client when it answers the challenge. *)
Definition answering (st : ntlmssp_state) (ss : gensec_ntlmssp_state) : ntlmssp_state :=
  put_server_domain target (put_core (client2 (core st) ss (allow_lm_key st) false standalone) st).

(** What the handler needs of a response. *)
Record response_ok (flags : Z) (r : ntlm_response) (k : list Z) := {
  ro_flags : flag (r_flags r) CLI_CRED_NTLM2 = flag flags NTLMSSP_NEGOTIATE_NTLM2;
  ro_key : r_key r = Some k;
  ro_length : length k = 16%nat;
  ro_lm : Z.of_nat (length (r_lm r)) < 65536;
  ro_nt : Z.of_nat (length (r_nt r)) < 65536
}.

(** The end that has a session key [key]: with signing or sealing it is initialised. *)
Definition settled_end (A : Allocator) (wf : Z) (base c : gensec_ntlmssp_state) : Prop :=
  if wants wf GENSEC_FEATURE_SIGN || wants wf GENSEC_FEATURE_SEAL then ntlmssp_sign_init A base = Ret (NT_STATUS_OK, c) else c = base.

Definition finished (flags : Z) (key : list Z) (c : gensec_ntlmssp_state) : gensec_ntlmssp_state :=
  State (role c) NTLMSSP_DONE (unicode c) (use_ntlmv2 c) (Some key) flags (crypt c).

Lemma settled_ok (A : Allocator) wf flags key c :
  malloc_always A -> length key = 16%nat ->
  exists c', settled_end A wf (finished flags key c) c' /\ expected_state c' = NTLMSSP_DONE /\ neg_flags c' = flags /\ session_key c' = Some key.
Proof.
  intros mem Hk. unfold settled_end. destruct (_ || _); [|by eexists].
  destruct (sign_init_ok mem (finished flags key c)) as (cr & E & _); [cbn; lia|]. exists (set_crypt cr (finished flags key c)). done.
Qed.

Lemma low_flags c ss ac : flags_start (neg_flags c) (neg_flags ss) ->
  flag (neg_flags (client2 c ss ac false standalone)) NTLMSSP_NEGOTIATE_LM_KEY = false.
Proof.
  intros Hst. change NTLMSSP_NEGOTIATE_LM_KEY with (2 ^ 7). rewrite flag_testbit by done.
  by destruct (final_low c ss ac false standalone Hst eq_refl).
Qed.

Lemma client_auth_ok e wf st cr ss names r k user domain password ws chal :
  malloc_always (memory e) -> length chal = 8%nat -> length (random_key e) = 16%nat ->
  flags_start (neg_flags (core st)) (neg_flags ss) -> role (core st) = NTLMSSP_CLIENT ->
  logon_ready cr user domain password ws -> arg_ok (GU (utf8s user)) -> arg_ok (GU (utf8s domain)) -> arg_ok (GU ws) ->
  let st2 := answering st ss in
  let flags := neg_flags (core st2) in
  cli_credentials_get_ntlm_response (later 30 (memory e)) run set_machine_account (random e) (cred_flags st2) chal names cr = Ret (cr, inr r) ->
  response_ok flags r k ->
  exists st' zs enc,
    client_auth run set_machine_account e (memory e) wf
      (Endpoint (put_core (client2 (core st) ss (allow_lm_key st) false standalone) st) cr) target chal names
      = Ret (Endpoint st' cr, NT_STATUS_OK, message zs) /\
    Forall item_ok zs /\
    map fst zs = [GC NTLMSSP; Gd NTLMSSP_AUTH; GB (r_lm r); GB (r_nt r); GU (utf8s domain); GU (utf8s user); GU ws; GB enc; Gd flags] /\
    carries e flags k enc /\ settled_end (later 400 (memory e)) wf (finished flags (final_key e flags k) (core st2)) (core st').
Proof.
  intros mem Hch Hrk Hst Hrole Hr Hgu Hgd Hgw st2 flags Hresp [Hrf Hrkey Hk Hlm Hnt].
  destruct (client_key_exchange_ok e (later 210 (memory e)) flags k) as (enc & Ex & Hcar); [by apply later_always|done..|].
  assert (length (final_key e flags k) = 16%nat) as Hfk by (unfold final_key; destruct (flag flags NTLMSSP_NEGOTIATE_KEY_EXCH); [exact Hrk|exact Hk]).
  destruct (settled_ok (later 400 (memory e)) wf flags (final_key e flags k) (core st2)) as (c' & Hc' & _); [by apply later_always|done|].
  assert (arg_ok (GB enc)) by (cbn [arg_ok]; unfold carries in Hcar; destruct (flag flags NTLMSSP_NEGOTIATE_KEY_EXCH); [destruct Hcar as [-> _]|subst enc]; done).
  assert (arg_ok (GB (r_lm r))) by exact Hlm. assert (arg_ok (GB (r_nt r))) by exact Hnt.
  destruct (gen_message unix8 dos7 (later 220 (memory e))
    [GC NTLMSSP; Gd NTLMSSP_AUTH; GB (r_lm r); GB (r_nt r); GU (utf8s domain); GU (utf8s user); GU ws; GB enc; Gd flags])
    as (zs & Ez & Hm & Hok); [by apply later_always|args_ok|].
  assert (unicode (core st2) = true) as Hu by (unfold st2, answering; cbn [core put_server_domain put_core]; by rewrite (client2_frame _ _ _ _ _ Hst eq_refl)).
  assert ((if flag (r_flags r) CLI_CRED_NTLM2 then core st2 else update_flags (clear_flag NTLMSSP_NEGOTIATE_NTLM2) (core st2)) = core st2) as Ec.
  { rewrite Hrf. destruct (flag flags NTLMSSP_NEGOTIATE_NTLM2) eqn:Hn; [done|]. apply update_flags_id. by apply clear_unset. }
  assert (flag flags NTLMSSP_NEGOTIATE_LM_KEY = false) as Hlk by by apply low_flags.
  unfold client_auth. cbn [state credentials]. change (put_server_domain target (put_core _ st)) with st2.
  rewrite Hch. cbn [Nat.eqb negb]. 
  rewrite (names_ready run set_machine_account cr user domain password ws Hr). cbn [obind].
  rewrite Hresp. cbn [obind]. rewrite Ec. fold flags.
  assert (client_lm_key (later 200 (memory e)) flags r = Ret (Some k)) as ->.
  { unfold client_lm_key. rewrite Hlk, Hrkey. cbn [andb]. by destruct (r_lm_key r). }
  cbn [obind]. rewrite Ex. cbn [obind]. rewrite (workstation_ready run cr user domain password ws Hr). cbn [obind arg].
  rewrite Hu. rewrite Ez. cbn [obind].
  unfold settled_end in Hc'. change (set_expected NTLMSSP_DONE (put_key (Some (final_key e flags k)) (core st2))) with (finished flags (final_key e flags k) (core st2)).
  destruct (wants wf GENSEC_FEATURE_SIGN || wants wf GENSEC_FEATURE_SEAL) eqn:Hw.
  - rewrite Hc'. cbn [obind]. do 3 eexists. split_and!; [reflexivity|done|done|done|]. unfold settled_end. by rewrite Hw.
  - do 3 eexists. split_and!; [reflexivity|done|done|done|]. unfold settled_end. by rewrite Hw.
Qed.
Lemma client_challenge_ok e wf st cr ss ys names r k user domain password ws chal :
  malloc_always (memory e) -> length chal = 8%nat -> length (random_key e) = 16%nat ->
  flags_start (neg_flags (core st)) (neg_flags ss) -> role (core st) = NTLMSSP_CLIENT -> expected_state (core st) = NTLMSSP_CHALLENGE ->
  logon_ready cr user domain password ws -> arg_ok (GU (utf8s user)) -> arg_ok (GU (utf8s domain)) -> arg_ok (GU ws) ->
  Forall item_ok ys ->
  map fst ys = [GC NTLMSSP; Gd NTLMSSP_CHALLENGE; GU target; Gd (chal_flags1 (core st) ss false standalone); Gb chal; Gd 0; Gd 0; GB names] ->
  let st2 := answering st ss in
  let flags := neg_flags (core st2) in
  cli_credentials_get_ntlm_response (later 30 (memory e)) run set_machine_account (random e) (cred_flags st2) chal names cr = Ret (cr, inr r) ->
  response_ok flags r k ->
  exists st' zs enc,
    update e wf (Endpoint st cr) (message ys) = Ret (Endpoint st' cr, NT_STATUS_OK, message zs) /\
    Forall item_ok zs /\
    map fst zs = [GC NTLMSSP; Gd NTLMSSP_AUTH; GB (r_lm r); GB (r_nt r); GU (utf8s domain); GU (utf8s user); GU ws; GB enc; Gd flags] /\
    carries e flags k enc /\ settled_end (later 400 (memory e)) wf (finished flags (final_key e flags k) (core st2)) (core st').
Proof.
  intros mem Hch Hrk Hst Hrole Hexp Hr Hgu Hgd Hgw Hok Hm st2 flags Hresp Hro.
  destruct (client_auth_ok e wf st cr ss names r k user domain password ws chal mem Hch Hrk Hst Hrole Hr Hgu Hgd Hgw Hresp Hro)
    as (st' & zs & enc & Ea & Hzs & Hmz & Hcar & Hend).
  exists st', zs, enc. split_and!; [|done..]. 
  set (f := chal_flags1 (core st) ss false standalone) in *.
  assert (length ys <= 20)%nat as Hl20 by (rewrite <- (length_map fst), Hm; simpl; lia).
  assert (is_u32 f) as Hf by by apply chal_flags1_u32.
  unfold update, gensec_ntlmssp_update. cbn [state].
  assert (gensec_ntlmssp_update_find (core st) wf (message ys) = Ret (inr Ntlmssp.ntlmssp_client_challenge)) as ->.
  { eapply (message_handler unix8 dos7 (memory e)); [exact Hok|rewrite Hexp; exact Hm|rewrite Hexp; by_eval|rewrite Hexp; by_eval|].
    rewrite Hexp, Hrole. right. right. by left. }
  cbn [obind]. unfold NtlmsspExchange.ntlmssp_client_challenge. rewrite mem. cbn [negb].
  destruct (parse_blob unix8 dos7 (later 1 (memory e)) ys [GC NTLMSSP; Gd NTLMSSP_CHALLENGE] target [Gd f] [Gb chal; Gd 0; Gd 0; GB names])
    as (b & Eb); [by apply later_always|done|exact Hm|done|].
  change [PC NTLMSSP; Pd; PB; Pd] with (map fmt_of [GC NTLMSSP; Gd NTLMSSP_CHALLENGE] ++ PB :: map fmt_of [Gd f]).
  rewrite Eb. cbn [obind omap list_omap val_of app state]. rewrite (u32_id f) by done.
  change (ntlmssp_handle_neg_flags (core st) f (allow_lm_key st)) with (client2 (core st) ss (allow_lm_key st) false standalone).
  cbn [core put_core]. rewrite (client2_frame (core st) ss (allow_lm_key st) false standalone Hst eq_refl) at 1. cbn [unicode].
  assert (flag f NTLMSSP_CHAL_TARGET_INFO = true) as ->.
  { change NTLMSSP_CHAL_TARGET_INFO with (2 ^ 23). rewrite flag_testbit by done. unfold f. rewrite chal_bit by done.
    unfold challenge_bits. cbn. by rewrite !orb_true_r. }
  pose proof (parse_own unix8 dos7 (later 2 (memory e)) ys [GC NTLMSSP; Gd NTLMSSP_CHALLENGE; GU target; Gd f; Gb chal; Gd 0; Gd 0; GB names] []
    (later_always 2 _ mem) Hok Hm Hl20) as P.
  cbn [map fmt_of omap list_omap val_of] in P. rewrite Hch in P.
  change (challenge_format true true) with [PC NTLMSSP; Pd; PU; Pd; Pb (Z.of_nat 8); Pd; Pd; PB]. rewrite P.
  cbn [obind target_info_of credentials]. exact Ea.
Qed.
(** *** The verdict of the server *)

Lemma blob_data_to_blob b : blob_data (to_blob b) = Ret b.
Proof. by destruct b. Qed.

Lemma blob_length_to_blob b : blob_length (to_blob b) = length b.
Proof. by destruct b. Qed.

(** The user's data as the methods see it. *)
Definition logon (user domain ws lm nt : list Z) : auth_usersupplied_info :=
  UserInfo (Some ws) (Z.lor MSV1_0_ALLOW_SERVER_TRUST_ACCOUNT MSV1_0_ALLOW_WORKSTATION_TRUST_ACCOUNT) true
    (Some user) (Some domain) (Some user) (Some domain) AUTH_PASSWORD_RESPONSE (Response lm nt) 0.

(** The method that wants the logon accepts the responses to a challenge, with a user
    session key. *)
Definition accepts (ms : list auth_operations) (chal : list Z) (u : auth_usersupplied_info) (key : list Z) : Prop :=
  exists m, find_method ms u = inr m /\
  forall (A : Allocator) who may, malloc_always A ->
    exists lm_key, check_password m A (Challenge who may chal) u = Ret (NT_STATUS_OK, Some (ServerInfo key lm_key)).

(** Under NTLM2 the responses answer both challenges. *)
Definition ntlm2_used (flags : Z) (lm nt : list Z) : bool :=
  flag flags NTLMSSP_NEGOTIATE_NTLM2 && (length nt =? 24)%nat && (length lm =? 24)%nat.
Definition server_nonce (chal lm : list Z) : list Z := chal ++ take 8 lm.
Definition nonce_hash (nonce : list Z) : list Z := take 8 (fst (Md5.MD5Final (Md5.MD5Update Md5.MD5Init nonce))).

(** What the server must find for the key [k] of the client. *)
Definition verified (ms : list auth_operations) (flags : Z) (chal user domain ws lm nt k : list Z) : Prop :=
  if ntlm2_used flags lm nt then
    exists uk, length uk = 16%nat /\ k = HmacMd5.hmac_md5 uk (server_nonce chal lm) /\
      accepts ms (nonce_hash (server_nonce chal lm)) (logon user domain ws [] nt) uk
  else length k = 16%nat /\ accepts ms chal (logon user domain ws lm nt) k.

Lemma check_password_ok (A : Allocator) rnd s user domain ws lm nt key ch ms :
  malloc_always A -> domain <> [] -> key <> [] -> data ch <> [] ->
  NtlmsspExchange.user (auth s) = Some user -> NtlmsspExchange.domain (auth s) = Some domain -> workstation (auth s) = Some ws ->
  lm_resp (auth s) = to_blob lm -> nt_resp (auth s) = to_blob nt -> context s = Some (Context ch ms) ->
  accepts ms (data ch) (logon user domain ws lm nt) key ->
  exists lm_key, auth_ntlmssp_check_password A rnd s =
    Ret (put_auth (AuthData (Some user) (Some domain) (Some ws) (freed (to_blob lm)) (freed (to_blob nt)) (encrypted_session_key (auth s)))
           (put_context (Context ch ms) s), NT_STATUS_OK, Data key, lm_key).
Proof.
  intros mem Hd Hk Hc Hu Hdom Hws Hlm Hnt Hctx (m & Hm & Hacc).
  pose proof (later_always 1 A mem) as mem1. pose proof (later_always 2 _ mem1) as mem2.
  unfold auth_ntlmssp_check_password. rewrite mem. cbn [negb]. rewrite Hlm, Hnt, !blob_data_to_blob. cbn [obind].
  rewrite Hctx, Hu, Hdom, Hws. unfold auth_check_password. rewrite !mem1. cbn [negb orb mapped_state].
  unfold map_user_info. cbn [client_account_name client_domain_name]. rewrite !mem2. cbn [negb andb].
  assert (nonempty (Some domain) = true) as -> by by destruct domain. cbn [default from_option id obind].
  change (set_mapped true (Some user) (Some domain) _) with (logon user domain ws lm nt).
  destruct ch as [who may c]. cbn [data] in *.
  unfold auth_get_challenge. cbn [chal data]. rewrite decide_True by (destruct c; [done|simpl; lia]).
  cbn [methods]. rewrite Hm. cbn [chal negb]. destruct (Hacc (later 10 (later 1 A)) who may) as [lm_key ->]; [by apply later_always|].
  cbn [obind fst snd]. change (NT_STATUS_IS_OK NT_STATUS_OK) with true. cbn [negb user_session_key lm_session_key].
  rewrite (bool_decide_eq_false_2 (key = [])) by done. rewrite !mem. cbn [negb andb]. rewrite andb_false_r.
  assert (to_blob key = Data key) as -> by by destruct key. by eexists.
Qed.
(** The server when it expects the authenticate message. *)
Record expecting (s : ntlmssp_state) (f : Z) (chal : list Z) (who : option string) (may : bool) (ms : list auth_operations) := {
  ex_core : core s = State NTLMSSP_SERVER NTLMSSP_AUTH true false None f CryptZero;
  ex_lm : allow_lm_key s = false;
  ex_once : server_multiple_authentications s = false;
  ex_chals : chals s = ChalData (Data chal) (Data chal) false (replicate 16 0);
  ex_context : context s = Some (Context (Challenge who may chal) ms);
  ex_chal : length chal = 8%nat
}.

(** The flags of the client settle those of the server. *)
Record settles (f flags : Z) := {
  se_flags : forall s, neg_flags s = f -> neg_flags (ntlmssp_handle_neg_flags s flags false) = flags;
  se_unicode : Z.testbit flags 0 = true;
  se_lm : flag flags NTLMSSP_NEGOTIATE_LM_KEY = false;
  se_u32 : is_u32 flags
}.

(** The server before it asks for the verdict. *)
Record informed (s : ntlmssp_state) (flags : Z) (chal user domain ws lm nt enc : list Z) (ms : list auth_operations) := {
  in_core : core s = State NTLMSSP_SERVER NTLMSSP_AUTH true false None flags CryptZero;
  in_once : server_multiple_authentications s = false;
  in_auth : auth s = AuthData (Some user) (Some domain) (Some ws) (to_blob (if ntlm2_used flags lm nt then [] else lm)) (to_blob nt) (to_blob enc);
  in_ntlm2 : doing_ntlm2 (chals s) = ntlm2_used flags lm nt;
  in_nonce : ntlm2_used flags lm nt = true -> session_nonce (chals s) = server_nonce chal lm;
  in_context : exists ch, context s = Some (Context ch ms) /\
    data ch = if ntlm2_used flags lm nt then nonce_hash (server_nonce chal lm) else chal
}.

Lemma length_nonce_hash n : length (nonce_hash n) = 8%nat.
Proof. unfold nonce_hash. rewrite length_take, length_MD5Final. lia. Qed.

(** The same state with the flags and names of the message. *)
Lemma preauth_ntlm2_ok (A : Allocator) s flags chal user domain ws lm nt enc who may ms :
  malloc_always A -> length chal = 8%nat -> flag flags NTLMSSP_NEGOTIATE_LM_KEY = false ->
  core s = State NTLMSSP_SERVER NTLMSSP_AUTH true false None flags CryptZero -> server_multiple_authentications s = false ->
  auth s = AuthData (Some user) (Some domain) (Some ws) (to_blob lm) (to_blob nt) (to_blob enc) ->
  chals s = ChalData (Data chal) (Data chal) false (replicate 16 0) -> context s = Some (Context (Challenge who may chal) ms) ->
  exists s', preauth_ntlm2 A s = Ret (s', NT_STATUS_OK) /\ informed s' flags chal user domain ws lm nt enc ms.
Proof.
  intros mem Hl Hlm Hc Honce Ha Hch Hctx. unfold preauth_ntlm2. rewrite Ha. cbn [nt_resp lm_resp].
  rewrite !blob_length_to_blob, Hc. cbn [neg_flags]. fold (ntlm2_used flags lm nt).
  destruct (ntlm2_used flags lm nt) eqn:Hn.
  - assert (length lm = 24%nat) as Hlml.
    { unfold ntlm2_used in Hn. apply andb_true_iff in Hn as [_ Hn]. by apply Nat.eqb_eq. }
    rewrite Hch. cbn [internal_chal]. assert (to_blob lm = Data lm) as -> by by destruct lm.
    rewrite Hl. cbn [Nat.eqb negb]. rewrite mem. cbn [blob_data obind].
    fold (server_nonce chal lm). fold (nonce_hash (server_nonce chal lm)).
    unfold auth_ntlmssp_set_challenge. rewrite length_nonce_hash. cbn [Nat.eqb negb put_auth put_chals context]. rewrite Hctx.
    unfold auth_context_set_challenge. rewrite !(later_always 1 _ mem). cbn [negb obind].
    change (NT_STATUS_IS_OK NT_STATUS_OK) with true. cbv iota. eexists. split; [reflexivity|].
    split; cbn [core put_core put_context put_auth put_chals server_multiple_authentications auth chals context doing_ntlm2 session_nonce];
      rewrite ?Hn; try done.
    + rewrite Hc. apply update_flags_id. by apply clear_unset.
    + eexists. split; [reflexivity|]. cbn [data]. apply take_ge. by rewrite length_nonce_hash.
  - exists s. split; [done|]. split; rewrite ?Hn; try done; [by rewrite Hch|]. eexists. split; [exact Hctx|done].
Qed.

Lemma server_preauth_ok (A : Allocator) s f flags chal user domain ws lm nt enc who may ms zs :
  malloc_always A -> expecting s f chal who may ms -> settles f flags -> Forall item_ok zs ->
  map fst zs = [GC NTLMSSP; Gd NTLMSSP_AUTH; GB lm; GB nt; GU domain; GU user; GU ws; GB enc; Gd flags] ->
  exists s', ntlmssp_server_preauth A s (message zs) = Ret (s', NT_STATUS_OK) /\ informed s' flags chal user domain ws lm nt enc ms.
Proof.
  intros mem [Hc Hlm Honce Hch Hctx Hl] [Hsf Hsu Hsl Hs32] Hok Hm. unfold ntlmssp_server_preauth.
  cbn [core put_auth]. rewrite Hc. cbn [unicode].
  assert (length zs <= 20)%nat as Hl20 by (rewrite <- (length_map fst), Hm; simpl; lia).
  unfold parse_auth.
  pose proof (parse_own unix8 dos7 A zs [GC NTLMSSP; Gd NTLMSSP_AUTH; GB lm; GB nt; GU domain; GU user; GU ws; GB enc; Gd flags] []
    mem Hok Hm Hl20) as P.
  cbn [map fmt_of omap list_omap val_of] in P. cbn [app]. rewrite P. cbn [obind]. rewrite (u32_id flags) by done.
  assert ((flags =? 0) = false) as -> by (apply Z.eqb_neq; intros ->; by rewrite Z.bits_0 in Hsu).
  cbn [core put_auth allow_lm_key]. rewrite ?Hc, Hlm.
  set (c := State NTLMSSP_SERVER NTLMSSP_AUTH true false None f CryptZero).
  assert (ntlmssp_handle_neg_flags c flags false = State NTLMSSP_SERVER NTLMSSP_AUTH true false None flags CryptZero) as ->
    by (rewrite handle_neg_flags_frame, Hsu, Hsf by done; done).
  unfold ntlmssp_set_domain, ntlmssp_set_username, ntlmssp_set_workstation. rewrite !mem. cbn [is_some].
  change (NT_STATUS_IS_OK NT_STATUS_OK) with true. cbn [negb].
  apply (preauth_ntlm2_ok (later 13 A) _ flags chal user domain ws lm nt enc who may ms); [by apply later_always|done|done|reflexivity|done|reflexivity|done|done].
Qed.
(** The state of the exchange plays no part in the initialisation. *)
Lemma sign_init_expected (A : Allocator) x s nt_status c :
  ntlmssp_sign_init A s = Ret (nt_status, c) -> ntlmssp_sign_init A (set_expected x s) = Ret (nt_status, set_expected x c).
Proof.
  unfold ntlmssp_sign_init. change (key_bytes (set_expected x s)) with (key_bytes s). change (role (set_expected x s)) with (role s).
  change (neg_flags (set_expected x s)) with (neg_flags s).
  change (ntlmssp_weakend_key (set_expected x s) (malloc_ok 1)) with (ntlmssp_weakend_key s (malloc_ok 1)).
  repeat match goal with
  | |- (if ?b then _ else _) = _ -> _ => destruct b
  | |- obind ?m _ = _ -> _ => destruct m as [?|]; cbn [obind]; [|done]
  end; by intros [= <- <-].
Qed.

Lemma server_postauth_ok (A : Allocator) ec wf s flags chal lm nt enc uk k lm_key :
  let base := State NTLMSSP_SERVER NTLMSSP_AUTH true false None flags CryptZero in
  malloc_always A -> core s = base -> server_multiple_authentications s = false ->
  doing_ntlm2 (chals s) = ntlm2_used flags lm nt -> (ntlm2_used flags lm nt = true -> session_nonce (chals s) = server_nonce chal lm) ->
  encrypted_session_key (auth s) = to_blob enc -> flag flags NTLMSSP_NEGOTIATE_LM_KEY = false ->
  length uk = 16%nat -> k = (if ntlm2_used flags lm nt then HmacMd5.hmac_md5 uk (server_nonce chal lm) else uk) ->
  carries ec flags k enc -> length (random_key ec) = 16%nat ->
  exists s', ntlmssp_server_postauth A wf s (Data uk) lm_key = Ret (s', NT_STATUS_OK) /\
    settled_end (later 10 A) wf (finished flags (final_key ec flags k) base) (core s').
Proof.
  intros base mem Hc Honce Hn Hno He Hlm Huk Hk Hcar Hrk.
  assert (length k = 16%nat) as Hkl by (subst k; destruct (ntlm2_used flags lm nt); [apply HmacMd5.length_hmac_md5|done]).
  assert (exists keep, server_session_key A s (Data uk) lm_key = Ret (Data k, keep)) as [keep Es].
  { unfold server_session_key. rewrite Hn, Hc. cbn [neg_flags base]. rewrite Hk. destruct (ntlm2_used flags lm nt).
    - rewrite Huk. cbn [Nat.eqb]. rewrite mem, Hno by done. by eexists.
    - rewrite Hlm. cbn [andb]. by eexists. }
  unfold ntlmssp_server_postauth. rewrite Es. cbn [obind].
  assert ((if keep then s else put_core (update_flags (clear_flag NTLMSSP_NEGOTIATE_LM_KEY) (core s)) s) = s) as ->.
  { destruct keep; [done|]. rewrite update_flags_id by (rewrite Hc; by apply clear_unset). by destruct s. }
  pose proof (server_key_exchange_ok ec A s k enc mem Hkl) as Ek. rewrite Hc in Ek. cbn [neg_flags base] in Ek.
  rewrite (Ek Hcar He). cbn [obind core put_core].
  assert (length (final_key ec flags k) = 16%nat) as Hfk
    by (unfold final_key; destruct (flag flags NTLMSSP_NEGOTIATE_KEY_EXCH); [exact Hrk|exact Hkl]).
  set (keyed := put_key (Some (final_key ec flags k)) (core s)).
  change (server_multiple_authentications (put_core keyed s)) with (server_multiple_authentications s).
  rewrite Honce. unfold settled_end. destruct (_ || _).
  - destruct (sign_init_ok (later_always 10 A mem) keyed) as (cr & E & _); [unfold keyed; rewrite Hc; cbn; lia|].
    rewrite E. cbn [obind]. eexists. split; [reflexivity|]. cbn [core put_core put_auth].
    apply (sign_init_expected _ NTLMSSP_DONE) in E. unfold keyed in E. rewrite Hc in E. unfold keyed. by rewrite Hc.
  - cbn [obind]. eexists. split; [reflexivity|]. cbn [core put_core put_auth]. unfold keyed. by rewrite Hc.
Qed.

Lemma server_auth_ok ec e wf st cr f flags chal user domain ws lm nt enc who may ms zs k :
  malloc_always (memory e) -> expecting st f chal who may ms -> settles f flags -> Forall item_ok zs ->
  map fst zs = [GC NTLMSSP; Gd NTLMSSP_AUTH; GB lm; GB nt; GU domain; GU user; GU ws; GB enc; Gd flags] ->
  domain <> [] -> carries ec flags k enc -> length (random_key ec) = 16%nat -> verified ms flags chal user domain ws lm nt k ->
  wants wf GENSEC_FEATURE_SIGN || wants wf GENSEC_FEATURE_SEAL || wants wf GENSEC_FEATURE_SESSION_KEY = true ->
  exists st' B,
    update e wf (Endpoint st cr) (message zs) = Ret (Endpoint st' cr, NT_STATUS_OK, []) /\ malloc_always B /\
    settled_end B wf (finished flags (final_key ec flags k) (State NTLMSSP_SERVER NTLMSSP_AUTH true false None flags CryptZero)) (core st').
Proof.
  intros mem Hex Hse Hok Hm Hdom Hcar Hrk Hver Hwf. pose proof Hex as [Hc Hlm Honce Hch Hctx Hl].
  unfold update, gensec_ntlmssp_update. cbn [state].
  assert (gensec_ntlmssp_update_find (core st) wf (message zs) = Ret (inr Ntlmssp.ntlmssp_server_auth)) as ->.
  { eapply (message_handler unix8 dos7 (memory e)); [exact Hok| | | |]; rewrite Hc; [exact Hm|by_eval|by_eval|do 3 right; by left]. }
  cbn [obind]. unfold NtlmsspExchange.ntlmssp_server_auth. rewrite mem. cbn [negb state credentials].
  destruct (server_preauth_ok (later 1 (memory e)) st f flags chal user domain ws lm nt enc who may ms zs) as (s1 & -> & Hin);
    [by apply later_always|done..|].
  cbn [obind]. change (NT_STATUS_IS_OK NT_STATUS_OK) with true. cbn [negb].
  pose proof Hin as [Hc1 Honce1 Ha1 Hn1 Hno1 (ch & Hctx1 & Hdata)].
  assert (exists uk, length uk = 16%nat /\ k = (if ntlm2_used flags lm nt then HmacMd5.hmac_md5 uk (server_nonce chal lm) else uk) /\
            length k = 16%nat /\
            accepts ms (data ch) (logon user domain ws (if ntlm2_used flags lm nt then [] else lm) nt) uk) as (uk & Huk & Hk & Hkl & Hacc).
  { unfold verified in Hver. rewrite Hdata. destruct (ntlm2_used flags lm nt).
    - destruct Hver as (uk & Huk & -> & Hacc). exists uk. split_and!; [done..|by apply HmacMd5.length_hmac_md5|done].
    - exists k. by destruct Hver. }
  destruct (check_password_ok (later 20 (memory e)) (random_challenge e) s1 user domain ws (if ntlm2_used flags lm nt then [] else lm) nt uk ch ms)
    as [lm_key ->]; [by apply later_always|done|by destruct uk| |by rewrite Ha1..|done|done|].
  { rewrite Hdata. destruct (ntlm2_used flags lm nt); [|by destruct chal]. intros E. pose proof (length_nonce_hash (server_nonce chal lm)) as Hl8. by rewrite E in Hl8. }
  cbn [obind]. change (NT_STATUS_IS_OK NT_STATUS_OK) with true. cbn [negb]. rewrite Hwf.
  destruct (server_postauth_ok (later 2000 (memory e)) ec wf
    (put_auth (AuthData (Some user) (Some domain) (Some ws) (freed (to_blob (if ntlm2_used flags lm nt then [] else lm))) (freed (to_blob nt))
       (encrypted_session_key (auth s1))) (put_context (Context ch ms) s1)) flags chal lm nt enc uk k lm_key)
    as (s3 & E3 & Hend); [by apply later_always|exact Hc1|exact Honce1|exact Hn1|exact Hno1|by rewrite Ha1|apply Hse|done..|].
  rewrite E3. cbn [obind]. exists s3, (later 10 (later 2000 (memory e))). split_and!; [done|by do 2 apply later_always|done].
Qed.
End steps.
