(* ===== verification/NtlmsspLogin.v ===== *)
(** The NTLMSSP exchange from end to end: the responses of a client's credentials are
    verified by the method of the server, and the two ends leave the exchange with the
    same session. *)

From stdpp Require Import strings relations.
From S2P Require Import Prelude Digest Byteorder Ntstatus Md4 Md5 Hmac Arcfour Des Iconv Charcnv Unistr Time Msrpc Ntlmssp NtlmsspSign.
From S2P Require Import Smbencrypt NtlmCheck CliCredentials CredNtlm Auth AuthSam NtlmsspExchange NtlmsspMessages Handshake.
Import Arcfour Charcnv Unistr Time Msrpc Ntlmssp NtlmsspSign Smbencrypt NtlmCheck CliCredentials CredNtlm Auth AuthSam NtlmsspExchange.

#[local] Open Scope outcome_scope.

#[local] Opaque Hmac.HmacMd5.hmac_md5 rfc2104_hmac md_hash Md4.mdfour SMBOWFencrypt Md5.MD5Final Md5.MD5Update arcfour_init.

(** ** The method of the server *)

(** How the methods of a server treat the logons of one account: they leave the
    challenge to the context, and the one that wants the logon accepts a response that
    [ntlm_password_check] accepts. *)
Class ChecksNtlm `{Host} `{Charsets} `{CaseTables} `{AuthPolicy} (ms : list auth_operations) (user domain : list Z)
    (ws hash : list Z) := {
  stored_lanman : option (list Z);
  methods_challenge_free : Forall (fun m => get_challenge m = auth_get_challenge_not_implemented) ms;
  methods_accept chal lm nt key :
    (forall B : Allocator, malloc_always B -> exists lm_key,
       ntlm_password_check B (Z.lor MSV1_0_ALLOW_SERVER_TRUST_ACCOUNT MSV1_0_ALLOW_WORKSTATION_TRUST_ACCOUNT) chal lm nt
         (utf8s user) (Some (utf8s user)) (Some (utf8s domain)) stored_lanman (Some hash) = Ret (NT_STATUS_OK, Some key, lm_key)) ->
    accepts ms chal (logon (utf8s user) (utf8s domain) ws lm nt) key
}.

(** ** The client *)

Definition name_fits (s : list Z) : Prop :=
  Forall scalar s /\ Forall (fun cp => cp <> 0) s /\ s <> [] /\ (length (utf8s s) < PSTRING_LEN)%nat.

(** A client that can log on: complete credentials, and the random bytes of its call. *)
Record client_ready `{CaseTables} (c : cli_credentials) (fd : fresh_data) (user domain password ws : list Z) := {
  cl_ready : logon_ready c user domain password ws;
  cl_user : name_fits user;
  cl_domain : name_fits domain;
  cl_upper : map toupper_w domain = domain;
  cl_ws : text_ok ws PSTRING_LEN;
  cl_password : Forall scalar password /\ Z.of_nat (length (utf16s password)) < 2 ^ 28;
  cl_fresh : Forall (fun b => bytes b /\ length b = 8%nat) [client_chal fd; lm_client_data fd; nonce fd]
}.

Lemma length_utf8s_ge s : (length s <= length (utf8s s))%nat.
Proof.
  unfold utf8s. induction s as [|c s IH]; [done|]. change (mjoin (utf8 <$> c :: s)) with (utf8 c ++ mjoin (utf8 <$> s)).
  rewrite length_app. pose proof (length_utf8 c). cbn [length]. lia.
Qed.

Lemma length_utf16s_le s : (length (utf16s s) <= 8 * length s)%nat.
Proof.
  pose proof (utf16s_room s). assert (length (utf8s s) <= 4 * length s)%nat; [|lia]. unfold utf8s. clear.
  induction s as [|c s IH]; [done|]. change (mjoin (utf8 <$> c :: s)) with (utf8 c ++ mjoin (utf8 <$> s)).
  rewrite length_app. pose proof (length_utf8 c). cbn [length]. lia.
Qed.

Lemma name_fits_arg s : name_fits s -> arg_ok (GU (utf8s s)).
Proof. intros (Hs & Hz & _ & Hl). by exists s. Qed.

Lemma upper_fits `{CaseTables} s : name_fits s -> Z.of_nat (length (utf16s (map toupper_w s))) <= 10000.
Proof.
  intros (_ & _ & _ & Hl). pose proof (length_utf8s_ge s). pose proof (length_utf16s_le (map toupper_w s)).
  rewrite length_map in *. unfold PSTRING_LEN in *. lia.
Qed.

Lemma name_nonempty s : name_fits s -> utf8s s <> [].
Proof. intros (_ & _ & Hn & _) E. destruct s as [|c s]; [done|]. pose proof (length_utf8s_ge (c :: s)) as Hl. rewrite E in Hl. simpl in Hl. lia. Qed.

(** ** The responses *)

Section forms.
Context `{Host} `{Charsets} `{CaseTables} `{LoadParm} `{AuthPolicy} (unix8 : unix_is_utf8).
Context (upper_scalar : forall cp, scalar cp -> scalar (toupper_w cp)).
Context (table_bytes : forall t, upcase_table = Some t -> bytes t).
Context (run : nat -> cli_credentials -> outcome (cli_credentials * cstr)).
Context (set_machine_account : cli_credentials -> outcome cli_credentials).
Context (A : Allocator) (mem : malloc_always A) (c : cli_credentials) (fd : fresh_data) (user domain password ws : list Z).
Context (ready : client_ready c fd user domain password ws).
Context (ms : list auth_operations) `{!ChecksNtlm ms user domain ws (nt_owf password)}.
Context (chal names : list Z) (chal_bytes : bytes chal) (chal_length : length chal = 8%nat).
Context (names_some : names <> []) (names_bytes : bytes names) (names_length : Z.of_nat (length names) < 10000).

(** A response of the credentials that the server verifies. *)
Definition answered (st : ntlmssp_state) : Prop :=
  let flags := neg_flags (core st) in
  exists r k, cli_credentials_get_ntlm_response A run set_machine_account fd (cred_flags st) chal names c = Ret (c, inr r) /\
    response_ok flags r k /\ verified ms flags chal (utf8s user) (utf8s domain) ws (r_lm r) (r_nt r) k.

Lemma fresh_ok : (bytes (client_chal fd) /\ length (client_chal fd) = 8%nat) /\
  (bytes (lm_client_data fd) /\ length (lm_client_data fd) = 8%nat) /\ (bytes (nonce fd) /\ length (nonce fd) = 8%nat).
Proof.
  pose proof (cl_fresh _ _ _ _ _ _ ready) as Hf. rewrite !Forall_cons_iff in Hf. destruct Hf as (? & ? & ? & _). done.
Qed.

Lemma cred_flags_v2 st : flag (cred_flags st) CLI_CRED_NTLMv2_AUTH = use_ntlmv2 (core st).
Proof. unfold cred_flags. destruct (flag _ NTLMSSP_NEGOTIATE_NTLM2), (use_ntlmv2 _), (use_nt_response _), lp_client_lanman_auth; reflexivity. Qed.
Lemma cred_flags_ntlm2 st : flag (cred_flags st) CLI_CRED_NTLM2 = flag (neg_flags (core st)) NTLMSSP_NEGOTIATE_NTLM2.
Proof. unfold cred_flags. destruct (flag _ NTLMSSP_NEGOTIATE_NTLM2), (use_ntlmv2 _), (use_nt_response _), lp_client_lanman_auth; reflexivity. Qed.
Lemma cred_flags_lanman st : flag (cred_flags st) CLI_CRED_LANMAN_AUTH = lp_client_lanman_auth.
Proof. unfold cred_flags. destruct (flag _ NTLMSSP_NEGOTIATE_NTLM2), (use_ntlmv2 _), (use_nt_response _), lp_client_lanman_auth; reflexivity. Qed.

(** The NTLM2 flag of a response is the negotiated one. *)
Lemma response_ntlm2 st :
  flag (clear CLI_CRED_LANMAN_AUTH (offered c (cred_flags st))) CLI_CRED_NTLM2 = flag (neg_flags (core st)) NTLMSSP_NEGOTIATE_NTLM2.
Proof. by rewrite clear_other, offered_flag, cred_flags_ntlm2 by done. Qed.

Lemma owf_ok : bytes (nt_owf password) /\ length (nt_owf password) = 16%nat.
Proof. apply md4_digest. Qed.

Lemma ntlmv2_answered st : use_ntlmv2 (core st) = true -> answered st.
Proof.
  intros Hv2. destruct fresh_ok as ((Hcb & Hcl) & (Hlb & Hll) & _). pose proof ready as [Hr Hu Hd Hup _ [Hp Hpl] _].
  pose proof (upper_fits user Hu). pose proof (upper_fits domain Hd).
  pose proof (ntlmv2_ready A unix8 mem upper_scalar table_bytes run set_machine_account c user domain password ws Hr Hp Hpl fd (cred_flags st) chal names) as E.
  cbv zeta in E. unfold answered. rewrite E; clear E; [|by rewrite cred_flags_v2|done|apply Hu|apply Hd|lia|done..|rewrite Hcl, Hll, chal_length; lia].
  set (key := owf_v2 (nt_owf password) user domain true). set (data := client_data_v2 (now fd) (client_chal fd) names).
  set (p := proof_of key chal data).
  assert (length p = 16%nat) as Hpl16 by apply md5_mac.
  assert (length data = 28 + length names)%nat as Hdl by (unfold data; rewrite length_client_data_v2, Hcl; lia).
  assert (length (proof_of key chal (lm_client_data fd)) = 16%nat) as Hlp by apply md5_mac.
  assert (length (p ++ data) <> 24)%nat as Hn24 by (rewrite length_app, Hpl16; lia).
  do 2 eexists. split; [reflexivity|]. split.
  - split; cbn [r_flags r_key r_lm r_nt]; [apply response_ntlm2|reflexivity|apply md5_mac|rewrite length_app; lia|rewrite length_app; lia].
  - unfold verified, ntlm2_used. cbn [r_lm r_nt]. rewrite (proj2 (Nat.eqb_neq _ _) Hn24), andb_false_r. cbn [andb].
    split; [apply md5_mac|]. apply methods_accept. intros B memB. exists (Some (take 8 (rfc2104_hmac md5_spec key p))).
    assert (owf_v2 (nt_owf password) user domain false = key) as Ek by (unfold key, owf_v2, domain_form; by rewrite Hup).
    assert (take 16 (p ++ data) = p) as Et by by rewrite <- Hpl16, take_app_length.
    assert (drop 16 (p ++ data) = data) as Ed by by rewrite <- Hpl16, drop_app_length.
    destruct owf_ok as [Hob Hol].
    pose proof (check_nt_v2 unix8 upper_scalar table_bytes (nt_owf password) user domain chal Hob Hol (proj1 Hu) (proj1 Hd)) as E.
    unfold valid_v2, session_key_v2, key_of_form, short in E. cbn [fst snd] in E. rewrite Hup in E.
    specialize (E ltac:(rewrite Hup in *; lia) chal_bytes chal_length B
      (Z.lor MSV1_0_ALLOW_SERVER_TRUST_ACCOUNT MSV1_0_ALLOW_WORKSTATION_TRUST_ACCOUNT)
      (proof_of key chal (lm_client_data fd) ++ lm_client_data fd) (p ++ data) (utf8s user) stored_lanman memB eq_refl).
    rewrite Et, Ed, Ek in E. fold p in E. unfold accept_v2 in E. cbn [fmap option_fmap option_map] in E. apply E.
    + split; [|rewrite length_app; lia]. apply Forall_app. split; [apply md5_mac|]. by apply client_data_v2_bytes.
    + rewrite length_app. lia.
    + split; [rewrite length_app; lia|done].
Qed.
(** The client hashes the two challenges in two pieces, the server in one. *)
Lemma nonce_hash_pieces n : bytes n -> length n = 8%nat -> take 8 (session_nonce_hash chal n) = nonce_hash (chal ++ n).
Proof.
  intros Hb Hl. unfold session_nonce_hash, nonce_hash. rewrite (take_ge chal), (take_ge n) by lia.
  assert (bytes (chal ++ n)) as Hcn by by apply Forall_app.
  pose proof (sh_correct (StreamHash := Md5.md5_stream_hash) [chal; n]) as E2. pose proof (sh_correct (StreamHash := Md5.md5_stream_hash) [chal ++ n]) as E1.
  cbn [concat fold_left] in E1, E2. rewrite app_nil_r in E1, E2. specialize (E1 Hcn). specialize (E2 Hcn).
  cbn [sh_final sh_update sh_init Md5.md5_stream_hash] in E1, E2.
  rewrite E1, E2; [done|rewrite length_app; lia..].
Qed.

Lemma ntv1_length : length (SMBsesskeygen_ntv1 (nt_owf password)) = 16%nat.
Proof.
  destruct owf_ok as [Hob Hol]. unfold SMBsesskeygen_ntv1. rewrite Md4.mdfour_rfc by (rewrite length_take; lia). apply md4_digest.
Qed.

Lemma v1_accepts chal' lm : lp_ntlm_auth = true -> length chal' = 8%nat ->
  accepts ms chal' (logon (utf8s user) (utf8s domain) ws lm (SMBOWFencrypt (nt_owf password) chal')) (SMBsesskeygen_ntv1 (nt_owf password)).
Proof.
  intros Hp Hl. apply methods_accept. intros B memB. by apply check_nt_v1.
Qed.

Lemma ntlm2_answered st :
  use_ntlmv2 (core st) = false -> flag (neg_flags (core st)) NTLMSSP_NEGOTIATE_NTLM2 = true -> lp_ntlm_auth = true -> answered st.
Proof.
  intros Hv2 Hn2 Hp. destruct fresh_ok as (_ & _ & (Hnb & Hnl)). pose proof ready as [Hr Hu Hd Hup _ [Hpw Hpl] _].
  unfold answered.
  rewrite (ntlm2_ready A unix8 mem run set_machine_account c user domain password ws Hr Hpw Hpl fd (cred_flags st) chal names);
    [|by rewrite cred_flags_v2|by rewrite cred_flags_ntlm2|done|done].
  do 2 eexists. split; [reflexivity|]. split.
  - split; cbn [r_flags r_key r_lm r_nt]; [apply response_ntlm2|reflexivity|apply HmacMd5.length_hmac_md5| |].
    + rewrite length_app, length_replicate. lia.
    + rewrite length_SMBOWFencrypt. lia.
  - unfold verified, ntlm2_used. cbn [r_lm r_nt]. rewrite Hn2, length_SMBOWFencrypt, length_app, length_replicate, Hnl. cbn [Nat.add Nat.eqb andb].
    assert (server_nonce chal (nonce fd ++ replicate 16 0) = chal ++ nonce fd) as ->
      by (unfold server_nonce; by rewrite <- Hnl, take_app_length).
    exists (SMBsesskeygen_ntv1 (nt_owf password)). split_and!; [apply ntv1_length|done|].
    rewrite nonce_hash_pieces by done. apply v1_accepts; [done|apply length_nonce_hash].
Qed.

Lemma ntlm1_answered st h :
  use_ntlmv2 (core st) = false -> flag (neg_flags (core st)) NTLMSSP_NEGOTIATE_NTLM2 = false ->
  lp_ntlm_auth = true -> lp_client_lanman_auth = false -> (forall B, malloc_always B -> E_deshash B (utf8s password) = Ret h) -> answered st.
Proof.
  intros Hv2 Hn2 Hp Hlm Hh. pose proof ready as [Hr Hu Hd Hup _ [Hpw Hpl] _]. unfold answered.
  destruct (ntlm1_ready A unix8 mem run set_machine_account c user domain password ws Hr Hpw Hpl fd (cred_flags st) chal names h)
    as [lm_key ->]; [by rewrite cred_flags_v2|by rewrite cred_flags_ntlm2|by rewrite cred_flags_lanman|done|].
  do 2 eexists. split; [reflexivity|]. split.
  - split; cbn [r_flags r_key r_lm r_nt]; [apply response_ntlm2|reflexivity|apply ntv1_length|rewrite length_SMBOWFencrypt; lia..].
  - unfold verified, ntlm2_used. cbn [r_lm r_nt]. rewrite Hn2. cbn [andb]. split; [apply ntv1_length|]. by apply v1_accepts.
Qed.
End forms.

(** ** The exchange *)

Section exchange.
Context `{Host} `{Charsets} `{CaseTables} `{LoadParm} `{AuthPolicy} (unix8 : unix_is_utf8) (dos7 : dos_is_ascii).
Context (upper_scalar : forall cp, scalar cp -> scalar (toupper_w cp)).
Context (table_bytes : forall t, upcase_table = Some t -> bytes t).
Context (run : nat -> cli_credentials -> outcome (cli_credentials * cstr)).
Context (set_machine_account : cli_credentials -> outcome cli_credentials).
Context (gethostname : option (list Z)) (host_ascii : forall h, gethostname = Some h -> Forall ascii_char h).
Context (workgroup_ok : text_ok lp_workgroup PSTRING_LEN) (netbios_ok : text_ok lp_netbios_name PSTRING_LEN).

Lemma created_challenge_free backends (A : Allocator) names ctx :
  auth_context_create backends A names = inr ctx -> Auth.chal ctx = Challenge None false [].
Proof.
  unfold auth_context_create. destruct names as [names|]; [|done]. destruct (negb _); [done|].
  destruct (lookup_methods _ _ _) as [|[|m ms]]; [done..|]. by intros [= <-].
Qed.

(** The flags of the two ends before the exchange and after the negotiate message. *)
Lemma flags_start_ok v2 fc fs :
  Z.testbit fc 2 = true -> (forall k, ~ In k negotiable -> Z.testbit fc k = (9 =? k)) ->
  (forall k, ~ In k negotiable -> Z.testbit fs k = (9 =? k)) -> flags_start (initial_flags v2 fc) fs.
Proof.
  intros Hreq Hc Hs. assert (forall k, ~ In k negotiable -> Z.testbit (initial_flags v2 fc) k = (9 =? k)) as Hi.
  { intros k Hk. unfold initial_flags. flags_as_bits. destruct v2; rewrite !add_flag_outside by (done || is_negotiable); by apply Hc. }
  split; [| |by intros k Hk; rewrite Hi, Hs|by apply outside_u32..].
  - unfold initial_flags. flags_as_bits. destruct v2; by rewrite !testbit_add_flag.
  - unfold initial_flags. flags_as_bits. destruct v2; by rewrite !testbit_add_flag, Hreq, ?orb_true_r.
Qed.

(** The form of the response that the client chooses, which the server must allow. *)
Definition form_allowed (st : ntlmssp_state) (password : list Z) : Prop :=
  use_ntlmv2 (core st) = true \/
  (lp_ntlm_auth = true /\ lp_client_lanman_auth = false /\ ascii_password (utf8s password) /\ (length (utf8s password) < 256)%nat).

Lemma form_answered (A : Allocator) c fd user domain password ws ms `{!ChecksNtlm ms user domain ws (nt_owf password)} chal names st st0 :
  malloc_always A -> client_ready c fd user domain password ws -> bytes chal -> length chal = 8%nat ->
  names <> [] -> bytes names -> Z.of_nat (length names) < 10000 ->
  use_ntlmv2 (core st) = use_ntlmv2 (core st0) -> form_allowed st0 password ->
  answered run set_machine_account A c fd user domain ws ms chal names st.
Proof.
  intros mem Hcl Hcb Hl Hn Hnb Hnl Hu Hform. destruct (use_ntlmv2 (core st0)) eqn:Hv2; [by eapply ntlmv2_answered|].
  destruct Hform as [Hf|(Hp & Hlm & Ha & Hpl)]; [by rewrite Hv2 in Hf|].
  destruct (flag (neg_flags (core st)) NTLMSSP_NEGOTIATE_NTLM2) eqn:Hn2; [by eapply ntlm2_answered|].
  eapply ntlm1_answered; try done. intros B memB. by apply E_deshash_ascii.
Qed.

Lemma no_lm_key st : allow_lm_key st = lp_lanman_auth && lp_parm_bool "ntlmssp_server" "allow_lm_key" false ->
  lp_lanman_auth && lp_parm_bool "ntlmssp_server" "allow_lm_key" false = false -> allow_lm_key st = false.
Proof. congruence. Qed.

(** The ends of a finished exchange. *)
Record agreed (c s : gensec_ntlmssp_state) (key : list Z) := {
  ag_client : role c = NTLMSSP_CLIENT /\ expected_state c = NTLMSSP_DONE;
  ag_server : role s = NTLMSSP_SERVER /\ expected_state s = NTLMSSP_DONE;
  ag_key : session_key c = Some key /\ session_key s = Some key /\ length key = 16%nat;
  ag_flags : neg_flags s = neg_flags c
}.

Definition protects (wf : Z) : bool := wants wf GENSEC_FEATURE_SIGN || wants wf GENSEC_FEATURE_SEAL.

Lemma settled_agreed (A B1 B2 : Allocator) cwant swant flags key (c s c' s' : gensec_ntlmssp_state) :
  malloc_always A -> malloc_always B1 -> malloc_always B2 -> role c = NTLMSSP_CLIENT -> role s = NTLMSSP_SERVER -> length key = 16%nat ->
  settled_end B1 cwant (finished flags key c) c' -> settled_end B2 swant (finished flags key s) s' ->
  agreed c' s' key /\ (protects cwant = true -> protects swant = true -> delivers A c' s').
Proof.
  intros mem mem1 mem2 Hc Hs Hk Hce Hse.
  assert (forall B wf e e', malloc_always B -> settled_end B wf (finished flags key e) e' ->
            role e' = role e /\ expected_state e' = NTLMSSP_DONE /\ session_key e' = Some key /\ neg_flags e' = flags) as Hends.
  { intros B wf e e' memB. unfold settled_end. destruct (_ || _); [|by intros ->].
    destruct (sign_init_ok memB (finished flags key e)) as (cr & -> & _); [cbn; lia|]. by intros [= <-]. }
  destruct (Hends _ _ _ _ mem1 Hce) as (Hcr & Hcx & Hck & Hcf). destruct (Hends _ _ _ _ mem2 Hse) as (Hsr & Hsx & Hsk & Hsf).
  split; [split; by rewrite ?Hcr, ?Hsr, ?Hcf, ?Hsf|]. unfold protects, settled_end in *. intros Hcw Hsw. rewrite Hcw in Hce. rewrite Hsw in Hse.
  destruct (session_delivers A B1 B2 (finished flags key c) (finished flags key s)) as (c1 & s1 & E1 & E2 & Hd); try done; [cbn; lia|].
  rewrite Hce in E1. rewrite Hse in E2. injection E1 as <-. by injection E2 as <-.
Qed.

(** The exchange of a client and a server that have just started. *)
Lemma exchange_runs (A0 A : Allocator) (e1 e2 e3 e4 : call_env) cwant swant cst sst c cs backends names ctx user domain password ws
    `{!ChecksNtlm (methods ctx) user domain ws (nt_owf password)} :
  malloc_always A0 -> malloc_always A -> malloc_always (memory e1) -> malloc_always (memory e2) -> malloc_always (memory e3) -> malloc_always (memory e4) ->
  gensec_ntlmssp_client_start cwant true = inr cst -> lp_parm_bool "ntlmssp_client" "unicode" true = true ->
  gensec_ntlmssp_server_start swant A0 backends names = inr sst -> context sst = Some ctx ->
  lp_lanman_auth && lp_parm_bool "ntlmssp_server" "allow_lm_key" false = false ->
  protects swant || wants swant GENSEC_FEATURE_SESSION_KEY = true ->
  client_ready c (random e3) user domain password ws -> form_allowed cst password ->
  bytes (random_challenge e2) -> length (random_challenge e2) = 8%nat -> length (random_key e3) = 16%nat ->
  exists c1 m1 s1 m2 c2 m3 s2 key,
    update run set_machine_account gethostname e1 cwant (Endpoint cst c) [] = Ret (c1, NT_STATUS_MORE_PROCESSING_REQUIRED, m1) /\
    update run set_machine_account gethostname e2 swant (Endpoint sst cs) m1 = Ret (s1, NT_STATUS_MORE_PROCESSING_REQUIRED, m2) /\
    update run set_machine_account gethostname e3 cwant c1 m2 = Ret (c2, NT_STATUS_OK, m3) /\
    update run set_machine_account gethostname e4 swant s1 m3 = Ret (s2, NT_STATUS_OK, []) /\
    agreed (core (state c2)) (core (state s2)) key /\
    (protects cwant = true -> protects swant = true -> delivers A (core (state c2)) (core (state s2))) /\ Forall wire [m1; m2; m3] /\ credentials s1 = cs.
Proof.
  intros mem0 mem mem1 mem2 mem3 mem4 Hcs Hu Hss Hctx Hlm Hsw Hcl Hform Hrb Hrl Hkl. pose proof Hcl as [Hr Hus Hds Hup Hws _ _].
  destruct (client_start_ok cwant cst Hcs Hu) as (v2 & fc & Hcc & Hreq & Hco & Huv & _).
  destruct (server_start_ok swant A0 backends names sst mem0 Hss) as (fs & ctx' & Hsc & Hso & Hsl & Honce & _ & Hch & Hctx' & Hcr).
  rewrite Hctx in Hctx'. injection Hctx' as <-.
  assert (challenge_free ctx) as Hcf by (split; [exact (created_challenge_free _ _ _ _ Hcr)|exact methods_challenge_free]).
  pose proof (flags_start_ok v2 fc fs Hreq Hco Hso) as Hst.
  destruct (client_initial_ok unix8 dos7 run set_machine_account gethostname e1 cwant cst c v2 fc user domain password ws mem1 Hcc Hr Hws workgroup_ok)
    as (xs & E1 & Hokx & Hmx).
  set (cc := State NTLMSSP_CLIENT NTLMSSP_CHALLENGE true v2 None (initial_flags v2 fc) CryptZero) in *.
  destruct (server_negotiate_ok unix8 dos7 run set_machine_account gethostname host_ascii workgroup_ok netbios_ok e2 swant sst cs cc xs [GA lp_workgroup; GA ws] ctx fs)
    as (s1 & ys & nms & E2 & Hs1 & Hs1l & Hs1o & Hs1c & Hs1h & Hn & Hnb & Hnl & Hoky & Hmy);
    [done|done|done|by apply no_lm_key|done..| |].
  { rewrite <- (length_map fst), Hmx. simpl. lia. }
  set (c1 := put_core cc cst) in *.
  assert (Hst1 : flags_start (neg_flags (core c1)) (neg_flags (core sst))) by by rewrite Hsc.
  set (st2 := answering c1 (core sst)).
  assert (use_ntlmv2 (core st2) = use_ntlmv2 (core cst)) as Hu2
    by (unfold st2, answering; cbn [core put_server_domain put_core]; rewrite (client2_frame _ _ _ _ _ Hst1 eq_refl), Huv; done).
  destruct (form_answered (later 30 (memory e3)) c (random e3) user domain password ws
    (methods ctx) (random_challenge e2) nms st2 cst) as (r & k & Er & Hro & Hver); [by apply later_always|done..|].
  destruct (client_challenge_ok unix8 dos7 run set_machine_account gethostname e3 cwant c1 c (core sst) ys nms r k user domain password ws (random_challenge e2))
    as (c2 & zs & enc & E3 & Hokz & Hmz & Hcar & Hend); [done|done|done|exact Hst1|done|done|exact Hr|by apply name_fits_arg|by apply name_fits_arg|by apply text_unicode|done|exact Hmy|exact Er|exact Hro|].
  assert (core s1 = State NTLMSSP_SERVER NTLMSSP_AUTH true false None (neg_flags (server1 cc (core sst) false)) CryptZero) as Hs1'
    by (rewrite Hs1, (server1_frame cc (core sst) false Hst1), Hsc; done).
  destruct (server_auth_ok unix8 dos7 run set_machine_account gethostname e3 e4 swant s1 cs (neg_flags (server1 cc (core sst) false)) (neg_flags (core st2))
    (random_challenge e2) (utf8s user) (utf8s domain) ws (r_lm r) (r_nt r) enc (Some "random"%string) true (methods ctx) zs k)
    as (s2 & B & E4 & memB & Hend2); [done| | |done|exact Hmz|by apply name_nonempty|done|done|exact Hver|exact Hsw|].
  { split; [done|done|by rewrite Hs1o|done|done|done]. }
  { destruct (final_low cc (core sst) (allow_lm_key c1) false standalone Hst1 eq_refl) as [Hlow _]. split; [|exact Hlow|by apply low_flags|].
    - intros s Hs. exact (server3_flags cc (core sst) (allow_lm_key c1) false standalone Hst1 eq_refl s Hs).
    - by apply client2_u32. }
  set (key := final_key e3 (neg_flags (core st2)) k) in *.
  assert (length key = 16%nat) as Hkey.
  { unfold key, final_key. destruct (flag (neg_flags (core st2)) NTLMSSP_NEGOTIATE_KEY_EXCH); [exact Hkl|apply Hro]. }
  assert (role (core st2) = NTLMSSP_CLIENT) as Hrole
    by (unfold st2, answering; cbn [core put_server_domain put_core]; by rewrite (client2_frame _ _ _ _ _ Hst1 eq_refl)).
  pose proof (settled_agreed A (later 400 (memory e3)) B cwant swant _ key (core st2) (State NTLMSSP_SERVER NTLMSSP_AUTH true false None (neg_flags (core st2)) CryptZero) (core c2) (core s2) mem (later_always 400 _ mem3) memB Hrole eq_refl Hkey Hend Hend2)
    as [Hag Hdel].
  do 7 eexists. exists key. split_and!; [exact E1|exact E2|exact E3|exact E4|exact Hag|exact Hdel| |done].
  repeat constructor; eapply message_wire; try eassumption; cbn [length]; lia.
Qed.
End exchange.

(** ** The SAM as the method *)

(** An account that may log on from a workstation with the password of a hash. *)
Record sam_account `{SamDb} (now : Z) (user ws hash : list Z) (lanman : option (list Z)) (a : account) := {
  sa_found : samdb_connects = true /\ search_account None (utf8s user) = inr a /\ server_info_status a = NT_STATUS_OK;
  sa_user : utf8s user <> [];
  sa_hashes : forall B : Allocator, malloc_always B -> samdb_result_passwords B a = inr (lanman, Some hash);
  sa_open : account_open (unix_to_nt_time now) (Z.lor MSV1_0_ALLOW_SERVER_TRUST_ACCOUNT MSV1_0_ALLOW_WORKSTATION_TRUST_ACCOUNT) a;
  sa_password : flag (acct_flags a) ACB_PWNOTREQ = false;
  sa_workstation : workstation_passes a (Some ws)
}.

#[export] Instance sam_checks_ntlm `{Host} `{Charsets} `{CaseTables} `{LoadParm} `{AuthPolicy} `{SamDb} now user domain ws hash lanman a
  (ready : sam_account now user ws hash lanman a) :
  ChecksNtlm [anonymous_auth_ops; sam_ignoredomain_ops now] user domain ws hash.
Proof.
  refine {| stored_lanman := lanman |}; [by repeat constructor|].
  intros chal lm nt key Hcheck. destruct ready as [(Hcon & Hfound & Hinfo) Hu Hh Ho Hp Hw]. exists (sam_ignoredomain_ops now).
  assert (exists x l, utf8s user = x :: l) as (x & l & El) by (destruct (utf8s user) as [|x l]; [done|by exists x, l]).
  split.
  - cbn [find_method]. unfold anonymous_auth_ops, sam_ignoredomain_ops. cbn [want_check]. unfold anonymous_want_check, authsam_ignoredomain_want_check.
    cbn [logon client_account_name mapped_account_name]. by rewrite El.
  - intros A who may mem. cbn [sam_ignoredomain_ops check_password]. unfold authsam_check_password_internals.
    cbn [logon mapped_account_name]. rewrite El, <- El, mem, Hcon, Hfound. cbn [negb]. unfold authsam_authenticate.
    pose proof Ho as (_ & Hlock & _). rewrite Hlock. change (flag (info_flags _) USER_INFO_INTERACTIVE_LOGON) with false. cbn [andb].
    rewrite Hh by by apply later_always. unfold authsam_password_ok. rewrite Hp.
    change (password_state (logon _ _ _ _ _)) with AUTH_PASSWORD_RESPONSE. cbn [logon password mapped_account_name client_account_name client_domain_name data logon_parameters].
    destruct (Hcheck (later 2 (later 1 A))) as [lm_key ->]; [by do 2 apply later_always|]. cbn [obind fst snd].
    change (NT_STATUS_IS_OK NT_STATUS_OK) with true. cbv iota. cbn [workstation_name logon].
    destruct (account_ok_decides (later 300 (later 1 A)) now (Z.lor MSV1_0_ALLOW_SERVER_TRUST_ACCOUNT MSV1_0_ALLOW_WORKSTATION_TRUST_ACCOUNT) a (Some ws))
      as (s & -> & Hs); [by do 2 apply later_always|]. rewrite (proj2 Hs (conj Ho Hw)). cbn [obind fst snd].
    change (NT_STATUS_IS_OK NT_STATUS_OK) with true. cbn [negb]. rewrite Hinfo. by eexists.
Qed.

(** C1: a client with complete credentials and a server whose methods check them, both
    just started, finish an NTLMSSP exchange: the four calls of the update function
    succeed in turn, each on the message of the call before, whatever the options of
    the two ends, the random bytes and the form of the response (NTLMv2, NTLM2 session
    or NTLM, the last two where the server allows them), and the ends leave it with the
    same flags and the same 16-byte session key.  When both want signing or sealing,
    the session they leave delivers every packet. *)
Theorem ntlmssp_handshake `{Host} `{Charsets} `{CaseTables} `{LoadParm} `{AuthPolicy}
    (run : nat -> cli_credentials -> outcome (cli_credentials * cstr)) (set_machine_account : cli_credentials -> outcome cli_credentials)
    (gethostname : option (list Z)) (A0 A : Allocator) (e1 e2 e3 e4 : call_env) (cwant swant : Z) (cst sst : ntlmssp_state)
    (c cs : cli_credentials) (backends : list auth_operations) (names : option (list string)) (ctx : auth_context)
    (user domain password ws : list Z) `{!ChecksNtlm (methods ctx) user domain ws (nt_owf password)} :
  unix_is_utf8 -> dos_is_ascii -> (forall cp, scalar cp -> scalar (toupper_w cp)) -> (forall t, upcase_table = Some t -> bytes t) ->
  (forall h, gethostname = Some h -> Forall ascii_char h) ->
  text_ok lp_workgroup PSTRING_LEN -> text_ok lp_netbios_name PSTRING_LEN ->
  malloc_always A0 -> malloc_always A -> malloc_always (memory e1) -> malloc_always (memory e2) -> malloc_always (memory e3) -> malloc_always (memory e4) ->
  gensec_ntlmssp_client_start cwant true = inr cst -> lp_parm_bool "ntlmssp_client" "unicode" true = true ->
  gensec_ntlmssp_server_start swant A0 backends names = inr sst -> context sst = Some ctx ->
  lp_lanman_auth && lp_parm_bool "ntlmssp_server" "allow_lm_key" false = false ->
  protects swant || wants swant GENSEC_FEATURE_SESSION_KEY = true ->
  client_ready c (random e3) user domain password ws -> form_allowed cst password ->
  bytes (random_challenge e2) -> length (random_challenge e2) = 8%nat -> length (random_key e3) = 16%nat ->
  exists c1 m1 s1 m2 c2 m3 s2 key,
    gensec_ntlmssp_update run set_machine_account gethostname e1 cwant (Endpoint cst c) [] = Ret (c1, NT_STATUS_MORE_PROCESSING_REQUIRED, m1) /\
    gensec_ntlmssp_update run set_machine_account gethostname e2 swant (Endpoint sst cs) m1 = Ret (s1, NT_STATUS_MORE_PROCESSING_REQUIRED, m2) /\
    gensec_ntlmssp_update run set_machine_account gethostname e3 cwant c1 m2 = Ret (c2, NT_STATUS_OK, m3) /\
    gensec_ntlmssp_update run set_machine_account gethostname e4 swant s1 m3 = Ret (s2, NT_STATUS_OK, []) /\
    agreed (core (state c2)) (core (state s2)) key /\
    (protects cwant = true -> protects swant = true -> delivers A (core (state c2)) (core (state s2))).
Proof.
  intros unix8 dos7 upper_scalar table_bytes host_ascii workgroup_ok netbios_ok.
  intros. edestruct (exchange_runs unix8 dos7 upper_scalar table_bytes run set_machine_account gethostname host_ascii workgroup_ok netbios_ok
    A0 A e1 e2 e3 e4 cwant swant cst sst c cs backends names ctx user domain password ws) as (c1 & m1 & s1 & m2 & c2 & m3 & s2 & key & Hx); [done..|].
  exists c1, m1, s1, m2, c2, m3, s2, key. tauto.
Qed.

(** A user "u" of the domain "W" with the password "pw" logs on from "PC". *)
Definition sample_credentials : cli_credentials :=
  Cred (fun a => match a with
                 | Workstation => Slot CRED_SPECIFIED (Str [80; 67]) 0
                 | Username => Slot CRED_SPECIFIED (Str [117]) 0
                 | Password => Slot CRED_SPECIFIED (Str [112; 119]) 0
                 | Domain => Slot CRED_SPECIFIED (Str [87]) 0
                 | _ => Slot CRED_UNINITIALISED Null 0
                 end) Null Null Null false false CRED_AUTO_USE_KERBEROS 3 false.
Definition sample_account : account := Account ACB_NORMAL (Some (nt_owf [112; 119])) None (2 ^ 63) (2 ^ 63) 0 None.
Definition sample_sam : SamDb :=
  {| samdb_connects := true; search_account := fun _ _ => inr sample_account; server_info_status := fun _ => NT_STATUS_OK; lp_netbios_aliases := None |}.
Definition no_legacy : AuthPolicy := {| lp_lanman_auth := false; lp_ntlm_auth := false |}.
Definition sample_call : call_env :=
  Call calloc (FreshData 1200000000 (replicate 8 1) (replicate 8 2) (replicate 8 3)) (replicate 16 4) (replicate 8 5).
Definition sample_now : Z := 1200000000.
Definition sample_methods `{Host} `{Charsets} `{CaseTables} `{LoadParm} `{AuthPolicy} `{SamDb} : list auth_operations :=
  [anonymous_auth_ops; sam_ignoredomain_ops sample_now].

Lemma sample_ready : @client_ready no_tables sample_credentials (random sample_call) [117] [87] [112; 119] [80; 67].
Proof.
  split; [split| | | | | |].
  - split; [done|]. by intros [].
  - done. - done. - done. - done. - by_eval. - done.
  - unfold name_fits. split_and!; by_eval.
  - unfold name_fits. split_and!; by_eval.
  - done.
  - unfold text_ok. split_and!; by_eval.
  - split; by_eval.
  - repeat constructor; by_eval.
Qed.

Lemma sample_sam_account : @sam_account sample_sam sample_now [117] [80; 67] (nt_owf [112; 119]) None sample_account.
Proof.
  split; [done|done| |by_eval|done|done]. intros B mem. unfold samdb_result_passwords. cbn [ntPwdHash lmPwdHash sample_account samdb_result_hashes].
  rewrite mem. destruct (md4_digest (utf16s [112; 119])) as [_ Hl]. fold (nt_owf [112; 119]) in Hl. rewrite Hl. cbn [blocks]. 
  change (16 / 16)%nat with 1%nat. cbn [blocks]. by rewrite take_ge by lia.
Qed.

Lemma ntlmssp_handshake_witness :
  let run := fun (_ : nat) (c : cli_credentials) => Ret (c, Null) in
  let upd := @gensec_ntlmssp_update false utf8_charsets no_tables sample_parm run (fun c => Ret c) None in
  let methods := @sample_methods false utf8_charsets no_tables sample_parm no_legacy sample_sam in
  exists cst sst c1 m1 s1 m2 c2 m3 s2 key,
    @gensec_ntlmssp_client_start sample_parm GENSEC_FEATURE_SEAL true = inr cst /\
    @gensec_ntlmssp_server_start sample_parm no_legacy GENSEC_FEATURE_SEAL calloc methods (Some ["anonymous"%string; "sam_ignoredomain"%string]) = inr sst /\
    upd sample_call GENSEC_FEATURE_SEAL (Endpoint cst sample_credentials) [] = Ret (c1, NT_STATUS_MORE_PROCESSING_REQUIRED, m1) /\
    upd sample_call GENSEC_FEATURE_SEAL (Endpoint sst sample_credentials) m1 = Ret (s1, NT_STATUS_MORE_PROCESSING_REQUIRED, m2) /\
    upd sample_call GENSEC_FEATURE_SEAL c1 m2 = Ret (c2, NT_STATUS_OK, m3) /\
    upd sample_call GENSEC_FEATURE_SEAL s1 m3 = Ret (s2, NT_STATUS_OK, []) /\
    agreed (core (state c2)) (core (state s2)) key /\
    @delivers false utf8_charsets calloc (core (state c2)) (core (state s2)).
Proof.
  intros run upd methods.
  pose (ctx := Context (Challenge None false []) methods).
  assert (@ChecksNtlm false utf8_charsets no_tables no_legacy (Auth.methods ctx) [117] [87] [80; 67] (nt_owf [112; 119])) as checks
    by exact (@sam_checks_ntlm false utf8_charsets no_tables sample_parm no_legacy sample_sam sample_now [117] [87] [80; 67] (nt_owf [112; 119]) None
                sample_account sample_sam_account).
  destruct (@gensec_ntlmssp_client_start sample_parm GENSEC_FEATURE_SEAL true) as [e|cst] eqn:Hc; [done|].
  destruct (@gensec_ntlmssp_server_start sample_parm no_legacy GENSEC_FEATURE_SEAL calloc methods (Some ["anonymous"%string; "sam_ignoredomain"%string]))
    as [e|sst] eqn:Hs; [done|].
  destruct (@ntlmssp_handshake false utf8_charsets no_tables sample_parm no_legacy run (fun c => Ret c) None calloc calloc sample_call sample_call sample_call sample_call
    GENSEC_FEATURE_SEAL GENSEC_FEATURE_SEAL cst sst sample_credentials sample_credentials methods (Some ["anonymous"%string; "sam_ignoredomain"%string]) ctx
    [117] [87] [112; 119] [80; 67] checks)
    as (c1 & m1 & s1 & m2 & c2 & m3 & s2 & key & E1 & E2 & E3 & E4 & Hag & Hd);
    [by left|done|apply no_tables_upper|done|done|unfold text_ok; split_and!; by_eval..|done|done|done|done|done|done|exact Hc|done|exact Hs| |done|done|
     exact sample_ready| |by_eval|done|done|].
  - injection Hs as <-. reflexivity.
  - left. injection Hc as <-. reflexivity.
  - exists cst, sst, c1, m1, s1, m2, c2, m3, s2, key. split_and!; [reflexivity|reflexivity|exact E1|exact E2|exact E3|exact E4|exact Hag|by apply Hd].
Defined.
