(* ===== verification/Cnum.v ===== *)
(** strtol, strtoul and the %u conversion of the C library, which SIDs and object
    identifiers are read and printed with.  A long is 64 bits wide and a string is the
    list of its bytes without the terminator. *)

From S2P Require Import Prelude Ntstatus.

Definition isspace (c : Z) : bool := (c =? 32) || ((9 <=? c) && (c <=? 13)).
Definition isdigit (c : Z) : bool := (48 <=? c) && (c <=? 57).

Fixpoint skip_space (s : list Z) : list Z :=
  match s with
  | c :: s' => if isspace c then skip_space s' else s
  | [] => []
  end.

Definition read_sign (s : list Z) : bool * list Z :=
  match s with
  | c :: s' => if c =? 45 then (true, s') else if c =? 43 then (false, s') else (false, s)
  | [] => (false, s)
  end.

Fixpoint read_digits (acc : Z) (s : list Z) : Z * list Z :=
  match s with
  | c :: s' => if isdigit c then read_digits (10 * acc + (c - 48)) s' else (acc, s)
  | [] => (acc, [])
  end.

(** The sign and magnitude of the number a string starts with, and what follows it. *)
Definition number (s : list Z) : option (bool * Z * list Z) :=
  let '(neg, d) := read_sign (skip_space s) in
  match d with
  | c :: _ => if isdigit c then let '(v, r) := read_digits 0 d in Some (neg, v, r) else None
  | [] => None
  end.

(** The value, and the end pointer: the string itself if there is no number. *)
Definition strtol (s : list Z) : Z * list Z :=
  match number s with
  | None => (0, s)
  | Some (neg, v, r) => (Z.max (- 2 ^ 63) (Z.min (2 ^ 63 - 1) (if neg then - v else v)), r)
  end.

Definition strtoul (s : list Z) : Z * list Z :=
  match number s with
  | None => (0, s)
  | Some (neg, v, r) => (if 2 ^ 64 - 1 <? v then 2 ^ 64 - 1 else if neg then u64 (- v) else v, r)
  end.

(** %u and %lu: the decimal digits. *)
Fixpoint dec_loop (fuel : nat) (v : Z) (acc : list Z) : list Z :=
  match fuel with
  | O => acc
  | S fuel => if v <? 10 then (48 + v) :: acc else dec_loop fuel (v / 10) ((48 + v mod 10) :: acc)
  end.
Definition dec (v : Z) : list Z := dec_loop (S (Z.to_nat (Z.log2 v))) v [].

(** One snprintf of a sequence that fills a buffer of [maxlen] bytes from [ofs] on: the
    text so far and the next offset.  A print beyond the end writes no more than the
    room, and nothing once there is none; a negative room is a huge size_t. *)
Definition snprintf (maxlen : Z) (st : list Z * Z) (s : list Z) : outcome (list Z * Z) :=
  let '(text, ofs) := st in
  if maxlen <? ofs then Fault
  else Ret (text ++ take (Z.to_nat (maxlen - ofs - 1)) s, ofs + Z.of_nat (length s)).

(** ** Digits *)

Definition digits (s : list Z) : Prop := Forall (fun c => isdigit c = true) s.

(** A rest at which a number ends. *)
Definition no_digit (s : list Z) : Prop := match s with [] => True | c :: _ => isdigit c = false end.

Lemma isdigit_spec c : isdigit c = true <-> 48 <= c <= 57.
Proof. unfold isdigit. lia. Qed.

Lemma digit_of v : 0 <= v < 10 -> isdigit (48 + v) = true.
Proof. rewrite isdigit_spec. lia. Qed.

Lemma read_digits_app s rest acc :
  digits s -> no_digit rest -> read_digits acc (s ++ rest) = ((read_digits acc s).1, rest).
Proof.
  intros Hs Hr. revert acc. induction Hs as [|c s Hc Hs IH]; intros acc; cbn [app read_digits].
  - destruct rest as [|c rest]; [done|]. cbn in Hr |- *. by rewrite Hr.
  - by rewrite Hc, IH.
Qed.

Lemma read_digits_snoc s v acc :
  digits s -> 0 <= v < 10 -> (read_digits acc (s ++ [48 + v])).1 = 10 * (read_digits acc s).1 + v.
Proof.
  intros Hs Hv. revert acc. induction Hs as [|c s Hc Hs IH]; intros acc; cbn [app read_digits].
  - rewrite digit_of by done. cbn. lia.
  - by rewrite Hc, IH.
Qed.

Lemma dec_loop_acc fuel v acc : dec_loop fuel v acc = dec_loop fuel v [] ++ acc.
Proof.
  revert v acc. induction fuel as [|fuel IH]; intros v acc; cbn [dec_loop]; [done|].
  case_match; [done|]. rewrite (IH (v / 10) (_ :: acc)), (IH (v / 10) [_]). by rewrite <- app_assoc.
Qed.

(** Enough fuel: one round per binary digit. *)
Lemma dec_loop_spec fuel v :
  0 <= v < 2 ^ Z.of_nat fuel -> (0 < fuel)%nat ->
  digits (dec_loop fuel v []) /\ dec_loop fuel v [] <> [] /\ (read_digits 0 (dec_loop fuel v [])).1 = v.
Proof.
  revert v. induction fuel as [|fuel IH]; intros v Hv Hf; [lia|]. cbn [dec_loop].
  destruct (Z.ltb_spec v 10).
  - split_and!; [apply Forall_singleton, digit_of; lia|done|]. cbn [read_digits].
    rewrite digit_of by lia. cbn. lia.
  - rewrite dec_loop_acc. rewrite Nat2Z.inj_succ, Z.pow_succ_r in Hv by lia.
    destruct fuel as [|fuel]; [cbn in Hv; lia|].
    assert (0 <= v / 10 < 2 ^ Z.of_nat (S fuel)) as Hd by dlia.
    destruct (IH (v / 10) Hd ltac:(lia)) as (H1 & H2 & H3). split_and!.
    + apply Forall_app. split; [done|]. apply Forall_singleton, digit_of. dlia.
    + by destruct (dec_loop (S fuel) (v / 10) []).
    + rewrite read_digits_snoc by (done || dlia). rewrite H3. dlia.
Qed.

Lemma dec_fuel v : 0 <= v -> 0 <= v < 2 ^ Z.of_nat (S (Z.to_nat (Z.log2 v))).
Proof.
  intros Hv. split; [done|]. pose proof (Z.log2_nonneg v).
  replace (Z.of_nat _) with (Z.succ (Z.log2 v)) by lia.
  destruct (decide (v = 0)) as [->|]; [done|]. apply Z.log2_spec. lia.
Qed.

Lemma dec_digits v : 0 <= v -> digits (dec v).
Proof. intros Hv. apply (dec_loop_spec _ v (dec_fuel v Hv)). lia. Qed.
Lemma dec_nonempty v : 0 <= v -> dec v <> [].
Proof. intros Hv. apply (dec_loop_spec _ v (dec_fuel v Hv)). lia. Qed.
Lemma read_dec v : 0 <= v -> (read_digits 0 (dec v)).1 = v.
Proof. intros Hv. apply (dec_loop_spec _ v (dec_fuel v Hv)). lia. Qed.

(** A number below 10^n has at most n digits. *)
Lemma length_dec_loop fuel n v :
  0 <= v < 10 ^ Z.of_nat n -> (0 < n)%nat -> (length (dec_loop fuel v []) <= n)%nat.
Proof.
  revert n v. induction fuel as [|fuel IH]; intros n v Hv Hn; cbn [dec_loop]; [cbn; lia|].
  destruct (Z.ltb_spec v 10); [cbn; lia|]. rewrite dec_loop_acc, length_app. cbn [length].
  destruct n as [|n]; [lia|]. rewrite Nat2Z.inj_succ, Z.pow_succ_r in Hv by lia.
  destruct n as [|n]; [cbn in Hv; lia|].
  specialize (IH (S n) (v / 10) ltac:(dlia) ltac:(lia)). lia.
Qed.

Lemma length_dec32 v : is_u32 v -> (length (dec v) <= 10)%nat.
Proof. intros Hv. apply length_dec_loop; [|lia]. change (10 ^ Z.of_nat 10) with 10000000000. unfold is_u in Hv. lia. Qed.

Lemma isspace_digit c : isdigit c = true -> isspace c = false.
Proof. rewrite isdigit_spec. unfold isspace. lia. Qed.

Lemma skip_space_digits s rest : digits s -> s <> [] -> skip_space (s ++ rest) = s ++ rest.
Proof. intros [|c s' Hc _] Hne; [done|]. cbn [app skip_space]. by rewrite isspace_digit. Qed.

Lemma read_sign_digits s rest : digits s -> s <> [] -> read_sign (s ++ rest) = (false, s ++ rest).
Proof.
  intros [|c s' Hc _] Hne; [done|]. cbn [app read_sign]. apply isdigit_spec in Hc.
  repeat case_match; (lia || done).
Qed.

Lemma number_digits s rest :
  digits s -> s <> [] -> no_digit rest -> number (s ++ rest) = Some (false, (read_digits 0 s).1, rest).
Proof.
  intros Hs Hne Hr. unfold number. rewrite skip_space_digits, read_sign_digits, read_digits_app by done.
  destruct s as [|c s]; [done|]. cbn [app]. by rewrite (Forall_inv Hs).
Qed.

Lemma number_dec v rest : 0 <= v -> no_digit rest -> number (dec v ++ rest) = Some (false, v, rest).
Proof. intros Hv Hr. rewrite number_digits, read_dec; auto using dec_digits, dec_nonempty. Qed.

(** Reading back what %u printed. *)
Lemma strtol_dec v rest : 0 <= v < 2 ^ 63 -> no_digit rest -> strtol (dec v ++ rest) = (v, rest).
Proof. intros Hv Hr. unfold strtol. rewrite number_dec by (done || lia). f_equal. lia. Qed.

Lemma strtoul_dec v rest : 0 <= v < 2 ^ 64 -> no_digit rest -> strtoul (dec v ++ rest) = (v, rest).
Proof. intros Hv Hr. unfold strtoul. rewrite number_dec by (done || lia). case_match; [lia|done]. Qed.

Lemma strtol_space v rest : 0 <= v < 2 ^ 63 -> no_digit rest -> strtol (32 :: dec v ++ rest) = (v, rest).
Proof.
  intros Hv Hr. unfold strtol. change (number (32 :: dec v ++ rest)) with (number (dec v ++ rest)).
  rewrite number_dec by (done || lia). f_equal. lia.
Qed.

Lemma snprintf_fits maxlen text ofs s :
  ofs + Z.of_nat (length s) < maxlen ->
  snprintf maxlen (text, ofs) s = Ret (text ++ s, ofs + Z.of_nat (length s)).
Proof. intros H. unfold snprintf. case_match; [lia|]. by rewrite take_ge by lia. Qed.
