(* ===== verification/DomSid.v ===== *)
(** libcli/security/dom_sid.c: security identifiers, their comparison, their string form
    and the relative identifier at their end. *)

From stdpp Require Import strings.
From S2P Require Import Prelude Ntstatus Cnum Charcnv Unistr.
Import Unistr.

#[local] Open Scope outcome_scope.

Module DomSid.

(** [num_auths] is a signed byte, and the array may be longer than it says. *)
Record dom_sid := DomSid { sid_rev_num : Z; num_auths : Z; id_auth : list Z; sub_auths : list Z }.

(** A read of an array, and of its first [n] elements. *)
Definition rd (l : list Z) (i : nat) : outcome Z := match l !! i with Some x => Ret x | None => Fault end.
Definition rd_n (n : Z) (l : list Z) : outcome (list Z) :=
  if (n <? 0) || (Z.of_nat (length l) <? n) then Fault else Ret (take (Z.to_nat n) l).

(** The six bytes of the authority. *)
Fixpoint compare_id_auth (a1 a2 : list Z) : Z :=
  match a1, a2 with
  | x :: a1, y :: a2 => if negb (x =? y) then x - y else compare_id_auth a1 a2
  | _, _ => 0
  end.

(** A null pointer is [None].  The comparison of an object with itself returns 0 at once,
    which is what the comparison with an equal object returns. *)
Definition dom_sid_compare_auth (sid1 sid2 : option dom_sid) : Z :=
  match sid1, sid2 with
  | None, None => 0
  | None, _ => -1
  | _, None => 1
  | Some sid1, Some sid2 =>
      if negb (sid_rev_num sid1 =? sid_rev_num sid2) then sid_rev_num sid1 - sid_rev_num sid2
      else compare_id_auth (id_auth sid1) (id_auth sid2)
  end.

(** From the last sub-authority down: the difference of the first pair that differs. *)
Fixpoint compare_sub_auths (n : nat) (s1 s2 : list Z) : outcome (option Z) :=
  match n with
  | O => Ret None
  | S i =>
      let* x := rd s1 i in
      let* y := rd s2 i in
      if negb (x =? y) then Ret (Some (s32 (u32 (x - y)))) else compare_sub_auths i s1 s2
  end.

Definition dom_sid_compare (sid1 sid2 : option dom_sid) : outcome Z :=
  match sid1, sid2 with
  | None, None => Ret 0
  | None, _ => Ret (-1)
  | _, None => Ret 1
  | Some s1, Some s2 =>
      if negb (num_auths s1 =? num_auths s2) then Ret (num_auths s1 - num_auths s2)
      else
        let* d := compare_sub_auths (Z.to_nat (num_auths s1)) (sub_auths s1) (sub_auths s2) in
        Ret (default (dom_sid_compare_auth sid1 sid2) d)
  end.

Definition dom_sid_equal (sid1 sid2 : option dom_sid) : outcome bool :=
  let* c := dom_sid_compare sid1 sid2 in Ret (c =? 0).

(** The bytes of a string constant. *)
Definition str (s : string) : list Z := map (fun c => Z.of_N (Ascii.N_of_ascii c)) (String.list_ascii_of_string s).

Fixpoint parse_sub_auths (n : nat) (sidstr : list Z) (acc : list Z) : option (list Z) :=
  match n with
  | O => Some acc
  | S n =>
      match sidstr with
      | c :: sidstr =>
          if negb (c =? 45) then None
          else
            let '(v, p) := strtoul sidstr in
            if decide (length p = length sidstr) then None else parse_sub_auths n p (acc ++ [u32 v])
      | [] => None
      end
  end.

(** talloc_array refuses 2^26 words and more. *)
Definition MAX_WORDS : Z := 2 ^ 26.

Section sids.
Context (A : Allocator).

Definition dom_sid_parse_talloc (sidstr : list Z) : option dom_sid :=
  if negb (strcasecmp (take 2 sidstr) (str "S-") =? 0) then None
  else
    let sidstr := drop 2 sidstr in
    let '(rev, p) := strtol sidstr in
    match p with
    | [] => None
    | c :: sidstr =>
        if negb (c =? 45) then None
        else
          let '(ia, p) := strtol sidstr in
          let ia := u32 ia in
          if decide (length p = length sidstr) then None
          else
            let num_sub_auths := length (filter (fun c => c = 45) p) in
            if negb (@malloc_ok A 0) then None
            else if negb (@malloc_ok A 1) || (MAX_WORDS <=? Z.of_nat num_sub_auths) then None
            else
              match parse_sub_auths num_sub_auths p [] with
              | None => None
              | Some subs =>
                  Some (DomSid (u8 rev) (s8 (Z.of_nat num_sub_auths))
                          [0; 0; u8 (Z.shiftr ia 24); u8 (Z.shiftr ia 16); u8 (Z.shiftr ia 8); u8 ia] subs)
              end
    end.

Definition dom_sid_dup (sid : option dom_sid) : outcome (option dom_sid) :=
  match sid with
  | None => Ret None
  | Some s =>
      if negb (@malloc_ok A 0) then Ret None
      else if negb (@malloc_ok A 1) || (num_auths s <? 0) then Ret None
      else
        let* subs := rd_n (num_auths s) (sub_auths s) in
        Ret (Some (DomSid (sid_rev_num s) (num_auths s) (id_auth s) subs))
  end.

Definition dom_sid_add_rid (domain_sid : dom_sid) (rid : Z) : outcome (option dom_sid) :=
  if negb (@malloc_ok A 0) then Ret None
  else if negb (@malloc_ok A 1) || (num_auths domain_sid + 1 <? 0) then Ret None
  else
    let* subs := rd_n (num_auths domain_sid) (sub_auths domain_sid) in
    Ret (Some (DomSid (sid_rev_num domain_sid) (s8 (num_auths domain_sid + 1)) (id_auth domain_sid) (subs ++ [rid]))).

(** The domain keeps the array, and with it the last word. *)
Definition dom_sid_split_rid (sid : dom_sid) : outcome (NTSTATUS + (dom_sid * Z)) :=
  if num_auths sid =? 0 then Ret (inl NT_STATUS_INVALID_PARAMETER)
  else
    let* domain := dom_sid_dup (Some sid) in
    match domain with
    | None => Ret (inl NT_STATUS_NO_MEMORY)
    | Some d =>
        let n := s8 (num_auths d - 1) in
        let* rid := (if n <? 0 then Fault else rd (sub_auths d) (Z.to_nat n)) in
        Ret (inr (DomSid (sid_rev_num d) n (id_auth d) (sub_auths d), rid))
    end.

Fixpoint same_sub_auths (n : nat) (s1 s2 : list Z) : outcome bool :=
  match n with
  | O => Ret true
  | S i =>
      let* x := rd s1 i in
      let* y := rd s2 i in
      if negb (x =? y) then Ret false else same_sub_auths i s1 s2
  end.

Definition dom_sid_in_domain (domain_sid sid : option dom_sid) : outcome bool :=
  match domain_sid, sid with
  | Some d, Some s =>
      if num_auths s <? num_auths d then Ret false
      else
        let* same := same_sub_auths (Z.to_nat (num_auths d)) (sub_auths d) (sub_auths s) in
        Ret (same && (dom_sid_compare_auth domain_sid sid =? 0))
  | _, _ => Ret false
  end.

(** The authority that is printed: four of its six bytes. *)
Definition authority (id_auth : list Z) : Z :=
  match id_auth with
  | [_; _; a2; a3; a4; a5] => u32 (a5 + Z.shiftl a4 8 + Z.shiftl a3 16 + Z.shiftl a2 24)
  | _ => 0
  end.

Fixpoint print_sub_auths (n i : nat) (maxlen : Z) (subs : list Z) (st : list Z * Z) : outcome (list Z * Z) :=
  match n with
  | O => Ret st
  | S n =>
      let* v := rd subs i in
      let* st := snprintf maxlen st (45 :: dec v) in
      print_sub_auths n (S i) maxlen subs st
  end.

Definition strdup (k : nat) (s : list Z) : option (list Z) := if @malloc_ok A k then Some s else None.

Definition dom_sid_string (sid : option dom_sid) : outcome (option (list Z)) :=
  match sid with
  | None => Ret (strdup 0 (str "(NULL SID)"))
  | Some s =>
      let maxlen := num_auths s * 11 + 25 in
      if negb (@malloc_ok A 0) || (maxlen <? 0) then Ret (strdup 1 (str "(SID ERR)"))
      else
        let* st := snprintf maxlen ([], 0) (str "S-" ++ dec (sid_rev_num s) ++ str "-" ++ dec (authority (id_auth s))) in
        let* st := print_sub_auths (Z.to_nat (num_auths s)) 0 maxlen (sub_auths s) st in
        Ret (Some st.1)
  end.
End sids.
End DomSid.

Import DomSid.

(** ** The value of a SID *)

Record wf_sid (s : dom_sid) : Prop := {
  wf_rev : is_byte (sid_rev_num s);
  wf_num : 0 <= num_auths s < 128;
  wf_room : num_auths s <= Z.of_nat (length (sub_auths s));
  wf_words : Forall is_u32 (sub_auths s);
  wf_auth : length (id_auth s) = 6%nat;
  wf_auth_bytes : bytes (id_auth s)
}.

(** What a SID denotes: its array ends at the count. *)
Definition sid_value (s : dom_sid) : Z * list Z * list Z :=
  (sid_rev_num s, id_auth s, take (Z.to_nat (num_auths s)) (sub_auths s)).

#[export] Instance wf_sid_dec s : Decision (wf_sid s).
Proof.
  refine (cast_if_and5 (decide (is_byte (sid_rev_num s))) (decide (0 <= num_auths s < 128 /\ num_auths s <= Z.of_nat (length (sub_auths s))))
    (decide (Forall is_u32 (sub_auths s))) (decide (length (id_auth s) = 6%nat)) (decide (bytes (id_auth s))));
    abstract (first [by split; tauto | by intros []; tauto]).
Defined.

Lemma num_of_value s1 s2 : wf_sid s1 -> wf_sid s2 -> sid_value s1 = sid_value s2 -> num_auths s1 = num_auths s2.
Proof.
  intros [] [] E. apply (f_equal (fun v => length v.2)) in E. cbn in E. rewrite !length_take in E. lia.
Qed.

Lemma take_S_neq {A} (l1 l2 : list A) n x y :
  l1 !! n = Some x -> l2 !! n = Some y -> take (S n) l1 = take (S n) l2 <-> take n l1 = take n l2 /\ x = y.
Proof.
  intros H1 H2. rewrite !(take_S_r _ n _) by eassumption. split.
  - intros E. by apply app_inj_tail in E.
  - by intros [-> ->].
Qed.

Lemma compare_sub_auths_spec n s1 s2 :
  (n <= length s1)%nat -> (n <= length s2)%nat -> Forall is_u32 s1 -> Forall is_u32 s2 ->
  exists d, compare_sub_auths n s1 s2 = Ret d /\
    match d with None => take n s1 = take n s2 | Some z => z <> 0 /\ take n s1 <> take n s2 end.
Proof.
  intros H1 H2 F1 F2. induction n as [|n IH]; cbn [compare_sub_auths]; [by exists None|].
  destruct (lookup_lt_is_Some_2 s1 n ltac:(lia)) as [x Hx], (lookup_lt_is_Some_2 s2 n ltac:(lia)) as [y Hy].
  unfold rd. rewrite Hx, Hy. cbn [obind].
  pose proof (Forall_lookup_1 _ _ _ _ F1 Hx) as Bx. pose proof (Forall_lookup_1 _ _ _ _ F2 Hy) as By.
  destruct (Z.eqb_spec x y) as [->|Hne]; cbn [negb].
  - destruct (IH ltac:(lia) ltac:(lia)) as ([z|] & -> & Hd); eexists; split; try done; cbn beta iota in *.
    + destruct Hd. split; [done|]. rewrite take_S_neq by done. tauto.
    + by rewrite take_S_neq by done.
  - eexists. split; [done|]. cbn beta iota. rewrite take_S_neq by done. split; [|tauto].
    unfold s32, u32, is_u in *. dlia.
Qed.

Lemma same_sub_auths_spec n s1 s2 :
  (n <= length s1)%nat -> (n <= length s2)%nat -> same_sub_auths n s1 s2 = Ret (bool_decide (take n s1 = take n s2)).
Proof.
  intros H1 H2. induction n as [|n IH]; cbn [same_sub_auths]; [done|].
  destruct (lookup_lt_is_Some_2 s1 n ltac:(lia)) as [x Hx], (lookup_lt_is_Some_2 s2 n ltac:(lia)) as [y Hy].
  unfold rd. rewrite Hx, Hy. cbn [obind].
  destruct (Z.eqb_spec x y) as [->|Hne]; cbn [negb].
  - rewrite IH by lia. f_equal. apply bool_decide_ext. rewrite take_S_neq by done. tauto.
  - rewrite bool_decide_eq_false_2; [done|]. rewrite take_S_neq by done. tauto.
Qed.

Lemma compare_id_auth_spec a1 a2 : length a1 = length a2 -> compare_id_auth a1 a2 = 0 <-> a1 = a2.
Proof.
  revert a2. induction a1 as [|x a1 IH]; intros [|y a2] Hl; try done. cbn [compare_id_auth].
  destruct (Z.eqb_spec x y) as [->|Hne]; cbn [negb].
  - rewrite IH by (cbn in Hl; lia). split; [by intros ->|by intros [= ->]].
  - split; [lia|by intros [= -> _]].
Qed.

Lemma compare_auth_spec s1 s2 :
  wf_sid s1 -> wf_sid s2 ->
  dom_sid_compare_auth (Some s1) (Some s2) = 0 <-> sid_rev_num s1 = sid_rev_num s2 /\ id_auth s1 = id_auth s2.
Proof.
  intros [] []. cbn [dom_sid_compare_auth]. destruct (Z.eqb_spec (sid_rev_num s1) (sid_rev_num s2)) as [->|]; cbn [negb].
  - rewrite compare_id_auth_spec by congruence. tauto.
  - split; [lia|tauto].
Qed.

(** Equality is equality of values. *)
Lemma sid_equal_spec s1 s2 :
  wf_sid s1 -> wf_sid s2 -> dom_sid_equal (Some s1) (Some s2) = Ret (bool_decide (sid_value s1 = sid_value s2)).
Proof.
  intros W1 W2. unfold dom_sid_equal, dom_sid_compare.
  destruct (Z.eqb_spec (num_auths s1) (num_auths s2)) as [En|Hne]; cbn [negb obind].
  - pose proof W1 as []. pose proof W2 as [].
    destruct (compare_sub_auths_spec (Z.to_nat (num_auths s1)) (sub_auths s1) (sub_auths s2)) as (d & -> & Hd); [lia|lia|done|done|].
    cbn [obind]. f_equal. destruct d as [z|]; cbn [default].
    + destruct Hd as [Hz Hd]. rewrite bool_decide_eq_false_2; [by apply Z.eqb_neq|].
      unfold sid_value. rewrite <- En. congruence.
    + destruct (Z.eqb_spec (dom_sid_compare_auth (Some s1) (Some s2)) 0) as [E|E]; cbn [default from_option].
      * apply compare_auth_spec in E as [E1 E2]; [|done..]. symmetry. apply bool_decide_eq_true. unfold sid_value. congruence.
      * symmetry. apply bool_decide_eq_false. intros Hv. apply E, compare_auth_spec; [done..|]. unfold sid_value in Hv. split; congruence.
  - f_equal. rewrite bool_decide_eq_false_2; [apply Z.eqb_neq; lia|]. intros Hv. by apply Hne, num_of_value.
Qed.

(** ** The string form *)

(** The text of the sub-authorities, and of a SID with the authority word [ia]. *)
Definition sub_auths_text (subs : list Z) : list Z := concat (map (fun v => 45 :: dec v) subs).
Definition sid_text (rev ia : Z) (subs : list Z) : list Z :=
  (str "S-" ++ dec rev ++ str "-" ++ dec ia) ++ sub_auths_text subs.

Lemma print_sub_auths_text n i maxlen subs text ofs :
  (i + n <= length subs)%nat -> Forall is_u32 subs -> ofs <= 23 + 11 * Z.of_nat i -> 24 + 11 * Z.of_nat (i + n) < maxlen ->
  exists ofs', print_sub_auths n i maxlen subs (text, ofs) = Ret (text ++ sub_auths_text (take n (drop i subs)), ofs').
Proof.
  revert i text ofs. induction n as [|n IH]; intros i text ofs Hn F Ho Hm; cbn [print_sub_auths].
  - exists ofs. by rewrite take_0, app_nil_r.
  - destruct (lookup_lt_is_Some_2 subs i ltac:(lia)) as [v Hv]. unfold rd. rewrite Hv. cbn [obind].
    pose proof (length_dec32 v (Forall_lookup_1 _ _ _ _ F Hv)).
    rewrite snprintf_fits by (cbn [length]; lia). cbn [obind].
    destruct (IH (S i) (text ++ 45 :: dec v) (ofs + Z.of_nat (length (45 :: dec v)))) as (ofs' & ->); [lia|done|cbn [length]; lia|lia|].
    exists ofs'. rewrite (drop_S subs v i) by done. cbn [take sub_auths_text map concat]. by rewrite <- app_assoc.
Qed.

Lemma authority_range a : is_u32 (authority a).
Proof.
  unfold authority. repeat case_match;
    match goal with |- is_u _ 0 => by_eval | |- _ => apply u32_range end.
Qed.

Lemma length_header rev ia :
  is_byte rev -> is_u32 ia -> Z.of_nat (length (str "S-" ++ dec rev ++ str "-" ++ dec ia)) <= 23.
Proof.
  intros Hr Hi. pose proof (length_dec32 ia Hi). pose proof (length_dec32 rev ltac:(unfold is_u in *; lia)).
  rewrite !length_app. change (length (str "S-")) with 2%nat. change (length (str "-")) with 1%nat. lia.
Qed.

Lemma dom_sid_string_text A s :
  wf_sid s -> malloc_always A ->
  dom_sid_string A (Some s) =
    Ret (Some (sid_text (sid_rev_num s) (authority (id_auth s)) (take (Z.to_nat (num_auths s)) (sub_auths s)))).
Proof.
  intros [] mem. unfold dom_sid_string. rewrite mem. cbn [negb orb].
  assert ((num_auths s * 11 + 25 <? 0) = false) as -> by lia.
  pose proof (length_header (sid_rev_num s) (authority (id_auth s)) wf_rev0 (authority_range _)).
  rewrite snprintf_fits by lia. cbn [obind].
  destruct (print_sub_auths_text (Z.to_nat (num_auths s)) 0 (num_auths s * 11 + 25) (sub_auths s)
    ([] ++ str "S-" ++ dec (sid_rev_num s) ++ str "-" ++ dec (authority (id_auth s)))
    (0 + Z.of_nat (length (str "S-" ++ dec (sid_rev_num s) ++ str "-" ++ dec (authority (id_auth s)))))) as (ofs' & ->).
  - lia.
  - done.
  - lia.
  - lia.
  - by rewrite drop_0.
Qed.

Lemma sub_auths_text_no_digit subs : no_digit (sub_auths_text subs).
Proof. by destruct subs. Qed.

Lemma dashes_in_digits s : digits s -> filter (fun c => c = 45) s = [].
Proof.
  induction 1 as [|c s Hc Hs IH]; [done|]. rewrite filter_cons_False; [done|]. apply isdigit_spec in Hc. lia.
Qed.

Lemma dashes_in_text subs : Forall is_u32 subs -> length (filter (fun c => c = 45) (sub_auths_text subs)) = length subs.
Proof.
  unfold sub_auths_text. induction 1 as [|v subs Hv Hs IH]; [done|]. cbn [map concat app]. rewrite filter_cons_True by done.
  rewrite list.filter_app, dashes_in_digits by (apply dec_digits; unfold is_u in Hv; lia). cbn [app length]. by rewrite IH.
Qed.

Lemma parse_sub_auths_text subs acc :
  Forall is_u32 subs -> parse_sub_auths (length subs) (sub_auths_text subs) acc = Some (acc ++ subs).
Proof.
  intros F. revert acc. induction F as [|v subs Hv F IH]; intros acc; [by rewrite app_nil_r|].
  cbn [length sub_auths_text map concat app parse_sub_auths]. fold (sub_auths_text subs).
  change (45 =? 45) with true. cbn [negb].
  rewrite strtoul_dec by (apply sub_auths_text_no_digit || (unfold is_u in Hv; lia)).
  rewrite decide_False.
  - rewrite IH, u32_id by done. by rewrite <- app_assoc.
  - rewrite length_app. pose proof (dec_nonempty v ltac:(unfold is_u in Hv; lia)). destruct (dec v); [done|]. cbn. lia.
Qed.

(** The last four bytes of the authority are those of the word. *)
Lemma authority_bytes a :
  length a = 6%nat -> bytes a ->
  [0; 0; u8 (Z.shiftr (authority a) 24); u8 (Z.shiftr (authority a) 16); u8 (Z.shiftr (authority a) 8); u8 (authority a)]
  = 0 :: 0 :: drop 2 a.
Proof.
  intros Hl Hb. do 6 (destruct a as [|? a]; [done|]). destruct a; [|done]. cbn [drop authority].
  rewrite !Forall_cons_iff in Hb. destruct Hb as (? & ? & ? & ? & ? & ? & _).
  unfold is_u in *. rewrite !Z.shiftl_mul_pow2, !Z.shiftr_div_pow2 by lia.
  unfold u8, u32. repeat f_equal; dlia.
Qed.

Lemma parse_sid_text A rev ia subs :
  malloc_always A -> is_byte rev -> is_u32 ia -> Forall is_u32 subs -> (length subs < 128)%nat ->
  dom_sid_parse_talloc A (sid_text rev ia subs) =
    Some (DomSid rev (Z.of_nat (length subs)) [0; 0; u8 (Z.shiftr ia 24); u8 (Z.shiftr ia 16); u8 (Z.shiftr ia 8); u8 ia] subs).
Proof.
  intros mem Hr Hi F Hn. unfold dom_sid_parse_talloc, sid_text. rewrite <- !app_assoc.
  change (take 2 (str "S-" ++ ?x)) with (str "S-"). change (strcasecmp (str "S-") (str "S-") =? 0) with true.
  change (drop 2 (str "S-" ++ ?x)) with x. cbn [negb].
  rewrite strtol_dec by (done || (unfold is_u in Hr; lia)). change (str "-") with [45]. cbn [app].
  change (45 =? 45) with true. cbn [negb].
  rewrite strtol_dec by (apply sub_auths_text_no_digit || (unfold is_u in Hi; lia)).
  rewrite decide_False; cycle 1.
  { rewrite length_app. pose proof (dec_nonempty ia ltac:(unfold is_u in Hi; lia)). destruct (dec ia); [done|]. cbn. lia. }
  rewrite !mem, dashes_in_text by done. cbn [negb orb]. unfold MAX_WORDS.
  assert ((2 ^ 26 <=? Z.of_nat (length subs)) = false) as -> by lia.
  rewrite parse_sub_auths_text, u32_id, u8_id by done. cbn [app]. do 2 f_equal. unfold s8. rewrite Z.mod_small by lia. lia.
Qed.

(** What printing and parsing leaves of a SID: the first two bytes of the authority are
    lost, and the array ends at the count. *)
Definition printed (s : dom_sid) : dom_sid :=
  DomSid (sid_rev_num s) (num_auths s) (0 :: 0 :: drop 2 (id_auth s)) (take (Z.to_nat (num_auths s)) (sub_auths s)).

Lemma sid_string_parse A s :
  wf_sid s -> malloc_always A ->
  exists text, dom_sid_string A (Some s) = Ret (Some text) /\ dom_sid_parse_talloc A text = Some (printed s).
Proof.
  intros W mem. eexists. split; [by apply dom_sid_string_text|]. pose proof W as [].
  assert (length (take (Z.to_nat (num_auths s)) (sub_auths s)) = Z.to_nat (num_auths s)) as Hl by (rewrite length_take; lia).
  rewrite parse_sid_text; [|done|done|apply authority_range|by apply Forall_take|lia].
  rewrite authority_bytes by done. unfold printed. rewrite Hl. do 2 f_equal. lia.
Qed.

Lemma wf_printed s : wf_sid s -> wf_sid (printed s).
Proof.
  intros []. constructor; cbn; [done|done|rewrite length_take; lia|by apply Forall_take| |].
  - rewrite length_drop. lia.
  - do 2 (apply Forall_cons; [by_eval|]). by apply Forall_drop.
Qed.

Lemma printed_value s :
  wf_sid s -> sid_value (printed s) = sid_value s <-> take 2 (id_auth s) = [0; 0].
Proof.
  intros []. unfold sid_value. cbn [printed sid_rev_num id_auth num_auths sub_auths]. rewrite take_take, Nat.min_id.
  destruct (id_auth s) as [|x [|y l]]; [done..|]. cbn [take drop]. split; [by intros [= <- <-]|by intros [= -> ->]].
Qed.

(** ** The relative identifier *)

Definition add_rid (d : dom_sid) (rid : Z) : dom_sid :=
  DomSid (sid_rev_num d) (num_auths d + 1) (id_auth d) (take (Z.to_nat (num_auths d)) (sub_auths d) ++ [rid]).

Lemma rd_n_take n l : 0 <= n <= Z.of_nat (length l) -> rd_n n l = Ret (take (Z.to_nat n) l).
Proof. intros Hn. unfold rd_n. case_match; [lia|done]. Qed.

Lemma dom_sid_add_rid_ok A d rid :
  malloc_always A -> wf_sid d -> num_auths d < 127 -> dom_sid_add_rid A d rid = Ret (Some (add_rid d rid)).
Proof.
  intros mem [] Hn. unfold dom_sid_add_rid. rewrite !mem. cbn [negb orb].
  assert ((num_auths d + 1 <? 0) = false) as -> by lia. rewrite rd_n_take by lia. cbn [obind].
  do 2 f_equal. unfold add_rid. f_equal. unfold s8. rewrite Z.mod_small; lia.
Qed.

Lemma wf_add_rid d rid : wf_sid d -> num_auths d < 127 -> is_u32 rid -> wf_sid (add_rid d rid).
Proof.
  intros [] Hn Hr. constructor; cbn; [done|lia| | |done|done].
  - rewrite length_app, length_take. cbn. lia.
  - apply Forall_app. split; [by apply Forall_take|by apply Forall_singleton].
Qed.

(** A SID is in a domain when its sub-authorities extend those of the domain. *)
Definition subs_of (s : dom_sid) : list Z := take (Z.to_nat (num_auths s)) (sub_auths s).
Definition in_domain (d s : dom_sid) : Prop :=
  sid_rev_num d = sid_rev_num s /\ id_auth d = id_auth s /\ subs_of d `prefix_of` subs_of s.
#[export] Instance in_domain_dec d s : Decision (in_domain d s).
Proof. unfold in_domain. apply _. Defined.

Lemma length_subs_of s : wf_sid s -> length (subs_of s) = Z.to_nat (num_auths s).
Proof. intros []. unfold subs_of. rewrite length_take. lia. Qed.

Lemma in_domain_spec d s :
  wf_sid d -> wf_sid s -> dom_sid_in_domain (Some d) (Some s) = Ret (bool_decide (in_domain d s)).
Proof.
  intros Wd Ws. pose proof (length_subs_of d Wd) as Ld. pose proof (length_subs_of s Ws) as Ls.
  pose proof Wd as []. pose proof Ws as [].
  unfold dom_sid_in_domain. destruct (Z.ltb_spec (num_auths s) (num_auths d)) as [Hlt|Hge].
  - rewrite bool_decide_eq_false_2; [done|]. intros (_ & _ & Hp%prefix_length). lia.
  - rewrite same_sub_auths_spec by lia. cbn [obind]. f_equal. apply Bool.eq_iff_eq_true.
    rewrite andb_true_iff, !bool_decide_eq_true, Z.eqb_eq, compare_auth_spec by done. unfold in_domain.
    assert (take (Z.to_nat (num_auths d)) (sub_auths s) = take (Z.to_nat (num_auths d)) (subs_of s)) as ->
      by (unfold subs_of; rewrite take_take; f_equal; lia).
    fold (subs_of d). split; [intros [E [? ?]]|intros (? & ? & [k E])]; split_and!; try done.
    + exists (drop (Z.to_nat (num_auths d)) (subs_of s)). rewrite E. symmetry. apply take_drop.
    + rewrite E, take_app_length'; [done|lia].
Qed.

Lemma split_add_rid A d rid :
  malloc_always A -> wf_sid d -> num_auths d < 127 ->
  dom_sid_split_rid A (add_rid d rid) =
    Ret (inr (DomSid (sid_rev_num d) (num_auths d) (id_auth d) (sub_auths (add_rid d rid)), rid)).
Proof.
  intros mem W Hn. pose proof (length_subs_of d W) as Ld. destruct W. unfold dom_sid_split_rid, dom_sid_dup.
  cbn [add_rid num_auths sub_auths sid_rev_num id_auth]. fold (subs_of d).
  destruct (Z.eqb_spec (num_auths d + 1) 0) as [|_]; [lia|]. rewrite !mem. cbn [negb orb].
  assert ((num_auths d + 1 <? 0) = false) as -> by lia.
  rewrite rd_n_take by (rewrite length_app; cbn; lia). cbn [obind num_auths].
  assert (s8 (num_auths d + 1 - 1) = num_auths d) as -> by (unfold s8; rewrite Z.mod_small; lia).
  assert ((num_auths d <? 0) = false) as -> by lia. cbn [sub_auths sid_rev_num id_auth].
  rewrite take_ge by (rewrite length_app; cbn; lia).
  unfold rd. rewrite lookup_app_r, Ld by lia. by rewrite Nat.sub_diag.
Qed.

(** Of a well-formed SID, the string form is always produced and parses back; the SID
    parsed is equal to the original exactly when the first two bytes of the authority are
    zero.  Adding a relative identifier gives a SID of the domain, and splitting that SID
    gives the domain and the identifier back. *)
Theorem dom_sid_roundtrips A s rid :
  wf_sid s -> malloc_always A ->
  (exists text s', dom_sid_string A (Some s) = Ret (Some text) /\ dom_sid_parse_talloc A text = Some s' /\ wf_sid s' /\
     dom_sid_equal (Some s') (Some s) = Ret (bool_decide (take 2 (id_auth s) = [0; 0]))) /\
  (num_auths s < 127 -> is_u32 rid ->
     exists full d, dom_sid_add_rid A s rid = Ret (Some full) /\ wf_sid full /\
       dom_sid_in_domain (Some s) (Some full) = Ret true /\
       dom_sid_split_rid A full = Ret (inr (d, rid)) /\ dom_sid_equal (Some d) (Some s) = Ret true).
Proof.
  intros W mem. pose proof (length_subs_of s W) as Ls. split.
  - destruct (sid_string_parse A s W mem) as (text & E1 & E2). exists text, (printed s).
    split_and!; [done|done|by apply wf_printed|]. rewrite sid_equal_spec by auto using wf_printed.
    f_equal. apply bool_decide_ext, printed_value, W.
  - intros Hn Hr. pose proof (wf_add_rid s rid W Hn Hr) as Wf.
    eexists _, _. split_and!; [by apply dom_sid_add_rid_ok|done| |by apply split_add_rid|].
    + rewrite in_domain_spec by done. f_equal. apply bool_decide_eq_true. split_and!; [done|done|].
      unfold subs_of at 2. cbn [add_rid num_auths sub_auths]. fold (subs_of s).
      rewrite take_ge by (rewrite length_app; cbn; destruct W; lia). by exists [rid].
    + rewrite sid_equal_spec; [|destruct Wf, W; constructor; cbn in *; auto; lia|done].
      f_equal. apply bool_decide_eq_true. unfold sid_value. cbn. fold (subs_of s).
      by rewrite take_app_length' by done.
Qed.

(** S-1-5-32-544, and its domain. *)
Definition builtin_administrators : dom_sid := DomSid 1 2 [0; 0; 0; 0; 0; 5] [32; 544].

Lemma dom_sid_roundtrips_witness :
  dom_sid_string calloc (Some builtin_administrators) = Ret (Some (str "S-1-5-32-544")) /\
  (exists full d, dom_sid_add_rid calloc builtin_administrators 7 = Ret (Some full) /\ wf_sid full /\
     dom_sid_in_domain (Some builtin_administrators) (Some full) = Ret true /\
     dom_sid_split_rid calloc full = Ret (inr (d, 7)) /\ dom_sid_equal (Some d) (Some builtin_administrators) = Ret true).
Proof.
  split; [vm_compute; reflexivity|].
  refine (proj2 (dom_sid_roundtrips calloc builtin_administrators 7 _ _) _ _); [by_eval|by intros n|reflexivity|by_eval].
Defined.
