(* ===== verification/Security.v ===== *)
(** libcli/security: privilege.c, security_token.c and security_descriptor.c.  What a
    user holds, and what guards an object. *)

From stdpp Require Import strings.
From S2P Require Import Prelude Ntstatus Cnum Charcnv Unistr DomSid.
Import Unistr DomSid.

#[local] Open Scope outcome_scope.

Module Security.

(** ** Privileges *)

Definition SEC_PRIV_SECURITY : Z := 1.
Definition SEC_PRIV_RESTORE : Z := 3.

Definition privilege_names : list (Z * string * string) :=
  [(1, "SeSecurityPrivilege", "System security");
   (2, "SeBackupPrivilege", "Backup files and directories");
   (3, "SeRestorePrivilege", "Restore files and directories");
   (4, "SeSystemtimePrivilege", "Set the system clock");
   (5, "SeShutdownPrivilege", "Shutdown the system");
   (6, "SeRemoteShutdownPrivilege", "Shutdown the system remotely");
   (7, "SeTakeOwnershipPrivilege", "Take ownership of files and directories");
   (8, "SeDebugPrivilege", "Debug processes");
   (9, "SeSystemEnvironmentPrivilege", "Modify system environment");
   (10, "SeSystemProfilePrivilege", "Profile the system");
   (11, "SeProfileSingleProcessPrivilege", "Profile one process");
   (12, "SeIncreaseBasePriorityPrivilege", "Increase base priority");
   (13, "SeLoadDriverPrivilege", "Load drivers");
   (14, "SeCreatePagefilePrivilege", "Create page files");
   (15, "SeIncreaseQuotaPrivilege", "Increase quota");
   (16, "SeChangeNotifyPrivilege", "Register for change notify");
   (17, "SeUndockPrivilege", "Undock devices");
   (18, "SeManageVolumePrivilege", "Manage system volumes");
   (19, "SeImpersonatePrivilege", "Impersonate users");
   (20, "SeCreateGlobalPrivilege", "Create global");
   (21, "SeEnableDelegationPrivilege", "Enable Delegation");
   (22, "SeInteractiveLogonRight", "Interactive logon");
   (23, "SeNetworkLogonRight", "Network logon");
   (24, "SeRemoteInteractiveLogonRight", "Remote Interactive logon")]%string.

Definition sec_privilege_name (privilege : Z) : option (list Z) :=
  (fun p => str p.1.2) <$> List.find (fun p => p.1.1 =? privilege) privilege_names.

Definition sec_privilege_display_name (privilege : Z) : option (list Z) :=
  if (privilege <? 1) || (64 <? privilege) then None
  else (fun p => str p.2) <$> List.find (fun p => p.1.1 =? privilege) privilege_names.

Definition sec_privilege_id (name : list Z) : Z :=
  match List.find (fun p => strcasecmp (str p.1.2) name =? 0) privilege_names with
  | Some p => p.1.1
  | None => -1
  end.

Definition sec_privilege_mask (privilege : Z) : Z :=
  if (privilege <? 1) || (64 <? privilege) then 0 else u64 (Z.shiftl 1 (privilege - 1)).

(** ** Tokens *)

(** [sids] is an array of pointers; a null array has no entry. *)
Record security_token := SecurityToken {
  user_sid : option dom_sid;
  token_group_sid : option dom_sid;
  num_sids : Z;
  sids : list (option dom_sid);
  privilege_mask : Z
}.

Definition security_token_initialise (A : Allocator) : option security_token :=
  if @malloc_ok A 0 then Some (SecurityToken None None 0 [] 0) else None.

Definition security_token_has_privilege (token : security_token) (privilege : Z) : bool :=
  if (privilege <? 1) || (64 <? privilege) then false
  else negb (Z.land (privilege_mask token) (sec_privilege_mask privilege) =? 0).

Definition security_token_set_privilege (token : security_token) (privilege : Z) : security_token :=
  if (privilege <? 1) || (64 <? privilege) then token
  else SecurityToken (user_sid token) (token_group_sid token) (num_sids token) (sids token)
         (Z.lor (privilege_mask token) (sec_privilege_mask privilege)).

Definition security_token_is_sid (token : security_token) (sid : option dom_sid) : outcome bool :=
  dom_sid_equal (user_sid token) sid.

Fixpoint has_sid_loop (n i : nat) (l : list (option dom_sid)) (sid : option dom_sid) : outcome bool :=
  match n with
  | O => Ret false
  | S n =>
      match l !! i with
      | None => Fault
      | Some s => let* e := dom_sid_equal s sid in if (e : bool) then Ret true else has_sid_loop n (S i) l sid
      end
  end.

Definition security_token_has_sid (token : security_token) (sid : option dom_sid) : outcome bool :=
  has_sid_loop (Z.to_nat (num_sids token)) 0 (sids token) sid.

(** A string that does not parse, or an allocation that fails, is no SID of the token. *)
Definition on_sid_string (A : Allocator) (f : option dom_sid -> outcome bool) (sid_string : list Z) : outcome bool :=
  match dom_sid_parse_talloc A sid_string with None => Ret false | Some sid => f (Some sid) end.

Definition security_token_is_sid_string (A : Allocator) (token : security_token) := on_sid_string A (security_token_is_sid token).
Definition security_token_is_system (A : Allocator) (token : security_token) := security_token_is_sid_string A token (str "S-1-5-18").
Definition security_token_is_anonymous (A : Allocator) (token : security_token) := security_token_is_sid_string A token (str "S-1-5-7").
Definition security_token_has_sid_string (A : Allocator) (token : security_token) := on_sid_string A (security_token_has_sid token).
Definition security_token_has_builtin_administrators (A : Allocator) (token : security_token) := security_token_has_sid_string A token (str "S-1-5-32-544").
Definition security_token_has_nt_authenticated_users (A : Allocator) (token : security_token) := security_token_has_sid_string A token (str "S-1-5-11").

(** ** Descriptors *)

Definition SEC_ACE_TYPE_ACCESS_ALLOWED : Z := 0.
Definition SEC_ACE_TYPE_ACCESS_DENIED : Z := 1.
Definition SEC_ACE_TYPE_ACCESS_DENIED_OBJECT : Z := 6.
Definition SEC_ACE_FLAG_INHERIT_ONLY : Z := 0x08.
Definition NT4_ACL_REVISION : Z := 2.
Definition SD_REVISION : Z := 1.
Definition SEC_DESC_DACL_PRESENT : Z := 0x0004.
Definition SEC_DESC_SACL_PRESENT : Z := 0x0010.
Definition SEC_DESC_SELF_RELATIVE : Z := 0x8000.

(** The size field, which the marshalling computes, and the GUIDs of object entries are
    copied and never read. *)
Record security_ace := SecurityAce { ace_type : Z; ace_flags : Z; access_mask : Z; trustee : dom_sid }.
Record security_acl := SecurityAcl { acl_revision : Z; acl_size : Z; num_aces : Z; aces : list security_ace }.
Record security_descriptor := SecurityDescriptor {
  revision : Z;
  sd_type : Z;
  owner_sid : option dom_sid;
  group_sid : option dom_sid;
  sacl : option security_acl;
  dacl : option security_acl
}.

Definition set_dacl (sd : security_descriptor) (type : Z) (acl : option security_acl) : security_descriptor :=
  SecurityDescriptor (revision sd) type (owner_sid sd) (group_sid sd) (sacl sd) acl.

Definition rd_ace (acl : security_acl) (i : nat) : outcome security_ace :=
  match aces acl !! i with Some a => Ret a | None => Fault end.

Definition security_ace_equal (ace1 ace2 : security_ace) : outcome bool :=
  if negb (ace_type ace1 =? ace_type ace2) then Ret false
  else if negb (ace_flags ace1 =? ace_flags ace2) then Ret false
  else if negb (access_mask ace1 =? access_mask ace2) then Ret false
  else dom_sid_equal (Some (trustee ace1)) (Some (trustee ace2)).

Fixpoint aces_equal (n i : nat) (acl1 acl2 : security_acl) : outcome bool :=
  match n with
  | O => Ret true
  | S n =>
      let* a := rd_ace acl1 i in
      let* b := rd_ace acl2 i in
      let* e := security_ace_equal a b in
      if (e : bool) then aces_equal n (S i) acl1 acl2 else Ret false
  end.

Definition security_acl_equal (acl1 acl2 : option security_acl) : outcome bool :=
  match acl1, acl2 with
  | None, None => Ret true
  | Some acl1, Some acl2 =>
      if negb (acl_revision acl1 =? acl_revision acl2) then Ret false
      else if negb (num_aces acl1 =? num_aces acl2) then Ret false
      else aces_equal (Z.to_nat (num_aces acl1)) 0 acl1 acl2
  | _, _ => Ret false
  end.

(** A test that returns False unless it succeeds. *)
Definition andalso (t k : outcome bool) : outcome bool := let* b := t in if (b : bool) then k else Ret false.

Definition security_descriptor_equal (sd1 sd2 : option security_descriptor) : outcome bool :=
  match sd1, sd2 with
  | None, None => Ret true
  | Some sd1, Some sd2 =>
      if negb (revision sd1 =? revision sd2) then Ret false
      else if negb (sd_type sd1 =? sd_type sd2) then Ret false
      else
        andalso (dom_sid_equal (owner_sid sd1) (owner_sid sd2))
          (andalso (dom_sid_equal (group_sid sd1) (group_sid sd2))
             (andalso (security_acl_equal (sacl sd1) (sacl sd2)) (security_acl_equal (dacl sd1) (dacl sd2))))
  | _, _ => Ret false
  end.

Definition has (mask bits : Z) : bool := negb (Z.land mask bits =? 0).

Definition security_descriptor_mask_equal (sd1 sd2 : option security_descriptor) (mask : Z) : outcome bool :=
  match sd1, sd2 with
  | None, None => Ret true
  | Some sd1, Some sd2 =>
      if negb (revision sd1 =? revision sd2) then Ret false
      else if negb (Z.land (sd_type sd1) mask =? Z.land (sd_type sd2) mask) then Ret false
      else
        andalso (dom_sid_equal (owner_sid sd1) (owner_sid sd2))
          (andalso (dom_sid_equal (group_sid sd1) (group_sid sd2))
             (andalso (if has mask SEC_DESC_DACL_PRESENT then security_acl_equal (dacl sd1) (dacl sd2) else Ret true)
                (if has mask SEC_DESC_SACL_PRESENT then security_acl_equal (sacl sd1) (sacl sd2) else Ret true)))
  | _, _ => Ret false
  end.

(** talloc_memdup of the trustee's words: a negative count is a huge size, and a count
    beyond the array copies what lies after it. *)
Definition own_trustee (k : nat) (A : Allocator) (ace : security_ace) : outcome (option security_ace) :=
  let t := trustee ace in
  if negb (@malloc_ok A k) || (num_auths t <? 0) then Ret None
  else
    let* subs := rd_n (num_auths t) (sub_auths t) in
    Ret (Some (SecurityAce (ace_type ace) (ace_flags ace) (access_mask ace)
                 (DomSid (sid_rev_num t) (num_auths t) (id_auth t) subs))).

Section descriptors.
Context (A : Allocator).

Definition security_descriptor_initialise : option security_descriptor :=
  if @malloc_ok A 0 then Some (SecurityDescriptor SD_REVISION SEC_DESC_SELF_RELATIVE None None None None) else None.

Definition security_descriptor_dacl_add (sd : security_descriptor) (ace : security_ace) : outcome (security_descriptor * NTSTATUS) :=
  let grown acl :=
    if negb (@malloc_ok A 1) then
      Ret (set_dacl sd (sd_type sd) (Some (SecurityAcl (acl_revision acl) (acl_size acl) (num_aces acl) [])), NT_STATUS_NO_MEMORY)
    else
      let kept := take (Z.to_nat (num_aces acl)) (aces acl) in
      let* own := own_trustee 2 A ace in
      match own with
      | None =>
          Ret (set_dacl sd (sd_type sd) (Some (SecurityAcl (acl_revision acl) (acl_size acl) (num_aces acl) kept)), NT_STATUS_NO_MEMORY)
      | Some own =>
          Ret (set_dacl sd (Z.lor (sd_type sd) SEC_DESC_DACL_PRESENT)
                 (Some (SecurityAcl (acl_revision acl) (acl_size acl) (u32 (num_aces acl + 1)) (kept ++ [own]))), NT_STATUS_OK)
      end in
  match dacl sd with
  | Some acl => grown acl
  | None =>
      if negb (@malloc_ok A 0) then Ret (sd, NT_STATUS_NO_MEMORY) else grown (SecurityAcl NT4_ACL_REVISION 0 0 [])
  end.

(** The entries from [i] on are searched. *)
Fixpoint dacl_del_loop (n i : nat) (sd : security_descriptor) (acl : security_acl) (trustee_sid : option dom_sid)
    : outcome (security_descriptor * NTSTATUS) :=
  match n with
  | O => Ret (sd, NT_STATUS_OBJECT_NAME_NOT_FOUND)
  | S n =>
      let* ace := rd_ace acl i in
      let* e := dom_sid_equal trustee_sid (Some (trustee ace)) in
      if (e : bool) then
        if Z.of_nat (length (aces acl)) <? num_aces acl then Fault else
        let left := take i (aces acl) ++ slice (S i) (Z.to_nat (num_aces acl) - S i) (aces acl) in
        let num := num_aces acl - 1 in
        Ret (set_dacl sd (sd_type sd) (Some (SecurityAcl (acl_revision acl) (acl_size acl) num (if num =? 0 then [] else left))), NT_STATUS_OK)
      else dacl_del_loop n (S i) sd acl trustee_sid
  end.

Definition security_descriptor_dacl_del (sd : security_descriptor) (trustee_sid : option dom_sid) : outcome (security_descriptor * NTSTATUS) :=
  match dacl sd with
  | None => Ret (sd, NT_STATUS_OBJECT_NAME_NOT_FOUND)
  | Some acl => dacl_del_loop (Z.to_nat (num_aces acl)) 0 sd acl trustee_sid
  end.

(** The words of one entry's trustee in the new list; a failed copy of no words is kept. *)
Definition dup_ace (k : nat) (ace : security_ace) : outcome (option security_ace) :=
  let t := trustee ace in
  let with_subs subs := SecurityAce (ace_type ace) (ace_flags ace) (access_mask ace)
                          (DomSid (sid_rev_num t) (num_auths t) (id_auth t) subs) in
  if negb (@malloc_ok A k) || (num_auths t <? 0) then Ret (if 0 <? num_auths t then None else Some (with_subs []))
  else let* subs := rd_n (num_auths t) (sub_auths t) in Ret (Some (with_subs subs)).

Fixpoint dup_aces (k : nat) (l : list security_ace) : outcome (option (list security_ace)) :=
  match l with
  | [] => Ret (Some [])
  | a :: l =>
      let* a := dup_ace k a in
      match a with
      | None => Ret None
      | Some a => let* l := dup_aces (S k) l in Ret (cons a <$> l)
      end
  end.

Definition security_acl_dup (k : nat) (oacl : security_acl) : outcome (option security_acl) :=
  if negb (@malloc_ok A k) then Ret None
  else if negb (@malloc_ok A (k + 1)) && (0 <? num_aces oacl) then Ret None
  else if Z.of_nat (length (aces oacl)) <? num_aces oacl then Fault
  else
    let* l := dup_aces (k + 2) (take (Z.to_nat (num_aces oacl)) (aces oacl)) in
    Ret ((fun l => SecurityAcl (acl_revision oacl) (acl_size oacl) (num_aces oacl) l) <$> l).

(** A part that is present must be copied. *)
Definition copy_part {T} (dup : T -> outcome (option T)) (part : option T) : outcome (option (option T)) :=
  match part with None => Ret (Some None) | Some p => let* p := dup p in Ret (Some <$> p) end.

(** The copy starts from zeros, and revision and type stay so. *)
Definition security_descriptor_copy (osd : security_descriptor) : outcome (option security_descriptor) :=
  if negb (@malloc_ok A 0) then Ret None
  else
    let* owner := copy_part (fun s => dom_sid_dup (later 1 A) (Some s)) (owner_sid osd) in
    match owner with
    | None => Ret None
    | Some owner =>
        let* group := copy_part (fun s => dom_sid_dup (later 3 A) (Some s)) (group_sid osd) in
        match group with
        | None => Ret None
        | Some group =>
            let* s := copy_part (security_acl_dup 5) (sacl osd) in
            match s with
            | None => Ret None
            | Some s =>
                let* d := copy_part (security_acl_dup (7 + length (default [] (aces <$> sacl osd)))) (dacl osd) in
                match d with
                | None => Ret None
                | Some d => Ret (Some (SecurityDescriptor 0 0 owner group s d))
                end
            end
        end
    end.
End descriptors.

(** A SID given as a string, which may be absent. *)
Definition parse_opt (A : Allocator) (s : option (list Z)) : option (option dom_sid) :=
  match s with None => Some None | Some s => Some <$> dom_sid_parse_talloc A s end.

(** The variable arguments: trustee, type, mask and flags of each entry. *)
Fixpoint create_loop (A : Allocator) (sd : security_descriptor) (l : list (list Z * Z * Z * Z)) : outcome (option security_descriptor) :=
  match l with
  | [] => Ret (Some sd)
  | (sidstr, type, mask, flags) :: l =>
      if negb (@malloc_ok A 0) then Ret None
      else
        match dom_sid_parse_talloc (later 1 A) sidstr with
        | None => Ret None
        | Some sid =>
            let* r := security_descriptor_dacl_add (later 3 A) sd (SecurityAce type (u8 flags) mask sid) in
            if NT_STATUS_IS_OK r.2 then create_loop (later 6 A) r.1 l else Ret None
        end
  end.

Definition security_descriptor_create (A : Allocator) (owner group : option (list Z)) (l : list (list Z * Z * Z * Z)) : outcome (option security_descriptor) :=
  match security_descriptor_initialise A with
  | None => Ret None
  | Some sd =>
      match parse_opt (later 1 A) owner, parse_opt (later 3 A) group with
      | Some o, Some g => create_loop (later 5 A) (SecurityDescriptor (revision sd) (sd_type sd) o g (sacl sd) (dacl sd)) l
      | _, _ => Ret None
      end
  end.
End Security.

Import Security.

(** ** Privileges *)

Lemma privilege_mask_bit p : 1 <= p <= 64 -> sec_privilege_mask p = 2 ^ (p - 1).
Proof.
  intros Hp. unfold sec_privilege_mask. case_match; [lia|]. rewrite Z.shiftl_1_l.
  apply u64_id. split; [lia|]. apply Z.pow_lt_mono_r; lia.
Qed.

Lemma has_privilege_testbit token p :
  1 <= p <= 64 -> security_token_has_privilege token p = Z.testbit (privilege_mask token) (p - 1).
Proof.
  intros Hp. unfold security_token_has_privilege. case_match; [lia|]. rewrite privilege_mask_bit by done.
  apply Bool.eq_iff_eq_true. rewrite negb_true_iff, Z.eqb_neq. split.
  - intros Hne. destruct (Z.testbit _ _) eqn:E; [done|]. destruct Hne. apply Z.bits_inj'. intros i Hi.
    rewrite Z.land_spec, Z.bits_0, Z.pow2_bits_eqb by lia. destruct (Z.eqb_spec (p - 1) i) as [<-|]; [by rewrite E|apply andb_false_r].
  - intros E H0. apply (f_equal (fun z => Z.testbit z (p - 1))) in H0.
    by rewrite Z.land_spec, Z.bits_0, Z.pow2_bits_true, E in H0 by lia.
Qed.

(** ** Well-formed tokens and descriptors *)

Definition wf_osid (s : option dom_sid) : Prop := match s with None => True | Some s => wf_sid s end.
Definition sid_eq (a b : option dom_sid) : Prop :=
  match a, b with None, None => True | Some a, Some b => sid_value a = sid_value b | _, _ => False end.

#[export] Instance sid_eq_dec a b : Decision (sid_eq a b).
Proof. destruct a, b; cbn [sid_eq]; apply _. Defined.
#[export] Instance wf_osid_dec s : Decision (wf_osid s).
Proof. destruct s; cbn [wf_osid]; apply _. Defined.

Lemma osid_equal_spec a b : wf_osid a -> wf_osid b -> dom_sid_equal a b = Ret (bool_decide (sid_eq a b)).
Proof. destruct a, b; intros Ha Hb; try done. by apply sid_equal_spec. Qed.

Record wf_token (t : security_token) : Prop := {
  wf_sids : num_sids t = Z.of_nat (length (sids t));
  wf_each : Forall wf_osid (sids t);
  wf_mask : is_u64 (privilege_mask t)
}.

(** The token holds a SID. *)
Definition holds (t : security_token) (sid : option dom_sid) : Prop := Exists (fun s => sid_eq s sid) (sids t).
#[export] Instance holds_dec t sid : Decision (holds t sid).
Proof. unfold holds. apply _. Defined.

Lemma has_sid_loop_spec n i l sid :
  (i + n = length l)%nat -> Forall wf_osid l -> wf_osid sid ->
  has_sid_loop n i l sid = Ret (bool_decide (Exists (fun s => sid_eq s sid) (drop i l))).
Proof.
  revert i. induction n as [|n IH]; intros i Hn F W; cbn [has_sid_loop].
  - rewrite drop_ge by lia. rewrite bool_decide_eq_false_2; [done|]. inversion 1.
  - destruct (lookup_lt_is_Some_2 l i ltac:(lia)) as [s Hs]. rewrite Hs, (drop_S l s i) by done.
    rewrite osid_equal_spec by (done || by eapply Forall_lookup_1). cbn [obind]. case_bool_decide as E.
    + symmetry. f_equal. apply bool_decide_eq_true. by constructor.
    + rewrite IH by (done || lia). f_equal. apply bool_decide_ext. rewrite List.Exists_cons. tauto.
Qed.

Lemma has_sid_spec t sid : wf_token t -> wf_osid sid -> security_token_has_sid t sid = Ret (bool_decide (holds t sid)).
Proof.
  intros [] W. unfold security_token_has_sid. rewrite has_sid_loop_spec; [by rewrite drop_0|lia|done|done].
Qed.

Record wf_ace (a : security_ace) : Prop := {
  wf_trustee : wf_sid (trustee a);
  wf_access : is_u32 (access_mask a);
  wf_flags : is_byte (ace_flags a)
}.
Record wf_acl (l : security_acl) : Prop := {
  wf_num_aces : num_aces l = Z.of_nat (length (aces l));
  wf_num_bound : is_u32 (num_aces l);
  wf_aces : Forall wf_ace (aces l)
}.
Definition wf_oacl (l : option security_acl) : Prop := match l with None => True | Some l => wf_acl l end.
Record wf_sd (sd : security_descriptor) : Prop := {
  wf_type : is_u16 (sd_type sd);
  wf_owner : wf_osid (owner_sid sd);
  wf_group : wf_osid (group_sid sd);
  wf_sacl : wf_oacl (sacl sd);
  wf_dacl : wf_oacl (dacl sd)
}.

(** Two entries, lists and descriptors with the same contents. *)
Definition ace_value (a : security_ace) : Z * Z * Z * (Z * list Z * list Z) :=
  (ace_type a, ace_flags a, access_mask a, sid_value (trustee a)).
Definition acl_value (l : security_acl) := (acl_revision l, map ace_value (aces l)).

(** The entries of the DACL, none if it is absent. *)
Definition dacl_aces (sd : security_descriptor) : list security_ace := default [] (aces <$> dacl sd).

Definition own_sid (s : dom_sid) : dom_sid := DomSid (sid_rev_num s) (num_auths s) (id_auth s) (subs_of s).
Definition own_ace (a : security_ace) : security_ace :=
  SecurityAce (ace_type a) (ace_flags a) (access_mask a) (own_sid (trustee a)).

Lemma wf_own_sid s : wf_sid s -> wf_sid (own_sid s).
Proof.
  intros W. pose proof (length_subs_of s W). destruct W. constructor; cbn; [done|done|lia|by apply Forall_take|done|done].
Qed.
Lemma own_sid_value s : sid_value (own_sid s) = sid_value s.
Proof. unfold sid_value. cbn. unfold subs_of. by rewrite take_take, Nat.min_id. Qed.

Lemma wf_own_ace a : wf_ace a -> wf_ace (own_ace a).
Proof. intros []. constructor; [by apply wf_own_sid|done|done]. Qed.
Lemma own_ace_value a : ace_value (own_ace a) = ace_value a.
Proof. unfold ace_value. cbn. by rewrite own_sid_value. Qed.

Lemma rd_n_subs s : wf_sid s -> rd_n (num_auths s) (sub_auths s) = Ret (subs_of s).
Proof. intros []. apply rd_n_take; lia. Qed.

(** Adding an entry appends it and marks the DACL present. *)
Lemma dacl_add_ok A sd ace :
  malloc_always A -> wf_sd sd -> wf_ace ace -> Z.of_nat (length (dacl_aces sd)) < 2 ^ 32 - 1 ->
  exists acl, security_descriptor_dacl_add A sd ace =
      Ret (set_dacl sd (Z.lor (sd_type sd) SEC_DESC_DACL_PRESENT) (Some acl), NT_STATUS_OK) /\
    wf_acl acl /\ aces acl = dacl_aces sd ++ [own_ace ace].
Proof.
  intros mem [] [] Hroom. unfold security_descriptor_dacl_add, dacl_aces in *. rewrite !mem. cbn [negb].
  unfold own_trustee. rewrite mem. cbn [negb orb]. assert ((num_auths (trustee ace) <? 0) = false) as -> by (destruct wf_trustee0; lia).
  rewrite rd_n_subs by done. cbn [obind].
  assert (exists acl, wf_acl acl /\ aces acl = default [] (aces <$> dacl sd) /\
     match dacl sd with Some l => l | None => SecurityAcl NT4_ACL_REVISION 0 0 [] end = acl) as ([r z n l] & Wl & El & E).
  { destruct (dacl sd) as [l|]; [by exists l|]. exists (SecurityAcl NT4_ACL_REVISION 0 0 []).
    split_and!; [|done..]. constructor; [done|by_eval|constructor]. }
  cbn [aces] in El. destruct Wl as [W1 W2 W3]. cbn [num_aces aces] in *. rewrite <- El in *.
  assert (u32 (n + 1) = n + 1) as En by (apply u32_id; unfold is_u in *; lia).
  exists (SecurityAcl r z (n + 1) (l ++ [own_ace ace])). split_and!.
  - assert (forall f : security_acl -> outcome (security_descriptor * NTSTATUS),
      match dacl sd with Some acl => f acl | None => f (SecurityAcl NT4_ACL_REVISION 0 0 []) end = f (SecurityAcl r z n l)) as ->
      by (intros f; destruct (dacl sd); by rewrite E).
    cbn [num_aces aces acl_revision acl_size]. by rewrite En, take_ge by lia.
  - constructor; cbn; [len_lia|unfold is_u in *; lia|]. apply Forall_app. split; [done|].
    apply Forall_singleton, wf_own_ace. by constructor.
  - done.
Qed.

(** ** Deleting an entry *)

Definition for_trustee (t : dom_sid) (a : security_ace) : Prop := sid_value t = sid_value (trustee a).
#[export] Instance for_trustee_dec t a : Decision (for_trustee t a).
Proof. unfold for_trustee. apply _. Defined.

Section delete.
Context (sd : security_descriptor) (acl : security_acl) (t : dom_sid).
Context (W : wf_acl acl) (Wt : wf_sid t).

Lemma del_loop_step n i a :
  aces acl !! i = Some a ->
  dacl_del_loop (S n) i sd acl (Some t) =
    if bool_decide (for_trustee t a) then
      let num := num_aces acl - 1 in
      Ret (set_dacl sd (sd_type sd) (Some (SecurityAcl (acl_revision acl) (acl_size acl) num
             (if num =? 0 then [] else take i (aces acl) ++ drop (S i) (aces acl)))), NT_STATUS_OK)
    else dacl_del_loop n (S i) sd acl (Some t).
Proof.
  intros Ha. destruct W as [W1 W2 W3]. cbn [dacl_del_loop]. unfold rd_ace. rewrite Ha. cbn [obind].
  rewrite sid_equal_spec by (done || by apply (Forall_lookup_1 _ _ _ _ W3 Ha)). cbn [obind].
  case_bool_decide as E; unfold for_trustee; [rewrite bool_decide_eq_true_2 by done|by rewrite bool_decide_eq_false_2 by done].
  assert ((Z.of_nat (length (aces acl)) <? num_aces acl) = false) as -> by lia.
  unfold slice. rewrite (take_ge (drop _ _)) by len_lia. done.
Qed.

Lemma del_loop_found n i pre a post :
  (i + n = length (aces acl))%nat -> drop i (aces acl) = pre ++ a :: post ->
  Forall (fun a => ~ for_trustee t a) pre -> for_trustee t a ->
  exists acl', dacl_del_loop n i sd acl (Some t) = Ret (set_dacl sd (sd_type sd) (Some acl'), NT_STATUS_OK) /\
    wf_acl acl' /\ aces acl' = take i (aces acl) ++ pre ++ post.
Proof.
  revert i pre. induction n as [|n IH]; intros i pre Hn E F Ht.
  { rewrite drop_ge in E by lia. by destruct pre. }
  destruct (lookup_lt_is_Some_2 (aces acl) i ltac:(lia)) as [b Hb].
  rewrite (drop_S _ b i) in E by done. rewrite (del_loop_step n i b Hb).
  destruct pre as [|p pre]; injection E as -> E.
  - rewrite bool_decide_eq_true_2 by done. eexists. split; [done|]. pose proof W as [W1 W2 W3]. cbn [aces].
    assert ((if num_aces acl - 1 =? 0 then [] else take i (aces acl) ++ drop (S i) (aces acl)) = take i (aces acl) ++ post) as ->.
    { rewrite E. case_match; [|done]. symmetry. apply nil_length_inv. rewrite <- E. len_lia. }
    split; [|done]. assert (Z.of_nat (length (take i (aces acl) ++ post)) = num_aces acl - 1) as Hl by (rewrite <- E; len_lia).
    constructor; cbn [num_aces aces]; [lia|unfold is_u in *; lia|]. rewrite <- E. apply Forall_app.
    split; [by apply Forall_take|by apply Forall_drop].
  - apply Forall_cons_iff in F as [Hp F]. rewrite bool_decide_eq_false_2 by done.
    destruct (IH (S i) pre ltac:(lia) E F Ht) as (acl' & -> & W' & E'). exists acl'. split_and!; [done|done|].
    rewrite E', (take_S_r _ i p) by done. by rewrite <- app_assoc.
Qed.

Lemma del_loop_missing n i :
  (i + n = length (aces acl))%nat -> Forall (fun a => ~ for_trustee t a) (drop i (aces acl)) ->
  dacl_del_loop n i sd acl (Some t) = Ret (sd, NT_STATUS_OBJECT_NAME_NOT_FOUND).
Proof.
  revert i. induction n as [|n IH]; intros i Hn F; [done|].
  destruct (lookup_lt_is_Some_2 (aces acl) i ltac:(lia)) as [b Hb].
  rewrite (drop_S _ b i) in F by done. apply Forall_cons_iff in F as [Hp F].
  rewrite (del_loop_step n i b Hb), bool_decide_eq_false_2 by done. apply IH; [lia|done].
Qed.
End delete.

Lemma dacl_del_found sd t pre a post :
  wf_sd sd -> wf_sid t -> dacl_aces sd = pre ++ a :: post ->
  Forall (fun a => ~ for_trustee t a) pre -> for_trustee t a ->
  exists acl, security_descriptor_dacl_del sd (Some t) = Ret (set_dacl sd (sd_type sd) (Some acl), NT_STATUS_OK) /\
    wf_acl acl /\ aces acl = pre ++ post.
Proof.
  intros [_ _ _ _ Wd] Wt E F Ht. unfold security_descriptor_dacl_del, dacl_aces in *.
  destruct (dacl sd) as [l|]; [|by destruct pre]. cbn in E, Wd.
  destruct (del_loop_found sd l t Wd Wt (Z.to_nat (num_aces l)) 0 pre a post) as (acl & E1 & W1 & E2); [destruct Wd; lia|by rewrite drop_0|done|done|].
  by exists acl.
Qed.

Lemma dacl_del_missing sd t :
  wf_sd sd -> wf_sid t -> Forall (fun a => ~ for_trustee t a) (dacl_aces sd) ->
  security_descriptor_dacl_del sd (Some t) = Ret (sd, NT_STATUS_OBJECT_NAME_NOT_FOUND).
Proof.
  intros [_ _ _ _ Wd] Wt F. unfold security_descriptor_dacl_del, dacl_aces in *.
  destruct (dacl sd) as [l|]; [|done]. cbn in F, Wd.
  apply del_loop_missing; [done|done|destruct Wd; lia|by rewrite drop_0].
Qed.

(** ** Copying *)

Lemma dup_aces_ok A k l :
  malloc_always A -> Forall wf_ace l -> dup_aces A k l = Ret (Some (map own_ace l)).
Proof.
  intros mem F. revert k. induction F as [|a l Wa F IH]; intros k; [done|]. cbn [dup_aces map]. unfold dup_ace.
  rewrite mem. cbn [negb orb]. destruct Wa as [Wt _ _].
  assert ((num_auths (trustee a) <? 0) = false) as -> by (destruct Wt; lia).
  rewrite rd_n_subs by done. cbn [obind]. rewrite IH. done.
Qed.

Definition own_acl (l : security_acl) : security_acl := SecurityAcl (acl_revision l) (acl_size l) (num_aces l) (map own_ace (aces l)).

Lemma acl_dup_ok A k l : malloc_always A -> wf_acl l -> security_acl_dup A k l = Ret (Some (own_acl l)).
Proof.
  intros mem []. unfold security_acl_dup. rewrite !mem. cbn [negb andb].
  assert ((Z.of_nat (length (aces l)) <? num_aces l) = false) as -> by lia.
  rewrite take_ge by lia. by rewrite dup_aces_ok.
Qed.

Lemma sid_dup_ok A s : malloc_always A -> wf_sid s -> dom_sid_dup A (Some s) = Ret (Some (own_sid s)).
Proof.
  intros mem W. unfold dom_sid_dup. rewrite !mem. cbn [negb orb].
  assert ((num_auths s <? 0) = false) as -> by (destruct W; lia). by rewrite rd_n_subs.
Qed.

(** The parts are copied, the revision and the type are not. *)
Definition sd_copy (sd : security_descriptor) : security_descriptor :=
  SecurityDescriptor 0 0 (own_sid <$> owner_sid sd) (own_sid <$> group_sid sd) (own_acl <$> sacl sd) (own_acl <$> dacl sd).

Lemma copy_part_ok {T} (dup : T -> outcome (option T)) (own : T -> T) (wf : option T -> Prop) p :
  (forall x, wf (Some x) -> dup x = Ret (Some (own x))) -> wf p -> copy_part dup p = Ret (Some (own <$> p)).
Proof. intros Hd Wp. destruct p as [x|]; [|done]. cbn. by rewrite Hd. Qed.

Lemma sd_copy_ok A sd :
  malloc_always A -> wf_sd sd -> security_descriptor_copy A sd = Ret (Some (sd_copy sd)).
Proof.
  intros mem []. unfold security_descriptor_copy. rewrite mem. cbn [negb].
  rewrite (copy_part_ok _ own_sid wf_osid) by (done || (intros; apply sid_dup_ok; [by apply later_always|done])). cbn [obind].
  rewrite (copy_part_ok _ own_sid wf_osid) by (done || (intros; apply sid_dup_ok; [by apply later_always|done])). cbn [obind].
  rewrite (copy_part_ok _ own_acl wf_oacl) by (done || (intros; by apply acl_dup_ok)). cbn [obind].
  by rewrite (copy_part_ok _ own_acl wf_oacl) by (done || (intros; by apply acl_dup_ok)).
Qed.

Lemma wf_own_acl l : wf_acl l -> wf_acl (own_acl l).
Proof.
  intros [W1 W2 W3]. constructor; cbn; [by rewrite length_map|done|].
  apply Forall_map. refine (List.Forall_impl _ _ W3). apply wf_own_ace.
Qed.

Lemma wf_sd_copy sd : wf_sd sd -> wf_sd (sd_copy sd).
Proof.
  intros []. constructor; cbn; [by_eval|..].
  1,2: by destruct (owner_sid sd), (group_sid sd); cbn; auto using wf_own_sid.
  1,2: by destruct (sacl sd), (dacl sd); cbn; auto using wf_own_acl.
Qed.

(** ** Comparing *)

Lemma andalso_ret b k c : k = Ret c -> andalso (Ret b) k = Ret (b && c).
Proof. intros ->. by destruct b. Qed.

Lemma ace_equal_spec a b :
  wf_ace a -> wf_ace b -> security_ace_equal a b = Ret (bool_decide (ace_value a = ace_value b)).
Proof.
  intros [Wa _ _] [Wb _ _]. unfold security_ace_equal, ace_value.
  destruct (Z.eqb_spec (ace_type a) (ace_type b)) as [->|]; cbn [negb]; [|rewrite bool_decide_eq_false_2; [done|congruence]].
  destruct (Z.eqb_spec (ace_flags a) (ace_flags b)) as [->|]; cbn [negb]; [|rewrite bool_decide_eq_false_2; [done|congruence]].
  destruct (Z.eqb_spec (access_mask a) (access_mask b)) as [->|]; cbn [negb]; [|rewrite bool_decide_eq_false_2; [done|congruence]].
  rewrite sid_equal_spec by done. f_equal. apply bool_decide_ext. split; [by intros ->|by intros ?%(f_equal snd)].
Qed.

Lemma aces_equal_spec l1 l2 n i :
  (i + n = length (aces l1))%nat -> length (aces l1) = length (aces l2) -> Forall wf_ace (aces l1) -> Forall wf_ace (aces l2) ->
  aces_equal n i l1 l2 = Ret (bool_decide (map ace_value (drop i (aces l1)) = map ace_value (drop i (aces l2)))).
Proof.
  revert i. induction n as [|n IH]; intros i Hn Hl F1 F2; cbn [aces_equal].
  - rewrite !drop_ge by lia. done.
  - destruct (lookup_lt_is_Some_2 (aces l1) i ltac:(lia)) as [a Ha], (lookup_lt_is_Some_2 (aces l2) i ltac:(lia)) as [b Hb].
    unfold rd_ace. rewrite Ha, Hb, (drop_S _ a i), (drop_S _ b i) by done. cbn [obind map].
    rewrite ace_equal_spec; [|by apply (Forall_lookup_1 _ _ _ _ F1 Ha)|by apply (Forall_lookup_1 _ _ _ _ F2 Hb)]. cbn [obind]. case_bool_decide as E.
    + rewrite IH by (done || lia). f_equal. apply bool_decide_ext. rewrite E. split; [by intros ->|by intros ?%(inj (cons _))].
    + rewrite bool_decide_eq_false_2; [done|]. intros H. apply E. exact (f_equal (fun l => hd (ace_value a) l) H).
Qed.

Definition oacl_eq (a b : option security_acl) : Prop := acl_value <$> a = acl_value <$> b.
#[export] Instance oacl_eq_dec a b : Decision (oacl_eq a b).
Proof. unfold oacl_eq, acl_value. apply _. Defined.

Lemma acl_equal_spec a b : wf_oacl a -> wf_oacl b -> security_acl_equal a b = Ret (bool_decide (oacl_eq a b)).
Proof.
  destruct a as [a|], b as [b|]; intros Wa Wb; try done. destruct Wa as [Na _ Fa], Wb as [Nb _ Fb]. cbn [security_acl_equal].
  assert (oacl_eq (Some a) (Some b) <-> acl_revision a = acl_revision b /\ map ace_value (aces a) = map ace_value (aces b)) as HE.
  { unfold oacl_eq, acl_value. cbn. split; [by intros [= ? ?]|]. intros [E1 E2]. by rewrite E1, E2. }
  rewrite (bool_decide_ext _ _ HE).
  destruct (Z.eqb_spec (acl_revision a) (acl_revision b)) as [Er|]; cbn [negb]; [|rewrite bool_decide_eq_false_2; [done|tauto]].
  destruct (Z.eqb_spec (num_aces a) (num_aces b)) as [E|Hne]; cbn [negb].
  - rewrite aces_equal_spec by (done || lia). rewrite !drop_0. f_equal. apply bool_decide_ext. tauto.
  - rewrite bool_decide_eq_false_2; [done|]. intros [_ E]. apply (f_equal length) in E. rewrite !length_map in E. lia.
Qed.

(** Equality of descriptors is equality of their parts. *)
Definition sd_eq (a b : security_descriptor) : Prop :=
  revision a = revision b /\ sd_type a = sd_type b /\ sid_eq (owner_sid a) (owner_sid b) /\
  sid_eq (group_sid a) (group_sid b) /\ oacl_eq (sacl a) (sacl b) /\ oacl_eq (dacl a) (dacl b).
#[export] Instance sd_eq_dec a b : Decision (sd_eq a b).
Proof. unfold sd_eq. apply _. Defined.

Lemma sd_equal_spec a b :
  wf_sd a -> wf_sd b -> security_descriptor_equal (Some a) (Some b) = Ret (bool_decide (sd_eq a b)).
Proof.
  intros [] []. cbn [security_descriptor_equal]. rewrite !osid_equal_spec, !acl_equal_spec by done.
  rewrite (andalso_ret _ _ _ (andalso_ret _ _ _ (andalso_ret _ _ _ eq_refl))).
  destruct (Z.eqb_spec (revision a) (revision b)) as [E|Hne]; cbn [negb]; [|rewrite bool_decide_eq_false_2; [done|unfold sd_eq; tauto]].
  destruct (Z.eqb_spec (sd_type a) (sd_type b)) as [E'|Hne]; cbn [negb]; [|rewrite bool_decide_eq_false_2; [done|unfold sd_eq; tauto]].
  f_equal. apply Bool.eq_iff_eq_true. rewrite !andb_true_iff, !bool_decide_eq_true. unfold sd_eq. tauto.
Qed.

Lemma sid_eq_own s : sid_eq (own_sid <$> s) s.
Proof. destruct s as [s|]; [|done]. apply own_sid_value. Qed.
Lemma oacl_eq_own l : oacl_eq (own_acl <$> l) l.
Proof.
  destruct l as [l|]; [|done]. unfold oacl_eq, acl_value. cbn. do 2 f_equal. rewrite map_map.
  apply map_ext. apply own_ace_value.
Qed.

(** ** Creation *)

(** An argument of security_descriptor_create and the entry it stands for. *)
Definition entry_of (e : list Z * Z * Z * Z) (a : security_ace) : Prop :=
  let '(sidstr, type, mask, flags) := e in
  wf_sid (trustee a) /\ is_u32 mask /\ (forall A, malloc_always A -> dom_sid_parse_talloc A sidstr = Some (trustee a)) /\
  a = SecurityAce type (u8 flags) mask (trustee a).

Lemma wf_after_add sd acl : wf_sd sd -> wf_acl acl -> wf_sd (set_dacl sd (Z.lor (sd_type sd) SEC_DESC_DACL_PRESENT) (Some acl)).
Proof. intros [] ?. constructor; cbn; try done. by apply is_u_lor; [lia|done|by_eval]. Qed.

Lemma create_loop_ok A sd l las :
  malloc_always A -> wf_sd sd -> Forall2 entry_of l las -> Z.of_nat (length (dacl_aces sd) + length l) < 2 ^ 32 - 1 ->
  exists sd', create_loop A sd l = Ret (Some sd') /\ wf_sd sd' /\ dacl_aces sd' = dacl_aces sd ++ map own_ace las.
Proof.
  intros mem W F. revert A sd mem W. induction F as [|[[[s ty] m] fl] a l las He F IH]; intros A sd mem W Hroom.
  - exists sd. cbn. by rewrite app_nil_r.
  - destruct He as (Wt & Hm & Hp & Ea). cbn [create_loop length] in *. rewrite mem. cbn [negb].
    rewrite Hp by by apply later_always.
    destruct (dacl_add_ok (later 3 A) sd (SecurityAce ty (u8 fl) m (trustee a))) as (acl & -> & Wacl & Eacl);
      [by apply later_always|done|by constructor; [|done|apply u8_range]|lia|].
    cbn [obind fst snd]. change (NT_STATUS_IS_OK NT_STATUS_OK) with true. cbn iota.
    destruct (IH (later 6 A) (set_dacl sd (Z.lor (sd_type sd) SEC_DESC_DACL_PRESENT) (Some acl))) as (sd' & E & W' & E').
    + by apply later_always.
    + by apply wf_after_add.
    + unfold dacl_aces at 1. cbn. rewrite Eacl, length_app. cbn. lia.
    + exists sd'. split_and!; [done|done|]. rewrite E'. unfold dacl_aces at 1. cbn. rewrite Eacl, <- app_assoc. cbn. by rewrite <- Ea.
Qed.

Definition blank_sd : security_descriptor := SecurityDescriptor SD_REVISION SEC_DESC_SELF_RELATIVE None None None None.

Lemma wf_blank_sd : wf_sd blank_sd.
Proof. by constructor; [by_eval|..]. Qed.

(** C40: every operation on a security descriptor keeps it well formed and does what it
    says: initialising gives an empty one, creating one from strings gives the entries
    named, adding an entry appends it and marks the DACL present, deleting removes the
    first entry of the trustee, or fails and changes nothing.  A copy has equal owner, group and lists, but
    its revision and type are zero whatever they were, so it is equal to the original only
    if those were zero. *)
Theorem security_descriptor_wellformed A :
  malloc_always A ->
  (security_descriptor_initialise A = Some blank_sd /\ wf_sd blank_sd) /\
  (forall l las, Forall2 entry_of l las -> Z.of_nat (length l) < 2 ^ 32 - 1 ->
     exists sd, security_descriptor_create A None None l = Ret (Some sd) /\ wf_sd sd /\ dacl_aces sd = map own_ace las) /\
  (forall sd, wf_sd sd ->
     (forall ace, wf_ace ace -> Z.of_nat (length (dacl_aces sd)) < 2 ^ 32 - 1 ->
        exists sd', security_descriptor_dacl_add A sd ace = Ret (sd', NT_STATUS_OK) /\ wf_sd sd' /\
          dacl_aces sd' = dacl_aces sd ++ [own_ace ace] /\ Z.testbit (sd_type sd') 2 = true) /\
     (forall t, wf_sid t ->
        (forall pre a post, dacl_aces sd = pre ++ a :: post -> Forall (fun a => ~ for_trustee t a) pre -> for_trustee t a ->
           exists sd', security_descriptor_dacl_del sd (Some t) = Ret (sd', NT_STATUS_OK) /\ wf_sd sd' /\ dacl_aces sd' = pre ++ post) /\
        (Forall (fun a => ~ for_trustee t a) (dacl_aces sd) ->
           security_descriptor_dacl_del sd (Some t) = Ret (sd, NT_STATUS_OBJECT_NAME_NOT_FOUND))) /\
     (exists c, security_descriptor_copy A sd = Ret (Some c) /\ wf_sd c /\
        sid_eq (owner_sid c) (owner_sid sd) /\ sid_eq (group_sid c) (group_sid sd) /\
        oacl_eq (sacl c) (sacl sd) /\ oacl_eq (dacl c) (dacl sd) /\
        security_descriptor_equal (Some c) (Some sd) = Ret (bool_decide (revision sd = 0 /\ sd_type sd = 0)))).
Proof.
  intros mem. split_and!; [|apply wf_blank_sd| |].
  - unfold security_descriptor_initialise. by rewrite mem.
  - intros l las F Hl. unfold security_descriptor_create, security_descriptor_initialise. rewrite mem.
    apply (create_loop_ok (later 5 A) blank_sd l las); [by apply later_always|apply wf_blank_sd|done|cbn; lia].
  - intros sd W. split_and!.
    + intros ace Wa Hr. destruct (dacl_add_ok A sd ace mem W Wa Hr) as (acl & -> & Wacl & E).
      eexists. split_and!; [done|by apply wf_after_add|done|]. cbn [sd_type set_dacl]. by rewrite Z.lor_spec, orb_true_r.
    + intros t Wt. split; [|by apply dacl_del_missing]. intros pre a post E F Ht.
      destruct (dacl_del_found sd t pre a post W Wt E F Ht) as (acl & -> & Wacl & E'). eexists. split_and!; [done| |done].
      by destruct W; constructor.
    + exists (sd_copy sd). split_and!; [by apply sd_copy_ok|by apply wf_sd_copy|apply sid_eq_own|apply sid_eq_own|apply oacl_eq_own|apply oacl_eq_own|].
      rewrite sd_equal_spec by auto using wf_sd_copy. f_equal. apply bool_decide_ext. unfold sd_eq. cbn.
      pose proof (sid_eq_own (owner_sid sd)). pose proof (sid_eq_own (group_sid sd)).
      pose proof (oacl_eq_own (sacl sd)). pose proof (oacl_eq_own (dacl sd)). split; [intros (<- & <- & _)|intros (-> & ->)]; done.
Qed.

(** Descriptors that deny one user, and say so. *)
Definition user_21 : dom_sid := DomSid 1 1 [0; 0; 0; 0; 0; 5] [21].
Definition denying : security_descriptor :=
  SecurityDescriptor 1 (Z.lor SEC_DESC_SELF_RELATIVE SEC_DESC_DACL_PRESENT) (Some builtin_administrators) None None
    (Some (SecurityAcl 2 0 1 [SecurityAce 1 0 0x2 user_21])).

Lemma wf_denying : wf_sd denying.
Proof.
  constructor; cbn; [by_eval|by_eval|done|done|].
  constructor; cbn; [done|by_eval|]. apply Forall_singleton. constructor; by_eval.
Qed.

Lemma security_descriptor_wellformed_witness :
  malloc_always calloc /\
  (exists c, security_descriptor_copy calloc denying = Ret (Some c) /\ security_descriptor_equal (Some c) (Some denying) = Ret false) /\
  (exists sd, security_descriptor_dacl_del denying (Some user_21) = Ret (sd, NT_STATUS_OK) /\ dacl_aces sd = []).
Proof.
  assert (malloc_always calloc) as mem by (by intros n). split; [done|].
  destruct (security_descriptor_wellformed calloc mem) as (_ & _ & H).
  destruct (H denying wf_denying) as (_ & Hd & c & E & _ & _ & _ & _ & _ & Eq). split.
  - exists c. split; [done|]. by rewrite Eq.
  - destruct (proj1 (Hd user_21 ltac:(by_eval)) [] (SecurityAce 1 0 0x2 user_21) [] eq_refl (List.Forall_nil _) eq_refl) as (sd & E1 & _ & E2).
    by exists sd.
Defined.
