(* ===== verification/AccessCheck.v ===== *)
(** libcli/security/access_check.c: whether a token may have the access it asks for to an
    object with a security descriptor, and the most it may have. *)

From stdpp Require Import strings.
From S2P Require Import Prelude Ntstatus Cnum DomSid Security.
Import DomSid Security.

#[local] Open Scope outcome_scope.

Module AccessCheck.

Definition SEC_FLAG_SYSTEM_SECURITY : Z := 0x01000000.
Definition SEC_FLAG_MAXIMUM_ALLOWED : Z := 0x02000000.
Definition SEC_STD_DELETE : Z := 0x00010000.
Definition SEC_STD_READ_CONTROL : Z := 0x00020000.
Definition SEC_STD_WRITE_DAC : Z := 0x00040000.

Definition OWNER_RIGHTS : Z := Z.lor (Z.lor SEC_STD_WRITE_DAC SEC_STD_READ_CONTROL) SEC_STD_DELETE.

(** Whether an entry is for the token and not only for inheritance. *)
Definition ace_applies (token : security_token) (ace : security_ace) : outcome bool :=
  if has (ace_flags ace) SEC_ACE_FLAG_INHERIT_ONLY then Ret false
  else security_token_has_sid token (Some (trustee ace)).

Definition is_denied_type (type : Z) : bool :=
  (type =? SEC_ACE_TYPE_ACCESS_DENIED) || (type =? SEC_ACE_TYPE_ACCESS_DENIED_OBJECT).

(** The loop over the entries; the pair is what is denied and what is granted. *)
Fixpoint max_loop (n i : nat) (acl : security_acl) (token : security_token) (st : Z * Z) : outcome (Z * Z) :=
  match n with
  | O => Ret st
  | S n =>
      let* ace := rd_ace acl i in
      let* mine := ace_applies token ace in
      max_loop n (S i) acl token
        (if (mine : bool) then
           if ace_type ace =? SEC_ACE_TYPE_ACCESS_ALLOWED then (st.1, Z.lor st.2 (access_mask ace))
           else if is_denied_type (ace_type ace) then (Z.lor st.1 (access_mask ace), st.2)
           else st
         else st)
  end.

Definition access_check_max_allowed (sd : security_descriptor) (token : security_token) : outcome Z :=
  let* owns := security_token_has_sid token (owner_sid sd) in
  let granted :=
    if (owns : bool) then OWNER_RIGHTS
    else if security_token_has_privilege token SEC_PRIV_RESTORE then SEC_STD_DELETE else 0 in
  match dacl sd with
  | None => Fault
  | Some acl =>
      let* st := max_loop (Z.to_nat (num_aces acl)) 0 acl token (0, granted) in
      Ret (Z.ldiff st.2 st.1)
  end.

(** The bits that remain after the entries, or [None] if one of them was denied. *)
Fixpoint check_loop (n i : nat) (acl : security_acl) (token : security_token) (bits_remaining : Z) : outcome (option Z) :=
  match n with
  | O => Ret (Some bits_remaining)
  | S n =>
      if bits_remaining =? 0 then Ret (Some 0)
      else
        let* ace := rd_ace acl i in
        let* mine := ace_applies token ace in
        if negb mine then check_loop n (S i) acl token bits_remaining
        else if ace_type ace =? SEC_ACE_TYPE_ACCESS_ALLOWED then
          check_loop n (S i) acl token (Z.ldiff bits_remaining (access_mask ace))
        else if is_denied_type (ace_type ace) && has bits_remaining (access_mask ace) then Ret None
        else check_loop n (S i) acl token bits_remaining
  end.

(** The checks from the DACL on. *)
Definition check_dacl (sd : security_descriptor) (token : security_token) (bits_remaining : Z) : outcome NTSTATUS :=
  match dacl sd with
  | None => Ret NT_STATUS_ACCESS_DENIED
  | Some acl =>
      if num_aces acl =? 0 then Ret NT_STATUS_ACCESS_DENIED
      else
        let* owns := (if has bits_remaining OWNER_RIGHTS then security_token_has_sid token (owner_sid sd) else Ret false) in
        let bits_remaining := if (owns : bool) then Z.ldiff bits_remaining OWNER_RIGHTS else bits_remaining in
        let bits_remaining :=
          if has bits_remaining SEC_STD_DELETE && security_token_has_privilege token SEC_PRIV_RESTORE
          then Z.ldiff bits_remaining SEC_STD_DELETE else bits_remaining in
        let* rest := check_loop (Z.to_nat (num_aces acl)) 0 acl token bits_remaining in
        Ret (match rest with
             | None => NT_STATUS_ACCESS_DENIED
             | Some bits => if negb (bits =? 0) then NT_STATUS_ACCESS_DENIED else NT_STATUS_OK
             end)
  end.

(** The status, and what is stored through access_granted. *)
Definition sec_access_check (sd : security_descriptor) (token : security_token) (access_desired : Z) : outcome (NTSTATUS * Z) :=
  let* start :=
    (if has access_desired SEC_FLAG_MAXIMUM_ALLOWED then
       let* max := access_check_max_allowed sd token in
       let access_desired := Z.ldiff (Z.lor access_desired max) SEC_FLAG_MAXIMUM_ALLOWED in
       Ret (access_desired, Z.ldiff access_desired SEC_STD_DELETE)
     else Ret (access_desired, access_desired)) in
  let '(access_desired, bits_remaining) := start in
  let system := has access_desired SEC_FLAG_SYSTEM_SECURITY in
  if system && negb (security_token_has_privilege token SEC_PRIV_SECURITY) then
    Ret (NT_STATUS_PRIVILEGE_NOT_HELD, access_desired)
  else
    let bits_remaining := if system then Z.ldiff bits_remaining SEC_FLAG_SYSTEM_SECURITY else bits_remaining in
    if negb (has (sd_type sd) SEC_DESC_DACL_PRESENT) then Ret (NT_STATUS_OK, access_desired)
    else let* st := check_dacl sd token bits_remaining in Ret (st, access_desired).
End AccessCheck.

Import AccessCheck.

(** ** The reference: one bit at a time *)

Section reference.
Context (token : security_token).

Definition applies (a : security_ace) : bool :=
  negb (has (ace_flags a) SEC_ACE_FLAG_INHERIT_ONLY) && bool_decide (holds token (Some (trustee a))).

Definition allows (i : Z) (a : security_ace) : bool :=
  applies a && (ace_type a =? SEC_ACE_TYPE_ACCESS_ALLOWED) && Z.testbit (access_mask a) i.
Definition denies (i : Z) (a : security_ace) : bool :=
  applies a && is_denied_type (ace_type a) && Z.testbit (access_mask a) i.

(** The first entry that allows or denies a bit decides it; none is a refusal. *)
Fixpoint decided (i : Z) (l : list security_ace) : bool :=
  match l with
  | [] => false
  | a :: l => if allows i a then true else if denies i a then false else decided i l
  end.

(** What the owner and the holders of privileges have whatever the entries say. *)
Definition implicit (sd : security_descriptor) (i : Z) : bool :=
  (bool_decide (holds token (owner_sid sd)) && Z.testbit OWNER_RIGHTS i)
  || (security_token_has_privilege token SEC_PRIV_RESTORE && (i =? 16))
  || (security_token_has_privilege token SEC_PRIV_SECURITY && (i =? 24)).

Definition bit_allowed (sd : security_descriptor) (i : Z) : bool := implicit sd i || decided i (dacl_aces sd).

Definition all_allowed (sd : security_descriptor) (desired : Z) : bool :=
  forallb (fun n => implb (Z.testbit desired (Z.of_nat n)) (bit_allowed sd (Z.of_nat n))) (seq 0 32).

Definition access_decision (sd : security_descriptor) (desired : Z) : NTSTATUS :=
  if Z.testbit desired 24 && negb (security_token_has_privilege token SEC_PRIV_SECURITY) then NT_STATUS_PRIVILEGE_NOT_HELD
  else if negb (Z.testbit (sd_type sd) 2) then NT_STATUS_OK
  else if bool_decide (dacl_aces sd = []) then NT_STATUS_ACCESS_DENIED
  else if all_allowed sd desired then NT_STATUS_OK else NT_STATUS_ACCESS_DENIED.

(** The most a token may have: what is implicit to an owner or a restorer, or allowed by
    some entry, and denied by none. *)
Definition most (sd : security_descriptor) (i : Z) : bool :=
  ((bool_decide (holds token (owner_sid sd)) && Z.testbit OWNER_RIGHTS i)
   || (security_token_has_privilege token SEC_PRIV_RESTORE && (i =? 16))
   || existsb (allows i) (dacl_aces sd))
  && negb (existsb (denies i) (dacl_aces sd)).
End reference.

(** ** Bits of masks *)

Lemma has_spec x y : has x y = true <-> exists i, 0 <= i /\ Z.testbit x i = true /\ Z.testbit y i = true.
Proof.
  unfold has. rewrite negb_true_iff, Z.eqb_neq. split.
  - intros Hne. destruct (decide (Z.land x y = 0)) as [|_]; [done|].
    assert (exists i, 0 <= i /\ Z.testbit (Z.land x y) i = true) as (i & Hi & E).
    { destruct (decide (0 <= Z.land x y)) as [Hp|Hn].
      - exists (Z.log2 (Z.land x y)). split; [apply Z.log2_nonneg|]. apply Z.bit_log2. lia.
      - exists (Z.log2 (Z.pred (- Z.land x y)) + 1). pose proof (Z.log2_nonneg (Z.pred (- Z.land x y))). split; [lia|].
        apply Z.bits_above_log2_neg; lia. }
    rewrite Z.land_spec in E. apply andb_true_iff in E. eauto.
  - intros (i & Hi & E1 & E2) H0. apply (f_equal (fun z => Z.testbit z i)) in H0. by rewrite Z.land_spec, E1, E2, Z.bits_0 in H0.
Qed.

Lemma has_pow2 x k : 0 <= k -> has x (2 ^ k) = Z.testbit x k.
Proof.
  intros Hk. apply Bool.eq_iff_eq_true. rewrite has_spec. split.
  - intros (i & Hi & E1 & E2). rewrite Z.pow2_bits_eqb in E2 by done. by apply Z.eqb_eq in E2 as <-.
  - intros E. exists k. by rewrite Z.pow2_bits_true.
Qed.

Lemma zero_bits x : x = 0 <-> forall i, 0 <= i -> Z.testbit x i = false.
Proof.
  split; [intros -> i _; apply Z.bits_0|]. intros H. apply Z.bits_inj'. intros i Hi. by rewrite H, Z.bits_0.
Qed.

Lemma ldiff_pow2_bit x k i : 0 <= k -> Z.testbit (Z.ldiff x (2 ^ k)) i = Z.testbit x i && negb (k =? i).
Proof. intros Hk. by rewrite Z.ldiff_spec, Z.pow2_bits_eqb. Qed.

(** A mask with the bits below 32 is settled by them. *)
Lemma forallb_bits P : forallb P (seq 0 32) = true <-> forall n, (n < 32)%nat -> P n = true.
Proof.
  rewrite forallb_forall. split; intros H n Hn; apply H; [apply in_seq; lia|]. apply in_seq in Hn. lia.
Qed.

(** ** The loops *)

Section loops.
Context (token : security_token) (Wt : wf_token token).

Lemma ace_applies_spec a : wf_ace a -> ace_applies token a = Ret (applies token a).
Proof.
  intros [W _ _]. unfold ace_applies, applies. destruct (has _ _); [done|]. by rewrite has_sid_spec.
Qed.

Lemma check_loop_spec acl n i bits :
  (i + n = length (aces acl))%nat -> Forall wf_ace (aces acl) ->
  exists r, check_loop n i acl token bits = Ret r /\
    (r = Some 0 <-> forall j, 0 <= j -> Z.testbit bits j = true -> decided token j (drop i (aces acl)) = true).
Proof.
  intros Hn F. revert i bits Hn. induction n as [|n IH]; intros i bits Hn; cbn [check_loop].
  - exists (Some bits). split; [done|]. rewrite drop_ge by lia. cbn [decided].
    transitivity (bits = 0); [split; [by intros [=]|by intros ->]|]. rewrite zero_bits.
    split; intros H j Hj; [by rewrite H by done|]. by destruct (Z.testbit bits j) eqn:E; [apply H in E|].
  - destruct (Z.eqb_spec bits 0) as [->|Hne].
    { exists (Some 0). split; [done|]. split; [|done]. intros _ j Hj. by rewrite Z.bits_0. }
    destruct (lookup_lt_is_Some_2 (aces acl) i ltac:(lia)) as [a Ha]. unfold rd_ace. rewrite Ha, (drop_S _ a i) by done. cbn [obind].
    rewrite ace_applies_spec by exact (Forall_lookup_1 _ _ _ _ F Ha). cbn [obind decided]. unfold allows, denies.
    destruct (applies token a); cbn [negb andb]; [|apply IH; lia].
    destruct (ace_type a =? SEC_ACE_TYPE_ACCESS_ALLOWED) eqn:Ety; cbn [andb].
    + destruct (IH (S i) (Z.ldiff bits (access_mask a)) ltac:(lia)) as (r & -> & Hr). exists r. split; [done|]. rewrite Hr.
      assert (is_denied_type (ace_type a) = false) as -> by (apply Z.eqb_eq in Ety as ->; done). cbn [andb].
      split; intros H j Hj E; specialize (H j Hj).
      * rewrite Z.ldiff_spec, E in H. destruct (Z.testbit (access_mask a) j); [done|]. by apply H.
      * rewrite Z.ldiff_spec in E. apply andb_true_iff in E as [E1 E2%negb_true_iff]. rewrite E2 in H. by apply H.
    + destruct (is_denied_type (ace_type a)); cbn [andb]; [|apply IH; lia].
      destruct (has bits (access_mask a)) eqn:Eh.
      * exists None. split; [done|]. split; [done|]. intros H. apply has_spec in Eh as (j & Hj & E1 & E2).
        specialize (H j Hj E1). by rewrite E2 in H.
      * destruct (IH (S i) bits ltac:(lia)) as (r & -> & Hr). exists r. split; [done|]. rewrite Hr.
        split; intros H j Hj E; specialize (H j Hj E); destruct (Z.testbit (access_mask a) j) eqn:E2; try done;
          assert (has bits (access_mask a) = true) by (apply has_spec; by exists j); congruence.
Qed.

Lemma max_loop_spec acl n i st :
  (i + n = length (aces acl))%nat -> Forall wf_ace (aces acl) ->
  exists st', max_loop n i acl token st = Ret st' /\
    (forall j, Z.testbit st'.1 j = Z.testbit st.1 j || existsb (denies token j) (drop i (aces acl))) /\
    (forall j, Z.testbit st'.2 j = Z.testbit st.2 j || existsb (allows token j) (drop i (aces acl))).
Proof.
  intros Hn F. revert i st Hn. induction n as [|n IH]; intros i st Hn; cbn [max_loop].
  - exists st. rewrite drop_ge by lia. cbn [existsb]. by split_and!; [done|intros j; rewrite orb_false_r..].
  - destruct (lookup_lt_is_Some_2 (aces acl) i ltac:(lia)) as [a Ha]. unfold rd_ace. rewrite Ha. cbn [obind].
    rewrite ace_applies_spec by exact (Forall_lookup_1 _ _ _ _ F Ha). cbn [obind].
    edestruct IH as (st' & -> & H1 & H2); [|exists st'; split; [done|]]; [lia|].
    rewrite (drop_S _ a i) by done. cbn [existsb].
    split; intros j; [rewrite H1; unfold denies at 2|rewrite H2; unfold allows at 2]; destruct (applies token a); cbn [andb]; try done;
      destruct (ace_type a =? SEC_ACE_TYPE_ACCESS_ALLOWED) eqn:Ety; cbn [andb fst snd];
      try (rewrite Z.lor_spec, orb_assoc; done); try (apply Z.eqb_eq in Ety; rewrite Ety; done);
      destruct (is_denied_type (ace_type a)); cbn [andb fst snd]; try done; by rewrite Z.lor_spec, orb_assoc.
Qed.
End loops.

(** ** The checks *)

Section checks.
Context (sd : security_descriptor) (token : security_token) (Ws : wf_sd sd) (Wt : wf_token token).

(** What check_dacl takes away before the entries. *)
Definition owner_or_restore (i : Z) : bool :=
  (bool_decide (holds token (owner_sid sd)) && Z.testbit OWNER_RIGHTS i)
  || (security_token_has_privilege token SEC_PRIV_RESTORE && (i =? 16)).

Lemma owner_bits bits :
  exists owns, (if has bits OWNER_RIGHTS then security_token_has_sid token (owner_sid sd) else Ret false) = Ret owns /\
    forall j, 0 <= j -> Z.testbit (if owns then Z.ldiff bits OWNER_RIGHTS else bits) j =
      Z.testbit bits j && negb (bool_decide (holds token (owner_sid sd)) && Z.testbit OWNER_RIGHTS j).
Proof.
  destruct (has bits OWNER_RIGHTS) eqn:Eh.
  - rewrite has_sid_spec by (done || by destruct Ws). eexists. split; [done|]. intros j Hj.
    case_bool_decide; cbn [andb negb]; [by rewrite Z.ldiff_spec|by rewrite andb_true_r].
  - exists false. split; [done|]. intros j Hj. destruct (Z.testbit bits j) eqn:E1; [|done].
    destruct (Z.testbit OWNER_RIGHTS j) eqn:E2; [|by rewrite andb_false_r].
    assert (has bits OWNER_RIGHTS = true) by (apply has_spec; by exists j). congruence.
Qed.

Lemma restore_bits bits j :
  0 <= j ->
  Z.testbit (if has bits SEC_STD_DELETE && security_token_has_privilege token SEC_PRIV_RESTORE
             then Z.ldiff bits SEC_STD_DELETE else bits) j =
  Z.testbit bits j && negb (security_token_has_privilege token SEC_PRIV_RESTORE && (j =? 16)).
Proof.
  intros Hj. change SEC_STD_DELETE with (2 ^ 16). rewrite has_pow2 by done.
  destruct (security_token_has_privilege token SEC_PRIV_RESTORE); [|by rewrite !andb_false_r, !andb_true_r].
  rewrite andb_true_r. cbn [andb]. destruct (Z.eqb_spec j 16) as [->|Hne]; cbn [negb].
  - destruct (Z.testbit bits 16) eqn:E; [by rewrite ldiff_pow2_bit, E by done|by rewrite E].
  - destruct (Z.testbit bits 16); [|by rewrite andb_true_r]. rewrite ldiff_pow2_bit by done.
    by assert ((16 =? j) = false) as -> by lia.
Qed.

Lemma check_dacl_empty bits : dacl_aces sd = [] -> check_dacl sd token bits = Ret NT_STATUS_ACCESS_DENIED.
Proof.
  intros E. unfold check_dacl, dacl_aces in *. destruct Ws as [_ _ _ _ Wd]. destruct (dacl sd) as [acl|]; [|done].
  destruct Wd as [Wn _ _]. cbn in E. rewrite E in Wn. by rewrite Wn.
Qed.

Lemma check_dacl_spec bits :
  dacl_aces sd <> [] ->
  exists b, check_dacl sd token bits = Ret (if (b : bool) then NT_STATUS_OK else NT_STATUS_ACCESS_DENIED) /\
    (b = true <-> forall j, 0 <= j -> Z.testbit bits j = true -> owner_or_restore j || decided token j (dacl_aces sd) = true).
Proof.
  intros Hne. unfold check_dacl, dacl_aces in *. pose proof Ws as [_ _ _ _ Wd]. destruct (dacl sd) as [acl|]; [|done].
  destruct Wd as [Wn _ Wa]. cbn in Hne. cbn [fmap option_fmap option_map default from_option].
  assert ((num_aces acl =? 0) = false) as -> by (destruct (aces acl); [done|cbn in Wn; lia]).
  destruct (owner_bits bits) as (owns & -> & Ho). cbn [obind].
  match goal with |- context [check_loop _ _ _ _ ?b] => set (bits2 := b) end.
  assert (forall j, 0 <= j -> Z.testbit bits2 j = Z.testbit bits j && negb (owner_or_restore j)) as Hb.
  { intros j Hj. unfold bits2. rewrite restore_bits, Ho by done. unfold owner_or_restore. by rewrite negb_orb, andb_assoc. }
  destruct (check_loop_spec token Wt acl (Z.to_nat (num_aces acl)) 0 bits2) as (r & -> & Hr); [lia|done|]. cbn [obind].
  exists (bool_decide (r = Some 0)). split.
  - f_equal. destruct r as [z|]; [|done].
    destruct (bool_decide_reflect (Some z = Some 0)) as [[= ->]|E]; [done|]. by destruct (Z.eqb_spec z 0) as [->|].
  - rewrite bool_decide_eq_true, Hr, drop_0. split; intros H j Hj E.
    + specialize (H j Hj). rewrite Hb, E in H by done. destruct (owner_or_restore j); [done|]. by apply H.
    + rewrite Hb in E by done. apply andb_true_iff in E as [E1 E2%negb_true_iff]. specialize (H j Hj E1). by rewrite E2 in H.
Qed.

Lemma implicit_split i :
  implicit token sd i = owner_or_restore i || (security_token_has_privilege token SEC_PRIV_SECURITY && (i =? 24)).
Proof. done. Qed.

Lemma all_allowed_spec desired :
  is_u32 desired -> all_allowed token sd desired = true <-> forall j, 0 <= j -> Z.testbit desired j = true -> bit_allowed token sd j = true.
Proof.
  intros Hd. unfold all_allowed. rewrite forallb_bits. split; intros H.
  - intros j Hj E. destruct (decide (32 <= j)); [by rewrite (is_u_testbit 32) in E|].
    specialize (H (Z.to_nat j) ltac:(lia)). rewrite Z2Nat.id, E in H by done. done.
  - intros n Hn. destruct (Z.testbit desired (Z.of_nat n)) eqn:E; [|done]. apply H; [lia|done].
Qed.

Lemma dacl_present : has (sd_type sd) SEC_DESC_DACL_PRESENT = Z.testbit (sd_type sd) 2.
Proof. change SEC_DESC_DACL_PRESENT with (2 ^ 2). by apply has_pow2. Qed.

(** The part of the check after the maximum has been added: [bits] are the bits to be
    checked, [desired] what was asked for. *)
Lemma remaining_spec desired :
  is_u32 desired -> Z.testbit desired 25 = false ->
  sec_access_check sd token desired = Ret (access_decision token sd desired, desired).
Proof.
  intros Hd H25. unfold sec_access_check. change SEC_FLAG_MAXIMUM_ALLOWED with (2 ^ 25). rewrite has_pow2, H25 by done.
  cbn [obind]. change SEC_FLAG_SYSTEM_SECURITY with (2 ^ 24). rewrite has_pow2 by done. unfold access_decision.
  destruct (Z.testbit desired 24 && negb (security_token_has_privilege token SEC_PRIV_SECURITY)) eqn:Es; [done|].
  rewrite dacl_present. destruct (Z.testbit (sd_type sd) 2); cbn [negb]; [|done].
  case_bool_decide as Ee; [by rewrite check_dacl_empty|].
  destruct (check_dacl_spec (if Z.testbit desired 24 then Z.ldiff desired (2 ^ 24) else desired) Ee) as (b & -> & Hb). cbn [obind].
  do 2 f_equal. assert (b = all_allowed token sd desired) as ->; [|done].
  apply Bool.eq_iff_eq_true. rewrite Hb, all_allowed_spec by done.
  unfold bit_allowed. setoid_rewrite implicit_split.
  assert (forall j, Z.testbit (if Z.testbit desired 24 then Z.ldiff desired (2 ^ 24) else desired) j = Z.testbit desired j && negb (24 =? j)) as Ej.
  { intros j. destruct (Z.testbit desired 24) eqn:E24; [by rewrite ldiff_pow2_bit|].
    destruct (Z.eqb_spec 24 j) as [<-|]; [by rewrite E24|by rewrite andb_true_r]. }
  split; intros H j Hj E.
  - destruct (Z.eqb_spec j 24) as [->|Hne].
    + rewrite E in Es. cbn [andb] in Es. apply negb_false_iff in Es. rewrite Es. cbn [andb]. by rewrite orb_true_r.
    + specialize (H j Hj). rewrite Ej, E in H. assert ((24 =? j) = false) as H24 by lia. rewrite H24 in H.
      specialize (H eq_refl). by rewrite andb_false_r, orb_false_r.
  - rewrite Ej in E. apply andb_true_iff in E as [E E24]. specialize (H j Hj E).
    assert ((j =? 24) = false) as Hj24 by lia. by rewrite Hj24, andb_false_r, orb_false_r in H.
Qed.
End checks.

(** ** The maximum *)

Lemma bits_is_u32 x : (forall i, 32 <= i -> Z.testbit x i = false) -> is_u32 x.
Proof.
  intros H. destruct (decide (0 <= x)) as [Hp|Hn]; [by apply testbit_is_u|].
  set (i := Z.max 32 (Z.log2 (Z.pred (- x)) + 1)). specialize (H i ltac:(lia)).
  rewrite Z.bits_above_log2_neg in H by lia. done.
Qed.

Lemma max_allowed_spec sd token acl :
  wf_sd sd -> wf_token token -> dacl sd = Some acl ->
  exists m, access_check_max_allowed sd token = Ret m /\ forall j, 0 <= j -> Z.testbit m j = most token sd j.
Proof.
  intros Ws Wt Ed. unfold access_check_max_allowed. rewrite has_sid_spec by (done || by destruct Ws). cbn [obind]. rewrite Ed.
  pose proof Ws as [_ _ _ _ Wd]. rewrite Ed in Wd. destruct Wd as [Wn _ Wa].
  match goal with |- context [max_loop _ _ _ _ ?s] => destruct (max_loop_spec token Wt acl (Z.to_nat (num_aces acl)) 0 s) as ([d g] & -> & H1 & H2) end; [lia|done|].
  cbn [obind]. eexists. split; [done|]. intros j Hj. cbn [fst snd] in *. rewrite Z.ldiff_spec, H1, H2, drop_0.
  unfold most, dacl_aces. rewrite Ed. cbn [fmap option_fmap option_map default from_option]. rewrite Z.bits_0. cbn [orb]. do 2 f_equal.
  case_bool_decide; cbn [andb orb].
  - destruct (Z.testbit OWNER_RIGHTS j) eqn:E; [done|]. cbn [orb]. destruct (Z.eqb_spec j 16) as [->|]; [done|by rewrite andb_false_r].
  - destruct (security_token_has_privilege token SEC_PRIV_RESTORE); cbn [andb]; [|by rewrite Z.bits_0].
    change SEC_STD_DELETE with (2 ^ 16). rewrite Z.pow2_bits_eqb by done. apply Z.eqb_sym.
Qed.

Lemma allows_not_denies token i a : allows token i a = true -> denies token i a = false.
Proof.
  unfold allows, denies. rewrite !andb_true_iff. intros [[_ E%Z.eqb_eq] _]. rewrite E.
  change (is_denied_type SEC_ACE_TYPE_ACCESS_ALLOWED) with false. by rewrite andb_false_r.
Qed.

(** What some entry allows and none denies is decided in favour. *)
Lemma allowed_decided token i l :
  existsb (allows token i) l = true -> existsb (denies token i) l = false -> decided token i l = true.
Proof.
  induction l as [|a l IH]; [done|]. cbn [existsb decided]. intros H1 [H2 H3]%orb_false_iff.
  destruct (allows token i a); [done|]. rewrite H2. by apply IH.
Qed.

Lemma most_allowed token sd i : most token sd i = true -> owner_or_restore sd token i || decided token i (dacl_aces sd) = true.
Proof.
  unfold most. rewrite andb_true_iff, negb_true_iff, orb_true_iff. intros [[H1|H1] H2].
  - unfold owner_or_restore. by rewrite H1.
  - by rewrite (allowed_decided token i), orb_true_r.
Qed.

Lemma most_high token sd acl i : wf_sd sd -> dacl sd = Some acl -> 32 <= i -> most token sd i = false.
Proof.
  intros [_ _ _ _ Wd] Ed Hi. rewrite Ed in Wd. destruct Wd as [_ _ Wa]. unfold most, dacl_aces. rewrite Ed.
  change (default [] (aces <$> Some acl)) with (aces acl).
  rewrite (is_u_testbit 32 OWNER_RIGHTS) by (done || by_eval). assert ((i =? 16) = false) as -> by lia. rewrite !andb_false_r. cbn [orb].
  assert (existsb (allows token i) (aces acl) = false) as ->; [|done].
  induction Wa as [|a l [_ Wm _] Wa IH]; [done|]. cbn [existsb]. rewrite IH. unfold allows.
  by rewrite (is_u_testbit 32 (access_mask a)), andb_false_r.
Qed.

Section maximum.
Context (sd : security_descriptor) (token : security_token) (acl : security_acl).
Context (Ws : wf_sd sd) (Wt : wf_token token) (Ed : dacl sd = Some acl) (Hne : aces acl <> []).
Context (Hp : Z.testbit (sd_type sd) 2 = true) (H24 : most token sd 24 = false).

Lemma dacl_aces_some : dacl_aces sd = aces acl.
Proof. unfold dacl_aces. by rewrite Ed. Qed.

(** [extra] is asked for together with the maximum; the bit of SEC_STD_DELETE is never
    checked. *)
Lemma max_check_ok extra m :
  access_check_max_allowed sd token = Ret m -> (forall j, 0 <= j -> Z.testbit m j = most token sd j) ->
  extra = 0 \/ extra = SEC_STD_DELETE ->
  sec_access_check sd token (Z.lor SEC_FLAG_MAXIMUM_ALLOWED extra) =
    Ret (NT_STATUS_OK, Z.lor (Z.ldiff m SEC_FLAG_MAXIMUM_ALLOWED) extra).
Proof.
  intros Em Hm Hx. unfold sec_access_check. change SEC_FLAG_MAXIMUM_ALLOWED with (2 ^ 25). rewrite has_pow2 by done.
  rewrite Z.lor_spec, Z.pow2_bits_true by done. cbn [orb]. rewrite Em. cbn [obind].
  assert (Z.ldiff (Z.lor (Z.lor (2 ^ 25) extra) m) (2 ^ 25) = Z.lor (Z.ldiff m (2 ^ 25)) extra) as ->.
  { apply Z.bits_inj'. intros j Hj. rewrite Z.ldiff_spec, !Z.lor_spec, Z.ldiff_spec.
    destruct (Z.testbit (2 ^ 25) j) eqn:E25, (Z.testbit m j); cbn [negb andb orb]; rewrite ?orb_true_r, ?andb_true_r, ?andb_false_r, ?orb_false_r; try done.
    all: rewrite Z.pow2_bits_eqb in E25 by done; apply Z.eqb_eq in E25 as <-; by destruct Hx as [-> | ->]. }
  set (g := Z.lor (Z.ldiff m (2 ^ 25)) extra).
  assert (Z.testbit g 24 = false) as Hg24.
  { unfold g. rewrite Z.lor_spec, ldiff_pow2_bit, Hm, H24 by done. by destruct Hx as [-> | ->]. }
  change SEC_FLAG_SYSTEM_SECURITY with (2 ^ 24). rewrite has_pow2, Hg24 by done. cbn [andb].
  rewrite dacl_present, Hp. cbn [negb].
  assert (dacl_aces sd <> []) as Hne' by by rewrite dacl_aces_some.
  destruct (check_dacl_spec sd token Ws Wt (Z.ldiff g SEC_STD_DELETE) Hne') as (b & -> & Hb). cbn [obind].
  assert (b = true) as ->; [|done]. apply Hb. intros j Hj E. apply most_allowed. rewrite <- Hm by done.
  change SEC_STD_DELETE with (2 ^ 16) in E. rewrite ldiff_pow2_bit in E by done. unfold g in E.
  rewrite Z.lor_spec, ldiff_pow2_bit in E by done. apply andb_true_iff in E as [E E16].
  apply orb_true_iff in E as [E|E]; [by apply andb_true_iff in E as [? _]|].
  destruct Hx as [-> | ->]; [by rewrite Z.bits_0 in E|]. change SEC_STD_DELETE with (2 ^ 16) in E.
  rewrite Z.pow2_bits_eqb in E by done. by rewrite E in E16.
Qed.

Lemma max_decision m :
  (forall j, 0 <= j -> Z.testbit m j = most token sd j) -> is_u32 m ->
  access_decision token sd (Z.ldiff m SEC_FLAG_MAXIMUM_ALLOWED) = NT_STATUS_OK.
Proof.
  intros Hm Hu. unfold access_decision. change SEC_FLAG_MAXIMUM_ALLOWED with (2 ^ 25).
  rewrite ldiff_pow2_bit, Hm, H24, Hp by done. cbn [andb negb]. rewrite dacl_aces_some.
  rewrite bool_decide_eq_false_2 by done. assert (is_u32 (Z.ldiff m (2 ^ 25))) as Hd.
  { apply bits_is_u32. intros i Hi. by rewrite ldiff_pow2_bit, (is_u_testbit 32). }
  assert (all_allowed token sd (Z.ldiff m (2 ^ 25)) = true) as ->; [|done].
  apply all_allowed_spec; [done|]. intros j Hj E. rewrite ldiff_pow2_bit in E by done. apply andb_true_iff in E as [E _].
  rewrite Hm in E by done. apply most_allowed in E. unfold bit_allowed. rewrite implicit_split.
  apply orb_true_iff in E as [-> | ->]; [done|by rewrite orb_true_r].
Qed.
End maximum.

(** C32: sec_access_check decides exactly as the reference that looks at one bit at a time:
    it refuses the system security right without its privilege, admits everything to an
    object whose DACL is marked absent and nothing to one with an empty DACL, and
    otherwise admits iff every bit asked for is implicit (ownership, a privilege) or
    allowed by the first entry of the token that mentions it. *)
Theorem sec_access_check_decides sd token desired :
  wf_sd sd -> wf_token token -> is_u32 desired -> Z.testbit desired 25 = false ->
  sec_access_check sd token desired = Ret (access_decision token sd desired, desired).
Proof. intros. by apply remaining_spec. Qed.

(** C33: asked for the maximum, sec_access_check of an object with entries grants exactly the
    bits that are implicit or allowed and that no entry denies, and all of them would also
    be granted when asked for one by one; but the right to delete is granted to
    everyone who asks for it together with the maximum, and an object without a DACL makes
    the check read through a null pointer. *)
Theorem maximum_allowed sd token :
  wf_sd sd -> wf_token token ->
  (forall desired, dacl sd = None -> Z.testbit desired 25 = true -> sec_access_check sd token desired = Fault) /\
  (forall acl, dacl sd = Some acl -> aces acl <> [] -> Z.testbit (sd_type sd) 2 = true -> most token sd 24 = false ->
     exists g, sec_access_check sd token SEC_FLAG_MAXIMUM_ALLOWED = Ret (NT_STATUS_OK, g) /\
       (forall j, 0 <= j -> Z.testbit g j = most token sd j && negb (j =? 25)) /\
       sec_access_check sd token g = Ret (NT_STATUS_OK, g) /\
       sec_access_check sd token (Z.lor SEC_FLAG_MAXIMUM_ALLOWED SEC_STD_DELETE) = Ret (NT_STATUS_OK, Z.lor g SEC_STD_DELETE)).
Proof.
  intros Ws Wt. split.
  - intros desired Ed H25. unfold sec_access_check. change SEC_FLAG_MAXIMUM_ALLOWED with (2 ^ 25). rewrite has_pow2, H25 by done.
    unfold access_check_max_allowed. rewrite has_sid_spec by (done || by destruct Ws). cbn [obind]. by rewrite Ed.
  - intros acl Ed Hne Hp H24. destruct (max_allowed_spec sd token acl Ws Wt Ed) as (m & Em & Hm).
    assert (is_u32 m) as Hu by (apply bits_is_u32; intros i Hi; rewrite Hm by lia; by eapply most_high).
    exists (Z.ldiff m SEC_FLAG_MAXIMUM_ALLOWED). split_and!.
    + pose proof (max_check_ok sd token acl Ws Wt Ed Hne Hp H24 0 m Em Hm (or_introl eq_refl)) as E.
      by rewrite !Z.lor_0_r in E.
    + intros j Hj. change SEC_FLAG_MAXIMUM_ALLOWED with (2 ^ 25). rewrite ldiff_pow2_bit, Hm by done. by rewrite Z.eqb_sym.
    + rewrite remaining_spec; [by rewrite (max_decision sd token acl)|done|done| |].
      * apply bits_is_u32. intros i Hi. by rewrite Z.ldiff_spec, (is_u_testbit 32).
      * change SEC_FLAG_MAXIMUM_ALLOWED with (2 ^ 25). rewrite ldiff_pow2_bit by done. by rewrite andb_false_r.
    + apply (max_check_ok sd token acl); auto.
Qed.

(** A copy of a descriptor guards nothing: its DACL is not marked present. *)
Lemma copy_guards_nothing A sd token desired :
  malloc_always A -> wf_sd sd -> wf_token token -> is_u32 desired -> Z.testbit desired 25 = false -> Z.testbit desired 24 = false ->
  exists c, security_descriptor_copy A sd = Ret (Some c) /\ sec_access_check c token desired = Ret (NT_STATUS_OK, desired).
Proof.
  intros mem Ws Wt Hd H25 H24. exists (sd_copy sd). split; [by apply sd_copy_ok|].
  rewrite remaining_spec by auto using wf_sd_copy. unfold access_decision. by rewrite H24.
Qed.

(** An entry that denies the user writing comes before one that allows reading and writing. *)
Definition user : dom_sid := DomSid 1 1 [0; 0; 0; 0; 0; 5] [21].
Definition guarded : security_descriptor :=
  SecurityDescriptor 1 (Z.lor SEC_DESC_SELF_RELATIVE SEC_DESC_DACL_PRESENT) (Some builtin_administrators) None None
    (Some (SecurityAcl 2 0 2 [SecurityAce 1 0 0x2 user; SecurityAce 0 0 0x3 user])).
Definition user_token : security_token := SecurityToken (Some user) None 1 [Some user] 0.

Lemma wf_guarded : wf_sd guarded.
Proof.
  constructor; cbn; [by_eval|by_eval|done|done|].
  constructor; cbn; [done|by_eval|]. do 2 (constructor; [constructor; by_eval|]). constructor.
Qed.
Lemma wf_user_token : wf_token user_token.
Proof. constructor; cbn; [done|by_eval|by_eval]. Qed.

(** The user may read and not write. *)
Lemma sec_access_check_decides_witness :
  sec_access_check guarded user_token 1 = Ret (NT_STATUS_OK, 1) /\
  sec_access_check guarded user_token 3 = Ret (NT_STATUS_ACCESS_DENIED, 3).
Proof.
  split.
  - refine (eq_trans (sec_access_check_decides guarded user_token 1 wf_guarded wf_user_token _ _) _); [by_eval|reflexivity|vm_compute; reflexivity].
  - refine (eq_trans (sec_access_check_decides guarded user_token 3 wf_guarded wf_user_token _ _) _); [by_eval|reflexivity|vm_compute; reflexivity].
Defined.

(** Who may not delete may, by asking for the maximum as well. *)
Lemma maximum_allowed_witness :
  sec_access_check guarded user_token SEC_STD_DELETE = Ret (NT_STATUS_ACCESS_DENIED, SEC_STD_DELETE) /\
  exists g, sec_access_check guarded user_token SEC_FLAG_MAXIMUM_ALLOWED = Ret (NT_STATUS_OK, g) /\
    sec_access_check guarded user_token (Z.lor SEC_FLAG_MAXIMUM_ALLOWED SEC_STD_DELETE) = Ret (NT_STATUS_OK, Z.lor g SEC_STD_DELETE).
Proof.
  split; [vm_compute; reflexivity|].
  destruct (proj2 (maximum_allowed guarded user_token wf_guarded wf_user_token) _ eq_refl) as (g & H1 & _ & _ & H2);
    [discriminate|reflexivity|vm_compute; reflexivity|]. by exists g.
Defined.
