(* ===== verification/Asn1.v ===== *)
(** libcli/util/asn1.c: writing and reading of BER structures in a buffer.  Both sides
    share one state and stack of open tags, and most calls leave an error to be found in
    the state later. *)

From stdpp Require Import strings.
From S2P Require Import Prelude Digest Byteorder Ntstatus Cnum DomSid.

#[local] Open Scope outcome_scope.

Module Asn1.

(** An open tag: where its length byte (writing) or its contents (reading) start, and the
    length that was read. *)
Record nest := Nest { start : nat; taglen : Z }.

(** The length is that of the buffer.  [gone] says that the buffer is freed or null after a
    failed growth; [allocs] counts the allocations made through this state. *)
Record asn1_data := Asn1Data {
  data : list Z;
  gone : bool;
  ofs : nat;
  nesting : list nest;
  has_error : bool;
  allocs : nat
}.

(** ZERO_STRUCT. *)
Definition empty_data : asn1_data := Asn1Data [] false 0 [] false 0.

Definition set_data (l : list Z) (d : asn1_data) : asn1_data := Asn1Data l (gone d) (ofs d) (nesting d) (has_error d) (allocs d).
Definition set_ofs (o : nat) (d : asn1_data) : asn1_data := Asn1Data (data d) (gone d) o (nesting d) (has_error d) (allocs d).
Definition set_nesting (n : list nest) (d : asn1_data) : asn1_data := Asn1Data (data d) (gone d) (ofs d) n (has_error d) (allocs d).
Definition set_error (e : bool) (d : asn1_data) : asn1_data := Asn1Data (data d) (gone d) (ofs d) (nesting d) e (allocs d).
Definition lose_data (d : asn1_data) : asn1_data := Asn1Data (data d) true (ofs d) (nesting d) true (allocs d).
Definition count (d : asn1_data) : asn1_data := Asn1Data (data d) (gone d) (ofs d) (nesting d) (has_error d) (S (allocs d)).

(** Calls on the state: a value and the next state, or a fault. *)
Definition M (A : Type) : Type := asn1_data -> outcome (A * asn1_data).
Definition ret {A} (a : A) : M A := fun d => Ret (a, d).
Definition bind {A B} (m : M A) (f : A -> M B) : M B := fun d => let* r := m d in f r.1 r.2.
Definition get {A} (f : asn1_data -> A) : M A := fun d => Ret (f d, d).
Definition modify (f : asn1_data -> asn1_data) : M unit := fun d => Ret (tt, f d).
Definition fault {A} : M A := fun _ => Fault.

Declare Scope asn1_scope.
Delimit Scope asn1_scope with asn1.
Notation "'do' x <- m ; k" := (bind m (fun x => k)) (at level 10, x pattern, m at level 100, k at level 200) : asn1_scope.
Notation "m ;; k" := (bind m (fun _ => k)) (at level 100, right associativity) : asn1_scope.
Notation "'require' m ; k" := (bind m (fun b : bool => if b then k else ret false)) (at level 10, m at level 100, k at level 200) : asn1_scope.
#[local] Open Scope asn1_scope.

Definition ASN1_APPLICATION (x : Z) : Z := x + 0x60.
Definition ASN1_SEQUENCE (x : Z) : Z := x + 0x30.
Definition ASN1_CONTEXT (x : Z) : Z := x + 0xa0.
Definition ASN1_CONTEXT_SIMPLE (x : Z) : Z := x + 0x80.
Definition ASN1_GENERAL_STRING : Z := 0x1b.
Definition ASN1_OCTET_STRING : Z := 0x4.
Definition ASN1_OID : Z := 0x6.
Definition ASN1_BOOLEAN : Z := 0x1.
Definition ASN1_INTEGER : Z := 0x2.
Definition ASN1_ENUMERATED : Z := 0xa.

Section asn1.
Context (A : Allocator).

Definition alloc : M bool := fun d => Ret (@malloc_ok A (allocs d), count d).

(** An error that is set and returned. *)
Definition fail : M bool := modify (set_error true);; ret false.
(** return !data->has_error *)
Definition ok : M bool := get (fun d => negb (has_error d)).

(** ** Writing *)

(** talloc_realloc to [n] bytes. *)
Definition grow (n : Z) : M bool := fun d =>
  if (n <? MAX_TALLOC_SIZE) && @malloc_ok A (allocs d)
  then Ret (true, count (set_data (data d ++ replicate (Z.to_nat n - length (data d)) (@uninit A)) d))
  else Ret (false, count d).

(** memcpy to the offset. *)
Definition copy_in (p : list Z) : M unit := fun d =>
  if gone d || bool_decide (length (data d) < ofs d + length p)%nat then Fault
  else Ret (tt, set_ofs (ofs d + length p) (set_data (splice (ofs d) p (data d)) d)).

Definition asn1_write (p : list Z) : M bool :=
  do e <- get has_error;
  if (e : bool) then ret false
  else
    let len := s32 (Z.of_nat (length p)) in
    do total <- get (fun d => Z.of_nat (ofs d) + len);
    do short <- get (fun d => Z.of_nat (length (data d)) <? u64 total);
    do room <- (if (short : bool) then grow total else ret true);
    if (room : bool) then if len <? 0 then fault else copy_in p;; ret true
    else modify lose_data;; ret false.

Definition asn1_write_uint8 (v : Z) : M bool := asn1_write [u8 v].

Definition asn1_push_tag (tag : Z) : M bool :=
  asn1_write_uint8 tag;;
  do got <- alloc;
  if negb got then fail
  else
    modify (fun d => set_nesting (Nest (ofs d) (@uninit A) :: nesting d) d);;
    asn1_write_uint8 0xff.

(** data->data[k] = v. *)
Definition put (k : nat) (v : Z) : M unit := fun d =>
  if gone d || bool_decide (length (data d) <= k)%nat then Fault else Ret (tt, set_data (<[k := u8 v]> (data d)) d).

(** memmove of [n] bytes inside the buffer. *)
Definition move (dst src n : nat) : M unit := fun d =>
  if gone d || bool_decide (length (data d) < dst + n)%nat || bool_decide (length (data d) < src + n)%nat then Fault
  else Ret (tt, set_data (splice dst (slice src n (data d)) (data d)) d).

(** The length takes the byte at [start] and [k] more, for which the contents move up. *)
Definition asn1_pop_tag : M bool :=
  do stack <- get nesting;
  match stack with
  | [] => fail
  | n :: next =>
      do o <- get ofs;
      let s := start n in
      let len := u64 (Z.of_nat o - (Z.of_nat s + 1)) in
      require
        (if 0xFFFF <? len then
           put s 0x83;;
           require asn1_write_uint8 0;
           require asn1_write_uint8 0;
           require asn1_write_uint8 0;
           (move (s + 4) (s + 1) (Z.to_nat len);;
            put (s + 1) (Z.land (Z.shiftr len 16) 0xFF);;
            put (s + 2) (Z.land (Z.shiftr len 8) 0xFF);;
            put (s + 3) (Z.land len 0xFF);; ret true)
         else if 255 <? len then
           put s 0x82;;
           require asn1_write_uint8 0;
           require asn1_write_uint8 0;
           (move (s + 3) (s + 1) (Z.to_nat len);;
            put (s + 1) (Z.shiftr len 8);;
            put (s + 2) (Z.land len 0xFF);; ret true)
         else if 127 <? len then
           put s 0x81;;
           require asn1_write_uint8 0;
           (move (s + 2) (s + 1) (Z.to_nat len);;
            put (s + 1) len;; ret true)
         else put s len;; ret true);
      (modify (set_nesting next);; ret true)
  end.

(** [i] is unsigned; every level shifts a byte away, so four are enough. *)
Fixpoint push_int_bigendian (fuel : nat) (i : Z) (negative : bool) : M bool :=
  match fuel with
  | O => fault
  | S fuel =>
      let lowest := Z.land i 0xFF in
      let i := Z.shiftr i 8 in
      require (if negb (i =? 0) then push_int_bigendian fuel i negative else ret true);
      do d <- get id;
      match nesting d with
      | [] => fault
      | n :: _ =>
          if decide (start n + 1 = ofs d)%nat then
            if negative then
              if lowest =? 0xFF then ret true
              else require (if Z.land lowest 0x80 =? 0 then asn1_write_uint8 0xff else ret true); asn1_write_uint8 lowest
            else require (if negb (Z.land lowest 0x80 =? 0) then asn1_write_uint8 0 else ret true); asn1_write_uint8 lowest
          else asn1_write_uint8 lowest
      end
  end.

Definition asn1_write_implicit_Integer (i : Z) : M bool :=
  if i =? -1 then asn1_write_uint8 0xff else push_int_bigendian 4 (u32 i) (i <? 0).

Definition asn1_write_Integer (i : Z) : M bool :=
  require asn1_push_tag ASN1_INTEGER;
  require asn1_write_implicit_Integer i;
  asn1_pop_tag.

(** One component: the leading groups are written whatever comes of it. *)
Definition write_component (v : Z) : M bool :=
  (if 2 ^ 28 <=? v then asn1_write_uint8 (Z.lor 0x80 (Z.land (Z.shiftr v 28) 0xff)) else ret true);;
  (if 2 ^ 21 <=? v then asn1_write_uint8 (Z.lor 0x80 (Z.land (Z.shiftr v 21) 0xff)) else ret true);;
  (if 2 ^ 14 <=? v then asn1_write_uint8 (Z.lor 0x80 (Z.land (Z.shiftr v 14) 0xff)) else ret true);;
  (if 2 ^ 7 <=? v then asn1_write_uint8 (Z.lor 0x80 (Z.land (Z.shiftr v 7) 0xff)) else ret true);;
  asn1_write_uint8 (Z.land v 0x7f).

(** Where strtol does not advance, zeros are written until the buffer cannot grow. *)
Fixpoint write_components (fuel : nat) (p : list Z) : M bool :=
  match p, fuel with
  | [], _ => ret true
  | _, O => fault
  | _, S fuel =>
      let '(v, newp) := strtol p in
      if decide (length newp = length p) then modify lose_data;; ret false
      else require write_component (u32 v); write_components fuel newp
  end.

Definition asn1_write_OID (OID : list Z) : M bool :=
  require asn1_push_tag ASN1_OID;
  let '(v, p) := strtol OID in
  let '(v2, p) := strtol p in
  require asn1_write_uint8 (40 * u32 v + u32 v2);
  require write_components (length p) p;
  asn1_pop_tag.

(** Between a pushed and a popped tag. *)
Definition tagged (tag : Z) (m : M bool) : M bool := asn1_push_tag tag;; m;; asn1_pop_tag;; ok.

Definition asn1_write_OctetString (p : list Z) : M bool := tagged ASN1_OCTET_STRING (asn1_write p).
Definition asn1_write_LDAPString (s : list Z) : M bool := asn1_write s;; ok.
Definition asn1_write_GeneralString (s : list Z) : M bool := tagged ASN1_GENERAL_STRING (asn1_write_LDAPString s).
Definition asn1_write_ContextSimple (num : Z) (blob : list Z) : M bool := tagged (ASN1_CONTEXT_SIMPLE num) (asn1_write blob).
Definition asn1_write_BOOLEAN (v : bool) : M bool := tagged ASN1_BOOLEAN (asn1_write_uint8 (if v then 0xFF else 0)).
Definition asn1_write_enumerated (v : Z) : M bool :=
  require asn1_push_tag ASN1_ENUMERATED; (asn1_write_uint8 v;; asn1_pop_tag;; ok).

(** ** Reading *)

(** A null or empty blob; talloc_memdup of no bytes is not null. *)
Definition asn1_load (blob : list Z) : M bool := fun _ =>
  if @malloc_ok A 0 then Ret (true, Asn1Data blob false 0 [] false 1)
  else Ret (false, Asn1Data [] true 0 [] true 1).

(** The [len] bytes at the offset, or none; running out of data moves the offset to the end. *)
Definition asn1_peek (len : Z) : M (option (list Z)) := fun d =>
  let o := Z.of_nat (ofs d) in
  if len <? 0 then Ret (None, d)
  else if Z.of_nat (length (data d)) <? o + len then Ret (None, set_ofs (length (data d)) d)
  else if gone d then Fault
  else Ret (Some (slice (ofs d) (Z.to_nat len) (data d)), d).

Definition asn1_read (len : Z) : M (option (list Z)) :=
  do p <- asn1_peek len;
  match p with
  | None => fail;; ret None
  | Some p => modify (fun d => set_ofs (ofs d + Z.to_nat len) d);; ret (Some p)
  end.

(** The result, and the variable, which keeps its value [v] on failure. *)
Definition byte_of (v : Z) (p : option (list Z)) : bool * Z :=
  match p with Some [b] => (true, b) | _ => (false, v) end.
Definition asn1_read_uint8 (v : Z) : M (bool * Z) := do p <- asn1_read 1; ret (byte_of v p).
Definition asn1_peek_uint8 (v : Z) : M (bool * Z) := do p <- asn1_peek 1; ret (byte_of v p).

Definition asn1_tag_remaining : M Z :=
  do d <- get id;
  if has_error d then ret (-1)
  else
    match nesting d with
    | [] => fail;; ret (-1)
    | n :: _ =>
        let remaining := s32 (u64 (taglen n - (Z.of_nat (ofs d) - Z.of_nat (start n)))) in
        if u64 (Z.of_nat (length (data d)) - Z.of_nat (ofs d)) <? u64 remaining then fail;; ret (-1) else ret remaining
    end.

Definition asn1_peek_tag (tag : Z) : M bool :=
  do r <- asn1_tag_remaining;
  if r <=? 0 then ret false
  else do b <- asn1_peek_uint8 0; ret (b.1 && (b.2 =? tag)).

(** The further bytes of a long length. *)
Fixpoint read_length (n : nat) (len b : Z) : M (option Z) :=
  match n with
  | O => ret (Some len)
  | S n =>
      do r <- asn1_read_uint8 b;
      if r.1 then read_length n (u64 (Z.lor (Z.shiftl len 8) r.2)) r.2 else ret None
  end.

Definition asn1_start_tag (tag : Z) : M bool :=
  do r <- asn1_read_uint8 (@uninit A);
  if negb r.1 then ret false
  else if negb (r.2 =? tag) then fail
  else
    do got <- alloc;
    if negb got then fail
    else
      do r <- asn1_read_uint8 r.2;
      if negb r.1 then ret false
      else
        do len <-
          (if negb (Z.land r.2 0x80 =? 0) then
             let n := Z.land r.2 0x7f in
             do r <- asn1_read_uint8 r.2;
             if negb r.1 then ret None else read_length (Z.to_nat (n - 1)) r.2 r.2
           else ret (Some r.2));
        match len with
        | None => ret false
        | Some len =>
            modify (fun d => set_nesting (Nest (ofs d) len :: nesting d) d);;
            do r <- asn1_tag_remaining;
            if r =? -1 then ret false else ok
        end.

Definition asn1_end_tag : M bool :=
  do r <- asn1_tag_remaining;
  if negb (r =? 0) then fail
  else
    do stack <- get nesting;
    match stack with
    | [] => fail
    | _ :: next => modify (set_nesting next);; ret true
    end.

(** One component of an object identifier: seven bits to a byte while the top bit is set. *)
Fixpoint read_component (fuel : nat) (v b : Z) : M (Z * Z) :=
  match fuel with
  | O => fault
  | S fuel =>
      do r <- asn1_read_uint8 b;
      let v := Z.lor (u32 (Z.shiftl v 7)) (Z.land r.2 0x7f) in
      do e <- get has_error;
      if negb e && negb (Z.land r.2 0x80 =? 0) then read_component fuel v r.2 else ret (v, r.2)
  end.

(** talloc_asprintf_append: to a null string it prints from the start. *)
Definition asprintf_append (s : option (list Z)) (t : list Z) : M (option (list Z)) :=
  do got <- alloc; ret (if (got : bool) then Some (default [] s ++ t) else None).

(** while (!data->has_error && asn1_tag_remaining(data) > 0) *)
Definition more : M bool :=
  do e <- get has_error;
  if (e : bool) then ret false else do r <- asn1_tag_remaining; ret (0 <? r).

Fixpoint read_components (fuel : nat) (b : Z) (tmp_oid : option (list Z)) : M (option (list Z)) :=
  match fuel with
  | O => fault
  | S fuel =>
      do m <- more;
      if negb m then ret tmp_oid
      else
        do d <- get id;
        do v <- read_component (S (length (data d) - ofs d)) 0 b;
        do t <- asprintf_append tmp_oid (32 :: dec v.1);
        read_components fuel v.2 t
  end.

(** The result, and what is stored through the pointer, if anything. *)
Definition asn1_read_OID : M (bool * option (option (list Z))) :=
  do s <- asn1_start_tag ASN1_OID;
  if negb s then ret (false, None)
  else
    do r <- asn1_read_uint8 (@uninit A);
    let b := r.2 in
    do t <- asprintf_append None (dec (b / 40));
    do t <- asprintf_append t (32 :: dec (b mod 40));
    do d <- get id;
    do t <- read_components (S (S (length (data d) - ofs d))) b t;
    asn1_end_tag;;
    do got <- (match t with None => ret false | Some _ => alloc end);
    let OID := if (got : bool) then t else None in
    do good <- ok;
    ret (bool_decide (is_Some OID) && good, Some OID).

Definition asn1_check_OID (OID : list Z) : M bool :=
  do r <- asn1_read_OID;
  match r with
  | (true, Some (Some id)) => if decide (id = OID) then ret true else fail
  | _ => ret false
  end.

(** The rest of the tag, and a terminator; the result, and what is stored through the
    pointer: nothing, null, or a string. *)
Definition asn1_read_LDAPString : M (bool * option (option (list Z))) :=
  do len <- asn1_tag_remaining;
  if len <? 0 then fail;; ret (false, None)
  else
    do got <- alloc;
    if negb got then fail;; ret (false, Some None)
    else
      do s <- asn1_read len;
      do good <- ok;
      ret (good, Some (Some (default (replicate (Z.to_nat len) (@uninit A)) s))).

(** What is stored for the caller, if anything. *)
Definition asn1_read_GeneralString : M (bool * option (option (list Z))) :=
  do s <- asn1_start_tag ASN1_GENERAL_STRING;
  if negb s then ret (false, None)
  else
    do r <- asn1_read_LDAPString;
    if negb r.1 then ret (false, r.2) else do e <- asn1_end_tag; ret (e, r.2).

(** A blob has room for a terminator; on an error it is null again. *)
Definition asn1_read_OctetString : M (bool * option (list Z)) :=
  do s <- asn1_start_tag ASN1_OCTET_STRING;
  if negb s then ret (false, None)
  else
    do len <- asn1_tag_remaining;
    if len <? 0 then fail;; ret (false, None)
    else
      do got <- alloc;
      if negb got then fail;; ret (false, None)
      else
        do p <- asn1_read len;
        asn1_end_tag;;
        do good <- ok;
        ret (if (good : bool) then (true, p) else (false, None)).

(** A blob of no bytes is null, which counts as a failed allocation. *)
Definition asn1_read_ContextSimple (num : Z) : M (bool * option (list Z)) :=
  do s <- asn1_start_tag (ASN1_CONTEXT_SIMPLE num);
  if negb s then ret (false, None)
  else
    do len <- asn1_tag_remaining;
    if len <? 0 then fail;; ret (false, None)
    else
      do got <- (if len =? 0 then ret false else alloc);
      if negb got then fail;; ret (false, None)
      else
        do p <- asn1_read len;
        asn1_end_tag;;
        do good <- ok;
        ret (good, Some (default (replicate (Z.to_nat len) (@uninit A)) p)).

Definition asn1_read_BOOLEAN : M (bool * bool) :=
  asn1_start_tag ASN1_BOOLEAN;;
  do tmp <- asn1_read_uint8 0;
  asn1_end_tag;;
  do good <- ok;
  ret (good, tmp.2 =? 0xFF).

(** The byte after the tag, which is its length, is compared with the value. *)
Definition asn1_check_BOOLEAN (v : bool) : M bool :=
  do b <- asn1_read_uint8 0;
  if negb (b.2 =? ASN1_BOOLEAN) then fail
  else
    do b <- asn1_read_uint8 b.2;
    if negb (b.2 =? (if v then 1 else 0)) then fail else ok.

(** The bytes of the tag, most significant first, without regard to the sign. *)
Fixpoint read_int_loop (fuel : nat) (i : Z) : M (bool * Z) :=
  match fuel with
  | O => fault
  | S fuel =>
      do m <- more;
      if negb m then do good <- ok; ret (good, i)
      else
        do b <- asn1_read_uint8 (@uninit A);
        if negb b.1 then ret (false, i) else read_int_loop fuel (s32 (Z.shiftl i 8 + b.2))
  end.

Definition asn1_read_implicit_Integer : M (bool * Z) :=
  do d <- get id; read_int_loop (S (S (length (data d) - ofs d))) 0.

Definition asn1_read_Integer : M (bool * Z) :=
  do s <- asn1_start_tag ASN1_INTEGER;
  if negb s then ret (false, 0)
  else
    do r <- asn1_read_implicit_Integer;
    if negb r.1 then ret r else do e <- asn1_end_tag; ret (e, r.2).

(** A read that fails leaves the byte uninitialised and the error set, and ends the loop. *)
Fixpoint read_enum_loop (fuel : nat) (v b : Z) : M Z :=
  match fuel with
  | O => fault
  | S fuel =>
      do m <- more;
      if negb m then ret v
      else do b <- asn1_read_uint8 b; read_enum_loop fuel (s32 (Z.shiftl v 8 + b.2)) (@uninit A)
  end.

Definition asn1_read_enumerated : M (bool * Z) :=
  do s <- asn1_start_tag ASN1_ENUMERATED;
  if negb s then ret (false, 0)
  else
    do d <- get id;
    do v <- read_enum_loop (S (S (length (data d) - ofs d))) 0 (@uninit A);
    do e <- asn1_end_tag; ret (e, v).

(** A value that differs clears the error. *)
Definition asn1_check_enumerated (v : Z) : M bool :=
  do s <- asn1_start_tag ASN1_ENUMERATED;
  if negb s then ret false
  else
    do b <- asn1_read_uint8 (@uninit A);
    asn1_end_tag;;
    (if negb (v =? b.2) then modify (set_error false) else ret tt);;
    ok.

(** Whether a blob starts with a whole tag, and how long it is. *)
Definition asn1_full_tag (blob : list Z) (tag : Z) : outcome (option Z) :=
  let* r := (asn1_start_tag tag;;
             do d <- get id;
             if has_error d then ret None
             else do r <- asn1_tag_remaining; ret (Some (s32 (r + Z.of_nat (ofs d)))))
              (Asn1Data blob false 0 [] false 0) in
  Ret (match r.1 with
       | None => None
       | Some size => if Z.of_nat (length blob) <? u64 size then None else Some size
       end).
End asn1.
End Asn1.

Import Asn1.
#[local] Open Scope asn1_scope.

(** ** What the writer emits *)

(** The length octets of DER, up to 2^24. *)
Definition der_length (n : Z) : list Z :=
  if 0xFFFF <? n then [0x83; u8 (Z.land (Z.shiftr n 16) 0xFF); u8 (Z.land (Z.shiftr n 8) 0xFF); u8 (Z.land n 0xFF)]
  else if 255 <? n then [0x82; u8 (Z.shiftr n 8); u8 (Z.land n 0xFF)]
  else if 127 <? n then [0x81; u8 n]
  else [u8 n].

(** Tag, length, value. *)
Definition tlv (tag : Z) (e : list Z) : list Z := u8 tag :: der_length (Z.of_nat (length e)) ++ e.

(** The writer stands at the end of its buffer. *)
Definition writing (d : asn1_data) : Prop := has_error d = false /\ gone d = false /\ ofs d = length (data d).

Definition appended (d : asn1_data) (e : list Z) (n : nat) : asn1_data :=
  Asn1Data (data d ++ e) false (ofs d + length e) (nesting d) false n.

Lemma appended_writing d e n : writing d -> writing (appended d e n).
Proof. intros (_ & _ & Ho). split_and!; [done|done|]. cbn. rewrite length_app. lia. Qed.

Lemma appended_appended d e1 e2 n1 n2 : appended (appended d e1 n1) e2 n2 = appended d (e1 ++ e2) n2.
Proof. unfold appended. cbn. by rewrite <- app_assoc, length_app, Nat.add_assoc. Qed.

Lemma appended_nil d : writing d -> appended d [] (allocs d) = d.
Proof. destruct d. intros (He & Hg & Ho). unfold appended. cbn in *. subst. by rewrite app_nil_r, Nat.add_0_r. Qed.

(** A call that appends [e] to whatever is written so far. *)
Definition fits (d : asn1_data) (e : list Z) : Prop := Z.of_nat (length (data d) + length e) < MAX_TALLOC_SIZE.
Definition emits (m : M bool) (e : list Z) : Prop :=
  forall d, writing d -> fits d e -> exists n, m d = Ret (true, appended d e n).

Lemma emits_ret : emits (ret true) [].
Proof. intros d Hw _. exists (allocs d). by rewrite appended_nil. Qed.

Lemma emits_bind m1 m2 e1 e2 : emits m1 e1 -> emits m2 e2 -> emits (bind m1 (fun _ => m2)) (e1 ++ e2).
Proof.
  intros H1 H2 d Hw Hf. unfold fits in *. rewrite length_app in Hf.
  destruct (H1 d Hw) as [n1 E1]; [unfold fits; lia|]. unfold bind. rewrite E1. cbn [obind fst snd].
  destruct (H2 (appended d e1 n1)) as [n2 E2]; [by apply appended_writing|unfold fits; cbn; rewrite length_app; lia|].
  exists n2. by rewrite E2, appended_appended.
Qed.

Lemma emits_require m1 m2 e1 e2 : emits m1 e1 -> emits m2 e2 -> emits (require m1; m2) (e1 ++ e2).
Proof.
  intros H1 H2 d Hw Hf. destruct (emits_bind m1 m2 e1 e2 H1 H2 d Hw Hf) as [n E]. exists n. rewrite <- E.
  unfold bind. destruct (H1 d Hw) as [n1 ->]; [|done]. unfold fits in *. rewrite length_app in Hf. lia.
Qed.

Lemma emits_ok m e : emits m e -> emits (m;; ok) e.
Proof.
  intros H d Hw Hf. destruct (H d Hw Hf) as [n E]. exists n. unfold bind. by rewrite E.
Qed.

Lemma bind_ret {B C} (m : M B) (f : B -> M C) d d' a : m d = Ret (a, d') -> bind m f d = f a d'.
Proof. intros E. unfold bind. by rewrite E. Qed.

(** A step of a sequence whose result is known. *)
Ltac step E := rewrite (bind_ret _ _ _ _ _ E); cbn beta iota.

Section writer.
Context (A : Allocator) (mem : malloc_always A).

Lemma emits_write p : emits (asn1_write A p) p.
Proof.
  intros d (He & Hg & Ho) Hf. unfold fits, MAX_TALLOC_SIZE in Hf. unfold asn1_write, bind, get, ret. cbn [obind fst snd].
  rewrite He. assert (s32 (Z.of_nat (length p)) = Z.of_nat (length p)) as -> by (unfold s32; rewrite Z.mod_small; lia).
  rewrite u64_id by (unfold is_u; lia). rewrite Ho.
  destruct (Z.ltb_spec (Z.of_nat (length (data d))) (Z.of_nat (length (data d)) + Z.of_nat (length p))) as [Hs|Hs].
  - unfold grow, MAX_TALLOC_SIZE. rewrite mem. assert ((Z.of_nat (length (data d)) + Z.of_nat (length p) <? 0x10000000) = true) as -> by lia.
    cbn [andb obind fst snd]. assert ((Z.of_nat (length p) <? 0) = false) as -> by lia.
    exists (S (allocs d)). unfold copy_in. cbn [gone count set_data data ofs orb]. rewrite Hg, Ho.
    rewrite bool_decide_eq_false_2 by (rewrite length_app, length_replicate; lia). cbn [orb obind fst snd].
    unfold appended, set_ofs, set_data. cbn. rewrite Hg, He, Ho, splice_app by done.
    do 3 f_equal. rewrite drop_ge by (rewrite length_replicate; lia). by rewrite app_nil_r.
  - destruct p; [|cbn in Hs; lia]. exists (allocs d). cbn [obind fst snd length]. change (Z.of_nat 0 <? 0) with false. cbv iota.
    unfold copy_in. rewrite Hg, Ho. cbn [length orb]. rewrite bool_decide_eq_false_2 by lia. cbn [obind fst snd].
    unfold appended, set_ofs, set_data. cbn. rewrite Hg, He, Ho. unfold splice. cbn. rewrite firstn_all, Nat.add_0_r, drop_ge by lia. done.
Qed.

Lemma emits_uint8 v : emits (asn1_write_uint8 A v) [u8 v].
Proof. apply emits_write. Qed.

Lemma put_at d l1 x l2 v :
  gone d = false -> data d = l1 ++ x :: l2 -> put (length l1) v d = Ret (tt, set_data (l1 ++ u8 v :: l2) d).
Proof.
  intros Hg E. unfold put. rewrite Hg, E, length_app. cbn [length orb]. rewrite bool_decide_eq_false_2 by lia.
  by rewrite insert_app_r_alt, Nat.sub_diag by lia.
Qed.
Lemma move_up d l1 x e z :
  gone d = false -> data d = l1 ++ x :: e ++ z ->
  move (length l1 + 1 + length z) (length l1 + 1) (length e) d = Ret (tt, set_data (l1 ++ x :: take (length z) (e ++ z) ++ e) d).
Proof.
  intros Hg E. unfold move. rewrite Hg, E. rewrite !bool_decide_eq_false_2 by (rewrite !length_app; cbn; rewrite length_app; lia).
  cbn [orb]. do 3 f_equal.
  assert (slice (length l1 + 1) (length e) (l1 ++ x :: e ++ z) = e) as ->.
  { unfold slice. change (l1 ++ x :: e ++ z) with (l1 ++ [x] ++ e ++ z). rewrite app_assoc, drop_app_length' by (rewrite length_app; cbn; lia).
    apply take_app_length. }
  assert (l1 ++ x :: e ++ z = (l1 ++ x :: take (length z) (e ++ z)) ++ drop (length z) (e ++ z)) as ->
    by (rewrite <- app_assoc; cbn; by rewrite take_drop).
  rewrite splice_app by (rewrite length_app; cbn; rewrite length_take, length_app; lia).
  rewrite (drop_ge (drop _ _)) by (rewrite length_drop, length_app; lia). by rewrite app_nil_r, <- app_assoc.
Qed.

(** *** Closing a tag *)

Section close.
Context (d : asn1_data) (tag : Z) (Hw : writing d).

(** Up to the length byte, and a state with [l2] from it on. *)
Definition before_len : list Z := data d ++ [u8 tag].
Definition st (l2 : list Z) (m : nat) : asn1_data :=
  Asn1Data (before_len ++ l2) false (ofs d + 1 + length l2) (Nest (ofs d + 1) (@uninit A) :: nesting d) false m.

Lemma length_before : length before_len = (ofs d + 1)%nat.
Proof. destruct Hw as (_ & _ & Ho). unfold before_len. rewrite length_app, Ho. done. Qed.

Lemma put_st j v l2 m : (j < length l2)%nat -> put (ofs d + 1 + j) v (st l2 m) = Ret (tt, st (<[j := u8 v]> l2) m).
Proof.
  intros Hj. unfold put. cbn [gone data st]. rewrite length_app, length_before, bool_decide_eq_false_2 by lia. cbn [orb].
  unfold set_data, st. cbn. rewrite length_insert, insert_app_r_alt, length_before by (rewrite length_before; lia).
  do 4 f_equal. f_equal. lia.
Qed.

Lemma write0_st l2 m :
  Z.of_nat (ofs d + 1 + length l2 + 1) < MAX_TALLOC_SIZE -> exists m', asn1_write_uint8 A 0 (st l2 m) = Ret (true, st (l2 ++ [0]) m').
Proof.
  intros Hf. destruct (emits_uint8 0 (st l2 m)) as [m' E].
  - split_and!; [done|done|]. cbn. by rewrite length_app, length_before.
  - unfold fits. cbn. rewrite length_app, length_before. lia.
  - exists m'. rewrite E. unfold appended, st. cbn. rewrite <- app_assoc, length_app, Nat.add_assoc. done.
Qed.

Lemma move_st k x e z m :
  length z = k ->
  move (ofs d + 1 + (1 + k)) (ofs d + 1 + 1) (length e) (st (x :: e ++ z) m) = Ret (tt, st (x :: take k (e ++ z) ++ e) m).
Proof.
  intros <-. pose proof (move_up (st (x :: e ++ z) m) before_len x e z eq_refl eq_refl) as E.
  rewrite length_before in E. rewrite Nat.add_assoc, E. unfold set_data, st. cbn.
  rewrite !length_app, length_take, length_app. do 3 f_equal. lia.
Qed.

Lemma close_st l2 m : (modify (set_nesting (nesting d));; ret true) (st l2 m) = Ret (true, appended d (u8 tag :: l2) m).
Proof.
  unfold bind, modify, ret, appended, st, before_len, set_nesting. cbn. rewrite <- app_assoc. do 3 f_equal. cbn. lia.
Qed.


Lemma put_seq {B} p j v l2 m (k : M B) :
  p = (ofs d + 1 + j)%nat -> (j < length l2)%nat -> (put p v;; k) (st l2 m) = k (st (<[j := u8 v]> l2) m).
Proof. intros -> Hj. by rewrite (bind_ret _ _ _ _ _ (put_st j v l2 m Hj)). Qed.

Lemma move_seq {B} dst src n k x e z m (f : M B) :
  length z = k -> dst = (ofs d + 1 + (1 + k))%nat -> src = (ofs d + 1 + 1)%nat -> n = length e ->
  (move dst src n;; f) (st (x :: e ++ z) m) = f (st (x :: take k (e ++ z) ++ e) m).
Proof. intros Hz -> -> ->. by rewrite (bind_ret _ _ _ _ _ (move_st k x e z m Hz)). Qed.

Lemma st_writing l2 m : writing (st l2 m).
Proof. split_and!; [done|done|]. cbn. by rewrite length_app, length_before. Qed.

Lemma appended_st l2 m e n : appended (st l2 m) e n = st (l2 ++ e) n.
Proof. unfold appended, st. cbn. by rewrite <- app_assoc, length_app, Nat.add_assoc. Qed.

Lemma push_tag_opens : fits d [0; 0] -> exists n, asn1_push_tag A tag d = Ret (true, st [0xff] n).
Proof.
  intros Hf. unfold fits in Hf. cbn in Hf. unfold asn1_push_tag, bind at 1.
  destruct (emits_uint8 tag d Hw) as [n1 ->]; [unfold fits; cbn; lia|]. cbn [obind fst snd].
  unfold bind, alloc, modify. rewrite mem. cbn [obind fst snd negb].
  pose proof (appended_writing d [u8 tag] n1 Hw) as Hw1.
  set (d1 := set_nesting _ _). assert (writing d1) as Hw2 by exact Hw1.
  destruct (emits_uint8 0xff d1 Hw2) as [n2 ->]; [unfold fits; cbn; rewrite length_app; cbn; lia|].
  exists n2. reflexivity.
Qed.

(** The tag that encloses [e] is closed with the length of [e]. *)
Lemma pop_tag_closes e m :
  Z.of_nat (length e) < 2 ^ 24 -> fits d (tlv tag e) ->
  exists n, asn1_pop_tag A (st (0xff :: e) m) = Ret (true, appended d (tlv tag e) n).
Proof.
  intros Hl Hf. pose proof length_before as Hb. destruct Hw as (_ & _ & Ho).
  unfold asn1_pop_tag. step (eq_refl (Ret (nesting (st (0xff :: e) m), st (0xff :: e) m))). cbn [nesting st start].
  step (eq_refl (Ret (ofs (st (0xff :: e) m), st (0xff :: e) m))).
  assert (u64 (Z.of_nat (ofs (st (0xff :: e) m)) - (Z.of_nat (ofs d + 1) + 1)) = Z.of_nat (length e)) as ->.
  { assert (Z.of_nat (ofs (st (0xff :: e) m)) - (Z.of_nat (ofs d + 1) + 1) = Z.of_nat (length e)) as -> by (cbn [st ofs length]; lia).
    apply u64_id. unfold is_u. lia. }
  rewrite Nat2Z.id. unfold fits, tlv, der_length in Hf |- *. cbn [length] in Hf. rewrite length_app in Hf.
  destruct (0xFFFF <? Z.of_nat (length e)); [|destruct (255 <? Z.of_nat (length e)); [|destruct (127 <? Z.of_nat (length e))]];
    cbn [length] in Hf.
  - match goal with |- context [bind ?X (fun b : bool => if b then _ else _)] => assert (exists m', X (st (0xff :: e) m) =
      Ret (true, st ([0x83; u8 (Z.land (Z.shiftr (Z.of_nat (length e)) 16) 0xFF); u8 (Z.land (Z.shiftr (Z.of_nat (length e)) 8) 0xFF);
                      u8 (Z.land (Z.of_nat (length e)) 0xFF)] ++ e) m')) as (m' & E) end.
    { rewrite (put_seq _ 0) by (cbn [length]; lia). cbn [insert list_insert]. change (u8 0x83) with 0x83.
      destruct (write0_st (0x83 :: e) m) as [m1 E1]; [cbn [length]; lia|]. step E1.
      destruct (write0_st ((0x83 :: e) ++ [0]) m1) as [m2 E2]; [rewrite length_app; cbn [length]; lia|]. step E2.
      destruct (write0_st (((0x83 :: e) ++ [0]) ++ [0]) m2) as [m3 E3]; [rewrite !length_app; cbn [length]; lia|]. step E3.
      rewrite <- !app_assoc. cbn [app]. rewrite (move_seq _ _ _ 3) by (done || lia).
      assert (length (take 3 (e ++ [0; 0; 0])) = 3%nat) as Ht by (rewrite length_take, length_app; cbn [length]; lia).
      destruct (take 3 (e ++ [0; 0; 0])) as [|t0 [|t1 [|t2 [|]]]]; try done. cbn [app].
      exists m3. rewrite (put_seq _ 1), (put_seq _ 2), (put_seq _ 3) by (rewrite ?length_insert; cbn [length]; lia). done. }
    step E. exists m'. apply close_st.
  - match goal with |- context [bind ?X (fun b : bool => if b then _ else _)] => assert (exists m', X (st (0xff :: e) m) =
      Ret (true, st ([0x82; u8 (Z.shiftr (Z.of_nat (length e)) 8); u8 (Z.land (Z.of_nat (length e)) 0xFF)] ++ e) m')) as (m' & E) end.
    { rewrite (put_seq _ 0) by (cbn [length]; lia). cbn [insert list_insert]. change (u8 0x82) with 0x82.
      destruct (write0_st (0x82 :: e) m) as [m1 E1]; [cbn [length]; lia|]. step E1.
      destruct (write0_st ((0x82 :: e) ++ [0]) m1) as [m2 E2]; [rewrite length_app; cbn [length]; lia|]. step E2.
      rewrite <- !app_assoc. cbn [app]. rewrite (move_seq _ _ _ 2) by (done || lia).
      assert (length (take 2 (e ++ [0; 0])) = 2%nat) as Ht by (rewrite length_take, length_app; cbn [length]; lia).
      destruct (take 2 (e ++ [0; 0])) as [|t0 [|t1 [|]]]; try done. cbn [app].
      exists m2. rewrite (put_seq _ 1), (put_seq _ 2) by (rewrite ?length_insert; cbn [length]; lia). done. }
    step E. exists m'. apply close_st.
  - match goal with |- context [bind ?X (fun b : bool => if b then _ else _)] => assert (exists m', X (st (0xff :: e) m) =
      Ret (true, st ([0x81; u8 (Z.of_nat (length e))] ++ e) m')) as (m' & E) end.
    { rewrite (put_seq _ 0) by (cbn [length]; lia). cbn [insert list_insert]. change (u8 0x81) with 0x81.
      destruct (write0_st (0x81 :: e) m) as [m1 E1]; [cbn [length]; lia|]. step E1.
      cbn [app]. rewrite (move_seq _ _ _ 1) by (done || lia).
      assert (length (take 1 (e ++ [0])) = 1%nat) as Ht by (rewrite length_take, length_app; cbn [length]; lia).
      destruct (take 1 (e ++ [0])) as [|t0 [|]]; try done. cbn [app].
      exists m1. rewrite (put_seq _ 1) by (rewrite ?length_insert; cbn [length]; lia). done. }
    step E. exists m'. apply close_st.
  - match goal with |- context [bind ?X (fun b : bool => if b then _ else _)] => assert (X (st (0xff :: e) m) =
      Ret (true, st ([u8 (Z.of_nat (length e))] ++ e) m)) as E end.
    { rewrite (put_seq _ 0) by (cbn [length]; lia). done. }
    step E. exists m. apply close_st.
Qed.
End close.

Lemma length_tlv tag e : (length e + 2 <= length (tlv tag e))%nat.
Proof. unfold tlv, der_length. cbn [length]. rewrite length_app. repeat case_match; cbn [length]; lia. Qed.

(** What is written between pushing and popping a tag becomes its value. *)
Lemma tag_emits tag m e :
  Z.of_nat (length e) < 2 ^ 24 ->
  (forall d n, writing d -> fits d (tlv tag e) -> exists n', m (st d tag [0xff] n) = Ret (true, st d tag (0xff :: e) n')) ->
  emits (asn1_push_tag A tag;; m;; asn1_pop_tag A) (tlv tag e) /\
  emits (require asn1_push_tag A tag; require m; asn1_pop_tag A) (tlv tag e).
Proof.
  intros Hl Hm. split; intros d Hw Hf; pose proof (length_tlv tag e);
    (destruct (push_tag_opens d tag Hw) as [n1 E1]; [unfold fits in *; cbn; lia|]);
    destruct (Hm d n1 Hw Hf) as [n2 E2]; destruct (pop_tag_closes d tag Hw e n2 Hl Hf) as [n3 E3];
    exists n3; step E1; step E2; exact E3.
Qed.

Lemma emits_inner tag m e d n :
  emits m e -> writing d -> fits d (tlv tag e) -> exists n', m (st d tag [0xff] n) = Ret (true, st d tag (0xff :: e) n').
Proof.
  intros Hm Hw Hf. pose proof (length_tlv tag e). destruct (Hm (st d tag [0xff] n)) as [n' E]; [by apply st_writing| |].
  - destruct Hw as (_ & _ & Ho). unfold fits, before_len in *. cbn [st data]. unfold before_len. rewrite !length_app. cbn [length]. lia.
  - exists n'. by rewrite E, appended_st.
Qed.

Lemma emits_tag tag m e :
  Z.of_nat (length e) < 2 ^ 24 -> emits m e -> emits (asn1_push_tag A tag;; m;; asn1_pop_tag A) (tlv tag e).
Proof. intros Hl Hm. apply tag_emits; [done|]. intros d n. by apply emits_inner. Qed.

Lemma emits_tagged tag m e : Z.of_nat (length e) < 2 ^ 24 -> emits m e -> emits (tagged A tag m) (tlv tag e).
Proof.
  intros Hl Hm d Hw Hf. destruct (emits_ok _ _ (emits_tag tag m e Hl Hm) d Hw Hf) as [n E]. exists n. rewrite <- E.
  unfold tagged, bind. destruct (asn1_push_tag A tag d) as [[b d1]|]; [|done]. cbn [obind fst snd].
  destruct (m d1) as [[b' d2]|]; [|done]. done.
Qed.

Lemma emits_octets p : Z.of_nat (length p) < 2 ^ 24 -> emits (asn1_write_OctetString A p) (tlv 0x4 p).
Proof. intros Hl. apply emits_tagged; [done|apply emits_write]. Qed.

Lemma emits_enumerated v : emits (asn1_write_enumerated A v) (tlv 0xa [u8 v]).
Proof.
  intros d Hw Hf. destruct (emits_ok _ _ (emits_tag 0xa _ [u8 v] ltac:(cbn; lia) (emits_uint8 v)) d Hw Hf) as [n E].
  exists n. rewrite <- E. unfold asn1_write_enumerated, ASN1_ENUMERATED.
  destruct (push_tag_opens d 0xa Hw) as [n1 E1]; [pose proof (length_tlv 0xa [u8 v]); unfold fits in *; cbn [length] in *; lia|].
  rewrite (bind_ret _ _ _ _ _ E1). cbn iota. unfold bind. rewrite E1. cbn [obind fst snd].
  destruct (asn1_write_uint8 A v _) as [[b' d2]|]; [|done]. done.
Qed.
End writer.
