(* ===== verification/Asn1Codec.v ===== *)
(** Proofs on libcli/util/asn1.c: what the reader makes of what the writer emits.  No
    definitions of the code are here. *)

From stdpp Require Import strings.
From S2P Require Import Prelude Digest Byteorder Ntstatus Cnum DomSid Asn1.
Import Byteorder Asn1.

#[local] Open Scope outcome_scope.
#[local] Open Scope asn1_scope.

(** ** Integers, written *)

(** The bytes of a two's complement integer: the fewest that hold it. *)
Definition int_size (i : Z) : nat :=
  if (- 2 ^ 7 <=? i) && (i <? 2 ^ 7) then 1
  else if (- 2 ^ 15 <=? i) && (i <? 2 ^ 15) then 2
  else if (- 2 ^ 23 <=? i) && (i <? 2 ^ 23) then 3 else 4.
Definition der_int (i : Z) : list Z := be (int_size i) i.

(** What push_int_bigendian appends right after a tag was pushed. *)
Fixpoint int_out (fuel : nat) (i : Z) (negative : bool) : list Z :=
  match fuel with
  | O => []
  | S fuel =>
      let lowest := i mod 256 in
      let pre := if i / 256 =? 0 then [] else int_out fuel (i / 256) negative in
      match pre with
      | [] =>
          if negative then if lowest =? 255 then [] else if lowest <? 128 then [255; lowest] else [lowest]
          else if lowest <? 128 then [lowest] else [0; lowest]
      | _ => pre ++ [lowest]
      end
  end.

Lemma land_0x80 l : 0 <= l < 256 -> (Z.land l 0x80 =? 0) = (l <? 128).
Proof.
  intros Hl. apply eqb_prop. by apply (below 256 (fun l => Bool.eqb (Z.land l 0x80 =? 0) (l <? 128))).
Qed.

(** Four levels are enough for 32 bits. *)
Section push_int.
Context (A : Allocator) (mem : malloc_always A) (d : asn1_data) (tag : Z) (Hw : writing d).

Lemma inner_write e p n :
  Z.of_nat (ofs d + 2 + length e + length p) < MAX_TALLOC_SIZE ->
  exists n', asn1_write A p (st A d tag (0xff :: e) n) = Ret (true, st A d tag (0xff :: e ++ p) n').
Proof.
  intros Hf. pose proof (length_before d tag Hw) as Hb.
  destruct (emits_write A mem p (st A d tag (0xff :: e) n)) as [n' E]; [by apply st_writing| |].
  - unfold fits. cbn [st data]. rewrite length_app, Hb. cbn [length]. lia.
  - exists n'. by rewrite E, appended_st.
Qed.

Lemma int_out_step fuel i neg e n :
  let lowest := i mod 256 in
  let pre := if (i / 256 =? 0)%Z then [] else int_out fuel (i / 256) neg in
  0 <= i -> Z.of_nat (ofs d + 2 + length (int_out (S fuel) i neg)) < MAX_TALLOC_SIZE -> e = pre ->
  exists n',
    (do d' <- get id;
     match nesting d' with
     | [] => fault
     | nst :: _ =>
         if decide (start nst + 1 = ofs d')%nat then
           if neg then
             if lowest =? 0xFF then ret true
             else require (if Z.land lowest 0x80 =? 0 then asn1_write_uint8 A 0xff else ret true); asn1_write_uint8 A lowest
           else require (if negb (Z.land lowest 0x80 =? 0) then asn1_write_uint8 A 0 else ret true); asn1_write_uint8 A lowest
         else asn1_write_uint8 A lowest
     end) (st A d tag (0xff :: e) n) = Ret (true, st A d tag (0xff :: int_out (S fuel) i neg) n').
Proof.
  intros lowest pre Hi Hf ->. assert (0 <= lowest < 256) as Hl by (apply Z.mod_pos_bound; lia).
  step (eq_refl (Ret (st A d tag (0xff :: pre) n, st A d tag (0xff :: pre) n))). cbn [nesting st start ofs length].
  assert (u8 lowest = lowest) as Eu by (apply u8_id; exact Hl).
  cbn [int_out] in *. fold lowest in Hf |- *. fold pre in Hf |- *. unfold asn1_write_uint8. rewrite Eu, land_0x80 by done.
  destruct pre as [|x p] eqn:Ep.
  - rewrite decide_True by (cbn; lia). change (u8 0xff) with 0xff. change (u8 0) with 0.
    assert (forall v, Z.of_nat (ofs d + 2 + 1) < MAX_TALLOC_SIZE -> exists n', asn1_write A [v] (st A d tag [0xff] n) = Ret (true, st A d tag [0xff; v] n')) as W1
      by (intros v Hv; apply (inner_write [] [v]); cbn; lia).
    assert (forall v n, Z.of_nat (ofs d + 2 + 2) < MAX_TALLOC_SIZE ->
              exists n', asn1_write A [lowest] (st A d tag [0xff; v] n) = Ret (true, st A d tag [0xff; v; lowest] n')) as W2
      by (intros v m Hv; apply (inner_write [v] [lowest]); cbn; lia).
    destruct neg; [destruct (lowest =? 255); [by exists n|]|]; destruct (lowest <? 128); cbn [negb length] in *;
      first [destruct (W1 lowest ltac:(lia)) as [n1 E1]; by exists n1
            |match goal with |- context [asn1_write A [?v]] => destruct (W1 v ltac:(lia)) as [n1 E1]; step E1; apply W2; lia end].
  - rewrite decide_False by (cbn; lia). apply inner_write. rewrite length_app in Hf. cbn [length] in *. lia.
Qed.

Lemma int_out_grows fuel i neg :
  (length (if (i / 256 =? 0)%Z then [] else int_out fuel (i / 256) neg) <= length (int_out (S fuel) i neg))%nat.
Proof.
  cbn [int_out]. destruct (if (i / 256 =? 0)%Z then [] else int_out fuel (i / 256) neg) as [|x p]; [cbn; lia|].
  rewrite length_app. lia.
Qed.

Lemma push_int_out fuel i neg n :
  0 <= i < 2 ^ (8 * Z.of_nat fuel) -> (0 < fuel)%nat -> Z.of_nat (ofs d + 2 + length (int_out fuel i neg)) < MAX_TALLOC_SIZE ->
  exists n', push_int_bigendian A fuel i neg (st A d tag [0xff] n) = Ret (true, st A d tag (0xff :: int_out fuel i neg) n').
Proof.
  revert i n. induction fuel as [|fuel IH]; intros i n Hi Hpos Hf; [lia|].
  assert (0 <= i / 256 < 2 ^ (8 * Z.of_nat fuel)) as Hd.
  { replace (8 * Z.of_nat (S fuel)) with (8 + 8 * Z.of_nat fuel) in Hi by lia. rewrite Z.pow_add_r in Hi by lia.
    change (2 ^ 8) with 256 in Hi. split; [apply Z.div_pos; lia|apply Z.div_lt_upper_bound; lia]. }
  cbn [push_int_bigendian]. rewrite Z.shiftr_div_pow2 by lia. change (2 ^ 8) with 256.
  change 0xFF with (Z.ones 8). rewrite Z.land_ones by lia. change (2 ^ 8) with 256. change (Z.ones 8) with 0xFF.
  assert (exists n1, (if negb (i / 256 =? 0)%Z then push_int_bigendian A fuel (i / 256) neg else ret true) (st A d tag [0xff] n) =
    Ret (true, st A d tag (0xff :: if (i / 256 =? 0)%Z then [] else int_out fuel (i / 256) neg) n1)) as [n1 E1].
  { destruct (Z.eqb_spec (i / 256) 0) as [|Hne]; cbn [negb]; [by exists n|].
    pose proof (int_out_grows fuel i neg) as Hg. destruct (Z.eqb_spec (i / 256) 0); [done|].
    destruct fuel as [|fuel]; [cbn in Hd; lia|]. apply IH; [done|lia|lia]. }
  step E1. by apply int_out_step; [lia| |].
Qed.
End push_int.

(** *** The two's complement form *)

Definition in_range (n : nat) (i : Z) : Prop := - 2 ^ (8 * Z.of_nat n - 1) <= i < 2 ^ (8 * Z.of_nat n - 1).

(** The fewest bytes that hold an integer. *)
Definition minimal (n : nat) (i : Z) : Prop :=
  (1 <= n)%nat /\ in_range n i /\ ((1 < n)%nat -> ~ in_range (n - 1) i).

Lemma int_size_minimal i : - 2 ^ 31 <= i < 2 ^ 31 -> minimal (int_size i) i.
Proof.
  intros Hi. unfold int_size, minimal, in_range.
  destruct ((- 2 ^ 7 <=? i) && (i <? 2 ^ 7)) eqn:E1; [cbn; lia|].
  destruct ((- 2 ^ 15 <=? i) && (i <? 2 ^ 15)) eqn:E2; [cbn; lia|].
  destruct ((- 2 ^ 23 <=? i) && (i <? 2 ^ 23)) eqn:E3; cbn; lia.
Qed.

Lemma in_range_S n i : (1 <= n)%nat -> in_range (S n) i <-> in_range n (i / 256).
Proof.
  intros Hn. unfold in_range. replace (8 * Z.of_nat (S n) - 1) with (8 + (8 * Z.of_nat n - 1)) by lia.
  rewrite Z.pow_add_r by lia. change (2 ^ 8) with 256. set (p := 2 ^ (8 * Z.of_nat n - 1)). clearbody p. dlia.
Qed.

Lemma in_range_mono n m i : (1 <= n <= m)%nat -> in_range n i -> in_range m i.
Proof.
  unfold in_range. intros Hnm Hi.
  assert (2 ^ (8 * Z.of_nat n - 1) <= 2 ^ (8 * Z.of_nat m - 1)) by (apply Z.pow_le_mono_r; lia). lia.
Qed.

Lemma minimal_S n i : minimal (S (S n)) i -> minimal (S n) (i / 256).
Proof.
  intros (_ & H2 & H3). rewrite in_range_S in H2 by lia. split_and!; [lia|done|]. intros Hn H. apply H3; [lia|].
  destruct n as [|n]; [lia|]. replace (S (S (S n)) - 1)%nat with (S (S n)) by lia. rewrite in_range_S by lia.
  by replace (S (S n) - 1)%nat with (S n) in H by lia.
Qed.

Lemma minimal_small n i m : (1 <= m)%nat -> in_range m i -> minimal n i -> (n <= m)%nat.
Proof.
  intros Hm Hr (H1 & _ & H3). destruct (decide (n <= m)%nat) as [|Hgt]; [done|].
  destruct H3; [lia|]. apply (in_range_mono m); [lia|done].
Qed.

Lemma be_S n x : be (S n) x = be n (x / 256) ++ [x mod 256].
Proof.
  unfold be. rewrite le_S, reverse_cons. change 0xFF with (Z.ones 8). by rewrite Z.land_ones, Z.shiftr_div_pow2 by lia.
Qed.

Lemma be_nonempty n x : (1 <= n)%nat -> be n x <> [].
Proof. intros Hn E. apply (f_equal length) in E. unfold be in E. rewrite length_reverse, length_le in E. cbn in E. lia. Qed.

Lemma int_out_more fuel i neg :
  i / 256 <> 0 -> int_out fuel (i / 256) neg <> [] -> int_out (S fuel) i neg = int_out fuel (i / 256) neg ++ [i mod 256].
Proof.
  intros H1 H2. cbn [int_out]. destruct (Z.eqb_spec (i / 256) 0); [done|].
  by destruct (int_out fuel (i / 256) neg).
Qed.

Lemma int_out_pos fuel n i :
  0 <= i < 2 ^ (8 * Z.of_nat fuel) -> (1 <= fuel)%nat -> minimal n i -> int_out fuel i false = be n i.
Proof.
  revert n i. induction fuel as [|fuel IH]; intros n i Hi Hf Hm; [lia|].
  destruct (Z.eqb_spec (i / 256) 0) as [E0|Hne].
  - assert (0 <= i < 256) as Hi' by dlia. cbn [int_out]. rewrite E0. change (0 =? 0) with true. cbn iota.
    rewrite Z.mod_small by lia. destruct (Z.ltb_spec i 128).
    + apply (minimal_small _ _ 1) in Hm as Hn; [|lia|unfold in_range; cbn; lia]. destruct Hm as (H1 & _ & _).
      replace n with 1%nat by lia. rewrite be_S. unfold be. cbn. by rewrite (Z.mod_small i) by lia.
    + pose proof (minimal_small n i 2 ltac:(lia) ltac:(unfold in_range; cbn; lia) Hm) as Hn. destruct Hm as (H1 & H2 & _).
      assert (n <> 1%nat) by (intros ->; unfold in_range in H2; cbn in H2; lia).
      replace n with 2%nat by lia. rewrite !be_S, E0. unfold be. cbn. by rewrite (Z.mod_small i) by lia.
  - assert (256 <= i) by (destruct (decide (256 <= i)); [done|]; destruct Hne; apply Z.div_small; lia).
    destruct n as [|[|n]]; [destruct Hm; lia|destruct Hm as (_ & H2 & _); unfold in_range in H2; cbn in H2; lia|].
    assert (int_out fuel (i / 256) false = be (S n) (i / 256)) as E.
    { destruct fuel as [|fuel]; [cbn in Hi; lia|]. apply IH; [|lia|by apply minimal_S].
      replace (8 * Z.of_nat (S (S fuel))) with (8 + 8 * Z.of_nat (S fuel)) in Hi by lia. rewrite Z.pow_add_r in Hi by lia.
      change (2 ^ 8) with 256 in Hi. split; [apply Z.div_pos; lia|apply Z.div_lt_upper_bound; lia]. }
    rewrite int_out_more by (rewrite ?E; first [done|apply be_nonempty; lia]). by rewrite E, <- be_S.
Qed.

(** Leading bytes of ones are left out, all of them for -1. *)
Lemma int_out_neg fuel n i :
  (1 <= fuel)%nat -> in_range fuel i -> i < 0 -> minimal n i ->
  int_out fuel (2 ^ (8 * Z.of_nat fuel) + i) true = if i =? -1 then [] else be n i.
Proof.
  revert n i. induction fuel as [|fuel IH]; intros n i Hf Hr Hi Hm; [lia|].
  destruct fuel as [|fuel].
  - unfold in_range in Hr. cbn in Hr. change (2 ^ (8 * Z.of_nat 1)) with 256. cbn [int_out].
    assert ((256 + i) / 256 = 0) as -> by (apply Z.div_small; lia). change (0 =? 0) with true. cbn iota. rewrite Z.mod_small by lia.
    apply (minimal_small _ _ 1) in Hm as Hn; [|lia|unfold in_range; cbn; lia]. destruct Hm as (H1 & _ & _).
    destruct (Z.eqb_spec i (-1)) as [->|Hne]; [done|]. assert ((256 + i =? 255) = false) as -> by lia.
    assert ((256 + i <? 128) = false) as -> by lia. replace n with 1%nat by lia. rewrite be_S.
    assert (256 + i = i mod 256) as -> by dlia. done.
  - assert (in_range (S fuel) (i / 256)) as Hr' by (by rewrite <- in_range_S by lia).
    assert ((2 ^ (8 * Z.of_nat (S (S fuel))) + i) / 256 = 2 ^ (8 * Z.of_nat (S fuel)) + i / 256) as Ed.
    { replace (8 * Z.of_nat (S (S fuel))) with (8 + 8 * Z.of_nat (S fuel)) by lia. rewrite Z.pow_add_r by lia. change (2 ^ 8) with 256.
      set (p := 2 ^ (8 * Z.of_nat (S fuel))). clearbody p. dlia. }
    assert ((2 ^ (8 * Z.of_nat (S (S fuel))) + i) mod 256 = i mod 256) as Em.
    { replace (8 * Z.of_nat (S (S fuel))) with (8 + 8 * Z.of_nat (S fuel)) by lia. rewrite Z.pow_add_r by lia. change (2 ^ 8) with 256.
      set (p := 2 ^ (8 * Z.of_nat (S fuel))). clearbody p. dlia. }
    assert (2 ^ (8 * Z.of_nat (S fuel)) + i / 256 <> 0) as Hnz.
    { unfold in_range in Hr'. assert (2 ^ (8 * Z.of_nat (S fuel) - 1) < 2 ^ (8 * Z.of_nat (S fuel))) by (apply Z.pow_lt_mono_r; lia). lia. }
    assert (i / 256 < 0) as Hneg by dlia.
    destruct (Z.eqb_spec (i / 256) (-1)) as [E1|Hne1].
    + assert (-256 <= i < 0) as Hi' by dlia. remember (S fuel) as f. cbn [int_out]. rewrite Ed, Em. destruct (Z.eqb_spec (2 ^ (8 * Z.of_nat f) + i / 256) 0); [done|].
      rewrite (IH (S 0) (i / 256)); [|lia|done|done|]; cycle 1.
      { rewrite E1. split_and!; [lia|unfold in_range; cbn; lia|lia]. }
      rewrite E1. change (-1 =? -1) with true. cbn iota. destruct (Z.eqb_spec i (-1)) as [->|Hne]; [done|].
      assert ((i mod 256 =? 255) = false) as -> by dlia. destruct (Z.ltb_spec (i mod 256) 128).
      * pose proof (minimal_small n i 2 ltac:(lia) ltac:(unfold in_range; cbn; lia) Hm) as Hn. destruct Hm as (H1 & H2 & _).
        assert (n <> 1%nat) by (intros ->; unfold in_range in H2; cbn in H2; dlia).
        replace n with 2%nat by lia. rewrite !be_S, E1. done.
      * pose proof (minimal_small n i 1 ltac:(lia) ltac:(unfold in_range; cbn; dlia) Hm) as Hn. destruct Hm as (H1 & _ & _).
        replace n with 1%nat by lia. by rewrite be_S.
    + destruct n as [|[|n]]; [destruct Hm; lia|destruct Hm as (_ & H2 & _); unfold in_range in H2; cbn in H2; dlia|].
      pose proof (IH (S n) (i / 256) ltac:(lia) Hr' Hneg (minimal_S _ _ Hm)) as E. destruct (Z.eqb_spec (i / 256) (-1)); [done|].
      rewrite int_out_more; rewrite Ed; [|done|rewrite E; apply be_nonempty; lia].
      rewrite E, Em, <- be_S. destruct (Z.eqb_spec i (-1)) as [->|]; done.
Qed.

Lemma int_out_der i : - 2 ^ 31 <= i < 2 ^ 31 -> i <> -1 -> int_out 4 (u32 i) (i <? 0) = der_int i.
Proof.
  intros Hi Hne. pose proof (int_size_minimal i Hi) as Hm. destruct (Z.ltb_spec i 0).
  - assert (u32 i = 2 ^ (8 * Z.of_nat 4) + i) as -> by (unfold u32; cbn; dlia).
    rewrite (int_out_neg 4 (int_size i)) by (done || lia || (unfold in_range; cbn; lia)).
    by destruct (Z.eqb_spec i (-1)).
  - rewrite u32_id by (unfold is_u; lia). apply int_out_pos; [cbn; lia|lia|done].
Qed.

Lemma int_size_le i : - 2 ^ 31 <= i < 2 ^ 31 -> (1 <= int_size i <= 4)%nat.
Proof. intros Hi. unfold int_size. repeat case_match; lia. Qed.

(** An integer is written in DER. *)
Lemma emits_integer A i :
  malloc_always A -> - 2 ^ 31 <= i < 2 ^ 31 -> emits (asn1_write_Integer A i) (tlv 0x2 (der_int i)).
Proof.
  intros mem Hi. pose proof (int_size_le i Hi).
  apply tag_emits; [done|unfold der_int; rewrite length_be; lia|]. intros d n Hw Hf. unfold asn1_write_implicit_Integer.
  pose proof (length_tlv 0x2 (der_int i)) as Hl. unfold fits in Hf. destruct Hw as (He & Hg & Ho).
  destruct (Z.eqb_spec i (-1)) as [->|Hne].
  - change (der_int (-1)) with [255] in *. apply (inner_write A mem d _ (conj He (conj Hg Ho)) [] [255]). cbn [length] in *. lia.
  - rewrite <- int_out_der by done. apply push_int_out; [done|done|cbn; apply u32_range|lia|].
    change (u32 i) with (u32 i) in *. rewrite int_out_der by done. lia.
Qed.

(** ** What the reader makes of it *)

(** The reader stands before [e], which [rest] follows. *)
Definition reading (d : asn1_data) (e rest : list Z) : Prop :=
  has_error d = false /\ gone d = false /\ (ofs d <= length (data d))%nat /\ drop (ofs d) (data d) = e ++ rest /\
  Z.of_nat (length (data d)) < 2 ^ 31.

(** [k] bytes of the innermost tag are left. *)
Definition inside (d : asn1_data) (k : nat) : Prop :=
  match nesting d with
  | n :: _ => (start n <= ofs d)%nat /\ taglen n = Z.of_nat (ofs d - start n + k)
  | [] => False
  end.

(** The reader moved on by [k]. *)
Definition moved (d : asn1_data) (k n : nat) : asn1_data := Asn1Data (data d) false (ofs d + k) (nesting d) false n.

Lemma reading_length d e rest : reading d e rest -> (ofs d + length e + length rest = length (data d))%nat.
Proof. intros (_ & _ & Ho & E & _). apply (f_equal length) in E. rewrite length_drop, length_app in E. lia. Qed.

Lemma reading_moved d p e rest n : reading d (p ++ e) rest -> reading (moved d (length p) n) e rest.
Proof.
  intros H. pose proof (reading_length _ _ _ H) as Hl. rewrite length_app in Hl. destruct H as (_ & _ & _ & E & Hb).
  split_and!; [done|done|cbn; lia| |done]. cbn. by rewrite <- drop_drop, E, <- app_assoc, drop_app_length.
Qed.

Lemma reading_rest d e e' rest : reading d e (e' ++ rest) <-> reading d (e ++ e') rest.
Proof. unfold reading. by rewrite app_assoc. Qed.

Lemma moved_moved d j k n m : moved (moved d j n) k m = moved d (j + k) m.
Proof. unfold moved. cbn. by rewrite Nat.add_assoc. Qed.

Lemma moved_0 d e rest : reading d e rest -> moved d 0 (allocs d) = d.
Proof. destruct d. intros (He & Hg & _). unfold moved. cbn in *. subst. by rewrite Nat.add_0_r. Qed.

Lemma inside_moved d j k n : inside d (j + k) -> inside (moved d j n) k.
Proof. unfold inside. cbn. destruct (nesting d) as [|nst ?]; [done|]. intros [Hs ->]. split; [lia|]. f_equal. lia. Qed.

(** A call that takes [e] off what is left and gives [a]; the second form also knows that
    [k] bytes of the tag follow. *)
Definition parses {B} (m : M B) (e : list Z) (a : B) : Prop :=
  forall d rest, reading d e rest -> exists n, m d = Ret (a, moved d (length e) n).
Definition parses_in {B} (k : nat) (m : M B) (e : list Z) (a : B) : Prop :=
  forall d rest, reading d e rest -> inside d (length e + k) -> (k <= length rest)%nat -> exists n, m d = Ret (a, moved d (length e) n).

Lemma parses_weaken {B} k (m : M B) e a : parses m e a -> parses_in k m e a.
Proof. intros H d rest Hr _ _. by apply (H d rest). Qed.

Lemma parses_ret {B} (a : B) : parses (ret a) [] a.
Proof. intros d rest Hr. exists (allocs d). cbn. by rewrite (moved_0 _ _ _ Hr). Qed.

Lemma parses_bind {B C} (m : M B) (f : B -> M C) e1 e2 a b :
  parses m e1 a -> parses (f a) e2 b -> parses (bind m f) (e1 ++ e2) b.
Proof.
  intros H1 H2 d rest Hr. destruct (H1 d (e2 ++ rest)) as [n1 E1]; [by apply reading_rest|].
  destruct (H2 (moved d (length e1) n1) rest) as [n2 E2]; [by apply reading_moved|].
  exists n2. by rewrite (bind_ret _ _ _ _ _ E1), E2, moved_moved, length_app.
Qed.

Lemma parses_in_bind {B C} k (m : M B) (f : B -> M C) e1 e2 a b :
  parses_in (length e2 + k) m e1 a -> parses_in k (f a) e2 b -> parses_in k (bind m f) (e1 ++ e2) b.
Proof.
  intros H1 H2 d rest Hr Hi Hk. rewrite length_app in Hi.
  destruct (H1 d (e2 ++ rest)) as [n1 E1]; [by apply reading_rest|by rewrite Nat.add_assoc|rewrite length_app; lia|].
  destruct (H2 (moved d (length e1) n1) rest) as [n2 E2]; [by apply reading_moved|apply inside_moved; by rewrite Nat.add_assoc|done|].
  exists n2. by rewrite (bind_ret _ _ _ _ _ E1), E2, moved_moved, length_app.
Qed.

Lemma parses_ok : parses ok [] true.
Proof. intros d rest Hr. pose proof Hr as (He & _). exists (allocs d). unfold ok, get. rewrite He. cbn. by rewrite (moved_0 _ _ _ Hr). Qed.

Lemma peek_ok p d rest : reading d p rest -> asn1_peek (Z.of_nat (length p)) d = Ret (Some p, d).
Proof.
  intros Hr. pose proof (reading_length _ _ _ Hr) as Hl. destruct Hr as (_ & Hg & _ & E & _). unfold asn1_peek.
  assert ((Z.of_nat (length p) <? 0) = false) as -> by lia.
  assert ((Z.of_nat (length (data d)) <? Z.of_nat (ofs d) + Z.of_nat (length p)) = false) as -> by lia.
  rewrite Hg, Nat2Z.id. unfold slice. by rewrite E, take_app_length.
Qed.

Lemma parses_read p : parses (asn1_read (Z.of_nat (length p))) p (Some p).
Proof.
  intros d rest Hr. exists (allocs d). unfold asn1_read. rewrite (bind_ret _ _ _ _ _ (peek_ok _ _ _ Hr)). cbn.
  destruct Hr as (He & Hg & _). unfold bind, modify, ret, moved, set_ofs. cbn. by rewrite He, Hg, Nat2Z.id.
Qed.

Lemma parses_uint8 v b : parses (asn1_read_uint8 v) [b] (true, b).
Proof.
  intros d rest Hr. destruct (parses_read [b] d rest Hr) as [n E]. exists n. unfold asn1_read_uint8.
  change (Z.of_nat (length [b])) with 1 in E. by rewrite (bind_ret _ _ _ _ _ E).
Qed.

Lemma peek_uint8_ok v b e d rest : reading d (b :: e) rest -> asn1_peek_uint8 v d = Ret ((true, b), d).
Proof.
  intros Hr. unfold asn1_peek_uint8. assert (asn1_peek 1 d = Ret (Some [b], d)) as E by (apply (peek_ok [b] d (e ++ rest)); by apply reading_rest). by step E.
Qed.

Lemma remaining_ok d e rest k :
  reading d e rest -> inside d k -> (k <= length e + length rest)%nat -> asn1_tag_remaining d = Ret (Z.of_nat k, d).
Proof.
  intros Hr Hi Hk. pose proof (reading_length _ _ _ Hr) as Hl. destruct Hr as (He & _ & _ & _ & Hb). unfold asn1_tag_remaining.
  step (eq_refl (Ret (d, d))). rewrite He. unfold inside in Hi. destruct (nesting d) as [|n ?]; [done|]. destruct Hi as [Hs ->].
  assert (Z.of_nat (ofs d - start n + k) - (Z.of_nat (ofs d) - Z.of_nat (start n)) = Z.of_nat k) as -> by lia.
  change (2 ^ 31) with 2147483648 in Hb.
  assert (s32 (u64 (Z.of_nat k)) = Z.of_nat k) as -> by (unfold s32, u64; cbn; rewrite !Z.mod_small by lia; lia).
  assert ((u64 (Z.of_nat (length (data d)) - Z.of_nat (ofs d)) <? u64 (Z.of_nat k)) = false) as -> by (rewrite !u64_id by (unfold is_u; lia); lia).
  done.
Qed.

(** *** Opening and closing a tag *)

Definition header (tag : Z) (e : list Z) : list Z := u8 tag :: der_length (Z.of_nat (length e)).

Lemma tlv_header tag e : tlv tag e = header tag e ++ e.
Proof. done. Qed.

(** After the tag of [e] is opened. *)
Definition opened (d : asn1_data) (tag : Z) (e : list Z) (n : nat) : asn1_data :=
  let o := (ofs d + length (header tag e))%nat in
  Asn1Data (data d) false o (Nest o (Z.of_nat (length e)) :: nesting d) false n.

Lemma long_byte b : b = 0x81 \/ b = 0x82 \/ b = 0x83 -> (Z.land b 0x80 =? 0) = false.
Proof. by intros [->|[->| ->]]. Qed.

Lemma low_byte n : Z.land n 0xFF = n mod 256.
Proof. by apply (Z.land_ones n 8). Qed.

Lemma length_step a b : 0 <= a < 1099511627776 -> 0 <= b < 256 -> u64 (Z.lor (Z.shiftl a 8) b) = a * 256 + b.
Proof.
  intros Ha Hb. rewrite Z.lor_comm, lor_shiftl_add by (done || lia). change (2 ^ 8) with 256 in *. rewrite u64_id; [lia|].
  unfold is_u.  change (2 ^ 64) with 18446744073709551616. lia.
Qed.

(** The seven-bit groups of a component above the lowest, from the [j]-th on. *)
Fixpoint high (j : nat) (v : Z) : list Z :=
  match j with
  | O => []
  | S j' => (if 2 ^ (7 * Z.of_nat j) <=? v then [128 + v / 2 ^ (7 * Z.of_nat j) mod 128] else []) ++ high j' v
  end.
Definition component_bytes (v : Z) : list Z := high 4 v ++ [v mod 128].

Definition texts (cs : list Z) : list Z := concat (map (fun c => 32 :: dec c) cs).
Definition groups (cs : list Z) : list Z := concat (map component_bytes cs).
Lemma texts_cons c cs : texts (c :: cs) = 32 :: dec c ++ texts cs.
Proof. done. Qed.
Lemma groups_cons c cs : groups (c :: cs) = component_bytes c ++ groups cs.
Proof. done. Qed.

(** The text and the bytes of an identifier. *)
Definition oid_text (a b : Z) (cs : list Z) : list Z := dec a ++ 32 :: dec b ++ texts cs.
Definition oid_bytes (a b : Z) (cs : list Z) : list Z := (40 * a + b) :: groups cs.

Section reader.
Context (A : Allocator) (mem : malloc_always A).

Lemma alloc_ok d : alloc A d = Ret (true, count d).
Proof. unfold alloc. by rewrite mem. Qed.

(** The length octets are read back. *)
Lemma parses_length n :
  0 <= n < 2 ^ 24 ->
  exists b more, der_length n = b :: more /\
    parses (if negb (Z.land b 0x80 =? 0) then
              let k := Z.land b 0x7f in
              do r <- asn1_read_uint8 b;
              if negb r.1 then ret None else read_length (Z.to_nat (k - 1)) r.2 r.2
            else ret (Some b)) more (Some n).
Proof.
  intros Hn. change (2 ^ 24) with 16777216 in Hn. unfold der_length.
  assert (forall b, 0 <= b < 256 -> u8 b = b) as U by (intros b Hb; by apply u8_id).
  destruct (Z.ltb_spec 0xFFFF n); [|destruct (Z.ltb_spec 255 n); [|destruct (Z.ltb_spec 127 n)]].
  all: rewrite ?Z.shiftr_div_pow2 by lia; rewrite ?low_byte; change (2 ^ 16) with 65536; change (2 ^ 8) with 256.
  all: rewrite ?U by dlia.
  all: do 2 eexists; split; [done|]; rewrite ?long_byte by lia; cbn beta iota delta [negb].
  - eapply (parses_bind _ _ [_] [_; _]); [apply parses_uint8|]. cbn beta iota delta [negb fst snd].
    change (Z.to_nat (Z.land 0x83 0x7f - 1)) with 2%nat. cbn [read_length].
    eapply (parses_bind _ _ [_] [_]); [apply parses_uint8|]. cbn beta iota delta [negb fst snd]. rewrite length_step by dlia.
    eapply (parses_bind _ _ [_] []); [apply parses_uint8|]. cbn beta iota delta [negb fst snd]. rewrite length_step by dlia.
    match goal with |- parses (ret (Some ?m)) _ _ => replace m with n by dlia end. apply parses_ret.
  - eapply (parses_bind _ _ [_] [_]); [apply parses_uint8|]. cbn beta iota delta [negb fst snd].
    change (Z.to_nat (Z.land 0x82 0x7f - 1)) with 1%nat. cbn [read_length].
    eapply (parses_bind _ _ [_] []); [apply parses_uint8|]. cbn beta iota delta [negb fst snd]. rewrite length_step by dlia.
    match goal with |- parses (ret (Some ?m)) _ _ => replace m with n by dlia end. apply parses_ret.
  - eapply (parses_bind _ _ [_] []); [apply parses_uint8|]. apply parses_ret.
  - rewrite land_0x80 by lia. assert ((n <? 128) = true) as -> by lia. apply parses_ret.
Qed.

Lemma reading_opened d tag e rest n : reading d (tlv tag e) rest -> reading (opened d tag e n) e rest.
Proof.
  rewrite tlv_header. intros H. apply (reading_moved _ _ _ _ n) in H. exact H.
Qed.

Lemma inside_opened d tag e n : inside (opened d tag e n) (length e).
Proof. unfold inside. cbn. split; [done|]. f_equal. lia. Qed.

(** Opening the tag of [e]. *)
Lemma start_tag_ok tag e d rest :
  0 <= tag < 256 -> Z.of_nat (length e) < 2 ^ 24 -> reading d (tlv tag e) rest ->
  exists n, asn1_start_tag A tag d = Ret (true, opened d tag e n).
Proof.
  intros Ht Hl Hr. destruct (parses_length (Z.of_nat (length e))) as (b & more & Eb & Hp); [lia|].
  assert (header tag e = tag :: b :: more) as Eh by (unfold header; by rewrite u8_id, Eb by done).
  assert (tlv tag e = [tag] ++ [b] ++ more ++ e) as Et by (rewrite tlv_header, Eh; done).
  unfold asn1_start_tag. pose proof Hr as Hr'. rewrite Et in Hr'.
  destruct (parses_uint8 (@uninit A) tag d (([b] ++ more ++ e) ++ rest)) as [n1 E1]; [by apply reading_rest|]. step E1. cbn [negb fst snd].
  rewrite Z.eqb_refl. cbn [negb]. step (alloc_ok (moved d 1 n1)). cbn [negb].
  apply (reading_moved _ _ _ _ n1) in Hr'. change (count (moved d 1 n1)) with (moved d 1 (S n1)).
  assert (reading (moved d 1 (S n1)) ([b] ++ more ++ e) rest) as Hr1 by exact Hr'.
  destruct (parses_uint8 tag b (moved d 1 (S n1)) ((more ++ e) ++ rest)) as [n2 E2]; [by apply reading_rest|]. step E2. cbn [negb fst snd].
  rewrite moved_moved. apply (reading_moved _ _ _ _ n2) in Hr1. rewrite moved_moved in Hr1. cbn [length] in Hr1 |- *.
  destruct (Hp (moved d (1 + 1) n2) (e ++ rest)) as [n3 E3]; [by apply reading_rest|]. step E3.
  rewrite moved_moved. unfold bind at 1, modify. cbn [obind fst snd].
  assert (set_nesting (Nest (ofs (moved d (1 + 1 + length more) n3)) (Z.of_nat (length e)) :: nesting (moved d (1 + 1 + length more) n3))
            (moved d (1 + 1 + length more) n3) = opened d tag e n3) as ->.
  { unfold opened, set_nesting, moved. rewrite Eh. reflexivity. }
  rewrite (bind_ret _ _ _ _ _ (remaining_ok _ e rest (length e) (reading_opened _ _ _ _ n3 Hr) (inside_opened _ _ _ _) ltac:(lia))).
  cbn beta iota. assert ((Z.of_nat (length e) =? -1) = false) as -> by lia. by exists n3.
Qed.

(** A tag that is read to its end is closed. *)
Lemma end_tag_ok d e rest :
  reading d e rest -> inside d 0 -> asn1_end_tag d = Ret (true, set_nesting (tail (nesting d)) d).
Proof.
  intros Hr Hi. unfold asn1_end_tag. rewrite (bind_ret _ _ _ _ _ (remaining_ok _ _ _ 0 Hr Hi ltac:(lia))). cbn beta iota.
  change (negb (Z.of_nat 0 =? 0)) with false. cbn iota. step (eq_refl (Ret (nesting d, d))).
  unfold inside in Hi. by destruct (nesting d).
Qed.

(** What reads the contents of a tag, between opening and closing it. *)
Lemma parses_tag {B} tag e (body : bool -> M B) (a : B) :
  0 <= tag < 256 -> Z.of_nat (length e) < 2 ^ 24 ->
  (forall d rest, reading d e rest -> inside d (length e) ->
     exists n, body true d = Ret (a, set_nesting (tail (nesting d)) (moved d (length e) n))) ->
  parses (do s <- asn1_start_tag A tag; body s) (tlv tag e) a.
Proof.
  intros Ht Hl Hb d rest Hr. destruct (start_tag_ok tag e d rest Ht Hl Hr) as [n E]. step E.
  destruct (Hb (opened d tag e n) rest) as [n' E']; [by apply reading_opened|apply inside_opened|].
  exists n'. rewrite E'. rewrite tlv_header, length_app. unfold moved. by rewrite Nat.add_assoc.
Qed.

(** The last bytes of a tag, and its end. *)
Lemma step_end {B} (g : bool -> M B) p d rest m :
  reading d p rest -> inside d (length p) ->
  bind asn1_end_tag g (moved d (length p) m) = g true (set_nesting (tail (nesting d)) (moved d (length p) m)).
Proof.
  intros Hr Hi. assert (asn1_end_tag (moved d (length p) m) = Ret (true, set_nesting (tail (nesting d)) (moved d (length p) m))) as E.
  { apply (end_tag_ok (moved d (length p) m) [] rest); [apply reading_moved; by rewrite app_nil_r|apply inside_moved; by rewrite Nat.add_0_r]. }
  by rewrite (bind_ret _ _ _ _ _ E).
Qed.

Lemma step_remaining {B} (f : Z -> M B) d e rest :
  reading d e rest -> inside d (length e) -> bind asn1_tag_remaining f d = f (Z.of_nat (length e)) d.
Proof. intros Hr Hi. by rewrite (bind_ret _ _ _ _ _ (remaining_ok _ _ _ _ Hr Hi ltac:(lia))). Qed.

Lemma step_alloc {B} (f : bool -> M B) d : bind (alloc A) f d = f true (count d).
Proof. by rewrite (bind_ret _ _ _ _ _ (alloc_ok d)). Qed.

(** What is read between opening and closing a tag, or two of them. *)
Lemma parses_one_tag {B C} tag e (m : M B) (f : B -> M C) (a : B) (c : C) :
  0 <= tag < 256 -> Z.of_nat (length e) < 2 ^ 24 -> parses_in 0 m e a ->
  (forall d, has_error d = false -> f a d = Ret (c, d)) ->
  parses (asn1_start_tag A tag;; do x <- m; asn1_end_tag;; f x) (tlv tag e) c.
Proof.
  intros Ht Hl Hm Hf. apply parses_tag; [done|done|]. intros d rest Hr Hi.
  destruct (Hm d rest Hr ltac:(by rewrite Nat.add_0_r) ltac:(lia)) as [n E]. step E. exists n.
  rewrite (step_end _ e d rest n Hr Hi). by apply Hf.
Qed.

Lemma parses_two_tags {B C} t1 t2 e (m : M B) (f : B -> M C) (a : B) (c : C) :
  0 <= t1 < 256 -> 0 <= t2 < 256 -> Z.of_nat (length (tlv t2 e)) < 2 ^ 24 -> parses_in 0 m e a ->
  (forall d, has_error d = false -> f a d = Ret (c, d)) ->
  parses (asn1_start_tag A t1;; asn1_start_tag A t2;; do x <- m; asn1_end_tag;; asn1_end_tag;; f x) (tlv t1 (tlv t2 e)) c.
Proof.
  intros H1 H2 Hl Hm Hf. apply parses_tag; [done|done|]. intros d rest Hr Hi. pose proof (length_tlv t2 e).
  destruct (start_tag_ok t2 e d rest H2 ltac:(lia) Hr) as [n1 E1]. step E1.
  pose proof (reading_opened _ _ _ _ n1 Hr) as Hr1. pose proof (inside_opened d t2 e n1) as Hi1.
  destruct (Hm _ rest Hr1 ltac:(by rewrite Nat.add_0_r) ltac:(lia)) as [n2 E2]. step E2. exists n2.
  rewrite (step_end _ e _ rest n2 Hr1 Hi1).
  assert (set_nesting (tail (nesting (opened d t2 e n1))) (moved (opened d t2 e n1) (length e) n2) = moved d (length (tlv t2 e)) n2) as ->
    by (rewrite tlv_header, length_app; unfold moved, opened, set_nesting; cbn [data ofs nesting tail allocs]; by rewrite Nat.add_assoc).
  rewrite (step_end _ _ d rest n2 Hr Hi). by apply Hf.
Qed.

Lemma parses_octets p : Z.of_nat (length p) < 2 ^ 24 -> parses (asn1_read_OctetString A) (tlv 0x4 p) (true, Some p).
Proof.
  intros Hl. apply parses_tag; [done|done|]. intros d rest Hr Hi. cbn [negb]. rewrite (step_remaining _ _ _ _ Hr Hi).
  assert ((Z.of_nat (length p) <? 0) = false) as -> by lia. rewrite step_alloc. cbn [negb].
  destruct (parses_read p (count d) rest Hr) as [n E]. step E. exists n. by rewrite (step_end _ p (count d) rest n Hr Hi).
Qed.

Lemma parses_context_simple num p :
  0 <= num < 0x80 -> p <> [] -> Z.of_nat (length p) < 2 ^ 24 ->
  parses (asn1_read_ContextSimple A num) (tlv (ASN1_CONTEXT_SIMPLE num) p) (true, Some p).
Proof.
  intros Hn Hp Hl. apply parses_tag; [unfold ASN1_CONTEXT_SIMPLE; lia|done|]. intros d rest Hr Hi. cbn [negb]. rewrite (step_remaining _ _ _ _ Hr Hi).
  assert ((Z.of_nat (length p) <? 0) = false) as -> by lia.
  assert ((Z.of_nat (length p) =? 0) = false) as -> by (destruct p; [done|apply Z.eqb_neq; cbn [length]; lia]). rewrite step_alloc. cbn [negb].
  destruct (parses_read p (count d) rest Hr) as [n E]. step E. exists n. by rewrite (step_end _ p (count d) rest n Hr Hi).
Qed.

Lemma ldap_string_ok p d rest :
  reading d p rest -> inside d (length p) -> exists n, asn1_read_LDAPString A d = Ret ((true, Some (Some p)), moved d (length p) n).
Proof.
  intros Hr Hi. unfold asn1_read_LDAPString. rewrite (step_remaining _ _ _ _ Hr Hi).
  assert ((Z.of_nat (length p) <? 0) = false) as -> by (apply Z.ltb_ge; lia). rewrite step_alloc. cbn [negb].
  destruct (parses_read p (count d) rest Hr) as [n E]. step E. by exists n.
Qed.

Lemma parses_general_string p : Z.of_nat (length p) < 2 ^ 24 -> parses (asn1_read_GeneralString A) (tlv 0x1b p) (true, Some (Some p)).
Proof.
  intros Hl. apply parses_tag; [done|done|]. intros d rest Hr Hi. cbn [negb]. destruct (ldap_string_ok p d rest Hr Hi) as [n E]. step E.
  cbn [negb fst snd]. exists n. by rewrite (step_end _ p d rest n Hr Hi).
Qed.

Lemma parses_boolean (v : bool) : parses (asn1_read_BOOLEAN A) (tlv 0x1 [if v then 0xFF else 0]) (true, v).
Proof.
  intros d rest Hr. destruct (start_tag_ok 0x1 [if v then 0xFF else 0] d rest ltac:(lia) ltac:(cbn; lia) Hr) as [n E]. unfold asn1_read_BOOLEAN. step E.
  pose proof (reading_opened _ _ _ _ n Hr) as Hr'. pose proof (inside_opened d 0x1 [if v then 0xFF else 0] n) as Hi.
  destruct (parses_uint8 0 _ _ _ Hr') as [n' E']. step E'. cbn [fst snd].
  exists n'. rewrite (step_end _ _ _ _ n' Hr' Hi). destruct v; unfold moved; rewrite tlv_header, length_app, Nat.add_assoc; reflexivity.
Qed.

(** *** Integers *)

Definition int_in (i : Z) (e : list Z) : Z := fold_left (fun i b => s32 (Z.shiftl i 8 + b)) e i.

Lemma more_ok d e rest : reading d e rest -> inside d (length e) -> more d = Ret (0 <? Z.of_nat (length e), d).
Proof.
  intros Hr Hi. pose proof Hr as (He & _). unfold more. step (eq_refl (Ret (has_error d, d))). rewrite He.
  by rewrite (step_remaining _ _ _ _ Hr Hi).
Qed.

Lemma loop_next b e rest d n : reading d (b :: e) rest -> inside d (length (b :: e)) ->
  reading (moved d 1 n) e rest /\ inside (moved d 1 n) (length e).
Proof. intros Hr Hi. split; [by apply (reading_moved d [b])|by apply inside_moved]. Qed.

Lemma read_int_loop_ok fuel i e d rest :
  (length e < fuel)%nat -> reading d e rest -> inside d (length e) ->
  exists n, read_int_loop A fuel i d = Ret ((true, int_in i e), moved d (length e) n).
Proof.
  revert i e d. induction fuel as [|fuel IH]; intros i e d Hf Hr Hi; [lia|]. cbn [read_int_loop]. step (more_ok _ _ _ Hr Hi).
  destruct e as [|b e]; cbn [length] in *.
  - change (negb (0 <? Z.of_nat 0)) with true. cbn iota. exists (allocs d). rewrite (bind_ret _ _ d d true); [by cbn; rewrite (moved_0 _ _ _ Hr)|].
    unfold ok, get. by destruct Hr as (-> & _).
  - assert ((0 <? Z.of_nat (S (length e))) = true) as -> by (apply Z.ltb_lt; lia). cbn [negb].
    destruct (parses_uint8 (@uninit A) b d (e ++ rest)) as [n E]; [by apply reading_rest|]. step E. cbn [negb fst snd length].
    destruct (loop_next _ _ _ _ n Hr Hi) as [Hr' Hi']. destruct (IH (s32 (Z.shiftl i 8 + b)) e (moved d 1 n)) as [n' E']; [lia|done|done|].
    exists n'. by rewrite E', moved_moved.
Qed.

Lemma read_enum_loop_ok fuel i b0 e d rest :
  (length e < fuel)%nat -> reading d e rest -> inside d (length e) ->
  exists n, read_enum_loop A fuel i b0 d = Ret (int_in i e, moved d (length e) n).
Proof.
  revert i b0 e d. induction fuel as [|fuel IH]; intros i b0 e d Hf Hr Hi; [lia|]. cbn [read_enum_loop]. step (more_ok _ _ _ Hr Hi).
  destruct e as [|b e]; cbn [length] in *.
  - change (negb (0 <? Z.of_nat 0)) with true. cbn iota. exists (allocs d). by cbn; rewrite (moved_0 _ _ _ Hr).
  - assert ((0 <? Z.of_nat (S (length e))) = true) as -> by (apply Z.ltb_lt; lia). cbn [negb].
    destruct (parses_uint8 b0 b d (e ++ rest)) as [n E]; [by apply reading_rest|]. step E. cbn [fst snd length].
    destruct (loop_next _ _ _ _ n Hr Hi) as [Hr' Hi']. destruct (IH (s32 (Z.shiftl i 8 + b)) (@uninit A) e (moved d 1 n)) as [n' E']; [lia|done|done|].
    exists n'. by rewrite E', moved_moved.
Qed.

Lemma parses_integer_bytes e : Z.of_nat (length e) < 2 ^ 24 -> parses (asn1_read_Integer A) (tlv 0x2 e) (true, int_in 0 e).
Proof.
  intros Hl. apply parses_tag; [done|done|]. intros d rest Hr Hi. cbn [negb].
  pose proof (reading_length _ _ _ Hr). unfold asn1_read_implicit_Integer.
  destruct (read_int_loop_ok (S (S (length (data d) - ofs d))) 0 e d rest) as [n E]; [lia|done|done|].
  assert ((do d <- get id; read_int_loop A (S (S (length (data d) - ofs d))) 0) d = Ret ((true, int_in 0 e), moved d (length e) n)) as E' by exact E.
  step E'. cbn [negb fst snd]. exists n. by rewrite (step_end _ e d rest n Hr Hi).
Qed.

Lemma parses_enumerated v : is_byte v -> parses (asn1_read_enumerated A) (tlv 0xa [v]) (true, v).
Proof.
  intros Hv. apply parses_tag; [done|cbn; lia|]. intros d rest Hr Hi. cbn [negb]. pose proof (reading_length _ _ _ Hr) as Hl.
  step (eq_refl (Ret (d, d))). destruct (read_enum_loop_ok (S (S (length (data d) - ofs d))) 0 (@uninit A) [v] d rest) as [n E]; [cbn [length]; lia|done|done|].
  step E. assert (int_in 0 [v] = v) as -> by (unfold int_in; cbn [fold_left]; rewrite Z.shiftl_0_l, Z.add_0_l; unfold s32, is_u in *; rewrite Z.mod_small by lia; lia). exists n. by rewrite (step_end _ [v] d rest n Hr Hi).
Qed.

(** *** Object identifiers *)

Lemma low_seven g : 0 <= g < 128 -> Z.land (128 + g) 0x7f = g /\ (Z.land (128 + g) 0x80 =? 0) = false.
Proof.
  intros Hg. assert (Z.land (128 + g) 0x7f = (128 + g) mod 128) as -> by apply (Z.land_ones (128 + g) 7 ltac:(lia)).
  rewrite land_0x80 by lia. split; [dlia|lia].
Qed.

Lemma shift_in a g : 0 <= a < 2 ^ 25 -> 0 <= g < 128 -> Z.lor (u32 (Z.shiftl a 7)) g = a * 128 + g.
Proof.
  intros Ha Hg. change (2 ^ 25) with 33554432 in Ha.
  rewrite u32_id by (rewrite Z.shiftl_mul_pow2 by lia; change (2 ^ 7) with 128; unfold is_u; lia).
  rewrite Z.lor_comm, lor_shiftl_add by (done || lia). change (2 ^ 7) with 128. lia.
Qed.

Lemma parses_no_error : parses (get has_error) [] false.
Proof. intros d rest Hr. pose proof Hr as (He & _). exists (allocs d). unfold get. rewrite He. cbn. by rewrite (moved_0 _ _ _ Hr). Qed.

Lemma parses_group fuel a b g e r :
  0 <= a < 2 ^ 25 -> 0 <= g < 128 -> parses (read_component fuel (a * 128 + g) (128 + g)) e r ->
  parses (read_component (S fuel) a b) ((128 + g) :: e) r.
Proof.
  intros Ha Hg Hp. destruct (low_seven g Hg) as [E1 E2]. cbn [read_component].
  eapply (parses_bind _ _ [_] e); [apply parses_uint8|]. cbn [fst snd]. eapply (parses_bind _ _ [] e); [apply parses_no_error|].
  by rewrite E1, E2, shift_in.
Qed.

Lemma parses_last_group fuel a b g :
  0 <= a < 2 ^ 25 -> 0 <= g < 128 -> parses (read_component (S fuel) a b) [g] (a * 128 + g, g).
Proof.
  intros Ha Hg. cbn [read_component]. eapply (parses_bind _ _ [_] []); [apply parses_uint8|]. cbn [fst snd].
  eapply (parses_bind _ _ [] []); [apply parses_no_error|]. rewrite land_0x80 by lia. assert ((g <? 128) = true) as -> by lia. cbn [negb andb].
  assert (Z.land g 0x7f = g) as -> by (change 0x7f with (Z.ones 7); rewrite Z.land_ones by lia; apply Z.mod_small; lia).
  rewrite shift_in by done. apply parses_ret.
Qed.

Lemma parses_component j fuel v b :
  (length (high j v) < fuel)%nat -> 0 <= v < 2 ^ 32 -> (j <= 4)%nat ->
  exists b', parses (read_component fuel (v / 2 ^ (7 * (Z.of_nat j + 1))) b) (high j v ++ [v mod 128]) (v, b').
Proof.
  intros Hf Hv Hj. revert fuel b Hf. induction j as [|j IH]; intros fuel b Hf; (destruct fuel as [|fuel]; [cbn in Hf; lia|]).
  - exists (v mod 128). pose proof (parses_last_group fuel (v / 2 ^ 7) b (v mod 128)) as H. change (2 ^ 7) with 128 in *.
    replace (v / 128 * 128 + v mod 128) with v in H by dlia. apply H; [change (2 ^ 25) with 33554432; change (2 ^ 32) with 4294967296 in Hv; dlia|dlia].
  - cbn [high] in *. rewrite Nat2Z.inj_succ in *. replace (7 * (Z.succ (Z.of_nat j) + 1)) with (7 + 7 * Z.succ (Z.of_nat j)) by lia.
    set (p := 2 ^ (7 * Z.succ (Z.of_nat j))) in *.
    assert (0 < p) as Hp by (apply Z.pow_pos_nonneg; lia).
    rewrite Z.pow_add_r by lia. fold p. rewrite Z.mul_comm, <- Z.div_div by lia. change (2 ^ 7) with 128.
    assert (2 ^ (7 * (Z.of_nat j + 1)) = p) as Ep by (unfold p; f_equal; lia).
    destruct (Z.leb_spec p v) as [Hle|Hlt].
    + cbn [app length] in Hf |- *. destruct (IH ltac:(lia) fuel (128 + v / p mod 128)) as [b' H]; [lia|]. exists b'.
      apply parses_group; [|dlia|].
      * assert (v / p < 2 ^ 32) by (apply Z.div_lt_upper_bound; nia). change (2 ^ 25) with 33554432. change (2 ^ 32) with 4294967296 in *.
        assert (0 <= v / p) by (apply Z.div_pos; lia). dlia.
      * replace (v / p / 128 * 128 + v / p mod 128) with (v / p) by dlia. by rewrite Ep in H.
    + cbn [app] in Hf |- *. destruct (IH ltac:(lia) (S fuel) b) as [b' H]; [lia|]. exists b'. rewrite Ep in H.
      rewrite (Z.div_small v p) in H |- * by lia. exact H.
Qed.

Lemma parses_component_bytes fuel v b :
  (length (component_bytes v) <= fuel)%nat -> is_u32 v -> exists b', parses (read_component fuel 0 b) (component_bytes v) (v, b').
Proof.
  intros Hf Hv. unfold component_bytes in *. rewrite length_app in Hf. cbn [length] in Hf.
  destruct (parses_component 4 fuel v b) as [b' H]; [lia|done|done|]. exists b'. rewrite Z.div_small in H by (cbn; unfold is_u in Hv; lia). done.
Qed.

Lemma component_bytes_nonempty v : (0 < length (component_bytes v))%nat.
Proof. unfold component_bytes. rewrite length_app. cbn [length]. lia. Qed.

Lemma step_asprintf {B} (f : option (list Z) -> M B) t s d :
  bind (asprintf_append A t s) f d = f (Some (default [] t ++ s)) (count d).
Proof.
  assert (asprintf_append A t s d = Ret (Some (default [] t ++ s), count d)) as E
    by (unfold asprintf_append; by rewrite (bind_ret _ _ _ _ _ (alloc_ok d))).
  by rewrite (bind_ret _ _ _ _ _ E).
Qed.

Lemma read_components_ok fuel b cs t d rest :
  Forall is_u32 cs -> (length (groups cs) < fuel)%nat -> reading d (groups cs) rest ->
  inside d (length (groups cs)) ->
  exists n, read_components A fuel b (Some t) d =
    Ret (Some (t ++ texts cs), moved d (length (groups cs)) n).
Proof.
  intros Hcs. revert fuel b t d. induction Hcs as [|c cs Hc Hcs IH]; intros fuel b t d Hf Hr Hi; (destruct fuel as [|fuel]; [lia|]).
  - unfold groups, texts in *; cbn [read_components map concat] in *. step (more_ok _ _ _ Hr Hi). exists (allocs d). cbn. by rewrite (moved_0 _ _ _ Hr), app_nil_r.
  - rewrite groups_cons, texts_cons in *. cbn [read_components]. step (more_ok _ _ _ Hr Hi). rewrite length_app in *. pose proof (component_bytes_nonempty c).
    assert ((0 <? Z.of_nat (length (component_bytes c) + length (groups cs))) = true) as -> by (apply Z.ltb_lt; lia).
    cbn [negb]. step (eq_refl (Ret (d, d))). pose proof (reading_length _ _ _ Hr) as Hl. rewrite length_app in Hl.
    destruct (parses_component_bytes (S (length (data d) - ofs d)) c b) as [b' Hp]; [lia|done|].
    destruct (Hp d (groups cs ++ rest)) as [n E]; [by apply reading_rest|]. step E. cbn [fst snd].
    rewrite step_asprintf. cbn [default id].
    apply (reading_moved _ _ _ _ n) in Hr as Hr'. apply (inside_moved d _ _ n) in Hi as Hi'.
    destruct (IH fuel b' (t ++ 32 :: dec c) (count (moved d (length (component_bytes c)) n))) as [n' E']; [lia|exact Hr'|exact Hi'|].
    exists n'. rewrite E'. change (count (moved d (length (component_bytes c)) n)) with (moved d (length (component_bytes c)) (S n)).
    rewrite moved_moved, <- app_assoc. done.
Qed.

(** First components that fit the first byte. *)
Definition oid_valid (a b : Z) (cs : list Z) : Prop :=
  0 <= a /\ 0 <= b < 40 /\ 40 * a + b < 256 /\ Forall is_u32 cs /\ Z.of_nat (length (oid_bytes a b cs)) < 2 ^ 24.

Lemma parses_oid a b cs :
  oid_valid a b cs -> parses (asn1_read_OID A) (tlv 0x6 (oid_bytes a b cs)) (true, Some (Some (oid_text a b cs))).
Proof.
  intros (Ha & Hb & Hab & Hcs & Hl). apply parses_tag; [done|done|]. intros d rest Hr Hi. cbn [negb]. unfold oid_bytes in *.
  destruct (parses_uint8 (@uninit A) (40 * a + b) d (groups cs ++ rest)) as [n E]; [by apply reading_rest|].
  step E. cbn [fst snd length].
  assert ((40 * a + b) / 40 = a) as -> by dlia. assert ((40 * a + b) mod 40 = b) as -> by dlia.
  rewrite !step_asprintf. cbn [default id app].
  change (count (count (moved d 1 n))) with (moved d 1 (S (S n))).
  step (eq_refl (Ret (moved d 1 (S (S n)), moved d 1 (S (S n))))).
  pose proof (reading_length _ _ _ Hr) as Hlen. cbn [length] in Hlen.
  destruct (loop_next _ _ _ _ (S (S n)) Hr Hi) as [Hr' Hi'].
  destruct (read_components_ok (S (S (length (data d) - (ofs d + 1)))) (40 * a + b) cs (dec a ++ 32 :: dec b) (moved d 1 (S (S n))) rest)
    as [n' E']; [done|lia|done|done|]. step E'.
  rewrite moved_moved.
  change (1 + length (groups cs))%nat with (length (oid_bytes a b cs)). exists (S n').
  rewrite (step_end _ (oid_bytes a b cs) d rest n' Hr Hi). cbn beta iota. rewrite step_alloc. cbn beta iota zeta.
  unfold oid_text. rewrite <- app_assoc. done.
Qed.

(** *** Object identifiers, written *)

Lemma high_bit x k : 0 <= x -> 0 <= k -> u8 (Z.lor 0x80 (Z.land (Z.shiftr x k) 0xff)) = 128 + x / 2 ^ k mod 128.
Proof.
  intros Hx Hk. rewrite low_byte, Z.shiftr_div_pow2 by lia. set (y := x / 2 ^ k).
  assert (u8 (Z.lor 0x80 (y mod 256)) = 128 + (y mod 256) mod 128) as ->.
  { apply Z.eqb_eq. apply (below 256 (fun m => u8 (Z.lor 0x80 m) =? 128 + m mod 128)); [by vm_compute|dlia]. }
  f_equal. dlia.
Qed.

Lemma emits_if (c : bool) m e : emits m e -> emits (if c then m else ret true) (if c then e else []).
Proof. intros H. destruct c; [done|apply emits_ret]. Qed.

Lemma emits_component v : 0 <= v -> emits (write_component A v) (component_bytes v).
Proof.
  intros Hv. unfold component_bytes. cbn [high]. rewrite <- !app_assoc.
  assert (forall k, 0 <= k -> emits (asn1_write_uint8 A (Z.lor 0x80 (Z.land (Z.shiftr v k) 0xff))) [128 + v / 2 ^ k mod 128]) as H
    by (intros k Hk; rewrite <- high_bit by done; by apply emits_uint8).
  assert (forall k c, 0 <= k -> emits (if (c : bool) then asn1_write_uint8 A (Z.lor 0x80 (Z.land (Z.shiftr v k) 0xff)) else ret true)
            (if c then [128 + v / 2 ^ k mod 128] else [])) as H' by (intros k c Hk; apply emits_if; by apply H).
  do 4 (apply emits_bind; [by apply H'|]). replace [v mod 128] with [u8 (Z.land v 0x7f)]; [by apply emits_uint8|].
  change 0x7f with (Z.ones 7). rewrite Z.land_ones, u8_id by (lia || unfold is_u; dlia). done.
Qed.

Lemma no_digit_texts cs : no_digit (texts cs).
Proof. by destruct cs. Qed.

Lemma emits_components fuel cs :
  Forall is_u32 cs -> (length (texts cs) <= fuel)%nat ->
  emits (write_components A fuel (texts cs)) (groups cs).
Proof.
  intros Hcs. revert fuel. induction Hcs as [|c cs Hc Hcs IH]; intros fuel Hf.
  - destruct fuel; apply emits_ret.
  - destruct fuel as [|fuel]; [cbn in Hf; lia|]. rewrite groups_cons, texts_cons in *. cbn [write_components length] in *. unfold is_u in Hc.
    rewrite length_app in Hf. rewrite strtol_space by (lia || apply no_digit_texts). cbn [length].
    rewrite decide_False by (rewrite length_app; lia). rewrite u32_id by done.
    apply emits_require; [apply emits_component; lia|]. apply IH. lia.
Qed.

Lemma emits_oid a b cs : oid_valid a b cs -> emits (asn1_write_OID A (oid_text a b cs)) (tlv 0x6 (oid_bytes a b cs)).
Proof.
  intros (Ha & Hb & Hab & Hcs & Hl). unfold asn1_write_OID, oid_text. rewrite strtol_dec by (lia || done).
  rewrite strtol_space by (lia || apply no_digit_texts). rewrite !u32_id by (unfold is_u; lia).
  assert (emits (require asn1_write_uint8 A (40 * a + b);
                 write_components A (length (texts cs)) (texts cs))
            (oid_bytes a b cs)) as H.
  { apply (emits_require _ _ [_]); [|by apply emits_components].
    rewrite <- (u8_id (40 * a + b)) at 2 by (unfold is_u; lia). by apply emits_uint8. }
  intros d Hw Hf. destruct (proj2 (tag_emits A mem 0x6 _ _ Hl (fun d n => emits_inner A 0x6 _ _ d n H)) d Hw Hf) as [n E].
  exists n. rewrite <- E. unfold ASN1_OID. destruct (push_tag_opens A mem d 0x6 Hw) as [m E1].
  { pose proof (length_tlv 0x6 (oid_bytes a b cs)). unfold fits in *. cbn [length]. lia. }
  step E1. step E1. unfold bind. destruct (asn1_write_uint8 A (40 * a + b) _) as [[[|] d1]|]; done.
Qed.

(** *** The value of an integer *)

Lemma s32_s32 x y : s32 (Z.shiftl (s32 x) 8 + y) = s32 (x * 256 + y).
Proof.
  rewrite Z.shiftl_mul_pow2 by lia. change (2 ^ 8) with 256. unfold s32. change (2 ^ 32) with 4294967296. change (2 ^ 31) with 2147483648. dlia.
Qed.

Lemma int_in_be n x a : int_in (s32 a) (be n x) = s32 (a * 2 ^ (8 * Z.of_nat n) + x mod 2 ^ (8 * Z.of_nat n)).
Proof.
  revert x. induction n as [|n IH]; intros x.
  - change (2 ^ (8 * Z.of_nat 0)) with 1. by rewrite Z.mod_1_r, Z.mul_1_r, Z.add_0_r.
  - rewrite be_S. unfold int_in in *. rewrite fold_left_app, IH. cbn [fold_left]. rewrite s32_s32. f_equal.
    replace (8 * Z.of_nat (S n)) with (8 + 8 * Z.of_nat n) by lia. rewrite Z.pow_add_r by lia. change (2 ^ 8) with 256.
    set (p := 2 ^ (8 * Z.of_nat n)). assert (0 < p) by (apply Z.pow_pos_nonneg; lia).
    rewrite (Z.rem_mul_r x 256 p) by lia. ring.
Qed.

(** Negative integers of fewer than four bytes come back without their sign. *)
Definition unsigned (i : Z) : Z := if (i <? 0) && (int_size i <? 4)%nat then i + 2 ^ (8 * Z.of_nat (int_size i)) else i.

Lemma int_in_der i : - 2 ^ 31 <= i < 2 ^ 31 -> int_in 0 (der_int i) = unsigned i.
Proof.
  intros Hi. change 0 with (s32 0). unfold der_int. rewrite int_in_be, Z.mul_0_l, Z.add_0_l. unfold unsigned.
  pose proof (int_size_minimal i Hi) as (H1 & H2 & _). pose proof (int_size_le i Hi).
  assert (int_size i = 1 \/ int_size i = 2 \/ int_size i = 3 \/ int_size i = 4)%nat as [E|[E|[E|E]]] by lia; rewrite E in *;
    unfold in_range in H2; cbn in H2 |- *; unfold s32; cbn; destruct (Z.ltb_spec i 0); cbn [andb]; dlia.
Qed.
End reader.

Lemma emits_boolean A v : malloc_always A -> emits (asn1_write_BOOLEAN A v) (tlv 0x1 [if v then 0xFF else 0]).
Proof. intros mem. apply emits_tagged; [done|cbn; lia|]. destruct v; by apply emits_uint8. Qed.

Lemma emits_general_string A p : malloc_always A -> Z.of_nat (length p) < 2 ^ 24 -> emits (asn1_write_GeneralString A p) (tlv 0x1b p).
Proof. intros mem Hl. apply emits_tagged; [done|done|]. by apply emits_ok, emits_write. Qed.


