(* ===== verification/Asn1Safe.v ===== *)
(** The reader of libcli/util/asn1.c on arbitrary bytes: it stays in its buffer, never goes
    back, and its loops end.  No definitions of the code are here. *)

From stdpp Require Import strings.
From S2P Require Import Prelude Digest Byteorder Ntstatus Cnum DomSid Asn1.
Import Asn1.

#[local] Open Scope outcome_scope.
#[local] Open Scope asn1_scope.

(** A live buffer and an offset in it. *)
Definition inv (d : asn1_data) : Prop := gone d = false /\ (ofs d <= length (data d))%nat /\ Z.of_nat (length (data d)) < 2 ^ 63.

(** From [d] to [d']: the bytes are the same, and the offset did not go back. *)
Definition later (d d' : asn1_data) : Prop := inv d' /\ data d' = data d /\ (ofs d <= ofs d')%nat.

Lemma later_refl d : inv d -> later d d.
Proof. done. Qed.

Lemma later_trans d1 d2 d3 : later d1 d2 -> later d2 d3 -> later d1 d3.
Proof. intros (_ & E1 & H1) (H & E2 & H2). split_and!; [done|congruence|lia]. Qed.

Lemma later_moved d o : inv d -> (ofs d <= o <= length (data d))%nat -> later d (set_ofs o d).
Proof. intros (Hg & Ho & Hl) H. split_and!; [by split_and!; [|cbn; lia|]|done|cbn; lia]. Qed.

(** A call that does not fault, and what it does to any state. *)
Definition safe {B} (m : M B) : Prop := forall d, inv d -> exists b d', m d = Ret (b, d') /\ later d d'.

Lemma safe_ret {B} (b : B) : safe (ret b).
Proof. intros d Hd. by exists b, d. Qed.
Lemma safe_get {B} (f : asn1_data -> B) : safe (get f).
Proof. intros d Hd. by exists (f d), d. Qed.
Lemma safe_bind {B C} (m : M B) (f : B -> M C) : safe m -> (forall b, safe (f b)) -> safe (bind m f).
Proof.
  intros Hm Hf d Hd. destruct (Hm d Hd) as (b & d1 & E & L1). destruct (Hf b d1) as (c & d2 & E2 & L2); [apply L1|].
  exists c, d2. split; [by rewrite (bind_ret _ _ _ _ _ E)|by apply (later_trans _ d1)].
Qed.
Lemma safe_if {B} (c : bool) (m1 m2 : M B) : safe m1 -> safe m2 -> safe (if c then m1 else m2).
Proof. by destruct c. Qed.
Lemma safe_error e : safe (modify (set_error e)).
Proof. intros d Hd. by exists tt, (set_error e d). Qed.
Lemma safe_nesting (f : asn1_data -> list nest) : safe (modify (fun d => set_nesting (f d) d)).
Proof. intros d Hd. by exists tt, (set_nesting (f d) d). Qed.

Create HintDb asn1_safe discriminated.
#[export] Hint Resolve safe_ret safe_get safe_error : asn1_safe.
Ltac safe_step := first [apply safe_bind; [|intros ?]|apply safe_if].
Ltac safe := repeat first [solve [eauto with asn1_safe]|safe_step|case_match].

Lemma safe_fail : safe fail.
Proof. unfold fail. safe. Qed.
Lemma safe_ok : safe ok.
Proof. unfold ok. safe. Qed.
#[export] Hint Resolve safe_fail safe_ok : asn1_safe.

Lemma safe_peek n : safe (asn1_peek n).
Proof.
  intros d (Hg & Ho & Hl). unfold asn1_peek. rewrite Hg.
  destruct (n <? 0); [by exists None, d|]. destruct (_ <? _).
  - exists None, (set_ofs (length (data d)) d). split; [done|]. by apply later_moved.
  - by eexists _, d.
Qed.

(** Reading moves on by what was read. *)
Lemma read_spec n d :
  inv d -> exists p d', asn1_read n d = Ret (p, d') /\ later d d' /\
    match p with
    | Some p => ofs d' = (ofs d + length p)%nat /\ length p = Z.to_nat n
    | None => has_error d' = true /\ (0 <= n -> Z.of_nat (length (data d)) < Z.of_nat (ofs d) + n)
    end.
Proof.
  intros Hd. pose proof Hd as (Hg & Ho & Hl). unfold asn1_read, asn1_peek, bind, modify, fail, ret. rewrite Hg.
  destruct (Z.ltb_spec n 0); cbn [obind fst snd].
  { eexists None, _. split; [done|]. split; [done|]. split; [done|lia]. }
  destruct (Z.ltb_spec (Z.of_nat (length (data d))) (Z.of_nat (ofs d) + n)); cbn [obind fst snd].
  - eexists None, _. split; [done|]. split; [|done]. by apply (later_moved d (length (data d))).
  - assert (length (slice (ofs d) (Z.to_nat n) (data d)) = Z.to_nat n) as Hs by (apply length_slice; lia).
    eexists (Some (slice (ofs d) (Z.to_nat n) (data d))), _. split; [done|]. rewrite Hs. split; [|done]. apply later_moved; [done|lia].
Qed.

Lemma safe_read n : safe (asn1_read n).
Proof. intros d Hd. destruct (read_spec n d Hd) as (p & d' & E & L & _). by exists p, d'. Qed.
#[export] Hint Resolve safe_peek safe_read : asn1_safe.
Lemma safe_read_uint8 v : safe (asn1_read_uint8 v).
Proof. unfold asn1_read_uint8. safe. Qed.
Lemma safe_peek_uint8 v : safe (asn1_peek_uint8 v).
Proof. unfold asn1_peek_uint8. safe. Qed.
Lemma safe_tag_remaining : safe asn1_tag_remaining.
Proof. unfold asn1_tag_remaining. safe. Qed.
#[export] Hint Resolve safe_read_uint8 safe_peek_uint8 safe_tag_remaining : asn1_safe.
Lemma safe_more : safe more.
Proof. unfold more. safe. Qed.
Lemma safe_peek_tag t : safe (asn1_peek_tag t).
Proof. unfold asn1_peek_tag. safe. Qed.
Lemma safe_end_tag : safe asn1_end_tag.
Proof. unfold asn1_end_tag. safe. apply (safe_nesting (fun _ => l)). Qed.
Lemma safe_read_length n len b : safe (read_length n len b).
Proof. revert len b. induction n as [|n IH]; intros len b; cbn [read_length]; safe. Qed.
#[export] Hint Resolve safe_more safe_peek_tag safe_end_tag safe_read_length : asn1_safe.

Section safe.
Context (A : Allocator).

Lemma safe_alloc : safe (alloc A).
Proof. intros d Hd. by exists (@malloc_ok A (allocs d)), (count d). Qed.
#[local] Hint Resolve safe_alloc : asn1_safe.

Lemma safe_start_tag tag : safe (asn1_start_tag A tag).
Proof. unfold asn1_start_tag. safe. apply (safe_nesting (fun d => Nest (ofs d) _ :: nesting d)). Qed.
#[local] Hint Resolve safe_start_tag : asn1_safe.

(** *** Loops *)

(** [more] says yes only in front of a byte. *)
Lemma more_spec d : inv d -> exists b d', more d = Ret (b, d') /\ later d d' /\ (b = true -> (ofs d' < length (data d'))%nat).
Proof.
  intros Hd. destruct (safe_more d Hd) as (b & d' & E & L). exists b, d'. split_and!; [done|done|]. intros ->.
  unfold more in E. unfold bind, get, ret in E. cbn [obind fst snd] in E. destruct (has_error d) eqn:He; [done|].
  unfold asn1_tag_remaining, bind, get, ret, fail, modify in E. cbn [obind fst snd id] in E. rewrite He in E.
  destruct (nesting d) as [|n ?]; [done|]. cbn [obind fst snd] in E.
  set (r := s32 _) in E. destruct (Z.ltb_spec (u64 (Z.of_nat (length (data d)) - Z.of_nat (ofs d))) (u64 r)); cbn [obind fst snd] in E; [done|].
  injection E as Er <-. apply Z.ltb_lt in Er. destruct Hd as (_ & Ho & Hl). change (2 ^ 63) with 9223372036854775808 in Hl.
  assert (- 2147483648 <= r < 2147483648) as Hr by (subst r; unfold s32; change (2 ^ 32) with 4294967296; change (2 ^ 31) with 2147483648; dlia).
  clearbody r. rewrite !u64_id in H by (unfold is_u; change (2 ^ 64) with 18446744073709551616; lia). lia.
Qed.

(** A byte is read, or the error is set. *)
Lemma uint8_spec v d :
  inv d -> exists r d', asn1_read_uint8 v d = Ret (r, d') /\ later d d' /\
    ((ofs d < length (data d))%nat -> (ofs d < ofs d')%nat) /\ (has_error d' = true \/ (ofs d < ofs d')%nat).
Proof.
  intros Hd. unfold asn1_read_uint8. destruct (read_spec 1 d Hd) as (p & d' & E & L & H).
  eexists _, d'. split; [by rewrite (bind_ret _ _ _ _ _ E)|]. split; [done|].
  destruct p as [p|]; [destruct H as [-> ->]; split; [lia|right; lia]|destruct H as [H1 H2]; split; [lia|by left]].
Qed.

(** What is left of the buffer. *)
Definition ahead (d : asn1_data) : nat := length (data d) - ofs d.

Lemma ahead_later d d' : later d d' -> (ahead d' <= ahead d)%nat.
Proof. intros (_ & E & H). unfold ahead. rewrite E. lia. Qed.
Lemma ahead_less d d' : later d d' -> (ofs d < ofs d')%nat -> (ahead d' < ahead d)%nat.
Proof. intros ((_ & Ho & _) & E & _) H. unfold ahead in *. rewrite E in *. lia. Qed.

(** A call that is safe with the fuel of what is left. *)
Definition safe_below {B} (fuel : nat) (m : M B) : Prop :=
  forall d, inv d -> (ahead d < fuel)%nat -> exists b d', m d = Ret (b, d') /\ later d d'.

Lemma safe_component fuel v b : safe_below fuel (read_component fuel v b).
Proof.
  revert v b. induction fuel as [|fuel IH]; intros v b d Hd Hf; [lia|]. cbn [read_component].
  destruct (uint8_spec b d Hd) as (r & d1 & E1 & L1 & _ & H1). rewrite (bind_ret _ _ _ _ _ E1). cbn beta iota zeta.
  rewrite (bind_ret _ _ _ _ _ (eq_refl : get has_error d1 = Ret (has_error d1, d1))). cbn beta.
  destruct (has_error d1) eqn:He; cbn [negb andb]; [by do 2 eexists|]. destruct (negb (Z.land r.2 0x80 =? 0)); [|by do 2 eexists].
  destruct H1 as [|H1]; [done|]. destruct (IH (Z.lor (u32 (Z.shiftl v 7)) (Z.land r.2 0x7f)) r.2 d1) as (x & d2 & E2 & L2);
    [apply L1|pose proof (ahead_less _ _ L1 H1); lia|]. exists x, d2. split; [done|by apply (later_trans _ d1)].
Qed.

Lemma component_moves fuel v b d :
  inv d -> (ahead d < fuel)%nat -> (ofs d < length (data d))%nat ->
  exists r d', read_component fuel v b d = Ret (r, d') /\ later d d' /\ (ahead d' < ahead d)%nat.
Proof.
  intros Hd Hf Ho. destruct fuel as [|fuel]; [lia|]. cbn [read_component].
  destruct (uint8_spec b d Hd) as (r & d1 & E1 & L1 & H1 & _). rewrite (bind_ret _ _ _ _ _ E1). cbn beta iota zeta.
  pose proof (ahead_less _ _ L1 (H1 Ho)) as Hlt.
  rewrite (bind_ret _ _ _ _ _ (eq_refl : get has_error d1 = Ret (has_error d1, d1))). cbn beta.
  destruct (negb (has_error d1) && negb (Z.land r.2 0x80 =? 0)); [|by do 2 eexists].
  destruct (safe_component fuel (Z.lor (u32 (Z.shiftl v 7)) (Z.land r.2 0x7f)) r.2 d1) as (x & d2 & E2 & L2); [apply L1|lia|].
  exists x, d2. split_and!; [done|by apply (later_trans _ d1)|]. pose proof (ahead_later _ _ L2). lia.
Qed.

(** A loop while there is more. *)
Lemma safe_while {C} (k stop : M C) fuel :
  (forall d, inv d -> (ofs d < length (data d))%nat -> (ahead d < S fuel)%nat -> exists c d', k d = Ret (c, d') /\ later d d') ->
  safe stop -> safe_below (S fuel) (do m <- more; if negb m then stop else k).
Proof.
  intros Hk Hs d Hd Hf. destruct (more_spec d Hd) as (m & d1 & E1 & L1 & Hm). rewrite (bind_ret _ _ _ _ _ E1). cbn beta.
  assert (exists c d2, (if negb m then stop else k) d1 = Ret (c, d2) /\ later d1 d2) as (c & d2 & E2 & L2).
  { destruct m; cbn [negb]; [|apply Hs, L1]. apply Hk; [apply L1|by apply Hm|pose proof (ahead_later _ _ L1); lia]. }
  exists c, d2. split; [done|by apply (later_trans _ d1)].
Qed.

(** Each round moves on. *)
Lemma safe_loop {B C} (body : M B) (next : B -> M C) (stop : M C) fuel :
  (forall d, inv d -> (ofs d < length (data d))%nat -> exists b d', body d = Ret (b, d') /\ later d d' /\ (ahead d' < ahead d)%nat) ->
  (forall b, safe_below fuel (next b)) -> safe stop ->
  safe_below (S fuel) (do m <- more; if negb m then stop else do b <- body; next b).
Proof.
  intros Hb Hn Hs. apply safe_while; [|done]. intros d Hd Ho Hf.
  destruct (Hb d Hd Ho) as (b & d2 & E2 & L2 & H2). destruct (Hn b d2) as (c & d3 & E3 & L3); [apply L2|lia|].
  exists c, d3. split; [by rewrite (bind_ret _ _ _ _ _ E2)|by apply (later_trans _ d2)].
Qed.

Lemma uint8_moves v d :
  inv d -> (ofs d < length (data d))%nat -> exists r d', asn1_read_uint8 v d = Ret (r, d') /\ later d d' /\ (ahead d' < ahead d)%nat.
Proof.
  intros Hd Ho. destruct (uint8_spec v d Hd) as (r & d' & E & L & H & _). exists r, d'. split_and!; [done|done|by apply ahead_less, H].
Qed.

Lemma safe_int_loop fuel i : safe_below fuel (read_int_loop A fuel i).
Proof.
  revert i. induction fuel as [|fuel IH]; intros i; [by intros d _ Hf; lia|]. cbn [read_int_loop].
  apply safe_loop; [intros d; apply uint8_moves| |safe]. intros b. destruct (negb b.1); [|apply IH].
  intros d Hd _. by apply safe_ret.
Qed.

Lemma safe_enum_loop fuel v b : safe_below fuel (read_enum_loop A fuel v b).
Proof.
  revert v b. induction fuel as [|fuel IH]; intros v b; [by intros d _ Hf; lia|]. cbn [read_enum_loop].
  apply safe_loop; [intros d; apply uint8_moves|intros r; apply IH|safe].
Qed.

Lemma safe_asprintf s t : safe (asprintf_append A s t).
Proof. unfold asprintf_append. safe. Qed.
#[local] Hint Resolve safe_asprintf : asn1_safe.

Lemma safe_components fuel b t : safe_below fuel (read_components A fuel b t).
Proof.
  revert b t. induction fuel as [|fuel IH]; intros b t; [by intros d _ Hf; lia|]. cbn [read_components].
  apply safe_while; [|safe]. intros d Hd Ho Hf. rewrite (bind_ret _ _ _ _ _ (eq_refl : get id d = Ret (d, d))). cbn beta.
  destruct (component_moves (S (length (data d) - ofs d)) 0 b d Hd) as (v & d1 & E1 & L1 & H1); [unfold ahead; lia|done|].
  rewrite (bind_ret _ _ _ _ _ E1). cbn beta. destruct (safe_asprintf t (32 :: dec v.1) d1) as (t' & d2 & E2 & L2); [apply L1|].
  rewrite (bind_ret _ _ _ _ _ E2). pose proof (ahead_later _ _ L2). destruct (IH v.2 t' d2) as (c & d3 & E3 & L3); [apply L2|lia|].
  exists c, d3. split; [done|]. apply (later_trans _ d1); [done|by apply (later_trans _ d2)].
Qed.

(** Calls whose fuel is taken from the state. *)
Lemma safe_fuelled {B} (m : nat -> M B) : (forall fuel, safe_below fuel (m fuel)) -> safe (do d <- get id; m (S (S (length (data d) - ofs d)))).
Proof.
  intros H d Hd. rewrite (bind_ret _ _ _ _ _ (eq_refl : get id d = Ret (d, d))). apply H; [done|unfold ahead; lia].
Qed.
Lemma safe_fuelled_bind {B C} (m : nat -> M B) (f : B -> M C) :
  (forall fuel, safe_below fuel (m fuel)) -> (forall b, safe (f b)) -> safe (do d <- get id; do x <- m (S (S (length (data d) - ofs d))); f x).
Proof.
  intros H Hf d Hd. rewrite (bind_ret _ _ _ _ _ (eq_refl : get id d = Ret (d, d))). cbn beta.
  destruct (H (S (S (length (data d) - ofs d))) d Hd) as (x & d1 & E & L); [unfold ahead; lia|].
  destruct (Hf x d1) as (c & d2 & E2 & L2); [apply L|]. exists c, d2.
  split; [by rewrite (bind_ret _ _ _ _ _ E)|by apply (later_trans _ d1)].
Qed.

Lemma safe_OID : safe (asn1_read_OID A).
Proof.
  unfold asn1_read_OID. apply safe_bind; [safe|]. intros s. apply safe_if; [safe|]. do 3 (apply safe_bind; [safe|intros ?]).
  apply (safe_fuelled_bind (fun fuel => read_components A fuel _ _)); [intros fuel; apply safe_components|intros ?; safe].
Qed.
#[local] Hint Resolve safe_OID : asn1_safe.
Lemma safe_check_OID oid : safe (asn1_check_OID A oid).
Proof. unfold asn1_check_OID. safe. Qed.
Lemma safe_LDAPString : safe (asn1_read_LDAPString A).
Proof. unfold asn1_read_LDAPString. safe. Qed.
#[local] Hint Resolve safe_LDAPString : asn1_safe.
Lemma safe_GeneralString : safe (asn1_read_GeneralString A).
Proof. unfold asn1_read_GeneralString. safe. Qed.
Lemma safe_OctetString : safe (asn1_read_OctetString A).
Proof. unfold asn1_read_OctetString. safe. Qed.
Lemma safe_ContextSimple num : safe (asn1_read_ContextSimple A num).
Proof. unfold asn1_read_ContextSimple. safe. Qed.
Lemma safe_read_BOOLEAN : safe (asn1_read_BOOLEAN A).
Proof. unfold asn1_read_BOOLEAN. safe. Qed.
Lemma safe_check_BOOLEAN v : safe (asn1_check_BOOLEAN v).
Proof. unfold asn1_check_BOOLEAN. safe. Qed.
Lemma safe_implicit_Integer : safe (asn1_read_implicit_Integer A).
Proof. apply (safe_fuelled (fun fuel => read_int_loop A fuel 0)). intros fuel. apply safe_int_loop. Qed.
#[local] Hint Resolve safe_implicit_Integer : asn1_safe.
Lemma safe_Integer : safe (asn1_read_Integer A).
Proof. unfold asn1_read_Integer. safe. Qed.
Lemma safe_enumerated : safe (asn1_read_enumerated A).
Proof.
  unfold asn1_read_enumerated. apply safe_bind; [safe|]. intros s. apply safe_if; [safe|].
  apply (safe_fuelled_bind (fun fuel => read_enum_loop A fuel 0 _)); [intros fuel; apply safe_enum_loop|intros ?; safe].
Qed.
Lemma safe_check_enumerated v : safe (asn1_check_enumerated A v).
Proof. unfold asn1_check_enumerated. safe. Qed.
End safe.

#[export] Hint Resolve safe_alloc safe_start_tag safe_asprintf safe_OID safe_check_OID safe_LDAPString safe_GeneralString safe_OctetString
  safe_ContextSimple safe_read_BOOLEAN safe_check_BOOLEAN safe_implicit_Integer safe_Integer safe_enumerated safe_check_enumerated : asn1_safe.

(** C37: on arbitrary bytes and whatever memory there is, every call of the reader returns:
    it reads inside the buffer, its offset never goes back or past the end, and its loops
    end.  A tag that is reported whole lies in the buffer. *)
Theorem asn1_reader_in_bounds A blob :
  Z.of_nat (length blob) < 2 ^ 63 ->
  (forall tag, exists r, asn1_full_tag A blob tag = Ret r /\ forall size, r = Some size -> 0 <= size <= Z.of_nat (length blob)) /\
  (forall d, inv d -> data d = blob ->
     (forall tag, exists b d', asn1_start_tag A tag d = Ret (b, d') /\ later d d') /\
     (exists b d', asn1_end_tag d = Ret (b, d') /\ later d d') /\
     (exists r d', asn1_tag_remaining d = Ret (r, d') /\ later d d') /\
     (exists r d', asn1_read_OID A d = Ret (r, d') /\ later d d') /\
     (exists r d', asn1_read_Integer A d = Ret (r, d') /\ later d d') /\
     (exists r d', asn1_read_enumerated A d = Ret (r, d') /\ later d d') /\
     (exists r d', asn1_read_OctetString A d = Ret (r, d') /\ later d d') /\
     (exists r d', asn1_read_GeneralString A d = Ret (r, d') /\ later d d') /\
     (forall num, exists r d', asn1_read_ContextSimple A num d = Ret (r, d') /\ later d d') /\
     (exists r d', asn1_read_BOOLEAN A d = Ret (r, d') /\ later d d') /\
     (forall n, exists r d', asn1_read n d = Ret (r, d') /\ later d d')).
Proof.
  intros Hl. split.
  - intros tag. unfold asn1_full_tag.
    match goal with |- context [obind (?m ?d) _] => assert (safe m) as Hm; [|destruct (Hm d) as (r & d' & E & _)] end.
    { apply safe_bind; [auto with asn1_safe|]. intros _. apply safe_bind; [apply safe_get|]. intros d. safe. }
    { split_and!; [done|cbn; lia|done]. }
    rewrite E. cbn [obind fst]. eexists. split; [done|]. intros size Hs. destruct r as [s|]; [|done].
    destruct (Z.ltb_spec (Z.of_nat (length blob)) (u64 s)); [done|]. injection Hs as ->.
    assert (- 2 ^ 31 <= size < 2 ^ 31) as Hr.
    { revert E. unfold bind, get, ret. destruct (asn1_start_tag A tag _) as [[b d1]|]; [|done]. cbn [obind fst snd id].
      destruct (has_error d1); [done|]. destruct (asn1_tag_remaining d1) as [[x d2]|]; [|done]. cbn [obind fst snd]. intros [= <- _].
      unfold s32. change (2 ^ 32) with 4294967296. change (2 ^ 31) with 2147483648. dlia. }
    unfold u64 in *. change (2 ^ 63) with 9223372036854775808 in *. change (2 ^ 31) with 2147483648 in *. change (2 ^ 64) with 18446744073709551616 in *.
    dlia.
  - intros d Hd _. split_and!; intros; revert d Hd; change (forall d, inv d -> exists b d', ?m d = Ret (b, d') /\ later d d') with (safe m); auto with asn1_safe.
Qed.

(** A length that the blob does not hold. *)
Lemma asn1_reader_in_bounds_witness :
  let blob := [0x30; 0x84; 0xff; 0xff; 0xff; 0xff; 0] in
  Z.of_nat (length blob) < 2 ^ 63 /\
  (exists r, asn1_full_tag calloc blob 0x30 = Ret r) /\
  (exists r d', asn1_read_OID calloc (Asn1Data blob false 3 [Nest 1 (2 ^ 64 - 1)] false 0) = Ret (r, d') /\ data d' = blob).
Proof.
  intros blob. assert (Z.of_nat (length blob) < 2 ^ 63) as Hl by by_eval. split; [done|].
  destruct (asn1_reader_in_bounds calloc blob Hl) as [Ht Hd]. split.
  - destruct (Ht 0x30) as (r & E & _). by exists r.
  - destruct (Hd (Asn1Data blob false 3 [Nest 1 (2 ^ 64 - 1)] false 0)) as (_ & _ & _ & (r & d' & E & _ & Ed & _) & _);
      [split_and!; [done|cbn; lia|by_eval]|done|]. by exists r, d'.
Defined.
