(* ===== verification/Spnego.v ===== *)
(** auth/gensec/spnego_parse.c: the tokens of SPNEGO (RFC 2478), read and written through
    the shared state of Asn1, and what the reader makes of a written token. *)

From stdpp Require Import strings.
From S2P Require Import Prelude Digest Byteorder Ntstatus Cnum DomSid CliCredentials Asn1 Asn1Codec.
Import Byteorder Asn1.
Import CliCredentials(cstr, Garbage, Null, Str).

#[local] Open Scope outcome_scope.
#[local] Open Scope asn1_scope.

Module Spnego.

Definition SPNEGO_REQ_FLAG : Z := 0x80.
Definition SPNEGO_ACCEPT_COMPLETED : Z := 0.
Definition SPNEGO_NONE_RESULT : Z := 3.
Definition SPNEGO_NEG_TOKEN_INIT : Z := 0.
Definition SPNEGO_NEG_TOKEN_TARG : Z := 1.

(** "1.3.6.1.5.5.2" *)
Definition GENSEC_OID_SPNEGO : list Z := DomSid.str "1 3 6 1 5 5 2".

(** [mechTypes] is the array before its terminating null, whose entries can be null too;
    a string that was not set points anywhere, and one that was is the bytes before the
    terminator of its buffer. *)
Record spnego_negTokenInit := NegTokenInit {
  mechTypes : option (list (option (list Z)));
  reqFlags : Z;
  mechToken : option (list Z);
  mechListMIC : option (list Z);
  targetPrincipal : cstr
}.

Record spnego_negTokenTarg := NegTokenTarg {
  negResult : Z;
  supportedMech : option (list Z);
  responseToken : option (list Z);
  targ_mechListMIC : option (list Z)
}.

Record spnego_data := SpnegoData {
  type : Z;
  negTokenInit : spnego_negTokenInit;
  negTokenTarg : spnego_negTokenTarg
}.

(** ZERO_STRUCTP *)
Definition zero_init : spnego_negTokenInit := NegTokenInit None 0 None None Null.
Definition zero_targ : spnego_negTokenTarg := NegTokenTarg 0 None None None.

Definition set_mechTypes x (t : spnego_negTokenInit) := NegTokenInit x (reqFlags t) (mechToken t) (mechListMIC t) (targetPrincipal t).
Definition set_reqFlags x (t : spnego_negTokenInit) := NegTokenInit (mechTypes t) x (mechToken t) (mechListMIC t) (targetPrincipal t).
Definition set_mechToken x (t : spnego_negTokenInit) := NegTokenInit (mechTypes t) (reqFlags t) x (mechListMIC t) (targetPrincipal t).
Definition set_mechListMIC x (t : spnego_negTokenInit) := NegTokenInit (mechTypes t) (reqFlags t) (mechToken t) x (targetPrincipal t).
Definition set_targetPrincipal x (t : spnego_negTokenInit) := NegTokenInit (mechTypes t) (reqFlags t) (mechToken t) (mechListMIC t) x.
Definition set_negResult x (t : spnego_negTokenTarg) := NegTokenTarg x (supportedMech t) (responseToken t) (targ_mechListMIC t).
Definition set_supportedMech x (t : spnego_negTokenTarg) := NegTokenTarg (negResult t) x (responseToken t) (targ_mechListMIC t).
Definition set_responseToken x (t : spnego_negTokenTarg) := NegTokenTarg (negResult t) (supportedMech t) x (targ_mechListMIC t).
Definition set_targ_mechListMIC x (t : spnego_negTokenTarg) := NegTokenTarg (negResult t) (supportedMech t) (responseToken t) x.

Section spnego.
Context (A : Allocator).

(** ** Reading *)

(** The identifiers up to the end of the tag.  [alive] says that the array exists; an
    entry that asn1_read_OID did not set is read all the same. *)
Fixpoint read_mechTypes (fuel : nat) (alive : bool) (oids : list (option (list Z))) : M (list (option (list Z))) :=
  match fuel with
  | O => fault
  | S fuel =>
      do m <- more;
      if negb m then if alive then ret oids else fault
      else
        do got <- alloc A;
        if negb got then fault
        else
          do r <- asn1_read_OID A;
          match r.2 with
          | None => fault
          | Some oid => read_mechTypes fuel true (oids ++ [oid])
          end
  end.

(** The array is allocated, then filled. *)
Definition read_mechTypes_array : M (list (option (list Z))) :=
  do got <- alloc A; do d <- get id; read_mechTypes (S (S (length (data d) - ofs d))) got [].

(** One round of the loop over the fields. *)
Definition read_init_field (token : spnego_negTokenInit) : M spnego_negTokenInit :=
  do c <- asn1_peek_uint8 (@uninit A);
  if negb c.1 then modify (set_error true);; ret token
  else if c.2 =? ASN1_CONTEXT 0 then
    asn1_start_tag A (ASN1_CONTEXT 0);;
    asn1_start_tag A (ASN1_SEQUENCE 0);;
    do oids <- read_mechTypes_array;
    asn1_end_tag;;
    asn1_end_tag;;
    ret (set_mechTypes (Some oids) token)
  else if c.2 =? ASN1_CONTEXT 1 then
    asn1_start_tag A (ASN1_CONTEXT 1);;
    do r <- asn1_read_Integer A;
    asn1_end_tag;;
    ret (set_reqFlags (Z.lor r.2 SPNEGO_REQ_FLAG) token)
  else if c.2 =? ASN1_CONTEXT 2 then
    asn1_start_tag A (ASN1_CONTEXT 2);;
    do r <- asn1_read_OctetString A;
    asn1_end_tag;;
    ret (set_mechToken r.2 token)
  else if c.2 =? ASN1_CONTEXT 3 then
    asn1_start_tag A (ASN1_CONTEXT 3);;
    do type_peek <- asn1_peek_uint8 (@uninit A);
    if negb type_peek.1 then modify (set_error true);; ret token
    else if type_peek.2 =? ASN1_OCTET_STRING then
      do r <- asn1_read_OctetString A;
      asn1_end_tag;;
      ret (set_mechListMIC r.2 token)
    else
      asn1_push_tag A (ASN1_SEQUENCE 0);;
      asn1_push_tag A (ASN1_CONTEXT 0);;
      do r <- asn1_read_GeneralString A;
      asn1_pop_tag A;;
      asn1_pop_tag A;;
      asn1_end_tag;;
      ret (set_targetPrincipal (match r.2 with None => Garbage | Some None => Null | Some (Some s) => Str s end) token)
  else modify (set_error true);; ret token.

(** The loop over the fields, up to the end of the tag: each round moves on or sets the
    error, so what is left of the buffer bounds it. *)
Fixpoint read_fields {T} (field : T -> M T) (fuel : nat) (token : T) : M T :=
  match fuel with
  | O => fault
  | S fuel =>
      do m <- more;
      if negb m then ret token else do token <- field token; read_fields field fuel token
  end.
Definition read_all_fields {T} (field : T -> M T) (zero : T) : M T :=
  do d <- get id; read_fields field (S (S (length (data d) - ofs d))) zero.

Definition read_negTokenInit : M (bool * spnego_negTokenInit) :=
  asn1_start_tag A (ASN1_CONTEXT 0);;
  asn1_start_tag A (ASN1_SEQUENCE 0);;
  do token <- read_all_fields read_init_field zero_init;
  asn1_end_tag;;
  asn1_end_tag;;
  do good <- ok; ret (good, token).

Definition read_targ_field (token : spnego_negTokenTarg) : M spnego_negTokenTarg :=
  do c <- asn1_peek_uint8 (@uninit A);
  if negb c.1 then modify (set_error true);; ret token
  else if c.2 =? ASN1_CONTEXT 0 then
    asn1_start_tag A (ASN1_CONTEXT 0);;
    asn1_start_tag A ASN1_ENUMERATED;;
    do r <- asn1_read_uint8 (negResult token);
    asn1_end_tag;;
    asn1_end_tag;;
    ret (set_negResult r.2 token)
  else if c.2 =? ASN1_CONTEXT 1 then
    asn1_start_tag A (ASN1_CONTEXT 1);;
    do r <- asn1_read_OID A;
    asn1_end_tag;;
    ret (set_supportedMech (default (supportedMech token) r.2) token)
  else if c.2 =? ASN1_CONTEXT 2 then
    asn1_start_tag A (ASN1_CONTEXT 2);;
    do r <- asn1_read_OctetString A;
    asn1_end_tag;;
    ret (set_responseToken r.2 token)
  else if c.2 =? ASN1_CONTEXT 3 then
    asn1_start_tag A (ASN1_CONTEXT 3);;
    do r <- asn1_read_OctetString A;
    asn1_end_tag;;
    ret (set_targ_mechListMIC r.2 token)
  else modify (set_error true);; ret token.

Definition read_negTokenTarg : M (bool * spnego_negTokenTarg) :=
  asn1_start_tag A (ASN1_CONTEXT 1);;
  asn1_start_tag A (ASN1_SEQUENCE 0);;
  do token <- read_all_fields read_targ_field zero_targ;
  asn1_end_tag;;
  asn1_end_tag;;
  do good <- ok; ret (good, token).

(** The token that the first byte announces. *)
Definition read_token : M spnego_data :=
  let zero := SpnegoData 0 zero_init zero_targ in
  do c <- asn1_peek_uint8 (@uninit A);
  if negb c.1 then modify (set_error true);; ret zero
  else if c.2 =? ASN1_APPLICATION 0 then
    asn1_start_tag A (ASN1_APPLICATION 0);;
    asn1_check_OID A GENSEC_OID_SPNEGO;;
    do r <- read_negTokenInit;
    asn1_end_tag;;
    ret (SpnegoData (if r.1 then SPNEGO_NEG_TOKEN_INIT else 0) r.2 zero_targ)
  else if c.2 =? ASN1_CONTEXT 1 then
    do r <- read_negTokenTarg;
    ret (SpnegoData (if r.1 then SPNEGO_NEG_TOKEN_TARG else 0) zero_init r.2)
  else modify (set_error true);; ret zero.

(** Where the token ends, or -1. *)
Definition spnego_read_data (blob : list Z) : outcome (Z * spnego_data) :=
  if decide (length blob = 0%nat) then Ret (-1, SpnegoData 0 zero_init zero_targ)
  else
    let* r := (asn1_load A blob;;
               do token <- read_token;
               do d <- get id;
               ret (if has_error d then -1 else Z.of_nat (ofs d), token)) empty_data in
    Ret r.1.

(** ** Writing *)

(** Pushing a tag, its contents, and popping it. *)
Definition in_tag (tag : Z) (m : M bool) : M bool := asn1_push_tag A tag;; m;; asn1_pop_tag A.

Fixpoint write_mechTypes (oids : list (option (list Z))) : M bool :=
  match oids with
  | Some oid :: oids => asn1_write_OID A oid;; write_mechTypes oids
  | _ => ret true
  end.

Definition write_negTokenInit (token : spnego_negTokenInit) : M bool :=
  in_tag (ASN1_CONTEXT 0) (in_tag (ASN1_SEQUENCE 0)
    ((match mechTypes token with
      | Some (Some oid :: oids) => in_tag (ASN1_CONTEXT 0) (in_tag (ASN1_SEQUENCE 0) (write_mechTypes (Some oid :: oids)))
      | _ => ret true
      end);;
     (if negb (Z.land (reqFlags token) SPNEGO_REQ_FLAG =? 0)
      then in_tag (ASN1_CONTEXT 1) (asn1_write_Integer A (Z.land (reqFlags token) (Z.lnot SPNEGO_REQ_FLAG)))
      else ret true);;
     (match mechToken token with Some p => in_tag (ASN1_CONTEXT 2) (asn1_write_OctetString A p) | None => ret true end);;
     (match mechListMIC token with
      | Some p => in_tag (ASN1_CONTEXT 3) (in_tag (ASN1_SEQUENCE 0) (in_tag (ASN1_CONTEXT 0) (in_tag ASN1_GENERAL_STRING (asn1_write A p))))
      | None => ret true
      end)));;
  ok.

Definition write_negTokenTarg (token : spnego_negTokenTarg) : M bool :=
  in_tag (ASN1_CONTEXT 1) (in_tag (ASN1_SEQUENCE 0)
    ((if negb (negResult token =? SPNEGO_NONE_RESULT) then in_tag (ASN1_CONTEXT 0) (asn1_write_enumerated A (negResult token)) else ret true);;
     (match supportedMech token with Some oid => in_tag (ASN1_CONTEXT 1) (asn1_write_OID A oid) | None => ret true end);;
     (match responseToken token with Some p => in_tag (ASN1_CONTEXT 2) (asn1_write_OctetString A p) | None => ret true end);;
     (match targ_mechListMIC token with Some p => in_tag (ASN1_CONTEXT 3) (asn1_write_OctetString A p) | None => ret true end)));;
  ok.

(** The length, or -1, and what the blob is set to: its bytes, or null. *)
Definition spnego_write_data (spnego : spnego_data) : outcome (Z * option (option (list Z))) :=
  let* r := ((if type spnego =? SPNEGO_NEG_TOKEN_INIT then
                in_tag (ASN1_APPLICATION 0) (asn1_write_OID A GENSEC_OID_SPNEGO;; write_negTokenInit (negTokenInit spnego))
              else if type spnego =? SPNEGO_NEG_TOKEN_TARG then write_negTokenTarg (negTokenTarg spnego)
              else modify (set_error true);; ret false);;
             do d <- get id;
             if has_error d then ret (-1, None)
             else do got <- alloc A; ret (Z.of_nat (ofs d), Some (if (got : bool) then Some (data d) else None))) empty_data in
  Ret r.1.
End spnego.
End Spnego.

Import Spnego.

(** ** The encoding *)

(** An identifier by its components. *)
Record oid := Oid { first : Z; second : Z; others : list Z }.
Definition oid_str (o : oid) : list Z := oid_text (first o) (second o) (others o).
Definition oid_tlv (o : oid) : list Z := tlv 0x6 (oid_bytes (first o) (second o) (others o)).
Definition valid (o : oid) : Prop := oid_valid (first o) (second o) (others o).
Definition spnego_oid : oid := Oid 1 3 [6; 1; 5; 5; 2].

(** An optional field. *)
Definition field {T} (f : T -> list Z) (x : option T) : list Z := match x with Some p => f p | None => [] end.

Definition mech_bytes (oids : list oid) : list Z :=
  if decide (oids = []) then [] else tlv 0xa0 (tlv 0x30 (concat (map oid_tlv oids))).
Definition flag_bytes (flags : Z) : list Z :=
  if Z.land flags 0x80 =? 0 then [] else tlv 0xa1 (tlv 0x2 (der_int (Z.land flags (Z.lnot 0x80)))).
Definition octets (ctx : Z) (p : list Z) : list Z := tlv ctx (tlv 0x4 p).
Definition mic_bytes (p : list Z) : list Z := tlv 0xa3 (tlv 0x30 (tlv 0xa0 (tlv 0x1b p))).

(** A NegTokenInit of RFC 2478, but for the form of its mechListMIC. *)
Definition init_bytes (oids : list oid) (flags : Z) (tok mic : option (list Z)) : list Z :=
  tlv 0x60 (oid_tlv spnego_oid ++
    tlv 0xa0 (tlv 0x30 (mech_bytes oids ++ flag_bytes flags ++ field (octets 0xa2) tok ++ field mic_bytes mic))).

(** A NegTokenTarg. *)
Definition targ_bytes (result : Z) (mech : option oid) (response mic : option (list Z)) : list Z :=
  tlv 0xa1 (tlv 0x30 ((if result =? 3 then [] else tlv 0xa0 (tlv 0xa [u8 result])) ++ field (fun o => tlv 0xa1 (oid_tlv o)) mech ++
    field (octets 0xa2) response ++ field (octets 0xa3) mic)).

(** The strings of an array, up to its null. *)
Fixpoint mech_list (l : list (option (list Z))) : list (list Z) :=
  match l with Some o :: l => o :: mech_list l | _ => [] end.

Lemma tlv_short tag e : 0 <= tag < 256 -> (length e < 128)%nat -> tlv tag e = tag :: Z.of_nat (length e) :: e.
Proof.
  intros Ht Hl. unfold tlv, der_length. rewrite u8_id by done.
  assert ((0xFFFF <? Z.of_nat (length e)) = false) as -> by lia. assert ((255 <? Z.of_nat (length e)) = false) as -> by lia.
  assert ((127 <? Z.of_nat (length e)) = false) as -> by lia. by rewrite u8_id by (unfold is_u; lia).
Qed.

Lemma length_tlv_le tag e : (length (tlv tag e) <= length e + 5)%nat.
Proof. unfold tlv, der_length. cbn [length]. rewrite length_app. repeat case_match; cbn [length]; lia. Qed.

Lemma land_bit7 f : 0 <= f -> Z.land f 0x80 = 0 \/ Z.land f 0x80 = 0x80.
Proof.
  intros Hf. assert (Z.land f 0x80 = Z.land (f mod 256) 0x80) as ->
    by (change (f mod 256) with (f mod 2 ^ 8); rewrite <- Z.land_ones, <- Z.land_assoc by lia; done).
  assert (0 <= f mod 256 < 256) as Hm by dlia. revert Hm. generalize (f mod 256). intros m Hm.
  assert ((Z.land m 0x80 =? 0) || (Z.land m 0x80 =? 0x80) = true) as E; [|lia].
  by apply (below 256 (fun m => (Z.land m 0x80 =? 0) || (Z.land m 0x80 =? 0x80))).
Qed.

(** The flags without the bit that says that they are there, and with it. *)
Lemma flags_apart f :
  0 <= f -> Z.land f (Z.lnot 0x80) = f - Z.land f 0x80 /\ 0 <= Z.land f (Z.lnot 0x80) /\ Z.lor (Z.land f (Z.lnot 0x80)) (Z.land f 0x80) = f.
Proof.
  intros Hf. rewrite <- Z.ldiff_land. pose proof (Z.lor_ldiff_and f 0x80) as E. split_and!; [|apply Z.ldiff_nonneg; lia|done].
  pose proof (Z.add_lor_land (Z.ldiff f 0x80) (Z.land f 0x80)) as E2. rewrite E in E2.
  assert (Z.land (Z.ldiff f 0x80) (Z.land f 0x80) = 0) as E3; [|lia].
  apply Z.bits_inj'. intros i Hi. rewrite Z.land_spec, Z.ldiff_spec, Z.land_spec, Z.bits_0. by destruct (Z.testbit f i), (Z.testbit 0x80 i).
Qed.

(** *** Written *)

Section writer.
Context (A : Allocator) (mem : malloc_always A).

Lemma emits_in_tag tag m e : Z.of_nat (length e) < 2 ^ 24 -> emits m e -> emits (in_tag A tag m) (tlv tag e).
Proof. intros Hl H. by apply emits_tag. Qed.

Lemma emits_field {T} (f : T -> list Z) (w : T -> M bool) x :
  (forall p, x = Some p -> emits (w p) (f p)) -> emits (match x with Some p => w p | None => ret true end) (field f x).
Proof. intros H. destruct x; [by apply H|apply emits_ret]. Qed.

Lemma length_oid_tlv o : (length (oid_bytes (first o) (second o) (others o)) < length (oid_tlv o))%nat.
Proof. unfold oid_tlv. pose proof (length_tlv 0x6 (oid_bytes (first o) (second o) (others o))). lia. Qed.

Lemma emits_mechs l oids :
  Forall valid oids -> mech_list l = map oid_str oids -> emits (write_mechTypes A l) (concat (map oid_tlv oids)).
Proof.
  intros Hv. revert l. induction Hv as [|o oids Ho Hv IH]; intros l El.
  - destruct l as [|[x|] l]; [apply emits_ret|done|apply emits_ret].
  - destruct l as [|[x|] l]; [done| |done]. injection El as -> El. cbn [write_mechTypes map concat].
    apply emits_bind; [by apply emits_oid|by apply IH].
Qed.

Lemma emits_mech_bytes m oids :
  Forall valid oids -> mech_list (default [] m) = map oid_str oids -> Z.of_nat (length (mech_bytes oids)) < 2 ^ 24 ->
  emits (match m with
         | Some (Some o :: l) => in_tag A (ASN1_CONTEXT 0) (in_tag A (ASN1_SEQUENCE 0) (write_mechTypes A (Some o :: l)))
         | _ => ret true
         end) (mech_bytes oids).
Proof.
  intros Hv El Hl. unfold mech_bytes in *. destruct (decide (oids = [])) as [->|Hne].
  - destruct m as [[|[o|] l]|]; [apply emits_ret|done|apply emits_ret|apply emits_ret].
  - destruct m as [[|[o|] l]|]; [|..]; try (by destruct oids).
    pose proof (length_tlv 0xa0 (tlv 0x30 (concat (map oid_tlv oids)))). pose proof (length_tlv 0x30 (concat (map oid_tlv oids))).
    apply emits_in_tag; [lia|]. apply emits_in_tag; [lia|]. by apply emits_mechs.
Qed.

Lemma emits_octets_field ctx p : Z.of_nat (length (octets ctx p)) < 2 ^ 24 -> emits (in_tag A ctx (asn1_write_OctetString A p)) (octets ctx p).
Proof.
  intros Hl. unfold octets in *. pose proof (length_tlv ctx (tlv 0x4 p)). pose proof (length_tlv 0x4 p).
  apply emits_in_tag; [lia|]. apply emits_octets; [done|lia].
Qed.

Lemma emits_mic p :
  Z.of_nat (length (mic_bytes p)) < 2 ^ 24 ->
  emits (in_tag A (ASN1_CONTEXT 3) (in_tag A (ASN1_SEQUENCE 0) (in_tag A (ASN1_CONTEXT 0) (in_tag A ASN1_GENERAL_STRING (asn1_write A p)))))
    (mic_bytes p).
Proof.
  intros Hl. unfold mic_bytes in *. pose proof (length_tlv 0xa3 (tlv 0x30 (tlv 0xa0 (tlv 0x1b p)))).
  pose proof (length_tlv 0x30 (tlv 0xa0 (tlv 0x1b p))). pose proof (length_tlv 0xa0 (tlv 0x1b p)). pose proof (length_tlv 0x1b p).
  do 4 (apply emits_in_tag; [lia|]). by apply emits_write.
Qed.

Lemma emits_init t oids :
  Forall valid oids -> mech_list (default [] (mechTypes t)) = map oid_str oids -> 0 <= reqFlags t < 2 ^ 31 ->
  Z.of_nat (length (init_bytes oids (reqFlags t) (mechToken t) (mechListMIC t))) < 2 ^ 24 ->
  emits (in_tag A (ASN1_APPLICATION 0) (asn1_write_OID A GENSEC_OID_SPNEGO;; write_negTokenInit A t))
    (init_bytes oids (reqFlags t) (mechToken t) (mechListMIC t)).
Proof.
  intros Hv El Hf Hl. unfold init_bytes in *.
  match type of Hl with context [tlv 0x60 ?e] => pose proof (length_tlv 0x60 e) as L1 end. rewrite length_app in L1.
  match type of L1 with context [tlv 0xa0 ?e] => pose proof (length_tlv 0xa0 e) as L2 end.
  match type of L2 with context [tlv 0x30 ?e] => pose proof (length_tlv 0x30 e) as L3 end. rewrite !length_app in L3.
  apply emits_in_tag; [rewrite length_app; lia|]. apply emits_bind.
  { change GENSEC_OID_SPNEGO with (oid_str spnego_oid). apply emits_oid; [done|]. by_eval. }
  apply emits_ok. apply emits_in_tag; [lia|]. apply emits_in_tag; [rewrite !length_app; lia|].
  apply emits_bind; [apply emits_mech_bytes; [done|done|lia]|].
  apply emits_bind; [|apply emits_bind].
  - unfold flag_bytes in *. change SPNEGO_REQ_FLAG with 0x80. destruct (Z.land (reqFlags t) 0x80 =? 0); cbn [negb]; [apply emits_ret|].
    match type of L3 with context [tlv 0xa1 ?e] => pose proof (length_tlv 0xa1 e) end. apply emits_in_tag; [lia|].
    apply emits_integer; [done|]. destruct (flags_apart (reqFlags t)) as (E & ? & _); [lia|]. destruct (land_bit7 (reqFlags t)); lia.
  - apply (emits_field (octets 0xa2)). intros p E. rewrite E in *. apply emits_octets_field. cbn [field] in *. lia.
  - apply (emits_field mic_bytes). intros p E. rewrite E in *. apply emits_mic. cbn [field] in *. lia.
Qed.

Lemma emits_targ t mech :
  supportedMech t = oid_str <$> mech -> (forall o, mech = Some o -> valid o) ->
  Z.of_nat (length (targ_bytes (negResult t) mech (responseToken t) (targ_mechListMIC t))) < 2 ^ 24 ->
  emits (write_negTokenTarg A t) (targ_bytes (negResult t) mech (responseToken t) (targ_mechListMIC t)).
Proof.
  intros Em Hv Hl. unfold targ_bytes in *.
  match type of Hl with context [tlv 0xa1 (tlv 0x30 ?e)] => pose proof (length_tlv 0xa1 (tlv 0x30 e)); pose proof (length_tlv 0x30 e) as L end.
  rewrite !length_app in L. apply emits_ok. apply emits_in_tag; [lia|]. apply emits_in_tag; [rewrite !length_app; lia|].
  apply emits_bind; [|apply emits_bind; [|apply emits_bind]].
  - change SPNEGO_NONE_RESULT with 3. destruct (negResult t =? 3); cbn [negb]; [apply emits_ret|].
    apply emits_in_tag; [by vm_compute|]. by apply emits_enumerated.
  - rewrite Em. destruct mech as [o|]; cbn [fmap option_fmap option_map field] in *; [|apply emits_ret].
    pose proof (length_tlv 0xa1 (oid_tlv o)). apply emits_in_tag; [lia|]. by apply emits_oid, Hv.
  - apply (emits_field (octets 0xa2)). intros p E. rewrite E in *. apply emits_octets_field. cbn [field] in *. lia.
  - apply (emits_field (octets 0xa3)). intros p E. rewrite E in *. apply emits_octets_field. cbn [field] in *. lia.
Qed.
End writer.

(** *** Read *)

Section reader.
Context (A : Allocator) (mem : malloc_always A).

(** The loop over the fields: whatever is in the tag is taken field by field. *)
Definition fields_parse {T} (f : T -> M T) (t : T) (e : list Z) (t' : T) : Prop :=
  forall fuel, (length e < fuel)%nat -> parses_in 0 (read_fields f fuel t) e t'.

Lemma fields_nil {T} (f : T -> M T) t : fields_parse f t [] t.
Proof.
  intros [|fuel] Hf; [lia|]. intros d rest Hr Hi _. exists (allocs d). cbn [read_fields]. step (more_ok _ _ _ Hr Hi).
  cbn. by rewrite (moved_0 _ _ _ Hr).
Qed.

Lemma fields_cons {T} (f : T -> M T) t e1 t1 e2 t2 :
  e1 <> [] -> parses (f t) e1 t1 -> fields_parse f t1 e2 t2 -> fields_parse f t (e1 ++ e2) t2.
Proof.
  intros Hne H1 H2 [|fuel] Hf; [lia|]. intros d rest Hr Hi Hk. rewrite Nat.add_0_r in Hi. cbn [read_fields]. step (more_ok _ _ _ Hr Hi).
  rewrite length_app in *. assert (0 < length e1)%nat by (destruct e1; [done|cbn; lia]).
  assert ((0 <? Z.of_nat (length e1 + length e2)) = true) as -> by (apply Z.ltb_lt; lia). cbn [negb].
  destruct (H1 d (e2 ++ rest)) as [n1 E1]; [by apply reading_rest|]. step E1.
  destruct (H2 fuel ltac:(lia) (moved d (length e1) n1) rest) as [n2 E2]; [by apply reading_moved|apply inside_moved; by rewrite Nat.add_0_r|done|].
  exists n2. by rewrite E2, moved_moved.
Qed.

Lemma fields_field {T U} (f : T -> M T) (b : U -> list Z) (x : option U) t t1 e2 t2 :
  (forall p, x = Some p -> b p <> [] /\ parses (f t) (b p) (t1 (Some p))) -> t1 None = t ->
  fields_parse f (t1 x) e2 t2 -> fields_parse f t (field b x ++ e2) t2.
Proof.
  intros H1 E H2. destruct x as [p|]; cbn [field].
  - destruct (H1 p eq_refl) as [Hne Hp]. by apply (fields_cons _ _ _ (t1 (Some p))).
  - by rewrite <- E.
Qed.

Lemma all_fields_parse {T} (f : T -> M T) t e t' : fields_parse f t e t' -> parses_in 0 (read_all_fields f t) e t'.
Proof.
  intros H d rest Hr Hi Hk. pose proof (reading_length _ _ _ Hr). unfold read_all_fields. step (eq_refl (Ret (d, d))).
  exact (H (S (S (length (data d) - ofs d))) ltac:(lia) d rest Hr Hi Hk).
Qed.

(** The tag of the field is looked at first. *)
Lemma parses_peek {B} (f : bool * Z -> M B) b e (a : B) : parses (f (true, b)) (b :: e) a -> parses (do c <- asn1_peek_uint8 (@uninit A); f c) (b :: e) a.
Proof. intros H d rest Hr. destruct (H d rest Hr) as [n E]. exists n. by step (peek_uint8_ok (@uninit A) _ _ _ _ Hr). Qed.

Ltac pick :=
  cbn beta iota delta [negb fst snd];
  repeat match goal with |- context [?a =? ?b] => let v := eval vm_compute in (a =? b) in lazymatch v with true => idtac | false => idtac end; change (a =? b) with v end; cbn iota.

Lemma tlv_cons tag e : 0 <= tag < 256 -> tlv tag e = tag :: der_length (Z.of_nat (length e)) ++ e.
Proof. intros Ht. unfold tlv. by rewrite u8_id. Qed.

Lemma parses_flags t i :
  - 2 ^ 31 <= i < 2 ^ 31 -> parses (read_init_field A t) (tlv 0xa1 (tlv 0x2 (der_int i))) (set_reqFlags (Z.lor (unsigned i) 0x80) t).
Proof.
  intros Hi. assert (Z.of_nat (length (der_int i)) < 2 ^ 20) as Hl by (unfold der_int; rewrite length_be; pose proof (int_size_le i Hi); lia).
  rewrite tlv_cons by lia. apply parses_peek. rewrite <- tlv_cons by lia. pick.
  apply (parses_one_tag A mem _ _ _ _ (true, unsigned i)); [done|pose proof (length_tlv_le 0x2 (der_int i)); lia|apply parses_weaken|done].
  rewrite <- int_in_der by done. apply parses_integer_bytes; [done|lia].
Qed.

Lemma parses_token t p : Z.of_nat (length (octets 0xa2 p)) < 2 ^ 24 -> parses (read_init_field A t) (octets 0xa2 p) (set_mechToken (Some p) t).
Proof.
  intros Hl. unfold octets in *. pose proof (length_tlv 0xa2 (tlv 0x4 p)). pose proof (length_tlv 0x4 p).
  rewrite tlv_cons by lia. apply parses_peek. rewrite <- tlv_cons by lia. pick.
  apply (parses_one_tag A mem _ _ _ _ (true, Some p)); [done|lia|apply parses_weaken|done]. apply parses_octets; [done|lia].
Qed.

Lemma mechs_parse oids acc fuel :
  Forall valid oids -> (length (concat (map oid_tlv oids)) < fuel)%nat ->
  parses_in 0 (read_mechTypes A fuel true acc) (concat (map oid_tlv oids)) (acc ++ map (fun o => Some (oid_str o)) oids).
Proof.
  intros Hv. revert acc fuel. induction Hv as [|o oids Ho Hv IH]; intros acc [|fuel] Hf; try (cbn in Hf; lia); intros d rest Hr Hi Hk;
    rewrite Nat.add_0_r in Hi; cbn [read_mechTypes]; step (more_ok _ _ _ Hr Hi).
  - exists (allocs d). cbn. by rewrite (moved_0 _ _ _ Hr), app_nil_r.
  - cbn [map concat] in *. rewrite length_app in *. pose proof (length_oid_tlv o).
    assert ((0 <? Z.of_nat (length (oid_tlv o) + length (concat (map oid_tlv oids)))) = true) as -> by (apply Z.ltb_lt; lia). cbn [negb].
    rewrite (step_alloc A mem). cbn [negb].
    destruct (parses_oid A mem (first o) (second o) (others o) Ho (count d) (concat (map oid_tlv oids) ++ rest)) as [n E]; [by apply (reading_rest d)|].
    step E. cbn [fst snd]. fold (oid_tlv o) in E |- *.
    destruct (IH (acc ++ [Some (oid_str o)]) fuel ltac:(lia) (moved (count d) (length (oid_tlv o)) n) rest) as [n' E'];
      [by apply (reading_moved d)|apply (inside_moved d); by rewrite Nat.add_0_r|done|].
    exists n'. unfold oid_str in E' at 1. rewrite E', moved_moved, <- app_assoc. done.
Qed.

Lemma parses_mechs t oids :
  Forall valid oids -> oids <> [] -> Z.of_nat (length (mech_bytes oids)) < 2 ^ 24 ->
  parses (read_init_field A t) (mech_bytes oids) (set_mechTypes (Some (map (fun o => Some (oid_str o)) oids)) t).
Proof.
  intros Hv Hne Hl. unfold mech_bytes in *. rewrite decide_False in Hl |- * by done.
  pose proof (length_tlv 0xa0 (tlv 0x30 (concat (map oid_tlv oids)))).
  rewrite tlv_cons by lia. apply parses_peek. rewrite <- tlv_cons by lia. pick.
  apply (parses_two_tags A mem 0xa0 0x30 _ _ _ (map (fun o => Some (oid_str o)) oids)); [done|done|lia| |done].
  intros d rest Hr Hi Hk. unfold read_mechTypes_array. rewrite (step_alloc A mem). step (eq_refl (Ret (count d, count d))).
  pose proof (reading_length _ _ _ Hr).
  exact (mechs_parse oids [] (S (S (length (data d) - ofs d))) Hv ltac:(lia) (count d) rest Hr Hi Hk).
Qed.

(** *** The form of Windows 2000, read in place *)

Lemma write_over b x e d rest :
  reading d (x :: e) rest ->
  asn1_write_uint8 A b d = Ret (true, set_ofs (ofs d + 1) (set_data (<[ofs d := u8 b]> (data d)) d)).
Proof.
  intros Hr. pose proof (reading_length _ _ _ Hr) as Hl. cbn [length] in Hl. destruct Hr as (He & Hg & Ho & _ & Hb).
  change (2 ^ 31) with 2147483648 in Hb.
  unfold asn1_write_uint8, asn1_write, bind, get, ret. cbn [obind fst snd length]. rewrite He. change (s32 (Z.of_nat 1)) with 1.
  assert ((Z.of_nat (length (data d)) <? u64 (Z.of_nat (ofs d) + 1)) = false) as -> by (rewrite u64_id by (unfold is_u; lia); lia).
  cbn [obind fst snd]. change (1 <? 0) with false. cbv iota. unfold copy_in. rewrite Hg. cbn [length orb].
  rewrite bool_decide_eq_false_2 by lia. cbn [obind fst snd]. do 3 f_equal. unfold splice. cbn [length app].
  rewrite insert_take_drop by lia. by rewrite Nat.add_1_r.
Qed.

Lemma pop_over s k next d :
  gone d = false -> nesting d = Nest s k :: next -> (s < length (data d))%nat -> (s + 1 <= ofs d <= s + 128)%nat ->
  asn1_pop_tag A d = Ret (true, set_nesting next (set_data (<[s := Z.of_nat (ofs d - (s + 1))]> (data d)) d)).
Proof.
  intros Hg Hn Hs Ho. unfold asn1_pop_tag. step (eq_refl (Ret (nesting d, d))). rewrite Hn. cbn iota. cbn [start].
  step (eq_refl (Ret (ofs d, d))).
  assert (u64 (Z.of_nat (ofs d) - (Z.of_nat s + 1)) = Z.of_nat (ofs d - (s + 1))) as -> by (rewrite u64_id by (unfold is_u; lia); lia).
  set (len := Z.of_nat (ofs d - (s + 1))). assert (0 <= len <= 127) as Hlen by lia.
  assert ((0xFFFF <? len) = false) as -> by lia. assert ((255 <? len) = false) as -> by lia. assert ((127 <? len) = false) as -> by lia.
  unfold put, bind, modify, ret. rewrite Hg, bool_decide_eq_false_2 by lia. cbn [orb obind fst snd].
  rewrite u8_id by (unfold is_u; lia). done.
Qed.

(** Pushing a tag over itself spoils its length. *)
Lemma push_over tag l e d rest :
  is_byte tag -> reading d (tag :: l :: e) rest ->
  exists n, asn1_push_tag A tag d =
    Ret (true, Asn1Data (<[S (ofs d) := 0xff]> (data d)) false (ofs d + 2) (Nest (ofs d + 1) (@uninit A) :: nesting d) false n) /\
    data d !! S (ofs d) = Some l.
Proof.
  intros Ht Hr. unfold asn1_push_tag. step (write_over tag tag (l :: e) d rest Hr). rewrite u8_id by done.
  assert (data d !! ofs d = Some tag) as E0 by (destruct Hr as (_ & _ & _ & E & _); rewrite <- (Nat.add_0_r (ofs d)), <- lookup_drop, E; done).
  assert (data d !! S (ofs d) = Some l) as E1 by (destruct Hr as (_ & _ & _ & E & _); rewrite <- (Nat.add_1_r (ofs d)), <- lookup_drop, E; done).
  rewrite list_insert_id by done. rewrite (step_alloc A mem). cbn [negb].
  pose proof (reading_moved d [tag] (l :: e) rest (S (allocs d)) Hr) as Hr1. unfold bind at 1, modify. cbn [obind fst snd].
  destruct Hr as (He & Hg & Hr). set (d1 := set_nesting _ _).
  assert (reading d1 (l :: e) rest) as Hr2 by (destruct Hr1 as (_ & _ & Hr1); split_and!; [done|done|..]; apply Hr1).
  rewrite (write_over 0xff l e d1 rest Hr2). change (u8 0xff) with 0xff. exists (S (allocs d)). split; [|done].
  unfold d1, set_ofs, set_data, set_nesting, count. cbn. rewrite He, Hg, Nat.add_1_r. do 3 f_equal. lia.
Qed.

Lemma w2k_ok {B} (k : bool * option (option (list Z)) -> M B) p d rest :
  (length p <= 123)%nat -> reading d (tlv 0x30 (tlv 0xa0 (tlv 0x1b p))) rest ->
  exists n, (asn1_push_tag A 0x30;; asn1_push_tag A 0xa0;; do r <- asn1_read_GeneralString A; asn1_pop_tag A;; asn1_pop_tag A;; k r) d =
    k (true, Some (Some p)) (moved d (length (tlv 0x30 (tlv 0xa0 (tlv 0x1b p)))) n).
Proof.
  intros Hp Hr. pose proof (reading_length _ _ _ Hr) as Hl.
  assert (tlv 0x1b p = 0x1b :: Z.of_nat (length p) :: p) as E1 by (by rewrite tlv_short by lia).
  assert (tlv 0xa0 (tlv 0x1b p) = 0xa0 :: Z.of_nat (length p + 2) :: tlv 0x1b p) as E2
    by (rewrite tlv_short by (rewrite ?E1; cbn [length]; lia); rewrite E1; cbn [length]; do 2 f_equal; lia).
  assert (tlv 0x30 (tlv 0xa0 (tlv 0x1b p)) = 0x30 :: Z.of_nat (length p + 4) :: tlv 0xa0 (tlv 0x1b p)) as E3
    by (rewrite tlv_short by (rewrite ?E2, ?E1; cbn [length]; lia); rewrite E2, E1; cbn [length]; do 2 f_equal; lia).
  assert (length (tlv 0x30 (tlv 0xa0 (tlv 0x1b p))) = length p + 6)%nat as E4 by (rewrite E3, E2, E1; cbn [length]; lia).
  rewrite E4 in *. rewrite E3 in Hr.
  destruct (push_over 0x30 _ _ d rest ltac:(by_eval) Hr) as (n1 & P1 & L1). step P1.
  pose proof Hr as (He & Hg & Ho & Ed & Hb).
  set (d1 := Asn1Data _ _ _ _ _ n1). assert (reading d1 (tlv 0xa0 (tlv 0x1b p)) rest) as Hr1.
  { split_and!; [done|done|cbn; rewrite length_insert; lia| |cbn; by rewrite length_insert]. cbn.
    rewrite drop_insert_lt by lia. by rewrite <- drop_drop, Ed. }
  rewrite E2 in Hr1. destruct (push_over 0xa0 _ _ d1 rest ltac:(by_eval) Hr1) as (n2 & P2 & L2). step P2.
  pose proof Hr1 as (_ & _ & Ho1 & Ed1 & _).
  set (d2 := Asn1Data _ _ _ _ _ n2). assert (reading d2 (tlv 0x1b p) rest) as Hr2.
  { split_and!; [done|done|cbn [d2 data ofs]; rewrite length_insert; cbn in *; rewrite length_insert; lia| |cbn; by rewrite !length_insert].
    cbn [d2 data ofs]. rewrite drop_insert_lt by lia. by rewrite <- drop_drop, Ed1. }
  destruct (parses_general_string A mem p ltac:(lia) d2 rest Hr2) as [n3 E]. step E.
  rewrite E1. cbn [length].
  set (d3 := moved d2 (S (S (length p))) n3).
  assert (asn1_pop_tag A d3 = Ret (true, set_nesting (nesting d1) (set_data (<[(ofs d + 2 + 1)%nat := Z.of_nat (length p + 2)]> (data d2)) d3))) as Q1.
  { rewrite (pop_over (ofs d + 2 + 1) (@uninit A) (nesting d1) d3); [|done|done|cbn; rewrite !length_insert; lia|cbn; lia].
    do 4 f_equal. cbn. f_equal. lia. }
  step Q1. set (d4 := set_nesting _ _).
  assert (asn1_pop_tag A d4 = Ret (true, set_nesting (nesting d) (set_data (<[(ofs d + 1)%nat := Z.of_nat (length p + 4)]> (data d4)) d4))) as Q2.
  { rewrite (pop_over (ofs d + 1) (@uninit A) (nesting d) d4); [|done|done|cbn; rewrite !length_insert; lia|cbn; lia].
    do 4 f_equal. cbn. f_equal. lia. }
  step Q2. exists n3. f_equal. unfold d4, d3, d2, d1, moved, set_nesting, set_data. cbn [data ofs nesting gone has_error allocs].
  f_equal; [|lia]. cbn [d1 data ofs] in L2.
  replace (S (ofs d)) with (ofs d + 1)%nat in * by lia. replace (S (ofs d + 2)) with (ofs d + 2 + 1)%nat in * by lia.
  rewrite list_insert_insert_eq. rewrite (list_insert_id _ (ofs d + 2 + 1)) by done.
  rewrite list_insert_insert_eq. by apply list_insert_id.
Qed.

Lemma parses_mic t p : (length p <= 123)%nat -> parses (read_init_field A t) (mic_bytes p) (set_targetPrincipal (Str p) t).
Proof.
  intros Hp. unfold mic_bytes. rewrite tlv_cons by lia. apply parses_peek. rewrite <- tlv_cons by lia. pick.
  pose proof (length_tlv_le 0x1b p). pose proof (length_tlv_le 0xa0 (tlv 0x1b p)). pose proof (length_tlv_le 0x30 (tlv 0xa0 (tlv 0x1b p))).
  apply (parses_tag A mem); [done|lia|]. intros d rest Hr Hi. pose proof Hr as Hr'. rewrite tlv_cons in Hr' by lia.
  step (peek_uint8_ok (@uninit A) _ _ _ _ Hr'). pick.
  change (ASN1_SEQUENCE 0) with 0x30. change (ASN1_CONTEXT 0) with 0xa0.
  destruct (w2k_ok (fun r => asn1_end_tag;; ret (set_targetPrincipal (match r.2 with None => Garbage | Some None => Null | Some (Some s) => Str s end) t))
              p d rest Hp Hr) as [n E]. exists n. rewrite E. by rewrite (step_end _ _ d rest n Hr Hi).
Qed.

(** *** Whole tokens *)

(** What is read where [t] was written. *)
Definition init_read (oids : list oid) (flags : Z) (tok mic : option (list Z)) : spnego_negTokenInit :=
  NegTokenInit (if decide (oids = []) then None else Some (map (fun o => Some (oid_str o)) oids))
    (if Z.land flags 0x80 =? 0 then 0 else flags) tok None (match mic with Some p => Str p | None => Null end).

Lemma tlv_nonempty tag e : tlv tag e <> [].
Proof. done. Qed.

Lemma init_fields_parse oids flags tok mic :
  Forall valid oids -> 0 <= flags < 2 ^ 31 -> (forall p, mic = Some p -> (length p <= 123)%nat) ->
  Z.of_nat (length (mech_bytes oids ++ flag_bytes flags ++ field (octets 0xa2) tok ++ field mic_bytes mic)) < 2 ^ 24 ->
  fields_parse (read_init_field A) zero_init
    (mech_bytes oids ++ flag_bytes flags ++ field (octets 0xa2) tok ++ field mic_bytes mic) (init_read oids flags tok mic).
Proof.
  intros Hv Hf Hm Hl. rewrite !length_app in Hl.
  set (t1 := set_mechTypes (if decide (oids = []) then None else Some (map (fun o => Some (oid_str o)) oids)) zero_init).
  set (t2 := set_reqFlags (if Z.land flags 0x80 =? 0 then 0 else flags) t1).
  assert (fields_parse (read_init_field A) t2 (field (octets 0xa2) tok ++ field mic_bytes mic) (init_read oids flags tok mic)) as H2.
  { apply (fields_field _ _ _ _ (fun x => set_mechToken x t2)); [|done|].
    - intros p ->. split; [done|]. apply parses_token. cbn [field] in Hl. lia.
    - rewrite <- (app_nil_r (field mic_bytes mic)).
      apply (fields_field _ _ _ _ (fun x => set_targetPrincipal (match x with Some p => Str p | None => Null end) (set_mechToken tok t2)));
        [|done|apply fields_nil].
      intros p ->. split; [done|]. by apply parses_mic, Hm. }
  assert (fields_parse (read_init_field A) t1 (flag_bytes flags ++ field (octets 0xa2) tok ++ field mic_bytes mic) (init_read oids flags tok mic)) as H1.
  { unfold flag_bytes, t2 in *. destruct (Z.eqb_spec (Z.land flags 0x80) 0) as [|Hne]; [done|].
    apply (fields_cons _ _ _ (set_reqFlags flags t1)); [done| |done].
    destruct (flags_apart flags) as (E1 & E2 & E3); [lia|]. destruct (land_bit7 flags) as [|E4]; [lia|done|]. rewrite E4 in E1, E3.
    rewrite <- E3 at 2. replace (Z.land flags (Z.lnot 0x80)) with (unsigned (Z.land flags (Z.lnot 0x80))) at 2; [apply parses_flags; lia|].
    unfold unsigned. assert ((Z.land flags (Z.lnot 0x80) <? 0) = false) as -> by lia. done. }
  unfold mech_bytes, t1 in *. destruct (decide (oids = [])) as [->|Hne]; [done|].
  apply (fields_cons _ _ _ (set_mechTypes (Some (map (fun o => Some (oid_str o)) oids)) zero_init)); [done| |done].
  pose proof (parses_mechs zero_init oids Hv Hne) as H. unfold mech_bytes in H. rewrite decide_False in H by done. apply H. lia.
Qed.


Definition targ_read (result : Z) (mech : option oid) (response mic : option (list Z)) : spnego_negTokenTarg :=
  NegTokenTarg (if result =? 3 then 0 else result) (oid_str <$> mech) response mic.

Lemma targ_fields_parse result mech response mic :
  is_byte result -> (forall o, mech = Some o -> valid o) ->
  Z.of_nat (length ((if result =? 3 then [] else tlv 0xa0 (tlv 0xa [u8 result])) ++ field (fun o => tlv 0xa1 (oid_tlv o)) mech ++
    field (octets 0xa2) response ++ field (octets 0xa3) mic)) < 2 ^ 24 ->
  fields_parse (read_targ_field A) zero_targ
    ((if result =? 3 then [] else tlv 0xa0 (tlv 0xa [u8 result])) ++ field (fun o => tlv 0xa1 (oid_tlv o)) mech ++
     field (octets 0xa2) response ++ field (octets 0xa3) mic) (targ_read result mech response mic).
Proof.
  intros Hb Hv Hl. rewrite !length_app in Hl. rewrite u8_id by done.
  set (t1 := set_negResult (if result =? 3 then 0 else result) zero_targ). set (t2 := set_supportedMech (oid_str <$> mech) t1).
  assert (fields_parse (read_targ_field A) t2 (field (octets 0xa2) response ++ field (octets 0xa3) mic) (targ_read result mech response mic)) as H2.
  { apply (fields_field _ _ _ _ (fun x => set_responseToken x t2)); [|done|].
    - intros p ->. split; [done|]. cbn [field] in Hl. unfold octets in *. pose proof (length_tlv 0xa2 (tlv 0x4 p)). pose proof (length_tlv 0x4 p).
      rewrite tlv_cons by lia. apply parses_peek. rewrite <- tlv_cons by lia. pick.
      apply (parses_one_tag A mem _ _ _ _ (true, Some p)); [done|lia|apply parses_weaken|done]. apply parses_octets; [done|lia].
    - rewrite <- (app_nil_r (field (octets 0xa3) mic)).
      apply (fields_field _ _ _ _ (fun x => set_targ_mechListMIC x (set_responseToken response t2))); [|done|apply fields_nil].
      intros p ->. split; [done|]. cbn [field] in Hl. unfold octets in *. pose proof (length_tlv 0xa3 (tlv 0x4 p)). pose proof (length_tlv 0x4 p).
      rewrite tlv_cons by lia. apply parses_peek. rewrite <- tlv_cons by lia. pick.
      apply (parses_one_tag A mem _ _ _ _ (true, Some p)); [done|lia|apply parses_weaken|done]. apply parses_octets; [done|lia]. }
  assert (fields_parse (read_targ_field A) t1 (field (fun o => tlv 0xa1 (oid_tlv o)) mech ++ field (octets 0xa2) response ++ field (octets 0xa3) mic)
            (targ_read result mech response mic)) as H1.
  { apply (fields_field _ _ _ _ (fun x => set_supportedMech (oid_str <$> x) t1)); [|done|done].
    intros o ->. split; [done|]. cbn [field] in Hl. pose proof (length_tlv 0xa1 (oid_tlv o)).
    rewrite tlv_cons by lia. apply parses_peek. rewrite <- tlv_cons by lia. pick.
    apply (parses_one_tag A mem _ _ _ _ (true, Some (Some (oid_str o)))); [done|lia|apply parses_weaken|done]. by apply parses_oid, Hv. }
  unfold t1 in *. destruct (Z.eqb_spec result 3) as [->|Hne]; [done|].
  apply (fields_cons _ _ _ (set_negResult result zero_targ)); [done| |done].
  rewrite tlv_cons by lia. apply parses_peek. rewrite <- tlv_cons by lia. pick.
  apply (parses_two_tags A mem 0xa0 0xa _ _ _ (true, result)); [done|done|by vm_compute|apply parses_weaken, parses_uint8|done].
Qed.

Lemma parses_good {B} (x : B) d : has_error d = false -> (do good <- ok; ret (good, x)) d = Ret ((true, x), d).
Proof. intros He. unfold ok, get, bind, ret. by rewrite He. Qed.

Lemma loaded blob (f : bool -> M (Z * spnego_data)) : bind (asn1_load A blob) f empty_data = f true (Asn1Data blob false 0 [] false 1).
Proof. unfold bind, asn1_load. by rewrite mem. Qed.

Lemma reading_loaded e rest : Z.of_nat (length (e ++ rest)) < 2 ^ 31 -> reading (Asn1Data (e ++ rest) false 0 [] false 1) e rest.
Proof. intros Hl. split_and!; [done|done|cbn; lia|done|done]. Qed.

Lemma read_data_ok e rest t :
  e <> [] -> parses (read_token A) e t -> Z.of_nat (length (e ++ rest)) < 2 ^ 31 ->
  spnego_read_data A (e ++ rest) = Ret (Z.of_nat (length e), t).
Proof.
  intros Hne H Hl. unfold spnego_read_data. rewrite decide_False by (destruct e; done). rewrite loaded.
  destruct (H _ _ (reading_loaded e rest Hl)) as [n E]. step E. done.
Qed.

Lemma parses_check o : valid o -> parses (asn1_check_OID A (oid_str o)) (oid_tlv o) true.
Proof.
  intros Hv. rewrite <- (app_nil_r (oid_tlv o)). apply (parses_bind _ _ _ [] (true, Some (Some (oid_str o)))); [by apply parses_oid|].
  cbn iota. rewrite decide_True by done. apply parses_ret.
Qed.

Lemma parses_init oids flags tok mic :
  Forall valid oids -> 0 <= flags < 2 ^ 31 -> (forall p, mic = Some p -> (length p <= 123)%nat) ->
  Z.of_nat (length (init_bytes oids flags tok mic)) < 2 ^ 24 ->
  parses (read_token A) (init_bytes oids flags tok mic) (SpnegoData SPNEGO_NEG_TOKEN_INIT (init_read oids flags tok mic) zero_targ).
Proof.
  intros Hv Hf Hm Hl. unfold init_bytes in *. set (e := mech_bytes oids ++ _) in *.
  pose proof (length_tlv 0x60 (oid_tlv spnego_oid ++ tlv 0xa0 (tlv 0x30 e))) as L1. rewrite length_app in L1.
  pose proof (length_tlv 0xa0 (tlv 0x30 e)). pose proof (length_tlv 0x30 e).
  rewrite tlv_cons by lia. apply parses_peek. rewrite <- tlv_cons by lia. pick.
  apply (parses_tag A mem); [done|rewrite length_app; lia|]. intros d rest Hr Hi. change GENSEC_OID_SPNEGO with (oid_str spnego_oid).
  assert (parses (do c <- asn1_check_OID A (oid_str spnego_oid); read_negTokenInit A)
            (oid_tlv spnego_oid ++ tlv 0xa0 (tlv 0x30 e)) (true, init_read oids flags tok mic)) as H2.
  { apply (parses_bind _ _ _ _ true); [apply parses_check; by_eval|].
    apply (parses_two_tags A mem 0xa0 0x30 _ _ _ (init_read oids flags tok mic)); [done|done|lia| |apply parses_good].
    apply all_fields_parse, init_fields_parse; [done|done|done|unfold e in *; lia]. }
  destruct (H2 d rest Hr) as [n E]. exists n. destruct (asn1_check_OID A (oid_str spnego_oid) d) as [[b d1]|] eqn:Ec.
  2: { exfalso. unfold bind in E. rewrite Ec in E. done. }
  rewrite (bind_ret _ _ _ _ _ Ec) in E. step Ec. step E.
  by rewrite (step_end _ _ d rest n Hr Hi).
Qed.

Lemma parses_targ result mech response mic :
  is_byte result -> (forall o, mech = Some o -> valid o) -> Z.of_nat (length (targ_bytes result mech response mic)) < 2 ^ 24 ->
  parses (read_token A) (targ_bytes result mech response mic) (SpnegoData SPNEGO_NEG_TOKEN_TARG zero_init (targ_read result mech response mic)).
Proof.
  intros Hb Hv Hl. unfold targ_bytes in *.
  match type of Hl with context [tlv 0xa1 (tlv 0x30 ?e)] => pose proof (length_tlv 0xa1 (tlv 0x30 e)); pose proof (length_tlv 0x30 e) end.
  rewrite tlv_cons by lia. apply parses_peek. rewrite <- tlv_cons by lia. pick. rewrite <- (app_nil_r (tlv 0xa1 _)).
  apply (parses_bind _ _ _ [] (true, targ_read result mech response mic)); [|apply parses_ret].
  apply (parses_two_tags A mem 0xa1 0x30 _ _ _ (targ_read result mech response mic)); [done|done|lia| |apply parses_good].
  apply all_fields_parse, targ_fields_parse; [done|done|lia].
Qed.
End reader.

Lemma write_data_ok A t e m :
  malloc_always A -> emits m e -> Z.of_nat (length e) < 2 ^ 24 ->
  (if type t =? SPNEGO_NEG_TOKEN_INIT then
     in_tag A (ASN1_APPLICATION 0) (asn1_write_OID A GENSEC_OID_SPNEGO;; write_negTokenInit A (negTokenInit t))
   else if type t =? SPNEGO_NEG_TOKEN_TARG then write_negTokenTarg A (negTokenTarg t)
   else modify (set_error true);; ret false) = m ->
  spnego_write_data A t = Ret (Z.of_nat (length e), Some (Some e)).
Proof.
  intros mem He Hl E. unfold spnego_write_data. rewrite E. destruct (He empty_data) as [n En]; [done|unfold fits, MAX_TALLOC_SIZE; cbn [data empty_data length]; lia|].
  step En. unfold bind, get, alloc, ret. cbn. by rewrite mem.
Qed.

(** C34: a token is written as RFC 2478 says (but for the form of mechListMIC, which is
    that of Windows 2000) and reads back, with whatever follows it left alone.  A
    NegTokenInit gives its mechanisms, flags and token again, and its mechListMIC, if of at
    most 123 bytes, as the target principal; a NegTokenTarg comes back whole, except that a
    result that was left out reads as "accept completed". *)
Theorem spnego_roundtrip A :
  malloc_always A ->
  (forall t oids rest,
     let n := negTokenInit t in
     let e := init_bytes oids (reqFlags n) (mechToken n) (mechListMIC n) in
     type t = SPNEGO_NEG_TOKEN_INIT -> mech_list (default [] (mechTypes n)) = map oid_str oids -> Forall valid oids ->
     0 <= reqFlags n < 2 ^ 31 -> Z.of_nat (length e) < 2 ^ 24 ->
     spnego_write_data A t = Ret (Z.of_nat (length e), Some (Some e)) /\
     ((forall p, mechListMIC n = Some p -> (length p <= 123)%nat) -> Z.of_nat (length (e ++ rest)) < 2 ^ 31 ->
      spnego_read_data A (e ++ rest) =
        Ret (Z.of_nat (length e),
             SpnegoData SPNEGO_NEG_TOKEN_INIT
               (NegTokenInit (if decide (oids = []) then None else Some (map (fun o => Some (oid_str o)) oids))
                  (if Z.land (reqFlags n) SPNEGO_REQ_FLAG =? 0 then 0 else reqFlags n) (mechToken n) None
                  (match mechListMIC n with Some p => Str p | None => Null end)) zero_targ))) /\
  (forall t mech rest,
     let n := negTokenTarg t in
     let e := targ_bytes (negResult n) mech (responseToken n) (targ_mechListMIC n) in
     type t = SPNEGO_NEG_TOKEN_TARG -> supportedMech n = oid_str <$> mech -> (forall o, mech = Some o -> valid o) ->
     is_byte (negResult n) -> Z.of_nat (length e) < 2 ^ 24 ->
     spnego_write_data A t = Ret (Z.of_nat (length e), Some (Some e)) /\
     (Z.of_nat (length (e ++ rest)) < 2 ^ 31 ->
      spnego_read_data A (e ++ rest) =
        Ret (Z.of_nat (length e),
             SpnegoData SPNEGO_NEG_TOKEN_TARG zero_init
               (set_negResult (if negResult n =? SPNEGO_NONE_RESULT then SPNEGO_ACCEPT_COMPLETED else negResult n) n)))).
Proof.
  intros mem. split.
  - intros t oids rest n e Ht Em Hv Hf Hl. split.
    + eapply write_data_ok; [done|by apply (emits_init A mem n oids)|done|by rewrite Ht].
    + intros Hm Hr. apply read_data_ok; [done|done| |done]. by apply parses_init.
  - intros t mech rest n e Ht Em Hv Hb Hl. split.
    + eapply write_data_ok; [done|by apply (emits_targ A mem n mech)|done|by rewrite Ht].
    + intros Hr. rewrite (read_data_ok A mem e rest _ ltac:(done) (parses_targ A mem _ mech _ _ Hb Hv Hl) Hr).
      unfold targ_read, set_negResult. by rewrite Em.
Qed.

(** A proposal of two mechanisms and an answer without a result. *)
Definition proposal : spnego_data :=
  SpnegoData SPNEGO_NEG_TOKEN_INIT
    (NegTokenInit (Some [Some (DomSid.str "1 3 6 1 4 1 311 2 2 10"); Some (DomSid.str "1 2 840 113554 1 2 2")]) 0x83 (Some [1; 2; 3])
       (Some (DomSid.str "host$")) Null) zero_targ.
Definition proposed : list oid := [Oid 1 3 [6; 1; 4; 1; 311; 2; 2; 10]; Oid 1 2 [840; 113554; 1; 2; 2]].
Definition answer : spnego_data :=
  SpnegoData SPNEGO_NEG_TOKEN_TARG zero_init (NegTokenTarg SPNEGO_NONE_RESULT (Some (oid_str (Oid 1 3 [6]))) (Some []) None).

Lemma spnego_roundtrip_witness :
  malloc_always calloc /\
  (exists e t, spnego_write_data calloc proposal = Ret (66, Some (Some e)) /\ spnego_read_data calloc (e ++ [7]) = Ret (66, t) /\
     mechTypes (negTokenInit t) = mechTypes (negTokenInit proposal) /\ reqFlags (negTokenInit t) = 0x83 /\
     targetPrincipal (negTokenInit t) = Str (DomSid.str "host$")) /\
  (exists e t, spnego_write_data calloc answer = Ret (14, Some (Some e)) /\ spnego_read_data calloc e = Ret (14, t) /\
     negResult (negTokenTarg t) = SPNEGO_ACCEPT_COMPLETED).
Proof.
  assert (malloc_always calloc) as mem by (by intros n). split; [done|]. destruct (spnego_roundtrip calloc mem) as [Hi Ht]. split.
  - destruct (Hi proposal proposed [7] eq_refl ltac:(by vm_compute) ltac:(by_eval) ltac:(done) ltac:(by vm_compute)) as [Hw Hr].
    set (e := init_bytes _ _ _ _) in *. assert (Z.of_nat (length e) = 66) as El by by_eval. rewrite El in Hw, Hr.
    specialize (Hr ltac:(intros p [= <-]; by_eval) ltac:(by_eval)). do 2 eexists. split; [exact Hw|]. split; [exact Hr|].
    clear. split_and!; vm_compute; reflexivity.
  - destruct (Ht answer (Some (Oid 1 3 [6])) [] eq_refl ltac:(done) ltac:(intros o [= <-]; by_eval) ltac:(by_eval) ltac:(by vm_compute)) as [Hw Hr].
    set (e := targ_bytes _ _ _ _) in *. assert (Z.of_nat (length e) = 14) as El by by_eval. rewrite El, app_nil_r in *.
    specialize (Hr ltac:(by_eval)). do 2 eexists. split; [exact Hw|]. split; [exact Hr|done].
Defined.
