(* ===== verification/SpnegoSafe.v ===== *)
(** What spnego_read_data does with arbitrary bytes. *)

From stdpp Require Import strings.
From S2P Require Import Prelude Digest Byteorder Ntstatus Cnum DomSid CliCredentials Asn1 Asn1Safe Spnego.
Import Asn1 Spnego.

#[local] Open Scope outcome_scope.
#[local] Open Scope asn1_scope.

Section safe.
Context (A : Allocator).

(** In front of a byte, a call moves on, or it sets the error. *)
Definition moves {B} (m : M B) : Prop :=
  forall d, inv d -> (ofs d < length (data d))%nat -> exists b d', m d = Ret (b, d') /\ later d d' /\ (ahead d' < ahead d)%nat.
Definition moves_or_fails {B} (m : M B) : Prop :=
  forall d, inv d -> (ofs d < length (data d))%nat ->
    exists b d', m d = Ret (b, d') /\ later d d' /\ ((ahead d' < ahead d)%nat \/ has_error d' = true).

Lemma moves_bind {B C} (m : M B) (f : B -> M C) : moves m -> (forall b, safe (f b)) -> moves (bind m f).
Proof.
  intros Hm Hf d Hd Ho. destruct (Hm d Hd Ho) as (b & d1 & E1 & L1 & H1). destruct (Hf b d1) as (c & d2 & E2 & L2); [apply L1|].
  exists c, d2. split_and!; [by rewrite (bind_ret _ _ _ _ _ E1)|by apply (later_trans _ d1)|pose proof (ahead_later _ _ L2); lia].
Qed.

Lemma moves_start_tag tag : moves (asn1_start_tag A tag).
Proof.
  unfold asn1_start_tag. apply moves_bind; [intros d; apply uint8_moves|]. intros r. safe.
  apply (safe_nesting (fun d => Nest (ofs d) _ :: nesting d)).
Qed.

Lemma or_moves {B} (m : M B) : moves m -> moves_or_fails m.
Proof. intros Hm d Hd Ho. destruct (Hm d Hd Ho) as (b & d' & ? & ? & ?). exists b, d'. auto. Qed.
Lemma or_fails {B} (b : B) : moves_or_fails (modify (set_error true);; ret b).
Proof. intros d Hd Ho. exists b, (set_error true d). split_and!; [done|done|by right]. Qed.
Lemma or_if {B} (c : bool) (m1 m2 : M B) : moves_or_fails m1 -> moves_or_fails m2 -> moves_or_fails (if c then m1 else m2).
Proof. by destruct c. Qed.

(** Looking does not move. *)
Lemma or_peek {B} v (f : bool * Z -> M B) : (forall c, moves_or_fails (f c)) -> moves_or_fails (do c <- asn1_peek_uint8 v; f c).
Proof.
  intros Hf d Hd Ho. pose proof Hd as (Hg & _ & Hl).
  assert (exists c, asn1_peek_uint8 v d = Ret (c, d)) as [c E].
  { unfold asn1_peek_uint8, asn1_peek, bind, ret. change (1 <? 0) with false. rewrite Hg.
    assert ((Z.of_nat (length (data d)) <? Z.of_nat (ofs d) + 1) = false) as -> by lia. cbn. by eexists. }
  rewrite (bind_ret _ _ _ _ _ E). by apply Hf.
Qed.

Lemma targ_field_moves t : moves_or_fails (read_targ_field A t).
Proof.
  apply or_peek. intros c. repeat apply or_if; try apply or_fails; apply or_moves, moves_bind; try apply moves_start_tag; intros b; safe.
Qed.

Lemma fields_stop {T} (field : T -> M T) fuel t d :
  inv d -> has_error d = true -> (0 < fuel)%nat -> exists t' d', read_fields field fuel t d = Ret (t', d') /\ later d d'.
Proof.
  intros Hd He Hf. destruct fuel as [|fuel]; [lia|]. exists t, d. split; [|done].
  cbn [read_fields]. unfold more, bind, get, ret. cbn. by rewrite He.
Qed.

(** The loop over the fields ends. *)
Lemma safe_fields {T} (field : T -> M T) fuel t : (forall t, moves_or_fails (field t)) -> safe_below fuel (read_fields field fuel t).
Proof.
  intros Hm. revert t. induction fuel as [|fuel IH]; intros t; [by intros d _ Hf; lia|]. cbn [read_fields].
  apply safe_while; [|apply safe_ret]. intros d Hd Ho Hf. destruct (Hm t d Hd Ho) as (t1 & d1 & E1 & L1 & H1). rewrite (bind_ret _ _ _ _ _ E1).
  assert (exists t' d', read_fields field fuel t1 d1 = Ret (t', d') /\ later d1 d') as (t' & d' & E & L).
  { destruct H1; [apply IH; [apply L1|lia]|apply fields_stop; [apply L1|done|unfold ahead in Hf; lia]]. }
  exists t', d'. split; [done|by apply (later_trans _ d1)].
Qed.

Lemma safe_negTokenTarg : safe (read_negTokenTarg A).
Proof.
  unfold read_negTokenTarg. do 2 (apply safe_bind; [auto with asn1_safe|intros _]). apply safe_bind; [|intros t; safe].
  apply (safe_fuelled (fun fuel => read_fields (read_targ_field A) fuel zero_targ)). intros fuel. apply safe_fields, targ_field_moves.
Qed.
End safe.

Lemma token_in_bounds A blob d :
  head blob <> Some 0x60 -> inv d -> data d = blob -> ofs d = 0%nat -> exists t d', read_token A d = Ret (t, d') /\ later d d'.
Proof.
  intros Hh Hd Ed Eo. unfold read_token. destruct (decide (blob = [])) as [E|Hne].
  - assert (asn1_peek_uint8 (@uninit A) d = Ret ((false, @uninit A), d)) as E1.
    { destruct Hd as (Hg & _). unfold asn1_peek_uint8, asn1_peek, bind, ret. rewrite Ed, E, Eo. cbn. destruct d. cbn in *. by subst. }
    rewrite (bind_ret _ _ _ _ _ E1). cbn [negb fst]. by eexists _, (set_error true d).
  - destruct blob as [|b blob]; [done|].
    assert (asn1_peek_uint8 (@uninit A) d = Ret ((true, b), d)) as E1.
    { destruct Hd as (Hg & _). unfold asn1_peek_uint8, asn1_peek, bind, ret. rewrite Ed, Hg, Eo. cbn [length]. change (1 <? 0) with false.
      assert ((Z.of_nat (S (length blob)) <? Z.of_nat 0 + 1) = false) as -> by (apply Z.ltb_ge; lia). done. }
    rewrite (bind_ret _ _ _ _ _ E1). cbn [negb fst snd]. destruct (Z.eqb_spec b (ASN1_APPLICATION 0)) as [->|_]; [done|].
    revert d Hd Ed Eo E1. intros d Hd _ _ _. pose proof (safe_negTokenTarg A) as Ht.
    match goal with |- exists t d', ?m d = _ /\ _ => assert (safe m) as Hm; [|exact (Hm d Hd)] end.
    apply safe_if; [|safe]. apply safe_bind; [done|intros r; apply safe_ret].
Qed.

(** C35: an answer is read inside its bytes: whatever follows a first byte that is not the
    tag of a proposal, and whatever memory there is, reading returns, at an offset in the
    blob or with -1.  A proposal is not so safe: an element of its list of mechanisms that
    is not an identifier leaves a pointer uninitialised that is then followed, and one of
    the form of Windows 2000 whose contents are cut short makes the reader write behind
    the end of its buffer. *)
Theorem spnego_answer_in_bounds :
  (forall A blob, Z.of_nat (length blob) < 2 ^ 31 -> head blob <> Some 0x60 ->
     exists n t, spnego_read_data A blob = Ret (n, t) /\ -1 <= n <= Z.of_nat (length blob)) /\
  spnego_read_data calloc [0x60; 18; 6; 6; 0x2b; 6; 1; 5; 5; 2; 0xa0; 8; 0x30; 6; 0xa0; 4; 0x30; 2; 2; 0] = Fault /\
  spnego_read_data calloc [0x60; 20; 6; 6; 0x2b; 6; 1; 5; 5; 2; 0xa0; 10; 0x30; 8; 0xa3; 6; 0x30; 4; 0xa0; 2; 0x1b; 5] = Fault.
Proof.
  split_and!; [|by vm_compute|by vm_compute]. intros A blob Hl Hh. unfold spnego_read_data.
  destruct (decide (length blob = 0%nat)); [do 2 eexists; split; [done|lia]|]. unfold bind at 1, asn1_load.
  destruct (@malloc_ok A 0); cbn [obind fst snd].
  - destruct (token_in_bounds A blob (Asn1Data blob false 0 [] false 1)) as (t & d' & E & (_ & Ho & _) & Ed & _);
      [done|split_and!; [done|cbn; lia|cbn; lia]|done|done|].
    rewrite (bind_ret _ _ _ _ _ E). do 2 eexists. split; [done|]. cbn in Ed. rewrite Ed in Ho. cbn [fst id]. destruct (has_error d'); lia.
  - eexists (-1), _. split; [done|lia].
Qed.

Lemma spnego_answer_in_bounds_witness :
  head [0xa1; 0x7f; 0xff] <> Some 0x60 /\ exists n t, spnego_read_data calloc [0xa1; 0x7f; 0xff] = Ret (n, t) /\ -1 <= n <= 3.
Proof.
  split; [done|]. destruct spnego_answer_in_bounds as [H _]. apply (H calloc [0xa1; 0x7f; 0xff]); [by_eval|done].
Defined.
