(* ===== verification/Gensec.v ===== *)
(** auth/gensec/gensec.c: the registered mechanisms, the lists of them that the two sides
    can agree on, and the dispatch of a context's calls to its mechanism. *)

From stdpp Require Import strings.
From S2P Require Import Prelude Digest Byteorder Ntstatus DomSid CliCredentials Ntlmssp Spnego.
Import CliCredentials(cli_credentials, credentials_use_kerberos, CRED_AUTO_USE_KERBEROS, CRED_DONT_USE_KERBEROS, CRED_MUST_USE_KERBEROS,
  cli_credentials_get_kerberos_state).
Import Spnego(GENSEC_OID_SPNEGO).
Import Ntlmssp(GENSEC_FEATURE_SESSION_KEY, GENSEC_FEATURE_SIGN, GENSEC_FEATURE_SEAL, GENSEC_FEATURE_DCE_STYLE, GENSEC_FEATURE_ASYNC_REPLIES).

#[local] Open Scope outcome_scope.

Module Gensec.

Definition DCERPC_AUTH_LEVEL_CONNECT : Z := 2.
Definition DCERPC_AUTH_LEVEL_INTEGRITY : Z := 5.
Definition DCERPC_AUTH_LEVEL_PRIVACY : Z := 6.

(** A pointer: not set, null, or to a value. *)
Inductive ptr (T : Type) := Wild | Nil | To (t : T).
Arguments Wild {T}.
Arguments Nil {T}.
Arguments To {T} t.

(** A DATA_BLOB, which is null or has bytes. *)
Definition blob : Type := option (list Z).
Definition blob_length (b : blob) : nat := match b with Some l => length l | None => 0 end.

Inductive gensec_role := GENSEC_SERVER | GENSEC_CLIENT.

Record gensec_target := GensecTarget { principal : option (list Z); hostname : option (list Z); service : option (list Z) }.

Section gensec.
(** What a mechanism keeps in its private data, session infos and socket addresses. *)
Context {P Info Addr : Type}.

(** struct gensec_security without its mechanism, which is all that a mechanism uses. *)
Record gensec_context := GensecContext {
  private_data : ptr P;
  credentials : ptr cli_credentials;
  target : gensec_target;
  role : gensec_role;
  subcontext : bool;
  want_features : Z;
  my_addr : option Addr;
  peer_addr : option Addr
}.

Definition call (R : Type) : Type := gensec_context -> outcome (R * gensec_context).

(** The table of a mechanism; [address] tells one table from another.  The data of a
    packet is a part of its PDU, given by offset and length, and a PDU that is changed in
    place is in the result; [magic] only looks. *)
Record gensec_security_ops := GensecOps {
  address : nat;
  name : list Z;
  sasl_name : option (list Z);
  auth_type : Z;
  oid : option (list (list Z));
  client_start : option (call NTSTATUS);
  server_start : option (call NTSTATUS);
  magic : option (list Z -> gensec_context -> outcome NTSTATUS);
  update : option (blob -> call (NTSTATUS * blob));
  seal_packet : option (list Z -> nat -> nat -> call (NTSTATUS * list Z * blob));
  sign_packet : option (list Z -> nat -> nat -> call (NTSTATUS * blob));
  sig_size : option (Z -> call Z);
  max_input_size : option (call Z);
  max_wrapped_size : option (call Z);
  check_packet : option (list Z -> nat -> nat -> list Z -> call NTSTATUS);
  unseal_packet : option (list Z -> nat -> nat -> list Z -> call (NTSTATUS * list Z));
  wrap : option (blob -> call (NTSTATUS * blob));
  unwrap : option (blob -> call (NTSTATUS * blob));
  session_key : option (call (NTSTATUS * blob));
  session_info : option (call (NTSTATUS * option Info));
  have_feature : option (Z -> call bool);
  enabled : bool;
  kerberos : bool;
  priority : Z
}.

Record gensec_security := GensecSecurity { ops : option gensec_security_ops; context : gensec_context }.

Definition on_context (f : gensec_context -> gensec_context) (g : gensec_security) : gensec_security := GensecSecurity (ops g) (f (context g)).
Definition set_ops (o : option gensec_security_ops) (g : gensec_security) : gensec_security := GensecSecurity o (context g).
Definition set_private_data (p : ptr P) (c : gensec_context) : gensec_context :=
  GensecContext p (credentials c) (target c) (role c) (subcontext c) (want_features c) (my_addr c) (peer_addr c).
Definition set_credentials (x : ptr cli_credentials) (c : gensec_context) : gensec_context :=
  GensecContext (private_data c) x (target c) (role c) (subcontext c) (want_features c) (my_addr c) (peer_addr c).
Definition set_target (t : gensec_target) (c : gensec_context) : gensec_context :=
  GensecContext (private_data c) (credentials c) t (role c) (subcontext c) (want_features c) (my_addr c) (peer_addr c).
Definition set_role (r : gensec_role) (c : gensec_context) : gensec_context :=
  GensecContext (private_data c) (credentials c) (target c) r (subcontext c) (want_features c) (my_addr c) (peer_addr c).
Definition set_subcontext (b : bool) (c : gensec_context) : gensec_context :=
  GensecContext (private_data c) (credentials c) (target c) (role c) b (want_features c) (my_addr c) (peer_addr c).
Definition set_want_features (w : Z) (c : gensec_context) : gensec_context :=
  GensecContext (private_data c) (credentials c) (target c) (role c) (subcontext c) w (my_addr c) (peer_addr c).
Definition set_my_addr (a : option Addr) (c : gensec_context) : gensec_context :=
  GensecContext (private_data c) (credentials c) (target c) (role c) (subcontext c) (want_features c) a (peer_addr c).
Definition set_peer_addr (a : option Addr) (c : gensec_context) : gensec_context :=
  GensecContext (private_data c) (credentials c) (target c) (role c) (subcontext c) (want_features c) (my_addr c) a.

(** The registered mechanisms, in order; null before the first. *)
Context (generic_security_ops : option (list gensec_security_ops)) (A : Allocator).

Definition gensec_security_all : option (list gensec_security_ops) := generic_security_ops.

Definition offers (oids : option (list (list Z))) (s : list Z) : bool := existsb (fun o => bool_decide (o = s)) (default [] oids).

(** new_gensec_list[j++], in an array of [size] entries. *)
Definition push_entry {T} (size : nat) (l : list T) (x : T) : outcome (list T) :=
  if bool_decide (size <= length l)%nat then Fault else Ret (l ++ [x]).

(** One round of the loop: SPNEGO is kept, and then what the state keeps. *)
Definition keep_mech (size : nat) (use_kerberos : credentials_use_kerberos) (l : list gensec_security_ops) (o : gensec_security_ops) :
    outcome (list gensec_security_ops) :=
  let* l := (if offers (oid o) GENSEC_OID_SPNEGO then push_entry size l o else Ret l) in
  match use_kerberos with
  | CRED_DONT_USE_KERBEROS => if negb (kerberos o) then push_entry size l o else Ret l
  | CRED_MUST_USE_KERBEROS => if kerberos o then push_entry size l o else Ret l
  | CRED_AUTO_USE_KERBEROS => Ret l
  end.

Fixpoint keep_mechs (size : nat) (use_kerberos : credentials_use_kerberos) (l old : list gensec_security_ops) : outcome (list gensec_security_ops) :=
  match old with
  | [] => Ret l
  | o :: old => let* l := keep_mech size use_kerberos l o in keep_mechs size use_kerberos l old
  end.

(** A reference to the list, or a new one with room for as many and a null. *)
Definition gensec_use_kerberos_mechs (old : option (list gensec_security_ops)) (use_kerberos : credentials_use_kerberos) :
    outcome (option (list gensec_security_ops)) :=
  match use_kerberos with
  | CRED_AUTO_USE_KERBEROS => Ret (if @malloc_ok A 0 then old else None)
  | _ =>
      if negb (@malloc_ok A 0) then Ret None
      else
        let size := S (length (default [] old)) in
        let* l := keep_mechs size use_kerberos [] (default [] old) in
        if bool_decide (size <= length l)%nat then Fault else Ret (Some l)
  end.

Definition gensec_get_credentials (g : option gensec_security) : ptr cli_credentials :=
  match g with None => Nil | Some g => credentials (context g) end.

Definition gensec_security_mechs (g : option gensec_security) : outcome (option (list gensec_security_ops)) :=
  match gensec_get_credentials g with
  | Wild => Fault
  | Nil => Ret (if @malloc_ok A 0 then gensec_security_all else None)
  | To c => gensec_use_kerberos_mechs gensec_security_all (cli_credentials_get_kerberos_state c)
  end.

(** ** Looking a mechanism up *)

(** With a temporary context; the list is null where it cannot be had. *)
Definition lookup_mech (g : option gensec_security) (p : gensec_security_ops -> bool) : outcome (option gensec_security_ops) :=
  let* backends := gensec_security_mechs g in Ret (find p (default [] backends)).
End gensec.

Section mechs.
Context {P Info Addr : Type}.
#[local] Abbreviation gensec_security := (@gensec_security P Info Addr).
#[local] Abbreviation gensec_security_ops := (@gensec_security_ops P Info Addr).
#[local] Abbreviation gensec_context := (@gensec_context P Addr).
Context (generic_security_ops : option (list gensec_security_ops)).

Definition by_predicate (A : Allocator) (g : option gensec_security) (p : gensec_security_ops -> bool) : outcome (option gensec_security_ops) :=
  if negb (@malloc_ok A 0) then Ret None else lookup_mech generic_security_ops (later 1 A) g p.

Definition gensec_security_by_authtype (A : Allocator) (g : option gensec_security) (t : Z) := by_predicate A g (fun o => auth_type o =? t).
Definition gensec_security_by_oid (A : Allocator) (g : option gensec_security) (s : list Z) := by_predicate A g (fun o => offers (oid o) s).
Definition gensec_security_by_sasl_name (A : Allocator) (g : option gensec_security) (s : list Z) :=
  by_predicate A g (fun o => bool_decide (sasl_name o = Some s)).
Definition gensec_security_by_name (A : Allocator) (g : option gensec_security) (s : list Z) := by_predicate A g (fun o => bool_decide (name o = s)).

(** ** Lists of mechanisms *)

(** An entry is added to an array that is grown for it, unless its mechanism is in it. *)
Definition listed (o : gensec_security_ops) (out : list gensec_security_ops) : bool := existsb (fun x => bool_decide (address x = address o)) out.

Fixpoint sasl_backend (A : Allocator) (o : gensec_security_ops) (sasl_names : list (list Z)) (out : list gensec_security_ops) : option (list gensec_security_ops) :=
  match sasl_names with
  | [] => Some out
  | s :: sasl_names =>
      if negb (bool_decide (sasl_name o = Some s)) || listed o out then sasl_backend A o sasl_names out
      else if @malloc_ok A (length out) then sasl_backend A o sasl_names (out ++ [o]) else None
  end.

Fixpoint sasl_backends (A : Allocator) (backends : list gensec_security_ops) (sasl_names : list (list Z)) (out : list gensec_security_ops) :
    option (list gensec_security_ops) :=
  match backends with
  | [] => Some out
  | o :: backends =>
      match sasl_backend A o sasl_names out with None => None | Some out => sasl_backends A backends sasl_names out end
  end.

Definition gensec_security_by_sasl_list (A : Allocator) (g : option gensec_security) (sasl_names : option (list (list Z))) :
    outcome (option (list gensec_security_ops)) :=
  match sasl_names with
  | None => Ret None
  | Some sasl_names =>
      let* backends := gensec_security_mechs generic_security_ops A g in
      if negb (@malloc_ok A 1) then Ret None
      else Ret (sasl_backends (later 2 A) (default [] backends) sasl_names [])
  end.

(** struct gensec_security_ops_wrapper *)
Definition gensec_security_ops_wrapper : Type := gensec_security_ops * list Z.

(** The identifiers of a mechanism against one of the other side's. *)
Fixpoint wrap_oids (A : Allocator) (o : gensec_security_ops) (mine : list (list Z)) (theirs : list Z) (out : list gensec_security_ops_wrapper) :
    option (list gensec_security_ops_wrapper) :=
  match mine with
  | [] => Some out
  | x :: mine =>
      if negb (bool_decide (x = theirs)) || listed o (map fst out) then wrap_oids A o mine theirs out
      else if @malloc_ok A (length out) then wrap_oids A o mine theirs (out ++ [(o, x)]) else None
  end.

Fixpoint wrap_backend (A : Allocator) (o : gensec_security_ops) (oid_strings : list (list Z)) (skip : list Z) (out : list gensec_security_ops_wrapper) :
    option (list gensec_security_ops_wrapper) :=
  match oid_strings with
  | [] => Some out
  | s :: oid_strings =>
      if bool_decide (s = skip) then wrap_backend A o oid_strings skip out
      else match wrap_oids A o (default [] (oid o)) s out with None => None | Some out => wrap_backend A o oid_strings skip out end
  end.

Fixpoint wrap_backends (A : Allocator) (backends : list gensec_security_ops) (oid_strings : list (list Z)) (skip : list Z)
    (out : list gensec_security_ops_wrapper) : option (list gensec_security_ops_wrapper) :=
  match backends with
  | [] => Some out
  | o :: backends =>
      match wrap_backend A o (match oid o with Some _ => oid_strings | None => [] end) skip out with None => None | Some out => wrap_backends A backends oid_strings skip out end
  end.

Definition gensec_security_by_oid_list (A : Allocator) (g : option gensec_security) (oid_strings : option (list (list Z))) (skip : list Z) :
    outcome (option (list gensec_security_ops_wrapper)) :=
  match oid_strings with
  | None => Ret None
  | Some oid_strings =>
      let* backends := gensec_security_mechs generic_security_ops A g in
      if negb (@malloc_ok A 1) then Ret None
      else Ret (wrap_backends (later 2 A) (default [] backends) oid_strings skip [])
  end.

(** oid_list[j], after a realloc. *)
Fixpoint collect_oids (A : Allocator) (skip : option (list Z)) (oids out : list (list Z)) : option (list (list Z)) :=
  match oids with
  | [] => Some out
  | x :: oids =>
      if bool_decide (skip = Some x) then collect_oids A skip oids out
      else if @malloc_ok A (S (length out)) then collect_oids A skip oids (out ++ [x]) else None
  end.

Definition gensec_security_oids_from_ops (A : Allocator) (ops : option (list gensec_security_ops)) (skip : option (list Z)) : option (list (list Z)) :=
  match ops with
  | None => None
  | Some ops => if @malloc_ok A 0 then collect_oids A skip (concat (map (fun o => default [] (oid o)) ops)) [] else None
  end.

Definition gensec_security_oids_from_ops_wrapped (A : Allocator) (wops : option (list gensec_security_ops_wrapper)) : option (list (list Z)) :=
  match wops with
  | None => None
  | Some wops => if @malloc_ok A 0 then collect_oids A None (concat (map (fun w => default [] (oid w.1)) wops)) [] else None
  end.

Definition gensec_security_oids (A : Allocator) (g : option gensec_security) (skip : option (list Z)) : outcome (option (list (list Z))) :=
  let* ops := gensec_security_mechs generic_security_ops A g in
  Ret (gensec_security_oids_from_ops (later 1 A) ops skip).

(** ** Contexts *)

(** What talloc leaves: [credentials], [private_data] and [gensec_role] are not set.  An
    event context is given or made by [event_context_init], which can fail. *)
Definition gensec_start (A : Allocator) (have_ev : bool) (uninit_role : gensec_role) : NTSTATUS * option gensec_security :=
  if negb (@malloc_ok A 0) then (NT_STATUS_NO_MEMORY, None)
  else if negb have_ev && negb (@malloc_ok A 1) then (NT_STATUS_NO_MEMORY, None)
  else (NT_STATUS_OK, Some (GensecSecurity None (GensecContext Wild Wild (GensecTarget None None None) uninit_role false 0 None None))).

(** A copy of the parent, without mechanism. *)
Definition gensec_subcontext_start (A : Allocator) (parent : gensec_context) : NTSTATUS * option gensec_security :=
  if negb (@malloc_ok A 0) then (NT_STATUS_NO_MEMORY, None)
  else (NT_STATUS_OK, Some (GensecSecurity None (set_subcontext true (set_private_data Nil parent)))).

Definition gensec_client_start (A : Allocator) (have_ev : bool) (r : gensec_role) : NTSTATUS * option gensec_security :=
  if negb have_ev && negb (@malloc_ok A 0) then (NT_STATUS_NO_MEMORY, None)
  else
    match gensec_start (later 1 A) true r with
    | (NT_STATUS_OK, Some g) => (NT_STATUS_OK, Some (on_context (set_role GENSEC_CLIENT) g))
    | (status, _) => (status, None)
    end.

Definition gensec_server_start (A : Allocator) (have_ev have_msg : bool) (r : gensec_role) : NTSTATUS * option gensec_security :=
  if negb have_ev then (NT_STATUS_INTERNAL_ERROR, None)
  else if negb have_msg then (NT_STATUS_INTERNAL_ERROR, None)
  else
    match gensec_start A true r with
    | (NT_STATUS_OK, Some g) => (NT_STATUS_OK, Some (on_context (set_role GENSEC_SERVER) g))
    | (status, _) => (status, None)
    end.

(** A call of the mechanism. *)
Definition run {R} (f : gensec_context -> outcome (R * gensec_context)) (g : gensec_security) : outcome (R * gensec_security) :=
  let* r := f (context g) in Ret (r.1, GensecSecurity (ops g) r.2).
Definition with_ops {R} (g : gensec_security) (f : gensec_security_ops -> outcome R) : outcome R :=
  match ops g with None => Fault | Some o => f o end.

Definition gensec_start_mech (g : gensec_security) : outcome (NTSTATUS * gensec_security) :=
  with_ops g (fun o =>
    match match role (context g) with GENSEC_CLIENT => client_start o | GENSEC_SERVER => server_start o end with
    | Some start => run start g
    | None => Ret (NT_STATUS_INVALID_PARAMETER, g)
    end).

Definition gensec_want_feature (feature : Z) (g : gensec_security) : gensec_security :=
  on_context (fun c => set_want_features (Z.lor (want_features c) feature) c) g.

(** ** Starting a mechanism *)

(** A mechanism that was looked up is set, also if it is null. *)
Definition start_found (found : option gensec_security_ops) (g : gensec_security) : outcome (NTSTATUS * gensec_security) :=
  let g := set_ops found g in
  match found with None => Ret (NT_STATUS_INVALID_PARAMETER, g) | Some _ => gensec_start_mech g end.

Definition gensec_start_mech_by_authtype (A : Allocator) (t auth_level : Z) (g : gensec_security) : outcome (NTSTATUS * gensec_security) :=
  let* found := gensec_security_by_authtype A (Some g) t in
  let g := set_ops found g in
  match found with
  | None => Ret (NT_STATUS_INVALID_PARAMETER, g)
  | Some _ =>
      let g := gensec_want_feature GENSEC_FEATURE_ASYNC_REPLIES (gensec_want_feature GENSEC_FEATURE_DCE_STYLE g) in
      if auth_level =? DCERPC_AUTH_LEVEL_INTEGRITY then gensec_start_mech (gensec_want_feature GENSEC_FEATURE_SIGN g)
      else if auth_level =? DCERPC_AUTH_LEVEL_PRIVACY then
        gensec_start_mech (gensec_want_feature GENSEC_FEATURE_SEAL (gensec_want_feature GENSEC_FEATURE_SIGN g))
      else if auth_level =? DCERPC_AUTH_LEVEL_CONNECT then gensec_start_mech g
      else Ret (NT_STATUS_INVALID_PARAMETER, g)
  end.

Definition gensec_start_mech_by_ops (o : gensec_security_ops) (g : gensec_security) : outcome (NTSTATUS * gensec_security) :=
  gensec_start_mech (set_ops (Some o) g).

Definition gensec_start_mech_by_oid (A : Allocator) (s : list Z) (g : gensec_security) : outcome (NTSTATUS * gensec_security) :=
  let* found := gensec_security_by_oid A (Some g) s in start_found found g.
Definition gensec_start_mech_by_sasl_name (A : Allocator) (s : list Z) (g : gensec_security) : outcome (NTSTATUS * gensec_security) :=
  let* found := gensec_security_by_sasl_name A (Some g) s in start_found found g.
Definition gensec_start_mech_by_name (A : Allocator) (s : list Z) (g : gensec_security) : outcome (NTSTATUS * gensec_security) :=
  let* found := gensec_security_by_name A (Some g) s in start_found found g.

(** The first of the mechanisms that does not call a parameter invalid. *)
Fixpoint start_first (l : list gensec_security_ops) (status : NTSTATUS) (g : gensec_security) : outcome (NTSTATUS * gensec_security) :=
  match l with
  | [] => Ret (status, g)
  | o :: l =>
      let* r := gensec_start_mech_by_ops o g in
      if bool_decide (r.1 = NT_STATUS_INVALID_PARAMETER) then start_first l r.1 r.2 else Ret r
  end.

Definition gensec_start_mech_by_sasl_list (A : Allocator) (names : option (list (list Z))) (g : gensec_security) : outcome (NTSTATUS * gensec_security) :=
  if negb (@malloc_ok A 0) then Ret (NT_STATUS_NO_MEMORY, g)
  else
    let* l := gensec_security_by_sasl_list (later 1 A) (Some g) names in
    match l with
    | None | Some [] => Ret (NT_STATUS_INVALID_PARAMETER, g)
    | Some l => start_first l NT_STATUS_INVALID_PARAMETER g
    end.

Definition gensec_get_name_by_authtype (A : Allocator) (t : Z) : outcome (option (list Z)) :=
  let* o := gensec_security_by_authtype A None t in Ret (name <$> o).
Definition gensec_get_name_by_oid (A : Allocator) (s : list Z) : outcome (list Z) :=
  let* o := gensec_security_by_oid A None s in Ret (match o with Some o => name o | None => s end).

(** ** The calls of a context *)

Definition gensec_have_feature (feature : Z) (g : gensec_security) : outcome (bool * gensec_security) :=
  with_ops g (fun o => match have_feature o with None => Ret (false, g) | Some f => run (f feature) g end).

(** A call that the table may lack, and that may need a feature first. *)
Definition guarded {F R} (entry : gensec_security_ops -> option F) (feature : option Z) (lacking refused : R)
    (f : F -> gensec_context -> outcome (R * gensec_context)) (g : gensec_security) : outcome (R * gensec_security) :=
  with_ops g (fun o =>
    match entry o with
    | None => Ret (lacking, g)
    | Some call =>
        match feature with
        | None => run (f call) g
        | Some feature =>
            let* h := gensec_have_feature feature g in
            if h.1 then run (f call) h.2 else Ret (refused, h.2)
        end
    end).

Definition gensec_unseal_packet (pdu : list Z) (ofs n : nat) (sig : list Z) : gensec_security -> outcome (NTSTATUS * list Z * gensec_security) :=
  guarded unseal_packet (Some GENSEC_FEATURE_SEAL) (NT_STATUS_NOT_IMPLEMENTED, pdu) (NT_STATUS_INVALID_PARAMETER, pdu)
    (fun f => f pdu ofs n sig).
Definition gensec_check_packet (pdu : list Z) (ofs n : nat) (sig : list Z) : gensec_security -> outcome (NTSTATUS * gensec_security) :=
  guarded check_packet (Some GENSEC_FEATURE_SIGN) NT_STATUS_NOT_IMPLEMENTED NT_STATUS_INVALID_PARAMETER (fun f => f pdu ofs n sig).
Definition gensec_seal_packet (pdu : list Z) (ofs n : nat) : gensec_security -> outcome (NTSTATUS * list Z * blob * gensec_security) :=
  guarded seal_packet (Some GENSEC_FEATURE_SEAL) (NT_STATUS_NOT_IMPLEMENTED, pdu, None) (NT_STATUS_INVALID_PARAMETER, pdu, None)
    (fun f => f pdu ofs n).
Definition gensec_sign_packet (pdu : list Z) (ofs n : nat) : gensec_security -> outcome (NTSTATUS * blob * gensec_security) :=
  guarded sign_packet (Some GENSEC_FEATURE_SIGN) (NT_STATUS_NOT_IMPLEMENTED, None) (NT_STATUS_INVALID_PARAMETER, None) (fun f => f pdu ofs n).
Definition gensec_sig_size (data_size : Z) : gensec_security -> outcome (Z * gensec_security) :=
  guarded sig_size (Some GENSEC_FEATURE_SIGN) 0 0 (fun f => f data_size).
Definition gensec_max_wrapped_size : gensec_security -> outcome (Z * gensec_security) :=
  guarded max_wrapped_size None (2 ^ 17) 0 (fun f => f).
Definition gensec_max_input_size (g : gensec_security) : outcome (Z * gensec_security) :=
  with_ops g (fun o =>
    match max_input_size o with
    | None => let* r := gensec_sig_size (2 ^ 17) g in Ret (u64 (2 ^ 17 - r.1), r.2)
    | Some f => run f g
    end).
Definition gensec_wrap (data : blob) : gensec_security -> outcome (NTSTATUS * blob * gensec_security) :=
  guarded wrap None (NT_STATUS_NOT_IMPLEMENTED, None) (NT_STATUS_NOT_IMPLEMENTED, None) (fun f => f data).
Definition gensec_unwrap (data : blob) : gensec_security -> outcome (NTSTATUS * blob * gensec_security) :=
  guarded unwrap None (NT_STATUS_NOT_IMPLEMENTED, None) (NT_STATUS_NOT_IMPLEMENTED, None) (fun f => f data).
Definition gensec_session_key : gensec_security -> outcome (NTSTATUS * blob * gensec_security) :=
  guarded session_key (Some GENSEC_FEATURE_SESSION_KEY) (NT_STATUS_NOT_IMPLEMENTED, None) (NT_STATUS_NO_USER_SESSION_KEY, None) (fun f => f).
Definition gensec_session_info : gensec_security -> outcome (NTSTATUS * option Info * gensec_security) :=
  guarded session_info None (NT_STATUS_NOT_IMPLEMENTED, None) (NT_STATUS_NOT_IMPLEMENTED, None) (fun f => f).

(** The step of the mechanism, which every table has. *)
Definition gensec_update (data : blob) (g : gensec_security) : outcome (NTSTATUS * blob * gensec_security) :=
  with_ops g (fun o => match update o with None => Fault | Some f => run (f data) g end).

(** ** Properties of a context *)

Definition gensec_set_credentials (A : Allocator) (c : option cli_credentials) (g : gensec_security) : NTSTATUS * gensec_security :=
  (NT_STATUS_OK, on_context (set_credentials (match c with Some c => if @malloc_ok A 0 then To c else Nil | None => Nil end)) g).

(** talloc_strdup. *)
Definition dup (A : Allocator) (s : option (list Z)) : option (list Z) := if @malloc_ok A 0 then s else None.

Definition gensec_set_target_service (A : Allocator) (s : option (list Z)) (g : gensec_security) : NTSTATUS * gensec_security :=
  let t := target (context g) in
  (if dup A s is Some _ then NT_STATUS_OK else NT_STATUS_NO_MEMORY, on_context (set_target (GensecTarget (principal t) (hostname t) (dup A s))) g).
Definition gensec_get_target_service (g : gensec_security) : list Z := default (DomSid.str "host") (service (target (context g))).
Definition gensec_set_target_hostname (A : Allocator) (s : option (list Z)) (g : gensec_security) : NTSTATUS * gensec_security :=
  let t := target (context g) in
  (match s, dup A s with Some _, None => NT_STATUS_NO_MEMORY | _, _ => NT_STATUS_OK end,
   on_context (set_target (GensecTarget (principal t) (dup A s) (service t))) g).
(** [override] is the parameter gensec:target_hostname. *)
Definition gensec_get_target_hostname (override : option (list Z)) (g : gensec_security) : option (list Z) :=
  match override with Some h => Some h | None => hostname (target (context g)) end.
Definition gensec_set_target_principal (A : Allocator) (s : option (list Z)) (g : gensec_security) : NTSTATUS * gensec_security :=
  let t := target (context g) in
  (if dup A s is Some _ then NT_STATUS_OK else NT_STATUS_NO_MEMORY, on_context (set_target (GensecTarget (dup A s) (hostname t) (service t))) g).
Definition gensec_get_target_principal (g : gensec_security) : option (list Z) := principal (target (context g)).
Definition gensec_set_my_addr (A : Allocator) (a : option Addr) (g : gensec_security) : NTSTATUS * gensec_security :=
  (match a with Some _ => if @malloc_ok A 0 then NT_STATUS_OK else NT_STATUS_NO_MEMORY | None => NT_STATUS_OK end, on_context (set_my_addr a) g).
Definition gensec_set_peer_addr (A : Allocator) (a : option Addr) (g : gensec_security) : NTSTATUS * gensec_security :=
  (match a with Some _ => if @malloc_ok A 0 then NT_STATUS_OK else NT_STATUS_NO_MEMORY | None => NT_STATUS_OK end, on_context (set_peer_addr a) g).
Definition gensec_get_my_addr (g : gensec_security) : option Addr := my_addr (context g).
Definition gensec_get_peer_addr (g : gensec_security) : option Addr := peer_addr (context g).
End mechs.

(** ** Registration *)

Section register.
Context {P Info Addr : Type}.

(** [lp_enabled] is lp_parm_bool(-1, "gensec", name, default).  A list that cannot grow is
    lost with what is in it. *)
Definition gensec_register (lp_enabled : list Z -> bool -> bool) (A : Allocator) (registered : option (list (@gensec_security_ops P Info Addr)))
    (o : @gensec_security_ops P Info Addr) : outcome (NTSTATUS * option (list (@gensec_security_ops P Info Addr))) :=
  if negb (lp_enabled (name o) (enabled o)) then Ret (NT_STATUS_OK, registered)
  else
    let* found := gensec_security_by_name registered A None (name o) in
    match found with
    | Some _ => Ret (NT_STATUS_OBJECT_NAME_COLLISION, registered)
    | None =>
        if @malloc_ok A 2 then Ret (NT_STATUS_OK, Some (default [] registered ++ [o])) else Ret (NT_STATUS_NO_MEMORY, None)
    end.

Definition sort_gensec (gs1 gs2 : @gensec_security_ops P Info Addr) : Z := priority gs2 - priority gs1.
End register.
End Gensec.

Import Gensec.

(** ** The mechanisms both sides can agree on *)

Section lists.
Context {P Info Addr : Type}.
#[local] Abbreviation gensec_security := (@gensec_security P Info Addr).
#[local] Abbreviation gensec_security_ops := (@gensec_security_ops P Info Addr).

(** The identifier that a mechanism is agreed on: the first of the other side's, [skip]
    apart, that it has. *)
Definition common (o : gensec_security_ops) (theirs : list (list Z)) (skip : list Z) : option (list Z) :=
  find (fun s => negb (bool_decide (s = skip)) && offers (oid o) s) theirs.

(** Our mechanisms in our order, each once, with the identifier agreed on. *)
Fixpoint agreed (seen : list nat) (backends : list gensec_security_ops) (theirs : list (list Z)) (skip : list Z) :
    list (gensec_security_ops * list Z) :=
  match backends with
  | [] => []
  | o :: backends =>
      if existsb (Nat.eqb (address o)) seen then agreed seen backends theirs skip
      else
        match common o theirs skip with
        | Some s => (o, s) :: agreed (seen ++ [address o]) backends theirs skip
        | None => agreed seen backends theirs skip
        end
  end.

Lemma listed_snoc o (out : list (gensec_security_ops * list Z)) x s : listed o (map fst (out ++ [(x, s)])) = listed o (map fst out) || bool_decide (address x = address o).
Proof. unfold listed. rewrite map_app, existsb_app. cbn. by rewrite orb_false_r. Qed.

Lemma wrap_oids_listed A o mine theirs (out : list (gensec_security_ops * list Z)) : listed o (map fst out) = true -> wrap_oids A o mine theirs out = Some out.
Proof. intros Hl. induction mine as [|x mine IH]; [done|]. cbn [wrap_oids]. rewrite Hl, orb_true_r. apply IH. Qed.

Lemma wrap_oids_spec A o mine theirs (out : list (gensec_security_ops * list Z)) :
  malloc_always A -> listed o (map fst out) = false ->
  wrap_oids A o mine theirs out = Some (if existsb (fun x => bool_decide (x = theirs)) mine then out ++ [(o, theirs)] else out).
Proof.
  intros mem Hl. induction mine as [|x mine IH]; [done|]. cbn [wrap_oids existsb]. rewrite Hl, orb_false_r.
  destruct (bool_decide_reflect (x = theirs)) as [->|]; cbn [negb orb]; [|apply IH].
  rewrite mem. apply wrap_oids_listed. rewrite listed_snoc. rewrite (bool_decide_eq_true_2 (address o = address o)) by done. apply orb_true_r.
Qed.

Lemma wrap_backend_listed A o theirs skip (out : list (gensec_security_ops * list Z)) : listed o (map fst out) = true -> wrap_backend A o theirs skip out = Some out.
Proof.
  intros Hl. induction theirs as [|s theirs IH]; [done|]. cbn [wrap_backend]. case_match; [done|].
  by rewrite wrap_oids_listed.
Qed.

Lemma wrap_backend_spec A o theirs skip (out : list (gensec_security_ops * list Z)) :
  malloc_always A -> listed o (map fst out) = false ->
  wrap_backend A o theirs skip out = Some (match common o theirs skip with Some s => out ++ [(o, s)] | None => out end).
Proof.
  intros mem Hl. unfold common. induction theirs as [|s theirs IH]; [done|]. cbn [wrap_backend find].
  destruct (bool_decide (s = skip)); cbn [negb andb]; [done|]. rewrite wrap_oids_spec by done. unfold offers.
  destruct (existsb _ (default [] (oid o))); [|done]. apply wrap_backend_listed. rewrite listed_snoc.
  rewrite (bool_decide_eq_true_2 (address o = address o)) by done. apply orb_true_r.
Qed.

Lemma wrap_backends_spec A backends theirs skip (out : list (gensec_security_ops * list Z)) :
  malloc_always A ->
  wrap_backends A backends theirs skip out = Some (out ++ agreed (map (fun w : gensec_security_ops * list Z => address w.1) out) backends theirs skip).
Proof.
  intros mem. revert out. induction backends as [|o backends IH]; intros out; cbn [wrap_backends agreed]; [by rewrite app_nil_r|].
  assert (existsb (Nat.eqb (address o)) (map (fun w : gensec_security_ops * list Z => address w.1) out) = listed o (map fst out)) as ->.
  { clear IH. unfold listed. induction out as [|w out IHo]; [done|]. cbn. rewrite IHo. f_equal.
    destruct (Nat.eqb_spec (address o) (address w.1)), (bool_decide_reflect (address w.1 = address o)); congruence. }
  assert (wrap_backend A o (match oid o with Some _ => theirs | None => [] end) skip out =
    Some (if listed o (map fst out) then out else match common o theirs skip with Some s => out ++ [(o, s)] | None => out end)) as ->.
  { destruct (listed o (map fst out)) eqn:Hl; [destruct (oid o); by rewrite wrap_backend_listed|]. rewrite wrap_backend_spec by done.
    destruct (oid o) eqn:Eo; [done|]. replace (common o theirs skip) with (@None (list Z)); [done|].
    unfold common, offers. rewrite Eo. cbn. clear. induction theirs as [|s theirs IH]; [done|]. cbn. rewrite andb_false_r. apply IH. }
  destruct (listed o (map fst out)); [apply IH|]. destruct (common o theirs skip) as [s|]; [|apply IH].
  by rewrite IH, <- app_assoc, map_app.
Qed.

Lemma agreed_sound seen backends theirs skip w :
  In w (agreed seen backends theirs skip) ->
  In w.1 backends /\ common w.1 theirs skip = Some w.2 /\ ~ In (address w.1) seen.
Proof.
  revert seen. induction backends as [|o backends IH]; intros seen; cbn [agreed]; [done|].
  destruct (existsb (Nat.eqb (address o)) seen) eqn:Es.
  - intros Hw. destruct (IH _ Hw) as (? & ? & ?). split_and!; [by right|done|done].
  - destruct (common o theirs skip) as [s|] eqn:Ec.
    + intros [<-|Hw].
      * split_and!; [by left|done|]. cbn [fst]. intros Hin. apply not_true_iff_false in Es. apply Es, existsb_exists.
        exists (address o). split; [done|apply Nat.eqb_refl].
      * destruct (IH _ Hw) as (? & ? & Hn). split_and!; [by right|done|]. intros Hin. apply Hn, in_or_app. by left.
    + intros Hw. destruct (IH _ Hw) as (? & ? & ?). split_and!; [by right|done|done].
Qed.

Lemma agreed_NoDup seen backends theirs skip : NoDup (map (fun w : gensec_security_ops * list Z => address w.1) (agreed seen backends theirs skip)).
Proof.
  revert seen. induction backends as [|o backends IH]; intros seen; cbn [agreed]; [constructor|].
  destruct (existsb (Nat.eqb (address o)) seen); [apply IH|]. destruct (common o theirs skip) as [s|]; [|apply IH].
  cbn [map]. constructor; [|apply IH]. rewrite list_elem_of_In, in_map_iff. intros (w & Ew & Hw).
  apply agreed_sound in Hw as (_ & _ & Hn). apply Hn. rewrite Ew. apply in_or_app. right. by left.
Qed.

Lemma agreed_complete seen backends theirs skip o s :
  In o backends -> common o theirs skip = Some s -> ~ In (address o) seen ->
  In (address o) (map (fun w : gensec_security_ops * list Z => address w.1) (agreed seen backends theirs skip)).
Proof.
  revert seen. induction backends as [|x backends IH]; intros seen Ho Hs Hn; [done|]. cbn [agreed].
  destruct (existsb (Nat.eqb (address x)) seen) eqn:Es.
  - destruct Ho as [<-|Ho]; [|by apply IH]. exfalso. apply existsb_exists in Es as (k & Hk & Ek). apply Nat.eqb_eq in Ek as <-. done.
  - destruct (decide (address x = address o)) as [Ex|Hne].
    + destruct (common x theirs skip) as [t|] eqn:Ec; [cbn [map]; left; exact Ex|].
      destruct Ho as [<-|Ho]; [congruence|]. by apply IH.
    + destruct Ho as [<-|Ho]; [done|]. destruct (common x theirs skip) as [t|]; [|by apply IH]. cbn [map]. right.
      apply IH; [done|done|]. intros Hin. apply in_app_or in Hin as [?|[?|[]]]; [done|by apply Hne].
Qed.

(** ** The choice of Kerberos *)

(** What a round keeps: SPNEGO once for its identifier and once more for its table. *)
Definition kept (k : credentials_use_kerberos) (o : gensec_security_ops) : list gensec_security_ops :=
  (if offers (oid o) GENSEC_OID_SPNEGO then [o] else []) ++
  match k with
  | CRED_AUTO_USE_KERBEROS => []
  | CRED_DONT_USE_KERBEROS => if kerberos o then [] else [o]
  | CRED_MUST_USE_KERBEROS => if kerberos o then [o] else []
  end.

(** Entries appended as far as the array reaches. *)
Definition pushed {T} (size : nat) (l xs : list T) : outcome (list T) := if bool_decide (length (l ++ xs) <= size)%nat then Ret (l ++ xs) else Fault.

Lemma pushed_app {T} size (l xs ys : list T) : (let* m := pushed size l xs in pushed size m ys) = pushed size l (xs ++ ys).
Proof.
  unfold pushed. rewrite (app_assoc l xs ys). destruct (bool_decide_reflect (length (l ++ xs) <= size)%nat); cbn [obind]; [done|].
  rewrite bool_decide_eq_false_2; [done|]. rewrite (length_app (l ++ xs) ys). lia.
Qed.

Lemma pushed_nil {T} size (l : list T) : (length l <= size)%nat -> Ret l = pushed size l [].
Proof. intros Hl. unfold pushed. rewrite app_nil_r. by rewrite bool_decide_eq_true_2. Qed.

Lemma pushed_one {T} size (l : list T) x : push_entry size l x = pushed size l [x].
Proof.
  unfold push_entry, pushed. rewrite length_app. cbn [length].
  repeat case_bool_decide; done || lia.
Qed.

Lemma obind_ext {B C} (m : outcome B) (f g : B -> outcome C) : (forall b, m = Ret b -> f b = g b) -> obind m f = obind m g.
Proof. intros H. destruct m; [by apply H|done]. Qed.

Lemma pushed_fits {T} size (l xs m : list T) : pushed size l xs = Ret m -> (length m <= size)%nat.
Proof. unfold pushed. case_bool_decide; [by intros [= <-]|done]. Qed.

Lemma keep_mech_spec size k l o : (length l <= size)%nat -> keep_mech size k l o = pushed size l (kept k o).
Proof.
  intros Hl. unfold keep_mech, kept. rewrite <- pushed_app.
  replace (if offers (oid o) GENSEC_OID_SPNEGO then push_entry size l o else Ret l)
    with (pushed size l (if offers (oid o) GENSEC_OID_SPNEGO then [o] else [])) by (destruct (offers _ _); [by rewrite pushed_one|by apply eq_sym, pushed_nil]).
  apply obind_ext. intros m Hm. apply pushed_fits in Hm.
  destruct k; [by apply pushed_nil| |]; destruct (kerberos o); cbn [negb]; first [by apply pushed_one|by apply pushed_nil].
Qed.

Lemma keep_mechs_spec size k l old : (length l <= size)%nat -> keep_mechs size k l old = pushed size l (concat (map (kept k) old)).
Proof.
  revert l. induction old as [|o old IH]; intros l Hl; cbn [keep_mechs map concat]; [by apply pushed_nil|].
  rewrite keep_mech_spec, <- pushed_app by done. apply obind_ext. intros m Hm. by apply IH, (pushed_fits _ _ _ _ Hm).
Qed.

Lemma use_kerberos_spec A old k :
  malloc_always A -> k <> CRED_AUTO_USE_KERBEROS ->
  gensec_use_kerberos_mechs A (Some old) k =
    if bool_decide (length (concat (map (kept k) old)) <= length old)%nat then Ret (Some (concat (map (kept k) old))) else Fault.
Proof.
  intros mem Hk. set (l := concat (map (kept k) old)).
  assert ((let* l := keep_mechs (S (length old)) k [] old in if bool_decide (S (length old) <= length l)%nat then Fault else Ret (Some l)) =
            if bool_decide (length l <= length old)%nat then Ret (Some l) else Fault) as E.
  { rewrite keep_mechs_spec by (cbn; lia). unfold pushed. cbn [app]. fold l.
    destruct (bool_decide_reflect (length l <= length old)%nat).
    - rewrite bool_decide_eq_true_2 by lia. cbn [obind]. by rewrite bool_decide_eq_false_2 by lia.
    - destruct (bool_decide_reflect (length l <= S (length old))%nat); cbn [obind]; [|done]. by rewrite bool_decide_eq_true_2 by lia. }
  unfold gensec_use_kerberos_mechs. destruct k; [done| |]; by rewrite mem.
Qed.

(** With no Kerberos mechanism registered, refusing Kerberos writes behind the array. *)
Lemma kept_overflows old o :
  In o old -> offers (oid o) GENSEC_OID_SPNEGO = true -> (forall o, In o old -> kerberos o = false) ->
  (length old < length (concat (map (kept CRED_DONT_USE_KERBEROS) old)))%nat.
Proof.
  assert (forall l, (forall x, In x l -> kerberos x = false) -> (length l <= length (concat (map (kept CRED_DONT_USE_KERBEROS) l)))%nat) as Hle.
  { induction l as [|y l IH]; intros Hy; [cbn; lia|]. cbn [map concat length]. rewrite length_app. pose proof (IH (fun x Hx => Hy x (or_intror Hx))).
    unfold kept at 1. rewrite (Hy y (or_introl eq_refl)). rewrite length_app. cbn [length]. lia. }
  intros Ho Hs Hk. induction old as [|x old IH]; [done|]. cbn [map concat length]. rewrite length_app. unfold kept at 1.
  rewrite (Hk x (or_introl eq_refl)), length_app. cbn [length]. destruct Ho as [->|Ho].
  - rewrite Hs. cbn [length]. pose proof (Hle old (fun y Hy => Hk y (or_intror Hy))). lia.
  - pose proof (IH Ho (fun y Hy => Hk y (or_intror Hy))). lia.
Qed.
End lists.

(** The mechanisms that the two sides can agree on are found as the reference
    [agreed] finds them: those of ours, in our order, each once, that have an identifier of
    the other side's list, with the first of these identifiers, the skipped one apart.
    The list that Kerberos is chosen or refused in is the registered one with what the
    choice keeps, SPNEGO twice where it is not a Kerberos mechanism, and is written behind
    its end where that makes it longer than the registered one, as it does where Kerberos is
    refused and no registered mechanism is Kerberos. *)
Theorem mechanism_lists {P Info Addr : Type} (A : Allocator) (registered : list (@gensec_security_ops P Info Addr)) g theirs skip backends :
  malloc_always A ->
  (gensec_security_mechs (Some registered) A g = Ret (Some backends) ->
   let found := agreed [] backends theirs skip in
   gensec_security_by_oid_list (Some registered) A g (Some theirs) skip = Ret (Some found) /\
   NoDup (map (fun w => address w.1) found) /\
   (forall o s, In (o, s) found -> In o backends /\ In s theirs /\ s <> skip /\ offers (oid o) s = true) /\
   (forall o s, In o backends -> In s theirs -> s <> skip -> offers (oid o) s = true -> In (address o) (map (fun w => address w.1) found))) /\
  (forall k, k <> CRED_AUTO_USE_KERBEROS ->
     gensec_use_kerberos_mechs A (Some registered) k =
       if bool_decide (length (concat (map (kept k) registered)) <= length registered)%nat then Ret (Some (concat (map (kept k) registered))) else Fault) /\
  (forall o, In o registered -> offers (oid o) GENSEC_OID_SPNEGO = true -> (forall o, In o registered -> kerberos o = false) ->
     gensec_use_kerberos_mechs A (Some registered) CRED_DONT_USE_KERBEROS = Fault).
Proof.
  intros mem. split_and!.
  - intros Hb found. split_and!.
    + unfold gensec_security_by_oid_list. rewrite Hb. cbn [obind]. rewrite mem. cbn [negb default]. by rewrite wrap_backends_spec by (intros n; apply mem).
    + apply agreed_NoDup.
    + intros o s Hin. apply agreed_sound in Hin as (Ho & Hc & _). cbn [fst snd] in *. unfold common in Hc. apply find_some in Hc as [Hs Hp].
      apply andb_true_iff in Hp as [Hp Hof]. apply negb_true_iff, bool_decide_eq_false_1 in Hp. done.
    + intros o s Ho Hs Hne Hof. destruct (common o theirs skip) as [t|] eqn:Ec; [apply (agreed_complete _ _ _ _ o t Ho Ec); by intros []|].
      exfalso. pose proof (List.find_none _ _ Ec s Hs) as Hf. cbn beta in Hf. rewrite Hof, andb_true_r in Hf. apply negb_false_iff, bool_decide_eq_true_1 in Hf. done.
  - intros k Hk. by apply use_kerberos_spec.
  - intros o Ho Hs Hk. rewrite use_kerberos_spec by done. rewrite bool_decide_eq_false_2; [done|].
    pose proof (kept_overflows registered o Ho Hs Hk). lia.
Qed.

(** A table with identifiers only. *)
Definition bare (n : nat) (oids : option (list (list Z))) (k : bool) : @gensec_security_ops unit unit unit :=
  GensecOps n [] None 0 oids None None None None None None None None None None None None None None None None true k 0.
Definition spnego_entry := bare 0 (Some [GENSEC_OID_SPNEGO]) false.
Definition ntlmssp_entry := bare 1 (Some [DomSid.str "1 3 6 1 4 1 311 2 2 10"]) false.
Definition krb5_entry := bare 2 (Some [DomSid.str "1 2 840 113554 1 2 2"; DomSid.str "1 2 840 48018 1 2 2"]) true.

Lemma mechanism_lists_witness :
  malloc_always calloc /\
  gensec_security_by_oid_list (Some [spnego_entry; krb5_entry; ntlmssp_entry]) calloc None
    (Some [DomSid.str "1 3 6 1 4 1 311 2 2 10"; GENSEC_OID_SPNEGO; DomSid.str "1 2 840 48018 1 2 2"]) GENSEC_OID_SPNEGO =
    Ret (Some [(krb5_entry, DomSid.str "1 2 840 48018 1 2 2"); (ntlmssp_entry, DomSid.str "1 3 6 1 4 1 311 2 2 10")]) /\
  gensec_use_kerberos_mechs calloc (Some [spnego_entry; ntlmssp_entry]) CRED_DONT_USE_KERBEROS = Fault.
Proof.
  assert (malloc_always calloc) as mem by (by intros n). split_and!; [done| |].
  - destruct (mechanism_lists calloc [spnego_entry; krb5_entry; ntlmssp_entry] None
      [DomSid.str "1 3 6 1 4 1 311 2 2 10"; GENSEC_OID_SPNEGO; DomSid.str "1 2 840 48018 1 2 2"] GENSEC_OID_SPNEGO
      [spnego_entry; krb5_entry; ntlmssp_entry] mem) as (H & _). destruct (H eq_refl) as (E & _). rewrite E. by vm_compute.
  - apply (mechanism_lists calloc [spnego_entry; ntlmssp_entry] None [] [] [] mem) with (o := spnego_entry); [by left|by vm_compute|].
    intros o [<-|[<-|[]]]; done.
Defined.
