(* ===== verification/SpnegoUpdate.v ===== *)
(** auth/gensec/spnego.c: the negotiation of a mechanism, as a state machine over the
    tokens of Spnego and the mechanisms of Gensec. *)

From stdpp Require Import strings.
From S2P Require Import Prelude Digest Byteorder Ntstatus DomSid CliCredentials Ntlmssp Gensec Asn1 Spnego.
Import Gensec Spnego.
Import CliCredentials(cli_credentials, cstr, Garbage, Null, Str).

#[local] Open Scope outcome_scope.

Module SpnegoUpdate.

Inductive spnego_state_position :=
| SPNEGO_SERVER_START | SPNEGO_CLIENT_START | SPNEGO_SERVER_TARG | SPNEGO_CLIENT_TARG | SPNEGO_FALLBACK | SPNEGO_DONE.

#[export] Instance spnego_state_position_eq_dec : EqDecision spnego_state_position.
Proof. solve_decision. Defined.

Definition SPNEGO_ACCEPT_INCOMPLETE : Z := 1.
Definition SPNEGO_REJECT : Z := 2.

Section spnego.
Context {P Info Addr : Type}.
#[local] Abbreviation gensec_security := (@gensec_security P Info Addr).
#[local] Abbreviation gensec_security_ops := (@gensec_security_ops P Info Addr).
#[local] Abbreviation gensec_context := (@gensec_context P Addr).

Record spnego_state := SpnegoState {
  expected_packet : Z;
  state_position : spnego_state_position;
  sub_sec_security : option gensec_security;
  no_response_expected : bool;
  neg_oid : ptr (list Z)
}.

Definition set_expected_packet x (s : spnego_state) := SpnegoState x (state_position s) (sub_sec_security s) (no_response_expected s) (neg_oid s).
Definition set_position x (s : spnego_state) := SpnegoState (expected_packet s) x (sub_sec_security s) (no_response_expected s) (neg_oid s).
Definition set_sub x (s : spnego_state) := SpnegoState (expected_packet s) (state_position s) x (no_response_expected s) (neg_oid s).
Definition set_no_response x (s : spnego_state) := SpnegoState (expected_packet s) (state_position s) (sub_sec_security s) x (neg_oid s).
Definition set_neg_oid x (s : spnego_state) := SpnegoState (expected_packet s) (state_position s) (sub_sec_security s) (no_response_expected s) x.

(** The registered mechanisms, cli_credentials_get_principal, and the memory that each
    allocating call finds. *)
Context (registered : option (list gensec_security_ops)) (get_principal : cli_credentials -> option (list Z)) (A : nat -> Allocator).

(** [neg_oid] is not set. *)
Definition gensec_spnego_client_start : NTSTATUS * option spnego_state :=
  if @malloc_ok (A 0) 0 then (NT_STATUS_OK, Some (SpnegoState SPNEGO_NEG_TOKEN_INIT SPNEGO_CLIENT_START None false Wild)) else (NT_STATUS_NO_MEMORY, None).
Definition gensec_spnego_server_start : NTSTATUS * option spnego_state :=
  if @malloc_ok (A 0) 0 then (NT_STATUS_OK, Some (SpnegoState SPNEGO_NEG_TOKEN_INIT SPNEGO_SERVER_START None false Wild)) else (NT_STATUS_NO_MEMORY, None).

(** ** The calls of a session *)

Definition negotiated (s : spnego_state) : bool := bool_decide (state_position s = SPNEGO_DONE \/ state_position s = SPNEGO_FALLBACK).

(** A call of the mechanism, which has to be there. *)
Definition sub_call {R} (f : gensec_security -> outcome (R * gensec_security)) (s : spnego_state) : outcome (R * spnego_state) :=
  match sub_sec_security s with
  | None => Fault
  | Some g => let* r := f g in Ret (r.1, set_sub (Some r.2) s)
  end.
Definition in_session {R} (refused : R) (f : gensec_security -> outcome (R * gensec_security)) (s : spnego_state) : outcome (R * spnego_state) :=
  if negotiated s then sub_call f s else Ret (refused, s).
Definition with_sub {R} (refused : R) (f : gensec_security -> outcome (R * gensec_security)) (s : spnego_state) : outcome (R * spnego_state) :=
  match sub_sec_security s with None => Ret (refused, s) | Some _ => sub_call f s end.

Definition gensec_spnego_unseal_packet pdu ofs n sig :=
  in_session (NT_STATUS_INVALID_PARAMETER, pdu) (gensec_unseal_packet pdu ofs n sig).
Definition gensec_spnego_check_packet pdu ofs n sig :=
  in_session NT_STATUS_INVALID_PARAMETER (gensec_check_packet pdu ofs n sig).
Definition gensec_spnego_seal_packet pdu ofs n :=
  in_session (NT_STATUS_INVALID_PARAMETER, pdu, None) (gensec_seal_packet pdu ofs n).
Definition gensec_spnego_sign_packet pdu ofs n :=
  in_session (NT_STATUS_INVALID_PARAMETER, None) (gensec_sign_packet pdu ofs n).
Definition gensec_spnego_wrap data := in_session (NT_STATUS_INVALID_PARAMETER, None) (gensec_wrap data).
Definition gensec_spnego_unwrap data := in_session (NT_STATUS_INVALID_PARAMETER, None) (gensec_unwrap data).
Definition gensec_spnego_sig_size data_size := in_session 0 (gensec_sig_size data_size).
Definition gensec_spnego_max_input_size := in_session 0 gensec_max_input_size.
Definition gensec_spnego_max_wrapped_size := in_session 0 gensec_max_wrapped_size.
Definition gensec_spnego_session_key := with_sub (NT_STATUS_INVALID_PARAMETER, None) gensec_session_key.
Definition gensec_spnego_session_info := with_sub (NT_STATUS_INVALID_PARAMETER, None) gensec_session_info.
Definition gensec_spnego_have_feature feature := with_sub false (gensec_have_feature feature).

(** ** The negotiation *)

(** A step's status, output and next state. *)
Definition result : Type := NTSTATUS * blob * spnego_state.

(** gensec_subcontext_start into [sub_sec_security], and gensec_start_mech_by_ops on it:
    [None] where there is no memory. *)
Definition start_sub (k : nat) (parent : gensec_security) (o : gensec_security_ops) (s : spnego_state) : outcome (option NTSTATUS * spnego_state) :=
  match gensec_subcontext_start (A k) (context parent) with
  | (NT_STATUS_OK, Some g) => let* r := gensec_start_mech_by_ops o g in Ret (Some r.1, set_sub (Some r.2) s)
  | _ => Ret (None, set_sub None s)
  end.

Definition sub_update (data : blob) (s : spnego_state) : outcome (NTSTATUS * blob * spnego_state) := sub_call (gensec_update data) s.

(** A mechanism that finds the token or the demand not to its liking. *)
Definition unsuitable (status : NTSTATUS) : bool :=
  bool_decide (status = NT_STATUS_INVALID_PARAMETER) || bool_decide (status = NT_STATUS_CANT_ACCESS_DOMAIN_INFO).
Definition good (status : NTSTATUS) : bool := bool_decide (status = NT_STATUS_MORE_PROCESSING_REQUIRED) || NT_STATUS_IS_OK status.

Definition offers_spnego (o : gensec_security_ops) : bool := offers (oid o) GENSEC_OID_SPNEGO.

(** The first mechanism whose magic the token has. *)
Fixpoint try_fallback (parent : gensec_security) (l : list gensec_security_ops) (data : blob) (s : spnego_state) : outcome result :=
  match l with
  | [] => Ret (NT_STATUS_INVALID_PARAMETER, None, s)
  | o :: l =>
      match oid o, magic o with
      | Some _, Some m =>
          if offers_spnego o then try_fallback parent l data s
          else
            let* status := m (default [] data) (context parent) in
            if negb (NT_STATUS_IS_OK status) then try_fallback parent l data s
            else
              let* st := start_sub 2 parent o (set_position SPNEGO_FALLBACK s) in
              match st with
              | (None, s) => Ret (NT_STATUS_NO_MEMORY, None, s)
              | (Some NT_STATUS_OK, s) => sub_update data s
              | (Some status, s) => Ret (status, None, s)
              end
      | _, _ => try_fallback parent l data s
      end
  end.

(** all_ops is not tested for null. *)
Definition gensec_spnego_server_try_fallback (parent : gensec_security) (data : blob) (s : spnego_state) : outcome result :=
  let* all_ops := gensec_security_mechs registered (A 1) (Some parent) in
  match all_ops with None => Fault | Some l => try_fallback parent l data s end.

(** The token that came with the proposal is put to the mechanism that it is for.  [inl]
    is a result that is returned at once. *)
Definition try_optimistic (parent : gensec_security) (all_sec : list gensec_security_ops_wrapper) (mech : list Z) (unwrapped_in : blob) (s : spnego_state) :
    outcome (result + result) :=
  match find (fun w : gensec_security_ops_wrapper => bool_decide (w.2 = mech)) all_sec with
  | None => Ret (inr (NT_STATUS_INVALID_PARAMETER, None, s))
  | Some w =>
      let* st := start_sub 2 parent w.1 s in
      match st with
      | (None, s) => Ret (inl (NT_STATUS_NO_MEMORY, None, s))
      | (Some NT_STATUS_OK, s) =>
          let* r := sub_update unwrapped_in s in
          let '(status, out, s) := r in
          if unsuitable status then Ret (inr (status, out, set_sub None s)) else Ret (inr (status, out, set_neg_oid (To w.2) s))
      | (Some status, s) => Ret (inr (status, None, set_sub None s))
      end
  end.

(** The mechanisms in our order, started without a token. *)
Fixpoint try_in_order (k : nat) (parent : gensec_security) (all_sec : list gensec_security_ops_wrapper) (r : result) : outcome (result + result) :=
  match all_sec with
  | [] => Ret (inr r)
  | w :: all_sec =>
      let '(_, out, s) := r in
      let* st := start_sub k parent w.1 s in
      match st with
      | (None, s) => Ret (inl (NT_STATUS_NO_MEMORY, out, s))
      | (Some NT_STATUS_OK, s) =>
          let* r := sub_update None (set_neg_oid (To w.2) s) in
          let '(status, out, s) := r in
          if negb (bool_decide (state_position s = SPNEGO_SERVER_START)) && unsuitable status
          then try_in_order (S k) parent all_sec (status, out, set_sub None s)
          else Ret (inr r)
      | (Some status, s) => try_in_order (S k) parent all_sec (status, out, set_sub None s)
      end
  end.

Definition gensec_spnego_parse_negTokenInit (parent : gensec_security) (mechType : option (list (list Z))) (unwrapped_in : blob) (s : spnego_state) :
    outcome result :=
  let* all := gensec_security_by_oid_list registered (A 1) (Some parent) mechType GENSEC_OID_SPNEGO in
  let all_sec := default [] all in
  let* first :=
    (if bool_decide (state_position s = SPNEGO_SERVER_START) then
       match mechType with Some (m :: _) => try_optimistic parent all_sec m unwrapped_in s | _ => Ret (inr (NT_STATUS_INVALID_PARAMETER, None, s)) end
     else Ret (inr (NT_STATUS_INVALID_PARAMETER, None, s))) in
  match first with
  | inl r => Ret r
  | inr r =>
      let* second := (match sub_sec_security r.2 with Some _ => Ret (inr r) | None => try_in_order 3 parent all_sec r end) in
      match second with
      | inl r => Ret r
      | inr (status, out, s) =>
          match sub_sec_security s with
          | None => Ret (NT_STATUS_INVALID_PARAMETER, out, s)
          | Some _ =>
              if bool_decide (status = NT_STATUS_INVALID_PARAMETER) then Ret (NT_STATUS_MORE_PROCESSING_REQUIRED, None, s)
              else if good status then Ret (status, out, s)
              else Ret (status, out, set_sub None s)
          end
      end
  end.

(** A token is written to the output. *)
Definition reply (k : nat) (t : spnego_data) (out : blob) : outcome (bool * blob) :=
  let* w := spnego_write_data (A k) t in
  Ret (negb (w.1 =? -1), match w.2 with Some b => b | None => out end).

(** The mechanisms in our order: the first that starts is proposed, with the identifiers of
    all from it on. *)
Fixpoint propose (k : nat) (parent : gensec_security) (all_sec : list gensec_security_ops_wrapper) (s : spnego_state) : outcome result :=
  match all_sec with
  | [] => Ret (NT_STATUS_INVALID_PARAMETER, None, set_sub None s)
  | w :: rest =>
      let* st := start_sub k parent w.1 s in
      match st with
      | (None, s) => Ret (NT_STATUS_NO_MEMORY, None, s)
      | (Some NT_STATUS_OK, s) =>
          let* r := (if bool_decide (state_position s = SPNEGO_CLIENT_START) then sub_update None s else Ret (NT_STATUS_OK, None, s)) in
          let '(status, unwrapped_out, s) := r in
          if negb (good status) then propose (S (S (S k))) parent rest (set_sub None s)
          else
            let mechTypes := gensec_security_oids_from_ops_wrapped (A (S k)) (Some all_sec) in
            let* principal :=
              (if bool_decide (state_position s = SPNEGO_SERVER_START) then
                 match credentials (context parent) with Wild => Fault | Nil => Ret None | To c => Ret (get_principal c) end
               else Ret None) in
            let* r := reply (S (S k)) (SpnegoData SPNEGO_NEG_TOKEN_INIT (NegTokenInit (map Some <$> mechTypes) 0 unwrapped_out principal Garbage) zero_targ) None in
            if negb r.1 then Ret (NT_STATUS_INVALID_PARAMETER, r.2, s)
            else
              let s := set_neg_oid (To w.2) s in
              Ret (NT_STATUS_MORE_PROCESSING_REQUIRED, r.2, if NT_STATUS_IS_OK status then set_no_response true s else s)
      | (Some _, s) => propose (S (S (S k))) parent rest (set_sub None s)
      end
  end.

Definition gensec_spnego_create_negTokenInit (parent : gensec_security) (s : spnego_state) : outcome result :=
  let* mechTypes := gensec_security_oids registered (A 1) (Some parent) (Some GENSEC_OID_SPNEGO) in
  let* all_sec := gensec_security_by_oid_list registered (A 2) (Some parent) mechTypes GENSEC_OID_SPNEGO in
  propose 3 parent (default [] all_sec) s.

(** A string that is read. *)
Definition read_ptr (p : ptr (list Z)) : outcome (option (list Z)) := match p with Wild => Fault | Nil => Ret None | To s => Ret (Some s) end.

Definition gensec_spnego_server_negTokenTarg (status : NTSTATUS) (unwrapped_out : blob) (s : spnego_state) : outcome result :=
  let* r :=
    (if bool_decide (status = NT_STATUS_MORE_PROCESSING_REQUIRED) then
       let* mech := read_ptr (neg_oid s) in Ret (mech, SPNEGO_ACCEPT_INCOMPLETE, SPNEGO_SERVER_TARG)
     else if NT_STATUS_IS_OK status then
       let* mech := (match unwrapped_out with Some _ => read_ptr (neg_oid s) | None => Ret None end) in
       Ret (mech, SPNEGO_ACCEPT_COMPLETED, SPNEGO_DONE)
     else Ret (None, SPNEGO_REJECT, SPNEGO_DONE)) in
  let '(mech, negResult, position) := r in
  let s := set_position position s in
  let* w := reply 0 (SpnegoData SPNEGO_NEG_TOKEN_TARG zero_init (NegTokenTarg negResult mech unwrapped_out None)) None in
  if negb w.1 then Ret (NT_STATUS_INVALID_PARAMETER, w.2, s)
  else Ret (status, w.2, set_expected_packet SPNEGO_NEG_TOKEN_TARG s).

(** What is left of a token that is freed. *)
Definition spnego_free_data (_ : spnego_data) : spnego_data := SpnegoData 0 zero_init zero_targ.

(** The step of the client on an answer, up to the freeing of the token: the status, what
    the mechanism gave out, and the state; [inl] returns at once. *)
Definition client_answer (parent : gensec_security) (t : spnego_negTokenTarg) (s : spnego_state) : outcome (NTSTATUS * spnego_state + result) :=
  let* changed :=
    (if negResult t =? SPNEGO_ACCEPT_INCOMPLETE then
       match supportedMech t, neg_oid s with Some m, To n => Ret (negb (bool_decide (m = n))) | _, _ => Fault end
     else Ret false) in
  if (changed : bool) then
    match gensec_subcontext_start (A 1) (context parent) with
    | (NT_STATUS_OK, Some g) =>
        let* r := gensec_start_mech_by_oid registered (A 2) (default [] (supportedMech t)) g in
        let s := set_sub (Some r.2) s in
        match r.1 with
        | NT_STATUS_OK =>
            let* r := sub_update (responseToken t) s in
            Ret (inr (r.1, set_neg_oid (match supportedMech t with Some m => if @malloc_ok (A 3) 0 then To m else Nil | None => Nil end) r.2))
        | status => Ret (inl (status, s))
        end
    | _ => Ret (inl (NT_STATUS_NO_MEMORY, set_sub None s))
    end
  else if no_response_expected s then
    Ret (inr (if negb (negResult t =? SPNEGO_ACCEPT_COMPLETED) then NT_STATUS_INVALID_PARAMETER
              else if (0 <? Z.of_nat (blob_length (responseToken t))) then NT_STATUS_INVALID_PARAMETER else NT_STATUS_OK, None, s))
  else
    let* r := sub_update (responseToken t) s in
    let '(status, out, s) := r in
    Ret (inr (status, out, if NT_STATUS_IS_OK status then set_no_response true s else s)).

(** The client's step on an answer that was not a rejection; [spnego] is the token. *)
Definition client_targ (parent : gensec_security) (spnego : spnego_data) (s : spnego_state) : outcome result :=
  let* a := client_answer parent (negTokenTarg spnego) s in
  match a with
  | inl (status, s) => Ret (status, None, s)
  | inr (status, unwrapped_out, s) =>
      let spnego := spnego_free_data spnego in
      if negb (good status) then Ret (status, None, s)
      else if (0 <? Z.of_nat (blob_length unwrapped_out)) then
        let* w := reply 0 (SpnegoData SPNEGO_NEG_TOKEN_TARG zero_init (NegTokenTarg SPNEGO_NONE_RESULT None unwrapped_out None)) None in
        if negb w.1 then Ret (NT_STATUS_INVALID_PARAMETER, w.2, s)
        else Ret (NT_STATUS_MORE_PROCESSING_REQUIRED, w.2, set_position SPNEGO_CLIENT_TARG s)
      else
        Ret (if negb (negResult (negTokenTarg spnego) =? SPNEGO_ACCEPT_COMPLETED) then NT_STATUS_INVALID_PARAMETER else status, None,
             set_position SPNEGO_DONE s)
  end.

(** The client's step on a proposal of the server. *)
Definition client_init (parent : gensec_security) (spnego : spnego_data) (s : spnego_state) : outcome (result * gensec_security) :=
  let n := negTokenInit spnego in
  let* parent :=
    (match targetPrincipal n with
     | Garbage => Fault
     | Null => Ret parent
     | Str p => Ret (gensec_set_target_principal (A 9) (Some p) parent).2
     end) in
  let* r := gensec_spnego_parse_negTokenInit parent (mech_list <$> mechTypes n) (mechToken n) s in
  let '(status, unwrapped_out, s) := r in
  if negb (good status) then Ret (status, None, s, parent)
  else
    let* mech := read_ptr (neg_oid s) in
    let* w := reply 0 (SpnegoData SPNEGO_NEG_TOKEN_INIT (NegTokenInit (Some [mech]) 0 unwrapped_out None Garbage) zero_targ) None in
    if negb w.1 then Ret (NT_STATUS_INVALID_PARAMETER, w.2, s, parent)
    else
      let s := set_position SPNEGO_CLIENT_TARG (set_expected_packet SPNEGO_NEG_TOKEN_TARG s) in
      Ret (NT_STATUS_MORE_PROCESSING_REQUIRED, w.2, if NT_STATUS_IS_OK status then set_no_response true s else s, parent).

(** Reading a token of the expected type. *)
Definition expect (data : blob) (s : spnego_state) : outcome (option spnego_data) :=
  if bool_decide (blob_length data = 0%nat) then Ret None
  else
    let* r := spnego_read_data (A 8) (default [] data) in
    Ret (if r.1 =? -1 then None else if negb (type r.2 =? expected_packet s) then None else Some r.2).

Definition gensec_spnego_update (parent : gensec_security) (data : blob) (s : spnego_state) : outcome (result * gensec_security) :=
  let keep (r : outcome result) := let* r := r in Ret (r, parent) in
  let invalid := Ret (NT_STATUS_INVALID_PARAMETER, None, s, parent) in
  match state_position s with
  | SPNEGO_FALLBACK => keep (sub_update data s)
  | SPNEGO_SERVER_START =>
      if bool_decide (blob_length data = 0%nat) then
        keep (let* r := gensec_spnego_create_negTokenInit parent s in
              let '(status, out, s) := r in
              Ret (status, out, set_expected_packet SPNEGO_NEG_TOKEN_INIT (set_position SPNEGO_SERVER_START s)))
      else
        let* r := spnego_read_data (A 8) (default [] data) in
        if r.1 =? -1 then keep (gensec_spnego_server_try_fallback parent data s)
        else if negb (type r.2 =? expected_packet s) then invalid
        else
          keep (let n := negTokenInit r.2 in
                let* p := gensec_spnego_parse_negTokenInit parent (mech_list <$> mechTypes n) (mechToken n) s in
                let '(status, unwrapped_out, s) := p in
                gensec_spnego_server_negTokenTarg status unwrapped_out s)
  | SPNEGO_CLIENT_START =>
      if bool_decide (blob_length data = 0%nat) then
        keep (let* r := gensec_spnego_create_negTokenInit parent s in
              let '(status, out, s) := r in
              Ret (status, out, set_expected_packet SPNEGO_NEG_TOKEN_TARG (set_position SPNEGO_CLIENT_TARG s)))
      else
        let* t := expect data s in
        match t with None => invalid | Some t => client_init parent t s end
  | SPNEGO_SERVER_TARG =>
      let* t := expect data s in
      match t, sub_sec_security s with
      | Some t, Some _ =>
          keep (let* r := sub_update (responseToken (negTokenTarg t)) s in
                let '(status, unwrapped_out, s) := r in
                gensec_spnego_server_negTokenTarg status unwrapped_out s)
      | _, _ => invalid
      end
  | SPNEGO_CLIENT_TARG =>
      let* t := expect data s in
      match t with
      | None => invalid
      | Some t =>
          if negResult (negTokenTarg t) =? SPNEGO_REJECT then Ret (NT_STATUS_ACCESS_DENIED, None, s, parent)
          else keep (client_targ parent t s)
      end
  | SPNEGO_DONE => invalid
  end.
End spnego.
End SpnegoUpdate.
