(* ===== verification/SpnegoSession.v ===== *)
(** What it means that a SPNEGO negotiation succeeds: on either side, that the mechanism
    agreed on has itself reported success. *)

From stdpp Require Import strings.
From S2P Require Import Prelude Digest Byteorder Ntstatus DomSid CliCredentials Ntlmssp Gensec Asn1 Spnego SpnegoUpdate.
Import Gensec Spnego SpnegoUpdate.
Import CliCredentials(cli_credentials, cli_credentials_get_kerberos_state, Garbage, Null, Str).

#[local] Open Scope outcome_scope.

(** What a call that returns gives back. *)
Definition yields {R} (Q : R -> Prop) (m : outcome R) : Prop := forall r, m = Ret r -> Q r.

Lemma yields_ret {R} (Q : R -> Prop) r : Q r -> yields Q (Ret r).
Proof. by intros H ? [= <-]. Qed.
Lemma yields_fault {R} (Q : R -> Prop) : yields Q Fault.
Proof. by intros ?. Qed.
Lemma yields_bind {R T} (Q : R -> Prop) (W : T -> Prop) m f : yields Q m -> (forall r, Q r -> yields W (f r)) -> yields W (obind m f).
Proof. intros Hm Hf t. destruct m as [r|]; [|done]. cbn. intros Ht. by apply (Hf r (Hm r eq_refl)). Qed.
Lemma yields_any {R T} (W : T -> Prop) (m : outcome R) f : (forall r, yields W (f r)) -> yields W (obind m f).
Proof. intros Hf. by apply (yields_bind (fun _ => True)). Qed.
Lemma yields_weaken {R} (Q W : R -> Prop) m : yields Q m -> (forall r, Q r -> W r) -> yields W m.
Proof. intros Hm H r Hr. by apply H, Hm. Qed.

Create HintDb yields.
#[export] Hint Resolve yields_ret yields_fault yields_any : yields.

#[local] Hint Resolve incl_refl incl_nil_l : core.

Section session.
Context {P Info Addr : Type}.
#[local] Abbreviation gensec_security := (@gensec_security P Info Addr).
#[local] Abbreviation gensec_security_ops := (@gensec_security_ops P Info Addr).
#[local] Abbreviation spnego_state := (@spnego_state P Info Addr).
Context (registered : option (list gensec_security_ops)) (get_principal : cli_credentials -> option (list Z)).

Definition known (o : gensec_security_ops) : Prop := In o (default [] registered).
(** A context runs a registered mechanism. *)
Definition driven (g : gensec_security) : Prop := exists o, ops g = Some o /\ known o.
(** It is as its mechanism left it when it reported success. *)
Definition accepted (g : gensec_security) : Prop :=
  exists o f data c out, ops g = Some o /\ known o /\ update o = Some f /\ f data c = Ret (NT_STATUS_OK, out, context g).

Definition sub_is (Q : gensec_security -> Prop) (s : spnego_state) : Prop := exists g, sub_sec_security s = Some g /\ Q g.
Definition sound (s : spnego_state) : Prop := forall g, sub_sec_security s = Some g -> driven g.

(** ** The mechanisms that are started are registered *)

Lemma mechs_known A g : yields (fun l => incl (default [] l) (default [] registered)) (gensec_security_mechs registered A g).
Proof.
  unfold gensec_security_mechs. destruct (gensec_get_credentials g) as [| |c]; [by auto with yields| |].
  - apply yields_ret. unfold gensec_security_all. destruct malloc_ok; [apply incl_refl|apply incl_nil_l].
  - unfold gensec_security_all, gensec_use_kerberos_mechs.
    assert (forall size k (l old : list gensec_security_ops),
      yields (fun l' => incl l' (l ++ old)) (keep_mechs size k l old)) as Hk.
    { intros size k l old. revert l. induction old as [|o old IH]; intros l; cbn [keep_mechs]; [apply yields_ret; by rewrite app_nil_r|].
      assert (forall l (x : gensec_security_ops), yields (fun l' => incl l' (l ++ [x])) (push_entry size l x)) as Hp.
      { intros l' x. unfold push_entry. case_bool_decide; [apply yields_fault|by apply yields_ret]. }
      apply (yields_bind (fun l' => incl l' (l ++ [o]))).
      - unfold keep_mech. apply (yields_bind (fun l' => incl l' (l ++ [o]))).
        + case_match; [apply Hp|apply yields_ret; intros x Hx; apply in_or_app; by left].
        + intros l' Hl'. assert (incl (l' ++ [o]) (l ++ [o])) as Hl2.
          { intros x Hx. apply in_app_or in Hx as [Hx|[<-|[]]]; [by apply Hl'|apply in_or_app; right; by left]. }
          destruct k; [by apply yields_ret|..]; case_match; try (by apply yields_ret); (eapply yields_weaken; [apply Hp|]);
            intros l'' Hl''; cbn beta in *; by apply (incl_tran Hl'').
      - intros l' Hl'. eapply yields_weaken; [apply IH|]. cbn beta. intros l'' H x Hx. apply H in Hx. apply in_app_or in Hx as [Hx|Hx].
        + apply Hl', in_app_or in Hx as [?|[<-|[]]]; apply in_or_app; [by left|right; by left].
        + apply in_or_app. right. by right. }
    set (k := cli_credentials_get_kerberos_state c). clearbody k.
    assert (forall k', yields (fun l => incl (default [] l) (default [] registered))
      (if negb (@malloc_ok A 0) then Ret None else
         let* l := keep_mechs (S (length (default [] registered))) k' [] (default [] registered) in
         if bool_decide (S (length (default [] registered)) <= length l)%nat then Fault else Ret (Some l))) as Hc.
    { intros k'. case_match; [apply yields_ret; by intros ? []|]. eapply yields_bind; [apply Hk|]. cbn beta. intros l Hl.
      case_bool_decide; [apply yields_fault|apply yields_ret; done]. }
    destruct k; [|apply Hc|apply Hc]. apply yields_ret. clear Hc. destruct malloc_ok; [apply incl_refl|apply incl_nil_l].
Qed.

Lemma wrapped_known A backends theirs skip (out : list (gensec_security_ops * list Z)) l :
  (forall o, In o backends -> known o) -> (forall w, In w out -> known w.1) ->
  wrap_backends A backends theirs skip out = Some l -> forall w, In w l -> known w.1.
Proof.
  assert (forall o mine s (out l : list (gensec_security_ops * list Z)), known o -> (forall w, In w out -> known w.1) ->
    wrap_oids A o mine s out = Some l -> forall w, In w l -> known w.1) as H1.
  { intros o mine s out' l' Ho. revert out'. induction mine as [|x mine IH]; intros out' Hout; cbn [wrap_oids]; [by intros [= <-]|].
    case_match; [by apply IH|]. case_match; [|done]. apply IH. intros w Hw. apply in_app_or in Hw as [Hw|[<-|[]]]; [by apply Hout|done]. }
  assert (forall o (out l : list (gensec_security_ops * list Z)), known o -> (forall w, In w out -> known w.1) ->
    wrap_backend A o theirs skip out = Some l -> forall w, In w l -> known w.1) as H2.
  { intros o out' l' Ho. revert out'. induction theirs as [|x theirs' IH]; intros out' Hout; cbn [wrap_backend]; [by intros [= <-]|].
    case_match; [by apply IH|]. case_match eqn:E; [|done]. apply IH. exact (H1 _ _ _ _ _ Ho Hout E). }
  revert out. induction backends as [|o backends IH]; intros out Hb Hout; cbn [wrap_backends]; [by intros [= <-]|].
  destruct (wrap_backend A o _ skip out) as [out'|] eqn:E; [|done]. apply IH; [intros x Hx; apply Hb; by right|].
  assert (known o) as Ho by (apply Hb; by left). destruct (oid o); [exact (H2 o out out' Ho Hout E)|]. cbn in E. by injection E as <-.
Qed.

Lemma oid_list_known A g theirs skip :
  yields (fun l => forall w, In w (default [] l) -> known w.1) (gensec_security_by_oid_list registered A g theirs skip).
Proof.
  unfold gensec_security_by_oid_list. destruct theirs as [theirs|]; [|by apply yields_ret].
  eapply yields_bind; [apply mechs_known|]. cbn beta. intros l Hl. case_match; [by apply yields_ret|].
  apply yields_ret. destruct (wrap_backends _ _ _ _ _) as [l'|] eqn:E; [|done]. refine (wrapped_known _ _ _ _ _ _ Hl _ E). by intros ? [].
Qed.

Lemma by_oid_known A g s : yields (fun o => forall x, o = Some x -> known x) (gensec_security_by_oid registered A g s).
Proof.
  unfold gensec_security_by_oid, by_predicate, lookup_mech. case_match; [by apply yields_ret|].
  eapply yields_bind; [apply mechs_known|]. cbn beta. intros l Hl. apply yields_ret. intros x Hx. apply find_some in Hx as [Hx _]. by apply Hl.
Qed.

(** ** Calls of the mechanism *)

Lemma run_ops {R} (f : @gensec_context P Addr -> outcome (R * @gensec_context P Addr)) (g : gensec_security) : yields (fun r => ops r.2 = ops g) (run f g).
Proof. unfold run. apply yields_any. intros r. by apply yields_ret. Qed.

Lemma start_mech_ops (g : gensec_security) : yields (fun r => ops r.2 = ops g) (gensec_start_mech g).
Proof.
  unfold gensec_start_mech, with_ops. destruct (ops g) as [o|] eqn:E; [|apply yields_fault]. rewrite <- E.
  repeat case_match; try apply run_ops; by apply yields_ret.
Qed.

Lemma start_sub_sound A k parent o s :
  known o -> yields (fun r => exists x, r.2 = set_sub x s /\ forall g, x = Some g -> driven g) (start_sub A k parent o s).
Proof.
  intros Ho. unfold start_sub. destruct (gensec_subcontext_start _ _) as [[] [g|]]; try (apply yields_ret; by exists None).
  unfold gensec_start_mech_by_ops. eapply yields_bind; [apply start_mech_ops|]. cbn beta. intros r Hr. apply yields_ret.
  eexists. split; [done|]. intros g' [= <-]. exists o. by rewrite Hr.
Qed.

Lemma sub_update_accepts data s :
  sound s ->
  yields (fun r => exists g, r.2 = set_sub (Some g) s /\ driven g /\ (r.1.1 = NT_STATUS_OK -> accepted g)) (sub_update data s).
Proof.
  intros Hs. unfold sub_update, sub_call. destruct (sub_sec_security s) as [g|] eqn:E; [|apply yields_fault].
  destruct (Hs g E) as (o & Eo & Ho). unfold gensec_update, with_ops. rewrite Eo.
  destruct (update o) as [f|] eqn:Eu; [|apply yields_fault]. unfold run. intros r Hr.
  destruct (f data (context g)) as [[[st out] c]|] eqn:Ef; [|done]. cbn in Hr. injection Hr as <-. eexists. split; [done|].
  split; [by exists o|]. cbn. intros ->. by exists o, f, data, (context g), out.
Qed.

(** ** The steps of the negotiation *)

(** A step that keeps the position and the flag, and answers success for the mechanism. *)
Definition stepped (s : spnego_state) (r : result) : Prop :=
  sound r.2 /\ state_position r.2 = state_position s /\ no_response_expected r.2 = no_response_expected s /\
  (r.1.1 = NT_STATUS_OK -> sub_is accepted r.2).

Lemma accepted_driven g : accepted g -> driven g.
Proof. intros (o & f & d & c & out & E & Ho & _). by exists o. Qed.

Lemma sound_set_sub x s : (forall g, x = Some g -> driven g) -> sound (set_sub x s).
Proof. intros H g Hg. by apply H. Qed.

Lemma stepped_refused s st out s' :
  st <> NT_STATUS_OK -> sound s' -> state_position s' = state_position s -> no_response_expected s' = no_response_expected s -> stepped s (st, out, s').
Proof. intros Hst Hs Hp Hn. split_and!; [done|done|done|]. by intros ?. Qed.

Lemma sub_update_stepped data s : sound s -> yields (stepped s) (sub_update data s).
Proof.
  intros Hs. eapply yields_weaken; [by apply sub_update_accepts|]. intros [[st out] s'] (g & E & Hg & Ha). cbn in E, Ha. subst s'.
  split_and!; [by intros g' [= <-]|done|done|]. intros Hok. exists g. split; [done|by apply Ha].
Qed.

Lemma try_optimistic_stepped A parent all mech tok s :
  (forall w, In w all -> known w.1) -> sound s ->
  yields (fun r => match r with inl r | inr r => stepped s r end) (try_optimistic A parent all mech tok s).
Proof.
  intros Hall Hs. unfold try_optimistic. destruct (find (fun w : gensec_security_ops_wrapper => bool_decide (w.2 = mech)) all) as [w|] eqn:Ef; [|apply yields_ret; by apply stepped_refused].
  apply find_some in Ef as [Hw _]. eapply yields_bind; [by apply start_sub_sound, Hall|]. intros [st s'] (x & E & Hx). cbn in E. subst s'.
  destruct st as [[]|]; try (apply yields_ret; apply stepped_refused; by try apply sound_set_sub).
  eapply yields_bind; [by apply sub_update_stepped, sound_set_sub|]. intros [[st out] s'] (H1 & H2 & H3 & H4).
  destruct (unsuitable st) eqn:Eu; apply yields_ret; [|by split_and!].
  apply stepped_refused; [by intros ->|by apply sound_set_sub|done|done].
Qed.

Lemma try_in_order_stepped A k parent all r s :
  (forall w, In w all -> known w.1) -> stepped s r ->
  yields (fun r => match r with inl r | inr r => stepped s r end) (try_in_order A k parent all r).
Proof.
  revert k r. induction all as [|w all IH]; intros k [[st0 out] s0] Hall Hr; cbn [try_in_order]; [by apply yields_ret|].
  destruct Hr as (Hs & Hp & Hn & _). cbn in Hs, Hp, Hn.
  eapply yields_bind; [apply start_sub_sound, Hall; by left|]. intros [st s'] (x & E & Hx). cbn in E. subst s'.
  assert (forall w, In w all -> known w.1) as Hall' by (intros w' Hw'; apply Hall; by right).
  destruct st as [[]|]; try (by apply yields_ret, stepped_refused; try apply sound_set_sub);
    try (apply IH; [done|apply stepped_refused; [done|by apply sound_set_sub|done|done]]).
  eapply yields_bind; [by apply sub_update_stepped|]. intros [[st out'] s'] (H1 & H2 & H3 & H4). cbn in H1, H2, H3, H4.
  destruct (negb _ && unsuitable st) eqn:Eu; [|apply yields_ret; split_and!; cbn; congruence || done].
  apply IH; [done|]. apply andb_true_iff in Eu as [_ Eu]. apply stepped_refused; [by intros ->|by apply sound_set_sub|..]; cbn; congruence.
Qed.

Lemma parse_stepped A parent mechs tok s : sound s -> yields (stepped s) (gensec_spnego_parse_negTokenInit registered A parent mechs tok s).
Proof.
  intros Hs. unfold gensec_spnego_parse_negTokenInit. eapply yields_bind; [apply oid_list_known|]. cbn beta. intros all Hall.
  assert (stepped s (NT_STATUS_INVALID_PARAMETER, None, s)) as Hi by by apply stepped_refused.
  apply (yields_bind (fun r : result + result => match r with inl r | inr r => stepped s r end)).
  { case_match; [|by apply yields_ret]. destruct mechs as [[|m l]|]; [by apply yields_ret| |by apply yields_ret].
    by apply try_optimistic_stepped. }
  intros [r|r] Hr; [by apply yields_ret|].
  apply (yields_bind (fun r : result + result => match r with inl r | inr r => stepped s r end)).
  { destruct r as [[st out] s']. cbn [snd]. destruct (sub_sec_security s'); [by apply yields_ret|by apply try_in_order_stepped]. }
  intros [r'|[[st out] s']] (H1 & H2 & H3 & H4); [by apply yields_ret|]. cbn in H1, H2, H3, H4.
  destruct (sub_sec_security s') as [g|] eqn:Eg; [|by apply yields_ret, stepped_refused].
  case_bool_decide; [by apply yields_ret, stepped_refused|].
  destruct (good st) eqn:Eg'; apply yields_ret; [by split_and!|]. apply stepped_refused; [by intros ->|by apply sound_set_sub|done|done].
Qed.

(** ** The server *)

Definition serving (s : spnego_state) : Prop :=
  state_position s = SPNEGO_SERVER_START \/ state_position s = SPNEGO_SERVER_TARG \/ state_position s = SPNEGO_FALLBACK \/ state_position s = SPNEGO_DONE.

Definition served (r : result) : Prop :=
  sound r.2 /\ serving r.2 /\ (r.1.1 = NT_STATUS_OK -> sub_is accepted r.2 /\ negotiated r.2 = true).

Lemma served_refused st out s : st <> NT_STATUS_OK -> sound s -> serving s -> served (st, out, s).
Proof. intros Hst Hs Hp. split_and!; [done|done|]. by intros ?. Qed.

Lemma negTokenTarg_served A st out s0 s : stepped s0 (st, out, s) -> yields served (gensec_spnego_server_negTokenTarg A st out s).
Proof.
  intros (H1 & _ & _ & H4). cbn in H1, H4. unfold gensec_spnego_server_negTokenTarg.
  apply (yields_bind (fun r => (r.2 = SPNEGO_DONE \/ r.2 = SPNEGO_SERVER_TARG) /\ (st = NT_STATUS_OK -> r.2 = SPNEGO_DONE))).
  { case_bool_decide; [subst st; apply yields_any; intros; apply yields_ret; split; [by right|done]|].
    case_match; [apply yields_any; intros|]; apply yields_ret; by (split; [left|]). }
  intros [[mech res] p] [Hp Hok]. cbn in Hp, Hok. apply yields_any. intros [wrote out'].
  assert (serving (set_position p s)) as Hserv by (unfold serving; cbn; tauto).
  destruct wrote; apply yields_ret; [|by apply served_refused]. split_and!; [done|exact Hserv|]. cbn. intros Est.
  split; [exact (H4 Est)|]. unfold negotiated. apply bool_decide_eq_true_2. left. cbn. by apply Hok.
Qed.

Lemma try_fallback_served A parent l data s :
  (forall o, In o l -> known o) -> sound s -> serving s -> yields served (try_fallback A parent l data s).
Proof.
  intros Hl Hs Hp. induction l as [|o l IH]; cbn [try_fallback]; [by apply yields_ret, served_refused|].
  specialize (IH (fun o Ho => Hl o (or_intror Ho))). pose proof (Hl o (or_introl eq_refl)) as Ho.
  destruct (oid o); [|done]. destruct (magic o); [|done]. destruct (offers_spnego o); [done|].
  apply yields_any. intros st. destruct (negb (NT_STATUS_IS_OK st)); [done|].
  eapply yields_bind; [by apply start_sub_sound|]. intros [st' s'] (x & E & Hx). cbn in E. subst s'.
  assert (serving (set_sub x (set_position SPNEGO_FALLBACK s))) as Hserv by (unfold serving; cbn; tauto).
  destruct st' as [[]|]; try (by apply yields_ret, served_refused; try apply sound_set_sub).
  eapply yields_weaken; [by apply sub_update_accepts, sound_set_sub|]. intros [[st' out] s'] (g & E & Hg & Ha). cbn in E, Ha. subst s'.
  split_and!; [by intros g' [= <-]|exact Hserv|]. intros Hok. split; [exists g; split; [done|by apply Ha]|].
  apply bool_decide_eq_true_2. by right.
Qed.

(** ** The proposal *)

Definition proposed (s : spnego_state) (r : result) : Prop :=
  sound r.2 /\ r.1.1 <> NT_STATUS_OK /\
  (state_position s = SPNEGO_CLIENT_START -> no_response_expected s = false -> no_response_expected r.2 = true -> sub_is accepted r.2).

Lemma propose_proposed A k parent all s0 s :
  (forall w, In w all -> known w.1) -> sound s -> state_position s = state_position s0 -> no_response_expected s = no_response_expected s0 ->
  yields (proposed s0) (propose get_principal A k parent all s).
Proof.
  revert k s. induction all as [|w all IH]; intros k s Hall Hs Hp Hn; cbn [propose].
  { apply yields_ret. split_and!; [by apply sound_set_sub|done|]. cbn. congruence. }
  assert (forall w, In w all -> known w.1) as Hall' by (intros w' Hw'; apply Hall; by right).
  eapply yields_bind; [apply start_sub_sound, Hall; by left|]. intros [st s'] (x & E & Hx). cbn in E. subst s'.
  assert (forall k, yields (proposed s0) (propose get_principal A k parent all (set_sub None (set_sub x s)))) as Hnext
    by (intros; by apply IH; try apply sound_set_sub).
  destruct st as [[]|]; try exact (Hnext _); [|apply yields_ret; split_and!; [by apply sound_set_sub|done|cbn; congruence]].
  apply (yields_bind (fun r => exists g, r.2 = set_sub g s /\ (forall x, g = Some x -> driven x) /\
    (state_position s = SPNEGO_CLIENT_START -> r.1.1 = NT_STATUS_OK -> exists x, g = Some x /\ accepted x))).
  { cbn [state_position set_sub]. case_bool_decide.
    - eapply yields_weaken; [by apply sub_update_accepts, sound_set_sub|]. intros r (g & E & Hg & Ha). exists (Some g).
      split; [by rewrite E|]. split; [by intros ? [= <-]|]. intros _ Hok. exists g. split; [done|by apply Ha].
    - apply yields_ret. by exists x. }
  intros [[st out] s'] (g & E & Hg & Ha). cbn in E, Ha. subst s'.
  destruct (negb (good st)); [apply IH; by try apply sound_set_sub|].
  apply yields_any. intros principal. apply yields_any. intros [wrote out'].
  destruct (negb _); apply yields_ret; (split_and!; [|done|]).
  - by apply sound_set_sub.
  - cbn. congruence.
  - destruct (NT_STATUS_IS_OK st); by intros x' Hx'; apply Hg.
  - cbn. intros Ep En. destruct (NT_STATUS_IS_OK st) eqn:Eok; cbn; [|congruence]. intros _. apply bool_decide_eq_true_1 in Eok.
    destruct Ha as (y & -> & Hy); [congruence|done|]. by exists y.
Qed.

Lemma create_proposed A parent s : sound s -> yields (proposed s) (gensec_spnego_create_negTokenInit registered get_principal A parent s).
Proof.
  intros Hs. unfold gensec_spnego_create_negTokenInit. apply yields_any. intros mechs. eapply yields_bind; [apply oid_list_known|].
  intros all Hall. by apply propose_proposed.
Qed.

(** ** The client *)

(** Between the client's steps: the flag says that the mechanism has succeeded. *)
Definition asking (s : spnego_state) : Prop :=
  sound s /\
  ((state_position s = SPNEGO_CLIENT_START /\ no_response_expected s = false) \/
   (state_position s = SPNEGO_CLIENT_TARG /\ (no_response_expected s = true -> sub_is accepted s)) \/
   state_position s = SPNEGO_DONE).

(** What a step gives, from a state whose flag was [flag]. *)
Definition asked (flag : bool) (r : result) : Prop :=
  (r.1.1 = NT_STATUS_OK -> sub_is accepted r.2 /\ state_position r.2 = SPNEGO_DONE) /\
  (flag = false -> r.1.1 = NT_STATUS_MORE_PROCESSING_REQUIRED -> asking r.2).

Lemma asked_refused flag st out s : good st = false -> asked flag (st, out, s).
Proof. intros Hst. split; cbn; [by intros ->|]. intros _ ->. done. Qed.

Lemma start_by_oid_sound A o (g : gensec_security) :
  yields (fun r => good r.1 = true -> driven r.2) (gensec_start_mech_by_oid registered A o g).
Proof.
  unfold gensec_start_mech_by_oid. eapply yields_bind; [apply by_oid_known|]. cbn beta. intros [x|] Hx; cbn [start_found]; [|by apply yields_ret].
  eapply yields_weaken; [apply start_mech_ops|]. cbn beta. intros r Hr _. exists x. rewrite Hr. split; [done|by apply Hx].
Qed.

(** The state after the mechanism's part of an answer. *)
Definition answered (s : spnego_state) (r : result) : Prop :=
  sound r.2 /\ state_position r.2 = state_position s /\ (r.1.1 = NT_STATUS_OK -> sub_is accepted r.2) /\
  (no_response_expected s = false -> no_response_expected r.2 = true -> sub_is accepted r.2).

Lemma client_answer_answered A parent t s :
  sound s -> (no_response_expected s = true -> sub_is accepted s) ->
  yields (fun a => match a with
                   | inr r => answered s r
                   | inl (st, s') => st <> NT_STATUS_OK /\ (st = NT_STATUS_MORE_PROCESSING_REQUIRED -> exists x, s' = set_sub (Some x) s /\ driven x)
                   end) (client_answer registered A parent t s).
Proof.
  intros Hs Hf. unfold client_answer. apply yields_any. intros [].
  - destruct (gensec_subcontext_start _ _) as [[] [g|]]; try (by apply yields_ret).
    eapply yields_bind; [apply start_by_oid_sound|]. intros [st g'] Hg. cbn in Hg.
    destruct st; try (by apply yields_ret); [|apply yields_ret; split; [done|]; intros _; exists g'; split; [done|by apply Hg]].
    cbn beta iota delta [fst snd]. eapply yields_bind; [apply sub_update_accepts; intros x [= <-]; by apply Hg|].
    intros [[st out] s'] (x & E & Hx & Ha). cbn in E, Ha. subst s'. apply yields_ret. split_and!; cbn; [by intros ? [= <-]|done| |congruence].
    intros Hok. exists x. split; [done|by apply Ha].
  - destruct (no_response_expected s) eqn:En.
    + apply yields_ret. split_and!; [done|done|by intros _; apply Hf|congruence].
    + eapply yields_bind; [by apply sub_update_accepts|]. intros [[st out] s'] (x & E & Hx & Ha). cbn in E, Ha. subst s'. apply yields_ret.
      assert (st = NT_STATUS_OK -> accepted x) as Ha' by done.
      destruct (NT_STATUS_IS_OK st) eqn:Eok; (split_and!; cbn; [by intros ? [= <-]|done|intros Hok; exists x; split; [done|by apply Ha]|]); [|congruence].
      intros _ _. exists x. split; [done|]. apply Ha. by apply bool_decide_eq_true_1 in Eok.
Qed.

Lemma client_targ_asked A parent t s :
  sound s -> state_position s = SPNEGO_CLIENT_TARG -> (no_response_expected s = true -> sub_is accepted s) ->
  yields (asked (no_response_expected s)) (client_targ registered A parent t s).
Proof.
  intros Hs Hp Hf. unfold client_targ. eapply yields_bind; [by apply client_answer_answered|]. intros [[st s']|[[st out] s']].
  - intros [Hst Hm]. apply yields_ret. split; [done|]. cbn. intros Hflag E. destruct (Hm E) as (x & -> & Hx).
    split; [by apply sound_set_sub; intros ? [= <-]|]. right. left. cbn. by rewrite Hflag.
  - intros (H1 & H2 & H3 & H4). cbn in H1, H2, H3, H4. destruct (good st) eqn:Eg; cbn [negb]; [|by apply yields_ret, asked_refused].
    destruct (0 <? Z.of_nat (blob_length out)).
    + apply yields_any. intros [wrote out']. destruct (negb _); apply yields_ret; [by apply asked_refused|]. split; [done|]. cbn. intros Hflag _.
      split; [exact H1|]. right. left. split; [done|]. by apply H4.
    + apply yields_ret. cbn. split; cbn; [intros Hok; split; [exact (H3 Hok)|done]|]. intros _ _. split; [exact H1|by right; right].
Qed.

Lemma client_init_asked A parent t s :
  sound s -> state_position s = SPNEGO_CLIENT_START -> no_response_expected s = false ->
  yields (fun r => asked false r.1) (client_init registered A parent t s).
Proof.
  intros Hs Hp Hn. unfold client_init. apply yields_any. intros parent'. eapply yields_bind; [by apply parse_stepped|].
  intros [[st out] s'] (H1 & H2 & H3 & H4). cbn in H1, H2, H3, H4. destruct (good st) eqn:Eg; cbn [negb]; [|by apply yields_ret, asked_refused].
  apply yields_any. intros mech. apply yields_any. intros [wrote out']. destruct (negb _); apply yields_ret; [by apply asked_refused|].
  split; [done|]. cbn. intros _ _. split; [by destruct (NT_STATUS_IS_OK st)|]. right. left.
  destruct (NT_STATUS_IS_OK st) eqn:Eok; (split; [done|]); cbn; [|congruence]. intros _. apply H4. by apply bool_decide_eq_true_1 in Eok.
Qed.

(** ** The update *)

Lemma update_served A parent data s :
  sound s -> serving s -> yields (fun r => served r.1 /\ r.2 = parent) (gensec_spnego_update registered get_principal A parent data s).
Proof.
  intros Hs Hserv. unfold gensec_spnego_update.
  assert (forall m : outcome result, yields served m -> yields (fun r => served r.1 /\ r.2 = parent) (let* r := m in Ret (r, parent))) as Hkeep.
  { intros m Hm. eapply yields_bind; [exact Hm|]. intros r Hr. by apply yields_ret. }
  assert (served (NT_STATUS_INVALID_PARAMETER, None, s)) as Hinv by by apply served_refused.
  assert (forall mech tok, yields served (let* p := gensec_spnego_parse_negTokenInit registered A parent mech tok s in
    let '(status, unwrapped_out, s) := p in gensec_spnego_server_negTokenTarg A status unwrapped_out s)) as Hparse.
  { intros mech tok. eapply yields_bind; [by apply parse_stepped|]. intros [[st out] s'] Hst. by apply (negTokenTarg_served A st out s). }
  destruct Hserv as [E|[E|[E|E]]]; rewrite E.
  - case_bool_decide; [apply Hkeep|].
    + eapply yields_bind; [by apply create_proposed|]. intros [[st out] s'] (H1 & H2 & _). apply yields_ret, served_refused; [done|exact H1|by left].
    + apply yields_any. intros [len t]. cbn beta iota delta [fst snd]. destruct (len =? -1); [apply Hkeep|destruct (negb _); [by apply yields_ret|apply Hkeep, Hparse]].
      unfold gensec_spnego_server_try_fallback. eapply yields_bind; [apply mechs_known|]. cbn beta. intros [l|] Hl; [|apply yields_fault].
      apply try_fallback_served; [exact Hl|done|by left].
  - apply yields_any. intros [t|]; [|by apply yields_ret]. destruct (sub_sec_security s); [apply Hkeep|by apply yields_ret].
    eapply yields_bind; [by apply sub_update_stepped|]. intros [[st out] s'] Hst. by apply (negTokenTarg_served A st out s).
  - apply Hkeep. eapply yields_weaken; [by apply sub_update_accepts|]. intros [[st out] s'] (g & Es & Hg & Ha). cbn in Es, Ha. subst s'.
    split_and!; [by intros ? [= <-]|right; right; by left|]. intros Hok. split; [exists g; split; [done|by apply Ha]|].
    apply bool_decide_eq_true_2. by right.
  - by apply yields_ret.
Qed.

Lemma update_asked A parent data s :
  asking s -> yields (fun r => asked (no_response_expected s) r.1) (gensec_spnego_update registered get_principal A parent data s).
Proof.
  intros (Hs & Hp). unfold gensec_spnego_update.
  assert (asked (no_response_expected s) (NT_STATUS_INVALID_PARAMETER, None, s)) as Hinv by by apply asked_refused.
  destruct Hp as [[E En]|[[E Hf]|E]]; rewrite E; [| |by apply yields_ret].
  - rewrite En in *. case_bool_decide.
    + eapply (yields_bind (asked false)); [|intros r Hr; by apply yields_ret]. eapply yields_bind; [by apply create_proposed|].
      intros [[st out] s'] (H1 & H2 & H3). cbn in H1, H2, H3. apply yields_ret. split; [done|]. cbn. intros _ _. split; [exact H1|]. right. left.
      split; [done|]. by apply H3.
    + apply yields_any. intros [t|]; [by apply client_init_asked|by apply yields_ret].
  - apply yields_any. intros [t|]; [|by apply yields_ret]. case_match; [by apply yields_ret, asked_refused|].
    eapply (yields_bind (asked _)); [by apply client_targ_asked|]. intros r Hr. by apply yields_ret.
Qed.

(** ** Runs *)

(** The states of a server: any tokens, any callers, any memory, and calls in between that
    leave the mechanism the same. *)
Inductive server_run : spnego_state -> Prop :=
| server_started A s : gensec_spnego_server_start A = (NT_STATUS_OK, Some s) -> server_run s
| server_went A parent data s st out s' parent' :
    server_run s -> gensec_spnego_update registered get_principal A parent data s = Ret (st, out, s', parent') -> server_run s'
| server_called s g g' : server_run s -> sub_sec_security s = Some g -> ops g' = ops g -> server_run (set_sub (Some g') s).

(** The states of a client that goes on as long as it is asked to, unless its mechanism has
    succeeded already. *)
Inductive client_run : spnego_state -> Prop :=
| client_started A s : gensec_spnego_client_start A = (NT_STATUS_OK, Some s) -> client_run s
| client_went A parent data s out s' parent' :
    client_run s -> no_response_expected s = false ->
    gensec_spnego_update registered get_principal A parent data s = Ret (NT_STATUS_MORE_PROCESSING_REQUIRED, out, s', parent') -> client_run s'.

Lemma server_run_sound s : server_run s -> sound s /\ serving s.
Proof.
  induction 1 as [A s E|A parent data s st out s' parent' _ [Hs Hp] E|s g g' _ [Hs Hp] Eg E].
  - unfold gensec_spnego_server_start in E. destruct malloc_ok; [|done]. injection E as <-. split; [by intros ?|by left].
  - destruct (update_served A parent data s Hs Hp _ E) as [(H1 & H2 & _) _]. done.
  - split; [|exact Hp]. intros x [= <-]. unfold driven. rewrite E. by apply Hs.
Qed.

Lemma client_run_asking s : client_run s -> asking s.
Proof.
  induction 1 as [A s E|A parent data s out s' parent' _ IH En E].
  - unfold gensec_spnego_client_start in E. destruct malloc_ok; [|done]. injection E as <-. split; [by intros ?|by left].
  - destruct (update_asked A parent data s IH _ E) as [_ H]. by apply H.
Qed.
End session.



(** ** Toy mechanisms *)

Abbreviation toy_context := (@gensec_context nat unit).
Abbreviation toy_ops := (@gensec_security_ops nat unit unit).
Abbreviation toy_security := (@gensec_security nat unit unit).

(** A mechanism with an identifier and an update, whose state starts at 0. *)
Definition toy (n : nat) (id : list Z) (step : blob -> toy_context -> outcome (NTSTATUS * blob * toy_context)) : toy_ops :=
  let start (c : toy_context) := Ret (NT_STATUS_OK, set_private_data (To 0%nat) c) in
  GensecOps n [] None 0 (Some [id]) (Some start) (Some start) None (Some step)
    None None None None None None None None None None None None true false 0.

(** Three tokens, from the client, from the server and from the client. *)
Definition three_step (data : blob) (c : toy_context) : outcome (NTSTATUS * blob * toy_context) :=
  Ret (match role c, private_data c, data with
       | GENSEC_CLIENT, To 0%nat, None => (NT_STATUS_MORE_PROCESSING_REQUIRED, Some [1], set_private_data (To 1%nat) c)
       | GENSEC_SERVER, To 0%nat, Some [1] => (NT_STATUS_MORE_PROCESSING_REQUIRED, Some [2], set_private_data (To 1%nat) c)
       | GENSEC_CLIENT, To 1%nat, Some [2] => (NT_STATUS_OK, Some [3], set_private_data (To 2%nat) c)
       | GENSEC_SERVER, To 1%nat, Some [3] => (NT_STATUS_OK, None, set_private_data (To 2%nat) c)
       | _, _, _ => (NT_STATUS_INVALID_PARAMETER, None, c)
       end).
Definition three_oid := Oid 1 3 [6; 1; 4; 1; 311; 2; 2; 10].
Definition three : toy_ops := toy 1 (oid_str three_oid) three_step.

(** One that succeeds at once, and one that never does. *)
Definition quick_oid := Oid 1 2 [840; 1].
Definition endless_oid := Oid 1 2 [840; 2].
Definition quick : toy_ops := toy 2 (oid_str quick_oid) (fun _ c => Ret (NT_STATUS_OK, Some [1], c)).
Definition endless : toy_ops := toy 3 (oid_str endless_oid) (fun _ c => Ret (NT_STATUS_MORE_PROCESSING_REQUIRED, Some [2], c)).

Definition toy_parent (r : gensec_role) : toy_security :=
  GensecSecurity None (GensecContext Nil Nil (GensecTarget None None None) r false 0 None None).
Definition toy_update (l : list toy_ops) (r : gensec_role) (data : blob) (s : spnego_state) : outcome (result * toy_security) :=
  gensec_spnego_update (Some l) (fun _ => None) (fun _ => calloc) (toy_parent r) data s.
Definition after (m : outcome (@result nat unit unit * toy_security)) : spnego_state :=
  match m with Ret r => r.1.2 | Fault => SpnegoState 0 SPNEGO_DONE None false Wild end.
Definition toy_start (p : spnego_state_position) : @spnego_state nat unit unit := SpnegoState SPNEGO_NEG_TOKEN_INIT p None false Wild.

Definition toy_init : blob := Some (init_bytes [three_oid] 0 (Some [1]) None).
Definition toy_challenge : blob := Some (targ_bytes 1 (Some three_oid) (Some [2]) None).
Definition toy_response : blob := Some (targ_bytes 3 None (Some [3]) None).
Definition toy_done : blob := Some (targ_bytes 0 None None None).

Definition server1 : spnego_state := after (toy_update [three] GENSEC_SERVER toy_init (toy_start SPNEGO_SERVER_START)).
Definition client1 : spnego_state := after (toy_update [three] GENSEC_CLIENT None (toy_start SPNEGO_CLIENT_START)).
Definition client2 : spnego_state := after (toy_update [three] GENSEC_CLIENT toy_challenge client1).



(** A server that answers a client whose mechanism has succeeded with another
    mechanism, and then with a completion without a token, gets NT_STATUS_OK from it while
    the mechanism that the client runs then has never succeeded, and never will: the flag
    that no response is expected belongs to the mechanism that was dropped. *)
Theorem client_accepts_unfinished :
  exists (o : toy_ops) d1 d2 out1 out2 s0 s1 s2 s3,
    (forall f data c r c', update o = Some f -> f data c = Ret (r, c') -> r.1 <> NT_STATUS_OK) /\
    gensec_spnego_client_start (fun _ => calloc) = (NT_STATUS_OK, Some s0) /\
    toy_update [quick; o] GENSEC_CLIENT None s0 = Ret (NT_STATUS_MORE_PROCESSING_REQUIRED, out1, s1, toy_parent GENSEC_CLIENT) /\
    toy_update [quick; o] GENSEC_CLIENT d1 s1 = Ret (NT_STATUS_MORE_PROCESSING_REQUIRED, out2, s2, toy_parent GENSEC_CLIENT) /\
    toy_update [quick; o] GENSEC_CLIENT d2 s2 = Ret (NT_STATUS_OK, None, s3, toy_parent GENSEC_CLIENT) /\
    sub_is (fun g => ops g = Some o) s3.
Proof.
  exists endless, (Some (targ_bytes 1 (Some endless_oid) None None)), toy_done. do 6 eexists. split_and!.
  - intros f data c r c' [= <-] [= <- _]. done.
  - reflexivity.
  - vm_compute. reflexivity.
  - vm_compute. reflexivity.
  - vm_compute. reflexivity.
  - eexists. split; [vm_compute; reflexivity|reflexivity].
Qed.
