(* ===== verification/SpnegoCarries.v ===== *)
(** Two SPNEGO ends carry the tokens of a mechanism that both have to the success of both. *)

From stdpp Require Import strings.
From S2P Require Import Prelude Digest Byteorder Ntstatus DomSid CliCredentials Ntlmssp Gensec Asn1 Asn1Codec SpnegoUpdate SpnegoSession.
Import Gensec SpnegoUpdate.
Import CliCredentials(cli_credentials, Garbage, Null, Str).
From S2P Require Import Spnego.
Import Spnego.

#[local] Open Scope outcome_scope.

(** ** Tokens over the wire *)

Lemma length_not_error {T} (l : list T) : (Z.of_nat (length l) =? -1) = false.
Proof. apply Z.eqb_neq. lia. Qed.

Section wire.
Context (A : nat -> Allocator) (mem : forall k, malloc_always (A k)).

Lemma reply_init k mechs t oids out :
  Forall valid oids -> mech_list (default [] mechs) = map oid_str oids ->
  Z.of_nat (length (init_bytes oids 0 t None)) < 2 ^ 24 ->
  reply A k (SpnegoData SPNEGO_NEG_TOKEN_INIT (NegTokenInit mechs 0 t None Garbage) zero_targ) out = Ret (true, Some (init_bytes oids 0 t None)).
Proof.
  intros Hv Em Hl. unfold reply.
  rewrite (write_data_ok (A k) (SpnegoData SPNEGO_NEG_TOKEN_INIT (NegTokenInit mechs 0 t None Garbage) zero_targ) (init_bytes oids 0 t None) _ (mem k)
    (emits_init (A k) (mem k) (NegTokenInit mechs 0 t None Garbage) oids Hv Em ltac:(done) Hl) Hl eq_refl).
  cbn [obind fst snd]. by rewrite length_not_error.
Qed.

Lemma reply_targ k r mech t out :
  (forall o, mech = Some o -> valid o) -> Z.of_nat (length (targ_bytes r mech t None)) < 2 ^ 24 ->
  reply A k (SpnegoData SPNEGO_NEG_TOKEN_TARG zero_init (NegTokenTarg r (oid_str <$> mech) t None)) out = Ret (true, Some (targ_bytes r mech t None)).
Proof.
  intros Hv Hl. unfold reply.
  pose proof (emits_targ (A k) (mem k) (NegTokenTarg r (oid_str <$> mech) t None) mech eq_refl Hv Hl) as He. cbn [responseToken negResult targ_mechListMIC] in He.
  set (n := NegTokenTarg _ _ _ _) in *.
  rewrite (write_data_ok (A k) (SpnegoData SPNEGO_NEG_TOKEN_TARG zero_init n) (targ_bytes r mech t None) _ (mem k) He Hl eq_refl).
  cbn [obind fst snd]. by rewrite length_not_error.
Qed.

Lemma read_init k oids t :
  Forall valid oids -> Z.of_nat (length (init_bytes oids 0 t None)) < 2 ^ 24 ->
  spnego_read_data (A k) (init_bytes oids 0 t None) =
    Ret (Z.of_nat (length (init_bytes oids 0 t None)), SpnegoData SPNEGO_NEG_TOKEN_INIT (init_read oids 0 t None) zero_targ).
Proof.
  intros Hv Hl. rewrite <- (app_nil_r (init_bytes oids 0 t None)) at 1. apply (read_data_ok (A k) (mem k)); [done| |rewrite app_nil_r; lia].
  by apply (parses_init (A k) (mem k)).
Qed.

Lemma read_targ k r mech t :
  is_byte r -> (forall o, mech = Some o -> valid o) -> Z.of_nat (length (targ_bytes r mech t None)) < 2 ^ 24 ->
  spnego_read_data (A k) (targ_bytes r mech t None) =
    Ret (Z.of_nat (length (targ_bytes r mech t None)), SpnegoData SPNEGO_NEG_TOKEN_TARG zero_init (targ_read r mech t None)).
Proof.
  intros Hr Hv Hl. rewrite <- (app_nil_r (targ_bytes r mech t None)) at 1. apply (read_data_ok (A k) (mem k)); [done| |rewrite app_nil_r; lia].
  by apply (parses_targ (A k) (mem k)).
Qed.
End wire.

Lemma length_targ r mech t :
  (length (targ_bytes r mech t None) <= length (field oid_tlv mech) + length (default [] t) + 64)%nat.
Proof.
  unfold targ_bytes. match goal with |- (length (tlv ?a ?x) <= _)%nat => pose proof (length_tlv_le a x) end.
  match goal with _ : context [tlv 0x30 ?x] |- _ => pose proof (length_tlv_le 0x30 x) as L end. rewrite !length_app in L.
  assert (length (if (r =? 3)%Z then [] else tlv 0xa0 (tlv 0xa [u8 r])) <= 11)%nat.
  { case_match; [cbn; lia|]. pose proof (length_tlv_le 0xa0 (tlv 0xa [u8 r])). pose proof (length_tlv_le 0xa [u8 r]). cbn [length] in *. lia. }
  assert (length (field (fun o => tlv 0xa1 (oid_tlv o)) mech) <= length (field oid_tlv mech) + 5)%nat.
  { destruct mech as [o|]; cbn [field length]; [|lia]. pose proof (length_tlv_le 0xa1 (oid_tlv o)). lia. }
  assert (length (field (octets 0xa2) t) <= length (default [] t) + 10)%nat.
  { destruct t as [p|]; cbn [field default length]; [|lia]. unfold octets, id. pose proof (length_tlv_le 0xa2 (tlv 0x4 p)). pose proof (length_tlv_le 0x4 p). lia. }
  assert (length (field (octets 0xa3) (@None (list Z))) = 0)%nat by done. lia.
Qed.

Lemma length_init oids t : (length (init_bytes oids 0 (Some t) None) <= length (concat (map oid_tlv oids)) + length t + 64)%nat.
Proof.
  unfold init_bytes. change (field mic_bytes None) with (@nil Z). change (flag_bytes 0) with (@nil Z). cbn [field app]. rewrite app_nil_r.
  match goal with |- context [tlv 0x60 (oid_tlv spnego_oid ++ tlv 0xa0 (tlv 0x30 ?e))] =>
    pose proof (length_tlv_le 0x60 (oid_tlv spnego_oid ++ tlv 0xa0 (tlv 0x30 e))) as L; rewrite length_app in L;
    pose proof (length_tlv_le 0xa0 (tlv 0x30 e)); pose proof (length_tlv_le 0x30 e) as L2; rewrite length_app in L2 end.
  assert (length (oid_tlv spnego_oid) = 8%nat) by by_eval.
  assert (length (mech_bytes oids) <= length (concat (map oid_tlv oids)) + 10)%nat.
  { unfold mech_bytes. case_decide; cbn [length]; [lia|]. pose proof (length_tlv_le 0xa0 (tlv 0x30 (concat (map oid_tlv oids)))).
    pose proof (length_tlv_le 0x30 (concat (map oid_tlv oids))). lia. }
  assert (length (octets 0xa2 t) <= length t + 10)%nat.
  { unfold octets. pose proof (length_tlv_le 0xa2 (tlv 0x4 t)). pose proof (length_tlv_le 0x4 t). lia. }
  lia.
Qed.

(** ** Lists of mechanisms, with memory *)

Section lists.
Context {P Info Addr : Type} (registered : option (list (@gensec_security_ops P Info Addr))) (g : @gensec_security P Info Addr).
Context (A : Allocator) (mem : malloc_always A) (backends : list (@gensec_security_ops P Info Addr)).
Context (mechs : gensec_security_mechs registered A (Some g) = Ret (Some backends)).

Definition oids_of (l : list (@gensec_security_ops P Info Addr)) : list (list Z) := concat (map (fun o => default [] (Gensec.oid o)) l).

Lemma collect_oids_spec B skip oids out :
  malloc_always B -> collect_oids B skip oids out = Some (out ++ List.filter (fun x => negb (bool_decide (skip = Some x))) oids).
Proof.
  intros memB. revert out. induction oids as [|x oids IH]; intros out; cbn [collect_oids List.filter]; [by rewrite app_nil_r|].
  case_bool_decide; cbn [negb]; [apply IH|]. by rewrite memB, IH, <- app_assoc.
Qed.

Lemma oids_known skip :
  gensec_security_oids registered A (Some g) (Some skip) = Ret (Some (List.filter (fun x => negb (bool_decide (Some skip = Some x))) (oids_of backends))).
Proof.
  unfold gensec_security_oids. rewrite mechs. cbn [obind gensec_security_oids_from_ops].
  unfold gensec_security_oids_from_ops. rewrite later_always by done. by rewrite collect_oids_spec by by apply later_always.
Qed.

Lemma oid_list_agreed theirs skip : gensec_security_by_oid_list registered A (Some g) (Some theirs) skip = Ret (Some (agreed [] backends theirs skip)).
Proof.
  unfold gensec_security_by_oid_list. rewrite mechs. cbn [obind]. rewrite mem. cbn [negb default].
  by rewrite wrap_backends_spec by by apply later_always.
Qed.

Lemma filter_all {T} (f : T -> bool) l : (forall x, In x l -> f x = true) -> List.filter f l = l.
Proof. induction l as [|x l IH]; intros H; cbn; [done|]. rewrite H by by left. f_equal. apply IH. intros y Hy. apply H. by right. Qed.

Lemma oids_from_wrapped (w : list (@gensec_security_ops_wrapper P Info Addr)) :
  gensec_security_oids_from_ops_wrapped A (Some w) = Some (concat (map (fun w => default [] (Gensec.oid w.1)) w)).
Proof. unfold gensec_security_oids_from_ops_wrapped. rewrite mem, collect_oids_spec by done. by rewrite filter_all. Qed.
End lists.

(** ** The two ends *)

Section ends.
Context {P Info Addr : Type}.
#[local] Abbreviation gensec_security := (@gensec_security P Info Addr).
#[local] Abbreviation gensec_security_ops := (@gensec_security_ops P Info Addr).
#[local] Abbreviation gensec_context := (@gensec_context P Addr).
#[local] Abbreviation spnego_state := (@spnego_state P Info Addr).

(** The client's and the server's registered mechanisms, parents, and lists of mechanisms. *)
Context (regc regs : option (list gensec_security_ops)) (gp : cli_credentials -> option (list Z)) (A : nat -> Allocator) (mem : forall k, malloc_always (A k)).
Context (pc ps : gensec_security) (bc bs : list gensec_security_ops).
Context (mechs_c : forall k, gensec_security_mechs regc (A k) (Some pc) = Ret (Some bc)) (mechs_s : forall k, gensec_security_mechs regs (A k) (Some ps) = Ret (Some bs)).

(** [m] is what the client would use first, and the server has it. *)
Context (oc os : gensec_security_ops) (m : oid) (others : list oid) (rest : list (gensec_security_ops * list Z)).
Definition client_oids : list (list Z) := List.filter (fun x => negb (bool_decide (Some GENSEC_OID_SPNEGO = Some x))) (oids_of bc).
Context (client_first : agreed [] bc client_oids GENSEC_OID_SPNEGO = (oc, oid_str m) :: rest).
Context (proposal : concat (map (fun w : gensec_security_ops * list Z => default [] (Gensec.oid w.1)) ((oc, oid_str m) :: rest)) = map oid_str (m :: others)).
Context (valid_oids : Forall valid (m :: others)).
Context (server_finds : find (fun w : gensec_security_ops_wrapper => bool_decide (w.2 = oid_str m)) (agreed [] bs (map oid_str (m :: others)) GENSEC_OID_SPNEGO) = Some (os, oid_str m)).

(** How the mechanism starts on either side, and its steps. *)
Definition sub_context (p : gensec_security) : gensec_context := set_subcontext true (set_private_data Nil (context p)).
Context (c0 s0 : gensec_context) (fc fs : blob -> gensec_context -> outcome (NTSTATUS * blob * gensec_context)).
Context (start_c : gensec_start_mech (GensecSecurity (Some oc) (sub_context pc)) = Ret (NT_STATUS_OK, GensecSecurity (Some oc) c0)).
Context (start_s : gensec_start_mech (GensecSecurity (Some os) (sub_context ps)) = Ret (NT_STATUS_OK, GensecSecurity (Some os) s0)).
Context (step_c : update oc = Some fc) (step_s : update os = Some fs).

Definition client (flag : bool) (p : spnego_state_position) (c : gensec_context) : spnego_state :=
  SpnegoState SPNEGO_NEG_TOKEN_TARG p (Some (GensecSecurity (Some oc) c)) flag (To (oid_str m)).
Definition server (p : spnego_state_position) (c : gensec_context) : spnego_state :=
  SpnegoState SPNEGO_NEG_TOKEN_TARG p (Some (GensecSecurity (Some os) c)) false (To (oid_str m)).
Definition fresh (p : spnego_state_position) : spnego_state := SpnegoState SPNEGO_NEG_TOKEN_INIT p None false Wild.

Lemma start_sub_ok k p o c (s : spnego_state) :
  gensec_start_mech (GensecSecurity (Some o) (sub_context p)) = Ret (NT_STATUS_OK, GensecSecurity (Some o) c) ->
  start_sub A k p o s = Ret (Some NT_STATUS_OK, set_sub (Some (GensecSecurity (Some o) c)) s).
Proof.
  intros E. unfold start_sub, gensec_subcontext_start. rewrite mem. cbn [negb]. unfold gensec_start_mech_by_ops, set_ops. cbn [context].
  unfold sub_context in E. by rewrite E.
Qed.

Lemma sub_update_ok data (s : spnego_state) o f c r c' :
  sub_sec_security s = Some (GensecSecurity (Some o) c) -> update o = Some f -> f data c = Ret (r, c') ->
  sub_update data s = Ret (r, set_sub (Some (GensecSecurity (Some o) c')) s).
Proof.
  intros Es Eo Ef. unfold sub_update, sub_call. rewrite Es. unfold gensec_update, with_ops. cbn [ops]. rewrite Eo. unfold run. cbn [context].
  by rewrite Ef.
Qed.

Lemma good_not_ok st : good st = true -> st = NT_STATUS_OK \/ st = NT_STATUS_MORE_PROCESSING_REQUIRED.
Proof. unfold good, NT_STATUS_IS_OK. intros H. apply orb_true_iff in H as [H|H]; apply bool_decide_eq_true_1 in H; tauto. Qed.

Lemma mech_list_some (l : list (list Z)) : mech_list (map Some l) = l.
Proof. induction l as [|x l IH]; [done|]. cbn. by rewrite IH. Qed.

Lemma mech_list_oids (l : list oid) : mech_list (map (fun o => Some (oid_str o)) l) = map oid_str l.
Proof. rewrite <- (map_map oid_str Some). apply mech_list_some. Qed.

Definition proposes (t : list Z) : list Z := init_bytes (m :: others) 0 (Some t) None.

Lemma client_proposes st t c1 :
  fc None c0 = Ret (st, Some t, c1) -> good st = true -> Z.of_nat (length (proposes t)) < 2 ^ 24 ->
  gensec_spnego_update regc gp A pc None (fresh SPNEGO_CLIENT_START) =
    Ret (NT_STATUS_MORE_PROCESSING_REQUIRED, Some (proposes t), client (NT_STATUS_IS_OK st) SPNEGO_CLIENT_TARG c1, pc).
Proof.
  intros Ef Hg Hl. unfold gensec_spnego_update. cbn [state_position fresh blob_length]. rewrite bool_decide_eq_true_2 by done.
  unfold gensec_spnego_create_negTokenInit. rewrite (oids_known regc pc (A 1) (mem 1) bc (mechs_c 1)). cbn [obind].
  fold client_oids. rewrite (oid_list_agreed regc pc (A 2) (mem 2) bc (mechs_c 2)). cbn [obind default]. rewrite client_first. unfold id.
  cbn [propose fst snd]. rewrite (start_sub_ok 3 pc oc c0) by done. cbn [obind]. cbn [state_position set_sub].
  rewrite bool_decide_eq_true_2 by done. rewrite (sub_update_ok None _ oc fc c0 (st, Some t) c1) by done. cbn [obind]. rewrite Hg. cbn [negb].
  rewrite (oids_from_wrapped (A 4) (mem 4)). cbn [state_position set_sub]. rewrite bool_decide_eq_false_2 by done. cbn [obind].
  rewrite (reply_init A mem 5 _ (Some t) (m :: others)); [|done| |done].
  2: { rewrite <- proposal. exact (mech_list_some _). }
  cbn [obind fst snd negb]. by destruct (NT_STATUS_IS_OK st).
Qed.

(** *** The server *)

Context (mech_fits : Z.of_nat (length (oid_tlv m)) < 2 ^ 20).
Definition fits (t : blob) : Prop := Z.of_nat (blob_length t) < 2 ^ 23.

Definition answer (st : NTSTATUS) (out : blob) : list Z :=
  if NT_STATUS_IS_OK st then targ_bytes SPNEGO_ACCEPT_COMPLETED (if out is Some _ then Some m else None) out None
  else targ_bytes SPNEGO_ACCEPT_INCOMPLETE (Some m) out None.

Lemma targ_fits r mech t : (forall o, mech = Some o -> o = m) -> fits t -> Z.of_nat (length (targ_bytes r mech t None)) < 2 ^ 24.
Proof.
  intros Hm Ht. unfold fits in Ht. pose proof (length_targ r mech t). assert (length (default [] t) = blob_length t) as E by by destruct t.
  assert (length (field oid_tlv mech) <= length (oid_tlv m))%nat by (destruct mech as [o|]; cbn [field length]; [by rewrite (Hm o)|lia]).
  change (2 ^ 24) with 16777216. change (2 ^ 23) with 8388608 in Ht. change (2 ^ 20) with 1048576 in mech_fits. lia.
Qed.

Lemma m_valid o : Some m = Some o -> valid o.
Proof. intros [= <-]. by inversion valid_oids. Qed.

Lemma negTokenTarg_ok st out (s : spnego_state) :
  good st = true -> neg_oid s = To (oid_str m) -> fits out ->
  gensec_spnego_server_negTokenTarg A st out s =
    Ret (st, Some (answer st out), set_expected_packet SPNEGO_NEG_TOKEN_TARG (set_position (if NT_STATUS_IS_OK st then SPNEGO_DONE else SPNEGO_SERVER_TARG) s)).
Proof.
  intros Hg Hn Hf. unfold gensec_spnego_server_negTokenTarg. rewrite Hn. cbn [read_ptr obind].
  destruct (good_not_ok st Hg) as [->| ->]; cbn [NT_STATUS_IS_OK].
  - rewrite bool_decide_eq_false_2 by done. unfold answer, NT_STATUS_IS_OK. rewrite bool_decide_eq_true_2 by done. destruct out as [t|]; cbn [obind].
    + rewrite (reply_targ A mem 0 _ (Some m)); [done|apply m_valid|by apply targ_fits; [intros ? [= <-]|]].
    + rewrite (reply_targ A mem 0 _ None); [done|done|by apply targ_fits].
  - rewrite bool_decide_eq_true_2 by done. unfold answer, NT_STATUS_IS_OK. rewrite bool_decide_eq_false_2 by done. cbn [obind].
    rewrite (reply_targ A mem 0 _ (Some m)); [done|apply m_valid|by apply targ_fits; [intros ? [= <-]|]].
Qed.

Lemma not_unsuitable st : good st = true -> unsuitable st = false.
Proof. intros Hg. by destruct (good_not_ok st Hg) as [->| ->]. Qed.

(** What the server does with its mechanism's step. *)
Definition serves (st : NTSTATUS) (c : gensec_context) : spnego_state := server (if NT_STATUS_IS_OK st then SPNEGO_DONE else SPNEGO_SERVER_TARG) c.

Lemma server_starts st t out c1 :
  fs (Some t) s0 = Ret (st, out, c1) -> good st = true -> fits out -> Z.of_nat (length (proposes t)) < 2 ^ 24 ->
  gensec_spnego_update regs gp A ps (Some (proposes t)) (fresh SPNEGO_SERVER_START) = Ret (st, Some (answer st out), serves st c1, ps).
Proof.
  intros Ef Hg Ho Hl. unfold gensec_spnego_update. cbn [state_position fresh blob_length].
  rewrite bool_decide_eq_false_2 by (intros E; unfold proposes, init_bytes in E; by destruct (tlv_nonempty 0x60 _ (nil_length_inv _ E))).
  unfold default, id. unfold proposes in *. rewrite (read_init A mem 8 (m :: others) (Some t)) by done. cbn [obind fst snd].
  rewrite length_not_error.
  cbn [type expected_packet]. change (SPNEGO_NEG_TOKEN_INIT =? SPNEGO_NEG_TOKEN_INIT) with true. cbn [negb negTokenInit].
  unfold init_read. rewrite decide_False by done. cbn [mechTypes mechToken].
  assert (mech_list <$> Some (map (fun o => Some (oid_str o)) (m :: others)) = Some (map oid_str (m :: others))) as ->.
  { cbn [fmap option_fmap option_map]. f_equal. apply mech_list_oids. }
  unfold gensec_spnego_parse_negTokenInit. rewrite (oid_list_agreed regs ps (A 1) (mem 1) bs (mechs_s 1)). cbn [obind default]. unfold id.
  cbn [state_position fresh]. rewrite bool_decide_eq_true_2 by done. cbn [map].
  unfold try_optimistic. cbn [map] in server_finds. rewrite server_finds. cbn [fst snd].
  rewrite (start_sub_ok 2 ps os s0) by done. cbn [obind]. rewrite (sub_update_ok (Some t) _ os fs s0 (st, out) c1) by done. cbn [obind].
  rewrite not_unsuitable by done. cbn [obind snd set_neg_oid set_sub sub_sec_security].
  assert (bool_decide (st = NT_STATUS_INVALID_PARAMETER) = false) as -> by (apply bool_decide_eq_false_2; by intros ->).
  rewrite Hg. cbn [obind]. rewrite negTokenTarg_ok by done. done.
Qed.

Lemma expect_targ data r mech t (s : spnego_state) :
  data = targ_bytes r mech t None -> is_byte r -> (forall o, mech = Some o -> o = m) -> fits t -> expected_packet s = SPNEGO_NEG_TOKEN_TARG ->
  expect A (Some data) s = Ret (Some (SpnegoData SPNEGO_NEG_TOKEN_TARG zero_init (targ_read r mech t None))).
Proof.
  intros -> Hr Hm Ht Ee. unfold expect. cbn [blob_length].
  rewrite bool_decide_eq_false_2 by (intros E; unfold targ_bytes in E; by destruct (tlv_nonempty 0xa1 _ (nil_length_inv _ E))).
  unfold default, id. rewrite (read_targ A mem 8 r mech t); [|done|intros o E; rewrite (Hm o E); by apply m_valid|by apply targ_fits].
  cbn [obind fst snd type]. rewrite length_not_error. by rewrite Ee.
Qed.

(** A token of the client after its first. *)
Definition continues (t : list Z) : list Z := targ_bytes SPNEGO_NONE_RESULT None (Some t) None.

Lemma server_goes_on st t out c c1 :
  fs (Some t) c = Ret (st, out, c1) -> good st = true -> fits (Some t) -> fits out ->
  gensec_spnego_update regs gp A ps (Some (continues t)) (server SPNEGO_SERVER_TARG c) = Ret (st, Some (answer st out), serves st c1, ps).
Proof.
  intros Ef Hg Ht Ho. unfold gensec_spnego_update. cbn [state_position server].
  rewrite (expect_targ _ SPNEGO_NONE_RESULT None (Some t)) by done. cbn [obind sub_sec_security server negTokenTarg targ_read responseToken].
  rewrite (sub_update_ok (Some t) _ os fs c (st, out) c1) by done. cbn [obind]. by rewrite negTokenTarg_ok.
Qed.

(** *** The client *)

Lemma client_reads st out flag c :
  good st = true -> fits out ->
  exists t, expect A (Some (answer st out)) (client flag SPNEGO_CLIENT_TARG c) = Ret (Some (SpnegoData SPNEGO_NEG_TOKEN_TARG zero_init t)) /\
    (negResult t =? SPNEGO_REJECT) = false /\ responseToken t = out /\ (st = NT_STATUS_OK -> negResult t = SPNEGO_ACCEPT_COMPLETED) /\
    (if negResult t =? SPNEGO_ACCEPT_INCOMPLETE then
       match supportedMech t, neg_oid (client flag SPNEGO_CLIENT_TARG c) with Some x, To n => Ret (negb (bool_decide (x = n))) | _, _ => Fault end
     else Ret false) = Ret false.
Proof.
  intros Hg Ho. destruct (good_not_ok st Hg) as [->| ->]; unfold answer, NT_STATUS_IS_OK.
  - rewrite bool_decide_eq_true_2 by done. eexists. split; [eapply expect_targ; [done|by vm_compute| |done|done]|done].
    by destruct out; intros ? [= <-].
  - rewrite bool_decide_eq_false_2 by done. eexists. split; [eapply expect_targ; [done|by vm_compute| |done|done]|]; [by intros ? [= <-]|].
    split_and!; [done|done|done|]. cbn. by rewrite bool_decide_eq_true_2.
Qed.

Lemma client_goes_on st out stc v c c1 :
  good st = true -> fits out -> fc out c = Ret (stc, Some v, c1) -> good stc = true -> v <> [] -> fits (Some v) ->
  gensec_spnego_update regc gp A pc (Some (answer st out)) (client false SPNEGO_CLIENT_TARG c) =
    Ret (NT_STATUS_MORE_PROCESSING_REQUIRED, Some (continues v), client (NT_STATUS_IS_OK stc) SPNEGO_CLIENT_TARG c1, pc).
Proof.
  intros Hg Ho Ef Hgc Hv Hfit. destruct (client_reads st out false c Hg Ho) as (t & Et & Er & Eo & _ & Ec).
  unfold gensec_spnego_update. cbn [state_position client]. fold (client false SPNEGO_CLIENT_TARG c). rewrite Et. cbn [obind negTokenTarg]. rewrite Er.
  unfold client_targ, client_answer. cbn [negTokenTarg]. rewrite Ec, Eo. cbn [obind no_response_expected client].
  rewrite (sub_update_ok out _ oc fc c (stc, Some v) c1) by done. cbn [obind]. rewrite Hgc. cbn [negb].
  assert ((0 <? Z.of_nat (blob_length (Some v))) = true) as -> by (destruct v; [done|apply Z.ltb_lt; cbn [blob_length length]; lia]).
  rewrite (reply_targ A mem 0 SPNEGO_NONE_RESULT None (Some v)); [|done|by apply targ_fits]. cbn [obind fst snd negb].
  by destruct (NT_STATUS_IS_OK stc).
Qed.

Lemma client_done st out c c1 :
  good st = true -> fits out -> fc out c = Ret (NT_STATUS_OK, None, c1) ->
  gensec_spnego_update regc gp A pc (Some (answer st out)) (client false SPNEGO_CLIENT_TARG c) = Ret (NT_STATUS_OK, None, client true SPNEGO_DONE c1, pc).
Proof.
  intros Hg Ho Ef. destruct (client_reads st out false c Hg Ho) as (t & Et & Er & Eo & _ & Ec).
  unfold gensec_spnego_update. cbn [state_position client]. fold (client false SPNEGO_CLIENT_TARG c). rewrite Et. cbn [obind negTokenTarg]. rewrite Er.
  unfold client_targ, client_answer. cbn [negTokenTarg]. rewrite Ec, Eo. cbn [obind no_response_expected client].
  rewrite (sub_update_ok out _ oc fc c (NT_STATUS_OK, None) c1) by done. done.
Qed.

Lemma client_was_done c :
  gensec_spnego_update regc gp A pc (Some (answer NT_STATUS_OK None)) (client true SPNEGO_CLIENT_TARG c) =
    Ret (NT_STATUS_OK, None, client true SPNEGO_DONE c, pc).
Proof.
  destruct (client_reads NT_STATUS_OK None true c eq_refl ltac:(done)) as (t & Et & Er & Eo & En & Ec).
  unfold gensec_spnego_update. cbn [state_position client]. fold (client true SPNEGO_CLIENT_TARG c). rewrite Et. cbn [obind negTokenTarg]. rewrite Er.
  unfold client_targ, client_answer. cbn [negTokenTarg]. rewrite Ec, Eo, En by done. done.
Qed.

(** *** The conversation *)

(** The mechanism's own tokens, from a token of the client on: whether its side has
    succeeded, the token, the two contexts and those in the end. *)
Inductive converses : bool -> list Z -> gensec_context -> gensec_context -> gensec_context -> gensec_context -> Prop :=
| accepts_last t c s s' :
    fs (Some t) s = Ret (NT_STATUS_OK, None, s') -> converses true t c s c s'
| accepts_with_token t u c s c' s' :
    fs (Some t) s = Ret (NT_STATUS_OK, Some u, s') -> fits (Some u) -> fc (Some u) c = Ret (NT_STATUS_OK, None, c') -> converses false t c s c' s'
| replies t u st v c s c1 s1 c' s' :
    fs (Some t) s = Ret (NT_STATUS_MORE_PROCESSING_REQUIRED, Some u, s1) -> fits (Some u) ->
    fc (Some u) c = Ret (st, Some v, c1) -> good st = true -> v <> [] -> fits (Some v) ->
    converses (NT_STATUS_IS_OK st) v c1 s1 c' s' -> converses false t c s c' s'.

(** The two ends in turn, from a token of the client on, until both have succeeded. *)
Fixpoint talk (fuel : nat) (c s : spnego_state) (token : blob) : option (spnego_state * spnego_state) :=
  match fuel with
  | O => None
  | S fuel =>
      match gensec_spnego_update regs gp A ps token s with
      | Ret (st, out, s, _) =>
          match gensec_spnego_update regc gp A pc out c with
          | Ret (NT_STATUS_OK, None, c, _) => if NT_STATUS_IS_OK st then Some (c, s) else None
          | Ret (NT_STATUS_MORE_PROCESSING_REQUIRED, token, c, _) => talk fuel c s token
          | _ => None
          end
      | Fault => None
      end
  end.

Lemma talk_converses flag t c s c' s' :
  converses flag t c s c' s' -> forall token sv,
  (forall st out s1, fs (Some t) s = Ret (st, out, s1) -> good st = true -> fits out ->
     gensec_spnego_update regs gp A ps token sv = Ret (st, Some (answer st out), serves st s1, ps)) ->
  exists n, forall k, talk (n + k) (client flag SPNEGO_CLIENT_TARG c) sv token = Some (client true SPNEGO_DONE c', server SPNEGO_DONE s').
Proof.
  induction 1 as [t c s s' Es|t u c s c' s' Es Hu Ec|t u st v c s c1 s1 c' s' Es Hu Ec Hg Hne Hv Hc IH]; intros token sv Hstep.
  - exists 1%nat. intros k. cbn [Nat.add talk]. rewrite (Hstep _ _ _ Es) by done. by rewrite client_was_done.
  - exists 1%nat. intros k. cbn [Nat.add talk]. rewrite (Hstep _ _ _ Es) by done. by rewrite (client_done NT_STATUS_OK (Some u) c c').
  - destruct (IH (Some (continues v)) (server SPNEGO_SERVER_TARG s1)) as [n Hn]; [by intros; apply server_goes_on|].
    exists (S n). intros k. cbn [Nat.add talk]. rewrite (Hstep _ _ _ Es) by done.
    rewrite (client_goes_on NT_STATUS_MORE_PROCESSING_REQUIRED (Some u) st v c c1) by done. apply Hn.
Qed.

(** From the start: the client proposes, and the two ends talk. *)
Lemma ends_meet st t c1 c' s' :
  fc None c0 = Ret (st, Some t, c1) -> good st = true -> Z.of_nat (length (proposes t)) < 2 ^ 24 ->
  converses (NT_STATUS_IS_OK st) t c1 s0 c' s' ->
  exists token c, gensec_spnego_update regc gp A pc None (fresh SPNEGO_CLIENT_START) = Ret (NT_STATUS_MORE_PROCESSING_REQUIRED, token, c, pc) /\
    exists n, forall k, talk (n + k) c (fresh SPNEGO_SERVER_START) token = Some (client true SPNEGO_DONE c', server SPNEGO_DONE s').
Proof.
  intros Ef Hg Hl Hc. do 2 eexists. split; [by apply client_proposes|]. apply (talk_converses _ _ _ _ _ _ Hc). intros. by apply server_starts.
Qed.

(** C5: a mechanism that the client would use first and that the server has is carried to
    the end.  If its own tokens, handed over directly, lead both sides to success, then the
    client's proposal is made, the two ends that are given each other's tokens in turn both
    answer NT_STATUS_OK after finitely many, both negotiations are over, the contexts of the
    mechanism are those it would have had alone, and the calls of the session go to them. *)
Theorem spnego_carries st t c1 c' s' :
  fc None c0 = Ret (st, Some t, c1) -> good st = true -> Z.of_nat (length (proposes t)) < 2 ^ 24 ->
  converses (NT_STATUS_IS_OK st) t c1 s0 c' s' ->
  (exists token c, gensec_spnego_update regc gp A pc None (fresh SPNEGO_CLIENT_START) = Ret (NT_STATUS_MORE_PROCESSING_REQUIRED, token, c, pc) /\
     exists n, forall k, talk (n + k) c (fresh SPNEGO_SERVER_START) token = Some (client true SPNEGO_DONE c', server SPNEGO_DONE s')) /\
  (forall R refused (f : gensec_security -> outcome (R * gensec_security)),
     in_session refused f (client true SPNEGO_DONE c') = sub_call f (client true SPNEGO_DONE c') /\
     in_session refused f (server SPNEGO_DONE s') = sub_call f (server SPNEGO_DONE s')).
Proof.
  intros Ef Hg Hl Hc. split; [by apply (ends_meet st t c1)|done].
Qed.
End ends.

(** The toy of three tokens. *)
Lemma spnego_carries_witness :
  exists token c, toy_update [three] GENSEC_CLIENT None (fresh SPNEGO_CLIENT_START) = Ret (NT_STATUS_MORE_PROCESSING_REQUIRED, token, c, toy_parent GENSEC_CLIENT) /\
  exists n c' s', talk (Some [three]) (Some [three]) (fun _ => None) (fun _ => calloc) (toy_parent GENSEC_CLIENT) (toy_parent GENSEC_SERVER) n c (fresh SPNEGO_SERVER_START) token = Some (c', s') /\
    state_position c' = SPNEGO_DONE /\ state_position s' = SPNEGO_DONE.
Proof.
  set (at_ r n := set_private_data (To n) (sub_context (toy_parent r))).
  destruct (@spnego_carries nat unit unit (Some [three]) (Some [three]) (fun _ => None) (fun _ => calloc) ltac:(by intros k n)
    (toy_parent GENSEC_CLIENT) (toy_parent GENSEC_SERVER) [three] [three] ltac:(done) ltac:(done) three three three_oid [] []
    ltac:(by vm_compute) ltac:(by vm_compute) ltac:(by_eval) ltac:(by vm_compute) (at_ GENSEC_CLIENT 0%nat) (at_ GENSEC_SERVER 0%nat) three_step three_step
    ltac:(done) ltac:(done) ltac:(done) ltac:(done) ltac:(by vm_compute) NT_STATUS_MORE_PROCESSING_REQUIRED [1]
    (at_ GENSEC_CLIENT 1%nat) (at_ GENSEC_CLIENT 2%nat) (at_ GENSEC_SERVER 2%nat) ltac:(done) ltac:(done) ltac:(by vm_compute)) as [(token & c & E & n & Hn) _].
  - eapply replies; [reflexivity|by vm_compute|reflexivity|done|done|by vm_compute|]. by apply accepts_last.
  - exists token, c. split; [exact E|]. exists (n + 0)%nat. do 2 eexists. by split_and!; [apply Hn| |].
Defined.
