(* ===== verification/NtlmsspMech.v ===== *)
(** NTLMSSP as a mechanism of GENSEC (the table at the end of auth/ntlmssp/ntlmssp.c), and
    the login over SPNEGO: the parts of the development put together. *)

From stdpp Require Import strings.
From S2P Require Import Prelude Digest Byteorder Ntstatus DomSid Iconv Charcnv Unistr Md4 Md5 Msrpc Ntlmssp NtlmsspSign Smbencrypt NtlmCheck CliCredentials CredNtlm Auth AuthSam NtlmsspExchange.
From S2P Require Import NtlmsspMessages Handshake NtlmsspLogin.
Import Charcnv Unistr Msrpc Ntlmssp NtlmsspSign NtlmCheck CliCredentials CredNtlm Auth AuthSam NtlmsspExchange.
From S2P Require Import Asn1 Asn1Codec Gensec SpnegoUpdate SpnegoSession SpnegoCarries.
Import Gensec SpnegoUpdate.
From S2P Require Import Spnego.
Import Spnego.

#[local] Open Scope outcome_scope.

Module NtlmsspMech.

Definition GENSEC_OID_NTLMSSP : list Z := DomSid.str "1 3 6 1 4 1 311 2 2 10".
Definition DCERPC_AUTH_TYPE_NTLMSSP : Z := 10.
Definition GENSEC_NTLMSSP : Z := 50.

(** The private data: the state, and which call comes next. *)
Record private := Private { full : ntlmssp_state; calls : nat }.

Section table.
Context `{Host} `{Charsets} `{CaseTables} `{LoadParm} `{AuthPolicy}.
Context (run : nat -> cli_credentials -> outcome (cli_credentials * cstr)) (set_machine_account : cli_credentials -> outcome cli_credentials).
Context (gethostname : option (list Z)).
(** What the world supplies: the memory of the start, and to each call its memory, time and
    random bytes; the authentication methods that are registered and configured. *)
Context (start_memory : Allocator) (env : nat -> call_env) (backends : list auth_operations) (auth_methods : option (list string)).
Context {Info Addr : Type}.
#[local] Abbreviation gensec_context := (@gensec_context private Addr).
#[local] Abbreviation call := (@call private Addr).
(** gensec_ntlmssp_session_info, and where the table is. *)
Context (session_info : option (call (NTSTATUS * option Info))) (address : nat).

(** A null blob for no bytes. *)
Definition out_blob (b : list Z) : blob := match b with [] => None | _ => Some b end.

Definition started (r : NTSTATUS + ntlmssp_state) : call NTSTATUS := fun c =>
  match r with inl e => Ret (e, c) | inr st => Ret (NT_STATUS_OK, set_private_data (To (Private st 0)) c) end.

Definition client_start : call NTSTATUS := fun c => started (gensec_ntlmssp_client_start (want_features c) (@malloc_ok start_memory 0)) c.
Definition server_start : call NTSTATUS := fun c => started (gensec_ntlmssp_server_start (want_features c) start_memory backends auth_methods) c.

(** A call on the negotiated part of the state. *)
Definition on_state {R} (f : Allocator -> gensec_ntlmssp_state -> outcome (R * gensec_ntlmssp_state)) : call R := fun c =>
  match private_data c with
  | To p => let* r := f (memory (env (calls p))) (core (full p)) in Ret (r.1, set_private_data (To (Private (put_core r.2 (full p)) (S (calls p)))) c)
  | _ => Fault
  end.

(** The client's credentials are used and changed; the server's are not looked at. *)
Definition own_credentials (c : gensec_context) : outcome cli_credentials :=
  match Gensec.credentials c, Gensec.role c with
  | To cr, _ => Ret cr
  | _, GENSEC_SERVER => Ret cli_credentials_init
  | _, GENSEC_CLIENT => Fault
  end.

Definition update_entry (data : blob) : call (NTSTATUS * blob) := fun c =>
  match private_data c with
  | To p =>
      let* cr := own_credentials c in
      let* r := gensec_ntlmssp_update run set_machine_account gethostname (env (calls p)) (want_features c) (Endpoint (full p) cr) (default [] data) in
      let '(ep, status, out) := r in
      Ret (status, out_blob out,
           set_private_data (To (Private (NtlmsspExchange.state ep) (S (calls p))))
             (match Gensec.credentials c with To _ => set_credentials (To (NtlmsspExchange.credentials ep)) c | _ => c end))
  | _ => Fault
  end.

Definition gensec_ntlmssp_security_ops : @gensec_security_ops private Info Addr :=
  GensecOps address (DomSid.str "ntlmssp") (Some (DomSid.str "NTLM")) DCERPC_AUTH_TYPE_NTLMSSP (Some [GENSEC_OID_NTLMSSP])
    (Some client_start) (Some server_start) (Some (fun first_packet _ => Ret (gensec_ntlmssp_magic first_packet))) (Some update_entry)
    (Some (fun pdu ofs n => on_state (fun A s => let* (st, s, pdu, sig) := gensec_ntlmssp_seal_packet A s pdu ofs n in Ret (st, pdu, sig, s))))
    (Some (fun pdu ofs n => on_state (fun A s => let* (st, s, sig) := gensec_ntlmssp_sign_packet A s pdu ofs n in Ret (st, sig, s))))
    (Some (fun _ c => Ret (Z.of_nat NTLMSSP_SIG_SIZE, c))) None None
    (Some (fun pdu ofs n sig => on_state (fun A s => gensec_ntlmssp_check_packet A s pdu ofs n sig)))
    (Some (fun pdu ofs n sig => on_state (fun A s => let* (st, s, pdu) := gensec_ntlmssp_unseal_packet A s pdu ofs n sig in Ret (st, pdu, s))))
    (Some (fun data => on_state (fun A s => let* (st, s, out) := gensec_ntlmssp_wrap A s (default [] data) in Ret (st, out, s))))
    (Some (fun data => on_state (fun A s => let* (st, s, out) := gensec_ntlmssp_unwrap A s (default [] data) in Ret (st, out, s))))
    (Some (on_state (fun _ s => Ret (gensec_ntlmssp_session_key s, s)))) session_info
    (Some (fun feature => on_state (fun _ s => Ret (gensec_ntlmssp_have_feature s feature, s)))) true false GENSEC_NTLMSSP.
End table.
End NtlmsspMech.
Import NtlmsspMech.

(** ** The login *)

Section login.
Context `{Host} `{Charsets} `{CaseTables} `{LoadParm} `{AuthPolicy}.
Context (run : nat -> cli_credentials -> outcome (cli_credentials * cstr)) (set_machine_account : cli_credentials -> outcome cli_credentials).
Context (gethostname : option (list Z)) {Info Addr : Type}.

(** The state of the mechanism that a negotiation has agreed on. *)
Definition mech_state (s : @spnego_state private Info Addr) : option ntlmssp_state :=
  match sub_sec_security s with
  | Some g => match private_data (Gensec.context g) with To p => Some (full p) | _ => None end
  | None => None
  end.

(** A step of the mechanism, whoever's credentials it works on. *)
Lemma update_entry_ok env data (c : @gensec_context private Addr) n ep0 ep status out :
  private_data c = To (Private (NtlmsspExchange.state ep0) n) -> own_credentials c = Ret (NtlmsspExchange.credentials ep0) ->
  gensec_ntlmssp_update run set_machine_account gethostname (env n) (want_features c) ep0 (default [] data) = Ret (ep, status, out) ->
  exists c', update_entry run set_machine_account gethostname env data c = Ret (status, out_blob out, c') /\
    private_data c' = To (Private (NtlmsspExchange.state ep) (S n)) /\ want_features c' = want_features c /\
    (Gensec.role c = GENSEC_CLIENT \/ NtlmsspExchange.credentials ep = NtlmsspExchange.credentials ep0 -> own_credentials c' = Ret (NtlmsspExchange.credentials ep)).
Proof.
  intros Ep Ec Eu. unfold update_entry. rewrite Ep, Ec. cbn [obind full calls]. destruct ep0 as [st0 cr0]. cbn [NtlmsspExchange.credentials NtlmsspExchange.state] in *. rewrite Eu.
  cbn [obind]. eexists. split; [reflexivity|]. unfold own_credentials in *. destruct c as [pd crs tg r sc wf ma pa]. cbn in *.
  destruct crs as [| |cr]; cbn; (split_and!; [done|done|]); [..|done]; destruct r; try done; intros [|<-]; done.
Qed.

Lemma out_blob_some m : wire m -> out_blob m = Some m.
Proof. intros [Hm _]. by destruct m. Qed.
Lemma wire_fits m : wire m -> fits (Some m).
Proof. intros [_ Hl]. unfold fits. cbn [blob_length]. change (2 ^ 23) with 8388608. change (2 ^ 21) with 2097152 in Hl. lia. Qed.

(** The identifier by its components. *)
Definition ntlmssp_oid := Oid 1 3 [6; 1; 4; 1; 311; 2; 2; 10].

Lemma single_mech (o : @gensec_security_ops private Info Addr) x :
  Gensec.oid o = Some [x] -> x <> GENSEC_OID_SPNEGO -> client_oids [o] = [x] /\ Gensec.agreed [] [o] [x] GENSEC_OID_SPNEGO = [(o, x)].
Proof.
  intros Eo Hx. unfold client_oids, oids_of. cbn [map concat]. rewrite Eo. cbn [default id app List.filter].
  rewrite bool_decide_eq_false_2 by congruence. split; [done|]. cbn [Gensec.agreed existsb]. unfold common, offers. rewrite Eo. cbn [find default id existsb].
  rewrite bool_decide_eq_false_2 by done. by rewrite bool_decide_eq_true_2.
Qed.

Lemma started_ok (o : @gensec_security_ops private Info Addr) (p : @gensec_security private Info Addr) r st start :
  match r with GENSEC_CLIENT => Gensec.client_start o | GENSEC_SERVER => Gensec.server_start o end = Some start ->
  Gensec.role (Gensec.context p) = r -> start (sub_context p) = started (inr st) (sub_context p) ->
  gensec_start_mech (GensecSecurity (Some o) (sub_context p)) =
    Ret (NT_STATUS_OK, GensecSecurity (Some o) (set_private_data (To (Private st 0)) (sub_context p))).
Proof.
  intros Es Er Est. unfold gensec_start_mech, with_ops. cbn [ops Gensec.context]. unfold sub_context at 1. cbn [set_subcontext set_private_data Gensec.role]. rewrite Er, Es.
  unfold Gensec.run. cbn [Gensec.context]. by rewrite Est.
Qed.
(** Four steps of NTLMSSP that end well, over SPNEGO. *)
Lemma ntlmssp_over_spnego si get_principal (M : nat -> Allocator) (mc ms : Allocator) envc envs (pc ps : @gensec_security private Info Addr) cst sst c bc backends nc names
    ec1 es1 ec2 es2 m1 m2 m3 :
  let cwant := want_features (Gensec.context pc) in
  let swant := want_features (Gensec.context ps) in
  let tc := gensec_ntlmssp_security_ops run set_machine_account gethostname mc envc bc nc si 0 in
  let ts := gensec_ntlmssp_security_ops run set_machine_account gethostname ms envs backends names si 0 in
  (forall k, malloc_always (M k)) -> malloc_always mc ->
  Gensec.role (Gensec.context pc) = GENSEC_CLIENT -> Gensec.credentials (Gensec.context pc) = To c -> use_kerberos c = CRED_AUTO_USE_KERBEROS ->
  Gensec.role (Gensec.context ps) = GENSEC_SERVER -> Gensec.credentials (Gensec.context ps) = Nil ->
  gensec_ntlmssp_client_start cwant true = inr cst -> gensec_ntlmssp_server_start swant ms backends names = inr sst ->
  gensec_ntlmssp_update run set_machine_account gethostname (envc 0%nat) cwant (Endpoint cst c) [] = Ret (ec1, NT_STATUS_MORE_PROCESSING_REQUIRED, m1) ->
  gensec_ntlmssp_update run set_machine_account gethostname (envs 0%nat) swant (Endpoint sst cli_credentials_init) m1 = Ret (es1, NT_STATUS_MORE_PROCESSING_REQUIRED, m2) ->
  gensec_ntlmssp_update run set_machine_account gethostname (envc 1%nat) cwant ec1 m2 = Ret (ec2, NT_STATUS_OK, m3) ->
  gensec_ntlmssp_update run set_machine_account gethostname (envs 1%nat) swant es1 m3 = Ret (es2, NT_STATUS_OK, []) ->
  wire m1 -> wire m2 -> wire m3 -> NtlmsspExchange.credentials es1 = cli_credentials_init ->
  exists token c1 c' s' n,
    gensec_spnego_update (Some [tc]) get_principal M pc None (fresh SPNEGO_CLIENT_START) = Ret (NT_STATUS_MORE_PROCESSING_REQUIRED, token, c1, pc) /\
    (forall k, talk (Some [tc]) (Some [ts]) get_principal M pc ps (n + k) c1 (fresh SPNEGO_SERVER_START) token = Some (c', s')) /\
    state_position c' = SPNEGO_DONE /\ state_position s' = SPNEGO_DONE /\
    mech_state c' = Some (NtlmsspExchange.state ec2) /\ mech_state s' = Some (NtlmsspExchange.state es2).
Proof.
  intros cwant swant tc ts memM memc Hrc Hcc Hk Hrs Hcs Ecst Esst E1 E2 E3 E4 W1 W2 W3 Hes.
  set (c0 := set_private_data (To (Private cst 0)) (sub_context pc)). set (s0 := set_private_data (To (Private sst 0)) (sub_context ps)).
  assert (own_credentials c0 = Ret c) as Oc by (unfold own_credentials; change (Gensec.credentials c0) with (Gensec.credentials (Gensec.context pc)); by rewrite Hcc).
  assert (own_credentials s0 = Ret cli_credentials_init) as Os
    by (unfold own_credentials; change (Gensec.credentials s0) with (Gensec.credentials (Gensec.context ps)); change (Gensec.role s0) with (Gensec.role (Gensec.context ps));
        by rewrite Hcs, Hrs).
  destruct (update_entry_ok envc None c0 0 (Endpoint cst c) ec1 NT_STATUS_MORE_PROCESSING_REQUIRED m1) as (k1 & F1 & P1 & V1 & O1); [done|exact Oc|exact E1|].
  destruct (update_entry_ok envs (Some m1) s0 0 (Endpoint sst cli_credentials_init) es1 NT_STATUS_MORE_PROCESSING_REQUIRED m2) as (l1 & F2 & P2 & V2 & O2);
    [done|exact Os|exact E2|].
  destruct (update_entry_ok envc (Some m2) k1 1 ec1 ec2 NT_STATUS_OK m3) as (k2 & F3 & P3 & _ & _); [exact P1|apply O1; by left|rewrite V1; exact E3|].
  destruct (update_entry_ok envs (Some m3) l1 1 es1 es2 NT_STATUS_OK []) as (l2 & F4 & P4 & _ & _); [exact P2|apply O2; by right|rewrite V2; exact E4|].
  rewrite out_blob_some in F1, F2, F3 by done.
  assert (Gensec.oid tc = Some [oid_str ntlmssp_oid]) as Ic by (unfold tc, gensec_ntlmssp_security_ops; cbn [Gensec.oid]; by_eval).
  assert (Gensec.oid ts = Some [oid_str ntlmssp_oid]) as Is by (unfold ts, gensec_ntlmssp_security_ops; cbn [Gensec.oid]; by_eval).
  destruct (single_mech tc (oid_str ntlmssp_oid) Ic ltac:(done)) as [Lc Ac]. destruct (single_mech ts (oid_str ntlmssp_oid) Is ltac:(done)) as [_ As].
  edestruct (@ends_meet private Info Addr (Some [tc]) (Some [ts]) get_principal M memM pc ps [tc] [ts]) with (m := ntlmssp_oid) (others := @nil oid) (oc := tc) (os := ts)
    (rest := @nil (@gensec_security_ops private Info Addr * list Z))
    (c0 := c0) (s0 := s0) (fc := update_entry (Addr:=Addr) run set_machine_account gethostname envc) (fs := update_entry (Addr:=Addr) run set_machine_account gethostname envs)
    (st := NT_STATUS_MORE_PROCESSING_REQUIRED) (t := m1) (c1 := k1) (c' := k2) (s' := l2)
    as (token & c1 & Et & n & Hn).
  - intros k. unfold gensec_security_mechs, gensec_get_credentials. rewrite Hcc. unfold cli_credentials_get_kerberos_state. rewrite Hk. cbn. by rewrite memM.
  - intros k. unfold gensec_security_mechs, gensec_get_credentials. rewrite Hcs. by rewrite memM.
  - rewrite Lc. exact Ac.
  - cbn [map concat fst]. by rewrite Ic.
  - by_eval.
  - cbn [map]. rewrite As. cbn [find snd]. by rewrite bool_decide_eq_true_2.
  - apply (started_ok tc pc GENSEC_CLIENT cst (client_start mc)); [done|done|]. unfold client_start. rewrite memc. change (want_features (sub_context pc)) with cwant. by rewrite Ecst.
  - apply (started_ok ts ps GENSEC_SERVER sst (server_start ms backends names)); [done|done|]. unfold server_start. change (want_features (sub_context ps)) with swant. by rewrite Esst.
  - done.
  - done.
  - by_eval.
  - exact F1.
  - done.
  - pose proof (length_init [ntlmssp_oid] m1). assert (length (concat (map oid_tlv [ntlmssp_oid])) = 12%nat) as El by by_eval.
    destruct W1 as [_ W1]. unfold proposes. change (2 ^ 21) with 2097152 in W1. change (2 ^ 24) with 16777216. lia.
  - apply (replies _ _ m1 m2 NT_STATUS_OK m3 k1 s0 k2 l1 k2 l2); [exact F2|by apply wire_fits|exact F3|done|apply W3|by apply wire_fits|].
    by apply accepts_last.
  - exists token, c1. do 2 eexists. exists n. split; [exact Et|]. split; [exact Hn|]. split; [done|]. split; [done|].
    unfold mech_state. cbn [sub_sec_security client server Gensec.context]. rewrite P3, P4. done.
Qed.
End login.

(** C2: a user who logs on over SPNEGO.  A client with complete credentials and a server
    whose methods check them, both with NTLMSSP as their only mechanism, exchange SPNEGO
    tokens, and after finitely many both ends answer NT_STATUS_OK: NTLMSSP was agreed on,
    and the states in which the two sides leave it have the same flags and the same 16-byte
    session key; where both sides want signing or sealing, the session delivers every
    packet. *)
Theorem spnego_ntlmssp_login `{Host} `{Charsets} `{CaseTables} `{LoadParm} `{AuthPolicy}
    (run : nat -> cli_credentials -> outcome (cli_credentials * cstr)) (set_machine_account : cli_credentials -> outcome cli_credentials)
    (gethostname : option (list Z)) {Info Addr : Type} (si : option (call (NTSTATUS * option Info))) (get_principal : cli_credentials -> option (list Z))
    (M : nat -> Allocator) (mc ms A : Allocator) (envc envs : nat -> call_env) (pc ps : @gensec_security private Info Addr) (cst sst : ntlmssp_state)
    (c : cli_credentials) (bc backends : list auth_operations) (nc names : option (list string)) (ctx : auth_context) (user domain password ws : list Z)
    `{!ChecksNtlm (methods ctx) user domain ws (nt_owf password)} :
  let cwant := want_features (Gensec.context pc) in
  let swant := want_features (Gensec.context ps) in
  let tc := gensec_ntlmssp_security_ops run set_machine_account gethostname mc envc bc nc si 0 in
  let ts := gensec_ntlmssp_security_ops run set_machine_account gethostname ms envs backends names si 0 in
  unix_is_utf8 -> dos_is_ascii -> (forall cp, scalar cp -> scalar (toupper_w cp)) -> (forall t, upcase_table = Some t -> bytes t) ->
  (forall h, gethostname = Some h -> Forall ascii_char h) ->
  text_ok lp_workgroup PSTRING_LEN -> text_ok lp_netbios_name PSTRING_LEN ->
  (forall k, malloc_always (M k)) -> malloc_always A -> malloc_always mc -> malloc_always ms ->
  (forall k, malloc_always (memory (envc k))) -> (forall k, malloc_always (memory (envs k))) ->
  Gensec.role (Gensec.context pc) = GENSEC_CLIENT -> Gensec.credentials (Gensec.context pc) = To c -> use_kerberos c = CRED_AUTO_USE_KERBEROS ->
  Gensec.role (Gensec.context ps) = GENSEC_SERVER -> Gensec.credentials (Gensec.context ps) = Nil ->
  gensec_ntlmssp_client_start cwant true = inr cst -> lp_parm_bool "ntlmssp_client" "unicode" true = true ->
  gensec_ntlmssp_server_start swant ms backends names = inr sst -> NtlmsspExchange.context sst = Some ctx ->
  lp_lanman_auth && lp_parm_bool "ntlmssp_server" "allow_lm_key" false = false ->
  protects swant || wants swant GENSEC_FEATURE_SESSION_KEY = true ->
  client_ready c (random (envc 1%nat)) user domain password ws -> form_allowed cst password ->
  bytes (random_challenge (envs 0%nat)) -> length (random_challenge (envs 0%nat)) = 8%nat -> length (random_key (envc 1%nat)) = 16%nat ->
  exists token c1 c' s' n key stc sts,
    gensec_spnego_update (Some [tc]) get_principal M pc None (fresh SPNEGO_CLIENT_START) = Ret (NT_STATUS_MORE_PROCESSING_REQUIRED, token, c1, pc) /\
    (forall k, talk (Some [tc]) (Some [ts]) get_principal M pc ps (n + k) c1 (fresh SPNEGO_SERVER_START) token = Some (c', s')) /\
    state_position c' = SPNEGO_DONE /\ state_position s' = SPNEGO_DONE /\ mech_state c' = Some stc /\ mech_state s' = Some sts /\
    NtlmsspLogin.agreed (core stc) (core sts) key /\
    (protects cwant = true -> protects swant = true -> delivers A (core stc) (core sts)).
Proof.
  intros cwant swant tc ts unix8 dos7 Hus Hub Hhost Hwg Hnb memM memA memc mems memec memes Hrc Hcc Hk Hrs Hcs Ecst Hu Esst Hctx Hlm Hsw Hcl Hform Hb8 Hl8 Hl16.
  edestruct (exchange_runs unix8 dos7 Hus Hub run set_machine_account gethostname Hhost Hwg Hnb ms A (envc 0%nat) (envs 0%nat) (envc 1%nat) (envs 1%nat)
    cwant swant cst sst c cli_credentials_init backends names ctx user domain password ws)
    as (ec1 & m1 & es1 & m2 & ec2 & m3 & es2 & key & E1 & E2 & E3 & E4 & Hag & Hdel & Hwire & Hes); [done..|].
  apply Forall_cons_iff in Hwire as [W1 Hwire]. apply Forall_cons_iff in Hwire as [W2 Hwire]. apply Forall_cons_iff in Hwire as [W3 _].
  destruct (ntlmssp_over_spnego run set_machine_account gethostname si get_principal M mc ms envc envs pc ps cst sst c bc backends nc names ec1 es1 ec2 es2 m1 m2 m3)
    as (token & c1 & c' & s' & n & T1 & T2 & T3 & T4 & T5 & T6); [done..|].
  exists token, c1, c', s', n, key, (NtlmsspExchange.state ec2), (NtlmsspExchange.state es2). by split_and!.
Qed.

(** The logon of the sample user, over SPNEGO. *)
Definition login_parent (r : gensec_role) (c : ptr cli_credentials) : @gensec_security private unit unit :=
  GensecSecurity None (GensecContext Nil c (GensecTarget None None None) r false GENSEC_FEATURE_SEAL None None).

Lemma spnego_ntlmssp_login_witness :
  let run := fun (_ : nat) (c : cli_credentials) => Ret (c, Null) in
  let names := Some ["anonymous"%string; "sam_ignoredomain"%string] in
  let methods := @sample_methods false utf8_charsets no_tables sample_parm no_legacy sample_sam in
  let table := @gensec_ntlmssp_security_ops false utf8_charsets no_tables sample_parm no_legacy run (fun c => Ret c) None calloc (fun _ => sample_call) methods names unit unit None 0 in
  exists token c1 c' s' n stc sts,
    gensec_spnego_update (Some [table]) (fun _ => None) (fun _ => calloc) (login_parent GENSEC_CLIENT (To sample_credentials)) None (fresh SPNEGO_CLIENT_START) =
      Ret (NT_STATUS_MORE_PROCESSING_REQUIRED, token, c1, login_parent GENSEC_CLIENT (To sample_credentials)) /\
    talk (Some [table]) (Some [table]) (fun _ => None) (fun _ => calloc) (login_parent GENSEC_CLIENT (To sample_credentials)) (login_parent GENSEC_SERVER Nil)
      n c1 (fresh SPNEGO_SERVER_START) token = Some (c', s') /\
    mech_state c' = Some stc /\ mech_state s' = Some sts /\ Ntlmssp.session_key (core stc) = Ntlmssp.session_key (core sts) /\
    @delivers false utf8_charsets calloc (core stc) (core sts).
Proof.
  intros run names methods table.
  pose (ctx := Context (Challenge None false []) methods).
  assert (@ChecksNtlm false utf8_charsets no_tables no_legacy (Auth.methods ctx) [117] [87] [80; 67] (nt_owf [112; 119])) as checks
    by exact (@sam_checks_ntlm false utf8_charsets no_tables sample_parm no_legacy sample_sam sample_now [117] [87] [80; 67] (nt_owf [112; 119]) None
                sample_account sample_sam_account).
  destruct (@gensec_ntlmssp_client_start sample_parm GENSEC_FEATURE_SEAL true) as [e|cst] eqn:Hc; [done|].
  destruct (@gensec_ntlmssp_server_start sample_parm no_legacy GENSEC_FEATURE_SEAL calloc methods names) as [e|sst] eqn:Hs; [done|].
  destruct (@spnego_ntlmssp_login false utf8_charsets no_tables sample_parm no_legacy run (fun c => Ret c) None unit unit None (fun _ => None) (fun _ => calloc) calloc calloc calloc
    (fun _ => sample_call) (fun _ => sample_call) (login_parent GENSEC_CLIENT (To sample_credentials)) (login_parent GENSEC_SERVER Nil) cst sst sample_credentials
    methods methods names names ctx [117] [87] [112; 119] [80; 67] checks)
    as (token & c1 & c' & s' & n & key & stc & sts & E1 & E2 & _ & _ & E3 & E4 & Hag & Hd);
    [by left|done|apply no_tables_upper|done|done|unfold text_ok; split_and!; by_eval..|done|done|done|done|done|done|done|done|done|done|done|exact Hc|done|exact Hs| |done|done|
     exact sample_ready| |by_eval|done|done|].
  - injection Hs as <-. reflexivity.
  - left. injection Hc as <-. reflexivity.
  - exists token, c1, c', s', (n + 0)%nat, stc, sts. split; [exact E1|]. split; [exact (E2 0%nat)|]. split; [exact E3|]. split; [exact E4|].
    split; [|by apply Hd]. destruct (ag_key _ _ _ Hag) as (-> & -> & _). done.
Defined.
