(* ===== verification/Ndr.v ===== *)
(** librpc/ndr/libndr.h, ndr.c and ndr_basic.c: the state that marshalling and
    unmarshalling share, its tokens and the basic types of NDR. *)

From S2P Require Import Prelude Digest Byteorder Ntstatus.
Import Byteorder.

#[local] Open Scope outcome_scope.

Module Ndr.

(** ** Calls that return a status *)

(** A call on a state of type [S] leaves a value or the status of an error, and the
    state as it is then; a fault leaves nothing. *)
Inductive result (A : Type) :=
| Good (a : A)
| Bad (e : NTSTATUS).
#[global] Arguments Good {A} a.
#[global] Arguments Bad {A} e.

Definition M (S A : Type) : Type := S -> outcome (result A * S).

Section calls.
Context {S : Type}.

Definition ret {A} (a : A) : M S A := fun s => Ret (Good a, s).
Definition bad {A} (e : NTSTATUS) : M S A := fun s => Ret (Bad e, s).
Definition fault {A} : M S A := fun _ => Fault.
(** NDR_CHECK. *)
Definition bind {A B} (m : M S A) (f : A -> M S B) : M S B := fun s =>
  let* r := m s in
  match r.1 with
  | Good a => f a r.2
  | Bad e => Ret (Bad e, r.2)
  end.
Definition get {A} (f : S -> A) : M S A := fun s => Ret (Good (f s), s).
Definition modify (f : S -> S) : M S unit := fun s => Ret (Good tt, f s).
(** A call whose status the caller looks at. *)
Definition attempt {A} (m : M S A) : M S (result A) := fun s => let* r := m s in Ret (Good r.1, r.2).
Fixpoint repeat_call (n : nat) (m : M S unit) : M S unit :=
  match n with
  | O => ret tt
  | Datatypes.S n => bind m (fun _ => repeat_call n m)
  end.
End calls.

Lemma bind_good {S A B} (m : M S A) (k : A -> M S B) s v s' : m s = Ret (Good v, s') -> bind m k s = k v s'.
Proof. unfold bind. by intros ->. Qed.
Lemma bind_bad {S A B} (m : M S A) (k : A -> M S B) s e s' : m s = Ret (Bad e, s') -> bind m k s = Ret (Bad e, s').
Proof. unfold bind. by intros ->. Qed.
Lemma bind_fault {S A B} (m : M S A) (k : A -> M S B) s : m s = Fault -> bind m k s = Fault.
Proof. unfold bind. by intros ->. Qed.
Lemma bind_inv {S A B} (m : M S A) (k : A -> M S B) s v s' :
  bind m k s = Ret (Good v, s') -> exists x s1, m s = Ret (Good x, s1) /\ k x s1 = Ret (Good v, s').
Proof. unfold bind. destruct (m s) as [[[x|e] s1]|]; cbn; try done. intros E. by exists x, s1. Qed.

Declare Scope ndr_scope.
Delimit Scope ndr_scope with ndr.
Notation "'do' x <- m ; k" := (bind m (fun x => k)) (at level 10, x pattern, m at level 100, k at level 200) : ndr_scope.
Notation "m ;; k" := (bind m (fun _ => k)) (at level 100, right associativity) : ndr_scope.
#[local] Open Scope ndr_scope.

(** ** Constants of libndr.h *)

Definition LIBNDR_FLAG_BIGENDIAN : Z := 2 ^ 0.
Definition LIBNDR_FLAG_NOALIGN : Z := 2 ^ 1.
Definition LIBNDR_FLAG_STR_ASCII : Z := 2 ^ 2.
Definition LIBNDR_FLAG_STR_LEN4 : Z := 2 ^ 3.
Definition LIBNDR_FLAG_STR_SIZE4 : Z := 2 ^ 4.
Definition LIBNDR_FLAG_STR_NOTERM : Z := 2 ^ 5.
Definition LIBNDR_FLAG_STR_NULLTERM : Z := 2 ^ 6.
Definition LIBNDR_FLAG_STR_SIZE2 : Z := 2 ^ 7.
Definition LIBNDR_FLAG_STR_BYTESIZE : Z := 2 ^ 8.
Definition LIBNDR_FLAG_STR_FIXLEN32 : Z := 2 ^ 9.
Definition LIBNDR_FLAG_STR_CONFORMANT : Z := 2 ^ 10.
Definition LIBNDR_FLAG_STR_CHARLEN : Z := 2 ^ 11.
Definition LIBNDR_FLAG_STR_UTF8 : Z := 2 ^ 12.
Definition LIBNDR_FLAG_STR_FIXLEN15 : Z := 2 ^ 13.
Definition LIBNDR_STRING_FLAGS : Z := 0x7FFC.
Definition LIBNDR_FLAG_REF_ALLOC : Z := 2 ^ 20.
Definition LIBNDR_FLAG_REMAINING : Z := 2 ^ 21.
Definition LIBNDR_FLAG_ALIGN2 : Z := 2 ^ 22.
Definition LIBNDR_FLAG_ALIGN4 : Z := 2 ^ 23.
Definition LIBNDR_FLAG_ALIGN8 : Z := 2 ^ 24.
Definition LIBNDR_ALIGN_FLAGS : Z := Z.lor (Z.lor LIBNDR_FLAG_ALIGN2 LIBNDR_FLAG_ALIGN4) LIBNDR_FLAG_ALIGN8.
Definition LIBNDR_FLAG_LITTLE_ENDIAN : Z := 2 ^ 27.
Definition LIBNDR_FLAG_PAD_CHECK : Z := 2 ^ 28.
Definition LIBNDR_FLAG_NO_NDR_SIZE : Z := 2 ^ 31.

Definition NDR_SCALARS : Z := 1.
Definition NDR_BUFFERS : Z := 2.

Definition isset (flags f : Z) : bool := negb (Z.land flags f =? 0).

(** NDR_BE on the flags. *)
Definition big_endian (flags : Z) : bool :=
  Z.land flags (Z.lor LIBNDR_FLAG_BIGENDIAN LIBNDR_FLAG_LITTLE_ENDIAN) =? LIBNDR_FLAG_BIGENDIAN.

Inductive ndr_err_code :=
| NDR_ERR_ARRAY_SIZE
| NDR_ERR_BAD_SWITCH
| NDR_ERR_OFFSET
| NDR_ERR_RELATIVE
| NDR_ERR_CHARCNV
| NDR_ERR_LENGTH
| NDR_ERR_SUBCONTEXT
| NDR_ERR_COMPRESSION
| NDR_ERR_STRING
| NDR_ERR_VALIDATE
| NDR_ERR_BUFSIZE
| NDR_ERR_ALLOC
| NDR_ERR_RANGE
| NDR_ERR_TOKEN
| NDR_ERR_IPV4ADDRESS.

Definition ndr_map_error (ndr_err : ndr_err_code) : NTSTATUS :=
  match ndr_err with
  | NDR_ERR_BUFSIZE => NT_STATUS_BUFFER_TOO_SMALL
  | NDR_ERR_TOKEN => NT_STATUS_INTERNAL_ERROR
  | NDR_ERR_ALLOC => NT_STATUS_NO_MEMORY
  | NDR_ERR_ARRAY_SIZE => NT_STATUS_ARRAY_BOUNDS_EXCEEDED
  | _ => NT_STATUS_INVALID_PARAMETER
  end.

(** ndr_pull_error and ndr_push_error, less the log. *)
Definition ndr_error {S A} (ndr_err : ndr_err_code) : M S A := bad (ndr_map_error ndr_err).

Definition ndr_set_flags (pflags new_flags : Z) : Z :=
  let clear f m := Z.land f (not32 m) in
  let f := if isset new_flags LIBNDR_FLAG_LITTLE_ENDIAN then clear pflags LIBNDR_FLAG_BIGENDIAN else pflags in
  let f := if isset new_flags LIBNDR_FLAG_BIGENDIAN then clear f LIBNDR_FLAG_LITTLE_ENDIAN else f in
  let f := if isset new_flags LIBNDR_FLAG_REMAINING then clear f LIBNDR_ALIGN_FLAGS else f in
  let f := if isset new_flags LIBNDR_ALIGN_FLAGS then clear f LIBNDR_FLAG_REMAINING else f in
  Z.lor f new_flags.

Definition ndr_align_size (offset n : Z) : Z :=
  if Z.land offset (n - 1) =? 0 then 0 else n - Z.land offset (n - 1).

(** [(offset + (n-1)) & ~(n-1)], on a 32-bit offset. *)
Definition align_up (offset n : Z) : Z := Z.land (u32 (offset + (n - 1))) (not32 (n - 1)).

(** ** Tokens *)

(** The addresses that tokens are kept under: the [index]th element of the [block]th
    allocation. *)
Inductive addr :=
| NULL
| At (block index : nat).

#[export] Instance addr_eq_dec : EqDecision addr.
Proof. solve_decision. Defined.

(** DLIST_ADD puts the newest first. *)
Definition ndr_token_list : Type := list (addr * Z).

(** ndr_token_retrieve_cmp_fn with no comparison function: the newest token of the key. *)
Fixpoint ndr_token_find (l : ndr_token_list) (key : addr) : option (Z * ndr_token_list) :=
  match l with
  | [] => None
  | tok :: l =>
      if decide (tok.1 = key) then Some (tok.2, l)
      else match ndr_token_find l key with
           | Some (v, l) => Some (v, tok :: l)
           | None => None
           end
  end.

Definition ndr_token_peek (l : ndr_token_list) (key : addr) : Z :=
  match ndr_token_find l key with
  | Some (v, _) => v
  | None => 0
  end.
End Ndr.

Import Ndr.
#[local] Open Scope ndr_scope.

(** ** struct ndr_pull *)

Module Pull.

(** [data] is the memory from the data pointer to the end of its block, of which the
    parser may use [data_size] bytes.  [allocs] counts the allocations, which also are
    the addresses of what is unmarshalled; the memory context is left out. *)
Record ndr_pull := NdrPull {
  flags : Z;
  data : list Z;
  data_size : Z;
  offset : Z;
  relative_base_offset : Z;
  relative_base_list : ndr_token_list;
  relative_list : ndr_token_list;
  array_size_list : ndr_token_list;
  array_length_list : ndr_token_list;
  switch_list : ndr_token_list;
  ptr_count : Z;
  allocs : nat
}.

Definition set_flags (x : Z) (s : ndr_pull) : ndr_pull :=
  NdrPull x (data s) (data_size s) (offset s) (relative_base_offset s) (relative_base_list s) (relative_list s)
    (array_size_list s) (array_length_list s) (switch_list s) (ptr_count s) (allocs s).
Definition set_data_size (x : Z) (s : ndr_pull) : ndr_pull :=
  NdrPull (flags s) (data s) x (offset s) (relative_base_offset s) (relative_base_list s) (relative_list s)
    (array_size_list s) (array_length_list s) (switch_list s) (ptr_count s) (allocs s).
Definition set_offset (x : Z) (s : ndr_pull) : ndr_pull :=
  NdrPull (flags s) (data s) (data_size s) x (relative_base_offset s) (relative_base_list s) (relative_list s)
    (array_size_list s) (array_length_list s) (switch_list s) (ptr_count s) (allocs s).
Definition set_relative_base_offset (x : Z) (s : ndr_pull) : ndr_pull :=
  NdrPull (flags s) (data s) (data_size s) (offset s) x (relative_base_list s) (relative_list s)
    (array_size_list s) (array_length_list s) (switch_list s) (ptr_count s) (allocs s).
Definition set_relative_base_list (x : ndr_token_list) (s : ndr_pull) : ndr_pull :=
  NdrPull (flags s) (data s) (data_size s) (offset s) (relative_base_offset s) x (relative_list s)
    (array_size_list s) (array_length_list s) (switch_list s) (ptr_count s) (allocs s).
Definition set_relative_list (x : ndr_token_list) (s : ndr_pull) : ndr_pull :=
  NdrPull (flags s) (data s) (data_size s) (offset s) (relative_base_offset s) (relative_base_list s) x
    (array_size_list s) (array_length_list s) (switch_list s) (ptr_count s) (allocs s).
Definition set_array_size_list (x : ndr_token_list) (s : ndr_pull) : ndr_pull :=
  NdrPull (flags s) (data s) (data_size s) (offset s) (relative_base_offset s) (relative_base_list s) (relative_list s)
    x (array_length_list s) (switch_list s) (ptr_count s) (allocs s).
Definition set_array_length_list (x : ndr_token_list) (s : ndr_pull) : ndr_pull :=
  NdrPull (flags s) (data s) (data_size s) (offset s) (relative_base_offset s) (relative_base_list s) (relative_list s)
    (array_size_list s) x (switch_list s) (ptr_count s) (allocs s).
Definition set_switch_list (x : ndr_token_list) (s : ndr_pull) : ndr_pull :=
  NdrPull (flags s) (data s) (data_size s) (offset s) (relative_base_offset s) (relative_base_list s) (relative_list s)
    (array_size_list s) (array_length_list s) x (ptr_count s) (allocs s).
Definition set_ptr_count (x : Z) (s : ndr_pull) : ndr_pull :=
  NdrPull (flags s) (data s) (data_size s) (offset s) (relative_base_offset s) (relative_base_list s) (relative_list s)
    (array_size_list s) (array_length_list s) (switch_list s) x (allocs s).
Definition set_allocs (x : nat) (s : ndr_pull) : ndr_pull :=
  NdrPull (flags s) (data s) (data_size s) (offset s) (relative_base_offset s) (relative_base_list s) (relative_list s)
    (array_size_list s) (array_length_list s) (switch_list s) (ptr_count s) x.
End Pull.

(** ** struct ndr_push *)

Module Push.

(** [data] is the block of [alloc_size] bytes, empty once an allocation has failed; the
    tokens of [nbt_string_list] are kept under strings. *)
Record ndr_push := NdrPush {
  flags : Z;
  data : list Z;
  alloc_size : Z;
  offset : Z;
  relative_base_offset : Z;
  relative_base_list : ndr_token_list;
  switch_list : ndr_token_list;
  relative_list : ndr_token_list;
  nbt_string_list : list (list Z * Z);
  full_ptr_list : ndr_token_list;
  ptr_count : Z;
  allocs : nat
}.

Definition set_flags (x : Z) (s : ndr_push) : ndr_push :=
  NdrPush x (data s) (alloc_size s) (offset s) (relative_base_offset s) (relative_base_list s) (switch_list s)
    (relative_list s) (nbt_string_list s) (full_ptr_list s) (ptr_count s) (allocs s).
Definition set_data (x : list Z) (s : ndr_push) : ndr_push :=
  NdrPush (flags s) x (alloc_size s) (offset s) (relative_base_offset s) (relative_base_list s) (switch_list s)
    (relative_list s) (nbt_string_list s) (full_ptr_list s) (ptr_count s) (allocs s).
Definition set_alloc_size (x : Z) (s : ndr_push) : ndr_push :=
  NdrPush (flags s) (data s) x (offset s) (relative_base_offset s) (relative_base_list s) (switch_list s)
    (relative_list s) (nbt_string_list s) (full_ptr_list s) (ptr_count s) (allocs s).
Definition set_offset (x : Z) (s : ndr_push) : ndr_push :=
  NdrPush (flags s) (data s) (alloc_size s) x (relative_base_offset s) (relative_base_list s) (switch_list s)
    (relative_list s) (nbt_string_list s) (full_ptr_list s) (ptr_count s) (allocs s).
Definition set_relative_base_offset (x : Z) (s : ndr_push) : ndr_push :=
  NdrPush (flags s) (data s) (alloc_size s) (offset s) x (relative_base_list s) (switch_list s)
    (relative_list s) (nbt_string_list s) (full_ptr_list s) (ptr_count s) (allocs s).
Definition set_relative_base_list (x : ndr_token_list) (s : ndr_push) : ndr_push :=
  NdrPush (flags s) (data s) (alloc_size s) (offset s) (relative_base_offset s) x (switch_list s)
    (relative_list s) (nbt_string_list s) (full_ptr_list s) (ptr_count s) (allocs s).
Definition set_switch_list (x : ndr_token_list) (s : ndr_push) : ndr_push :=
  NdrPush (flags s) (data s) (alloc_size s) (offset s) (relative_base_offset s) (relative_base_list s) x
    (relative_list s) (nbt_string_list s) (full_ptr_list s) (ptr_count s) (allocs s).
Definition set_relative_list (x : ndr_token_list) (s : ndr_push) : ndr_push :=
  NdrPush (flags s) (data s) (alloc_size s) (offset s) (relative_base_offset s) (relative_base_list s) (switch_list s)
    x (nbt_string_list s) (full_ptr_list s) (ptr_count s) (allocs s).
Definition set_nbt_string_list (x : list (list Z * Z)) (s : ndr_push) : ndr_push :=
  NdrPush (flags s) (data s) (alloc_size s) (offset s) (relative_base_offset s) (relative_base_list s) (switch_list s)
    (relative_list s) x (full_ptr_list s) (ptr_count s) (allocs s).
Definition set_full_ptr_list (x : ndr_token_list) (s : ndr_push) : ndr_push :=
  NdrPush (flags s) (data s) (alloc_size s) (offset s) (relative_base_offset s) (relative_base_list s) (switch_list s)
    (relative_list s) (nbt_string_list s) x (ptr_count s) (allocs s).
Definition set_ptr_count (x : Z) (s : ndr_push) : ndr_push :=
  NdrPush (flags s) (data s) (alloc_size s) (offset s) (relative_base_offset s) (relative_base_list s) (switch_list s)
    (relative_list s) (nbt_string_list s) (full_ptr_list s) x (allocs s).
Definition set_allocs (x : nat) (s : ndr_push) : ndr_push :=
  NdrPush (flags s) (data s) (alloc_size s) (offset s) (relative_base_offset s) (relative_base_list s) (switch_list s)
    (relative_list s) (nbt_string_list s) (full_ptr_list s) (ptr_count s) x.
End Push.

Abbreviation ndr_pull := Pull.ndr_pull.
Abbreviation ndr_push := Push.ndr_push.
