(* ===== verification/NdrPull.v ===== *)
(** librpc/ndr/ndr_basic.c and ndr.c, unmarshalling: the basic types, the tokens, relative
    pointers, subcontexts, and that reading from inside the data stays inside it. *)

From S2P Require Import Prelude Digest Byteorder Ntstatus Ndr.
Import Byteorder Ndr Pull.

#[local] Open Scope outcome_scope.
#[local] Open Scope ndr_scope.

Module NdrPull.

(** byteorder.h *)
Definition RIVALS (buf : list Z) (pos : nat) : Z := s32 (IREV (IVALS buf pos)).

(** The arguments the code ignores (the flags of a scalar, the names in messages) are
    left out. *)
Section pull.
Context (A : Allocator).

Implicit Types s : ndr_pull.

(** talloc of a small block: its address, or null. *)
Definition alloc : M ndr_pull addr := fun s =>
  Ret (Good (if @malloc_ok A (allocs s) then At (allocs s) 0 else NULL), set_allocs (S (allocs s)) s).

(** [el_size] bytes for each of [n] elements: talloc_array refuses the largest. *)
Definition alloc_array (el_size n : Z) : M ndr_pull addr :=
  if n <? MAX_TALLOC_SIZE / el_size then alloc else fun s => Ret (Good NULL, s).

(** NDR_PULL_ALLOC and NDR_PULL_ALLOC_N. *)
Definition checked (m : M ndr_pull addr) : M ndr_pull addr :=
  do p <- m; if decide (p = NULL) then ndr_error NDR_ERR_ALLOC else ret p.
Definition NDR_PULL_ALLOC : M ndr_pull addr := checked alloc.
Definition NDR_PULL_ALLOC_N (el_size n : Z) : M ndr_pull addr := checked (alloc_array el_size n).

(** [n] bytes at [ofs] of the data, which may not be there. *)
Definition load {B} (n : Z) (f : list Z -> nat -> B) (ofs : Z) : M ndr_pull B := fun s =>
  if decide (0 <= ofs /\ ofs + n <= Z.of_nat (length (data s))) then Ret (Good (f (data s) (Z.to_nat ofs)), s) else Fault.

Definition NDR_PULL_NEED_BYTES (n : Z) : M ndr_pull unit := fun s =>
  if (data_size s <? n) || (data_size s <? add32 (offset s) n) then Ret (Bad (ndr_map_error NDR_ERR_BUFSIZE), s)
  else Ret (Good tt, s).

(** Logs what is not zero, and so reads up to the aligned offset. *)
Definition ndr_check_padding (n : Z) : M ndr_pull unit :=
  do o <- get offset;
  load (align_up o n - o) (fun _ _ => tt) o.

Definition NDR_PULL_ALIGN (n : Z) : M ndr_pull unit :=
  do f <- get flags;
  (if isset f LIBNDR_FLAG_NOALIGN then ret tt
   else
     (if isset f LIBNDR_FLAG_PAD_CHECK then ndr_check_padding n else ret tt);;
     modify (fun s => set_offset (align_up (offset s) n) s));;
  do s <- get id;
  if data_size s <? offset s then ndr_error NDR_ERR_BUFSIZE else ret tt.

Definition advance (n : Z) : M ndr_pull unit := modify (fun s => set_offset (add32 (offset s) n) s).

Definition NDR_SVAL (ofs : Z) : M ndr_pull Z := do f <- get flags; load 2 (if big_endian f then RSVAL else SVAL) ofs.
Definition NDR_IVAL (ofs : Z) : M ndr_pull Z := do f <- get flags; load 4 (if big_endian f then RIVAL else IVAL) ofs.
Definition NDR_IVALS (ofs : Z) : M ndr_pull Z := do f <- get flags; load 4 (if big_endian f then RIVALS else IVALS) ofs.

(** The value at the offset, past which the parser moves. *)
Definition take_value {B} (n : Z) (m : Z -> M ndr_pull B) : M ndr_pull B :=
  NDR_PULL_NEED_BYTES n;;
  do o <- get offset;
  do v <- m o;
  advance n;;
  ret v.

Definition ndr_pull_int8 : M ndr_pull Z := take_value 1 (load 1 (fun d i => s8 (CVAL d i))).
Definition ndr_pull_uint8 : M ndr_pull Z := take_value 1 (load 1 CVAL).
Definition ndr_pull_int16 : M ndr_pull Z :=
  NDR_PULL_ALIGN 2;; take_value 2 (fun o => do v <- NDR_SVAL o; ret (s16 v)).
Definition ndr_pull_uint16 : M ndr_pull Z := NDR_PULL_ALIGN 2;; take_value 2 NDR_SVAL.
Definition ndr_pull_int32 : M ndr_pull Z := NDR_PULL_ALIGN 4;; take_value 4 NDR_IVALS.
Definition ndr_pull_uint32 : M ndr_pull Z := NDR_PULL_ALIGN 4;; take_value 4 NDR_IVAL.

Definition ndr_pull_generic_ptr : M ndr_pull Z :=
  do v <- ndr_pull_uint32;
  (if v =? 0 then ret tt else modify (fun s => set_ptr_count (add32 (ptr_count s) 1) s));;
  ret v.
Definition ndr_pull_ref_ptr : M ndr_pull Z := ndr_pull_uint32;; ret 1.

Definition ndr_pull_udlong : M ndr_pull Z :=
  NDR_PULL_ALIGN 4;;
  take_value 8 (fun o =>
    do lo <- NDR_IVAL o; do hi <- NDR_IVAL (add32 o 4); ret (Z.lor lo (Z.shiftl hi 32))).
Definition ndr_pull_udlongr : M ndr_pull Z :=
  NDR_PULL_ALIGN 4;;
  take_value 8 (fun o =>
    do hi <- NDR_IVAL o; do lo <- NDR_IVAL (add32 o 4); ret (Z.lor (Z.shiftl hi 32) lo)).
Definition ndr_pull_dlong : M ndr_pull Z := do v <- ndr_pull_udlong; ret (s64 v).
Definition ndr_pull_hyper : M ndr_pull Z := NDR_PULL_ALIGN 8;; ndr_pull_udlong.
Definition ndr_pull_pointer : M ndr_pull Z := NDR_PULL_ALIGN 8;; take_value 8 (load 8 BVAL).

(** A status, an error code and a time are numbers on the wire. *)
Definition ndr_pull_NTSTATUS : M ndr_pull Z := ndr_pull_uint32.
Definition ndr_pull_WERROR : M ndr_pull Z := ndr_pull_uint32.
Definition ndr_pull_NTTIME : M ndr_pull Z := ndr_pull_udlong.
Definition ndr_pull_NTTIME_1sec : M ndr_pull Z := do t <- ndr_pull_hyper; ret (u64 (t * 10000000)).
Definition ndr_pull_NTTIME_hyper : M ndr_pull Z := ndr_pull_hyper.
Definition ndr_pull_time_t : M ndr_pull Z := ndr_pull_uint32.

Definition ndr_pull_bytes (n : Z) : M ndr_pull (list Z) := take_value n (load n (fun d i => slice i (Z.to_nat n) d)).
(** The array is left as it is when only the buffers are asked for. *)
Definition ndr_pull_array_uint8 (ndr_flags : Z) (arr : list Z) (n : Z) : M ndr_pull (list Z) :=
  if isset ndr_flags NDR_SCALARS then ndr_pull_bytes n else ret arr.
Definition ndr_pull_align (n : Z) : M ndr_pull unit := NDR_PULL_ALIGN n.

(** data_blob_talloc that fails leaves an empty blob, and the offset still moves. *)
Definition ndr_pull_DATA_BLOB : M ndr_pull (list Z) :=
  do f <- get flags;
  do remaining <- get (fun s => u32 (data_size s - offset s));
  do o <- get offset;
  do length <-
    (if isset f LIBNDR_ALIGN_FLAGS then
       let length :=
         if isset f LIBNDR_FLAG_ALIGN2 then ndr_align_size o 2
         else if isset f LIBNDR_FLAG_ALIGN4 then ndr_align_size o 4
         else if isset f LIBNDR_FLAG_ALIGN8 then ndr_align_size o 8
         else 0 in
       ret (if remaining <? length then remaining else length)
     else if isset f LIBNDR_FLAG_REMAINING then ret remaining
     else ndr_pull_uint32);
  NDR_PULL_NEED_BYTES length;;
  do o <- get offset;
  do v <- load length (fun d i => slice i (Z.to_nat length) d) o;
  do p <- alloc_array 1 length;
  advance length;;
  ret (if decide (p = NULL) then [] else v).

(** *** ndr.c *)

(** A parser of a block, of which the blob is the first [length] bytes. *)
Definition ndr_pull_init_blob (blob : list Z) (length : Z) : ndr_pull :=
  NdrPull 0 blob (u32 length) 0 0 [] [] [] [] [] 0 1.

Definition ndr_pull_advance (size : Z) : M ndr_pull unit :=
  advance size;;
  do s <- get id;
  if data_size s <? offset s then ndr_error NDR_ERR_BUFSIZE else ret tt.
Definition ndr_pull_set_offset (ofs : Z) : M ndr_pull unit :=
  modify (set_offset ofs);;
  do s <- get id;
  if data_size s <? offset s then ndr_error NDR_ERR_BUFSIZE else ret tt.

(** struct ndr_pull_save: the offset and the size. *)
Definition ndr_pull_save : M ndr_pull (Z * Z) := get (fun s => (offset s, data_size s)).
Definition ndr_pull_restore (save : Z * Z) : M ndr_pull unit :=
  modify (fun s => set_data_size save.2 (set_offset save.1 s)).

(** ndr_token_store to a list of the state. *)
Definition ndr_token_store (list : ndr_pull -> ndr_token_list) (set : ndr_token_list -> ndr_pull -> ndr_pull)
    (key : addr) (value : Z) : M ndr_pull unit :=
  do p <- alloc;
  if decide (p = NULL) then bad NT_STATUS_NO_MEMORY
  else modify (fun s => set ((key, value) :: list s) s).
Definition ndr_token_retrieve (list : ndr_pull -> ndr_token_list) (set : ndr_token_list -> ndr_pull -> ndr_pull)
    (key : addr) : M ndr_pull Z := fun s =>
  match ndr_token_find (list s) key with
  | Some (v, l) => Ret (Good v, set l s)
  | None => Ret (Bad (ndr_map_error NDR_ERR_TOKEN), s)
  end.

Definition ndr_pull_array_size (p : addr) : M ndr_pull unit :=
  do size <- ndr_pull_uint32; ndr_token_store array_size_list set_array_size_list p size.
Definition ndr_get_array_size (p : addr) : M ndr_pull Z := get (fun s => ndr_token_peek (array_size_list s) p).
Definition ndr_check_array_size (p : addr) (size : Z) : M ndr_pull unit :=
  do stored <- ndr_get_array_size p; if stored =? size then ret tt else ndr_error NDR_ERR_ARRAY_SIZE.
Definition ndr_pull_array_length (p : addr) : M ndr_pull unit :=
  do offset <- ndr_pull_uint32;
  if negb (offset =? 0) then ndr_error NDR_ERR_ARRAY_SIZE
  else do length <- ndr_pull_uint32; ndr_token_store array_length_list set_array_length_list p length.
Definition ndr_get_array_length (p : addr) : M ndr_pull Z := get (fun s => ndr_token_peek (array_length_list s) p).
Definition ndr_check_array_length (p : addr) (length : Z) : M ndr_pull unit :=
  do stored <- ndr_get_array_length p; if stored =? length then ret tt else ndr_error NDR_ERR_ARRAY_SIZE.
Definition ndr_pull_set_switch_value (p : addr) (val : Z) : M ndr_pull unit :=
  ndr_token_store switch_list set_switch_list p val.
Definition ndr_pull_get_switch_value (p : addr) : M ndr_pull Z := get (fun s => ndr_token_peek (switch_list s) p).

Definition ndr_pull_setup_relative_base_offset1 (p : addr) (offset : Z) : M ndr_pull unit :=
  modify (set_relative_base_offset offset);;
  ndr_token_store relative_base_list set_relative_base_list p offset.
Definition ndr_pull_setup_relative_base_offset2 (p : addr) : M ndr_pull unit :=
  do v <- ndr_token_retrieve relative_base_list set_relative_base_list p; modify (set_relative_base_offset v).
Definition ndr_pull_relative_ptr1 (p : addr) (rel_offset : Z) : M ndr_pull unit :=
  ndr_token_store relative_list set_relative_list p rel_offset.
Definition ndr_pull_relative_ptr2 (p : addr) : M ndr_pull unit :=
  do rel_offset <- ndr_token_retrieve relative_list set_relative_list p;
  do s <- get id;
  let rel_offset := add32 rel_offset (relative_base_offset s) in
  if data_size s <? rel_offset then ndr_error NDR_ERR_BUFSIZE else ndr_pull_set_offset rel_offset.

(** [size_is < 0] means that no size is known.  The inner parser works on the bytes from the offset on. *)
Definition ndr_pull_subcontext_start (header_size size_is : Z) : M ndr_pull ndr_pull :=
  do content_size <-
    (if header_size =? 0 then
       get (fun s => if 0 <=? size_is then u32 size_is else u32 (data_size s - offset s))
     else if (header_size =? 2) || (header_size =? 4) then
       do content_size <- (if header_size =? 2 then ndr_pull_uint16 else ndr_pull_uint32);
       if (0 <=? size_is) && negb (size_is =? content_size) then ndr_error NDR_ERR_SUBCONTEXT else ret content_size
     else ndr_error NDR_ERR_SUBCONTEXT);
  NDR_PULL_NEED_BYTES content_size;;
  do p <- alloc;
  if decide (p = NULL) then bad NT_STATUS_NO_MEMORY
  else get (fun s => NdrPull (flags s) (drop (Z.to_nat (offset s)) (data s)) content_size 0 0 [] [] [] [] [] 0 (allocs s)).
(** The allocations of the inner parser have been made. *)
Definition ndr_pull_subcontext_end (subndr : ndr_pull) (header_size size_is : Z) : M ndr_pull unit :=
  modify (set_allocs (allocs subndr));;
  ndr_pull_advance
    (if 0 <=? size_is then u32 size_is else if 0 <? header_size then data_size subndr else offset subndr).

(** ndr_pull_struct_blob and ndr_pull_struct_blob_all.  The parser is the first allocation. *)
Definition ndr_pull_struct_blob {B} (blob : list Z) (length : Z) (fn : Z -> M ndr_pull B) : outcome (result B) :=
  if @malloc_ok A 0 then
    let* r := fn (Z.lor NDR_SCALARS NDR_BUFFERS) (ndr_pull_init_blob blob length) in Ret r.1
  else Ret (Bad NT_STATUS_NO_MEMORY).
Definition ndr_pull_struct_blob_all {B} (blob : list Z) (length : Z) (fn : Z -> M ndr_pull B) : outcome (result B) :=
  if @malloc_ok A 0 then
    let* r := fn (Z.lor NDR_SCALARS NDR_BUFFERS) (ndr_pull_init_blob blob length) in
    match r.1 with
    | Good v => Ret (if offset r.2 =? data_size r.2 then Good v else Bad NT_STATUS_BUFFER_TOO_SMALL)
    | Bad e => Ret (Bad e)
    end
  else Ret (Bad NT_STATUS_NO_MEMORY).
End pull.
End NdrPull.
