(* ===== verification/NdrPush.v ===== *)
(** librpc/ndr/ndr_basic.c and ndr.c, marshalling: the growing buffer, the basic types, the
    tokens, relative pointers and subcontexts. *)

From S2P Require Import Prelude Digest Byteorder Ntstatus Ndr.
Import Byteorder Ndr Push.

#[local] Open Scope outcome_scope.
#[local] Open Scope ndr_scope.

Module NdrPush.

Definition NDR_BASE_MARSHALL_SIZE : Z := 1024.

Section push.
Context (A : Allocator).

Definition alloc : M ndr_push bool := fun s =>
  Ret (Good (@malloc_ok A (allocs s)), set_allocs (S (allocs s)) s).

(** The structure and its first buffer. *)
Definition ndr_push_init_ctx (a : nat) : option ndr_push :=
  if @malloc_ok A a && @malloc_ok A (S a) then
    Some (NdrPush 0 (replicate (Z.to_nat NDR_BASE_MARSHALL_SIZE) (@uninit A)) NDR_BASE_MARSHALL_SIZE 0 0 [] [] [] [] [] 0 (S (S a)))
  else None.

(** The blob is the first [offset] bytes; a byte past them is cleared when there is room. *)
Definition ndr_push_blob : M ndr_push (list Z) := fun s =>
  let blob s := take (Z.to_nat (offset s)) (data s) in
  if alloc_size s <=? offset s then Ret (Good (blob s), s)
  else if decide (offset s < Z.of_nat (length (data s))) then
    let s := set_data (<[Z.to_nat (offset s) := 0]> (data s)) s in Ret (Good (blob s), s)
  else Fault.

(** talloc_realloc to [n] bytes. *)
Definition resize (n : Z) (l : list Z) : list Z :=
  take (Z.to_nat n) l ++ replicate (Z.to_nat n - length l) (@uninit A).

Definition ndr_push_expand (size : Z) : M ndr_push unit := fun s =>
  if size <? alloc_size s then Ret (Good tt, s)
  else
    let n := add32 (alloc_size s) NDR_BASE_MARSHALL_SIZE in
    let n := if n <? add32 size 1 then add32 size 1 else n in
    let s := set_alloc_size n s in
    if (0 <? n) && (n <? MAX_TALLOC_SIZE) && @malloc_ok A (allocs s)
    then Ret (Good tt, set_allocs (S (allocs s)) (set_data (resize n (data s)) s))
    else Ret (Bad (ndr_map_error NDR_ERR_ALLOC), set_allocs (S (allocs s)) (set_data [] s)).

Definition NDR_PUSH_NEED_BYTES (n : Z) : M ndr_push unit :=
  do o <- get offset; ndr_push_expand (add32 o n).

(** A store of [n] bytes at [ofs], which may not be there. *)
Definition store (n : Z) (f : list Z -> nat -> list Z) (ofs : Z) : M ndr_push unit := fun s =>
  if decide (0 <= ofs /\ ofs + n <= Z.of_nat (length (data s))) then Ret (Good tt, set_data (f (data s) (Z.to_nat ofs)) s)
  else Fault.

Definition NDR_SSVAL (ofs v : Z) : M ndr_push unit :=
  do f <- get flags; store 2 (fun d i => if big_endian f then RSSVAL d i v else SSVAL d i v) ofs.
Definition NDR_SIVAL (ofs v : Z) : M ndr_push unit :=
  do f <- get flags; store 4 (fun d i => if big_endian f then RSIVAL d i v else SIVAL d i v) ofs.

(** Room for [n] bytes, what writes them at the offset, and the offset past them. *)
Definition put_value (n : Z) (m : Z -> M ndr_push unit) : M ndr_push unit :=
  NDR_PUSH_NEED_BYTES n;;
  do o <- get offset;
  m o;;
  modify (fun s => set_offset (add32 (offset s) n) s).

Definition ndr_push_uint8 (v : Z) : M ndr_push unit := put_value 1 (store 1 (fun d i => SCVAL d i v)).
Definition ndr_push_int8 (v : Z) : M ndr_push unit := ndr_push_uint8 (u8 v).

Definition NDR_PUSH_ALIGN (n : Z) : M ndr_push unit :=
  do s <- get id;
  if isset (flags s) LIBNDR_FLAG_NOALIGN then ret tt
  else repeat_call (Z.to_nat (u32 (align_up (offset s) n - offset s))) (ndr_push_uint8 0).
Definition ndr_push_align (n : Z) : M ndr_push unit := NDR_PUSH_ALIGN n.

Definition ndr_push_uint16 (v : Z) : M ndr_push unit := NDR_PUSH_ALIGN 2;; put_value 2 (fun o => NDR_SSVAL o v).
Definition ndr_push_int16 (v : Z) : M ndr_push unit := NDR_PUSH_ALIGN 2;; put_value 2 (fun o => NDR_SSVAL o (u16 v)).
Definition ndr_push_uint32 (v : Z) : M ndr_push unit := NDR_PUSH_ALIGN 4;; put_value 4 (fun o => NDR_SIVAL o v).
Definition ndr_push_int32 (v : Z) : M ndr_push unit := NDR_PUSH_ALIGN 4;; put_value 4 (fun o => NDR_SIVAL o (u32 v)).

Definition ndr_push_udlong (v : Z) : M ndr_push unit :=
  NDR_PUSH_ALIGN 4;;
  put_value 8 (fun o => NDR_SIVAL o (Z.land v 0xFFFFFFFF);; NDR_SIVAL (add32 o 4) (Z.shiftr v 32)).
Definition ndr_push_udlongr (v : Z) : M ndr_push unit :=
  NDR_PUSH_ALIGN 4;;
  put_value 8 (fun o => NDR_SIVAL o (Z.shiftr v 32);; NDR_SIVAL (add32 o 4) (Z.land v 0xFFFFFFFF)).
Definition ndr_push_dlong (v : Z) : M ndr_push unit := ndr_push_udlong (u64 v).
Definition ndr_push_hyper (v : Z) : M ndr_push unit := NDR_PUSH_ALIGN 8;; ndr_push_udlong v.
Definition ndr_push_pointer (v : Z) : M ndr_push unit :=
  NDR_PUSH_ALIGN 8;; put_value 8 (store 8 (fun d i => SBVAL d i v)).

Definition ndr_push_bytes (bs : list Z) : M ndr_push unit :=
  put_value (Z.of_nat (length bs)) (store (Z.of_nat (length bs)) (fun d i => splice i bs d)).
Definition ndr_push_zero (n : Z) : M ndr_push unit :=
  put_value n (store n (fun d i => splice i (replicate (Z.to_nat n) 0) d)).
Definition ndr_push_array_uint8 (ndr_flags : Z) (bs : list Z) : M ndr_push unit :=
  if isset ndr_flags NDR_SCALARS then ndr_push_bytes bs else ret tt.

Definition ndr_push_NTSTATUS (v : Z) : M ndr_push unit := ndr_push_uint32 v.
Definition ndr_push_WERROR (v : Z) : M ndr_push unit := ndr_push_uint32 v.
Definition ndr_push_NTTIME (t : Z) : M ndr_push unit := ndr_push_udlong t.
Definition ndr_push_NTTIME_1sec (t : Z) : M ndr_push unit := ndr_push_hyper (t / 10000000).
Definition ndr_push_NTTIME_hyper (t : Z) : M ndr_push unit := ndr_push_hyper t.
Definition ndr_push_time_t (t : Z) : M ndr_push unit := ndr_push_uint32 (u32 t).

(** A blob of an alignment type stands for the padding: its own bytes are not written. *)
Definition ndr_push_DATA_BLOB (blob : list Z) : M ndr_push unit :=
  do s <- get id;
  let f := flags s in
  if isset f LIBNDR_ALIGN_FLAGS then
    let n :=
      if isset f LIBNDR_FLAG_ALIGN2 then ndr_align_size (offset s) 2
      else if isset f LIBNDR_FLAG_ALIGN4 then ndr_align_size (offset s) 4
      else ndr_align_size (offset s) 8 in
    do got <- alloc;
    if (got : bool) then ndr_push_bytes (replicate (Z.to_nat n) 0) else ndr_error NDR_ERR_ALLOC
  else
    (if isset f LIBNDR_FLAG_REMAINING then ret tt else ndr_push_uint32 (Z.of_nat (length blob)));;
    ndr_push_bytes blob.

(** *** Tokens and pointers *)

Definition ndr_token_store {K} (list : ndr_push -> Datatypes.list (K * Z)) (set : Datatypes.list (K * Z) -> ndr_push -> ndr_push)
    (key : K) (value : Z) : M ndr_push unit :=
  do got <- alloc;
  if (got : bool) then modify (fun s => set ((key, value) :: list s) s) else bad NT_STATUS_NO_MEMORY.
Definition ndr_token_retrieve (list : ndr_push -> ndr_token_list) (set : ndr_token_list -> ndr_push -> ndr_push)
    (key : addr) : M ndr_push Z := fun s =>
  match ndr_token_find (list s) key with
  | Some (v, l) => Ret (Good v, set l s)
  | None => Ret (Bad (ndr_map_error NDR_ERR_TOKEN), s)
  end.

Definition ndr_push_set_switch_value (p : addr) (val : Z) : M ndr_push unit :=
  ndr_token_store switch_list set_switch_list p val.
Definition ndr_push_get_switch_value (p : addr) : M ndr_push Z := get (fun s => ndr_token_peek (switch_list s) p).

Definition bump : M ndr_push unit := modify (fun s => set_ptr_count (add32 (ptr_count s) 1) s).

Definition ndr_push_unique_ptr (p : addr) : M ndr_push unit :=
  do n <- get ptr_count;
  if decide (p = NULL) then ndr_push_uint32 0
  else bump;; ndr_push_uint32 (Z.lor (u32 (n * 4)) 0x00020000).

(** The status of storing the token is dropped. *)
Definition ndr_push_full_ptr (p : addr) : M ndr_push unit :=
  if decide (p = NULL) then ndr_push_uint32 0
  else
    do ptr <- get (fun s => ndr_token_peek (full_ptr_list s) p);
    if negb (ptr =? 0) then ndr_push_uint32 ptr
    else
      bump;;
      do ptr <- get ptr_count;
      attempt (ndr_token_store full_ptr_list set_full_ptr_list p ptr);;
      ndr_push_uint32 ptr.
Definition ndr_push_ref_ptr : M ndr_push unit := ndr_push_uint32 0xAEF1AEF1.

Definition ndr_push_setup_relative_base_offset1 (p : addr) (offset : Z) : M ndr_push unit :=
  modify (set_relative_base_offset offset);;
  ndr_token_store relative_base_list set_relative_base_list p offset.
Definition ndr_push_setup_relative_base_offset2 (p : addr) : M ndr_push unit :=
  do v <- ndr_token_retrieve relative_base_list set_relative_base_list p; modify (set_relative_base_offset v).

Definition ndr_push_relative_ptr1 (p : addr) : M ndr_push unit :=
  if decide (p = NULL) then ndr_push_uint32 0
  else
    ndr_push_align 4;;
    do o <- get offset;
    ndr_token_store relative_list set_relative_list p o;;
    ndr_push_uint32 0xFFFFFFFF.

(** The pointer of stage 1 gets the distance of the object from the base.  On an error the
    offset stays where it is then. *)
Definition ndr_push_relative_ptr2 (p : addr) : M ndr_push unit :=
  if decide (p = NULL) then ret tt
  else
    do save <- get offset;
    do ptr_offset <- ndr_token_retrieve relative_list set_relative_list p;
    if save <? ptr_offset then ndr_error NDR_ERR_BUFSIZE
    else
      modify (set_offset ptr_offset);;
      do base <- get relative_base_offset;
      if save <? base then ndr_error NDR_ERR_BUFSIZE
      else
        ndr_push_uint32 (save - base);;
        modify (set_offset save).

(** *** Subcontexts *)

Definition ndr_push_subcontext_start : M ndr_push ndr_push := fun s =>
  match ndr_push_init_ctx (allocs s) with
  | Some sub => Ret (Good (set_flags (flags s) sub), s)
  | None => Ret (Bad NT_STATUS_NO_MEMORY, set_allocs (S (S (allocs s))) s)
  end.

(** The padding goes to the inner buffer. *)
Definition pad_subcontext (subndr : ndr_push) (size_is : Z) : M ndr_push ndr_push := fun s =>
  let padding_len := size_is - offset subndr in
  if (0 <=? size_is) && (0 <? padding_len) then
    let* r := ndr_push_zero (u32 padding_len) subndr in
    match r.1 with
    | Good _ => Ret (Good r.2, s)
    | Bad e => Ret (Bad e, s)
    end
  else if (0 <=? size_is) && (padding_len <? 0) then Ret (Bad (ndr_map_error NDR_ERR_SUBCONTEXT), s)
  else Ret (Good subndr, s).

Definition ndr_push_subcontext_end (subndr : ndr_push) (header_size size_is : Z) : M ndr_push unit :=
  do subndr <- pad_subcontext subndr size_is;
  modify (set_allocs (allocs subndr));;
  (if header_size =? 0 then ret tt
   else if header_size =? 2 then ndr_push_uint16 (u16 (offset subndr))
   else if header_size =? 4 then ndr_push_uint32 (offset subndr)
   else ndr_error NDR_ERR_SUBCONTEXT);;
  if decide (offset subndr <= Z.of_nat (length (data subndr)))
  then ndr_push_bytes (take (Z.to_nat (offset subndr)) (data subndr)) else fault.

(** ndr_push_struct_blob: the status and the blob, and ndr_size_struct: the size of the blob. *)
Definition ndr_push_struct_blob (fn : Z -> M ndr_push unit) : outcome (result (list Z)) :=
  match ndr_push_init_ctx 0 with
  | None => Ret (Bad NT_STATUS_NO_MEMORY)
  | Some ndr =>
      let* r := (fn (Z.lor NDR_SCALARS NDR_BUFFERS);; ndr_push_blob) ndr in Ret r.1
  end.
Definition ndr_size_struct (size_flags : Z) (fn : Z -> M ndr_push unit) : outcome Z :=
  if isset size_flags LIBNDR_FLAG_NO_NDR_SIZE then Ret 0
  else
    match ndr_push_init_ctx 0 with
    | None => Ret 0
    | Some ndr =>
        let* r := fn (Z.lor NDR_SCALARS NDR_BUFFERS) (set_flags (Z.lor size_flags LIBNDR_FLAG_NO_NDR_SIZE) ndr) in
        Ret (match r.1 with Good _ => offset r.2 | Bad _ => 0 end)
    end.
End push.
End NdrPush.
