(* ===== verification/NdrWire.v ===== *)
(** The layout of the basic types of NDR, and that marshalling writes it and unmarshalling
    reads it back. *)

From S2P Require Import Prelude Digest Byteorder Ntstatus Ndr NdrPull NdrPush.
Import Byteorder Ndr NdrPull NdrPush.

#[local] Open Scope outcome_scope.
#[local] Open Scope ndr_scope.

(** ** The layout *)

(** A value with the type it is sent as; alignment is sent as a type of its own. *)
Inductive item :=
| I_int8 (v : Z)
| I_uint8 (v : Z)
| I_int16 (v : Z)
| I_uint16 (v : Z)
| I_int32 (v : Z)
| I_uint32 (v : Z)
| I_udlong (v : Z)
| I_udlongr (v : Z)
| I_dlong (v : Z)
| I_hyper (v : Z)
| I_pointer (v : Z)
| I_bytes (l : list Z)
| I_align (n : Z).

Definition is_s (w x : Z) : Prop := - 2 ^ (w - 1) <= x < 2 ^ (w - 1).

#[export] Instance is_s_dec w x : Decision (is_s w x).
Proof. unfold is_s. apply _. Defined.

Definition item_ok (i : item) : Prop :=
  match i with
  | I_int8 v => is_s 8 v
  | I_uint8 v => is_byte v
  | I_int16 v => is_s 16 v
  | I_uint16 v => is_u16 v
  | I_int32 v => is_s 32 v
  | I_uint32 v => is_u32 v
  | I_udlong v | I_udlongr v | I_hyper v | I_pointer v => is_u64 v
  | I_dlong v => is_s 64 v
  | I_bytes l => bytes l
  | I_align n => n = 1 \/ n = 2 \/ n = 4 \/ n = 8
  end.

#[export] Instance item_ok_dec i : Decision (item_ok i).
Proof. destruct i; cbn [item_ok]; apply _. Defined.

Definition item_align (i : item) : Z :=
  match i with
  | I_int8 _ | I_uint8 _ | I_bytes _ => 1
  | I_int16 _ | I_uint16 _ => 2
  | I_int32 _ | I_uint32 _ | I_udlong _ | I_udlongr _ | I_dlong _ => 4
  | I_hyper _ | I_pointer _ => 8
  | I_align n => n
  end.

(** [n] bytes of a number in the byte order of the state. *)
Definition word (f : Z) (n : nat) (v : Z) : list Z := if big_endian f then be n v else le n v.

Definition encode (f : Z) (i : item) : list Z :=
  match i with
  | I_int8 v | I_uint8 v => [u8 v]
  | I_int16 v | I_uint16 v => word f 2 v
  | I_int32 v | I_uint32 v => word f 4 v
  | I_udlong v | I_dlong v | I_hyper v => word f 4 v ++ word f 4 (Z.shiftr v 32)
  | I_udlongr v => word f 4 (Z.shiftr v 32) ++ word f 4 v
  | I_pointer v => le 8 v
  | I_bytes l => l
  | I_align _ => []
  end.

(** The bytes up to the next multiple of [n]. *)
Definition padding (f n o : Z) : nat := if isset f LIBNDR_FLAG_NOALIGN then 0%nat else Z.to_nat (- o mod n).

(** The bytes of an item, and of a list of items, that are sent from offset [o] on. *)
Definition wire (f o : Z) (i : item) : list Z := replicate (padding f (item_align i) o) 0 ++ encode f i.
Fixpoint wires (f o : Z) (l : list item) : list Z :=
  match l with
  | [] => []
  | i :: l => let w := wire f o i in w ++ wires f (o + Z.of_nat (length w)) l
  end.

Section items.
Context (A : Allocator).

Definition push_item (i : item) : M ndr_push unit :=
  match i with
  | I_int8 v => ndr_push_int8 A v
  | I_uint8 v => ndr_push_uint8 A v
  | I_int16 v => ndr_push_int16 A v
  | I_uint16 v => ndr_push_uint16 A v
  | I_int32 v => ndr_push_int32 A v
  | I_uint32 v => ndr_push_uint32 A v
  | I_udlong v => ndr_push_udlong A v
  | I_udlongr v => ndr_push_udlongr A v
  | I_dlong v => ndr_push_dlong A v
  | I_hyper v => ndr_push_hyper A v
  | I_pointer v => ndr_push_pointer A v
  | I_bytes l => ndr_push_bytes A l
  | I_align n => ndr_push_align A n
  end.

(** An item of the type, and for bytes the length, of the one given. *)
Definition pull_item (i : item) : M ndr_pull item :=
  match i with
  | I_int8 _ => do v <- ndr_pull_int8; ret (I_int8 v)
  | I_uint8 _ => do v <- ndr_pull_uint8; ret (I_uint8 v)
  | I_int16 _ => do v <- ndr_pull_int16; ret (I_int16 v)
  | I_uint16 _ => do v <- ndr_pull_uint16; ret (I_uint16 v)
  | I_int32 _ => do v <- ndr_pull_int32; ret (I_int32 v)
  | I_uint32 _ => do v <- ndr_pull_uint32; ret (I_uint32 v)
  | I_udlong _ => do v <- ndr_pull_udlong; ret (I_udlong v)
  | I_udlongr _ => do v <- ndr_pull_udlongr; ret (I_udlongr v)
  | I_dlong _ => do v <- ndr_pull_dlong; ret (I_dlong v)
  | I_hyper _ => do v <- ndr_pull_hyper; ret (I_hyper v)
  | I_pointer _ => do v <- ndr_pull_pointer; ret (I_pointer v)
  | I_bytes l => do v <- ndr_pull_bytes (Z.of_nat (length l)); ret (I_bytes v)
  | I_align n => ndr_pull_align n;; ret (I_align n)
  end.

Fixpoint push_items (l : list item) : M ndr_push unit :=
  match l with
  | [] => ret tt
  | i :: l => push_item i;; push_items l
  end.
Fixpoint pull_items (l : list item) : M ndr_pull (list item) :=
  match l with
  | [] => ret []
  | i :: l => do i <- pull_item i; do l <- pull_items l; ret (i :: l)
  end.
End items.

(** ** Alignment *)

Lemma land_mask_mod o k : 0 <= k -> 0 <= o -> Z.land o (2 ^ k - 1) = o mod 2 ^ k.
Proof. intros Hk Ho. rewrite <- Z.land_ones by done. by rewrite Z.ones_equiv. Qed.

Lemma align_up_spec o k :
  0 <= k < 4 -> 0 <= o -> o + 2 ^ k <= 2 ^ 32 -> align_up o (2 ^ k) = o + - o mod 2 ^ k.
Proof.
  intros Hk Ho Hr. assert (0 < 2 ^ k) as Hp by lia.
  unfold align_up, u32. rewrite Z.mod_small by lia. set (x := o + (2 ^ k - 1)).
  assert (not32 (2 ^ k - 1) = Z.shiftl (Z.ones (32 - k)) k) as ->.
  { assert (k = 0 \/ k = 1 \/ k = 2 \/ k = 3) as Hc by lia. by destruct Hc as [-> | [-> | [-> | ->]]]. }
  assert (is_u32 x) as Hx by (unfold x, is_u; lia).
  assert (Z.land x (Z.shiftl (Z.ones (32 - k)) k) = Z.shiftl (Z.shiftr x k) k) as ->.
  { apply Z.bits_inj'. intros i Hi. rewrite Z.land_spec, !Z.shiftl_spec by done. destruct (decide (i < k)).
    - rewrite !(Z.testbit_neg_r _ (i - k)) by lia. apply andb_false_r.
    - rewrite Z.shiftr_spec by lia. replace (i - k + k) with i by lia. destruct (decide (i < 32)).
      + rewrite Z.ones_spec_low by lia. apply andb_true_r.
      + by rewrite (is_u_testbit 32 x) by (done || lia). }
  rewrite Z.shiftl_mul_pow2, Z.shiftr_div_pow2 by lia. unfold x.
  assert (k = 0 \/ k = 1 \/ k = 2 \/ k = 3) as Hc by lia. destruct Hc as [-> | [-> | [-> | ->]]]; cbn [Z.pow Z.pow_pos Pos.iter Z.mul Pos.mul] in *; dlia.
Qed.

(** An alignment the code asks for. *)
Definition is_align (n : Z) : Prop := n = 1 \/ n = 2 \/ n = 4 \/ n = 8.

Lemma align_up_pad o n : is_align n -> 0 <= o -> o + 8 <= 2 ^ 32 -> align_up o n = o + - o mod n.
Proof.
  intros Hn Ho Hr. destruct Hn as [-> | [-> | [-> | ->]]].
  - apply (align_up_spec o 0); lia.
  - apply (align_up_spec o 1); lia.
  - apply (align_up_spec o 2); lia.
  - apply (align_up_spec o 3); lia.
Qed.

Lemma item_align_ok i : item_ok i -> is_align (item_align i).
Proof. unfold is_align. destruct i; cbn; auto. Qed.

Lemma length_word f n v : length (word f n v) = n.
Proof. unfold word. destruct (big_endian f); [apply length_be|apply length_le]. Qed.

Lemma word_bytes f n v : bytes (word f n v).
Proof. unfold word. destruct (big_endian f); [apply be_bytes|apply le_bytes]. Qed.
#[export] Hint Resolve word_bytes : word.

(** The high half of a 64-bit number. *)
Lemma le_shiftr_mod v : le 4 (Z.shiftr (v mod 2 ^ 64) 32) = le 4 (Z.shiftr v 32).
Proof.
  assert (le 8 (v mod 2 ^ 64) = le 8 v) as E by apply (le_mod 8 8 v (Nat.le_refl _)).
  rewrite !(le_app 4 4) in E. apply app_inj_1 in E as [_ E]; [done|by rewrite !length_le].
Qed.

(** ** Marshalling *)

Section marshalling.
Context (A : Allocator) (mem : malloc_always A).
Import Push.
Implicit Types s : ndr_push.

(** The buffer is there and the offset inside it. *)
Definition ready s : Prop :=
  Z.of_nat (length (data s)) = alloc_size s /\ 0 <= offset s <= alloc_size s /\ alloc_size s < MAX_TALLOC_SIZE.

(** Room for [n] more bytes in the largest buffer. *)
Definition room s (n : nat) : Prop := offset s + Z.of_nat n + NDR_BASE_MARSHALL_SIZE < MAX_TALLOC_SIZE.

#[export] Instance ready_dec s : Decision (ready s).
Proof. unfold ready. apply _. Defined.
#[export] Instance room_dec s n : Decision (room s n).
Proof. unfold room. apply _. Defined.

(** The bytes before the offset. *)
Definition written s : list Z := take (Z.to_nat (offset s)) (data s).

(** [s] with another buffer and offset. *)
Definition moved s (d : list Z) (al o : Z) (a : nat) : ndr_push :=
  NdrPush (flags s) d al o (relative_base_offset s) (relative_base_list s) (switch_list s) (relative_list s)
    (nbt_string_list s) (full_ptr_list s) (ptr_count s) a.

(** [s'] is [s] after [bs] more bytes. *)
Definition wrote s (bs : list Z) s' : Prop :=
  exists d al a,
    s' = moved s d al (offset s + Z.of_nat (length bs)) a /\ ready s' /\ written s' = written s ++ bs.

(** [m] writes [f flags offset]. *)
Definition writes (m : M ndr_push unit) (f : Z -> Z -> list Z) : Prop :=
  forall s, ready s -> room s (length (f (flags s) (offset s))) ->
  exists s', m s = Ret (Good tt, s') /\ wrote s (f (flags s) (offset s)) s'.

Lemma length_written s : ready s -> Z.of_nat (length (written s)) = offset s.
Proof. intros (Hl & Ho & _). unfold written. rewrite length_take. lia. Qed.

Lemma moved_self s : moved s (data s) (alloc_size s) (offset s) (allocs s) = s.
Proof. by destruct s. Qed.

Lemma wrote_offset s bs s' : wrote s bs s' -> offset s' = offset s + Z.of_nat (length bs).
Proof. by intros (d & al & a & -> & _). Qed.
Lemma wrote_flags s bs s' : wrote s bs s' -> flags s' = flags s.
Proof. by intros (d & al & a & -> & _). Qed.
Lemma wrote_ready s bs s' : wrote s bs s' -> ready s'.
Proof. by intros (d & al & a & _ & ? & _). Qed.
Lemma wrote_written s bs s' : wrote s bs s' -> written s' = written s ++ bs.
Proof. by intros (d & al & a & _ & _ & ?). Qed.

Lemma wrote_nil s : ready s -> wrote s [] s.
Proof.
  intros Hr. exists (data s), (alloc_size s), (allocs s). rewrite app_nil_r. cbn [length Z.of_nat].
  rewrite Z.add_0_r, moved_self. done.
Qed.

Lemma wrote_app s b1 s1 b2 s2 : wrote s b1 s1 -> wrote s1 b2 s2 -> wrote s (b1 ++ b2) s2.
Proof.
  intros (d1 & al1 & a1 & -> & R1 & W1) (d2 & al2 & a2 & -> & R2 & W2). exists d2, al2, a2. split_and!.
  - unfold moved. cbn [flags data alloc_size offset relative_base_offset relative_base_list switch_list relative_list full_ptr_list ptr_count allocs].
    f_equal. rewrite length_app. lia.
  - done.
  - by rewrite W2, W1, app_assoc.
Qed.

Lemma writes_ret : writes (ret tt) (fun _ _ => []).
Proof. intros s Hr _. exists s. split; [done|by apply wrote_nil]. Qed.

Lemma room_le s n m : room s m -> (n <= m)%nat -> room s n.
Proof. unfold room. lia. Qed.

Lemma writes_bind m k f g :
  writes m f -> writes k g ->
  writes (m;; k) (fun fl o => f fl o ++ g fl (o + Z.of_nat (length (f fl o)))).
Proof.
  intros Hm Hk s Hr Hroom. rewrite length_app in Hroom.
  destruct (Hm s Hr) as (s1 & E1 & W1); [apply (room_le _ _ _ Hroom); lia|].
  pose proof (wrote_offset _ _ _ W1) as O1. pose proof (wrote_flags _ _ _ W1) as F1.
  destruct (Hk s1) as (s2 & E2 & W2).
  - by apply (wrote_ready _ _ _ W1).
  - unfold room in *. rewrite O1, F1. lia.
  - exists s2. split.
    + unfold bind. rewrite E1. cbn [obind fst snd]. done.
    + rewrite O1, F1 in W2. by apply (wrote_app _ _ _ _ _ W1).
Qed.

Lemma writes_ext m f g : writes m f -> (forall fl o, 0 <= o -> o + NDR_BASE_MARSHALL_SIZE < MAX_TALLOC_SIZE -> f fl o = g fl o) -> writes m g.
Proof.
  intros Hm E s Hr Hroom. destruct (Hm s Hr) as (s' & E' & W).
  - rewrite E; [done|apply Hr|]. unfold room in Hroom. lia.
  - exists s'. rewrite E in W; [done|apply Hr|]. unfold room in Hroom. lia.
Qed.

Lemma expand_spec s n :
  ready s -> room s n ->
  exists d al a, ndr_push_expand A (add32 (offset s) (Z.of_nat n)) s = Ret (Good tt, moved s d al (offset s) a) /\
    Z.of_nat (length d) = al /\ offset s + Z.of_nat n < al < MAX_TALLOC_SIZE /\ take (Z.to_nat (offset s)) d = written s.
Proof.
  intros (Hl & Ho & Ha) Hroom. unfold room, NDR_BASE_MARSHALL_SIZE, MAX_TALLOC_SIZE in *.
  unfold add32. rewrite u32_id by (unfold is_u; lia). unfold ndr_push_expand. case_match eqn:E.
  - exists (data s), (alloc_size s), (allocs s). rewrite moved_self. split_and!; [done|done|lia|lia|done].
  - unfold add32, NDR_BASE_MARSHALL_SIZE. rewrite !u32_id by (unfold is_u; lia).
    set (n' := if alloc_size s + 1024 <? offset s + Z.of_nat n + 1 then offset s + Z.of_nat n + 1 else alloc_size s + 1024).
    assert (offset s + Z.of_nat n < n' < 0x10000000 /\ Z.of_nat (length (data s)) <= n') as (Hn & Hd)
      by (unfold n'; case_match; lia).
    assert ((0 <? n') && (n' <? MAX_TALLOC_SIZE) = true) as Hc by (unfold MAX_TALLOC_SIZE; lia).
    rewrite Hc, mem. cbn [andb].
    exists (resize A n' (data s)), n', (S (allocs s)).
    assert (length (resize A n' (data s)) = Z.to_nat n') as Hlen.
    { unfold resize. rewrite length_app, length_take, length_replicate. lia. }
    split_and!; [done|rewrite Hlen; lia|lia|lia|].
    unfold written, resize. rewrite take_app_le by (rewrite length_take; lia). rewrite take_take. f_equal. lia.
Qed.

(** A store of [bs] at the offset. *)
Definition stores (m : Z -> M ndr_push unit) (bs : Z -> list Z) : Prop :=
  forall s, Z.of_nat (length (data s)) = alloc_size s -> 0 <= offset s ->
    offset s + Z.of_nat (length (bs (flags s))) < alloc_size s < MAX_TALLOC_SIZE ->
    m (offset s) s = Ret (Good tt, set_data (splice (Z.to_nat (offset s)) (bs (flags s)) (data s)) s).

Lemma put_value_spec n m bs :
  stores m bs -> (forall fl, length (bs fl) = n) -> writes (put_value A (Z.of_nat n) m) (fun fl _ => bs fl).
Proof.
  intros Hm Hn s Hr Hroom. rewrite Hn in Hroom.
  destruct (expand_spec s n Hr Hroom) as (d & al & a & E & Hd & Hal & Ht).
  unfold put_value, NDR_PUSH_NEED_BYTES, bind, get, modify. cbn [obind fst snd]. rewrite E. cbn [obind fst snd].
  pose proof Hr as (_ & Ho & _). specialize (Hn (flags s)).
  rewrite (Hm (moved s d al (offset s) a)); cbn [moved data alloc_size offset flags]; [|done|lia|rewrite Hn; lia].
  cbn [obind fst snd set_data set_offset moved offset]. eexists. split; [done|].
  exists (splice (Z.to_nat (offset s)) (bs (flags s)) d), al, a.
  unfold set_data, set_offset, moved. cbn [flags data alloc_size offset relative_base_offset relative_base_list switch_list relative_list full_ptr_list ptr_count allocs].
  unfold MAX_TALLOC_SIZE in *.
  unfold add32. rewrite u32_id by (unfold is_u; lia). split_and!.
  - rewrite Hn. done.
  - unfold ready, MAX_TALLOC_SIZE. cbn [data alloc_size offset]. rewrite length_splice by lia. lia.
  - unfold written. cbn [data offset]. replace (Z.to_nat (offset s + Z.of_nat n)) with (Z.to_nat (offset s) + length (bs (flags s)))%nat by lia.
    rewrite take_splice_all by lia. by rewrite Ht.
Qed.

Lemma stores_store n (f : Z -> list Z -> nat -> list Z) bs :
  (forall fl, Z.of_nat (length (bs fl)) = n) ->
  (forall fl d i, (i + length (bs fl) <= length d)%nat -> f fl d i = splice i (bs fl) d) ->
  stores (fun o => do fl <- get flags; store n (f fl) o) bs.
Proof.
  intros Hn Hf s Hl Ho Ha. unfold bind, get, store. cbn [obind fst snd]. specialize (Hn (flags s)).
  rewrite decide_True by lia. rewrite Hf by lia. done.
Qed.

(** A store that does not depend on the byte order. *)
Lemma stores_const n (f : list Z -> nat -> list Z) bs :
  Z.of_nat (length bs) = n -> (forall d i, (i + length bs <= length d)%nat -> f d i = splice i bs d) ->
  stores (store n f) (fun _ => bs).
Proof. intros Hn Hf s Hl Ho Ha. unfold store. rewrite decide_True by lia. by rewrite Hf by lia. Qed.

Lemma stores_word2 v : stores (fun o => NDR_SSVAL o v) (fun fl => word fl 2 v).
Proof.
  apply (stores_store 2 (fun fl d i => if big_endian fl then RSSVAL d i v else SSVAL d i v)).
  - intros fl. by rewrite length_word.
  - intros fl d i Hi. rewrite length_word in Hi. unfold word. case_match; [by rewrite RSSVAL_splice|by rewrite SSVAL_splice].
Qed.

Lemma stores_word4 v : stores (fun o => NDR_SIVAL o v) (fun fl => word fl 4 v).
Proof.
  apply (stores_store 4 (fun fl d i => if big_endian fl then RSIVAL d i v else SIVAL d i v)).
  - intros fl. by rewrite length_word.
  - intros fl d i Hi. rewrite length_word in Hi. unfold word. case_match; [by rewrite RSIVAL_splice|by rewrite SIVAL_splice].
Qed.

(** Two words, one after the other. *)
Lemma stores_pair a b :
  stores (fun o => NDR_SIVAL o a;; NDR_SIVAL (add32 o 4) b) (fun fl => word fl 4 a ++ word fl 4 b).
Proof.
  intros s Hl Ho Ha. rewrite length_app, !length_word in Ha. unfold MAX_TALLOC_SIZE in Ha.
  unfold bind at 1. rewrite (stores_word4 a s Hl Ho) by (rewrite length_word; unfold MAX_TALLOC_SIZE; lia). cbn [obind fst snd].
  set (s1 := set_data _ s). unfold add32. rewrite u32_id by (unfold is_u; lia).
  assert (length (data s1) = length (data s)) as Hl1 by (unfold s1; cbn [set_data data]; rewrite length_splice; rewrite ?length_word; lia).
  pose proof (stores_word4 b (set_offset (offset s + 4) s1)) as E. cbn [set_offset set_data s1 data offset alloc_size flags] in E.
  rewrite length_word in E. specialize (E ltac:(unfold s1 in Hl1; cbn [set_data data] in Hl1; lia) ltac:(lia) ltac:(unfold MAX_TALLOC_SIZE; lia)).
  revert E. unfold NDR_SIVAL, bind, get, store. cbn [obind fst snd set_data set_offset s1 data flags].
  case_decide; [|done]. cbn [fst snd set_data data]. intros [= E]. rewrite E. unfold set_data. cbn [flags alloc_size offset relative_base_offset relative_base_list switch_list relative_list full_ptr_list ptr_count allocs].
  do 3 f_equal. replace (Z.to_nat (offset s + 4)) with (Z.to_nat (offset s) + 4)%nat by lia.
  rewrite splice_splice by (rewrite !length_word; lia). done.
Qed.

Lemma writes_uint8 v : writes (ndr_push_uint8 A v) (fun _ _ => [u8 v]).
Proof.
  apply (put_value_spec 1 _ (fun _ => [u8 v])); [|done]. apply (stores_const 1); [done|].
  intros d i Hi. cbn [length] in Hi. apply SCVAL_splice. lia.
Qed.

Lemma writes_repeat n : writes (repeat_call n (ndr_push_uint8 A 0)) (fun _ _ => replicate n 0).
Proof.
  induction n as [|n IH]; [apply writes_ret|]. cbn [repeat_call].
  apply (writes_bind _ _ (fun _ _ => [u8 0]) (fun _ _ => replicate n 0)); [apply writes_uint8|done].
Qed.

Lemma writes_align n : is_align n -> writes (NDR_PUSH_ALIGN A n) (fun fl o => replicate (padding fl n o) 0).
Proof.
  intros Hn s Hr Hroom. unfold NDR_PUSH_ALIGN, padding in *. unfold bind, get, id. cbn [obind fst snd].
  destruct (isset (flags s) LIBNDR_FLAG_NOALIGN).
  - by apply (writes_ret s).
  - pose proof Hr as (_ & Ho & _). rewrite length_replicate in Hroom. unfold room, NDR_BASE_MARSHALL_SIZE, MAX_TALLOC_SIZE in Hroom.
    rewrite align_up_pad by (done || lia).
    assert (0 <= - offset s mod n < 8) as Hb.
    { assert (0 < n) by (destruct Hn as [-> | [-> | [-> | ->]]]; lia). pose proof (Z.mod_pos_bound (- offset s) n). destruct Hn as [-> | [-> | [-> | ->]]]; lia. }
    replace (offset s + - offset s mod n - offset s) with (- offset s mod n) by lia.
    rewrite u32_id by (unfold is_u; lia). apply (writes_repeat _ s Hr).
    rewrite length_replicate. unfold room, NDR_BASE_MARSHALL_SIZE, MAX_TALLOC_SIZE. lia.
Qed.

(** A value after its alignment. *)
Lemma writes_aligned n k m bs :
  is_align n -> stores m bs -> (forall fl, length (bs fl) = k) ->
  writes (NDR_PUSH_ALIGN A n;; put_value A (Z.of_nat k) m) (fun fl o => replicate (padding fl n o) 0 ++ bs fl).
Proof.
  intros Hn Hm Hk. apply (writes_bind _ _ (fun fl o => replicate (padding fl n o) 0) (fun fl _ => bs fl)).
  - by apply writes_align.
  - by apply put_value_spec.
Qed.

Lemma writes_bytes l : writes (ndr_push_bytes A l) (fun _ _ => l).
Proof. apply (put_value_spec (length l) _ (fun _ => l)); [|done]. by apply stores_const. Qed.

Lemma word_mod fl n m v : (n <= m)%nat -> word fl n (v mod 2 ^ (8 * Z.of_nat m)) = word fl n v.
Proof. intros Hm. unfold word, be. by rewrite le_mod. Qed.

Lemma word_u16 fl v : word fl 2 (u16 v) = word fl 2 v.
Proof. by apply (word_mod fl 2 2). Qed.
Lemma word_u32 fl v : word fl 4 (u32 v) = word fl 4 v.
Proof. by apply (word_mod fl 4 4). Qed.
Lemma word_u64 fl v : word fl 4 (u64 v) = word fl 4 v.
Proof. apply (word_mod fl 4 8). lia. Qed.

Lemma word_low fl v : word fl 4 (Z.land v 0xFFFFFFFF) = word fl 4 v.
Proof. change 0xFFFFFFFF with (Z.ones (8 * Z.of_nat 4)). unfold word, be. by rewrite (le_land 4). Qed.

Lemma writes_udlong v :
  writes (ndr_push_udlong A v) (fun fl o => replicate (padding fl 4 o) 0 ++ word fl 4 v ++ word fl 4 (Z.shiftr v 32)).
Proof.
  apply (writes_ext _ (fun fl o => replicate (padding fl 4 o) 0 ++ word fl 4 (Z.land v 0xFFFFFFFF) ++ word fl 4 (Z.shiftr v 32))).
  - apply (writes_aligned 4 8); [by right; right; left|apply stores_pair|]. intros fl. by rewrite length_app, !length_word.
  - intros. by rewrite word_low.
Qed.

Lemma padding_twice fl o : padding fl 4 (o + Z.of_nat (padding fl 8 o)) = 0%nat.
Proof. unfold padding. destruct (isset _ _); [done|]. dlia. Qed.

Lemma writes_item i : item_ok i -> writes (push_item A i) (fun fl o => wire fl o i).
Proof.
  intros Hi. destruct i; unfold wire, push_item; cbn [item_align encode].
  - apply (writes_ext _ (fun _ _ => [u8 (u8 v)])); [apply writes_uint8|].
    intros fl o _ _. unfold padding. rewrite Z.mod_1_r. unfold u8. rewrite Zmod_mod. by destruct (isset _ _).
  - apply (writes_ext _ (fun _ _ => [u8 v])); [apply writes_uint8|].
    intros fl o _ _. unfold padding. rewrite Z.mod_1_r. by destruct (isset _ _).
  - apply (writes_ext _ (fun fl o => replicate (padding fl 2 o) 0 ++ word fl 2 (u16 v))).
    + apply (writes_aligned 2 2); [by right; left|apply stores_word2|]. intros. apply length_word.
    + intros. by rewrite word_u16.
  - apply (writes_aligned 2 2); [by right; left|apply stores_word2|]. intros. apply length_word.
  - apply (writes_ext _ (fun fl o => replicate (padding fl 4 o) 0 ++ word fl 4 (u32 v))).
    + apply (writes_aligned 4 4); [by right; right; left|apply stores_word4|]. intros. apply length_word.
    + intros. by rewrite word_u32.
  - apply (writes_aligned 4 4); [by right; right; left|apply stores_word4|]. intros. apply length_word.
  - apply writes_udlong.
  - apply (writes_ext _ (fun fl o => replicate (padding fl 4 o) 0 ++ word fl 4 (Z.shiftr v 32) ++ word fl 4 (Z.land v 0xFFFFFFFF))).
    + apply (writes_aligned 4 8); [by right; right; left|apply stores_pair|]. intros fl. by rewrite length_app, !length_word.
    + intros. by rewrite word_low.
  - apply (writes_ext _ (fun fl o => replicate (padding fl 4 o) 0 ++ word fl 4 (u64 v) ++ word fl 4 (Z.shiftr (u64 v) 32))).
    + apply writes_udlong.
    + intros fl o _ _. f_equal. rewrite word_u64. f_equal. unfold word, be, u64.
      by rewrite !(le_shiftr_mod v).
  - apply (writes_ext _ (fun fl o => replicate (padding fl 8 o) 0 ++
             (fun fl o => replicate (padding fl 4 o) 0 ++ word fl 4 v ++ word fl 4 (Z.shiftr v 32)) fl
               (o + Z.of_nat (length (replicate (padding fl 8 o) 0))))).
    + apply (writes_bind _ _ (fun fl o => replicate (padding fl 8 o) 0) (fun fl o => replicate (padding fl 4 o) 0 ++ word fl 4 v ++ word fl 4 (Z.shiftr v 32))); [apply writes_align; by right; right; right|apply writes_udlong].
    + intros fl o _ _. by rewrite length_replicate, padding_twice.
  - apply (writes_aligned 8 8 _ (fun _ => le 8 v)); [by right; right; right| |intros; apply length_le].
    apply (stores_const 8); [by rewrite length_le|]. intros d i Hd. rewrite length_le in Hd. by apply SBVAL_splice.
  - apply (writes_ext _ (fun _ _ => l)); [apply writes_bytes|].
    intros fl o _ _. unfold padding. rewrite Z.mod_1_r. by destruct (isset _ _).
  - apply (writes_ext _ (fun fl o => replicate (padding fl n o) 0)); [by apply writes_align|].
    intros. by rewrite app_nil_r.
Qed.

Lemma writes_items l : Forall item_ok l -> writes (push_items A l) (fun fl o => wires fl o l).
Proof.
  induction 1 as [|i l Hi Hl IH]; [apply writes_ret|]. cbn [push_items wires].
  apply (writes_bind _ _ (fun fl o => wire fl o i) (fun fl o => wires fl o l)); [by apply writes_item|done].
Qed.
End marshalling.

(** ** Unmarshalling *)

Lemma reverse_be n v : reverse (be n v) = le n v.
Proof. unfold be. apply reverse_involutive. Qed.

Lemma RSVAL_at a v b : RSVAL (a ++ be 2 v ++ b) (length a) = u16 v.
Proof.
  unfold RSVAL. rewrite <- SREV_le, SVAL_at, u16_id by apply SREV_range.
  rewrite SREV_swap. unfold be. by rewrite SREV_le, reverse_be, of_le_le.
Qed.

Lemma IREV_range v : is_u32 (IREV v).
Proof. rewrite IREV_swap. pose proof (of_le_is_u (be 4 v) (be_bytes 4 v)) as H. by rewrite length_be in H. Qed.

Lemma IREV_IREV v : IREV (IREV v) = u32 v.
Proof. rewrite IREV_swap. unfold be. by rewrite IREV_le, reverse_be, of_le_le. Qed.

Lemma RIVAL_at a v b : RIVAL (a ++ be 4 v ++ b) (length a) = u32 v.
Proof. unfold RIVAL. rewrite <- IREV_le, IVAL_at, u32_id by apply IREV_range. apply IREV_IREV. Qed.

Lemma IREV_s32 v : IREV (s32 v) = IREV v.
Proof.
  rewrite !IREV_swap. unfold be. do 2 f_equal. rewrite <- (le_u32 (s32 v)), <- (le_u32 v). f_equal.
  unfold u32, s32. dlia.
Qed.

Lemma RIVALS_at a v b : RIVALS (a ++ be 4 v ++ b) (length a) = s32 v.
Proof.
  unfold RIVALS, IVALS. rewrite <- IREV_le, IVAL_at, IREV_s32, u32_id, IREV_IREV by apply IREV_range.
  unfold u32, s32. dlia.
Qed.

Lemma s32_u32 v : s32 (u32 v) = s32 v.
Proof. unfold s32, u32. dlia. Qed.

Lemma s_id w x : 0 < w -> is_s w x -> (x + 2 ^ (w - 1)) mod 2 ^ w - 2 ^ (w - 1) = x.
Proof.
  unfold is_s. intros Hw Hx. assert (2 ^ w = 2 * 2 ^ (w - 1)) as E.
  { rewrite <- Z.pow_succ_r by lia. f_equal. lia. }
  rewrite Z.mod_small; lia.
Qed.

Section unmarshalling.
Import Pull.
Implicit Types s : ndr_pull.

(** The bytes that come next, all of them inside the size. *)
Definition ahead s (bs : list Z) : Prop :=
  exists pre post,
    data s = pre ++ bs ++ post /\ Z.of_nat (length pre) = offset s /\
    offset s + Z.of_nat (length bs) <= data_size s < 2 ^ 31.

(** The state past them. *)
Definition past s (n : nat) : ndr_pull := set_offset (offset s + Z.of_nat n) s.

(** [m] reads [v] from [f flags offset]. *)
Definition reads {B} (m : M ndr_pull B) (f : Z -> Z -> list Z) (v : B) : Prop :=
  forall s, ahead s (f (flags s) (offset s)) -> m s = Ret (Good v, past s (length (f (flags s) (offset s)))).

Lemma past_0 s : past s 0 = s.
Proof. unfold past. cbn [Z.of_nat]. rewrite Z.add_0_r. by destruct s. Qed.

Lemma past_past s n m : past (past s n) m = past s (n + m).
Proof. unfold past, set_offset. cbn. f_equal. lia. Qed.

Lemma ahead_app s a b : ahead s (a ++ b) -> ahead s a /\ ahead (past s (length a)) b.
Proof.
  intros (pre & post & Hd & Hp & Ho). rewrite length_app in Ho. split.
  - exists pre, (b ++ post). rewrite Hd, <- app_assoc. split_and!; [done|done|lia|lia].
  - exists (pre ++ a), post. unfold past, set_offset. cbn [data offset data_size].
    rewrite Hd, <- !app_assoc, length_app. split_and!; [done|lia|lia|lia].
Qed.

Lemma ahead_offset s bs : ahead s bs -> 0 <= offset s /\ offset s + Z.of_nat (length bs) <= data_size s < 2 ^ 31.
Proof. intros (pre & post & _ & Hp & Ho). lia. Qed.

Lemma reads_ret {B} (v : B) : reads (ret v) (fun _ _ => []) v.
Proof. intros s _. by rewrite past_0. Qed.

Lemma reads_bind {B C} (m : M ndr_pull B) (k : B -> M ndr_pull C) f g v w :
  reads m f v -> reads (k v) g w ->
  reads (do x <- m; k x) (fun fl o => f fl o ++ g fl (o + Z.of_nat (length (f fl o)))) w.
Proof.
  intros Hm Hk s Ha. apply ahead_app in Ha as [H1 H2]. unfold bind. rewrite (Hm s H1). cbn [obind fst snd].
  rewrite (Hk (past s _) H2). rewrite past_past, length_app. done.
Qed.

(** A read and what comes after it. *)
Lemma reads_then {B C} (m : M ndr_pull B) (k : B -> M ndr_pull C) f v s rest :
  reads m f v -> ahead s (f (flags s) (offset s) ++ rest) ->
  bind m k s = k v (past s (length (f (flags s) (offset s)))) /\ ahead (past s (length (f (flags s) (offset s)))) rest.
Proof. intros Hm Ha. apply ahead_app in Ha as [H1 H2]. split; [|done]. unfold bind. by rewrite (Hm s H1). Qed.

Lemma reads_ext {B} (m : M ndr_pull B) f g v :
  reads m f v -> (forall fl o, 0 <= o < 2 ^ 31 -> f fl o = g fl o) -> reads m g v.
Proof.
  intros Hm E s Ha. pose proof (ahead_offset _ _ Ha). rewrite <- E in * by lia. by apply Hm.
Qed.

Lemma reads_eq {B} (m : M ndr_pull B) f v w : reads m f v -> v = w -> reads m f w.
Proof. by intros Hm ->. Qed.

Lemma reads_map {B C} (m : M ndr_pull B) (h : B -> C) f v : reads m f v -> reads (do x <- m; ret (h x)) f (h v).
Proof.
  intros Hm. apply (reads_ext _ (fun fl o => f fl o ++ [])).
  - apply (reads_bind m (fun x => ret (h x)) f (fun _ _ => []) v); [done|apply reads_ret].
  - intros. apply app_nil_r.
Qed.

(** [m] at the offset loads [v] from [f flags]. *)
Definition loads {B} (m : Z -> M ndr_pull B) (f : Z -> list Z) (v : B) : Prop :=
  forall s, ahead s (f (flags s)) -> m (offset s) s = Ret (Good v, s).

Lemma need_bytes s (n : nat) (bs : list Z) :
  ahead s bs -> length bs = n -> NDR_PULL_NEED_BYTES (Z.of_nat n) s = Ret (Good tt, s).
Proof.
  intros Ha <-. apply ahead_offset in Ha. unfold NDR_PULL_NEED_BYTES, add32.
  rewrite u32_id by (unfold is_u; lia). rewrite (proj2 (Z.ltb_ge _ _)), (proj2 (Z.ltb_ge _ _)) by lia. done.
Qed.

Lemma take_value_spec {B} n (m : Z -> M ndr_pull B) f v :
  loads m f v -> (forall fl, length (f fl) = n) -> reads (take_value (Z.of_nat n) m) (fun fl _ => f fl) v.
Proof.
  intros Hm Hn s Ha. unfold take_value, bind, get, ret. cbn [obind fst snd].
  rewrite (need_bytes s n (f (flags s))) by done. cbn [obind fst snd]. rewrite (Hm s) by done. cbn [obind fst snd].
  unfold advance, modify. cbn [obind fst snd]. apply ahead_offset in Ha. rewrite Hn in Ha.
  unfold past, add32. rewrite u32_id, Hn by (unfold is_u; lia). done.
Qed.

Lemma loads_load {B} n (g : Z -> list Z -> nat -> B) f v :
  (forall fl, Z.of_nat (length (f fl)) = n) ->
  (forall fl pre post, g fl (pre ++ f fl ++ post) (length pre) = v) ->
  loads (fun o => do fl <- get flags; load n (g fl) o) f v.
Proof.
  intros Hn Hg s (pre & post & Hd & Hp & Ho). unfold bind, get, load. cbn [obind fst snd]. specialize (Hn (flags s)).
  rewrite Hd, !length_app, decide_True by lia. replace (Z.to_nat (offset s)) with (length pre) by lia.
  by rewrite Hg.
Qed.

Lemma loads_const {B} n (g : list Z -> nat -> B) bs v :
  Z.of_nat (length bs) = n -> (forall pre post, g (pre ++ bs ++ post) (length pre) = v) -> loads (load n g) (fun _ => bs) v.
Proof.
  intros Hn Hg s (pre & post & Hd & Hp & Ho). unfold load.
  rewrite Hd, !length_app, decide_True by lia. replace (Z.to_nat (offset s)) with (length pre) by lia.
  by rewrite Hg.
Qed.

Lemma loads_word2 v : loads NDR_SVAL (fun fl => word fl 2 v) (u16 v).
Proof.
  apply (loads_load 2 (fun fl => if big_endian fl then RSVAL else SVAL)).
  - intros. by rewrite length_word.
  - intros fl pre post. unfold word. case_match; [apply RSVAL_at|apply SVAL_at].
Qed.

Lemma loads_word4 v : loads NDR_IVAL (fun fl => word fl 4 v) (u32 v).
Proof.
  apply (loads_load 4 (fun fl => if big_endian fl then RIVAL else IVAL)).
  - intros. by rewrite length_word.
  - intros fl pre post. unfold word. case_match; [apply RIVAL_at|apply IVAL_at].
Qed.

Lemma loads_sword4 v : loads NDR_IVALS (fun fl => word fl 4 v) (s32 v).
Proof.
  apply (loads_load 4 (fun fl => if big_endian fl then RIVALS else IVALS)).
  - intros. by rewrite length_word.
  - intros fl pre post. unfold word. case_match; [apply RIVALS_at|]. unfold IVALS. by rewrite IVAL_at, s32_u32.
Qed.

(** Two words, one after the other. *)
Lemma loads_pair {B} a b (g : Z -> Z -> B) :
  loads (fun o => do x <- NDR_IVAL o; do y <- NDR_IVAL (add32 o 4); ret (g x y))
    (fun fl => word fl 4 a ++ word fl 4 b) (g (u32 a) (u32 b)).
Proof.
  intros s Ha. pose proof (ahead_offset _ _ Ha) as Ho. apply ahead_app in Ha as [H1 H2]. rewrite length_app, !length_word in Ho.
  unfold bind at 1. rewrite (loads_word4 a s H1). cbn [obind fst snd].
  rewrite length_word in H2. pose proof (loads_word4 b (past s 4) H2) as E.
  unfold past in E. cbn [set_offset offset] in E. change (Z.of_nat 4) with 4 in E. unfold add32. rewrite u32_id by (unfold is_u; lia).
  revert E. unfold NDR_IVAL, bind, get, load. cbn [obind fst snd set_offset flags data].
  case_decide; [|done]. cbn [obind fst snd]. intros [= ->]. done.
Qed.

Lemma reads_align n : is_align n -> reads (NDR_PULL_ALIGN n) (fun fl o => replicate (padding fl n o) 0) tt.
Proof.
  intros Hn s Ha. pose proof (ahead_offset _ _ Ha) as Ho. rewrite length_replicate in *.
  unfold NDR_PULL_ALIGN, padding in *. unfold bind at 1, get at 1. cbn [obind fst snd].
  destruct (isset (flags s) LIBNDR_FLAG_NOALIGN) eqn:F.
  - cbn [ret bind get id obind fst snd]. unfold bind, ret, get, id. cbn [obind fst snd].
    rewrite (proj2 (Z.ltb_ge _ _)) by lia. by rewrite past_0.
  - assert (0 < n <= 8) as Hb by (destruct Hn as [-> | [-> | [-> | ->]]]; lia).
    pose proof (Z.mod_pos_bound (- offset s) n ltac:(lia)).
    set (p := Z.to_nat (- offset s mod n)) in *. assert (Z.of_nat p = - offset s mod n) as Hp' by (unfold p; lia).
    assert ((if isset (flags s) LIBNDR_FLAG_PAD_CHECK then ndr_check_padding n else ret tt) s = Ret (Good tt, s)) as E.
    { case_match; [|done]. unfold ndr_check_padding, bind, get, load. cbn [obind fst snd].
      rewrite align_up_pad by (done || lia). destruct Ha as (pre & post & Hd & Hp & _).
      rewrite decide_True; [done|]. rewrite Hd, !length_app, length_replicate, <- Hp'. clear H Hp'. lia. }
    unfold bind. rewrite E. cbn [obind fst snd modify get id]. unfold modify, get, id. cbn [obind fst snd].
    rewrite align_up_pad by (done || lia). cbn [set_offset offset data_size].
    rewrite <- Hp'. assert ((data_size s <? offset s + Z.of_nat p) = false) as -> by (apply Z.ltb_ge; lia). done.
Qed.

Lemma reads_aligned {B} n k (m : Z -> M ndr_pull B) f v :
  is_align n -> loads m f v -> (forall fl, length (f fl) = k) ->
  reads (NDR_PULL_ALIGN n;; take_value (Z.of_nat k) m) (fun fl o => replicate (padding fl n o) 0 ++ f fl) v.
Proof.
  intros Hn Hm Hk. apply (reads_bind _ (fun _ => _) (fun fl o => replicate (padding fl n o) 0) (fun fl _ => f fl) tt).
  - by apply reads_align.
  - by apply take_value_spec.
Qed.
End unmarshalling.

Lemma BVAL_at a v b : BVAL (a ++ le 8 v ++ b) (length a) = u64 v.
Proof.
  unfold BVAL. rewrite (le_app 4 4), <- app_assoc, IVAL_at, app_assoc.
  replace (length a + 4)%nat with (length (a ++ le 4 v)) by (rewrite length_app, length_le; lia).
  rewrite IVAL_at. rewrite (u64_id (Z.shiftl _ _)) by (apply (is_u_shiftl 32); [lia..|apply u32_range]).
  rewrite lor_shiftl_add by (done || apply u32_range). rewrite Z.shiftr_div_pow2 by done. unfold u32, u64.
  change (8 * Z.of_nat 4) with 32. dlia.
Qed.

Lemma s16_u16 v : is_s 16 v -> s16 (u16 v) = v.
Proof. intros Hv. rewrite <- (s_id 16 v) at 2 by done. unfold s16, u16. dlia. Qed.

Lemma loads_map {B C} (m : Z -> M ndr_pull B) (h : B -> C) f v :
  loads m f v -> loads (fun o => do x <- m o; ret (h x)) f (h v).
Proof. intros Hm s Ha. unfold bind. by rewrite (Hm s Ha). Qed.

Section unmarshalling_items.
Import Pull.

Lemma reads_uint8 v : is_byte v -> reads ndr_pull_uint8 (fun _ _ => [u8 v]) v.
Proof.
  intros Hv. apply (take_value_spec 1 _ (fun _ => [u8 v])); [|done]. apply (loads_const 1); [done|].
  intros pre post. unfold CVAL. cbn [app]. rewrite list_lookup_middle by done. cbn [default]. by apply u8_id.
Qed.

Lemma reads_int8 v : is_s 8 v -> reads ndr_pull_int8 (fun _ _ => [u8 v]) v.
Proof.
  intros Hv. apply (take_value_spec 1 _ (fun _ => [u8 v])); [|done]. apply (loads_const 1); [done|].
  intros pre post. unfold CVAL. cbn [app]. rewrite list_lookup_middle by done. cbn [default]. unfold is_s, s8, u8 in *. cbn. dlia.
Qed.

(** An address of an array does not matter to what it holds. *)
Lemma loads_bytes l : loads (load (Z.of_nat (length l)) (fun d i => slice i (length l) d)) (fun _ => l) l.
Proof. apply loads_const; [done|]. intros pre post. by rewrite slice_at. Qed.

Lemma reads_bytes l : reads (ndr_pull_bytes (Z.of_nat (length l))) (fun _ _ => l) l.
Proof.
  unfold ndr_pull_bytes. rewrite Nat2Z.id.
  apply (take_value_spec (length l) (load (Z.of_nat (length l)) (fun d i => slice i (length l) d)) (fun _ => l)); [|done].
  apply loads_bytes.
Qed.

Lemma lo_hi v : Z.lor (u32 v) (Z.shiftl (u32 (Z.shiftr v 32)) 32) = u64 v.
Proof.
  rewrite lor_shiftl_add by (done || apply u32_range). rewrite Z.shiftr_div_pow2 by done. unfold u32, u64. dlia.
Qed.

Lemma reads_udlong v : reads ndr_pull_udlong (fun fl o => replicate (padding fl 4 o) 0 ++ word fl 4 v ++ word fl 4 (Z.shiftr v 32)) (u64 v).
Proof.
  rewrite <- lo_hi. apply (reads_aligned 4 8); [by right; right; left| |].
  - apply (loads_pair v (Z.shiftr v 32) (fun lo hi => Z.lor lo (Z.shiftl hi 32))).
  - intros. by rewrite length_app, !length_word.
Qed.

Lemma reads_uint16 n : is_u16 n -> reads ndr_pull_uint16 (fun fl o => wire fl o (I_uint16 n)) n.
Proof.
  intros Hn. apply (reads_eq _ _ (u16 n)); [|by apply u16_id].
  apply (reads_aligned 2 2); [by right; left|apply loads_word2|intros; apply length_word].
Qed.

Lemma reads_uint32 n : is_u32 n -> reads ndr_pull_uint32 (fun fl o => wire fl o (I_uint32 n)) n.
Proof.
  intros Hn. apply (reads_eq _ _ (u32 n)); [|by apply u32_id].
  apply (reads_aligned 4 4); [by right; right; left|apply loads_word4|intros; apply length_word].
Qed.

Lemma reads_item i : item_ok i -> reads (pull_item i) (fun fl o => wire fl o i) i.
Proof.
  intros Hi. destruct i; unfold wire, pull_item; cbn [item_align encode item_ok] in *.
  - apply (reads_ext _ (fun _ _ => [u8 v])); [by apply reads_map, reads_int8|].
    intros fl o _. unfold padding. rewrite Z.mod_1_r. by destruct (isset _ _).
  - apply (reads_ext _ (fun _ _ => [u8 v])); [by apply reads_map, reads_uint8|].
    intros fl o _. unfold padding. rewrite Z.mod_1_r. by destruct (isset _ _).
  - apply (reads_map _ I_int16). apply (reads_eq _ _ (s16 (u16 v))); [|by apply s16_u16].
    apply (reads_aligned 2 2 (fun o => do v <- NDR_SVAL o; ret (s16 v))); [by right; left| |intros; apply length_word].
    apply (loads_map _ s16), loads_word2.
  - by apply (reads_map _ I_uint16), reads_uint16.
  - apply (reads_map _ I_int32). apply (reads_eq _ _ (s32 v)); [|by apply (s_id 32)].
    apply (reads_aligned 4 4); [by right; right; left|apply loads_sword4|intros; apply length_word].
  - by apply (reads_map _ I_uint32), reads_uint32.
  - apply (reads_map _ I_udlong). apply (reads_eq _ _ (u64 v)); [apply reads_udlong|by apply u64_id].
  - apply (reads_map _ I_udlongr). apply (reads_eq _ _ (u64 v)); [|by apply u64_id]. rewrite <- lo_hi, Z.lor_comm.
    apply (reads_aligned 4 8); [by right; right; left| |intros; by rewrite length_app, !length_word].
    apply (loads_pair (Z.shiftr v 32) v (fun hi lo => Z.lor (Z.shiftl hi 32) lo)).
  - apply (reads_map _ I_dlong). assert (s64 (u64 v) = v) as E.
    { rewrite <- (s_id 64 v) at 2 by done. unfold s64, u64. dlia. }
    apply (reads_eq _ _ (s64 (u64 v))); [|done]. apply (reads_map _ s64), reads_udlong.
  - apply (reads_map _ I_hyper). apply (reads_eq _ _ (u64 v)); [|by apply u64_id].
    apply (reads_ext _ (fun fl o => replicate (padding fl 8 o) 0 ++
             (fun fl o => replicate (padding fl 4 o) 0 ++ word fl 4 v ++ word fl 4 (Z.shiftr v 32)) fl
               (o + Z.of_nat (length (replicate (padding fl 8 o) 0))))).
    + apply (reads_bind _ (fun _ => ndr_pull_udlong) (fun fl o => replicate (padding fl 8 o) 0)
        (fun fl o => replicate (padding fl 4 o) 0 ++ word fl 4 v ++ word fl 4 (Z.shiftr v 32)) tt);
        [apply reads_align; by right; right; right|apply reads_udlong].
    + intros fl o _. by rewrite length_replicate, padding_twice.
  - apply (reads_map _ I_pointer).
    apply (reads_aligned 8 8 _ (fun _ => le 8 v)); [by right; right; right| |intros; apply length_le].
    apply (loads_const 8); [by rewrite length_le|]. intros pre post. rewrite BVAL_at. by apply u64_id.
  - apply (reads_map _ I_bytes). apply (reads_ext _ (fun _ _ => l)); [apply reads_bytes|].
    intros fl o _. unfold padding. rewrite Z.mod_1_r. by destruct (isset _ _).
  - apply (reads_ext _ (fun fl o => replicate (padding fl n o) 0 ++ [])); [|done].
    apply (reads_bind (ndr_pull_align n) (fun _ => ret (I_align n)) (fun fl o => replicate (padding fl n o) 0) (fun _ _ => []) tt);
      [by apply reads_align|apply reads_ret].
Qed.

Lemma reads_items l : Forall item_ok l -> reads (pull_items l) (fun fl o => wires fl o l) l.
Proof.
  induction 1 as [|i l Hi Hl IH]; [apply reads_ret|]. cbn [pull_items wires].
  apply (reads_bind (pull_item i) (fun i => do l <- pull_items l; ret (i :: l))
           (fun fl o => wire fl o i) (fun fl o => wires fl o l) i); [by apply reads_item|].
  by apply (reads_map _ (cons i)).
Qed.
End unmarshalling_items.
