(* ===== verification/NdrSafe.v ===== *)
(** What unmarshalling may rely on: a value that was marshalled is read back, and a call
    made with the offset inside the data leaves it there or returns an error. *)

From S2P Require Import Prelude Digest Byteorder Ntstatus Ndr NdrPull NdrPush NdrWire.
Import Byteorder Ndr NdrPull.

#[local] Open Scope outcome_scope.
#[local] Open Scope ndr_scope.

(** ** A parser as a sequence of calls *)

(** The calls of the library, with arguments that do not come from the wire. *)
Inductive call :=
| C_item (i : item)
| C_generic_ptr
| C_ref_ptr
| C_blob
| C_advance (n : Z)
| C_array_size (p : addr)
| C_check_array_size (p : addr) (n : Z)
| C_array_length (p : addr)
| C_check_array_length (p : addr) (n : Z)
| C_switch (p : addr) (v : Z)
| C_relative_base1 (p : addr) (o : Z)
| C_relative_base2 (p : addr)
| C_relative_ptr1 (p : addr) (o : Z)
| C_relative_ptr2 (p : addr).

(** Calls one after the other, and calls on a subcontext. *)
Inductive calls :=
| Done
| Call (c : call) (k : calls)
| Sub (header_size size_is : Z) (inner k : calls).

Section run.
Context (A : Allocator).

Definition run_call (c : call) : M ndr_pull unit :=
  match c with
  | C_item i => do _ <- pull_item i; ret tt
  | C_generic_ptr => do _ <- ndr_pull_generic_ptr; ret tt
  | C_ref_ptr => do _ <- ndr_pull_ref_ptr; ret tt
  | C_blob => do _ <- ndr_pull_DATA_BLOB A; ret tt
  | C_advance n => ndr_pull_advance n
  | C_array_size p => ndr_pull_array_size A p
  | C_check_array_size p n => ndr_check_array_size p n
  | C_array_length p => ndr_pull_array_length A p
  | C_check_array_length p n => ndr_check_array_length p n
  | C_switch p v => ndr_pull_set_switch_value A p v
  | C_relative_base1 p o => ndr_pull_setup_relative_base_offset1 A p o
  | C_relative_base2 p => ndr_pull_setup_relative_base_offset2 p
  | C_relative_ptr1 p o => ndr_pull_relative_ptr1 A p o
  | C_relative_ptr2 p => ndr_pull_relative_ptr2 p
  end.

(** A call on the inner parser of a subcontext. *)
Definition within (sub : ndr_pull) (m : M ndr_pull unit) : M ndr_pull ndr_pull := fun s =>
  let* r := m sub in
  match r.1 with
  | Good _ => Ret (Good r.2, s)
  | Bad e => Ret (Bad e, s)
  end.

Fixpoint run (l : calls) : M ndr_pull unit :=
  match l with
  | Done => ret tt
  | Call c k => run_call c;; run k
  | Sub header_size size_is inner k =>
      do sub <- ndr_pull_subcontext_start A header_size size_is;
      do sub <- within sub (run inner);
      ndr_pull_subcontext_end sub header_size size_is;;
      run k
  end.
End run.

(** The alignments are those of the code. *)
Definition call_ok (c : call) : Prop :=
  match c with
  | C_item (I_align n) => is_align n
  | _ => True
  end.
Fixpoint calls_ok (l : calls) : Prop :=
  match l with
  | Done => True
  | Call c k => call_ok c /\ calls_ok k
  | Sub _ _ inner k => calls_ok inner /\ calls_ok k
  end.

Section inside.
Context (A : Allocator).
Import Pull.
Implicit Types s : ndr_pull.

(** The offset is inside the size, and the size inside the memory. *)
Definition inside s : Prop :=
  0 <= offset s <= data_size s /\ data_size s <= Z.of_nat (length (data s)) /\ data_size s < 2 ^ 31 /\ bytes (data s).

(** The padding that is only looked at may lie past the size. *)
Definition unchecked_padding s : Prop := isset (flags s) LIBNDR_FLAG_PAD_CHECK = false.

(** [s'] parses the same data as [s]. *)
Definition same_input s s' : Prop := data s' = data s /\ data_size s' = data_size s /\ flags s' = flags s.

(** [m] returns, and without an error leaves the offset inside and a value of [Q]. *)
Definition contained_in {B} (Q : B -> Prop) (m : M ndr_pull B) : Prop :=
  forall s, inside s -> unchecked_padding s ->
  exists r s', m s = Ret (r, s') /\ same_input s s' /\ forall v, r = Good v -> inside s' /\ Q v.
Abbreviation contained := (contained_in (fun _ => True)).

Lemma same_input_trans s1 s2 s3 : same_input s1 s2 -> same_input s2 s3 -> same_input s1 s3.
Proof. unfold same_input. intuition congruence. Qed.

Lemma contained_ret {B} (Q : B -> Prop) v : Q v -> contained_in Q (ret v).
Proof. intros Hv s Hs Hp. exists (Good v), s. split_and!; [done..|]. by intros w [= <-]. Qed.
Lemma contained_error {B} (Q : B -> Prop) e : contained_in Q (ndr_error e).
Proof. intros s Hs Hp. by exists (Bad (ndr_map_error e)), s. Qed.
Lemma contained_bad {B} (Q : B -> Prop) e : contained_in Q (bad e).
Proof. intros s Hs Hp. by exists (Bad e), s. Qed.
Lemma contained_get {B} (Q : B -> Prop) f : (forall s, inside s -> Q (f s)) -> contained_in Q (get f).
Proof. intros Hf s Hs Hp. exists (Good (f s)), s. split_and!; [done..|]. intros v [= <-]. split; [done|by apply Hf]. Qed.

Lemma contained_weaken {B} (Q R : B -> Prop) m : contained_in Q m -> (forall v, Q v -> R v) -> contained_in R m.
Proof.
  intros Hm HQ s Hs Hp. destruct (Hm s Hs Hp) as (r & s1 & E & S1 & I1). exists r, s1. split_and!; [done..|].
  intros v Hv. destruct (I1 v Hv). auto.
Qed.

Lemma contained_bind {B C} Q R (m : M ndr_pull B) (k : B -> M ndr_pull C) :
  contained_in Q m -> (forall v, Q v -> contained_in R (k v)) -> contained_in R (do x <- m; k x).
Proof.
  intros Hm Hk s Hs Hp. destruct (Hm s Hs Hp) as (r & s1 & E1 & S1 & I1). unfold bind. rewrite E1. cbn [obind fst snd].
  destruct r as [v|e].
  - destruct (I1 v eq_refl) as [Hi Hq].
    destruct (Hk v Hq s1 Hi) as (r & s2 & E2 & S2 & I2); [unfold unchecked_padding in *; destruct S1 as (_ & _ & ->); done|].
    exists r, s2. split_and!; [done|by apply (same_input_trans _ s1)|done].
  - exists (Bad e), s1. done.
Qed.

(** A change of the state that leaves the input and the offset. *)
Lemma contained_modify f :
  (forall s, data (f s) = data s /\ data_size (f s) = data_size s /\ flags (f s) = flags s /\ offset (f s) = offset s) ->
  contained (modify f).
Proof.
  intros Hf s Hs Hp. destruct (Hf s) as (H1 & H2 & H3 & H4). exists (Good tt), (f s). split_and!; [done..|].
  intros v _. split; [|done]. unfold inside in *. by rewrite H1, H2, H4.
Qed.

Lemma contained_alloc : contained (alloc A).
Proof. intros s Hs Hp. eexists _, _. split_and!; [done..|]. by intros v _. Qed.

Lemma contained_alloc_array k n : contained (alloc_array A k n).
Proof.
  unfold alloc_array. case_match; [apply contained_alloc|]. by apply contained_ret.
Qed.

(** The offset moves by at most a page, then is checked. *)
Lemma contained_align n : is_align n -> contained (NDR_PULL_ALIGN n).
Proof.
  intros Hn s Hs Hp. unfold NDR_PULL_ALIGN. unfold bind at 1, get at 1. cbn [obind fst snd].
  pose proof Hs as (Ho & Hd & Hz & Hb).
  assert (exists s1, (if isset (flags s) LIBNDR_FLAG_NOALIGN then ret tt
           else (if isset (flags s) LIBNDR_FLAG_PAD_CHECK then ndr_check_padding n else ret tt);;
                modify (fun s => set_offset (align_up (offset s) n) s)) s = Ret (Good tt, s1) /\
          same_input s s1 /\ offset s <= offset s1) as (s1 & E & Hi & Ho1).
  { case_match; [by exists s|]. rewrite Hp. unfold bind, ret, modify. cbn [obind fst snd].
    eexists. split_and!; [done|done|]. cbn [set_offset offset]. rewrite align_up_pad by (done || lia).
    assert (0 < n) by (destruct Hn as [-> | [-> | [-> | ->]]]; lia).
    pose proof (Z.mod_pos_bound (- offset s) n). lia. }
  unfold bind at 1. rewrite E. unfold bind, get, id. cbn [obind fst snd]. pose proof Hi as (Hd1 & Hz1 & _).
  destruct (Z.ltb_spec (data_size s1) (offset s1)).
  - by exists (Bad (ndr_map_error NDR_ERR_BUFSIZE)), s1.
  - exists (Good tt), s1. split_and!; [done|done|]. intros _ _. split; [|done]. unfold inside. rewrite Hd1, Hz1. split_and!; [lia..|done].
Qed.

Lemma contained_advance n : contained (ndr_pull_advance n).
Proof.
  intros s Hs Hp. unfold ndr_pull_advance, advance, bind, modify, get, id. cbn [obind fst snd].
  case_match; [by eexists (Bad _), _|]. eexists (Good _), _. split_and!; [done|done|]. intros _ _.
  destruct Hs as (Ho & Hd & Hz & Hb). unfold inside. cbn [set_offset offset data data_size] in *.
  pose proof (u32_range (offset s + n)). unfold add32, is_u in *. split_and!; [lia..|done|done].
Qed.

Lemma contained_set_offset o : 0 <= o -> contained (ndr_pull_set_offset o).
Proof.
  intros Hz0 s Hs Hp. unfold ndr_pull_set_offset, bind, modify, get, id. cbn [obind fst snd].
  case_match; [by eexists (Bad _), _|]. eexists (Good _), _. split_and!; [done|done|]. intros _ _.
  destruct Hs as (Ho & Hd & Hz & Hb). unfold inside. cbn [set_offset offset data data_size] in *. split_and!; [lia..|done|done].
Qed.

(** [m o] reads [n] bytes from [o], leaves the state and returns a value of [Q]. *)
Definition bounded {B} (Q : B -> Prop) (n : Z) (m : Z -> M ndr_pull B) : Prop :=
  forall s o, 0 <= o -> o + n <= Z.of_nat (length (data s)) -> o + n < 2 ^ 31 -> bytes (data s) ->
  exists v, m o s = Ret (Good v, s) /\ Q v.

Lemma bounded_load {B} (Q : B -> Prop) n f : (forall d i, bytes d -> Q (f d i)) -> bounded Q n (load n f).
Proof. intros Hf s o Ho Hn _ Hb. unfold load. rewrite decide_True by lia. eexists. split; [done|by apply Hf]. Qed.

Lemma bounded_word {B} (Q : B -> Prop) n f :
  (forall fl d i, bytes d -> Q (f fl d i)) -> bounded Q n (fun o => do fl <- get flags; load n (f fl) o).
Proof.
  intros Hf s o Ho Hn _ Hb. unfold bind, get, load. cbn [obind fst snd]. rewrite decide_True by lia.
  eexists. split; [done|by apply Hf].
Qed.

Lemma bounded_SVAL : bounded is_u16 2 NDR_SVAL.
Proof.
  apply (bounded_word is_u16 2 (fun fl => if big_endian fl then RSVAL else SVAL)). intros fl d i Hb.
  case_match; [apply SREV_range|]. apply is_u_lor; [done|by apply (is_u_mono 8); [lia|apply CVAL_byte]|].
  apply (is_u_shiftl 8); [lia..|by apply CVAL_byte].
Qed.

Lemma bounded_IVAL : bounded is_u32 4 NDR_IVAL.
Proof.
  apply (bounded_word is_u32 4 (fun fl => if big_endian fl then RIVAL else IVAL)). intros fl d i Hb.
  case_match; [apply IREV_range|by apply IVAL_range].
Qed.

Lemma bounded_pair {B} (g : Z -> Z -> B) :
  bounded (fun _ => True) 8 (fun o => do x <- NDR_IVAL o; do y <- NDR_IVAL (add32 o 4); ret (g x y)).
Proof.
  intros s o Ho Hn Hz Hb. unfold NDR_IVAL, bind, get, load, add32. cbn [obind fst snd]. rewrite u32_id by (unfold is_u; lia).
  rewrite decide_True by lia. cbn [obind fst snd]. rewrite decide_True by lia. by eexists.
Qed.

Lemma bounded_map {B C} (Q : B -> Prop) n m (h : B -> C) :
  bounded Q n m -> bounded (fun _ => True) n (fun o => do x <- m o; ret (h x)).
Proof. intros Hm s o Ho Hn Hz Hb. destruct (Hm s o Ho Hn Hz Hb) as (v & E & _). exists (h v). unfold bind. by rewrite E. Qed.

Lemma contained_need n : contained (NDR_PULL_NEED_BYTES n).
Proof. intros s Hs Hp. unfold NDR_PULL_NEED_BYTES. case_match; [by eexists (Bad _), _|by eexists (Good _), _]. Qed.

(** What the check says. *)
Lemma needed s n : inside s -> 0 <= n -> (data_size s <? n) || (data_size s <? add32 (offset s) n) = false -> offset s + n <= data_size s.
Proof.
  intros (Ho & Hd & Hz & Hb) Hn E. apply orb_false_elim in E as [E1 E2].
  apply Z.ltb_ge in E1, E2. unfold add32 in E2. rewrite u32_id in E2 by (unfold is_u; lia). done.
Qed.

(** A call after the check of [n] bytes, which are then known to be there. *)
Lemma contained_checked {B} Q n (k : M ndr_pull B) :
  0 <= n ->
  (forall s, inside s -> unchecked_padding s -> offset s + n <= data_size s ->
   exists r s', k s = Ret (r, s') /\ same_input s s' /\ forall v, r = Good v -> inside s' /\ Q v) ->
  contained_in Q (NDR_PULL_NEED_BYTES n;; k).
Proof.
  intros Hn Hk s Hs Hp. unfold bind, NDR_PULL_NEED_BYTES. case_match eqn:E; cbn [obind fst snd]; [by eexists (Bad _), _|].
  apply Hk; [done..|]. by apply needed.
Qed.

Lemma contained_take {B} (Q : B -> Prop) n m : 0 <= n -> bounded Q n m -> contained_in Q (take_value n m).
Proof.
  intros Hn Hm. apply contained_checked; [done|]. intros s Hs Hp Hr. pose proof Hs as (Ho & Hd & Hz & Hb).
  unfold bind, get, advance, modify, ret. cbn [obind fst snd].
  destruct (Hm s (offset s)) as (v & E & Hq); [lia..|done|]. rewrite E. cbn [obind fst snd].
  eexists (Good _), _. split_and!; [done|done|]. intros w [= <-]. split; [|done]. unfold inside. cbn [set_offset offset data data_size].
  unfold add32. rewrite u32_id by (unfold is_u; lia). split_and!; [lia..|done].
Qed.

Lemma contained_map {B C} (Q : B -> Prop) m (h : B -> C) : contained_in Q m -> contained (do x <- m; ret (h x)).
Proof. intros Hm. apply (contained_bind Q); [done|]. intros v _. by apply contained_ret. Qed.

Lemma contained_aligned {B} (Q : B -> Prop) k n m :
  is_align k -> 0 <= n -> bounded Q n m -> contained_in Q (NDR_PULL_ALIGN k;; take_value n m).
Proof. intros. apply (contained_bind (fun _ => True)); [by apply contained_align|]. intros _ _. by apply contained_take. Qed.

Lemma contained_uint16 : contained_in is_u16 ndr_pull_uint16.
Proof. apply contained_aligned; [by right; left|lia|apply bounded_SVAL]. Qed.
Lemma contained_uint32 : contained_in is_u32 ndr_pull_uint32.
Proof. apply contained_aligned; [by right; right; left|lia|apply bounded_IVAL]. Qed.
Lemma contained_udlong : contained ndr_pull_udlong.
Proof. apply contained_aligned; [by right; right; left|lia|]. apply (bounded_pair (fun lo hi => Z.lor lo (Z.shiftl hi 32))). Qed.
Lemma contained_bytes n : 0 <= n -> contained (ndr_pull_bytes n).
Proof. intros Hn. apply contained_take; [done|]. by apply bounded_load. Qed.

Lemma contained_token_store list set key v :
  (forall l s, data (set l s) = data s /\ data_size (set l s) = data_size s /\ flags (set l s) = flags s /\ offset (set l s) = offset s) ->
  contained (ndr_token_store A list set key v).
Proof.
  intros Hset. apply (contained_bind (fun _ => True)); [apply contained_alloc|]. intros p _. case_decide; [apply contained_bad|].
  apply contained_modify. intros s. apply Hset.
Qed.

Lemma contained_token_retrieve list set key :
  (forall l s, data (set l s) = data s /\ data_size (set l s) = data_size s /\ flags (set l s) = flags s /\ offset (set l s) = offset s) ->
  contained (ndr_token_retrieve list set key).
Proof.
  intros Hset s Hs Hp. unfold ndr_token_retrieve.
  destruct (ndr_token_find (list s) key) as [[w l]|]; [|by eexists (Bad _), _].
  destruct (Hset l s) as (H1 & H2 & H3 & H4). eexists (Good _), _. split_and!; [done..|]. intros x _. split; [|done].
  unfold inside in *. by rewrite H1, H2, H4.
Qed.

Lemma contained_item i : (forall n, i = I_align n -> is_align n) -> contained (pull_item i).
Proof.
  intros Hi. destruct i; cbn [pull_item].
  - apply (contained_map (fun _ => True)), contained_take; [lia|by apply bounded_load].
  - apply (contained_map (fun _ => True)), contained_take; [lia|by apply bounded_load].
  - apply (contained_map (fun _ => True)), contained_aligned; [by right; left|lia|]. apply (bounded_map is_u16), bounded_SVAL.
  - apply (contained_map is_u16), contained_uint16.
  - apply (contained_map (fun _ => True)), contained_aligned; [by right; right; left|lia|].
    by apply (bounded_word _ 4 (fun fl => if big_endian fl then RIVALS else IVALS)).
  - apply (contained_map is_u32), contained_uint32.
  - apply (contained_map (fun _ => True)), contained_udlong.
  - apply (contained_map (fun _ => True)), contained_aligned; [by right; right; left|lia|].
    apply (bounded_pair (fun hi lo => Z.lor (Z.shiftl hi 32) lo)).
  - apply (contained_map (fun _ => True)), (contained_map (fun _ => True)), contained_udlong.
  - apply (contained_map (fun _ => True)), (contained_bind (fun _ => True)); [apply contained_align; by right; right; right|].
    intros _ _. apply contained_udlong.
  - apply (contained_map (fun _ => True)), contained_aligned; [by right; right; right|lia|by apply bounded_load].
  - apply (contained_map (fun _ => True)), contained_bytes. lia.
  - apply (contained_bind (fun _ => True)); [by apply contained_align, Hi|]. intros _ _. by apply contained_ret.
Qed.

(** An array of bytes whose size is its alignment, what is left or on the wire. *)
Lemma contained_DATA_BLOB : contained (ndr_pull_DATA_BLOB A).
Proof.
  unfold ndr_pull_DATA_BLOB. apply (contained_bind (fun _ => True)); [by apply contained_get|]. intros f _.
  apply (contained_bind is_u32); [apply contained_get; intros; apply u32_range|]. intros remaining Hrem.
  apply (contained_bind (fun o => 0 <= o)); [apply contained_get; intros s Hs; apply Hs|]. intros o Ho.
  apply (contained_bind (fun n => 0 <= n)).
  - assert (forall n, 0 < n -> is_align n -> 0 <= ndr_align_size o n) as Hal.
    { intros n Hn Ha. unfold ndr_align_size. case_match; [done|]. assert (Z.land o (n - 1) <= n - 1); [|lia].
      assert (exists k, 0 <= k /\ n = 2 ^ k) as (k & Hk & ->)
        by (destruct Ha as [-> | [-> | [-> | ->]]]; [exists 0|exists 1|exists 2|exists 3]; done).
      rewrite land_mask_mod by done. pose proof (Z.mod_pos_bound o (2 ^ k)). lia. }
    unfold is_u in Hrem. destruct (isset f LIBNDR_ALIGN_FLAGS); [|destruct (isset f LIBNDR_FLAG_REMAINING)].
    + apply contained_ret. case_match; [lia|]. unfold is_align in Hal. repeat case_match; try apply Hal; lia.
    + apply contained_ret. lia.
    + apply (contained_weaken is_u32); [apply contained_uint32|]. unfold is_u. lia.
  - intros n Hn. apply contained_checked; [done|]. intros s Hs Hp Hr. pose proof Hs as (Hos & Hd & Hz & Hb).
    unfold bind at 1, get at 1. cbn [obind fst snd]. unfold bind at 1, load. rewrite decide_True by lia. cbn [obind fst snd].
    destruct (contained_alloc_array 1 n s Hs Hp) as (r & s1 & E & (D1 & Z1 & F1) & I1).
    assert (offset s1 = offset s) as O1.
    { revert E. unfold alloc_array. case_match; unfold alloc; intros [= <- <-]; done. }
    unfold bind at 1. rewrite E. cbn [obind fst snd]. destruct r as [p|e]; [|by exists (Bad e), s1].
    unfold advance, bind, modify, ret. cbn [obind fst snd]. eexists (Good _), _. split_and!; [done|done|].
    intros v _. split; [|done]. unfold inside. cbn [set_offset offset data data_size]. rewrite D1, Z1, O1.
    unfold add32. rewrite u32_id by (unfold is_u; lia). split_and!; [lia..|done].
Qed.

Lemma contained_relative_ptr2 p : contained (ndr_pull_relative_ptr2 p).
Proof.
  apply (contained_bind (fun _ => True)); [by apply contained_token_retrieve|]. intros rel _.
  apply (contained_bind inside); [by apply contained_get|]. intros s Hs.
  case_match; [apply contained_error|]. apply contained_set_offset. apply u32_range.
Qed.

Lemma contained_any {B} (Q : B -> Prop) m : contained_in Q m -> contained m.
Proof. intros Hm. by apply (contained_weaken Q). Qed.

Lemma contained_generic_ptr : contained ndr_pull_generic_ptr.
Proof.
  apply (contained_bind is_u32); [apply contained_uint32|]. intros v _. apply (contained_bind (fun _ => True)).
  - case_match; [by apply contained_ret|by apply contained_modify].
  - intros _ _. by apply contained_ret.
Qed.

Lemma contained_call c : call_ok c -> contained (run_call A c).
Proof.
  intros Hc. destruct c; cbn [run_call].
  - apply (contained_map (fun _ => True)), contained_item. intros n ->. done.
  - apply (contained_map (fun _ => True)), contained_generic_ptr.
  - apply (contained_map (fun _ => True)), (contained_bind is_u32); [apply contained_uint32|]. intros v _. by apply contained_ret.
  - apply (contained_map (fun _ => True)), contained_DATA_BLOB.
  - apply contained_advance.
  - apply (contained_bind is_u32); [apply contained_uint32|]. intros v _. by apply contained_token_store.
  - apply (contained_bind (fun _ => True)); [by apply contained_get|]. intros v _.
    case_match; [by apply contained_ret|apply contained_error].
  - apply (contained_bind is_u32); [apply contained_uint32|]. intros v _. case_match; [apply contained_error|].
    apply (contained_bind is_u32); [apply contained_uint32|]. intros w _. by apply contained_token_store.
  - apply (contained_bind (fun _ => True)); [by apply contained_get|]. intros v _.
    case_match; [by apply contained_ret|apply contained_error].
  - by apply contained_token_store.
  - apply (contained_bind (fun _ => True)); [by apply contained_modify|]. intros _ _. by apply contained_token_store.
  - apply (contained_bind (fun _ => True)); [by apply contained_token_retrieve|]. intros v _. by apply contained_modify.
  - by apply contained_token_store.
  - apply contained_relative_ptr2.
Qed.

(** The inner parser is inside its part of the data. *)
Lemma contained_start h z : contained_in (fun sub => inside sub /\ unchecked_padding sub) (ndr_pull_subcontext_start A h z).
Proof.
  apply (contained_bind is_u32).
  - destruct (h =? 0).
    + apply contained_get. intros s _. case_match; apply u32_range.
    + destruct ((h =? 2) || (h =? 4)); [|apply contained_error]. apply (contained_bind is_u32).
      * destruct (h =? 2); [|apply contained_uint32]. apply (contained_weaken is_u16); [apply contained_uint16|].
        intros v Hv. by apply (is_u_mono 16).
      * intros v Hv. case_match; [apply contained_error|by apply contained_ret].
  - intros n Hn. unfold is_u in Hn. apply contained_checked; [lia|]. intros s Hs Hp Hr. unfold bind, alloc, get. cbn [obind fst snd].
    pose proof Hs as (Ho & Hd & Hz & Hb). case_match; cbn [obind fst snd].
    + by eexists (Bad _), _.
    + eexists (Good _), _. split_and!; [done|done|]. intros v [= <-]. split; [done|]. split; [|done].
      unfold inside. cbn [set_allocs offset data data_size flags]. rewrite length_drop. split_and!; [lia..|].
      by apply Forall_drop.
Qed.

Lemma contained_within sub m :
  inside sub -> unchecked_padding sub -> contained m -> contained (within sub m).
Proof.
  intros Hi Hu Hm s Hs Hp. destruct (Hm sub Hi Hu) as (r & sub' & E & _ & _). unfold within. rewrite E. cbn [obind fst snd].
  destruct r; [by eexists (Good _), _|by eexists (Bad _), _].
Qed.

Lemma contained_run l : calls_ok l -> contained (run A l).
Proof.
  induction l as [|c k IH|h z inner IHi k IHk]; cbn [calls_ok run]; intros Hl.
  - by apply contained_ret.
  - destruct Hl as [Hc Hk]. apply (contained_bind (fun _ => True)); [by apply contained_call|]. intros _ _. by apply IH.
  - destruct Hl as [Hi Hk]. apply (contained_bind _ (fun _ => True) _ _ (contained_start h z)). intros sub [Hs Hu].
    apply (contained_bind (fun _ => True)); [apply contained_within; [done..|by apply IHi]|]. intros sub' _.
    apply (contained_bind (fun _ => True)); [|intros _ _; by apply IHk].
    apply (contained_bind (fun _ => True)); [by apply contained_modify|]. intros _ _. apply contained_advance.
Qed.
End inside.

(** ** Properties *)


Definition example_items : list item :=
  [I_uint8 7; I_uint32 0xDEADBEEF; I_int16 (-2); I_bytes [1; 2; 3]; I_hyper 0x0123456789ABCDEF; I_dlong (-1)].

Definition example_push : ndr_push := Push.NdrPush 0 (replicate 1024 0) 1024 0 0 [] [] [] [] [] 0 2.



(** A length, a subcontext of it that holds a relative pointer, and a blob that is cut short. *)
Definition example_calls : calls :=
  Call C_generic_ptr (Sub 4 (-1) (Call (C_relative_ptr1 (At 9 0) 6) (Call (C_relative_ptr2 (At 9 0)) (Call (C_item (I_uint16 0)) Done)))
    (Call C_blob Done)).
Definition example_data : list Z := [1; 0; 0; 0; 8; 0; 0; 0; 1; 2; 3; 4; 5; 6; 7; 8; 3; 0; 0; 0; 65; 66].

