(* ===== verification/NdrString.v ===== *)
(** librpc/ndr/ndr_string.c: strings on the wire, in the forms the flags of the state
    select. *)

From S2P Require Import Prelude Digest Byteorder Ntstatus Iconv Charcnv Ndr NdrPull NdrPush.
Import Byteorder Iconv Charcnv Ndr.

#[local] Open Scope outcome_scope.
#[local] Open Scope ndr_scope.

Module NdrString.

(** A string in memory: its address and its bytes before the terminator. *)
Record cstr := Cstr { at_addr : addr; chars : list Z }.

Section strings.
Context `{Charsets} (A : Allocator).

(** The charset, the bytes per character and the flags left, from the flags of the state. *)
Definition string_charset (flags : Z) : charset_t * Z * Z :=
  let r := ((if big_endian flags then CH_UTF16BE else CH_UTF16), 2, flags) in
  let r := if isset flags LIBNDR_FLAG_STR_ASCII then (CH_DOS, 1, Z.land flags (not32 LIBNDR_FLAG_STR_ASCII)) else r in
  let r := if isset flags LIBNDR_FLAG_STR_UTF8 then (CH_UTF8, 1, Z.land r.2 (not32 LIBNDR_FLAG_STR_UTF8)) else r in
  (r.1, Z.land r.2 (not32 LIBNDR_FLAG_STR_CONFORMANT)).

(** The bytes of a string that was terminated in a buffer of [n] bytes, the terminator
    included (lib/util/util_str.c). *)
Definition ascii_len_n (src : list Z) (n : nat) : nat :=
  let len := strnlen src n in if (len + 1 <=? n)%nat then (len + 1)%nat else len.

(** convert_string_talloc, as a call on a state that counts allocations. *)
Definition convert {S} (count : S -> nat) (from to : charset_t) (src : list Z) : S -> outcome (option (list Z)) :=
  fun s => @convert_string_talloc _ (later (count s) A) from to src.

(** [n] bytes at the offset to the unix charset, as a new string. *)
Definition pull_chars (chset : charset_t) (n : Z) : M ndr_pull cstr :=
  do o <- get Pull.offset;
  do src <- NdrPull.load n (fun d i => slice i (Z.to_nat n) d) o;
  fun s =>
    let* r := convert Pull.allocs chset CH_UNIX src s in
    let s' := Pull.set_allocs (S (Pull.allocs s)) s in
    match r with
    | Some d => Ret (Good (Cstr (At (Pull.allocs s) 0) (until_nul d)), s')
    | None => Ret (Bad (ndr_map_error NDR_ERR_CHARCNV), s')
    end.

(** A string of no characters is a copy of the empty string, which the code then measures:
    a copy that was not made is a null pointer. *)
Definition pull_counted (chset : charset_t) (count n : Z) : M ndr_pull cstr :=
  NdrPull.NDR_PULL_NEED_BYTES n;;
  do s <- (if count =? 0 then do p <- NdrPull.alloc A; if decide (p = NULL) then fault else ret (Cstr p [])
           else pull_chars chset n);
  NdrPull.ndr_pull_advance n;;
  ret s.

Definition ndr_pull_string : M ndr_pull cstr :=
  do f <- get Pull.flags;
  let '(chset, byte_mul, flags) := string_charset f in
  let c_len_term := if isset flags LIBNDR_FLAG_STR_CHARLEN then 1 else 0 in
  let flags := Z.land flags (not32 LIBNDR_FLAG_STR_CHARLEN) in
  let form := Z.land flags LIBNDR_STRING_FLAGS in
  let is_form (m : Z) := (form =? m) || (form =? Z.lor m LIBNDR_FLAG_STR_NOTERM) in
  let bytes_of len := u32 (u32 (len + c_len_term) * byte_mul) in
  if is_form (Z.lor LIBNDR_FLAG_STR_LEN4 LIBNDR_FLAG_STR_SIZE4) then
    do len1 <- NdrPull.ndr_pull_uint32;
    do ofs <- NdrPull.ndr_pull_uint32;
    if negb (ofs =? 0) then ndr_error NDR_ERR_STRING
    else
      do len2 <- NdrPull.ndr_pull_uint32;
      if len1 <? len2 then ndr_error NDR_ERR_STRING else pull_counted chset len2 (bytes_of len2)
  else if is_form LIBNDR_FLAG_STR_SIZE4 then
    do len1 <- NdrPull.ndr_pull_uint32;
    pull_counted chset len1 (bytes_of len1)
  else if is_form LIBNDR_FLAG_STR_LEN4 then
    do ofs <- NdrPull.ndr_pull_uint32;
    if negb (ofs =? 0) then ndr_error NDR_ERR_STRING
    else do len1 <- NdrPull.ndr_pull_uint32; pull_counted chset len1 (bytes_of len1)
  else if is_form LIBNDR_FLAG_STR_SIZE2 then
    do len3 <- NdrPull.ndr_pull_uint16;
    pull_counted chset len3 (bytes_of len3)
  else if form =? Z.lor (Z.lor LIBNDR_FLAG_STR_SIZE2 LIBNDR_FLAG_STR_NOTERM) LIBNDR_FLAG_STR_BYTESIZE then
    do len3 <- NdrPull.ndr_pull_uint16;
    NdrPull.NDR_PULL_NEED_BYTES len3;;
    do s <- (if len3 =? 0 then do p <- NdrPull.alloc A; ret (Cstr p []) else pull_chars chset len3);
    NdrPull.ndr_pull_advance len3;;
    ret s
  else if form =? LIBNDR_FLAG_STR_NULLTERM then
    do s <- get id;
    let src := drop (Z.to_nat (Pull.offset s)) (Pull.data s) in
    let n := Z.to_nat (u32 (Pull.data_size s - Pull.offset s)) in
    let len1 := Z.of_nat (if byte_mul =? 1 then ascii_len_n src n else utf16_len_n src n) in
    do s <- pull_chars chset len1;
    NdrPull.ndr_pull_advance len1;;
    ret s
  else if (form =? LIBNDR_FLAG_STR_FIXLEN15) || (form =? LIBNDR_FLAG_STR_FIXLEN32) then
    let len1 := if isset flags LIBNDR_FLAG_STR_FIXLEN32 then 32 else 15 in
    NdrPull.NDR_PULL_NEED_BYTES (len1 * byte_mul);;
    do s <- pull_chars chset (len1 * byte_mul);
    NdrPull.ndr_pull_advance (len1 * byte_mul);;
    ret s
  else ndr_error NDR_ERR_STRING.

(** The null pointer is pushed as an empty string would be, but cannot be converted. *)
Definition ndr_push_string (s : option (list Z)) : M ndr_push unit :=
  do f <- get Push.flags;
  let '(chset, byte_mul, flags) := string_charset f in
  let terminated :=
    negb (isset flags (Z.lor (Z.lor LIBNDR_FLAG_STR_NOTERM LIBNDR_FLAG_STR_FIXLEN15) LIBNDR_FLAG_STR_FIXLEN32)) in
  do r <- (fun st =>
    let* r := match s with
              | Some s => convert Push.allocs CH_UNIX chset (if terminated then s ++ [0] else s) st
              | None => Ret None
              end in Ret (Good r, Push.set_allocs (S (Push.allocs st)) st));
  match r with
  | None => ndr_error NDR_ERR_CHARCNV
  | Some dest =>
      let d_len := Z.of_nat (length dest) in
      let '(c_len, flags) :=
        if isset flags LIBNDR_FLAG_STR_BYTESIZE then (d_len, Z.land flags (not32 LIBNDR_FLAG_STR_BYTESIZE))
        else if isset flags LIBNDR_FLAG_STR_CHARLEN then (d_len / byte_mul - 1, Z.land flags (not32 LIBNDR_FLAG_STR_CHARLEN))
        else (d_len / byte_mul, flags) in
      let form := Z.land (Z.land flags LIBNDR_STRING_FLAGS) (not32 LIBNDR_FLAG_STR_NOTERM) in
      if form =? Z.lor LIBNDR_FLAG_STR_LEN4 LIBNDR_FLAG_STR_SIZE4 then
        NdrPush.ndr_push_uint32 A (u32 c_len);; NdrPush.ndr_push_uint32 A 0;; NdrPush.ndr_push_uint32 A (u32 c_len);;
        NdrPush.ndr_push_bytes A dest
      else if form =? LIBNDR_FLAG_STR_LEN4 then
        NdrPush.ndr_push_uint32 A 0;; NdrPush.ndr_push_uint32 A (u32 c_len);; NdrPush.ndr_push_bytes A dest
      else if form =? LIBNDR_FLAG_STR_SIZE4 then
        NdrPush.ndr_push_uint32 A (u32 c_len);; NdrPush.ndr_push_bytes A dest
      else if form =? LIBNDR_FLAG_STR_SIZE2 then
        NdrPush.ndr_push_uint16 A (u16 c_len);; NdrPush.ndr_push_bytes A dest
      else if form =? LIBNDR_FLAG_STR_NULLTERM then NdrPush.ndr_push_bytes A dest
      else if (form =? LIBNDR_FLAG_STR_FIXLEN15) || (form =? LIBNDR_FLAG_STR_FIXLEN32) then
        let fix_len := if isset flags LIBNDR_FLAG_STR_FIXLEN32 then 32 else 15 in
        if fix_len <? d_len then ndr_error NDR_ERR_CHARCNV
        else
          NdrPush.ndr_push_bytes A dest;;
          if u32 (fix_len - d_len) =? 0 then ret tt else NdrPush.ndr_push_zero A (u32 (fix_len - d_len))
      else ndr_error NDR_ERR_STRING
  end.

(** Up to an empty string, which is not part of the array; fuel for the bytes there are. *)
Fixpoint pull_strings (fuel : nat) : M ndr_pull (list cstr) :=
  match fuel with
  | O => fault
  | S fuel =>
      do p <- NdrPull.alloc A;
      if decide (p = NULL) then bad NT_STATUS_NO_MEMORY
      else
        do s <- ndr_pull_string;
        match chars s with
        | [] => ret []
        | _ => do l <- pull_strings fuel; ret (s :: l)
        end
  end.
Definition ndr_pull_string_array : M ndr_pull (list cstr) :=
  do n <- get (fun s => length (Pull.data s)); pull_strings (S n).
Fixpoint ndr_push_string_array (a : list (list Z)) : M ndr_push unit :=
  match a with
  | [] => ndr_push_string (Some [])
  | s :: a => ndr_push_string (Some s);; ndr_push_string_array a
  end.

(** The elements of [element_size] bytes up to a zero one, itself included; the code looks
    for it without a bound. *)
Fixpoint elements (fuel : nat) (var : list Z) (element_size : nat) : outcome Z :=
  match fuel with
  | O => Fault
  | S fuel =>
      if decide (length var < element_size)%nat then Fault
      else if forallb (Z.eqb 0) (take element_size var) then Ret 1
      else let* n := elements fuel (drop element_size var) element_size in Ret (n + 1)
  end.
Definition ndr_string_length (var : list Z) (element_size : nat) : outcome Z := elements (S (length var)) var element_size.

(** The status of the advance is dropped.  A terminator that is not zero restores the
    position; a terminator that is not there leaves it moved. *)
Definition ndr_check_string_terminator (count element_size : Z) : M ndr_pull unit :=
  do save_offset <- NdrPull.ndr_pull_save;
  attempt (NdrPull.ndr_pull_advance (u32 ((count - 1) * element_size)));;
  NdrPull.NDR_PULL_NEED_BYTES element_size;;
  do o <- get Pull.offset;
  do zero <- NdrPull.load element_size (fun d i => forallb (Z.eqb 0) (slice i (Z.to_nat element_size) d)) o;
  NdrPull.ndr_pull_restore save_offset;;
  if (zero : bool) then ret tt else ndr_error NDR_ERR_ARRAY_SIZE.

Definition wide_charset (flags : Z) (chset : charset_t) : charset_t :=
  match chset with
  | CH_UTF16 => if big_endian flags then CH_UTF16BE else CH_UTF16
  | c => c
  end.
Definition ndr_pull_charset (length byte_mul : Z) (chset : charset_t) : M ndr_pull cstr :=
  if length =? 0 then do p <- NdrPull.alloc A; ret (Cstr p [])
  else
    do f <- get Pull.flags;
    let n := u32 (length * byte_mul) in
    NdrPull.NDR_PULL_NEED_BYTES n;;
    do s <- pull_chars (wide_charset f chset) n;
    NdrPull.ndr_pull_advance n;;
    ret s.

(** What is converted in place, then zeros up to the length. *)
Definition ndr_push_charset (var : list Z) (len byte_mul : Z) (chset : charset_t) : M ndr_push unit :=
  do f <- get Push.flags;
  let required := u32 (byte_mul * len) in
  NdrPush.NDR_PUSH_NEED_BYTES A required;;
  do o <- get Push.offset;
  let r := @convert_string _ CH_UNIX (wide_charset f chset) var (Z.to_nat required) in
  NdrPush.store required (fun d i => splice i r.2 d) o;;
  if r.1 <? 0 then ndr_error NDR_ERR_CHARCNV
  else
    NdrPush.store required
      (fun d i => splice (i + Z.to_nat r.1) (replicate (Z.to_nat (required - r.1)) 0) d) o;;
    modify (fun s => Push.set_offset (add32 (Push.offset s) required) s).

(** strlen + 1, whatever the charset. *)
Definition ndr_charset_length (var : list Z) : Z := u32 (Z.of_nat (length var) + 1).
Definition ndr_size_string (ret : Z) (string : option (list Z)) : Z :=
  match string with
  | None => u32 ret
  | Some s => u32 (ret + Z.of_nat (length s) + 1)
  end.
End strings.
End NdrString.
