(* ===== verification/NdrText.v ===== *)
(** Strings on the wire: what ndr_push_string writes is the string in the form of the flags,
    and ndr_pull_string reads it back. *)

From stdpp Require Import strings.
From S2P Require Import Prelude Digest Byteorder Ntstatus Iconv Charcnv Msrpc Ndr NdrPull NdrPush NdrWire NdrSafe NdrString.
Import Byteorder Iconv Charcnv Ndr NdrString.

#[local] Open Scope outcome_scope.
#[local] Open Scope ndr_scope.

(** ** Charsets *)

Section charsets.
Context `{Charsets}.

(** [w] is [u] in charset [ch], whatever the allocations. *)
Definition transcodes (ch : charset_t) (u w : list Z) : Prop :=
  forall A : Allocator, @malloc_ok A 0 = true ->
    convert_string_talloc CH_UNIX ch u = Ret (Some w) /\ convert_string_talloc ch CH_UNIX w = Ret (Some u).

Lemma transcodes_utf16 cps :
  unix_is_utf8 -> Forall scalar cps -> cps <> [] -> transcodes CH_UTF16 (utf8s cps) (utf16s cps).
Proof.
  intros Hu Hs Hne A mem. pose proof (utf16s_room cps). pose proof (utf8s_room cps).
  assert (0 < length (utf8s cps))%nat as Hl.
  { destruct cps as [|cp cps]; [done|]. change (utf8s (cp :: cps)) with (utf8 cp ++ utf8s cps).
    rewrite length_app. pose proof (length_utf8 cp). lia. }
  unfold convert_string_talloc. rewrite !decide_False by lia.
  rewrite handle_to_utf16, handle_from_utf16 by done.
  assert (utf8_pull (utf8s cps) (3 * length (utf8s cps))%nat = ConvResult (inl 0) [] (utf16s cps)) as E1
    by (apply utf8_pull_string; [done|lia]).
  assert (utf8_push (utf16s cps) (3 * length (utf16s cps))%nat = ConvResult (inl 0) [] (utf8s cps)) as E2
    by (apply utf8_push_string; [done|lia]).
  split; (rewrite convert_once; cbn [smb_iconv]; [|done|]).
  - by rewrite E1.
  - by rewrite E1.
  - by rewrite E2.
  - by rewrite E2.
Qed.

(** Text of the ASCII range keeps its bytes in the dos charset. *)
Lemma transcodes_ascii l :
  unix_is_utf8 -> dos_is_ascii -> Forall ascii_char l -> (0 < length l <= 1024)%nat -> transcodes CH_DOS l l.
Proof.
  intros Hu Hd Hl Hn A mem. unfold convert_string_talloc. rewrite !decide_False by lia.
  rewrite handle_dos_unix, handle_unix_dos by done.
  split; (rewrite convert_once; [|done|]); by rewrite ?ascii_to_dos, ?ascii_from_dos by (done || lia).
Qed.
End charsets.

(** ** Forms *)

(** The string flags that the code gives a meaning in both directions: the length and size
    words, whether the terminator is sent, and whether it is counted. *)
Inductive size_words := W_len4_size4 | W_size4 | W_len4 | W_size2.
Inductive string_form :=
| F_counted (w : size_words) (noterm : bool)
| F_charlen (w : size_words)
| F_nullterm.

Definition words_flags (w : size_words) : Z :=
  match w with
  | W_len4_size4 => Z.lor LIBNDR_FLAG_STR_LEN4 LIBNDR_FLAG_STR_SIZE4
  | W_size4 => LIBNDR_FLAG_STR_SIZE4
  | W_len4 => LIBNDR_FLAG_STR_LEN4
  | W_size2 => LIBNDR_FLAG_STR_SIZE2
  end.
Definition form_flags (f : string_form) : Z :=
  match f with
  | F_counted w noterm => Z.lor (words_flags w) (if noterm then LIBNDR_FLAG_STR_NOTERM else 0)
  | F_charlen w => Z.lor (words_flags w) LIBNDR_FLAG_STR_CHARLEN
  | F_nullterm => LIBNDR_FLAG_STR_NULLTERM
  end.

(** The charset of the flags and the bytes per character. *)
Definition wire_charset (ascii : bool) (fl : Z) : charset_t :=
  if ascii then CH_DOS else if big_endian fl then CH_UTF16BE else CH_UTF16.
Definition char_size (ascii : bool) : Z := if ascii then 1 else 2.

(** The flags of the state select form [f]. *)
Definition selects (fl : Z) (ascii : bool) (f : string_form) : Prop :=
  Z.land fl LIBNDR_STRING_FLAGS = Z.lor (if ascii then LIBNDR_FLAG_STR_ASCII else 0) (form_flags f).

(** The words before the characters: [n] is the number of them. *)
Definition size_items (w : size_words) (n : Z) : list item :=
  match w with
  | W_len4_size4 => [I_uint32 n; I_uint32 0; I_uint32 n]
  | W_size4 => [I_uint32 n]
  | W_len4 => [I_uint32 0; I_uint32 n]
  | W_size2 => [I_uint16 n]
  end.
Definition string_items (ascii : bool) (f : string_form) (w : list Z) : list item :=
  let n := Z.of_nat (length w) / char_size ascii in
  match f with
  | F_counted s _ => size_items s n ++ [I_bytes w]
  | F_charlen s => size_items s (n - 1) ++ [I_bytes w]
  | F_nullterm => [I_bytes w]
  end.

(** Whether the terminator is converted with the string. *)
Definition terminated (f : string_form) : bool := match f with F_counted _ noterm => negb noterm | _ => true end.
Definition sent (f : string_form) (u : list Z) : list Z := if terminated f then u ++ [0] else u.

(** *** The code's reading of the flags *)

Lemma land_string_flags fl m :
  Z.land m LIBNDR_STRING_FLAGS = m -> Z.land fl m = Z.land (Z.land fl LIBNDR_STRING_FLAGS) m.
Proof. intros Hm. by rewrite <- Z.land_assoc, (Z.land_comm LIBNDR_STRING_FLAGS), Hm. Qed.

Lemma isset_string_flags fl m : Z.land m LIBNDR_STRING_FLAGS = m -> isset fl m = isset (Z.land fl LIBNDR_STRING_FLAGS) m.
Proof. intros Hm. unfold isset. by rewrite (land_string_flags fl m Hm). Qed.

(** What is left of the flags: those of the form. *)
Lemma string_charset_spec fl ascii f :
  selects fl ascii f ->
  exists fl', string_charset fl = (wire_charset ascii fl, char_size ascii, fl') /\
    Z.land fl' LIBNDR_STRING_FLAGS = form_flags f.
Proof.
  unfold selects, string_charset, wire_charset, char_size. intros Hs.
  rewrite (isset_string_flags fl LIBNDR_FLAG_STR_ASCII), (isset_string_flags fl LIBNDR_FLAG_STR_UTF8), Hs by done.
  assert (forall m, Z.land (Z.land fl m) LIBNDR_STRING_FLAGS = Z.land (Z.land fl LIBNDR_STRING_FLAGS) m) as Hm
    by (intros m; bitwise).
  assert (forall m k, Z.land (Z.land (Z.land fl m) k) LIBNDR_STRING_FLAGS = Z.land (Z.land (Z.land fl LIBNDR_STRING_FLAGS) m) k) as Hmk
    by (intros m k; bitwise).
  destruct ascii.
  - assert (isset (Z.lor LIBNDR_FLAG_STR_ASCII (form_flags f)) LIBNDR_FLAG_STR_ASCII = true /\
            isset (Z.lor LIBNDR_FLAG_STR_ASCII (form_flags f)) LIBNDR_FLAG_STR_UTF8 = false /\
            Z.land (Z.land (Z.lor LIBNDR_FLAG_STR_ASCII (form_flags f)) (not32 LIBNDR_FLAG_STR_ASCII)) (not32 LIBNDR_FLAG_STR_CONFORMANT) = form_flags f)
      as (-> & -> & E) by (destruct f as [[] []|[]|]; done).
    eexists. split; [done|]. cbn [fst snd]. by rewrite Hmk, Hs.
  - assert (isset (Z.lor 0 (form_flags f)) LIBNDR_FLAG_STR_ASCII = false /\
            isset (Z.lor 0 (form_flags f)) LIBNDR_FLAG_STR_UTF8 = false /\
            Z.land (Z.lor 0 (form_flags f)) (not32 LIBNDR_FLAG_STR_CONFORMANT) = form_flags f)
      as (-> & -> & E) by (destruct f as [[] []|[]|]; done).
    eexists. split; [done|]. cbn [fst snd]. by rewrite Hm, Hs.
Qed.

(** ** Marshalling *)

Lemma ndr_bind_ret {S} (m : M S unit) s : bind m (fun _ => ret tt) s = m s.
Proof. unfold bind, ret. destruct (m s) as [[[[]|e] s']|]; done. Qed.

Lemma bind_ext {S B C} (m : M S B) (k1 k2 : B -> M S C) s :
  (forall v s', k1 v s' = k2 v s') -> bind m k1 s = bind m k2 s.
Proof. intros E. unfold bind. destruct (m s) as [[[v|e] s']|]; cbn [obind fst snd]; [apply E|done|done]. Qed.

(** The counts that the size words hold. *)
Definition countable (ascii : bool) (f : string_form) (w : list Z) : Prop :=
  Z.of_nat (length w) = Z.of_nat (length w) / char_size ascii * char_size ascii /\
  match f with
  | F_counted W_size2 _ | F_charlen W_size2 => Z.of_nat (length w) < 2 ^ 16
  | F_counted _ _ | F_charlen _ => Z.of_nat (length w) < 2 ^ 31
  | F_nullterm => True
  end.

Section push_string.
Context `{Charsets} (A : Allocator) (mem : malloc_always A).

Lemma push_string_items ascii f u w s :
  selects (Push.flags s) ascii f -> transcodes (wire_charset ascii (Push.flags s)) (sent f u) w -> countable ascii f w ->
  (0 < length w)%nat ->
  ndr_push_string A (Some u) s = push_items A (string_items ascii f w) (Push.set_allocs (S (Push.allocs s)) s).
Proof.
  intros Hs Ht [Hc Hcount] Hlen. destruct (string_charset_spec _ _ _ Hs) as (fl' & E & Hfl).
  unfold ndr_push_string. unfold bind at 1, get at 1. cbn [obind fst snd]. rewrite E.
  rewrite (isset_string_flags fl' (Z.lor (Z.lor _ _) _)), Hfl by done.
  assert (negb (isset (form_flags f) (Z.lor (Z.lor LIBNDR_FLAG_STR_NOTERM LIBNDR_FLAG_STR_FIXLEN15) LIBNDR_FLAG_STR_FIXLEN32)) = terminated f) as ->
    by (by destruct f as [[] []|[]|]).
  unfold bind at 1. unfold convert. change (if terminated f then u ++ [0] else u) with (sent f u).
  destruct (Ht (later (Push.allocs s) A)) as [-> _]; [by apply later_always|]. cbn [obind fst snd].
  rewrite (isset_string_flags fl' LIBNDR_FLAG_STR_BYTESIZE), (isset_string_flags fl' LIBNDR_FLAG_STR_CHARLEN), Hfl by done.
  assert (Z.land (Z.land fl' (not32 LIBNDR_FLAG_STR_CHARLEN)) LIBNDR_STRING_FLAGS = Z.land (form_flags f) (not32 LIBNDR_FLAG_STR_CHARLEN)) as Hch
    by (rewrite <- Hfl; bitwise).
  assert (0 < char_size ascii) as Hcs by (by destruct ascii).
  assert (0 < Z.of_nat (length w) / char_size ascii <= Z.of_nat (length w)) as Hn by nia.
  assert (0 <= Z.of_nat (length w) / char_size ascii - 1) as Hn1 by lia.
  set (n := Z.of_nat (length w) / char_size ascii) in *. unfold countable in Hcount.
  destruct f as [[] []|[]|]; cbn [form_flags words_flags] in *;
    match goal with |- context [isset ?k LIBNDR_FLAG_STR_BYTESIZE] => change (isset k LIBNDR_FLAG_STR_BYTESIZE) with false end;
    match goal with |- context [isset ?k LIBNDR_FLAG_STR_CHARLEN] =>
      let b := eval vm_compute in (isset k LIBNDR_FLAG_STR_CHARLEN) in change (isset k LIBNDR_FLAG_STR_CHARLEN) with b end;
    cbv iota zeta; rewrite ?Hch, ?Hfl;
    cbn [string_items size_items push_items push_item app];
    repeat match goal with |- context [if Z.land ?a ?b =? ?c then _ else _] =>
      let x := eval vm_compute in (Z.land a b =? c) in change (Z.land a b =? c) with x; cbv iota end;
    rewrite ?u32_id, ?u16_id by (unfold is_u; lia);
    repeat (apply bind_ext; intros [] ?); by rewrite ?ndr_bind_ret.
Qed.
End push_string.

(** ** Unmarshalling *)

(** The end of the string is where the code looks for it, whatever follows. *)
Definition delimited (ascii : bool) (w : list Z) : Prop :=
  forall post n, (length w <= n)%nat ->
    (if ascii then ascii_len_n (w ++ post) n else utf16_len_n (w ++ post) n) = length w.

Lemma delimited_ascii l : Forall (fun b => b <> 0) l -> delimited true (l ++ [0]).
Proof.
  intros Hl post n Hn. rewrite length_app in *. cbn [length] in *. unfold ascii_len_n, strnlen.
  rewrite <- app_assoc. cbn [app]. assert (list_find (fun b => b = 0) (take n (l ++ 0 :: post)) = Some (length l, 0)) as ->.
  { apply list_find_Some. split_and!.
    - rewrite lookup_take_lt by lia. by rewrite lookup_app_r, Nat.sub_diag by lia.
    - done.
    - intros j y Hj Hlt. rewrite lookup_take_lt, lookup_app_l in Hj by lia. by apply (Forall_lookup_1 _ _ _ _ Hl Hj). }
  cbn. assert ((length l + 1 <=? n)%nat = true) as -> by (apply Nat.leb_le; lia). done.
Qed.

Lemma utf16_len_n_units us rest n : forall pre fuel,
  Forall (fun u => 0 < u < 65536) us -> (length us < fuel)%nat ->
  (length (pre ++ mjoin (unit16 <$> us)) + 2 <= n)%nat ->
  utf16_len_n_from fuel (pre ++ mjoin (unit16 <$> us) ++ [0; 0] ++ rest) n (length pre) = (length pre + length (mjoin (unit16 <$> us)))%nat.
Proof.
  induction us as [|u us IH]; intros pre fuel Hu Hf Hn.
  - destruct fuel as [|fuel]; [simpl in Hf; lia|]. cbn [utf16_len_n_from fmap list_fmap mjoin list_join app length] in *.
    destruct (Nat.ltb_spec (length pre + 2) n); [|simpl; lia]. pose proof (SVAL_unit pre 0 rest) as E. cbn [unit16 app] in E. unfold unit16 in E.
    change (0 mod 256) with 0 in E. change (0 / 256) with 0 in E. cbn [app] in E. rewrite E by lia. simpl. lia.
  - apply Forall_cons_iff in Hu as [Hu0 Hu]. destruct fuel as [|fuel]; [simpl in Hf; lia|].
    change (mjoin (unit16 <$> u :: us)) with (unit16 u ++ mjoin (unit16 <$> us)) in *. cbn [utf16_len_n_from].
    rewrite !length_app in *. change (length (unit16 u)) with 2%nat in *.
    assert ((length pre + 2 <? n)%nat = true) as -> by (apply Nat.ltb_lt; lia).
    rewrite <- (app_assoc (unit16 u)), SVAL_unit by lia. assert ((u =? 0) = false) as -> by lia. cbn [negb andb].
    replace (length pre + 2)%nat with (length (pre ++ unit16 u)) by (rewrite length_app; done).
    rewrite app_assoc. rewrite (IH (pre ++ unit16 u) fuel); [rewrite length_app; change (length (unit16 u)) with 2%nat; lia|done|simpl in Hf; lia|].
    rewrite !length_app. change (length (unit16 u)) with 2%nat. lia.
Qed.

Lemma delimited_utf16 cps :
  Forall scalar cps -> Forall (fun cp => cp <> 0) cps -> delimited false (utf16s cps ++ [0; 0]).
Proof.
  intros Hs Hz post n Hn. destruct (utf16_units cps Hs Hz) as (us & E & Hu). rewrite E in *.
  rewrite length_app in Hn. cbn [length] in Hn. unfold utf16_len_n.
  rewrite <- app_assoc. pose proof (utf16_len_n_units us post n [] n Hu) as L. cbn [app length Nat.add] in L.
  cbn [app]. rewrite L; [|rewrite length_units in Hn; lia|lia].
  assert ((length (mjoin (unit16 <$> us)) + 2 <=? n)%nat = true) as -> by (apply Nat.leb_le; lia). by rewrite length_app.
Qed.

Section pull_string.
Context `{Charsets} (A : Allocator) (mem : malloc_always A).
Import Pull.
Implicit Types s : ndr_pull.

(** The state after one more allocation. *)
Definition counted s : ndr_pull := set_allocs (S (allocs s)) s.

Lemma advance_spec s n :
  0 <= offset s -> offset s + Z.of_nat n <= data_size s < 2 ^ 31 ->
  NdrPull.ndr_pull_advance (Z.of_nat n) s = Ret (Good tt, past s n).
Proof.
  intros Ho Hz. unfold NdrPull.ndr_pull_advance, NdrPull.advance, bind, modify, get, id. cbn [obind fst snd set_offset offset data_size].
  unfold add32. rewrite u32_id by (unfold is_u; lia).
  assert ((data_size s <? offset s + Z.of_nat n) = false) as -> by (apply Z.ltb_ge; lia). done.
Qed.

Lemma pull_chars_spec ch u v w s :
  transcodes ch v w -> until_nul v = u -> ahead s w ->
  pull_chars A ch (Z.of_nat (length w)) s = Ret (Good (Cstr (At (allocs s) 0) u), counted s).
Proof.
  intros Ht Hv Ha. unfold pull_chars. unfold bind at 1, get at 1. cbn [obind fst snd].
  unfold bind. rewrite Nat2Z.id. rewrite (loads_bytes w s Ha). cbn [obind fst snd]. unfold convert.
  destruct (Ht (later (allocs s) A)) as [_ E]; [by apply later_always|]. rewrite E. cbn [obind].
  by rewrite Hv.
Qed.

(** A counted string of the bytes [w]. *)
Lemma pull_counted_spec ch count u v w s :
  (if count =? 0 then u = [] else transcodes ch v w /\ until_nul v = u) -> ahead s w ->
  pull_counted A ch count (Z.of_nat (length w)) s = Ret (Good (Cstr (At (allocs s) 0) u), counted (past s (length w))).
Proof.
  intros Hc Ha. unfold pull_counted. unfold bind at 1. rewrite (need_bytes s (length w) w) by done. cbn [obind fst snd].
  pose proof (ahead_offset _ _ Ha) as Ho.
  assert ((if count =? 0 then do p <- NdrPull.alloc A; if decide (p = NULL) then fault else ret (Cstr p [])
           else pull_chars A ch (Z.of_nat (length w))) s = Ret (Good (Cstr (At (allocs s) 0) u), counted s)) as E.
  { destruct (count =? 0).
    - subst u. unfold NdrPull.alloc, bind, ret. rewrite mem. cbn [obind fst snd]. done.
    - destruct Hc. by apply (pull_chars_spec ch u v w). }
  unfold bind at 1. rewrite E. cbn [obind fst snd]. unfold bind.
  rewrite (advance_spec (counted s) (length w)) by (cbn [counted set_allocs offset data_size]; lia). cbn [obind fst snd]. done.
Qed.

(** The count that is read back and the bytes of it. *)
Definition is_string (ascii : bool) (f : string_form) (fl : Z) (u w : list Z) : Prop :=
  transcodes (wire_charset ascii fl) (sent f u) w /\ countable ascii f w /\ (0 < length w)%nat /\
  Forall (fun b => b <> 0) u /\
  match f with
  | F_nullterm => delimited ascii w
  | F_charlen _ => Z.of_nat (length w) / char_size ascii = 1 -> u = []
  | _ => True
  end.

Lemma until_nul_sent f u : Forall (fun b => b <> 0) u -> until_nul (sent f u) = u.
Proof.
  intros Hu. unfold sent. destruct (terminated f); [by apply until_nul_stop|].
  unfold until_nul. assert (list_find (fun b => b = 0) u = None) as ->.
  { apply list_find_None. exact Hu. }
  cbn. by rewrite firstn_all.
Qed.

(** Reading the words of a counted string, then the string. *)
Definition pull_words (w : size_words) (k : Z -> M ndr_pull cstr) : M ndr_pull cstr :=
  match w with
  | W_len4_size4 =>
      do len1 <- NdrPull.ndr_pull_uint32; do ofs <- NdrPull.ndr_pull_uint32;
      if negb (ofs =? 0) then ndr_error NDR_ERR_STRING
      else do len2 <- NdrPull.ndr_pull_uint32; if len1 <? len2 then ndr_error NDR_ERR_STRING else k len2
  | W_size4 => do len1 <- NdrPull.ndr_pull_uint32; k len1
  | W_len4 =>
      do ofs <- NdrPull.ndr_pull_uint32;
      if negb (ofs =? 0) then ndr_error NDR_ERR_STRING else do len1 <- NdrPull.ndr_pull_uint32; k len1
  | W_size2 => do len3 <- NdrPull.ndr_pull_uint16; k len3
  end.

(** The state from which the items are still to be read, on the way to [s0] past them. *)
Definition reading s (l : list item) (s0 : ndr_pull) : Prop :=
  ahead s (wires (flags s) (offset s) l) /\ past s (length (wires (flags s) (offset s) l)) = s0.

Lemma read_item {B C} (m : M ndr_pull B) (k : B -> M ndr_pull C) i v s l s0 :
  reads m (fun fl o => wire fl o i) v -> reading s (i :: l) s0 ->
  exists s', bind m k s = k v s' /\ reading s' l s0.
Proof.
  intros Hm [Ha He]. cbn [wires] in *. destruct (reads_then m k _ v s _ Hm Ha) as [E A1].
  eexists. split; [exact E|]. split; [exact A1|]. rewrite <- He, past_past, length_app. done.
Qed.

Lemma reading_bytes s w s0 : reading s [I_bytes w] s0 -> ahead s w /\ past s (length w) = s0.
Proof.
  unfold reading. cbn [wires]. unfold wire. cbn [encode item_align].
  assert (padding (flags s) 1 (offset s) = 0%nat) as -> by (unfold padding; rewrite Z.mod_1_r; by destruct (isset _ _)).
  cbn [replicate app]. by rewrite app_nil_r.
Qed.

(** One more item, read by the lemma [L]; [H] says what is still to be read. *)
Ltac read_next L H :=
  match goal with |- context [bind ?m ?k ?s] =>
    let s' := fresh "s" in let R := fresh "R" in let E := fresh "E" in
    destruct (read_item m k _ _ s _ _ L H) as (s' & E & R); rewrite E; clear E H; rename R into H
  end.

(** Before the bytes of a string. *)
Lemma pull_words_spec w n k s l s0 :
  is_u32 n -> (w = W_size2 -> is_u16 n) -> reading s (size_items w n ++ [I_bytes l]) s0 ->
  exists s', pull_words w k s = k n s' /\ ahead s' l /\ past s' (length l) = s0.
Proof.
  intros Hn H2 Hr. assert (is_u32 0) as H0 by done.
  destruct w; cbn [size_items app pull_words] in *.
  - read_next (reads_uint32 n Hn) Hr. read_next (reads_uint32 0 H0) Hr. cbn [Z.eqb negb].
    read_next (reads_uint32 n Hn) Hr. rewrite Z.ltb_irrefl. eexists. split; [done|by apply reading_bytes].
  - read_next (reads_uint32 n Hn) Hr. eexists. split; [done|by apply reading_bytes].
  - read_next (reads_uint32 0 H0) Hr. cbn [Z.eqb negb]. read_next (reads_uint32 n Hn) Hr.
    eexists. split; [done|by apply reading_bytes].
  - read_next (reads_uint16 n (H2 eq_refl)) Hr. eexists. split; [done|by apply reading_bytes].
Qed.

(** The count that is sent is that of the bytes. *)
Lemma counted_bytes ascii (w : list Z) n t :
  Z.of_nat (length w) = Z.of_nat (length w) / char_size ascii * char_size ascii -> Z.of_nat (length w) < 2 ^ 31 ->
  n + t = Z.of_nat (length w) / char_size ascii -> 0 <= n -> 0 <= t <= 1 ->
  u32 (u32 (n + t) * char_size ascii) = Z.of_nat (length w).
Proof.
  intros Hc Hl Hn H0 Ht. rewrite Hn. assert (1 <= char_size ascii <= 2) as Hs by (by destruct ascii).
  rewrite !u32_id; [done|unfold is_u; nia|]. rewrite u32_id by (unfold is_u; nia). unfold is_u. lia.
Qed.

Ltac decide_form :=
  repeat match goal with |- context [Z.land ?a ?b =? ?c] =>
    let x := eval vm_compute in (Z.land a b =? c) in
    match x with true => idtac | false => idtac end; change (Z.land a b =? c) with x end;
  cbn [orb]; cbv iota.

Lemma pull_string_items ascii f u w s s0 :
  selects (flags s) ascii f -> is_string ascii f (flags s) u w -> reading s (string_items ascii f w) s0 ->
  exists a, ndr_pull_string A s = Ret (Good (Cstr (At a 0) u), counted s0) /\ a = allocs s0.
Proof.
  intros Hs (Ht & [Hc Hcount] & Hlen & Hz & Hf) Hr. destruct (string_charset_spec _ _ _ Hs) as (fl' & E & Hfl).
  unfold ndr_pull_string. unfold bind at 1, get at 1. cbn [obind fst snd]. rewrite E.
  rewrite (isset_string_flags fl' LIBNDR_FLAG_STR_CHARLEN), Hfl by done.
  assert (Z.land (Z.land fl' (not32 LIBNDR_FLAG_STR_CHARLEN)) LIBNDR_STRING_FLAGS = Z.land (form_flags f) (not32 LIBNDR_FLAG_STR_CHARLEN)) as Hch
    by (rewrite <- Hfl; bitwise).
  rewrite !Hch. pose proof (until_nul_sent f u Hz) as Hu.
  assert (1 <= char_size ascii <= 2) as Hcs by (by destruct ascii).
  assert (0 < Z.of_nat (length w) / char_size ascii <= Z.of_nat (length w)) as Hn by nia.
  set (n := Z.of_nat (length w) / char_size ascii) in *.
  destruct f as [sw noterm|sw|]; cbn [string_items] in Hr.
  - destruct (pull_words_spec sw n (fun len => pull_counted A (wire_charset ascii (flags s)) len (u32 (u32 (len + 0) * char_size ascii))) s w s0)
      as (s1 & E1 & A1 & P1); [unfold is_u; destruct sw; lia|intros ->; unfold is_u; lia|done|].
    exists (allocs s1). rewrite <- P1. split; [|done].
    transitivity (pull_words sw (fun len => pull_counted A (wire_charset ascii (flags s)) len (u32 (u32 (len + 0) * char_size ascii))) s).
    + destruct sw, noterm; cbn [form_flags words_flags pull_words]; decide_form; done.
    + rewrite E1. rewrite (counted_bytes ascii w n 0); [|done|destruct sw; lia|lia|lia|lia].
      apply (pull_counted_spec _ n u (sent (F_counted sw noterm) u)); [|done].
      assert ((n =? 0) = false) as -> by lia. done.
  - destruct (pull_words_spec sw (n - 1) (fun len => pull_counted A (wire_charset ascii (flags s)) len (u32 (u32 (len + 1) * char_size ascii))) s w s0)
      as (s1 & E1 & A1 & P1); [unfold is_u; destruct sw; lia|intros ->; unfold is_u; lia|done|].
    exists (allocs s1). rewrite <- P1. split; [|done].
    transitivity (pull_words sw (fun len => pull_counted A (wire_charset ascii (flags s)) len (u32 (u32 (len + 1) * char_size ascii))) s).
    + destruct sw; cbn [form_flags words_flags pull_words]; decide_form; done.
    + rewrite E1. rewrite (counted_bytes ascii w (n - 1) 1); [|done|destruct sw; lia|lia|lia|lia].
      apply (pull_counted_spec _ (n - 1) u (sent (F_charlen sw) u)); [|done].
      destruct (Z.eqb_spec (n - 1) 0); [apply Hf; lia|done].
  - apply reading_bytes in Hr as [Ha He]. exists (allocs s). rewrite <- He. split; [|done].
    cbn [form_flags]. decide_form. unfold bind at 1, get at 1. cbn [obind fst snd]. unfold id.
    pose proof (ahead_offset _ _ Ha) as Ho. pose proof Ha as (pre & post & Hd & Hp & _).
    assert (Z.of_nat (if char_size ascii =? 1 then ascii_len_n (drop (Z.to_nat (offset s)) (data s)) (Z.to_nat (u32 (data_size s - offset s)))
                      else utf16_len_n (drop (Z.to_nat (offset s)) (data s)) (Z.to_nat (u32 (data_size s - offset s)))) = Z.of_nat (length w)) as El.
    { f_equal. rewrite Hd, drop_app_length' by lia. rewrite u32_id by (unfold is_u; lia).
      specialize (Hf post (Z.to_nat (data_size s - offset s)) ltac:(lia)). by destruct ascii. }
    rewrite !El. unfold bind at 1. rewrite (pull_chars_spec _ u (sent F_nullterm u) w) by done. cbn [obind fst snd].
    unfold bind. rewrite (advance_spec (counted s) (length w)) by (cbn [counted set_allocs offset data_size]; lia). done.
Qed.
End pull_string.

(** ** Text that can be sent *)

Section text.
Context `{Charsets} (unix8 : unix_is_utf8).

(** Unicode text with its terminator, in little-endian UTF-16. *)
Lemma is_string_utf16 f fl cps :
  big_endian fl = false -> terminated f = true -> Forall scalar cps -> Forall (fun cp => cp <> 0) cps ->
  Z.of_nat (length (utf16s cps)) < 65534 ->
  is_string false f fl (utf8s cps) (utf16s cps ++ [0; 0]).
Proof.
  intros Hb Ht Hs Hz Hl. destruct (with_terminator cps Hs) as (Hs0 & E8 & E16).
  destruct (utf16_units cps Hs Hz) as (us & Eu & _). pose proof (length_units us) as Hlu. rewrite <- Eu in Hlu.
  assert (Z.of_nat (length (utf16s cps ++ [0; 0])) = 2 * (Z.of_nat (length us) + 1)) as Hlen
    by (rewrite length_app; cbn [length]; lia).
  unfold is_string. unfold sent. rewrite Ht. unfold wire_charset. rewrite Hb. split_and!.
  - rewrite <- E8, <- E16. apply transcodes_utf16; [done..|]. by destruct cps.
  - unfold countable. cbn [char_size]. rewrite Hlen. split; [dlia|]. destruct f as [[] ?|[]|]; lia.
  - rewrite length_app. cbn [length]. lia.
  - by apply utf8s_nonzero.
  - destruct f; [done| |by apply delimited_utf16]. cbn [char_size]. rewrite Hlen. intros Hone.
    assert (us = []) as ->; [|by destruct cps as [|cp cps]; [|exfalso; change (utf16s (cp :: cps)) with (utf16le cp ++ utf16s cps) in Eu;
      apply (f_equal length) in Eu; rewrite length_app in Eu; pose proof (length_utf16le_bounds cp); simpl in Eu; lia]].
    destruct us; [done|]. cbn [length] in Hone. exfalso. rewrite Z.mul_comm, Z.div_mul in Hone by lia. lia.
Qed.

(** ASCII text with its terminator, in the dos charset. *)
Lemma is_string_ascii f fl l :
  dos_is_ascii -> terminated f = true -> Forall ascii_char l -> Forall (fun b => b <> 0) l -> (length l < 1024)%nat ->
  is_string true f fl l (l ++ [0]).
Proof.
  intros Hd Ht Ha Hz Hl.
  assert (Z.of_nat (length (l ++ [0])) = Z.of_nat (length l) + 1) as Hlen by (rewrite length_app; cbn [length]; lia).
  unfold is_string, sent. rewrite Ht. cbn [wire_charset char_size]. rewrite length_app. cbn [length]. split_and!.
  - apply transcodes_ascii; [done..| |rewrite length_app; cbn [length]; lia].
    apply Forall_app. split; [done|]. repeat constructor; done.
  - unfold countable. cbn [char_size]. rewrite Hlen, Z.div_1_r. split; [lia|]. destruct f as [[] ?|[]|]; lia.
  - lia.
  - done.
  - destruct f; [done| |by apply delimited_ascii]. rewrite Z.div_1_r. intros Hone. destruct l; [done|]. cbn [length] in Hone. lia.
Qed.
End text.

(** A string that is not terminated and has no character cannot be converted. *)
Lemma push_string_empty `{Charsets} (A : Allocator) s :
  isset (Push.flags s) (Z.lor (Z.lor LIBNDR_FLAG_STR_NOTERM LIBNDR_FLAG_STR_FIXLEN15) LIBNDR_FLAG_STR_FIXLEN32) = true ->
  ndr_push_string A (Some []) s = Ret (Bad NT_STATUS_INVALID_PARAMETER, Push.set_allocs (S (Push.allocs s)) s).
Proof.
  intros Hf. unfold ndr_push_string. unfold bind at 1, get at 1. cbn [obind fst snd].
  destruct (string_charset (Push.flags s)) as [[ch k] fl'] eqn:E.
  assert (isset fl' (Z.lor (Z.lor LIBNDR_FLAG_STR_NOTERM LIBNDR_FLAG_STR_FIXLEN15) LIBNDR_FLAG_STR_FIXLEN32) = true) as ->.
  { rewrite <- Hf. unfold string_charset in E. unfold isset. f_equal. f_equal.
    assert (forall m x, Z.land (Z.land x (not32 m)) (Z.lor (Z.lor LIBNDR_FLAG_STR_NOTERM LIBNDR_FLAG_STR_FIXLEN15) LIBNDR_FLAG_STR_FIXLEN32)
      = Z.land x (Z.land (not32 m) (Z.lor (Z.lor LIBNDR_FLAG_STR_NOTERM LIBNDR_FLAG_STR_FIXLEN15) LIBNDR_FLAG_STR_FIXLEN32))) as Hx
      by (intros; symmetry; rewrite Z.land_assoc; done).
    destruct (isset _ LIBNDR_FLAG_STR_ASCII), (isset _ LIBNDR_FLAG_STR_UTF8); cbn [fst snd] in E; injection E as <- <- <-; rewrite !Hx;
      rewrite <- ?Z.land_assoc; f_equal. }
  cbn [negb]. unfold bind, convert, convert_string_talloc. rewrite decide_True by done. done.
Qed.

Lemma string_items_ok ascii f (w : list Z) :
  countable ascii f w -> (0 < length w)%nat -> bytes w -> Forall item_ok (string_items ascii f w).
Proof.
  intros [Hc Hn] Hl Hb. assert (1 <= char_size ascii <= 2) as Hcs by (by destruct ascii).
  assert (0 < Z.of_nat (length w) / char_size ascii <= Z.of_nat (length w)) as Hr by nia.
  destruct f as [[] ?|[]|]; repeat constructor; cbn [item_ok]; done || unfold is_u; lia.
Qed.


Definition example_text : list Z := [104; 0xE9].

