(* ===== verification/Cim.v ===== *)
(** librpc/ndr/ndr_dcom.c: marshalling of the CIM classes and instances that WMI exchanges,
    as laid out by librpc/idl/dcom_wmi.inc. *)

From stdpp Require Import strings.
From S2P Require Import Prelude Digest Byteorder Ntstatus Iconv Charcnv Cnum DomSid Ndr NdrPull NdrPush NdrString.
Import Byteorder Charcnv Ndr NdrString.

#[local] Open Scope outcome_scope.
#[local] Open Scope ndr_scope.

(** ** Data of librpc/idl/dcom_wmi.inc *)

(** A pointer to a string: [None] is null. *)
Abbreviation CIMSTRING := (option cstr).

(** arr_int8 to arr_WbemClassObject, and where the structure is. *)
Record arr (T : Type) := Arr { a_at : addr; a_count : Z; a_item : list T }.
#[global] Arguments Arr {T}.
#[global] Arguments a_at {T}.
#[global] Arguments a_count {T}.
#[global] Arguments a_item {T}.

Record CIMSTRINGS := Strings { s_count : Z; s_item : list CIMSTRING }.

(** The structures that hold values of type [V] and objects of type [O]; an address says
    where a structure or an array of it is. *)
Section layout.
Context (V O : Type).

Record WbemQualifier := Qualifier {
  q_at : addr;
  q_name : CIMSTRING;
  q_flavors : Z;
  q_cimtype : Z;
  q_value : V
}.
Record WbemQualifiers := Qualifiers { qs_count : Z; qs_item : list WbemQualifier }.

Record WbemPropertyDesc := PropertyDesc {
  pd_at : addr;
  pd_cimtype : Z;
  pd_nr : Z;
  pd_offset : Z;
  pd_depth : Z;
  pd_qualifiers : WbemQualifiers
}.
Record WbemProperty := Property { p_name : CIMSTRING; p_desc : option WbemPropertyDesc }.

Record WbemClass := Class_ {
  c_u_0 : Z;
  c_CLASS : CIMSTRING;
  c_data_size : Z;
  c_DERIVATION : CIMSTRINGS;
  c_qualifiers : WbemQualifiers;
  c_PROPERTY_COUNT : Z;
  c_properties : list WbemProperty;
  c_flags_at : addr;
  c_default_flags : list Z;
  c_values_at : addr;
  c_default_values : list V
}.

Record WbemMethod := Method {
  m_name : CIMSTRING;
  m_u0 : Z;
  m_u1 : Z;
  m_qualifiers : option WbemQualifiers;
  m_in : option O;
  m_out : option O
}.
Record WbemMethods := Methods { ms_count : Z; ms_u0 : Z; ms_method : list WbemMethod }.

Record WbemInstance := Instance_ {
  i_u1_0 : Z;
  i_CLASS : CIMSTRING;
  i_default_flags : list Z;
  i_data_at : addr;
  i_data : list V;
  i_u2_4 : Z;
  i_u3_1 : Z
}.
End layout.

#[global] Arguments Qualifier {V}.
#[global] Arguments q_at {V}.
#[global] Arguments q_name {V}.
#[global] Arguments q_flavors {V}.
#[global] Arguments q_cimtype {V}.
#[global] Arguments q_value {V}.
#[global] Arguments Qualifiers {V}.
#[global] Arguments qs_count {V}.
#[global] Arguments qs_item {V}.
#[global] Arguments PropertyDesc {V}.
#[global] Arguments pd_at {V}.
#[global] Arguments pd_cimtype {V}.
#[global] Arguments pd_nr {V}.
#[global] Arguments pd_offset {V}.
#[global] Arguments pd_depth {V}.
#[global] Arguments pd_qualifiers {V}.
#[global] Arguments Property {V}.
#[global] Arguments p_name {V}.
#[global] Arguments p_desc {V}.
#[global] Arguments Class_ {V}.
#[global] Arguments c_u_0 {V}.
#[global] Arguments c_CLASS {V}.
#[global] Arguments c_data_size {V}.
#[global] Arguments c_DERIVATION {V}.
#[global] Arguments c_qualifiers {V}.
#[global] Arguments c_PROPERTY_COUNT {V}.
#[global] Arguments c_properties {V}.
#[global] Arguments c_flags_at {V}.
#[global] Arguments c_default_flags {V}.
#[global] Arguments c_values_at {V}.
#[global] Arguments c_default_values {V}.
#[global] Arguments Method {V O}.
#[global] Arguments m_name {V O}.
#[global] Arguments m_u0 {V O}.
#[global] Arguments m_u1 {V O}.
#[global] Arguments m_qualifiers {V O}.
#[global] Arguments m_in {V O}.
#[global] Arguments m_out {V O}.
#[global] Arguments Methods {V O}.
#[global] Arguments ms_count {V O}.
#[global] Arguments ms_u0 {V O}.
#[global] Arguments ms_method {V O}.
#[global] Arguments Instance_ {V}.
#[global] Arguments i_u1_0 {V}.
#[global] Arguments i_CLASS {V}.
#[global] Arguments i_default_flags {V}.
#[global] Arguments i_data_at {V}.
#[global] Arguments i_data {V}.
#[global] Arguments i_u2_4 {V}.
#[global] Arguments i_u3_1 {V}.

(** The union of values: the members of one representation share a constructor, and the
    bits of an integer member are those of zeroed memory when it is 0. *)
Inductive CIMVAR :=
| V_int (v : Z)
| V_string (v : CIMSTRING)
| V_object (v : option WbemClassObject)
| A_int (a : option (arr Z))
| A_string (a : option (arr CIMSTRING))
| A_object (a : option (arr (option WbemClassObject)))
with WbemClassObject :=
| ClassObject (at_ : addr) (flags : Z) (SERVER NAMESPACE : CIMSTRING)
    (sup_class : option (WbemClass CIMVAR)) (sup_methods : option (WbemMethods CIMVAR WbemClassObject))
    (obj_class : option (WbemClass CIMVAR)) (obj_methods : option (WbemMethods CIMVAR WbemClassObject))
    (instance : option (WbemInstance CIMVAR)).

(** The null pointer of every kind and the number zero are the same memory. *)
Definition cimvar_zero : CIMVAR := V_int 0.

Definition w_at (o : WbemClassObject) := let '(ClassObject x _ _ _ _ _ _ _ _) := o in x.
Definition w_flags (o : WbemClassObject) := let '(ClassObject _ x _ _ _ _ _ _ _) := o in x.
Definition w_SERVER (o : WbemClassObject) := let '(ClassObject _ _ x _ _ _ _ _ _) := o in x.
Definition w_NAMESPACE (o : WbemClassObject) := let '(ClassObject _ _ _ x _ _ _ _ _) := o in x.
Definition w_sup_class (o : WbemClassObject) := let '(ClassObject _ _ _ _ x _ _ _ _) := o in x.
Definition w_sup_methods (o : WbemClassObject) := let '(ClassObject _ _ _ _ _ x _ _ _) := o in x.
Definition w_obj_class (o : WbemClassObject) := let '(ClassObject _ _ _ _ _ _ x _ _) := o in x.
Definition w_obj_methods (o : WbemClassObject) := let '(ClassObject _ _ _ _ _ _ _ x _) := o in x.
Definition w_instance (o : WbemClassObject) := let '(ClassObject _ _ _ _ _ _ _ _ x) := o in x.

(** talloc_zero of an object. *)
Definition object_zero (p : addr) : WbemClassObject := ClassObject p 0 None None None None None None None.
Definition set_instance (i : option (WbemInstance CIMVAR)) (o : WbemClassObject) : WbemClassObject :=
  let '(ClassObject p f s n sc sm oc om _) := o in ClassObject p f s n sc sm oc om i.
Definition set_obj_class (c : option (WbemClass CIMVAR)) (o : WbemClassObject) : WbemClassObject :=
  let '(ClassObject p f s n sc sm _ om i) := o in ClassObject p f s n sc sm c om i.

(** The code that PIDL generates from the IDL.  The flags say which half of a structure is
    meant, the address of a value is the key of its switch value, and unmarshalling the
    second half completes what the first one left. *)
Class Pidl := {
  ndr_push_CIMVAR : Z -> addr -> CIMVAR -> M ndr_push unit;
  ndr_pull_CIMVAR : Z -> addr -> CIMVAR -> M ndr_pull CIMVAR;
  ndr_push_WBEM_FLAVOR_TYPE : Z -> M ndr_push unit;
  ndr_pull_WBEM_FLAVOR_TYPE : M ndr_pull Z;
  ndr_push_CIMTYPE_ENUMERATION : Z -> M ndr_push unit;
  ndr_pull_CIMTYPE_ENUMERATION : M ndr_pull Z;
  ndr_push_WbemProperty : Z -> WbemProperty CIMVAR -> M ndr_push unit;
  ndr_pull_WbemProperty : Z -> WbemProperty CIMVAR -> M ndr_pull (WbemProperty CIMVAR);
  ndr_push_WbemMethods : Z -> option (WbemMethods CIMVAR WbemClassObject) -> M ndr_push unit;
  ndr_pull_WbemMethods : Z -> option (WbemMethods CIMVAR WbemClassObject) ->
    M ndr_pull (option (WbemMethods CIMVAR WbemClassObject))
}.

Module Cim.

Definition CIM_SINT16 : Z := 2.
Definition CIM_SINT32 : Z := 3.
Definition CIM_REAL32 : Z := 4.
Definition CIM_REAL64 : Z := 5.
Definition CIM_STRING : Z := 8.
Definition CIM_BOOLEAN : Z := 11.
Definition CIM_OBJECT : Z := 13.
Definition CIM_SINT8 : Z := 16.
Definition CIM_UINT8 : Z := 17.
Definition CIM_UINT16 : Z := 18.
Definition CIM_UINT32 : Z := 19.
Definition CIM_SINT64 : Z := 20.
Definition CIM_UINT64 : Z := 21.
Definition CIM_DATETIME : Z := 101.
Definition CIM_REFERENCE : Z := 102.
Definition CIM_FLAG_ARRAY : Z := 0x2000.
Definition CIM_TYPEMASK : Z := 0x2FFF.
Definition WCF_DECORATIONS : Z := 1.
Definition WCF_INSTANCE : Z := 2.
Definition WCF_CLASS : Z := 4.
Definition DEFAULT_FLAG_EMPTY : Z := 1.

Definition get_CIMTYPE_size (t : Z) : Z :=
  if isset t CIM_FLAG_ARRAY then 4
  else
    let t := Z.land t 0x1FF in
    if (t =? CIM_SINT8) || (t =? CIM_UINT8) then 1
    else if (t =? CIM_SINT16) || (t =? CIM_UINT16) || (t =? CIM_BOOLEAN) then 2
    else if (t =? CIM_SINT32) || (t =? CIM_UINT32) || (t =? CIM_REAL32) || (t =? CIM_STRING)
         || (t =? CIM_DATETIME) || (t =? CIM_REFERENCE) || (t =? CIM_OBJECT) then 4
    else if (t =? CIM_SINT64) || (t =? CIM_UINT64) || (t =? CIM_REAL64) then 8
    else 4.

Definition IS_CIMTYPE_PTR (t : Z) : bool :=
  isset t CIM_FLAG_ARRAY || (t =? CIM_STRING) || (t =? CIM_DATETIME) || (t =? CIM_REFERENCE).

(** The field or element [k] of what is at [p]. *)
Definition element (p : addr) (k : nat) : addr :=
  match p with
  | NULL => NULL
  | At b i => At b (i + k)
  end.

(** An element of an array, which must be there. *)
Definition nth_of {S B} (l : list B) (i : nat) : M S B :=
  match l !! i with
  | Some x => ret x
  | None => fault
  end.
(** What a pointer points to. *)
Definition deref {S B} (p : option B) : M S B :=
  match p with
  | Some x => ret x
  | None => fault
  end.

(** The calls for the indices from [i] on. *)
Fixpoint for_each {S} (n i : nat) (body : nat -> M S unit) : M S unit :=
  match n with
  | O => ret tt
  | Datatypes.S n => body i;; for_each n (Datatypes.S i) body
  end.
(** The same, each call giving an element. *)
Fixpoint collect {S B} (n i : nat) (body : nat -> M S B) : M S (list B) :=
  match n with
  | O => ret []
  | Datatypes.S n => do x <- body i; do l <- collect n (Datatypes.S i) body; ret (x :: l)
  end.

(** The bits that copy_bits changes in a byte: [count] bits of [src] from bit [bsrc] on, to bit [bdst]. *)
Definition copy_bits_byte (src bsrc dst bdst count : Z) : Z :=
  let mask := u8 (Z.shiftl 1 count - 1) in
  let dst := Z.land dst (u8 (Z.lnot (Z.shiftl mask (Z.land bdst 7)))) in
  u8 (Z.lor dst (Z.shiftl (Z.land (Z.shiftr src (Z.land bsrc 7)) mask) (Z.land bdst 7))).

Section cim.
Context `{Charsets, Pidl} (A : Allocator).

Definition ndr_push_BSTR (ndr_flags : Z) (r : option (list Z)) : M ndr_push unit :=
  do r <- deref r;
  let len := u32 (Z.of_nat (length r)) in
  if isset ndr_flags NDR_SCALARS then
    NdrPush.ndr_push_align A 4;;
    NdrPush.ndr_push_uint32 A 0x72657355;;
    NdrPush.ndr_push_uint32 A len;;
    NdrPush.ndr_push_uint32 A (u32 (2 * len));;
    do flags <- get Push.flags;
    modify (Push.set_flags (ndr_set_flags flags (Z.lor LIBNDR_FLAG_STR_NOTERM LIBNDR_FLAG_STR_SIZE4)));;
    do status <- attempt (ndr_push_string A (Some r));
    modify (Push.set_flags flags);;
    match status with
    | Good _ => ret tt
    | Bad e => bad e
    end
  else ret tt.

(** The flags are kept in a byte while those of the string are on. *)
Definition ndr_push_CIMSTRING (ndr_flags : Z) (r : CIMSTRING) : M ndr_push unit :=
  if isset ndr_flags NDR_SCALARS then
    NdrPush.ndr_push_uint8 A 0;;
    do u <- get Push.flags;
    modify (fun s => Push.set_flags (Z.lor (Push.flags s) (Z.lor LIBNDR_FLAG_STR_ASCII LIBNDR_FLAG_STR_NULLTERM)) s);;
    do status <- attempt (ndr_push_string A (chars <$> r));
    modify (Push.set_flags (u8 u));;
    match status with
    | Good _ => ret tt
    | Bad e => bad e
    end
  else ret tt.

Definition pull_with_flags (new : Z) : M ndr_pull cstr :=
  do u <- get Pull.flags;
  modify (fun s => Pull.set_flags (Z.lor (Pull.flags s) new) s);;
  do status <- attempt (ndr_pull_string A);
  modify (Pull.set_flags (u8 u));;
  match status with
  | Good s => ret s
  | Bad e => bad e
  end.
(** The string is [old] when only the buffers are asked for. *)
Definition ndr_pull_CIMSTRING (ndr_flags : Z) (old : CIMSTRING) : M ndr_pull CIMSTRING :=
  if isset ndr_flags NDR_SCALARS then
    do u <- NdrPull.ndr_pull_uint8;
    if u =? 0 then
      do s <- pull_with_flags (Z.lor LIBNDR_FLAG_STR_ASCII LIBNDR_FLAG_STR_NULLTERM); ret (Some s)
    else if u =? 1 then do s <- pull_with_flags LIBNDR_FLAG_STR_NULLTERM; ret (Some s)
    else bad NT_STATUS_NOT_SUPPORTED
  else ret old.

(** A value for a size that is only known later. *)
Definition patch (at_ofs v : Z) : M ndr_push unit :=
  do ofs <- get Push.offset;
  modify (Push.set_offset at_ofs);;
  NdrPush.ndr_push_uint32 A v;;
  modify (Push.set_offset ofs).

Definition ndr_push_CIMSTRINGS (ndr_flags : Z) (r : CIMSTRINGS) : M ndr_push unit :=
  if isset ndr_flags NDR_SCALARS then
    do ofs_size <- get Push.offset;
    NdrPush.ndr_push_uint32 A 0;;
    for_each (Z.to_nat (s_count r)) 0 (fun i =>
      do s <- nth_of (s_item r) i;
      do ofs <- get Push.offset;
      ndr_push_CIMSTRING ndr_flags s;;
      do o <- get Push.offset;
      NdrPush.ndr_push_uint32 A (u32 (o - ofs)));;
    do ofs <- get Push.offset;
    patch ofs_size (u32 (ofs - ofs_size))
  else ret tt.

(** talloc_realloc to the [n] elements of 8 bytes there are in the end: none frees the block. *)
Definition shrink (n : nat) : M ndr_pull addr :=
  match n with
  | O => ret NULL
  | _ => NdrPull.alloc_array A 8 (Z.of_nat n)
  end.

(** The strings up to [endofs], with [len] elements of room in the array at [item]. *)
Fixpoint pull_cimstrings (fuel : nat) (endofs len count : Z) (item : addr) : M ndr_pull (list CIMSTRING) :=
  match fuel with
  | O => fault
  | S fuel =>
      do o <- get Pull.offset;
      if o <? endofs then
        do item <- (if len <=? count then NdrPull.alloc_array A 8 (len + 3) else ret item);
        do s <- ndr_pull_CIMSTRING NDR_SCALARS None;
        if decide (item = NULL) then fault
        else
          NdrPull.ndr_pull_uint32;;
          do l <- pull_cimstrings fuel endofs (if len <=? count then len + 3 else len) (count + 1) item;
          ret (s :: l)
      else ret []
  end.
(** The array is cut to size at the end; when that fails there are no elements. *)
Definition ndr_pull_CIMSTRINGS (ndr_flags : Z) (r : CIMSTRINGS) : M ndr_pull CIMSTRINGS :=
  if isset ndr_flags NDR_SCALARS then
    do endofs <- NdrPull.ndr_pull_uint32;
    do o <- get Pull.offset;
    let endofs := u32 (endofs + (o - 4)) in
    do item <- NdrPull.alloc_array A 8 5;
    do n <- get (fun s => length (Pull.data s));
    do l <- pull_cimstrings (S n) endofs 5 0 item;
    do item <- shrink (length l);
    ret (Strings (u32 (Z.of_nat (length l))) (if decide (item = NULL) then [] else l))
  else ret r.

(** ndr_push_DataWithStack and ndr_pull_DataWithStack: [fn] with the two flags. *)
Definition ndr_push_DataWithStack (fn : Z -> M ndr_push unit) : M ndr_push unit :=
  do ofs_size <- get Push.offset;
  NdrPush.ndr_push_uint32 A 0;;
  fn NDR_SCALARS;;
  do ofs_ssize <- get Push.offset;
  NdrPush.ndr_push_uint32 A 0;;
  modify (fun s => Push.set_relative_base_offset (Push.offset s) s);;
  fn NDR_BUFFERS;;
  do ofs <- get Push.offset;
  modify (Push.set_offset ofs_size);;
  NdrPush.ndr_push_uint32 A (u32 (ofs - ofs_size));;
  modify (Push.set_offset ofs_ssize);;
  NdrPush.ndr_push_uint32 A (Z.lor (u32 (ofs - ofs_ssize - 4)) 0x80000000);;
  modify (Push.set_offset ofs).

(** From the size of the buffers on; the frame ends at [end_], and the data at [ndrend]. *)
Definition pull_stack {B} (fn : Z -> B -> M ndr_pull B) (ndrend end_ : Z) (r : B) : M ndr_pull B :=
  do ssize <- NdrPull.ndr_pull_uint32;
  if negb (isset ssize 0x80000000) then ndr_error NDR_ERR_VALIDATE
  else
    let ssize := Z.land ssize 0x7FFFFFFF in
    NdrPull.NDR_PULL_NEED_BYTES ssize;;
    modify (fun s => Pull.set_data_size (add32 (Pull.offset s) ssize) s);;
    modify (fun s => Pull.set_relative_base_offset (Pull.offset s) s);;
    do r <- fn NDR_BUFFERS r;
    modify (Pull.set_data_size ndrend);;
    modify (Pull.set_offset end_);;
    ret r.
Definition ndr_pull_DataWithStack {B} (fn : Z -> B -> M ndr_pull B) (r : B) : M ndr_pull B :=
  do end_ <- get Pull.offset;
  do size <- NdrPull.ndr_pull_uint32;
  NdrPull.NDR_PULL_NEED_BYTES (u32 (size - 4));;
  let end_ := add32 end_ size in
  do ndrend <- get Pull.data_size;
  modify (Pull.set_data_size end_);;
  do r <- fn NDR_SCALARS r;
  pull_stack fn ndrend end_ r.

Definition ndr_push_uint32_flags (ndr_flags v : Z) : M ndr_push unit :=
  if isset ndr_flags NDR_SCALARS then NdrPush.ndr_push_uint32 A v else ret tt.
Definition ndr_pull_uint32_flags (ndr_flags old : Z) : M ndr_pull Z :=
  if isset ndr_flags NDR_SCALARS then NdrPull.ndr_pull_uint32 else ret old.

(** copy_bits from a byte to bit [bdst] of the buffer at [ofs], and back. *)
Definition push_bits (src ofs bdst count : Z) : M ndr_push unit :=
  NdrPush.store 1 (fun d i => <[i := copy_bits_byte src 0 (CVAL d i) bdst count]> d) (ofs + Z.shiftr bdst 3).
Definition pull_bits (ofs bsrc count : Z) : M ndr_pull Z :=
  NdrPull.load 1 (fun d i => copy_bits_byte (CVAL d i) bsrc 0 0 count) (ofs + Z.shiftr bsrc 3).

(** *** Qualifiers *)

Definition qualifier_keys : list (option (list Z)) :=
  [None; Some (DomSid.str "key"); None; Some (DomSid.str "read"); None; None; Some (DomSid.str "provider"); Some (DomSid.str "dynamic");
   None; None; Some (DomSid.str "CIMTYPE")].
Definition qn_unknown : list Z := DomSid.str "Unknown_qualifier_name".

(** The number that is sent for a name; a negative one says that the name is sent.  The
    pointer [qn_unknown] is 8 bytes wide. *)
Definition qualifier_number (name : list Z) : Z :=
  match list_find (fun k => k = Some name) qualifier_keys with
  | Some (i, _) => Z.of_nat i
  | None => if decide (take 7 name = take 7 qn_unknown) then s32 (strtol (drop 7 name)).1 else -1
  end.
(** The name for a number that was received; %d of a byte. *)
Definition qualifier_name (relofs : Z) : list Z :=
  match qualifier_keys !! Z.to_nat relofs with
  | Some (Some name) => name
  | _ => qn_unknown ++ dec relofs
  end.

Definition name_at (s : CIMSTRING) : addr := match s with Some c => at_addr c | None => NULL end.
Definition q_value_at (r : WbemQualifier CIMVAR) : addr := element (q_at r) 3.

Definition push_qualifier_name (name : cstr) : M ndr_push unit :=
  let i := qualifier_number (chars name) in
  if 0 <=? i then
    do ofs <- get Push.offset;
    do o <- NdrPush.ndr_token_retrieve Push.relative_list Push.set_relative_list (at_addr name);
    modify (Push.set_offset o);;
    NdrPush.ndr_push_uint32 A (Z.lor 0x80000000 i);;
    modify (Push.set_offset ofs)
  else
    NdrPush.ndr_push_relative_ptr2 A (at_addr name);;
    ndr_push_CIMSTRING NDR_SCALARS (Some name).

Definition ndr_push_WbemQualifier (ndr_flags : Z) (r : WbemQualifier CIMVAR) : M ndr_push unit :=
  (if isset ndr_flags NDR_SCALARS then
     NdrPush.ndr_push_align A 4;;
     NdrPush.ndr_push_relative_ptr1 A (name_at (q_name r));;
     ndr_push_WBEM_FLAVOR_TYPE (q_flavors r);;
     ndr_push_CIMTYPE_ENUMERATION (q_cimtype r);;
     NdrPush.ndr_push_set_switch_value A (q_value_at r) (Z.land (q_cimtype r) CIM_TYPEMASK);;
     ndr_push_CIMVAR NDR_SCALARS (q_value_at r) (q_value r)
   else ret tt);;
  if isset ndr_flags NDR_BUFFERS then
    (match q_name r with
     | Some name => push_qualifier_name name
     | None => ret tt
     end);;
    ndr_push_CIMVAR NDR_BUFFERS (q_value_at r) (q_value r)
  else ret tt.

(** A copy, null when there is no memory. *)
Definition new_string (l : list Z) : M ndr_pull CIMSTRING :=
  do p <- NdrPull.alloc A; ret (if decide (p = NULL) then None else Some (Cstr p l)).

(** A pointer that is null when it is 0xFFFFFFFF on the wire: a block that stands for the
    string until the second half. *)
Definition pull_name1 : M ndr_pull CIMSTRING :=
  do ptr <- NdrPull.ndr_pull_generic_ptr;
  if ptr =? 0xFFFFFFFF then ret None
  else
    do p <- NdrPull.NDR_PULL_ALLOC A;
    NdrPull.ndr_pull_relative_ptr1 A p ptr;;
    ret (Some (Cstr p [])).
(** The string, at the place its pointer says. *)
Definition pull_name2 (name : cstr) : M ndr_pull CIMSTRING :=
  do save <- NdrPull.ndr_pull_save;
  NdrPull.ndr_pull_relative_ptr2 (at_addr name);;
  do s <- ndr_pull_CIMSTRING NDR_SCALARS (Some name);
  NdrPull.ndr_pull_restore save;;
  ret s.

Definition pull_qualifier_name (name : CIMSTRING) : M ndr_pull CIMSTRING :=
  do relofs <- get (fun s => ndr_token_peek (Pull.relative_list s) (name_at name));
  if isset relofs 0x80000000 then new_string (qualifier_name (Z.land relofs 0xFF))
  else
    match name with
    | Some name => pull_name2 name
    | None => ret None
    end.

Definition ndr_pull_WbemQualifier (ndr_flags : Z) (r : WbemQualifier CIMVAR) : M ndr_pull (WbemQualifier CIMVAR) :=
  do r <-
    (if isset ndr_flags NDR_SCALARS then
       NdrPull.ndr_pull_align 4;;
       do name <- pull_name1;
       do flavors <- ndr_pull_WBEM_FLAVOR_TYPE;
       do cimtype <- ndr_pull_CIMTYPE_ENUMERATION;
       NdrPull.ndr_pull_set_switch_value A (q_value_at r) (Z.land cimtype CIM_TYPEMASK);;
       do v <- ndr_pull_CIMVAR NDR_SCALARS (q_value_at r) (q_value r);
       ret (Qualifier (q_at r) name flavors cimtype v)
     else ret r);
  if isset ndr_flags NDR_BUFFERS then
    do name <- pull_qualifier_name (q_name r);
    do v <- ndr_pull_CIMVAR NDR_BUFFERS (q_value_at r) (q_value r);
    ret (Qualifier (q_at r) name (q_flavors r) (q_cimtype r) v)
  else ret r.

Definition ndr_push_WbemQualifiers (ndr_flags : Z) (r : WbemQualifiers CIMVAR) : M ndr_push unit :=
  let each flags := for_each (Z.to_nat (qs_count r)) 0 (fun i => do q <- nth_of (qs_item r) i; ndr_push_WbemQualifier flags q) in
  (if isset ndr_flags NDR_SCALARS then
     do ofs_size <- get Push.offset;
     NdrPush.ndr_push_uint32 A 0;;
     each NDR_SCALARS;;
     do ofs <- get Push.offset;
     patch ofs_size (u32 (ofs - ofs_size))
   else ret tt);;
  if isset ndr_flags NDR_BUFFERS then each NDR_BUFFERS else ret tt.

(** What is in a block that is not cleared. *)
Definition fresh_qualifier (p : addr) : WbemQualifier CIMVAR := Qualifier p None 0 0 (V_int (@uninit A)).

(** The qualifiers up to [endofs], with [len] elements of room in the array at [item]. *)
Fixpoint pull_qualifiers (fuel : nat) (endofs len count : Z) (item : addr) : M ndr_pull (list (WbemQualifier CIMVAR)) :=
  match fuel with
  | O => fault
  | S fuel =>
      do o <- get Pull.offset;
      if o <? endofs then
        do item <- (if len <=? count then NdrPull.alloc_array A 8 (len + 3) else ret item);
        do p <- NdrPull.alloc A;
        if decide (item = NULL) then fault
        else if decide (p = NULL) then ndr_error NDR_ERR_ALLOC
        else
          do q <- ndr_pull_WbemQualifier NDR_SCALARS (fresh_qualifier p);
          do l <- pull_qualifiers fuel endofs (if len <=? count then len + 3 else len) (count + 1) item;
          ret (q :: l)
      else ret []
  end.

Definition ndr_pull_WbemQualifiers (ndr_flags : Z) (r : WbemQualifiers CIMVAR) : M ndr_pull (WbemQualifiers CIMVAR) :=
  do r <-
    (if isset ndr_flags NDR_SCALARS then
       do endofs <- NdrPull.ndr_pull_uint32;
       do o <- get Pull.offset;
       let endofs := u32 (endofs + (o - 4)) in
       do item <- NdrPull.alloc_array A 8 10;
       do n <- get (fun s => length (Pull.data s));
       do l <- pull_qualifiers (S n) endofs 10 0 item;
       do item <- shrink (length l);
       ret (Qualifiers (u32 (Z.of_nat (length l))) (if decide (item = NULL) then [] else l))
     else ret r);
  if isset ndr_flags NDR_BUFFERS then
    do l <- collect (Z.to_nat (qs_count r)) 0 (fun i => do q <- nth_of (qs_item r) i; ndr_pull_WbemQualifier NDR_BUFFERS q);
    ret (Qualifiers (qs_count r) l)
  else ret r.

(** *** Classes and instances *)

Definition desc_of {S} (props : list (WbemProperty CIMVAR)) (i : nat) : M S (WbemPropertyDesc CIMVAR) :=
  do p <- nth_of props i; deref (p_desc p).

(** Two bits for each property, then ones. *)
Definition push_default_flags (count : Z) (props : list (WbemProperty CIMVAR)) (flags : list Z) : M ndr_push unit :=
  do ofs <- get Push.offset;
  for_each (Z.to_nat count) 0 (fun i =>
    do f <- nth_of flags i;
    do d <- desc_of props i;
    push_bits f ofs (2 * pd_nr d) 2);;
  push_bits 0xFF ofs (u32 (2 * count)) (u32 (8 - 2 * count) mod 7).
(** From [ofs], to an array of [n] elements. *)
Definition pull_default_flags (n : nat) (ofs : Z) (props : list (WbemProperty CIMVAR)) : M ndr_pull (list Z) :=
  collect n 0 (fun i => do d <- desc_of props i; pull_bits ofs (2 * pd_nr d) 2).

(** The values come after the flags. *)
Definition values_offset (ofs count : Z) : Z := add32 ofs (Z.shiftr (u32 (count + 3)) 2).

Definition push_relative_or_ffffffff (s : CIMSTRING) : M ndr_push unit :=
  match s with
  | Some s => NdrPush.ndr_push_relative_ptr1 A (at_addr s)
  | None => NdrPush.ndr_push_uint32 A 0xFFFFFFFF
  end.
Definition push_relative_string (s : CIMSTRING) : M ndr_push unit :=
  match s with
  | Some c => NdrPush.ndr_push_relative_ptr2 A (at_addr c);; ndr_push_CIMSTRING NDR_SCALARS s
  | None => ret tt
  end.
Definition pull_relative_string (s : CIMSTRING) : M ndr_pull CIMSTRING :=
  match s with
  | Some c => pull_name2 c
  | None => ret None
  end.

(** What [m] does with the flags of a structure that is not aligned, which it leaves as they
    were when it succeeds. *)
Definition push_noalign (m : M ndr_push unit) : M ndr_push unit :=
  do flags_save <- get Push.flags;
  modify (Push.set_flags (ndr_set_flags flags_save LIBNDR_FLAG_NOALIGN));;
  m;;
  modify (Push.set_flags flags_save).
Definition pull_noalign {B} (m : M ndr_pull B) : M ndr_pull B :=
  do flags_save <- get Pull.flags;
  modify (Pull.set_flags (ndr_set_flags flags_save LIBNDR_FLAG_NOALIGN));;
  do v <- m;
  modify (Pull.set_flags flags_save);;
  ret v.

Definition push_default_values (r : WbemClass CIMVAR) (vofs : Z) : M ndr_push unit :=
  for_each (Z.to_nat (c_PROPERTY_COUNT r)) 0 (fun i =>
    do v <- nth_of (c_default_values r) i;
    do f <- nth_of (c_default_flags r) i;
    do d <- desc_of (c_properties r) i;
    let p := element (c_values_at r) i in
    let t := Z.land (pd_cimtype d) CIM_TYPEMASK in
    NdrPush.ndr_push_set_switch_value A p t;;
    modify (Push.set_offset (add32 vofs (pd_offset d)));;
    if isset f DEFAULT_FLAG_EMPTY && IS_CIMTYPE_PTR t then NdrPush.ndr_push_uint32 A 0xFFFFFFFF
    else ndr_push_CIMVAR NDR_SCALARS p v).

Definition ndr_push_WbemClass (ndr_flags : Z) (r : option (WbemClass CIMVAR)) : M ndr_push unit :=
  do r <- deref r;
  let n := Z.to_nat (c_PROPERTY_COUNT r) in
  push_noalign (
    (if isset ndr_flags NDR_SCALARS then
       NdrPush.ndr_push_align A 4;;
       NdrPush.ndr_push_uint8 A (c_u_0 r);;
       push_relative_or_ffffffff (c_CLASS r);;
       NdrPush.ndr_push_uint32 A (c_data_size r);;
       ndr_push_CIMSTRINGS NDR_SCALARS (c_DERIVATION r);;
       ndr_push_WbemQualifiers NDR_SCALARS (c_qualifiers r);;
       NdrPush.ndr_push_uint32 A (c_PROPERTY_COUNT r);;
       for_each n 0 (fun i => do p <- nth_of (c_properties r) i; ndr_push_WbemProperty NDR_SCALARS p);;
       do ofs <- get Push.offset;
       NdrPush.NDR_PUSH_NEED_BYTES A (c_data_size r);;
       push_default_flags (c_PROPERTY_COUNT r) (c_properties r) (c_default_flags r);;
       push_default_values r (values_offset ofs (c_PROPERTY_COUNT r));;
       modify (Push.set_offset (add32 ofs (c_data_size r)))
     else ret tt);;
    if isset ndr_flags NDR_BUFFERS then
      push_relative_string (c_CLASS r);;
      ndr_push_CIMSTRINGS NDR_BUFFERS (c_DERIVATION r);;
      ndr_push_WbemQualifiers NDR_BUFFERS (c_qualifiers r);;
      for_each n 0 (fun i => do p <- nth_of (c_properties r) i; ndr_push_WbemProperty NDR_BUFFERS p);;
      for_each n 0 (fun i =>
        do f <- nth_of (c_default_flags r) i;
        if isset f DEFAULT_FLAG_EMPTY then ret tt
        else do v <- nth_of (c_default_values r) i; ndr_push_CIMVAR NDR_BUFFERS (element (c_values_at r) i) v)
    else ret tt).

(** What talloc_zero gives for a class. *)
Definition class_zero : WbemClass CIMVAR := Class_ 0 None 0 (Strings 0 []) (Qualifiers 0 []) 0 [] NULL [] NULL [].
Definition fresh_property : WbemProperty CIMVAR := Property None None.

Definition pull_default_values (r : WbemClass CIMVAR) (flags : list Z) (ofs : Z) : M ndr_pull (list CIMVAR) :=
  collect (Z.to_nat (c_PROPERTY_COUNT r)) 0 (fun i =>
    do f <- nth_of flags i;
    do v <- nth_of (c_default_values r) i;
    if isset f DEFAULT_FLAG_EMPTY then ret v
    else
      do d <- desc_of (c_properties r) i;
      let p := element (c_values_at r) i in
      NdrPull.ndr_pull_set_switch_value A p (Z.land (pd_cimtype d) CIM_TYPEMASK);;
      modify (Pull.set_offset (add32 ofs (pd_offset d)));;
      ndr_pull_CIMVAR (Z.lor NDR_SCALARS NDR_BUFFERS) p v).

Definition pull_class_scalars (r : option (WbemClass CIMVAR)) : M ndr_pull (WbemClass CIMVAR) :=
  NdrPull.ndr_pull_align 4;;
  do u_0 <- NdrPull.ndr_pull_uint8;
  do r <- deref r;
  do class <- pull_name1;
  do data_size <- NdrPull.ndr_pull_uint32;
  do derivation <- ndr_pull_CIMSTRINGS NDR_SCALARS (c_DERIVATION r);
  do qualifiers <- ndr_pull_WbemQualifiers NDR_SCALARS (c_qualifiers r);
  do count <- NdrPull.ndr_pull_uint32;
  NdrPull.NDR_PULL_ALLOC_N A 16 count;;
  let n := Z.to_nat count in
  do properties <- collect n 0 (fun _ => ndr_pull_WbemProperty NDR_SCALARS fresh_property);
  NdrPull.NDR_PULL_NEED_BYTES data_size;;
  do flags_at <- NdrPull.NDR_PULL_ALLOC_N A 1 count;
  do o <- get Pull.offset;
  NdrPull.ndr_pull_relative_ptr1 A flags_at o;;
  do values_at <- NdrPull.NDR_PULL_ALLOC_N A 8 count;
  NdrPull.ndr_pull_relative_ptr1 A values_at (values_offset o count);;
  modify (fun s => Pull.set_offset (add32 (Pull.offset s) data_size) s);;
  ret (Class_ u_0 class data_size derivation qualifiers count properties flags_at
    (replicate n (@uninit A)) values_at (replicate n cimvar_zero)).

Definition pull_class_buffers (r : WbemClass CIMVAR) : M ndr_pull (WbemClass CIMVAR) :=
  let n := Z.to_nat (c_PROPERTY_COUNT r) in
  do class <- pull_relative_string (c_CLASS r);
  do derivation <- ndr_pull_CIMSTRINGS NDR_BUFFERS (c_DERIVATION r);
  do qualifiers <- ndr_pull_WbemQualifiers NDR_BUFFERS (c_qualifiers r);
  do properties <- collect n 0 (fun i => do p <- nth_of (c_properties r) i; ndr_pull_WbemProperty NDR_BUFFERS p);
  let r := Class_ (c_u_0 r) class (c_data_size r) derivation qualifiers (c_PROPERTY_COUNT r) properties
    (c_flags_at r) (c_default_flags r) (c_values_at r) (c_default_values r) in
  do ofs <- NdrPull.ndr_token_retrieve Pull.relative_list Pull.set_relative_list (c_flags_at r);
  do flags <- pull_default_flags n ofs properties;
  do save <- NdrPull.ndr_pull_save;
  do ofs <- NdrPull.ndr_token_retrieve Pull.relative_list Pull.set_relative_list (c_values_at r);
  do values <- pull_default_values r flags ofs;
  NdrPull.ndr_pull_restore save;;
  ret (Class_ (c_u_0 r) class (c_data_size r) derivation qualifiers (c_PROPERTY_COUNT r) properties
    (c_flags_at r) flags (c_values_at r) values).

Definition ndr_pull_WbemClass (ndr_flags : Z) (r : option (WbemClass CIMVAR)) : M ndr_pull (option (WbemClass CIMVAR)) :=
  pull_noalign (
    do r <- (if isset ndr_flags NDR_SCALARS then do r <- pull_class_scalars r; ret (Some r) else ret r);
    if isset ndr_flags NDR_BUFFERS then do r <- deref r; do r <- pull_class_buffers r; ret (Some r)
    else ret r).

Definition ndr_push_WbemInstance_priv (ndr_flags : Z) (r : WbemClassObject) : M ndr_push unit :=
  (if isset ndr_flags NDR_SCALARS then
     do i <- deref (w_instance r);
     NdrPush.ndr_push_uint8 A (i_u1_0 i);;
     push_relative_or_ffffffff (i_CLASS i);;
     do ofs <- get Push.offset;
     do c <- deref (w_obj_class r);
     NdrPush.NDR_PUSH_NEED_BYTES A (c_data_size c);;
     push_default_flags (c_PROPERTY_COUNT c) (c_properties c) (i_default_flags i);;
     for_each (Z.to_nat (c_PROPERTY_COUNT c)) 0 (fun k =>
       do v <- nth_of (i_data i) k;
       do d <- desc_of (c_properties c) k;
       let p := element (i_data_at i) k in
       NdrPush.ndr_push_set_switch_value A p (Z.land (pd_cimtype d) CIM_TYPEMASK);;
       modify (Push.set_offset (add32 (values_offset ofs (c_PROPERTY_COUNT c)) (pd_offset d)));;
       ndr_push_CIMVAR NDR_SCALARS p v);;
     modify (Push.set_offset (add32 ofs (c_data_size c)));;
     NdrPush.ndr_push_uint32 A (i_u2_4 i);;
     NdrPush.ndr_push_uint8 A (i_u3_1 i)
   else ret tt);;
  if isset ndr_flags NDR_BUFFERS then
    do i <- deref (w_instance r);
    push_relative_string (i_CLASS i);;
    do c <- deref (w_obj_class r);
    for_each (Z.to_nat (c_PROPERTY_COUNT c)) 0 (fun k =>
      do v <- nth_of (i_data i) k; ndr_push_CIMVAR NDR_BUFFERS (element (i_data_at i) k) v)
  else ret tt.

Definition instance_zero : WbemInstance CIMVAR := Instance_ 0 None [] NULL [] 0 0.

Definition pull_instance_scalars (c : WbemClass CIMVAR) (i : option (WbemInstance CIMVAR)) : M ndr_pull (WbemInstance CIMVAR) :=
  do u1_0 <- NdrPull.ndr_pull_uint8;
  do _ <- deref i;
  do class <- pull_name1;
  do ofs <- get Pull.offset;
  NdrPull.NDR_PULL_NEED_BYTES (c_data_size c);;
  let count := c_PROPERTY_COUNT c in
  let n := Z.to_nat count in
  NdrPull.NDR_PULL_ALLOC_N A 1 count;;
  do flags <- pull_default_flags n ofs (c_properties c);
  do data_at <- NdrPull.NDR_PULL_ALLOC_N A 8 count;
  do data <- collect n 0 (fun k =>
    do d <- desc_of (c_properties c) k;
    let p := element data_at k in
    NdrPull.ndr_pull_set_switch_value A p (Z.land (pd_cimtype d) CIM_TYPEMASK);;
    modify (Pull.set_offset (add32 (values_offset ofs count) (pd_offset d)));;
    ndr_pull_CIMVAR NDR_SCALARS p cimvar_zero);
  modify (Pull.set_offset (add32 ofs (c_data_size c)));;
  do u2_4 <- NdrPull.ndr_pull_uint32;
  do u3_1 <- NdrPull.ndr_pull_uint8;
  ret (Instance_ u1_0 class flags data_at data u2_4 u3_1).

(** The flags of the state stay changed. *)
Definition ndr_pull_WbemInstance_priv (ndr_flags : Z) (r : WbemClassObject) : M ndr_pull WbemClassObject :=
  match w_obj_class r with
  | None => bad NT_STATUS_NO_SUCH_FILE
  | Some c =>
      modify (fun s => Pull.set_flags (ndr_set_flags (Pull.flags s) LIBNDR_FLAG_NOALIGN) s);;
      do i <- (if isset ndr_flags NDR_SCALARS then do i <- pull_instance_scalars c (w_instance r); ret (Some i)
               else ret (w_instance r));
      if isset ndr_flags NDR_BUFFERS then
        do i <- deref i;
        do class <- pull_relative_string (i_CLASS i);
        do data <- collect (Z.to_nat (c_PROPERTY_COUNT c)) 0 (fun k =>
          do v <- nth_of (i_data i) k; ndr_pull_CIMVAR NDR_BUFFERS (element (i_data_at i) k) v);
        ret (set_instance (Some (Instance_ (i_u1_0 i) class (i_default_flags i) (i_data_at i) data (i_u2_4 i) (i_u3_1 i))) r)
      else ret (set_instance i r)
  end.

(** *** Objects *)

Definition when_ {S} (b : bool) (m : M S unit) : M S unit := if b then m else ret tt.

(** The flags of the state stay changed here too, and those of the call are ignored. *)
Definition ndr_push_WbemClassObject (r : WbemClassObject) : M ndr_push unit :=
  modify (fun s => Push.set_flags (ndr_set_flags (Push.flags s) LIBNDR_FLAG_NOALIGN) s);;
  NdrPush.ndr_push_uint8 A (w_flags r);;
  when_ (isset (w_flags r) WCF_CLASS)
    (ndr_push_CIMSTRING NDR_SCALARS (w_SERVER r);; ndr_push_CIMSTRING NDR_SCALARS (w_NAMESPACE r));;
  when_ (isset (w_flags r) WCF_DECORATIONS)
    (ndr_push_DataWithStack (fun f => ndr_push_WbemClass f (w_sup_class r));;
     ndr_push_DataWithStack (fun f => ndr_push_WbemMethods f (w_sup_methods r)));;
  when_ (isset (w_flags r) (Z.lor WCF_CLASS WCF_INSTANCE))
    (ndr_push_DataWithStack (fun f => ndr_push_WbemClass f (w_obj_class r)));;
  when_ (isset (w_flags r) WCF_DECORATIONS)
    (ndr_push_DataWithStack (fun f => ndr_push_WbemMethods f (w_obj_methods r)));;
  when_ (isset (w_flags r) WCF_INSTANCE)
    (ndr_push_DataWithStack (fun f => ndr_push_WbemInstance_priv f r)).

(** talloc_zero of a structure; NDR_PULL_SET_MEM_CTX refuses the null pointer. *)
Definition talloc_zero {B} (zero : B) : M ndr_pull (option B) :=
  NdrPull.NDR_PULL_ALLOC A;; ret (Some zero).
Definition methods_zero : WbemMethods CIMVAR WbemClassObject := Methods 0 0 [].

Definition pull_class : M ndr_pull (option (WbemClass CIMVAR)) :=
  do c <- talloc_zero class_zero; ndr_pull_DataWithStack ndr_pull_WbemClass c.
Definition pull_methods : M ndr_pull (option (WbemMethods CIMVAR WbemClassObject)) :=
  do m <- talloc_zero methods_zero; ndr_pull_DataWithStack ndr_pull_WbemMethods m.
Definition pull_instance (r : WbemClassObject) : M ndr_pull WbemClassObject :=
  do i <- talloc_zero instance_zero; ndr_pull_DataWithStack ndr_pull_WbemInstance_priv (set_instance i r).
Definition pull_names (flags : Z) (r : WbemClassObject) : M ndr_pull (CIMSTRING * CIMSTRING) :=
  if isset flags WCF_CLASS then
    do server <- ndr_pull_CIMSTRING NDR_SCALARS (w_SERVER r);
    do namespace <- ndr_pull_CIMSTRING NDR_SCALARS (w_NAMESPACE r);
    ret (server, namespace)
  else ret (w_SERVER r, w_NAMESPACE r).

Definition ndr_pull_WbemClassObject (r : WbemClassObject) : M ndr_pull WbemClassObject :=
  modify (fun s => Pull.set_flags (ndr_set_flags (Pull.flags s) LIBNDR_FLAG_NOALIGN) s);;
  do flags <- NdrPull.ndr_pull_uint8;
  do (server, namespace) <- pull_names flags r;
  do (sup_class, sup_methods) <-
    (if isset flags WCF_DECORATIONS then do c <- pull_class; do m <- pull_methods; ret (c, m)
     else ret (None, w_sup_methods r));
  do obj_class <- (if isset flags (Z.lor WCF_CLASS WCF_INSTANCE) then pull_class else ret (w_obj_class r));
  do obj_methods <- (if isset flags WCF_DECORATIONS then pull_methods else ret (w_obj_methods r));
  let r i := ClassObject (w_at r) flags server namespace sup_class sup_methods obj_class obj_methods i in
  if isset flags WCF_INSTANCE then pull_instance (r None) else ret (r None).

(** An instance of a class the object has already. *)
Definition ndr_pull_WbemClassObject_Object (r : WbemClassObject) : M ndr_pull WbemClassObject :=
  modify (fun s => Pull.set_flags (ndr_set_flags (Pull.flags s) LIBNDR_FLAG_NOALIGN) s);;
  do flags <- NdrPull.ndr_pull_uint8;
  do (server, namespace) <- pull_names flags r;
  let r i := ClassObject (w_at r) flags server namespace (w_sup_class r) (w_sup_methods r) (w_obj_class r) (w_obj_methods r) i in
  if isset flags WCF_INSTANCE then pull_instance (r None) else ret (r None).
End cim.
End Cim.
