(* ===== verification/CimWire.v ===== *)
(** The marshalling of ndr_dcom.c: arrays of strings and framed structures are read back as
    they were written, and the names of qualifiers that are sent as numbers. *)

From stdpp Require Import strings.
From S2P Require Import Prelude Digest Byteorder Ntstatus Iconv Charcnv Msrpc Cnum DomSid Ndr NdrPull NdrPush NdrWire NdrSafe NdrString NdrText Cim.
Import Byteorder Iconv Charcnv Ndr NdrString Cim.

#[local] Open Scope outcome_scope.
#[local] Open Scope ndr_scope.

Lemma nth_of_Some {S B} (l : list B) i x (s : S) : l !! i = Some x -> nth_of l i s = Ret (Good x, s).
Proof. unfold nth_of. by intros ->. Qed.

(** ** Writing over what has been written *)

Section patching.
Context (A : Allocator) (mem : malloc_always A).
Import NdrPush Push.
Implicit Types s : ndr_push.

(** [s'] is [s] with other bytes before the same offset. *)
Definition rewrote s (bs : list Z) s' : Prop :=
  exists d al a, s' = moved s d al (offset s) a /\ ready s' /\ written s' = bs.

(** Room that keeps all that the buffer holds. *)
Lemma expand_data s n :
  ready s -> 0 <= n -> n <= offset s -> room s 0 ->
  exists d al a junk, ndr_push_expand A n s = Ret (Good tt, moved s d al (offset s) a) /\
    d = data s ++ junk /\ Z.of_nat (length d) = al /\ alloc_size s <= al < MAX_TALLOC_SIZE.
Proof.
  intros (Hl & Ho & Ha) Hn Hno Hroom. unfold room, NDR_BASE_MARSHALL_SIZE, MAX_TALLOC_SIZE in *.
  unfold ndr_push_expand. destruct (Z.ltb_spec n (alloc_size s)).
  - exists (data s), (alloc_size s), (allocs s), []. rewrite moved_self, app_nil_r. split_and!; [done..|lia|lia].
  - assert (n = alloc_size s) as -> by lia. unfold add32, NDR_BASE_MARSHALL_SIZE. rewrite !u32_id by (unfold is_u; lia).
    assert ((alloc_size s + 1024 <? alloc_size s + 1) = false) as -> by (apply Z.ltb_ge; lia).
    assert ((0 <? alloc_size s + 1024) && (alloc_size s + 1024 <? MAX_TALLOC_SIZE) = true) as -> by (unfold MAX_TALLOC_SIZE; lia).
    rewrite mem. cbn [andb].
    exists (resize A (alloc_size s + 1024) (data s)), (alloc_size s + 1024), (S (allocs s)),
      (replicate (Z.to_nat (alloc_size s + 1024) - length (data s)) (@uninit A)).
    split_and!; [done| | |lia|lia].
    + unfold resize. rewrite take_ge by lia. done.
    + unfold resize. rewrite length_app, length_take, length_replicate. lia.
Qed.

Lemma expand_offset n o s :
  ndr_push_expand A n (set_offset o s) = let* r := ndr_push_expand A n s in Ret (r.1, set_offset o r.2).
Proof.
  unfold ndr_push_expand. cbn [set_offset alloc_size]. destruct (n <? alloc_size s); [done|].
  cbn [set_alloc_size set_offset allocs]. by destruct (_ && _ && _).
Qed.

Lemma splice_prefix i (new l l' : list Z) :
  (i + length new <= length l)%nat -> splice i new (l ++ l') = splice i new l ++ l'.
Proof. intros Hi. unfold splice. by rewrite take_app_le, drop_app_le, <- !app_assoc by lia. Qed.

(** The middle of three parts. *)
Lemma splice_middle (a old new b : list Z) :
  length old = length new -> splice (length a) new (a ++ old ++ b) = a ++ new ++ b.
Proof. intros Hl. by rewrite splice_app, drop_app_length' by done. Qed.

Lemma patch_spec ofs v s :
  ready s -> room s 0 -> isset (flags s) LIBNDR_FLAG_NOALIGN = true -> 0 <= ofs -> ofs + 4 <= offset s ->
  exists s', patch A ofs v s = Ret (Good tt, s') /\ rewrote s (splice (Z.to_nat ofs) (word (flags s) 4 v) (written s)) s'.
Proof.
  intros Hr Hroom Hf Hofs Hle. pose proof Hr as (Hl & Ho & Ha). unfold room, NDR_BASE_MARSHALL_SIZE, MAX_TALLOC_SIZE in Hroom, Ha.
  destruct (expand_data s (ofs + 4)) as (d & al & a & junk & E & Hd & Hal & Hb); [done|lia|done|done|].
  unfold MAX_TALLOC_SIZE in Hb.
  assert (ndr_push_expand A (ofs + 4) (set_offset ofs s) = Ret (Good tt, moved s d al ofs a)) as E'.
  { by rewrite expand_offset, E. }
  unfold patch. unfold bind at 1, get at 1. cbn [obind fst snd]. unfold bind at 1, modify at 1. cbn [obind fst snd].
  unfold NdrPush.ndr_push_uint32, NDR_PUSH_ALIGN, id. unfold bind at 1. unfold bind at 1. unfold bind at 1, get at 1. cbn [obind fst snd].
  change (flags (set_offset ofs s)) with (flags s). rewrite Hf. unfold ret at 1. cbn [obind fst snd].
  unfold put_value, NDR_PUSH_NEED_BYTES. unfold bind at 1. unfold bind at 1. unfold get at 1. cbn [obind fst snd].
  change (offset (set_offset ofs s)) with ofs. unfold add32 at 1. rewrite u32_id by (unfold is_u; lia). rewrite E'. cbn [obind fst snd].
  unfold bind at 1, get at 1. cbn [obind fst snd]. change (offset (moved s d al ofs a)) with ofs. unfold bind at 1.
  assert (Z.of_nat (length d) >= ofs + 4) as Hge by lia.
  pose proof (stores_word4 v (moved s d al ofs a)) as Es. cbn [moved data alloc_size offset flags] in Es. rewrite length_word in Es.
  assert (NDR_SIVAL ofs v (moved s d al ofs a) =
    Ret (Good tt, set_data (splice (Z.to_nat ofs) (word (flags s) 4 v) d) (moved s d al ofs a))) as Ew.
  { unfold NDR_SIVAL, bind, get, store. cbn [obind fst snd moved flags data]. rewrite decide_True by lia. unfold word.
    destruct (big_endian (flags s)); [rewrite RSIVAL_splice by lia|rewrite SIVAL_splice by lia]; done. }
  clear Es. rewrite Ew. cbn [obind fst snd]. unfold modify. cbn [obind fst snd].
  eexists. split; [done|]. exists (splice (Z.to_nat ofs) (word (flags s) 4 v) d), al, a.
  assert (length (splice (Z.to_nat ofs) (word (flags s) 4 v) d) = length d) as Hlen by (apply length_splice; rewrite length_word; lia).
  split_and!.
  - done.
  - unfold ready, MAX_TALLOC_SIZE. cbn [set_offset set_data moved data alloc_size offset]. lia.
  - unfold written. cbn [set_offset set_data moved data offset].
    rewrite Hd. rewrite <- (take_drop (Z.to_nat (offset s)) (data s)), <- app_assoc.
    assert (length (take (Z.to_nat (offset s)) (data s)) = Z.to_nat (offset s)) as Hw by (rewrite length_take; lia).
    rewrite splice_prefix by (rewrite Hw, length_word; lia).
    rewrite take_app_le by (rewrite length_splice; rewrite ?Hw, ?length_word; lia).
    rewrite take_ge by (rewrite length_splice; rewrite ?Hw, ?length_word; lia).
    by rewrite take_drop.
Qed.
End patching.

(** ** Arrays of strings *)

(** Flags that the byte they are kept in can hold: those of a structure that is not aligned. *)
Definition plain_flags (fl : Z) : Prop := fl = LIBNDR_FLAG_NOALIGN \/ fl = Z.lor LIBNDR_FLAG_NOALIGN LIBNDR_FLAG_BIGENDIAN.

(** Text that is the same in the charset of the wire. *)
Definition plain_text (l : list Z) : Prop := Forall ascii_char l /\ Forall (fun b => b <> 0) l /\ (length l < 1024)%nat.

#[export] Instance plain_text_dec l : Decision (plain_text l).
Proof. unfold plain_text, ascii_char. apply _. Defined.

(** A string is a charset, its bytes and a terminator; in an array its length follows. *)
Definition string_wire (l : list Z) : list Z := 0 :: l ++ [0].
Definition entry_wire (fl : Z) (l : list Z) : list Z := string_wire l ++ word fl 4 (Z.of_nat (length l) + 2).
Definition entries_wire (fl : Z) (ls : list (list Z)) : list Z := concat (map (entry_wire fl) ls).
(** The array starts with its size. *)
Definition strings_wire (fl : Z) (ls : list (list Z)) : list Z :=
  word fl 4 (Z.of_nat (length (entries_wire fl ls)) + 4) ++ entries_wire fl ls.

Lemma plain_noalign fl : plain_flags fl -> isset fl LIBNDR_FLAG_NOALIGN = true.
Proof. by intros [-> | ->]. Qed.
Lemma plain_u8 fl : plain_flags fl -> u8 fl = fl.
Proof. by intros [-> | ->]. Qed.
Lemma plain_selects fl :
  plain_flags fl -> selects (Z.lor fl (Z.lor LIBNDR_FLAG_STR_ASCII LIBNDR_FLAG_STR_NULLTERM)) true F_nullterm.
Proof. by intros [-> | ->]. Qed.

Lemma length_string_wire l : length (string_wire l) = (length l + 2)%nat.
Proof. unfold string_wire. cbn [length]. rewrite length_app. cbn [length]. lia. Qed.

Lemma plain_bytes l : plain_text l -> bytes (l ++ [0]).
Proof.
  intros (Ha & _). apply Forall_app. split; [|by repeat constructor].
  apply (List.Forall_impl _ (P := ascii_char)); [|exact Ha]. intros c Hc. unfold ascii_char in Hc. unfold is_u. lia.
Qed.

Lemma padding_noalign fl n o : isset fl LIBNDR_FLAG_NOALIGN = true -> padding fl n o = 0%nat.
Proof. unfold padding. by intros ->. Qed.

Lemma wires_bytes fl o w : wires fl o [I_bytes w] = w.
Proof.
  cbn [wires]. unfold wire, padding. cbn [item_align encode]. rewrite Z.mod_1_r. destruct (isset _ _); cbn [replicate app Z.to_nat]; apply app_nil_r.
Qed.

Section strings.
Context `{Charsets} (unix8 : unix_is_utf8) (dos : Msrpc.dos_is_ascii) (A : Allocator) (mem : malloc_always A).

Lemma plain_is_string fl l : plain_text l -> is_string true F_nullterm fl l (l ++ [0]).
Proof. intros (Ha & Hz & Hl). by apply is_string_ascii. Qed.

Section push.
Import Push.
Implicit Types s : ndr_push.

Lemma wrote_word s v :
  isset (flags s) LIBNDR_FLAG_NOALIGN = true -> ready s -> room s 4 ->
  exists s', NdrPush.ndr_push_uint32 A v s = Ret (Good tt, s') /\ wrote s (word (flags s) 4 v) s'.
Proof.
  intros Hf Hr Hroom.
  pose proof (writes_aligned A mem 4 4 (fun o => NdrPush.NDR_SIVAL o v) (fun fl => word fl 4 v)) as Hw.
  destruct (Hw ltac:(unfold is_align; auto) (stores_word4 v) ltac:(intros; apply length_word) s Hr) as (s' & E & W).
  - by rewrite padding_noalign, length_app, length_replicate, length_word by done.
  - exists s'. split; [exact E|]. by rewrite padding_noalign in W.
Qed.

Lemma push_cimstring l p s :
  plain_flags (flags s) -> plain_text l -> ready s -> room s (length (string_wire l)) ->
  exists s', ndr_push_CIMSTRING A NDR_SCALARS (Some (Cstr p l)) s = Ret (Good tt, s') /\ wrote s (string_wire l) s'.
Proof.
  intros Hf Ht Hr Hroom. rewrite length_string_wire in Hroom.
  unfold ndr_push_CIMSTRING. change (isset NDR_SCALARS NDR_SCALARS) with true. cbv iota.
  destruct (writes_uint8 A mem 0 s Hr) as (s1 & E1 & W1); [apply (room_le _ _ _ Hroom); cbn; lia|].
  unfold bind at 1. rewrite E1. cbn [obind fst snd]. unfold bind at 1, get at 1. cbn [obind fst snd].
  unfold bind at 1, modify at 1. cbn [obind fst snd].
  pose proof (wrote_flags _ _ _ W1) as F1. pose proof (wrote_offset _ _ _ W1) as O1. pose proof (wrote_ready _ _ _ W1) as R1.
  set (s2 := set_flags (Z.lor (flags s1) _) s1).
  assert (selects (flags s2) true F_nullterm) as Hs by (unfold s2; cbn [set_flags flags]; rewrite F1; by apply plain_selects).
  destruct (plain_is_string (flags s2) l Ht) as (Htr & Hc & Hlen & _).
  destruct (writes_items A mem (string_items true F_nullterm (l ++ [0])) ltac:(repeat constructor; by apply plain_bytes)
    (set_allocs (S (allocs s2)) s2)) as (s3 & E3 & W3).
  - exact R1.
  - unfold room in *. cbn [set_allocs set_flags s2 offset flags]. cbn [string_items]. rewrite wires_bytes, length_app. cbn [length] in *. lia.
  - cbn [string_items] in E3, W3. rewrite wires_bytes in W3.
    change (chars <$> Some (Cstr p l)) with (Some l). unfold bind at 1, attempt at 1. rewrite (push_string_items A mem true F_nullterm l (l ++ [0]) s2 Hs Htr Hc Hlen).
    cbn [string_items]. rewrite E3. cbn [obind fst snd]. unfold bind, modify. cbn [obind fst snd].
    eexists. split; [done|]. rewrite F1, (plain_u8 _ Hf).
    destruct W1 as (d1 & al1 & a1 & -> & _ & V1). destruct W3 as (d3 & al3 & a3 & -> & R3 & V3).
    exists d3, al3, a3. split_and!.
    + unfold string_wire, moved, s2, set_flags, set_allocs. cbn. f_equal. lia.
    + exact R3.
    + etrans; [exact V3|]. etrans; [apply (f_equal (fun x => x ++ _)); exact V1|]. by rewrite <- app_assoc.
Qed.

Definition push_entry (item : list CIMSTRING) (i : nat) : M ndr_push unit :=
  do c <- nth_of item i;
  do ofs <- get offset;
  ndr_push_CIMSTRING A NDR_SCALARS c;;
  do o <- get offset;
  NdrPush.ndr_push_uint32 A (u32 (o - ofs)).

Lemma length_entry_wire fl l : length (entry_wire fl l) = (length l + 6)%nat.
Proof. unfold entry_wire. rewrite length_app, length_string_wire, length_word. lia. Qed.

Lemma push_entry_spec (item : list CIMSTRING) i c s :
  item !! i = Some (Some c) -> plain_flags (flags s) -> plain_text (chars c) -> ready s ->
  room s (length (entry_wire (flags s) (chars c))) ->
  exists s', push_entry item i s = Ret (Good tt, s') /\ wrote s (entry_wire (flags s) (chars c)) s'.
Proof.
  intros Hi Hf Ht Hr Hroom. destruct c as [p l]. cbn [chars] in *. rewrite length_entry_wire in Hroom.
  destruct (push_cimstring l p s Hf Ht Hr) as (s1 & E1 & W1); [apply (room_le _ _ _ Hroom); rewrite length_string_wire; lia|].
  pose proof (wrote_flags _ _ _ W1) as F1. pose proof (wrote_offset _ _ _ W1) as O1. pose proof (wrote_ready _ _ _ W1) as R1.
  rewrite length_string_wire in O1.
  destruct (wrote_word s1 (Z.of_nat (length l) + 2)) as (s2 & E2 & W2);
    [rewrite F1; by apply plain_noalign|done|unfold room in *; lia|].
  exists s2. split; [|rewrite F1 in W2; exact (wrote_app _ _ _ _ _ W1 W2)].
  unfold push_entry. unfold bind at 1. rewrite (nth_of_Some _ _ _ _ Hi). cbn [obind fst snd].
  unfold bind at 1, get at 1. cbn [obind fst snd]. unfold bind at 1. rewrite E1. cbn [obind fst snd].
  unfold bind, get. cbn [obind fst snd]. rewrite O1. replace (offset s + Z.of_nat (length l + 2) - offset s) with (Z.of_nat (length l) + 2) by lia.
  rewrite u32_id; [exact E2|]. destruct Ht as (_ & _ & Hl). unfold is_u. lia.
Qed.

Lemma push_entries (cs : list cstr) : forall (pre : list cstr) s,
  plain_flags (flags s) -> Forall (fun c => plain_text (chars c)) cs -> ready s ->
  room s (length (entries_wire (flags s) (map chars cs))) ->
  exists s', for_each (length cs) (length pre) (push_entry (map Some (pre ++ cs))) s = Ret (Good tt, s') /\
    wrote s (entries_wire (flags s) (map chars cs)) s'.
Proof.
  induction cs as [|c cs IH]; intros pre s Hf Ht Hr Hroom.
  - exists s. split; [done|by apply wrote_nil].
  - apply Forall_cons_iff in Ht as [Hc Ht]. cbn [map length for_each] in *.
    unfold entries_wire in Hroom |- *. cbn [map concat] in Hroom |- *. rewrite length_app in Hroom.
    destruct (push_entry_spec (map Some (pre ++ c :: cs)) (length pre) c s) as (s1 & E1 & W1);
      [by rewrite list_lookup_fmap, lookup_app_r, Nat.sub_diag by lia|done|done|done|apply (room_le _ _ _ Hroom); lia|].
    pose proof (wrote_flags _ _ _ W1) as F1. pose proof (wrote_offset _ _ _ W1) as O1.
    destruct (IH (pre ++ [c]) s1) as (s2 & E2 & W2).
    + by rewrite F1.
    + done.
    + exact (wrote_ready _ _ _ W1).
    + unfold room, entries_wire in *. rewrite O1, F1. lia.
    + exists s2. rewrite F1 in W2. split; [|exact (wrote_app _ _ _ _ _ W1 W2)].
      unfold bind. rewrite E1. cbn [obind fst snd]. rewrite <- app_assoc, length_app, Nat.add_comm in E2. exact E2.
Qed.

(** The array, which is written at once: its size is known at the end. *)
Lemma push_cimstrings (cs : list cstr) s :
  plain_flags (flags s) -> Forall (fun c => plain_text (chars c)) cs -> ready s ->
  room s (length (strings_wire (flags s) (map chars cs))) ->
  exists s', ndr_push_CIMSTRINGS A NDR_SCALARS (Strings (Z.of_nat (length cs)) (map Some cs)) s = Ret (Good tt, s') /\
    wrote s (strings_wire (flags s) (map chars cs)) s'.
Proof.
  intros Hf Ht Hr Hroom. unfold strings_wire in Hroom. rewrite length_app, length_word in Hroom.
  pose proof (plain_noalign _ Hf) as Hn.
  destruct (wrote_word s 0 Hn Hr) as (s1 & E1 & W1); [apply (room_le _ _ _ Hroom); lia|].
  pose proof (wrote_flags _ _ _ W1) as F1. pose proof (wrote_offset _ _ _ W1) as O1. rewrite length_word in O1.
  destruct (push_entries cs [] s1) as (s2 & E2 & W2).
  { by rewrite F1. } { done. } { exact (wrote_ready _ _ _ W1). } { unfold room in *. rewrite O1, F1. lia. }
  rewrite F1 in W2. pose proof (wrote_app _ _ _ _ _ W1 W2) as W.
  pose proof (wrote_flags _ _ _ W) as F. pose proof (wrote_offset _ _ _ W) as O. pose proof (wrote_ready _ _ _ W) as R.
  rewrite length_app, length_word in O. pose proof Hr as (_ & Ho & _).
  set (E := entries_wire (flags s) (map chars cs)) in *.
  destruct (patch_spec A mem (offset s) (Z.of_nat (length E) + 4) s2) as (s3 & E3 & (d & al & a & -> & R3 & W3)).
  { done. } { unfold room in *. lia. } { by rewrite F. } { lia. } { lia. }
  exists (moved s2 d al (offset s2) a). split.
  - unfold ndr_push_CIMSTRINGS. change (isset NDR_SCALARS NDR_SCALARS) with true. cbv iota. cbn [s_count s_item].
    rewrite Nat2Z.id. unfold bind at 1, get at 1. cbn [obind fst snd]. unfold bind at 1. rewrite E1. cbn [obind fst snd].
    unfold bind at 1. change (for_each _ _ _ s1) with (for_each (length cs) 0 (push_entry (map Some cs)) s1).
    cbn [length app] in E2. rewrite E2. cbn [obind fst snd]. unfold bind, get. cbn [obind fst snd].
    rewrite O. replace (offset s + Z.of_nat (4 + length E) - offset s) with (Z.of_nat (length E) + 4) by lia.
    unfold room, NdrPush.NDR_BASE_MARSHALL_SIZE, MAX_TALLOC_SIZE in Hroom. rewrite u32_id by (unfold is_u; lia). rewrite <- O. exact E3.
  - destruct W as (d2 & al2 & a2 & -> & _ & V2). exists d, al, a. split_and!.
    + unfold moved. cbn. unfold strings_wire. fold E. rewrite !length_app, !length_word. done.
    + exact R3.
    + rewrite W3, V2. cbn [moved flags]. unfold strings_wire. fold E.
      replace (Z.to_nat (offset s)) with (length (written s)) by (pose proof (length_written s Hr); lia).
      apply splice_middle. by rewrite !length_word.
Qed.
End push.

Section pull.
Import Pull.
Implicit Types s : ndr_pull.

(** Past [n] bytes, after [k] allocations. *)
Definition went s (n k : nat) : ndr_pull := set_allocs k (past s n).

Lemma went_went s n k m j : went (went s n k) m j = went s (n + m) j.
Proof. unfold went, past, set_offset, set_allocs. cbn. f_equal. lia. Qed.
Lemma went_self s : went s 0 (allocs s) = s.
Proof. unfold went. rewrite past_0. by destruct s. Qed.
Lemma ahead_went s n k l : ahead (past s n) l -> ahead (went s n k) l.
Proof. done. Qed.
Lemma went_flags s n k : flags (went s n k) = flags s.
Proof. done. Qed.

Lemma read_word v s rest :
  plain_flags (flags s) -> is_u32 v -> ahead s (word (flags s) 4 v ++ rest) ->
  NdrPull.ndr_pull_uint32 s = Ret (Good v, past s 4) /\ ahead (past s 4) rest.
Proof.
  intros Hf Hv Ha. pose proof (plain_noalign _ Hf) as Hn. apply ahead_app in Ha as [Ha Hr]. rewrite length_word in Hr.
  split; [|done].
  assert (wire (flags s) (offset s) (I_uint32 v) = word (flags s) 4 v) as E by (unfold wire; by rewrite padding_noalign).
  pose proof (reads_uint32 v Hv s) as Hw. cbv beta in Hw. rewrite E, length_word in Hw. by apply Hw.
Qed.

Lemma pull_cimstring l old s rest :
  plain_flags (flags s) -> plain_text l -> ahead s (string_wire l ++ rest) ->
  exists p k, ndr_pull_CIMSTRING A NDR_SCALARS old s = Ret (Good (Some (Cstr p l)), went s (length (string_wire l)) k) /\
    ahead (went s (length (string_wire l)) k) rest.
Proof.
  intros Hf Ht Ha. pose proof (ahead_app _ _ _ Ha) as [_ Ar]. unfold string_wire in Ha. cbn [app] in Ha.
  unfold ndr_pull_CIMSTRING. change (isset NDR_SCALARS NDR_SCALARS) with true. cbv iota.
  change (0 :: (l ++ [0]) ++ rest) with ([u8 0] ++ (l ++ [0]) ++ rest) in Ha.
  destruct (reads_then NdrPull.ndr_pull_uint8 (fun u =>
    if u =? 0 then do c <- pull_with_flags A (Z.lor LIBNDR_FLAG_STR_ASCII LIBNDR_FLAG_STR_NULLTERM); ret (Some c)
    else if u =? 1 then do c <- pull_with_flags A LIBNDR_FLAG_STR_NULLTERM; ret (Some c)
    else bad NT_STATUS_NOT_SUPPORTED) _ 0 s _ (reads_uint8 0 ltac:(done)) Ha) as [E1 A1].
  cbn [length] in E1, A1. rewrite E1. cbn [Z.eqb]. cbv iota. unfold pull_with_flags.
  unfold bind at 1. unfold bind at 1, get at 1. cbn [obind fst snd]. unfold bind at 1, modify at 1. cbn [obind fst snd].
  set (s2 := set_flags (Z.lor (flags (past s 1)) _) (past s 1)).
  assert (selects (flags s2) true F_nullterm) as Hs by (by apply plain_selects).
  apply ahead_app in A1 as [A1 _].
  destruct (pull_string_items A mem true F_nullterm l (l ++ [0]) s2 (past s2 (length (l ++ [0])))) as (a & E2 & _).
  { done. } { by apply plain_is_string. }
  { split; cbn [string_items]; rewrite wires_bytes; done. }
  exists (At a 0), (S (allocs s)). split; [|done].
  unfold bind at 1, attempt at 1. rewrite E2. cbn [obind fst snd]. unfold bind, modify, ret. cbn [obind fst snd].
  change (flags (past s 1)) with (flags s). rewrite (plain_u8 _ Hf). do 2 f_equal.
  rewrite length_string_wire, length_app. unfold went, counted, past, s2, set_offset, set_allocs, set_flags. cbn. f_equal. lia.
Qed.

Lemma alloc_array_spec n s :
  0 <= n < 2 ^ 25 -> NdrPull.alloc_array A 8 n s = Ret (Good (At (allocs s) 0), went s 0 (S (allocs s))).
Proof.
  intros Hn. unfold NdrPull.alloc_array. assert ((n <? MAX_TALLOC_SIZE / 8) = true) as ->.
  { apply Z.ltb_lt. change (MAX_TALLOC_SIZE / 8) with (2 ^ 25). lia. }
  unfold NdrPull.alloc. rewrite mem. unfold went. by rewrite past_0.
Qed.

Lemma pull_entries ls : forall fuel endofs len count item s rest,
  item <> NULL -> plain_flags (flags s) -> Forall plain_text ls -> ahead s (entries_wire (flags s) ls ++ rest) ->
  endofs = offset s + Z.of_nat (length (entries_wire (flags s) ls)) -> (length ls < fuel)%nat ->
  0 <= count <= len -> count + Z.of_nat (length ls) < 2 ^ 24 ->
  exists cs k, pull_cimstrings A fuel endofs len count item s
      = Ret (Good (map Some cs), went s (length (entries_wire (flags s) ls)) k) /\ map chars cs = ls.
Proof.
  induction ls as [|l ls IH]; intros fuel endofs len count item s rest Hi Hf Ht Ha He Hfuel Hc Hm;
    (destruct fuel as [|fuel]; [cbn in Hfuel; lia|]); cbn [pull_cimstrings]; unfold bind at 1, get at 1; cbn [obind fst snd].
  - cbn in He. assert ((offset s <? endofs) = false) as -> by lia.
    exists [], (allocs s). cbn. by rewrite went_self.
  - apply Forall_cons_iff in Ht as [Hl Ht]. unfold entries_wire in He, Ha |- *. cbn [map concat length] in He, Ha, Hm, Hfuel |- *.
    assert ((offset s <? endofs) = true) as ->.
    { apply Z.ltb_lt. rewrite He, length_app, length_entry_wire. lia. }
    assert (exists k, (if len <=? count then NdrPull.alloc_array A 8 (len + 3) else ret item) s
      = Ret (Good (if len <=? count then At (allocs s) 0 else item), went s 0 k)) as [k0 E0].
    { destruct (Z.leb_spec len count).
      - eexists. apply alloc_array_spec. lia.
      - exists (allocs s). by rewrite went_self. }
    unfold bind at 1. rewrite E0. cbn [obind fst snd].
    unfold entry_wire in Ha. rewrite <- !app_assoc in Ha.
    destruct (pull_cimstring l None (went s 0 k0) (word (flags s) 4 (Z.of_nat (length l) + 2) ++ entries_wire (flags s) ls ++ rest)) as (p & k1 & E1 & A1);
      [done|done|by apply ahead_went; rewrite past_0|].
    unfold bind at 1. rewrite E1. cbn [obind fst snd]. rewrite went_went in *. cbn [Nat.add] in *.
    rewrite decide_False by (by case_match).
    destruct (read_word (Z.of_nat (length l) + 2) (went s (length (string_wire l)) k1) (entries_wire (flags s) ls ++ rest)) as [E2 A2].
    { done. } { destruct Hl as (_ & _ & Hl). unfold is_u. lia. } { done. }
    unfold bind at 1. rewrite E2. cbn [obind fst snd].
    destruct (IH fuel endofs (if len <=? count then len + 3 else len) (count + 1) (if len <=? count then At (allocs s) 0 else item)
      (past (went s (length (string_wire l)) k1) 4) rest) as (cs & k & E3 & Hcs).
    { by case_match. } { done. } { done. } { done. }
    { rewrite He. change (flags (past (went s _ k1) 4)) with (flags s). unfold past, went, set_offset, set_allocs. cbn [offset].
      rewrite length_app, length_entry_wire, length_string_wire. unfold entries_wire, past, set_offset. cbn [offset]. lia. }
    { lia. } { destruct (Z.leb_spec len count); lia. } { lia. }
    exists (Cstr p l :: cs), k. cbn [map]. rewrite Hcs. split; [|done].
    unfold bind. rewrite E3. cbn [obind fst snd ret]. unfold ret. do 2 f_equal.
    change (flags (past (went s _ k1) 4)) with (flags s).
    change (past (went s (length (string_wire l)) k1) 4) with (went (went s (length (string_wire l)) k1) 4 k1).
    rewrite !went_went. f_equal. rewrite length_app, length_entry_wire, length_string_wire. unfold entries_wire. lia.
Qed.

Lemma length_entries fl ls : (length ls <= length (entries_wire fl ls))%nat.
Proof.
  induction ls as [|l ls IH]; [done|]. unfold entries_wire in *. cbn [map concat length]. rewrite length_app, length_entry_wire. lia.
Qed.

Lemma pull_cimstrings_spec ls old s rest :
  plain_flags (flags s) -> Forall plain_text ls -> Z.of_nat (length ls) < 2 ^ 24 ->
  ahead s (strings_wire (flags s) ls ++ rest) ->
  exists cs k, ndr_pull_CIMSTRINGS A NDR_SCALARS old s
      = Ret (Good (Strings (Z.of_nat (length ls)) (map Some cs)), went s (length (strings_wire (flags s) ls)) k) /\ map chars cs = ls.
Proof.
  intros Hf Ht Hn Ha. pose proof (ahead_offset _ _ Ha) as Ho. unfold strings_wire in *. rewrite <- app_assoc in Ha.
  rewrite !length_app, length_word in *.
  destruct (read_word (Z.of_nat (length (entries_wire (flags s) ls)) + 4) s (entries_wire (flags s) ls ++ rest)) as [E1 A1];
    [done|unfold is_u; lia|done|].
  unfold ndr_pull_CIMSTRINGS. change (isset NDR_SCALARS NDR_SCALARS) with true. cbv iota.
  unfold bind at 1. rewrite E1. cbn [obind fst snd]. unfold bind at 1, get at 1. cbn [obind fst snd].
  unfold bind at 1. rewrite alloc_array_spec by lia. cbn [obind fst snd]. unfold bind at 1, get at 1. cbn [obind fst snd].
  change (offset (past s 4)) with (offset s + 4).
  replace (Z.of_nat (length (entries_wire (flags s) ls)) + 4 + (offset s + 4 - 4))
    with (offset s + 4 + Z.of_nat (length (entries_wire (flags s) ls))) by lia. rewrite u32_id by (unfold is_u; lia).
  change (went (past s 4) 0 (S (allocs (past s 4)))) with (went (went s 4 (allocs s)) 0 (S (allocs s))). rewrite went_went.
  destruct (pull_entries ls (S (length (data (went s 4 (S (allocs s)))))) (offset s + 4 + Z.of_nat (length (entries_wire (flags s) ls)))
    5 0 (At (allocs (past s 4)) 0) (went s 4 (S (allocs s))) rest) as (cs & k & E2 & Hcs).
  { done. } { done. } { done. } { done. } { done. }
  { destruct A1 as (pre & post & Hd & _). pose proof (length_entries (flags s) ls).
    change (data (went s 4 _)) with (data (past s 4)). rewrite Hd, !length_app. lia. }
  { lia. } { lia. }
  unfold bind at 1. change (4 + 0)%nat with 4%nat. rewrite E2. cbn [obind fst snd].
  change (flags (went s 4 _)) with (flags s). rewrite went_went.
  assert (length (map Some cs) = length ls) as Hl by (rewrite length_map, <- Hcs, length_map; done).
  destruct ls as [|l ls'] eqn:El.
  - destruct cs; [|done]. exists [], k. split; [|done]. reflexivity.
  - exists cs. eexists. split; [|exact Hcs]. rewrite Hl. unfold shrink. cbn [length].
    change (S (length ls')) with (length (l :: ls')). rewrite <- El in *. 
    unfold bind. rewrite alloc_array_spec by lia. cbn [obind fst snd ret]. unfold ret. rewrite decide_False by done.
    rewrite u32_id by (unfold is_u; lia). rewrite went_went, Nat.add_0_r. done.
Qed.
End pull.

(** An array of strings that ndr_push_CIMSTRINGS marshals, whose sizes are written over
    the place kept for them, is read back by ndr_pull_CIMSTRINGS as it was, wherever it is in
    the data and whatever follows it; reading stops where writing did. *)
Theorem cimstrings_roundtrip (cs : list cstr) (s : ndr_push) :
  plain_flags (Push.flags s) -> Forall (fun c => plain_text (chars c)) cs -> Z.of_nat (length cs) < 2 ^ 24 ->
  ready s -> room s (length (strings_wire (Push.flags s) (map chars cs))) ->
  exists s',
    ndr_push_CIMSTRINGS A NDR_SCALARS (Strings (Z.of_nat (length cs)) (map Some cs)) s = Ret (Good tt, s') /\
    written s' = written s ++ strings_wire (Push.flags s) (map chars cs) /\
    forall p old rest,
      Pull.data p = written s' ++ rest -> Pull.flags p = Push.flags s -> Pull.offset p = Push.offset s ->
      Push.offset s' <= Pull.data_size p < 2 ^ 31 ->
      exists cs' p', ndr_pull_CIMSTRINGS A NDR_SCALARS old p = Ret (Good (Strings (Z.of_nat (length cs)) (map Some cs')), p') /\
        map chars cs' = map chars cs /\ Pull.offset p' = Push.offset s'.
Proof.
  intros Hf Ht Hn Hr Hroom. destruct (push_cimstrings cs s Hf Ht Hr Hroom) as (s' & E & W).
  pose proof (wrote_offset _ _ _ W) as O. pose proof (wrote_written _ _ _ W) as V.
  exists s'. split_and!; [exact E|exact V|]. intros p old rest Hd Hpf Ho Hz.
  destruct (pull_cimstrings_spec (map chars cs) old p []) as (cs' & k & E2 & Hcs).
  - by rewrite Hpf.
  - by apply Forall_map.
  - by rewrite length_map.
  - rewrite app_nil_r, Hpf. exists (written s), rest. rewrite Hd, V, <- app_assoc. split; [done|].
    rewrite (length_written s Hr). lia.
  - rewrite length_map in E2. eexists _, _. split; [exact E2|]. split; [done|]. rewrite O, Hpf. unfold went, past. cbn. lia.
Qed.
End strings.

Definition example_strings : list cstr := [Cstr (At 9 0) [67; 73; 77]; Cstr (At 10 0) []].

Lemma cimstrings_roundtrip_witness :
  exists s',
    @ndr_push_CIMSTRINGS utf8_charsets calloc NDR_SCALARS (Strings 2 (map Some example_strings)) (Push.set_flags 2 example_push) = Ret (Good tt, s') /\
    written s' = [19; 0; 0; 0; 0; 67; 73; 77; 0; 5; 0; 0; 0; 0; 0; 2; 0; 0; 0] /\
    exists cs' p', @ndr_pull_CIMSTRINGS utf8_charsets calloc NDR_SCALARS (Strings 0 []) (Pull.set_flags 2 (NdrPull.ndr_pull_init_blob (written s') 19))
      = Ret (Good (Strings 2 (map Some cs')), p') /\ map chars cs' = [[67; 73; 77]; []] /\ Pull.offset p' = 19.
Proof.
  destruct (@cimstrings_roundtrip utf8_charsets ltac:(by left) ltac:(done) calloc ltac:(done) example_strings (Push.set_flags 2 example_push))
    as (s' & E & W & P); [by left|by_eval|done|by_eval|by_eval|].
  assert (Push.offset s' = 19) as Ho by (revert E; vm_compute; by intros [= <-]).
  exists s'. split; [exact E|]. split; [rewrite W; vm_compute; reflexivity|].
  destruct (P (Pull.set_flags 2 (NdrPull.ndr_pull_init_blob (written s') 19)) (Strings 0 []) []) as (cs' & p' & E1 & E2 & E3);
    [symmetry; apply app_nil_r|reflexivity|reflexivity| |exists cs', p'; split; [exact E1|split; [exact E2|rewrite E3; exact Ho]]].
  rewrite Ho. split; [apply Z.leb_le|apply Z.ltb_lt]; reflexivity.
Defined.

(** ** Framed structures *)

Section frames.
Import Pull.
Implicit Types s : ndr_pull.

(** The word at the offset. *)
Definition word_at s : Z := (if big_endian (flags s) then RIVAL else IVAL) (data s) (Z.to_nat (offset s)).

Lemma word_at_range s : bytes (data s) -> is_u32 (word_at s).
Proof.
  intros Hb. unfold word_at. case_match.
  - apply IREV_range.
  - apply IVAL_range. done.
Qed.

Lemma pull_uint32_inside s :
  inside s -> isset (flags s) LIBNDR_FLAG_NOALIGN = true ->
  NdrPull.ndr_pull_uint32 s =
    if data_size s <? offset s + 4 then Ret (Bad NT_STATUS_BUFFER_TOO_SMALL, s) else Ret (Good (word_at s), past s 4).
Proof.
  intros (Ho & Hd & Hz & Hb) Hn. unfold NdrPull.ndr_pull_uint32, NdrPull.NDR_PULL_ALIGN.
  unfold bind at 1. unfold bind at 1. unfold get at 1. cbn [obind fst snd]. rewrite Hn. unfold bind at 1, ret at 1. cbn [obind fst snd].
  unfold bind at 1, get at 1, id. cbn [obind fst snd]. assert ((data_size s <? offset s) = false) as -> by (apply Z.ltb_ge; lia).
  unfold ret at 1. cbn [obind fst snd]. unfold NdrPull.take_value, NdrPull.NDR_PULL_NEED_BYTES. unfold bind at 1.
  unfold add32 at 1. rewrite u32_id by (unfold is_u; lia).
  destruct (Z.ltb_spec (data_size s) (offset s + 4)).
  - rewrite orb_true_r. done.
  - assert ((data_size s <? 4) = false) as -> by (apply Z.ltb_ge; lia). cbn [orb obind fst snd].
    unfold bind, get, NdrPull.NDR_IVAL, NdrPull.load, NdrPull.advance, modify, ret. unfold bind, get. cbn [obind fst snd].
    rewrite decide_True by lia. cbn [obind fst snd]. unfold past, word_at, add32. rewrite u32_id by (unfold is_u; lia).
    by destruct (big_endian (flags s)).
Qed.

Lemma pull_uint32_at s :
  0 <= offset s -> data_size s <= Z.of_nat (length (data s)) -> data_size s < 2 ^ 31 -> bytes (data s) ->
  isset (flags s) LIBNDR_FLAG_NOALIGN = true ->
  (NdrPull.ndr_pull_uint32 s = Ret (Bad NT_STATUS_BUFFER_TOO_SMALL, s)) \/
  (offset s + 4 <= data_size s /\ NdrPull.ndr_pull_uint32 s = Ret (Good (word_at s), past s 4)).
Proof.
  intros Ho Hd Hz Hb Hn. destruct (Z.le_gt_cases (offset s) (data_size s)) as [Hle|Hgt].
  - rewrite pull_uint32_inside by done. destruct (Z.ltb_spec (data_size s) (offset s + 4)); [by left|right; split; [lia|done]].
  - left. unfold NdrPull.ndr_pull_uint32, NdrPull.NDR_PULL_ALIGN.
    unfold bind at 1. unfold bind at 1. unfold get at 1. cbn [obind fst snd]. rewrite Hn. unfold bind at 1, ret at 1. cbn [obind fst snd].
    unfold bind at 1, get at 1, id. cbn [obind fst snd]. assert ((data_size s <? offset s) = true) as -> by (apply Z.ltb_lt; lia). done.
Qed.

Lemma need_bad n s :
  (data_size s <? n) || (data_size s <? add32 (offset s) n) = true ->
  NdrPull.NDR_PULL_NEED_BYTES n s = Ret (Bad NT_STATUS_BUFFER_TOO_SMALL, s).
Proof. unfold NdrPull.NDR_PULL_NEED_BYTES. by intros ->. Qed.
Lemma need_good n s :
  (data_size s <? n) || (data_size s <? add32 (offset s) n) = false -> NdrPull.NDR_PULL_NEED_BYTES n s = Ret (Good tt, s).
Proof. unfold NdrPull.NDR_PULL_NEED_BYTES. by intros ->. Qed.

(** The size of a frame is checked against what is left, and one that is too small wraps. *)
Lemma frame_size s w :
  0 <= w < 2 ^ 32 -> 0 <= offset s -> offset s + 4 <= data_size s < 2 ^ 31 ->
  (data_size s <? u32 (w - 4)) || (data_size s <? add32 (offset s + 4) (u32 (w - 4))) =
    bool_decide (w < 4 \/ data_size s < offset s + w).
Proof.
  intros Hw Ho Hz. destruct (Z.lt_ge_cases w 4).
  - assert (u32 (w - 4) = w - 4 + 2 ^ 32) as -> by (unfold u32; rewrite <- (Z.mod_unique (w - 4) (2 ^ 32) (-1) (w - 4 + 2 ^ 32)); lia).
    rewrite bool_decide_eq_true_2 by lia. apply orb_true_iff. left. apply Z.ltb_lt. lia.
  - rewrite (u32_id (w - 4)) by (unfold is_u; lia). case_bool_decide as Hc.
    + destruct (Z.ltb_spec (data_size s) (w - 4)); [done|]. cbn [orb]. unfold add32. rewrite u32_id by (unfold is_u; lia). apply Z.ltb_lt. lia.
    + assert ((data_size s <? w - 4) = false) as -> by (apply Z.ltb_ge; lia). cbn [orb].
      unfold add32. rewrite u32_id by (unfold is_u; lia). apply Z.ltb_ge. lia.
Qed.

(** What [fn] keeps when it succeeds. *)
Definition keeps_input {B} (fn : Z -> B -> M ndr_pull B) : Prop :=
  forall f v t w t', fn f v t = Ret (Good w, t') -> same_input t t' /\ 0 <= offset t'.

Lemma pull_stack_spec {B} (fn fn' : Z -> B -> M ndr_pull B) (ndrend end_ : Z) (r : B) (s : ndr_pull) :
  0 <= offset s -> data_size s <= Z.of_nat (length (data s)) -> data_size s < 2 ^ 31 -> bytes (data s) ->
  isset (flags s) LIBNDR_FLAG_NOALIGN = true -> keeps_input fn ->
  (forall f v t, data t = data s -> data_size t <= data_size s -> fn f v t = fn' f v t) ->
  pull_stack fn ndrend end_ r s = pull_stack fn' ndrend end_ r s /\
  match pull_stack fn ndrend end_ r s with
  | Ret (Good _, s') => offset s' = end_ /\ data_size s' = ndrend /\ data s' = data s /\ flags s' = flags s
  | Ret (Bad e, _) => True
  | Fault => exists f v t, data t = data s /\ data_size t <= data_size s /\ fn f v t = Fault
  end.
Proof.
  intros Ho Hd Hz Hb Hn Hfn Hfn'. unfold pull_stack.
  destruct (pull_uint32_at s Ho Hd Hz Hb Hn) as [E|[Hr E]]; [by rewrite !(bind_bad _ _ _ _ _ E)|].
  rewrite !(bind_good _ _ _ _ _ E). destruct (isset (word_at s) 0x80000000); cbn [negb]; [|done].
  set (n := Z.land (word_at s) 0x7FFFFFFF) in *. set (s1 := past s 4).
  destruct ((data_size s1 <? n) || (data_size s1 <? add32 (offset s1) n)) eqn:Ec; [by rewrite !(bind_bad _ _ _ _ _ (need_bad _ _ Ec))|].
  set (s2 := set_relative_base_offset (offset s1) (set_data_size (add32 (offset s1) n) s1)).
  rewrite !(bind_good _ _ _ _ _ (need_good _ _ Ec)).
  rewrite !(bind_good (modify (fun s => set_data_size (add32 (offset s) n) s)) _ s1 tt (set_data_size (add32 (offset s1) n) s1)) by done.
  rewrite !(bind_good (modify (fun s => set_relative_base_offset (offset s) s)) _ _ tt s2) by done.
  apply orb_false_iff in Ec as [_ Ec]. apply Z.ltb_ge in Ec.
  assert (fn NDR_BUFFERS r s2 = fn' NDR_BUFFERS r s2) as Ef by (apply Hfn'; done).
  destruct (fn NDR_BUFFERS r s2) as [[[v|e] t]|] eqn:E2.
  - rewrite (bind_good _ _ _ _ _ E2), (bind_good _ _ _ _ _ (eq_sym Ef)). split; [done|].
    destruct (Hfn _ _ _ _ _ E2) as ((Dt & _ & Ft) & _). split_and!; [done|done|exact Dt|exact Ft].
  - by rewrite (bind_bad _ _ _ _ _ E2), (bind_bad _ _ _ _ _ (eq_sym Ef)).
  - rewrite (bind_fault _ _ _ E2), (bind_fault _ _ _ (eq_sym Ef)). split; [done|]. by exists NDR_BUFFERS, r, s2.
Qed.

End frames.

(** A byte in each half. *)
Definition example_fn (f : Z) (v : list Z) : M ndr_pull (list Z) := do x <- NdrPull.ndr_pull_uint8; ret (v ++ [x]).
(** The same inside the first ten bytes. *)
Definition example_fn' (f : Z) (v : list Z) : M ndr_pull (list Z) := fun t =>
  if Pull.data_size t <=? 10 then example_fn f v t else Fault.
Definition example_frame : ndr_pull :=
  Pull.set_flags 2 (NdrPull.ndr_pull_init_blob [10; 0; 0; 0; 65; 1; 0; 0; 128; 66; 99; 98] 12).

Lemma example_keeps : keeps_input example_fn.
Proof.
  intros f v t w t'. unfold example_fn, NdrPull.ndr_pull_uint8, NdrPull.take_value, NdrPull.NDR_PULL_NEED_BYTES, NdrPull.load,
    NdrPull.advance, bind, get, modify, ret. case_match; [done|]. cbn [obind fst snd]. case_decide; [|done]. cbn [obind fst snd].
  intros [= _ <-]. split; [done|]. unfold add32, u32. cbn [Pull.set_offset Pull.offset]. apply Z.mod_pos_bound. lia.
Qed.


(** ** Names of qualifiers *)

(** The numbers that stand for a name. *)
Definition has_key (k : Z) : bool :=
  match qualifier_keys !! Z.to_nat k with
  | Some (Some _) => true
  | _ => false
  end.

Lemma qualifier_numbers k :
  0 <= k < 256 -> qualifier_number (qualifier_name k) = if has_key k then k else 0.
Proof.
  intros Hk. pose proof (below 256 (fun k => qualifier_number (qualifier_name k) =? if has_key k then k else 0)) as H.
  apply Z.eqb_eq, H; [vm_compute; reflexivity|lia].
Qed.

Lemma name_number name :
  take 7 name <> take 7 qn_unknown -> (forall k, 0 <= k < 256 -> has_key k = true -> name <> qualifier_name k) -> qualifier_number name = -1.
Proof.
  intros Hu Hk. unfold qualifier_number. destruct (list_find _ qualifier_keys) as [[i x]|] eqn:E.
  - exfalso. apply list_find_Some in E as (Ei & Hx & _). cbn in Hx. subst x.
    pose proof (lookup_lt_Some _ _ _ Ei) as Hl. change (length qualifier_keys) with 11%nat in Hl.
    apply (Hk (Z.of_nat i)); [lia| |]; unfold has_key, qualifier_name; by rewrite Nat2Z.id, Ei.
  - by rewrite decide_False.
Qed.

Section names.
Context `{Charsets} (A : Allocator) (mem : malloc_always A).

Lemma pull_known_name k name (p : ndr_pull) :
  0 <= k < 256 -> ndr_token_peek (Pull.relative_list p) (name_at name) = Z.lor 0x80000000 k ->
  pull_qualifier_name A name p =
    Ret (Good (Some (Cstr (At (Pull.allocs p) 0) (qualifier_name k))), Pull.set_allocs (S (Pull.allocs p)) p).
Proof.
  intros Hk Hp. unfold pull_qualifier_name. rewrite (bind_good _ _ p (Z.lor 0x80000000 k) p) by (unfold get; by rewrite Hp).
  assert (isset (Z.lor 0x80000000 k) 0x80000000 = true /\ Z.land (Z.lor 0x80000000 k) 0xFF = k) as [-> ->].
  { pose proof (below 256 (fun k => isset (Z.lor 0x80000000 k) 0x80000000 && (Z.land (Z.lor 0x80000000 k) 0xFF =? k))) as B.
    specialize (B ltac:(vm_compute; reflexivity) k ltac:(lia)). apply andb_true_iff in B as [B1 B2]. apply Z.eqb_eq in B2. done. }
  unfold new_string, NdrPull.alloc, bind. cbn [obind fst snd]. by rewrite mem.
Qed.

Lemma push_numbered_name c (s : ndr_push) i o l :
  qualifier_number (chars c) = i -> 0 <= i -> ready s -> room s 0 -> isset (Push.flags s) LIBNDR_FLAG_NOALIGN = true ->
  ndr_token_find (Push.relative_list s) (at_addr c) = Some (o, l) -> 0 <= o -> o + 4 <= Push.offset s ->
  exists s', push_qualifier_name A c s = Ret (Good tt, s') /\ Push.offset s' = Push.offset s /\
    written s' = splice (Z.to_nat o) (word (Push.flags s) 4 (Z.lor 0x80000000 i)) (written s).
Proof.
  intros Hi H0 Hr Hroom Hf Ht Ho Hle.
  destruct (patch_spec A mem o (Z.lor 0x80000000 i) (Push.set_relative_list l s)) as (s' & E & (d & al & a & -> & R & W)); [done..|].
  eexists. split; [|split; [|exact W]]; [|done].
  unfold push_qualifier_name. rewrite Hi. rewrite (proj2 (Z.leb_le 0 i)) by done.
  rewrite (bind_good (get Push.offset) _ s (Push.offset s) s) by done.
  rewrite (bind_good _ _ s o (Push.set_relative_list l s)) by (unfold NdrPush.ndr_token_retrieve; by rewrite Ht).
  exact E.
Qed.

(** A qualifier that is named by a number below 256 gets the name of the number, and
    marshalling that name again writes the number where the pointer to the name was, if the
    name is one of the five known ones.  The name of an unknown number is marshalled as
    number 0 instead: its digits are looked for at the wrong place.  Any other name, unless
    it begins as the unknown ones do, is sent as text. *)
Theorem qualifier_names_roundtrip (k : Z) (name : CIMSTRING) (p : ndr_pull) :
  0 <= k < 256 -> ndr_token_peek (Pull.relative_list p) (name_at name) = Z.lor 0x80000000 k ->
  (exists c p',
    pull_qualifier_name A name p = Ret (Good (Some c), p') /\ Pull.offset p' = Pull.offset p /\
    forall c' s o l,
      chars c' = chars c -> ready s -> room s 0 -> isset (Push.flags s) LIBNDR_FLAG_NOALIGN = true ->
      ndr_token_find (Push.relative_list s) (at_addr c') = Some (o, l) -> 0 <= o -> o + 4 <= Push.offset s ->
      exists s', push_qualifier_name A c' s = Ret (Good tt, s') /\ Push.offset s' = Push.offset s /\
        written s' = splice (Z.to_nat o) (word (Push.flags s) 4 (Z.lor 0x80000000 (if has_key k then k else 0))) (written s)) /\
  forall c, take 7 (chars c) <> take 7 qn_unknown -> (forall j, 0 <= j < 256 -> has_key j = true -> chars c <> qualifier_name j) ->
    push_qualifier_name A c = (NdrPush.ndr_push_relative_ptr2 A (at_addr c);; ndr_push_CIMSTRING A NDR_SCALARS (Some c)).
Proof.
  intros Hk Hp. split.
  - rewrite (pull_known_name k name p Hk Hp). eexists _, _. split; [done|]. split; [done|].
    intros c' s o l Hc. cbn [chars] in Hc. apply push_numbered_name; [rewrite Hc; by apply qualifier_numbers|case_match; lia].
  - intros c Hu Hj. unfold push_qualifier_name. by rewrite name_number.
Qed.
End names.

Lemma qualifier_names_roundtrip_witness :
  let p := Pull.set_relative_list [(At 3 0, Z.lor 0x80000000 77)] example_frame in
  let s := Push.set_relative_list [(At 4 0, 0)] (Push.set_offset 6 (Push.set_flags 2 example_push)) in
  exists c p' s',
    @pull_qualifier_name utf8_charsets calloc (Some (Cstr (At 3 0) [])) p = Ret (Good (Some c), p') /\
    chars c = DomSid.str "Unknown_qualifier_name77" /\
    @push_qualifier_name utf8_charsets calloc (Cstr (At 4 0) (chars c)) s = Ret (Good tt, s') /\
    written s' = [0; 0; 0; 128; 0; 0].
Proof.
  destruct (@qualifier_names_roundtrip utf8_charsets calloc ltac:(done) 77 (Some (Cstr (At 3 0) []))
    (Pull.set_relative_list [(At 3 0, Z.lor 0x80000000 77)] example_frame)) as [(c & p' & E & _ & P) _]; [lia|reflexivity|].
  assert (chars c = DomSid.str "Unknown_qualifier_name77") as Hc.
  { assert (exists q, @pull_qualifier_name utf8_charsets calloc (Some (Cstr (At 3 0) []))
      (Pull.set_relative_list [(At 3 0, Z.lor 0x80000000 77)] example_frame)
      = Ret (Good (Some (Cstr (At 1 0) (DomSid.str "Unknown_qualifier_name77"))), q)) as [q Eq] by (eexists; vm_compute; reflexivity).
    rewrite Eq in E. injection E as <- _. reflexivity. }
  destruct (P (Cstr (At 4 0) (chars c)) (Push.set_relative_list [(At 4 0, 0)] (Push.set_offset 6 (Push.set_flags 2 example_push))) 0 [])
    as (s' & Es & _ & W); [reflexivity|by_eval|by_eval|reflexivity|reflexivity|lia|vm_compute; discriminate|].
  exists c, p', s'. split; [exact E|]. split; [exact Hc|]. split; [exact Es|]. rewrite W. vm_compute. reflexivity.
Defined.
