(* ===== verification/NdrLoops.v ===== *)
(** The loops of unmarshalling that end where the data says (ndr_pull_string_array,
    ndr_pull_CIMSTRINGS and ndr_pull_WbemQualifiers): every round takes some of the bytes, so that
    fuel for the bytes there are is enough. *)

From S2P Require Import Prelude Digest Byteorder Ntstatus Iconv Charcnv Ndr NdrPull NdrPush NdrWire NdrString Cim.
Import Byteorder Charcnv Ndr NdrPull NdrString Cim Pull.

#[local] Open Scope outcome_scope.
#[local] Open Scope ndr_scope.

Implicit Types s : ndr_pull.

(** ** Calls that do not go back *)

Definition located s : Prop := 0 <= offset s <= data_size s /\ bytes (data s) /\ data_size s < 2 ^ 31.
(** [s'] parses the data of [s] and is at least [k] bytes ahead. *)
Definition ahead_by (k : Z) s s' : Prop :=
  data s' = data s /\ data_size s' = data_size s /\ offset s + k <= offset s' <= data_size s'.
(** When [m] succeeds it has moved over at least [k] bytes. *)
Definition forward (k : Z) {B} (m : M ndr_pull B) : Prop :=
  forall s v s', located s -> m s = Ret (Good v, s') -> ahead_by k s s'.

Lemma ahead_located k s s' : 0 <= k -> located s -> ahead_by k s s' -> located s'.
Proof. intros Hk (Ho & Hd & Hz) (Ed & Ez & Hs). unfold located. rewrite Ed. split; [lia|]. split; [done|lia]. Qed.
Lemma ahead_trans j k s s1 s2 : ahead_by j s s1 -> ahead_by k s1 s2 -> ahead_by (j + k) s s2.
Proof. intros (Ed & Ez & Hs) (Ed2 & Ez2 & Hs2). split_and!; [congruence..|lia|lia]. Qed.
Lemma ahead_refl s : located s -> ahead_by 0 s s.
Proof. intros (Ho & _). split_and!; [done..|lia|lia]. Qed.

Lemma forward_bind j k {B C} (m : M ndr_pull B) (f : B -> M ndr_pull C) :
  0 <= j -> forward j m -> (forall x, forward k (f x)) -> forward (j + k) (bind m f).
Proof.
  intros Hj Hm Hf s v s' Hs (x & s1 & E & E2)%bind_inv.
  pose proof (Hm _ _ _ Hs E) as H1. apply (ahead_trans j k s s1 s'); [done|]. eapply Hf; [|done]. by eapply ahead_located.
Qed.
(** All that moves over some bytes is before or after. *)
Lemma forward_head k {B C} (m : M ndr_pull B) (f : B -> M ndr_pull C) :
  0 <= k -> forward k m -> (forall x, forward 0 (f x)) -> forward k (bind m f).
Proof. intros Hk Hm Hf. rewrite <- (Z.add_0_r k). by apply forward_bind. Qed.
Lemma forward_tail k {B C} (m : M ndr_pull B) (f : B -> M ndr_pull C) :
  forward 0 m -> (forall x, forward k (f x)) -> forward k (bind m f).
Proof. intros Hm Hf. change k with (0 + k). by apply forward_bind. Qed.
Lemma forward_le j k {B} (m : M ndr_pull B) : j <= k -> forward k m -> forward j m.
Proof. intros Hj Hm s v s' Hs E. destruct (Hm _ _ _ Hs E) as (Ed & Ez & Ho). split_and!; [done..|lia|lia]. Qed.

Lemma forward_ret {B} (v : B) : forward 0 (ret v).
Proof. intros s w s' Hs [= <- <-]. by apply ahead_refl. Qed.
Lemma forward_get {B} (f : ndr_pull -> B) : forward 0 (get f).
Proof. intros s w s' Hs [= <- <-]. by apply ahead_refl. Qed.
Lemma forward_bad k {B} e : forward k (bad (A := B) e).
Proof. by intros s w s' Hs. Qed.
Lemma forward_fault k {B} : forward k (fault (A := B)).
Proof. by intros s w s' Hs. Qed.
Lemma forward_modify f :
  (forall s, data (f s) = data s /\ data_size (f s) = data_size s /\ offset (f s) = offset s) -> forward 0 (modify f).
Proof. intros Hf s v s' (Ho & _) [= _ <-]. destruct (Hf s) as (Hd & Hz & Hs). split_and!; [done..|lia|lia]. Qed.

Section calls.
Context (A : Allocator).

Lemma forward_alloc : forward 0 (alloc A).
Proof. intros s v s' (Ho & _) [= <- <-]. split_and!; [done..|cbn;lia|cbn; lia]. Qed.
Lemma forward_alloc_array n k : forward 0 (alloc_array A n k).
Proof. unfold alloc_array. destruct (_ <? _); [apply forward_alloc|]. apply (forward_ret NULL). Qed.
Lemma forward_load {B} n (f : list Z -> nat -> B) o : forward 0 (load n f o).
Proof. intros s v s' Hs. unfold load. destruct (decide _); [|done]. intros [= <- <-]. by apply ahead_refl. Qed.

Lemma need_inv n s s' v :
  located s -> 0 <= n -> NDR_PULL_NEED_BYTES n s = Ret (Good v, s') -> s' = s /\ offset s + n <= data_size s.
Proof.
  intros (Ho & _ & Hz) Hn. unfold NDR_PULL_NEED_BYTES. destruct (Z.ltb_spec (data_size s) n); [done|]. cbn.
  unfold add32. rewrite u32_id by (unfold is_u; lia). destruct (Z.ltb_spec (data_size s) (offset s + n)); [done|]. by intros [= <- <-].
Qed.

Lemma advance_inv n s v s' :
  located s -> 0 <= n -> offset s + n <= data_size s -> advance n s = Ret (Good v, s') -> ahead_by n s s'.
Proof.
  intros (Ho & _ & Hz) Hn Hd [= <- <-]. unfold ahead_by, add32. cbn. rewrite u32_id by (unfold is_u; lia). split_and!; [done..|lia|lia].
Qed.

Lemma forward_take {B} n (m : Z -> M ndr_pull B) :
  0 <= n -> (forall o s v s', m o s = Ret (Good v, s') -> s' = s) -> forward n (take_value n m).
Proof.
  intros Hn Hm s v s' Hs ([] & s1 & E & E1)%bind_inv. apply need_inv in E as [-> Hd]; [|done..].
  apply bind_inv in E1 as (o & s1 & [= <- <-] & E1). apply bind_inv in E1 as (x & s1 & E2 & E1). apply Hm in E2 as ->.
  apply bind_inv in E1 as ([] & s1 & E2 & [= <- <-]). by eapply advance_inv.
Qed.

Lemma forward_align n : is_align n -> forward 0 (NDR_PULL_ALIGN n).
Proof.
  intros Hn s v s' Hs (fl & s0 & [= <- <-] & E)%bind_inv. apply bind_inv in E as ([] & s1 & E & E2).
  assert (data s1 = data s /\ data_size s1 = data_size s /\ offset s <= offset s1) as (Ed & Ez & Ho).
  { revert E. destruct (isset _ LIBNDR_FLAG_NOALIGN); [by intros [= <-]|]. destruct Hs as (Ho & _ & Hz).
    intros ([] & s2 & E & [= <-])%bind_inv. assert (s2 = s) as ->.
    { revert E. destruct (isset _ _); [|by intros [= <-]]. intros (o & s3 & [= <- <-] & E)%bind_inv. revert E.
      unfold load. destruct (decide _); [by intros [= <-]|done]. }
    cbn. rewrite align_up_pad by (done || lia). assert (0 < n) by (destruct Hn as [-> | [-> | [-> | ->]]]; lia).
    pose proof (Z.mod_pos_bound (- offset s) n). split_and!; [done..|lia]. }
  apply bind_inv in E2 as (x & s2 & [= <- <-] & E2). revert E2. unfold id.
  destruct (Z.ltb_spec (data_size s1) (offset s1)); [done|]. intros [= <- <-]. split_and!; [done..|lia|lia].
Qed.

Lemma forward_uint8 : forward 1 ndr_pull_uint8.
Proof. apply forward_take; [lia|]. intros o s v s'. unfold load. destruct (decide _); [|done]. by intros [= _ <-]. Qed.
Lemma word_same {B} (f : Z -> list Z -> nat -> B) n o s v s' :
  (do fl <- get flags; load n (f fl) o) s = Ret (Good v, s') -> s' = s.
Proof. intros (fl & s1 & [= <- <-] & E)%bind_inv. revert E. unfold load. destruct (decide _); [|done]. by intros [= _ <-]. Qed.
Lemma forward_uint16 : forward 2 ndr_pull_uint16.
Proof.
  apply forward_tail; [apply forward_align; by right; left|]. intros _. apply forward_take; [lia|]. intros o s v s'. apply word_same.
Qed.
Lemma forward_uint32 : forward 4 ndr_pull_uint32.
Proof.
  apply forward_tail; [apply forward_align; by right; right; left|]. intros _. apply forward_take; [lia|]. intros o s v s'. apply word_same.
Qed.

Lemma forward_generic_ptr : forward 4 ndr_pull_generic_ptr.
Proof.
  apply forward_head; [lia|apply forward_uint32|]. intros v. apply forward_tail; [|intros _; apply forward_ret].
  destruct (v =? 0); [apply forward_ret|by apply forward_modify].
Qed.

Lemma forward_advance n : 0 <= n < 2 ^ 31 -> forward n (ndr_pull_advance n).
Proof.
  intros Hn s v s' (Ho & _ & Hz) ([] & s1 & [= <-] & E)%bind_inv. apply bind_inv in E as (x & s2 & [= <- <-] & E). revert E.
  unfold id, add32. cbn. rewrite u32_id by (unfold is_u; lia).
  destruct (Z.ltb_spec (data_size s) (offset s + n)); [done|]. intros [= <- <-]. split_and!; [done..|cbn; lia|cbn; lia].
Qed.

(** ** Strings *)

Context `{Charsets}.

Lemma chars_inv chset n s v s' :
  0 <= n -> pull_chars A chset n s = Ret (Good v, s') -> 0 < n /\ data s' = data s /\ data_size s' = data_size s /\ offset s' = offset s.
Proof.
  intros Hn (o & s0 & [= <- <-] & E)%bind_inv. apply bind_inv in E as (src & s1 & E & E2).
  assert (s1 = s /\ src = slice (Z.to_nat (offset s)) (Z.to_nat n) (data s)) as [-> ->].
  { revert E. unfold load. destruct (decide _); [by intros [= <- <-]|done]. }
  clear E. revert E2. unfold convert. set (src := slice _ _ _). destruct (convert_string_talloc _ _ _) as [[d|]|] eqn:E; cbn; try done.
  intros [= <- <-]. split; [|done]. destruct (decide (n = 0)) as [->|]; [|lia]. unfold src, slice, convert_string_talloc in E.
  by rewrite take_0 in E.
Qed.

Lemma forward_chars chset n : 0 <= n -> forward 0 (pull_chars A chset n).
Proof. intros Hn s v s' (Ho & _) E. apply chars_inv in E as (_ & Hd & Hz & E); [|done]. split_and!; [done..|lia|lia]. Qed.

(** A check for [n] bytes, what does not move, and the move over them. *)
Lemma forward_checked {B} n (m : M ndr_pull B) (f : B -> M ndr_pull cstr) :
  0 <= n -> forward 0 m -> (forall x, forward 0 (f x)) ->
  forward n (NDR_PULL_NEED_BYTES n;; do x <- m; ndr_pull_advance n;; f x).
Proof.
  intros Hn Hm Hf s v s' Hs ([] & s1 & E & E2)%bind_inv. apply need_inv in E as [-> Hd]; [|done..].
  assert (0 <= n < 2 ^ 31) as Hr by (destruct Hs as (? & ? & ?); lia).
  revert E2. apply (forward_tail n); [done| |done]. intros x. apply forward_head; [done|by apply forward_advance|intros _; apply Hf].
Qed.

Lemma forward_new chset count n :
  0 <= n -> forward 0 (if count =? 0 then do p <- alloc A; if decide (p = NULL) then fault else ret (Cstr p []) else pull_chars A chset n).
Proof.
  intros Hn. destruct (_ =? 0); [|by apply forward_chars]. apply forward_tail; [apply forward_alloc|].
  intros p. destruct (decide _); [apply forward_fault|apply forward_ret].
Qed.

Lemma forward_counted chset count n : 0 <= n -> forward 0 (pull_counted A chset count n).
Proof.
  intros Hn. apply (forward_le 0 n); [done|]. by apply forward_checked; [..|intros; apply forward_ret]; [|apply forward_new].
Qed.

Lemma utf16_len_n_bound src n : (utf16_len_n src n <= n)%nat.
Proof.
  assert (forall fuel len, (len <= n)%nat -> (utf16_len_n_from fuel src n len <= n)%nat) as Hb.
  { induction fuel as [|fuel IH]; intros len Hl; [done|]. cbn [utf16_len_n_from]. destruct (len + 2 <? n)%nat eqn:E; [|done]. apply Nat.ltb_lt in E. cbn [andb].
    destruct (negb _); [apply IH; lia|done]. }
  unfold utf16_len_n. specialize (Hb n 0%nat ltac:(lia)). destruct (_ + 2 <=? n)%nat eqn:E; [by apply Nat.leb_le|done].
Qed.
Lemma ascii_len_n_bound src n : (ascii_len_n src n <= n)%nat.
Proof.
  unfold ascii_len_n. destruct (_ + 1 <=? n)%nat eqn:E; [by apply Nat.leb_le|]. unfold strnlen.
  destruct (list_find _ (take n src)) as [[i x]|] eqn:Hf; cbn; [|lia].
  apply list_find_Some in Hf as (Hi & _). apply lookup_lt_Some in Hi. rewrite length_take in Hi. lia.
Qed.

Lemma uint16_range s v s' : located s -> ndr_pull_uint16 s = Ret (Good v, s') -> 0 <= v.
Proof.
  intros Hs ([] & s1 & E & E2)%bind_inv. pose proof (forward_align 2 ltac:(by right; left) _ _ _ Hs E) as (Hd & _).
  apply bind_inv in E2 as ([] & s2 & E2 & E3). assert (s2 = s1) as ->.
  { revert E2. unfold NDR_PULL_NEED_BYTES. destruct (_ || _); [done|by intros [= <-]]. }
  apply bind_inv in E3 as (o & s3 & [= <- <-] & E3). apply bind_inv in E3 as (x & s3 & E3 & E4).
  apply bind_inv in E4 as (u & s5 & _ & [= <- _]). apply bind_inv in E3 as (fl & s4 & [= <- <-] & E3). revert E3.
  unfold load. destruct (decide _); [|done]. intros [= <- _]. rewrite Hd. destruct Hs as (_ & Hb & _).
  assert (is_u16 ((if big_endian (flags s1) then RSVAL else SVAL) (data s) (Z.to_nat (offset s1)))) as Hr; [|apply Hr].
  destruct (big_endian _); [apply SREV_range|]. apply is_u_lor; [done|by apply (is_u_mono 8); [lia|apply CVAL_byte]|].
  apply (is_u_shiftl 8); [lia..|by apply CVAL_byte].
Qed.

(** Whatever the form, a string takes a byte at least. *)
Lemma forward_string : forward 1 (ndr_pull_string A).
Proof.
  unfold ndr_pull_string. apply forward_tail; [apply forward_get|]. intros f.
  destruct (string_charset f) as [[chset byte_mul] flags] eqn:Ec.
  assert (1 <= byte_mul <= 2) as Hbm.
  { revert Ec. unfold string_charset. destruct (isset f LIBNDR_FLAG_STR_ASCII), (isset f LIBNDR_FLAG_STR_UTF8); cbn; intros [= _ <- _]; lia. }
  set (fl := Z.land flags _). set (c := if isset flags LIBNDR_FLAG_STR_CHARLEN then 1 else 0).
  set (form := Z.land fl _).
  assert (forall len, 0 <= u32 (u32 (len + c) * byte_mul)) as Hb by (intros; apply u32_range).
  destruct (_ || _).
  { apply (forward_le 1 4); [lia|]. apply forward_head; [lia|apply forward_uint32|]. intros len1.
    apply forward_tail; [apply (forward_le 0 4); [lia|apply forward_uint32]|]. intros ofs. destruct (negb _); [apply forward_bad|].
    apply forward_tail; [apply (forward_le 0 4); [lia|apply forward_uint32]|]. intros len2.
    destruct (_ <? _); [apply forward_bad|by apply forward_counted]. }
  destruct (_ || _).
  { apply (forward_le 1 4); [lia|]. apply forward_head; [lia|apply forward_uint32|]. intros len1. by apply forward_counted. }
  destruct (_ || _).
  { apply (forward_le 1 4); [lia|]. apply forward_head; [lia|apply forward_uint32|]. intros ofs. destruct (negb _); [apply forward_bad|].
    apply forward_tail; [apply (forward_le 0 4); [lia|apply forward_uint32]|]. intros len1. by apply forward_counted. }
  destruct (_ || _).
  { apply (forward_le 1 2); [lia|]. apply forward_head; [lia|apply forward_uint16|]. intros len3. by apply forward_counted. }
  destruct (form =? _).
  { intros s v s' Hs E. apply bind_inv in E as (len3 & s1 & E1 & E2). pose proof (forward_uint16 _ _ _ Hs E1) as H1.
    assert (located s1) as Hs1 by by eapply ahead_located; [|done..].
    destruct (decide (0 <= len3)) as [Hl|Hl].
    - assert (forward len3 (NDR_PULL_NEED_BYTES len3;; do x <- (if len3 =? 0 then do p <- alloc A; ret (Cstr p []) else pull_chars A chset len3);
        ndr_pull_advance len3;; ret x)) as Hf.
      { apply forward_checked; [done| |intros; apply forward_ret]. destruct (_ =? 0); [|by apply forward_chars].
        apply forward_tail; [apply forward_alloc|intros; apply forward_ret]. }
      destruct (ahead_trans _ _ _ _ _ H1 (Hf _ _ _ Hs1 E2)) as (Hd & Hz & Ho). split_and!; [done..|lia|lia].
    - destruct Hl. exact (uint16_range _ _ _ Hs E1). }
  destruct (form =? _).
  { intros s v s' Hs E. apply bind_inv in E as (x & s1 & [= <- <-] & E).
    set (len1 := Z.of_nat _) in E. assert (0 <= len1 < 2 ^ 31) as Hl.
    { assert (forall k, (k <= Z.to_nat (u32 (data_size s - offset s)))%nat -> Z.of_nat k < 2 ^ 31) as Hk.
      { intros k. destruct Hs as (Ho & _ & Hz). rewrite u32_id by (unfold is_u; lia). lia. }
      split; [lia|]. unfold len1, id. destruct (byte_mul =? 1); apply Hk; [apply ascii_len_n_bound|apply utf16_len_n_bound]. }
    apply bind_inv in E as (y & s1 & E1 & E2). apply chars_inv in E1 as (Hp & Hd & Hz & Ho); [|lia].
    assert (located s1) as Hs1 by (unfold located in *; rewrite Hd, Hz, Ho; done).
    apply bind_inv in E2 as (u & s2 & E2 & [= <- <-]). destruct (forward_advance len1 Hl _ _ _ Hs1 E2) as (Hd2 & Hz2 & Ho2).
    split_and!; [congruence..|lia|lia]. }
  destruct (_ || _); [|apply forward_bad].
  set (len1 := if isset _ _ then 32 else 15). assert (15 <= len1) by (unfold len1; case_match; lia).
  apply (forward_le 1 (len1 * byte_mul)); [nia|]. apply forward_checked; [nia|apply forward_chars; nia|intros; apply forward_ret].
Qed.

(** ** The loops *)

(** The bytes ahead of the parser. *)
Definition left_over s : nat := Z.to_nat (data_size s - offset s).

Lemma left_over_ahead s s' : located s -> ahead_by 1 s s' -> (left_over s' < left_over s)%nat.
Proof. intros (Ho & _) (_ & Hz & Hs). unfold left_over. lia. Qed.

(** Two ways to go on after a call that moves over a byte. *)
Lemma bind_left {B C} (m : M ndr_pull B) (f g : B -> M ndr_pull C) s :
  located s -> forward 1 m ->
  (forall v s', located s' -> (left_over s' < left_over s)%nat -> f v s' = g v s') -> bind m f s = bind m g s.
Proof.
  intros Hs Hm Hfg. unfold bind. destruct (m s) as [[[v|e] s']|] eqn:E; cbn; [|done..]. specialize (Hm _ _ _ Hs E).
  apply Hfg; [by apply (ahead_located 1 s)|by apply left_over_ahead].
Qed.
Lemma bind_stay {B C} (m : M ndr_pull B) (f g : B -> M ndr_pull C) s :
  located s -> forward 0 m ->
  (forall v s', located s' -> (left_over s' <= left_over s)%nat -> f v s' = g v s') -> bind m f s = bind m g s.
Proof.
  intros Hs Hm Hfg. unfold bind. destruct (m s) as [[[v|e] s']|] eqn:E; cbn; [|done..]. destruct (Hm _ _ _ Hs E) as (Hd & Hz & Ho).
  apply Hfg; [by apply (ahead_located 0 s)|]. unfold left_over. destruct Hs. lia.
Qed.

Lemma forward_with_flags k : forward 1 (pull_with_flags A k).
Proof.
  intros s v s' Hs E. apply bind_inv in E as (u & s1 & [= <- <-] & E). apply bind_inv in E as ([] & s1 & [= <-] & E).
  apply bind_inv in E as (r & s2 & E1 & E). apply bind_inv in E as ([] & s3 & [= <-] & E). revert E1. unfold attempt.
  destruct (ndr_pull_string A _) as [[r' s4]|] eqn:Es; [|done]. cbn. intros [= <- <-]. destruct r' as [x|e]; [|done].
  injection E as <- <-. apply forward_string in Es; [|done]. exact Es.
Qed.

Lemma forward_CIMSTRING old : forward 1 (ndr_pull_CIMSTRING A NDR_SCALARS old).
Proof.
  unfold ndr_pull_CIMSTRING. change (isset NDR_SCALARS NDR_SCALARS) with true. apply forward_head; [lia|apply forward_uint8|].
  intros u. destruct (u =? 0); [|destruct (u =? 1); [|apply forward_bad]].
  all: apply forward_tail; [apply (forward_le 0 1); [lia|apply forward_with_flags]|intros; apply forward_ret].
Qed.

Lemma pull_strings_fuel j k s :
  located s -> (left_over s < j)%nat -> (left_over s < k)%nat -> pull_strings A j s = pull_strings A k s.
Proof.
  revert k s. induction j as [|j IH]; intros [|k] s Hs Hj Hk; try lia. cbn [pull_strings].
  apply bind_stay; [done|apply forward_alloc|]. intros p s1 Hs1 Hl1. destruct (decide _); [done|].
  apply bind_left; [done|apply forward_string|]. intros x s2 Hs2 Hl2. destruct (chars x); [done|].
  unfold bind. by rewrite (IH k s2) by (done || lia).
Qed.

Lemma forward_grow (b : bool) n (item : addr) : forward 0 (if b then alloc_array A 8 n else ret item).
Proof. destruct b; [apply forward_alloc_array|apply forward_ret]. Qed.

Lemma pull_cimstrings_fuel j k endofs len count item s :
  located s -> (left_over s < j)%nat -> (left_over s < k)%nat ->
  pull_cimstrings A j endofs len count item s = pull_cimstrings A k endofs len count item s.
Proof.
  revert k len count item s. induction j as [|j IH]; intros [|k] len count item s Hs Hj Hk; try lia. cbn [pull_cimstrings].
  apply bind_stay; [done|apply forward_get|]. intros o s1 Hs1 Hl1. destruct (_ <? _); [|done].
  apply bind_stay; [done|apply forward_grow|]. intros item' s2 Hs2 Hl2.
  apply bind_left; [done|apply forward_CIMSTRING|]. intros x s3 Hs3 Hl3. destruct (decide _); [done|].
  apply bind_stay; [done|apply (forward_le 0 4); [lia|apply forward_uint32]|]. intros u s4 Hs4 Hl4.
  unfold bind. by rewrite (IH k) by (done || lia).
Qed.

Context `{Pidl}.

Lemma forward_store list set key v :
  (forall l s, data (set l s) = data s /\ data_size (set l s) = data_size s /\ offset (set l s) = offset s) ->
  forward 0 (ndr_token_store A list set key v).
Proof.
  intros Hf. apply forward_tail; [apply forward_alloc|]. intros p. destruct (decide _); [apply forward_bad|by apply forward_modify].
Qed.

Lemma forward_name1 : forward 1 (pull_name1 A).
Proof.
  apply forward_head; [lia|apply (forward_le 1 4); [lia|apply forward_generic_ptr]|]. intros ptr.
  destruct (_ =? _); [apply forward_ret|]. apply forward_tail.
  - apply forward_tail; [apply forward_alloc|]. intros p. destruct (decide _); [apply forward_bad|apply forward_ret].
  - intros p. apply forward_tail; [by apply forward_store|intros; apply forward_ret].
Qed.

(** The generated code for the parts of a qualifier that are in line does not go back. *)
Definition pidl_forward : Prop :=
  forward 0 ndr_pull_WBEM_FLAVOR_TYPE /\ forward 0 ndr_pull_CIMTYPE_ENUMERATION /\
  forall p v, forward 0 (ndr_pull_CIMVAR NDR_SCALARS p v).

Lemma forward_qualifier q : pidl_forward -> forward 1 (ndr_pull_WbemQualifier A NDR_SCALARS q).
Proof.
  intros (Hf & Ht & Hv). unfold ndr_pull_WbemQualifier. change (isset NDR_SCALARS NDR_SCALARS) with true.
  change (isset NDR_SCALARS NDR_BUFFERS) with false. apply forward_head; [lia| |intros; apply forward_ret].
  apply forward_tail; [apply forward_align; by right; right; left|]. intros _. apply forward_head; [lia|apply forward_name1|].
  intros name. apply forward_tail; [done|]. intros flavors. apply forward_tail; [done|]. intros cimtype.
  apply forward_tail; [by apply forward_store|]. intros _. apply forward_tail; [done|]. intros. apply forward_ret.
Qed.

Lemma pull_qualifiers_fuel j k endofs len count item s :
  pidl_forward -> located s -> (left_over s < j)%nat -> (left_over s < k)%nat ->
  pull_qualifiers A j endofs len count item s = pull_qualifiers A k endofs len count item s.
Proof.
  intros Hp. revert k len count item s. induction j as [|j IH]; intros [|k] len count item s Hs Hj Hk; try lia. cbn [pull_qualifiers].
  apply bind_stay; [done|apply forward_get|]. intros o s1 Hs1 Hl1. destruct (_ <? _); [|done].
  apply bind_stay; [done|apply forward_grow|]. intros item' s2 Hs2 Hl2.
  apply bind_stay; [done|apply forward_alloc|]. intros p s3 Hs3 Hl3. destruct (decide _); [done|]. destruct (decide _); [done|].
  apply bind_left; [done|by apply forward_qualifier|]. intros x s4 Hs4 Hl4. unfold bind. by rewrite (IH k) by (done || lia).
Qed.
End calls.

(** C25: the loops of unmarshalling that go on as far as the data says end: in every round they take a
    byte or fail, whatever the bytes and the flags are, so that with fuel for the bytes there are the
    arrays of strings and the lists of strings and qualifiers of CIM come out as with any more. *)
Theorem unmarshalling_loops_end `{Charsets, Pidl} (A : Allocator) s fuel :
  pidl_forward -> located s -> data_size s <= Z.of_nat (length (data s)) -> (length (data s) < fuel)%nat ->
  pull_strings A fuel s = ndr_pull_string_array A s /\
  (forall endofs len count item,
     pull_cimstrings A fuel endofs len count item s = pull_cimstrings A (S (length (data s))) endofs len count item s) /\
  (forall endofs len count item,
     pull_qualifiers A fuel endofs len count item s = pull_qualifiers A (S (length (data s))) endofs len count item s).
Proof.
  intros Hp Hs Hd Hf. assert (left_over s < S (length (data s)))%nat as Hl by (unfold left_over; destruct Hs; lia).
  assert (left_over s < fuel)%nat by (unfold left_over in *; destruct Hs; lia).
  split; [|split].
  - unfold ndr_pull_string_array. rewrite (bind_good _ _ _ (length (data s)) s) by done.
    exact (pull_strings_fuel A fuel (S (length (data s))) s Hs ltac:(assumption) Hl).
  - intros. by apply pull_cimstrings_fuel.
  - intros. by apply pull_qualifiers_fuel.
Qed.

(** Three strings, of which the last is empty. *)
Definition example_list : ndr_pull :=
  NdrPull LIBNDR_FLAG_STR_NULLTERM [104; 0; 105; 0; 0; 0; 33; 0; 0; 0; 0; 0] 12 0 0 [] [] [] [] [] 0 2.
#[local] Instance empty_pidl : Pidl := {|
  ndr_push_CIMVAR := fun _ _ _ => ret tt;
  ndr_pull_CIMVAR := fun _ _ v => ret v;
  ndr_push_WBEM_FLAVOR_TYPE := fun _ => ret tt;
  ndr_pull_WBEM_FLAVOR_TYPE := ndr_pull_uint8;
  ndr_push_CIMTYPE_ENUMERATION := fun _ => ret tt;
  ndr_pull_CIMTYPE_ENUMERATION := ndr_pull_uint32;
  ndr_push_WbemProperty := fun _ _ => ret tt;
  ndr_pull_WbemProperty := fun _ p => ret p;
  ndr_push_WbemMethods := fun _ _ => ret tt;
  ndr_pull_WbemMethods := fun _ m => ret m
|}.
Lemma empty_pidl_forward : pidl_forward.
Proof.
  split; [apply (forward_le 0 1); [lia|apply forward_uint8]|]. split; [apply (forward_le 0 4); [lia|apply forward_uint32]|].
  intros p v. apply forward_ret.
Qed.

Lemma example_located : located example_list.
Proof. split; [split; apply Z.leb_le; reflexivity|]. split; [by_eval|reflexivity]. Qed.

Lemma unmarshalling_loops_end_witness :
  match @ndr_pull_string_array utf8_charsets calloc example_list with
  | Ret (Good l, s') => map chars l = [[104; 105]; [33]] /\ offset s' = 12
  | _ => False
  end /\
  @pull_strings utf8_charsets calloc 100 example_list = @ndr_pull_string_array utf8_charsets calloc example_list.
Proof.
  split; [vm_compute; split; reflexivity|].
  refine (proj1 (@unmarshalling_loops_end utf8_charsets empty_pidl calloc example_list 100 empty_pidl_forward _ _ _)).
  - exact example_located.
  - apply Z.leb_le. reflexivity.
  - apply Nat.ltb_lt. reflexivity.
Defined.
