(* ===== verification/Errormap.v ===== *)
(** libcli/util/errormap.c, doserr.c and wmi/wmicore.c: the numbers of statuses and errors,
    the tables that map them to each other, and their names. *)

From stdpp Require Import strings.
From S2P Require Import Prelude Ntstatus.

#[local] Open Scope outcome_scope.

(** The values of nterr.h. *)
Definition NT_STATUS_V (s : NTSTATUS) : Z :=
  match s with
  | NT_STATUS_OK => 0
  | NT_STATUS_INVALID_PARAMETER => 0xc000000d
  | NT_STATUS_NO_MEMORY => 0xc0000017
  | NT_STATUS_ACCESS_DENIED => 0xc0000022
  | NT_STATUS_UNKNOWN_REVISION => 0xc0000058
  | NT_STATUS_WRONG_PASSWORD => 0xc000006a
  | NT_STATUS_INTERNAL_ERROR => 0xc00000e5
  | NT_STATUS_NO_USER_SESSION_KEY => 0xc0000202
  | NT_STATUS_BUFFER_TOO_SMALL => 0xc0000023
  | NT_STATUS_MORE_PROCESSING_REQUIRED => 0xc0000016
  | NT_STATUS_NOT_FOUND => 0xc0000225
  | NT_STATUS_NOT_IMPLEMENTED => 0xc0000002
  | NT_STATUS_NO_SUCH_USER => 0xc0000064
  | NT_STATUS_LOGON_FAILURE => 0xc000006d
  | NT_STATUS_INVALID_SYSTEM_SERVICE => 0xc000001c
  | NT_STATUS_INTERNAL_DB_CORRUPTION => 0xc00000e4
  | NT_STATUS_ACCOUNT_LOCKED_OUT => 0xc0000234
  | NT_STATUS_ACCOUNT_DISABLED => 0xc0000072
  | NT_STATUS_ACCOUNT_EXPIRED => 0xc0000193
  | NT_STATUS_PASSWORD_MUST_CHANGE => 0xc0000224
  | NT_STATUS_PASSWORD_EXPIRED => 0xc0000071
  | NT_STATUS_INVALID_WORKSTATION => 0xc0000070
  | NT_STATUS_NOLOGON_INTERDOMAIN_TRUST_ACCOUNT => 0xc0000198
  | NT_STATUS_NOLOGON_SERVER_TRUST_ACCOUNT => 0xc000019a
  | NT_STATUS_NOLOGON_WORKSTATION_TRUST_ACCOUNT => 0xc0000199
  | NT_STATUS_PRIVILEGE_NOT_HELD => 0xc0000061
  | NT_STATUS_OBJECT_NAME_NOT_FOUND => 0xc0000034
  | NT_STATUS_OBJECT_NAME_COLLISION => 0xc0000035
  | NT_STATUS_CANT_ACCESS_DOMAIN_INFO => 0xc00000da
  | NT_STATUS_ARRAY_BOUNDS_EXCEEDED => 0xc000008c
  | NT_STATUS_NOT_SUPPORTED => 0xc00000bb
  | NT_STATUS_NO_SUCH_FILE => 0xc000000f
  | NT_STATUS_UNSUCCESSFUL => 0xc0000001
  | NT_STATUS_BAD_NETWORK_NAME => 0xc00000cc
  | NT_STATUS_INVALID_PARAMETER_MIX => 0xc0000030
  end.

Module Errormap.

Definition ntstatus_to_dos_map_1 : list (Z * Z * Z) :=
  [(1, 18, 0x80000006); (1, 18, 0x8000001a); (1, 31, 0xc0000001); (1, 1, 0xc0000002); (1, 87, 0xc0000003);
   (1, 24, 0xc0000004); (3, 31, 0xc0000005); (3, 31, 0xc0000006); (3, 31, 0xc0000007); (1, 6, 0xc0000008);
   (3, 31, 0xc0000009); (1, 193, 0xc000000a); (1, 87, 0xc000000b); (3, 31, 0xc000000c); (1, 87, 0xc000000d);
   (1, 2, 0xc000000e); (1, 2, 0xc000000f); (1, 1, 0xc0000010); (1, 38, 0xc0000011); (1, 34, 0xc0000012);
   (1, 21, 0xc0000013); (3, 31, 0xc0000014); (1, 27, 0xc0000015); (1, 8, 0xc0000017); (1, 0x1e7, 0xc0000018);
   (1, 0x1e7, 0xc0000019); (1, 87, 0xc000001a); (1, 87, 0xc000001b); (1, 0x85e, 0xc000001c);
   (3, 31, 0xc000001d); (1, 5, 0xc000001e); (1, 5, 0xc000001f); (1, 193, 0xc0000020); (1, 5, 0xc0000021);
   (1, 5, 0xc0000022); (1, 111, 0xc0000023); (1, 6, 0xc0000024); (3, 31, 0xc0000025); (3, 31, 0xc0000026);
   (3, 31, 0xc0000027); (3, 31, 0xc0000028); (3, 31, 0xc0000029); (1, 158, 0xc000002a); (3, 31, 0xc000002b);
   (1, 0x1e7, 0xc000002c); (1, 0x1e7, 0xc000002d); (3, 31, 0xc000002e); (3, 31, 0xc000002f);
   (1, 87, 0xc0000030); (3, 31, 0xc0000031); (3, 31, 0xc0000032); (1, 123, 0xc0000033); (1, 2, 0xc0000034);
   (1, 80, 0xc0000035); (3, 31, 0xc0000036); (1, 6, 0xc0000037); (3, 31, 0xc0000038); (1, 161, 0xc0000039);
   (1, 3, 0xc000003a); (1, 161, 0xc000003b); (3, 31, 0xc000003c); (3, 31, 0xc000003d); (1, 23, 0xc000003e);
   (1, 23, 0xc000003f); (1, 8, 0xc0000040); (1, 5, 0xc0000041); (1, 6, 0xc0000042); (1, 32, 0xc0000043);
   (3, 31, 0xc0000044); (1, 87, 0xc0000045); (1, 0x120, 0xc0000046); (1, 0x12a, 0xc0000047);
   (1, 87, 0xc0000048); (1, 87, 0xc0000049); (1, 156, 0xc000004a); (1, 5, 0xc000004b); (1, 87, 0xc000004c);
   (1, 87, 0xc000004d); (1, 87, 0xc000004e); (1, 0x11a, 0xc000004f); (1, 255, 0xc0000050);
   (3, 31, 0xc0000051); (3, 31, 0xc0000052); (3, 31, 0xc0000053); (1, 33, 0xc0000054); (1, 33, 0xc0000055);
   (1, 5, 0xc0000056); (1, 50, 0xc0000057); (3, 31, 0xc0000058); (3, 31, 0xc0000059); (3, 31, 0xc000005a);
   (3, 31, 0xc000005b); (3, 31, 0xc000005c); (3, 31, 0xc000005d); (1, 0x8a7, 0xc000005e); (3, 31, 0xc000005f);
   (3, 31, 0xc0000060); (1, 5, 0xc0000061); (3, 31, 0xc0000062); (3, 31, 0xc0000063); (1, 5, 0xc0000064);
   (3, 31, 0xc0000065); (3, 31, 0xc0000066); (3, 31, 0xc0000067); (3, 31, 0xc0000068); (3, 31, 0xc0000069);
   (2, 2, 0xc000006a); (3, 31, 0xc000006b); (3, 31, 0xc000006c); (1, 5, 0xc000006d); (3, 31, 0xc000006e);
   (2, 0x8c1, 0xc000006f); (2, 0x8c0, 0xc0000070); (2, 0x8c2, 0xc0000071); (2, 0x8bf, 0xc0000072);
   (3, 31, 0xc0000073); (3, 31, 0xc0000074); (3, 31, 0xc0000075); (3, 31, 0xc0000076); (3, 31, 0xc0000077);
   (3, 31, 0xc0000078); (3, 31, 0xc0000079); (1, 127, 0xc000007a); (1, 193, 0xc000007b); (3, 31, 0xc000007c);
   (3, 31, 0xc000007d); (1, 158, 0xc000007e); (1, 112, 0xc000007f)].
Definition ntstatus_to_dos_map_2 : list (Z * Z * Z) :=
  [(3, 31, 0xc0000080); (3, 31, 0xc0000081); (1, 68, 0xc0000082); (1, 0x103, 0xc0000083); (3, 31, 0xc0000084);
   (1, 0x103, 0xc0000085); (1, 154, 0xc0000086); (1, 14, 0xc0000087); (1, 0x1e7, 0xc0000088);
   (3, 31, 0xc0000089); (3, 31, 0xc000008a); (3, 31, 0xc000008b); (3, 31, 0xc000008c); (3, 31, 0xc000008d);
   (3, 31, 0xc000008e); (3, 31, 0xc000008f); (3, 31, 0xc0000090); (3, 31, 0xc0000091); (3, 31, 0xc0000092);
   (3, 31, 0xc0000093); (3, 31, 0xc0000094); (1, 0x216, 0xc0000095); (3, 31, 0xc0000096); (1, 8, 0xc0000097);
   (3, 31, 0xc0000098); (3, 31, 0xc0000099); (1, 8, 0xc000009a); (1, 3, 0xc000009b); (1, 23, 0xc000009c);
   (3, 31, 0xc000009d); (1, 21, 0xc000009e); (1, 0x1e7, 0xc000009f); (1, 0x1e7, 0xc00000a0);
   (3, 31, 0xc00000a1); (1, 19, 0xc00000a2); (1, 21, 0xc00000a3); (3, 31, 0xc00000a4); (3, 31, 0xc00000a5);
   (3, 31, 0xc00000a6); (3, 31, 0xc00000a7); (3, 31, 0xc00000a8); (1, 87, 0xc00000a9); (3, 31, 0xc00000aa);
   (1, 231, 0xc00000ab); (1, 231, 0xc00000ac); (1, 230, 0xc00000ad); (1, 231, 0xc00000ae); (1, 1, 0xc00000af);
   (1, 233, 0xc00000b0); (1, 232, 0xc00000b1); (3, 31, 0xc00000b2); (3, 31, 0xc00000b3); (1, 230, 0xc00000b4);
   (1, 121, 0xc00000b5); (1, 38, 0xc00000b6); (3, 31, 0xc00000b7); (3, 31, 0xc00000b8); (3, 31, 0xc00000b9);
   (1, 5, 0xc00000ba); (1, 50, 0xc00000bb); (1, 51, 0xc00000bc); (1, 52, 0xc00000bd); (1, 53, 0xc00000be);
   (1, 54, 0xc00000bf); (1, 55, 0xc00000c0); (1, 56, 0xc00000c1); (1, 57, 0xc00000c2); (1, 58, 0xc00000c3);
   (1, 59, 0xc00000c4); (1, 60, 0xc00000c5); (1, 61, 0xc00000c6); (1, 62, 0xc00000c7); (1, 63, 0xc00000c8);
   (1, 64, 0xc00000c9); (1, 65, 0xc00000ca); (1, 66, 0xc00000cb); (1, 67, 0xc00000cc); (1, 68, 0xc00000cd);
   (1, 69, 0xc00000ce); (1, 70, 0xc00000cf); (1, 71, 0xc00000d0); (1, 72, 0xc00000d1); (1, 88, 0xc00000d2);
   (3, 31, 0xc00000d3); (1, 17, 0xc00000d4); (1, 5, 0xc00000d5); (1, 240, 0xc00000d6); (3, 31, 0xc00000d7);
   (3, 31, 0xc00000d8); (1, 232, 0xc00000d9); (3, 31, 0xc00000da); (3, 31, 0xc00000db); (3, 31, 0xc00000dc);
   (3, 31, 0xc00000dd); (3, 31, 0xc00000de); (3, 31, 0xc00000df); (3, 31, 0xc00000e0); (3, 31, 0xc00000e1);
   (1, 0x12c, 0xc00000e2); (1, 0x12d, 0xc00000e3); (3, 31, 0xc00000e4); (3, 31, 0xc00000e5);
   (3, 31, 0xc00000e6); (3, 31, 0xc00000e7); (3, 31, 0xc00000e8); (3, 31, 0xc00000e9); (3, 31, 0xc00000ea);
   (3, 31, 0xc00000eb); (3, 31, 0xc00000ec); (3, 31, 0xc00000ed); (3, 31, 0xc00000ee); (1, 87, 0xc00000ef);
   (1, 87, 0xc00000f0); (1, 87, 0xc00000f1); (1, 87, 0xc00000f2); (1, 87, 0xc00000f3); (1, 87, 0xc00000f4);
   (1, 87, 0xc00000f5); (1, 87, 0xc00000f6); (1, 87, 0xc00000f7); (1, 87, 0xc00000f8); (1, 87, 0xc00000f9);
   (1, 87, 0xc00000fa); (1, 3, 0xc00000fb); (3, 31, 0xc00000fc); (3, 31, 0xc00000fd); (3, 31, 0xc00000fe);
   (3, 31, 0xc00000ff); (1, 203, 0xc0000100); (1, 145, 0xc0000101); (3, 31, 0xc0000102);
   (1, 0x10b, 0xc0000103); (3, 31, 0xc0000104); (3, 31, 0xc0000105); (1, 206, 0xc0000106);
   (1, 0x961, 0xc0000107); (1, 0x964, 0xc0000108); (3, 31, 0xc0000109); (1, 5, 0xc000010a);
   (3, 31, 0xc000010b); (3, 31, 0xc000010c); (3, 31, 0xc000010d); (3, 31, 0xc000010e); (3, 31, 0xc000010f);
   (3, 31, 0xc0000110); (3, 31, 0xc0000111)].
Definition ntstatus_to_dos_map_3 : list (Z * Z * Z) :=
  [(3, 31, 0xc0000112); (3, 31, 0xc0000113); (3, 31, 0xc0000114); (3, 31, 0xc0000115); (3, 31, 0xc0000116);
   (3, 31, 0xc0000117); (3, 31, 0xc0000118); (3, 31, 0xc0000119); (3, 31, 0xc000011a); (1, 193, 0xc000011b);
   (3, 31, 0xc000011c); (3, 31, 0xc000011d); (3, 31, 0xc000011e); (1, 4, 0xc000011f); (3, 31, 0xc0000120);
   (1, 5, 0xc0000121); (3, 31, 0xc0000122); (1, 5, 0xc0000123); (3, 31, 0xc0000124); (3, 31, 0xc0000125);
   (3, 31, 0xc0000126); (3, 31, 0xc0000127); (1, 6, 0xc0000128); (3, 31, 0xc0000129); (3, 31, 0xc000012a);
   (3, 31, 0xc000012b); (3, 31, 0xc000012c); (3, 31, 0xc000012d); (1, 193, 0xc000012e); (1, 193, 0xc000012f);
   (1, 193, 0xc0000130); (1, 193, 0xc0000131); (3, 31, 0xc0000132); (3, 31, 0xc0000133); (3, 31, 0xc0000134);
   (1, 126, 0xc0000135); (3, 31, 0xc0000136); (3, 31, 0xc0000137); (1, 182, 0xc0000138); (1, 127, 0xc0000139);
   (3, 31, 0xc000013a); (1, 64, 0xc000013b); (1, 64, 0xc000013c); (1, 51, 0xc000013d); (1, 59, 0xc000013e);
   (1, 59, 0xc000013f); (1, 59, 0xc0000140); (1, 59, 0xc0000141); (3, 31, 0xc0000142); (3, 31, 0xc0000143);
   (3, 31, 0xc0000144); (3, 31, 0xc0000145); (3, 31, 0xc0000146); (3, 31, 0xc0000147); (1, 124, 0xc0000148);
   (1, 86, 0xc0000149); (3, 31, 0xc000014a); (1, 109, 0xc000014b); (3, 31, 0xc000014c); (3, 31, 0xc000014d);
   (3, 31, 0xc000014e); (3, 31, 0xc000014f); (3, 31, 0xc0000150); (3, 31, 0xc0000151); (3, 31, 0xc0000152);
   (3, 31, 0xc0000153); (3, 31, 0xc0000154); (3, 31, 0xc0000155); (3, 31, 0xc0000156); (3, 31, 0xc0000157);
   (3, 31, 0xc0000158); (3, 31, 0xc0000159); (3, 31, 0xc000015a); (1, 5, 0xc000015b); (3, 31, 0xc000015c);
   (3, 31, 0xc000015d); (3, 31, 0xc000015e); (3, 31, 0xc000015f); (3, 31, 0xc0000160); (3, 31, 0xc0000161);
   (3, 31, 0xc0000162); (3, 31, 0xc0000163); (3, 31, 0xc0000164); (3, 31, 0xc0000165); (3, 31, 0xc0000166);
   (3, 31, 0xc0000167); (3, 31, 0xc0000168); (3, 31, 0xc0000169); (3, 31, 0xc000016a); (3, 31, 0xc000016b);
   (3, 31, 0xc000016c); (3, 31, 0xc000016d); (3, 31, 0xc000016e); (3, 31, 0xc000016f); (3, 31, 0xc0000170);
   (3, 31, 0xc0000171); (3, 31, 0xc0000172); (3, 31, 0xc0000173); (3, 31, 0xc0000174); (3, 31, 0xc0000175);
   (3, 31, 0xc0000176); (3, 31, 0xc0000177); (3, 31, 0xc0000178); (3, 31, 0xc0000179); (3, 31, 0xc000017a);
   (3, 31, 0xc000017b); (3, 31, 0xc000017c); (3, 31, 0xc000017d); (3, 31, 0xc000017e); (3, 31, 0xc000017f);
   (3, 31, 0xc0000180); (3, 31, 0xc0000181); (1, 87, 0xc0000182); (3, 31, 0xc0000183); (1, 22, 0xc0000184);
   (3, 31, 0xc0000185); (3, 31, 0xc0000186); (3, 31, 0xc0000187); (3, 31, 0xc0000188); (1, 19, 0xc0000189);
   (1, 5, 0xc000018a); (1, 5, 0xc000018b); (1, 5, 0xc000018c); (1, 5, 0xc000018d); (3, 31, 0xc000018e);
   (3, 31, 0xc000018f); (1, 5, 0xc0000190); (3, 31, 0xc0000191); (1, 0x997, 0xc0000192);
   (2, 0x8bf, 0xc0000193); (3, 31, 0xc0000194); (3, 31, 0xc0000195); (3, 31, 0xc0000196); (3, 31, 0xc0000197);
   (1, 5, 0xc0000198); (1, 5, 0xc0000199); (1, 5, 0xc000019a); (1, 5, 0xc000019b); (3, 31, 0xc000019c);
   (3, 31, 0xc0000202); (1, 59, 0xc0000203); (3, 31, 0xc0000204)].
Definition ntstatus_to_dos_map_4 : list (Z * Z * Z) :=
  [(1, 8, 0xc0000205); (3, 31, 0xc0000206); (3, 31, 0xc0000207); (3, 31, 0xc0000208); (1, 68, 0xc0000209);
   (1, 52, 0xc000020a); (1, 64, 0xc000020b); (1, 64, 0xc000020c); (1, 64, 0xc000020d); (1, 68, 0xc000020e);
   (1, 59, 0xc000020f); (1, 59, 0xc0000210); (1, 59, 0xc0000211); (1, 59, 0xc0000212); (1, 59, 0xc0000213);
   (1, 59, 0xc0000214); (1, 59, 0xc0000215); (1, 50, 0xc0000216); (1, 50, 0xc0000217); (3, 31, 0xc0000218);
   (3, 31, 0xc0000219); (3, 31, 0xc000021a); (3, 31, 0xc000021b); (3, 31, 0xc000021c); (3, 31, 0xc000021d);
   (3, 31, 0xc000021e); (3, 31, 0xc000021f); (3, 31, 0xc0000220); (1, 193, 0xc0000221); (3, 31, 0xc0000222);
   (3, 31, 0xc0000223); (2, 0x8c2, 0xc0000224); (3, 31, 0xc0000225); (3, 31, 0xc0000226); (3, 31, 0xc0000227);
   (3, 31, 0xc0000228); (3, 31, 0xc0000229); (3, 31, 0xc000022a); (3, 31, 0xc000022b); (3, 31, 0xc000022c);
   (3, 31, 0xc000022d); (3, 31, 0xc000022e); (3, 31, 0xc000022f); (3, 31, 0xc0000230); (3, 31, 0xc0000231);
   (3, 31, 0xc0000232); (3, 31, 0xc0000233); (1, 5, 0xc0000234); (1, 6, 0xc0000235); (3, 31, 0xc0000236);
   (3, 31, 0xc0000237); (3, 31, 0xc0000238); (3, 31, 0xc0000239); (3, 31, 0xc000023a); (3, 31, 0xc000023b);
   (3, 31, 0xc000023c); (3, 31, 0xc000023d); (3, 31, 0xc000023e); (3, 31, 0xc000023f); (3, 31, 0xc0000240);
   (3, 31, 0xc0000241); (3, 31, 0xc0000242); (3, 31, 0xc0000243); (3, 31, 0xc0000244); (3, 31, 0xc0000245);
   (3, 31, 0xc0000246); (3, 31, 0xc0000247); (3, 31, 0xc0000248); (1, 193, 0xc0000249); (3, 31, 0xc000024a);
   (3, 31, 0xc000024b); (3, 31, 0xc000024c); (3, 31, 0xc000024d); (3, 31, 0xc000024e); (3, 31, 0xc000024f);
   (3, 31, 0xc0000250); (3, 31, 0xc0000251); (3, 31, 0xc0000252); (3, 31, 0xc0000253); (3, 31, 0xc0000254);
   (3, 31, 0xc0000255); (3, 31, 0xc0000256); (2, 3, 0xc0000257); (3, 31, 0xc0000258); (3, 31, 0xc0000259);
   (3, 31, 0xc000025a); (3, 31, 0xc000025b); (3, 31, 0xc000025c); (3, 31, 0xc000025d); (3, 31, 0xc000025e);
   (3, 31, 0xc000025f); (3, 31, 0xc0000260); (3, 31, 0xc0000261); (1, 182, 0xc0000262); (1, 127, 0xc0000263);
   (1, 0x120, 0xc0000264); (3, 31, 0xc0000265); (3, 31, 0xc0000266); (3, 31, 0xc0000267); (1, 21, 0xc000026e);
   (1, 161, 0xc0000281); (1, 5, 0xc000028a); (1, 5, 0xc000028b); (3, 31, 0xc000028c); (1, 5, 0xc000028d);
   (1, 5, 0xc000028e); (1, 5, 0xc000028f); (1, 5, 0xc0000290); (1, 1, 0xc000029c)].
(** The class and code of DOS for a status. *)
Definition ntstatus_to_dos_map : list (Z * Z * Z) := ntstatus_to_dos_map_1 ++ ntstatus_to_dos_map_2 ++ ntstatus_to_dos_map_3 ++ ntstatus_to_dos_map_4.

Definition ntstatus_to_werror_map_1 : list (Z * Z) :=
  [(0xc0000022, 5); (0x103, 0x3e5); (0x105, 234); (0x106, 0x514); (0x107, 0x515); (0x10c, 0x3fe);
   (0x10d, 0x516); (0x121, 0x2009); (0xc0000001, 31); (0xc0000002, 1); (0xc0000003, 87); (0xc0000004, 24);
   (0xc0000005, 0x3e6); (0xc0000006, 0x3e7); (0xc0000007, 0x5ae); (0xc0000008, 6); (0xc0000009, 0x3e9);
   (0xc000000a, 193); (0xc000000b, 87); (0xc000000d, 87); (0xc000000e, 2); (0xc000000f, 2); (0xc0000010, 1);
   (0xc0000011, 38); (0xc0000012, 34); (0xc0000013, 21); (0xc0000014, 0x6f9); (0xc0000015, 27);
   (0xc0000016, 234); (0xc0000017, 8); (0xc0000018, 0x1e7); (0xc0000019, 0x1e7); (0xc000001a, 87);
   (0xc000001b, 87); (0xc000001c, 1); (0xc000001d, 0xc000001d); (0xc000001e, 5); (0xc000001f, 5);
   (0xc0000020, 193); (0xc0000021, 5); (0xc0000022, 5); (0xc0000023, 122); (0xc0000024, 6);
   (0xc0000025, 0xc0000025); (0xc0000026, 0xc0000026); (0xc000002a, 158); (0xc000002b, 0xc000002b);
   (0xc000002c, 0x1e7); (0xc000002d, 0x1e7); (0xc0000030, 87); (0xc0000032, 0x571); (0xc0000033, 123);
   (0xc0000034, 2); (0xc0000035, 183); (0xc0000037, 6); (0xc0000039, 161); (0xc000003a, 3); (0xc000003b, 161);
   (0xc000003c, 0x45d); (0xc000003d, 0x45d); (0xc000003e, 23); (0xc000003f, 23); (0xc0000040, 8);
   (0xc0000041, 5); (0xc0000042, 6); (0xc0000043, 32); (0xc0000044, 0x718); (0xc0000045, 87);
   (0xc0000046, 0x120); (0xc0000047, 0x12a); (0xc0000048, 87); (0xc0000049, 87); (0xc000004a, 156);
   (0xc000004b, 5); (0xc000004c, 87); (0xc000004d, 87); (0xc000004e, 87); (0xc000004f, 0x11a);
   (0xc0000050, 255); (0xc0000051, 0x570); (0xc0000052, 0x570); (0xc0000053, 0x570); (0xc0000054, 33);
   (0xc0000055, 33); (0xc0000056, 5); (0xc0000057, 50); (0xc0000058, 0x519); (0xc0000059, 0x51a);
   (0xc000005a, 0x51b); (0xc000005b, 0x51c); (0xc000005c, 0x51d); (0xc000005d, 0x51e); (0xc000005e, 0x51f);
   (0xc000005f, 0x520); (0xc0000060, 0x521); (0xc0000061, 0x522); (0xc0000062, 0x523); (0xc0000063, 0x524);
   (0xc0000064, 0x525); (0xc0000065, 0x526); (0xc0000066, 0x527); (0xc0000067, 0x528); (0xc0000068, 0x529);
   (0xc0000069, 0x52a); (0xc000006a, 86); (0xc000006b, 0x52c); (0xc000006c, 0x52d); (0xc000006d, 0x52e);
   (0xc000006e, 0x52f); (0xc000006f, 0x530); (0xc0000070, 0x531); (0xc0000071, 0x532); (0xc0000072, 0x533);
   (0xc0000073, 0x534); (0xc0000074, 0x535); (0xc0000075, 0x536); (0xc0000076, 0x537); (0xc0000077, 0x538);
   (0xc0000078, 0x539); (0xc0000079, 0x53a); (0xc000007a, 127); (0xc000007b, 193); (0xc000007c, 0x3f0);
   (0xc000007d, 0x53c); (0xc000007e, 158); (0xc000007f, 112); (0xc0000080, 0x53d); (0xc0000081, 0x53e);
   (0xc0000082, 68); (0xc0000083, 0x103); (0xc0000084, 0x53f); (0xc0000085, 0x103); (0xc0000086, 154);
   (0xc0000087, 14); (0xc0000088, 0x1e7); (0xc0000089, 0x714); (0xc000008a, 0x715); (0xc000008b, 0x716);
   (0xc000008c, 0xc000008c); (0xc000008d, 0xc000008d); (0xc000008e, 0xc000008e); (0xc000008f, 0xc000008f);
   (0xc0000090, 0xc0000090); (0xc0000091, 0xc0000091); (0xc0000092, 0xc0000092); (0xc0000093, 0xc0000093);
   (0xc0000094, 0xc0000094); (0xc0000095, 0x216); (0xc0000096, 0xc0000096); (0xc0000097, 8)].
Definition ntstatus_to_werror_map_2 : list (Z * Z) :=
  [(0xc0000098, 0x3ee); (0xc0000099, 0x540); (0xc000009a, 0x5aa); (0xc000009b, 3); (0xc000009c, 23);
   (0xc000009d, 0x48f); (0xc000009e, 21); (0xc000009f, 0x1e7); (0xc00000a0, 0x1e7); (0xc00000a1, 0x5ad);
   (0xc00000a2, 19); (0xc00000a3, 21); (0xc00000a4, 0x541); (0xc00000a5, 0x542); (0xc00000a6, 0x543);
   (0xc00000a7, 0x544); (0xc00000a8, 0x545); (0xc00000a9, 87); (0xc00000ab, 231); (0xc00000ac, 231);
   (0xc00000ad, 230); (0xc00000ae, 231); (0xc00000af, 1); (0xc00000b0, 233); (0xc00000b1, 232);
   (0xc00000b2, 0x217); (0xc00000b3, 0x218); (0xc00000b4, 230); (0xc00000b5, 121); (0xc00000b6, 38);
   (0xc00000ba, 5); (0xc00000bb, 50); (0xc00000bc, 51); (0xc00000bd, 52); (0xc00000be, 53); (0xc00000bf, 54);
   (0xc00000c0, 55); (0xc00000c1, 56); (0xc00000c2, 57); (0xc00000c3, 58); (0xc00000c4, 59); (0xc00000c5, 60);
   (0xc00000c6, 61); (0xc00000c7, 62); (0xc00000c8, 63); (0xc00000c9, 64); (0xc00000ca, 65); (0xc00000cb, 66);
   (0xc00000cc, 67); (0xc00000cd, 68); (0xc00000ce, 69); (0xc00000cf, 70); (0xc00000d0, 71); (0xc00000d1, 72);
   (0xc00000d2, 88); (0xc00000d4, 17); (0xc00000d5, 5); (0xc00000d6, 240); (0xc00000d7, 0x546);
   (0xc00000d9, 232); (0xc00000da, 0x547); (0xc00000dc, 0x548); (0xc00000dd, 0x549); (0xc00000de, 0x54a);
   (0xc00000df, 0x54b); (0xc00000e0, 0x54c); (0xc00000e1, 0x54d); (0xc00000e2, 0x12c); (0xc00000e3, 0x12d);
   (0xc00000e4, 0x54e); (0xc00000e5, 0x54f); (0xc00000e6, 0x550); (0xc00000e7, 0x551); (0xc00000e8, 0x6f8);
   (0xc00000ed, 0x552); (0xc00000ee, 0x553); (0xc00000ef, 87); (0xc00000f0, 87); (0xc00000f1, 87);
   (0xc00000f2, 87); (0xc00000f3, 87); (0xc00000f4, 87); (0xc00000f5, 87); (0xc00000f6, 87); (0xc00000f7, 87);
   (0xc00000f8, 87); (0xc00000f9, 87); (0xc00000fa, 87); (0xc00000fb, 3); (0xc00000fd, 0x3e9);
   (0xc00000fe, 0x554); (0xc0000100, 203); (0xc0000101, 145); (0xc0000102, 0x570); (0xc0000103, 0x10b);
   (0xc0000104, 0x555); (0xc0000105, 0x556); (0xc0000106, 206); (0xc0000107, 0x961); (0xc0000108, 0x964);
   (0xc000010a, 5); (0xc000010b, 0x557); (0xc000010d, 0x558); (0xc000010e, 0x420); (0xc0000117, 0x5a4);
   (0xc000011b, 193); (0xc000011c, 0x559); (0xc000011d, 0x55a); (0xc000011e, 0x3ee); (0xc000011f, 4);
   (0xc0000120, 0x3e3); (0xc0000121, 5); (0xc0000122, 0x4ba); (0xc0000123, 5); (0xc0000124, 0x55b);
   (0xc0000125, 0x55c); (0xc0000126, 0x55d); (0xc0000127, 0x55e); (0xc0000128, 6); (0xc000012b, 0x55f);
   (0xc000012d, 0x5af); (0xc000012e, 193); (0xc000012f, 193); (0xc0000130, 193); (0xc0000131, 193);
   (0xc0000133, 0x576); (0xc0000135, 126); (0xc0000138, 182); (0xc0000139, 127); (0xc000013b, 64);
   (0xc000013c, 64); (0xc000013d, 51); (0xc000013e, 59); (0xc000013f, 59); (0xc0000140, 59); (0xc0000141, 59);
   (0xc0000142, 0x45a); (0xc0000148, 124); (0xc0000149, 86); (0xc000014b, 109); (0xc000014c, 0x3f1);
   (0xc000014d, 0x3f8); (0xc000014f, 0x3ed); (0xc0000150, 0x45e); (0xc0000151, 0x560); (0xc0000152, 0x561);
   (0xc0000153, 0x562); (0xc0000154, 0x563); (0xc0000155, 0x564); (0xc0000156, 0x565)].
Definition ntstatus_to_werror_map_3 : list (Z * Z) :=
  [(0xc0000157, 0x566); (0xc0000158, 0x567); (0xc0000159, 0x3ef); (0xc000015a, 0x568); (0xc000015b, 0x569);
   (0xc000015c, 0x3f9); (0xc000015d, 0x56a); (0xc000015f, 0x45d); (0xc0000162, 0x459); (0xc0000165, 0x462);
   (0xc0000166, 0x463); (0xc0000167, 0x464); (0xc0000168, 0x465); (0xc0000169, 0x466); (0xc000016a, 0x467);
   (0xc000016b, 0x468); (0xc000016c, 0x45f); (0xc000016d, 0x45d); (0xc0000172, 0x451); (0xc0000173, 0x452);
   (0xc0000174, 0x453); (0xc0000175, 0x454); (0xc0000176, 0x455); (0xc0000177, 0x469); (0xc0000178, 0x458);
   (0xc000017a, 0x56b); (0xc000017b, 0x56c); (0xc000017c, 0x3fa); (0xc000017d, 0x3fb); (0xc000017e, 0x56d);
   (0xc000017f, 0x56e); (0xc0000180, 0x3fc); (0xc0000181, 0x3fd); (0xc0000182, 87); (0xc0000183, 0x45d);
   (0xc0000184, 22); (0xc0000185, 0x45d); (0xc0000186, 0x45d); (0xc0000188, 0x5de); (0xc0000189, 19);
   (0xc000018a, 0x6fa); (0xc000018b, 0x6fb); (0xc000018c, 0x6fc); (0xc000018d, 0x6fd); (0xc000018e, 0x5dc);
   (0xc000018f, 0x5dd); (0xc0000190, 0x6fe); (0xc0000192, 0x700); (0xc0000193, 0x701); (0xc0000194, 0x46b);
   (0xc0000195, 0x4c3); (0xc0000196, 0x4c4); (0xc0000197, 0x5df); (0xc0000198, 0x70f); (0xc0000199, 0x710);
   (0xc000019a, 0x711); (0xc000019b, 0x712); (0xc0000202, 0x572); (0xc0000203, 59); (0xc0000204, 0x717);
   (0xc0000205, 0x46a); (0xc0000206, 0x6f8); (0xc0000207, 0x4be); (0xc0000208, 0x4be); (0xc0000209, 68);
   (0xc000020a, 52); (0xc000020b, 64); (0xc000020c, 64); (0xc000020d, 64); (0xc000020e, 68); (0xc000020f, 59);
   (0xc0000210, 59); (0xc0000211, 59); (0xc0000212, 59); (0xc0000213, 59); (0xc0000214, 59); (0xc0000215, 59);
   (0xc0000216, 50); (0xc0000217, 50); (0xc000021c, 0x17e6); (0xc0000220, 0x46c); (0xc0000221, 193);
   (0xc0000224, 0x773); (0xc0000225, 0x490); (0xc000022a, 0xc000022a); (0xc000022b, 0xc000022b);
   (0xc000022d, 0x4d5); (0xc0000230, 0x492); (0xc0000233, 0x774); (0xc0000234, 0x775); (0xc0000235, 6);
   (0xc0000236, 0x4c9); (0xc0000237, 0x4ca); (0xc0000238, 0x4cb); (0xc0000239, 0x4cc); (0xc000023a, 0x4cd);
   (0xc000023b, 0x4ce); (0xc000023c, 0x4cf); (0xc000023d, 0x4d0); (0xc000023e, 0x4d1); (0xc000023f, 0x4d2);
   (0xc0000240, 0x4d3); (0xc0000241, 0x4d4); (0xc0000243, 0x4c8); (0xc0000246, 0x4d6); (0xc0000247, 0x4d7);
   (0xc0000248, 0x4d8); (0xc0000249, 193); (0xc0000253, 0x54f); (0xc0000257, 0x4d0); (0xc0000259, 0x573);
   (0xc000025e, 0x422); (0xc0000262, 182); (0xc0000263, 127); (0xc0000264, 0x120); (0xc0000265, 0x476);
   (0xc0000267, 0x10fe); (0xc000026c, 0x7d1); (0xc000026d, 0x4b1); (0xc000026e, 21); (0xc0000272, 0x491);
   (0xc0000275, 0x1126); (0xc0000276, 0x1129); (0xc0000277, 0x112a); (0xc0000278, 0x1128);
   (0xc0000279, 0x780); (0xc0000280, 0x781); (0xc0000281, 161); (0xc0000283, 0x488); (0xc0000284, 0x489);
   (0xc0000285, 0x48a); (0xc0000286, 0x48b); (0xc0000287, 0x48c); (0xc000028a, 5); (0xc000028b, 5);
   (0xc000028d, 5); (0xc000028e, 5); (0xc000028f, 5); (0xc0000290, 5); (0xc0000291, 0x1777);
   (0xc0000292, 0x1778); (0xc0000293, 0x1772); (0xc0000295, 0x1068); (0xc0000296, 0x1069);
   (0xc0000297, 0x106a); (0xc0000298, 0x106b); (0xc0000299, 0x201a); (0xc000029a, 0x201b);
   (0xc000029b, 0x201c); (0xc000029c, 1)].
Definition ntstatus_to_werror_map_4 : list (Z * Z) :=
  [(0xc000029d, 0x10ff); (0xc000029e, 0x1100); (0xc000029f, 0x494); (0xc00002a1, 0x200a);
   (0xc00002a2, 0x200b); (0xc00002a3, 0x200c); (0xc00002a4, 0x200d); (0xc00002a5, 0x200e);
   (0xc00002a6, 0x200f); (0xc00002a7, 0x2010); (0xc00002a8, 0x2011); (0xc00002a9, 0x2012);
   (0xc00002aa, 0x2013); (0xc00002ab, 0x2014); (0xc00002ac, 0x2015); (0xc00002ad, 0x2016);
   (0xc00002ae, 0x2017); (0xc00002af, 0x2018); (0xc00002b0, 0x2019); (0xc00002b1, 0x211e);
   (0xc00002b2, 0x1127); (0xc00002b6, 0x651); (0xc00002b7, 0x49a); (0xc00002b8, 0x49b); (0xc00002c1, 0x2024);
   (0xc00002c3, 0x575); (0xc00002c5, 0x3e6); (0xc00002c6, 0x1075); (0xc00002c7, 0x1076); (0xc00002ca, 0x10e8);
   (0xc00002cb, 0x2138); (0xc00002cc, 0x4e3); (0xc00002cd, 0x2139); (0xc00002cf, 0x49d); (0xc00002d0, 0x213a);
   (0xc00002d4, 0x2141); (0xc00002d5, 0x2142); (0xc00002d6, 0x2143); (0xc00002d7, 0x2144);
   (0xc00002d8, 0x2145); (0xc00002d9, 0x2146); (0xc00002da, 0x2147); (0xc00002db, 0x2148);
   (0xc00002dc, 0x2149); (0xc00002dd, 50); (0xc00002df, 0x2151); (0xc00002e0, 0x2152); (0xc00002e1, 0x2153);
   (0xc00002e2, 0x2154); (0xc00002e3, 0x215d); (0xc00002e4, 0x2163); (0xc00002e5, 0x2164);
   (0xc00002e6, 0x2165); (0xc00002e7, 0x216d); (0xc00002fe, 0x45b); (0xc00002ff, 0x4e7); (0xc0000300, 0x4e6);
   (0x80000001, 0x80000001); (0x80000002, 0x3e6); (0x80000003, 0x80000003); (0x80000004, 0x80000004);
   (0x80000005, 234); (0x80000006, 18); (0x8000000b, 0x56f); (0x8000000d, 0x12b); (0x8000000e, 28);
   (0x8000000f, 21); (0x80000010, 21); (0x80000011, 170); (0x80000012, 0x103); (0x80000013, 254);
   (0x80000014, 255); (0x80000015, 255); (0x80000016, 0x456); (0x8000001a, 0x103); (0x8000001b, 0x44d);
   (0x8000001c, 0x456); (0x8000001d, 0x457); (0x8000001e, 0x44c); (0x8000001f, 0x44e); (0x80000021, 0x44f);
   (0x80000022, 0x450); (0x80000025, 0x962); (0x80000288, 0x48d); (0x80000289, 0x48e); (0xc002001b, 0x6be)].
(** A status and the error of Windows; the row of zeros at the end is left out. *)
Definition ntstatus_to_werror_map : list (Z * Z) := ntstatus_to_werror_map_1 ++ ntstatus_to_werror_map_2 ++ ntstatus_to_werror_map_3 ++ ntstatus_to_werror_map_4.

(** The values of errno are those of Linux, which has no ENOATTR. *)
Definition unix_nt_errmap : list (Z * Z) :=
  [(11, 0x105); (4, 0x105); (105, 0x105); (11, 0x105); (115, 0xc0000016); (1, 0xc0000022); (13, 0xc0000022);
   (2, 0xc0000034); (20, 0xc0000103); (5, 0xc0000185); (9, 0xc0000008); (22, 0xc000000d); (17, 0xc0000035);
   (23, 0xc000011f); (24, 0xc000011f); (28, 0xc000007f); (21, 0xc00000ba); (88, 0xc0000008); (14, 0xc000000d);
   (90, 0xc0000206); (12, 0xc0000017); (32, 0xc000020c); (111, 0xc0000236); (104, 0xc000020d);
   (16, 0xc0000043); (95, 0xc00000bb); (95, 0xc00000bb); (113, 0xc000023d); (101, 0xc000023c);
   (110, 0xc00000b5); (98, 0xc0000238); (61, 0xc0000225); (122, 0xc0000044); (39, 0xc0000101);
   (18, 0xc00000d4); (30, 0xc00000a2); (36, 0xc0000106); (27, 0xc000007f); (99, 0xc0000239); (94, 0xc0000030);
   (97, 0xc0000030); (92, 0xc0000030); (19, 0xc000000e); (38, 0xc000001c); (0, 0xc0000001)].
(** The names without the code that ends each table. *)
Definition dos_errs : list (string * Z) :=
  [("WERR_OK"%string, 0); ("WERR_BADFILE"%string, 2); ("WERR_ACCESS_DENIED"%string, 5);
   ("WERR_BADFID"%string, 6); ("WERR_BADFUNC"%string, 1); ("WERR_BAD_NETPATH"%string, 53);
   ("WERR_BAD_NET_RESP"%string, 58); ("WERR_UNEXP_NET_ERR"%string, 59);
   ("WERR_INSUFFICIENT_BUFFER"%string, 122); ("WERR_NO_SUCH_SHARE"%string, 67);
   ("WERR_FILE_EXISTS"%string, 80); ("WERR_INVALID_PARAM"%string, 87); ("WERR_NOT_SUPPORTED"%string, 50);
   ("WERR_BAD_PASSWORD"%string, 86); ("WERR_NOMEM"%string, 8); ("WERR_INVALID_NAME"%string, 123);
   ("WERR_UNKNOWN_LEVEL"%string, 124); ("WERR_OBJECT_PATH_INVALID"%string, 161);
   ("WERR_ALREADY_EXISTS"%string, 183); ("WERR_NO_MORE_ITEMS"%string, 0x103); ("WERR_MORE_DATA"%string, 234);
   ("WERR_UNKNOWN_PRINTER_DRIVER"%string, 0x705); ("WERR_INVALID_PRINTER_NAME"%string, 0x709);
   ("WERR_PRINTER_ALREADY_EXISTS"%string, 0x70a); ("WERR_INVALID_DATATYPE"%string, 0x70c);
   ("WERR_INVALID_ENVIRONMENT"%string, 0x70d); ("WERR_INVALID_FORM_NAME"%string, 0x76e);
   ("WERR_INVALID_FORM_SIZE"%string, 0x76f); ("WERR_ALREADY_SHARED"%string, 0x846);
   ("WERR_BUF_TOO_SMALL"%string, 0x84b); ("WERR_JOB_NOT_FOUND"%string, 0x867);
   ("WERR_DEST_NOT_FOUND"%string, 0x868); ("WERR_NOT_LOCAL_DOMAIN"%string, 0x910);
   ("WERR_DEVICE_NOT_AVAILABLE"%string, 0x10df); ("WERR_PRINTER_DRIVER_IN_USE"%string, 0xbb9);
   ("WERR_STATUS_MORE_ENTRIES"%string, 0x105); ("WERR_NET_NAME_NOT_FOUND"%string, 0x906);
   ("WERR_DEVICE_NOT_SHARED"%string, 0x907); ("WERR_DFS_NO_SUCH_VOL"%string, 0xa66);
   ("WERR_DFS_NO_SUCH_SHARE"%string, 0xa69); ("WERR_DFS_NO_SUCH_SERVER"%string, 0xa71);
   ("WERR_DFS_INTERNAL_ERROR"%string, 0xa82); ("WERR_DFS_CANT_CREATE_JUNCT"%string, 0xa6d);
   ("WERR_INVALID_SECURITY_DESCRIPTOR"%string, 0x53a); ("WERR_UNKNOWN_REVISION"%string, 0x519);
   ("WERR_REVISION_MISMATCH"%string, 0x51a); ("WERR_INVALID_OWNER"%string, 0x51b);
   ("WERR_INVALID_COMPUTERNAME"%string, 0x4ba); ("WERR_INVALID_DOMAINNAME"%string, 0x4bc);
   ("WERR_NO_LOGON_SERVERS"%string, 0x51f); ("WERR_NO_SUCH_PRIVILEGE"%string, 0x521);
   ("WERR_PRIVILEGE_NOT_HELD"%string, 0x522); ("WERR_NO_SUCH_USER"%string, 0x525);
   ("WERR_NO_SUCH_DOMAIN"%string, 0x54b); ("WERR_NO_SYSTEM_RESOURCES"%string, 0x5aa);
   ("WERR_DS_SERVICE_BUSY"%string, 0x200e); ("WERR_DS_SERVICE_UNAVAILABLE"%string, 0x200f);
   ("WERR_DS_NO_SUCH_OBJECT"%string, 0x2030); ("WERR_DS_OBJ_NOT_FOUND"%string, 0x208d);
   ("WERR_DS_DRA_INVALID_PARAMETER"%string, 0x20f5); ("WERR_DS_DRA_BAD_DN"%string, 0x20f7);
   ("WERR_DS_DRA_BAD_NC"%string, 0x20f8); ("WERR_DS_DRA_INTERNAL_ERROR"%string, 0x20fa);
   ("WERR_DS_DRA_OUT_OF_MEM"%string, 0x20fe); ("WERR_DS_SINGLE_VALUE_CONSTRAINT"%string, 0x2081);
   ("WERR_DS_DRA_DB_ERROR"%string, 0x2103); ("WERR_DS_DRA_NO_REPLICA"%string, 0x2104);
   ("WERR_DS_DRA_ACCESS_DENIED"%string, 0x2105); ("WERR_DS_DNS_LOOKUP_FAILURE"%string, 0x214c);
   ("WERR_DS_WRONG_LINKED_ATTRIBUTE_SYNTAX"%string, 0x2150); ("WERR_GENERAL_FAILURE"%string, 31);
   ("WERR_PRINTQ_FULL"%string, 61); ("WERR_NO_SPOOL_SPACE"%string, 62);
   ("WERR_CAN_NOT_COMPLETE"%string, 0x3eb); ("WERR_NOT_FOUND"%string, 0x490);
   ("WERR_SERVER_UNAVAILABLE"%string, 0x6ba); ("WERR_CLASS_NOT_REGISTERED"%string, 0x40154);
   ("WERR_NO_SHUTDOWN_IN_PROGRESS"%string, 0x45c); ("WERR_SHUTDOWN_ALREADY_IN_PROGRESS"%string, 0x45b);
   ("WERR_SEC_E_ALGORITHM_MISMATCH"%string, 0x80090331)].
Definition wmi_errs : list (string * Z) :=
  [("RPC_S_CALL_FAILED"%string, 0x6be); ("WBEM_NO_ERROR"%string, 0); ("WBEM_S_NO_ERROR"%string, 0);
   ("WBEM_S_SAME"%string, 0); ("WBEM_S_FALSE"%string, 1); ("WBEM_S_ALREADY_EXISTS"%string, 0x40001);
   ("WBEM_S_RESET_TO_DEFAULT"%string, 0x40002); ("WBEM_S_DIFFERENT"%string, 0x40003);
   ("WBEM_S_TIMEDOUT"%string, 0x40004); ("WBEM_S_NO_MORE_DATA"%string, 0x40005);
   ("WBEM_S_OPERATION_CANCELLED"%string, 0x40006); ("WBEM_S_PENDING"%string, 0x40007);
   ("WBEM_S_DUPLICATE_OBJECTS"%string, 0x40008); ("WBEM_S_ACCESS_DENIED"%string, 0x40009);
   ("WBEM_S_PARTIAL_RESULTS"%string, 0x40010); ("WBEM_S_NO_POSTHOOK"%string, 0x40011);
   ("WBEM_S_POSTHOOK_WITH_BOTH"%string, 0x40012); ("WBEM_S_POSTHOOK_WITH_NEW"%string, 0x40013);
   ("WBEM_S_POSTHOOK_WITH_STATUS"%string, 0x40014); ("WBEM_S_POSTHOOK_WITH_OLD"%string, 0x40015);
   ("WBEM_S_REDO_PREHOOK_WITH_ORIGINAL_OBJECT"%string, 0x40016);
   ("WBEM_S_SOURCE_NOT_AVAILABLE"%string, 0x40017); ("WBEM_E_FAILED"%string, 0x80041001);
   ("WBEM_E_NOT_FOUND"%string, 0x80041002); ("WBEM_E_ACCESS_DENIED"%string, 0x80041003);
   ("WBEM_E_PROVIDER_FAILURE"%string, 0x80041004); ("WBEM_E_TYPE_MISMATCH"%string, 0x80041005);
   ("WBEM_E_OUT_OF_MEMORY"%string, 0x80041006); ("WBEM_E_INVALID_CONTEXT"%string, 0x80041007);
   ("WBEM_E_INVALID_PARAMETER"%string, 0x80041008); ("WBEM_E_NOT_AVAILABLE"%string, 0x80041009);
   ("WBEM_E_CRITICAL_ERROR"%string, 0x8004100a); ("WBEM_E_INVALID_STREAM"%string, 0x8004100b);
   ("WBEM_E_NOT_SUPPORTED"%string, 0x8004100c); ("WBEM_E_INVALID_SUPERCLASS"%string, 0x8004100d);
   ("WBEM_E_INVALID_NAMESPACE"%string, 0x8004100e); ("WBEM_E_INVALID_OBJECT"%string, 0x8004100f);
   ("WBEM_E_INVALID_CLASS"%string, 0x80041010); ("WBEM_E_PROVIDER_NOT_FOUND"%string, 0x80041011);
   ("WBEM_E_INVALID_PROVIDER_REGISTRATION"%string, 0x80041012);
   ("WBEM_E_PROVIDER_LOAD_FAILURE"%string, 0x80041013); ("WBEM_E_INITIALIZATION_FAILURE"%string, 0x80041014);
   ("WBEM_E_TRANSPORT_FAILURE"%string, 0x80041015); ("WBEM_E_INVALID_OPERATION"%string, 0x80041016);
   ("WBEM_E_INVALID_QUERY"%string, 0x80041017); ("WBEM_E_INVALID_QUERY_TYPE"%string, 0x80041018);
   ("WBEM_E_ALREADY_EXISTS"%string, 0x80041019); ("WBEM_E_OVERRIDE_NOT_ALLOWED"%string, 0x8004101a);
   ("WBEM_E_PROPAGATED_QUALIFIER"%string, 0x8004101b); ("WBEM_E_PROPAGATED_PROPERTY"%string, 0x8004101c);
   ("WBEM_E_UNEXPECTED"%string, 0x8004101d); ("WBEM_E_ILLEGAL_OPERATION"%string, 0x8004101e);
   ("WBEM_E_CANNOT_BE_KEY"%string, 0x8004101f); ("WBEM_E_INCOMPLETE_CLASS"%string, 0x80041020);
   ("WBEM_E_INVALID_SYNTAX"%string, 0x80041021); ("WBEM_E_NONDECORATED_OBJECT"%string, 0x80041022);
   ("WBEM_E_READ_ONLY"%string, 0x80041023); ("WBEM_E_PROVIDER_NOT_CAPABLE"%string, 0x80041024);
   ("WBEM_E_CLASS_HAS_CHILDREN"%string, 0x80041025); ("WBEM_E_CLASS_HAS_INSTANCES"%string, 0x80041026);
   ("WBEM_E_QUERY_NOT_IMPLEMENTED"%string, 0x80041027); ("WBEM_E_ILLEGAL_NULL"%string, 0x80041028);
   ("WBEM_E_INVALID_QUALIFIER_TYPE"%string, 0x80041029); ("WBEM_E_INVALID_PROPERTY_TYPE"%string, 0x8004102a);
   ("WBEM_E_VALUE_OUT_OF_RANGE"%string, 0x8004102b); ("WBEM_E_CANNOT_BE_SINGLETON"%string, 0x8004102c);
   ("WBEM_E_INVALID_CIM_TYPE"%string, 0x8004102d); ("WBEM_E_INVALID_METHOD"%string, 0x8004102e);
   ("WBEM_E_INVALID_METHOD_PARAMETERS"%string, 0x8004102f); ("WBEM_E_SYSTEM_PROPERTY"%string, 0x80041030);
   ("WBEM_E_INVALID_PROPERTY"%string, 0x80041031); ("WBEM_E_CALL_CANCELLED"%string, 0x80041032);
   ("WBEM_E_SHUTTING_DOWN"%string, 0x80041033); ("WBEM_E_PROPAGATED_METHOD"%string, 0x80041034);
   ("WBEM_E_UNSUPPORTED_PARAMETER"%string, 0x80041035); ("WBEM_E_MISSING_PARAMETER_ID"%string, 0x80041036);
   ("WBEM_E_INVALID_PARAMETER_ID"%string, 0x80041037);
   ("WBEM_E_NONCONSECUTIVE_PARAMETER_IDS"%string, 0x80041038);
   ("WBEM_E_PARAMETER_ID_ON_RETVAL"%string, 0x80041039); ("WBEM_E_INVALID_OBJECT_PATH"%string, 0x8004103a);
   ("WBEM_E_OUT_OF_DISK_SPACE"%string, 0x8004103b); ("WBEM_E_BUFFER_TOO_SMALL"%string, 0x8004103c);
   ("WBEM_E_UNSUPPORTED_PUT_EXTENSION"%string, 0x8004103d); ("WBEM_E_UNKNOWN_OBJECT_TYPE"%string, 0x8004103e);
   ("WBEM_E_UNKNOWN_PACKET_TYPE"%string, 0x8004103f); ("WBEM_E_MARSHAL_VERSION_MISMATCH"%string, 0x80041040);
   ("WBEM_E_MARSHAL_INVALID_SIGNATURE"%string, 0x80041041); ("WBEM_E_INVALID_QUALIFIER"%string, 0x80041042);
   ("WBEM_E_INVALID_DUPLICATE_PARAMETER"%string, 0x80041043); ("WBEM_E_TOO_MUCH_DATA"%string, 0x80041044);
   ("WBEM_E_SERVER_TOO_BUSY"%string, 0x80041045); ("WBEM_E_INVALID_FLAVOR"%string, 0x80041046);
   ("WBEM_E_CIRCULAR_REFERENCE"%string, 0x80041047); ("WBEM_E_UNSUPPORTED_CLASS_UPDATE"%string, 0x80041048);
   ("WBEM_E_CANNOT_CHANGE_KEY_INHERITANCE"%string, 0x80041049);
   ("WBEM_E_CANNOT_CHANGE_INDEX_INHERITANCE"%string, 0x80041050);
   ("WBEM_E_TOO_MANY_PROPERTIES"%string, 0x80041051); ("WBEM_E_UPDATE_TYPE_MISMATCH"%string, 0x80041052);
   ("WBEM_E_UPDATE_OVERRIDE_NOT_ALLOWED"%string, 0x80041053);
   ("WBEM_E_UPDATE_PROPAGATED_METHOD"%string, 0x80041054);
   ("WBEM_E_METHOD_NOT_IMPLEMENTED"%string, 0x80041055); ("WBEM_E_METHOD_DISABLED"%string, 0x80041056);
   ("WBEM_E_REFRESHER_BUSY"%string, 0x80041057); ("WBEM_E_UNPARSABLE_QUERY"%string, 0x80041058);
   ("WBEM_E_NOT_EVENT_CLASS"%string, 0x80041059); ("WBEM_E_MISSING_GROUP_WITHIN"%string, 0x8004105a);
   ("WBEM_E_MISSING_AGGREGATION_LIST"%string, 0x8004105b);
   ("WBEM_E_PROPERTY_NOT_AN_OBJECT"%string, 0x8004105c); ("WBEM_E_AGGREGATING_BY_OBJECT"%string, 0x8004105d);
   ("WBEM_E_UNINTERPRETABLE_PROVIDER_QUERY"%string, 0x8004105f);
   ("WBEM_E_BACKUP_RESTORE_WINMGMT_RUNNING"%string, 0x80041060); ("WBEM_E_QUEUE_OVERFLOW"%string, 0x80041061);
   ("WBEM_E_PRIVILEGE_NOT_HELD"%string, 0x80041062); ("WBEM_E_INVALID_OPERATOR"%string, 0x80041063);
   ("WBEM_E_LOCAL_CREDENTIALS"%string, 0x80041064); ("WBEM_E_CANNOT_BE_ABSTRACT"%string, 0x80041065);
   ("WBEM_E_AMENDED_OBJECT"%string, 0x80041066); ("WBEM_E_CLIENT_TOO_SLOW"%string, 0x80041067);
   ("WBEM_E_NULL_SECURITY_DESCRIPTOR"%string, 0x80041068); ("WBEM_E_TIMED_OUT"%string, 0x80041069);
   ("WBEM_E_INVALID_ASSOCIATION"%string, 0x8004106a); ("WBEM_E_AMBIGUOUS_OPERATION"%string, 0x8004106b);
   ("WBEM_E_QUOTA_VIOLATION"%string, 0x8004106c); ("WBEM_E_RESERVED_001"%string, 0x8004106d);
   ("WBEM_E_RESERVED_002"%string, 0x8004106e); ("WBEM_E_UNSUPPORTED_LOCALE"%string, 0x8004106f);
   ("WBEM_E_HANDLE_OUT_OF_DATE"%string, 0x80041070); ("WBEM_E_CONNECTION_FAILED"%string, 0x80041071);
   ("WBEM_E_INVALID_HANDLE_REQUEST"%string, 0x80041072); ("WBEM_E_PROPERTY_NAME_TOO_WIDE"%string, 0x80041073);
   ("WBEM_E_CLASS_NAME_TOO_WIDE"%string, 0x80041074); ("WBEM_E_METHOD_NAME_TOO_WIDE"%string, 0x80041075);
   ("WBEM_E_QUALIFIER_NAME_TOO_WIDE"%string, 0x80041076); ("WBEM_E_RERUN_COMMAND"%string, 0x80041077);
   ("WBEM_E_DATABASE_VER_MISMATCH"%string, 0x80041078); ("WBEM_E_VETO_DELETE"%string, 0x80041079);
   ("WBEM_E_VETO_PUT"%string, 0x8004107a); ("WBEM_E_INVALID_LOCALE"%string, 0x80041080);
   ("WBEM_E_PROVIDER_SUSPENDED"%string, 0x80041081); ("WBEM_E_SYNCHRONIZATION_REQUIRED"%string, 0x80041082);
   ("WBEM_E_NO_SCHEMA"%string, 0x80041083); ("WBEM_E_PROVIDER_ALREADY_REGISTERED"%string, 0x80041084);
   ("WBEM_E_PROVIDER_NOT_REGISTERED"%string, 0x80041085); ("WBEM_E_FATAL_TRANSPORT_ERROR"%string, 0x80041086);
   ("WBEM_E_ENCRYPTED_CONNECTION_REQUIRED"%string, 0x80041087);
   ("WBEM_E_PROVIDER_TIMED_OUT"%string, 0x80041088); ("WBEM_E_NO_KEY"%string, 0x80041089);
   ("WBEM_E_PROVIDER_DISABLED"%string, 0x8004108a)].

Definition ERRHRD : Z := 3.
Definition ERRgeneral : Z := 31.

Definition NT_STATUS_IS_DOS (status : Z) : bool := Z.land status 0xFF000000 =? 0xF1000000.
Definition NT_STATUS_DOS_CLASS (status : Z) : Z := Z.land (Z.shiftr status 16) 0xFF.
Definition NT_STATUS_DOS_CODE (status : Z) : Z := Z.land status 0xFFFF.

(** The loop ends at a row whose status is zero, which the table does not have: a status
    that is not found is looked for beyond the table. *)
Fixpoint find_dos (map : list (Z * Z * Z)) (ntstatus : Z) : outcome (Z * Z) :=
  match map with
  | [] => Fault
  | (c, e, s) :: map =>
      if s =? 0 then Ret (ERRHRD, ERRgeneral) else if ntstatus =? s then Ret (c, e) else find_dos map ntstatus
  end.
Definition ntstatus_to_dos (ntstatus : Z) : outcome (Z * Z) :=
  if ntstatus =? 0 then Ret (0, 0)
  else if NT_STATUS_IS_DOS ntstatus then Ret (NT_STATUS_DOS_CLASS ntstatus, NT_STATUS_DOS_CODE ntstatus)
  else find_dos ntstatus_to_dos_map ntstatus.

Definition ntstatus_dos_equal (lp_nt_status_support : bool) (status1 status2 : Z) : outcome bool :=
  let same s d := let* r := ntstatus_to_dos s in Ret ((r.1 =? NT_STATUS_DOS_CLASS d) && (r.2 =? NT_STATUS_DOS_CODE d)) in
  if lp_nt_status_support then Ret (status1 =? status2)
  else if negb (NT_STATUS_IS_DOS status1) && NT_STATUS_IS_DOS status2 then same status1 status2
  else if NT_STATUS_IS_DOS status1 && negb (NT_STATUS_IS_DOS status2) then same status2 status1
  else Ret (status1 =? status2).
(** NT_STATUS_EQUAL *)
Definition NT_STATUS_EQUAL (lp_nt_status_support : bool) (x y : Z) : outcome bool :=
  if NT_STATUS_IS_DOS x || NT_STATUS_IS_DOS y then ntstatus_dos_equal lp_nt_status_support x y else Ret (x =? y).

(** The first row that matches. *)
Definition first {A} (p : A -> bool) (l : list A) : option A := snd <$> list_find (fun x => p x = true) l.

Definition werror_to_ntstatus (error : Z) : Z :=
  if error =? 0 then 0
  else match first (fun r => error =? r.2) ntstatus_to_werror_map with
       | Some r => r.1
       | None => error
       end.
Definition ntstatus_to_werror (error : Z) : Z :=
  if error =? 0 then 0
  else match first (fun r => error =? r.1) ntstatus_to_werror_map with
       | Some r => r.2
       | None => error
       end.

(** The last row maps 0 as well. *)
Definition map_nt_error_from_unix (unix_error : Z) : Z :=
  match first (fun r => r.1 =? unix_error) unix_nt_errmap with
  | Some r => r.2
  | None => NT_STATUS_V NT_STATUS_UNSUCCESSFUL
  end.

(** A name, or the number in the text that is made for it. *)
Inductive errstr := Name (s : string) | Code (n : Z).

Definition win_errstr (werror : Z) : errstr :=
  match first (fun r => r.2 =? werror) dos_errs with
  | Some r => Name r.1
  | None => Code werror
  end.
Definition wmi_errstr (werror : Z) : errstr :=
  match first (fun r => r.2 =? werror) wmi_errs with
  | Some r => Name r.1
  | None => win_errstr werror
  end.
End Errormap.

Import Errormap.

(** ** The tables *)

Lemma first_None {A} (p : A -> bool) l : first p l = None <-> existsb p l = false.
Proof.
  unfold first. destruct (list_find _ l) as [[i x]|] eqn:E; cbn.
  - apply list_find_Some in E as (Hi & Hp & _). split; [done|]. intros Hx. exfalso.
    assert (existsb p l = true); [|congruence]. apply existsb_exists. exists x. split; [|done].
    apply list_elem_of_In. by eapply list_elem_of_lookup_2.
  - apply list_find_None in E. split; [|done]. intros _. apply not_true_iff_false. intros Hx.
    apply existsb_exists in Hx as (x & Hin & Hp). rewrite List.Forall_forall in E. by apply (E x).
Qed.

Lemma first_Some {A} (p : A -> bool) l x : first p l = Some x -> In x l /\ p x = true.
Proof.
  unfold first. destruct (list_find _ l) as [[i y]|] eqn:E; cbn; [|done]. intros [= <-].
  apply list_find_Some in E as (Hi & Hp & _). split; [|done]. apply list_elem_of_In. by eapply list_elem_of_lookup_2.
Qed.

(** The rows of an error or a status of Windows. *)
Definition is_werror (w : Z) : bool := existsb (fun r => w =? r.2) ntstatus_to_werror_map.
Definition is_ntstatus (s : Z) : bool := existsb (fun r => s =? r.1) ntstatus_to_werror_map.

Lemma rows_return : forallb (fun r => ntstatus_to_werror (werror_to_ntstatus r.2) =? r.2) ntstatus_to_werror_map = true.
Proof. vm_compute. reflexivity. Qed.
Lemma rows_nonzero : forallb (fun r => negb (r.1 =? 0) && negb (r.2 =? 0)) ntstatus_to_werror_map = true.
Proof. vm_compute. reflexivity. Qed.

Lemma find_dos_spec map s :
  forallb (fun r => negb (r.2 =? 0)) map = true ->
  find_dos map s = match first (fun r => s =? r.2) map with Some r => Ret r.1 | None => Fault end.
Proof.
  induction map as [|[[c e] t] map IH]; [done|]. cbn [forallb find_dos snd]. rewrite andb_true_iff, negb_true_iff. intros [Ht Hm].
  rewrite Ht. unfold first. cbn [list_find snd fst]. destruct (s =? t) eqn:E.
  - by rewrite decide_True.
  - rewrite decide_False by done. rewrite (IH Hm). unfold first. by destruct (list_find _ map) as [[i [[c' e'] t']]|].
Qed.

(** An error of Windows, the codes of WMI among them, comes back from the status it is
    turned into, unless it has no status of its own and is itself the number of one; success
    and only success is turned into success.  A status without a DOS code, such as every
    error of WMI, makes ntstatus_to_dos read beyond its table. *)
Theorem error_conversions (w : Z) :
  ((is_werror w || negb (is_ntstatus w)) = true -> ntstatus_to_werror (werror_to_ntstatus w) = w) /\
  (werror_to_ntstatus w = 0 <-> w = 0) /\ (ntstatus_to_werror w = 0 <-> w = 0) /\
  (ntstatus_to_dos w = Fault <->
     w <> 0 /\ NT_STATUS_IS_DOS w = false /\ Forall (fun r => r.2 <> w) ntstatus_to_dos_map).
Proof.
  pose proof rows_nonzero as Hnz. rewrite forallb_forall in Hnz. pose proof rows_return as Hr. rewrite forallb_forall in Hr.
  split_and!.
  - unfold is_werror, is_ntstatus. intros Hw. destruct (existsb (fun r => w =? r.2) _) eqn:E2; cbn in Hw.
    + apply existsb_exists in E2 as (r & Hin & Er). apply Z.eqb_eq in Er. subst w. apply Z.eqb_eq, (Hr r Hin).
    + apply negb_true_iff in Hw. unfold werror_to_ntstatus. destruct (Z.eqb_spec w 0) as [->|H0]; [done|].
      rewrite (proj2 (first_None _ _)) by done. unfold ntstatus_to_werror. rewrite (proj2 (Z.eqb_neq w 0)) by done.
      by rewrite (proj2 (first_None _ _)).
  - unfold werror_to_ntstatus. destruct (Z.eqb_spec w 0) as [->|H0]; [done|]. split; [|done].
    destruct (first _ _) as [r|] eqn:E; [|done]. apply first_Some in E as [Hin _]. specialize (Hnz r Hin). lia.
  - unfold ntstatus_to_werror. destruct (Z.eqb_spec w 0) as [->|H0]; [done|]. split; [|done].
    destruct (first _ _) as [r|] eqn:E; [|done]. apply first_Some in E as [Hin _]. specialize (Hnz r Hin). lia.
  - unfold ntstatus_to_dos. destruct (Z.eqb_spec w 0) as [->|H0]; [split; [done|by intros []]|].
    destruct (NT_STATUS_IS_DOS w); [split; [done|by intros (_ & ? & _)]|].
    rewrite find_dos_spec by (vm_compute; reflexivity). destruct (first _ _) as [r|] eqn:E.
    + split; [done|]. intros (_ & _ & Hf). apply first_Some in E as [Hin Er]. apply Z.eqb_eq in Er.
      rewrite List.Forall_forall in Hf. by destruct (Hf r Hin).
    + split; [|done]. intros _. split_and!; [done|done|]. apply first_None in E. rewrite List.Forall_forall. intros r Hin Er.
      assert (existsb (fun r => w =? r.2) ntstatus_to_dos_map = true); [|congruence].
      apply existsb_exists. exists r. split; [done|]. apply Z.eqb_eq. done.
Qed.

(** WBEM_E_FAILED, and the end of an enumeration. *)
Lemma error_conversions_witness :
  ntstatus_to_werror (werror_to_ntstatus 0x80041001) = 0x80041001 /\ ntstatus_to_dos 0x80041001 = Fault /\
  wmi_errstr 0x80041001 = Name "WBEM_E_FAILED" /\
  ntstatus_to_werror (NT_STATUS_V NT_STATUS_NOT_IMPLEMENTED) = 1.
Proof.
  destruct (error_conversions 0x80041001) as (H1 & _ & _ & H2). split; [apply H1; vm_compute; reflexivity|].
  split; [apply H2; split; [discriminate|split; [reflexivity|]]; by_eval|]. split; vm_compute; reflexivity.
Defined.
