(* ===== verification/Wbemdata.v ===== *)
(** wmi/wbemdata.c, objects: their marshalling, reading and setting properties, making
    instances and copying. *)

From stdpp Require Import strings.
From S2P Require Import Prelude Digest Byteorder Ntstatus Iconv Charcnv Cnum DomSid Ndr NdrPull NdrPush NdrString Cim Errormap.
Import Byteorder Charcnv Ndr NdrString Cim.

#[local] Open Scope outcome_scope.
#[local] Open Scope ndr_scope.

Module Wbemdata.

Definition WERR_OK : Z := 0.
Definition WERR_BADFUNC : Z := 1.
Definition WERR_NOT_SUPPORTED : Z := 50.
Definition WERR_INVALID_PARAM : Z := 87.
Definition WERR_NOT_FOUND : Z := 1168.

(** struct IWbemClassObject, less the context: the reference it is marshalled with and the
    object behind it. *)
Record IWbemClassObject := Interface {
  signature : Z;
  obj_flags : Z;
  iid : string;
  clsid : string;
  object_data : option WbemClassObject
}.

(** A call that allocates: the state is the number of allocations made. *)
Definition H : Type -> Type := M nat.

Section objects.
Context `{Charsets, Pidl} (A : Allocator).

(** talloc of a structure or an array, null when there is no memory. *)
Definition halloc : H addr := fun n => Ret (Good (if @malloc_ok A n then At n 0 else NULL), S n).
(** A block that is written without a look at the pointer. *)
Definition hwrite : H addr := do p <- halloc; if decide (p = NULL) then fault else ret p.
Definition talloc_strdup (s : CIMSTRING) : H CIMSTRING :=
  match s with
  | None => ret None
  | Some s => do p <- halloc; ret (if decide (p = NULL) then None else Some (Cstr p (chars s)))
  end.

(** strcmp for equality: both strings must be there. *)
Definition strcmp_eq (a b : CIMSTRING) : H bool :=
  do a <- deref a; do b <- deref b; ret (bool_decide (chars a = chars b)).

(** *** Marshalling *)

(** The header and the object, and the size in the header. *)
Definition push_object (wco : option WbemClassObject) : M ndr_push unit :=
  match wco with
  | Some wco =>
      NdrPush.ndr_push_uint32 A 0x12345678;;
      NdrPush.ndr_push_uint32 A 0;;
      ndr_push_WbemClassObject A wco;;
      do ofs <- get Push.offset;
      modify (Push.set_offset 4);;
      NdrPush.ndr_push_uint32 A (u32 (ofs - 8));;
      modify (Push.set_offset ofs)
  | None => NdrPush.ndr_push_uint32 A 0
  end.

(** The context, the state and the buffer are the first allocations. *)
Definition marshal_start : ndr_push :=
  Push.NdrPush 0 (if @malloc_ok A 2 then replicate 1024 (@uninit A) else []) 1024 0 0 [] [] [] [] [] 0 3.
(** pData and its size; the size of the interface pointer around it is left out. *)
Definition marshal (wco : option WbemClassObject) : outcome (result (option (list Z) * Z)) :=
  if @malloc_ok A 1 then
    let* r := push_object wco marshal_start in
    match r.1 with
    | Good _ =>
        let n := Push.offset r.2 in
        let d := NdrPush.resize A n (Push.data r.2) in
        Ret (Good (if (0 <? n) && (n <? MAX_TALLOC_SIZE) && @malloc_ok A (Push.allocs r.2) then Some d else None, n))
    | Bad e => Ret (Bad e)
    end
  else Fault.

Definition unmarshal_start (pData : list Z) (size : Z) : ndr_pull := Pull.NdrPull 0 pData size 0 0 [] [] [] [] [] 0 2.
(** The object, or none if the interface pointer is to be null. *)
Definition unmarshal_object : M ndr_pull (option WbemClassObject) :=
  do u <- NdrPull.ndr_pull_uint32;
  if u =? 0 then ret None
  else
    do u <- NdrPull.ndr_pull_uint32;
    do size <- get Pull.data_size;
    if size <? add32 u 8 then bad NT_STATUS_BUFFER_TOO_SMALL
    else
      do p <- NdrPull.alloc A;
      if decide (p = NULL) then NdrPull.ndr_pull_uint8;; fault
      else do wco <- ndr_pull_WbemClassObject A (object_zero p); ret (Some wco).
Definition unmarshal (pData : list Z) (size : Z) : outcome (result (option WbemClassObject)) :=
  if @malloc_ok A 1 then let* r := unmarshal_object (unmarshal_start pData size) in Ret r.1 else Fault.

(** *** Interfaces *)

Definition dcom_IWbemClassObject_from_WbemClassObject (wco : option WbemClassObject) : H IWbemClassObject :=
  hwrite;;
  ret (Interface 0x574f454d 4 "dc12a681-737f-11cf-884d-00aa004b2e24" "4590f812-1d3a-11d0-891f-00aa004b2e24" wco).

(** The index of the first of [n] elements from [i] on whose name is [name]. *)
Fixpoint find_name {B} (l : list B) (name_of : B -> CIMSTRING) (name : CIMSTRING) (n i : nat) : H (option (nat * B)) :=
  match n with
  | O => ret None
  | S n =>
      do x <- nth_of l i;
      do same <- strcmp_eq (name_of x) name;
      if same : bool then ret (Some (i, x)) else find_name l name_of name n (S i)
  end.

(** [want_in] and [want_out]: whether the pointers for the parameters are there. *)
Definition IWbemClassObject_GetMethod (d : IWbemClassObject) (name : CIMSTRING) (want_in want_out : bool) :
    H (Z * option IWbemClassObject * option IWbemClassObject) :=
  do wco <- deref (object_data d);
  do methods <- deref (w_obj_methods wco);
  do found <- find_name (ms_method methods) m_name name (Z.to_nat (ms_count methods)) 0;
  match found with
  | None => ret (WERR_NOT_FOUND, None, None)
  | Some (_, m) =>
      do in_ <- (if want_in then do p <- dcom_IWbemClassObject_from_WbemClassObject (m_in m); ret (Some p) else ret None);
      do out <- (if want_out then do p <- dcom_IWbemClassObject_from_WbemClassObject (m_out m); ret (Some p) else ret None);
      ret (WERR_OK, in_, out)
  end.

(** An array of [n] elements of which all are written. *)
Definition hwrite_array (n : nat) : H addr :=
  do p <- halloc; match n with O => ret p | _ => if decide (p = NULL) then fault else ret p end.

Definition WbemClassObject_CreateInstance (wco : WbemClassObject) : H WbemClassObject :=
  hwrite;;
  do c <- deref (w_obj_class wco);
  let n := Z.to_nat (c_PROPERTY_COUNT c) in
  do flags_at <- halloc;
  do data_at <- hwrite_array n;
  match n, flags_at with
  | S _, NULL => fault
  | _, _ => ret (set_instance (Some (Instance_ 0 (c_CLASS c) (replicate n 1) data_at (replicate n cimvar_zero) 4 1)) wco)
  end.

Definition IWbemClassObject_Clone (d : IWbemClassObject) : Z := WERR_NOT_SUPPORTED.

Definition IWbemClassObject_SpawnInstance (d : IWbemClassObject) : H (Z * IWbemClassObject) :=
  do wco <- deref (object_data d);
  do p <- hwrite;
  do nwco <- WbemClassObject_CreateInstance
    (ClassObject p WCF_INSTANCE None None None None (w_obj_class wco) None None);
  do instance <- dcom_IWbemClassObject_from_WbemClassObject (Some nwco);
  ret (WERR_OK, instance).

(** *** Copies *)

(** What a member of the union holds: a null pointer is a zero of the memory. *)
Definition as_string (v : CIMVAR) : H CIMSTRING :=
  match v with
  | V_string s => ret s
  | V_int 0 => ret None
  | _ => fault
  end.
Definition as_object (v : CIMVAR) : H (option WbemClassObject) :=
  match v with
  | V_object o => ret o
  | V_int 0 => ret None
  | _ => fault
  end.
Definition as_int_array (v : CIMVAR) : H (option (arr Z)) :=
  match v with
  | A_int a => ret a
  | V_int 0 => ret None
  | _ => fault
  end.
Definition as_string_array (v : CIMVAR) : H (option (arr CIMSTRING)) :=
  match v with
  | A_string a => ret a
  | V_int 0 => ret None
  | _ => fault
  end.

(** A structure and the elements of its array, which must be there; a block for the
    elements that is not made leaves a null pointer. *)
Definition duplicate_int_array (a : arr Z) : H (arr Z) :=
  do p <- hwrite;
  do q <- halloc;
  if decide (q = NULL) then ret (Arr p (a_count a) [])
  else if decide (Z.to_nat (a_count a) <= length (a_item a))%nat
  then ret (Arr p (a_count a) (take (Z.to_nat (a_count a)) (a_item a)))
  else fault.
(** The block of the elements has 4 bytes for each, and a pointer takes 8. *)
Definition duplicate_string_array (a : arr CIMSTRING) : H (arr CIMSTRING) :=
  do p <- hwrite;
  do q <- halloc;
  do l <- collect (Z.to_nat (a_count a)) 0 (fun i =>
    do s <- nth_of (a_item a) i;
    do s <- talloc_strdup s;
    if decide (q <> NULL /\ 8 * (Z.of_nat i + 1) <= u32 (4 * a_count a)) then ret s else fault);
  ret (Arr p (a_count a) l).

(** The cases of the switch that copy the value, a string, an object and arrays of them. *)
Definition plain_types : list Z :=
  [CIM_SINT8; CIM_UINT8; CIM_SINT16; CIM_UINT16; CIM_SINT32; CIM_UINT32; CIM_SINT64; CIM_UINT64; CIM_REAL32;
   CIM_REAL64; CIM_BOOLEAN].
Definition string_types : list Z := [CIM_STRING; CIM_DATETIME; CIM_REFERENCE].

(** Copying may change what is copied: each function gives the source as it is then, and
    the copy. *)
Section copies.
Context (duplicate_object : addr -> WbemClassObject -> H (WbemClassObject * WbemClassObject)).

Definition duplicate_CIMVAR (src dst : CIMVAR) (cimtype : Z) : H (CIMVAR * CIMVAR) :=
  let t := Z.land cimtype CIM_TYPEMASK in
  let one_of l := bool_decide (t ∈ l) in
  let arrays l := bool_decide (t ∈ map (Z.lor CIM_FLAG_ARRAY) l) in
  if one_of plain_types then ret (src, src)
  else if one_of string_types then do s <- as_string src; do s <- talloc_strdup s; ret (src, V_string s)
  else if t =? CIM_OBJECT then
    do o <- as_object src;
    do p <- hwrite;
    do o <- deref o;
    do (o, c) <- duplicate_object p o;
    ret (V_object (Some o), V_object (Some c))
  else if arrays plain_types then
    do a <- as_int_array src; do a <- deref a; do c <- duplicate_int_array a; ret (src, A_int (Some c))
  else if arrays string_types then
    do a <- as_string_array src; do a <- deref a; do c <- duplicate_string_array a; ret (src, A_string (Some c))
  else ret (src, dst).

(** Into the array of a cleared structure, which is null. *)
Definition duplicate_CIMSTRINGS (src : CIMSTRINGS) : H CIMSTRINGS :=
  if s_count src =? 0 then ret (Strings 0 []) else fault.
Definition duplicate_WbemQualifiers (src : WbemQualifiers CIMVAR) : H (WbemQualifiers CIMVAR) :=
  if qs_count src =? 0 then ret (Qualifiers 0 []) else fault.
(** Into the array of the source itself: a cleared qualifier takes the place of each, and is
    then copied to itself. *)
Definition duplicate_shared_qualifiers (src : WbemQualifiers CIMVAR) : H (WbemQualifiers CIMVAR) :=
  do l <- collect (Z.to_nat (qs_count src)) 0 (fun i =>
    do _ <- nth_of (qs_item src) i;
    do p <- hwrite;
    ret (Qualifier p None 0 0 cimvar_zero));
  ret (Qualifiers (qs_count src) (l ++ drop (length l) (qs_item src))).

(** The description is copied with the pointer to its qualifiers. *)
Definition duplicate_property (src : WbemProperty CIMVAR) : H (WbemProperty CIMVAR * WbemProperty CIMVAR) :=
  do name <- talloc_strdup (p_name src);
  do d <- deref (p_desc src);
  do p <- hwrite;
  do q <- duplicate_shared_qualifiers (pd_qualifiers d);
  let desc at_ := PropertyDesc at_ (pd_cimtype d) (pd_nr d) (pd_offset d) (pd_depth d) q in
  ret (Property (p_name src) (Some (desc (pd_at d))), Property name (Some (desc p))).

(** The first [n] of the values, of the types of the properties. *)
Definition duplicate_values (n : nat) (src : list CIMVAR) (props : list (WbemProperty CIMVAR)) : H (list (CIMVAR * CIMVAR)) :=
  collect n 0 (fun i =>
    do v <- nth_of src i;
    do d <- desc_of props i;
    duplicate_CIMVAR v (V_int (@uninit A)) (pd_cimtype d)).
(** An array of which the first elements have changed. *)
Definition changed {B} (new old : list B) : list B := new ++ drop (length new) old.

(** data_size is not copied. *)
Definition duplicate_WbemClass (src : WbemClass CIMVAR) : H (WbemClass CIMVAR * WbemClass CIMVAR) :=
  do class <- talloc_strdup (c_CLASS src);
  do derivation <- duplicate_CIMSTRINGS (c_DERIVATION src);
  do qualifiers <- duplicate_WbemQualifiers (c_qualifiers src);
  let n := Z.to_nat (c_PROPERTY_COUNT src) in
  hwrite_array n;;
  do props <- collect n 0 (fun i => do p <- nth_of (c_properties src) i; duplicate_property p);
  let src_props := changed (map fst props) (c_properties src) in
  do flags_at <- hwrite_array n;
  do values_at <- hwrite_array n;
  do flags <- collect n 0 (fun i => nth_of (c_default_flags src) i);
  do values <- duplicate_values n (c_default_values src) src_props;
  ret (Class_ (c_u_0 src) (c_CLASS src) (c_data_size src) (c_DERIVATION src) (c_qualifiers src) (c_PROPERTY_COUNT src)
         src_props (c_flags_at src) (c_default_flags src) (c_values_at src) (changed (map fst values) (c_default_values src)),
       Class_ (c_u_0 src) class 0 derivation qualifiers (c_PROPERTY_COUNT src) (map snd props) flags_at flags values_at
         (map snd values)).

(** Into the array of cleared methods, which is null: duplicate_WbemMethod faults at once. *)
Definition duplicate_WbemMethods (src : WbemMethods CIMVAR WbemClassObject) : H (WbemMethods CIMVAR WbemClassObject) :=
  if ms_count src =? 0 then ret (Methods 0 (ms_u0 src) []) else fault.

Definition duplicate_WbemInstance (src : WbemInstance CIMVAR) (cls : WbemClass CIMVAR) : H (WbemInstance CIMVAR * WbemInstance CIMVAR) :=
  do class <- talloc_strdup (i_CLASS src);
  let n := Z.to_nat (c_PROPERTY_COUNT cls) in
  hwrite_array n;;
  do data_at <- hwrite_array n;
  do flags <- collect n 0 (fun i => nth_of (i_default_flags src) i);
  do values <- duplicate_values n (i_data src) (c_properties cls);
  ret (Instance_ (i_u1_0 src) (i_CLASS src) (i_default_flags src) (i_data_at src) (changed (map fst values) (i_data src)) (i_u2_4 src) (i_u3_1 src),
       Instance_ (i_u1_0 src) class flags data_at (map snd values) (i_u2_4 src) (i_u3_1 src)).

Definition duplicate_class (src : option (WbemClass CIMVAR)) : H (option (WbemClass CIMVAR) * option (WbemClass CIMVAR)) :=
  hwrite;; do c <- deref src; do (c, d) <- duplicate_WbemClass c; ret (Some c, Some d).
Definition duplicate_methods (src : option (WbemMethods CIMVAR WbemClassObject)) : H (option (WbemMethods CIMVAR WbemClassObject)) :=
  hwrite;; do m <- deref src; do m <- duplicate_WbemMethods m; ret (Some m).

(** Into the cleared object at [p]. *)
Definition duplicate_into (p : addr) (src : WbemClassObject) : H (WbemClassObject * WbemClassObject) :=
  let flags := w_flags src in
  do (server, namespace) <-
    (if isset flags WCF_CLASS then
       do s <- talloc_strdup (w_SERVER src); do n <- talloc_strdup (w_NAMESPACE src); ret (s, n)
     else ret (None, None));
  do (sup_class, sup_class', sup_methods, obj_methods) <-
    (if isset flags WCF_DECORATIONS then
       do (c, d) <- duplicate_class (w_sup_class src);
       do sm <- duplicate_methods (w_sup_methods src);
       do om <- duplicate_methods (w_obj_methods src);
       ret (c, d, sm, om)
     else ret (w_sup_class src, None, None, None));
  do (obj_class, obj_class') <-
    (if isset flags (Z.lor WCF_CLASS WCF_INSTANCE) then duplicate_class (w_obj_class src) else ret (w_obj_class src, None));
  do (instance, instance') <-
    (if isset flags WCF_INSTANCE then
       hwrite;;
       do i <- deref (w_instance src); do c <- deref obj_class;
       do (i, j) <- duplicate_WbemInstance i c;
       ret (Some i, Some j)
     else ret (w_instance src, None));
  ret (ClassObject (w_at src) flags (w_SERVER src) (w_NAMESPACE src) sup_class (w_sup_methods src) obj_class (w_obj_methods src) instance,
       ClassObject p flags server namespace sup_class' sup_methods obj_class' obj_methods instance').
End copies.

(** *** Copies of objects *)

(** How deep objects are nested in values. *)
Fixpoint depth (v : CIMVAR) : nat :=
  match v with
  | V_object (Some o) => S (object_depth o)
  | _ => 0
  end
with object_depth (o : WbemClassObject) : nat :=
  let class_depth (c : option (WbemClass CIMVAR)) :=
    match c with
    | Some (Class_ _ _ _ _ _ _ _ _ _ _ values) => list_max (map depth values)
    | None => 0%nat
    end in
  match o with
  | ClassObject _ _ _ _ sup_class _ obj_class _ instance =>
      Nat.max (Nat.max (class_depth sup_class) (class_depth obj_class))
        (match instance with Some (Instance_ _ _ _ _ data _ _) => list_max (map depth data) | None => 0%nat end)
  end.

(** Fuel for the nesting. *)
Fixpoint duplicate_WbemClassObject (fuel : nat) (p : addr) (src : WbemClassObject) : H (WbemClassObject * WbemClassObject) :=
  match fuel with
  | O => fault
  | S fuel => duplicate_into (duplicate_WbemClassObject fuel) p src
  end.
Definition duplicate (src dst : CIMVAR) (cimtype : Z) : H (CIMVAR * CIMVAR) :=
  duplicate_CIMVAR (duplicate_WbemClassObject (depth src)) src dst cimtype.

(** *** Properties *)

(** The object, which a copy may have changed, and the value, type and flavor for [val]. *)
Definition WbemClassObject_Get (d : WbemClassObject) (name : CIMSTRING) (val : CIMVAR) :
    H (Z * WbemClassObject * option (CIMVAR * Z * Z)) :=
  do c <- deref (w_obj_class d);
  do found <- find_name (c_properties c) p_name name (Z.to_nat (c_PROPERTY_COUNT c)) 0;
  match found with
  | None => ret (WERR_NOT_FOUND, d, None)
  | Some (i, p) =>
      do inst <- deref (w_instance d);
      do v <- nth_of (i_data inst) i;
      do desc <- deref (p_desc p);
      do (v, val) <- duplicate v val (pd_cimtype desc);
      ret (WERR_OK,
        set_instance (Some (Instance_ (i_u1_0 inst) (i_CLASS inst) (i_default_flags inst) (i_data_at inst)
          (<[i := v]> (i_data inst)) (i_u2_4 inst) (i_u3_1 inst))) d,
        Some (val, pd_cimtype desc, 0))
  end.

(** The object and the value [val]; a type of 0 is not checked. *)
Definition IWbemClassObject_Put (d : IWbemClassObject) (name : CIMSTRING) (val : CIMVAR) (cimtype : Z) :
    H (Z * option WbemClassObject * CIMVAR) :=
  do wco <- deref (object_data d);
  do c <- deref (w_obj_class wco);
  do found <- find_name (c_properties c) p_name name (Z.to_nat (c_PROPERTY_COUNT c)) 0;
  match found with
  | None => ret (WERR_NOT_FOUND, Some wco, val)
  | Some (i, p) =>
      do desc <- (if cimtype =? 0 then ret (pd_cimtype <$> p_desc p) else do desc <- deref (p_desc p); ret (Some (pd_cimtype desc)));
      if negb (cimtype =? 0) && bool_decide (desc <> Some cimtype) then ret (WERR_INVALID_PARAM, Some wco, val)
      else
        do inst <- deref (w_instance wco);
        do _ <- nth_of (i_default_flags inst) i;
        do old <- nth_of (i_data inst) i;
        do t <- deref desc;
        do (val, new) <- duplicate val old t;
        ret (WERR_OK,
          Some (set_instance (Some (Instance_ (i_u1_0 inst) (i_CLASS inst) (<[i := 0]> (i_default_flags inst)) (i_data_at inst)
            (<[i := new]> (i_data inst)) (i_u2_4 inst) (i_u3_1 inst))) wco),
          val)
  end.
End objects.
End Wbemdata.
