(* ===== verification/WbemEnum.v ===== *)
(** wmi/wbemdata.c, enumerations: what the server sends for a batch of objects, the cache of
    their classes, and fetching one batch after the other. *)

From stdpp Require Import strings.
From S2P Require Import Prelude Digest Byteorder Ntstatus Iconv Charcnv Cnum DomSid Ndr NdrPull NdrPush NdrString Cim Errormap Wbemdata.
Import Byteorder Charcnv Ndr NdrString Cim Errormap Wbemdata.

#[local] Open Scope outcome_scope.
#[local] Open Scope ndr_scope.

(** struct GUID of librpc/idl/misc.idl. *)
Record GUID := Guid {
  time_low : Z;
  time_mid : Z;
  time_hi_and_version : Z;
  clock_seq : list Z;
  node : list Z
}.

(** The code PIDL generates for it. *)
Class GuidNdr := { ndr_pull_GUID : M ndr_pull GUID }.

Module WbemEnum.

Definition DATATYPE_CLASSOBJECT : Z := 2.
Definition DATATYPE_OBJECT : Z := 3.
Definition WBEM_NO_ERROR : Z := 0.
Definition WBEM_S_FALSE : Z := 1.
Definition WBEM_S_TIMEDOUT : Z := 0x40004.

(** librpc/ndr/uuid.c *)
Definition GUID_equal (u1 u2 : GUID) : bool :=
  (time_low u1 =? time_low u2) && (time_mid u1 =? time_mid u2) && (time_hi_and_version u1 =? time_hi_and_version u2)
  && bool_decide (clock_seq u1 = clock_seq u2) && bool_decide (node u1 = node u2).

(** The newest pair comes first. *)
Definition cache : Type := list (GUID * option (WbemClass CIMVAR)).
Fixpoint get_ptr_by_guid (list : cache) (uuid : GUID) : option (WbemClass CIMVAR) :=
  match list with
  | [] => None
  | e :: list => if GUID_equal e.1 uuid then e.2 else get_ptr_by_guid list uuid
  end.

Section enumeration.
Context `{Charsets, Pidl, GuidNdr} (A : Allocator).

(** *** WBEMDATA_Parse *)

(** The parser and the cache of the enumeration. *)
Record parser := Parser { p_ndr : ndr_pull; p_cache : cache }.

Definition lift {B} (m : M ndr_pull B) : M parser B := fun s =>
  let* r := m (p_ndr s) in Ret (r.1, Parser r.2 (p_cache s)).

Definition add_pair_guid_ptr (uuid : GUID) (ptr : option (WbemClass CIMVAR)) : M parser unit :=
  do p <- lift (NdrPull.alloc A);
  if decide (p = NULL) then fault else modify (fun s => Parser (p_ndr s) ((uuid, ptr) :: p_cache s)).

(** NDR_CHECK_EXPR *)
Definition check_expr (b : bool) : M parser unit := if b then ret tt else bad NT_STATUS_UNSUCCESSFUL.
Definition word_is (v : Z) : M parser unit := do u <- lift NdrPull.ndr_pull_uint32; check_expr (u =? v).
(** A length, of which [n] more bytes have to be there. *)
Definition length_word (n : Z) : M parser Z :=
  do u <- lift NdrPull.ndr_pull_uint32; lift (NdrPull.NDR_PULL_NEED_BYTES (add32 u n));; ret u.

Definition parse_header (uCount : Z) : M parser unit :=
  word_is 0;;
  word_is 0x4D454257;;
  word_is 0x41544144;;
  word_is 0x1A;;
  length_word 6;;
  word_is 0;;
  (do u8 <- lift NdrPull.ndr_pull_uint8; check_expr (u8 =? 1));;
  (do u8 <- lift NdrPull.ndr_pull_uint8; check_expr (u8 <=? 1));;
  word_is 8;;
  length_word 0;;
  word_is 0xC;;
  length_word 4;;
  word_is uCount.

(** The object at [i] of an array of [room] elements. *)
Definition parse_object (room i : nat) : M parser WbemClassObject :=
  word_is 9;;
  do u <- length_word 1;
  do datatype <- lift NdrPull.ndr_pull_uint8;
  do o <- get (fun s => Pull.offset (p_ndr s));
  let ofs_next := add32 o u in
  word_is 0x18;;
  length_word 16;;
  do guid <- lift ndr_pull_GUID;
  do obj <-
    (if datatype =? DATATYPE_CLASSOBJECT then
       do p <- lift (NdrPull.alloc A);
       if decide (room <= i)%nat then fault
       else if decide (p = NULL) then lift NdrPull.ndr_pull_uint8;; fault
       else
         do obj <- lift (ndr_pull_WbemClassObject A (object_zero p));
         add_pair_guid_ptr guid (w_obj_class obj);;
         ret obj
     else if datatype =? DATATYPE_OBJECT then
       do p <- lift (NdrPull.alloc A);
       if decide (room <= i)%nat then fault
       else if decide (p = NULL) then fault
       else
         do c <- get p_cache;
         lift (ndr_pull_WbemClassObject_Object A (set_obj_class (get_ptr_by_guid c guid) (object_zero p)))
     else bad NT_STATUS_NOT_SUPPORTED);
  modify (fun s => Parser (Pull.set_offset ofs_next (p_ndr s)) (p_cache s));;
  ret obj.

(** The first allocations are the context and the parser. *)
Definition parse_start (data : list Z) (size : Z) : ndr_pull :=
  Pull.NdrPull LIBNDR_FLAG_NOALIGN data size 0 0 [] [] [] [] [] 0 2.
(** The status and the objects, for an array of [room] elements, and the cache. *)
Definition WBEMDATA_Parse (data : list Z) (size : Z) (c : cache) (uCount : Z) (room : nat) :
    outcome (result (list WbemClassObject) * cache) :=
  if uCount =? 0 then Ret (Bad NT_STATUS_NOT_IMPLEMENTED, c)
  else if @malloc_ok A 1 then
    let* r := (parse_header uCount;; collect (Z.to_nat uCount) 0 (parse_object room)) (Parser (parse_start data size) c) in
    Ret (r.1, p_cache r.2)
  else Fault.

(** *** IEnumWbemClassObject_SmartNext *)

(** struct IEnumWbemClassObject_data; interfaces are known by a number. *)
Record enum_data := EnumData {
  e_guid : GUID;
  e_pFSE : option nat;
  e_pSE : option nat;
  e_cache : cache;
  e_lTimeout : Z;
  e_uCount : Z;
  e_uReturned : Z;
  e_size : Z;
  e_pData : option (list Z)
}.

Definition set_reply (uReturned size : Z) (pData : option (list Z)) (s : enum_data) : enum_data :=
  EnumData (e_guid s) (e_pFSE s) (e_pSE s) (e_cache s) (e_lTimeout s) (e_uCount s) uReturned size pData.
Definition set_cache (c : cache) (s : enum_data) : enum_data :=
  EnumData (e_guid s) (e_pFSE s) (e_pSE s) c (e_lTimeout s) (e_uCount s) (e_uReturned s) (e_size s) (e_pData s).

(** The other side of the calls of DCOM, as what their _recv functions give: [None] when the
    _send function gives no context. *)
Record server := Server {
  query_interface : option (Z * nat);
  fetch : nat -> option (Z * option nat);
  next : nat -> GUID -> Z -> Z -> option (Z * Z * Z * option (list Z))
}.

Definition NO_MEMORY : Z := NT_STATUS_V NT_STATUS_NO_MEMORY.

(** IWbemWCOSmartEnum_Next_send on the interface of [s] and smart_next_enum_continue. *)
Definition smart_next_enum (srv : server) (s : enum_data) : outcome (Z * enum_data) :=
  match e_pSE s with
  | None => Fault
  | Some pSE =>
      match next srv pSE (e_guid s) (e_lTimeout s) (e_uCount s) with
      | None => Ret (NO_MEMORY, s)
      | Some (result, uReturned, size, pData) =>
          if (result =? WBEM_NO_ERROR) || (result =? WBEM_S_FALSE) || (result =? WBEM_S_TIMEDOUT)
          then Ret (0, set_reply uReturned size pData s)
          else Ret (werror_to_ntstatus result, s)
      end
  end.

(** smart_next_fetch_enum_continue, with the [random] GUID. *)
Definition smart_next_fetch_enum (srv : server) (random : GUID) (s : enum_data) : outcome (Z * enum_data) :=
  match e_pFSE s with
  | None => Fault
  | Some pFSE =>
      match fetch srv pFSE with
      | None => Ret (NO_MEMORY, s)
      | Some (result, pSmartEnum) =>
          if result =? 0 then
            smart_next_enum srv (EnumData random (e_pFSE s) pSmartEnum (e_cache s) (e_lTimeout s) (e_uCount s) (e_uReturned s)
              (e_size s) (e_pData s))
          else Ret (werror_to_ntstatus result, s)
      end
  end.

(** smart_next_query_interface_continue *)
Definition smart_next_query_interface (srv : server) (random : GUID) (s : enum_data) : outcome (Z * enum_data) :=
  match query_interface srv with
  | None => Ret (NO_MEMORY, s)
  | Some (status, pFSE) =>
      if status =? 0 then
        smart_next_fetch_enum srv random (EnumData (e_guid s) (Some pFSE) (e_pSE s) (e_cache s) (e_lTimeout s) (e_uCount s)
          (e_uReturned s) (e_size s) (e_pData s))
      else Ret (status, s)
  end.

Definition enum_zero (lTimeout uCount : Z) : enum_data :=
  EnumData (Guid 0 0 0 [0; 0] [0; 0; 0; 0; 0; 0]) None None [] lTimeout uCount 0 0 None.

(** IEnumWbemClassObject_SmartNext_send and the continuations: the status of the context and
    the data of the enumeration, which the first call makes if it can ([got]). *)
Definition SmartNext_send (srv : server) (random : GUID) (got : bool) (d : option enum_data) (lTimeout uCount : Z) :
    outcome (Z * option enum_data) :=
  match d with
  | None =>
      if got then
        let* r := smart_next_query_interface srv random (enum_zero lTimeout uCount) in Ret (r.1, Some r.2)
      else Ret (NO_MEMORY, None)
  | Some s => let* r := smart_next_enum srv s in Ret (r.1, Some r.2)
  end.

(** The error, the objects returned and the data; [room] is the size of the array for them. *)
Definition SmartNext_recv (status : Z) (d : option enum_data) (room : nat) :
    outcome (Z * list WbemClassObject * option enum_data) :=
  if negb (status =? 0) then Ret (ntstatus_to_werror status, [], d)
  else
    match d with
    | None => Fault
    | Some s =>
        match e_pData s with
        | None => Ret (WERR_OK, [], d)
        | Some pData =>
            let* r := WBEMDATA_Parse pData (e_size s) (e_cache s) (e_uReturned s) room in
            Ret (match r.1 with
                 | Good objects => (WERR_OK, objects, Some (set_cache r.2 s))
                 | Bad e => (ntstatus_to_werror (NT_STATUS_V e), [], Some (set_cache r.2 s))
                 end)
        end
    end.

(** For an array of [uCount] elements. *)
Definition IEnumWbemClassObject_SmartNext (srv : server) (random : GUID) (got : bool) (d : option enum_data)
    (lTimeout uCount : Z) : outcome (Z * list WbemClassObject * option enum_data) :=
  let* r := SmartNext_send srv random got d lTimeout uCount in
  SmartNext_recv r.1 r.2 (Z.to_nat uCount).
End enumeration.
End WbemEnum.
