(* ===== verification/Wmic.v ===== *)
(** wmi/wmic.c: the text of a value and printing the objects of a query, one batch after the
    other. *)

From stdpp Require Import strings.
From S2P Require Import Prelude Digest Byteorder Ntstatus Iconv Charcnv Cnum DomSid Ndr NdrPull NdrPush NdrString Cim Errormap Wbemdata WbemEnum.
Import Byteorder Charcnv Ndr NdrString Cim Errormap Wbemdata WbemEnum.

#[local] Open Scope outcome_scope.

Module Wmic.

(** *** The text of a value *)

(** %d and %u *)
Definition dec_signed (v : Z) : list Z := if v <? 0 then 45 :: dec (- v) else dec v.
(** %s: glibc prints a null pointer like this. *)
Definition text (s : CIMSTRING) : list Z := match s with Some s => chars s | None => DomSid.str "(null)" end.

(** The double next to a number below 2^64, ties to even, printed with %f. *)
Definition to_double (n : Z) : Z :=
  let e := Z.max 0 (Z.log2 n - 52) in
  let q := Z.shiftr n e in
  let r := n - Z.shiftl q e in
  let half := 2 ^ (e - 1) in
  Z.shiftl (if (0 <? e) && ((half <? r) || ((half =? r) && Z.odd q)) then q + 1 else q) e.
Definition dec_double (n : Z) : list Z := dec (to_double n) ++ DomSid.str ".000000".

(** The member of an integer type. *)
Definition member (t v : Z) : Z :=
  if t =? CIM_SINT8 then s8 v else if t =? CIM_UINT8 then u8 v
  else if t =? CIM_SINT16 then s16 v else if (t =? CIM_UINT16) || (t =? CIM_BOOLEAN) then u16 v
  else if t =? CIM_SINT32 then s32 v else if (t =? CIM_UINT32) || (t =? CIM_REAL32) then u32 v
  else if t =? CIM_SINT64 then s64 v else u64 v.
Definition integer_types : list Z :=
  [CIM_SINT8; CIM_UINT8; CIM_SINT16; CIM_UINT16; CIM_SINT32; CIM_UINT32; CIM_SINT64; CIM_UINT64].

(** RETURN_CVAR_ARRAY_STR: the elements with commas between them. *)
Definition joined (l : list (list Z)) : list Z :=
  [40] ++ match l with [] => [] | x :: l => x ++ concat (map (cons 44) l) end ++ [41].
Definition array_text {B} (a : option (arr B)) (f : B -> outcome (list Z)) : outcome (list Z) :=
  match a with
  | None => Ret (DomSid.str "NULL")
  | Some a =>
      let fix go (n i : nat) : outcome (list (list Z)) :=
        match n with
        | O => Ret []
        | S n =>
            match a_item a !! i with
            | Some x => let* t := f x in let* l := go n (S i) in Ret (t :: l)
            | None => Fault
            end
        end in
      let* l := go (Z.to_nat (a_count a)) O in Ret (joined l)
  end.

(** A member of the union that is read as a pointer. *)
Definition string_of (v : CIMVAR) : outcome CIMSTRING :=
  match v with V_string s => Ret s | V_int 0 => Ret None | _ => Fault end.
Definition ints_of (v : CIMVAR) : outcome (option (arr Z)) :=
  match v with A_int a => Ret a | V_int 0 => Ret None | _ => Fault end.
Definition strings_of (v : CIMVAR) : outcome (option (arr CIMSTRING)) :=
  match v with A_string a => Ret a | V_int 0 => Ret None | _ => Fault end.
Definition int_of (v : CIMVAR) : outcome Z := match v with V_int n => Ret n | _ => Fault end.

(** The bits of a real are printed as the integer they are; an array of reals passes
    integers where %f takes doubles. *)
Definition string_CIMVAR (v : CIMVAR) (t : Z) : outcome (list Z) :=
  let base := Z.land t (Z.lnot CIM_FLAG_ARRAY) in
  let array := isset t CIM_FLAG_ARRAY in
  if bool_decide (t ∈ integer_types) then let* n := int_of v in Ret (dec_signed (member t n))
  else if (t =? CIM_REAL32) || (t =? CIM_REAL64) then let* n := int_of v in Ret (dec_double (member t n))
  else if t =? CIM_BOOLEAN then
    let* n := int_of v in Ret (DomSid.str (if member t n =? 0 then "False" else "True"))
  else if bool_decide (t ∈ string_types) then let* s := string_of v in Ret (text s)
  else if array && bool_decide (base ∈ CIM_BOOLEAN :: integer_types) then
    let* a := ints_of v in array_text a (fun n => Ret (dec_signed (member base n)))
  else if array && ((base =? CIM_REAL32) || (base =? CIM_REAL64)) then
    let* a := ints_of v in array_text a (fun _ => Fault)
  else if array && bool_decide (base ∈ string_types) then
    let* a := strings_of v in array_text a (fun s => Ret (text s))
  else Ret (DomSid.str "Unsupported").

(** *** Printing *)

Definition deref' {B} (p : option B) : outcome B := match p with Some x => Ret x | None => Fault end.

(** The fields of the first [n] elements with the delimiter between them, and the end of the line. *)
Fixpoint fields {B} (delim : list Z) (l : list B) (f : nat -> B -> outcome (list Z)) (n j : nat) : outcome (list Z) :=
  match n with
  | O => Ret [10]
  | S n =>
      let* x := deref' (l !! j) in
      let* t := f j x in
      let* rest := fields delim l f n (S j) in
      Ret ((if (0 <? j)%nat then delim else []) ++ t ++ rest)
  end.

(** The header of the class when it is another one, and the row of the object; the name of
    the class for the next row. *)
Definition print_object (delim : list Z) (class_name : CIMSTRING) (co : WbemClassObject) : outcome (list Z * CIMSTRING) :=
  let* c := deref' (w_obj_class co) in
  let n := Z.to_nat (c_PROPERTY_COUNT c) in
  let* same :=
    match class_name with
    | None => Ret false
    | Some name => let* class := deref' (c_CLASS c) in Ret (bool_decide (chars class = chars name))
    end in
  let* header :=
    if same : bool then Ret []
    else
      let* names := fields delim (c_properties c) (fun _ p => Ret (text (p_name p))) n 0 in
      Ret (DomSid.str "CLASS: " ++ text (c_CLASS c) ++ [10] ++ names) in
  let* row :=
    match n with
    | O => Ret [10]
    | S _ =>
        let* inst := deref' (w_instance co) in
        fields delim (i_data inst) (fun j v =>
          let* p := deref' (c_properties c !! j) in
          let* d := deref' (p_desc p) in
          string_CIMVAR v (Z.land (pd_cimtype d) CIM_TYPEMASK)) n 0
    end in
  Ret (header ++ row, if same then class_name else c_CLASS c).

Fixpoint print_objects (delim : list Z) (class_name : CIMSTRING) (l : list WbemClassObject) : outcome (list Z * CIMSTRING) :=
  match l with
  | [] => Ret ([], class_name)
  | co :: l =>
      let* (t, class_name) := print_object delim class_name co in
      let* (rest, class_name) := print_objects delim class_name l in
      Ret (t ++ rest, class_name)
  end.

Section query.
Context `{Charsets, Pidl, GuidNdr} (A : Allocator).

Definition cnt : Z := 5.

(** The loop of main, with what the server answers to each call and the random GUID of the
    first: what is printed and the exit code, if the answers are enough for the loop to end. *)
Fixpoint results (delim : list Z) (answers : list server) (random : GUID) (d : option enum_data) (class_name : CIMSTRING) :
    outcome (list Z * option Z) :=
  match answers with
  | [] => Ret ([], None)
  | srv :: answers =>
      let* (result, co, d) := IEnumWbemClassObject_SmartNext A srv random true d 0xFFFFFFFF cnt in
      if negb (result =? WERR_BADFUNC) && negb (result =? WERR_OK) then Ret ([], Some 1)
      else
        match co with
        | [] => Ret ([], Some 0)
        | _ =>
            let* (t, class_name) := print_objects delim class_name co in
            if Z.of_nat (length co) =? cnt then
              let* (rest, code) := results delim answers random d class_name in Ret (t ++ rest, code)
            else Ret (t, Some 0)
        end
  end.
End query.
End Wmic.
