(* ===== verification/WbemObject.v ===== *)
(** wmi/wbemdata.c, objects: the properties of an instance are a map from names to values,
    and what copying does. *)

From stdpp Require Import strings gmap.
From S2P Require Import Prelude Digest Byteorder Ntstatus Iconv Charcnv Cnum DomSid Ndr NdrPull NdrPush NdrString Cim Errormap Wbemdata.
Import Byteorder Charcnv Ndr NdrString Cim Wbemdata.

#[local] Open Scope outcome_scope.
#[local] Open Scope ndr_scope.

(** ** The properties of an object *)

(** The type, the flags and the value of a property. *)
Record property := Prop_ { r_type : Z; r_flag : Z; r_value : CIMVAR }.

Definition row (p : WbemProperty CIMVAR) (f : Z) (v : CIMVAR) : option (list Z * property) :=
  match p_name p, p_desc p with
  | Some s, Some d => Some (chars s, Prop_ (pd_cimtype d) f v)
  | _, _ => None
  end.
Fixpoint rows (props : list (WbemProperty CIMVAR)) (flags : list Z) (data : list CIMVAR) : option (list (list Z * property)) :=
  match props, flags, data with
  | [], [], [] => Some []
  | p :: props, f :: flags, v :: data =>
      match row p f v, rows props flags data with
      | Some r, Some l => Some (r :: l)
      | _, _ => None
      end
  | _, _, _ => None
  end.

(** The properties of an instance by name, of which the first counts. *)
Definition store (o : WbemClassObject) : option (gmap (list Z) property) :=
  match w_obj_class o, w_instance o with
  | Some c, Some i =>
      if decide (c_PROPERTY_COUNT c = Z.of_nat (length (c_properties c)))
      then list_to_map <$> rows (c_properties c) (i_default_flags i) (i_data i)
      else None
  | _, _ => None
  end.

(** Values that are equal but for where they are; a zero is the null pointer. *)
Definition same_value (v w : CIMVAR) : Prop :=
  match v, w with
  | V_int a, V_int b => a = b
  | V_int a, V_string None => a = 0
  | V_string s, V_string t => chars <$> s = chars <$> t
  | A_int (Some a), A_int (Some b) => a_count a = a_count b /\ a_item a = a_item b
  | _, _ => False
  end.

(** The values of a type that can be copied: numbers, strings and arrays of numbers. *)
Definition copyable (t : Z) (v : CIMVAR) : Prop :=
  let t := Z.land t CIM_TYPEMASK in
  match v with
  | V_int a => t ∈ plain_types \/ (t ∈ string_types /\ a = 0)
  | V_string _ => t ∈ string_types
  | A_int (Some a) => t ∈ map (Z.lor CIM_FLAG_ARRAY) plain_types /\ a_count a = Z.of_nat (length (a_item a))
  | _ => False
  end.

(** ** Lists of rows *)

Lemma list_to_map_first {V} (l : list (list Z * V)) k v :
  (list_to_map l : gmap (list Z) V) !! k = Some v ->
  exists j, l !! j = Some (k, v) /\ forall i x, (i < j)%nat -> l !! i = Some x -> x.1 <> k.
Proof.
  induction l as [|[k' v'] l IH]; cbn; [by rewrite lookup_empty|].
  destruct (decide (k' = k)) as [->|Hk].
  - rewrite lookup_insert_eq. intros [= ->]. exists 0%nat. split; [done|]. lia.
  - rewrite lookup_insert_ne by done. intros (j & Hj & Hf)%IH. exists (S j). split; [done|].
    intros [|i] x Hi; cbn; [by intros [= <-]|]. apply Hf. lia.
Qed.

Lemma list_to_map_update {V} (l : list (list Z * V)) j k v w :
  l !! j = Some (k, v) -> (forall i x, (i < j)%nat -> l !! i = Some x -> x.1 <> k) ->
  list_to_map (<[j := (k, w)]> l) = <[k := w]> (list_to_map l : gmap (list Z) V).
Proof.
  revert j. induction l as [|[k' v'] l IH]; intros [|j] Hj Hf; cbn in *; try done.
  - injection Hj as -> _. by rewrite insert_insert_eq.
  - assert (k' <> k) by (apply (Hf 0%nat (k', v')); [lia|done]).
    rewrite insert_insert_ne by congruence. f_equal. apply IH; [done|].
    intros i x Hi Hx. apply (Hf (S i)); [lia|done].
Qed.

Lemma rows_lookup props flags data rs j k r :
  rows props flags data = Some rs -> rs !! j = Some (k, r) ->
  exists p s d, props !! j = Some p /\ p_name p = Some s /\ chars s = k /\ p_desc p = Some d /\ pd_cimtype d = r_type r /\
    flags !! j = Some (r_flag r) /\ data !! j = Some (r_value r).
Proof.
  revert flags data rs j. induction props as [|p props IH]; intros [|f flags] [|v data] rs j; cbn; try done; [by intros [= <-]|].
  unfold row. destruct (p_name p) as [s|] eqn:Hs; [|done]. destruct (p_desc p) as [d|] eqn:Hd; [|done].
  destruct (rows props flags data) as [l|] eqn:Hl; [|done]. intros [= <-]. destruct j as [|j]; cbn.
  - intros [= <- <-]. by exists p, s, d.
  - by apply IH.
Qed.

Lemma rows_length props flags data rs : rows props flags data = Some rs -> length rs = length props.
Proof.
  revert flags data rs. induction props as [|p props IH]; intros [|f flags] [|v data] rs; cbn; try done; [by intros [= <-]|].
  destruct (row p f v), (rows props flags data) eqn:E; try done. intros [= <-]. cbn. f_equal. by eapply IH.
Qed.

Lemma rows_named props flags data rs j p :
  rows props flags data = Some rs -> props !! j = Some p -> exists s r, p_name p = Some s /\ rs !! j = Some (chars s, r).
Proof.
  intros Hr Hp. destruct (rs !! j) as [[k r]|] eqn:Hj.
  - destruct (rows_lookup _ _ _ _ _ _ _ Hr Hj) as (p' & s & d & Hp' & Hs & <- & _). simplify_eq. eauto.
  - apply lookup_ge_None in Hj. apply lookup_lt_Some in Hp. rewrite (rows_length _ _ _ _ Hr) in Hj. lia.
Qed.

Lemma rows_insert props flags data rs j k r f v :
  rows props flags data = Some rs -> rs !! j = Some (k, r) ->
  rows props (<[j := f]> flags) (<[j := v]> data) = Some (<[j := (k, Prop_ (r_type r) f v)]> rs).
Proof.
  revert flags data rs j. induction props as [|p props IH]; intros [|f' flags] [|v' data] rs j; cbn; try done; [by intros [= <-]|].
  unfold row. destruct (p_name p) as [s|] eqn:Hs; [|done]. destruct (p_desc p) as [d|] eqn:Hd; [|done].
  destruct (rows props flags data) as [l|] eqn:Hl; [|done]. intros [= <-]. destruct j as [|j]; cbn.
  - intros [= <- <-]. by rewrite Hl.
  - intros Hj. pose proof (IH _ _ _ _ Hl Hj) as E. unfold insert in E |- *. by rewrite E.
Qed.

(** ** Finding a property *)

Section find.
Context {B : Type} (l : list B) (name_of : B -> CIMSTRING) (name : cstr).

Lemma find_name_step n i x s st :
  l !! i = Some x -> name_of x = Some s ->
  find_name l name_of (Some name) (S n) i st =
  if decide (chars s = chars name) then Ret (Good (Some (i, x)), st) else find_name l name_of (Some name) n (S i) st.
Proof.
  intros Hx Hs. cbn [find_name]. rewrite (bind_good _ _ _ x st) by (unfold nth_of; by rewrite Hx).
  rewrite (bind_good _ _ _ (bool_decide (chars s = chars name)) st) by (unfold strcmp_eq; by rewrite Hs).
  destruct (decide (chars s = chars name)) as [E|E]; [by rewrite bool_decide_eq_true_2|by rewrite bool_decide_eq_false_2].
Qed.

Lemma find_name_absent n i st :
  (i + n <= length l)%nat ->
  (forall j x, l !! j = Some x -> exists s, name_of x = Some s /\ chars s <> chars name) ->
  find_name l name_of (Some name) n i st = Ret (Good None, st).
Proof.
  intros Hn Hl. revert i Hn. induction n as [|n IH]; intros i Hn; [done|].
  destruct (lookup_lt_is_Some_2 l i) as [x Hx]; [lia|]. destruct (Hl i x Hx) as (s & Hs & Hne).
  rewrite (find_name_step n i x s) by done. rewrite decide_False by done. apply IH. lia.
Qed.

Lemma find_name_present n i j x s st :
  (i <= j < i + n)%nat -> (i + n <= length l)%nat ->
  l !! j = Some x -> name_of x = Some s -> chars s = chars name ->
  (forall k y, (k < j)%nat -> l !! k = Some y -> exists s, name_of y = Some s /\ chars s <> chars name) ->
  find_name l name_of (Some name) n i st = Ret (Good (Some (j, x)), st).
Proof.
  intros Hi Hn Hx Hs Hc Hl. revert i Hi Hn. induction n as [|n IH]; intros i Hi Hn; [lia|].
  destruct (decide (i = j)) as [->|Hne].
  - rewrite (find_name_step n j x s) by done. by rewrite decide_True.
  - destruct (lookup_lt_is_Some_2 l i) as [y Hy]; [lia|]. destruct (Hl i y) as (t & Ht & Htc); [lia|done|].
    rewrite (find_name_step n i y t) by done. rewrite decide_False by done. apply IH; lia.
Qed.
End find.

(** ** Copies *)

Section copies.
Context (A : Allocator) (HA : malloc_always A).

Lemma halloc_good n : halloc A n = Ret (Good (At n 0), S n).
Proof. unfold halloc. by rewrite HA. Qed.
Lemma hwrite_good n : hwrite A n = Ret (Good (At n 0), S n).
Proof. unfold hwrite. by rewrite (bind_good _ _ _ _ _ (halloc_good n)). Qed.
Lemma hwrite_array_good k n : hwrite_array A k n = Ret (Good (At n 0), S n).
Proof. unfold hwrite_array. rewrite (bind_good _ _ _ _ _ (halloc_good n)). by destruct k. Qed.

Lemma talloc_strdup_good (s : CIMSTRING) n :
  exists t n', talloc_strdup A s n = Ret (Good t, n') /\ chars <$> t = chars <$> s.
Proof.
  destruct s as [s|]; [|by exists None, n]. exists (Some (Cstr (At n 0) (chars s))), (S n). split; [|done].
  unfold talloc_strdup. by rewrite (bind_good _ _ _ _ _ (halloc_good n)).
Qed.

Lemma duplicate_int_array_good (a : arr Z) n :
  a_count a = Z.of_nat (length (a_item a)) ->
  exists b n', duplicate_int_array A a n = Ret (Good b, n') /\ a_count b = a_count a /\ a_item b = a_item a.
Proof.
  intros Ha. exists (Arr (At n 0) (a_count a) (a_item a)), (S (S n)). split; [|done].
  unfold duplicate_int_array. rewrite (bind_good _ _ _ _ _ (hwrite_good n)), (bind_good _ _ _ _ _ (halloc_good (S n))).
  rewrite decide_False by done. rewrite Ha, Nat2Z.id, decide_True by lia. by rewrite take_ge by lia.
Qed.

(** A copy is equal to what is copied, which stays as it is. *)
Lemma duplicate_copyable f v old t n :
  copyable t v -> exists w n', duplicate_CIMVAR A f v old t n = Ret (Good (v, w), n') /\ same_value v w /\ copyable t w.
Proof.
  unfold duplicate_CIMVAR, copyable. generalize (Z.land t CIM_TYPEMASK) as x. intros x Hc.
  assert (Hnot : x ∈ string_types -> bool_decide (x ∈ plain_types) = false).
  { unfold string_types. rewrite !elem_of_cons, elem_of_nil. intros [->|[->|[->|[]]]]; by vm_compute. }
  assert (Hmem : forall l : list Z, x ∈ l -> bool_decide (x ∈ l) = true) by (intros; by apply bool_decide_eq_true_2).
  destruct v as [a|s|o|[a|]|a|a]; try done.
  - destruct Hc as [Hc|[Hc ->]]; [exists (V_int a), n; rewrite Hmem by done; by split; [|split; [|left]]|].
    exists (V_string None), n. rewrite (Hnot Hc), Hmem by done. by rewrite !(bind_good _ _ _ None n) by done.
  - destruct (talloc_strdup_good s n) as (s' & n' & E & Es). exists (V_string s'), n'.
    rewrite (Hnot Hc), Hmem by done. rewrite (bind_good _ _ _ s n) by done. by rewrite (bind_good _ _ _ _ _ E).
  - destruct Hc as [Hc Ha]. destruct (duplicate_int_array_good a n Ha) as (b & n' & E & Ec & Ei). exists (A_int (Some b)), n'.
    assert (bool_decide (x ∈ plain_types) = false /\ bool_decide (x ∈ string_types) = false /\ (x =? CIM_OBJECT) = false) as (-> & -> & ->).
    { cbn in Hc. rewrite !elem_of_cons, elem_of_nil in Hc. destruct_or!; try done; subst x; by vm_compute. }
    rewrite Hmem by done. rewrite (bind_good _ _ _ (Some a) n), (bind_good _ _ _ a n) by done. rewrite (bind_good _ _ _ _ _ E).
    split; [done|]. split; [done|]. by rewrite Ec, Ei.
Qed.

(** ** Reading, storing and making instances *)

Lemma store_inv o st :
  store o = Some st ->
  exists c i rs, w_obj_class o = Some c /\ w_instance o = Some i /\ c_PROPERTY_COUNT c = Z.of_nat (length (c_properties c)) /\
    rows (c_properties c) (i_default_flags i) (i_data i) = Some rs /\ st = list_to_map rs.
Proof.
  unfold store. destruct (w_obj_class o) as [c|]; [|done]. destruct (w_instance o) as [i|]; [|done].
  destruct (decide _) as [Hc|]; [|done]. destruct (rows _ _ _) as [rs|] eqn:E; cbn; [|done]. intros [= <-].
  by exists c, i, rs.
Qed.

Lemma store_set_instance o c i rs :
  w_obj_class o = Some c -> c_PROPERTY_COUNT c = Z.of_nat (length (c_properties c)) ->
  rows (c_properties c) (i_default_flags i) (i_data i) = Some rs -> store (set_instance (Some i) o) = Some (list_to_map rs).
Proof. destruct o. cbn. intros -> Hc Hr. unfold store. cbn. by rewrite decide_True, Hr. Qed.

(** Where a name is found, if it is. *)
Lemma find_property c rs flags data name n :
  c_PROPERTY_COUNT c = Z.of_nat (length (c_properties c)) -> rows (c_properties c) flags data = Some rs ->
  match (list_to_map rs : gmap (list Z) property) !! chars name with
  | None => find_name (c_properties c) p_name (Some name) (Z.to_nat (c_PROPERTY_COUNT c)) 0 n = Ret (Good None, n)
  | Some r =>
      exists j p d, find_name (c_properties c) p_name (Some name) (Z.to_nat (c_PROPERTY_COUNT c)) 0 n = Ret (Good (Some (j, p)), n) /\
        p_desc p = Some d /\ pd_cimtype d = r_type r /\ flags !! j = Some (r_flag r) /\ data !! j = Some (r_value r) /\
        rs !! j = Some (chars name, r) /\ forall i x, (i < j)%nat -> rs !! i = Some x -> x.1 <> chars name
  end.
Proof.
  intros Hc Hr. rewrite Hc, Nat2Z.id. destruct (_ !! _) as [r|] eqn:E.
  - destruct (list_to_map_first _ _ _ E) as (j & Hj & Hf).
    destruct (rows_lookup _ _ _ _ _ _ _ Hr Hj) as (p & s & d & Hp & Hs & Hn & Hd & Ht & Hfl & Hv).
    exists j, p, d. split; [|done]. apply lookup_lt_Some in Hp as Hlt.
    apply (find_name_present _ _ _ _ 0 j p s); [lia|done..|].
    intros k q Hk Hq. destruct (rows_named _ _ _ _ _ _ Hr Hq) as (t & r' & Ht' & Hrs). exists t. split; [done|].
    exact (Hf _ _ Hk Hrs).
  - apply find_name_absent; [done|]. intros j q Hq. destruct (rows_named _ _ _ _ _ _ Hr Hq) as (t & r' & Ht & Hrs).
    exists t. split; [done|]. intros En. apply not_elem_of_list_to_map in E. apply E. rewrite <- En.
    apply list_elem_of_fmap. exists (chars t, r'). split; [done|]. by eapply list_elem_of_lookup_2.
Qed.

Lemma rows_fresh props flags data rs :
  rows props flags data = Some rs ->
  rows props (replicate (length props) 1) (replicate (length props) cimvar_zero) =
  Some (prod_map id (fun r => Prop_ (r_type r) 1 cimvar_zero) <$> rs).
Proof.
  revert flags data rs. induction props as [|p props IH]; intros [|f flags] [|v data] rs; cbn; try done; [by intros [= <-]|].
  unfold row. destruct (p_name p) as [s|], (p_desc p) as [d|]; try done.
  destruct (rows props flags data) as [l|] eqn:Hl; [|done]. intros [= <-]. by rewrite (IH _ _ _ Hl).
Qed.

Lemma same_list {B} (l : list B) j x : l !! j = Some x -> <[j := x]> l = l.
Proof. apply list_insert_id. Qed.

Lemma get_spec o st name val n :
  store o = Some st ->
  match st !! chars name with
  | None => WbemClassObject_Get A o (Some name) val n = Ret (Good (WERR_NOT_FOUND, o, None), n)
  | Some r =>
      copyable (r_type r) (r_value r) ->
      exists w n', WbemClassObject_Get A o (Some name) val n = Ret (Good (WERR_OK, o, Some (w, r_type r, 0)), n') /\
        same_value (r_value r) w
  end.
Proof.
  intros (c & i & rs & Hc & Hi & Hn & Hr & ->)%store_inv. pose proof (find_property c rs _ _ name n Hn Hr) as Hf.
  destruct (_ !! _) as [r|]; unfold WbemClassObject_Get.
  - destruct Hf as (j & p & d & Hf & Hd & Ht & _ & Hv & _). intros Hcp.
    destruct (duplicate_copyable (duplicate_WbemClassObject A (depth (r_value r))) _ val _ n Hcp) as (w & n' & E & Hs & _).
    exists w, n'. split; [|done]. rewrite (bind_good _ _ _ c n) by by rewrite Hc. rewrite (bind_good _ _ _ _ _ Hf).
    rewrite (bind_good _ _ _ i n) by by rewrite Hi. rewrite (bind_good _ _ _ (r_value r) n) by by unfold nth_of; rewrite Hv.
    rewrite (bind_good _ _ _ d n) by by rewrite Hd. rewrite Ht. rewrite (bind_good _ _ _ _ _ E), (same_list _ _ _ Hv).
    destruct o, i. cbn in *. by subst.
  - rewrite (bind_good _ _ _ c n) by by rewrite Hc. by rewrite (bind_good _ _ _ _ _ Hf).
Qed.

Lemma put_spec d o st name val t n :
  object_data d = Some o -> store o = Some st ->
  match st !! chars name with
  | None => IWbemClassObject_Put A d (Some name) val t n = Ret (Good (WERR_NOT_FOUND, Some o, val), n)
  | Some r =>
      if negb (t =? 0) && negb (t =? r_type r)
      then IWbemClassObject_Put A d (Some name) val t n = Ret (Good (WERR_INVALID_PARAM, Some o, val), n)
      else
        copyable (r_type r) val ->
        exists o' w n', IWbemClassObject_Put A d (Some name) val t n = Ret (Good (WERR_OK, Some o', val), n') /\
          same_value val w /\ copyable (r_type r) w /\ store o' = Some (<[chars name := Prop_ (r_type r) 0 w]> st)
  end.
Proof.
  intros Hd (c & i & rs & Hc & Hi & Hn & Hr & ->)%store_inv. pose proof (find_property c rs _ _ name n Hn Hr) as Hf.
  destruct (_ !! _) as [r|]; unfold IWbemClassObject_Put.
  - destruct Hf as (j & p & ds & Hf & Hds & Ht & Hfl & Hv & Hj & Hfirst).
    rewrite (bind_good _ _ _ o n) by by rewrite Hd. rewrite (bind_good _ _ _ c n) by by rewrite Hc. rewrite (bind_good _ _ _ _ _ Hf).
    rewrite (bind_good _ _ _ (Some (r_type r)) n) by (rewrite Hds; destruct (t =? 0); cbn; by rewrite Ht).
    replace (bool_decide (Some (r_type r) <> Some t)) with (negb (t =? r_type r)).
    2:{ destruct (Z.eqb_spec t (r_type r)) as [->|Hne]; symmetry; [apply bool_decide_eq_false_2; auto|apply bool_decide_eq_true_2; congruence]. }
    destruct (negb _ && negb _); [done|]. intros Hcp.
    destruct (duplicate_copyable (duplicate_WbemClassObject A (depth val)) _ (r_value r) _ n Hcp) as (w & n' & E & Hs & Hw).
    eexists _, w, n'. rewrite (bind_good _ _ _ i n) by by rewrite Hi. rewrite (bind_good _ _ _ (r_flag r) n) by by unfold nth_of; rewrite Hfl.
    rewrite (bind_good _ _ _ (r_value r) n) by by unfold nth_of; rewrite Hv. rewrite (bind_good _ _ _ (r_type r) n) by done.
    rewrite (bind_good _ _ _ _ _ E). split; [done|]. split; [done|]. split; [done|].
    rewrite <- (list_to_map_update rs j _ r) by done. by apply (store_set_instance _ c); [done..|apply rows_insert].
  - rewrite (bind_good _ _ _ o n) by by rewrite Hd. rewrite (bind_good _ _ _ c n) by by rewrite Hc. by rewrite (bind_good _ _ _ _ _ Hf).
Qed.

Lemma spawn_spec d o st n :
  object_data d = Some o -> store o = Some st ->
  exists i o' n', IWbemClassObject_SpawnInstance A d n = Ret (Good (WERR_OK, i), n') /\ object_data i = Some o' /\
    store o' = Some ((fun r => Prop_ (r_type r) 1 cimvar_zero) <$> st).
Proof.
  intros Hd (c & i & rs & Hc & Hi & Hn & Hr & ->)%store_inv. unfold IWbemClassObject_SpawnInstance.
  rewrite (bind_good _ _ _ o n) by by rewrite Hd. rewrite (bind_good _ _ _ _ _ (hwrite_good n)). rewrite Hc.
  set (z := ClassObject _ _ _ _ _ _ _ _ _).
  assert (exists w n', WbemClassObject_CreateInstance A z (S n) = Ret (Good w, n') /\
    store w = Some (list_to_map (prod_map id (fun r => Prop_ (r_type r) 1 cimvar_zero) <$> rs))) as (w & n' & E & Es).
  { unfold WbemClassObject_CreateInstance. rewrite (bind_good _ _ _ _ _ (hwrite_good _)), (bind_good _ _ _ c (S (S n))) by done.
    rewrite (bind_good _ _ _ _ _ (halloc_good _)), (bind_good _ _ _ _ _ (hwrite_array_good _ _)). rewrite Hn, Nat2Z.id.
    assert (forall k b (x : H WbemClassObject), match k, At b 0 with S _, NULL => fault | _, _ => x end = x) as Hm by (by intros []).
    rewrite (Hm _ 0%nat).
    eexists _, _. split; [done|]. apply (store_set_instance _ c); [done..|]. exact (rows_fresh _ _ _ _ Hr). }
  rewrite (bind_good _ _ _ _ _ E). unfold dcom_IWbemClassObject_from_WbemClassObject.
  eexists _, w, _. split; [|split; [|by rewrite Es, list_to_map_fmap]].
  - unfold bind at 1 2. rewrite hwrite_good. done.
  - done.
Qed.

(** Without an instance, or the name null, the code goes through a null pointer. *)
Lemma no_instance_faults d o c name val t j p n :
  object_data d = Some o -> w_obj_class o = Some c -> w_instance o = None ->
  find_name (c_properties c) p_name (Some name) (Z.to_nat (c_PROPERTY_COUNT c)) 0 n = Ret (Good (Some (j, p)), n) ->
  WbemClassObject_Get A o (Some name) val n = Fault /\
  ((exists ds, p_desc p = Some ds /\ pd_cimtype ds = t) -> IWbemClassObject_Put A d (Some name) val t n = Fault).
Proof.
  intros Hd Hc Hi Hf. unfold WbemClassObject_Get, IWbemClassObject_Put. split.
  - rewrite (bind_good _ _ _ c n) by by rewrite Hc. rewrite (bind_good _ _ _ _ _ Hf). apply bind_fault. by rewrite Hi.
  - intros (ds & Hds & Ht). rewrite (bind_good _ _ _ o n) by by rewrite Hd. rewrite (bind_good _ _ _ c n) by by rewrite Hc.
    rewrite (bind_good _ _ _ _ _ Hf). rewrite (bind_good _ _ _ (Some t) n) by (rewrite Hds; destruct (t =? 0); cbn; by rewrite Ht).
    rewrite bool_decide_eq_false_2, andb_false_r by auto. apply bind_fault. by rewrite Hi.
Qed.
End copies.


Definition example_class : WbemClass CIMVAR :=
  Class_ 0 (Some (Cstr (At 50 0) [87])) 8 (Strings 0 []) (Qualifiers 0 []) 2
    [Property (Some (Cstr (At 51 0) [65])) (Some (PropertyDesc (At 52 0) CIM_STRING 0 0 0 (Qualifiers 0 [])));
     Property (Some (Cstr (At 53 0) [66])) (Some (PropertyDesc (At 54 0) CIM_UINT32 1 4 0
       (Qualifiers 1 [Qualifier (At 60 0) (Some (Cstr (At 61 0) [107; 101; 121])) 0 CIM_BOOLEAN (V_int 1)])))]
    (At 55 0) [1; 1] (At 56 0) [V_int 0; V_int 0].
Definition example_object : WbemClassObject :=
  ClassObject (At 57 0) WCF_INSTANCE None None None None (Some example_class) None
    (Some (Instance_ 0 None [0; 0] (At 58 0) [V_string (Some (Cstr (At 59 0) [120; 121])); V_int 7] 4 1)).
Definition example_interface : IWbemClassObject := Interface 0 4 "" "" (Some example_object).

Lemma calloc_always : malloc_always calloc.
Proof. done. Qed.

