(* ===== verification/WbemCopy.v ===== *)
(** wmi/wbemdata.c, copies of objects: copying ends, and what the copy of an instance is. *)

From stdpp Require Import strings gmap.
From S2P Require Import Prelude Digest Byteorder Ntstatus Iconv Charcnv Cnum DomSid Ndr NdrPull NdrPush NdrString Cim Errormap Wbemdata WbemObject.
Import Byteorder Charcnv Ndr NdrString Cim Wbemdata.

#[local] Open Scope outcome_scope.
#[local] Open Scope ndr_scope.

(** ** Copying ends *)

Definition copier : Type := addr -> WbemClassObject -> H (WbemClassObject * WbemClassObject).
(** Two functions that copy objects of less than [k] levels alike. *)
Definition agree (k : nat) (f g : copier) : Prop := forall p o n, (object_depth o < k)%nat -> f p o n = g p o n.

Lemma agree_le j k f g : (j <= k)%nat -> agree k f g -> agree j f g.
Proof. intros Hj Hk p o n Ho. apply Hk. lia. Qed.

Lemma bind_cong {S B C} (m1 m2 : M S B) (k1 k2 : B -> M S C) s :
  m1 s = m2 s -> (forall v s', k1 v s' = k2 v s') -> bind m1 k1 s = bind m2 k2 s.
Proof. intros E Ek. unfold bind. rewrite E. destruct (m2 s) as [[[v|e] s']|]; cbn; auto. Qed.

Lemma collect_cong {S B} n i (b1 b2 : nat -> M S B) s :
  (forall k s', b1 k s' = b2 k s') -> collect n i b1 s = collect n i b2 s.
Proof.
  intros E. revert i s. induction n as [|n IH]; intros i s; [done|]. cbn. apply bind_cong; [apply E|].
  intros v s'. apply bind_cong; [apply IH|done].
Qed.

(** The rest of a bind after a call that is looked up in a list. *)
Lemma nth_of_cong {S B C} (l : list B) i (k1 k2 : B -> M S C) s :
  (forall v s', v ∈ l -> k1 v s' = k2 v s') -> bind (nth_of l i) k1 s = bind (nth_of l i) k2 s.
Proof.
  intros E. unfold nth_of. destruct (l !! i) as [v|] eqn:Hv; [|done]. apply list_elem_of_lookup_2 in Hv. apply (E v s Hv).
Qed.
Lemma deref_cong {S B C} (p : option B) (k1 k2 : B -> M S C) s :
  (forall v s', p = Some v -> k1 v s' = k2 v s') -> bind (deref p) k1 s = bind (deref p) k2 s.
Proof. intros E. destruct p as [v|]; [|done]. by apply (E v s). Qed.

Section fuel.
Context (A : Allocator).

Lemma duplicate_CIMVAR_cong f g v old t n :
  agree (depth v) f g -> duplicate_CIMVAR A f v old t n = duplicate_CIMVAR A g v old t n.
Proof.
  intros Hfg. unfold duplicate_CIMVAR. repeat (destruct (bool_decide _); [done|]).
  destruct (_ =? CIM_OBJECT); [|done].
  destruct (as_object v n) as [[[[o|]|e] n']|] eqn:Ho.
  - assert (v = V_object (Some o) /\ n' = n) as [-> ->] by (destruct v as [[]|?|?|?|?|?]; unfold as_object, ret, fault in Ho; split; congruence).
    rewrite !(bind_good _ _ _ _ _ Ho). apply bind_cong; [done|]. intros p s. rewrite !(bind_good _ _ _ o s) by done.
    apply bind_cong; [|done]. apply Hfg. cbn. lia.
  - rewrite !(bind_good _ _ _ _ _ Ho). by apply bind_cong.
  - by rewrite !(bind_bad _ _ _ _ _ Ho).
  - by rewrite !(bind_fault _ _ _ Ho).
Qed.

Lemma depth_in v (l : list CIMVAR) : v ∈ l -> (depth v <= list_max (map depth l))%nat.
Proof.
  intros Hv. assert (Forall (fun k => (k <= list_max (map depth l))%nat) (map depth l)) as HF by by apply list_max_le.
  rewrite Forall_forall in HF. by apply HF, in_map, list_elem_of_In.
Qed.

Lemma duplicate_values_cong f g k src props n :
  agree (list_max (map depth src)) f g -> duplicate_values A f k src props n = duplicate_values A g k src props n.
Proof.
  intros Hfg. apply collect_cong. intros i s. apply nth_of_cong. intros v s1 Hv. apply bind_cong; [done|]. intros d s2.
  apply duplicate_CIMVAR_cong. eapply agree_le; [by apply depth_in|done].
Qed.

Definition class_depth (c : option (WbemClass CIMVAR)) : nat :=
  match c with Some c => list_max (map depth (c_default_values c)) | None => 0 end.
Definition instance_depth (i : option (WbemInstance CIMVAR)) : nat :=
  match i with Some i => list_max (map depth (i_data i)) | None => 0 end.

Lemma object_depth_eq o :
  object_depth o = Nat.max (Nat.max (class_depth (w_sup_class o)) (class_depth (w_obj_class o))) (instance_depth (w_instance o)).
Proof. destruct o as [? ? ? ? [[]|] ? [[]|] ? [[]|]]; done. Qed.

Lemma duplicate_class_cong f g c n : agree (class_depth c) f g -> duplicate_class A f c n = duplicate_class A g c n.
Proof.
  intros Hfg. apply bind_cong; [done|]. intros _ s1. apply deref_cong. intros c' s2 ->. apply bind_cong; [|done].
  unfold duplicate_WbemClass. do 4 (apply bind_cong; [done|intros ? ?]). apply bind_cong; [done|intros props ?].
  do 3 (apply bind_cong; [done|intros ? ?]). apply bind_cong; [|done]. by apply duplicate_values_cong.
Qed.

Lemma duplicate_WbemInstance_cong f g i c n :
  agree (instance_depth (Some i)) f g -> duplicate_WbemInstance A f i c n = duplicate_WbemInstance A g i c n.
Proof.
  intros Hfg. unfold duplicate_WbemInstance. do 4 (apply bind_cong; [done|intros ? ?]). apply bind_cong; [|done].
  by apply duplicate_values_cong.
Qed.

Lemma duplicate_into_cong f g p o n : agree (object_depth o) f g -> duplicate_into A f p o n = duplicate_into A g p o n.
Proof.
  rewrite object_depth_eq. intros Hfg. unfold duplicate_into. apply bind_cong; [done|]. intros [server ns] s1.
  apply bind_cong.
  { destruct (isset _ WCF_DECORATIONS); [|done]. apply bind_cong; [|done]. apply duplicate_class_cong. eapply agree_le; [|done]. lia. }
  intros [[[sc sc'] sm] om] s2. apply bind_cong.
  { destruct (isset _ _); [|done]. apply duplicate_class_cong. eapply agree_le; [|done]. lia. }
  intros [oc oc'] s3. apply bind_cong; [|done]. destruct (isset _ WCF_INSTANCE); [|done].
  apply bind_cong; [done|]. intros _ s4. apply deref_cong. intros i s5 Hi. apply deref_cong. intros c s6 _.
  apply bind_cong; [|done]. apply duplicate_WbemInstance_cong. rewrite Hi in Hfg. eapply agree_le; [|done]. lia.
Qed.

Lemma duplicate_fuel j k p o n :
  (object_depth o < j)%nat -> (object_depth o < k)%nat ->
  duplicate_WbemClassObject A j p o n = duplicate_WbemClassObject A k p o n.
Proof.
  revert k p o n. induction j as [|j IH]; intros [|k] p o n Hj Hk; try lia. cbn. apply duplicate_into_cong.
  intros q o' m Ho. apply IH; lia.
Qed.

Definition copy : copier := fun p o => duplicate_WbemClassObject A (S (object_depth o)) p o.
End fuel.


(** The copy of an object whose value is an object. *)
Definition nested_object : WbemClassObject :=
  ClassObject (At 57 0) WCF_INSTANCE None None None None
    (Some (Class_ 0 None 4 (Strings 0 []) (Qualifiers 0 []) 1
       [Property None (Some (PropertyDesc (At 52 0) CIM_OBJECT 0 0 0 (Qualifiers 0 [])))] (At 55 0) [1] (At 56 0)
       [V_object (Some (object_zero (At 63 0)))])) None
    (Some (Instance_ 0 None [0] (At 58 0) [V_object (Some (object_zero (At 62 0)))] 4 1)).


(** ** The copy of an instance *)

(** A qualifier as talloc_zero leaves it. *)
Definition blank (q : WbemQualifier CIMVAR) : Prop :=
  q_name q = None /\ q_flavors q = 0 /\ q_cimtype q = 0 /\ q_value q = cimvar_zero.
Definition described (p : WbemProperty CIMVAR) : Prop :=
  exists s d, p_name p = Some s /\ p_desc p = Some d /\ qs_count (pd_qualifiers d) = Z.of_nat (length (qs_item (pd_qualifiers d))).
(** Values of the types of the properties, which can be copied. *)
Definition values_ok (props : list (WbemProperty CIMVAR)) (l : list CIMVAR) : Prop :=
  Forall2 (fun p v => exists d, p_desc p = Some d /\ copyable (pd_cimtype d) v) props l.
Definition qualifiers_blank (c : WbemClass CIMVAR) : Prop :=
  Forall (fun p => exists d, p_desc p = Some d /\ Forall blank (qs_item (pd_qualifiers d))) (c_properties c).
Definition same_property (r r' : property) : Prop :=
  r_type r = r_type r' /\ r_flag r = r_flag r' /\ same_value (r_value r) (r_value r').

(** What a property becomes, and its copy. *)
Definition copied_property (p p1 p2 : WbemProperty CIMVAR) : Prop :=
  exists s t d d1 d2, p_name p = Some s /\ p_desc p = Some d /\ p_name p1 = Some s /\ p_name p2 = Some t /\ chars t = chars s /\
    p_desc p1 = Some d1 /\ p_desc p2 = Some d2 /\ pd_cimtype d1 = pd_cimtype d /\ pd_cimtype d2 = pd_cimtype d /\
    Forall blank (qs_item (pd_qualifiers d1)) /\ pd_qualifiers d2 = pd_qualifiers d1.

Lemma collect_good {T B} (P : nat -> B -> Prop) (body : nat -> M T B) n i (s : T) :
  (forall k s, (i <= k < i + n)%nat -> exists x s', body k s = Ret (Good x, s') /\ P k x) ->
  exists l s', collect n i body s = Ret (Good l, s') /\ length l = n /\ forall k x, l !! k = Some x -> P (i + k)%nat x.
Proof.
  revert i s. induction n as [|n IH]; intros i s Hb; [by exists [], s|].
  destruct (Hb i s) as (x & s1 & E & Hx); [lia|].
  destruct (IH (S i) s1) as (l & s2 & E2 & Hl & HP); [intros; apply Hb; lia|].
  exists (x :: l), s2. split; [|split; [cbn; lia|]].
  - cbn. by rewrite (bind_good _ _ _ _ _ E), (bind_good _ _ _ _ _ E2).
  - intros [|k] y; cbn; [intros [= <-]; by rewrite Nat.add_0_r|]. intros Hy%HP. by replace (i + S k)%nat with (S i + k)%nat by lia.
Qed.

Section copied.
Context (A : Allocator) (HA : malloc_always A) (f : copier).

Lemma shared_qualifiers_good q n :
  qs_count q = Z.of_nat (length (qs_item q)) ->
  exists r n', duplicate_shared_qualifiers A q n = Ret (Good r, n') /\ Forall blank (qs_item r).
Proof.
  intros Hq. unfold duplicate_shared_qualifiers. rewrite Hq, Nat2Z.id.
  destruct (collect_good (fun _ => blank) (fun i => do _ <- nth_of (qs_item q) i; do p <- hwrite A; ret (Qualifier p None 0 0 cimvar_zero))
    (length (qs_item q)) 0 n) as (l & n' & E & Hl & HP).
  - intros k s Hk. destruct (lookup_lt_is_Some_2 (qs_item q) k) as [x Hx]; [lia|]. eexists _, _.
    rewrite (bind_good _ _ _ x s) by (unfold nth_of; by rewrite Hx). by rewrite (bind_good _ _ _ _ _ (hwrite_good A HA s)).
  - rewrite (bind_good _ _ _ _ _ E). eexists _, _. split; [done|]. cbn. rewrite Hl, drop_all, app_nil_r. apply Forall_lookup. intros k x Hx. by apply (HP k).
Qed.

Lemma property_good p n :
  described p -> exists r n', duplicate_property A p n = Ret (Good r, n') /\ copied_property p r.1 r.2.
Proof.
  intros (s & d & Hs & Hd & Hq). unfold duplicate_property. rewrite Hs.
  destruct (talloc_strdup_good A HA (Some s) n) as (t & n1 & E & Ht). destruct t as [t|]; [|done]. injection Ht as Ht.
  destruct (shared_qualifiers_good (pd_qualifiers d) (S n1) Hq) as (r & n2 & E2 & Hr).
  rewrite (bind_good _ _ _ _ _ E), (bind_good _ _ _ d n1) by by rewrite Hd.
  rewrite (bind_good _ _ _ _ _ (hwrite_good A HA n1)), (bind_good _ _ _ _ _ E2). eexists _, _. split; [done|].
  eexists s, t, d, _, _. cbn. by repeat split.
Qed.

Lemma values_good src props n :
  values_ok props src ->
  exists l n', duplicate_values A f (length src) src props n = Ret (Good l, n') /\ map fst l = src /\ Forall2 same_value src (map snd l).
Proof.
  intros Hv. destruct (collect_good (fun i x => src !! i = Some x.1 /\ same_value x.1 x.2) (fun i =>
    do v <- nth_of src i; do d <- desc_of props i; duplicate_CIMVAR A f v (V_int (@uninit A)) (pd_cimtype d)) (length src) 0 n)
    as (l & n' & E & Hl & HP).
  - intros k s Hk. destruct (lookup_lt_is_Some_2 src k) as [v Hsv]; [lia|].
    destruct (Forall2_lookup_r _ _ _ _ _ Hv Hsv) as (p & Hp & d & Hd & Hc).
    destruct (duplicate_copyable A HA f v (V_int (@uninit A)) _ s Hc) as (w & s' & E & Hs & _). exists (v, w), s'.
    split; [|done]. rewrite (bind_good _ _ _ v s) by (unfold nth_of; by rewrite Hsv).
    rewrite (bind_good _ _ _ d s); [done|]. unfold desc_of. rewrite (bind_good _ _ _ p s) by (unfold nth_of; by rewrite Hp). by rewrite Hd.
  - exists l, n'. split; [exact E|]. cbn in HP. split.
    + apply list_eq_same_length with (length src); [done|by rewrite length_map|].
      intros k x y Hk Hx Hy. apply list_lookup_fmap_Some in Hx as (z & -> & Hz). destruct (HP k z Hz). congruence.
    + apply Forall2_same_length_lookup. split; [by rewrite length_map|].
      intros k x y Hx Hy. apply list_lookup_fmap_Some in Hy as (z & -> & Hz). destruct (HP k z Hz). congruence.
Qed.

(** The arrays of a class have an element for each property. *)
Definition class_ok (c : WbemClass CIMVAR) : Prop :=
  c_PROPERTY_COUNT c = Z.of_nat (length (c_properties c)) /\ Forall described (c_properties c) /\
  length (c_default_flags c) = length (c_properties c) /\ values_ok (c_properties c) (c_default_values c).

Lemma flags_good (l : list Z) (n : nat) :
  exists n', collect (length l) 0 (fun i => nth_of l i) n = Ret (Good l, n').
Proof.
  destruct (collect_good (fun i x => l !! i = Some x) (fun i => nth_of l i) (length l) 0 n) as (l' & n' & E & Hl & HP).
  - intros k s Hk. destruct (lookup_lt_is_Some_2 l k) as [x Hx]; [lia|]. exists x, s. unfold nth_of. by rewrite Hx.
  - exists n'. rewrite E. do 3 f_equal. apply list_eq_same_length with (length l); [done..|]. intros k x y Hk Hx Hy. apply HP in Hx.
    cbn in Hx. congruence.
Qed.

(** Properties of which the first is what a property becomes and the second its copy. *)
Definition copied_properties (props : list (WbemProperty CIMVAR)) (l : list (WbemProperty CIMVAR * WbemProperty CIMVAR)) : Prop :=
  Forall2 (fun p r => copied_property p r.1 r.2) props l.

Lemma properties_good props n :
  Forall described props ->
  exists l n', collect (length props) 0 (fun i => do p <- nth_of props i; duplicate_property A p) n = Ret (Good l, n') /\
    copied_properties props l.
Proof.
  intros Hd. destruct (collect_good (fun i r => exists p, props !! i = Some p /\ copied_property p r.1 r.2)
    (fun i => do p <- nth_of props i; duplicate_property A p) (length props) 0 n) as (l & n' & E & Hl & HP).
  - intros k s Hk. destruct (lookup_lt_is_Some_2 props k) as [p Hp]; [lia|].
    destruct (property_good p s) as (r & s' & Er & Hr); [by eapply Forall_lookup_1|].
    exists r, s'. split; [|by exists p]. by rewrite (bind_good _ _ _ p s) by (unfold nth_of; by rewrite Hp).
  - exists l, n'. split; [done|]. apply Forall2_same_length_lookup. split; [done|]. intros k p r Hp Hr.
    destruct (HP k r Hr) as (q & Hq & Hc). cbn in Hq. congruence.
Qed.

Lemma changed_all {B} (new old : list B) : length new = length old -> changed new old = new.
Proof. intros E. unfold changed. by rewrite E, drop_all, app_nil_r. Qed.

Lemma copied_values_ok props l vs : copied_properties props l -> values_ok props vs -> values_ok (map fst l) vs.
Proof.
  intros Hl Hv. revert l Hl. induction Hv as [|p v props vs (d & Hd & Hc) Hv IH]; intros l Hl.
  { apply Forall2_nil_inv_l in Hl as ->. constructor. }
  apply Forall2_cons_inv_l in Hl as (r & l' & Hr & Hl & ->). constructor; [|by apply IH].
  destruct Hr as (s & t & d0 & d1 & d2 & _ & Hd0 & _ & _ & _ & Hd1 & _ & Ht & _).
  exists d1. split; [done|]. rewrite Ht. congruence.
Qed.

Lemma class_good c n :
  class_ok c -> s_count (c_DERIVATION c) = 0 -> qs_count (c_qualifiers c) = 0 ->
  exists c1 c2 l n', duplicate_class A f (Some c) n = Ret (Good (Some c1, Some c2), n') /\ copied_properties (c_properties c) l /\
    c_properties c1 = map fst l /\ c_properties c2 = map snd l /\
    c_PROPERTY_COUNT c1 = c_PROPERTY_COUNT c /\ c_PROPERTY_COUNT c2 = c_PROPERTY_COUNT c /\
    c_data_size c1 = c_data_size c /\ c_data_size c2 = 0.
Proof.
  intros (Hn & Hd & Hf & Hv) Hs Hq. unfold duplicate_class, duplicate_WbemClass.
  rewrite (bind_good _ _ _ _ _ (hwrite_good A HA n)), (bind_good _ _ _ c (S n)) by done.
  destruct (talloc_strdup_good A HA (c_CLASS c) (S n)) as (t & n1 & E1 & _).
  destruct (properties_good (c_properties c) (S n1) Hd) as (l & n2 & E2 & Hl).
  assert (length (map fst l) = length (c_properties c)) as Hlen by (rewrite length_map; by rewrite <- (Forall2_length Hl)).
  destruct (flags_good (c_default_flags c) (S (S n2))) as (n3 & E3).
  destruct (values_good (c_default_values c) (map fst l) n3 (copied_values_ok _ _ _ Hl Hv)) as (vs & n4 & E4 & _).
  rewrite Hf in E3. rewrite <- (Forall2_length Hv) in E4.
  eexists _, _, l, n4. split.
  - unfold bind at 1. rewrite (bind_good _ _ _ _ _ E1).
    rewrite (bind_good _ _ _ (Strings 0 []) n1) by (unfold duplicate_CIMSTRINGS; by rewrite Hs).
    rewrite (bind_good _ _ _ (Qualifiers 0 []) n1) by (unfold duplicate_WbemQualifiers; by rewrite Hq). rewrite Hn, Nat2Z.id.
    rewrite (bind_good _ _ _ _ _ (hwrite_array_good A HA _ n1)), (bind_good _ _ _ _ _ E2), changed_all by done.
    rewrite (bind_good _ _ _ _ _ (hwrite_array_good A HA _ _)), (bind_good _ _ _ _ _ (hwrite_array_good A HA _ _)).
    rewrite (bind_good _ _ _ _ _ E3), (bind_good _ _ _ _ _ E4). done.
  - by repeat split.
Qed.

Lemma class_faults c n :
  s_count (c_DERIVATION c) <> 0 \/ qs_count (c_qualifiers c) <> 0 -> duplicate_class A f (Some c) n = Fault.
Proof.
  intros Hc. unfold duplicate_class, duplicate_WbemClass.
  rewrite (bind_good _ _ _ _ _ (hwrite_good A HA n)), (bind_good _ _ _ c (S n)) by done. apply bind_fault.
  destruct (talloc_strdup_good A HA (c_CLASS c) (S n)) as (t & n1 & E1 & _). rewrite (bind_good _ _ _ _ _ E1).
  unfold duplicate_CIMSTRINGS, duplicate_WbemQualifiers. destruct (Z.eqb_spec (s_count (c_DERIVATION c)) 0); [|done].
  rewrite (bind_good _ _ _ (Strings 0 []) n1) by done. destruct (Z.eqb_spec (qs_count (c_qualifiers c)) 0); [tauto|done].
Qed.

Lemma instance_good i c l n :
  copied_properties (c_properties c) l -> values_ok (c_properties c) (i_data i) -> length (i_default_flags i) = length (c_properties c) ->
  forall c1, c_PROPERTY_COUNT c1 = Z.of_nat (length (c_properties c)) -> c_properties c1 = map fst l ->
  exists j n', duplicate_WbemInstance A f i c1 n = Ret (Good (i, j), n') /\ i_default_flags j = i_default_flags i /\
    Forall2 same_value (i_data i) (i_data j).
Proof.
  intros Hl Hv Hf c1 Hn Hp. unfold duplicate_WbemInstance. rewrite Hn, Nat2Z.id, Hp.
  destruct (talloc_strdup_good A HA (i_CLASS i) n) as (t & n1 & E1 & _). rewrite (bind_good _ _ _ _ _ E1).
  rewrite (bind_good _ _ _ _ _ (hwrite_array_good A HA _ _)), (bind_good _ _ _ _ _ (hwrite_array_good A HA _ _)).
  destruct (flags_good (i_default_flags i) (S (S n1))) as (n2 & E2). rewrite Hf in E2. rewrite (bind_good _ _ _ _ _ E2).
  destruct (values_good (i_data i) (map fst l) n2 (copied_values_ok _ _ _ Hl Hv)) as (vs & n3 & E3 & Hfst & Hs).
  rewrite <- (Forall2_length Hv) in E3. rewrite (bind_good _ _ _ _ _ E3), Hfst, changed_all by done.
  eexists _, n3. split; [by destruct i|by split].
Qed.
End copied.

Lemma rows_source props l flags data : copied_properties props l -> rows (map fst l) flags data = rows props flags data.
Proof.
  intros Hl. revert flags data. induction Hl as [|p r props l Hr Hl IH]; intros [|fl flags] [|v data]; try done.
  cbn. rewrite IH. f_equal. destruct Hr as (s & t & d & d1 & d2 & Hs & Hd & Hs1 & _ & _ & Hd1 & _ & Ht & _).
  unfold row. by rewrite Hs, Hd, Hs1, Hd1, Ht.
Qed.

Definition same_row (x y : list Z * property) : Prop := x.1 = y.1 /\ same_property x.2 y.2.

Lemma rows_copy props l flags data data' rs :
  copied_properties props l -> Forall2 same_value data data' -> rows props flags data = Some rs ->
  exists rs', rows (map snd l) flags data' = Some rs' /\ Forall2 same_row rs rs'.
Proof.
  intros Hl. revert flags data data' rs. induction Hl as [|p r props l Hr Hl IH]; intros [|fl flags] [|v data] data' rs Hv; cbn; try done.
  - apply Forall2_nil_inv_l in Hv as ->. intros [= <-]. by exists [].
  - apply Forall2_cons_inv_l in Hv as (w & data2 & Hvw & Hv & ->).
    destruct Hr as (s & t & d & d1 & d2 & Hs & Hd & _ & Hs2 & Hc & _ & Hd2 & _ & Ht & _).
    unfold row at 1. rewrite Hs, Hd. destruct (rows props flags data) as [rs1|] eqn:E; [|done]. intros [= <-].
    destruct (IH _ _ _ _ Hv E) as (rs2 & E2 & HR). unfold row. rewrite Hs2, Hd2, E2, Hc. eexists. split; [done|].
    constructor; [|done]. split; [done|]. by split; [|split].
Qed.

Lemma same_rows_lookup rs rs' k :
  Forall2 same_row rs rs' ->
  option_Forall2 same_property ((list_to_map rs : gmap (list Z) property) !! k) ((list_to_map rs' : gmap (list Z) property) !! k).
Proof.
  intros HR. induction HR as [|[k1 r1] [k2 r2] rs rs' [Hk Hr] HR IH]; cbn; [constructor|]. cbn in Hk, Hr. subst k2.
  destruct (decide (k1 = k)) as [->|Hne]; [rewrite !lookup_insert_eq; by constructor|by rewrite !lookup_insert_ne].
Qed.

Lemma blank_after props l c :
  copied_properties props l -> c_properties c = map fst l \/ c_properties c = map snd l -> qualifiers_blank c.
Proof.
  intros Hl Hc. unfold qualifiers_blank.
  assert (Forall (fun p => exists d, p_desc p = Some d /\ Forall blank (qs_item (pd_qualifiers d))) (map fst l) /\
          Forall (fun p => exists d, p_desc p = Some d /\ Forall blank (qs_item (pd_qualifiers d))) (map snd l)) as [H1 H2].
  { clear c Hc. induction Hl as [|p r props l Hr Hl [IH1 IH2]]; [by split; constructor|].
    destruct Hr as (s & t & d & d1 & d2 & _ & _ & _ & _ & _ & Hd1 & Hd2 & _ & _ & Hb & Hq).
    split; constructor; try done; [by exists d1|exists d2; by rewrite Hq]. }
  by destruct Hc as [-> | ->].
Qed.

(** C23: the copy of an instance, with memory and values that can be copied.  Where its class has a
    derivation or qualifiers, copying writes through a null pointer.  Otherwise the copy has the same
    properties with equal values and the source keeps its own, but the qualifiers of every property
    are lost in both, and the class of the copy has the data size 0. *)
Theorem instance_copy (A : Allocator) (HA : malloc_always A) p o c i st n :
  w_flags o = WCF_INSTANCE -> w_obj_class o = Some c -> w_instance o = Some i -> store o = Some st ->
  class_ok c -> values_ok (c_properties c) (i_data i) -> length (i_default_flags i) = length (c_properties c) ->
  if decide (s_count (c_DERIVATION c) = 0 /\ qs_count (c_qualifiers c) = 0) then
    exists o1 o2 c1 c2 st2 n', copy A p o n = Ret (Good (o1, o2), n') /\
      store o1 = Some st /\ store o2 = Some st2 /\ (forall k, option_Forall2 same_property (st !! k) (st2 !! k)) /\
      w_obj_class o1 = Some c1 /\ qualifiers_blank c1 /\ c_data_size c1 = c_data_size c /\
      w_obj_class o2 = Some c2 /\ qualifiers_blank c2 /\ c_data_size c2 = 0
  else copy A p o n = Fault.
Proof.
  intros Hfl Hc Hi Hst Hok Hv Hf. destruct (store_inv o st Hst) as (c' & i' & rs & Hc' & Hi' & Hn & Hr & ->).
  replace c' with c in * by congruence. replace i' with i in * by congruence. clear c' i' Hc' Hi'.
  unfold copy. cbn [duplicate_WbemClassObject]. unfold duplicate_into. rewrite Hfl, Hc.
  change (isset WCF_INSTANCE WCF_CLASS) with false. change (isset WCF_INSTANCE WCF_DECORATIONS) with false.
  change (isset WCF_INSTANCE (Z.lor WCF_CLASS WCF_INSTANCE)) with true. change (isset WCF_INSTANCE WCF_INSTANCE) with true.
  rewrite (bind_good _ _ _ (None, None) n), (bind_good _ _ _ (w_sup_class o, None, None, None) n) by done.
  destruct (decide _) as [[Hs Hq]|Hne].
  2:{ apply bind_fault. apply class_faults; [done|]. destruct (decide (s_count (c_DERIVATION c) = 0)); [right|left]; tauto. }
  set (f := duplicate_WbemClassObject A _).
  destruct (class_good A HA f c n Hok Hs Hq) as (c1 & c2 & l & n1 & E & Hl & Hp1 & Hp2 & Hn1 & Hn2 & Hd1 & Hd2).
  destruct (instance_good A HA f i c l (S n1) Hl Hv Hf c1) as (j & n2 & Ei & Hfj & Hvj); [congruence|done|].
  destruct (rows_copy _ _ _ _ _ _ Hl Hvj Hr) as (rs' & Er & HR).
  assert (length (c_properties c) = length l) as Hlen by apply (Forall2_length Hl).
  rewrite (bind_good _ _ _ _ _ E). cbn iota beta. rewrite Hi. unfold bind at 1 2. rewrite (hwrite_good A HA n1). cbn [obind fst snd].
  rewrite (bind_good _ _ _ i (S n1)), (bind_good _ _ _ c1 (S n1)), (bind_good _ _ _ _ _ Ei) by done.
  eexists _, _, c1, c2, (list_to_map rs'), n2. split; [done|]. split; [|split].
  - unfold store. cbn. rewrite decide_True by (rewrite Hp1, length_map; congruence). by rewrite Hp1, (rows_source _ _ _ _ Hl), Hr.
  - unfold store. cbn. rewrite decide_True by (rewrite Hp2, length_map; congruence). by rewrite Hp2, Hfj, Er.
  - split; [intros k; by apply same_rows_lookup|]. repeat split; [by eapply blank_after; [|left]|done|by eapply blank_after; [|right]|done].
Qed.

(** The same instance, of a class that is derived from another. *)
Definition derived_class : WbemClass CIMVAR :=
  Class_ 0 None 8 (Strings 1 [None]) (Qualifiers 0 []) 2 (c_properties example_class) (At 55 0) [1; 1] (At 56 0) [V_int 0; V_int 0].
Definition derived_object : WbemClassObject := set_obj_class (Some derived_class) example_object.

Lemma instance_copy_witness :
  class_ok example_class /\
  (exists o1 o2 n, copy calloc (At 8 0) example_object 70%nat = Ret (Good (o1, o2), n)) /\
  copy calloc (At 8 0) derived_object 70%nat = Fault.
Proof.
  assert (Hok : class_ok example_class).
  { split; [reflexivity|]. split; [|split; [reflexivity|]].
    - repeat constructor; eexists _, _; repeat split; reflexivity.
    - repeat constructor; eexists; (split; [reflexivity|]).
      + right. split; [|reflexivity]. by apply (bool_decide_unpack (CIM_STRING ∈ string_types)).
      + left. by apply (bool_decide_unpack (CIM_UINT32 ∈ plain_types)). }
  assert (Hv : values_ok (c_properties example_class) [V_string (Some (Cstr (At 59 0) [120; 121])); V_int 7]).
  { repeat constructor; eexists; (split; [reflexivity|]); [|left];
      [by apply (bool_decide_unpack (CIM_STRING ∈ string_types))|by apply (bool_decide_unpack (CIM_UINT32 ∈ plain_types))]. }
  split; [exact Hok|]. split.
  - destruct (instance_copy calloc calloc_always (At 8 0) example_object example_class _ _ 70%nat eq_refl eq_refl eq_refl eq_refl Hok Hv eq_refl)
      as (o1 & o2 & _ & _ & _ & n & E & _). exists o1, o2, n. exact E.
  - exact (instance_copy calloc calloc_always (At 8 0) derived_object derived_class _ _ 70%nat eq_refl eq_refl eq_refl eq_refl Hok Hv eq_refl).
Defined.
