(* ===== verification/WbemSession.v ===== *)
(** wmi/wbemdata.c and wmi/wmic.c: what holds over all the batches of an enumeration, and
    that wmic prints all of them. *)

From stdpp Require Import strings.
From S2P Require Import Prelude Digest Byteorder Ntstatus Iconv Charcnv Cnum DomSid Ndr NdrPull NdrPush NdrString Cim Errormap Wbemdata WbemEnum Wmic.
Import Byteorder Charcnv Ndr NdrString Cim Errormap Wbemdata WbemEnum Wmic.

#[local] Open Scope outcome_scope.
#[local] Open Scope ndr_scope.

(** ** What a call gives when it succeeds *)

Definition gives {S B} (Q : B -> Prop) (m : M S B) : Prop := forall s v s', m s = Ret (Good v, s') -> Q v.

Lemma gives_bind {S B C} (Q : C -> Prop) (m : M S B) k : (forall x, gives Q (k x)) -> gives Q (bind m k).
Proof. intros Hk s v s' (x & s1 & _ & E)%bind_inv. by eapply Hk. Qed.
Lemma gives_bind_with {S B C} (P : B -> Prop) (Q : C -> Prop) (m : M S B) k :
  gives P m -> (forall x, P x -> gives Q (k x)) -> gives Q (bind m k).
Proof. intros Hm Hk s v s' (x & s1 & E1 & E)%bind_inv. eapply Hk, E. by eapply Hm. Qed.
Lemma gives_ret {S B} (Q : B -> Prop) v : Q v -> gives Q (ret (S := S) v).
Proof. intros Hv s w s' [= <- <-]. done. Qed.
Lemma gives_bad {S B} (Q : B -> Prop) e : gives Q (bad (S := S) (A := B) e).
Proof. by intros s v s'. Qed.
Lemma gives_fault {S B} (Q : B -> Prop) : gives Q (fault (S := S) (A := B)).
Proof. by intros s v s'. Qed.

(** ** The class of an instance *)

(** An object with an instance has a class. *)
Definition has_class (o : WbemClassObject) : Prop := w_instance o <> None -> w_obj_class o <> None.

Section classes.
Context `{Charsets, Pidl, GuidNdr} (A : Allocator).

Lemma with_stack_gives {B} (Q : B -> Prop) (fn : Z -> B -> M ndr_pull B) r :
  (forall fl x, gives Q (fn fl x)) -> gives Q (ndr_pull_DataWithStack fn r).
Proof.
  intros Hfn. unfold ndr_pull_DataWithStack. do 6 (apply gives_bind; intros ?). unfold pull_stack. apply gives_bind; intros ssize.
  destruct (negb _); [apply gives_bad|]. do 3 (apply gives_bind; intros ?).
  apply (gives_bind_with Q); [apply Hfn|]. intros y Hy. do 2 (apply gives_bind; intros ?). by apply gives_ret.
Qed.

Lemma instance_gives fl r : gives has_class (ndr_pull_WbemInstance_priv A fl r).
Proof.
  unfold ndr_pull_WbemInstance_priv. destruct (w_obj_class r) as [c|] eqn:Hc; [|apply gives_bad].
  assert (forall i, has_class (set_instance i r)) as Hs by (intros i _; destruct r; cbn in *; congruence).
  do 2 (apply gives_bind; intros ?). destruct (isset fl NDR_BUFFERS); [|by apply gives_ret].
  do 3 (apply gives_bind; intros ?). by apply gives_ret.
Qed.

Lemma pull_instance_gives r : gives has_class (pull_instance A r).
Proof. apply gives_bind; intros i. apply with_stack_gives. intros. apply instance_gives. Qed.

Lemma object_gives p : gives has_class (ndr_pull_WbemClassObject A (object_zero p)).
Proof.
  unfold ndr_pull_WbemClassObject. do 2 (apply gives_bind; intros ?). apply gives_bind; intros [server ns].
  apply gives_bind; intros [sc sm]. do 2 (apply gives_bind; intros ?).
  destruct (isset _ WCF_INSTANCE); [apply pull_instance_gives|]. apply gives_ret. by intros [].
Qed.

Lemma instance_object_gives r : gives has_class (ndr_pull_WbemClassObject_Object A r).
Proof.
  unfold ndr_pull_WbemClassObject_Object. do 2 (apply gives_bind; intros ?). apply gives_bind; intros [server ns].
  destruct (isset _ WCF_INSTANCE); [apply pull_instance_gives|]. apply gives_ret. by intros [].
Qed.

(** ** A batch *)

(** A call of the parser adds to the cache, if anything, and gives what [Q] says. *)
Definition caches {B} (Q : B -> Prop) (m : M parser B) : Prop :=
  forall s r s', m s = Ret (r, s') -> (exists new, p_cache s' = new ++ p_cache s) /\ forall v, r = Good v -> Q v.

Lemma caches_bind {B C} (P : B -> Prop) (Q : C -> Prop) m (k : B -> M parser C) :
  caches P m -> (forall x, P x -> caches Q (k x)) -> caches Q (bind m k).
Proof.
  intros Hm Hk s r s'. unfold bind. destruct (m s) as [[[x|e] s1]|] eqn:E; cbn; [| |done].
  - destruct (Hm _ _ _ E) as ((n1 & E1) & Hx). intros Ek. destruct (Hk x (Hx x eq_refl) _ _ _ Ek) as ((n2 & E2) & Hv).
    split; [|done]. exists (n2 ++ n1). by rewrite E2, E1, app_assoc.
  - intros [= <- <-]. by destruct (Hm _ _ _ E).
Qed.
Lemma caches_any {B} (Q : B -> Prop) m : caches Q m -> caches (fun _ => True) m.
Proof. intros Hm s r s' E. by destruct (Hm _ _ _ E). Qed.
Lemma caches_seq {B C} (Q : C -> Prop) (m : M parser B) (k : B -> M parser C) :
  caches (fun _ => True) m -> (forall x, caches Q (k x)) -> caches Q (bind m k).
Proof. intros Hm Hk. by apply (caches_bind (fun _ => True)). Qed.
Lemma caches_ret {B} (Q : B -> Prop) v : Q v -> caches Q (ret v).
Proof. intros Hv s r s' [= <- <-]. split; [by exists []|]. by intros ? [= <-]. Qed.
Lemma caches_bad {B} (Q : B -> Prop) e : caches Q (bad e).
Proof. intros s r s' [= <- <-]. split; [by exists []|done]. Qed.
Lemma caches_fault {B} (Q : B -> Prop) : caches Q fault.
Proof. by intros s r s'. Qed.
Lemma caches_get {B} (f : parser -> B) : caches (fun _ => True) (get f).
Proof. intros s r s' [= <- <-]. split; [by exists []|done]. Qed.
Lemma caches_lift {B} (Q : B -> Prop) (m : M ndr_pull B) : gives Q m -> caches Q (lift m).
Proof.
  intros Hm s r s'. unfold lift. destruct (m (p_ndr s)) as [[x t]|] eqn:E; [|done]. cbn. intros [= <- <-].
  split; [by exists []|]. intros v ->. by eapply Hm.
Qed.
Lemma caches_lift_any {B} (m : M ndr_pull B) : caches (fun _ => True) (lift m).
Proof. by apply caches_lift. Qed.
Lemma caches_offset o : caches (fun _ => True) (modify (fun s => Parser (Pull.set_offset o (p_ndr s)) (p_cache s))).
Proof. intros s r s' [= <- <-]. split; [by exists []|done]. Qed.
Lemma caches_add g c : caches (fun _ => True) (add_pair_guid_ptr A g c).
Proof.
  apply caches_seq; [apply caches_lift_any|]. intros p. destruct (decide _); [apply caches_fault|].
  intros s r s' [= <- <-]. split; [by exists [(g, c)]|done].
Qed.

(** Calls that give anything. *)
Ltac quiet := solve [apply caches_lift_any|apply caches_get|apply caches_bad|apply caches_fault|apply caches_offset|apply caches_add].

Lemma caches_check b : caches (fun _ => True) (check_expr b).
Proof. destruct b; [by apply caches_ret|apply caches_bad]. Qed.
Lemma caches_word v : caches (fun _ => True) (word_is v).
Proof. apply caches_seq; [apply caches_lift_any|]. intros u. apply caches_check. Qed.
Lemma caches_length n : caches (fun _ => True) (length_word n).
Proof. do 2 (apply caches_seq; [apply caches_lift_any|intros ?]). by apply caches_ret. Qed.

Lemma caches_header n : caches (fun _ => True) (parse_header n).
Proof.
  unfold parse_header.
  repeat first [apply caches_word|apply caches_length|apply caches_check|apply caches_lift_any|apply caches_seq; [|intros ?]].
Qed.

(** An object is only stored where the array has room for it. *)
Lemma caches_object room i : caches (fun o => has_class o /\ (i < room)%nat) (parse_object A room i).
Proof.
  unfold parse_object. apply caches_seq; [apply caches_word|intros _]. apply caches_seq; [apply caches_length|intros u].
  do 2 (apply caches_seq; [quiet|intros ?]). apply caches_seq; [apply caches_word|intros _]. apply caches_seq; [apply caches_length|intros _].
  apply caches_seq; [quiet|intros guid].
  apply (caches_bind (fun o => has_class o /\ (i < room)%nat)); [|intros o Ho; apply caches_seq; [quiet|intros _]; by apply caches_ret].
  destruct (_ =? DATATYPE_CLASSOBJECT); [|destruct (_ =? DATATYPE_OBJECT); [|quiet]].
  - apply caches_seq; [quiet|intros p]. destruct (decide (room <= i)%nat); [quiet|].
    destruct (decide (p = NULL)); [apply caches_seq; [quiet|intros _; quiet]|].
    apply (caches_bind has_class); [apply caches_lift, object_gives|]. intros o Ho. apply caches_seq; [quiet|intros _].
    apply caches_ret. split; [done|lia].
  - apply caches_seq; [quiet|intros p]. destruct (decide (room <= i)%nat); [quiet|]. destruct (decide (p = NULL)); [quiet|].
    apply caches_seq; [quiet|intros c]. intros s r s' E.
    apply (caches_lift has_class) in E; [|apply instance_object_gives]. destruct E as [En Hv]. split; [done|].
    intros v Hr. split; [by apply Hv|lia].
Qed.

Lemma caches_collect {B} (Q : B -> Prop) room (body : nat -> M parser B) n i :
  (forall k, caches (fun x => Q x /\ (k < room)%nat) (body k)) ->
  caches (fun l => length l = n /\ Forall Q l /\ (n = 0 \/ i + n <= room)%nat) (collect n i body).
Proof.
  intros Hb. revert i. induction n as [|n IH]; intros i; [apply caches_ret; by split; [|split; [|left]]|].
  cbn. eapply caches_bind; [apply Hb|]. cbn. intros x [Hx Hi]. eapply caches_bind; [apply IH|]. cbn. intros l (Hl & HF & Hr).
  apply caches_ret. split; [cbn; lia|]. split; [by constructor|lia].
Qed.

Lemma parse_spec data size c uCount room r c' :
  WBEMDATA_Parse A data size c uCount room = Ret (r, c') ->
  (exists new, c' = new ++ c) /\
  forall l, r = Good l -> length l = Z.to_nat uCount /\ (length l <= room)%nat /\ Forall has_class l.
Proof.
  unfold WBEMDATA_Parse. destruct (Z.eqb_spec uCount 0) as [->|Hu]; [intros [= <- <-]; split; [by exists []|done]|].
  destruct (malloc_ok 1); [|done]. set (s0 := Parser _ _).
  destruct (bind _ _ s0) as [[x s']|] eqn:E; [|done]. cbn. intros [= <- <-].
  eapply caches_seq in E; [|apply caches_header|intros _; apply (caches_collect has_class room), caches_object].
  destruct E as [Hn Hv]. split; [done|]. intros l ->. destruct (Hv l eq_refl) as (Hl & HF & Hr). split; [done|]. split; [lia|done].
Qed.

(** ** An enumeration *)

(** What stays over the calls: the request to the server and the classes known. *)
Definition goes_on (s s' : enum_data) : Prop :=
  e_guid s' = e_guid s /\ e_pSE s' = e_pSE s /\ e_lTimeout s' = e_lTimeout s /\ e_uCount s' = e_uCount s /\
  exists new, e_cache s' = new ++ e_cache s.

Lemma smart_next_enum_keeps srv s st s' : smart_next_enum srv s = Ret (st, s') -> goes_on s s' /\ e_cache s' = e_cache s.
Proof.
  unfold smart_next_enum. destruct (e_pSE s) as [p|] eqn:Hp; [|done].
  destruct (next srv p _ _ _) as [[[[w u] z] d]|].
  - destruct (_ || _); intros [= <- <-]; unfold goes_on; cbn; rewrite ?Hp; repeat split; by exists [].
  - intros [= <- <-]. unfold goes_on. repeat split; by exists [].
Qed.

Lemma recv_spec st s room w l d' :
  SmartNext_recv A st (Some s) room = Ret (w, l, d') ->
  (length l <= room)%nat /\ Forall has_class l /\ exists s', d' = Some s' /\ goes_on s s'.
Proof.
  assert (goes_on s s) as Hs by (unfold goes_on; repeat split; by exists []).
  unfold SmartNext_recv. destruct (negb _); [intros [= <- <- <-]; split; [cbn; lia|split; [done|by exists s]]|].
  destruct (e_pData s) as [data|]; [|intros [= <- <- <-]; split; [cbn; lia|split; [done|by exists s]]].
  destruct (WBEMDATA_Parse _ _ _ _ _ _) as [[r c]|] eqn:E; [|done]. cbn. apply parse_spec in E as [Hc Hl].
  assert (goes_on s (set_cache c s)) by (unfold goes_on; cbn; by repeat split).
  destruct r as [objs|e]; intros [= <- <- <-].
  - destruct (Hl objs eq_refl) as (_ & Hr & HF). split; [done|]. split; [done|]. by exists (set_cache c s).
  - split; [cbn; lia|]. split; [done|]. by exists (set_cache c s).
Qed.

(** The data of an enumeration of which the first call asked for [uCount] objects within
    [lTimeout]; later calls may ask for anything. *)
Inductive enumeration (lTimeout uCount : Z) : enum_data -> Prop :=
| enum_first srv random w l s :
    IEnumWbemClassObject_SmartNext A srv random true None lTimeout uCount = Ret (w, l, Some s) -> enumeration lTimeout uCount s
| enum_next srv random got t c w l s s' :
    enumeration lTimeout uCount s -> IEnumWbemClassObject_SmartNext A srv random got (Some s) t c = Ret (w, l, Some s') ->
    enumeration lTimeout uCount s'.

Lemma next_spec srv random got s t c w l d' :
  IEnumWbemClassObject_SmartNext A srv random got (Some s) t c = Ret (w, l, d') ->
  (length l <= Z.to_nat c)%nat /\ Forall has_class l /\ exists s', d' = Some s' /\ goes_on s s'.
Proof.
  unfold IEnumWbemClassObject_SmartNext. cbn. destruct (smart_next_enum srv s) as [[st s1]|] eqn:E; [|done]. cbn.
  apply smart_next_enum_keeps in E as [(Eg & Ep & Et & Eu & _) Ec]. intros (Hl & HF & s' & -> & Hg & Hp & Ht & Hu & Hc)%recv_spec.
  split; [done|]. split; [done|]. exists s'. split; [done|]. unfold goes_on. rewrite <- Ec. repeat split; congruence || done.
Qed.

Lemma first_spec srv random t c w l s :
  IEnumWbemClassObject_SmartNext A srv random true None t c = Ret (w, l, Some s) -> e_lTimeout s = t /\ e_uCount s = c.
Proof.
  unfold IEnumWbemClassObject_SmartNext. cbn.
  assert (forall s0 st s1, smart_next_fetch_enum srv random s0 = Ret (st, s1) -> e_lTimeout s1 = e_lTimeout s0 /\ e_uCount s1 = e_uCount s0) as Hf.
  { intros s0 st s1. unfold smart_next_fetch_enum. destruct (e_pFSE s0); [|done]. destruct (fetch srv _) as [[r p]|]; [|by intros [= <- <-]].
    destruct (r =? 0); [|by intros [= <- <-]]. intros [(_ & _ & Ht & Hu & _) _]%smart_next_enum_keeps. done. }
  assert (forall s0 st s1, smart_next_query_interface srv random s0 = Ret (st, s1) -> e_lTimeout s1 = e_lTimeout s0 /\ e_uCount s1 = e_uCount s0) as Hq.
  { intros s0 st s1. unfold smart_next_query_interface. destruct (query_interface srv) as [[r p]|]; [|by intros [= <- <-]].
    destruct (r =? 0); [|by intros [= <- <-]]. by intros ?%Hf. }
  destruct (smart_next_query_interface srv random _) as [[st s1]|] eqn:E; [|done]. apply Hq in E as [Ht Hu]. cbn in Ht, Hu |- *.
  intros (_ & _ & s' & [= <-] & _ & _ & Ht' & Hu' & _)%recv_spec. split; congruence.
Qed.

Lemma enumeration_request t c s : enumeration t c s -> e_lTimeout s = t /\ e_uCount s = c.
Proof.
  induction 1 as [srv random w l s E|srv random got t' c' w l s s' _ [IHt IHc] E]; [by eapply first_spec|].
  apply next_spec in E as (_ & _ & s1 & [= <-] & _ & _ & Ht & Hu & _). split; congruence.
Qed.
End classes.


(** ** wmic *)

Lemma print_objects_app delim cls l1 l2 :
  print_objects delim cls (l1 ++ l2) =
  let* (t, cls) := print_objects delim cls l1 in let* (rest, cls) := print_objects delim cls l2 in Ret (t ++ rest, cls).
Proof.
  revert cls. induction l1 as [|o l1 IH]; intros cls; cbn; [by destruct (print_objects delim cls l2) as [[]|]|].
  destruct (print_object delim cls o) as [[t cls1]|]; [|done]. cbn. rewrite IH.
  destruct (print_objects delim cls1 l1) as [[t1 cls2]|]; [|done]. cbn.
  destruct (print_objects delim cls2 l2) as [[t2 cls3]|]; [|done]. cbn. by rewrite app_assoc.
Qed.

Section wmic.
Context `{Charsets, Pidl, GuidNdr} (A : Allocator) (random : GUID).

Definition accepted (result : Z) : Prop := result = WERR_OK \/ result = WERR_BADFUNC.

(** The answers to the calls of wmic: batches of [cnt] objects, after which either an error ends
    the program with 1, or a shorter batch, which may be empty, ends it with 0. *)
Inductive session : option enum_data -> list server -> list (list WbemClassObject) -> Z -> Prop :=
| session_error d srv w co d' :
    IEnumWbemClassObject_SmartNext A srv random true d 0xFFFFFFFF cnt = Ret (w, co, d') -> ~ accepted w -> session d [srv] [] 1
| session_last d srv w co d' :
    IEnumWbemClassObject_SmartNext A srv random true d 0xFFFFFFFF cnt = Ret (w, co, d') -> accepted w ->
    Z.of_nat (length co) < cnt -> session d [srv] [co] 0
| session_more d srv w co d' srvs batches code :
    IEnumWbemClassObject_SmartNext A srv random true d 0xFFFFFFFF cnt = Ret (w, co, d') -> accepted w ->
    Z.of_nat (length co) = cnt -> session d' srvs batches code -> session d (srv :: srvs) (co :: batches) code.

Lemma accepted_test w : negb (w =? WERR_BADFUNC) && negb (w =? WERR_OK) = false <-> accepted w.
Proof. unfold accepted, WERR_OK, WERR_BADFUNC. destruct (Z.eqb_spec w 1), (Z.eqb_spec w 0); cbn; intuition congruence. Qed.

Lemma results_step delim srv more d cls w co d' :
  IEnumWbemClassObject_SmartNext A srv random true d 0xFFFFFFFF cnt = Ret (w, co, d') -> accepted w ->
  results A delim (srv :: more) random d cls =
  let* (t, cls) := print_objects delim cls co in
  if Z.of_nat (length co) =? cnt then let* (rest, code) := results A delim more random d' cls in Ret (t ++ rest, code)
  else Ret (t, Some 0).
Proof. intros E Hw. cbn. rewrite E. cbn. rewrite (proj2 (accepted_test w) Hw). by destruct co. Qed.

Lemma results_session delim srvs more batches code d cls :
  session d srvs batches code ->
  results A delim (srvs ++ more) random d cls = let* (t, _) := print_objects delim cls (concat batches) in Ret (t, Some code).
Proof.
  intros Hs. revert cls. induction Hs as [d srv w co d' E Hw|d srv w co d' E Hw Hl|d srv w co d' srvs batches code E Hw Hl Hs IH]; intros cls.
  - cbn. rewrite E. cbn. destruct (negb _ && negb _) eqn:Ew; [done|]. by apply accepted_test in Ew.
  - cbn [app]. rewrite (results_step _ _ _ _ _ _ _ _ E Hw). cbn. rewrite app_nil_r.
    destruct (print_objects delim cls co) as [[t cls']|]; [|done]. cbn.
    destruct (Z.eqb_spec (Z.of_nat (length co)) cnt); [lia|done].
  - cbn [app concat]. rewrite (results_step _ _ _ _ _ _ _ _ E Hw), print_objects_app.
    destruct (print_objects delim cls co) as [[t cls']|]; [|done]. cbn [obind fst snd].
    rewrite (proj2 (Z.eqb_eq _ _) Hl), IH. by destruct (print_objects delim cls' (concat batches)) as [[]|].
Qed.

(** A reply without objects. *)
Lemma empty_reply s data room :
  e_pData s = Some data -> e_uReturned s = 0 -> SmartNext_recv A 0 (Some s) room = Ret (WERR_BADFUNC, [], Some (set_cache (e_cache s) s)).
Proof. intros Hd Hu. unfold SmartNext_recv. rewrite Hd, Hu. by vm_compute (negb (0 =? 0)). Qed.
End wmic.

(** C18: wmic prints the objects of all the batches as if they came in one, each once and in order, the
    header of a class before its first object, and exits with 0; where a call ends in an error it prints
    the objects before it and exits with 1.  A reply without objects counts as the last batch. *)
Theorem wmic_prints_all `{Charsets, Pidl, GuidNdr} (A : Allocator) random delim srvs more batches code d cls :
  session A random d srvs batches code ->
  results A delim (srvs ++ more) random d cls =
    (let* (t, _) := print_objects delim cls (concat batches) in Ret (t, Some code)) /\
  forall s data room, e_pData s = Some data -> e_uReturned s = 0 ->
    exists s', SmartNext_recv A 0 (Some s) room = Ret (WERR_BADFUNC, [], Some s').
Proof.
  intros Hs. split; [by apply results_session|]. intros s data room Hd Hu. eexists. by eapply empty_reply.
Qed.

(** ** Examples *)

(** Generated code for objects without properties and methods, and that of a GUID. *)
#[local] Instance example_pidl : Pidl := {|
  ndr_push_CIMVAR := fun _ _ _ => ret tt;
  ndr_pull_CIMVAR := fun _ _ v => ret v;
  ndr_push_WBEM_FLAVOR_TYPE := fun _ => ret tt;
  ndr_pull_WBEM_FLAVOR_TYPE := ret 0;
  ndr_push_CIMTYPE_ENUMERATION := fun _ => ret tt;
  ndr_pull_CIMTYPE_ENUMERATION := ret 0;
  ndr_push_WbemProperty := fun _ _ => ret tt;
  ndr_pull_WbemProperty := fun _ p => ret p;
  ndr_push_WbemMethods := fun _ _ => ret tt;
  ndr_pull_WbemMethods := fun _ m => ret m
|}.
#[local] Instance example_guid_ndr : GuidNdr := {|
  ndr_pull_GUID :=
    do a <- NdrPull.ndr_pull_uint32; do b <- NdrPull.ndr_pull_uint16; do c <- NdrPull.ndr_pull_uint16;
    do d <- NdrPull.ndr_pull_bytes 2; do e <- NdrPull.ndr_pull_bytes 6; ret (Guid a b c d e)
|}.

Definition word4 (n : Z) : list Z := [n; 0; 0; 0].
Definition minus1 : list Z := [255; 255; 255; 255].
(** A class without properties and an instance of it. *)
Definition class_bytes : list Z := word4 29 ++ [0] ++ minus1 ++ word4 0 ++ word4 4 ++ word4 4 ++ word4 0 ++ [0; 0; 0; 128].
Definition instance_bytes : list Z := word4 18 ++ [0] ++ minus1 ++ word4 4 ++ [1] ++ [0; 0; 0; 128].
Definition object_bytes : list Z :=
  word4 9 ++ word4 72 ++ [2] ++ word4 24 ++ word4 0 ++ replicate 16 7 ++ [2] ++ class_bytes ++ instance_bytes.
Definition reply (n : nat) : list Z :=
  word4 0 ++ [87; 66; 69; 77; 68; 65; 84; 65] ++ word4 26 ++ word4 0 ++ word4 0 ++ [1; 1] ++ word4 8 ++ word4 0 ++ word4 12 ++ word4 0
  ++ word4 (Z.of_nat n) ++ concat (replicate n object_bytes).
Definition example_server (n : nat) : server := {|
  query_interface := Some (0, 1%nat);
  fetch := fun _ => Some (0, Some 2%nat);
  next := fun _ _ _ _ => Some (WBEM_NO_ERROR, Z.of_nat n, Z.of_nat (length (reply n)), Some (reply n))
|}.
Definition example_GUID : GUID := Guid 1 2 3 [4; 5] [6; 7; 8; 9; 10; 11].

Abbreviation call n d := (IEnumWbemClassObject_SmartNext calloc (example_server n) example_GUID true d 0xFFFFFFFF cnt).
Definition after (n : nat) (d : option enum_data) : option enum_data := match call n d with Ret (_, _, d) => d | Fault => None end.
Definition batch (n : nat) (d : option enum_data) : list WbemClassObject := match call n d with Ret (_, l, _) => l | Fault => [] end.

Example reply_parses :
  match call 5 None with
  | Ret (0, l, Some s) => length l = 5%nat /\ length (e_cache s) = 5%nat /\ e_pSE s = Some 2%nat
  | _ => False
  end.
Proof. vm_compute. by repeat split. Qed.
(** Six objects do not fit. *)
Example reply_overflows : call 6 None = Fault.
Proof. vm_compute. reflexivity. Qed.

Definition first_data : enum_data := default (enum_zero 0 0) (after 5 None).

Lemma first_call : exists w l, call 5 None = Ret (w, l, Some first_data) /\ accepted w /\ l = batch 5 None /\ length l = 5%nat.
Proof. eexists _, _. split; [vm_compute; reflexivity|]. split; [by left|]. by split; vm_compute. Qed.
Lemma first_interface : e_pSE first_data = Some 2%nat.
Proof. vm_compute. reflexivity. Qed.
Lemma second_call :
  exists w l d, call 2 (Some first_data) = Ret (w, l, d) /\ accepted w /\ l = batch 2 (Some first_data) /\ length l = 2%nat.
Proof. eexists _, _, _. split; [vm_compute; reflexivity|]. split; [by left|]. by split; vm_compute. Qed.


Lemma wmic_prints_all_witness :
  results calloc [124] [example_server 5; example_server 2] example_GUID None None =
  Ret (concat (replicate 7 (DomSid.str "CLASS: (null)" ++ [10; 10; 10])), Some 0).
Proof.
  assert (Hs : session calloc example_GUID None [example_server 5; example_server 2] [batch 5 None; batch 2 (Some first_data)] 0).
  { destruct first_call as (w & l & E & Hw & Hb & Hl). destruct second_call as (w2 & l2 & d2 & E2 & Hw2 & Hb2 & Hl2).
    rewrite <- Hb, <- Hb2. apply (session_more calloc _ _ _ w l (Some first_data)); [exact E|exact Hw|rewrite Hl; reflexivity|].
    apply (session_last calloc _ _ _ w2 l2 d2); [exact E2|exact Hw2|rewrite Hl2; reflexivity]. }
  pose proof (proj1 (wmic_prints_all calloc example_GUID [124] _ [] _ _ None None Hs)) as R. cbn [app] in R. rewrite R. vm_compute. reflexivity.
Defined.
