(* ===== verification/Schannel.v ===== *)
(** auth/gensec/schannel_sign.c and schannel.c: the secure channel of netlogon, which
    protects packets with the key that two ends hold from the credential chain, and the
    mechanism of GENSEC that sets it up. *)

From stdpp Require Import strings.
From S2P Require Import Prelude Digest Byteorder Ntstatus Md5 Hmac Arcfour Credentials Charcnv Ntlmssp DomSid CliCredentials Gensec Ndr NdrPull NdrPush.
Import Byteorder Hmac.HmacMd5 Arcfour Charcnv CliCredentials Gensec Ndr NdrPull NdrPush.
Import Credentials(creds_CredentialState).
Import Ntlmssp(GENSEC_FEATURE_SIGN, GENSEC_FEATURE_SEAL, GENSEC_FEATURE_DCE_STYLE, GENSEC_FEATURE_ASYNC_REPLIES).

#[local] Open Scope outcome_scope.

(** librpc/idl/schannel.idl *)
Inductive schannel_bind_info :=
| info3 (domain workstation : cstr)
| info23 (domain workstation dnsdomain dnsworkstation : cstr).
Record schannel_bind := Bind { unknown1 : Z; bind_type : Z; u : schannel_bind_info }.
Record schannel_bind_ack := BindAck { ack_unknown1 : Z; ack_unknown2 : Z; ack_unknown3 : Z }.

(** The code PIDL generates for them. *)
Class SchannelNdr := {
  ndr_push_schannel_bind : Allocator -> schannel_bind -> Z -> M ndr_push unit;
  ndr_pull_schannel_bind : Allocator -> Z -> M ndr_pull schannel_bind;
  ndr_push_schannel_bind_ack : Allocator -> schannel_bind_ack -> Z -> M ndr_push unit
}.

Module Schannel.

Definition NETSEC_SIGN_SIGNATURE : list Z := [0x77; 0x00; 0xff; 0xff; 0xff; 0xff; 0x00; 0x00].
Definition NETSEC_SEAL_SIGNATURE : list Z := [0x77; 0x00; 0x7a; 0x00; 0xff; 0xff; 0x00; 0x00].
Definition zeros : list Z := [0; 0; 0; 0].

Inductive schannel_position := SCHANNEL_STATE_START | SCHANNEL_STATE_UPDATE_1.

(** The structure is not zeroed: [creds] is wild until the first update. *)
Record schannel_state := SchannelState {
  state : schannel_position;
  seq_num : Z;
  initiator : bool;
  creds : ptr creds_CredentialState
}.

Definition set_seq (n : Z) (s : schannel_state) : schannel_state := SchannelState (state s) n (initiator s) (creds s).
Definition set_creds (c : ptr creds_CredentialState) (s : schannel_state) : schannel_state :=
  SchannelState (state s) (seq_num s) (initiator s) c.
Definition set_state (p : schannel_position) (s : schannel_state) : schannel_state :=
  SchannelState p (seq_num s) (initiator s) (creds s).

(** state->creds->session_key *)
Definition key_of (s : schannel_state) : outcome (list Z) :=
  match creds s with To c => Ret (Credentials.session_key c) | _ => Fault end.

(** The keys are digests and not empty. *)
Definition rc4 (data key : list Z) : outcome (list Z) :=
  match arcfour_crypt data key with Some e => Ret e | None => Fault end.

Section sign.
Context `{Host}.

Definition netsec_deal_with_seq_num (s : schannel_state) (packet_digest seq : list Z) : outcome (list Z * schannel_state) :=
  let* session_key := key_of s in
  let digest1 := hmac_md5 session_key zeros in
  let sequence_key := hmac_md5 digest1 (take 8 packet_digest) in
  let* seq := rc4 seq sequence_key in
  Ret (seq, set_seq (u32 (seq_num s + 1)) s).

Definition netsec_get_sealing_key (session_key seq : list Z) : list Z :=
  let sess_kf0 := Z.lxor 0xf0 <$> take 16 session_key in
  let digest2 := hmac_md5 sess_kf0 zeros in
  hmac_md5 digest2 (take 8 seq).

Definition schannel_digest (sess_key netsec_sig : list Z) (confounder : option (list Z)) (data : list Z) : list Z :=
  let ctx := Md5.MD5Update Md5.MD5Init zeros in
  let ctx := Md5.MD5Update ctx netsec_sig in
  let ctx := match confounder with Some c => Md5.MD5Update ctx (take 8 c) | None => ctx end in
  let ctx := Md5.MD5Update ctx data in
  hmac_md5 sess_key (fst (Md5.MD5Final ctx)).

(** The sequence number as it is sent, with the end that sends it. *)
Definition seq_bytes (n : Z) (from_initiator : bool) : list Z :=
  SIVAL (RSIVAL (replicate 8 0) 0 n) 4 (if from_initiator then 0x80 else 0).

(** memcpy into the four parts of a signature. *)
Definition fill (sig : list Z) (header seq digest confounder : list Z) : list Z :=
  splice 24 (take 8 confounder) (splice 16 (take 8 digest) (splice 8 (take 8 seq) (splice 0 (take 8 header) sig))).

(** memcmp of eight bytes. *)
Definition same8 (a b : list Z) : bool := bool_decide (take 8 a = take 8 b).

(** The data is decrypted in place whatever the outcome. *)
Definition schannel_unseal_packet (s : schannel_state) (pdu : list Z) (ofs n : nat) (sig : list Z) :
    outcome (NTSTATUS * list Z * schannel_state) :=
  if negb (length sig =? 32)%nat then Ret (NT_STATUS_ACCESS_DENIED, pdu, s)
  else
    let confounder := slice 24 8 sig in
    let seq := seq_bytes (seq_num s) (negb (initiator s)) in
    let* session_key := key_of s in
    let sealing_key := netsec_get_sealing_key session_key seq in
    let* confounder := rc4 confounder sealing_key in
    let* data := rc4 (slice ofs n pdu) sealing_key in
    let pdu := splice ofs data pdu in
    let digest_final := schannel_digest session_key NETSEC_SEAL_SIGNATURE (Some confounder) data in
    if negb (same8 digest_final (drop 16 sig)) then Ret (NT_STATUS_ACCESS_DENIED, pdu, s)
    else
      let* (seq, s) := netsec_deal_with_seq_num s digest_final seq in
      if negb (same8 seq (drop 8 sig)) then Ret (NT_STATUS_ACCESS_DENIED, pdu, s)
      else Ret (NT_STATUS_OK, pdu, s).

Definition schannel_check_packet (s : schannel_state) (pdu : list Z) (ofs n : nat) (sig : list Z) :
    outcome (NTSTATUS * schannel_state) :=
  if negb (length sig =? 32)%nat && negb (length sig =? 24)%nat then Ret (NT_STATUS_ACCESS_DENIED, s)
  else
    let seq := seq_bytes (seq_num s) (negb (initiator s)) in
    let* session_key := key_of s in
    let digest_final := schannel_digest session_key NETSEC_SIGN_SIGNATURE None (slice ofs n pdu) in
    let* (seq, s) := netsec_deal_with_seq_num s digest_final seq in
    if negb (same8 seq (drop 8 sig)) then Ret (NT_STATUS_ACCESS_DENIED, s)
    else if negb (same8 digest_final (drop 16 sig)) then Ret (NT_STATUS_ACCESS_DENIED, s)
    else Ret (NT_STATUS_OK, s).

Section alloc.
Context (A : Allocator).

(** [random] is what generate_random_buffer gives; without memory the signature is null. *)
Definition schannel_seal_packet (random : list Z) (s : schannel_state) (pdu : list Z) (ofs n : nat) :
    outcome (NTSTATUS * list Z * blob * schannel_state) :=
  let confounder := take 8 random in
  let seq := seq_bytes (seq_num s) (initiator s) in
  let* session_key := key_of s in
  let digest_final := schannel_digest session_key NETSEC_SEAL_SIGNATURE (Some confounder) (slice ofs n pdu) in
  let sealing_key := netsec_get_sealing_key session_key seq in
  let* confounder := rc4 confounder sealing_key in
  let* data := rc4 (slice ofs n pdu) sealing_key in
  let* (seq, s) := netsec_deal_with_seq_num s digest_final seq in
  if negb (malloc_ok 0) then Fault
  else
    Ret (NT_STATUS_OK, splice ofs data pdu, Some (fill (fresh 32) NETSEC_SEAL_SIGNATURE seq digest_final confounder), s).

Definition schannel_sign_packet (s : schannel_state) (pdu : list Z) (ofs n : nat) : outcome (NTSTATUS * blob * schannel_state) :=
  let seq := seq_bytes (seq_num s) (initiator s) in
  let* session_key := key_of s in
  let digest_final := schannel_digest session_key NETSEC_SIGN_SIGNATURE None (slice ofs n pdu) in
  let* (seq, s) := netsec_deal_with_seq_num s digest_final seq in
  if negb (malloc_ok 0) then Fault
  else Ret (NT_STATUS_OK, Some (fill (fresh 32) NETSEC_SIGN_SIGNATURE seq digest_final (replicate 8 0)), s).
End alloc.

(** ** The mechanism *)

Definition schannel_sig_size (data_size : Z) : Z := 32.

Definition schannel_have_feature (feature : Z) : bool :=
  if negb (Z.land feature (Z.lor GENSEC_FEATURE_SIGN GENSEC_FEATURE_SEAL) =? 0) then true
  else if negb (Z.land feature GENSEC_FEATURE_DCE_STYLE =? 0) then true
  else if negb (Z.land feature GENSEC_FEATURE_ASYNC_REPLIES =? 0) then true
  else false.

Section mech.
Context `{SchannelNdr}.
Context {Info Addr : Type}.
#[local] Abbreviation gensec_context := (@gensec_context schannel_state Addr).
#[local] Abbreviation call := (@call schannel_state Addr).
Context (run : nat -> cli_credentials -> outcome (cli_credentials * cstr)) (set_machine_account : cli_credentials -> outcome cli_credentials).
(** The netlogon_creds of the client's credentials, and schannel_fetch_session_key, which
    looks a computer up in the server's database. *)
Context (netlogon_creds : ptr creds_CredentialState) (schannel_fetch_session_key : cstr -> cstr -> outcome (result creds_CredentialState)).

(** talloc_reference gives null for null, and without memory. *)
Definition talloc_reference (mem : bool) (c : ptr creds_CredentialState) : ptr creds_CredentialState :=
  match c with To _ => if mem then c else Nil | _ => c end.

Definition schannel_start (mem : bool) (init : bool) : call NTSTATUS := fun c =>
  if negb mem then Ret (NT_STATUS_NO_MEMORY, c)
  else Ret (NT_STATUS_OK, set_private_data (To (SchannelState SCHANNEL_STATE_START 0 init Wild)) c).
Definition schannel_client_start (mem : bool) : call NTSTATUS := schannel_start mem true.
Definition schannel_server_start (mem : bool) : call NTSTATUS := schannel_start mem false.

Definition put (s : schannel_state) (c : gensec_context) : gensec_context := set_private_data (To s) c.

(** The strings of a bind that are looked at: the type says which member they are in. *)
Definition names_of_bind (b : schannel_bind) : outcome (cstr * cstr) :=
  match u b with
  | info23 domain workstation _ _ => if bind_type b =? 23 then Ret (domain, workstation) else Fault
  | info3 domain workstation => if bind_type b =? 23 then Fault else Ret (domain, workstation)
  end.

(** An update uses up to three allocators: of the blob that comes first, of the reference to
    the credentials, and of the server's answer. *)
Definition client_update (memory : nat -> Allocator) (s : schannel_state) : call (NTSTATUS * blob) := fun c =>
  match state s with
  | SCHANNEL_STATE_UPDATE_1 => Ret (NT_STATUS_OK, None, c)
  | SCHANNEL_STATE_START =>
      match credentials c with
      | To cr =>
          let s := set_creds (talloc_reference (@malloc_ok (memory 1%nat) 0) netlogon_creds) s in
          let* (cr, domain) := cli_credentials_get_domain run set_machine_account cr in
          let* (cr, workstation) := cli_credentials_get_workstation run cr in
          let c := set_credentials (To cr) (put s c) in
          let* r := ndr_push_struct_blob (memory 0%nat) (ndr_push_schannel_bind (memory 0%nat) (Bind 0 3 (info3 domain workstation))) in
          match r with
          | Bad status => Ret (status, None, c)
          | Good out => Ret (NT_STATUS_MORE_PROCESSING_REQUIRED, Some out, put (set_state SCHANNEL_STATE_UPDATE_1 s) c)
          end
      | _ => Fault
      end
  end.

Definition server_update (memory : nat -> Allocator) (s : schannel_state) (inp : blob) : call (NTSTATUS * blob) := fun c =>
  match state s with
  | SCHANNEL_STATE_UPDATE_1 => Ret (NT_STATUS_INVALID_PARAMETER, None, c)
  | SCHANNEL_STATE_START =>
      let* r := ndr_pull_struct_blob (memory 0%nat) (default [] inp) (Z.of_nat (blob_length inp)) (ndr_pull_schannel_bind (memory 0%nat)) in
      match r with
      | Bad status => Ret (status, None, c)
      | Good b =>
          let* (domain, workstation) := names_of_bind b in
          let* r := schannel_fetch_session_key workstation domain in
          match r with
          | Bad status => Ret (status, None, c)
          | Good cr =>
              let s := set_creds (talloc_reference (@malloc_ok (memory 1%nat) 0) (To cr)) s in
              let* r := ndr_push_struct_blob (memory 2%nat) (ndr_push_schannel_bind_ack (memory 2%nat) (BindAck 1 0 0x6c0000)) in
              match r with
              | Bad status => Ret (status, None, put s c)
              | Good out => Ret (NT_STATUS_OK, Some out, put (set_state SCHANNEL_STATE_UPDATE_1 s) c)
              end
          end
      end
  end.

(** gensec_security->private_data *)
Definition on_state {R} (f : schannel_state -> outcome (R * schannel_state)) : call R := fun c =>
  match private_data c with
  | To s => let* r := f s in Ret (r.1, put r.2 c)
  | _ => Fault
  end.

Definition schannel_update (memory : nat -> Allocator) (inp : blob) : call (NTSTATUS * blob) := fun c =>
  match private_data c with
  | To s => match role c with GENSEC_CLIENT => client_update memory s c | GENSEC_SERVER => server_update memory s inp c end
  | _ => Fault
  end.

Definition DCERPC_AUTH_TYPE_SCHANNEL : Z := 68.
Definition GENSEC_SCHANNEL : Z := 60.

(** The allocators and random bytes of a call, where the table is, and schannel_session_info
    are given. *)
Definition gensec_schannel_security_ops (memory : nat -> Allocator) (random : list Z)
    (session_info : option (call (NTSTATUS * option Info))) (address : nat) : @gensec_security_ops schannel_state Info Addr :=
  let A := memory 0%nat in
  GensecOps address (DomSid.str "schannel") None DCERPC_AUTH_TYPE_SCHANNEL None
    (Some (schannel_client_start (@malloc_ok A 0))) (Some (schannel_server_start (@malloc_ok A 0))) None (Some (schannel_update memory))
    (Some (fun pdu ofs n => on_state (fun s => let* (st, pdu, sig, s) := schannel_seal_packet A random s pdu ofs n in Ret (st, pdu, sig, s))))
    (Some (fun pdu ofs n => on_state (fun s => let* (st, sig, s) := schannel_sign_packet A s pdu ofs n in Ret (st, sig, s))))
    (Some (fun size c => Ret (schannel_sig_size size, c))) None None
    (Some (fun pdu ofs n sig => on_state (fun s => schannel_check_packet s pdu ofs n sig)))
    (Some (fun pdu ofs n sig => on_state (fun s => schannel_unseal_packet s pdu ofs n sig)))
    None None (Some (fun c => Ret (NT_STATUS_NOT_IMPLEMENTED, None, c))) session_info
    (Some (fun feature c => Ret (schannel_have_feature feature, c))) true false GENSEC_SCHANNEL.
End mech.
End sign.
End Schannel.
Import Schannel.

(** ** The cipher and the signature *)

Lemma rc4_ok data key : length key = 16%nat -> exists e, rc4 data key = Ret e /\ rc4 e key = Ret data /\ length e = length data.
Proof.
  intros Hk. unfold rc4, arcfour_crypt. rewrite take_ge by lia. destruct (arcfour_crypt_blob data key) as [e|] eqn:E.
  - exists e. split; [done|]. rewrite (arcfour_crypt_blob_involutive _ _ _ E). by apply arcfour_crypt_blob_length in E.
  - exfalso. unfold arcfour_crypt_blob, arcfour_init in E. rewrite decide_False in E by lia. done.
Qed.

Lemma rc4_inj a b key e : rc4 a key = Ret e -> rc4 b key = Ret e -> a = b.
Proof.
  unfold rc4, arcfour_crypt. destruct (arcfour_crypt_blob a _) as [x|] eqn:Ea; [|done]. destruct (arcfour_crypt_blob b _) as [y|] eqn:Eb; [|done].
  intros [= ->] [= ->]. apply arcfour_crypt_blob_involutive in Ea, Eb. congruence.
Qed.

Lemma list8 (l : list Z) : length l = 8%nat -> exists a b c d e f g h, l = [a; b; c; d; e; f; g; h].
Proof. destruct l as [|a [|b [|c [|d [|e [|f [|g [|h [|]]]]]]]]]; try done. intros _. by exists a, b, c, d, e, f, g, h. Qed.

Lemma fill_parts `{Allocator} header seq digest confounder :
  length header = 8%nat -> length seq = 8%nat -> (8 <= length digest)%nat -> length confounder = 8%nat ->
  fill (fresh 32) header seq digest confounder = header ++ seq ++ take 8 digest ++ confounder.
Proof.
  intros Hh Hs Hd Hc. unfold fill. assert (length (take 8 digest) = 8%nat) as Ht by (rewrite length_take; lia).
  destruct (list8 _ Hh) as (?&?&?&?&?&?&?&?&->), (list8 _ Hs) as (?&?&?&?&?&?&?&?&->), (list8 _ Hc) as (?&?&?&?&?&?&?&?&->),
    (list8 _ Ht) as (?&?&?&?&?&?&?&?&->). reflexivity.
Qed.

Lemma seq_bytes_parts n b : seq_bytes n b = be 4 n ++ le 4 (if b then 0x80 else 0).
Proof.
  unfold seq_bytes. rewrite RSIVAL_splice, SIVAL_splice by (rewrite ?length_splice; rewrite ?length_be; cbn; lia).
  pose proof (length_be 4 n) as Hl. revert Hl. generalize (be 4 n) as l. intros l Hl.
  destruct l as [|? [|? [|? [|? [|]]]]]; done.
Qed.

Lemma length_seq_bytes n b : length (seq_bytes n b) = 8%nat.
Proof. rewrite seq_bytes_parts, length_app, length_be, length_le. done. Qed.

Lemma seq_bytes_inj n m b c : is_u32 n -> is_u32 m -> seq_bytes n b = seq_bytes m c -> n = m /\ b = c.
Proof.
  intros Hn Hm. rewrite !seq_bytes_parts. intros E. apply app_inj_1 in E as [En Eb]; [|by rewrite !length_be].
  split; [|by destruct b, c]. unfold be in En. apply (f_equal reverse) in En. rewrite !reverse_involutive in En. by apply le_inj in En.
Qed.

Section host.
Context `{Host}.

Lemma length_schannel_digest k sg c data : length (schannel_digest k sg c data) = 16%nat.
Proof. apply length_hmac_md5. Qed.

#[local] Opaque hmac_md5 Md5.MD5Update Md5.MD5Final seq_bytes.

(** The sequence number under the key of a digest, which is its own inverse. *)
Definition veil (k digest seq : list Z) : outcome (list Z) := rc4 seq (hmac_md5 (hmac_md5 k zeros) (take 8 digest)).

Lemma veil_ok k digest seq : exists e, veil k digest seq = Ret e /\ length e = length seq.
Proof. destruct (rc4_ok seq (hmac_md5 (hmac_md5 k zeros) (take 8 digest))) as (e & E & _ & Hl); [apply length_hmac_md5|]. by exists e. Qed.

Lemma deal_veil s digest seq k :
  key_of s = Ret k -> netsec_deal_with_seq_num s digest seq = let* e := veil k digest seq in Ret (e, set_seq (u32 (seq_num s + 1)) s).
Proof. unfold netsec_deal_with_seq_num. by intros ->. Qed.

(** What the signature of a packet is. *)
Lemma sign_packet_spec (A : Allocator) s pdu ofs n k :
  @malloc_ok A 0 = true -> key_of s = Ret k ->
  exists e, veil k (schannel_digest k NETSEC_SIGN_SIGNATURE None (slice ofs n pdu)) (seq_bytes (seq_num s) (initiator s)) = Ret e /\ length e = 8%nat /\
  schannel_sign_packet A s pdu ofs n =
    Ret (NT_STATUS_OK,
         Some (NETSEC_SIGN_SIGNATURE ++ e ++ take 8 (schannel_digest k NETSEC_SIGN_SIGNATURE None (slice ofs n pdu)) ++ replicate 8 0),
         set_seq (u32 (seq_num s + 1)) s).
Proof.
  intros HA Hk. unfold schannel_sign_packet. rewrite Hk. cbn [obind]. set (d := schannel_digest _ _ _ _).
  destruct (veil_ok k d (seq_bytes (seq_num s) (initiator s))) as (e & E & Hl). rewrite length_seq_bytes in Hl.
  exists e. split; [done|]. split; [done|]. rewrite (deal_veil _ _ _ _ Hk), E. cbn [obind]. rewrite HA. cbn [negb].
  unfold d. rewrite fill_parts; [done|done|done|rewrite length_schannel_digest; lia|done].
Qed.

(** What a check compares. *)
Lemma check_packet_spec s pdu ofs n k header e d rest :
  key_of s = Ret k -> length header = 8%nat -> length e = 8%nat -> length d = 8%nat -> length rest = 8%nat ->
  exists e', veil k (schannel_digest k NETSEC_SIGN_SIGNATURE None (slice ofs n pdu)) (seq_bytes (seq_num s) (negb (initiator s))) = Ret e' /\ length e' = 8%nat /\
  schannel_check_packet s pdu ofs n (header ++ e ++ d ++ rest) =
    Ret (if bool_decide (e' = e) && bool_decide (take 8 (schannel_digest k NETSEC_SIGN_SIGNATURE None (slice ofs n pdu)) = d)
         then NT_STATUS_OK else NT_STATUS_ACCESS_DENIED, set_seq (u32 (seq_num s + 1)) s).
Proof.
  intros Hk Hh He Hd Hr. set (D := schannel_digest _ _ _ _).
  destruct (veil_ok k D (seq_bytes (seq_num s) (negb (initiator s)))) as (e' & E & Hl). rewrite length_seq_bytes in Hl.
  exists e'. split; [done|]. split; [done|]. unfold schannel_check_packet. rewrite !length_app, Hh, He, Hd, Hr. cbn [Nat.add Nat.eqb negb andb].
  rewrite Hk. cbn [obind]. fold D. rewrite (deal_veil _ _ _ _ Hk), E. cbn [obind]. unfold same8.
  rewrite (drop_app_length' header) by lia. rewrite (take_ge e') by lia. rewrite (take_app_length' e) by lia.
  rewrite app_assoc, (drop_app_length' (header ++ e)) by (rewrite length_app; lia). rewrite (take_app_length' d) by lia.
  by repeat case_bool_decide.
Qed.

(** ** Conversations *)

(** A packet: who sends it, whether it is sealed or signed, the data in its PDU, and the memory
    and the random bytes its sender has. *)
Record packet := Packet { by_initiator : bool; sealed : bool; pdu : list Z; ofs : nat; len : nat; memory : Allocator; random : list Z }.

(** One packet from its sender to its receiver: the status there and the PDU. *)
Definition transfer (p : packet) (tx rx : schannel_state) : outcome (NTSTATUS * list Z * schannel_state * schannel_state) :=
  if sealed p then
    let* (_, wire, sig, tx) := schannel_seal_packet (memory p) (random p) tx (pdu p) (ofs p) (len p) in
    let* (status, got, rx) := schannel_unseal_packet rx wire (ofs p) (len p) (default [] sig) in
    Ret (status, got, tx, rx)
  else
    let* (_, sig, tx) := schannel_sign_packet (memory p) tx (pdu p) (ofs p) (len p) in
    let* (status, rx) := schannel_check_packet rx (pdu p) (ofs p) (len p) (default [] sig) in
    Ret (status, pdu p, tx, rx).

Fixpoint conversation (ps : list packet) (client server : schannel_state) :
    outcome (list (NTSTATUS * list Z) * schannel_state * schannel_state) :=
  match ps with
  | [] => Ret ([], client, server)
  | p :: ps =>
      let* (status, got, client, server) :=
        (if by_initiator p then transfer p client server
         else let* (status, got, server, client) := transfer p server client in Ret (status, got, client, server)) in
      let* (l, client, server) := conversation ps client server in
      Ret ((status, got) :: l, client, server)
  end.

Definition sendable (p : packet) : Prop :=
  @malloc_ok (memory p) 0 = true /\ (ofs p + len p <= length (pdu p))%nat /\ length (random p) = 8%nat.

Lemma set_seq_key n s : key_of (set_seq n s) = key_of s.
Proof. done. Qed.

Lemma transfer_ok p tx rx k :
  sendable p -> key_of tx = Ret k -> key_of rx = Ret k -> initiator rx = negb (initiator tx) -> seq_num rx = seq_num tx ->
  transfer p tx rx = Ret (NT_STATUS_OK, pdu p, set_seq (u32 (seq_num tx + 1)) tx, set_seq (u32 (seq_num tx + 1)) rx).
Proof.
  intros (HA & Hl & Hr) Ht Hx Hi Hq. unfold transfer. destruct (sealed p).
  - unfold schannel_seal_packet. rewrite Ht, (take_ge (random p)) by lia. cbn [obind]. set (d := schannel_digest _ _ _ _). set (key := netsec_get_sealing_key _ _).
    assert (length key = 16%nat) as Hkey by apply length_hmac_md5.
    destruct (rc4_ok (random p) key Hkey) as (c & Ec & Dc & Lc). destruct (rc4_ok (slice (ofs p) (len p) (pdu p)) key Hkey) as (e & Ee & De & Le).
    rewrite Ec, Ee. cbn [obind]. rewrite (deal_veil _ _ _ _ Ht).
    destruct (veil_ok k d (seq_bytes (seq_num tx) (initiator tx))) as (v & Ev & Lv). rewrite length_seq_bytes in Lv. rewrite Ev. cbn [obind]. rewrite HA. cbn [negb obind default id].
    rewrite length_slice in Le by done. assert (length d = 16%nat) as Ld by apply length_schannel_digest.
    rewrite fill_parts by (done || lia). unfold schannel_unseal_packet.
    assert (length (take 8 d) = 8%nat) as Ltd by (rewrite length_take; lia).
    rewrite !length_app, Lv, Lc, Hr, Ltd. cbn [length NETSEC_SEAL_SIGNATURE Nat.add Nat.eqb negb]. rewrite Hx, Hi, Hq, negb_involutive. cbn [obind]. fold key.
    assert (slice 24 8 (NETSEC_SEAL_SIGNATURE ++ v ++ take 8 d ++ c) = c) as ->.
    { unfold slice. rewrite !app_assoc, drop_app_length' by (rewrite !length_app, Lv, Ltd; done). apply take_ge. lia. }
    rewrite Dc. cbn [obind]. rewrite <- Le. rewrite slice_splice by lia. rewrite De. cbn [obind]. fold d.
    rewrite splice_restore by done. unfold same8. rewrite !app_assoc.
    rewrite <- (app_assoc _ (take 8 d)), (drop_app_length' (NETSEC_SEAL_SIGNATURE ++ v)) by (rewrite length_app, Lv; done).
    rewrite (take_app_length' (take 8 d)) by done. rewrite bool_decide_eq_true_2 by done. cbn [negb].
    rewrite (deal_veil _ _ _ _ Hx), Ev. cbn [obind]. rewrite <- app_assoc, (drop_app_length' NETSEC_SEAL_SIGNATURE) by done.
    rewrite (take_app_length' v) by done. rewrite take_ge by lia. rewrite bool_decide_eq_true_2 by done. cbn [negb]. by rewrite Hq.
  - destruct (sign_packet_spec (memory p) tx (pdu p) (ofs p) (len p) k HA Ht) as (e & Ee & Le & ->). cbn [obind default id].
    destruct (check_packet_spec rx (pdu p) (ofs p) (len p) k NETSEC_SIGN_SIGNATURE e
                (take 8 (schannel_digest k NETSEC_SIGN_SIGNATURE None (slice (ofs p) (len p) (pdu p)))) (replicate 8 0) Hx) as (e' & Ee' & _ & ->);
      [done|done|rewrite length_take, length_schannel_digest; done|done|].
    rewrite Hi, Hq, negb_involutive, Ee in Ee'. injection Ee' as <-. rewrite !bool_decide_eq_true_2 by done. cbn [andb obind]. by rewrite Hq.
Qed.

(** Two ends of one key, each packet received before the next is sent. *)
Definition paired (k : list Z) (client server : schannel_state) : Prop :=
  key_of client = Ret k /\ key_of server = Ret k /\ initiator client = true /\ initiator server = false /\ seq_num server = seq_num client.

Lemma conversation_ok k ps : forall client server,
  paired k client server -> is_u32 (seq_num client) -> Forall sendable ps ->
  exists n, n = u32 (seq_num client + Z.of_nat (length ps)) /\
    conversation ps client server = Ret ((fun p => (NT_STATUS_OK, pdu p)) <$> ps, set_seq n client, set_seq n server).
Proof.
  induction ps as [|p ps IH]; intros c s (Hc & Hs & Ic & Is & Hq) Hu Hps.
  - exists (seq_num c). cbn. split; [by rewrite Z.add_0_r, u32_id|]. destruct c, s. cbn in *. by subst.
  - inversion Hps as [|? ? Hp Hps']; subst. cbn [conversation].
    assert ((if by_initiator p then transfer p c s
             else let* (status, got, server, client) := transfer p s c in Ret (status, got, client, server)) =
            Ret (NT_STATUS_OK, pdu p, set_seq (u32 (seq_num c + 1)) c, set_seq (u32 (seq_num c + 1)) s)) as ->.
    { destruct (by_initiator p); [|rewrite (transfer_ok p s c k) by (done || by rewrite Ic, Is); by rewrite Hq].
      apply (transfer_ok p c s k); by rewrite ?Ic, ?Is. }
    cbn [obind]. destruct (IH (set_seq (u32 (seq_num c + 1)) c) (set_seq (u32 (seq_num c + 1)) s)) as (n & -> & ->); [done|apply u32_range|done|].
    cbn [obind]. eexists. split; [reflexivity|]. cbn [seq_num set_seq length fmap list_fmap].
    replace (u32 (u32 (seq_num c + 1) + Z.of_nat (length ps))) with (u32 (seq_num c + Z.of_nat (S (length ps)))); [done|].
    unfold u32. rewrite Zplus_mod_idemp_l. f_equal. lia.
Qed.

(** ** From the bind to the last packet *)

Section session.
Context `{SchannelNdr} {Addr : Type}.
Context (run : nat -> cli_credentials -> outcome (cli_credentials * cstr)) (set_machine_account : cli_credentials -> outcome cli_credentials).
Context (netlogon_creds : ptr creds_CredentialState) (fetch : cstr -> cstr -> outcome (result creds_CredentialState)).
#[local] Abbreviation gensec_context := (@gensec_context schannel_state Addr).
#[local] Abbreviation schannel_update := (@schannel_update _ Addr run set_machine_account netlogon_creds fetch).

(** Before the first call: the names the client has, both ends' credentials of one chain and
    memory for what an end allocates; the generated code reads what it wrote. *)
Record ready (client server : gensec_context) (cm sm : nat -> Allocator) (k out ack : list Z) : Prop := Ready {
  is_client : role client = GENSEC_CLIENT;
  is_server : role server = GENSEC_SERVER;
  names : exists cr cr1 cr2 d w cc sc,
    credentials client = To cr /\ cli_credentials_get_domain run set_machine_account cr = Ret (cr1, d) /\
    cli_credentials_get_workstation run cr1 = Ret (cr2, w) /\
    netlogon_creds = To cc /\ Credentials.session_key cc = k /\ fetch w d = Ret (Good sc) /\ Credentials.session_key sc = k /\
    ndr_push_struct_blob (cm 0%nat) (ndr_push_schannel_bind (cm 0%nat) (Bind 0 3 (info3 d w))) = Ret (Good out) /\
    ndr_pull_struct_blob (sm 0%nat) out (Z.of_nat (length out)) (ndr_pull_schannel_bind (sm 0%nat)) = Ret (Good (Bind 0 3 (info3 d w)));
  answer : ndr_push_struct_blob (sm 2%nat) (ndr_push_schannel_bind_ack (sm 2%nat) (BindAck 1 0 0x6c0000)) = Ret (Good ack);
  mem_client : @malloc_ok (cm 1%nat) 0 = true;
  mem_server : @malloc_ok (sm 1%nat) 0 = true
}.

(** C7: The secure channel from its start: the client binds, the server answers, the client takes
    the answer, the server takes no third message; and then any packets, signed or sealed by either end, are
    accepted and unsealed to what was sent, as long as one is received before the next is
    sent, and beyond where the 32-bit number wraps. *)
Theorem schannel_session_delivers client0 server0 cm sm k out ack ps :
  ready client0 server0 cm sm k out ack -> Forall sendable ps ->
  exists client1 server1 client2 server2 cs ss,
    schannel_client_start true client0 = Ret (NT_STATUS_OK, client1) /\
    schannel_server_start true server0 = Ret (NT_STATUS_OK, server1) /\
    schannel_update cm None client1 = Ret (NT_STATUS_MORE_PROCESSING_REQUIRED, Some out, client2) /\
    schannel_update sm (Some out) server1 = Ret (NT_STATUS_OK, Some ack, server2) /\
    (forall m, schannel_update m (Some ack) client2 = Ret (NT_STATUS_OK, None, client2)) /\
    (forall m b, schannel_update m b server2 = Ret (NT_STATUS_INVALID_PARAMETER, None, server2)) /\
    private_data client2 = To cs /\ private_data server2 = To ss /\
    let n := u32 (Z.of_nat (length ps)) in
    conversation ps cs ss = Ret ((fun p => (NT_STATUS_OK, pdu p)) <$> ps, set_seq n cs, set_seq n ss).
Proof.
  intros [Hc Hs (cr & cr1 & cr2 & d & w & cc & sc & Ecr & Ed & Ew & En & Ek & Ef & Eks & Eo & Ei) Ea Mc Ms] Hps.
  unfold schannel_client_start, schannel_server_start, schannel_start. cbn [negb].
  do 6 eexists. split; [reflexivity|]. split; [reflexivity|].
  unfold schannel_update. cbn [private_data set_private_data role credentials]. rewrite Hc, Hs. split.
  { unfold client_update. cbn [state set_private_data credentials]. rewrite Ecr. cbn [obind]. rewrite Ed. cbn [obind]. rewrite Ew. cbn [obind].
    rewrite Eo. cbn [obind]. reflexivity. }
  split.
  { unfold server_update. cbn [state default id blob_length]. rewrite Ei. cbn [obind names_of_bind u bind_type Z.eqb Pos.eqb]. rewrite Ef. cbn [obind].
    rewrite Ea. cbn [obind]. reflexivity. }
  unfold put. cbn [private_data set_private_data set_credentials role]. split; [intros m; by rewrite Hc|]. split; [intros m b; by rewrite Hs|].
  split; [reflexivity|]. split; [reflexivity|]. cbn zeta.
  rewrite En. cbn [talloc_reference]. rewrite Mc, Ms.
  destruct (conversation_ok k ps (set_state SCHANNEL_STATE_UPDATE_1 (set_creds (To cc) (SchannelState SCHANNEL_STATE_START 0 true Wild)))
              (set_state SCHANNEL_STATE_UPDATE_1 (set_creds (To sc) (SchannelState SCHANNEL_STATE_START 0 false Wild)))) as (n & -> & ->); [|done|done|].
  - split_and!; cbn; congruence.
  - done.
Qed.
End session.

End host.

(** ** Examples *)

#[local] Instance little_endian : Host := false.
#[local] Open Scope ndr_scope.

(** Generated code for strings that are not null. *)
Definition push_str (A : Allocator) (s : cstr) : M ndr_push unit :=
  match s with Str l => ndr_push_uint32 A (Z.of_nat (length l));; ndr_push_bytes A l | _ => bad NT_STATUS_INVALID_PARAMETER end.
Definition pull_str : M ndr_pull cstr := do n <- ndr_pull_uint32; do l <- ndr_pull_bytes n; ret (Str l).
#[local] Instance example_ndr : SchannelNdr := {|
  ndr_push_schannel_bind := fun A b _ =>
    ndr_push_uint32 A (unknown1 b);; ndr_push_uint32 A (bind_type b);;
    match u b with info3 d w => push_str A d;; push_str A w | info23 d w _ _ => push_str A d;; push_str A w end;
  ndr_pull_schannel_bind := fun _ _ =>
    do n <- ndr_pull_uint32; do t <- ndr_pull_uint32; do d <- pull_str; do w <- pull_str; ret (Bind n t (info3 d w));
  ndr_push_schannel_bind_ack := fun A a _ =>
    ndr_push_uint32 A (ack_unknown1 a);; ndr_push_uint32 A (ack_unknown2 a);; ndr_push_uint32 A (ack_unknown3 a)
|}.

Definition example_creds : creds_CredentialState := Credentials.Creds 0 (Z.of_nat <$> seq 1 16) 0 [] [] [].
Definition example_names : cli_credentials :=
  upd Domain (Slot CRED_SPECIFIED (Str [68]) 0) (upd Workstation (Slot CRED_SPECIFIED (Str [87; 49]) 0) cli_credentials_init).
Definition example_context (r : gensec_role) : @gensec_context schannel_state unit :=
  GensecContext Wild (To example_names) (GensecTarget None None None) r false 0 None None.
Definition example_packets : list packet :=
  [Packet true false [1; 2; 3] 0 3 calloc (replicate 8 7); Packet false true [4; 5; 6; 7] 1 2 calloc (replicate 8 9)].

Lemma schannel_session_delivers_witness :
  exists cs ss, conversation example_packets cs ss =
    Ret ([(NT_STATUS_OK, [1; 2; 3]); (NT_STATUS_OK, [4; 5; 6; 7])], set_seq 2 cs, set_seq 2 ss).
Proof.
  destruct (schannel_session_delivers (fun _ c => Ret (c, Null)) Ret (To example_creds)
              (fun w _ => match w with Str [87; 49] => Ret (Good example_creds) | _ => Ret (Bad NT_STATUS_INVALID_PARAMETER) end)
              (example_context GENSEC_CLIENT) (example_context GENSEC_SERVER) (fun _ => calloc) (fun _ => calloc) (Z.of_nat <$> seq 1 16)
              ([0; 0; 0; 0; 3; 0; 0; 0; 1; 0; 0; 0; 68; 0; 0; 0; 2; 0; 0; 0; 87; 49]) [1; 0; 0; 0; 0; 0; 0; 0; 0; 0; 0x6c; 0]
              example_packets) as (c1 & s1 & c2 & s2 & cs & ss & _ & _ & _ & _ & _ & _ & _ & _ & E).
  - split; try done. exists example_names, example_names, example_names, (Str [68]), (Str [87; 49]), example_creds, example_creds.
    split_and!; try reflexivity; vm_compute; reflexivity.
  - repeat constructor; cbn; lia.
  - exists cs, ss. exact E.
Defined.

Definition example_end (init : bool) (n : Z) : schannel_state := SchannelState SCHANNEL_STATE_UPDATE_1 n init (To example_creds).

