(* ===== verification/SmbSigning.v ===== *)
(** libcli/raw/smb_signing.c and smb_server/smb/signing.c: the signatures of SMB packets at
    the client and at the server, and when they are required. *)

From stdpp Require Import strings relations.
From S2P Require Import Prelude Digest Byteorder Ntstatus Md5 NtlmsspSign.
Import Byteorder.

#[local] Open Scope outcome_scope.

Module SmbSigning.

Definition NBT_HDR_SIZE : nat := 4.
Definition HDR_FLG2 : nat := 10.
Definition HDR_SS_FIELD : nat := 14.
Definition FLAGS2_SMB_SECURITY_SIGNATURES : Z := 0x0004.
Definition NEGOTIATE_SECURITY_SIGNATURES_ENABLED : Z := 0x04.
Definition NEGOTIATE_SECURITY_SIGNATURES_REQUIRED : Z := 0x08.

Inductive smb_signing_engine_state := SMB_SIGNING_ENGINE_OFF | SMB_SIGNING_ENGINE_BSRSPYL | SMB_SIGNING_ENGINE_ON.
Inductive smb_signing_state := SMB_SIGNING_OFF | SMB_SIGNING_SUPPORTED | SMB_SIGNING_REQUIRED | SMB_SIGNING_AUTO.

Record smb_signing_context := Signing {
  signing_state : smb_signing_engine_state;
  mac_key : list Z;
  next_seq_num : Z;
  allow_smb_signing : bool;
  doing_signing : bool;
  mandatory_signing : bool;
  seen_valid : bool
}.

Definition set_engine (e : smb_signing_engine_state) (s : smb_signing_context) : smb_signing_context :=
  Signing e (mac_key s) (next_seq_num s) (allow_smb_signing s) (doing_signing s) (mandatory_signing s) (seen_valid s).
Definition set_mac_key (k : list Z) (s : smb_signing_context) : smb_signing_context :=
  Signing (signing_state s) k (next_seq_num s) (allow_smb_signing s) (doing_signing s) (mandatory_signing s) (seen_valid s).
Definition set_next_seq (n : Z) (s : smb_signing_context) : smb_signing_context :=
  Signing (signing_state s) (mac_key s) n (allow_smb_signing s) (doing_signing s) (mandatory_signing s) (seen_valid s).
Definition set_allow (b : bool) (s : smb_signing_context) : smb_signing_context :=
  Signing (signing_state s) (mac_key s) (next_seq_num s) b (doing_signing s) (mandatory_signing s) (seen_valid s).
Definition set_doing (b : bool) (s : smb_signing_context) : smb_signing_context :=
  Signing (signing_state s) (mac_key s) (next_seq_num s) (allow_smb_signing s) b (mandatory_signing s) (seen_valid s).
Definition set_mandatory (b : bool) (s : smb_signing_context) : smb_signing_context :=
  Signing (signing_state s) (mac_key s) (next_seq_num s) (allow_smb_signing s) (doing_signing s) b (seen_valid s).
Definition set_seen (b : bool) (s : smb_signing_context) : smb_signing_context :=
  Signing (signing_state s) (mac_key s) (next_seq_num s) (allow_smb_signing s) (doing_signing s) (mandatory_signing s) b.

(** A request buffer by its [size] bytes: the header of NetBIOS, which is not signed, and then
    the packet at [hdr]. *)
Abbreviation request_buffer := (list Z).

(** The fields of struct smbcli_negotiate that signing uses. *)
Record smbcli_negotiate := Negotiate {
  sec_mode : Z;
  sign_info : smb_signing_context;
  readbraw_supported : bool;
  writebraw_supported : bool
}.
Definition set_sign_info (s : smb_signing_context) (n : smbcli_negotiate) : smbcli_negotiate :=
  Negotiate (sec_mode n) s (readbraw_supported n) (writebraw_supported n).

Section host.
Context `{Host}.

(** ** Turning signing on and off *)

Definition set_smb_signing_common (s : smb_signing_context) : bool := negb (doing_signing s) && allow_smb_signing s.

Definition smbcli_set_smb_signing_common (t : smbcli_negotiate) : bool * smbcli_negotiate :=
  if negb (set_smb_signing_common (sign_info t)) then (false, t)
  else if Z.land (sec_mode t) (Z.lor NEGOTIATE_SECURITY_SIGNATURES_REQUIRED NEGOTIATE_SECURITY_SIGNATURES_ENABLED) =? 0 then (false, t)
  else (true, Negotiate (sec_mode t) (sign_info t) false false).

Definition smbcli_set_signing_off (s : smb_signing_context) : smb_signing_context :=
  set_engine SMB_SIGNING_ENGINE_OFF (set_mac_key [] (set_next_seq 0 (set_doing false s))).

Definition smbcli_temp_set_signing (t : smbcli_negotiate) : bool * smbcli_negotiate :=
  let '(ok, t) := smbcli_set_smb_signing_common t in
  if negb ok then (false, t)
  else (true, set_sign_info (set_engine SMB_SIGNING_ENGINE_BSRSPYL (set_mac_key [] (smbcli_set_signing_off (sign_info t)))) t).

(** Without memory for it the key is copied through a null pointer. *)
Definition smbcli_simple_set_signing (mem : bool) (s : smb_signing_context) (user_session_key response : list Z) : outcome smb_signing_context :=
  let key := user_session_key ++ response in
  if negb mem && negb (length key =? 0)%nat then Fault
  else Ret (set_engine SMB_SIGNING_ENGINE_ON (set_next_seq 0 (set_mac_key key s))).

Definition smbcli_transport_simple_set_signing (mem : bool) (t : smbcli_negotiate) (user_session_key response : list Z) :
    outcome (bool * smbcli_negotiate) :=
  let '(ok, t) := smbcli_set_smb_signing_common t in
  if negb ok then Ret (false, t)
  else let* s := smbcli_simple_set_signing mem (sign_info t) user_session_key response in Ret (true, set_sign_info s t).

Definition smbcli_init_signing (lp_client_signing : smb_signing_state) (t : smbcli_negotiate) : smbcli_negotiate :=
  let s := smbcli_set_signing_off (set_mac_key [] (sign_info t)) in
  set_sign_info
    (match lp_client_signing with
     | SMB_SIGNING_OFF => set_allow false s
     | SMB_SIGNING_SUPPORTED | SMB_SIGNING_AUTO => set_allow true s
     | SMB_SIGNING_REQUIRED => set_mandatory true (set_allow true s)
     end) t.

(** ** Packets *)

(** What lies before the end of the signature must be in the buffer. *)
Definition has_field (out : request_buffer) : bool := (NBT_HDR_SIZE + HDR_SS_FIELD + 8 <=? length out)%nat.

Definition mark_packet_signed (out : request_buffer) : request_buffer :=
  let flags2 := SVAL out (NBT_HDR_SIZE + HDR_FLG2) in
  SSVAL out (NBT_HDR_SIZE + HDR_FLG2) (Z.lor flags2 FLAGS2_SMB_SECURITY_SIGNATURES).

(** The answer, and the context after it. *)
Definition signing_good (s : smb_signing_context) (good : bool) : bool * smb_signing_context :=
  if good then
    let s := if negb (doing_signing s) then set_doing true s else s in
    let s := if negb (seen_valid s) then set_seen true s else s in
    (true, s)
  else if negb (seen_valid s) then (true, smbcli_set_signing_off s)
  else (false, s).

Definition sign_outgoing_message (out : request_buffer) (key : list Z) (seq_num : Z) : outcome request_buffer :=
  if negb (has_field out) then Fault
  else
    let ss := (NBT_HDR_SIZE + HDR_SS_FIELD)%nat in
    let out := SIVAL out ss seq_num in
    let out := SIVAL out (ss + 4) 0 in
    let out := mark_packet_signed out in
    let md5_ctx := Md5.MD5Update Md5.MD5Init key in
    let md5_ctx := Md5.MD5Update md5_ctx (drop NBT_HDR_SIZE out) in
    let calc_md5_mac := fst (Md5.MD5Final md5_ctx) in
    Ret (splice ss (take 8 calc_md5_mac) out).

(** The range of sequence numbers that is tried is the one number. *)
Definition check_signed_incoming_message (inp : request_buffer) (key : list Z) (seq_num : Z) : bool :=
  if negb (has_field inp) then false
  else if (length key =? 0)%nat then false
  else
    let hdr := drop NBT_HDR_SIZE inp in
    let sequence_buf := SIVAL (SIVAL (replicate 8 0) 0 seq_num) 4 0 in
    let server_sent_mac := slice HDR_SS_FIELD 8 hdr in
    let md5_ctx := Md5.MD5Update Md5.MD5Init key in
    let md5_ctx := Md5.MD5Update md5_ctx (take HDR_SS_FIELD hdr) in
    let md5_ctx := Md5.MD5Update md5_ctx sequence_buf in
    let md5_ctx := Md5.MD5Update md5_ctx (drop (HDR_SS_FIELD + 8) hdr) in
    let calc_md5_mac := fst (Md5.MD5Final md5_ctx) in
    bool_decide (server_sent_mac = take 8 calc_md5_mac).

(** ** The client's requests *)

Record smbcli_request := Request { seq_num : Z; sign_single_increment : bool; out : request_buffer }.

Definition smbcli_req_allocate_seq_num (r : smbcli_request) (s : smb_signing_context) : smbcli_request * smb_signing_context :=
  (Request (next_seq_num s) (sign_single_increment r) (out r),
   set_next_seq (u32 (next_seq_num s + (if sign_single_increment r then 1 else 2))) s).

(** BSRSPYL and a blank. *)
Definition bsrspyl : list Z := NtlmsspSign.str "BSRSPYL ".
Definition sign_bsrspyl (out : request_buffer) : outcome request_buffer :=
  if negb (has_field out) then Fault else Ret (splice (NBT_HDR_SIZE + HDR_SS_FIELD) bsrspyl (mark_packet_signed out)).

Definition smbcli_request_calculate_sign_mac (r : smbcli_request) (s : smb_signing_context) : outcome (smbcli_request * smb_signing_context) :=
  match signing_state s with
  | SMB_SIGNING_ENGINE_OFF => Ret (r, s)
  | SMB_SIGNING_ENGINE_BSRSPYL =>
      let* o := sign_bsrspyl (out r) in Ret (Request (seq_num r) (sign_single_increment r) o, s)
  | SMB_SIGNING_ENGINE_ON =>
      let '(r, s) := smbcli_req_allocate_seq_num r s in
      let* o := sign_outgoing_message (out r) (mac_key s) (seq_num r) in
      Ret (Request (seq_num r) (sign_single_increment r) o, s)
  end.

(** [inp] is the reply to the request. *)
Definition smbcli_request_check_sign_mac (r : smbcli_request) (inp : request_buffer) (s : smb_signing_context) : bool * smb_signing_context :=
  match signing_state s with
  | SMB_SIGNING_ENGINE_OFF => (true, s)
  | SMB_SIGNING_ENGINE_BSRSPYL | SMB_SIGNING_ENGINE_ON =>
      if (length inp <? HDR_SS_FIELD + 8)%nat then (false, s)
      else signing_good s (check_signed_incoming_message inp (mac_key s) (u32 (seq_num r + 1)))
  end.

(** ** The server *)

(** [seq] is the number of the request that is answered. *)
Definition smbsrv_sign_packet (seq : Z) (out : request_buffer) (s : smb_signing_context) : outcome request_buffer :=
  match signing_state s with
  | SMB_SIGNING_ENGINE_OFF => Ret out
  | SMB_SIGNING_ENGINE_BSRSPYL => sign_bsrspyl out
  | SMB_SIGNING_ENGINE_ON => sign_outgoing_message out (mac_key s) (u32 (seq + 1))
  end.

Definition smbsrv_setup_signing (mem : bool) (s : smb_signing_context) (session_key response : list Z) : outcome (bool * smb_signing_context) :=
  if negb (set_smb_signing_common s) then Ret (false, s)
  else let* s := smbcli_simple_set_signing mem s session_key response in Ret (true, s).

Definition smbsrv_signing_restart (mem : bool) (s : smb_signing_context) (session_key response : list Z) : outcome smb_signing_context :=
  if negb (seen_valid s) then
    let* (_, s) := smbsrv_setup_signing mem s session_key response in
    let s := set_next_seq 2 s in
    Ret (if mandatory_signing s then set_seen true s else s)
  else Ret s.

Definition smbsrv_init_signing (lp_server_signing : smb_signing_state) (lp_domain_logons : bool) (s : smb_signing_context) : smb_signing_context :=
  let s := smbcli_set_signing_off (set_mac_key [] s) in
  match lp_server_signing with
  | SMB_SIGNING_OFF => set_allow false s
  | SMB_SIGNING_SUPPORTED => set_allow true s
  | SMB_SIGNING_REQUIRED => set_mandatory true (set_allow true s)
  | SMB_SIGNING_AUTO => set_allow lp_domain_logons s
  end.

Definition is_off (s : smb_signing_context) : bool := match signing_state s with SMB_SIGNING_ENGINE_OFF => true | _ => false end.

Definition req_signing_alloc_seq_num (s : smb_signing_context) : Z * smb_signing_context :=
  (next_seq_num s, if negb (is_off s) then set_next_seq (u32 (next_seq_num s + 2)) s else s).

Definition smbsrv_signing_no_reply (s : smb_signing_context) : smb_signing_context :=
  if negb (is_off s) then set_next_seq (u32 (next_seq_num s - 1)) s else s.

(** The answer, the number of the request, and the context. *)
Definition smbsrv_signing_check_incoming (inp : request_buffer) (s : smb_signing_context) : bool * Z * smb_signing_context :=
  let '(seq, s) := req_signing_alloc_seq_num s in
  match signing_state s with
  | SMB_SIGNING_ENGINE_OFF => (true, seq, s)
  | SMB_SIGNING_ENGINE_BSRSPYL | SMB_SIGNING_ENGINE_ON =>
      if (length inp <? HDR_SS_FIELD + 8)%nat then (false, seq, s)
      else let '(ok, s) := signing_good s (check_signed_incoming_message inp (mac_key s) (u32 seq)) in (ok, seq, s)
  end.
End host.
End SmbSigning.
Import SmbSigning.

(** ** What is signed *)

Section mac.
Context `{Host}.

Lemma md5_chunks chunks : bytes (concat chunks) ->
  fst (Md5.MD5Final (fold_left Md5.MD5Update chunks Md5.MD5Init)) = md_hash md5_spec (concat chunks).
Proof. intros Hb. apply MD5Final_correct; [done|]. apply (md5_updates _ []); [apply md5_init_rel|done]. Qed.

Lemma fold_left_four {A B} (f : A -> B -> A) x k a b c : fold_left f [k; a; b; c] x = f (f (f (f x k) a) b) c.
Proof. done. Qed.
Lemma concat_four {A} (k a b c : list A) : concat [k; a; b; c] = k ++ a ++ b ++ c.
Proof. cbn. by rewrite app_nil_r. Qed.
Lemma md5_four k a b c : bytes (k ++ a ++ b ++ c) ->
  fst (Md5.MD5Final (Md5.MD5Update (Md5.MD5Update (Md5.MD5Update (Md5.MD5Update Md5.MD5Init k) a) b) c)) = md_hash md5_spec (k ++ a ++ b ++ c).
Proof. intros Hb. rewrite <- fold_left_four, md5_chunks; by rewrite concat_four. Qed.

(** The first eight bytes of the digest of the key and the packet with the number in the place
    of the signature. *)
Definition mac (key : list Z) (n : Z) (pkt : request_buffer) : list Z :=
  take 8 (md_hash md5_spec (key ++ slice 4 14 pkt ++ le 4 n ++ le 4 0 ++ drop 26 pkt)).

(** A packet by its parts: up to the second flags, the flags, up to the signature, the signature
    and what follows. *)
Lemma packet_parts (pkt : request_buffer) : has_field pkt = true ->
  exists a f b m rest, pkt = a ++ f ++ b ++ m ++ rest /\ length a = 14%nat /\ length f = 2%nat /\ length b = 2%nat /\ length m = 8%nat.
Proof.
  unfold has_field, NBT_HDR_SIZE, HDR_SS_FIELD. rewrite Nat.leb_le. intros Hl.
  exists (take 14 pkt), (slice 14 2 pkt), (slice 16 2 pkt), (slice 18 8 pkt), (drop 26 pkt).
  rewrite !length_slice, length_take by lia. split_and!; try lia.
  unfold slice. rewrite <- (take_drop 14 pkt) at 1. f_equal. rewrite <- (take_drop 2 (drop 14 pkt)) at 1. f_equal. rewrite drop_drop.
  rewrite <- (take_drop 2 (drop (14 + 2) pkt)) at 1. f_equal. rewrite drop_drop. rewrite <- (take_drop 8 (drop _ pkt)) at 1. f_equal. by rewrite drop_drop.
Qed.

Lemma splice_parts {A} (a b new rest : list A) n : length a = n -> length b = length new -> splice n new (a ++ b ++ rest) = a ++ new ++ rest.
Proof. intros <- Hl. rewrite splice_app by done. by rewrite <- Hl, drop_app_length. Qed.

Definition signed_flags (f : list Z) : list Z := le 2 (Z.lor (of_le f) FLAGS2_SMB_SECURITY_SIGNATURES).

Lemma mark_parts a f rest : length a = 14%nat -> length f = 2%nat -> mark_packet_signed (a ++ f ++ rest) = a ++ signed_flags f ++ rest.
Proof.
  intros Ha Hf. unfold mark_packet_signed, NBT_HDR_SIZE, HDR_FLG2. cbn [Nat.add].
  rewrite SSVAL_splice by (rewrite !length_app; lia). rewrite SVAL_slice by (rewrite !length_app; lia).
  rewrite (slice_at a) by done. by rewrite (splice_parts a f) by (done || by rewrite length_le).
Qed.

Lemma mac_parts key n a f b m rest :
  length a = 14%nat -> length f = 2%nat -> length b = 2%nat -> length m = 8%nat ->
  mac key n (a ++ f ++ b ++ m ++ rest) = take 8 (md_hash md5_spec (key ++ drop 4 a ++ f ++ b ++ le 4 n ++ le 4 0 ++ rest)).
Proof.
  intros Ha Hf Hb Hm. unfold mac. do 2 f_equal. unfold slice.
  assert (take 14 (drop 4 (a ++ f ++ b ++ m ++ rest)) = drop 4 a ++ f ++ b) as ->.
  { rewrite drop_app_le by lia. rewrite (app_assoc f), (app_assoc (drop 4 a)). rewrite take_app_length'; [done|]. rewrite !length_app, length_drop. lia. }
  assert (drop 26 (a ++ f ++ b ++ m ++ rest) = rest) as ->.
  { rewrite !app_assoc, drop_app_length'; [done|]. rewrite !length_app. lia. }
  by rewrite <- !app_assoc.
Qed.

(** What signing makes of a packet: it is marked, and carries its signature. *)
Definition signed (key : list Z) (n : Z) (pkt : request_buffer) : request_buffer :=
  splice 18 (mac key n (mark_packet_signed pkt)) (mark_packet_signed pkt).

Lemma md5_length m : length (md_hash md5_spec m) = 16%nat.
Proof. apply regs_le_length. Qed.
Lemma mac_length key n pkt : length (mac key n pkt) = 8%nat.
Proof. unfold mac. rewrite length_take, md5_length. done. Qed.

Lemma sign_outgoing_spec pkt key n :
  has_field pkt = true -> bytes pkt -> bytes key -> sign_outgoing_message pkt key n = Ret (signed key n pkt).
Proof.
  intros Hf Hb Hk. unfold sign_outgoing_message, signed. rewrite Hf. cbn [negb]. unfold NBT_HDR_SIZE, HDR_SS_FIELD. cbn [Nat.add].
  destruct (packet_parts pkt Hf) as (a & f & b & m & rest & -> & Ha & Hl & Hlb & Hm). rewrite (mark_parts a f) by done.
  apply Forall_app in Hb as [Hba [Hbf [Hbb [Hbm Hbr]%Forall_app]%Forall_app]%Forall_app].
  assert (SIVAL (SIVAL (a ++ f ++ b ++ m ++ rest) 18 n) 22 0 = a ++ f ++ b ++ (le 4 n ++ le 4 0) ++ rest) as ->.
  { rewrite (SIVAL_splice (_ ++ _)) by (rewrite !length_app; lia). rewrite SIVAL_splice by (rewrite length_splice; rewrite ?length_le, !length_app; lia).
    rewrite splice_splice by (rewrite ?length_app, ?length_le; lia). rewrite (app_assoc f), (app_assoc a).
    rewrite splice_parts by (rewrite ?length_app, ?length_le; lia). by rewrite <- !app_assoc. }
  rewrite (mark_parts a f) by done. f_equal.
  pose proof (md5_chunks [key; drop 4 (a ++ signed_flags f ++ b ++ (le 4 n ++ le 4 0) ++ rest)]) as E. cbn [fold_left] in E.
  rewrite E. 2:{ cbn [concat]. rewrite app_nil_r. repeat (apply Forall_app; split); try done; try apply le_bytes.
    apply Forall_drop. repeat (apply Forall_app; split); try done; apply le_bytes. }
  cbn [concat]. rewrite app_nil_r, drop_app_le by lia. assert (length (signed_flags f) = 2%nat) as Hsf by apply length_le.
  rewrite mac_parts by done. rewrite <- !app_assoc. set (h := md_hash _ _).
  assert (length (take 8 h) = 8%nat) as Hh by (rewrite length_take; unfold h; rewrite md5_length; done).
  rewrite !(app_assoc (signed_flags f)), !(app_assoc a). rewrite (app_assoc (le 4 n)).
  rewrite !splice_parts by (rewrite ?length_app, ?length_le; lia). done.
Qed.

Lemma check_spec pkt key n : bytes pkt -> bytes key ->
  check_signed_incoming_message pkt key n = has_field pkt && negb (length key =? 0)%nat && bool_decide (slice 18 8 pkt = mac key n pkt).
Proof.
  intros Hb Hk. unfold check_signed_incoming_message. destruct (has_field pkt) eqn:Hf; [|done]. destruct (length key =? 0)%nat; [done|]. cbn [negb andb].
  unfold NBT_HDR_SIZE, HDR_SS_FIELD, mac. cbn [Nat.add].
  assert (SIVAL (SIVAL (replicate 8 0) 0 n) 4 0 = le 4 n ++ le 4 0) as ->.
  { rewrite (SIVAL_splice (replicate 8 0)) by (cbn; lia). rewrite SIVAL_splice by (rewrite length_splice; rewrite ?length_le; cbn; lia).
    rewrite splice_splice by (rewrite ?length_le; cbn; lia). apply splice_full. rewrite length_app, !length_le. done. }
  rewrite md5_four by (repeat (apply Forall_app; split); try apply le_bytes; try done; by repeat (apply Forall_take || apply Forall_drop)).
  rewrite <- app_assoc. unfold slice. by rewrite !drop_drop.
Qed.

Lemma signed_parts key n a f b m rest :
  length a = 14%nat -> length f = 2%nat -> length b = 2%nat -> length m = 8%nat ->
  signed key n (a ++ f ++ b ++ m ++ rest) = a ++ signed_flags f ++ b ++ mac key n (a ++ signed_flags f ++ b ++ m ++ rest) ++ rest.
Proof.
  intros Ha Hf Hb Hm. unfold signed. rewrite (mark_parts a f) by done. set (c := mac _ _ _). assert (length c = 8%nat) as Hc by apply mac_length.
  assert (length (signed_flags f) = 2%nat) as Hsf by apply length_le.
  rewrite !(app_assoc (signed_flags f)), !(app_assoc a). rewrite splice_parts by (rewrite ?length_app; lia). done.
Qed.

Lemma mac_bytes key n pkt : bytes (mac key n pkt).
Proof. apply Forall_take, regs_le_bytes. Qed.

(** A packet that was signed is one of its length that passes the check at its number. *)
Lemma signed_ok pkt key n :
  has_field pkt = true -> bytes pkt -> bytes key -> key <> [] ->
  length (signed key n pkt) = length pkt /\ bytes (signed key n pkt) /\ check_signed_incoming_message (signed key n pkt) key n = true.
Proof.
  intros Hf Hb Hk Hne. pose proof Hf as Hlen. unfold has_field, NBT_HDR_SIZE, HDR_SS_FIELD in Hlen. apply Nat.leb_le in Hlen.
  destruct (packet_parts pkt Hf) as (a & f & b & m & rest & -> & Ha & Hl & Hlb & Hm). rewrite signed_parts by done.
  assert (length (signed_flags f) = 2%nat) as Hsf by apply length_le. set (c := mac _ _ _). assert (length c = 8%nat) as Hc by apply mac_length.
  apply Forall_app in Hb as [Hba [Hbf [Hbb [Hbm Hbr]%Forall_app]%Forall_app]%Forall_app].
  assert (bytes (a ++ signed_flags f ++ b ++ c ++ rest)) as Hbytes.
  { repeat (apply Forall_app; split); try done; [apply le_bytes|]. apply mac_bytes. }
  split_and!; [rewrite !length_app; lia|done|]. rewrite check_spec by done.
  assert (has_field (a ++ signed_flags f ++ b ++ c ++ rest) = true) as ->.
  { unfold has_field, NBT_HDR_SIZE, HDR_SS_FIELD. apply Nat.leb_le. rewrite !length_app in *. lia. }
  destruct key as [|x key]; [done|]. cbn [length Nat.eqb negb andb]. apply bool_decide_eq_true_2.
  rewrite mac_parts by done. unfold c. rewrite mac_parts by done.
  rewrite !(app_assoc (signed_flags f)), !(app_assoc a). apply slice_at; [rewrite !length_app; lia|]. by rewrite length_take, md5_length.
Qed.
End mac.

(** ** A session *)

Section session.
Context `{Host} (key : list Z).

(** The two ends, the requests on their way in order, the ones the server works on with their
    numbers there, the replies on their way, and whether an end has refused a packet. *)
Record system := System {
  client : smb_signing_context;
  server : smb_signing_context;
  requests : list smbcli_request;
  waiting : list (Z * smbcli_request);
  replies : list (smbcli_request * request_buffer);
  refused : bool
}.

Definition sendable (b : request_buffer) : Prop := has_field b = true /\ bytes b.

(** Requests arrive in order, and may be answered and the answers taken in any order; one that
    has no reply is a cancellation. *)
Inductive step (w : system) : system -> Prop :=
| Send r r' c :
    sendable (out r) -> smbcli_request_calculate_sign_mac r (client w) = Ret (r', c) ->
    step w (System c (server w) (requests w ++ [r']) (waiting w) (replies w) (refused w))
| Receive r rest ok n s :
    requests w = r :: rest -> smbsrv_signing_check_incoming (out r) (server w) = (ok, n, s) ->
    step w (System (client w) (if sign_single_increment r then smbsrv_signing_no_reply s else s) rest
              (if sign_single_increment r then waiting w else waiting w ++ [(n, r)]) (replies w) (refused w || negb ok))
| Reply l n r l' b b' :
    waiting w = l ++ (n, r) :: l' -> sendable b -> smbsrv_sign_packet n b (server w) = Ret b' ->
    step w (System (client w) (server w) (requests w) (l ++ l') (replies w ++ [(r, b')]) (refused w))
| Take l r b l' ok c :
    replies w = l ++ (r, b) :: l' -> smbcli_request_check_sign_mac r b (client w) = (ok, c) ->
    step w (System c (server w) (requests w) (waiting w) (l ++ l') (refused w || negb ok)).

(** The numbers of requests that follow each other from [n] to [n']. *)
Fixpoint numbered (n : Z) (rs : list smbcli_request) (n' : Z) : Prop :=
  match rs with
  | [] => n = n'
  | r :: rs => seq_num r = n /\ numbered (u32 (n + (if sign_single_increment r then 1 else 2))) rs n'
  end.

Definition good_request (r : smbcli_request) : Prop := is_u32 (seq_num r) /\ check_signed_incoming_message (out r) key (seq_num r) = true.

Definition signing_on (s : smb_signing_context) : Prop := signing_state s = SMB_SIGNING_ENGINE_ON /\ mac_key s = key /\ is_u32 (next_seq_num s).

Record in_step (w : system) : Prop := InStep {
  client_on : signing_on (client w);
  server_on : signing_on (server w);
  not_refused : refused w = false;
  in_order : numbered (next_seq_num (server w)) (requests w) (next_seq_num (client w));
  good_requests : Forall good_request (requests w);
  good_waiting : Forall (fun p => p.1 = seq_num p.2) (waiting w);
  good_replies : Forall (fun p => check_signed_incoming_message p.2 key (u32 (seq_num p.1 + 1)) = true) (replies w)
}.

Lemma numbered_app n rs r n' :
  numbered n rs n' -> seq_num r = n' -> numbered n (rs ++ [r]) (u32 (n' + (if sign_single_increment r then 1 else 2))).
Proof. revert n. induction rs as [|q rs IH]; intros n; cbn; [by intros -> ->|]. intros [? ?] ?. split; [done|]. by apply IH. Qed.

Lemma check_long pkt n : check_signed_incoming_message pkt key n = true -> (length pkt <? HDR_SS_FIELD + 8)%nat = false.
Proof.
  unfold check_signed_incoming_message. destruct (has_field pkt) eqn:E; [|done]. intros _. unfold has_field, NBT_HDR_SIZE, HDR_SS_FIELD in *.
  apply Nat.leb_le in E. apply Nat.ltb_ge. lia.
Qed.

Lemma signing_good_on s : signing_on s -> exists s', signing_good s true = (true, s') /\ signing_on s' /\ next_seq_num s' = next_seq_num s.
Proof. intros (He & Hk & Hn). unfold signing_good. destruct s as [e k n a d m v]. cbn in *. destruct d, v; eexists; (split; [reflexivity|]); by cbn. Qed.

Hypothesis Hkey : bytes key.
Hypothesis Hne : key <> [].

Lemma client_signs r s : signing_on s -> sendable (out r) ->
  exists r' s', smbcli_request_calculate_sign_mac r s = Ret (r', s') /\ signing_on s' /\ good_request r' /\ seq_num r' = next_seq_num s /\
    sign_single_increment r' = sign_single_increment r /\ next_seq_num s' = u32 (next_seq_num s + (if sign_single_increment r then 1 else 2)).
Proof.
  intros (He & Hk & Hn) [Hf Hb]. unfold smbcli_request_calculate_sign_mac, smbcli_req_allocate_seq_num. rewrite He. cbn [mac_key set_next_seq seq_num out sign_single_increment].
  rewrite Hk, sign_outgoing_spec by done. cbn [obind]. eexists _, _. split; [reflexivity|]. cbn. split; [split_and!; try done; apply u32_range|].
  split; [|done]. split; [done|]. by apply signed_ok.
Qed.

Lemma server_signs n b s : signing_on s -> sendable b ->
  exists b', smbsrv_sign_packet n b s = Ret b' /\ check_signed_incoming_message b' key (u32 (n + 1)) = true.
Proof.
  intros (He & Hk & _) [Hf Hb]. unfold smbsrv_sign_packet. rewrite He, Hk, sign_outgoing_spec by done. eexists. split; [done|]. by apply signed_ok.
Qed.

Lemma server_takes r s : signing_on s -> good_request r -> seq_num r = next_seq_num s ->
  exists s', smbsrv_signing_check_incoming (out r) s = (true, seq_num r, s') /\ signing_on s' /\ next_seq_num s' = u32 (next_seq_num s + 2).
Proof.
  intros (He & Hk & Hn) [Hu Hc] Hq. unfold smbsrv_signing_check_incoming, req_signing_alloc_seq_num, is_off. rewrite He. cbn [negb signing_state set_next_seq mac_key].
  rewrite He, Hk, (check_long _ _ Hc), <- Hq, (u32_id (seq_num r)), Hc by done.
  destruct (signing_good_on (set_next_seq (u32 (seq_num r + 2)) s)) as (s' & E & Hs & Hn'); [split_and!; [done|done|apply u32_range]|].
  rewrite E. by exists s'.
Qed.

Lemma client_takes r b s : signing_on s -> check_signed_incoming_message b key (u32 (seq_num r + 1)) = true ->
  exists s', smbcli_request_check_sign_mac r b s = (true, s') /\ signing_on s' /\ next_seq_num s' = next_seq_num s.
Proof.
  intros Hs Hc. unfold smbcli_request_check_sign_mac. pose proof Hs as (He & Hk & Hn). rewrite He, (check_long _ _ Hc), Hk, Hc.
  by destruct (signing_good_on s Hs) as (s' & -> & ? & ?); exists s'.
Qed.

Lemma step_keeps w w' : in_step w -> step w w' -> in_step w'.
Proof.
  intros [Hc Hs Hr Hn Hrq Hwt Hrp] Hst. destruct Hst as [r r' c Hsend E|r rest ok n s Erq E|l n r l' b b' Ew Hsend E|l r b l' ok c Er E].
  - destruct (client_signs r _ Hc Hsend) as (r1 & s1 & E1 & Ho & Hg & Hq & Hsi & Hnx). rewrite E in E1. injection E1 as <- <-. split; cbn; try done.
    + rewrite Hnx, <- Hsi. by apply numbered_app.
    + apply Forall_app. split; [done|by constructor].
  - rewrite Erq in Hn, Hrq. cbn in Hn. destruct Hn as [Hq Hn]. apply Forall_cons_1 in Hrq as [Hg Hrq].
    destruct (server_takes r _ Hs Hg Hq) as (s1 & E1 & (He1 & Hk1 & Hu1) & Hnx). rewrite E in E1. injection E1 as -> -> ->.
    split; cbn; try done.
    + destruct (sign_single_increment r); [|done]. unfold smbsrv_signing_no_reply, is_off. rewrite He1. cbn. split_and!; [done|done|apply u32_range].
    + by rewrite Hr.
    + destruct (sign_single_increment r); [|by rewrite Hnx]. unfold smbsrv_signing_no_reply, is_off. rewrite He1. cbn. rewrite Hnx.
      replace (u32 (u32 (next_seq_num (server w) + 2) - 1)) with (u32 (next_seq_num (server w) + 1)); [done|]. unfold u32. rewrite Zminus_mod_idemp_l. f_equal. lia.
    + destruct (sign_single_increment r); [done|]. apply Forall_app. split; [done|by constructor].
  - rewrite Ew in Hwt. apply Forall_app in Hwt as [Hw1 [Hw Hw2]%Forall_cons_1]. cbn in Hw. subst n.
    destruct (server_signs (seq_num r) b _ Hs Hsend) as (b1 & E1 & Hb1). rewrite E in E1. injection E1 as <-.
    split; cbn; try done; [by apply Forall_app|]. apply Forall_app. split; [done|]. by constructor.
  - rewrite Er in Hrp. apply Forall_app in Hrp as [Hp1 [Hp Hp2]%Forall_cons_1]. cbn in Hp.
    destruct (client_takes r b _ Hc Hp) as (s1 & E1 & Ho & Hnx). rewrite E in E1. injection E1 as -> ->.
    split; cbn; try done; [by rewrite Hr|by rewrite Hnx|by apply Forall_app].
Qed.

Lemma reachable_in_step w w' : rtc step w w' -> in_step w -> in_step w'.
Proof. induction 1 as [|w w1 w2 Hst _ IH]; [done|]. intros Hi. apply IH. by eapply step_keeps. Qed.

End session.

(** C9: From where the client and the server set up signing with the same key: whatever requests are
    sent, answered and cancelled, and in whatever order the answers are given and taken, no packet is ever refused,
    every packet can be signed, and when no request is on its way both ends count the
    same next number. *)
Theorem smb_signing_in_step `{Host} mem mem' t s k response t' s' :
  smbcli_transport_simple_set_signing mem t k response = Ret (true, t') ->
  smbsrv_setup_signing mem' s k response = Ret (true, s') ->
  bytes (k ++ response) -> k ++ response <> [] ->
  forall w, rtc step (System (sign_info t') s' [] [] [] false) w ->
  refused w = false /\
  (forall r, sendable (out r) -> exists r' c, smbcli_request_calculate_sign_mac r (client w) = Ret (r', c)) /\
  (forall n b, sendable b -> exists b', smbsrv_sign_packet n b (server w) = Ret b') /\
  (requests w = [] -> next_seq_num (client w) = next_seq_num (server w)).
Proof.
  intros Et Es Hb Hne w Hw.
  assert (signing_on (k ++ response) (sign_info t')) as Ht.
  { unfold smbcli_transport_simple_set_signing, smbcli_simple_set_signing in Et. destruct (smbcli_set_smb_signing_common t) as [[|] t1]; [|done].
    cbn [negb] in Et. destruct (negb mem && _); [done|]. injection Et as <-. by split_and!. }
  assert (signing_on (k ++ response) s' /\ next_seq_num s' = 0) as [Hs Hn].
  { unfold smbsrv_setup_signing, smbcli_simple_set_signing in Es. destruct (set_smb_signing_common s); [|done].
    cbn [negb] in Es. destruct (negb mem' && _); [done|]. injection Es as <-. by split_and!. }
  assert (next_seq_num (sign_info t') = 0) as Hn'.
  { unfold smbcli_transport_simple_set_signing, smbcli_simple_set_signing in Et. destruct (smbcli_set_smb_signing_common t) as [[|] t1]; [|done].
    cbn [negb] in Et. destruct (negb mem && _); [done|]. by injection Et as <-. }
  destruct (reachable_in_step (k ++ response) Hb Hne _ _ Hw) as [Hc Hsv Hr Ho _ _ _].
  { split; cbn; try done. congruence. }
  split_and!; [done|intros r Hr'|intros n b Hb'|intros Erq; by rewrite Erq in Ho].
  - destruct (client_signs _ Hb Hne r _ Hc Hr') as (r' & c & E & _). by exists r', c.
  - destruct (server_signs _ Hb Hne n b _ Hsv Hb') as (b' & E & _). by exists b'.
Qed.

(** Packets one after the other at the client, each with the request it answers. *)
Fixpoint taken `{Host} (l : list (smbcli_request * request_buffer)) (s : smb_signing_context) : list bool * smb_signing_context :=
  match l with
  | [] => ([], s)
  | (r, b) :: l =>
      let '(ok, s) := smbcli_request_check_sign_mac r b s in
      let '(oks, s) := taken l s in (ok :: oks, s)
  end.

(** A packet that carries the signature of its number. *)
Definition valid `{Host} (key : list Z) (p : smbcli_request * request_buffer) : bool :=
  has_field p.2 && negb (length key =? 0)%nat && bool_decide (slice 18 8 p.2 = mac key (u32 (seq_num p.1 + 1)) p.2).

Lemma valid_check `{Host} r b s :
  signing_state s = SMB_SIGNING_ENGINE_ON -> bytes b -> bytes (mac_key s) ->
  smbcli_request_check_sign_mac r b s = if (length b <? 22)%nat then (false, s) else signing_good s (valid (mac_key s) (r, b)).
Proof. intros He Hb Hk. unfold smbcli_request_check_sign_mac. rewrite He, check_spec by done. done. Qed.

Lemma short_invalid `{Host} key r b : (length b <? 22)%nat = true -> valid key (r, b) = false.
Proof.
  intros Hl%Nat.ltb_lt. unfold valid. cbn [snd]. replace (has_field b) with false; [done|].
  symmetry. unfold has_field, NBT_HDR_SIZE, HDR_SS_FIELD. apply Nat.leb_gt. lia.
Qed.

(** C10: Once the client has seen a packet with a good signature, no packets at all turn signing off: of
    any that arrive it accepts exactly those with the signature of their number under the
    key, and nothing but doing_signing changes.  Before that, a packet with a wrong
    signature is accepted and turns signing off, also where signing is mandatory. *)
Theorem signing_stays_on `{Host} (s : smb_signing_context) l :
  signing_state s = SMB_SIGNING_ENGINE_ON -> bytes (mac_key s) -> Forall (fun p => bytes p.2) l ->
  (seen_valid s = true -> taken l s = (valid (mac_key s) <$> l, set_doing (doing_signing s || existsb (valid (mac_key s)) l) s)) /\
  (forall r b, seen_valid s = false -> bytes b -> (22 <= length b)%nat -> valid (mac_key s) (r, b) = false ->
     smbcli_request_check_sign_mac r b s = (true, smbcli_set_signing_off s)).
Proof.
  intros He Hk Hl. split.
  - revert s He Hk. induction l as [|[r b] l IH]; intros s He Hk Hv; cbn [taken fmap list_fmap existsb]; [rewrite orb_false_r; by destruct s|].
    apply Forall_cons_1 in Hl as [Hb Hl]. cbn in Hb. rewrite valid_check by done.
    assert ((if (length b <? 22)%nat then (false, s) else signing_good s (valid (mac_key s) (r, b))) =
            (valid (mac_key s) (r, b), set_doing (doing_signing s || valid (mac_key s) (r, b)) s)) as ->.
    { destruct (length b <? 22)%nat eqn:E; [rewrite short_invalid, orb_false_r by done; by destruct s|].
      unfold signing_good. destruct s as [e k n a d m v]. cbn in *. subst v. destruct (valid k (r, b)), d; done. }
    rewrite IH by done. cbn [mac_key set_doing doing_signing]. by rewrite orb_assoc.
  - intros r b Hv Hb Hlen Hi. rewrite valid_check by done. replace (length b <? 22)%nat with false by (symmetry; apply Nat.ltb_ge; lia).
    rewrite Hi. unfold signing_good. by rewrite Hv.
Qed.

(** ** Examples *)

#[local] Instance little_endian : Host := false.

Definition example_context : smb_signing_context := Signing SMB_SIGNING_ENGINE_OFF [] 0 true false true false.
Definition example_on (seen : bool) : smb_signing_context := Signing SMB_SIGNING_ENGINE_ON [1; 2; 3] 0 true true true seen.
Definition example_packet : request_buffer := replicate 30 1.
Definition example_signed : request_buffer := Eval vm_compute in signed [1; 2; 3] 0 example_packet.

Lemma smb_signing_in_step_witness :
  exists t' s' w,
    rtc step (System (sign_info t') s' [] [] [] false) w /\ waiting w = [(0, Request 0 false example_signed)] /\ refused w = false.
Proof.
  pose (t := Negotiate 0x0C example_context true true).
  pose (t' := Negotiate 0x0C (Signing SMB_SIGNING_ENGINE_ON [1; 2; 3] 0 true false true false) false false).
  pose (s' := Signing SMB_SIGNING_ENGINE_ON [1; 2; 3] 0 true false true false).
  pose (w := System (set_next_seq 2 s') (set_next_seq 2 (set_seen true (set_doing true s'))) [] [(0, Request 0 false example_signed)] [] false).
  assert (rtc step (System (sign_info t') s' [] [] [] false) w) as Hw.
  { apply rtc_l with (System (set_next_seq 2 s') s' [Request 0 false example_signed] [] [] false); [|apply rtc_once].
    - apply (Send (System s' s' [] [] [] false) (Request 9 false example_packet) (Request 0 false example_signed)); [split; by_eval|by vm_compute].
    - refine (Receive (System (set_next_seq 2 s') s' [Request 0 false example_signed] [] [] false) (Request 0 false example_signed) [] true 0 (set_next_seq 2 (set_seen true (set_doing true s'))) eq_refl _). by vm_compute. }
  exists t', s', w. split; [exact Hw|]. split; [done|].
  apply (smb_signing_in_step true true t example_context [1; 2] [3] t' s'); [by vm_compute|by vm_compute|by_eval|done|exact Hw].
Defined.

Lemma signing_stays_on_witness :
  taken [(Request 0 false [], replicate 30 7); (Request 0 false [], [])] (example_on true) = ([false; false], example_on true) /\
  smbcli_request_check_sign_mac (Request 0 false []) (replicate 30 7) (example_on false) = (true, smbcli_set_signing_off (example_on false)).
Proof.
  split.
  - destruct (signing_stays_on (example_on true) [(Request 0 false [], replicate 30 7); (Request 0 false [], [])]) as [H _]; [done|by_eval|by_eval|].
    etransitivity; [by apply H|]. by vm_compute.
  - destruct (signing_stays_on (example_on false) []) as [_ H]; [done|by_eval|by_eval|]. apply H; [done|by_eval|cbn; lia|by vm_compute].
Defined.
