(* ===== verification/NbtName.v ===== *)
(** libcli/nbt/nbtname.c: NetBIOS names on the wire, as labels with pointers to labels, and as
    WINS replication has them. *)

From stdpp Require Import strings.
From S2P Require Import Prelude Digest Byteorder Ntstatus Charcnv Unistr Ndr NdrPull NdrPush NtlmsspSign.
Import Byteorder Charcnv Unistr Ndr.
Import NtlmsspSign(str).

#[local] Open Scope outcome_scope.
#[local] Open Scope ndr_scope.

Module NbtName.

Definition MAX_COMPONENTS : nat := 10.
Definition NBT_NAME_CLIENT : Z := 0.

(** A C string is the bytes before its terminator. *)
Record nbt_name := Name { name : list Z; scope : option (list Z); type : Z }.

(** strcspn of a dot, and strchr: what is before and after the first one. *)
Fixpoint split_dot (s : list Z) : list Z * option (list Z) :=
  match s with
  | [] => ([], None)
  | c :: s => if c =? 46 then ([], Some s) else let '(a, b) := split_dot s in (c :: a, b)
  end.

Section pull.
Context (A : Allocator).
Import Pull NdrPull.

(** talloc_strndup and the like. *)
Definition dup (s : list Z) : M ndr_pull (list Z) :=
  do p <- NdrPull.alloc A; if decide (p = NULL) then bad NT_STATUS_NO_MEMORY else ret s.

(** [loops] is what is left of the five.  The component, or none at the end of the name, and the
    two offsets. *)
Fixpoint ndr_pull_component (loops : nat) (offset max_offset : Z) : M ndr_pull (option (list Z) * Z * Z) :=
  match loops with
  | O => bad NT_STATUS_BAD_NETWORK_NAME
  | S loops =>
      do size <- get data_size;
      if size <=? offset then bad NT_STATUS_BAD_NETWORK_NAME
      else
        do len <- load 1 CVAL offset;
        if len =? 0 then
          let offset := add32 offset 1 in ret (None, offset, Z.max max_offset offset)
        else if Z.land len 0xC0 =? 0xC0 then
          if size <=? add32 1 offset then bad NT_STATUS_BAD_NETWORK_NAME
          else
            let max_offset := Z.max max_offset (add32 offset 2) in
            do low <- load 1 CVAL (add32 1 offset);
            let offset := Z.lor (Z.shiftl (Z.land len 0x3F) 8) low in
            let max_offset := Z.max max_offset offset in
            ndr_pull_component loops offset max_offset
        else if negb (Z.land len 0xC0 =? 0) then bad NT_STATUS_BAD_NETWORK_NAME
        else if size <? add32 offset (len + 2) then bad NT_STATUS_BAD_NETWORK_NAME
        else
          do component <- load len (fun d i => until_nul (slice i (Z.to_nat len) d)) (add32 1 offset);
          do component <- dup component;
          let offset := add32 offset (len + 1) in
          ret (Some component, offset, Z.max max_offset offset)
  end.

(** [n] is what is left of the ten components; the name so far. *)
Fixpoint pull_components (n : nat) (name : option (list Z)) (offset max_offset : Z) : M ndr_pull (option (list Z) * Z) :=
  match n with
  | O => bad NT_STATUS_BAD_NETWORK_NAME
  | S n =>
      do (component, offset, max_offset) <- ndr_pull_component 5 offset max_offset;
      match component with
      | None => ret (name, max_offset)
      | Some component =>
          match name with
          | Some s => do s <- dup (s ++ 46 :: component); pull_components n (Some s) offset max_offset
          | None => pull_components n (Some component) offset max_offset
          end
      end
  end.

(** [s] is what the string pointer is before the call. *)
Definition ndr_pull_nbt_string (ndr_flags : Z) (s : list Z) : M ndr_pull (list Z) :=
  if negb (isset ndr_flags NDR_SCALARS) then ret s
  else
    do offset <- get offset;
    do (name, max_offset) <- pull_components MAX_COMPONENTS None offset offset;
    do name <- (match name with Some s => ret s | None => dup [] end);
    modify (set_offset max_offset);;
    ret name.

(** An element of a char array, which is there. *)
Definition at_ (buf : list Z) (i : nat) : outcome Z := match buf !! i with Some c => Ret c | None => Fault end.
Definition put_at (buf : list Z) (i : nat) (c : Z) : outcome (list Z) :=
  if decide (i < length buf)%nat then Ret (<[i:=c]> buf) else Fault.

(** The letters A to P. *)
Definition is_half (c : Z) : bool := (65 <=? c) && (c <=? 80).

(** The loop over pairs of letters in the buffer, from [i]; none for a bad name. *)
Fixpoint decompress_pairs (fuel i : nat) (buf : list Z) : outcome (option (nat * list Z)) :=
  match fuel with
  | O => Fault
  | S fuel =>
      let* c1 := at_ buf (2 * i) in
      if c1 =? 0 then Ret (Some (i, buf))
      else
        let* c2 := at_ buf (1 + 2 * i) in
        if negb (is_half c1) || negb (is_half c2) then Ret None
        else
          let* buf := put_at buf i (Z.lor (Z.shiftl (c1 - 65) 4) (c2 - 65)) in
          decompress_pairs fuel (S i) buf
  end.

Fixpoint trim_spaces (i : nat) (buf : list Z) : outcome (list Z) :=
  match i with
  | O => Ret buf
  | S i =>
      let* c := at_ buf i in
      if c =? 32 then let* buf := put_at buf i 0 in trim_spaces i buf else Ret buf
  end.

(** The buffer holds the string and its terminator.  The last byte becomes the type as a char,
    which has a sign. *)
Definition decompress_name (buf : list Z) : outcome (option (list Z * Z)) :=
  let* r := decompress_pairs (length buf) 0 buf in
  match r with
  | None => Ret None
  | Some (i, buf) =>
      let* buf := put_at buf i 0 in
      let* (i, buf, type) :=
        (if (i =? 16)%nat then
           let* t := at_ buf 15 in
           let* buf := put_at buf 15 0 in
           Ret ((i - 1)%nat, buf, u32 (s8 t))
         else Ret (i, buf, NBT_NAME_CLIENT)) in
      let* buf := trim_spaces i buf in
      Ret (Some (buf, type))
  end.

Definition lift {B} (m : outcome B) : M ndr_pull B := fun s => let* v := m in Ret (Good v, s).

Definition ndr_pull_nbt_name (ndr_flags : Z) (r : nbt_name) : M ndr_pull nbt_name :=
  if negb (isset ndr_flags NDR_SCALARS) then ret r
  else
    do s <- ndr_pull_nbt_string ndr_flags [];
    let '(cname, scope) := split_dot s in
    do scope <- (match scope with Some sc => do sc <- dup sc; ret (Some sc) | None => ret None end);
    if (32 <? length cname)%nat then bad NT_STATUS_BAD_NETWORK_NAME
    else
      do d <- lift (decompress_name (cname ++ [0]));
      match d with
      | None => bad NT_STATUS_BAD_NETWORK_NAME
      | Some (buf, type) => do name <- dup (until_nul buf); ret (Name name scope type)
      end.
End pull.

Section push.
Context (A : Allocator).
Import Push NdrPush.

(** ndr_token_retrieve_cmp_fn with strcmp: the newest token of an equal string, which stays. *)
Fixpoint ndr_token_retrieve_strcmp (l : list (list Z * Z)) (key : list Z) : option Z :=
  match l with
  | [] => None
  | tok :: l => if decide (tok.1 = key) then Some tok.2 else ndr_token_retrieve_strcmp l key
  end.

(** talloc. *)
Definition got_memory : M ndr_push unit :=
  do got <- NdrPush.alloc A; if (got : bool) then ret tt else bad NT_STATUS_NO_MEMORY.

(** Each round takes a byte at least of [s]. *)
Fixpoint push_labels (fuel : nat) (s : list Z) : M ndr_push unit :=
  match fuel with
  | O => fault
  | S fuel =>
      match s with
      | [] => ndr_push_bytes A [0]
      | _ =>
          do l <- get nbt_string_list;
          match ndr_token_retrieve_strcmp l s with
          | Some offset =>
              if 0x3FFF <? offset then ndr_error NDR_ERR_STRING
              else ndr_push_bytes A [Z.lor 0xC0 (Z.shiftr offset 8); Z.land offset 0xFF]
          | None =>
              let '(label, rest) := split_dot s in
              let complen := Z.of_nat (length label) in
              if 0x3F <=? complen then ndr_error NDR_ERR_STRING
              else
                got_memory;;
                do offset <- get offset;
                ndr_token_store A nbt_string_list set_nbt_string_list s offset;;
                ndr_push_bytes A (complen :: label);;
                push_labels fuel (default [] rest)
          end
      end
  end.

(** A null string is written as the empty one. *)
Definition ndr_push_nbt_string (ndr_flags : Z) (s : option (list Z)) : M ndr_push unit :=
  if negb (isset ndr_flags NDR_SCALARS) then ret tt
  else push_labels (S (length (default [] s))) (default [] s).

(** The two letters of a byte. *)
Definition halves (b : Z) : list Z := [65 + Z.shiftr b 4; 65 + Z.land b 0xF].

(** None without memory, or for a name that is too long. *)
Definition compress_name (mem : bool) (name : list Z) (type : Z) : option (list Z) :=
  if (15 <? length name)%nat then None
  else if negb mem then None
  else
    let pad_char := if decide (name = [42]) then 0 else 32 in
    Some (concat (halves <$> name) ++ concat (halves <$> replicate (15 - length name) pad_char) ++ halves (u8 type)).

Definition ndr_push_nbt_name (ndr_flags : Z) (r : nbt_name) : M ndr_push unit :=
  if negb (isset ndr_flags NDR_SCALARS) then ret tt
  else
    do mem <- (if (15 <? length (name r))%nat then ret false else NdrPush.alloc A);
    match compress_name mem (name r) (type r) with
    | None => bad NT_STATUS_NO_MEMORY
    | Some cname =>
        do fullname <-
          (match scope r with
           | Some sc => got_memory;; ret (cname ++ 46 :: sc)
           | None => ret cname
           end);
        ndr_push_nbt_string ndr_flags (Some fullname)
    end.
End push.

(** The strings of the copy are fresh. *)
Definition nbt_name_dup (A : Allocator) (n : nbt_name) : result nbt_name :=
  if negb (malloc_ok 0) then Bad NT_STATUS_NO_MEMORY
  else
    match scope n with
    | Some _ => if negb (malloc_ok 1) then Bad NT_STATUS_NO_MEMORY else Good n
    | None => Good n
    end.

Definition nbt_name_to_blob (A : Allocator) (n : nbt_name) : outcome (result (list Z)) :=
  NdrPush.ndr_push_struct_blob A (fun ndr_flags => ndr_push_nbt_name A ndr_flags n).
Definition nbt_name_from_blob (A : Allocator) (blob : list Z) (n : nbt_name) : outcome (result nbt_name) :=
  NdrPull.ndr_pull_struct_blob A blob (Z.of_nat (length blob)) (fun ndr_flags => ndr_pull_nbt_name A ndr_flags n).

(** ** WINS replication *)

(** trim_string of util_str.c, for spaces at the end. *)
Fixpoint trim_back (l : list Z) : list Z :=
  match l with
  | [] => []
  | c :: l => match trim_back l with [] => if c =? 32 then [] else [c] | t => c :: t end
  end.

Definition swap_0_15 (buf : list Z) : list Z := <[0%nat := default 0 (buf !! 15%nat)]> (<[15%nat := 0x1b]> buf).

Section wrepl.
Context (A : Allocator).

Definition ndr_pull_wrepl_nbt_name (ndr_flags : Z) (r : option nbt_name) : M ndr_pull (option nbt_name) :=
  if negb (isset ndr_flags NDR_SCALARS) then ret r
  else
    NdrPull.ndr_pull_align 4;;
    do namebuf_len <- NdrPull.ndr_pull_uint32;
    if (namebuf_len <? 1) || (255 <? namebuf_len) then ndr_error NDR_ERR_ALLOC
    else
      NdrPull.NDR_PULL_ALLOC_N A 1 namebuf_len;;
      do namebuf <- NdrPull.ndr_pull_array_uint8 NDR_SCALARS [] namebuf_len;
      NdrPull.NDR_PULL_ALLOC A;;
      let namebuf := if (CVAL namebuf 0 =? 0x1b) && (16 <=? namebuf_len) then swap_0_15 namebuf else namebuf in
      if namebuf_len <? 17 then
        do p <- NdrPull.alloc A;
        if decide (p = NULL) then ndr_error NDR_ERR_ALLOC else ret (Some (Name (until_nul namebuf) None 0))
      else
        let type := CVAL namebuf 15 in
        do p <- NdrPull.alloc A;
        if decide (p = NULL) then ndr_error NDR_ERR_ALLOC
        else
          let name := trim_back (until_nul (take 15 namebuf)) in
          if 18 <? namebuf_len then
            do p <- NdrPull.alloc A;
            if decide (p = NULL) then ndr_error NDR_ERR_ALLOC
            else ret (Some (Name name (Some (until_nul (drop 17 namebuf))) type))
          else ret (Some (Name name None type)).

Definition ndr_push_wrepl_nbt_name (ndr_flags : Z) (r : option nbt_name) : M ndr_push unit :=
  match r with
  | None => bad NT_STATUS_INVALID_PARAMETER_MIX
  | Some r =>
      if negb (isset ndr_flags NDR_SCALARS) then ret tt
      else if (15 <? length (name r))%nat then bad NT_STATUS_INVALID_PARAMETER_MIX
      else if (238 <? length (default [] (scope r)))%nat then bad NT_STATUS_INVALID_PARAMETER_MIX
      else
        do mem <- NdrPush.alloc A;
        if negb (mem : bool) then ndr_error NDR_ERR_ALLOC
        else
          let namebuf := name r ++ replicate (15 - length (name r)) 32 ++ 88 :: default [] (scope r) ++ [0] in
          let namebuf_len := Z.of_nat (length namebuf) in
          let namebuf := <[15%nat := u8 (type r)]> namebuf in
          let namebuf := if type r =? 0x1b then <[0%nat := 0x1b]> (<[15%nat := CVAL namebuf 0]> namebuf) else namebuf in
          NdrPush.ndr_push_align A 4;;
          NdrPush.ndr_push_uint32 A namebuf_len;;
          NdrPush.ndr_push_array_uint8 A NDR_SCALARS namebuf
  end.
End wrepl.

(** ** Names to call *)

(** lib/util/util.c *)
Definition is_ipaddress (s : list Z) : bool :=
  forallb (fun c => ((48 <=? c) && (c <=? 57)) || (c =? 46)) s && match snd (split_dot s) with Some _ => true | None => false end.

Section choose.
Context `{Charsets} `{CaseTables} (A : Allocator).

Definition SMBSERVER : list Z := str "*SMBSERVER".

(** [at_] is the address of the string, which is what a null pointer is less. *)
Definition nbt_choose_called_name (at_ : Z) (s : list Z) (type : Z) : outcome (option (list Z) * Z) :=
  if is_ipaddress s then Ret (Some SMBSERVER, type)
  else if (15 <? length s)%nat then
    let diff := match snd (split_dot s) with Some _ => Z.of_nat (length (fst (split_dot s))) | None => - at_ end in
    if 15 <? diff then Ret (Some SMBSERVER, type)
    else
      let s := if malloc_ok 0 then Some (take (Z.to_nat (Z.min (Z.of_nat (length s)) (u64 diff))) s) else None in
      let* n := @strupper_talloc _ _ (later 1 A) s in Ret (n, type)
  else let* n := @strupper_talloc _ _ A (Some s) in Ret (n, type).
End choose.

(** ** Names as text *)

Section text.
(** The C library's. *)
Context (isalnum : Z -> bool).

Definition hex_digit (n : Z) : Z := if n <? 10 then 48 + n else 87 + n.
(** The digits of %x. *)
Fixpoint hex_digits (fuel : nat) (n : Z) : list Z :=
  match fuel with
  | O => []
  | S fuel => if n <? 16 then [hex_digit n] else hex_digits fuel (Z.shiftr n 4) ++ [hex_digit (Z.land n 0xF)]
  end.
(** %02x of a 32-bit number. *)
Definition hex02 (n : Z) : list Z := if n <? 16 then [48; hex_digit n] else hex_digits 8 n.

Definition NBT_CHAR_ALLOW (c : Z) : bool := isalnum c || bool_decide (In c (str "_-.$@ ")).

(** None without memory. *)
Definition nbt_hex_encode (mem : bool) (s : list Z) : option (list Z) :=
  if mem then Some (concat ((fun c => if NBT_CHAR_ALLOW c then [c] else 37 :: hex02 c) <$> s)) else None.

(** What %s prints for a null pointer. *)
Definition printed (s : option (list Z)) : list Z := default (str "(null)") s.

(** The temporary context comes first, and the string last. *)
Definition nbt_name_string (A : Allocator) (n : nbt_name) : option (list Z) :=
  let base := printed (nbt_hex_encode (malloc_ok 1) (name n)) ++ str "<" ++ hex02 (type n) ++ str ">" in
  match scope n with
  | Some sc => if malloc_ok 3 then Some (base ++ str "-" ++ printed (nbt_hex_encode (malloc_ok 2) sc)) else None
  | None => if malloc_ok 2 then Some base else None
  end.
End text.
End NbtName.
Import NbtName.
