(* ===== verification/NbtSafe.v ===== *)
(** libcli/nbt/nbtname.c on arbitrary bytes: pulling a NetBIOS name ends, stays inside the data,
    and bounds the name. *)

From S2P Require Import Prelude Digest Byteorder Ntstatus Charcnv Msrpc Ndr NdrPull NdrPush NdrWire NdrSafe NbtName.
Import Byteorder Charcnv Ndr Pull NdrPull NbtName.

#[local] Open Scope outcome_scope.
#[local] Open Scope ndr_scope.

(** A C string of bytes. *)
Definition chars (s : list Z) : Prop := Forall (fun c => 0 < c < 256) s.

Lemma until_nul_chars l : bytes l -> chars (until_nul l) /\ (length (until_nul l) <= length l)%nat.
Proof.
  intros Hb. unfold until_nul. destruct (list_find (fun b => b = 0) l) as [[i x]|] eqn:E; cbn.
  - apply list_find_Some in E as (Ei & -> & Hj). split; [|rewrite length_take; lia].
    apply Forall_lookup. intros j y Hy. apply lookup_take_Some in Hy as [Hy Hlt]. pose proof (Hj j y Hy Hlt) as Hne.
    pose proof (Forall_lookup_1 _ _ _ _ Hb Hy) as [H0 H1]. change (2 ^ 8) with 256 in H1. lia.
  - apply list_find_None in E. rewrite firstn_all. split; [|done]. apply Forall_lookup. intros j y Hy.
    pose proof (Forall_lookup_1 _ _ _ _ Hb Hy) as [H0 H1]. pose proof (Forall_lookup_1 _ _ _ _ E Hy). change (2 ^ 8) with 256 in H1. cbn in *. lia.
Qed.

Lemma split_dot_chars s : chars s ->
  chars (split_dot s).1 /\ (forall r, (split_dot s).2 = Some r -> chars r /\ (length (split_dot s).1 + 1 + length r = length s)%nat) /\
  (length (split_dot s).1 <= length s)%nat.
Proof.
  induction s as [|c s IH]; intros Hs; [by split_and!|]. apply Forall_cons_1 in Hs as [Hc Hs]. cbn [split_dot].
  case_match eqn:E; cbn [fst snd length].
  - split_and!; [constructor| |lia]. intros r [= <-]. split; [done|lia].
  - specialize (IH Hs). destruct (split_dot s) as [a b]. cbn [fst snd length] in *. destruct IH as (Ha & Hr & Hl).
    split_and!; [by constructor| |lia]. intros r ->. destruct (Hr r eq_refl). split; [done|lia].
Qed.

(** [s'] is [s] after allocations. *)
Definition kept (s s' : ndr_pull) : Prop := exists a, s' = set_allocs a s.

Lemma kept_refl s : kept s s.
Proof. exists (allocs s). by destruct s. Qed.
Lemma kept_trans s1 s2 s3 : kept s1 s2 -> kept s2 s3 -> kept s1 s3.
Proof. intros [a ->] [b ->]. by exists b. Qed.
Lemma kept_inside s s' : kept s s' -> inside s -> inside s'.
Proof. by intros [a ->]. Qed.
Lemma kept_input s s' : kept s s' -> same_input s s' /\ offset s' = offset s.
Proof. by intros [a ->]. Qed.

(** ** Decompression *)

(** The pairs of letters as bytes, while there are any. *)
Fixpoint paired (l : list Z) : option (list Z) :=
  match l with
  | [] => Some []
  | [_] => None
  | a :: b :: l => if is_half a && is_half b then cons (Z.lor (Z.shiftl (a - 65) 4) (b - 65)) <$> paired l else None
  end.

Lemma at_app a x (b : list Z) : at_ (a ++ x :: b) (length a) = Ret x.
Proof. unfold at_. by rewrite lookup_app_r, Nat.sub_diag by lia. Qed.
Lemma put_at_app a x (b : list Z) c : put_at (a ++ x :: b) (length a) c = Ret (a ++ c :: b).
Proof. unfold put_at. rewrite length_app, decide_True by (cbn; lia). by rewrite insert_app_r_alt, Nat.sub_diag by lia. Qed.

(** What has been decoded, as many bytes that were passed, and the rest. *)
Lemma decompress_pairs_spec rest : forall fuel dec junk,
  chars rest -> length junk = length dec -> (length rest < 2 * fuel)%nat ->
  decompress_pairs fuel (length dec) (dec ++ junk ++ rest ++ [0]) =
    Ret (d ← paired rest; Some ((length dec + length d)%nat, dec ++ d ++ drop (length d) (junk ++ rest) ++ [0])).
Proof.
  induction rest as [rest IH] using (induction_ltof1 _ (@length Z)). unfold ltof in IH. intros [|fuel] dec junk Hc Hj Hf; [lia|]. cbn [decompress_pairs].
  assert (forall l, at_ (dec ++ junk ++ l) (2 * length dec) = at_ l 0) as Hat.
  { intros l. unfold at_. rewrite app_assoc, lookup_app_r by (rewrite length_app; lia). replace (2 * length dec - length (dec ++ junk))%nat with 0%nat by (rewrite length_app; lia). done. }
  assert (forall l, at_ (dec ++ junk ++ l) (1 + 2 * length dec) = at_ l 1) as Hat1.
  { intros l. unfold at_. rewrite app_assoc, lookup_app_r by (rewrite length_app; lia). replace (1 + 2 * length dec - length (dec ++ junk))%nat with 1%nat by (rewrite length_app; lia). done. }
  rewrite Hat. destruct rest as [|a rest].
  { cbn. rewrite Nat.add_0_r. by rewrite drop_0, app_nil_r. }
  apply Forall_cons_1 in Hc as [Ha Hc]. cbn [app]. change (at_ (a :: rest ++ [0]) 0) with (Ret a). cbn [obind].
  replace (a =? 0) with false by (symmetry; apply Z.eqb_neq; lia). rewrite Hat1. destruct rest as [|b rest].
  { cbn. rewrite orb_true_r. done. }
  change (at_ (a :: (b :: rest) ++ [0]) 1) with (Ret b). cbn [obind paired]. destruct (is_half a && is_half b) eqn:E; apply andb_true_iff in E || (rewrite <- negb_andb, E; done).
  destruct E as [-> ->]. cbn [negb orb]. set (x := Z.lor _ _). apply Forall_cons_1 in Hc as [Hb Hc].
  assert (exists y junk', junk ++ [a; b] = y :: junk' /\ length junk' = S (length dec)) as (y & junk' & Ey & Ly).
  { destruct junk as [|y junk]; cbn in *; [by exists a, [b]; rewrite <- Hj|]. exists y, (junk ++ [a; b]). split; [done|]. rewrite length_app. cbn. lia. }
  assert (junk ++ a :: b :: rest ++ [0] = y :: junk' ++ rest ++ [0]) as Er.
  { change (a :: b :: rest ++ [0]) with ([a; b] ++ rest ++ [0]). rewrite app_assoc, Ey. done. }
  cbn [app]. rewrite Er, put_at_app. cbn [obind]. replace (S (length dec)) with (length (dec ++ [x])) by (rewrite length_app; cbn; lia).
  replace (dec ++ x :: junk' ++ rest ++ [0]) with ((dec ++ [x]) ++ junk' ++ rest ++ [0]) by (by rewrite <- app_assoc).
  rewrite IH; [|cbn; lia|done|rewrite length_app; cbn; lia|cbn in Hf; lia].
  destruct (paired rest) as [d|] eqn:Ed; [|done]. cbn. do 3 f_equal; [rewrite length_app; cbn; lia|].
  rewrite <- !app_assoc. cbn. do 3 f_equal.
  assert (junk ++ a :: b :: rest = y :: junk' ++ rest) as ->; [|done].
  apply (app_inj_2 _ _ [0] [0] eq_refl). cbn. rewrite <- !app_assoc. cbn. by rewrite Er.
Qed.

Lemma trim_spaces_spec d : forall rest,
  exists e k, d = e ++ replicate k 32 /\ (forall l, e <> l ++ [32]) /\ trim_spaces (length d) (d ++ rest) = Ret (e ++ replicate k 0 ++ rest).
Proof.
  induction d as [|c d IH] using rev_ind; intros rest; [exists [], 0%nat; cbn; split_and!; [done|by intros []|done]|].
  rewrite length_app, Nat.add_1_r. cbn [trim_spaces]. rewrite <- app_assoc. cbn [app]. rewrite at_app. cbn [obind]. case_match eqn:E.
  - apply Z.eqb_eq in E as ->. rewrite put_at_app. cbn [obind]. destruct (IH (0 :: rest)) as (e & k & -> & He & ->). exists e, (S k). split_and!; [|done|].
    + by rewrite <- app_assoc, <- replicate_cons_app.
    + by rewrite (replicate_S_end k 0), <- app_assoc.
  - exists (d ++ [c]), 0%nat. cbn. rewrite app_nil_r, <- app_assoc. split_and!; [done| |done]. intros l El. apply app_inj_tail in El as [_ ->]. done.
Qed.
Lemma until_nul_zero e t : until_nul (e ++ 0 :: t) = until_nul e.
Proof.
  unfold until_nul. destruct (list_find (fun b => b = 0) e) as [[i x]|] eqn:E.
  - pose proof E as (Ei & _ & _)%list_find_Some. rewrite (list_find_app_l _ _ _ _ _ E). cbn. apply take_app_le. apply lookup_lt_Some in Ei. lia.
  - rewrite (list_find_app_r _ _ _ E). cbn. rewrite decide_True by done. cbn. rewrite firstn_all. apply take_app_length'. lia.
Qed.

Lemma paired_length s d : paired s = Some d -> length s = (2 * length d)%nat.
Proof.
  revert d. induction s as [s IH] using (induction_ltof1 _ (@length Z)). unfold ltof in IH. intros d. destruct s as [|a [|b s]]; cbn [paired]; [by intros [= <-]|done|].
  destruct (is_half a && is_half b); [|done]. destruct (paired s) as [d'|] eqn:E; [|done]. intros [= <-]. cbn. rewrite (IH s) with (d := d') by (done || cbn; lia). lia.
Qed.

Lemma list_snoc_inv {T} (l : list T) n : length l = S n -> exists l' x, l = l' ++ [x] /\ length l' = n.
Proof. destruct l as [|x l _] using rev_ind; [done|]. rewrite length_app, Nat.add_1_r. intros [= <-]. by exists l, x. Qed.

Lemma paired_bytes s d : paired s = Some d -> bytes d.
Proof.
  revert d. induction s as [s IH] using (induction_ltof1 _ (@length Z)). unfold ltof in IH. intros d. destruct s as [|a [|b s]]; cbn [paired]; [by intros [= <-]|done|].
  destruct (is_half a) eqn:Ea; [|done]. destruct (is_half b) eqn:Eb; [|done]. destruct (paired s) as [d'|] eqn:E; [|done]. intros [= <-]. unfold is_half in *.
  constructor; [|apply (IH s); [cbn; lia|done]]. apply is_u_lor; [lia| |unfold is_u; lia]. apply (is_u_shiftl 4); unfold is_u; lia.
Qed.

(** The name and the type of the bytes. *)
Definition split_type (d : list Z) : list Z * Z :=
  if (length d =? 16)%nat then (take 15 d, u32 (s8 (default 0 (d !! 15%nat)))) else (d, NBT_NAME_CLIENT).

Lemma decompress_spec s : chars s ->
  match paired s with
  | None => decompress_name (s ++ [0]) = Ret None
  | Some d => exists e k buf, (split_type d).1 = e ++ replicate k 32 /\ (forall l, e <> l ++ [32]) /\
      decompress_name (s ++ [0]) = Ret (Some (buf, (split_type d).2)) /\ until_nul buf = until_nul e
  end.
Proof.
  intros Hc. unfold decompress_name. pose proof (decompress_pairs_spec s (length (s ++ [0])) [] [] Hc eq_refl) as E. cbn [app length] in E. rewrite E by (rewrite length_app; cbn; lia).
  destruct (paired s) as [d|] eqn:Ed; [|done]. cbn [mbind option_bind obind]. cbn [Nat.add].
  assert (exists x t, drop (length d) s ++ [0] = x :: t) as (x & t & ->) by (destruct (drop (length d) s) as [|y l]; [by exists 0, []|by exists y, (l ++ [0])]).
  rewrite put_at_app. cbn [obind]. unfold split_type. destruct (length d =? 16)%nat eqn:E16; cbn [obind fst snd].
  - apply Nat.eqb_eq in E16. destruct (list_snoc_inv d 15 E16) as (d' & c & -> & L15). rewrite E16. cbn [Nat.sub]. rewrite <- app_assoc. cbn [app].
    rewrite <- L15, at_app. cbn [obind]. rewrite put_at_app. cbn [obind]. rewrite lookup_app_r, Nat.sub_diag by lia. cbn [lookup list_lookup default id].
    rewrite take_app_length. destruct (trim_spaces_spec d' (0 :: 0 :: t)) as (e & k & -> & He & ->). cbn [obind]. eexists e, k, _. split_and!; [done|done|done|].
    destruct k; cbn; apply until_nul_zero.
  - destruct (trim_spaces_spec d (0 :: t)) as (e & k & Ed' & He & ->). cbn [obind]. eexists e, k, _. split_and!; [done|done|done|]. destruct k; cbn; apply until_nul_zero.
Qed.

Section safe.
Context (A : Allocator).
Implicit Types s : ndr_pull.

Definition refused (e : NTSTATUS) : Prop := e = NT_STATUS_BAD_NETWORK_NAME \/ e = NT_STATUS_NO_MEMORY.

(** [m] returns a value of [Q] or refuses, and only allocates. *)
Definition answers {B} (Q : B -> Prop) s (m : M ndr_pull B) : Prop :=
  exists r s', m s = Ret (r, s') /\ kept s s' /\ match r with Good v => Q v | Bad e => refused e end.

Lemma answers_ret {B} (Q : B -> Prop) s v : Q v -> answers Q s (ret v).
Proof. intros Hv. exists (Good v), s. split_and!; [done|apply kept_refl|done]. Qed.
Lemma answers_bad {B} (Q : B -> Prop) s e : refused e -> answers Q s (bad e).
Proof. intros He. exists (Bad e), s. split_and!; [done|apply kept_refl|done]. Qed.
Lemma answers_bind {B C} (P : B -> Prop) (Q : C -> Prop) s m k :
  answers P s m -> (forall v s', kept s s' -> P v -> answers Q s' (k v)) -> answers Q s (bind m k).
Proof.
  intros (r & s1 & E & K & HP) Hk. destruct r as [v|e].
  - destruct (Hk v s1 K HP) as (r & s2 & E2 & K2 & HQ). exists r, s2. rewrite (bind_good _ _ _ _ _ E). split_and!; [done|by eapply kept_trans|done].
  - exists (Bad e), s1. rewrite (bind_bad _ _ _ _ _ E). done.
Qed.
Lemma answers_get {B} (Q : B -> Prop) s f : Q (f s) -> answers Q s (get f).
Proof. intros Hv. exists (Good (f s)), s. split_and!; [done|apply kept_refl|done]. Qed.
Lemma answers_load {B} (Q : B -> Prop) s n f o :
  inside s -> 0 <= o -> o + n <= data_size s -> Q (f (data s) (Z.to_nat o)) -> answers Q s (load n f o).
Proof.
  intros (_ & Hl & _) Ho Hn HQ. exists (Good (f (data s) (Z.to_nat o))), s. unfold load. rewrite decide_True by lia. split_and!; [done|apply kept_refl|done].
Qed.
Lemma answers_dup (Q : list Z -> Prop) s v : Q v -> answers Q s (dup A v).
Proof.
  intros Hv. unfold dup. eapply (answers_bind (fun _ => True)).
  - eexists _, _. split_and!; [reflexivity|by eexists|done].
  - intros p s' _ _. case_decide; [apply answers_bad; by right|by apply answers_ret].
Qed.

(** The component, and the offset and the largest offset after it. *)
Definition component_ok s (off mx : Z) (r : option (list Z) * Z * Z) : Prop :=
  let '(c, off', mx') := r in
  0 <= off' <= data_size s /\ off' <= mx' /\ mx <= mx' <= data_size s /\ off < mx' /\
  match c with Some c => chars c /\ (length c <= 63)%nat | None => True end.

Lemma byte_at s o : inside s -> 0 <= o < data_size s -> is_byte (CVAL (data s) (Z.to_nat o)).
Proof. intros (_ & _ & _ & Hb) Ho. by apply CVAL_byte. Qed.

Lemma low_label len : is_byte len -> Z.land len 0xC0 = 0 -> len <= 63.
Proof.
  intros [H0 H1] E. change (2 ^ 8) with 256 in H1. rewrite <- (Z2Nat.id len H0) in E |- *.
  assert (Forall (fun n => Z.land (Z.of_nat n) 0xC0 = 0 -> (n < 64)%nat) (seq 0 256)) as HF by by_eval.
  assert (Z.to_nat len < 64)%nat; [|lia]. revert E. apply (Forall_lookup_1 _ _ (Z.to_nat len) _ HF). apply lookup_seq. lia.
Qed.

Lemma pull_component_ok loops : forall s off mx,
  inside s -> 0 <= off < 2 ^ 32 -> 0 <= mx <= Z.max (data_size s) off ->
  answers (component_ok s off mx) s (ndr_pull_component A loops off mx).
Proof.
  induction loops as [|loops IH]; intros s off mx Hi Ho Hmx; [apply answers_bad; by left|]. cbn [ndr_pull_component].
  apply (answers_bind (fun x => x = data_size s)); [by apply answers_get|]. intros size s1 K1 ->. pose proof (kept_inside _ _ K1 Hi) as Hi1.
  assert (data_size s1 = data_size s) as Ds1 by (by destruct K1 as [a ->]).
  assert (data_size s < 2 ^ 31) as Hs by apply Hi. case_match eqn:E1; [apply answers_bad; by left|]. apply Z.leb_gt in E1.
  apply (answers_bind is_byte); [apply answers_load; [done|lia|lia|by apply byte_at; rewrite ?Ds1; try lia]|].
  intros len s2 K2 Hlen. pose proof (kept_inside _ _ K2 Hi1) as Hi2. assert (data_size s2 = data_size s) as Ds2 by (rewrite <- Ds1; by destruct K2 as [a ->]).
  unfold is_byte, is_u in Hlen. change (2 ^ 8) with 256 in Hlen. case_match eqn:E2.
  { apply answers_ret. unfold component_ok, add32. rewrite u32_id by (unfold is_u; lia). lia. }
  case_match eqn:E3.
  - unfold add32. rewrite !u32_id by (unfold is_u; lia). case_match eqn:E4; [apply answers_bad; by left|]. apply Z.leb_gt in E4.
    apply (answers_bind is_byte); [apply answers_load; [done|lia|lia|by apply byte_at; rewrite ?Ds2; try lia]|].
    intros low s3 K3 Hlow. pose proof (kept_inside _ _ K3 Hi2) as Hi3. assert (data_size s3 = data_size s) as Ds3 by (rewrite <- Ds2; by destruct K3 as [a ->]).
    unfold is_byte, is_u in Hlow. change (2 ^ 8) with 256 in Hlow. set (o' := Z.lor _ low).
    assert (is_u 14 o') as Ho'.
    { apply is_u_lor; [lia| |apply (is_u_mono 8); [lia|done]]. apply (is_u_shiftl 6); [lia..|]. change 0x3F with (Z.ones 6). rewrite Z.land_ones by lia. apply Z.mod_pos_bound. lia. }
    unfold is_u in Ho'.
    destruct (IH s3 o' (Z.max (Z.max mx (off + 2)) o') Hi3) as (r & s4 & E5 & K4 & Hr); [lia|lia|].
    exists r, s4. split_and!; [done|done|]. destruct r as [[[c f] m]|]; [|done]. unfold component_ok in *. rewrite Ds3 in Hr. destruct c; intuition lia.
  - case_match; [apply answers_bad; by left|]. rewrite <- Ds2 in *. unfold add32. rewrite !u32_id by (unfold is_u; lia). case_match eqn:E5; [apply answers_bad; by left|]. apply Z.ltb_ge in E5.
    assert (len <= 63) as Hl63 by (apply low_label; [done|]; by apply negb_false_iff, Z.eqb_eq in H).
    apply (answers_bind (fun c => chars c /\ (length c <= 63)%nat)).
    { apply answers_load; [done|lia|lia|]. destruct (until_nul_chars (slice (Z.to_nat (1 + off)) (Z.to_nat len) (data s2))) as [Hc Hl]; [apply Forall_slice, Hi2|].
      split; [done|]. unfold slice in Hl. rewrite length_take in Hl. unfold slice. lia. }
    intros c s3 K3 Hc. apply (answers_bind (fun c => chars c /\ (length c <= 63)%nat)); [by apply answers_dup|]. intros c' s4 K4 Hc'.
    apply answers_ret. unfold component_ok. intuition lia.
Qed.

(** What is left of the components bounds what the name can grow by. *)
Definition name_ok (n : nat) (name : option (list Z)) : Prop :=
  match name with Some s => chars s /\ (length s + 64 * n <= 639)%nat | None => (64 * n <= 640)%nat end.

Lemma pull_components_ok n : forall s name off mx,
  inside s -> 0 <= off < 2 ^ 31 -> 0 <= mx <= data_size s -> name_ok n name -> (name = None -> off = mx) ->
  answers (fun r => name_ok 1 r.1 /\ mx <= r.2 <= data_size s /\ (name = None -> mx < r.2)) s (pull_components A n name off mx).
Proof.
  induction n as [|n IH]; intros s name off mx Hi Ho Hm Hn Hoff; [apply answers_bad; by left|]. cbn [pull_components].
  eapply answers_bind; [apply pull_component_ok; [done|lia|lia]|]. intros [[c off1] mx1] s1 K1 (Ho1 & Hle & Hm1 & Hlt & Hc).
  pose proof (kept_inside _ _ K1 Hi) as Hi1. assert (data_size s1 = data_size s) as Ds1 by (by destruct K1 as [a ->]).
  assert (data_size s < 2 ^ 31) as Hs by apply Hi.
  destruct c as [c|]; [|apply answers_ret; cbn; split_and!; [|lia|lia|intros ->; rewrite Hoff in Hlt by done; lia]; destruct name; cbn in *; [split; [apply Hn|lia]|lia]].
  assert (forall s2 nm, kept s1 s2 -> name_ok n (Some nm) ->
    answers (fun r => name_ok 1 r.1 /\ mx <= r.2 <= data_size s /\ (name = None -> mx < r.2)) s2 (pull_components A n (Some nm) off1 mx1)) as Hgo.
  { intros s2 nm K2 Hnm. assert (data_size s2 = data_size s) as Ds2 by (rewrite <- Ds1; by destruct K2 as [a ->]).
    destruct (IH s2 (Some nm) off1 mx1) as (r & s3 & E & K3 & Hr); [by apply (kept_inside _ _ K2)|lia|lia|done|done|].
    exists r, s3. split_and!; [done|done|]. destruct r as [[nm' m]|]; [|done]. rewrite Ds2 in Hr. cbn in *. destruct Hr as (? & ? & _). split_and!; [done|lia|lia|].
    intros ->. rewrite Hoff in Hlt by done. lia. }
  destruct Hc as [Hc Hlc]. destruct name as [nm|].
  - destruct Hn as [Hnm Hl]. eapply (answers_bind (fun x => x = nm ++ 46 :: c)); [by apply answers_dup|]. intros x s2 K2 ->. apply Hgo; [done|]. split.
    + apply Forall_app. split; [done|]. by constructor.
    + rewrite length_app. cbn [length]. lia.
  - apply Hgo; [apply kept_refl|]. cbn in *. split; [done|lia].
Qed.

Lemma flags_scalars : isset NDR_SCALARS NDR_SCALARS = true.
Proof. done. Qed.

(** A call on the data of [s] that leaves the offset where it is, or ahead of it when it
    succeeds. *)
Definition bounded {B} (Q : B -> Prop) s (m : M ndr_pull B) : Prop :=
  exists r s', m s = Ret (r, s') /\ same_input s s' /\
    match r with Good v => Q v /\ offset s < offset s' <= data_size s | Bad e => refused e end.

Lemma nbt_string_bounded s old :
  inside s -> bounded (fun v => chars v /\ (length v <= 575)%nat) s (ndr_pull_nbt_string A NDR_SCALARS old).
Proof.
  intros Hi. unfold bounded, ndr_pull_nbt_string. rewrite flags_scalars. cbn [negb]. rewrite (bind_good (get offset) _ s (offset s) s) by done.
  assert (data_size s < 2 ^ 31) as Hs by apply Hi. assert (0 <= offset s <= data_size s) as Ho by apply Hi.
  destruct (pull_components_ok MAX_COMPONENTS s None (offset s) (offset s) Hi) as ([[nm mx]|e] & s1 & E & K1 & Hr); [lia|lia|cbn; lia|done| |].
  2:{ exists (Bad e), s1. rewrite (bind_bad _ _ _ _ _ E). split_and!; [done|apply (kept_input _ _ K1)|done]. }
  rewrite (bind_good _ _ _ _ _ E). cbn [fst snd] in Hr. destruct Hr as (Hn & Hmx & Hlt). specialize (Hlt eq_refl).
  assert (answers (fun v => chars v /\ (length v <= 575)%nat) s1 (match nm with Some s => ret s | None => dup A [] end)) as (r & s2 & E2 & K2 & Hr).
  { destruct nm as [v|]; [apply answers_ret; destruct Hn; split; [done|lia]|apply answers_dup; split; [constructor|cbn; lia]]. }
  pose proof (kept_trans _ _ _ K1 K2) as K. destruct (kept_input _ _ K) as [Hsi _]. destruct r as [v|e].
  - rewrite (bind_good _ _ _ _ _ E2). exists (Good v), (set_offset mx s2). split; [done|]. split; [destruct K as [a ->]; done|]. cbn. split; [done|lia].
  - rewrite (bind_bad _ _ _ _ _ E2). exists (Bad e), s2. split_and!; [done|done|done].
Qed.

Definition name_bounded (n : nbt_name) : Prop :=
  chars (name n) /\ (length (name n) <= 15)%nat /\ is_u32 (type n) /\
  match scope n with Some sc => chars sc /\ (length sc <= 574)%nat | None => True end.

Lemma decompress_bounded cname s :
  chars cname -> (length cname <= 32)%nat ->
  answers (fun d => match d with Some (buf, t) => chars (until_nul buf) /\ (length (until_nul buf) <= 15)%nat /\ is_u32 t | None => True end) s
    (lift (decompress_name (cname ++ [0]))).
Proof.
  intros Hc Hl. pose proof (decompress_spec cname Hc) as Hd. unfold lift. destruct (paired cname) as [d|] eqn:Ed.
  - destruct Hd as (e & k & buf & Ee & _ & -> & Eu). exists (Good (Some (buf, (split_type d).2))), s. split; [done|]. split; [apply kept_refl|]. rewrite Eu.
    apply paired_length in Ed as Ld. apply paired_bytes in Ed. rewrite Ld in Hl.
    assert (bytes (split_type d).1 /\ (length (split_type d).1 <= 15)%nat /\ is_u32 (split_type d).2) as (Hb & Hl' & Ht).
    { unfold split_type. destruct (length d =? 16)%nat eqn:E16; cbn [fst snd]; [apply Nat.eqb_eq in E16|apply Nat.eqb_neq in E16].
      - split_and!; [by apply Forall_take|rewrite length_take; lia|apply u32_range].
      - split_and!; [done|lia|done]. }
    rewrite Ee in Hb, Hl'. apply Forall_app in Hb as [Hb _]. rewrite length_app in Hl'. destruct (until_nul_chars e Hb). split_and!; [done|lia|done].
  - rewrite Hd. exists (Good None), s. split_and!; [done|apply kept_refl|done].
Qed.

Lemma nbt_name_bounded s old : inside s -> bounded name_bounded s (ndr_pull_nbt_name A NDR_SCALARS old).
Proof.
  intros Hi. unfold ndr_pull_nbt_name. rewrite flags_scalars. cbn [negb].
  destruct (nbt_string_bounded s [] Hi) as ([v|e] & s1 & E & Hsi & Hr).
  2:{ exists (Bad e), s1. rewrite (bind_bad _ _ _ _ _ E). done. }
  unfold bounded. rewrite (bind_good _ _ _ _ _ E). destruct Hr as [[Hc Hl] Ho]. destruct (split_dot_chars v Hc) as (Hc1 & Hc2 & Hl1). destruct (split_dot v) as [cname sc]. cbn [fst snd] in *.
  match goal with |- exists r s', ?m s1 = _ /\ _ => assert (answers name_bounded s1 m) as (r & s2 & E2 & K2 & Hr) end.
  { apply (answers_bind (fun x => match x with Some sc => chars sc /\ (length sc <= 574)%nat | None => True end)).
    { destruct sc as [sc|]; [|by apply answers_ret]. destruct (Hc2 sc eq_refl) as [Hcs Hls]. apply (answers_bind (fun x => x = sc)); [by apply answers_dup|].
      intros x s2 _ ->. apply answers_ret. split; [done|lia]. }
    intros x s2 _ Hx. destruct (32 <? length cname)%nat eqn:E32; [apply answers_bad; by left|]. apply Nat.ltb_ge in E32.
    eapply answers_bind; [by apply decompress_bounded|]. intros [[buf t]|] s3 _ Hd; [|apply answers_bad; by left]. destruct Hd as (Hb & Hlb & Ht).
    apply (answers_bind (fun y => y = until_nul buf)); [by apply answers_dup|]. intros y s4 _ ->. apply answers_ret. unfold name_bounded. cbn. split_and!; [done|lia|done|done]. }
  exists r, s2. split; [done|]. destruct (kept_input _ _ K2) as [Hs2 Ho2]. split; [by eapply same_input_trans|]. destruct r; [|done]. split; [done|]. rewrite Ho2. done.
Qed.
End safe.

(** C14: Unmarshalling a NetBIOS string or name from any bytes, label pointers that lead anywhere
    included, returns: it follows at most five pointers for each of at most ten components and reads only
    inside the data.  A name has at most fifteen bytes and a string at most 575, the
    offset moves on and stays inside; the only errors are a bad name and no memory. *)
Theorem nbt_names_in_bounds (A : Allocator) s old_string old_name :
  inside s ->
  bounded (fun v => chars v /\ (length v <= 575)%nat) s (ndr_pull_nbt_string A NDR_SCALARS old_string) /\
  bounded (fun n => chars (name n) /\ (length (name n) <= 15)%nat /\ is_u32 (type n) /\
             match scope n with Some sc => chars sc /\ (length sc <= 574)%nat | None => True end) s (ndr_pull_nbt_name A NDR_SCALARS old_name).
Proof. intros Hi. split; [by apply nbt_string_bounded|by apply nbt_name_bounded]. Qed.

(** A pointer to itself, and a label. *)
Definition example_pull (l : list Z) : ndr_pull := NdrPull 0 l (Z.of_nat (length l)) 0 0 [] [] [] [] [] 0 0.

Lemma nbt_names_in_bounds_witness :
  (exists s', ndr_pull_nbt_string calloc NDR_SCALARS [] (example_pull [0xC0; 0; 7]) = Ret (Bad NT_STATUS_BAD_NETWORK_NAME, s')) /\
  inside (example_pull [2; 65; 66; 0]).
Proof.
  split; [|by_eval]. destruct (nbt_names_in_bounds calloc (example_pull [0xC0; 0; 7]) [] (Name [] None 0)) as [(r & s' & E & _) _]; [by_eval|].
  exists s'. rewrite E. vm_compute in E. by injection E as <- _.
Defined.
