(* ===== verification/NbtWire.v ===== *)
(** libcli/nbt/nbtname.c, round trips: what names look like on the wire, label pointers
    included, and that they are read back as they were written. *)

From S2P Require Import Prelude Digest Byteorder Ntstatus Charcnv Msrpc Ndr NdrPull NdrPush NdrWire NdrSafe NbtName NbtSafe.
Import Byteorder Charcnv Ndr NbtName.

#[local] Open Scope outcome_scope.
#[local] Open Scope ndr_scope.

(** ** Labels *)

(** A string of labels, with dots between them. *)
Definition dotted (l : list (list Z)) : list Z :=
  match l with [] => [] | a :: l => a ++ concat (cons 46 <$> l) end.

Definition label (a : list Z) : Prop := chars a /\ Forall (fun c => c <> 46) a /\ (1 <= length a <= 62)%nat.

Lemma split_dot_app a r : Forall (fun c => c <> 46) a -> split_dot (a ++ 46 :: r) = (a, Some r).
Proof. induction 1 as [|c a Hc Ha IH]; cbn; [done|]. by rewrite (proj2 (Z.eqb_neq _ _) Hc), IH. Qed.
Lemma split_dot_none a : Forall (fun c => c <> 46) a -> split_dot a = (a, None).
Proof. induction 1 as [|c a Hc Ha IH]; cbn; [done|]. by rewrite (proj2 (Z.eqb_neq _ _) Hc), IH. Qed.

Lemma dotted_cons a b l : dotted (a :: b :: l) = a ++ 46 :: dotted (b :: l).
Proof. done. Qed.

Lemma split_dotted a l : label a -> split_dot (dotted (a :: l)) = (a, match l with [] => None | _ => Some (dotted l) end).
Proof. intros (_ & Ha & _). destruct l; [cbn; rewrite app_nil_r; by apply split_dot_none|]. rewrite dotted_cons. by apply split_dot_app. Qed.

Lemma dotted_nil l : Forall label l -> dotted l = [] -> l = [].
Proof. destruct l as [|a l]; [done|]. intros [(_ & _ & Hl) _]%Forall_cons_1 E. cbn in E. destruct a; [cbn in Hl; lia|done]. Qed.

Lemma dotted_inj l m : Forall label l -> Forall label m -> dotted l = dotted m -> l = m.
Proof.
  revert m. induction l as [|a l IH]; intros m Hl Hm E; [symmetry in E; by apply dotted_nil in E|]. destruct m as [|b m]; [by apply dotted_nil in E|].
  apply Forall_cons_1 in Hl as [Ha Hl], Hm as [Hb Hm]. pose proof (split_dotted a l Ha) as E1. rewrite E, split_dotted in E1 by done. injection E1 as -> E1.
  f_equal. apply IH; [done..|]. destruct l, m; try done. by injection E1.
Qed.

Lemma length_dotted a l : length (dotted (a :: l)) = (length a + match l with [] => 0 | _ => 1 + length (dotted l) end)%nat.
Proof. destruct l; [cbn; by rewrite app_nil_r, Nat.add_0_r|]. rewrite dotted_cons, length_app. done. Qed.

Lemma default_dotted l : default [] (match l with [] => None | _ => Some (dotted l) end) = dotted l.
Proof. by destruct l. Qed.

(** The bytes of the name without a pointer. *)
Fixpoint wire_len (l : list (list Z)) : Z := match l with [] => 1 | a :: l => 1 + Z.of_nat (length a) + wire_len l end.

(** ** Names in a buffer *)

(** The label [a] at [o] of [d], and the rest of the name behind it. *)
Definition label_in (d : list Z) (o : nat) (a : list Z) : Prop :=
  d !! o = Some (Z.of_nat (length a)) /\ slice (S o) (length a) d = a /\ (S o + length a <= length d)%nat.

(** The labels of the name at [o], and where its own bytes end: at a zero byte or behind a
    pointer to a label. *)
Inductive spelled (d : list Z) : nat -> list (list Z) -> nat -> Prop :=
| spelled_end o : d !! o = Some 0 -> spelled d o [] (S o)
| spelled_label o a l e : label a -> label_in d o a -> spelled d (S o + length a) l e -> spelled d o (a :: l) e
| spelled_pointer o t a l e :
    (t < 2 ^ 14)%nat -> d !! o = Some (Z.lor 0xC0 (Z.shiftr (Z.of_nat t) 8)) -> d !! S o = Some (Z.land (Z.of_nat t) 0xFF) ->
    label a -> label_in d t a -> spelled d (S t + length a) l e -> (e <= S (S o))%nat -> spelled d o (a :: l) (S (S o)).

Lemma label_in_app d o a t : label_in d o a -> label_in (d ++ t) o a.
Proof.
  intros (E & Es & Hl). split_and!; [by apply lookup_app_l_Some| |rewrite length_app; lia].
  unfold slice. rewrite drop_app_le by lia. rewrite take_app_le; [done|]. rewrite length_drop. lia.
Qed.

Lemma spelled_app d o l e t : spelled d o l e -> spelled (d ++ t) o l e.
Proof.
  induction 1 as [o E|o a l e Ha Hi H IH|o u a l e Hu E1 E2 Ha Hi H IH He].
  - apply spelled_end. by apply lookup_app_l_Some.
  - apply spelled_label; [done|by apply label_in_app|done].
  - eapply spelled_pointer; [exact Hu|by apply lookup_app_l_Some|by apply lookup_app_l_Some|done|by apply label_in_app|done|done].
Qed.

Lemma spelled_bounds d o l e : spelled d o l e -> (o < e <= length d)%nat.
Proof.
  induction 1 as [o E|o a l e Ha Hi H IH|o u a l e Hu E1 E2 Ha Hi H IH He].
  - apply lookup_lt_Some in E. lia.
  - lia.
  - apply lookup_lt_Some in E2. lia.
Qed.

(** ** Pushing *)

Section push.
Context (A : Allocator) (mem : malloc_always A).
Import Push.
Implicit Types s : ndr_push.

(** A token stands for a string that is at its offset. *)
Definition token_ok (d : list Z) (k : list Z) (o : Z) : Prop :=
  exists a l e, k = dotted (a :: l) /\ Forall label (a :: l) /\ 0 <= o /\ label_in d (Z.to_nat o) a /\ spelled d (S (Z.to_nat o) + length a) l e.

Lemma token_ok_app d k o t : token_ok d k o -> token_ok (d ++ t) k o.
Proof. intros (a & l & e & ? & ? & ? & ? & ?). exists a, l, e. split_and!; [done..|by apply label_in_app|by apply spelled_app]. Qed.

Lemma retrieve_in l k o : ndr_token_retrieve_strcmp l k = Some o -> In (k, o) l.
Proof. induction l as [|[k' o'] l IH]; cbn; [done|]. case_decide as E; cbn in *; [intros [= <-]; subst; by left|intros H; right; by apply IH]. Qed.

Lemma got_memory_ok s : exists a, got_memory A s = Ret (Good tt, set_allocs a s).
Proof. unfold got_memory, NdrPush.alloc. eexists. rewrite (bind_good _ _ s true (set_allocs (S (allocs s)) s)); [done|]. by rewrite mem. Qed.

Lemma store_ok s k o : exists a, NdrPush.ndr_token_store A nbt_string_list set_nbt_string_list k o s = Ret (Good tt, set_nbt_string_list ((k, o) :: nbt_string_list s) (set_allocs a s)).
Proof.
  unfold NdrPush.ndr_token_store, NdrPush.alloc. exists (S (allocs s)).
  rewrite (bind_good _ _ s true (set_allocs (S (allocs s)) s)); [done|]. by rewrite mem.
Qed.

Lemma bytes_ok s bs : ready s -> room s (length bs) ->
  exists s', NdrPush.ndr_push_bytes A bs s = Ret (Good tt, s') /\ ready s' /\ written s' = written s ++ bs /\
    offset s' = offset s + Z.of_nat (length bs) /\ nbt_string_list s' = nbt_string_list s.
Proof.
  intros Hr Hm. destruct (writes_bytes A mem bs s Hr Hm) as (s' & E & W). exists s'.
  split_and!; [done|by eapply wrote_ready|by eapply wrote_written|by eapply wrote_offset|]. by destruct W as (d & al & a & -> & _).
Qed.

Lemma room_small s n : offset s + Z.of_nat n <= 2 ^ 15 -> room s n.
Proof. unfold room, NdrPush.NDR_BASE_MARSHALL_SIZE, MAX_TALLOC_SIZE. lia. Qed.

(** What pushing the name of labels [l] does: it is spelled where the offset was, and every new
    token is good. *)
Definition pushed (l : list (list Z)) s s' : Prop :=
  ready s' /\ offset s <= offset s' <= offset s + wire_len l /\
  (exists bs, written s' = written s ++ bs) /\
  spelled (written s') (length (written s)) l (length (written s')) /\
  forall k o, In (k, o) (nbt_string_list s') -> In (k, o) (nbt_string_list s) \/ (o < offset s' /\ token_ok (written s') k o).

Lemma push_labels_ok l : forall fuel s,
  Forall label l -> (length (dotted l) < fuel)%nat -> ready s ->
  offset s + wire_len l <= 2 ^ 14 ->
  (forall k o, In (k, o) (nbt_string_list s) -> (length k <= length (dotted l))%nat -> o < offset s /\ token_ok (written s) k o) ->
  exists s', push_labels A fuel (dotted l) s = Ret (Good tt, s') /\ pushed l s s'.
Proof.
  induction l as [|a l IH]; intros [|fuel] s Hl Hf Hr Ho Hi; [cbn in *; lia| |cbn in *; lia|].
  { cbn [push_labels dotted]. destruct (bytes_ok s [0] Hr) as (s' & E & Hr' & Hw & Hof & Ht); [apply room_small; change (2 ^ 15) with 32768; change (2 ^ 14) with 16384 in *; cbn [length wire_len] in *; lia|].
    exists s'. split; [done|]. unfold pushed. rewrite Hof. cbn [length dotted wire_len] in *. split_and!; [done|lia|lia|by eexists| |].
    - rewrite Hw, length_app, Nat.add_1_r. apply spelled_end. by rewrite lookup_app_r, Nat.sub_diag by lia.
    - intros k o Hk. left. by rewrite Ht in Hk. }
  apply Forall_cons_1 in Hl as [Ha Hl]. pose proof Ha as (Hca & _ & Hla). cbn [push_labels].
  pose proof (length_dotted a l) as Ld. assert (1 <= wire_len l) as Hwl by (clear; induction l; cbn; lia). cbn [wire_len] in Ho. change (2 ^ 14) with 16384 in Ho. destruct (dotted (a :: l)) as [|c0 s0] eqn:Es; [cbn in Ld; lia|]. rewrite <- Es in *. clear c0 s0 Es.
  rewrite (bind_good (get nbt_string_list) _ s (nbt_string_list s) s) by done. pose proof (length_written s Hr) as Lw.
  destruct (ndr_token_retrieve_strcmp (nbt_string_list s) (dotted (a :: l))) as [o|] eqn:Et.
  - apply retrieve_in in Et. destruct (Hi _ _ Et (le_n _)) as (Hlt & b & m & e & Ek & Hbm & H0 & Hlb & Hsp).
    apply dotted_inj in Ek; [|by constructor|done]. injection Ek as <- <-.
    change (2 ^ 14) with 16384 in *. rewrite (proj2 (Z.ltb_ge _ _)) by lia.
    destruct (bytes_ok s [Z.lor 0xC0 (Z.shiftr o 8); Z.land o 0xFF] Hr) as (s' & E & Hr' & Hw & Hof & Ht); [apply room_small; change (2 ^ 15) with 32768; cbn [length]; lia|].
    exists s'. split; [done|]. unfold pushed. rewrite Hof. cbn [length wire_len] in *. split_and!; [done|lia|lia|by eexists| |].
    + rewrite Hw, length_app. cbn [length]. replace (length (written s) + 2)%nat with (S (S (length (written s)))) by lia.
      apply (spelled_pointer _ _ (Z.to_nat o) a l e).
      * change (2 ^ 14)%nat with (Z.to_nat 16384). lia.
      * rewrite lookup_app_r, Nat.sub_diag by lia. by rewrite Z2Nat.id by lia.
      * rewrite lookup_app_r by lia. replace (S (length (written s)) - length (written s))%nat with 1%nat by lia. cbn. by rewrite Z2Nat.id by lia.
      * done.
      * by apply label_in_app.
      * by apply spelled_app.
      * apply spelled_bounds in Hsp. lia.
    + intros k o' Hk. left. by rewrite Ht in Hk.
  - rewrite (split_dotted a l Ha). rewrite (proj2 (Z.leb_gt _ _)) by lia.
    destruct (got_memory_ok s) as (al & Em). rewrite (bind_good _ _ _ _ _ Em). set (s1 := set_allocs al s).
    rewrite (bind_good (get offset) _ s1 (offset s) s1) by done.
    destruct (store_ok s1 (dotted (a :: l)) (offset s)) as (al2 & Est). rewrite (bind_good _ _ _ _ _ Est).
    set (s2 := set_nbt_string_list _ _). assert (ready s2) as Hr2 by done.
    destruct (bytes_ok s2 (Z.of_nat (length a) :: a) Hr2) as (s3 & E3 & Hr3 & Hw3 & Hof3 & Ht3); [apply room_small; change (2 ^ 15) with 32768; change (offset s2) with (offset s); change (2 ^ 14) with 16384 in *; cbn [length wire_len] in *; lia|].
    rewrite (bind_good _ _ _ _ _ E3), default_dotted. change (written s2) with (written s) in Hw3. change (offset s2) with (offset s) in Hof3. cbn [length] in Hof3.
    change (nbt_string_list s2) with ((dotted (a :: l), offset s) :: nbt_string_list s) in Ht3.
    assert (length (dotted l) < length (dotted (a :: l)))%nat as Hshort by (rewrite Ld; destruct l; cbn; lia).
    destruct (IH fuel s3 Hl) as (s' & E' & Hr' & Ho' & (bs & Hw') & Hsp & Htok).
    + lia.
    + done.
    + rewrite Hof3. cbn [wire_len] in Ho. lia.
    + intros k o Hk Hkl. rewrite Ht3 in Hk. destruct Hk as [Ek|Hk]; [apply (f_equal (fun p => length p.1)) in Ek; cbn [fst] in Ek; lia|]. destruct (Hi k o Hk) as [Hlt Hok]; [lia|]. split; [lia|]. rewrite Hw3. by apply token_ok_app.
    + assert (label_in (written s') (length (written s)) a) as Hli.
      { rewrite Hw', Hw3. apply label_in_app. split_and!; [by rewrite lookup_app_r, Nat.sub_diag by lia| |rewrite length_app; cbn; lia].
        unfold slice. rewrite drop_app_ge by lia. replace (S (length (written s)) - length (written s))%nat with 1%nat by lia. cbn. by rewrite firstn_all. }
      assert (length (written s3) = S (length (written s)) + length a)%nat as Lw3 by (rewrite Hw3, length_app; cbn; lia). rewrite Lw3 in Hsp.
      exists s'. split; [done|]. split_and!; [done|lia|cbn [wire_len]; lia|exists ((Z.of_nat (length a) :: a) ++ bs); by rewrite Hw', Hw3, <- app_assoc| |].
      * by apply spelled_label.
      * intros k o Hk. destruct (Htok k o Hk) as [Hin|]; [|by right]. rewrite Ht3 in Hin. destruct Hin as [Ek|Hin]; [|by left]. right.
        pose proof (f_equal fst Ek) as Ek1. pose proof (f_equal snd Ek) as Ek2. cbn [fst snd] in Ek1, Ek2. subst k o. split; [lia|].
        exists a, l, (length (written s')). replace (Z.to_nat (offset s)) with (length (written s)) by lia. split_and!; [done|by constructor|apply Hr|done|done].
Qed.
End push.

(** ** Pulling *)

Section pull.
Context (A : Allocator) (mem : malloc_always A).
Import Pull.
Implicit Types s : ndr_pull.

(** The data of [s] starts with [d]. *)
Definition covers (d : list Z) s : Prop :=
  (exists post, data s = d ++ post) /\ Z.of_nat (length d) <= data_size s <= Z.of_nat (length (data s)) /\ data_size s < 2 ^ 31.

Lemma covers_allocs d s a : covers d s -> covers d (set_allocs a s).
Proof. done. Qed.

Lemma dup_ok v s : exists a, dup A v s = Ret (Good v, set_allocs a s).
Proof.
  unfold dup, NdrPull.alloc. exists (S (allocs s)). rewrite (bind_good _ _ s (At (allocs s) 0) (set_allocs (S (allocs s)) s)); [done|]. by rewrite mem.
Qed.

Lemma load_byte d s o x : covers d s -> d !! o = Some x -> NdrPull.load 1 CVAL (Z.of_nat o) s = Ret (Good x, s).
Proof.
  intros ((post & E) & Hl & _) Hx. pose proof (lookup_lt_Some _ _ _ Hx) as Ho. unfold NdrPull.load. rewrite E, length_app, decide_True by lia.
  unfold CVAL. rewrite Nat2Z.id, lookup_app_l, Hx by done. done.
Qed.

Lemma load_label d s o a : covers d s -> label a -> label_in d o a ->
  NdrPull.load (Z.of_nat (length a)) (fun d i => until_nul (slice i (Z.to_nat (Z.of_nat (length a))) d)) (Z.of_nat (S o)) s = Ret (Good a, s).
Proof.
  intros ((post & E) & Hl & _) (Hc & _) (_ & Hs & Ho). unfold NdrPull.load. rewrite E, length_app, decide_True by lia.
  rewrite !Nat2Z.id. do 2 f_equal. assert (slice (S o) (length a) (d ++ post) = a) as ->.
  { unfold slice in *. rewrite drop_app_le by lia. rewrite take_app_le; [done|]. rewrite length_drop. lia. }
  f_equal. unfold until_nul. assert (list_find (fun b => b = 0) a = None) as ->; [|cbn; apply firstn_all].
  apply list_find_None. eapply Forall_impl; [|exact Hc]. intros c Hc0. cbn in *. lia.
Qed.

(** The byte before a label, and before a pointer. *)
Lemma label_byte a : label a -> (Z.of_nat (length a) =? 0) = false /\ Z.land (Z.of_nat (length a)) 0xC0 = 0.
Proof.
  intros (_ & _ & Hl). split; [apply Z.eqb_neq; lia|].
  assert (Forall (fun n => Z.land (Z.of_nat n) 0xC0 = 0) (seq 0 63)) as HF by by_eval.
  apply (Forall_lookup_1 _ _ (length a) _ HF). apply lookup_seq. lia.
Qed.

Lemma pointer_byte t : (t < 2 ^ 14)%nat ->
  let b := Z.lor 0xC0 (Z.shiftr (Z.of_nat t) 8) in
  (b =? 0) = false /\ (Z.land b 0xC0 =? 0xC0) = true /\ Z.lor (Z.shiftl (Z.land b 0x3F) 8) (Z.land (Z.of_nat t) 0xFF) = Z.of_nat t.
Proof.
  intros Ht b. change (2 ^ 14)%nat with (Z.to_nat 16384) in Ht.
  assert (Forall (fun h => (Z.lor 0xC0 (Z.of_nat h) =? 0) = false /\ (Z.land (Z.lor 0xC0 (Z.of_nat h)) 0xC0 =? 0xC0) = true /\ Z.land (Z.lor 0xC0 (Z.of_nat h)) 0x3F = Z.of_nat h) (seq 0 64)) as HF by by_eval.
  assert (Z.shiftr (Z.of_nat t) 8 = Z.of_nat (t / 256)) as Eh by (rewrite Z.shiftr_div_pow2 by lia; rewrite Nat2Z.inj_div; done).
  assert (seq 0 64 !! (t / 256)%nat = Some (t / 256)%nat) as El by (apply lookup_seq; split; [lia|]; apply Nat.Div0.div_lt_upper_bound; lia).
  pose proof (Forall_lookup_1 _ _ _ _ HF El) as (H0 & H1 & H2). rewrite <- Eh in H0, H1, H2. split_and!; [done|done|].
  unfold b. rewrite H2. apply Z.bits_inj'. intros n Hn. rewrite Z.lor_spec, Z.land_spec. change 0xFF with (Z.ones 8). destruct (decide (n < 8)).
  - rewrite Z.shiftl_spec_low by lia. rewrite Z.ones_spec_low by lia. by rewrite andb_true_r.
  - rewrite Z.shiftl_spec_high by lia. rewrite Z.ones_spec_high by lia. rewrite andb_false_r, orb_false_r, Z.shiftr_spec by lia. f_equal. lia.
Qed.

Lemma component_end d o mx s n : covers d s -> d !! o = Some 0 ->
  ndr_pull_component A (S n) (Z.of_nat o) mx s = Ret (Good (None, Z.of_nat (S o), Z.max mx (Z.of_nat (S o))), s).
Proof.
  intros Hc E. pose proof (lookup_lt_Some _ _ _ E) as Ho. pose proof Hc as (Hp & Hl & Hs). cbn [ndr_pull_component].
  rewrite (bind_good (get data_size) _ s (data_size s) s) by done. rewrite (proj2 (Z.leb_gt _ _)) by lia.
  rewrite (bind_good _ _ _ _ _ (load_byte d s o 0 Hc E)). cbn [Z.eqb]. unfold add32. rewrite u32_id by (unfold is_u; lia). unfold ret. by replace (Z.of_nat o + 1) with (Z.of_nat (S o)) by lia.
Qed.

Lemma component_label d o a mx s n : covers d s -> label a -> label_in d o a -> (S o + length a < length d)%nat ->
  exists al, ndr_pull_component A (S n) (Z.of_nat o) mx s =
    Ret (Good (Some a, Z.of_nat (S o + length a), Z.max mx (Z.of_nat (S o + length a))), set_allocs al s).
Proof.
  intros Hc Ha Hi Hlt. pose proof Hi as (E & _ & Ho). pose proof Hc as (Hp & Hl & Hs). pose proof (label_byte a Ha) as [Hb0 Hb1]. destruct (dup_ok a s) as (al & Ed).
  exists al. cbn [ndr_pull_component].
  rewrite (bind_good (get data_size) _ s (data_size s) s) by done. rewrite (proj2 (Z.leb_gt _ _)) by lia.
  rewrite (bind_good _ _ _ _ _ (load_byte d s o _ Hc E)), Hb0, Hb1. cbn [Z.eqb negb].
  unfold add32. assert (forall x, 0 <= x < 2 ^ 32 -> u32 x = x) as U by (intros; apply u32_id; unfold is_u; lia). pose proof Ha as (_ & _ & Hla).
  rewrite !U by lia. rewrite (proj2 (Z.ltb_ge _ _)) by lia. replace (1 + Z.of_nat o) with (Z.of_nat (S o)) by lia.
  rewrite (bind_good _ _ _ _ _ (load_label d s o a Hc Ha Hi)), (bind_good _ _ _ _ _ Ed). unfold ret.
  replace (Z.of_nat o + (Z.of_nat (length a) + 1)) with (Z.of_nat (S o + length a)) by lia. done.
Qed.

Lemma component_pointer d o t mx s n : covers d s -> (t < 2 ^ 14)%nat ->
  d !! o = Some (Z.lor 0xC0 (Z.shiftr (Z.of_nat t) 8)) -> d !! S o = Some (Z.land (Z.of_nat t) 0xFF) ->
  ndr_pull_component A (S n) (Z.of_nat o) mx s = ndr_pull_component A n (Z.of_nat t) (Z.max (Z.max mx (Z.of_nat (S (S o)))) (Z.of_nat t)) s.
Proof.
  intros Hc Ht E1 E2. pose proof (pointer_byte t Ht) as (Hb0 & Hb1 & Hb2). pose proof (lookup_lt_Some _ _ _ E2) as Ho. pose proof Hc as (Hp & Hl & Hs).
  cbn [ndr_pull_component]. rewrite (bind_good (get data_size) _ s (data_size s) s) by done. rewrite (proj2 (Z.leb_gt _ _)) by lia.
  rewrite (bind_good _ _ _ _ _ (load_byte d s o _ Hc E1)), Hb0, Hb1.
  unfold add32. assert (forall x, 0 <= x < 2 ^ 32 -> u32 x = x) as U by (intros; apply u32_id; unfold is_u; lia).
  rewrite !U by lia. rewrite (proj2 (Z.leb_gt _ _)) by lia. replace (1 + Z.of_nat o) with (Z.of_nat (S o)) by lia.
  rewrite (bind_good _ _ _ _ _ (load_byte d s (S o) _ Hc E2)), Hb2. replace (Z.of_nat o + 2) with (Z.of_nat (S (S o))) by lia. done.
Qed.

Definition extend (name : option (list Z)) (l : list (list Z)) : option (list Z) :=
  match name, l with
  | Some v, _ => Some (v ++ concat (cons 46 <$> l))
  | None, [] => None
  | None, _ => Some (dotted l)
  end.

Lemma components_ok d l : forall n name o e mx s,
  covers d s -> spelled d o l e -> (length l < n)%nat -> 0 <= mx ->
  exists al, pull_components A n name (Z.of_nat o) mx s = Ret (Good (extend name l, Z.max mx (Z.of_nat e)), set_allocs al s).
Proof.
  induction l as [|a l IH]; intros [|n] name o e mx s Hc Hsp Hn Hm; [lia| |cbn in Hn; lia|]; cbn [pull_components].
  - inversion Hsp as [o' E| |]; subst. rewrite (bind_good _ _ _ _ _ (component_end d o mx s 4 Hc E)). exists (allocs s). unfold ret.
    destruct name; cbn; rewrite ?app_nil_r; by destruct s.
  - assert (exists al o1 e1 mx1, ndr_pull_component A 5 (Z.of_nat o) mx s = Ret (Good (Some a, Z.of_nat o1, mx1), set_allocs al s) /\
      spelled d o1 l e1 /\ 0 <= mx1 /\ Z.max mx1 (Z.of_nat e1) = Z.max mx (Z.of_nat e)) as (al & o1 & e1 & mx1 & E & Hsp1 & Hm1 & Hmx).
    { inversion Hsp as [|o' a' l' e' Ha Hi Hr|o' t a' l' e' Ht E1 E2 Ha Hi Hr He]; subst.
      - pose proof (spelled_bounds _ _ _ _ Hr) as Hb. destruct (component_label d o a mx s 4 Hc Ha Hi) as (al & E); [lia|]. eexists al, _, e, _. split; [exact E|]. split; [done|]. lia.
      - pose proof (spelled_bounds _ _ _ _ Hr) as Hb. rewrite (component_pointer d o t mx s 4 Hc Ht E1 E2).
        destruct (component_label d t a (Z.max (Z.max mx (Z.of_nat (S (S o)))) (Z.of_nat t)) s 3 Hc Ha Hi) as (al & E); [lia|]. eexists al, _, e', _. split; [exact E|]. split; [done|]. lia. }
    rewrite (bind_good _ _ _ _ _ E). cbn in Hn.
    destruct name as [v|].
    + destruct (dup_ok (v ++ 46 :: a) (set_allocs al s)) as (al2 & Ed). rewrite (bind_good _ _ _ _ _ Ed).
      destruct (IH n (Some (v ++ 46 :: a)) o1 e1 mx1 (set_allocs al2 (set_allocs al s))) as (al3 & ->); [done|done|lia|done|]. exists al3. rewrite Hmx. cbn. by rewrite <- app_assoc.
    + destruct (IH n (Some a) o1 e1 mx1 (set_allocs al s)) as (al3 & ->); [done|done|lia|done|]. exists al3. by rewrite Hmx.
Qed.

(** A string that is spelled at the offset is read. *)
Lemma pull_string_ok d l e s old :
  covers d s -> 0 <= offset s -> spelled d (Z.to_nat (offset s)) l e -> (length l <= 9)%nat ->
  exists al, ndr_pull_nbt_string A NDR_SCALARS old s = Ret (Good (dotted l), set_offset (Z.of_nat e) (set_allocs al s)).
Proof.
  intros Hc Ho Hsp Hl. unfold ndr_pull_nbt_string. change (isset NDR_SCALARS NDR_SCALARS) with true. cbn [negb].
  rewrite (bind_good (get offset) _ s (offset s) s) by done. pose proof (spelled_bounds _ _ _ _ Hsp) as Hb.
  destruct (components_ok d l MAX_COMPONENTS None (Z.to_nat (offset s)) e (offset s) s Hc Hsp) as (al & E); [unfold MAX_COMPONENTS; lia|done|]. rewrite Z2Nat.id in E by done.
  rewrite (bind_good _ _ _ _ _ E). rewrite Z.max_r by lia. destruct l as [|a l]; cbn [extend].
  - destruct (dup_ok [] (set_allocs al s)) as (al2 & Ed). rewrite (bind_good _ _ _ _ _ Ed). by exists al2.
  - by exists al.
Qed.
End pull.

(** ** Names *)

Lemma halves_byte b : is_byte b ->
  (is_half (65 + Z.shiftr b 4) = true /\ is_half (65 + Z.land b 0xF) = true) /\
  Z.lor (Z.shiftl (65 + Z.shiftr b 4 - 65) 4) (65 + Z.land b 0xF - 65) = b.
Proof.
  intros [H0 H1]. change (2 ^ 8) with 256 in H1.
  assert (Forall (fun b => (is_half (65 + Z.shiftr b 4) = true /\ is_half (65 + Z.land b 0xF) = true) /\
    Z.lor (Z.shiftl (65 + Z.shiftr b 4 - 65) 4) (65 + Z.land b 0xF - 65) = b) (Z.of_nat <$> seq 0 256)) as HF by by_eval.
  apply (Forall_lookup_1 _ _ (Z.to_nat b) _ HF). rewrite list_lookup_fmap. apply fmap_Some. exists (Z.to_nat b). rewrite Z2Nat.id by lia. split; [|done]. apply lookup_seq. lia.
Qed.

(** Letters of bytes are pairs again. *)
Lemma paired_halves d : bytes d -> paired (concat (halves <$> d)) = Some d.
Proof.
  induction 1 as [|b d Hb Hd IH]; [done|]. cbn [fmap list_fmap concat halves app paired]. rewrite IH. destruct (halves_byte b Hb) as [[-> ->] Eb]. cbn [andb]. rewrite Eb. done.
Qed.

Lemma halves_label d : bytes d -> Forall (fun c => 65 <= c <= 80) (concat (halves <$> d)) /\ length (concat (halves <$> d)) = (2 * length d)%nat.
Proof.
  induction 1 as [|b d Hb Hd [IH IHl]]; [done|]. cbn [fmap list_fmap concat halves app length]. destruct (halves_byte b Hb) as [[E1 E2] _]. unfold is_half in *.
  split; [|lia]. constructor; [lia|]. constructor; [lia|done].
Qed.

Definition no_space (s : list Z) : Prop := forall l, s <> l ++ [32].

Lemma spaces_inj e n j k : no_space e -> no_space n -> e ++ replicate j 32 = n ++ replicate k 32 -> e = n.
Proof.
  intros He Hn. revert k. induction j as [|j IH]; intros k E.
  - destruct k as [|k]; [by rewrite !app_nil_r in E|]. rewrite replicate_S_end, app_assoc, app_nil_r in E. by destruct (He _ E).
  - destruct k as [|k].
    + rewrite replicate_S_end, app_assoc, app_nil_r in E. symmetry in E. by destruct (Hn _ E).
    + rewrite !replicate_S_end, !app_assoc in E. apply app_inj_tail in E as [E _]. by apply (IH k).
Qed.

(** The bytes a compressed name stands for. *)
Definition name_bytes (n : list Z) (t : Z) : list Z := n ++ replicate (15 - length n) (if decide (n = [42]) then 0 else 32) ++ [u8 t].

Lemma compress_bytes n t : (length n <= 15)%nat -> compress_name true n t = Some (concat (halves <$> name_bytes n t)).
Proof.
  intros Hl. unfold compress_name. rewrite (proj2 (Nat.ltb_ge _ _)) by lia. cbn [negb]. unfold name_bytes. rewrite !fmap_app, !concat_app. cbn [fmap list_fmap concat]. by rewrite app_nil_r.
Qed.

Lemma name_bytes_ok n t : chars n -> bytes (name_bytes n t).
Proof.
  intros Hn. unfold name_bytes. repeat (apply Forall_app; split).
  - eapply Forall_impl; [|exact Hn]. intros c Hc. unfold is_byte, is_u. change (2 ^ 8) with 256. cbn in Hc. lia.
  - case_decide; apply replicate_bytes; by_eval.
  - constructor; [apply u8_range|done].
Qed.

Lemma length_name_bytes n t : (length n <= 15)%nat -> length (name_bytes n t) = 16%nat.
Proof. intros Hl. unfold name_bytes. rewrite !length_app, length_replicate. cbn. lia. Qed.

Lemma s8_small t : 0 <= t < 128 -> u32 (s8 (u8 t)) = t.
Proof. intros Ht. unfold s8, u8, u32. rewrite (Z.mod_small t) by lia. rewrite !Z.mod_small; lia. Qed.

(** What a name decompresses to. *)
Lemma decompress_compressed n t : chars n -> (length n <= 15)%nat -> no_space n -> 0 <= t < 128 ->
  exists buf, decompress_name (concat (halves <$> name_bytes n t) ++ [0]) = Ret (Some (buf, t)) /\ until_nul buf = n.
Proof.
  intros Hc Hl Hn Ht. pose proof (name_bytes_ok n t Hc) as Hb. pose proof (length_name_bytes n t Hl) as L16.
  assert (chars (concat (halves <$> name_bytes n t))) as Hch by (eapply Forall_impl; [|apply halves_label; exact Hb]; intros c; cbn; lia).
  pose proof (decompress_spec _ Hch) as Hd. rewrite paired_halves in Hd by done. destruct Hd as (e & k & buf & Ee & He & E & Eu).
  unfold split_type in *. rewrite L16 in *. cbn [Nat.eqb fst snd] in *.
  assert (take 15 (name_bytes n t) = n ++ replicate (15 - length n) (if decide (n = [42]) then 0 else 32)) as E15.
  { unfold name_bytes. rewrite app_assoc. apply take_app_length'. rewrite length_app, length_replicate. lia. }
  assert (name_bytes n t !! 15%nat = Some (u8 t)) as El.
  { unfold name_bytes. rewrite app_assoc. rewrite lookup_app_r by (rewrite length_app, length_replicate; lia). rewrite length_app, length_replicate. by replace (15 - (length n + (15 - length n)))%nat with 0%nat by lia. }
  exists buf. rewrite E, El. cbn [default id]. rewrite s8_small by done. split; [done|]. rewrite Eu. rewrite E15 in Ee. case_decide as E42.
  - subst n. cbn in Ee. destruct k as [|k].
    + rewrite app_nil_r in Ee. rewrite <- Ee. done.
    + rewrite replicate_S_end, app_assoc in Ee. change [42; 0; 0; 0; 0; 0; 0; 0; 0; 0; 0; 0; 0; 0; 0] with ([42; 0; 0; 0; 0; 0; 0; 0; 0; 0; 0; 0; 0; 0] ++ [0]) in Ee. by apply app_inj_tail in Ee as [_ ?].
  - symmetry in Ee. apply spaces_inj in Ee; [|done..]. subst e. unfold until_nul. assert (list_find (fun b => b = 0) n = None) as ->; [|cbn; apply firstn_all].
    apply list_find_None. eapply Forall_impl; [|exact Hc]. intros c Hc0. cbn in *. lia.
Qed.

(** Names that the wire can carry: a name of up to fifteen bytes that does not end in a space, a type
    without the eighth bit, and a scope of up to eight labels. *)
Definition name_fits (n : nbt_name) : Prop :=
  chars (name n) /\ (length (name n) <= 15)%nat /\ no_space (name n) /\ 0 <= type n < 128 /\
  match scope n with
  | None => True
  | Some sc => exists l, sc = dotted l /\ l <> [] /\ Forall label l /\ (length l <= 8)%nat
  end.

(** The most bytes a name takes. *)
Definition name_room (n : nbt_name) : Z := 35 + Z.of_nat (length (default [] (scope n))).

Fixpoint push_names (A : Allocator) (ns : list nbt_name) : M ndr_push unit :=
  match ns with [] => ret tt | n :: ns => ndr_push_nbt_name A NDR_SCALARS n;; push_names A ns end.
Fixpoint pull_names (A : Allocator) (k : nat) : M ndr_pull (list nbt_name) :=
  match k with
  | O => ret []
  | S k => do n <- ndr_pull_nbt_name A NDR_SCALARS (Name [] None 0); do ns <- pull_names A k; ret (n :: ns)
  end.

Section names.
Context (A : Allocator) (mem : malloc_always A).




Lemma cname_label n t : chars n -> (length n <= 15)%nat -> label (concat (halves <$> name_bytes n t)) /\ length (concat (halves <$> name_bytes n t)) = 32%nat.
Proof.
  intros Hc Hl. destruct (halves_label _ (name_bytes_ok n t Hc)) as [HF HL]. rewrite length_name_bytes in HL by done. split; [|done]. split_and!; [| |lia|lia].
  - eapply Forall_impl; [|exact HF]. cbn. lia.
  - eapply Forall_impl; [|exact HF]. cbn. lia.
Qed.

Lemma wire_len_dotted a l : wire_len (a :: l) = Z.of_nat (length (dotted (a :: l))) + 2.
Proof. revert a. induction l as [|b l IH]; intros a; [cbn; rewrite app_nil_r; lia|]. rewrite length_dotted. cbn [wire_len] in *. rewrite IH. lia. Qed.

(** The string that is pushed for a name, by its labels. *)
Lemma fullname n : name_fits n ->
  exists l, Forall label (concat (halves <$> name_bytes (name n) (type n)) :: l) /\ (length l <= 8)%nat /\
    match scope n with Some sc => sc = dotted l /\ l <> [] | None => l = [] end /\
    dotted (concat (halves <$> name_bytes (name n) (type n)) :: l) =
      match scope n with Some sc => concat (halves <$> name_bytes (name n) (type n)) ++ 46 :: sc | None => concat (halves <$> name_bytes (name n) (type n)) end /\
    wire_len (concat (halves <$> name_bytes (name n) (type n)) :: l) <= name_room n.
Proof.
  intros (Hc & Hl & _ & _ & Hs). destruct (cname_label (name n) (type n) Hc Hl) as [Hlab H32]. unfold name_room. destruct (scope n) as [sc|].
  - destruct Hs as (l & -> & Hne & Hll & H8). exists l. assert (dotted (concat (halves <$> name_bytes (name n) (type n)) :: l) = concat (halves <$> name_bytes (name n) (type n)) ++ 46 :: dotted l) as E by (by destruct l).
    split_and!; [by constructor|done|done|done|done|]. rewrite wire_len_dotted, E, length_app, H32. cbn [length default id]. lia.
  - exists []. split_and!; [by constructor|cbn; lia|done|cbn; by rewrite app_nil_r|]. rewrite wire_len_dotted. cbn [dotted fmap list_fmap concat]. rewrite app_nil_r, H32. cbn. lia.
Qed.

Lemma push_name_ok n (s : ndr_push) :
  name_fits n -> ready s -> Push.offset s + name_room n <= 2 ^ 14 ->
  (forall k o, In (k, o) (Push.nbt_string_list s) -> o < Push.offset s /\ token_ok (written s) k o) ->
  exists s' l, ndr_push_nbt_name A NDR_SCALARS n s = Ret (Good tt, s') /\ Push.offset s' <= Push.offset s + name_room n /\
    pushed (concat (halves <$> name_bytes (name n) (type n)) :: l) s s' /\ (length l <= 8)%nat /\
    match scope n with Some sc => sc = dotted l /\ l <> [] | None => l = [] end.
Proof.
  intros Hf Hr Ho Htok. destruct (fullname n Hf) as (l & Hl & H8 & Hsc & Efull & Hwl). pose proof Hf as (_ & Hlen & _).
  unfold ndr_push_nbt_name. change (isset NDR_SCALARS NDR_SCALARS) with true. cbn [negb].
  rewrite (proj2 (Nat.ltb_ge _ _)) by lia. rewrite (bind_good (NdrPush.alloc A) _ s true (Push.set_allocs (S (Push.allocs s)) s)) by (unfold NdrPush.alloc; by rewrite mem).
  rewrite compress_bytes by done. set (cname := concat _) in *.
  assert (exists a, (match scope n with Some sc => got_memory A;; ret (cname ++ 46 :: sc) | None => ret cname end) (Push.set_allocs (S (Push.allocs s)) s) =
    Ret (Good (dotted (cname :: l)), Push.set_allocs a s)) as (a & E).
  { rewrite Efull. destruct (scope n) as [sc|]; [|by eexists]. destruct (got_memory_ok A mem (Push.set_allocs (S (Push.allocs s)) s)) as (a & Em).
    exists a. by rewrite (bind_good _ _ _ _ _ Em). }
  rewrite (bind_good _ _ _ _ _ E). unfold ndr_push_nbt_string. change (isset NDR_SCALARS NDR_SCALARS) with true. cbn [negb default id].
  destruct (push_labels_ok A mem (cname :: l) (S (length (dotted (cname :: l)))) (Push.set_allocs a s)) as (s' & E' & Hp); [done|lia|done|change (Push.offset (Push.set_allocs a s)) with (Push.offset s); lia|by intros k o Hk _; apply Htok|].
  exists s', l. split; [exact E'|]. destruct Hp as (Hr' & Ho' & Hw & Hsp & Ht). change (Push.offset (Push.set_allocs a s)) with (Push.offset s) in Ho'.
  split_and!; [lia| |done|done]. split_and!; [done|lia|lia|done|done|done].
Qed.

Lemma pull_name_ok n l (s : ndr_pull) d e :
  name_fits n -> (length l <= 8)%nat -> match scope n with Some sc => sc = dotted l /\ l <> [] | None => l = [] end ->
  covers d s -> 0 <= Pull.offset s -> spelled d (Z.to_nat (Pull.offset s)) (concat (halves <$> name_bytes (name n) (type n)) :: l) e ->
  exists a, ndr_pull_nbt_name A NDR_SCALARS (Name [] None 0) s = Ret (Good n, Pull.set_offset (Z.of_nat e) (Pull.set_allocs a s)).
Proof.
  intros (Hc & Hlen & Hn & Ht & _) H8 Hsc Hd Ho Hsp. destruct (cname_label (name n) (type n) Hc Hlen) as [Hlab H32].
  destruct (decompress_compressed (name n) (type n) Hc Hlen Hn Ht) as (buf & Ed & Eu). set (cname := concat _) in *.
  unfold ndr_pull_nbt_name. change (isset NDR_SCALARS NDR_SCALARS) with true. cbn [negb].
  destruct (pull_string_ok A mem d (cname :: l) e s [] Hd Ho Hsp) as (a & E); [cbn; lia|]. rewrite (bind_good _ _ _ _ _ E). rewrite (split_dotted cname l Hlab).
  set (s1 := Pull.set_offset _ _).
  assert (exists b, (match match l with [] => None | _ => Some (dotted l) end with Some sc => do sc <- dup A sc; ret (Some sc) | None => ret None end) s1 =
    Ret (Good (scope n), Pull.set_allocs b s1)) as (b & E1).
  { destruct (scope n) as [sc|].
    - destruct Hsc as [-> Hne]. destruct l as [|x l]; [done|]. destruct (dup_ok A mem (dotted (x :: l)) s1) as (b & Eb). exists b. by rewrite (bind_good _ _ _ _ _ Eb).
    - subst l. by exists (Pull.allocs s1). }
  rewrite (bind_good _ _ _ _ _ E1). rewrite (proj2 (Nat.ltb_ge _ _)) by lia.
  rewrite (bind_good (lift (decompress_name (cname ++ [0]))) _ (Pull.set_allocs b s1) (Some (buf, type n)) (Pull.set_allocs b s1)) by (unfold lift; by rewrite Ed).
  destruct (dup_ok A mem (until_nul buf) (Pull.set_allocs b s1)) as (b2 & Eb2). rewrite (bind_good _ _ _ _ _ Eb2). exists b2. rewrite Eu. by destruct n.
Qed.

Lemma names_ok ns : forall (s : ndr_push),
  Forall name_fits ns -> ready s -> Push.offset s + fold_right (fun n k => name_room n + k) 0 ns <= 2 ^ 14 ->
  (forall k o, In (k, o) (Push.nbt_string_list s) -> o < Push.offset s /\ token_ok (written s) k o) ->
  exists s', push_names A ns s = Ret (Good tt, s') /\ ready s' /\ (exists bs, written s' = written s ++ bs) /\
    forall t, covers (written s') t -> Pull.offset t = Push.offset s ->
    exists a, pull_names A (length ns) t = Ret (Good ns, Pull.set_offset (Push.offset s') (Pull.set_allocs a t)).
Proof.
  induction ns as [|n ns IH]; intros s Hns Hr Ho Htok; cbn [push_names pull_names length fold_right] in *.
  { exists s. split_and!; [done|done|by exists []; rewrite app_nil_r|]. intros t _ Et. exists (Pull.allocs t). rewrite <- Et. by destruct t. }
  apply Forall_cons_1 in Hns as [Hn Hns]. assert (0 <= fold_right (fun n k => name_room n + k) 0 ns) as Hpos by (clear; induction ns; cbn [fold_right]; unfold name_room in *; lia).
  destruct (push_name_ok n s Hn Hr) as (s1 & l & E1 & Ho1 & (Hr1 & _ & (bs1 & Hw1) & Hsp & Ht1) & H8 & Hsc); [lia|done|].
  rewrite (bind_good _ _ _ _ _ E1). pose proof (length_written s Hr) as Lw. pose proof (length_written s1 Hr1) as Lw1.
  assert (Push.offset s <= Push.offset s1) as Hle by (rewrite <- Lw, <- Lw1, Hw1, length_app; lia).
  destruct (IH s1 Hns Hr1) as (s' & E' & Hr' & (bs & Hw') & Hpull); [lia| |].
  { intros k o Hk. destruct (Ht1 k o Hk) as [Hin|]; [|done]. destruct (Htok k o Hin) as [Hlt Hok]. split; [lia|]. rewrite Hw1. by apply token_ok_app. }
  exists s'. split_and!; [done|done|exists (bs1 ++ bs); by rewrite Hw', Hw1, <- app_assoc|].
  intros t Ht Et. destruct (pull_name_ok n l t (written s') (length (written s1)) Hn H8 Hsc Ht) as (a & Ea); [destruct Hr as (_ & ? & _); lia| |].
  { rewrite Et, <- Lw, Nat2Z.id, Hw'. by apply spelled_app. }
  rewrite (bind_good _ _ _ _ _ Ea). destruct (Hpull (Pull.set_offset (Z.of_nat (length (written s1))) (Pull.set_allocs a t))) as (b & Eb); [done|done|].
  rewrite (bind_good _ _ _ _ _ Eb). by exists b.
Qed.
End names.


(** ** Examples *)

Definition example_names : list nbt_name :=
  [Name [87; 83] (Some [99; 46; 100]) 0x20; Name [87; 83] (Some [99; 46; 100]) 0x20; Name [42] (Some [100]) 0].

