(* ===== verification/NbtWins.v ===== *)
(** libcli/nbt/nbtname.c, the format of WINS replication, and the names that are called and
    printed. *)

From stdpp Require Import strings.
From S2P Require Import Prelude Digest Byteorder Ntstatus Iconv Charcnv Unistr Msrpc NtlmsspSign Ndr NdrPull NdrPush NdrWire NdrSafe NbtName NbtSafe NbtWire.
Import Byteorder Charcnv Unistr Ndr NbtName.
Import NtlmsspSign(str).

#[local] Open Scope outcome_scope.
#[local] Open Scope ndr_scope.

(** ** WINS replication *)

Lemma trim_back_spaces n k : no_space n -> trim_back (n ++ replicate k 32) = n.
Proof.
  intros Hn. assert (forall k, trim_back (replicate k 32) = []) as Hr by (intros j; induction j as [|j IH]; cbn; by rewrite ?IH).
  revert Hn. induction n as [|c n IH]; intros Hn; [apply Hr|]. cbn [app trim_back]. rewrite IH.
  - destruct n as [|d n]; [|done]. destruct (c =? 32) eqn:E; [|done]. apply Z.eqb_eq in E as ->. by destruct (Hn []).
  - intros l ->. by destruct (Hn (c :: l)).
Qed.

(** The bytes of a name, before and after the exchange of the first and the sixteenth. *)
Definition wins_bytes (n : nbt_name) : list Z :=
  name n ++ replicate (15 - length (name n)) 32 ++ type n :: default [] (scope n) ++ [0].
Definition swapped (n : nbt_name) : list Z :=
  if type n =? 0x1b then <[0%nat := 0x1b]> (<[15%nat := CVAL (wins_bytes n) 0]> (wins_bytes n)) else wins_bytes n.

Lemma wins_parts n : (length (name n) <= 15)%nat ->
  exists c l, wins_bytes n = c :: l ++ type n :: default [] (scope n) ++ [0] /\ length l = 14%nat /\ c :: l = name n ++ replicate (15 - length (name n)) 32.
Proof.
  intros Hl. unfold wins_bytes. rewrite app_assoc. assert (length (name n ++ replicate (15 - length (name n)) 32) = 15%nat) as L by (rewrite length_app, length_replicate; lia).
  destruct (name n ++ _) as [|c l]; [done|]. exists c, l. split_and!; [done|by injection L|done].
Qed.

Lemma insert_15 (l t : list Z) a x y : length l = 14%nat -> <[15%nat:=x]> (y :: l ++ a :: t) = y :: l ++ x :: t.
Proof. intros L. rewrite !app_comm_cons, insert_app_r_alt by (cbn; lia). cbn [length]. by rewrite L. Qed.
Lemma lookup_15 (l t : list Z) a y : length l = 14%nat -> (y :: l ++ a :: t) !! 15%nat = Some a.
Proof. intros L. rewrite app_comm_cons, lookup_app_r by (cbn; lia). cbn [length]. by rewrite L. Qed.

Lemma unswap n : (length (name n) <= 15)%nat -> (type n <> 0x1b -> CVAL (wins_bytes n) 0 <> 0x1b) ->
  (if (CVAL (swapped n) 0 =? 0x1b) && (16 <=? Z.of_nat (length (swapped n))) then swap_0_15 (swapped n) else swapped n) = wins_bytes n /\
  length (swapped n) = (17 + length (default [] (scope n)))%nat.
Proof.
  intros Hl Hne. destruct (wins_parts n Hl) as (c & l & E & L & _). unfold swapped. rewrite E in *. unfold CVAL in *. cbn [lookup list_lookup default id] in *.
  destruct (type n =? 0x1b) eqn:Et.
  - apply Z.eqb_eq in Et. rewrite insert_15 by done. cbn [insert list_insert lookup list_lookup default id length]. rewrite length_app, L. cbn [length]. rewrite length_app. cbn [length].
    rewrite (proj2 (Z.leb_le _ _)) by lia. cbn [Z.eqb Pos.eqb andb]. split; [|lia]. unfold swap_0_15.
    rewrite lookup_15 by done. cbn [default id]. rewrite insert_15 by done. cbn [insert list_insert].
    by rewrite Et.
  - apply Z.eqb_neq in Et. cbn [lookup list_lookup default id length]. rewrite (proj2 (Z.eqb_neq c 0x1b)) by auto. cbn [andb]. split; [done|]. rewrite length_app, L. cbn [length]. rewrite length_app. cbn [length]. lia.
Qed.

Section wins.
Context (A : Allocator) (mem : malloc_always A).

(** Names in the format, and what comes of the scope: the first byte of it is lost. *)
Definition wins_fits (n : nbt_name) : Prop :=
  chars (name n) /\ (length (name n) <= 15)%nat /\ no_space (name n) /\ is_byte (type n) /\
  (type n <> 0x1b -> forall l, name n <> 0x1b :: l) /\ chars (default [] (scope n)) /\ (length (default [] (scope n)) <= 238)%nat.
Definition lose_first (scope : option (list Z)) : option (list Z) :=
  match scope with Some (_ :: c :: l) => Some (c :: l) | _ => None end.

(** What is written at an offset. *)
Definition wins_wire (n : nbt_name) (fl o : Z) : list Z :=
  replicate (padding fl 4 o) 0 ++ wire fl (o + Z.of_nat (padding fl 4 o)) (I_uint32 (Z.of_nat (length (swapped n)))) ++ swapped n.

Lemma push_wins_ok n (s : ndr_push) :
  wins_fits n -> ready s -> room s (length (wins_wire n (Push.flags s) (Push.offset s))) ->
  exists s', ndr_push_wrepl_nbt_name A NDR_SCALARS (Some n) s = Ret (Good tt, s') /\
    ready s' /\ written s' = written s ++ wins_wire n (Push.flags s) (Push.offset s).
Proof.
  intros (Hc & Hl & _ & Ht & _ & _ & Hsl) Hr Hroom. unfold ndr_push_wrepl_nbt_name. change (isset NDR_SCALARS NDR_SCALARS) with true. cbn [negb].
  rewrite (proj2 (Nat.ltb_ge _ _)) by lia. rewrite (proj2 (Nat.ltb_ge _ _)) by lia.
  set (s1 := Push.set_allocs (S (Push.allocs s)) s). rewrite (bind_good (NdrPush.alloc A) _ s true s1) by (unfold NdrPush.alloc; by rewrite mem). cbn [negb].
  assert (<[15%nat := u8 (type n)]> (name n ++ replicate (15 - length (name n)) 32 ++ 88 :: default [] (scope n) ++ [0]) = wins_bytes n) as ->.
  { unfold wins_bytes. rewrite u8_id by done. rewrite !(app_assoc (name n)). assert (length (name n ++ replicate (15 - length (name n)) 32) = 15%nat) as L by (rewrite length_app, length_replicate; lia).
    rewrite insert_app_r_alt by lia. by rewrite L, Nat.sub_diag. }
  change (if type n =? 27 then _ else wins_bytes n) with (swapped n).
  assert (length (name n ++ replicate (15 - length (name n)) 32 ++ 88 :: default [] (scope n) ++ [0]) = length (swapped n)) as ->.
  { transitivity (length (wins_bytes n)); [unfold wins_bytes; rewrite !length_app; cbn [length]; by rewrite length_app|]. unfold swapped. case_match; by rewrite ?length_insert. }
  assert (is_u32 (Z.of_nat (length (swapped n)))) as Hu.
  { assert (length (swapped n) = length (wins_bytes n)) as -> by (unfold swapped; case_match; by rewrite ?length_insert). unfold wins_bytes. rewrite !length_app, length_replicate. cbn [length]. rewrite length_app. cbn [length]. unfold is_u. lia. }
  pose proof (writes_bind _ _ _ _ (writes_align A mem 4 ltac:(by_eval)) (writes_bind _ _ _ _ (writes_item A mem (I_uint32 (Z.of_nat (length (swapped n)))) Hu) (writes_bytes A mem (swapped n)))) as W.
  destruct (W s1 Hr) as (s' & E & Hw).
  { unfold wins_wire in Hroom. change (Push.flags s1) with (Push.flags s). change (Push.offset s1) with (Push.offset s). rewrite length_replicate. exact Hroom. }
  rewrite length_replicate in Hw. exists s'. split; [exact E|]. split; [by eapply wrote_ready|]. by eapply wrote_written.
Qed.

Lemma pull_alloc_ok (t : ndr_pull) : NdrPull.alloc A t = Ret (Good (At (Pull.allocs t) 0), Pull.set_allocs (S (Pull.allocs t)) t).
Proof. unfold NdrPull.alloc. by rewrite mem. Qed.

Lemma checked_ok (m : M ndr_pull addr) t p t' : m t = Ret (Good p, t') -> p <> NULL -> NdrPull.checked m t = Ret (Good p, t').
Proof. intros E Hp. unfold NdrPull.checked. rewrite (bind_good _ _ _ _ _ E). by rewrite decide_False. Qed.

Lemma until_nul_whole l : Forall (fun c => c <> 0) l -> until_nul l = l.
Proof. intros Hl. unfold until_nul. assert (list_find (fun b => b = 0) l = None) as ->; [by apply list_find_None|cbn; apply firstn_all]. Qed.

Lemma chars_nonzero l : chars l -> Forall (fun c => c <> 0) l.
Proof. intros Hl. eapply Forall_impl; [|exact Hl]. intros c Hc. cbn in *. lia. Qed.

(** The fields of the bytes. *)
Lemma wins_fields n : wins_fits n ->
  CVAL (wins_bytes n) 15 = type n /\ trim_back (until_nul (take 15 (wins_bytes n))) = name n /\
  until_nul (drop 17 (wins_bytes n)) = drop 1 (default [] (scope n)).
Proof.
  intros (Hc & Hl & Hn & Ht & _ & Hs & _). unfold wins_bytes. rewrite app_assoc.
  set (pre := name n ++ replicate (15 - length (name n)) 32). assert (length pre = 15%nat) as L by (unfold pre; rewrite length_app, length_replicate; lia).
  split_and!.
  - unfold CVAL. rewrite lookup_app_r by lia. by rewrite L, Nat.sub_diag.
  - rewrite take_app_length' by done. unfold pre. rewrite until_nul_whole; [by apply trim_back_spaces|]. apply Forall_app. split; [by apply chars_nonzero|].
    by apply Forall_replicate.
  - rewrite drop_app_ge by lia. rewrite L. cbn [Nat.sub drop]. destruct (default [] (scope n)) as [|x sc]; cbn [app drop]; [done|].
    apply Forall_cons_1 in Hs as [_ Hs]. by apply until_nul_stop, chars_nonzero.
Qed.

Lemma first_byte n : wins_fits n -> type n <> 0x1b -> CVAL (wins_bytes n) 0 <> 0x1b.
Proof.
  intros (_ & Hl & _ & _ & Hq & _) Hne E. destruct (wins_parts n Hl) as (c & l & Ew & _ & Ec). rewrite Ew in E. unfold CVAL in E. cbn in E. subst c.
  destruct (name n) as [|x nm] eqn:En; [by destruct (15 - length (@nil Z))%nat|]. injection Ec as <- _. by destruct (Hq Hne nm).
Qed.

(** The counted bytes. *)
Definition pull_counted {B} (k : Z -> list Z -> M ndr_pull B) : M ndr_pull B :=
  NdrPull.ndr_pull_align 4;;
  do namebuf_len <- NdrPull.ndr_pull_uint32;
  if (namebuf_len <? 1) || (255 <? namebuf_len) then ndr_error NDR_ERR_ALLOC
  else NdrPull.NDR_PULL_ALLOC_N A 1 namebuf_len;; do namebuf <- NdrPull.ndr_pull_array_uint8 NDR_SCALARS [] namebuf_len; k namebuf_len namebuf.

Lemma past_allocs (t : ndr_pull) a n : past (Pull.set_allocs a t) n = Pull.set_allocs a (past t n).
Proof. done. Qed.

Lemma reads_counted {B} (k : Z -> list Z -> M ndr_pull B) (l : list Z) (t : ndr_pull) :
  let w := replicate (padding (Pull.flags t) 4 (Pull.offset t)) 0 ++ wire (Pull.flags t) (Pull.offset t + Z.of_nat (padding (Pull.flags t) 4 (Pull.offset t))) (I_uint32 (Z.of_nat (length l))) ++ l in
  (1 <= length l <= 255)%nat -> ahead t w ->
  exists a, pull_counted k t = k (Z.of_nat (length l)) l (Pull.set_allocs a (past t (length w))).
Proof.
  intros w Hl Ha. unfold pull_counted, NdrPull.ndr_pull_align.
  destruct (reads_then _ (fun _ => do namebuf_len <- NdrPull.ndr_pull_uint32;
    if (namebuf_len <? 1) || (255 <? namebuf_len) then ndr_error NDR_ERR_ALLOC
    else NdrPull.NDR_PULL_ALLOC_N A 1 namebuf_len;; do namebuf <- NdrPull.ndr_pull_array_uint8 NDR_SCALARS [] namebuf_len; k namebuf_len namebuf) _ tt t _ (reads_align 4 ltac:(by_eval)) Ha) as [-> Ha1].
  rewrite length_replicate in *. set (t1 := past t _) in *.
  assert (is_u32 (Z.of_nat (length l))) as Hu by (unfold is_u32, is_u; lia).
  change (Pull.offset t + Z.of_nat (padding (Pull.flags t) 4 (Pull.offset t))) with (Pull.offset t1) in *. change (Pull.flags t) with (Pull.flags t1) in Ha1.
  match goal with |- exists a, bind ?m ?k0 t1 = _ => destruct (reads_then m k0 _ (Z.of_nat (length l)) t1 _ (reads_uint32 _ Hu) Ha1) as [-> Ha2] end.
  rewrite (proj2 (Z.ltb_ge _ _)) by lia. rewrite (proj2 (Z.ltb_ge _ _)) by lia. cbn [orb].
  set (t2 := past t1 _) in *. exists (S (Pull.allocs t2)).
  assert (NdrPull.NDR_PULL_ALLOC_N A 1 (Z.of_nat (length l)) t2 = Ret (Good (At (Pull.allocs t2) 0), Pull.set_allocs (S (Pull.allocs t2)) t2)) as E.
  { apply checked_ok; [|done]. unfold NdrPull.alloc_array. rewrite (proj2 (Z.ltb_lt _ _)); [apply pull_alloc_ok|].
    transitivity 256; [lia|by_eval]. }
  rewrite (bind_good _ _ _ _ _ E). unfold NdrPull.ndr_pull_array_uint8. change (isset NDR_SCALARS NDR_SCALARS) with true. cbn iota.
  assert (ahead (Pull.set_allocs (S (Pull.allocs t2)) t2) l) as Ha3 by exact Ha2.
  rewrite (bind_good _ _ _ _ _ (reads_bytes l _ Ha3)). f_equal. rewrite past_allocs. f_equal. unfold t2, t1. rewrite !past_past. f_equal.
  unfold w. rewrite !length_app, length_replicate. reflexivity.
Qed.

Lemma pull_wins_ok n (t : ndr_pull) old :
  wins_fits n -> ahead t (wins_wire n (Pull.flags t) (Pull.offset t)) ->
  exists a, ndr_pull_wrepl_nbt_name A NDR_SCALARS old t =
    Ret (Good (Some (Name (name n) (lose_first (scope n)) (type n))),
         Pull.set_allocs a (past t (length (wins_wire n (Pull.flags t) (Pull.offset t))))).
Proof.
  intros Hf Ha. pose proof Hf as (_ & Hl & _ & _ & _ & _ & Hsl). destruct (unswap n Hl (first_byte n Hf)) as [Eun Lun]. destruct (wins_fields n Hf) as (Ft & Fn & Fs).
  unfold ndr_pull_wrepl_nbt_name. change (isset NDR_SCALARS NDR_SCALARS) with true. cbn [negb].
  match goal with |- exists a, bind _ (fun _ => bind _ (fun len => if _ then _ else bind _ (fun _ => bind _ (@?k len)))) t = _ =>
    destruct (reads_counted k (swapped n) t) as (a & E); [lia|exact Ha|] end.
  unfold pull_counted in E. rewrite E. clear E.
  set (t1 := Pull.set_allocs a _).
  rewrite (bind_good (NdrPull.NDR_PULL_ALLOC A) _ t1 _ _ (checked_ok _ _ _ _ (pull_alloc_ok t1) ltac:(done))). cbn beta zeta. rewrite Eun, Lun, Ft, Fn, Fs.
  rewrite (proj2 (Z.ltb_ge _ _)) by lia. rewrite (bind_good (NdrPull.alloc A) _ _ _ _ (pull_alloc_ok _)), decide_False by done.
  destruct (default [] (scope n)) as [|x [|y sc]] eqn:Es; cbn [length drop] in *.
  1,2: rewrite (proj2 (Z.ltb_ge _ _)) by lia; eexists; replace (lose_first (scope n)) with (@None (list Z)) by (destruct (scope n); cbn in Es; by subst); reflexivity.
  rewrite (proj2 (Z.ltb_lt _ _)) by lia. rewrite (bind_good (NdrPull.alloc A) _ _ _ _ (pull_alloc_ok _)), decide_False by done.
  eexists. replace (lose_first (scope n)) with (Some (y :: sc)) by (destruct (scope n); cbn in Es; by subst). reflexivity.
Qed.
End wins.

(** C16: a WINS replication name that is pushed is pulled as the same name and type, whatever comes before
    it and after it and at any alignment, its first and sixteenth bytes exchanged on the wire
    for the type 0x1b; but the scope comes back without its first byte, as it is written right
    behind the type and read one further. *)
Theorem wins_names_roundtrip (A : Allocator) n (s : ndr_push) :
  malloc_always A -> wins_fits n -> ready s -> room s (length (wins_wire n (Push.flags s) (Push.offset s))) ->
  exists s', ndr_push_wrepl_nbt_name A NDR_SCALARS (Some n) s = Ret (Good tt, s') /\
    written s' = written s ++ wins_wire n (Push.flags s) (Push.offset s) /\
    forall t old, Pull.flags t = Push.flags s -> Pull.offset t = Push.offset s -> ahead t (wins_wire n (Push.flags s) (Push.offset s)) ->
    exists a, ndr_pull_wrepl_nbt_name A NDR_SCALARS old t =
      Ret (Good (Some (Name (name n) (lose_first (scope n)) (type n))), Pull.set_offset (Push.offset s') (Pull.set_allocs a t)).
Proof.
  intros HA Hf Hr Hroom. destruct (push_wins_ok A HA n s Hf Hr Hroom) as (s' & E & Hr' & Hw). exists s'. split_and!; [done|done|].
  intros t old Ef Eo Ha. rewrite <- Ef, <- Eo in Ha. destruct (pull_wins_ok A HA n t old Hf Ha) as (a & Ea). exists a. rewrite Ea. do 2 f_equal.
  unfold past. rewrite Ef, Eo, <- (length_written s' Hr'), Hw, length_app, Nat2Z.inj_add, (length_written s Hr). reflexivity.
Qed.

Definition example_wins : nbt_name := Name [87; 83] (Some [99; 100]) 0x1b.

Lemma wins_names_roundtrip_witness :
  exists s' s'', ndr_push_wrepl_nbt_name calloc NDR_SCALARS (Some example_wins) example_push = Ret (Good tt, s') /\
    ndr_pull_wrepl_nbt_name calloc NDR_SCALARS None (example_pull (written s')) = Ret (Good (Some (Name [87; 83] (Some [100]) 0x1b)), s'').
Proof.
  destruct (wins_names_roundtrip calloc example_wins example_push) as (s' & E & Hw & Hp); [done| |by_eval|by_eval|].
  { unfold wins_fits. cbn [name scope type example_wins default id]. split_and!; [by_eval|cbn; lia| |by_eval|by intros|by_eval|cbn; lia].
    intros l El. apply (app_inj_tail [87] _ 83) in El. by destruct El. }
  destruct (Hp (example_pull (written s')) None) as (a & Ea); [done|done| |].
  - exists [], []. rewrite Hw. split_and!; [done|done|vm_compute; done|vm_compute; done].
  - eexists s', _. split; [exact E|exact Ea].
Defined.
