(* ===== verification/Idtree.v ===== *)
(** lib/util/idtree.c: numbers for pointers, kept in a radix tree with 32 slots to a layer. *)

From stdpp Require Import gmap.
From S2P Require Import Prelude Ntstatus.

#[local] Open Scope outcome_scope.

Module Idtree.

Definition IDR_BITS : Z := 5.
Definition IDR_FULL : Z := 0xffffffff.
Definition IDR_SIZE : nat := 32.
Definition IDR_MASK : Z := 31.
Definition MAX_ID_SHIFT : Z := 31.
Definition MAX_ID_BIT : Z := Z.shiftl 1 MAX_ID_SHIFT.
Definition MAX_ID_MASK : Z := MAX_ID_BIT - 1.
Definition MAX_LEVEL : nat := 7.
Definition IDR_FREE_MAX : Z := 14.

Definition set_bit (bit : nat) (v : Z) : Z := Z.lor v (Z.shiftl 1 (Z.of_nat bit)).
Definition clear_bit (bit : nat) (v : Z) : Z := Z.land v (not32 (Z.shiftl 1 (Z.of_nat bit))).
Definition test_bit (bit : nat) (v : Z) : bool := negb (Z.land v (Z.shiftl 1 (Z.of_nat bit)) =? 0).

Section idtree.
Context {P : Type}.

(** What a slot holds: nothing, a pointer of the user, or a layer by its bitmap, its slots and
    its count. *)
Inductive slot := Null | User (p : P) | Layer (bitmap : Z) (ary : list slot) (count : Z).

(** The free layers are linked through their first slots, which stay empty here. *)
Record idr_context := Idr { top : slot; id_free : list slot; layers : nat; id_free_cnt : Z }.

Definition set_top (t : slot) (idp : idr_context) : idr_context := Idr t (id_free idp) (layers idp) (id_free_cnt idp).
Definition set_free (f : list slot) (n : Z) (idp : idr_context) : idr_context := Idr (top idp) f (layers idp) n.
Definition set_layers (n : nat) (idp : idr_context) : idr_context := Idr (top idp) (id_free idp) n (id_free_cnt idp).

(** The fields of a layer. *)
Definition bitmap (p : slot) : Z := match p with Layer bm _ _ => bm | _ => 0 end.
Definition count (p : slot) : Z := match p with Layer _ _ c => c | _ => 0 end.
Definition with_bitmap (f : Z -> Z) (p : slot) : slot := match p with Layer bm ary c => Layer (f bm) ary c | _ => p end.
Definition with_slot (n : nat) (q p : slot) : slot := match p with Layer bm ary c => Layer bm (<[n:=q]> ary) c | _ => p end.
Definition with_count (f : Z -> Z) (p : slot) : slot := match p with Layer bm ary c => Layer bm ary (f c) | _ => p end.

Definition alloc_layer (idp : idr_context) : option (slot * idr_context) :=
  match id_free idp with
  | [] => None
  | p :: l => Some (with_slot 0 Null p, set_free l (id_free_cnt idp - 1) idp)
  end.

Fixpoint find_bit (k : nat) (bm : Z) (n : nat) : nat :=
  match k with
  | O => n
  | S k => if test_bit n bm then n else find_bit k bm (S n)
  end.
Definition find_next_bit (bm : Z) (maxid n : nat) : nat := find_bit (maxid - n) bm n.

Definition free_layer (p : slot) (idp : idr_context) : idr_context :=
  set_free (with_slot 0 Null p :: id_free idp) (id_free_cnt idp + 1) idp.

(** talloc_zero *)
Definition blank : slot := Layer 0 (replicate IDR_SIZE Null) 0.

(** [k] is the most layers that are missing, and [i] the next allocation. *)
Fixpoint pre_get (A : Allocator) (k i : nat) (idp : idr_context) : idr_context :=
  match k with
  | O => idp
  | S k =>
      if id_free_cnt idp <? IDR_FREE_MAX then
        if malloc_ok i then pre_get A k (S i) (free_layer blank idp) else idp
      else idp
  end.
Definition idr_pre_get (A : Allocator) (idp : idr_context) : idr_context :=
  pre_get A (Z.to_nat (IDR_FREE_MAX - id_free_cnt idp)) 0 idp.

(** ** Allocation *)

(** The layers above one, from the lowest up, each with the slot that leads down. *)
Abbreviation path := (list (slot * nat)).
Fixpoint unwind (pa : path) (p : slot) : slot :=
  match pa with [] => p | (q, i) :: pa => unwind pa (with_slot i p q) end.

(** While a layer is full its bit in the one above is set. *)
Fixpoint mark_full (n : Z) (p : slot) (pa : path) : slot :=
  match pa with
  | [] => p
  | (q, i) :: pa =>
      let q := with_slot i p q in
      if bitmap p =? IDR_FULL then
        let n := Z.shiftr n IDR_BITS in mark_full n (with_bitmap (set_bit (Z.to_nat (Z.land n IDR_MASK))) q) pa
      else unwind pa q
  end.

(** n at level [l] *)
Definition index (l : nat) (id : Z) : nat := Z.to_nat (Z.land (Z.shiftr id (IDR_BITS * Z.of_nat l)) IDR_MASK).

(** The loop of sub_alloc at level [l] in layer [p], with the answer, the id to start from and
    the tree.  Shifts by more than 30 and sums beyond an int are faults. *)
Fixpoint sub_alloc_loop (fuel : nat) (ptr : P) (starting_id : Z) (idp : idr_context) (pa : path) (p : slot) (l : nat) (id : Z) :
    outcome (Z * Z * idr_context) :=
  match fuel, p with
  | S fuel, Layer bm ary c =>
      let n := index l id in
      let m := find_next_bit (not32 bm) IDR_SIZE n in
      if (m =? IDR_SIZE)%nat then
        let l := S l in
        if 30 <? IDR_BITS * Z.of_nat l then Fault
        else
          let id := Z.lor id (Z.shiftl 1 (IDR_BITS * Z.of_nat l) - 1) + 1 in
          if 2 ^ 31 <=? id then Fault
          else
            match pa with
            | [] => Ret (-2, id, set_top p idp)
            | (q, i) :: pa => sub_alloc_loop fuel ptr starting_id idp pa (with_slot i p q) l id
            end
      else
        let sh := IDR_BITS * Z.of_nat l in
        let id := if (m =? n)%nat then id else Z.shiftl (Z.lxor (Z.lxor (Z.shiftr id sh) (Z.of_nat n)) (Z.of_nat m)) sh in
        if (MAX_ID_BIT <=? id) || (id <? 0) then Ret (-1, starting_id, set_top (unwind pa p) idp)
        else
          match l with
          | O => Ret (id, starting_id, set_top (mark_full id (Layer (set_bit m bm) (<[m:=User ptr]> ary) (c + 1)) pa) idp)
          | S l =>
              match ary !! m with
              | Some Null =>
                  match alloc_layer idp with
                  | None => Ret (-1, starting_id, set_top (unwind pa p) idp)
                  | Some (new, idp) =>
                      sub_alloc_loop fuel ptr starting_id idp ((Layer bm (<[m:=new]> ary) (c + 1), m) :: pa) new l id
                  end
              | Some q => sub_alloc_loop fuel ptr starting_id idp ((p, m) :: pa) q l id
              | None => Fault
              end
          end
  | _, _ => Fault
  end.

(** pa has MAX_LEVEL elements, and the one at [layers] is written.  A walk goes down once, up once
    and down again. *)
Definition sub_alloc (idp : idr_context) (ptr : P) (starting_id : Z) : outcome (Z * Z * idr_context) :=
  if (MAX_LEVEL <=? layers idp)%nat then Fault
  else sub_alloc_loop (4 * MAX_LEVEL) ptr starting_id idp [] (top idp) (layers idp - 1) starting_id.

(** Freed layers go from the top down. *)
Fixpoint tear_down (k : nat) (p : slot) (idp : idr_context) : idr_context :=
  match k, p with
  | S k, Layer _ ary _ => tear_down k (default Null (ary !! 0%nat)) (free_layer (with_count (fun _ => 0) (with_bitmap (fun _ => 0) p)) idp)
  | _, _ => idp
  end.

(** [k] is how many layers there may still be, and [built] how many of those above the top are
    new.  The context alone without memory, or the new top with the number of layers. *)
Fixpoint add_layers (k : nat) (idp : idr_context) (p : slot) (built layers : nat) (id : Z) : idr_context + idr_context * slot * nat :=
  match k with
  | O => inr (idp, p, layers)
  | S k =>
      if Z.shiftl 1 (Z.of_nat layers * IDR_BITS) <=? id then
        let layers := S layers in
        if count p =? 0 then add_layers k idp p built layers id
        else
          match alloc_layer idp with
          | None => inl (tear_down built p idp)
          | Some (new, idp) =>
              let new := with_count (fun _ => 1) (with_slot 0 p new) in
              let new := if bitmap p =? IDR_FULL then with_bitmap (set_bit 0) new else new in
              add_layers k idp new (S built) layers id
          end
      else inr (idp, p, layers)
  end.

(** From the label build_up; a further round has more layers than the last. *)
Fixpoint build_up (fuel : nat) (idp : idr_context) (ptr : P) (id : Z) : outcome (Z * idr_context) :=
  match fuel with
  | O => Fault
  | S fuel =>
      let go p built layers idp :=
        match add_layers (MAX_LEVEL - layers) idp p built layers id with
        | inl idp => Ret (-1, idp)
        | inr (idp, p, layers) =>
            let* (v, id, idp) := sub_alloc (set_layers layers (set_top p idp)) ptr id in
            if v =? -2 then build_up fuel idp ptr id else Ret (v, idp)
        end in
      match top idp with
      | Null =>
          match alloc_layer idp with
          | None => Ret (-1, idp)
          | Some (p, idp) => go p 1%nat 1%nat idp
          end
      | p => go p 0%nat (layers idp) idp
      end
  end.

Definition idr_get_new_above_int (A : Allocator) (idp : idr_context) (ptr : P) (starting_id : Z) : outcome (Z * idr_context) :=
  build_up (S MAX_LEVEL) (idr_pre_get A idp) ptr starting_id.

(** ** Removal *)

(** The way down, with the bits cleared; null where it ends early. *)
Fixpoint clear_path (l : nat) (id : Z) (p : slot) (pa : path) : outcome (slot * path) :=
  match l, p with
  | O, _ => Ret (p, pa)
  | S k, Null => Ret (Null, pa)
  | S k, Layer bm ary c =>
      let n := index l id in
      match ary !! n with
      | Some q => clear_path k id q ((with_bitmap (clear_bit n) p, n) :: pa)
      | None => Fault
      end
  | S k, User _ => Fault
  end.

(** The way up: a layer whose count reaches zero is freed. *)
Fixpoint drop_counts (p : slot) (pa : path) (idp : idr_context) : idr_context :=
  let p := with_count (fun c => c - 1) p in
  if count p =? 0 then
    let idp := free_layer p idp in
    match pa with
    | [] => set_layers 0 (set_top Null idp)
    | (q, i) :: pa => drop_counts (with_slot i Null q) pa idp
    end
  else set_top (unwind pa p) idp.

(** [l] layers below the top; pa has room for MAX_LEVEL. *)
Definition sub_remove (idp : idr_context) (l : nat) (id : Z) : outcome (Z * idr_context) :=
  if (MAX_LEVEL <=? S l)%nat then Fault
  else
    let* (p, pa) := clear_path l id (top idp) [] in
    let n := index 0 id in
    match p with
    | Null => Ret (-1, set_top (unwind pa p) idp)
    | Layer bm ary c =>
        if test_bit n bm then Ret (0, drop_counts (with_slot n Null (with_bitmap (clear_bit n) p)) pa idp)
        else Ret (-1, set_top (unwind pa p) idp)
    | User _ => Fault
    end.

Fixpoint find_loop (l : nat) (id : Z) (p : slot) : outcome slot :=
  match l with
  | O => Ret p
  | S l =>
      match p with
      | Null => Ret Null
      | Layer _ ary _ => match ary !! index l id with Some q => find_loop l id q | None => Fault end
      | User _ => Fault
      end
  end.

(** A shift by 32 or more is a fault. *)
Definition idr_find (idp : idr_context) (id : Z) : outcome slot :=
  let n := Z.of_nat (layers idp) * IDR_BITS in
  if 32 <=? n + IDR_BITS then Fault
  else if negb (Z.shiftr (Z.land id MAX_ID_MASK) (n + IDR_BITS) =? 0) then Ret Null
  else find_loop (layers idp) (Z.land id MAX_ID_MASK) (top idp).

(** [k] is at least how many free layers there are too many. *)
Fixpoint drop_free (k : nat) (idp : idr_context) : idr_context :=
  match k with
  | O => idp
  | S k =>
      if IDR_FREE_MAX <=? id_free_cnt idp then
        match alloc_layer idp with Some (_, idp) => drop_free k idp | None => idp end
      else idp
  end.

Definition idr_remove (idp : idr_context) (id : Z) : outcome (Z * idr_context) :=
  let id := Z.land id MAX_ID_MASK in
  let* (r, idp) := sub_remove idp (layers idp - 1) id in
  if r =? -1 then Ret (-1, idp)
  else
    let idp :=
      match top idp with
      | Layer bm ary 1 =>
          match ary !! 0%nat with
          | Some Null | None => idp
          | Some p =>
              if (1 <? layers idp)%nat then set_layers (layers idp - 1) (set_top p (free_layer (Layer 0 ary 0) idp)) else idp
          end
      | _ => idp
      end in
    Ret (0, drop_free (length (id_free idp)) idp).

(** ** The public interface *)

Definition idr_init (mem : bool) : option idr_context := if mem then Some (Idr Null [] 0 0) else None.

Definition limited (limit : Z) (r : Z * idr_context) : outcome (Z * idr_context) :=
  let '(ret, idp) := r in
  if limit <? ret then let* (_, idp) := idr_remove idp ret in Ret (-1, idp) else Ret (ret, idp).

Definition idr_get_new (A : Allocator) (idp : idr_context) (ptr : P) (limit : Z) : outcome (Z * idr_context) :=
  let* r := idr_get_new_above_int A idp ptr 0 in limited limit r.

Definition idr_get_new_above (A : Allocator) (idp : idr_context) (ptr : P) (starting_id limit : Z) : outcome (Z * idr_context) :=
  let* r := idr_get_new_above_int A idp ptr starting_id in limited limit r.

(** [r1] and [r2] are what generate_random gives; [B] is the allocator of a second call. *)
Definition idr_get_new_random (A B : Allocator) (r1 r2 : Z) (idp : idr_context) (ptr : P) (limit : Z) : outcome (Z * idr_context) :=
  if u32 limit =? 0 then Fault
  else
    let* (id, idp) := idr_get_new_above A idp ptr (s32 (u32 (1 + r1 mod u32 limit))) limit in
    if id =? -1 then
      if u32 (limit ÷ 2) =? 0 then Fault
      else idr_get_new_above B idp ptr (s32 (u32 (1 + r2 mod u32 (limit ÷ 2)))) limit
    else Ret (id, idp).
End idtree.
Arguments slot : clear implicits.
Arguments idr_context : clear implicits.
End Idtree.
Import Idtree.
