(* ===== verification/IdtreeMap.v ===== *)
(** The id tree as a finite map: lookups, insertions under the least free number, and removals. *)

From stdpp Require Import gmap.
From S2P Require Import Prelude Ntstatus Idtree.
Import Idtree.

#[local] Open Scope outcome_scope.

(** ** Bits and indices *)

Definition pw (l : nat) : Z := 2 ^ (5 * Z.of_nat l).

Lemma pw_S l : pw (S l) = 32 * pw l.
Proof. unfold pw. rewrite Nat2Z.inj_succ, <- Z.add_1_r, Z.mul_add_distr_l, Z.pow_add_r by lia. change (2 ^ (5 * 1)) with 32. lia. Qed.
Lemma pw_pos l : 0 < pw l.
Proof. unfold pw. lia. Qed.
Lemma pw_mono k l : (k <= l)%nat -> pw k <= pw l.
Proof. intros Hk. apply Z.pow_le_mono_r; lia. Qed.

Lemma index_spec l id : index l id = Z.to_nat (id / pw l mod 32).
Proof.
  unfold index, IDR_BITS, IDR_MASK, pw. f_equal. change 31 with (Z.ones 5). rewrite Z.land_ones by lia. by rewrite Z.shiftr_div_pow2 by lia.
Qed.
Lemma index_lt l id : (index l id < 32)%nat.
Proof. rewrite index_spec. pose proof (Z.mod_pos_bound (id / pw l) 32). lia. Qed.

Lemma index_digit l q k r : 0 <= k < 32 -> 0 <= r < pw l -> index l (q * pw (S l) + (k * pw l + r)) = Z.to_nat k.
Proof.
  intros Hk Hr. rewrite index_spec, pw_S. f_equal. pose proof (pw_pos l).
  replace (q * (32 * pw l) + (k * pw l + r)) with ((q * 32 + k) * pw l + r) by ring.
  rewrite Z.div_add_l, (Z.div_small r), Z.add_0_r by lia. rewrite Z.add_comm, Z_mod_plus_full. apply Z.mod_small. lia.
Qed.

(** A number within a layer is a slot and a number within that slot. *)
Lemma digits l j : 0 <= j < pw (S l) -> exists k r, j = k * pw l + r /\ 0 <= k < 32 /\ 0 <= r < pw l.
Proof.
  intros Hj. pose proof (pw_pos l). rewrite pw_S in Hj. exists (j / pw l), (j mod pw l). pose proof (Z_div_mod_eq_full j (pw l)). pose proof (Z.mod_pos_bound j (pw l)).
  assert (0 <= j / pw l) by (apply Z.div_pos; lia). assert (j / pw l < 32) by (apply Z.div_lt_upper_bound; lia). split_and!; lia.
Qed.

Lemma digits_inj l (k r k' r' : Z) : 0 <= r < pw l -> 0 <= r' < pw l -> k * pw l + r = k' * pw l + r' -> k = k'.
Proof. intros Hr Hr' E. apply (f_equal (fun x => x / pw l)) in E. by rewrite !Z.div_add_l, !Z.div_small, !Z.add_0_r in E by lia. Qed.

Lemma test_bit_spec n bm : test_bit n bm = Z.testbit bm (Z.of_nat n).
Proof.
  unfold test_bit. rewrite Z.shiftl_1_l. destruct (Z.testbit bm (Z.of_nat n)) eqn:E.
  - apply negb_true_iff, Z.eqb_neq. intros E0. apply (f_equal (fun x => Z.testbit x (Z.of_nat n))) in E0.
    rewrite Z.land_spec, E, Z.pow2_bits_true, Z.bits_0 in E0 by lia. done.
  - apply negb_false_iff, Z.eqb_eq. apply Z.bits_inj'. intros i Hi. rewrite Z.land_spec, Z.bits_0.
    destruct (decide (i = Z.of_nat n)) as [->|Hne]; [by rewrite E|]. rewrite Z.pow2_bits_false by lia. by rewrite andb_false_r.
Qed.

Lemma set_bit_spec n bm i : Z.testbit (set_bit n bm) i = Z.testbit bm i || bool_decide (i = Z.of_nat n).
Proof.
  unfold set_bit. rewrite Z.shiftl_1_l, Z.lor_spec. f_equal. case_bool_decide as E; [subst; apply Z.pow2_bits_true; lia|apply Z.pow2_bits_false; lia].
Qed.
Lemma set_bit_u32 n bm : (n < 32)%nat -> is_u32 bm -> is_u32 (set_bit n bm).
Proof. intros Hn Hb. unfold set_bit. rewrite Z.shiftl_1_l. apply is_u_lor; [done|done|]. split; [lia|apply Z.pow_lt_mono_r; lia]. Qed.

Lemma clear_bit_spec n bm i : is_u32 bm -> 0 <= i -> Z.testbit (clear_bit n bm) i = Z.testbit bm i && negb (bool_decide (i = Z.of_nat n)).
Proof.
  intros Hb Hi. unfold clear_bit, not32. rewrite Z.shiftl_1_l, Z.land_spec, Z.lxor_spec, Z.testbit_ones by lia.
  destruct (decide (32 <= i)) as [Hge|Hlt]; [by rewrite (is_u_testbit 32 bm)|].
  rewrite (proj2 (Z.ltb_lt i 32)) by lia. rewrite (proj2 (Z.leb_le 0 i)) by lia. cbn [andb]. rewrite xorb_true_r. f_equal. f_equal.
  case_bool_decide as E; [subst; apply Z.pow2_bits_true; lia|apply Z.pow2_bits_false; lia].
Qed.
Lemma clear_bit_u32 n bm : is_u32 bm -> is_u32 (clear_bit n bm).
Proof. intros Hb. unfold clear_bit. apply is_u_land; [done|]. unfold not32. apply Z.lxor_nonneg. split; intros _; [by_eval|rewrite Z.shiftl_1_l; lia]. Qed.

Lemma u32_ext a b : is_u32 a -> is_u32 b -> (forall n, (n < 32)%nat -> Z.testbit a (Z.of_nat n) = Z.testbit b (Z.of_nat n)) -> a = b.
Proof.
  intros Ha Hb E. apply Z.bits_inj'. intros i Hi. destruct (decide (32 <= i)) as [Hge|Hlt].
  - by rewrite !(is_u_testbit 32).
  - specialize (E (Z.to_nat i) ltac:(lia)). by rewrite Z2Nat.id in E by lia.
Qed.

Lemma full_bits bm : is_u32 bm -> (bm = IDR_FULL <-> forall n, (n < 32)%nat -> Z.testbit bm (Z.of_nat n) = true).
Proof.
  intros Hb. assert (forall n, (n < 32)%nat -> Z.testbit IDR_FULL (Z.of_nat n) = true) as HF.
  { intros n Hn. change IDR_FULL with (Z.ones 32). rewrite Z.testbit_ones_nonneg by lia. by apply Z.ltb_lt; lia. }
  split; [by intros ->|]. intros E. apply u32_ext; [done|by_eval|]. intros n Hn. by rewrite E, HF.
Qed.

Lemma find_bit_spec k bm n : let m := find_bit k bm n in
  (n <= m <= n + k)%nat /\ (forall j, (n <= j < m)%nat -> test_bit j bm = false) /\ ((m < n + k)%nat -> test_bit m bm = true).
Proof.
  revert n. induction k as [|k IH]; intros n; cbn; [split_and!; lia|]. destruct (test_bit n bm) eqn:E.
  - split_and!; [lia|lia|lia|done].
  - destruct (IH (S n)) as (H1 & H2 & H3). split_and!; [lia|lia| |intros; apply H3; lia].
    intros j Hj. destruct (decide (j = n)) as [->|]; [done|apply H2; lia].
Qed.

(** The next clear bit of a bitmap. *)
Lemma next_clear bm n : is_u32 bm -> (n < 32)%nat -> let m := find_next_bit (not32 bm) IDR_SIZE n in
  (n <= m <= 32)%nat /\ (forall j, (n <= j < m)%nat -> Z.testbit bm (Z.of_nat j) = true) /\ ((m < 32)%nat -> Z.testbit bm (Z.of_nat m) = false).
Proof.
  intros Hb Hn m. pose proof (find_bit_spec (IDR_SIZE - n) (not32 bm) n) as (H1 & H2 & H3). change (find_bit (IDR_SIZE - n) (not32 bm) n) with m in *.
  unfold IDR_SIZE in *. assert (forall j, (j < 32)%nat -> test_bit j (not32 bm) = negb (Z.testbit bm (Z.of_nat j))) as E.
  { intros j Hj. rewrite test_bit_spec. unfold not32. rewrite Z.lxor_spec, Z.testbit_ones_nonneg by lia. rewrite (proj2 (Z.ltb_lt _ _)) by lia. apply xorb_true_r. }
  split_and!; [lia|lia| |].
  - intros j Hj. specialize (H2 j Hj). rewrite E in H2 by lia. by apply negb_false_iff.
  - intros Hm. specialize (H3 ltac:(lia)). rewrite E in H3 by lia. by apply negb_true_iff.
Qed.

(** ** Well-formed layers *)

Section tree.
Context {P : Type}.
#[local] Abbreviation slot := (slot P).
#[local] Abbreviation idr_context := (idr_context P).
Implicit Types (s t p q : slot) (ary : list slot) (idp : idr_context) (ptr : P).

Definition nonnull s : bool := match s with Null => false | _ => true end.
Fixpoint cnt ary : Z := match ary with [] => 0 | s :: ary => (if nonnull s then 1 else 0) + cnt ary end.

Lemma cnt_insert n s s0 ary : ary !! n = Some s0 -> cnt (<[n:=s]> ary) = cnt ary - (if nonnull s0 then 1 else 0) + (if nonnull s then 1 else 0).
Proof.
  revert n. induction ary as [|a ary IH]; intros [|n] E; cbn in *; [done|done| |].
  - injection E as ->. lia.
  - rewrite IH by done. lia.
Qed.
Lemma cnt_pos ary : 0 <= cnt ary.
Proof. induction ary as [|s ary IH]; cbn; [done|destruct (nonnull s); lia]. Qed.
Lemma cnt_zero ary : cnt ary = 0 -> ary = replicate (length ary) Null.
Proof.
  induction ary as [|s ary IH]; cbn; [done|]. pose proof (cnt_pos ary). intros E. destruct s; cbn in E; [|lia|lia]. f_equal. apply IH. lia.
Qed.
Lemma cnt_one s ary : nonnull s = true -> cnt (s :: ary) = 1 -> ary = replicate (length ary) Null.
Proof. cbn. intros -> E. apply cnt_zero. lia. Qed.

(** What the bit of a slot says. *)
Definition fills (l : nat) s : bool := match l with O => nonnull s | S _ => bitmap s =? IDR_FULL end.

(** At level 0 slots are the user's; a bitmap has the bits of the slots in use, or full. *)
Fixpoint wf (l : nat) t : Prop :=
  match t with
  | Layer bm ary c =>
      length ary = 32%nat /\ is_u32 bm /\ c = cnt ary /\
      (forall n s, ary !! n = Some s -> Z.testbit bm (Z.of_nat n) = fills l s /\
        match l with O => match s with Layer _ _ _ => False | _ => True end | S l => s = Null \/ wf l s end)
  | _ => False
  end.

(** The pointer of a number. *)
Fixpoint get (l : nat) t (id : Z) : option P :=
  match t with
  | Layer _ ary _ =>
      match ary !! index l id with
      | Some s => match l with O => match s with User p => Some p | _ => None end | S l => get l s id end
      | None => None
      end
  | _ => None
  end.

Lemma wf_blank l : wf l blank.
Proof.
  destruct l; cbn; (split_and!; [done|by_eval|done|]); intros n s E; change (replicate IDR_SIZE Null !! n = Some s) in E; apply lookup_replicate in E as [-> _]; rewrite Z.bits_0; cbn; auto.
Qed.
Lemma get_null l id : get l (Null : slot) id = None.
Proof. by destruct l. Qed.
Lemma get_blank l id : get l (blank : slot) id = None.
Proof. unfold blank. destruct l; cbn [get]; rewrite lookup_replicate_2 by apply index_lt; [done|apply get_null]. Qed.

Lemma wf_slot l bm ary c n : wf l (Layer bm ary c) -> (n < 32)%nat -> exists s, ary !! n = Some s.
Proof. intros Hw Hn. assert (length ary = 32%nat) as L by (destruct l; by destruct Hw). apply lookup_lt_is_Some_2. lia. Qed.

Lemma index_shift l (q : Z) id : index l (q * pw (S l) + id) = index l id.
Proof.
  rewrite !index_spec, pw_S. f_equal. pose proof (pw_pos l). replace (q * (32 * pw l) + id) with (q * 32 * pw l + id) by ring.
  rewrite Z.div_add_l by lia. by rewrite Z.add_comm, Z_mod_plus_full.
Qed.
Lemma get_shift l t (q : Z) id : get l t (q * pw (S l) + id) = get l t id.
Proof.
  revert t q id. induction l as [|l IH]; intros [|x|bm ary c] q id; cbn [get]; try done; rewrite index_shift; destruct (ary !! _); try done.
  rewrite (pw_S (S l)). replace (q * (32 * pw (S l)) + id) with (q * 32 * pw (S l) + id) by ring. apply IH.
Qed.

(** A number in a slot. *)
Lemma get_S l bm ary c k r s : 0 <= k < 32 -> 0 <= r < pw (S l) -> ary !! Z.to_nat k = Some s ->
  get (S l) (Layer bm ary c) (k * pw (S l) + r) = get l s r.
Proof.
  intros Hk Hr E. cbn [get]. pose proof (index_digit (S l) 0 k r Hk Hr) as Ei. rewrite Z.mul_0_l, Z.add_0_l in Ei. rewrite Ei, E. apply get_shift.
Qed.
Definition user s : option P := match s with User p => Some p | _ => None end.
Lemma get_0 bm ary c k s : 0 <= k < 32 -> ary !! Z.to_nat k = Some s -> get 0 (Layer bm ary c) k = user s.
Proof.
  intros Hk E. cbn [get]. pose proof (index_digit 0 0 k 0 Hk) as Ei. change (pw 0) with 1 in Ei. replace (0 * pw 1 + (k * 1 + 0)) with k in Ei by lia.
  rewrite Ei, E by lia. done.
Qed.

(** A full layer has no free number. *)
Lemma full_taken l t id : wf l t -> bitmap t = IDR_FULL -> get l t id <> None.
Proof.
  revert t id. induction l as [|l IH]; intros [|x|bm ary c] id; try done; intros Hw Hf; pose proof Hw as (L & Hb & _ & Hs); cbn [bitmap] in Hf.
  - destruct (wf_slot 0 bm ary c (index 0 id)) as (s & E); [done|apply index_lt|]. cbn [get]. rewrite E. destruct (Hs _ _ E) as [Hbit Hu].
    rewrite (proj1 (full_bits bm Hb) Hf) in Hbit by apply index_lt. by destruct s; cbn in Hbit.
  - destruct (wf_slot (S l) bm ary c (index (S l) id)) as (s & E); [done|apply index_lt|]. cbn [get]. rewrite E. destruct (Hs _ _ E) as [Hbit Hu].
    rewrite (proj1 (full_bits bm Hb) Hf) in Hbit by apply index_lt. cbn in Hbit. symmetry in Hbit. apply Z.eqb_eq in Hbit.
    destruct Hu as [->|Hu]; [done|by apply IH].
Qed.

(** ** Allocation *)

Definition free_ok idp : Prop := Forall (eq blank) (id_free idp) /\ id_free_cnt idp = Z.of_nat (length (id_free idp)).
(** Up to [n] free layers are taken. *)
Definition spent (n : nat) idp idp' : Prop :=
  free_ok idp' /\ layers idp' = layers idp /\ (length (id_free idp) <= length (id_free idp') + n)%nat.

Lemma spent_refl n idp : free_ok idp -> spent n idp idp.
Proof. intros Hf. split_and!; [done|done|lia]. Qed.

Lemma alloc_layer_ok idp : free_ok idp ->
  (alloc_layer idp = None /\ id_free idp = []) \/
  exists idp', alloc_layer idp = Some (blank, idp') /\ spent 1 idp idp' /\ top idp' = top idp /\ length (id_free idp) = S (length (id_free idp')).
Proof.
  intros [Hb Hc]. unfold alloc_layer. destruct (id_free idp) as [|p l] eqn:E; [by left|]. right. apply Forall_cons_1 in Hb as [<- Hb].
  eexists. split; [reflexivity|]. cbn [id_free set_free top]. split_and!; [|done|done]. unfold spent, free_ok, set_free. cbn [id_free id_free_cnt layers]. rewrite E, Hc. cbn [length]. split_and!; [done|lia|done|lia].
Qed.

(** The walk finds a free number without going back. *)
Fixpoint ok (l : nat) t (id : Z) : Prop :=
  match t with
  | Layer bm ary _ =>
      match l with
      | O => exists j, (index 0 id <= j < 32)%nat /\ Z.testbit bm (Z.of_nat j) = false
      | S l' =>
          if Z.testbit bm (Z.of_nat (index l id)) then exists j, (index l id < j < 32)%nat /\ Z.testbit bm (Z.of_nat j) = false
          else match ary !! index l id with Some Null => True | Some s => ok l' s id | None => False end
      end
  | _ => False
  end.

Lemma index_multiple l (q : Z) : index l (q * pw (S l)) = 0%nat.
Proof. rewrite <- (Z.add_0_r (q * pw (S l))), index_shift, index_spec, Z.div_0_l by (pose proof (pw_pos l); lia). done. Qed.

Lemma not_full_clear bm : is_u32 bm -> bm <> IDR_FULL -> exists j, (j < 32)%nat /\ Z.testbit bm (Z.of_nat j) = false.
Proof.
  intros Hb Hf. destruct (next_clear bm 0 Hb) as (H1 & H2 & H3); [lia|]. set (m := find_next_bit _ _ _) in *. destruct (decide (m < 32)%nat) as [Hm|Hm]; [by exists m; auto|].
  destruct Hf. apply full_bits; [done|]. intros n Hn. apply H2. lia.
Qed.

Lemma ok_start l t (q : Z) : wf l t -> bitmap t <> IDR_FULL -> ok l t (q * pw (S l)).
Proof.
  revert t q. induction l as [|l IH]; intros [|x|bm ary c] q; try done; intros Hw Hf; pose proof Hw as (_ & Hb & _ & Hs); cbn [ok bitmap] in *;
    rewrite index_multiple; destruct (not_full_clear bm Hb Hf) as (j & Hj & Ej); [exists j; split; [lia|done]|].
  destruct (Z.testbit bm (Z.of_nat 0)) eqn:E0.
  - exists j. split; [|done]. destruct j; [by rewrite Ej in E0|lia].
  - destruct (wf_slot _ _ _ _ 0 Hw) as (s & Es); [lia|]. rewrite Es. destruct (Hs _ _ Es) as [Hbit Hu]. rewrite E0 in Hbit. cbn [fills] in Hbit.
    destruct Hu as [->|Hu]; [done|]. destruct s as [|x|b a k]; [by destruct l|by destruct l|]. rewrite (pw_S (S l)), Z.mul_assoc. apply IH; [done|].
    intros E. rewrite E in Hbit. done.
Qed.

Lemma ok_blank l id : ok l blank id.
Proof.
  unfold blank. destruct l; cbn [ok]; [exists (index 0 id); rewrite Z.bits_0; pose proof (index_lt 0 id); split; [lia|done]|].
  rewrite Z.bits_0, lookup_replicate_2 by apply index_lt. done.
Qed.

Lemma ok_free l t id : wf l t -> get l t id = None -> ok l t id.
Proof.
  revert t. induction l as [|l IH]; intros [|x|bm ary c]; try done; intros Hw Hg; pose proof Hw as (_ & Hb & _ & Hs); cbn [ok get] in *;
    match goal with |- context [index ?k id] => pose proof (index_lt k id) as Hi; destruct (wf_slot _ _ _ _ (index k id) Hw Hi) as (s & Es) end; rewrite Es in *; destruct (Hs _ _ Es) as [Hbit Hu].
  - exists (index 0 id). split; [lia|]. rewrite Hbit. by destruct s.
  - rewrite Hbit. cbn [fills]. destruct Hu as [->|Hu]; [done|]. destruct (bitmap s =? IDR_FULL) eqn:Ef.
    + apply Z.eqb_eq in Ef. by destruct (full_taken l s id).
    + destruct s; [by destruct l|by destruct l|]. by apply IH.
Qed.

Lemma slot_xor (q n : Z) : 0 <= n < 32 -> q * 32 + n = Z.lxor (q * 32) n.
Proof.
  intros Hn. apply Z.add_nocarry_lxor. apply Z.bits_inj'. intros i Hi. rewrite Z.land_spec, Z.bits_0. change 32 with (2 ^ 5). rewrite <- Z.shiftl_mul_pow2 by lia.
  destruct (decide (i < 5)) as [Hlt|Hge]; [by rewrite Z.shiftl_spec_low|]. rewrite (is_u_testbit 5 n) by (unfold is_u; lia). apply andb_false_r.
Qed.

Lemma move_slot l (q n m r : Z) : 0 <= n < 32 -> 0 <= m < 32 -> 0 <= r < pw l ->
  Z.shiftl (Z.lxor (Z.lxor (Z.shiftr (q * pw (S l) + (n * pw l + r)) (IDR_BITS * Z.of_nat l)) n) m) (IDR_BITS * Z.of_nat l) = q * pw (S l) + m * pw l.
Proof.
  intros Hn Hm Hr. unfold IDR_BITS. rewrite Z.shiftr_div_pow2, Z.shiftl_mul_pow2 by lia. fold (pw l). pose proof (pw_pos l). rewrite pw_S.
  replace (q * (32 * pw l) + (n * pw l + r)) with ((q * 32 + n) * pw l + r) by ring. rewrite Z.div_add_l, (Z.div_small r), Z.add_0_r by lia.
  rewrite slot_xor by done. rewrite (Z.lxor_assoc (q * 32) n n), Z.lxor_nilpotent, Z.lxor_0_r, <- slot_xor by done. ring.
Qed.

Definition is_full s : bool := bitmap s =? IDR_FULL.

(** What a layer becomes when slot [m] holds [s']. *)
Definition closed (m : nat) s' p : slot := let p := with_slot m s' p in if is_full s' then with_bitmap (set_bit m) p else p.

Lemma mark_unwind (n : Z) p (pa : list (slot * nat)) : bitmap p <> IDR_FULL -> mark_full n p pa = unwind pa p.
Proof. intros Hp. destruct pa as [|[q i] pa]; [done|]. cbn. by rewrite (proj2 (Z.eqb_neq _ _)). Qed.

Lemma mark_step (n : Z) s' q m (pa : list (slot * nat)) :
  bitmap q <> IDR_FULL -> index 1 n = m -> mark_full n s' ((q, m) :: pa) = mark_full (Z.shiftr n 5) (closed m s' q) pa.
Proof.
  intros Hq <-. cbn [mark_full]. unfold closed, is_full. destruct (bitmap s' =? IDR_FULL) eqn:E; [done|]. rewrite mark_unwind; [done|]. by destruct q.
Qed.

Lemma index_up l (n : Z) : index 1 (Z.shiftr n (5 * Z.of_nat l)) = index (S l) n.
Proof. unfold index, IDR_BITS. rewrite Z.shiftr_shiftr by lia. do 3 f_equal. lia. Qed.

(** The numbers of a layer in terms of those of its slots. *)
Lemma closed_ok l bm ary c m s s' (c' : Z) ary' (g : Z -> option P) :
  wf (S l) (Layer bm ary c) -> ary !! m = Some s -> (m < 32)%nat -> Z.testbit bm (Z.of_nat m) = false ->
  wf l s' -> (forall j, 0 <= j < pw (S l) -> get l s' j = g j) ->
  <[m := s']> ary' = <[m := s']> ary -> c' = c + (if nonnull s then 0 else 1) ->
  let p' := closed m s' (Layer bm ary' c') in
  wf (S l) p' /\ forall k r, 0 <= k < 32 -> 0 <= r < pw (S l) ->
    get (S l) p' (k * pw (S l) + r) = if decide (k = Z.of_nat m) then g r else get (S l) (Layer bm ary c) (k * pw (S l) + r).
Proof.
  intros (L & Hb & Hc & Hs) Em Hm Hbit Hw Hg Ea Ec p'.
  assert (nonnull s' = true) as Hn by (destruct s'; [by destruct l|done|done]).
  assert (p' = Layer (if is_full s' then set_bit m bm else bm) (<[m:=s']> ary) c') as Ep.
  { unfold p', closed. cbn [with_slot]. rewrite Ea. by destruct (is_full s'). }
  rewrite Ep. split.
  - cbn [wf]. split_and!.
    + by rewrite length_insert.
    + destruct (is_full s'); [by apply set_bit_u32|done].
    + rewrite (cnt_insert m s' s), Hn, Ec, Hc by done. destruct (nonnull s); lia.
    + intros n x Ex. destruct (decide (n = m)) as [->|Hne].
      * rewrite list_lookup_insert_eq in Ex by lia. injection Ex as <-. split; [|by right]. cbn [fills]. fold (is_full s').
        destruct (is_full s'); [|done]. rewrite set_bit_spec. rewrite bool_decide_true by done. apply orb_true_r.
      * rewrite list_lookup_insert_ne in Ex by done. destruct (Hs n x Ex) as [Hx Hx']. split; [|done].
        destruct (is_full s'); [|done]. rewrite set_bit_spec, bool_decide_false by lia. by rewrite orb_false_r.
  - intros k r Hk Hr. case_decide as E.
    + rewrite (get_S l _ _ _ k r s'); [by apply Hg|done|done|]. subst k. rewrite Nat2Z.id. apply list_lookup_insert_eq. lia.
    + destruct (lookup_lt_is_Some_2 ary (Z.to_nat k)) as (x & Ex); [lia|]. rewrite !(get_S l _ _ _ k r x); try done.
      rewrite list_lookup_insert_ne by lia. done.
Qed.

Lemma ok_clear l bm ary c id : ok l (Layer bm ary c) id -> exists j, (index l id <= j < 32)%nat /\ Z.testbit bm (Z.of_nat j) = false.
Proof.
  destruct l; cbn [ok]; [done|]. pose proof (index_lt (S l) id). destruct (Z.testbit bm _) eqn:E.
  - intros (j & Hj & Ej). exists j. split; [lia|done].
  - intros _. exists (index (S l) id). split; [lia|done].
Qed.

Lemma ok_next l bm ary c id : is_u32 bm -> ok l (Layer bm ary c) id ->
  let m := find_next_bit (not32 bm) IDR_SIZE (index l id) in
  (index l id <= m < 32)%nat /\ (forall j, (index l id <= j < m)%nat -> Z.testbit bm (Z.of_nat j) = true) /\ Z.testbit bm (Z.of_nat m) = false.
Proof.
  intros Hb Hok m. destruct (ok_clear _ _ _ _ _ Hok) as (j & Hj & Ej). destruct (next_clear bm (index l id) Hb (index_lt l id)) as (H1 & H2 & H3). fold m in H1, H2, H3.
  assert (m < 32)%nat as Hm by (destruct (decide (m < 32)%nat); [done|]; rewrite (H2 j) in Ej by lia; done). split_and!; [lia|lia|done|by apply H3].
Qed.

(** A round of the loop that goes down. *)
Lemma loop_head l fuel ptr st idp pa bm ary c (q k r : Z) :
  is_u32 bm -> 0 <= k < 32 -> 0 <= r < pw l -> 0 <= q -> (q + 1) * pw (S l) <= 2 ^ 31 ->
  ok l (Layer bm ary c) (q * pw (S l) + (k * pw l + r)) ->
  exists m r', (Z.to_nat k <= m < 32)%nat /\ (forall j, (Z.to_nat k <= j < m)%nat -> Z.testbit bm (Z.of_nat j) = true) /\ Z.testbit bm (Z.of_nat m) = false /\
    (m = Z.to_nat k /\ r' = r \/ (Z.to_nat k < m)%nat /\ r' = 0) /\
    let id := q * pw (S l) + (Z.of_nat m * pw l + r') in
    sub_alloc_loop (S fuel) ptr st idp pa (Layer bm ary c) l (q * pw (S l) + (k * pw l + r)) =
      match l with
      | O => Ret (id, st, set_top (mark_full id (Layer (set_bit m bm) (<[m:=User ptr]> ary) (c + 1)) pa) idp)
      | S l =>
          match ary !! m with
          | Some Null =>
              match alloc_layer idp with
              | None => Ret (-1, st, set_top (unwind pa (Layer bm ary c)) idp)
              | Some (new, idp) => sub_alloc_loop fuel ptr st idp ((Layer bm (<[m:=new]> ary) (c + 1), m) :: pa) new l id
              end
          | Some s => sub_alloc_loop fuel ptr st idp ((Layer bm ary c, m) :: pa) s l id
          | None => Fault
          end
      end.
Proof.
  intros Hb Hk Hr Hq Hmax Hok. pose proof (ok_next _ _ _ _ _ Hb Hok) as (Hm & Htaken & Hclear). rewrite index_digit in * by done.
  set (m := find_next_bit _ _ _) in *. exists m, (if (m =? Z.to_nat k)%nat then r else 0). pose proof (pw_pos l).
  split_and!; [lia|lia|done|done| |]. { destruct (m =? Z.to_nat k)%nat eqn:E; [left; split; [by apply Nat.eqb_eq|done]|right; apply Nat.eqb_neq in E; split; [lia|done]]. }
  cbn zeta. cbn [sub_alloc_loop]. rewrite index_digit by done. fold m. unfold IDR_SIZE. rewrite (proj2 (Nat.eqb_neq m 32)) by lia.
  match goal with |- context [(MAX_ID_BIT <=? ?x) || _] => assert (x = q * pw (S l) + (Z.of_nat m * pw l + (if (m =? Z.to_nat k)%nat then r else 0))) as -> end.
  { destruct (m =? Z.to_nat k)%nat eqn:E.
    - apply Nat.eqb_eq in E. rewrite E, Z2Nat.id by lia. done.
    - rewrite Z2Nat.id by lia. rewrite move_slot by lia. lia. }
  set (r' := if (m =? Z.to_nat k)%nat then r else 0). assert (0 <= r' < pw l) as Hr' by (unfold r'; destruct (m =? Z.to_nat k)%nat; lia).
  assert (0 <= q * pw (S l) + (Z.of_nat m * pw l + r') < 2 ^ 31) as Hid by (rewrite pw_S in *; nia).
  change MAX_ID_BIT with (2 ^ 31). rewrite (proj2 (Z.leb_gt _ _)) by lia. rewrite (proj2 (Z.ltb_ge _ _)) by lia. cbn [orb]. destruct l; [done|]. by destruct (ary !! m) as [[]|].
Qed.

Definition least (l : nat) p (o f : Z) : Prop := o <= f < pw (S l) /\ get l p f = None /\ forall j, o <= j < f -> get l p j <> None.
Definition planted (l : nat) p ptr (f : Z) p' : Prop :=
  wf l p' /\ forall j, 0 <= j < pw (S l) -> get l p' j = if decide (j = f) then Some ptr else get l p j.

Lemma plant_leaf bm ary c ptr (k o : Z) m s :
  wf 0 (Layer bm ary c) -> 0 <= k < 32 -> (Z.to_nat k <= m < 32)%nat -> (forall j, (Z.to_nat k <= j < m)%nat -> Z.testbit bm (Z.of_nat j) = true) ->
  Z.testbit bm (Z.of_nat m) = false -> ary !! m = Some s ->
  least 0 (Layer bm ary c) k (Z.of_nat m) /\ planted 0 (Layer bm ary c) ptr (Z.of_nat m) (Layer (set_bit m bm) (<[m:=User ptr]> ary) (c + 1)).
Proof.
  intros (L & Hb & Hc & Hs) Hk Hm Ht Hm0 Em. destruct (Hs m s Em) as [Hbit Hu]. rewrite Hm0 in Hbit. cbn [fills] in Hbit. assert (s = Null) as -> by (by destruct s).
  change (pw 1) with 32 in *. split.
  - unfold least. change (pw 1) with 32. split_and!; [lia|lia| |].
    + rewrite (get_0 _ _ _ (Z.of_nat m) Null); [done|lia|by rewrite Nat2Z.id].
    + intros j Hj. destruct (lookup_lt_is_Some_2 ary (Z.to_nat j)) as (x & Ex); [lia|]. rewrite (get_0 _ _ _ j x) by (done || lia).
      destruct (Hs _ _ Ex) as [Hx Hy]. rewrite (Ht (Z.to_nat j)) in Hx by lia. by destruct x.
  - split.
    + cbn [wf]. split_and!; [by rewrite length_insert|by apply set_bit_u32; [lia|]|rewrite (cnt_insert m _ Null) by done; cbn; lia|].
      intros n x Ex. rewrite set_bit_spec. destruct (decide (n = m)) as [->|Hne].
      * rewrite list_lookup_insert_eq in Ex by lia. injection Ex as <-. rewrite bool_decide_true by done. by rewrite orb_true_r.
      * rewrite list_lookup_insert_ne in Ex by done. rewrite bool_decide_false, orb_false_r by lia. by apply Hs.
    + intros j Hj. change (pw 1) with 32 in Hj. destruct (lookup_lt_is_Some_2 ary (Z.to_nat j)) as (x & Ex); [lia|]. rewrite (get_0 bm ary c j x) by done.
      case_decide as E.
      * subst j. apply (get_0 _ _ _ _ (User ptr)); [lia|]. rewrite Nat2Z.id. apply list_lookup_insert_eq. lia.
      * apply get_0; [lia|]. by rewrite list_lookup_insert_ne by lia.
Qed.

(** From slot [k] on the least free number of a layer is that of the first slot [m] that is not
    full. *)
Lemma least_S l bm ary c m s (k r r' f : Z) :
  wf (S l) (Layer bm ary c) -> 0 <= k < 32 -> 0 <= r < pw (S l) -> (Z.to_nat k <= m < 32)%nat ->
  (forall j, (Z.to_nat k <= j < m)%nat -> Z.testbit bm (Z.of_nat j) = true) -> ary !! m = Some s ->
  (m = Z.to_nat k /\ r' = r \/ (Z.to_nat k < m)%nat /\ r' = 0) -> 0 <= r' <= f -> f < pw (S l) ->
  get l s f = None -> (forall j, r' <= j < f -> get l s j <> None) ->
  least (S l) (Layer bm ary c) (k * pw (S l) + r) (Z.of_nat m * pw (S l) + f).
Proof.
  intros Hw Hk Hr Hm Ht Em Hmr Hf Hf' Hg Hleast. pose proof Hw as (L & Hb & _ & Hs). pose proof (pw_pos (S l)). rewrite <- (Nat2Z.id m) in Em. unfold least. rewrite (pw_S (S l)).
  split_and!; [nia|nia| |].
  - rewrite (get_S l _ _ _ (Z.of_nat m) f s); [done|lia|lia|done].
  - intros j Hj. destruct (digits (S l) j) as (jk & jr & -> & Hjk & Hjr); [rewrite (pw_S (S l)); nia|].
    assert (k <= jk <= Z.of_nat m) as Hb1 by nia. destruct (decide (jk = Z.of_nat m)) as [->|Hne].
    + rewrite (get_S l _ _ _ _ jr s) by (done || lia). apply Hleast. destruct Hmr as [[-> ->]|[? ->]]; [|lia]. rewrite Z2Nat.id in Hj by lia. nia.
    + destruct (lookup_lt_is_Some_2 ary (Z.to_nat jk)) as (x & Ex); [lia|]. rewrite (get_S l _ _ _ _ jr x) by done.
      destruct (Hs _ _ Ex) as [Hx Hy]. rewrite (Ht (Z.to_nat jk)) in Hx by lia. cbn [fills] in Hx. destruct Hy as [->|Hy]; [done|]. apply full_taken; [done|]. by apply Z.eqb_eq.
Qed.

(** The child that the walk goes down into. *)
Definition child s : slot := match s with Null => blank | _ => s end.
Lemma child_ok l s : s = Null \/ wf l s -> wf l (child s) /\ forall j, get l (child s) j = get l s j.
Proof. intros [->|Hs]; [split; [apply wf_blank|intros; by rewrite get_blank, get_null]|]. destruct s; [by destruct l|done|done]. Qed.

Lemma spent_trans a b idp1 idp2 idp3 : spent a idp1 idp2 -> spent b idp2 idp3 -> spent (a + b) idp1 idp3.
Proof. intros (_ & E1 & H1) (F & E2 & H2). split_and!; [done|congruence|lia]. Qed.

(** The step down, through a new layer if there is none. *)
Lemma enter fuel ptr st idp (pa : list (slot * nat)) bm ary c m s l id : free_ok idp -> (s = Null \/ wf l s) ->
  let step := match s with
    | Null =>
        match alloc_layer idp with
        | None => Ret (-1, st, set_top (unwind pa (Layer bm ary c)) idp)
        | Some (new, idp) => sub_alloc_loop fuel ptr st idp ((Layer bm (<[m:=new]> ary) (c + 1), m) :: pa) new l id
        end
    | _ => sub_alloc_loop fuel ptr st idp ((Layer bm ary c, m) :: pa) s l id
    end in
  (step = Ret (-1, st, set_top (unwind pa (Layer bm ary c)) idp) /\ id_free idp = []) \/
  exists idp1 ary1 c1, step = sub_alloc_loop fuel ptr st idp1 ((Layer bm ary1 c1, m) :: pa) (child s) l id /\
    (forall x, <[m := x]> ary1 = <[m := x]> ary) /\ c1 = c + (if nonnull s then 0 else 1) /\ spent 1 idp idp1.
Proof.
  intros Hf Hu step. unfold step. destruct s as [|x|b a n].
  - destruct (alloc_layer_ok idp Hf) as [[-> E]|(idp1 & -> & Hs & _)]; [by left|]. right. eexists idp1, _, _. split_and!; [reflexivity| |done|done].
    intros y. apply list_insert_insert_eq.
  - destruct Hu as [|Hu]; [done|by destruct l].
  - right. exists idp, ary, c. split_and!; [reflexivity|done|cbn; lia|by apply spent_refl].
Qed.

Lemma alloc_down l : forall fuel ptr st idp pa p (q o : Z),
  (l < fuel)%nat -> wf l p -> ok l p (q * pw (S l) + o) -> 0 <= o < pw (S l) -> 0 <= q -> (q + 1) * pw (S l) <= 2 ^ 31 -> free_ok idp ->
  (exists f p' idp', sub_alloc_loop fuel ptr st idp pa p l (q * pw (S l) + o) =
      Ret (q * pw (S l) + f, st, set_top (mark_full (Z.shiftr (q * pw (S l) + f) (5 * Z.of_nat l)) p' pa) idp') /\
    least l p o f /\ planted l p ptr f p' /\ spent l idp idp') \/
  (exists p' idp', sub_alloc_loop fuel ptr st idp pa p l (q * pw (S l) + o) = Ret (-1, st, set_top (unwind pa p') idp') /\
    wf l p' /\ bitmap p' = bitmap p /\ (forall j, 0 <= j < pw (S l) -> get l p' j = get l p j) /\ spent l idp idp' /\ (length (id_free idp) < l)%nat).
Proof.
  induction l as [|l IH]; intros fuel ptr st idp pa [|x|bm ary c] q o Hfuel Hw Hok Ho Hq Hmax Hfree; try (by destruct Hw); (destruct fuel as [|fuel]; [lia|]);
    pose proof Hw as (L & Hb & Hc & Hs); destruct (digits _ o Ho) as (k & r & -> & Hk & Hr);
    destruct (loop_head _ fuel ptr st idp pa bm ary c q k r Hb Hk Hr Hq Hmax Hok) as (m & r' & Hm & Ht & Hclear & Hmr & E); cbn zeta in E; rewrite E;
    destruct (lookup_lt_is_Some_2 ary m) as (s & Em); [lia| |lia|].
  - left. change (pw 0) with 1 in *. assert (r = 0) as -> by lia. assert (r' = 0) as -> by (destruct Hmr as [[_ ?]|[_ ?]]; lia).
    destruct (plant_leaf bm ary c ptr k 0 m s Hw Hk Hm Ht Hclear Em) as [H1 H2]. eexists (Z.of_nat m), _, idp. replace (Z.of_nat m * 1 + 0) with (Z.of_nat m) by lia. replace (k * 1 + 0) with k by lia.
    split_and!; [|done|done|by apply spent_refl]. change (5 * Z.of_nat 0) with 0. by rewrite Z.shiftr_0_r.
  - destruct (Hs m s Em) as [Hbit Hu]. rewrite Hclear in Hbit. destruct (child_ok l s Hu) as [Hcw Hcg]. rewrite Em.
    assert (0 <= r' < pw (S l)) as Hr' by (destruct Hmr as [[_ ->]|[_ ->]]; pose proof (pw_pos (S l)); lia).
    assert (ok l (child s) ((q * 32 + Z.of_nat m) * pw (S l) + r')) as Hcok.
    { destruct Hmr as [[-> ->]|[Hlt ->]].
      - cbn [ok] in Hok. rewrite index_digit in Hok by done. rewrite Hclear, Em in Hok. destruct s as [|x|b a n]; [apply ok_blank|by destruct Hu as [|Hu]; [done|destruct l]|].
        cbn [child]. replace ((q * 32 + Z.of_nat (Z.to_nat k)) * pw (S l) + r) with (q * pw (S (S l)) + (k * pw (S l) + r)) by (rewrite (pw_S (S l)), Z2Nat.id by lia; ring). done.
      - rewrite Z.add_0_r. apply ok_start; [done|]. destruct s; [done|done|]. cbn [fills] in Hbit. symmetry in Hbit. by apply Z.eqb_neq in Hbit. }
    assert (bm <> IDR_FULL) as Hbm by (intros ->; by rewrite (proj1 (full_bits IDR_FULL Hb) eq_refl) in Hclear by lia).
    replace (q * pw (S (S l)) + (Z.of_nat m * pw (S l) + r')) with ((q * 32 + Z.of_nat m) * pw (S l) + r') by (rewrite (pw_S (S l)); ring).
    destruct (enter fuel ptr st idp pa bm ary c m s l ((q * 32 + Z.of_nat m) * pw (S l) + r') Hfree Hu) as [[-> Ef]|(idp1 & ary1 & c1 & -> & Ea & Ec & Hsp)].
    { right. eexists (Layer bm ary c), idp. split_and!; [done|done|done|done|by apply spent_refl|rewrite Ef; cbn; lia]. }
    assert ((q * 32 + Z.of_nat m + 1) * pw (S l) <= 2 ^ 31) as Hmax1 by (rewrite (pw_S (S l)) in Hmax; pose proof (pw_pos (S l)); nia).
    destruct (IH fuel ptr st idp1 ((Layer bm ary1 c1, m) :: pa) (child s) (q * 32 + Z.of_nat m) r' ltac:(lia) Hcw Hcok Hr' ltac:(lia) Hmax1 (proj1 Hsp))
      as [(f & s' & idp' & Eloop & (Hf & Hg & Hl) & (Hw' & Hp) & Hsp')|(s' & idp' & Eloop & Hw' & Hbs & Hp & Hsp' & Hlen)].
    + destruct (closed_ok l bm ary c m s s' c1 ary1 (fun j => if decide (j = f) then Some ptr else get l s j) Hw Em ltac:(lia) Hclear Hw') as [Hcl Hgets];
        [intros j Hj; rewrite Hp by done; by rewrite Hcg|by apply Ea|done|].
      left. eexists (Z.of_nat m * pw (S l) + f), _, idp'. split_and!; [| | |].
      * rewrite Eloop. rewrite (mark_step _ s' (Layer bm ary1 c1) m pa); [|done|].
        -- rewrite Z.shiftr_shiftr by lia. rewrite (pw_S (S l)). replace ((q * 32 + Z.of_nat m) * pw (S l) + f) with (q * (32 * pw (S l)) + (Z.of_nat m * pw (S l) + f)) by ring.
           by replace (5 * Z.of_nat l + 5) with (5 * Z.of_nat (S l)) by lia.
        -- rewrite index_up. replace ((q * 32 + Z.of_nat m) * pw (S l) + f) with (q * pw (S (S l)) + (Z.of_nat m * pw (S l) + f)) by (rewrite (pw_S (S l)); ring).
           rewrite index_digit by lia. apply Nat2Z.id.
      * eapply least_S; try done; [lia|lia|by rewrite <- Hcg|intros j Hj; rewrite <- Hcg; by apply Hl].
      * split; [exact Hcl|]. intros j Hj. destruct (digits _ j Hj) as (jk & jr & -> & Hjk & Hjr). rewrite Hgets by done. case_decide as E1.
        -- subst jk. rewrite (get_S l _ _ _ _ jr s) by (done || (by rewrite Nat2Z.id)). apply decide_ext. lia.
        -- destruct Hf as [Hf1 Hf2]. rewrite decide_False; [done|]. intros E2. apply digits_inj in E2; [done|done|lia].
      * apply (spent_trans 1 l _ _ _ Hsp Hsp').
    + assert (is_full s' = false) as Hnf.
      { unfold is_full. rewrite Hbs. destruct s; [done|done|]. by cbn [fills child] in Hbit |- *. }
      destruct (closed_ok l bm ary c m s s' c1 ary1 (get l s) Hw Em ltac:(lia) Hclear Hw') as [Hcl Hgets];
        [intros j Hj; rewrite Hp by done; by rewrite Hcg|by apply Ea|done|].
      unfold closed in Hcl, Hgets. rewrite Hnf in Hcl, Hgets.
      right. eexists (with_slot m s' (Layer bm ary1 c1)), idp'. split_and!; [by rewrite Eloop|exact Hcl|done| |apply (spent_trans 1 l _ _ _ Hsp Hsp')|].
      * intros j Hj. destruct (digits _ j Hj) as (jk & jr & -> & Hjk & Hjr). rewrite Hgets by done. case_decide as E1; [|done].
        subst jk. by rewrite (get_S l _ _ _ _ jr s) by (done || (by rewrite Nat2Z.id)).
      * destruct Hsp as (_ & _ & ?). lia.
Qed.

(** ** Growing the tree *)

(** The numbers of a tree whose top is at level [l]. *)
Definition holds (l : nat) t (m : gmap Z P) : Prop :=
  wf l t /\ forall id, m !! id = if decide (0 <= id < pw (S l)) then get l t id else None.

Lemma holds_full l t m : holds l t m -> bitmap t = IDR_FULL -> forall id, 0 <= id < pw (S l) -> m !! id <> None.
Proof. intros [Hw Hm] Hf id Hid. rewrite Hm, decide_True by done. by apply full_taken. Qed.

Lemma holds_blank l m : holds l blank m -> m = ∅.
Proof. intros [_ Hm]. apply map_eq. intros i. rewrite Hm, lookup_empty, get_blank. by case_decide. Qed.
Lemma blank_holds l : holds l blank ∅.
Proof. split; [apply wf_blank|]. intros i. rewrite lookup_empty, get_blank. by case_decide. Qed.

Lemma wf_count_zero l t : wf l t -> count t = 0 -> t = blank.
Proof.
  intros Hw. destruct t as [|x|bm ary c]; [by destruct l|by destruct l|]. cbn [count]. intros ->.
  assert (length ary = 32%nat /\ is_u32 bm /\ 0 = cnt ary /\ forall n s, ary !! n = Some s -> Z.testbit bm (Z.of_nat n) = fills l s) as (L & Hb & Hc & Hs).
  { destruct l; destruct Hw as (? & ? & ? & Hs); (split_and!; [done|done|done|]); intros n s E; by destruct (Hs n s E). }
  symmetry in Hc. apply cnt_zero in Hc. rewrite L in Hc. unfold blank, IDR_SIZE. rewrite Hc. f_equal. apply u32_ext; [done|by_eval|].
  intros n Hn. rewrite Z.bits_0, (Hs n Null); [by destruct l|]. rewrite Hc. by apply lookup_replicate_2.
Qed.

(** A layer above another. *)
Definition above p : slot := Layer (if is_full p then 1 else 0) (p :: replicate 31 Null) 1.

Lemma above_ok l p m : holds l p m -> holds (S l) (above p) m.
Proof.
  intros [Hw Hm]. assert (nonnull p = true) as Hn by (destruct p; [by destruct l|done|done]). unfold above. split.
  - cbn [wf]. split_and!; [done|by destruct (is_full p)|cbn; by rewrite Hn|]. intros n s E. destruct n as [|n].
    + injection E as <-. split; [|by right]. cbn [fills]. fold (is_full p). by destruct (is_full p).
    + change ((replicate 31 Null : list slot) !! n = Some s) in E. apply lookup_replicate in E as [-> _]. split; [|by left].
      cbn [fills bitmap]. destruct (is_full p); [|by rewrite Z.bits_0]. rewrite <- (Z.pow_0_r 2). rewrite Z.pow2_bits_false by lia. done.
  - intros id. rewrite Hm. pose proof (pw_pos (S l)). pose proof (pw_S (S l)) as E32. repeat case_decide; try lia.
    + pose proof (get_S l (if is_full p then 1 else 0) (p :: replicate 31 Null) 1 0 id p ltac:(lia) ltac:(lia) eq_refl) as E. by rewrite Z.add_0_l in E.
    + destruct (digits (S l) id) as (k & r & -> & Hk & Hr); [lia|].
      rewrite (get_S l _ _ _ k r Null); [by rewrite get_null|done|done|]. destruct (Z.to_nat k) as [|n] eqn:E; [nia|].
      change ((replicate 31 Null : list slot) !! n = Some Null). apply lookup_replicate_2. lia.
    + done.
Qed.

(** The layers that were built are a chain through the first slots. *)
Fixpoint chain (k : nat) p : Prop :=
  match k with O => True | S k => exists bm p0 c, p = Layer bm (p0 :: replicate 31 Null) c /\ chain k p0 end.

Lemma tear_down_ok k p idp : chain k p -> free_ok idp ->
  free_ok (tear_down k p idp) /\ top (tear_down k p idp) = top idp /\ layers (tear_down k p idp) = layers idp.
Proof.
  revert p idp. induction k as [|k IH]; intros p idp Hc [Hb Hn]; [by destruct p|]. destruct Hc as (bm & p0 & c & -> & Hc). cbn [tear_down].
  change (default Null ((p0 :: replicate 31 Null) !! 0%nat)) with p0.
  refine (IH p0 (free_layer _ idp) Hc _). split; [constructor; [done|exact Hb]|]. cbn. rewrite Hn. lia.
Qed.

Definition same_tree idp idp' : Prop := free_ok idp' /\ top idp' = top idp /\ layers idp' = layers idp.

Lemma add_layers_ok k : forall idp p built l (id : Z) m,
  (k + S l = MAX_LEVEL)%nat -> (l < 5)%nat -> holds l p m -> chain built p -> free_ok idp -> 0 <= id < pw 5 ->
  (exists idp', add_layers k idp p built (S l) id = inl idp' /\ same_tree idp idp' /\ (length (id_free idp) < 5 - l)%nat) \/
  (exists idp' p' l', add_layers k idp p built (S l) id = inr (idp', p', S l') /\ holds l' p' m /\ (l <= l' < 5)%nat /\ id < pw (S l') /\
    same_tree idp idp' /\ (length (id_free idp) <= length (id_free idp') + (l' - l))%nat /\
    ((l' = l /\ p' = p) \/ pw (S l) <= id)).
Proof.
  induction k as [|k IH]; intros idp p built l id m Hk Hl Hp Hc Hf Hid; unfold MAX_LEVEL in *; [lia|]. cbn [add_layers].
  assert (Z.shiftl 1 (Z.of_nat (S l) * IDR_BITS) = pw (S l)) as -> by (rewrite Z.shiftl_1_l; unfold pw, IDR_BITS; f_equal; lia).
  destruct (Z.leb_spec (pw (S l)) id) as [Hge|Hlt].
  2:{ right. eexists _, _, l. split; [reflexivity|]. split; [done|]. split; [lia|]. split; [done|]. split; [done|]. split; [lia|by left]. }
  assert (S l < 5)%nat as Hl1. { destruct (decide (S l < 5)%nat); [done|]. assert (l = 4%nat) as -> by lia. lia. }
  destruct (Z.eqb_spec (count p) 0) as [E0|Hne].
  - destruct Hp as [Hw Hm]. apply (wf_count_zero l) in E0; [|done]. subst p. assert (m = ∅) as -> by (by apply (holds_blank l)).
    destruct (IH idp blank built (S l) id ∅ ltac:(lia) ltac:(lia) (blank_holds _) Hc Hf Hid) as [(idp' & E & Hs & Hlen)|(idp' & p' & l' & E & Hh & Hl' & Hlt & Hs & Hlen & _)]; rewrite E.
    + left. exists idp'. split; [done|]. split; [done|lia].
    + right. exists idp', p', l'. split; [done|]. split; [done|]. split; [lia|]. split; [done|]. split; [done|]. split; [lia|by right].
  - destruct (alloc_layer_ok idp Hf) as [[-> Ef]|(idp1 & -> & Hs1 & Ht1 & Hlen1)].
    + left. destruct (tear_down_ok built p idp Hc Hf) as (H1 & H2 & H3). eexists. split; [reflexivity|]. split; [done|]. rewrite Ef. cbn. lia.
    + assert ((if bitmap p =? IDR_FULL then with_bitmap (set_bit 0) (with_count (fun _ => 1) (with_slot 0 p blank)) else with_count (fun _ => 1) (with_slot 0 p blank)) = above p) as ->.
      { unfold above, is_full, blank. by destruct (bitmap p =? IDR_FULL). }
      destruct (IH idp1 (above p) (S built) (S l) id m ltac:(lia) ltac:(lia) (above_ok l p m Hp)) as [(idp' & E & Hs & Hlen)|(idp' & p' & l' & E & Hh & Hl' & Hlt & Hs & Hlen & _)];
        [by eexists _, p, _|apply Hs1|done|rewrite E..]; destruct Hs1 as (_ & Hl2 & _); assert (same_tree idp idp') by (destruct Hs as (? & ? & ?); split; [done|split; congruence]).
      * left. exists idp'. split; [done|]. split; [done|lia].
      * right. exists idp', p', l'. split; [done|]. split; [done|]. split; [lia|]. split; [done|]. split; [done|]. split; [lia|by right].
Qed.

(** ** Contexts *)

(** A context is a finite map from numbers; up to 2^25 of them. *)
Definition represents idp (m : gmap Z P) : Prop :=
  free_ok idp /\ match layers idp with O => top idp = Null /\ m = ∅ | S l => (l < 5)%nat /\ holds l (top idp) m end.

(** What allocation from [id] on gives. *)
Definition gave (id : Z) ptr (m : gmap Z P) (r : Z) idp' : Prop :=
  id <= r < pw 5 /\ m !! r = None /\ (forall j, id <= j < r -> m !! j <> None) /\ represents idp' (<[r := ptr]> m).

Lemma sub_alloc_ok l idp ptr (id : Z) m :
  layers idp = S l -> (l < 5)%nat -> free_ok idp -> holds l (top idp) m -> ok l (top idp) id -> 0 <= id < pw (S l) ->
  (exists r idp', sub_alloc idp ptr id = Ret (r, id, idp') /\ gave id ptr m r idp') \/
  (exists idp', sub_alloc idp ptr id = Ret (-1, id, idp') /\ represents idp' m /\ (length (id_free idp) < 5)%nat).
Proof.
  intros El Hl Hf [Hw Hm] Hok Hid. unfold sub_alloc. rewrite El, (proj2 (Nat.leb_gt _ _)) by (unfold MAX_LEVEL; lia). replace (S l - 1)%nat with l by lia.
  assert (pw (S l) <= pw 5) as H5 by (apply pw_mono; lia). assert (pw 5 < 2 ^ 31) by done.
  destruct (alloc_down l (4 * MAX_LEVEL) ptr id idp [] (top idp) 0 id) as [(f & p' & idp' & E & (Hr & Hg & Hlt) & (Hw' & Hp) & Hf' & Hl' & _)|(p' & idp' & E & Hw' & _ & Hp & (Hf' & Hl' & _) & Hlen)];
    [unfold MAX_LEVEL; lia|done|done|done|lia|lia|done|rewrite !Z.mul_0_l, !Z.add_0_l in E; rewrite E..]; cbn [mark_full unwind].
  - left. eexists f, _. split; [reflexivity|]. unfold gave, represents. cbn [layers id_free id_free_cnt set_top top]. rewrite Hl', El. split; [lia|].
    split; [by rewrite Hm, decide_True by lia|]. split; [intros j Hj; rewrite Hm, decide_True by lia; by apply Hlt|]. split; [done|]. split; [done|]. split; [done|].
    intros j. destruct (decide (j = f)) as [->|Hne].
    + rewrite lookup_insert_eq, decide_True by lia. rewrite Hp, decide_True by (done || lia). done.
    + rewrite lookup_insert_ne, Hm by done. case_decide as Hj; [|done]. by rewrite Hp, decide_False by done.
  - right. eexists. split; [reflexivity|]. split; [|lia]. unfold represents. cbn [layers id_free id_free_cnt set_top top]. rewrite Hl', El. split; [done|]. split; [done|]. split; [done|].
    intros j. rewrite Hm. case_decide as Hj; [|done]. by rewrite Hp.
Qed.

(** Where the walk does not go back: beyond the tree, or where a free number comes first. *)
Definition direct idp (id : Z) : Prop :=
  match layers idp with O => True | S l => pw (S l) <= id \/ ok l (top idp) id end.

(** The rest of a round, from a tree that may not be the context's yet. *)
Lemma grown_ok l p idp built ptr (id : Z) m (K : Z * Z * idr_context -> outcome (Z * idr_context)) :
  (l < 5)%nat -> holds l p m -> chain built p -> free_ok idp -> 0 <= id < pw 5 -> (pw (S l) <= id \/ ok l p id) ->
  (forall v st idp', v <> -2 -> K (v, st, idp') = Ret (v, idp')) ->
  (exists idp', same_tree idp idp' /\ (length (id_free idp) < 5)%nat /\ match add_layers (MAX_LEVEL - S l) idp p built (S l) id with inl i => Ret (-1, i) | inr (i, q, n) => let* r := sub_alloc (set_layers n (set_top q i)) ptr id in K r end = Ret (-1, idp')) \/
  exists r idp', match add_layers (MAX_LEVEL - S l) idp p built (S l) id with inl i => Ret (-1, i) | inr (i, q, n) => let* r := sub_alloc (set_layers n (set_top q i)) ptr id in K r end = Ret (r, idp') /\
    (gave id ptr m r idp' \/ (r = -1 /\ represents idp' m /\ (length (id_free idp) < 10)%nat)).
Proof.
  intros Hl Hp Hc Hf Hid Hok HK.
  destruct (add_layers_ok (MAX_LEVEL - S l) idp p built l id m) as [(idp1 & E & Hs & Hlen)|(idp1 & p1 & l1 & E & Hh & Hl1 & Hlt & Hs & Hlen & Hold)];
    [unfold MAX_LEVEL; lia|done|done|done|done|done|rewrite E..].
  - left. exists idp1. split; [done|]. split; [lia|done].
  - right. assert (ok l1 p1 id) as Hok1.
    { destruct Hold as [[-> ->]|Hge]; [destruct Hok; [lia|done]|]. apply ok_free; [apply Hh|].
      destruct Hh as [_ Hh], Hp as [_ Hp]. specialize (Hh id). rewrite decide_True in Hh by lia. rewrite <- Hh, Hp, decide_False; [done|lia]. }
    destruct (sub_alloc_ok l1 (set_layers (S l1) (set_top p1 idp1)) ptr id m eq_refl ltac:(lia) (proj1 Hs) Hh Hok1 ltac:(lia)) as [(r & idp' & Er & Hg)|(idp' & Er & Hr & Hlen')]; rewrite Er; cbn [obind].
    + exists r, idp'. destruct Hg as (Hr & Hg). rewrite HK by lia. split; [done|]. left. by split.
    + exists (-1), idp'. rewrite HK by lia. split; [done|]. right. split; [done|]. split; [done|]. cbn [id_free set_layers set_top] in Hlen'. lia.
Qed.

Lemma represents_same idp idp' m : represents idp m -> same_tree idp idp' -> represents idp' m.
Proof. intros [_ Hr] (Hf & Ht & El). split; [done|]. by rewrite El, Ht. Qed.

Lemma build_up_ok fuel idp ptr (id : Z) m :
  represents idp m -> 0 <= id < pw 5 -> direct idp id ->
  exists r idp', build_up (S fuel) idp ptr id = Ret (r, idp') /\
    (gave id ptr m r idp' \/ (r = -1 /\ represents idp' m /\ (length (id_free idp) < 11)%nat)).
Proof.
  intros Hrep Hid Hd. pose proof Hrep as [Hf Hr]. cbn [build_up]. unfold direct in Hd.
  set (K := fun r : Z * Z * idr_context => let '(v, id, idp) := r in if v =? -2 then build_up fuel idp ptr id else Ret (v, idp)).
  assert (forall v st idp', v <> -2 -> K (v, st, idp') = Ret (v, idp')) as HK.
  { unfold K. intros v st idp' Hv. by rewrite (proj2 (Z.eqb_neq _ _)). }
  destruct (layers idp) as [|l] eqn:El.
  - destruct Hr as [Et ->]. rewrite Et. destruct (alloc_layer_ok idp Hf) as [[-> Ef]|(idp1 & -> & (Hf1 & El1 & _) & Et1 & Elen)].
    { exists (-1), idp. split; [done|]. right. split; [done|]. split; [done|]. rewrite Ef. cbn. lia. }
    destruct (grown_ok 0 blank idp1 1 ptr id ∅ K ltac:(lia) (blank_holds 0) ltac:(by eexists _, _, _) Hf1 Hid (or_intror (ok_blank 0 id)) HK) as [(idp' & Hs & Hlen & E)|(r & idp' & E & H)].
    + exists (-1), idp'. split; [exact E|]. right. split; [done|]. split; [|lia]. eapply represents_same; [exact Hrep|]. destruct Hs as (? & ? & ?). split; [done|split; congruence].
    + exists r, idp'. split; [exact E|]. destruct H as [H|(? & ? & ?)]; [by left|right]. split; [done|]. split; [done|lia].
  - destruct Hr as [Hl Hh].
    assert (exists bm ary c, top idp = Layer bm ary c) as (bm & ary & c & Et) by (destruct Hh as [Hw _]; destruct (top idp) as [|x|bm ary c]; [by destruct l|by destruct l|by eexists _, _, _]).
    rewrite Et in *. destruct (grown_ok l (Layer bm ary c) idp 0 ptr id m K Hl Hh I Hf Hid Hd HK) as [(idp' & Hs & Hlen & E)|(r & idp' & E & H)].
    + exists (-1), idp'. split; [exact E|]. right. split; [done|]. split; [by eapply represents_same|lia].
    + exists r, idp'. split; [exact E|]. destruct H as [H|(? & ? & ?)]; [by left|right]. split; [done|]. split; [done|lia].
Qed.

(** A tree that is full sends the search for a number on to the first beyond it. *)
Lemma sub_alloc_full l idp ptr : layers idp = S l -> (l < 5)%nat -> wf l (top idp) -> bitmap (top idp) = IDR_FULL ->
  sub_alloc idp ptr 0 = Ret (-2, pw (S l), set_top (top idp) idp).
Proof.
  intros El Hl Hw Hf. unfold sub_alloc. rewrite El, (proj2 (Nat.leb_gt _ _)) by (unfold MAX_LEVEL; lia). replace (S l - 1)%nat with l by lia.
  destruct (top idp) as [|x|bm ary c] eqn:Et; [by destruct l|by destruct l|]. cbn [bitmap] in Hf. subst bm. change (4 * MAX_LEVEL)%nat with (S 27). generalize 27%nat as k. intros k. cbn [sub_alloc_loop].
  assert (index l 0 = 0%nat) as -> by (rewrite index_spec, Z.div_0_l by (pose proof (pw_pos l); lia); done).
  change (find_next_bit (not32 IDR_FULL) IDR_SIZE 0 =? IDR_SIZE)%nat with true. cbn iota.
  rewrite (proj2 (Z.ltb_ge _ _)) by (unfold IDR_BITS; lia). rewrite Z.lor_0_l, Z.shiftl_1_l. unfold IDR_BITS. fold (pw (S l)). rewrite Z.sub_add.
  assert (pw (S l) < 2 ^ 31) as Hp by (apply (Z.le_lt_trans _ (pw 5)); [apply pw_mono; lia|by_eval]). by rewrite (proj2 (Z.leb_gt _ _) Hp).
Qed.

Lemma build_up_zero fuel idp ptr m :
  represents idp m -> m !! (2 ^ 25 - 1) = None ->
  exists r idp', build_up (S (S fuel)) idp ptr 0 = Ret (r, idp') /\
    (gave 0 ptr m r idp' \/ (r = -1 /\ represents idp' m /\ (length (id_free idp) < 11)%nat)).
Proof.
  intros Hrep Hfree. destruct (layers idp) as [|l] eqn:El; [by apply build_up_ok; [done|by vm_compute|unfold direct; rewrite El]|].
  pose proof Hrep as [Hf Hr]. rewrite El in Hr. destruct Hr as [Hl Hh]. destruct (decide (bitmap (top idp) = IDR_FULL)) as [Hfull|Hnf].
  2:{ apply build_up_ok; [done|by vm_compute|]. unfold direct. rewrite El. right. change 0 with (0 * pw (S l)). apply ok_start; [apply Hh|done]. }
  assert (S l < 5)%nat as Hl1.
  { destruct (decide (S l < 5)%nat); [done|]. assert (l = 4%nat) as -> by lia. by destruct (holds_full 4 _ m Hh Hfull (2 ^ 25 - 1) ltac:(by vm_compute)). }
  cbn [build_up]. destruct (top idp) as [|x|bm ary c] eqn:Et; [by destruct Hh as [Hw _], l|by destruct Hh as [Hw _], l|]. rewrite El.
  assert (add_layers (MAX_LEVEL - S l) idp (Layer bm ary c) 0 (S l) 0 = inr (idp, Layer bm ary c, S l)) as ->.
  { destruct (MAX_LEVEL - S l)%nat; [done|]. cbn [add_layers]. rewrite (proj2 (Z.leb_gt _ _)); [done|]. rewrite Z.shiftl_1_l. unfold IDR_BITS. lia. }
  rewrite (sub_alloc_full l) by (done || apply Hh). cbn [obind].
  set (idp1 := set_top _ _). assert (represents idp1 m) as Hrep1. { split; [done|]. cbn. done. }
  assert (pw (S l) < pw 5) by (unfold pw; apply Z.pow_lt_mono_r; lia). pose proof (pw_pos (S l)).
  destruct (build_up_ok fuel idp1 ptr (pw (S l)) m Hrep1) as (r & idp' & E & Hres); [lia|unfold direct; cbn; left; lia|].
  exists r, idp'. split; [exact E|]. destruct Hres as [(Hr & Hn & Ht & Hrep')|Hres]; [left|by right]. split; [lia|]. split; [done|]. split; [|done].
  intros j Hj. destruct (decide (j < pw (S l))); [|apply Ht; lia]. apply (holds_full l (Layer bm ary c) m Hh Hfull). lia.
Qed.

Lemma pre_get_ok (A : Allocator) k i idp m : represents idp m ->
  represents (pre_get A k i idp) m /\ (malloc_always A -> IDR_FREE_MAX - id_free_cnt idp <= Z.of_nat k -> (14 <= length (id_free (pre_get A k i idp)))%nat).
Proof.
  revert i idp. induction k as [|k IH]; intros i idp Hr; pose proof Hr as [[Hb Hc] Ht]; cbn [pre_get]; unfold IDR_FREE_MAX in *; [split; [done|intros; lia]|].
  destruct (id_free_cnt idp <? 14) eqn:E; [|split; [done|apply Z.ltb_ge in E; lia]]. apply Z.ltb_lt in E.
  destruct (malloc_ok i) eqn:Em; [|split; [done|intros HA; by rewrite HA in Em]].
  destruct (IH (S i) (free_layer blank idp)) as [H1 H2].
  { split; [|done]. split; [by constructor|]. cbn. rewrite Hc. lia. }
  split; [done|]. intros HA Hk. apply H2; [done|]. cbn. lia.
Qed.

(** ** Removal *)

Definition after idp idp' : Prop := free_ok idp' /\ layers idp' = layers idp.
(** Number [o] is no longer there. *)
Definition dropped (l : nat) p (o : Z) p' : Prop :=
  forall j, 0 <= j < pw (S l) -> get l p' j = if decide (j = o) then None else get l p j.

(** A layer without the slot [n]. *)
Definition without (n : nat) p : slot := with_slot n Null (with_bitmap (clear_bit n) p).

Lemma clear_slot_wf l bm ary c n s s' c' : wf l (Layer bm ary c) -> ary !! n = Some s -> (n < 32)%nat ->
  fills l s' = false -> (match l with O => s' = Null | S l => s' = Null \/ wf l s' end) ->
  c' = c - (if nonnull s then 1 else 0) + (if nonnull s' then 1 else 0) ->
  wf l (Layer (clear_bit n bm) (<[n:=s']> ary) c').
Proof.
  intros Hw En Hn Hfs Hs' ->. assert (length ary = 32%nat /\ is_u32 bm /\ c = cnt ary) as (L & Hb & Hc) by (destruct l; by destruct Hw as (? & ? & ? & _)).
  assert (forall k x, <[n:=s']> ary !! k = Some x -> Z.testbit (clear_bit n bm) (Z.of_nat k) = fills l x /\
    match l with O => match x with Layer _ _ _ => False | _ => True end | S l => x = Null \/ wf l x end) as Hall.
  { intros k x Ex. rewrite clear_bit_spec by (done || lia). destruct (decide (k = n)) as [->|Hne].
    - rewrite list_lookup_insert_eq in Ex by lia. injection Ex as <-. rewrite bool_decide_true, andb_false_r, Hfs by done. split; [done|]. destruct l; [by rewrite Hs'|done].
    - rewrite list_lookup_insert_ne in Ex by done. rewrite bool_decide_false, andb_true_r by lia. destruct l; destruct Hw as (_ & _ & _ & Hs); by apply Hs. }
  destruct l; cbn [wf]; (split_and!; [by rewrite length_insert|by apply clear_bit_u32|by rewrite (cnt_insert n _ s) by done; rewrite Hc|exact Hall]).
Qed.

Lemma drop_step l bm ary c n s (pa : list (slot * nat)) idp : wf l (Layer bm ary c) -> ary !! n = Some s -> (n < 32)%nat -> nonnull s = true -> free_ok idp ->
  let p' := Layer (clear_bit n bm) (<[n:=Null]> ary) (c - 1) in
  wf l p' /\
  (drop_counts (without n (Layer bm ary c)) pa idp = set_top (unwind pa p') idp \/
   p' = blank /\ exists idp', after idp idp' /\ drop_counts (without n (Layer bm ary c)) pa idp =
     match pa with [] => set_layers 0 (set_top Null idp') | (q, i) :: pa => drop_counts (with_slot i Null q) pa idp' end).
Proof.
  intros Hw En Hn Hs Hf p'. assert (wf l p') as Hw'.
  { eapply clear_slot_wf; [done|done|done|by destruct l|by destruct l; auto|]. rewrite Hs. cbn. lia. }
  split; [done|]. assert (forall pa idp, drop_counts (without n (Layer bm ary c)) pa idp =
    if count p' =? 0 then match pa with [] => set_layers 0 (set_top Null (free_layer p' idp)) | (q, i) :: pa => drop_counts (with_slot i Null q) pa (free_layer p' idp) end
    else set_top (unwind pa p') idp) as E by (intros [|[q i] pa0] idp0; reflexivity).
  rewrite E. destruct (count p' =? 0) eqn:E0; [|by left]. right. apply Z.eqb_eq in E0. pose proof (wf_count_zero l p' Hw' E0) as Eb. split; [done|].
  exists (free_layer p' idp). split; [|done]. rewrite Eb. destruct Hf as [H1 H2]. split; [|done]. split; [by constructor|]. cbn. rewrite H2. lia.
Qed.

Lemma clear_nothing bm ary c n s : is_u32 bm -> Z.testbit bm (Z.of_nat n) = false -> ary !! n = Some s ->
  with_slot n s (with_bitmap (clear_bit n) (Layer bm ary c)) = Layer bm ary c.
Proof.
  intros Hb Hbit En. cbn. rewrite list_insert_id by done. f_equal. apply u32_ext; [by apply clear_bit_u32|done|]. intros k Hk. rewrite clear_bit_spec by (done || lia).
  case_bool_decide as E; [|by rewrite andb_true_r]. apply Nat2Z.inj in E. subst k. by rewrite Hbit.
Qed.

Definition removal idp (l : nat) (id : Z) p (pa : list (slot * nat)) : outcome (Z * idr_context) :=
  let* (p, pa) := clear_path l id p pa in
  let n := index 0 id in
  match p with
  | Null => Ret (-1, set_top (unwind pa p) idp)
  | Layer bm ary c =>
      if test_bit n bm then Ret (0, drop_counts (with_slot n Null (with_bitmap (clear_bit n) p)) pa idp)
      else Ret (-1, set_top (unwind pa p) idp)
  | User _ => Fault
  end.

(** What removal does to a layer, by whether something is left. *)
Definition removed l idp (q o : Z) p (pa : list (slot * nat)) : Prop :=
  (get l p o = None /\ removal idp l (q * pw (S l) + o) p pa = Ret (-1, set_top (unwind pa p) idp)) \/
  (get l p o <> None /\
    ((exists p' idp', removal idp l (q * pw (S l) + o) p pa = Ret (0, set_top (unwind pa p') idp') /\ wf l p' /\ dropped l p o p' /\ after idp idp') \/
     (exists idp', removal idp l (q * pw (S l) + o) p pa =
        Ret (0, match pa with [] => set_layers 0 (set_top Null idp') | (q, i) :: pa => drop_counts (with_slot i Null q) pa idp' end) /\
        dropped l p o blank /\ after idp idp'))).

Lemma get_slot l bm ary c n s (k r : Z) : wf (S l) (Layer bm ary c) -> 0 <= k < 32 -> 0 <= r < pw (S l) -> n = Z.to_nat k -> ary !! n = Some s ->
  forall bm' s' c', (forall j, 0 <= j < pw (S l) -> get l s' j = if decide (j = r) then None else get l s j) ->
  dropped (S l) (Layer bm ary c) (k * pw (S l) + r) (Layer bm' (<[n:=s']> ary) c').
Proof.
  intros (L & _) Hk Hr -> En bm' s' c' Hg j Hj. destruct (digits _ j Hj) as (jk & jr & -> & Hjk & Hjr). destruct (decide (jk = k)) as [->|Hne].
  - rewrite (get_S l _ _ _ k jr s'), (get_S l _ _ _ k jr s) by (done || (apply list_lookup_insert_eq; lia)). rewrite Hg by done. apply decide_ext. lia.
  - destruct (lookup_lt_is_Some_2 ary (Z.to_nat jk)) as (x & Ex); [lia|]. rewrite decide_False by (intros E; by apply digits_inj in E).
    rewrite !(get_S l _ _ _ jk jr x); try done. rewrite list_lookup_insert_ne by lia. done.
Qed.

Lemma removed_leaf idp (q o : Z) p (pa : list (slot * nat)) : wf 0 p -> free_ok idp -> 0 <= o < pw 1 -> removed 0 idp q o p pa.
Proof.
  intros Hw Hf Ho. change (pw 1) with 32 in *. destruct p as [|x|bm ary c]; [done|done|]. pose proof Hw as (L & Hb & Hc & Hs).
  destruct (lookup_lt_is_Some_2 ary (Z.to_nat o)) as (s & Es); [lia|]. destruct (Hs _ _ Es) as [Hbit Hu]. unfold removed. rewrite (get_0 _ _ _ o s) by done.
  assert (index 0 (q * pw 1 + o) = Z.to_nat o) as Ei by (pose proof (index_digit 0 q o 0 Ho) as E; change (pw 0) with 1 in E; rewrite <- E by lia; f_equal; lia).
  unfold removal. cbn [clear_path obind]. rewrite Ei, test_bit_spec, Hbit. cbn [fills]. destruct s as [|x|]; [by left| |done]. right. split; [done|]. cbn [nonnull].
  assert (forall bm' c', dropped 0 (Layer bm ary c) o (Layer bm' (<[Z.to_nat o:=Null]> ary) c')) as Hd.
  { intros bm' c' j Hj. change (pw 1) with 32 in Hj. destruct (lookup_lt_is_Some_2 ary (Z.to_nat j)) as (y & Ey); [lia|]. rewrite (get_0 bm ary c j y) by done. case_decide as E.
    - subst j. apply (get_0 _ _ _ _ Null); [done|]. apply list_lookup_insert_eq. lia.
    - apply get_0; [done|]. by rewrite list_lookup_insert_ne by lia. }
  destruct (drop_step 0 bm ary c _ _ pa idp Hw Es ltac:(lia) eq_refl Hf) as [Hw' [E|(Eb & idp' & Ha & E)]]; unfold without in E; rewrite E.
  - left. eexists _, idp. split; [reflexivity|]. split; [done|]. split; [apply Hd|done].
  - right. exists idp'. split; [done|]. split; [rewrite <- Eb; apply Hd|done].
Qed.

Lemma clear_path_null l id (pa : list (slot * nat)) : clear_path l id Null pa = Ret (Null, pa).
Proof. by destruct l. Qed.

Lemma remove_down l : forall idp (q o : Z) p (pa : list (slot * nat)), wf l p -> free_ok idp -> 0 <= o < pw (S l) -> removed l idp q o p pa.
Proof.
  induction l as [|l IH]; intros idp q o p pa Hw Hf Ho; [by apply removed_leaf|]. destruct p as [|x|bm ary c]; [done|done|]. pose proof Hw as (L & Hb & Hc & Hs).
  destruct (digits _ o Ho) as (k & r & -> & Hk & Hr). set (n := Z.to_nat k). assert (n < 32)%nat as Hn by (unfold n; lia).
  destruct (wf_slot _ _ _ _ n Hw Hn) as (s & Es). destruct (Hs _ _ Es) as [Hbit Hu]. unfold removed. rewrite (get_S l _ _ _ k r s) by done.
  assert (removal idp (S l) (q * pw (S (S l)) + (k * pw (S l) + r)) (Layer bm ary c) pa =
          removal idp l ((q * 32 + k) * pw (S l) + r) s ((with_bitmap (clear_bit n) (Layer bm ary c), n) :: pa)) as ->.
  { unfold removal. cbn [clear_path]. rewrite index_digit by done. fold n. rewrite Es.
    by replace (q * pw (S (S l)) + (k * pw (S l) + r)) with ((q * 32 + k) * pw (S l) + r) by (rewrite (pw_S (S l)); ring). }
  destruct Hu as [->|Hu].
  { left. rewrite get_null. split; [done|]. unfold removal. rewrite clear_path_null. cbn [obind unwind]. rewrite clear_nothing; [done|done| |done]. by rewrite Hbit. }
  destruct (IH idp (q * 32 + k) r s ((with_bitmap (clear_bit n) (Layer bm ary c), n) :: pa) Hu Hf Hr) as [[Hg E]|[Hg [(p' & idp' & E & Hw' & Hd & Ha)|(idp' & E & Hd & Ha)]]]; rewrite E.
  - left. split; [done|]. cbn [unwind]. rewrite clear_nothing; [done|done| |done]. rewrite Hbit. cbn [fills]. apply Z.eqb_neq. intros Ef. by apply (full_taken l s r).
  - right. split; [done|]. left. cbn [unwind with_bitmap with_slot]. eexists _, idp'. split; [reflexivity|]. split; [|split; [|done]].
    + eapply clear_slot_wf; [done|done|done| |by right|].
      * cbn [fills]. apply Z.eqb_neq. intros Ef. apply (full_taken l p' r Hw' Ef). by rewrite Hd, decide_True by done.
      * assert (nonnull s = true) as -> by (destruct s; [by destruct l|done|done]). assert (nonnull p' = true) as -> by (destruct p'; [by destruct l|done|done]). lia.
    + by apply (get_slot l bm ary c n s k r Hw Hk Hr eq_refl Es).
  - right. split; [done|]. assert (nonnull s = true) as Hns by (destruct s; [by destruct l|done|done]).
    assert (forall bm' c', dropped (S l) (Layer bm ary c) (k * pw (S l) + r) (Layer bm' (<[n:=Null]> ary) c')) as Hd'.
    { intros bm' c'. apply (get_slot l bm ary c n s k r Hw Hk Hr eq_refl Es). intros j Hj. specialize (Hd j Hj). rewrite get_blank in Hd. by rewrite get_null. }
    destruct (drop_step (S l) bm ary c n s pa idp' Hw Es Hn Hns (proj1 Ha)) as [Hw' [E'|(Eb & idp2 & Ha2 & E')]]; unfold without in E'; rewrite E'.
    + left. eexists _, idp'. split; [reflexivity|]. split; [done|]. split; [apply Hd'|done].
    + right. exists idp2. split; [done|]. split; [rewrite <- Eb; apply Hd'|]. destruct Ha as [_ H1], Ha2 as [H2 H3]. split; [done|congruence].
Qed.

Lemma drop_free_ok k idp : free_ok idp -> same_tree idp (drop_free k idp).
Proof.
  revert idp. induction k as [|k IH]; intros idp Hf; cbn [drop_free]; [done|]. destruct (IDR_FREE_MAX <=? id_free_cnt idp); [|done].
  destruct (alloc_layer_ok idp Hf) as [[-> _]|(idp' & -> & (Hf' & El & _) & Et & _)]; [done|]. destruct (IH idp' Hf') as (H1 & H2 & H3). split; [done|split; congruence].
Qed.

Lemma low_bits (id : Z) : 0 <= id < 2 ^ 31 -> Z.land id MAX_ID_MASK = id.
Proof. intros Hid. change MAX_ID_MASK with (Z.ones 31). rewrite Z.land_ones by lia. by apply Z.mod_small. Qed.

(** A top with one layer left in its first slot can be dropped. *)
Lemma lower_top l bm ary p m : holds (S l) (Layer bm ary 1) m -> ary !! 0%nat = Some p -> p <> Null ->
  holds l p m /\ with_slot 0 Null (Layer 0 ary 0) = blank.
Proof.
  intros [Hw Hm] Ep Hp. pose proof Hw as (L & Hb & Hc & Hs). destruct (Hs _ _ Ep) as [_ [->|Hwp]]; [done|].
  destruct ary as [|p0 ary]; [done|]. injection Ep as ->. apply eq_sym, cnt_one in Hc; [|by destruct p]. cbn [length] in L. injection L as L. rewrite L in Hc. subst ary.
  split; [|done]. split; [done|]. intros id. rewrite Hm. pose proof (pw_pos (S l)). pose proof (pw_S (S l)) as E32. repeat case_decide; try lia.
  - pose proof (get_S l bm (p :: replicate 31 Null) 1 0 id p ltac:(lia) ltac:(lia) eq_refl) as E. by rewrite Z.add_0_l in E.
  - destruct (digits (S l) id) as (k & r & -> & Hk & Hr); [lia|]. rewrite (get_S l _ _ _ k r Null); [by rewrite get_null|done|done|].
    destruct (Z.to_nat k) as [|n] eqn:E; [nia|]. change ((replicate 31 Null : list slot) !! n = Some Null). apply lookup_replicate_2. lia.
  - done.
Qed.

Lemma lookup_below l t m id : holds l t m -> is_Some (m !! id) -> 0 <= id < pw (S l).
Proof. intros [_ Hm] [x Hx]. rewrite Hm in Hx. by case_decide. Qed.

(** The layer that is dropped after a removal. *)
Definition lowered idp : idr_context :=
  match top idp with
  | Layer bm ary 1 =>
      match ary !! 0%nat with
      | Some Null | None => idp
      | Some p => if (1 <? layers idp)%nat then set_layers (layers idp - 1) (set_top p (free_layer (Layer 0 ary 0) idp)) else idp
      end
  | _ => idp
  end.

Lemma lowered_ok idp m : represents idp m -> represents (lowered idp) m.
Proof.
  intros Hrep. pose proof Hrep as [Hf Hr]. unfold lowered. destruct (top idp) as [|x|bm ary [|[c|c|]|c]] eqn:Et; try done.
  destruct (ary !! 0%nat) as [p|] eqn:Ep; [|done]. destruct (1 <? layers idp)%nat eqn:El; [|by destruct p]. apply Nat.ltb_lt in El.
  destruct (layers idp) as [|[|l]] eqn:El2; [lia|lia|]. destruct Hr as [Hl Hh].
  assert (p <> Null -> represents (set_layers (S (S l) - 1) (set_top p (free_layer (Layer 0 ary 0) idp))) m) as H; [|destruct p; [done|by apply H|by apply H]].
  intros Hp. destruct (lower_top l bm ary p m Hh Ep Hp) as [Hh' Hb]. destruct Hf as [H1 H2]. split.
  - split; [cbn [id_free set_layers set_top free_layer set_free]; rewrite Hb; by constructor|cbn; rewrite H2; lia].
  - cbn. replace (l - 0)%nat with l by lia. split; [lia|done].
Qed.

Lemma idr_remove_ok idp m (id : Z) : represents idp m -> 0 <= id < 2 ^ 31 ->
  let k := id mod pw (layers idp) in
  exists idp', match m !! k with
    | Some _ => idr_remove idp id = Ret (0, idp') /\ represents idp' (delete k m)
    | None => idr_remove idp id = Ret (-1, idp') /\ represents idp' m
    end.
Proof.
  intros Hrep Hid k. pose proof Hrep as [Hf Hr]. unfold idr_remove. rewrite low_bits by done. unfold sub_remove.
  destruct (layers idp) as [|l] eqn:El.
  { destruct Hr as [Et ->]. exists (set_top Null idp). rewrite lookup_empty, Et. split; [done|]. split; [done|]. cbn. by rewrite El. }
  destruct Hr as [Hl Hh]. pose proof (pw_pos (S l)). rewrite (proj2 (Nat.leb_gt _ _)) by (unfold MAX_LEVEL; lia). replace (S l - 1)%nat with l by lia. fold (removal idp l id (top idp) []).
  assert (0 <= k < pw (S l)) as Hk by (apply Z.mod_pos_bound; lia). assert (id = id / pw (S l) * pw (S l) + k) as Eid by (unfold k; rewrite Z.mul_comm; apply Z_div_mod_eq_full).
  pose proof Hh as [Hw Hm]. rewrite (Hm k), decide_True by done. pose proof (remove_down l idp (id / pw (S l)) k (top idp) [] Hw Hf Hk) as Hrem. unfold removed in Hrem. rewrite <- Eid in Hrem.
  destruct Hrem as [[Hg ->]|[Hg Hrem]].
  { exists (set_top (top idp) idp). rewrite Hg. split; [done|]. split; [done|]. cbn. by rewrite El. }
  destruct (get l (top idp) k) as [x|] eqn:Eg; [|done].
  assert (exists idp1, removal idp l id (top idp) [] = Ret (0, idp1) /\ represents idp1 (delete k m)) as (idp1 & -> & Hrep1).
  { destruct Hrem as [(p' & idp' & E & Hw' & Hd & [Hf' El'])|(idp' & E & Hd & [Hf' El'])]; eexists; (split; [exact E|]); cbn [unwind].
    - split; [done|]. cbn. rewrite El', El. split; [done|]. split; [done|]. intros j. destruct (decide (j = k)) as [->|Hne].
      + rewrite lookup_delete_eq, decide_True by done. by rewrite Hd, decide_True by done.
      + rewrite lookup_delete_ne, Hm by done. case_decide as Hj; [|done]. by rewrite Hd, decide_False by done.
    - split; [done|]. cbn. split; [done|]. apply map_eq. intros j. rewrite lookup_empty. destruct (decide (j = k)) as [->|Hne]; [apply lookup_delete_eq|].
      rewrite lookup_delete_ne, Hm by done. case_decide as Hj; [|done]. specialize (Hd j Hj). rewrite get_blank, decide_False in Hd by done. done. }
  cbn [obind]. change (0 =? -1) with false. cbn iota. fold (lowered idp1). eexists. split; [reflexivity|].
  eapply represents_same; [by apply lowered_ok|]. apply drop_free_ok. by destruct (lowered_ok idp1 _ Hrep1).
Qed.

Lemma find_loop_ok l t id : wf l t -> find_loop (S l) id t = Ret (match get l t id with Some p => User p | None => Null end).
Proof.
  revert t. induction l as [|l IH]; intros [|x|bm ary c]; try done; intros Hw; pose proof Hw as (_ & _ & _ & Hs); cbn [find_loop get] in *;
    match goal with |- context [index ?k id] => destruct (wf_slot _ _ _ _ (index k id) Hw (index_lt k id)) as (s & Es) end; rewrite Es; destruct (Hs _ _ Es) as [_ Hu].
  - by destruct s.
  - destruct Hu as [->|Hu]; [by rewrite get_null|by apply IH].
Qed.

Lemma find_loop_low l t id : wf l t -> find_loop (S l) id t = find_loop (S l) (id mod pw (S l)) t.
Proof. intros Hw. rewrite !find_loop_ok by done. rewrite (Z_div_mod_eq_full id (pw (S l))) at 1. by rewrite Z.mul_comm, get_shift. Qed.

Lemma idr_find_ok idp m (id : Z) : represents idp m -> 0 <= id < 2 ^ 31 ->
  idr_find idp id = Ret (if id <? pw (S (layers idp)) then match m !! (id mod pw (layers idp)) with Some p => User p | None => Null end else Null).
Proof.
  intros [_ Hr] Hid. unfold idr_find. rewrite low_bits by done. assert (layers idp <= 5)%nat as Hl by (destruct (layers idp); [lia|destruct Hr; lia]).
  rewrite (proj2 (Z.leb_gt _ _)) by (unfold IDR_BITS; lia).
  assert (Z.shiftr id (Z.of_nat (layers idp) * IDR_BITS + IDR_BITS) = id / pw (S (layers idp))) as ->.
  { rewrite Z.shiftr_div_pow2 by (unfold IDR_BITS; lia). unfold pw, IDR_BITS. do 2 f_equal. lia. }
  pose proof (pw_pos (S (layers idp))). destruct (Z.ltb_spec id (pw (S (layers idp)))) as [Hlt|Hge].
  - rewrite Z.div_small by lia. cbn [Z.eqb negb]. destruct (layers idp) as [|l]; [destruct Hr as [-> ->]; by rewrite lookup_empty|]. destruct Hr as [_ [Hw Hm]].
    rewrite find_loop_low, find_loop_ok by done. rewrite Hm, decide_True; [done|]. apply Z.mod_pos_bound. apply pw_pos.
  - assert (1 <= id / pw (S (layers idp))) by (apply Z.div_le_lower_bound; lia). rewrite (proj2 (Z.eqb_neq _ _)) by lia. done.
Qed.

Lemma free_direct idp m (id : Z) : represents idp m -> 0 <= id -> m !! id = None -> direct idp id.
Proof.
  intros [_ Hr] Hid Hn. unfold direct. destruct (layers idp) as [|l]; [done|]. destruct Hr as [_ [Hw Hm]]. destruct (decide (pw (S l) <= id)) as [|Hlt]; [by left|right].
  apply ok_free; [done|]. rewrite Hm, decide_True in Hn by lia. done.
Qed.

(** A number beyond the limit is taken back. *)
Lemma limited_ok idp' m ptr (r limit : Z) : represents idp' (<[r := ptr]> m) -> m !! r = None -> 0 <= r -> limit < r ->
  exists idp2, limited limit (r, idp') = Ret (-1, idp2) /\ represents idp2 m.
Proof.
  intros Hrep Hn Hr Hlt. unfold limited. rewrite (proj2 (Z.ltb_lt _ _)) by done.
  assert (r < pw (layers idp') /\ r < 2 ^ 31) as [Hb H31].
  { pose proof Hrep as [_ H]. destruct (layers idp') as [|l]; [destruct H as [_ H]; apply (f_equal (lookup r)) in H; by rewrite lookup_insert_eq, lookup_empty in H|].
    destruct H as [Hl Hh]. destruct (lookup_below l _ _ r Hh) as [_ H1]; [rewrite lookup_insert_eq; by eexists|]. split; [done|].
    assert (pw (S l) <= pw 5) by (apply pw_mono; lia). assert (pw 5 < 2 ^ 31) by by_eval. lia. }
  destruct (idr_remove_ok idp' _ r Hrep) as (idp2 & H); [lia|]. rewrite (Z.mod_small r) in H by lia. rewrite lookup_insert_eq in H. destruct H as [-> H].
  exists idp2. split; [done|]. by rewrite delete_insert_id in H.
Qed.
End tree.

(** C21: An id tree is a finite map.  A new tree is the empty one.  Lookup gives what is under a
    number, and for a number just above the tree what is under its low digits; removal takes
    such a number out, or answers -1.  A new number is the least that is free, or -1 above the
    limit, and then nothing has changed; asked for from a free number on, it is that number.  This
    holds whichever allocations fail, and without failure -1 means that all numbers up to the
    limit are taken; the numbers may have up to 25 bits. *)
Theorem ids_refine_map {P : Type} (A : Allocator) (idp : idr_context P) (m : gmap Z P) :
  (forall idp0 : idr_context P, idr_init true = Some idp0 -> represents idp0 ∅) /\
  (represents idp m ->
    (forall id, 0 <= id < 2 ^ 31 -> idr_find idp id =
      Ret (if id <? pw (S (layers idp)) then match m !! (id mod pw (layers idp)) with Some p => User p | None => Null end else Null)) /\
    (forall id, 0 <= id < 2 ^ 31 -> let k := id mod pw (layers idp) in
      exists idp', idr_remove idp id = Ret (match m !! k with Some _ => 0 | None => -1 end, idp') /\ represents idp' (delete k m)) /\
    (forall ptr limit, 0 <= limit < 2 ^ 25 - 1 -> m !! (2 ^ 25 - 1) = None ->
      exists r idp', idr_get_new A idp ptr limit = Ret (r, idp') /\
      ((0 <= r <= limit /\ m !! r = None /\ (forall j, 0 <= j < r -> m !! j <> None) /\ represents idp' (<[r := ptr]> m)) \/
       (r = -1 /\ represents idp' m /\ (malloc_always A -> forall j, 0 <= j <= limit -> m !! j <> None)))) /\
    (forall ptr start limit, 0 <= start <= limit -> limit < 2 ^ 25 -> m !! start = None ->
      exists r idp', idr_get_new_above A idp ptr start limit = Ret (r, idp') /\
      ((r = start /\ represents idp' (<[r := ptr]> m)) \/ (r = -1 /\ represents idp' m /\ ~ malloc_always A)))).
Proof.
  split; [intros idp0 [= <-]; split; [split; [constructor|done]|by split]|]. intros Hrep. split; [by intros; apply idr_find_ok|]. split; [|split].
  - intros id Hid k. destruct (idr_remove_ok idp m id Hrep Hid) as (idp' & H). fold k in H. exists idp'. destruct (m !! k) eqn:E; [done|]. by rewrite delete_id.
  - intros ptr limit Hlim Hfree. destruct (pre_get_ok A (Z.to_nat (IDR_FREE_MAX - id_free_cnt idp)) 0 idp m Hrep) as [Hrep1 Hmem].
    unfold idr_get_new, idr_get_new_above_int. fold (idr_pre_get A idp) in *. destruct (build_up_zero (MAX_LEVEL - 1) _ ptr m Hrep1 Hfree) as (r & idp' & E & H).
    change (S (S (MAX_LEVEL - 1))) with (S MAX_LEVEL) in E. rewrite E. cbn [obind]. destruct H as [(Hr & Hn & Ht & Hrep')|(-> & Hrep' & Hlen)].
    + destruct (decide (limit < r)) as [Hlt|Hge].
      * destruct (limited_ok idp' m ptr r limit Hrep' Hn ltac:(lia) Hlt) as (idp2 & -> & Hrep2). exists (-1), idp2. split; [done|]. right. split; [done|]. split; [done|]. intros _ j Hj. apply Ht. lia.
      * exists r, idp'. unfold limited. rewrite (proj2 (Z.ltb_ge _ _)) by lia. split; [done|]. left. split; [lia|]. by split_and!.
    + exists (-1), idp'. unfold limited. rewrite (proj2 (Z.ltb_ge _ _)) by lia. split; [done|]. right. split; [done|]. split; [done|]. intros HA. specialize (Hmem HA ltac:(lia)). lia.
  - intros ptr start limit Hs Hlim Hn. destruct (pre_get_ok A (Z.to_nat (IDR_FREE_MAX - id_free_cnt idp)) 0 idp m Hrep) as [Hrep1 Hmem].
    unfold idr_get_new_above, idr_get_new_above_int. fold (idr_pre_get A idp) in *. change (pw 5) with (2 ^ 25) in *.
    destruct (build_up_ok MAX_LEVEL _ ptr start m Hrep1) as (r & idp' & E & H); [change (pw 5) with (2 ^ 25); lia|apply (free_direct _ m); [done|lia|done]|].
    rewrite E. cbn [obind]. destruct H as [(Hr & Hrn & Ht & Hrep')|(-> & Hrep' & Hlen)].
    + assert (r = start) as -> by (destruct (decide (r = start)); [done|by destruct (Ht start); [lia|]]).
      exists start, idp'. unfold limited. rewrite (proj2 (Z.ltb_ge _ _)) by lia. split; [done|by left].
    + exists (-1), idp'. unfold limited. rewrite (proj2 (Z.ltb_ge _ _)) by lia. split; [done|]. right. split; [done|]. split; [done|]. intros HA. specialize (Hmem HA ltac:(lia)). lia.
Qed.

(** ** Examples *)

Definition new_tree : idr_context nat := Idr Null [] 0 0.

Lemma ids_refine_map_witness :
  represents new_tree ∅ /\
  (exists idp1 idp2, idr_get_new calloc new_tree 7%nat 100 = Ret (0, idp1) /\ idr_get_new_above calloc idp1 8%nat 40 100 = Ret (40, idp2) /\
    idr_find idp2 40 = Ret (User 8%nat) /\ idr_find idp2 (1024 + 40) = Ret (User 8%nat) /\
    exists idp3, idr_remove idp2 40 = Ret (0, idp3) /\ represents idp3 (delete 40 (<[40 := 8%nat]> (<[0 := 7%nat]> ∅)))).
Proof.
  assert (represents new_tree ∅) as H0 by (by apply (ids_refine_map calloc new_tree ∅)). split; [done|].
  destruct (proj2 (ids_refine_map calloc new_tree ∅) H0) as (_ & _ & Hnew & _). destruct (Hnew 7%nat 100) as (r & idp1 & E1 & H1); [lia|done|].
  assert (r = 0 /\ layers idp1 = 1%nat) as [-> _] by (vm_compute in E1; by injection E1 as <- <-).
  destruct H1 as [(_ & _ & _ & H1)|(E & _)]; [|done].
  destruct (proj2 (ids_refine_map calloc idp1 _) H1) as (_ & _ & _ & Habove). destruct (Habove 8%nat 40 100) as (r & idp2 & E2 & H2); [lia|lia|done|].
  destruct H2 as [(-> & H2)|(_ & _ & Hn)]; [|by destruct Hn]. exists idp1, idp2. split; [done|]. split; [done|].
  assert (layers idp2 = 2%nat) as El by (vm_compute in E1; injection E1 as <-; vm_compute in E2; by injection E2 as <-).
  destruct (proj2 (ids_refine_map calloc idp2 _) H2) as (Hfind & Hrem & _). split; [rewrite Hfind, El by lia; reflexivity|]. split; [rewrite Hfind, El by lia; reflexivity|].
  destruct (Hrem 40) as (idp3 & E3 & H3); [lia|]. rewrite El in E3, H3. exists idp3. split; [exact E3|exact H3].
Defined.

(** Asked for a number from 1023 on that is taken, the walk goes back out of the last slot of the
    last layer with a number above the tree, and takes slot 0 of the first layer for it: the
    pointer lies under number 0 as well, and once the tree has grown it is lost under its own. *)
Example ids_misplaced : exists idp1 idp2 idp3,
  idr_get_new_above calloc new_tree 7%nat 1023 65535 = Ret (1023, idp1) /\ idr_get_new_above calloc idp1 8%nat 1023 65535 = Ret (1024, idp2) /\
  idr_find idp2 0 = Ret (User 8%nat) /\ idr_find idp2 1024 = Ret (User 8%nat) /\
  idr_get_new_above calloc idp2 9%nat 5000 65535 = Ret (5000, idp3) /\ idr_find idp3 0 = Ret (User 8%nat) /\ idr_find idp3 1024 = Ret Null.
Proof.
  let x := eval vm_compute in (idr_get_new_above calloc new_tree 7%nat 1023 65535) in match x with Ret (_, ?i) =>
  let y := eval vm_compute in (idr_get_new_above calloc i 8%nat 1023 65535) in match y with Ret (_, ?j) =>
  let z := eval vm_compute in (idr_get_new_above calloc j 9%nat 5000 65535) in match z with Ret (_, ?k) => exists i, j, k end end end.
  split_and!; vm_compute; reflexivity.
Qed.
