(* ===== verification/Fnmatch.v ===== *)
(** lib/util/ms_fnmatch.c: whether a name matches a pattern with the wildcards of Windows. *)

From stdpp Require Import strings.
From S2P Require Import Prelude Digest Byteorder Ntstatus Iconv Charcnv Unistr.
Import Charcnv Unistr.

#[local] Open Scope outcome_scope.

Module Fnmatch.

(** include/core.h *)
Definition PROTOCOL_LANMAN2 : Z := 4.
Definition PROTOCOL_NT1 : Z := 5.

Definition null_match (p : list Z) : Z :=
  if forallb (fun c => (c =? 42) || (c =? 60) || (c =? 34) || (c =? 62)) p then 0 else -1.

(** Positions in the name, or null. *)
Record max_n := MaxN { predot : option nat; postdot : option nat }.

(** x && x <= n, and n <= x where null is the least address. *)
Definition set_upto (x : option nat) (n : nat) : bool := match x with Some x => (x <=? n)%nat | None => false end.
Definition upto (n : nat) (x : option nat) : bool := match x with Some x => (n <=? x)%nat | None => false end.
(** if (!x || x > n) x = n *)
Definition lower (x : option nat) (n : nat) : option nat := match x with Some y => if (n <? y)%nat then Some n else x | None => Some n end.

(** strrchr of a dot. *)
Fixpoint last_dot (s : list Z) : option nat :=
  match s with
  | [] => None
  | c :: s => match last_dot s with Some i => Some (S i) | None => if c =? 46 then Some 0%nat else None end
  end.

Section core.
Context `{Charsets} `{CaseTables}.
(** The name, and where its last dot is. *)
Context (s : list Z) (ldot : option nat).

Definition char_at (n : nat) : Z := default 0 (s !! n).
(** The size of the character at [n]. *)
Definition size_at (n : nat) : nat := snd (next_codepoint (drop n s)).
(** The position behind it, which is not beyond the terminator. *)
Definition next_at (n : nat) : outcome nat := if (n + size_at n <=? length s)%nat then Ret (n + size_at n)%nat else Fault.

Definition set_predot (d n : nat) (m : list max_n) : list max_n := alter (fun e => MaxN (lower (predot e) n) (postdot e)) d m.
Definition set_postdot (d n : nat) (m : list max_n) : list max_n := alter (fun e => MaxN (predot e) (lower (postdot e) n)) d m.

(** The loops of a star and of the sign for less, from [i]; [rec] matches the rest of the
    pattern. *)
Fixpoint star_loop (rec : nat -> list max_n -> outcome (Z * list max_n)) (k : nat) (p : list Z) (d n i : nat) (m : list max_n) : outcome (Z * list max_n) :=
  match k with
  | O => Fault
  | S k =>
      if char_at i =? 0 then Ret (null_match p, set_predot d n m)
      else
        let* (r, m) := rec i m in
        if r =? 0 then Ret (0, m) else star_loop rec k p d n (i + size_at i)%nat m
  end.

Fixpoint less_loop (rec : nat -> list max_n -> outcome (Z * list max_n)) (k : nat) (p : list Z) (d n i : nat) (m : list max_n) : outcome (Z * list max_n) :=
  match k with
  | O => Fault
  | S k =>
      if char_at i =? 0 then Ret (null_match p, set_predot d n m)
      else
        let* (r, m) := rec i m in
        if r =? 0 then Ret (0, m)
        else if bool_decide (ldot = Some i) then
          let* (r, m) := rec (i + size_at i)%nat m in
          if r =? 0 then Ret (0, m) else Ret (-1, set_postdot d n m)
        else less_loop rec k p d n (i + size_at i)%nat m
  end.

(** The rest of the pattern, the position in the name, and the index into the array of [max_n]. *)
Fixpoint ms_fnmatch_core (fuel : nat) (p : list Z) (n d : nat) (m : list max_n) : outcome (Z * list max_n) :=
  match fuel with
  | O => Fault
  | S fuel =>
      let '(c, size) := next_codepoint p in
      if c =? 0 then Ret (if char_at n =? 0 then 0 else -1, m)
      else
        let p := drop size p in
        if c =? 42 then
          match m !! d with
          | None => Fault
          | Some e =>
              if set_upto (predot e) n then Ret (null_match p, m)
              else star_loop (fun i m => ms_fnmatch_core fuel p i (S d) m) (S (length s)) p d n n m
          end
        else if c =? 60 then
          match m !! d with
          | None => Fault
          | Some e =>
              if set_upto (predot e) n then Ret (null_match p, m)
              else if set_upto (postdot e) n && upto n ldot then Ret (-1, m)
              else less_loop (fun i m => ms_fnmatch_core fuel p i (S d) m) (S (length s)) p d n n m
          end
        else if c =? 63 then
          if char_at n =? 0 then Ret (-1, m)
          else let* n := next_at n in ms_fnmatch_core fuel p n d m
        else if c =? 62 then
          if char_at n =? 46 then
            if (char_at (S n) =? 0) && (null_match p =? 0) then Ret (0, m)
            else ms_fnmatch_core fuel p n d m
          else if char_at n =? 0 then Ret (null_match p, m)
          else let* n := next_at n in ms_fnmatch_core fuel p n d m
        else if c =? 34 then
          if (char_at n =? 0) && (null_match p =? 0) then Ret (0, m)
          else if negb (char_at n =? 46) then Ret (-1, m)
          else let* n := next_at n in ms_fnmatch_core fuel p n d m
        else
          let c2 := fst (next_codepoint (drop n s)) in
          if negb (c =? c2) && negb (codepoint_cmpi c c2 =? 0) then Ret (-1, m)
          else let* n := next_at n in ms_fnmatch_core fuel p n d m
  end.
End core.

Section fnmatch.
Context `{Charsets} `{CaseTables}.

(** strpbrk *)
Definition has_wildcard (p : list Z) : bool := existsb (fun c => (c =? 60) || (c =? 62) || (c =? 42) || (c =? 63) || (c =? 34)) p.

(** The pattern of an older protocol as one of the new style. *)
Fixpoint new_style (p : list Z) : list Z :=
  match p with
  | [] => []
  | c :: rest =>
      let next := default 0 (rest !! 0%nat) in
      (if c =? 63 then 62
       else if (c =? 46) && ((next =? 63) || (next =? 42) || (next =? 0)) then 34
       else if (c =? 42) && (next =? 46) then 60
       else c) :: new_style rest
  end.

(** The elements of the array take 16 bytes. *)
Definition ms_fnmatch_nt1 (A : Allocator) (pattern string : list Z) : outcome Z :=
  if negb (has_wildcard pattern) then Ret (strcasecmp_m (Some pattern) (Some string))
  else
    let count := length (List.filter (fun c => (c =? 42) || (c =? 60)) pattern) in
    if (MAX_TALLOC_SIZE / 16 <=? Z.of_nat count) || negb (malloc_ok 0) then Ret (-1)
    else
      let* (r, _) := ms_fnmatch_core string (last_dot string) (S (length pattern)) pattern 0 0 (replicate count (MaxN None None)) in
      Ret r.

Definition ms_fnmatch (A : Allocator) (pattern string : list Z) (protocol : Z) : outcome Z :=
  let string := if decide (string = [46; 46]) then [46] else string in
  if negb (has_wildcard pattern) then Ret (strcasecmp_m (Some pattern) (Some string))
  else if protocol <=? PROTOCOL_LANMAN2 then
    if negb (malloc_ok 0) then Ret (-1)
    else ms_fnmatch_nt1 (later 1 A) (new_style pattern) string
  else ms_fnmatch_nt1 A pattern string.

Definition gen_fnmatch (A : Allocator) (pattern string : list Z) : outcome Z := ms_fnmatch A pattern string PROTOCOL_NT1.
End fnmatch.
End Fnmatch.
Import Fnmatch.
