(* ===== verification/FnmatchSpec.v ===== *)
(** The matching of names as a relation, and that the matcher with its array of failures decides
    it. *)

From stdpp Require Import strings.
From S2P Require Import Prelude Digest Byteorder Ntstatus Iconv Charcnv Unistr Fnmatch.
Import Charcnv Unistr Fnmatch.

#[local] Open Scope outcome_scope.

(** A character of a name or pattern. *)
Definition letter (c : Z) : Prop := scalar c /\ c <> 0.

(** ** The relation *)

Section wild.
Context `{CaseTables}.

(** [a] stops at the last dot: no character behind it, where [rest] follows. *)
Definition stops (a rest : list Z) : Prop := forall b c, a = b ++ 46 :: c -> ~ In 46 (c ++ rest) -> c = [].

(** A pattern and a name, by their characters.  A star takes any characters, the sign for less
    any up to the last dot; a question mark takes one, the sign for greater one that is not a
    dot, or none where a dot or the end follows; a quote takes a dot, or none at the end; other
    characters take themselves in either case. *)
Inductive wild : list Z -> list Z -> Prop :=
| wild_nil : wild [] []
| wild_star p a n : wild p n -> wild (42 :: p) (a ++ n)
| wild_less p a n : stops a n -> wild p n -> wild (60 :: p) (a ++ n)
| wild_question p c n : wild p n -> wild (63 :: p) (c :: n)
| wild_greater p c n : c <> 46 -> wild p n -> wild (62 :: p) (c :: n)
| wild_greater_dot p n : wild p (46 :: n) -> wild (62 :: p) (46 :: n)
| wild_greater_last p : wild p [] -> wild (62 :: p) [46]
| wild_greater_end p : wild p [] -> wild (62 :: p) []
| wild_quote p n : wild p n -> wild (34 :: p) (46 :: n)
| wild_quote_end p : wild p [] -> wild (34 :: p) []
| wild_char p c d n : c <> 42 -> c <> 60 -> c <> 63 -> c <> 62 -> c <> 34 ->
    toupper_w c = toupper_w d -> wild p n -> wild (c :: p) (d :: n).

Definition vanishes (c : Z) : bool := (c =? 42) || (c =? 60) || (c =? 34) || (c =? 62).

Lemma stops_nil n : stops [] n.
Proof. intros b c E. by destruct b. Qed.

Lemma wild_end p : wild p [] <-> forallb vanishes p = true.
Proof.
  induction p as [|c p IH]; [split; [done|constructor]|]. cbn [forallb]. rewrite andb_true_iff, <- IH. split.
  - inversion 1; subst; try done; repeat match goal with E : ?a ++ _ = [] |- _ => apply app_eq_nil in E as [-> ->] end; try done.
  - intros [Hv Hp]. unfold vanishes in Hv. rewrite !orb_true_iff, !Z.eqb_eq in Hv. destruct Hv as [[[->| ->]| ->]| ->].
    + by apply (wild_star p []).
    + by apply (wild_less p []); [apply stops_nil|].
    + by constructor.
    + by constructor.
Qed.
End wild.

(** ** Positions *)

Section core.
Context `{Charsets} `{CaseTables} (unix8 : unix_is_utf8).
Context (upper : forall c, letter c -> toupper_w c <> 0).
(** The name by its characters. *)
Context (name : list Z) (letters : Forall letter name).

#[local] Abbreviation s := (utf8s name).
(** The position of the character with index [k]. *)
Definition pos (k : nat) : nat := length (utf8s (take k name)).
#[local] Abbreviation rest k := (drop k name).

Lemma name_split k : s = utf8s (take k name) ++ utf8s (rest k).
Proof. by rewrite <- utf8s_app, take_drop. Qed.
Lemma drop_pos k : drop (pos k) s = utf8s (rest k).
Proof. rewrite (name_split k). apply drop_app_length. Qed.

Lemma rest_S k : (k < length name)%nat -> exists c, name !! k = Some c /\ rest k = c :: rest (S k) /\ letter c /\ take (S k) name = take k name ++ [c].
Proof.
  intros Hk. destruct (lookup_lt_is_Some_2 name k Hk) as (c & Ec). exists c. split; [done|]. split; [by apply drop_S|]. split; [by apply (Forall_lookup_1 _ _ _ _ letters Ec)|].
  by apply take_S_r.
Qed.

Lemma pos_S k c : name !! k = Some c -> pos (S k) = (pos k + length (utf8 c))%nat.
Proof. intros Ec. unfold pos. rewrite (take_S_r _ _ _ Ec), utf8s_app, length_app. f_equal. rewrite utf8s_cons, app_nil_r. done. Qed.

Lemma pos_lt j k : (j < k <= length name)%nat -> (pos j < pos k)%nat.
Proof.
  intros [Hj Hk]. induction Hj as [|k Hj IH].
  - destruct (rest_S j Hk) as (c & Ec & _). rewrite (pos_S j c Ec). pose proof (length_utf8 c). lia.
  - destruct (rest_S k Hk) as (c & Ec & _). rewrite (pos_S k c Ec). specialize (IH ltac:(lia)). lia.
Qed.
Lemma pos_le j k : (j <= length name)%nat -> (k <= length name)%nat -> (pos j <= pos k)%nat <-> (j <= k)%nat.
Proof.
  intros Hj Hk. split; intros Hle.
  - destruct (decide (j <= k)%nat); [done|]. pose proof (pos_lt k j). lia.
  - destruct (decide (j = k)) as [->|]; [done|]. pose proof (pos_lt j k). lia.
Qed.
Lemma pos_inj j k : (j <= length name)%nat -> (k <= length name)%nat -> pos j = pos k -> j = k.
Proof. intros Hj Hk E. pose proof (pos_le j k Hj Hk). pose proof (pos_le k j Hk Hj). lia. Qed.
Lemma pos_length : pos (length name) = length s.
Proof. unfold pos. by rewrite take_ge. Qed.
Lemma pos_bound k : (pos k <= length s)%nat.
Proof. rewrite (name_split k), length_app. unfold pos. lia. Qed.

(** The first byte of a character. *)
Lemma head_utf8 c l : letter c -> default 0 ((utf8 c ++ l) !! 0%nat) <> 0 /\ (default 0 ((utf8 c ++ l) !! 0%nat) = 46 <-> c = 46).
Proof.
  intros [Hs Hz]. destruct (decide (c < 0x80)) as [Hc|Hc].
  - rewrite utf8_head_ascii by (unfold scalar in Hs; lia). cbn. split; [done|lia].
  - pose proof (utf8_head_multi c l Hs ltac:(lia)) as Hm. split; intros.
    + intros E. by rewrite E in Hm.
    + split; [intros E; by rewrite E in Hm|lia].
Qed.

Lemma char_at_pos k : char_at s (pos k) = default 0 (utf8s (rest k) !! 0%nat).
Proof. unfold char_at. rewrite (name_split k). unfold pos. rewrite lookup_app_r, Nat.sub_diag by lia. done. Qed.
Lemma char_at_end : char_at s (pos (length name)) = 0.
Proof. rewrite char_at_pos, drop_ge by done. done. Qed.
Lemma char_at_letter k c : name !! k = Some c -> char_at s (pos k) <> 0 /\ (char_at s (pos k) = 46 <-> c = 46).
Proof.
  intros Ec. rewrite char_at_pos, (drop_S _ _ _ Ec), utf8s_cons. apply head_utf8. by apply (Forall_lookup_1 _ _ _ _ letters Ec).
Qed.

Lemma size_at_letter k c : name !! k = Some c -> size_at s (pos k) = length (utf8 c) /\ next_at s (pos k) = Ret (pos (S k)) /\
  (pos k + size_at s (pos k))%nat = pos (S k) /\ fst (next_codepoint (drop (pos k) s)) = c.
Proof.
  intros Ec. assert (letter c) as [Hs _] by (by apply (Forall_lookup_1 _ _ _ _ letters Ec)).
  assert (next_codepoint (drop (pos k) s) = (c, length (utf8 c))) as E by (rewrite drop_pos, (drop_S _ _ _ Ec), utf8s_cons; by apply next_codepoint_utf8).
  assert (size_at s (pos k) = length (utf8 c)) as Es by (unfold size_at; by rewrite E). unfold next_at. rewrite Es, <- (pos_S k c Ec), E.
  rewrite (proj2 (Nat.leb_le _ _)) by apply pos_bound. done.
Qed.

(** The last dot, by its index. *)
Definition dot_at (k : nat) : Prop := name !! k = Some 46 /\ ~ In 46 (rest (S k)).

Lemma last_dot_none l : last_dot l = None <-> ~ In 46 l.
Proof.
  induction l as [|c l IH]; [split; [by intros _ []|done]|]. cbn [last_dot In]. destruct (last_dot l) as [i|]; [split; [done|]|].
  - intros Hn. exfalso. assert (Some i = None) by (apply IH; tauto). done.
  - destruct (Z.eqb_spec c 46); split; try done; [tauto|]. intros _ [?|?]; [done|]. by apply IH.
Qed.
Lemma last_dot_app a l i : last_dot l = Some i -> last_dot (a ++ l) = Some (length a + i)%nat.
Proof. intros E. induction a as [|c a IH]; [done|]. cbn [app last_dot length]. by rewrite IH. Qed.

Lemma utf8s_dot l : Forall letter l -> In 46 (utf8s l) <-> In 46 l.
Proof.
  induction 1 as [|c l [Hc Hz] Hl IH]; [done|]. rewrite utf8s_cons, in_app_iff, IH. cbn [In]. split; intros [Hin|Hin]; auto.
  - destruct (decide (c = 46)) as [|Hne]; [by left|]. pose proof (utf8_no_ascii c 46 Hc ltac:(lia) Hne) as Hno. rewrite Forall_forall in Hno. by destruct (Hno 46).
  - left. subst c. by left.
Qed.

Lemma rest_letters k : Forall letter (rest k).
Proof. by apply Forall_drop. Qed.

Lemma dot_last k : dot_at k -> last_dot s = Some (pos k).
Proof.
  intros [Ek Hn]. rewrite (name_split k), (drop_S _ _ _ Ek), utf8s_cons. change (utf8 46) with [46]. unfold pos. rewrite (last_dot_app _ _ 0%nat); [by rewrite Nat.add_0_r|].
  cbn [app last_dot]. rewrite (proj2 (last_dot_none (utf8s (rest (S k))))); [done|]. rewrite utf8s_dot by apply rest_letters. done.
Qed.

Lemma dot_exists : In 46 name -> exists k, dot_at k.
Proof.
  intros Hin. unfold dot_at. clear letters. induction name as [|c l IH]; [done|]. destruct (in_dec Z.eq_dec 46 l) as [Hl|Hl].
  - destruct (IH Hl) as (k & Ek & Hk). by exists (S k).
  - destruct Hin as [->|]; [|done]. exists 0%nat. split; [done|]. cbn. by rewrite drop_0.
Qed.

Lemma last_dot_inv i : last_dot s = Some i -> exists k, dot_at k /\ i = pos k.
Proof.
  intros E. destruct (in_dec Z.eq_dec 46 name) as [Hin|Hin].
  - destruct (dot_exists Hin) as (k & Hk). exists k. split; [done|]. rewrite (dot_last k Hk) in E. congruence.
  - rewrite (proj2 (last_dot_none s)) in E; [done|]. by rewrite utf8s_dot.
Qed.

Lemma dot_unique j k : dot_at j -> dot_at k -> j = k.
Proof.
  intros Hj Hk. pose proof (dot_last j Hj) as E1. pose proof (dot_last k Hk) as E2. rewrite E1 in E2. injection E2 as E2.
  destruct Hj as [Ej _], Hk as [Ek _]. apply lookup_lt_Some in Ej, Ek. apply pos_inj; [lia|lia|done].
Qed.

(** The sign for less may stop at index [j] if it starts at index [k]. *)
Definition in_reach (k j : nat) : Prop := forall d, dot_at d -> (k <= d)%nat -> (j <= S d)%nat.

Lemma rest_from k j : (k <= j)%nat -> rest k = take (j - k) (rest k) ++ rest j.
Proof. intros Hkj. rewrite <- (take_drop (j - k) (rest k)) at 1. rewrite drop_drop. by replace (k + (j - k))%nat with j by lia. Qed.
Lemma rest_after k a n : rest k = a ++ n -> (k <= length name)%nat -> n = rest (k + length a) /\ (k + length a <= length name)%nat.
Proof.
  intros E Hk. rewrite <- drop_drop, E, drop_app_length. split; [done|]. apply (f_equal length) in E. rewrite length_drop, length_app in E. lia.
Qed.

Lemma stops_reach k j : (k <= j <= length name)%nat -> stops (take (j - k) (rest k)) (rest j) <-> in_reach k j.
Proof.
  intros Hkj. split.
  - intros Hst d [Ed Hnd] Hkd. destruct (decide (j <= S d)%nat) as [|Hlt]; [done|exfalso].
    assert (rest k = take (d - k) (rest k) ++ 46 :: rest (S d)) as E1 by (rewrite (rest_from k d Hkd) at 1; by rewrite (drop_S name 46 d Ed)).
    pose proof (rest_from (S d) j ltac:(lia)) as E2.
    assert (take (j - k) (rest k) = take (d - k) (rest k) ++ 46 :: take (j - S d) (rest (S d))) as E.
    { apply (app_inv_tail (rest j)). rewrite <- (rest_from k j), <- app_assoc by lia. cbn [app]. by rewrite <- E2, <- E1. }
    specialize (Hst _ _ E). rewrite <- E2 in Hst. specialize (Hst Hnd). apply (f_equal length) in Hst. rewrite length_take, length_drop in Hst. cbn in Hst. lia.
  - intros Hr b c E Hno. assert (rest k = b ++ 46 :: c ++ rest j) as E1 by (rewrite (rest_from k j), E, <- app_assoc by lia; done).
    destruct (rest_after k b _ E1 ltac:(lia)) as [E2 _].
    assert (name !! (k + length b)%nat = Some 46) as Ed by (rewrite <- (Nat.add_0_r (k + length b)), <- lookup_drop, <- E2; done).
    assert (rest (S (k + length b)) = c ++ rest j) as E3 by (rewrite (drop_S _ _ _ Ed) in E2; by injection E2 as E2).
    specialize (Hr (k + length b)%nat ltac:(split; [done|by rewrite E3]) ltac:(lia)).
    apply (f_equal length) in E. rewrite length_app, length_take, length_drop in E. cbn [length] in E. apply length_zero_iff_nil. lia.
Qed.

Lemma wild_star_iff p k : (k <= length name)%nat -> wild (42 :: p) (rest k) <-> exists j, (k <= j <= length name)%nat /\ wild p (rest j).
Proof.
  intros Hk. split.
  - intros Hw. inversion Hw as [|p' a n Hn|p' a n|p'|p'|p'|p'|p'|p'|p'|p' c']; subst; try done. destruct (rest_after k a n) as [-> Hb]; [done|done|].
    exists (k + length a)%nat. split; [lia|done].
  - intros (j & Hj & Hw). rewrite (rest_from k j) by lia. by constructor.
Qed.
Lemma wild_less_iff p k : (k <= length name)%nat -> wild (60 :: p) (rest k) <-> exists j, (k <= j <= length name)%nat /\ in_reach k j /\ wild p (rest j).
Proof.
  intros Hk. split.
  - intros Hw. inversion Hw as [|p' a n|p' a n Hst Hn|p'|p'|p'|p'|p'|p'|p'|p' c']; subst; try done. match goal with E : _ ++ _ = _ |- _ => symmetry in E; pose proof E as Er; destruct (rest_after k a n E Hk) as [En Hb] end.
    exists (k + length a)%nat. split; [lia|]. rewrite <- En. split; [|done]. apply stops_reach; [lia|].
    rewrite <- En. replace (k + length a - k)%nat with (length a) by lia. rewrite Er, take_app_length. done.
  - intros (j & Hj & Hr & Hw). rewrite (rest_from k j) by lia. constructor; [|done]. by apply stops_reach.
Qed.

(** ** The array *)

(** The stars and signs for less of a pattern, each with the pattern behind it. *)
Fixpoint stars (p : list Z) : list (Z * list Z) :=
  match p with
  | [] => []
  | c :: p => if (c =? 42) || (c =? 60) then (c, p) :: stars p else stars p
  end.

(** What an element of the array says: from the one position on nothing but the end can match
    the pattern behind the star, and between the other and the last dot, or behind it, nothing. *)
Definition memo (star : Z * list Z) (e : max_n) : Prop :=
  (forall x, predot e = Some x -> exists k, x = pos k /\ (k <= length name)%nat /\
    (forall j, (k <= j < length name)%nat -> ~ wild (snd star) (rest j)) /\ (fst star = 60 -> forall d, dot_at d -> (d < k)%nat)) /\
  (forall x, postdot e = Some x -> exists k d, x = pos k /\ dot_at d /\ (k <= d)%nat /\ forall j, (k <= j <= S d)%nat -> ~ wild (snd star) (rest j)).

Lemma memo_blank star : memo star (MaxN None None).
Proof. by split. Qed.

Lemma lower_cases x n y : lower x n = Some y -> y = n \/ x = Some y.
Proof. destruct x as [z|]; cbn; [case_match|]; intros [= <-]; auto. Qed.

Definition verdict (Q : Prop) (r : Z) : Prop := (r = 0 /\ Q) \/ (r = -1 /\ ~ Q).
Lemma verdict_iff (Q R : Prop) r : verdict Q r -> (Q <-> R) -> verdict R r.
Proof. unfold verdict. tauto. Qed.

(** What a part of the matcher returns, with the array it leaves. *)
Definition decides (all : list (Z * list Z)) (Q : Prop) (x : outcome (Z * list max_n)) : Prop :=
  exists r m, x = Ret (r, m) /\ Forall2 memo all m /\ verdict Q r.
Lemma decided_iff all (Q R : Prop) x : decides all Q x -> (Q <-> R) -> decides all R x.
Proof. intros (r & m & E & Hm & Hv) HR. exists r, m. split; [done|]. split; [done|]. by apply (verdict_iff Q). Qed.
Lemma decides_ret all (Q : Prop) r m : Forall2 memo all m -> verdict Q r -> decides all Q (Ret (r, m)).
Proof. intros. by exists r, m. Qed.

Lemma utf8_low c : letter c -> c < 0x80 -> utf8 c = [c].
Proof. intros [Hs _] Hc. rewrite <- (app_nil_r (utf8 c)). by rewrite utf8_head_ascii by (unfold scalar in Hs; lia). Qed.

Lemma vanishes_utf8 c : letter c -> forallb vanishes (utf8 c) = vanishes c.
Proof.
  intros Hc. destruct (decide (c < 0x80)) as [Hlt|Hge]; [rewrite (utf8_low c Hc Hlt); apply andb_true_r|].
  assert (forall ch, 0 < ch < 0x80 -> Forall (fun b => b <> ch) (utf8 c)) as Hno by (intros ch Hch; apply utf8_no_ascii; [apply Hc|done|lia]).
  pose proof (Hno 42 ltac:(lia)) as H1. pose proof (Hno 60 ltac:(lia)) as H2. pose proof (Hno 34 ltac:(lia)) as H3. pose proof (Hno 62 ltac:(lia)) as H4.
  destruct (utf8_nonempty c) as (b & l & Eb). rewrite Eb in *. apply Forall_cons_1 in H1 as [H1 _]. apply Forall_cons_1 in H2 as [H2 _]. apply Forall_cons_1 in H3 as [H3 _]. apply Forall_cons_1 in H4 as [H4 _].
  cbn [forallb]. unfold vanishes. rewrite !(proj2 (Z.eqb_neq _ _)) by lia. done.
Qed.

Lemma null_match_wild q : Forall letter q -> verdict (wild q []) (null_match (utf8s q)).
Proof.
  intros Hq. apply (verdict_iff (forallb vanishes q = true)); [|by rewrite wild_end].
  assert (forallb vanishes (utf8s q) = forallb vanishes q) as E.
  { induction Hq as [|c q Hc _ IH]; [done|]. rewrite utf8s_cons, forallb_app, IH, vanishes_utf8 by done. done. }
  unfold null_match. change (fun c : Z => _) with vanishes. rewrite E. destruct (forallb vanishes q); [by left|by right].
Qed.

Section pattern.
(** The whole pattern, by its stars. *)
Context (all : list (Z * list Z)).

Lemma memo_alter d star f m : all !! d = Some star -> (forall e, memo star e -> memo star (f e)) -> Forall2 memo all m -> Forall2 memo all (alter f d m).
Proof. intros Hd Hf Hm. apply Forall2_alter_r; [done|]. intros x e Ex _ He. rewrite Hd in Ex. injection Ex as <-. by apply Hf. Qed.

Lemma set_predot_ok d c q k m : all !! d = Some (c, q) -> (k <= length name)%nat -> (forall j, (k <= j < length name)%nat -> ~ wild q (rest j)) ->
  (c = 60 -> forall x, dot_at x -> (x < k)%nat) -> Forall2 memo all m -> Forall2 memo all (set_predot d (pos k) m).
Proof.
  intros Hd Hk Hno Hdot. apply (memo_alter d (c, q)); [done|]. intros e [H1 H2]. split; [|done]. cbn [predot]. intros x Ex.
  apply lower_cases in Ex as [->|Ex]; [|by apply H1]. by exists k.
Qed.
Lemma set_postdot_ok d c q k x m : all !! d = Some (c, q) -> dot_at x -> (k <= x)%nat -> (forall j, (k <= j <= S x)%nat -> ~ wild q (rest j)) ->
  Forall2 memo all m -> Forall2 memo all (set_postdot d (pos k) m).
Proof.
  intros Hd Hx Hk Hno. apply (memo_alter d (c, q)); [done|]. intros e [H1 H2]. split; [done|]. cbn [postdot]. intros y Ey.
  apply lower_cases in Ey as [->|Ey]; [|by apply H2]. exists k, x. done.
Qed.

Section loops.
Context (rec : nat -> list max_n -> outcome (Z * list max_n)) (q : list Z) (letters_q : Forall letter q).
Context (rec_ok : forall j m, (j <= length name)%nat -> Forall2 memo all m -> decides all (wild q (rest j)) (rec (pos j) m)).

Lemma at_end_ok m (Q : Prop) : Forall2 memo all m -> (Q <-> wild q []) -> decides all Q (Ret (null_match (utf8s q), m)).
Proof. intros Hm HQ. apply decides_ret; [done|]. apply (verdict_iff (wild q [])); [by apply null_match_wild|done]. Qed.

Lemma rest_end : rest (length name) = [].
Proof. by apply drop_ge. Qed.

Lemma past_letter i : (i < length name)%nat -> (char_at s (pos i) =? 0) = false /\ (pos i + size_at s (pos i))%nat = pos (S i).
Proof.
  intros Hi. destruct (rest_S i Hi) as (c & Ec & _). split; [apply Z.eqb_neq, (char_at_letter i c Ec)|apply (size_at_letter i c Ec)].
Qed.

Lemma star_loop_ok d k : all !! d = Some (42, q) -> (k <= length name)%nat -> forall fuel i m,
  (length name - i < fuel)%nat -> (k <= i <= length name)%nat -> (forall j, (k <= j < i)%nat -> ~ wild q (rest j)) -> Forall2 memo all m ->
  decides all (wild (42 :: q) (rest k)) (star_loop s rec fuel (utf8s q) d (pos k) (pos i) m).
Proof.
  intros Hd Hk. induction fuel as [|fuel IH]; intros i m Hf Hi Hno Hm; [lia|]. cbn [star_loop]. destruct (decide (i = length name)) as [->|Hne].
  - rewrite char_at_end. apply at_end_ok; [by apply (set_predot_ok d 42 q)|]. rewrite wild_star_iff by done. split.
    + intros (j & Hj & Hw). destruct (decide (j = length name)) as [->|]; [by rewrite rest_end in Hw|]. destruct (Hno j); [lia|done].
    + intros Hw. exists (length name). by rewrite rest_end.
  - destruct (past_letter i) as [-> ->]; [lia|]. destruct (rec_ok i m) as (r & m' & -> & Hm' & Hv); [lia|done|]. cbn [obind].
    destruct Hv as [[-> Hw]|[-> Hw]]; cbn [Z.eqb].
    + apply decides_ret; [done|]. left. split; [done|]. apply wild_star_iff; [done|]. by exists i.
    + apply IH; [lia|lia| |done]. intros j Hj. destruct (decide (j = i)) as [->|]; [done|]. apply Hno. lia.
Qed.

Lemma ldot_at i : (i < length name)%nat -> bool_decide (last_dot s = Some (pos i)) = true <-> dot_at i.
Proof.
  intros Hi. rewrite bool_decide_eq_true. split; [|by apply dot_last]. intros E. destruct (last_dot_inv _ E) as (x & Hx & Ex).
  apply pos_inj in Ex as ->; [done|lia|]. destruct Hx as [Ex' _]. apply lookup_lt_Some in Ex'. lia.
Qed.

Lemma less_loop_ok d k : all !! d = Some (60, q) -> (k <= length name)%nat -> forall fuel i m,
  (length name - i < fuel)%nat -> (k <= i <= length name)%nat -> (forall j, (k <= j < i)%nat -> ~ wild q (rest j)) ->
  (forall x, dot_at x -> (k <= x)%nat -> (i <= x)%nat) -> Forall2 memo all m ->
  decides all (wild (60 :: q) (rest k)) (less_loop s (last_dot s) rec fuel (utf8s q) d (pos k) (pos i) m).
Proof.
  intros Hd Hk. induction fuel as [|fuel IH]; intros i m Hf Hi Hno Hdot Hm; [lia|]. cbn [less_loop]. destruct (decide (i = length name)) as [->|Hne].
  - assert (forall x, dot_at x -> (x < k)%nat) as Hlow.
    { intros x Hx. destruct (decide (x < k)%nat); [done|]. specialize (Hdot x Hx ltac:(lia)). destruct Hx as [Ex _]. apply lookup_lt_Some in Ex. lia. }
    rewrite char_at_end. apply at_end_ok; [by apply (set_predot_ok d 60 q)|]. rewrite wild_less_iff by done. split.
    + intros (j & Hj & _ & Hw). destruct (decide (j = length name)) as [->|]; [by rewrite rest_end in Hw|]. destruct (Hno j); [lia|done].
    + intros Hw. exists (length name). split; [lia|]. split; [|by rewrite rest_end]. intros x Hx Hkx. specialize (Hlow x Hx). lia.
  - destruct (past_letter i) as [-> ->]; [lia|]. destruct (rec_ok i m) as (r & m' & -> & Hm' & Hv); [lia|done|]. cbn [obind].
    destruct Hv as [[-> Hw]|[-> Hw]]; cbn [Z.eqb].
    { apply decides_ret; [done|]. left. split; [done|]. apply wild_less_iff; [done|]. exists i. split; [done|]. split; [|done]. intros x Hx Hkx. specialize (Hdot x Hx Hkx). lia. }
    destruct (ldot_at i ltac:(lia)) as [Hl1 Hl2]. destruct (bool_decide _).
    + specialize (Hl1 eq_refl). destruct (rec_ok (S i) m') as (r & m2 & -> & Hm2 & Hv); [lia|done|]. cbn [obind].
      destruct Hv as [[-> Hw2]|[-> Hw2]]; cbn [Z.eqb]; (apply decides_ret; [|]).
      * done.
      * left. split; [done|]. apply wild_less_iff; [done|]. exists (S i). split; [lia|]. split; [|done]. intros x Hx _. by rewrite (dot_unique x i Hx Hl1).
      * apply (set_postdot_ok d 60 q k i); [done|done|lia| |done]. intros j Hj. destruct (decide (j = S i)) as [->|]; [done|]. destruct (decide (j = i)) as [->|]; [done|]. apply Hno. lia.
      * right. split; [done|]. rewrite wild_less_iff by done. intros (j & Hj & Hr & Hwj). specialize (Hr i Hl1 ltac:(lia)).
        destruct (decide (j = S i)) as [->|]; [done|]. destruct (decide (j = i)) as [->|]; [done|]. destruct (Hno j); [lia|done].
    + apply IH; [lia|lia| | |done].
      * intros j Hj. destruct (decide (j = i)) as [->|]; [done|]. apply Hno. lia.
      * intros x Hx Hkx. specialize (Hdot x Hx Hkx). destruct (decide (x = i)) as [->|]; [|lia]. by specialize (Hl2 Hx).
Qed.
End loops.

Lemma next_utf8 c p : letter c -> next_codepoint (utf8s (c :: p)) = (c, length (utf8 c)) /\ drop (length (utf8 c)) (utf8s (c :: p)) = utf8s p.
Proof. intros [Hc _]. rewrite utf8s_cons. split; [by apply next_codepoint_utf8|apply drop_app_length]. Qed.
Lemma next_end : fst (next_codepoint []) = 0.
Proof. unfold next_codepoint. done. Qed.

(** A step of the matcher with the character of the name at [k], or at its end. *)
Lemma at_position k : (k <= length name)%nat ->
  (k = length name /\ rest k = [] /\ char_at s (pos k) = 0 /\ fst (next_codepoint (drop (pos k) s)) = 0) \/
  (exists c, (k < length name)%nat /\ rest k = c :: rest (S k) /\ letter c /\ (char_at s (pos k) =? 0) = false /\ (char_at s (pos k) = 46 <-> c = 46) /\
    next_at s (pos k) = Ret (pos (S k)) /\ fst (next_codepoint (drop (pos k) s)) = c).
Proof.
  intros Hk. destruct (decide (k = length name)) as [->|Hne].
  - left. rewrite drop_pos, rest_end. split; [done|]. split; [done|]. split; [apply char_at_end|]. change (utf8s []) with (@nil Z). apply next_end.
  - right. destruct (rest_S k ltac:(lia)) as (c & Ec & Er & Hc & _). exists c. split; [lia|]. split; [done|]. split; [done|].
    destruct (char_at_letter k c Ec) as [Hz Hd], (size_at_letter k c Ec) as (_ & Hn & _ & Hc2). split; [by apply Z.eqb_neq|]. done.
Qed.

Lemma core_end fuel k d m : (k <= length name)%nat -> Forall2 memo all m -> decides all (wild [] (rest k)) (ms_fnmatch_core s (last_dot s) (S fuel) [] (pos k) d m).
Proof.
  intros Hk Hm. cbn [ms_fnmatch_core]. destruct (next_codepoint []) as [c size] eqn:E. pose proof next_end as E0. rewrite E in E0. cbn in E0. subst c. cbn [Z.eqb].
  apply decides_ret; [done|]. destruct (at_position k Hk) as [(-> & -> & -> & _)|(c & _ & -> & _ & -> & _)].
  - left. split; [done|constructor].
  - right. split; [done|]. intros Hw. inversion Hw.
Qed.

(** What the matcher returns in every state that it reaches. *)
Definition core_decides (fuel : nat) (p : list Z) : Prop := forall k d m, (k <= length name)%nat -> stars p = drop d all -> Forall2 memo all m ->
  decides all (wild p (rest k)) (ms_fnmatch_core s (last_dot s) fuel (utf8s p) (pos k) d m).

Lemma letter_ascii c : 0 < c < 0x80 -> letter c.
Proof. unfold letter, scalar. lia. Qed.

Lemma name_in_bytes : (length name <= length s)%nat.
Proof.
  assert (forall k, (k <= length name -> k <= pos k)%nat) as Hpos; [|rewrite <- pos_length; by apply Hpos].
  induction k as [|k IH]; intros Hk; [lia|]. pose proof (pos_lt k (S k) ltac:(lia)). specialize (IH ltac:(lia)). lia.
Qed.

Lemma star_cell c p d m : stars (c :: p) = drop d all -> c = 42 \/ c = 60 -> Forall2 memo all m ->
  all !! d = Some (c, p) /\ stars p = drop (S d) all /\ exists e, m !! d = Some e /\ memo (c, p) e.
Proof.
  intros Hd Hc Hm. assert (drop d all = (c, p) :: stars p) as E by (rewrite <- Hd; destruct Hc as [-> | ->]; done).
  assert (all !! d = Some (c, p)) as El by (rewrite <- (Nat.add_0_r d), <- lookup_drop, E; done).
  destruct (Forall2_lookup_l _ _ _ _ _ Hm El) as (e & Ee & He). split; [done|]. split; [|by exists e]. rewrite (drop_S _ _ _ El) in E. congruence.
Qed.

Lemma core_star fuel p : Forall letter p -> core_decides fuel p -> core_decides (S fuel) (42 :: p).
Proof.
  intros Hp IH k d m Hk Hd Hm. cbn [ms_fnmatch_core]. destruct (next_utf8 42 p) as [-> ->]; [by apply letter_ascii|]. cbn [Z.eqb Pos.eqb].
  destruct (star_cell 42 p d m Hd ltac:(by left) Hm) as (Hl & Hd2 & e & -> & He & _).
  assert (decides all (wild (42 :: p) (rest k)) (star_loop s (fun i m => ms_fnmatch_core s (last_dot s) fuel (utf8s p) i (S d) m) (S (length s)) (utf8s p) d (pos k) (pos k) m)) as Hloop.
  { pose proof name_in_bytes. apply (star_loop_ok _ p Hp); [intros; by apply IH|done|done|lia|lia|intros; lia|done]. }
  destruct (predot e) as [x|] eqn:Ex; cbn [set_upto]; [|exact Hloop]. destruct (Nat.leb_spec x (pos k)) as [Hx|_]; [|exact Hloop].
  destruct (He x eq_refl) as (k0 & -> & Hk0 & Hno & _). apply (proj1 (pos_le k0 k Hk0 Hk)) in Hx. apply at_end_ok; [done|done|].
  rewrite wild_star_iff by done. split.
  - intros (j & Hj & Hw). destruct (decide (j = length name)) as [->|]; [by rewrite rest_end in Hw|]. destruct (Hno j); [lia|done].
  - intros Hw. exists (length name). by rewrite rest_end.
Qed.

Lemma upto_dot k : upto (pos k) (last_dot s) = true -> (k <= length name)%nat -> exists x, dot_at x /\ (k <= x)%nat.
Proof.
  destruct (last_dot s) as [y|] eqn:E; [|done]. cbn [upto]. destruct (last_dot_inv y E) as (x & Hx & ->). intros Hle%Nat.leb_le Hk.
  exists x. split; [done|]. destruct Hx as [Ex _]. apply lookup_lt_Some in Ex. apply (proj1 (pos_le k x Hk ltac:(lia))) in Hle. done.
Qed.

Lemma core_less fuel p : Forall letter p -> core_decides fuel p -> core_decides (S fuel) (60 :: p).
Proof.
  intros Hp IH k d m Hk Hd Hm. cbn [ms_fnmatch_core]. destruct (next_utf8 60 p) as [-> ->]; [by apply letter_ascii|]. cbn [Z.eqb Pos.eqb].
  destruct (star_cell 60 p d m Hd ltac:(by right) Hm) as (Hl & Hd2 & e & -> & He1 & He2).
  assert (decides all (wild (60 :: p) (rest k)) (less_loop s (last_dot s) (fun i m => ms_fnmatch_core s (last_dot s) fuel (utf8s p) i (S d) m) (S (length s)) (utf8s p) d (pos k) (pos k) m)) as Hloop.
  { pose proof name_in_bytes. apply (less_loop_ok _ p Hp); [intros; by apply IH|done|done|lia|lia|intros; lia|done|done]. }
  assert (decides all (wild (60 :: p) (rest k)) (if set_upto (postdot e) (pos k) && upto (pos k) (last_dot s) then Ret (-1, m)
    else less_loop s (last_dot s) (fun i m => ms_fnmatch_core s (last_dot s) fuel (utf8s p) i (S d) m) (S (length s)) (utf8s p) d (pos k) (pos k) m)) as Hpost.
  { destruct (postdot e) as [y|] eqn:Ey; cbn [set_upto]; [|exact Hloop]. destruct (Nat.leb_spec y (pos k)) as [Hy|_]; [|exact Hloop].
    destruct (upto _ _) eqn:Eu; [|exact Hloop]. destruct (upto_dot k Eu Hk) as (x & Hx & Hkx). destruct (He2 y eq_refl) as (k0 & x0 & -> & Hx0 & Hk0 & Hno).
    rewrite (dot_unique x0 x Hx0 Hx) in *. apply (proj1 (pos_le k0 k ltac:(destruct Hx as [Hx _]; apply lookup_lt_Some in Hx; lia) Hk)) in Hy.
    apply decides_ret; [done|]. right. split; [done|]. rewrite wild_less_iff by done. intros (j & Hj & Hr & Hw). specialize (Hr x Hx Hkx). destruct (Hno j); [lia|done]. }
  destruct (predot e) as [x|] eqn:Ex; cbn [set_upto]; [|exact Hpost]. destruct (Nat.leb_spec x (pos k)) as [Hx|_]; [|exact Hpost].
  destruct (He1 x eq_refl) as (k0 & -> & Hk0 & Hno & Hdot). apply (proj1 (pos_le k0 k Hk0 Hk)) in Hx. apply at_end_ok; [done|done|].
  rewrite wild_less_iff by done. split.
  - intros (j & Hj & _ & Hw). destruct (decide (j = length name)) as [->|]; [by rewrite rest_end in Hw|]. destruct (Hno j); [lia|done].
  - intros Hw. exists (length name). split; [lia|]. split; [|by rewrite rest_end]. intros y Hy Hky. specialize (Hdot eq_refl y Hy). lia.
Qed.

Lemma decides_no (Q : Prop) m : Forall2 memo all m -> ~ Q -> decides all Q (Ret (-1, m)).
Proof. intros. apply decides_ret; [done|]. by right. Qed.

Lemma codepoint_equal c x : scalar c \/ c = 0 -> scalar x \/ x = 0 -> negb (c =? x) && negb (codepoint_cmpi c x =? 0) = negb (toupper_w c =? toupper_w x).
Proof.
  intros Hc Hx. unfold codepoint_cmpi. destruct (Z.eqb_spec c x) as [->|Hne]; [by rewrite (Z.eqb_refl (toupper_w x))|]. cbn [negb andb orb].
  destruct (toupper_w c =? toupper_w x); [done|]. rewrite (proj2 (Z.eqb_neq _ 0)); [done|]. unfold s32, scalar in *. dlia.
Qed.

Lemma head_of_rest k c n : rest k = c :: n -> name !! k = Some c.
Proof. intros E. rewrite <- (Nat.add_0_r k), <- lookup_drop, E. done. Qed.

(** The other characters take one of the name, or none. *)
Lemma core_char fuel c p : letter c -> Forall letter p -> c <> 42 -> c <> 60 -> core_decides fuel p -> core_decides (S fuel) (c :: p).
Proof.
  intros Hc Hp H42 H60 IH k d m Hk Hd Hm. cbn [ms_fnmatch_core]. destruct (next_utf8 c p Hc) as [-> ->]. rewrite (proj2 (Z.eqb_neq c 0)) by apply Hc.
  assert (stars p = drop d all) as Hd2 by (rewrite <- Hd; cbn [stars]; by rewrite !(proj2 (Z.eqb_neq _ _))).
  pose proof (at_position k Hk) as Hat.
  rewrite (proj2 (Z.eqb_neq c 42)), (proj2 (Z.eqb_neq c 60)) by done. destruct (Z.eqb_spec c 63) as [->|H63]; [|destruct (Z.eqb_spec c 62) as [->|H62]; [|destruct (Z.eqb_spec c 34) as [->|H34]]].
  - destruct Hat as [(-> & -> & -> & _)|(x & Hlt & -> & Hx & -> & _ & -> & _)]; cbn [Z.eqb obind].
    + apply decides_no; [done|]. inversion 1.
    + apply (decided_iff _ (wild p (rest (S k)))); [apply IH; [lia|done|done]|]. split; [by constructor|by inversion 1].
  - destruct Hat as [(-> & -> & -> & _)|(x & Hlt & Er & Hx & Hz & Hdot & Hnx & _)]; cbn [Z.eqb Pos.eqb].
    + apply at_end_ok; [done|done|]. split; [by inversion 1|by constructor].
    + destruct (Z.eqb_spec (char_at s (pos k)) 46) as [E46|E46].
      * apply Hdot in E46 as ->. rewrite Er. assert (wild (62 :: p) (46 :: rest (S k)) <-> wild p (46 :: rest (S k)) \/ (S k = length name /\ wild p [])) as Hiff.
        { split; [|intros [Hw|[-> Hw]]; [by constructor|rewrite rest_end; by constructor]]. inversion 1; subst; [tauto|by left|right|done].
          split; [|done]. apply (f_equal length) in Er. rewrite length_drop in Er. match goal with E : _ = drop (S k) name |- _ => rewrite <- E in Er end. cbn in Er. lia. }
        assert (S (pos k) = pos (S k)) as -> by (symmetry; rewrite (pos_S k 46); [apply Nat.add_1_r|by eapply head_of_rest]).
        destruct (at_position (S k) ltac:(lia)) as [(El & _ & -> & _)|(y & Hy & _ & _ & -> & _)]; cbn [Z.eqb andb].
        -- destruct (null_match_wild p Hp) as [[-> Hw]|[-> Hw]]; cbn [Z.eqb].
           ++ apply decides_ret; [done|]. left. split; [done|]. apply Hiff. by right.
           ++ apply (decided_iff _ (wild p (rest k))); [by apply IH|]. rewrite Er, Hiff. tauto.
        -- apply (decided_iff _ (wild p (rest k))); [by apply IH|]. rewrite Er, Hiff. split; [by left|]. intros [Hw|[E _]]; [done|lia].
      * rewrite Hz, Hnx. cbn [obind]. rewrite Er. apply (decided_iff _ (wild p (rest (S k)))); [apply IH; [lia|done|done]|].
        assert (x <> 46) by tauto. split; [by constructor|by inversion 1].
  - destruct Hat as [(-> & -> & -> & _)|(x & Hlt & Er & Hx & Hz & Hdot & Hnx & _)]; cbn [Z.eqb Pos.eqb negb].
    + destruct (null_match_wild p Hp) as [[-> Hw]|[-> Hw]]; cbn [Z.eqb Pos.eqb andb].
      * apply decides_ret; [done|]. left. split; [done|by constructor].
      * apply decides_no; [done|]. by inversion 1.
    + rewrite Hz. cbn [andb]. destruct (Z.eqb_spec (char_at s (pos k)) 46) as [E46|E46]; cbn [negb].
      * apply Hdot in E46 as ->. rewrite Hnx, Er. cbn [obind]. apply (decided_iff _ (wild p (rest (S k)))); [apply IH; [lia|done|done]|]. split; [by constructor|by inversion 1].
      * apply decides_no; [done|]. rewrite Er. intros Hw. inversion Hw; subst; tauto.
  - destruct Hat as [(-> & -> & _ & ->)|(x & Hlt & -> & Hx & _ & _ & -> & ->)].
    + rewrite codepoint_equal by (first [left; by destruct Hc|by right]). change (toupper_w 0) with 0. rewrite (proj2 (Z.eqb_neq (toupper_w c) 0)) by auto. cbn [negb]. apply decides_no; [done|]. by inversion 1.
    + rewrite codepoint_equal by (left; apply Hc || apply Hx). destruct (Z.eqb_spec (toupper_w c) (toupper_w x)) as [E|E]; cbn [negb obind].
      * apply (decided_iff _ (wild p (rest (S k)))); [apply IH; [lia|done|done]|]. split; [by constructor|by inversion 1].
      * apply decides_no; [done|]. by inversion 1.
Qed.

Lemma core_ok p : Forall letter p -> forall fuel, (length p < fuel)%nat -> core_decides fuel p.
Proof.
  induction 1 as [|c p Hc Hp IH]; intros [|fuel] Hf; cbn [length] in Hf; try lia; [intros k d m Hk _ Hm; by apply core_end|].
  specialize (IH fuel ltac:(lia)). destruct (decide (c = 42)) as [->|]; [by apply core_star|]. destruct (decide (c = 60)) as [->|]; [by apply core_less|]. by apply core_char.
Qed.
End pattern.

Lemma core_matches p fuel : Forall letter p -> (length p < fuel)%nat ->
  exists r m, ms_fnmatch_core s (last_dot s) fuel (utf8s p) 0 0 (replicate (length (stars p)) (MaxN None None)) = Ret (r, m) /\ verdict (wild p name) r.
Proof.
  intros Hp Hf. destruct (core_ok (stars p) p Hp fuel Hf 0%nat 0%nat (replicate (length (stars p)) (MaxN None None))) as (r & m & E & _ & Hv).
  - lia.
  - by rewrite drop_0.
  - apply Forall2_replicate_r; [done|]. apply Forall_forall. intros. apply memo_blank.
  - exists r, m. split; [exact E|]. by rewrite drop_0 in Hv.
Qed.
End core.

(** ** The pattern by its bytes *)

Lemma low_bytes c : letter c -> (c < 0x80 /\ utf8 c = [c]) \/ (0x80 <= c /\ Forall (fun b => ~ 0 <= b < 0x80) (utf8 c)).
Proof.
  intros Hc. destruct (decide (c < 0x80)); [left; split; [done|by apply utf8_low]|right]. split; [lia|]. destruct Hc as [Hs _]. unfold scalar in Hs.
  unfold utf8. repeat case_match; zify; repeat constructor; dlia.
Qed.

Lemma filter_utf8s (f : Z -> bool) p : (forall b, f b = true -> 0 <= b < 0x80) -> Forall letter p -> List.filter f (utf8s p) = List.filter f p.
Proof.
  intros Hf. induction 1 as [|c p Hc _ IH]; [done|]. rewrite utf8s_cons, List.filter_app, IH. cbn [List.filter].
  destruct (low_bytes c Hc) as [[_ ->]|[Hge Hb]]; [cbn [List.filter]; by destruct (f c)|].
  assert (f c = false) as -> by (destruct (f c) eqn:E; [apply Hf in E; lia|done]). clear Hc Hge.
  induction Hb as [|b l Hb _ IHl]; [done|]. cbn [List.filter]. destruct (f b) eqn:E; [by apply Hf in E|done].
Qed.

Lemma existsb_filter (f : Z -> bool) l : existsb f l = match List.filter f l with [] => false | _ => true end.
Proof. induction l as [|c l IH]; [done|]. cbn [existsb List.filter]. destruct (f c); [done|exact IH]. Qed.

Lemma utf8s_low n l : Forall letter n -> Forall (fun b => 0 <= b < 0x80) l -> utf8s n = l -> n = l.
Proof.
  intros Hn Hl. revert n Hn. induction Hl as [|b l Hb Hl IH]; intros n Hn; destruct Hn as [|c n Hc Hn]; try done; rewrite utf8s_cons.
  - by destruct (utf8_nonempty c) as (b & l & ->).
  - destruct (low_bytes c Hc) as [[_ ->]|[_ Hm]]; [intros [= -> E]; f_equal; by apply IH|]. destruct (utf8_nonempty c) as (d & l' & E). rewrite E in *.
    apply Forall_cons_1 in Hm as [Hm _]. by intros [= ->].
Qed.

Lemma has_wildcard_utf8s p : Forall letter p -> has_wildcard (utf8s p) = has_wildcard p.
Proof. intros Hp. unfold has_wildcard. rewrite !existsb_filter, filter_utf8s; [done| |done]. intros b. rewrite !orb_true_iff, !Z.eqb_eq. lia. Qed.

Lemma count_stars p : Forall letter p -> length (List.filter (fun c => (c =? 42) || (c =? 60)) (utf8s p)) = length (stars p).
Proof.
  intros Hp. rewrite filter_utf8s; [|intros b; rewrite orb_true_iff, !Z.eqb_eq; lia|done]. clear Hp. induction p as [|c p IH]; [done|]. cbn [List.filter stars]. by destruct (_ || _); cbn [length]; rewrite IH.
Qed.

Definition next_char (p : list Z) : Z := default 0 (p !! 0%nat).

Lemma next_char_utf8s p ch : Forall letter p -> 0 <= ch < 0x80 -> (next_char (utf8s p) =? ch) = (next_char p =? ch).
Proof.
  unfold next_char. intros Hp Hch. destruct Hp as [|c p Hc _]; [done|]. rewrite utf8s_cons. cbn [lookup list_lookup from_option id].
  destruct (low_bytes c Hc) as [[_ ->]|[Hge Hb]]; [done|]. destruct (utf8_nonempty c) as (b & l & E). rewrite E in *. apply Forall_cons_1 in Hb as [Hb _].
  cbn [app lookup list_lookup from_option id]. rewrite !(proj2 (Z.eqb_neq _ ch)) by lia. done.
Qed.

Lemma new_style_utf8s p : Forall letter p -> new_style (utf8s p) = utf8s (new_style p) /\ Forall letter (new_style p).
Proof.
  induction 1 as [|c p Hc Hp [IH IHl]]; [done|]. cbn [new_style]. change (default 0 (p !! 0%nat)) with (next_char p).
  assert (forall d, letter d -> Forall letter (d :: new_style p)) as Hl by (intros; by constructor).
  rewrite !utf8s_cons, <- IH. destruct (low_bytes c Hc) as [[Hlow ->]|[Hge Hb]].
  - cbn [app new_style]. change (default 0 (utf8s p !! 0%nat)) with (next_char (utf8s p)). rewrite !next_char_utf8s by (done || lia).
    assert (0 < c) by (destruct Hc; unfold scalar in *; lia).
    repeat case_match; (split; [|by apply Hl; first [done|apply letter_ascii; lia]]); try done. by rewrite utf8_low.
  - rewrite !(proj2 (Z.eqb_neq c _)) by lia. cbn [andb]. split; [|by apply Hl]. clear Hc Hge.
    induction Hb as [|b l Hb _ IHb]; [done|]. cbn [app new_style]. rewrite !(proj2 (Z.eqb_neq b _)) by lia. cbn [andb]. by rewrite IHb.
Qed.

Lemma new_style_wildcard p : has_wildcard p = true -> has_wildcard (new_style p) = true.
Proof.
  unfold has_wildcard. induction p as [|c p IH]; [done|]. cbn [existsb new_style]. generalize (default 0 (p !! 0%nat)). intros next.
  rewrite !orb_true_iff, !Z.eqb_eq. intros [Hc|Hp]; [left|right; by apply IH].
  destruct (Z.eqb_spec c 63), (Z.eqb_spec c 46), (Z.eqb_spec c 42); cbn [andb]; try lia. case_match; lia.
Qed.
Lemma length_new_style p : length (new_style p) = length p.
Proof. induction p as [|c p IH]; [done|]. cbn [new_style length]. by rewrite IH. Qed.
Lemma length_stars p : (length (stars p) <= length p)%nat.
Proof. induction p as [|c p IH]; [done|]. cbn [stars length]. destruct (_ || _); cbn [length]; lia. Qed.

(** Without wildcards a pattern matches the names that are equal but for their case. *)
Lemma wild_plain `{CaseTables} p n : has_wildcard p = false -> wild p n <-> map toupper_w p = map toupper_w n.
Proof.
  unfold has_wildcard. revert n. induction p as [|c p IH]; intros n; [intros _; destruct n; (split; [inversion 1; done|]); [constructor|done]|].
  cbn [existsb]. rewrite orb_false_iff. intros [Hc Hp]. rewrite !orb_false_iff, !Z.eqb_neq in Hc. split.
  - inversion 1; subst; try tauto. cbn [map]. f_equal; [done|]. by apply IH.
  - destruct n as [|d n]; [done|]. intros [= E1 E2]. apply wild_char; try tauto. by apply IH.
Qed.

(** ** The matcher *)

(** What the matcher is asked. *)
Definition style (protocol : Z) (p : list Z) : list Z := if has_wildcard p && (protocol <=? PROTOCOL_LANMAN2) then new_style p else p.
Definition named (n : list Z) : list Z := if decide (n = [46; 46]) then [46] else n.

Section matcher.
Context `{Charsets} `{CaseTables} (unix8 : unix_is_utf8) (upper : forall c, letter c -> toupper_w c <> 0).

Lemma nt1_ok (A : Allocator) p n : Forall letter p -> Forall letter n -> has_wildcard p = true ->
  exists r, ms_fnmatch_nt1 A (utf8s p) (utf8s n) = Ret r /\ (r = 0 \/ r = -1) /\ (r = 0 -> wild p n) /\
    (malloc_always A -> Z.of_nat (length p) < 2 ^ 24 -> wild p n -> r = 0).
Proof.
  intros Hp Hn Hw. unfold ms_fnmatch_nt1. rewrite has_wildcard_utf8s, Hw, count_stars by done. cbn [negb]. destruct (_ || _) eqn:E.
  - exists (-1). split; [done|]. split; [by right|]. split; [done|]. intros HA Hl _. rewrite (HA 0%nat), orb_false_r in E. apply Z.leb_le in E.
    pose proof (length_stars p). change (MAX_TALLOC_SIZE / 16) with (2 ^ 24) in E. lia.
  - destruct (core_matches unix8 upper n Hn p (S (length (utf8s p))) Hp) as (r & m & -> & Hv); [pose proof (name_in_bytes p Hp); lia|].
    exists r. split; [done|]. destruct Hv as [[-> Hm]|[-> Hm]]; (split; [auto|]); split; done.
Qed.
End matcher.


(** The empty table of cases, and a pattern and a name with stars, a sign for less and letters
    of either case. *)
Lemma no_tables_letter c : letter c -> @toupper_w no_tables c <> 0.
Proof. intros [Hs Hz]. unfold toupper_w. cbn [upcase_table no_tables]. unfold toupper, islower, scalar in *. repeat case_match; lia. Qed.


(** A star in two bytes where one would do is a star to the matcher, but is not counted for the
    array. *)
Example overlong_star : @ms_fnmatch utf8_charsets no_tables calloc [63; 0xC0; 0xAA] [97; 98] PROTOCOL_NT1 = Fault.
Proof. vm_compute. reflexivity. Qed.
